(* ===== verification/_CoqProject ===== *)
-Q . S2P
Prelude.v
Errors.v
Wire.v
Crc.v
Fields.v
Encoder.v
Decoder.v
Codec.v
CodecEnc.v
CodecDec.v
EncoderDecoder.v
StdMap.v
Decimal.v
GroupMessages.v
TxnMessages.v
SetVersion.v
MessageKit.v
AdminMessages.v
ConfigMessages.v
AclMessages.v
ClusterMessages.v
DescribeMessages.v
MetadataMessages.v
UnorderedMap.v
OffsetMessages.v
Requests.v
Records.v
Batches.v
TopicMessages.v
FetchMessages.v
MessageExchange.v
BatchRead.v
CodecLimits.v
MessageSafety.v
Version.v
TxnManager.v
TxnSafety.v
TxnProtocol.v
ProduceSet.v
ProduceSetSafety.v
Hashes.v
Partitioner.v
Balance.v
BalanceRR.v
Sticky.v
StickyMoves.v
StickySafety.v
StickyPlan.v
StickyEqual.v
CoQueue.v
CoEvent.v
CoAsync.v
CoMutex.v
CoChannel.v
CoWaitgroup.v
CoTask.v
ZooArchive.v
ZooProto.v
ZooExchange.v
ZooClient.v
ZooClientSafety.v
ClientCache.v
ClientSafety.v
ClientProtocol.v
BrokerExchange.v
BrokerPipeline.v
