(* ===== verification/Prelude.v ===== *)
(** * coev: a verification of the Kafka codec, the ZooKeeper client and the coroutines' core

    coev is a C++20 coroutine library ([src/src/coev]) with protocol clients on top
    of it, of which the Kafka client ([src/src/coev_kafka]) is by far the largest.
    This development models seven parts of it: how a Kafka message becomes bytes and
    bytes become a message; how requests and responses share a connection to a broker; what
    the Kafka client knows of its cluster and how it finds
    that out; how it decides which partition a message goes to and
    which consumer a partition is read by; how a producer collects messages and runs its
    transactions; the ZooKeeper client ([src/src/coev_zookeeper]) with its structures; and
    how coroutines wait for and wake each other.

    ** The program and its parts

    A Kafka body ([protocol_body]: heartbeats, joins, commits, ...) has an [encode]
    and a [decode] member.  [encode] runs twice over a [packet_encoder]: a sizing
    pass adds up lengths, then a writing pass fills a buffer of that size.  [decode]
    reads from a [packet_decoder], a position in a view.  Either object has a
    "flexible" depth that selects the compact forms of newer versions, and a stack
    of deferred fields (length, varint length, CRC) whose bytes are reserved when
    they are pushed and filled in or checked when they are popped.  A request frame
    puts a header before the body; records and record batches nest inside messages.

    A [Broker] owns a connection.  A request gets the next correlation id and is written under
    a write lock; its response is read under a read lock, first the header, then as many bytes
    as the header announces, and an id that differs is an error.  So the order of the
    coroutines at the two locks decides who gets which answer.

    A [Client] keeps tables of brokers, topics, partitions and coordinators.  A lookup that
    finds nothing in them, or a method that is told to, asks a broker for metadata or for a
    coordinator, trying again while the retries, the deadline and the brokers last, and enters
    the answer.

    A partitioner chooses the partition of a message, by a hash of its key, at random or in
    turn.  The leader of a consumer group runs a balance strategy ([Plan]) over the members'
    subscriptions and the partitions of the topics; the result is what SyncGroup sends.

    A producer collects messages in a [ProduceSet], a queue for every partition, until one of
    the limits is reached, and builds a request from it.  A [TransactionManager] numbers the
    messages, keeps the state of the transaction and the partitions and offsets that take
    part in it, and talks to the transaction coordinator, retrying.

    The ZooKeeper client writes its structures to an [oarchive], a growing string, and reads
    them from an [iarchive], a view.  An operation sends a request behind its length and
    suspends; a reader coroutine ([process]) receives messages and resumes an operation for
    each reply.

    A coroutine suspends on a [co_event].  Waiter lists ([co_async]) are intrusive
    queues of events, and mutexes, channels, wait groups and task groups are small
    states with such a list, in a plain version for one thread and, in namespace
    [guard], one whose list and state share a lock.

    ** Files

    - [Prelude]: the outcome monad (a value and a state, or a fault), the notations
      that read like the code's early returns, machine integers as [Z].
    - [Errors]: the codes of [errors.h].
    - [Wire]: big-endian integers, zigzag and base-128 varints ([packet_encoder.cpp],
      [packet_decoder.cpp], [variant_length_field.cpp]) and what their size functions
      count.
    - [Crc]: [utils/hash/crc32.cpp] and the loop of [crc32_field.cpp].
    - [Fields]: the deferred fields ([length_field.cpp], [variant_length_field.cpp],
      [crc32_field.cpp]).
    - [Encoder], [Decoder]: every member of [packet_encoder.cpp] and
      [packet_decoder.cpp].
    - [Codec]: the judgements [emits] and [consumes], closed under sequencing, and
      the wire format as functions.  [CodecEnc], [CodecDec]: one lemma per member.
    - [EncoderDecoder]: the drivers of [encoder_decoder.cpp], [protocol_body.h] as a
      type class, and [WireFormat], the contract a body discharges once and from
      which the theorems about the drivers and about request frames follow.
    - [StdMap]: [std::map] as a list sorted by a strict order of keys (a type class, with
      integers, byte strings and pairs as instances).
    - [Decimal]: decimal numerals, as [std::to_string] writes them.
    - [GroupMessages], [TxnMessages]: the bodies of the consumer-group and the
      transaction API, each with its contract.
    - [Requests]: request frames and response headers.
    - [Records], [Batches]: records, timestamps, control records, record batches.
      [BatchRead]: reading a record batch.
    - [CodecLimits]: the decoder on arbitrary input, and the values the codec does
      not carry.  [MessageSafety]: the same for whole bodies.
    - [Version]: broker versions ([version.cpp]).
    - [SetVersion]: the member [set_version] of the bodies and its laws.  [MessageKit],
      [UnorderedMap]: maps, vectors and arrays inside a body, in both directions; unordered maps
      over a type class [Iteration].
    - The other bodies, each with its contract: [AdminMessages] (SASL, groups, topics),
      [ConfigMessages] (configurations, CreateTopics request, ApiVersions), [AclMessages],
      [ClusterMessages] (reassignments, quotas, credentials, log directories, JoinGroup
      response), [DescribeMessages], [MetadataMessages], [OffsetMessages], [TopicMessages]
      (CreateTopics response, leaders, listings, records to delete), [FetchMessages] (Fetch
      request, Produce response).  A body is modelled by a record, [X_encode], [X_decode],
      [X_set_version] and the instance [X_body] of its constant members; [X_wire], [X_ok] and
      [X_initial] are its wire form, what can be carried and a fresh object.
      [MessageExchange]: the theorem about all of them.
    - [BrokerExchange]:
      [SendAndReceive] of [broker.h] with [broker.cpp] and [connect.cpp], over a type class
      [Transport] for the socket.  [BrokerPipeline]: several coroutines on one connection.
    - [ClientCache]: [client.cpp] with [metadata_refresher.cpp], over a type class [Brokers] for
      the connections and the clocks.  [ClientSafety]: a judgement on its methods and what an
      update does.  [ClientProtocol]: its invariant, its queries and its loops.
    - [TxnManager]: [transaction_manager.cpp], and the parts of [async_producer.cpp] that
      drive it, over a type class [Client] for the network.  [TxnSafety]: its states as a step
      relation.  [TxnProtocol]: what its methods achieve, method by method.
    - [ProduceSet]: [produce_set.cpp].  [ProduceSetSafety]: its refinement to queues.
    - [Hashes]: the FNV hashes of [utils/hash/fnv.cpp] and the digest of [crc32.cpp] as
      instances of one interface, [Hasher], with its laws.
    - [Partitioner]: [partitioner.cpp] over that interface.
    - [Balance], [BalanceRR]: the range and round-robin strategies of
      [balance_strategy.cpp], and the theorems about round robin.
    - [Sticky]: its sticky strategy.  [StickyMoves] (one move of a partition),
      [StickySafety] (passes and [balance]) and [StickyPlan] ([Plan]) build up the
      invariant; [StickyEqual] is the case of equal subscriptions.
    - [CoQueue]: the intrusive queue over a heap of nodes, refined to a list.
    - [CoEvent]: the race between [co_await event] and [resume].
    - [CoAsync]: waiter lists.  [CoMutex], [CoChannel], [CoWaitgroup], [CoTask]: the
      primitives built on them.

    - [ZooArchive]: the archives of [proto.cpp], with the judgements [puts] and [reads], one
      for each direction.  [ZooProto]: its 77 structures, each a record with writer, reader,
      wire form and what a reader receives, collected in the list [structures].
      [ZooExchange]: the theorems about all of them.
    - [ZooClient]: [ZooCli.cpp], [ZooOp.cpp] and [ZooDef.cpp] over a type class [Connection]
      for the network.  [ZooClientSafety]: paths, requests, operations, the reader.

    A definition is named after the member it models, with the class as a prefix
    where the bare name would clash; the comment above it gives its source file.

    ** What the theorems show

    - Round trips: 76 bodies, in every version, are written to their wire form, whatever the
      order of their unordered maps, and read back unchanged with nothing left over, and bytes
      that follow are refused, for the values [wire_ok] allows in that version; which bodies the
      code writes and cannot read is shown; a
      request frame has the length and the fields its header version asks for;
      records, control records and timestamps round trip; a record batch whose deltas and
      lengths the passes measure alike ([batch_ok], [record_ok]) has the
      prescribed layout, with lengths and CRC over the right bytes, and what reading it gives
      is stated exactly, up to and including the first record that is refused.  The sizing pass and the writing pass agree, which is part of
      [emits].
    - ZooKeeper: every structure is written to its wire form and what a reader makes of that
      is stated exactly, with what is lost; no reader leaves its view; which paths are
      accepted; the bytes of a multi request; how each other operation ends; that the reader
      coroutine delivers in order, if messages come in whole.
    - Safety: no input makes the decoder's members or the listed bodies read outside
      the view, throw or loop; the exceptions are named and shown to fail, among them a
      negative varint length, on which leaving the field never ends.
    - Limits, exactly: which varints, array lengths, string arrays, records and
      messages the code loses, refuses or mis-sizes.
    - Assignment: range, round-robin and sticky plans give every partition to exactly one
      subscriber, within the stated balance and under the stated hypotheses; where round
      robin loses a partition and where the sticky passes never end is shown by a run.
      A partitioner stays in range, is consistent for a key, and is fair in turn.
    - Transactions: for any calls and any answers of the network the manager keeps to its
      transition table and a fatal error is final; sequence numbers are consecutive; no
      partition is lost while it is registered, and a granting coordinator registers all.
      That a finished transaction never ends and that no producer obtains an id is shown
      for every configuration.
    - Broker: exchanges over a connection that keeps bytes in order each deliver what the
      broker wrote, for any bodies with a wire format; a response out of step is an error and
      leaves the stream as it is; coroutines that share the connection get their own answers
      if no write blocks, until the counter of correlation ids overflows, and two of them swap
      answers if one does.
    - Client: an invariant over any calls and any answers, what a metadata response changes,
      that queries answer from the tables, that a refresh returns in time; that some loops
      never end, that an outage closes a client without registered brokers for good and what
      closing it leaves.
    - Produce sets: a refinement to queues with exact counters and requests, which messages
      are refused, and the two ways in which an operation fails.
    - Versions: [IsAtLeast] is an order, printing and parsing agree.
    - Equivalence: the CRC tables compute the bit-by-bit division.
    - Refinement: the pointer queue is a list.
    - Concurrency: for all interleavings of the modelled steps, [co_event] wakes its
      coroutine exactly once with the right value; mutexes exclude and are fair;
      guarded channels are FIFO without loss; wait groups lose no wake-up; task ids
      are unique.  Where a primitive breaks its promise the theorem is the run that
      shows it.

    ** Conventions, bounds and fuel

    - A [w]-bit integer is the [Z] it denotes, [to_u w] and [to_s w] the conversions.
      Signed overflow of an [int] is a fault where the code can reach it.
    - A byte is a [Z]; the raw view and every buffer are [list Z].
    - A fault is a failed [assert], undefined behaviour, a read outside a view, an uncaught
      exception or an endless loop.  The state at a fault is not kept.
    - [LIMIT] = 2^31: a buffer's length fits an [int]; the drivers refuse more than
      [MaxRequestSize], 100 MB, so the bound is not a restriction on what is sent.
    - Loops over a varint's groups have fuel 10, as ten groups cover 64 bits; the
      search of [CoTask] for a free id has fuel one more than the number of taken
      ids ([increase_fresh]); loops over tagged fields have the length of the view
      ([getEmptyTaggedFieldArray_total]).
    - The passes of the sticky strategy have fuel.  No number of passes is enough in general
      ([sticky_plan_never_returns]), so the plan is shown exact for every number of passes
      after which it returns, and to return after one for equal subscriptions.
    - The balance score, a [double] in the code, is an integer: exact below 2^53 partitions.
      Where [std::sort] leaves the order of equal keys open, the model's stable order stands
      for it; keys are distinct except between partitions whose compared strings coincide.
    - Two hash partitioners that share a fallback partitioner each have their own.
    - [Retry] of the transaction manager has the number of attempts the configuration gives.
      Its methods run without another coroutine changing the manager in between; the network
      is the [Client] interface, whose answers are arbitrary functions of its own state
      where a theorem does not say otherwise.
    - A single exchange runs with both locks free.  Its reading and writing loops have fuel one
      more than the number of bytes asked for, which is enough as a turn moves at least one.
      The response's time limit is not modelled.  In [BrokerPipeline] frames are written and
      read whole.
    - The methods of [Client] likewise run one at a time; what a broker answers is determined by
      its state and the arguments of the request.  Times are nanoseconds, durations
      milliseconds.  Each of its loops has fuel, one unit for a turn: [refresh_returns]
      says how much is enough, [client_loops_endless] when none is.
    - The size of one message of a produce set stays below 2^31; that its byte counters, of
      type [int], overflow is a fault.
    - The host is little-endian; a view that is read is shorter than 2^31.  The receiving loop
      of the ZooKeeper client has fuel, as a connection may give nothing for ever; a turn for
      each piece that is there is enough.  What its operations do while they are suspended is
      part of the [Connection] interface.
    - Allocation succeeds; a [resize] or [reserve] to a negative [int] throws.
    - A fresh body has the members its constructors set, and zero, empty or null for the others.
      Pointers that are values of a map or a vector are not null.  An [std::map] is its list
      of pairs in key order; an [std::unordered_map] a finite map with any order of iteration
      that depends on the map alone.  A [double] is its bits.
    - A flexible body can carry only empty arrays where the code calls [putStringArray], whose
      sizing pass is wrong there ([putStringArray_flexible_missized]).
    - An out parameter, or the object a failed [decode] was called on, is not looked
      at after an error, except in record batches: [RecordBatch::decode] reports no error of
      the records, so their [decode] returns the object as it is left next to the code.

    ** What is not modelled

    Sockets, timers, the event loop's system calls and TLS; the compression
    libraries, a parameter of [Batches] (what the output holds after the call);
    the legacy message sets; the order in which an
    [std::unordered_map] is iterated, a parameter; weak memory (the
    atomics of [co_event] and [co_waitgroup] are taken as sequentially consistent);
    the remaining bodies (Fetch response and Produce request, which hold message sets, the SCRAM
    request, which hashes a password, the ConsumerMetadata response, the TxnOffsetCommit
    request and the members' metadata) and the client logic above them (opening a
    connection, SASL, administration, producers, consumer groups), with the construction of a [Client] and its
    background updater; the pings and the table of watchers of the ZooKeeper client;
    the HTTP, MySQL, Redis and DNS clients. *)
From Stdlib Require Import ZArith Lia Bool.
From stdpp Require Import base tactics list numbers.

Open Scope Z_scope.

(** ** Effects

    A C++ member function of an encoder, a decoder or a scheduler object is a
    function of the object's state that returns its value and the new state, or
    stops the process: a failed [assert], undefined behaviour (an access out of
    range, signed overflow, a null pointer), an exception the function does not
    catch, or a loop that never leaves.  [FBounds] sets the reads behind the end of an
    archive's view ([ZooArchive]) apart from the other undefined behaviour. *)

Inductive fault := FAssert | FUB | FThrow | FDiverge | FBounds.

Inductive outcome (S A : Type) :=
| Done (a : A) (s : S)
| Fault (f : fault).
Arguments Done {S A} a s.
Arguments Fault {S A} f.

Definition M (S A : Type) : Type := S -> outcome S A.

Definition ret {S A} (a : A) : M S A := fun s => Done a s.
Definition bind {S A B} (m : M S A) (k : A -> M S B) : M S B :=
  fun s => match m s with Done a s' => k a s' | Fault f => Fault f end.
Definition fail {S A} (f : fault) : M S A := fun _ => Fault f.
Definition gets {S A} (f : S -> A) : M S A := fun s => Done (f s) s.
Definition modify {S} (f : S -> S) : M S unit := fun s => Done tt (f s).

(** The value an [int]-returning decoder hands to its caller: the non-zero
    error code, or 0 together with what was written to the out parameter. *)
Inductive dres (A : Type) := Err (code : Z) | Ok (a : A).
Arguments Err {A} code.
Arguments Ok {A} a.

Declare Scope coev_scope.
Delimit Scope coev_scope with coev.

Notation "'let*' x := m 'in' k" := (bind m (fun x => k))
  (at level 10, x name, m at level 100, k at level 200) : coev_scope.
Notation "m ;;; k" := (bind m (fun _ => k))
  (at level 101, k at level 200, right associativity) : coev_scope.
(** [int err = m; if (err != 0) return err; k] *)
Notation "'try' m ;;; k" := (bind m (fun err => if err =? 0 then k else ret err))
  (at level 101, m at level 100, k at level 200, right associativity) : coev_scope.
(** [int err = m(x); if (err != 0) return err; k] in a decoder *)
Notation "'let!' x := m 'in' k" :=
  (bind m (fun r => match r with Err e => ret (Err e) | Ok x => k end))
  (at level 10, x name, m at level 100, k at level 200) : coev_scope.
(** [if (m(x) != 0) return c; k] in a decoder *)
Notation "'let!' x := m '/!' c 'in' k" :=
  (bind m (fun r => match r with Err _ => ret (Err c) | Ok x => k end))
  (at level 10, x name, m at level 100, c at level 100, k at level 200) : coev_scope.

Open Scope coev_scope.

(** [if (c) { int err = m; if (err != 0) return err; }] before the rest *)
Definition when {S} (c : bool) (m : M S Z) : M S Z := if c then m else ret 0.
(** [if (c) m;] for a [void] member *)
Definition whenU {S} (c : bool) (m : M S unit) : M S unit := if c then m else ret tt.
(** [if (c) { read(field) }]: a field that is read only in some versions, and
    keeps the value [old] it has in the others *)
Definition readIf {S A} (c : bool) (m : M S (dres A)) (old : A) : M S (dres A) :=
  if c then m else ret (Ok old).

(** [for (auto &x : l) { int err = f(x); if (err != 0) return err; }] *)
Fixpoint for_try {S X} (l : list X) (f : X -> M S Z) : M S Z :=
  match l with
  | [] => ret 0
  | x :: l' => try f x ;;; for_try l' f
  end.
(** [for (auto &x : l) f(x);] *)
Fixpoint for_do {S X} (l : list X) (f : X -> M S unit) : M S unit :=
  match l with
  | [] => ret tt
  | x :: l' => f x ;;; for_do l' f
  end.
(** [for (i = 0; i < n; ++i) { read(v[i]) }], stopping at the first error *)
Fixpoint read_n {S X} (n : nat) (g : M S (dres X)) : M S (dres (list X)) :=
  match n with
  | O => ret (Ok [])
  | S n' => let! x := g in let! l := read_n n' g in ret (Ok (x :: l))
  end.

(** ** Machine integers

    A w-bit value is the [Z] it denotes; a conversion to a w-bit type wraps. *)

Definition to_u (w x : Z) : Z := x mod 2 ^ w.
Definition to_s (w x : Z) : Z := (x + 2 ^ (w - 1)) mod 2 ^ w - 2 ^ (w - 1).
Abbreviation to_u8 := (to_u 8).
Abbreviation to_u16 := (to_u 16).
Abbreviation to_u32 := (to_u 32).
Abbreviation to_u64 := (to_u 64).
Abbreviation to_i8 := (to_s 8).
Abbreviation to_i16 := (to_s 16).
Abbreviation to_i32 := (to_s 32).
Abbreviation to_i64 := (to_s 64).

Definition in_u (w x : Z) : Prop := 0 <= x < 2 ^ w.
Definition in_s (w x : Z) : Prop := - 2 ^ (w - 1) <= x < 2 ^ (w - 1).
Abbreviation is_byte := (in_u 8).

#[export] Instance in_u_dec w x : Decision (in_u w x).
Proof. unfold in_u. apply _. Defined.
#[export] Instance in_s_dec w x : Decision (in_s w x).
Proof. unfold in_s. apply _. Defined.

(** The result of an [int] operation: outside the range it is undefined. *)
Definition i32_arith {S} (z : Z) : M S Z :=
  if bool_decide (in_s 32 z) then ret z else fail FUB.

Definition INT32_MAX : Z := 2147483647.
Definition INT16_MAX : Z := 32767.

Lemma to_u_id w x : in_u w x -> to_u w x = x.
Proof. unfold to_u, in_u. intros. by apply Z.mod_small. Qed.

Lemma to_u_range w x : 0 <= w -> in_u w (to_u w x).
Proof. intros. unfold to_u, in_u. apply Z.mod_pos_bound. lia. Qed.

Lemma pow2_half w : 0 < w -> 2 ^ w = 2 * 2 ^ (w - 1).
Proof. intros. rewrite <- Z.pow_succ_r by lia. f_equal. lia. Qed.

Lemma to_s_id w x : 0 < w -> in_s w x -> to_s w x = x.
Proof.
  unfold to_s, in_s. intros Hw H. pose proof (pow2_half w Hw).
  rewrite Z.mod_small by lia. lia.
Qed.

Lemma to_s_range w x : 0 < w -> in_s w (to_s w x).
Proof.
  unfold to_s, in_s. intros Hw. pose proof (pow2_half w Hw).
  assert (0 < 2 ^ w) by (apply Z.pow_pos_nonneg; lia).
  pose proof (Z.mod_pos_bound (x + 2 ^ (w - 1)) (2 ^ w)). lia.
Qed.

(** Converting to unsigned and back is the identity on the signed range. *)
Lemma to_s_mod w x : 0 < w -> to_s w (x mod 2 ^ w) = to_s w x.
Proof.
  unfold to_s. intros. f_equal. by rewrite Zplus_mod_idemp_l.
Qed.

Lemma to_s_to_u w x : 0 < w -> in_s w x -> to_s w (to_u w x) = x.
Proof. intros. unfold to_u. rewrite to_s_mod by done. by apply to_s_id. Qed.

(** ** Lists and bytes *)

Definition Zlen {A} (l : list A) : Z := Z.of_nat (length l).

Lemma Zlen_nonneg {A} (l : list A) : 0 <= Zlen l.
Proof. unfold Zlen. lia. Qed.
Lemma Zlen_app {A} (l k : list A) : Zlen (l ++ k) = Zlen l + Zlen k.
Proof. unfold Zlen. rewrite length_app. lia. Qed.
Lemma Zlen_cons {A} (x : A) l : Zlen (x :: l) = 1 + Zlen l.
Proof. unfold Zlen. simpl. lia. Qed.
Lemma Zlen_nil {A} : Zlen (@nil A) = 0.
Proof. done. Qed.
