(* ===== verification/Errors.v ===== *)
(** * Error codes

    The codes of [coev_kafka/errors.h] the modelled code returns.  Functions
    return them as [int]; 0 is success. *)
From Stdlib Require Import ZArith.
Open Scope Z_scope.

(* coev_kafka/errors.h:18-18 ErrNoError *)
Definition ErrNoError : Z := 0.

(* coev_kafka/errors.h:19-19 ErrOffsetOutOfRange *)
Definition ErrOffsetOutOfRange : Z := 1.

(* coev_kafka/errors.h:21-21 ErrUnknownTopicOrPartition *)
Definition ErrUnknownTopicOrPartition : Z := 3.

(* coev_kafka/errors.h:23-23 ErrLeaderNotAvailable *)
Definition ErrLeaderNotAvailable : Z := 5.

(* coev_kafka/errors.h:25-25 ErrRequestTimedOut *)
Definition ErrRequestTimedOut : Z := 7.

(* coev_kafka/errors.h:26-26 ErrBrokerNotAvailable *)
Definition ErrBrokerNotAvailable : Z := 8.

(* coev_kafka/errors.h:32-32 ErrOffsetsLoadInProgress *)
Definition ErrOffsetsLoadInProgress : Z := 14.

(* coev_kafka/errors.h:33-33 ErrConsumerCoordinatorNotAvailable *)
Definition ErrConsumerCoordinatorNotAvailable : Z := 15.

(* coev_kafka/errors.h:34-34 ErrNotCoordinatorForConsumer *)
Definition ErrNotCoordinatorForConsumer : Z := 16.

(* coev_kafka/errors.h:35-35 ErrInvalidTopic *)
Definition ErrInvalidTopic : Z := 17.

(* coev_kafka/errors.h:40-40 ErrIllegalGeneration *)
Definition ErrIllegalGeneration : Z := 22.

(* coev_kafka/errors.h:43-43 ErrUnknownMemberId *)
Definition ErrUnknownMemberId : Z := 25.

(* coev_kafka/errors.h:47-47 ErrTopicAuthorizationFailed *)
Definition ErrTopicAuthorizationFailed : Z := 29.

(* coev_kafka/errors.h:48-48 ErrGroupAuthorizationFailed *)
Definition ErrGroupAuthorizationFailed : Z := 30.

(* coev_kafka/errors.h:49-49 ErrClusterAuthorizationFailed *)
Definition ErrClusterAuthorizationFailed : Z := 31.

(* coev_kafka/errors.h:53-53 ErrUnsupportedVersion *)
Definition ErrUnsupportedVersion : Z := 35.

(* coev_kafka/errors.h:55-55 ErrInvalidPartitions *)
Definition ErrInvalidPartitions : Z := 37.

(* coev_kafka/errors.h:67-67 ErrInvalidProducerIDMapping *)
Definition ErrInvalidProducerIDMapping : Z := 49.

(* coev_kafka/errors.h:69-69 ErrConcurrentTransactions *)
Definition ErrConcurrentTransactions : Z := 51.

(* coev_kafka/errors.h:71-71 ErrTransactionalIDAuthorizationFailed *)
Definition ErrTransactionalIDAuthorizationFailed : Z := 53.

(* coev_kafka/errors.h:73-73 ErrOperationNotAttempted *)
Definition ErrOperationNotAttempted : Z := 55.

(* coev_kafka/errors.h:76-76 ErrSASLAuthenticationFailed *)
Definition ErrSASLAuthenticationFailed : Z := 58.

(* coev_kafka/errors.h:77-77 ErrUnknownProducerID *)
Definition ErrUnknownProducerID : Z := 59.

(* coev_kafka/errors.h:100-100 ErrFencedInstancedId *)
Definition ErrFencedInstancedId : Z := 82.

(* coev_kafka/errors.h:108-108 ErrProducerFenced *)
Definition ErrProducerFenced : Z := 90.

(* coev_kafka/errors.h:109-109 ErrLittleEnd *)
Definition ErrLittleEnd : Z := 91.

(* coev_kafka/errors.h:111-111 ErrIOEOF *)
Definition ErrIOEOF : Z := 1000.

(* coev_kafka/errors.h:113-113 ErrOutOfBrokers *)
Definition ErrOutOfBrokers : Z := 1002.

(* coev_kafka/errors.h:114-114 ErrBrokerNotFound *)
Definition ErrBrokerNotFound : Z := 1003.

(* coev_kafka/errors.h:116-116 ErrClosedClient *)
Definition ErrClosedClient : Z := 1005.

(* coev_kafka/errors.h:120-120 ErrNotConnected *)
Definition ErrNotConnected : Z := 1009.

(* coev_kafka/errors.h:121-121 ErrInsufficientData *)
Definition ErrInsufficientData : Z := 1010.

(* coev_kafka/errors.h:124-124 ErrConsumerOffsetNotAdvanced *)
Definition ErrConsumerOffsetNotAdvanced : Z := 1013.

(* coev_kafka/errors.h:126-126 ErrControllerNotAvailable *)
Definition ErrControllerNotAvailable : Z := 1015.

(* coev_kafka/errors.h:127-127 ErrNoTopicsToUpdateMetadata *)
Definition ErrNoTopicsToUpdateMetadata : Z := 1016.

(* coev_kafka/errors.h:133-133 ErrTxnOffsetCommit *)
Definition ErrTxnOffsetCommit : Z := 1022.

(* coev_kafka/errors.h:134-134 ErrTransactionNotReady *)
Definition ErrTransactionNotReady : Z := 1023.

(* coev_kafka/errors.h:136-136 ErrTransitionNotAllowed *)
Definition ErrTransitionNotAllowed : Z := 1025.

(* coev_kafka/errors.h:137-137 ErrCannotTransitionNilError *)
Definition ErrCannotTransitionNilError : Z := 1026.

(* coev_kafka/errors.h:138-138 ErrTxnUnableToParseResponse *)
Definition ErrTxnUnableToParseResponse : Z := 1027.

(* coev_kafka/errors.h:142-142 ErrUnsupportedRecordBatchVersion *)
Definition ErrUnsupportedRecordBatchVersion : Z := 1031.

(* coev_kafka/errors.h:143-143 ErrVariantOverflow *)
Definition ErrVariantOverflow : Z := 1032.

(* coev_kafka/errors.h:144-144 ErrTaggedFieldsInNonFlexibleContext *)
Definition ErrTaggedFieldsInNonFlexibleContext : Z := 1033.

(* coev_kafka/errors.h:145-145 ErrInvalidStringLength *)
Definition ErrInvalidStringLength : Z := 1034.

(* coev_kafka/errors.h:146-146 ErrUVariantOverflow *)
Definition ErrUVariantOverflow : Z := 1035.

(* coev_kafka/errors.h:147-147 ErrInvalidArrayLength *)
Definition ErrInvalidArrayLength : Z := 1036.

(* coev_kafka/errors.h:148-148 ErrInvalidBool *)
Definition ErrInvalidBool : Z := 1037.

(* coev_kafka/errors.h:149-149 ErrValidByteSliceLength *)
Definition ErrValidByteSliceLength : Z := 1038.

(* coev_kafka/errors.h:152-152 ErrPacketDecodingError *)
Definition ErrPacketDecodingError : Z := 1041.

(* coev_kafka/errors.h:154-154 ErrEncodeError *)
Definition ErrEncodeError : Z := 1043.

(* coev_kafka/errors.h:155-155 ErrDecodeError *)
Definition ErrDecodeError : Z := 1044.

(* coev_kafka/errors.h:169-169 ErrCRCMismatch *)
Definition ErrCRCMismatch : Z := 1058.

(* coev_kafka/errors.h:170-170 ErrUnknownRecordsType *)
Definition ErrUnknownRecordsType : Z := 1059.

(* coev_kafka/errors.h:174-174 ErrCorrelationID *)
Definition ErrCorrelationID : Z := 1063.
