(* ===== verification/Wire.v ===== *)
(** * Bytes on the wire

    The byte-level routines under [packet_encoder.cpp]: big-endian integers,
    the zigzag map, base-128 varints and the length predictions of the sizing
    pass; and the facts about them the codec's theorems rest on. *)
From Stdlib Require Import ZArith Lia Bool.
From stdpp Require Import base tactics list numbers.
From S2P Require Import Prelude.

(** [be n x]: the [n] low bytes of [x], most significant first. *)
Fixpoint be (n : nat) (x : Z) : list Z :=
  match n with
  | O => []
  | S n' => Z.land (Z.shiftr x (8 * Z.of_nat n')) 255 :: be n' x
  end.

(** The unsigned number a big-endian byte string denotes. *)
Definition be_val (bs : list Z) : Z := fold_left (fun acc b => acc * 256 + b) bs 0.

(* coev_kafka/packet_encoder.cpp zigzagEncode *)
Definition zigzagEncode (x : Z) : Z :=
  Z.lxor (to_u64 (Z.shiftl (to_u64 x) 1)) (to_u64 (- (if x <? 0 then 1 else 0))).

(* coev_kafka/packet_decoder.cpp zigzagDecode *)
Definition zigzagDecode (x : Z) : Z :=
  to_i64 (Z.lxor (Z.shiftr x 1) (to_u64 (- Z.land x 1))).

(** The loop of [encodeUVariant]; each turn shifts 7 bits out of a 64-bit
    value, so ten turns are enough ([encodeUVariant_fuel]). *)
Fixpoint encodeUVariant_loop (fuel : nat) (x : Z) : list Z :=
  match fuel with
  | O => []
  | S fuel' =>
      if 128 <=? x
      then Z.lor (to_u8 x) 128 :: encodeUVariant_loop fuel' (Z.shiftr x 7)
      else [to_u8 x]
  end.

(* coev_kafka/packet_encoder.cpp encodeUVariant *)
Definition encodeUVariant (x : Z) : list Z := encodeUVariant_loop 10 x.

(* coev_kafka/packet_encoder.cpp encodeVariant *)
Definition encodeVariant (x : Z) : list Z := encodeUVariant (zigzagEncode x).

Fixpoint varintLen_loop (fuel : nat) (x s : Z) : Z :=
  match fuel with
  | O => s
  | S fuel' =>
      if (128 <=? x) || (x <? -64)
      then varintLen_loop fuel' (Z.shiftr x 7) (s + 1)
      else s
  end.
(* coev_kafka/packet_encoder.cpp varintLen *)
Definition varintLen (x : Z) : Z := varintLen_loop 10 x 0 + 1.

Fixpoint uvarintLen_loop (fuel : nat) (x s : Z) : Z :=
  match fuel with
  | O => s
  | S fuel' => if 128 <=? x then uvarintLen_loop fuel' (Z.shiftr x 7) (s + 1) else s
  end.
(* coev_kafka/packet_encoder.cpp uvarintLen *)
Definition uvarintLen (x : Z) : Z :=
  if x =? 0 then 1 else uvarintLen_loop 10 x 0 + 1.

(** [do { value >>= 7; ++size; } while (value != 0)]: [None] when the value is
    still not 0 after [fuel] turns. *)
Fixpoint variantSize_loop (fuel : nat) (value size : Z) : option Z :=
  match fuel with
  | O => None
  | S fuel' =>
      let value' := Z.shiftr value 7 in
      if value' =? 0 then Some (size + 1) else variantSize_loop fuel' value' (size + 1)
  end.
(* coev_kafka/variant_length_field.cpp variantSize *)
Definition variantSize (value : Z) : option Z := variantSize_loop 10 value 0.

(** ** Bits and sums *)

Lemma land_255 x : Z.land x 255 = x mod 256.
Proof. change 255 with (Z.ones 8). by rewrite Z.land_ones by lia. Qed.

Lemma lor_low_shiftl a b k :
  0 <= k -> 0 <= a < 2 ^ k -> Z.lor a (Z.shiftl b k) = a + b * 2 ^ k.
Proof.
  intros Hk Ha.
  assert (Z.land a (Z.shiftl b k) = 0) as H0.
  { apply Z.bits_inj'. intros n Hn. rewrite Z.land_spec, Z.bits_0.
    destruct (Z.ltb_spec n k).
    - rewrite Z.shiftl_spec_low by lia. by rewrite andb_false_r.
    - rewrite <- (Z.mod_small a (2 ^ k)) by lia.
      by rewrite Z.mod_pow2_bits_high by lia. }
  rewrite <- Z.lxor_lor by done. rewrite <- Z.add_nocarry_lxor by done.
  by rewrite Z.shiftl_mul_pow2.
Qed.

Lemma lor_shiftl_low a b k :
  0 <= k -> 0 <= a < 2 ^ k -> Z.lor (Z.shiftl b k) a = b * 2 ^ k + a.
Proof. intros. rewrite Z.lor_comm, lor_low_shiftl by done. lia. Qed.

(** ** Big-endian *)

Lemma length_be n x : length (be n x) = n.
Proof. induction n; simpl; congruence. Qed.
Lemma Zlen_be n x : Zlen (be n x) = Z.of_nat n.
Proof. unfold Zlen. by rewrite length_be. Qed.

Lemma be_bytes n x : Forall (in_u 8) (be n x).
Proof.
  induction n; simpl; constructor; [|done].
  rewrite land_255. unfold in_u. apply Z.mod_pos_bound. lia.
Qed.

Lemma be_val_acc bs a :
  fold_left (fun acc b => acc * 256 + b) bs a = a * 2 ^ (8 * Zlen bs) + be_val bs.
Proof.
  unfold be_val. revert a. induction bs as [|b bs IH]; intros a; cbn [fold_left].
  - unfold Zlen; simpl. lia.
  - rewrite (IH (a * 256 + b)), (IH (0 * 256 + b)), Zlen_cons.
    replace (8 * (1 + Zlen bs)) with (8 * Zlen bs + 8) by lia.
    rewrite Z.pow_add_r by (pose proof (Zlen_nonneg bs); lia). lia.
Qed.

Lemma be_val_cons b bs : be_val (b :: bs) = b * 2 ^ (8 * Zlen bs) + be_val bs.
Proof. unfold be_val at 1. simpl. by rewrite be_val_acc. Qed.

Lemma be_val_be n x : be_val (be n x) = x mod 2 ^ (8 * Z.of_nat n).
Proof.
  induction n as [|n IH].
  - cbn. by rewrite Z.mod_1_r.
  - cbn [be]. rewrite be_val_cons, Zlen_be, IH, land_255, Z.shiftr_div_pow2 by lia.
    replace (8 * Z.of_nat (S n)) with (8 * Z.of_nat n + 8) by lia.
    rewrite Z.pow_add_r by lia. set (p := 2 ^ (8 * Z.of_nat n)).
    assert (0 < p) by (apply Z.pow_pos_nonneg; lia).
    rewrite Z.rem_mul_r by lia. change (2 ^ 8) with 256. lia.
Qed.

(** ** Base-128 groups *)

Lemma low7_continued x : Z.land (Z.lor (to_u8 x) 128) 127 = x mod 128.
Proof.
  rewrite Z.land_lor_distr_l. change (Z.land 128 127) with 0. rewrite Z.lor_0_r.
  change 127 with (Z.ones 7). rewrite Z.land_ones by lia. unfold to_u.
  change (2 ^ 8) with (128 * 2). change (2 ^ 7) with 128. rewrite Z.rem_mul_r by lia.
  replace (x mod 128 + 128 * ((x / 128) mod 2)) with (x mod 128 + ((x / 128) mod 2) * 128) by lia.
  by rewrite Z.mod_add, Z.mod_mod by lia.
Qed.

Lemma flag_continued x : (Z.land (Z.lor (to_u8 x) 128) 128 =? 0) = false.
Proof.
  apply Z.eqb_neq. rewrite Z.land_lor_distr_l. change (Z.land 128 128) with 128.
  intros [_ ?]%Z.lor_eq_0_iff. done.
Qed.

Lemma low7_last x : 0 <= x < 128 -> Z.land (to_u8 x) 127 = x.
Proof.
  intros. rewrite to_u_id by (unfold in_u; lia).
  change 127 with (Z.ones 7). rewrite Z.land_ones by lia. apply Z.mod_small. lia.
Qed.

Lemma flag_last x : 0 <= x < 128 -> (Z.land (to_u8 x) 128 =? 0) = true.
Proof.
  intros. rewrite to_u_id by (unfold in_u; lia). apply Z.eqb_eq.
  apply Z.bits_inj'. intros n Hn. rewrite Z.land_spec, Z.bits_0.
  destruct (decide (n = 7)) as [->|Hne].
  - rewrite <- (Z.mod_small x (2 ^ 7)) by lia. by rewrite Z.mod_pow2_bits_high by lia.
  - change 128 with (2 ^ 7). rewrite (Z.pow2_bits_false 7) by lia. by rewrite andb_false_r.
Qed.

Lemma encodeUVariant_loop_bytes fuel x :
  0 <= x -> Forall (in_u 8) (encodeUVariant_loop fuel x).
Proof.
  revert x. induction fuel as [|fuel IH]; intros x Hx; simpl; [constructor|].
  destruct (Z.leb_spec 128 x); repeat constructor.
  - apply Z.lor_nonneg. split; [|done]. apply (to_u_range 8 x). lia.
  - assert (Z.lor (to_u8 x) 128 = Z.lor (x mod 128) (Z.shiftl 1 7)) as ->.
    { apply Z.bits_inj'. intros n Hn. change 128 with (Z.shiftl 1 7) at 1.
      rewrite !Z.lor_spec. unfold to_u. change 128 with (2 ^ 7).
      rewrite !Z.testbit_mod_pow2, Z.shiftl_1_l by lia.
      destruct (decide (n = 7)) as [->|]; [by rewrite Z.pow2_bits_true, !orb_true_r by lia|].
      rewrite Z.pow2_bits_false, !orb_false_r by lia.
      destruct (Z.ltb_spec n 8), (Z.ltb_spec n 7); try done; lia. }
    pose proof (Z.mod_pos_bound x 128).
    rewrite lor_low_shiftl by (simpl; lia). simpl. lia.
  - apply IH. by apply Z.shiftr_nonneg.
  - apply (to_u_range 8 x). lia.
  - apply (to_u_range 8 x). lia.
Qed.

Lemma encodeUVariant_fuel fuel x :
  0 <= x < 2 ^ (7 * Z.of_nat fuel) -> encodeUVariant_loop (S fuel) x = encodeUVariant_loop fuel x \/ fuel = O.
Proof.
  revert x. induction fuel as [|fuel IH]; intros x Hx; [by right|left].
  cbn [encodeUVariant_loop]. destruct (Z.leb_spec 128 x); [|done].
  f_equal. fold (encodeUVariant_loop (S fuel) (Z.shiftr x 7)).
  assert (0 <= Z.shiftr x 7 < 2 ^ (7 * Z.of_nat fuel)) as Hr.
  { rewrite Z.shiftr_div_pow2 by lia. split; [apply Z.div_pos; lia|].
    apply Z.div_lt_upper_bound; [lia|]. rewrite <- Z.pow_add_r by lia.
    replace (7 + 7 * Z.of_nat fuel) with (7 * Z.of_nat (S fuel)) by lia. lia. }
  destruct (IH _ Hr) as [E|E]; [exact E|]. subst fuel. simpl in Hx. lia.
Qed.

Lemma uvarintLen_loop_S fuel x s :
  uvarintLen_loop (S fuel) x s =
  if 128 <=? x then uvarintLen_loop fuel (Z.shiftr x 7) (s + 1) else s.
Proof. done. Qed.
Lemma varintLen_loop_S fuel x s :
  varintLen_loop (S fuel) x s =
  if (128 <=? x) || (x <? -64) then varintLen_loop fuel (Z.shiftr x 7) (s + 1) else s.
Proof. done. Qed.

Lemma uvarintLen_loop_acc fuel x s :
  uvarintLen_loop fuel x s = s + uvarintLen_loop fuel x 0.
Proof.
  revert x s. induction fuel as [|fuel IH]; intros x s; simpl; [lia|].
  destruct (128 <=? x); [|lia]. rewrite IH, (IH _ 1). lia.
Qed.

Lemma varintLen_loop_acc fuel x s :
  varintLen_loop fuel x s = s + varintLen_loop fuel x 0.
Proof.
  revert x s. induction fuel as [|fuel IH]; intros x s; simpl; [lia|].
  destruct (_ || _); [|lia]. rewrite IH, (IH _ 1). lia.
Qed.

Lemma varintLen_loop_nonneg fuel x : 0 <= varintLen_loop fuel x 0.
Proof.
  revert x. induction fuel as [|fuel IH]; intros x; simpl; [lia|].
  destruct (_ || _); [|lia]. rewrite varintLen_loop_acc. specialize (IH (Z.shiftr x 7)). lia.
Qed.

Lemma shiftr7_bound fuel x :
  0 <= x < 2 ^ (7 * Z.of_nat (S fuel)) -> 0 <= Z.shiftr x 7 < 2 ^ (7 * Z.of_nat fuel).
Proof.
  intros Hx. rewrite Z.shiftr_div_pow2 by lia. split; [apply Z.div_pos; lia|].
  apply Z.div_lt_upper_bound; [lia|]. rewrite <- Z.pow_add_r by lia.
  replace (7 + 7 * Z.of_nat fuel) with (7 * Z.of_nat (S fuel)) by lia. lia.
Qed.

Lemma Zlen_encodeUVariant_loop fuel x :
  (0 < fuel)%nat -> 0 <= x < 2 ^ (7 * Z.of_nat fuel) ->
  Zlen (encodeUVariant_loop fuel x) = uvarintLen_loop fuel x 0 + 1.
Proof.
  revert x. induction fuel as [|fuel IH]; intros x Hf Hx; [lia|]. simpl.
  destruct (Z.leb_spec 128 x); [|done].
  rewrite Zlen_cons, uvarintLen_loop_acc. apply shiftr7_bound in Hx.
  destruct fuel; [simpl in Hx; change (2^0) with 1 in Hx|].
  - assert (Z.shiftr x 7 = 0) as E by lia. rewrite Z.shiftr_div_pow2 in E by lia.
    apply Z.div_small_iff in E; lia.
  - rewrite IH by (lia || done). lia.
Qed.

(** The sizing pass predicts the exact length of every unsigned varint. *)
Lemma Zlen_encodeUVariant_bound x : 1 <= Zlen (encodeUVariant x) <= 10.
Proof.
  unfold encodeUVariant. assert (forall fuel x, Zlen (encodeUVariant_loop fuel x) <= Z.of_nat fuel) as H.
  { clear. induction fuel as [|fuel IH]; intros x; [done|]. cbn [encodeUVariant_loop].
    destruct (128 <=? x); rewrite Zlen_cons; [specialize (IH (Z.shiftr x 7))|rewrite Zlen_nil]; lia. }
  split; [|apply (H 10%nat)]. cbn [encodeUVariant_loop].
  destruct (128 <=? x); rewrite Zlen_cons; [|rewrite Zlen_nil; lia].
  match goal with |- context [Zlen ?l] => pose proof (Zlen_nonneg l) end. lia.
Qed.
Lemma Zlen_encodeUVariant x : in_u 64 x -> Zlen (encodeUVariant x) = uvarintLen x.
Proof.
  intros Hx. unfold encodeUVariant, uvarintLen, in_u in *.
  destruct (Z.eqb_spec x 0) as [->|]; [done|].
  apply Zlen_encodeUVariant_loop; [lia|]. split; [lia|].
  eapply Z.lt_trans; [apply Hx|]. by apply Z.pow_lt_mono_r.
Qed.

(** ** Zigzag *)

Lemma lxor_ones a n : 0 <= n -> 0 <= a < 2 ^ n -> Z.lxor a (Z.ones n) = Z.ones n - a.
Proof.
  intros Hn Ha. rewrite Z.sub_nocarry_ldiff; apply Z.bits_inj'; intros k Hk.
  - rewrite Z.lxor_spec, Z.ldiff_spec, (Z.testbit_ones_nonneg n) by lia.
    destruct (Z.ltb_spec k n); [by destruct (Z.testbit a k)|].
    rewrite <- (Z.mod_small a (2 ^ n)) by lia. by rewrite Z.mod_pow2_bits_high by lia.
  - rewrite Z.ldiff_spec, Z.bits_0, Z.testbit_ones_nonneg by lia.
    destruct (Z.ltb_spec k n); [by rewrite andb_false_r|].
    rewrite <- (Z.mod_small a (2 ^ n)) by lia. by rewrite Z.mod_pow2_bits_high by lia.
Qed.

Lemma zigzagEncode_spec x :
  in_s 64 x -> zigzagEncode x = if x <? 0 then -2 * x - 1 else 2 * x.
Proof.
  unfold in_s, zigzagEncode. change (2 ^ (64 - 1)) with (2 ^ 63). intros Hx.
  rewrite Z.shiftl_mul_pow2 by lia. unfold to_u.
  rewrite Z.mul_mod_idemp_l by lia. change (2 ^ 1) with 2.
  destruct (Z.ltb_spec x 0).
  - replace ((x * 2) mod 2 ^ 64) with (2 ^ 64 + 2 * x).
    2:{ replace (x * 2) with (2 ^ 64 + 2 * x + (-1) * 2 ^ 64) by lia.
        rewrite Z.mod_add by lia. symmetry. apply Z.mod_small. lia. }
    change ((- (1)) mod 2 ^ 64) with (Z.ones 64). rewrite lxor_ones by lia.
    change (Z.ones 64) with (2 ^ 64 - 1). lia.
  - change ((- 0) mod 2 ^ 64) with 0. rewrite Z.lxor_0_r, Z.mod_small; lia.
Qed.

Lemma zigzagEncode_range x : in_s 64 x -> in_u 64 (zigzagEncode x).
Proof.
  intros Hx. rewrite zigzagEncode_spec by done. unfold in_s, in_u in *.
  change (2 ^ (64 - 1)) with (2 ^ 63) in Hx. destruct (Z.ltb_spec x 0); lia.
Qed.

Lemma zigzagDecode_spec u :
  in_u 64 u -> zigzagDecode u = if Z.even u then u / 2 else - (u / 2) - 1.
Proof.
  intros Hu. unfold zigzagDecode, in_u in *. rewrite Z.shiftr_div_pow2 by lia.
  change (2 ^ 1) with 2. assert (Z.land u 1 = u mod 2) as -> by (apply (Z.land_ones u 1); lia).
  rewrite Zmod_even.
  assert (0 <= u / 2 < 2 ^ 63) as Hh.
  { split; [apply Z.div_pos; lia|]. apply Z.div_lt_upper_bound; lia. }
  destruct (Z.even u).
  - change (to_u64 (- 0)) with 0. rewrite Z.lxor_0_r. apply to_s_id; [lia|].
    unfold in_s. change (2 ^ (64 - 1)) with (2 ^ 63). lia.
  - change (to_u64 (- (1))) with (Z.ones 64). rewrite lxor_ones by lia.
    replace (Z.ones 64 - u / 2) with (- (u / 2) - 1 + 1 * 2 ^ 64) by (change (Z.ones 64) with (2 ^ 64 - 1); lia).
    rewrite <- (to_s_mod 64) by lia. rewrite Z.mod_add by lia. rewrite (to_s_mod 64) by lia.
    apply to_s_id; [lia|]. unfold in_s. change (2 ^ (64 - 1)) with (2 ^ 63). lia.
Qed.

Lemma zigzag_roundtrip x : in_s 64 x -> zigzagDecode (zigzagEncode x) = x.
Proof.
  intros Hx. rewrite zigzagDecode_spec by by apply zigzagEncode_range.
  rewrite zigzagEncode_spec by done. destruct (Z.ltb_spec x 0).
  - replace (-2 * x - 1) with (1 + 2 * (- x - 1)) by lia.
    rewrite Z.even_add_mul_2. cbn [Z.even]. rewrite Z.add_comm, Z.mul_comm, Z.div_add_l by lia.
    change (1 / 2) with 0. lia.
  - rewrite Z.even_mul. cbn. rewrite Z.mul_comm, Z.div_mul by lia. done.
Qed.

(** ** The sizing pass on signed varints

    [varintLen] counts groups of the value itself, the writing pass writes
    groups of its zigzag image. *)

Lemma varintLen_neg fuel x y :
  (- 128 ^ Z.of_nat fuel <= x < 0)%Z -> y = -2 * x - 1 \/ y = -2 * x - 2 ->
  varintLen_loop fuel x 0 = uvarintLen_loop fuel y 0.
Proof.
  revert x y. induction fuel as [|fuel IH]; intros x y Hx Hy; [done|].
  cbn [varintLen_loop uvarintLen_loop].
  replace (128 <=? x) with false by lia. cbn [orb].
  replace (128 <=? y) with (x <? -64) by lia.
  destruct (Z.ltb_spec x (-64)); [|done].
  rewrite varintLen_loop_acc, uvarintLen_loop_acc. f_equal.
  rewrite !Z.shiftr_div_pow2 by lia. change (2 ^ 7) with 128.
  replace (Z.of_nat (S fuel)) with (Z.of_nat fuel + 1) in Hx by lia.
  rewrite Z.pow_add_r in Hx by lia. change (128 ^ 1) with 128 in Hx.
  apply IH; Z.div_mod_to_equations; lia.
Qed.

(** One more group is written than was counted exactly when the top group of
    the value is 64 or more. *)
Definition top_group_full (fuel : nat) (x : Z) : bool :=
  64 * 128 ^ (varintLen_loop fuel x 0) <=? x.

Lemma varintLen_nonneg fuel x y :
  0 <= x < 2 ^ 6 * 2 ^ (7 * Z.of_nat fuel) -> y = 2 * x \/ y = 2 * x + 1 ->
  uvarintLen_loop (S fuel) y 0 =
  varintLen_loop (S fuel) x 0 + (if top_group_full (S fuel) x then 1 else 0).
Proof.
  unfold top_group_full. revert x y. induction fuel as [|fuel IH]; intros x y Hx Hy.
  - simpl in Hx |- *. destruct (Z.leb_spec 128 x); [lia|].
    replace (x <? -64) with false by lia. cbn [orb].
    replace (128 <=? y) with false by lia. change (128 ^ 0) with 1.
    by replace (64 * 1 <=? x) with false by lia.
  - rewrite (uvarintLen_loop_S _ y), (varintLen_loop_S _ x).
    replace (x <? -64) with false by lia. rewrite orb_false_r.
    destruct (Z.leb_spec 128 x) as [H|H].
    + replace (128 <=? y) with true by lia.
      rewrite uvarintLen_loop_acc, varintLen_loop_acc.
      rewrite !Z.shiftr_div_pow2 by lia. change (2 ^ 7) with 128.
      rewrite (IH (x / 128)).
      * rewrite Z.add_assoc. f_equal.
        set (v := varintLen_loop (S fuel) (x / 128) 0).
        assert (0 <= v) by apply varintLen_loop_nonneg.
        rewrite Z.pow_add_r by lia. change (128 ^ (0 + 1)) with 128.
        replace (64 * 128 ^ v <=? x / 128) with (64 * (128 * 128 ^ v) <=? x); [done|].
        apply eq_true_iff_eq. rewrite !Z.leb_le.
        set (p := 128 ^ v). Z.div_mod_to_equations. lia.
      * rewrite Nat2Z.inj_succ in Hx.
        replace (7 * Z.succ (Z.of_nat fuel)) with (7 * Z.of_nat fuel + 7) in Hx by lia.
        rewrite Z.pow_add_r in Hx by lia. change (2 ^ 7) with 128 in Hx.
        set (p := 2 ^ (7 * Z.of_nat fuel)) in *. Z.div_mod_to_equations. lia.
      * Z.div_mod_to_equations. lia.
    + change (128 ^ 0) with 1. destruct (Z.leb_spec (64 * 1) x).
      * replace (128 <=? y) with true by lia.
        rewrite uvarintLen_loop_acc, uvarintLen_loop_S.
        rewrite Z.shiftr_div_pow2 by lia. change (2 ^ 7) with 128.
        replace (128 <=? y / 128) with false; [lia|].
        symmetry. apply Z.leb_gt. apply Z.div_lt_upper_bound; lia.
      * by replace (128 <=? y) with false by lia.
Qed.

Lemma varintLen_pos x : 1 <= varintLen x.
Proof. unfold varintLen. pose proof (varintLen_loop_nonneg 10 x). lia. Qed.
Lemma varintLen_bound x : varintLen x <= 11.
Proof.
  unfold varintLen. assert (forall fuel x s, varintLen_loop fuel x s <= s + Z.of_nat fuel) as H.
  { clear. induction fuel as [|fuel IH]; intros x s; cbn [varintLen_loop]; [lia|].
    destruct (_ || _); [|lia]. specialize (IH (Z.shiftr x 7) (s + 1)). lia. }
  specialize (H 10%nat x 0). lia.
Qed.

(** The exact error of the sizing pass on a signed varint. *)
Lemma Zlen_encodeVariant x :
  in_s 64 x ->
  Zlen (encodeVariant x) =
  varintLen x + (if (0 <=? x) && top_group_full 10 x then 1 else 0).
Proof.
  intros Hx. unfold encodeVariant, encodeUVariant.
  pose proof (zigzagEncode_range x Hx) as Hz. unfold in_u in Hz.
  rewrite Zlen_encodeUVariant_loop by (change (2 ^ (7 * Z.of_nat 10)) with (2 ^ 70); lia).
  unfold varintLen, in_s in *. change (2 ^ (64 - 1)) with (2 ^ 63) in Hx.
  rewrite zigzagEncode_spec by (unfold in_s; change (2 ^ (64 - 1)) with (2 ^ 63); lia).
  destruct (Z.ltb_spec x 0).
  - replace (0 <=? x) with false by lia. cbn [andb].
    rewrite (varintLen_neg 10 x (-2 * x - 1)); [lia| |by left].
    change (128 ^ Z.of_nat 10) with (2 ^ 70). lia.
  - replace (0 <=? x) with true by lia. cbn [andb].
    rewrite (varintLen_nonneg 9 x (2 * x)); [lia| |by left].
    change (2 ^ 6 * 2 ^ (7 * Z.of_nat 9)) with (2 ^ 69). lia.
Qed.

(** The loops over the groups of a varint are symbolic in the proofs that follow: they are
    the last to be unfolded when two terms are compared. *)
#[global] Strategy 1000 [encodeUVariant_loop varintLen_loop uvarintLen_loop variantSize_loop be].
