(* ===== verification/Crc.v ===== *)
(** * CRC-32

    [utils/hash/crc32.cpp] (the table-driven digest with its state) and the
    checksum loop of [coev_kafka/crc32_field.cpp], against a bitwise reference. *)
From Stdlib Require Import ZArith Lia Bool.
From stdpp Require Import base tactics list numbers.
From S2P Require Import Prelude Wire.

(** The polynomials, reflected. *)
(* utils/hash/crc32.h:17-23 Polynomial *)
Inductive Polynomial := IEEE | Castagnoli | Koopman.
Definition poly_value (p : Polynomial) : Z :=
  match p with IEEE => 0xedb88320 | Castagnoli => 0x82f63b78 | Koopman => 0xeb31d82e end.

(** One bit: [if (crc & 1) crc = (crc >> 1) ^ poly; else crc >>= 1;] *)
Definition crc_bit (poly crc : Z) : Z :=
  if Z.odd crc then Z.lxor (Z.shiftr crc 1) poly else Z.shiftr crc 1.
Definition crc_bits (n : nat) (poly crc : Z) : Z := Nat.iter n (crc_bit poly) crc.

(* utils/hash/crc32.cpp SimpleMakeHandle *)
Definition SimpleMakeHandle (poly : Z) : list Z :=
  map (fun i => crc_bits 8 poly (Z.of_nat i)) (seq 0 256).

(* utils/hash/crc32.cpp MakeHandle *)
Definition MakeHandle (p : Polynomial) : list Z := SimpleMakeHandle (poly_value p).

(** [tab[k]] for an index already reduced to 0..255. *)
Definition tab_at (tab : list Z) (k : Z) : Z := nth (Z.to_nat k) tab 0.

(** [~x] on a [uint32_t] *)
Definition not32 (x : Z) : Z := Z.lxor x 0xffffffff.

(** [data] holds [char]s as their unsigned bytes; [crc ^ data[i]] sign-extends
    the byte, which the mask [& 0xFF] undoes. *)
(* utils/hash/crc32.cpp SimpleUpdate *)
Definition SimpleUpdate (crc : Z) (data : list Z) (tab : list Z) : Z :=
  not32 (fold_left
    (fun c b => Z.lxor (tab_at tab (Z.land (Z.lxor c (to_u32 (to_i8 b))) 255)) (Z.shiftr c 8))
    data (not32 crc)).

(* utils/hash/crc32.cpp Update *)
Definition Update (crc : Z) (data : list Z) (tab : list Z) : Z := SimpleUpdate crc data tab.
(* utils/hash/crc32.cpp Checksum *)
Definition Checksum (data : list Z) (tab : list Z) : Z := Update 0 data tab.
(* utils/hash/crc32.cpp ChecksumIEEE *)
Definition ChecksumIEEE (data : list Z) : Z := Checksum data (MakeHandle IEEE).

(* coev_kafka/crc32_field.h:15-19 CrcPolynomial *)
Inductive CrcPolynomial := CrcIEEE | CrcCastagnoli.

(* coev_kafka/crc32_field.cpp:35-56 castagnoliTable *)
Definition castagnoliTable : list Z :=
  map (fun i => crc_bits 8 0x82F63B78 (Z.of_nat i)) (seq 0 256).

(** The loop over [buf[m_start_offset + 4 .. cur_offset)], given those bytes. *)
(* coev_kafka/crc32_field.cpp Crc32Field::crc *)
Definition crc_of (p : CrcPolynomial) (data : list Z) : Z :=
  let crc :=
    match p with
    | CrcCastagnoli =>
        fold_left (fun crc byte =>
          Z.lxor (Z.shiftr crc 8) (tab_at castagnoliTable (Z.lxor (Z.land crc 0xFF) byte)))
          data 0xFFFFFFFF
    | CrcIEEE =>
        fold_left (fun crc byte => crc_bits 8 0xEDB88320 (Z.lxor crc byte)) data 0xFFFFFFFF
    end in
  Z.lxor crc 0xFFFFFFFF.

(** The reference: the message fed bit by bit into the division. *)
Definition crc_ref (poly : Z) (data : list Z) (init : Z) : Z :=
  fold_left (fun crc byte => crc_bits 8 poly (Z.lxor crc byte)) data init.

(** ** The bit step is linear *)

Lemma crc_bit_lxor poly x y :
  crc_bit poly (Z.lxor x y) = Z.lxor (crc_bit poly x) (crc_bit 0 y) \/ Z.odd y = true.
Proof.
  destruct (Z.odd y) eqn:Hy; [by right|left]. unfold crc_bit.
  rewrite <- !Z.bit0_odd in *. rewrite Z.lxor_spec, Hy, xorb_false_r, Z.shiftr_lxor.
  destruct (Z.testbit x 0); [|done].
  rewrite !Z.lxor_assoc. f_equal. apply Z.lxor_comm.
Qed.

Lemma crc_bit_even poly y : crc_bit poly (2 * y) = y.
Proof.
  unfold crc_bit. rewrite Z.odd_mul. cbn [Z.odd andb]. rewrite Z.shiftr_div_pow2 by lia.
  change (2 ^ 1) with 2. rewrite Z.mul_comm. by apply Z.div_mul.
Qed.

Lemma crc_bit_split poly x y :
  crc_bit poly (Z.lxor x (2 * y)) = Z.lxor (crc_bit poly x) y.
Proof.
  destruct (crc_bit_lxor poly x (2 * y)) as [->|E].
  - by rewrite crc_bit_even.
  - by rewrite Z.odd_mul in E.
Qed.

(** Shifting out [n] zero bits is a shift; the rest goes through the division. *)
Lemma crc_bits_split n poly x y :
  crc_bits n poly (Z.lxor x (2 ^ Z.of_nat n * y)) = Z.lxor (crc_bits n poly x) y.
Proof.
  revert x y. induction n as [|n IH]; intros x y.
  - by rewrite Z.mul_1_l.
  - unfold crc_bits in *. rewrite !Nat.iter_succ_r.
    rewrite Nat2Z.inj_succ, Z.pow_succ_r, <- Z.mul_assoc, crc_bit_split by lia. apply IH.
Qed.

Lemma byte_split c : c = Z.lxor (Z.land c 255) (2 ^ 8 * Z.shiftr c 8).
Proof.
  rewrite (Z.mul_comm (2 ^ 8)), <- Z.shiftl_mul_pow2 by lia. apply Z.bits_inj'. intros n Hn.
  change 255 with (Z.ones 8). rewrite Z.lxor_spec, Z.land_spec, Z.testbit_ones_nonneg by lia.
  destruct (Z.ltb_spec n 8).
  - by rewrite Z.shiftl_spec_low, andb_true_r, xorb_false_r by lia.
  - rewrite Z.shiftl_spec, Z.shiftr_spec, andb_false_r, xorb_false_l by lia. f_equal. lia.
Qed.

Lemma tab_at_make poly k : 0 <= k < 256 -> tab_at (SimpleMakeHandle poly) k = crc_bits 8 poly k.
Proof.
  intros Hk. unfold tab_at, SimpleMakeHandle.
  rewrite (nth_indep _ 0 (crc_bits 8 poly (Z.of_nat 0))) by (rewrite length_map, length_seq; lia).
  rewrite (map_nth (fun i => crc_bits 8 poly (Z.of_nat i))), seq_nth by lia.
  f_equal. lia.
Qed.

(** One table step is eight bit steps. *)
Lemma table_step poly c b :
  is_byte b ->
  Z.lxor (Z.shiftr c 8) (tab_at (SimpleMakeHandle poly) (Z.lxor (Z.land c 255) b)) =
  crc_bits 8 poly (Z.lxor c b).
Proof.
  unfold in_u. intros Hb.
  assert (Z.lxor (Z.land c 255) b = Z.land (Z.lxor c b) 255) as E.
  { rewrite <- (Z.mod_small b (2 ^ 8)) by lia. change 255 with (Z.ones 8).
    rewrite <- (Z.land_ones b) by lia. apply Z.bits_inj'. intros n _.
    rewrite !Z.lxor_spec, !Z.land_spec, !Z.lxor_spec, !Z.land_spec.
    by destruct (Z.testbit c n), (Z.testbit b n), (Z.testbit (Z.ones 8) n). }
  assert (Z.shiftr c 8 = Z.shiftr (Z.lxor c b) 8) as E'.
  { rewrite Z.shiftr_lxor, (Z.shiftr_div_pow2 b) by lia.
    by rewrite Z.div_small, Z.lxor_0_r by lia. }
  rewrite E, E', tab_at_make by (rewrite land_255; apply Z.mod_pos_bound; lia).
  rewrite (byte_split (Z.lxor c b)) at 3. rewrite Z.lxor_comm.
  by rewrite (crc_bits_split 8).
Qed.

Lemma byte_signed_low c b :
  is_byte b -> Z.land (Z.lxor c (to_u32 (to_i8 b))) 255 = Z.lxor (Z.land c 255) b.
Proof.
  unfold in_u. intros Hb. change 255 with (Z.ones 8).
  assert (Z.land (to_u32 (to_i8 b)) (Z.ones 8) = b) as E.
  { rewrite Z.land_ones by lia. unfold to_u, to_s. change (2 ^ (8 - 1)) with 128.
    change (2 ^ 8) with 256. change (2 ^ 32) with 4294967296.
    Z.div_mod_to_equations. lia. }
  rewrite <- E at 2. apply Z.bits_inj'. intros n _.
  rewrite !Z.land_spec, !Z.lxor_spec, !Z.land_spec.
  by destruct (Z.testbit c n), (Z.testbit (to_u32 (to_i8 b)) n), (Z.testbit (Z.ones 8) n).
Qed.

Lemma fold_table_ref poly data init :
  Forall (in_u 8) data ->
  fold_left (fun crc byte => Z.lxor (Z.shiftr crc 8)
     (tab_at (SimpleMakeHandle poly) (Z.lxor (Z.land crc 0xFF) byte))) data init =
  crc_ref poly data init.
Proof.
  intros H. unfold crc_ref. revert init. induction H as [|b data Hb _ IH]; intros init; [done|].
  cbn [fold_left]. by rewrite table_step, IH by done.
Qed.

Lemma fold_update_ref poly data init :
  Forall (in_u 8) data ->
  fold_left (fun c b => Z.lxor
     (tab_at (SimpleMakeHandle poly) (Z.land (Z.lxor c (to_u32 (to_i8 b))) 255)) (Z.shiftr c 8))
     data init = crc_ref poly data init.
Proof.
  intros H. unfold crc_ref. revert init. induction H as [|b data Hb _ IH]; intros init; [done|].
  cbn [fold_left]. rewrite byte_signed_low, Z.lxor_comm, table_step by done. apply IH.
Qed.

Lemma not32_not32 x : not32 (not32 x) = x.
Proof. unfold not32. by rewrite Z.lxor_assoc, Z.lxor_nilpotent, Z.lxor_0_r. Qed.

(** C38: The table-driven routines compute the bit-by-bit CRC of their polynomial, for
    the Castagnoli table of the Kafka field as for the tables of the digest, and a
    digest fed in pieces ends at the checksum of the whole. *)
Theorem crc_table_is_bitwise p data more :
  Forall (in_u 8) data ->
  crc_of CrcCastagnoli data = not32 (crc_ref 0x82F63B78 data 0xFFFFFFFF) /\
  crc_of CrcIEEE data = not32 (crc_ref 0xEDB88320 data 0xFFFFFFFF) /\
  Checksum data (MakeHandle p) = not32 (crc_ref (poly_value p) data 0xFFFFFFFF) /\
  ChecksumIEEE data = crc_of CrcIEEE data /\
  Update (Checksum data (MakeHandle p)) more (MakeHandle p) = Checksum (data ++ more) (MakeHandle p).
Proof.
  intros H. split_and!.
  - unfold crc_of, not32. f_equal. by apply (fold_table_ref 0x82F63B78).
  - done.
  - unfold Checksum, Update, SimpleUpdate. f_equal. by apply fold_update_ref.
  - unfold ChecksumIEEE, Checksum, Update, SimpleUpdate. unfold crc_of, not32. f_equal.
    by apply (fold_update_ref 0xEDB88320).
  - unfold Checksum, Update, SimpleUpdate. by rewrite not32_not32, fold_left_app.
Qed.
(** The check values of the two CRCs: the digits 1 to 9 *)
Example crc_table_is_bitwise_witness :
  crc_of CrcCastagnoli [49; 50; 51; 52; 53; 54; 55; 56; 57] = 0xE3069283 /\
  ChecksumIEEE [49; 50; 51; 52; 53; 54; 55; 56; 57] = 0xCBF43926.
Proof.
  destruct (crc_table_is_bitwise IEEE [49; 50; 51; 52; 53; 54; 55; 56; 57] []) as (E1 & E2 & _ & E3 & _).
  - repeat (constructor; [unfold in_u; lia|]). constructor.
  - rewrite E1, E3, E2. split; by vm_compute.
Defined.
