(* ===== verification/Fields.v ===== *)
(** * Deferred fields

    The objects an encoder or a decoder keeps on its stack while their value is
    not known yet: [length_field.cpp], [variant_length_field.cpp] and
    [crc32_field.cpp].  [push_encoder] and [push_decoder] are one type here, as
    every field class implements both interfaces. *)
From Stdlib Require Import ZArith Lia Bool.
From stdpp Require Import base tactics list numbers.
From S2P Require Import Prelude Errors Wire Crc.

(** [buf[i] = b0; buf[i+1] = b1; ...]: [None] when a byte falls outside. *)
Definition poke (buf : list Z) (i : Z) (bs : list Z) : option (list Z) :=
  if bool_decide (0 <= i /\ i + Zlen bs <= Zlen buf)
  then Some (take (Z.to_nat i) buf ++ bs ++ drop (Z.to_nat (i + Zlen bs)) buf)
  else None.

(** [buf[i] .. buf[i+n-1]]: [None] when a byte falls outside. *)
Definition peek_bytes (buf : list Z) (i n : Z) : option (list Z) :=
  if bool_decide (0 <= i /\ 0 <= n /\ i + n <= Zlen buf)
  then Some (take (Z.to_nat n) (drop (Z.to_nat i) buf))
  else None.

(* coev_kafka/length_field.h:19-32 LengthField *)
Record LengthField := mkLengthField { lf_start_offset : Z; lf_length : Z }.
(* coev_kafka/variant_length_field.h:15-27 VariantLengthField *)
Record VariantLengthField := mkVariantLengthField { vl_start_offset : Z; vl_length : Z }.
(* coev_kafka/crc32_field.h:24-36 Crc32Field *)
Record Crc32Field := mkCrc32Field { cf_start_offset : Z; cf_polynomial : CrcPolynomial }.

(** What a [push_encoder *] or a [push_decoder *] on the stack points to. *)
(* coev_kafka/dynamic_push_encoder.h:11-23 push_encoder *)
Inductive push_field :=
| FLength (f : LengthField)
| FVariantLength (f : VariantLengthField)
| FCrc32 (f : Crc32Field).

Definition LengthField_default : LengthField := mkLengthField 0 0.
Definition VariantLengthField_default : VariantLengthField := mkVariantLengthField 0 0.

(* coev_kafka/length_field.cpp LengthField::save_offset *)
Definition LengthField_save_offset (f : LengthField) (in_ : Z) : LengthField :=
  mkLengthField in_ (lf_length f).
(* coev_kafka/length_field.cpp LengthField::reserve_length *)
Definition LengthField_reserve_length (f : LengthField) : Z := 4.
(* coev_kafka/length_field.cpp LengthField::run *)
Definition LengthField_run (f : LengthField) (cur_offset : Z) (buf : list Z) : option (list Z) :=
  let val := to_u32 (cur_offset - lf_start_offset f - 4) in
  poke buf (lf_start_offset f)
    [Z.land (Z.shiftr val 24) 0xFF; Z.land (Z.shiftr val 16) 0xFF;
     Z.land (Z.shiftr val 8) 0xFF; Z.land val 0xFF].
(* coev_kafka/length_field.cpp LengthField::check *)
Definition LengthField_check (f : LengthField) (cur_offset : Z) : Z :=
  if negb (to_i32 (cur_offset - lf_start_offset f - 4) =? lf_length f)
  then ErrPacketDecodingError else 0.

(* coev_kafka/variant_length_field.cpp VariantLengthField::save_offset *)
Definition VariantLengthField_save_offset (f : VariantLengthField) (in_ : Z) : VariantLengthField :=
  mkVariantLengthField in_ (vl_length f).
(* coev_kafka/variant_length_field.cpp VariantLengthField::reserve_length *)
Definition VariantLengthField_reserve_length (f : VariantLengthField) : option Z :=
  variantSize (vl_length f).
(** [m_length] is set first, then the size difference is returned. *)
(* coev_kafka/variant_length_field.cpp VariantLengthField::adjust_length *)
Definition VariantLengthField_adjust_length (f : VariantLengthField) (currOffset : Z)
  : option (Z * VariantLengthField) :=
  match VariantLengthField_reserve_length f with
  | None => None
  | Some oldSize =>
      let f' := mkVariantLengthField (vl_start_offset f)
                  (currOffset - vl_start_offset f - oldSize) in
      match VariantLengthField_reserve_length f' with
      | None => None
      | Some newSize => Some (newSize - oldSize, f')
      end
  end.
(* coev_kafka/variant_length_field.cpp VariantLengthField::run *)
Definition VariantLengthField_run (f : VariantLengthField) (buf : list Z) : option (list Z) :=
  poke buf (vl_start_offset f) (encodeVariant (vl_length f)).
(* coev_kafka/variant_length_field.cpp VariantLengthField::check *)
Definition VariantLengthField_check (f : VariantLengthField) (curOffset : Z) : option Z :=
  match VariantLengthField_reserve_length f with
  | None => None
  | Some reserve =>
      Some (if negb (curOffset - vl_start_offset f - reserve =? vl_length f) then -1 else 0)
  end.

(* coev_kafka/crc32_field.cpp Crc32Field::save_offset *)
Definition Crc32Field_save_offset (f : Crc32Field) (in_ : Z) : Crc32Field :=
  mkCrc32Field in_ (cf_polynomial f).
(* coev_kafka/crc32_field.cpp Crc32Field::reserve_length *)
Definition Crc32Field_reserve_length (f : Crc32Field) : Z := 4.
(** The covered bytes [buf[m_start_offset + 4 .. cur_offset)]; the loop does
    not run when that range is empty. *)
Definition Crc32Field_covered (f : Crc32Field) (cur_offset : Z) (buf : list Z) : option (list Z) :=
  peek_bytes buf (cf_start_offset f + 4) (Z.max 0 (cur_offset - (cf_start_offset f + 4))).
(* coev_kafka/crc32_field.cpp Crc32Field::run *)
Definition Crc32Field_run (f : Crc32Field) (cur_offset : Z) (buf : list Z) : option (list Z) :=
  match Crc32Field_covered f cur_offset buf with
  | None => None
  | Some data =>
      let crc_val := crc_of (cf_polynomial f) data in
      poke buf (cf_start_offset f) (be 4 crc_val)
  end.
(* coev_kafka/crc32_field.cpp Crc32Field::check *)
Definition Crc32Field_check (f : Crc32Field) (cur_offset : Z) (buf : list Z) : option Z :=
  match Crc32Field_covered f cur_offset buf, peek_bytes buf (cf_start_offset f) 4 with
  | Some data, Some stored =>
      let crc_val := crc_of (cf_polynomial f) data in
      let expected := be_val stored in
      Some (if negb (crc_val =? expected) then ErrCRCMismatch else ErrNoError)
  | _, _ => None
  end.

(** ** The virtual calls *)

(* coev_kafka/dynamic_push_encoder.h:14-14 push_encoder::save_offset *)
Definition save_offset (f : push_field) (in_ : Z) : push_field :=
  match f with
  | FLength f => FLength (LengthField_save_offset f in_)
  | FVariantLength f => FVariantLength (VariantLengthField_save_offset f in_)
  | FCrc32 f => FCrc32 (Crc32Field_save_offset f in_)
  end.
(** [None]: the loop of [variantSize] does not end. *)
(* coev_kafka/dynamic_push_encoder.h:15-15 push_encoder::reserve_length *)
Definition reserve_length (f : push_field) : option Z :=
  match f with
  | FLength f => Some (LengthField_reserve_length f)
  | FVariantLength f => VariantLengthField_reserve_length f
  | FCrc32 f => Some (Crc32Field_reserve_length f)
  end.
(** [None]: a byte outside the buffer is touched. *)
(* coev_kafka/dynamic_push_encoder.h:16-16 push_encoder::run *)
Definition run (f : push_field) (cur_offset : Z) (buf : list Z) : option (list Z) :=
  match f with
  | FLength f => LengthField_run f cur_offset buf
  | FVariantLength f => VariantLengthField_run f buf
  | FCrc32 f => Crc32Field_run f cur_offset buf
  end.

(** ** Facts about buffers and fields *)

Lemma poke_spec pre old bs post :
  Zlen old = Zlen bs ->
  poke (pre ++ old ++ post) (Zlen pre) bs = Some (pre ++ bs ++ post).
Proof.
  intros Hl. unfold poke. rewrite bool_decide_true.
  2:{ rewrite !Zlen_app. pose proof (Zlen_nonneg pre). pose proof (Zlen_nonneg post). lia. }
  unfold Zlen in *. f_equal.
  replace (Z.to_nat (Z.of_nat (length pre))) with (length pre) by lia.
  rewrite take_app_length. f_equal. f_equal.
  replace (Z.to_nat _) with (length (pre ++ old))%nat by (rewrite length_app; lia).
  by rewrite app_assoc, drop_app_length.
Qed.

Lemma peek_bytes_spec pre bs post :
  peek_bytes (pre ++ bs ++ post) (Zlen pre) (Zlen bs) = Some bs.
Proof.
  unfold peek_bytes. rewrite bool_decide_true.
  2:{ rewrite !Zlen_app. pose proof (Zlen_nonneg pre). pose proof (Zlen_nonneg bs).
      pose proof (Zlen_nonneg post). lia. }
  unfold Zlen. rewrite !Nat2Z.id, drop_app_length, take_app_length. done.
Qed.

(** A non-negative length takes at most nine turns; a negative one never
    reaches 0. *)
Lemma variantSize_loop_total fuel value size :
  0 <= value < 2 ^ (7 * Z.of_nat fuel) -> (0 < fuel)%nat ->
  exists n, variantSize_loop fuel value size = Some n /\ size + 1 <= n.
Proof.
  revert value size. induction fuel as [|fuel IH]; intros value size Hv Hf; [lia|].
  cbn [variantSize_loop]. destruct (Z.eqb_spec (Z.shiftr value 7) 0) as [E|E].
  - eexists. split; [done|]. lia.
  - apply shiftr7_bound in Hv. destruct fuel; [simpl in Hv; change (2^0) with 1 in Hv; lia|].
    destruct (IH (Z.shiftr value 7) (size + 1)) as (n & -> & ?); [done|lia|].
    eexists. split; [done|]. lia.
Qed.

Lemma variantSize_neg_diverges fuel value size :
  value < 0 -> variantSize_loop fuel value size = None.
Proof.
  revert value size. induction fuel as [|fuel IH]; intros value size Hv; [done|].
  cbn [variantSize_loop].
  assert (Z.shiftr value 7 < 0) by (by apply Z.shiftr_neg).
  replace (Z.shiftr value 7 =? 0) with false by lia. by apply IH.
Qed.
