(* ===== verification/Encoder.v ===== *)
(** * The packet encoder

    [coev_kafka/packet_encoder.cpp]: one object, two passes.  In the sizing pass
    ([PREP]) every [put] only adds to the length; in the writing pass ([REAL])
    it stores bytes into a buffer of the size the first pass found.

    [m_offset] and [m_length] share storage in the code (an anonymous union) and
    are one field here. *)
From Stdlib Require Import ZArith Lia Bool.
From stdpp Require Import base tactics list numbers.
From S2P Require Import Prelude Errors Wire Crc Fields.

(* coev_kafka/packet_encoder.h:24-29 packet_encoder::Type *)
Inductive enc_type := NONE | PREP | REAL.

(* coev_kafka/packet_encoder.h:22-38 packet_encoder *)
Record packet_encoder := mkEncoder {
  m_type : enc_type;
  m_offset : Z;              (* also [m_length] *)
  m_stack : list push_field; (* back of the vector first *)
  m_raw : list Z;
  pe_flexible : Z;
}.

Definition set_offset (o : Z) (s : packet_encoder) : packet_encoder :=
  mkEncoder (m_type s) o (m_stack s) (m_raw s) (pe_flexible s).
Definition set_stack (st : list push_field) (s : packet_encoder) : packet_encoder :=
  mkEncoder (m_type s) (m_offset s) st (m_raw s) (pe_flexible s).
Definition set_raw (r : list Z) (s : packet_encoder) : packet_encoder :=
  mkEncoder (m_type s) (m_offset s) (m_stack s) r (pe_flexible s).
Definition set_pe_flexible (f : Z) (s : packet_encoder) : packet_encoder :=
  mkEncoder (m_type s) (m_offset s) (m_stack s) (m_raw s) f.

(** [packet_encoder(type)] with [m_raw.resize(l)] *)
(* coev_kafka/packet_encoder.cpp:49-52 packet_encoder::packet_encoder *)
Definition new_encoder (t : enc_type) (l : Z) : packet_encoder :=
  mkEncoder t 0 [] (replicate (Z.to_nat l) 0) 0.

Abbreviation PE A := (M packet_encoder A).

(** ** Flexible contexts ([flexible_type.cpp]) *)

(* coev_kafka/flexible_type.cpp flexible_type::__is_fixed *)
Definition is_fixed (flexible : Z) : bool := flexible =? 0.
(* coev_kafka/flexible_type.cpp flexible_type::__is_flexible *)
Definition is_flexible_ctx (flexible : Z) : bool := 0 <? flexible.
(* coev_kafka/flexible_type.cpp flexible_type::__push_flexible *)
Definition pe_push_flexible : PE unit :=
  modify (fun s => set_pe_flexible (to_u16 (pe_flexible s + 1)) s).
(* coev_kafka/flexible_type.cpp flexible_type::__pop_flexible *)
Definition pe_pop_flexible : PE unit := fun s =>
  if 0 <? pe_flexible s then Done tt (set_pe_flexible (to_u16 (pe_flexible s - 1)) s)
  else Fault FAssert.

(** [if (__is_fixed()) {..} else if (__is_flexible()) {..} rest] *)
Definition by_context {A} (fixed flexible rest : PE A) : PE A := fun s =>
  if is_fixed (pe_flexible s) then fixed s
  else if is_flexible_ctx (pe_flexible s) then flexible s
  else rest s.

(** [if (m_type == PREP) {..} else if (m_type == REAL) {..} else assert(false);] *)
Definition by_type {A} (prep real : PE A) : PE A := fun s =>
  match m_type s with PREP => prep s | REAL => real s | NONE => Fault FAssert end.

(** [m_length += n] *)
Definition add_length (n : Z) : PE unit := modify (fun s => set_offset (m_offset s + n) s).
(** [assert(m_offset + n <= m_raw.size())] *)
Definition assert_room (n : Z) : PE unit := fun s =>
  if m_offset s + n <=? Zlen (m_raw s) then Done tt s else Fault FAssert.
(** Store [bs] at [m_raw[m_offset..]] and advance [m_offset] past them. *)
Definition store (bs : list Z) : PE unit := fun s =>
  match poke (m_raw s) (m_offset s) bs with
  | Some raw => Done tt (set_offset (m_offset s + Zlen bs) (set_raw raw s))
  | None => Fault FUB
  end.

(** ** Fixed-width integers *)

(* coev_kafka/packet_encoder.cpp packet_encoder::putInt8 *)
Definition putInt8 (in_ : Z) : PE unit :=
  by_type (add_length 1) (assert_room 1 ;;; store [to_u8 in_]).
(* coev_kafka/packet_encoder.cpp packet_encoder::putInt16 *)
Definition putInt16 (in_ : Z) : PE unit :=
  by_type (add_length 2)
    (assert_room 2 ;;; store [Z.land (Z.shiftr in_ 8) 0xFF; Z.land in_ 0xFF]).
(* coev_kafka/packet_encoder.cpp packet_encoder::putInt32 *)
Definition putInt32 (in_ : Z) : PE unit :=
  by_type (add_length 4)
    (assert_room 4 ;;;
     store [Z.land (Z.shiftr in_ 24) 0xFF; Z.land (Z.shiftr in_ 16) 0xFF;
            Z.land (Z.shiftr in_ 8) 0xFF; Z.land in_ 0xFF]).
(* coev_kafka/packet_encoder.cpp packet_encoder::putInt64 *)
Definition putInt64 (in_ : Z) : PE unit :=
  by_type (add_length 8)
    (assert_room 8 ;;;
     store [Z.land (Z.shiftr in_ 56) 0xFF; Z.land (Z.shiftr in_ 48) 0xFF;
            Z.land (Z.shiftr in_ 40) 0xFF; Z.land (Z.shiftr in_ 32) 0xFF;
            Z.land (Z.shiftr in_ 24) 0xFF; Z.land (Z.shiftr in_ 16) 0xFF;
            Z.land (Z.shiftr in_ 8) 0xFF; Z.land in_ 0xFF]).

(** ** Varints: the bytes are stored before the bound is asserted *)

(* coev_kafka/packet_encoder.cpp packet_encoder::putVariant *)
Definition putVariant (in_ : Z) : PE unit :=
  by_type (add_length (varintLen in_)) (store (encodeVariant in_) ;;; assert_room 0).
(* coev_kafka/packet_encoder.cpp packet_encoder::putUVarint *)
Definition putUVarint (in_ : Z) : PE unit :=
  by_type (add_length (uvarintLen in_)) (store (encodeUVariant in_) ;;; assert_room 0).

(** A [double] is its 64-bit pattern, the only view of it the codec takes. *)
(* coev_kafka/packet_encoder.cpp packet_encoder::putFloat64 *)
Definition putFloat64 (bits : Z) : PE unit :=
  by_type (add_length 8) (putInt64 (to_i64 bits)).

(** [putUVarint(static_cast<uint64_t>(in + 1))] with [in] an [int32_t] *)
Definition put_compact_length (in_ : Z) : PE unit :=
  let* n := i32_arith (in_ + 1) in putUVarint (to_u64 n).

(* coev_kafka/packet_encoder.cpp packet_encoder::putArrayLength *)
Definition putArrayLength (in_ : Z) : PE Z :=
  by_type
    (by_context
      (if INT32_MAX <? in_ then ret (-1) else add_length 4 ;;; ret 0)
      (put_compact_length in_ ;;; ret 0)
      (ret 0))
    (by_context (putInt32 (to_i32 in_)) (put_compact_length in_) (ret tt) ;;; ret 0).

(* coev_kafka/packet_encoder.cpp packet_encoder::putBool *)
Definition putBool (in_ : bool) : PE unit :=
  by_type (add_length 1) (putInt8 (if in_ then 1 else 0)).
(* coev_kafka/packet_encoder.cpp packet_encoder::putKError *)
Definition putKError (in_ : Z) : PE unit :=
  by_type (add_length 2) (putInt16 (to_i16 in_)).
(* coev_kafka/packet_encoder.cpp packet_encoder::putDurationMs *)
Definition putDurationMs (ms : Z) : PE unit :=
  by_type (add_length 4) (putInt32 (to_i32 ms)).

(** ** Byte strings *)

(* coev_kafka/packet_encoder.cpp packet_encoder::putRawBytes *)
Definition putRawBytes (in_ : list Z) : PE Z :=
  by_type
    (if INT32_MAX <? Zlen in_ then ret (-1)
     else add_length (to_i32 (Zlen in_)) ;;; ret 0)
    (assert_room (Zlen in_) ;;; store in_ ;;; ret 0).

Definition empty (in_ : list Z) : bool := Zlen in_ =? 0.

(* coev_kafka/packet_encoder.cpp packet_encoder::putBytes *)
Definition putBytes (in_ : list Z) : PE Z :=
  by_type
    (by_context
      (add_length 4 ;;;
       if empty in_ then ret 0
       else if INT32_MAX <? Zlen in_ then ret (-1)
       else putRawBytes in_)
      (putUVarint (to_u64 (Zlen in_ + 1)) ;;; putRawBytes in_)
      (ret 0))
    (by_context
      (if empty in_ then putInt32 (-1) ;;; ret 0
       else putInt32 (to_i32 (Zlen in_)) ;;; putRawBytes in_ ;;; ret 0)
      (putUVarint (to_u64 (Zlen in_ + 1)) ;;; putRawBytes in_)
      (ret 0)).

(* coev_kafka/packet_encoder.cpp packet_encoder::putVariantBytes *)
Definition putVariantBytes (in_ : list Z) : PE Z :=
  by_type
    (if empty in_ then putVariant (-1) ;;; ret 0
     else putVariant (Zlen in_) ;;; putRawBytes in_)
    (if empty in_ then putVariant (-1) ;;; ret 0
     else putVariant (Zlen in_) ;;; putRawBytes in_ ;;; ret 0).

(* coev_kafka/packet_encoder.cpp packet_encoder::putString *)
Definition putString (in_ : list Z) : PE Z :=
  by_type
    (by_context
      (if INT16_MAX <? Zlen in_ then ret (-1)
       else add_length 2 ;;; add_length (to_i32 (Zlen in_)) ;;; ret 0)
      (try putArrayLength (to_i32 (Zlen in_)) ;;; putRawBytes in_)
      (ret 0))
    (by_context
      (putInt16 (to_i16 (Zlen in_)) ;;; assert_room (Zlen in_) ;;; store in_ ;;; ret 0)
      (putArrayLength (to_i32 (Zlen in_)) ;;; putRawBytes in_ ;;; ret 0)
      (ret 0)).

(* coev_kafka/packet_encoder.cpp packet_encoder::putNullableString *)
Definition putNullableString (in_ : list Z) : PE Z :=
  by_type
    (by_context
      (if empty in_ then add_length 2 ;;; ret 0 else putString in_)
      (if empty in_ then putUVarint 0 ;;; ret 0 else putString in_)
      (ret 0))
    (by_context
      (if empty in_ then putInt16 (-1) ;;; ret 0 else putString in_ ;;; ret 0)
      (if empty in_ then putUVarint 0 ;;; ret 0 else putString in_)
      (ret 0)).

(** ** Arrays *)

(** [m_length += k * static_cast<int>(in.size())], an [int] product *)
Definition add_elements {A} (k : Z) (in_ : list A) : PE unit :=
  let* n := i32_arith (k * to_i32 (Zlen in_)) in add_length n.

(* coev_kafka/packet_encoder.cpp packet_encoder::putStringArray *)
Definition putStringArray (in_ : list (list Z)) : PE Z :=
  by_type
    (by_context
      (try putArrayLength (to_i32 (Zlen in_)) ;;; for_try in_ putString)
      (try putArrayLength (to_i32 (Zlen in_)) ;;; add_elements 4 in_ ;;; ret 0)
      (ret 0))
    (by_context
      (putArrayLength (to_i32 (Zlen in_)) ;;;
       for_do in_ (fun s => putString s ;;; ret tt) ;;; ret 0)
      (putArrayLength (to_i32 (Zlen in_)) ;;;
       for_do in_ (fun s => putString s ;;; ret tt) ;;; ret 0)
      (ret 0)).

(* coev_kafka/packet_encoder.cpp packet_encoder::putInt32Array *)
Definition putInt32Array (in_ : list Z) : PE Z :=
  by_type
    (by_context
      (add_length 4 ;;; add_elements 4 in_ ;;; ret 0)
      (putUVarint (to_u64 (Zlen in_ + 1)) ;;; add_elements 4 in_ ;;; ret 0)
      (ret 0))
    (by_context
      (putArrayLength (to_i32 (Zlen in_)) ;;; for_do in_ putInt32 ;;; ret 0)
      (putUVarint (to_u64 (Zlen in_ + 1)) ;;; for_do in_ putInt32 ;;; ret 0)
      (ret 0)).

(* coev_kafka/packet_encoder.cpp packet_encoder::putInt64Array *)
Definition putInt64Array (in_ : list Z) : PE Z :=
  by_type
    (try putArrayLength (to_i32 (Zlen in_)) ;;; add_elements 8 in_ ;;; ret 0)
    (putArrayLength (to_i32 (Zlen in_)) ;;; for_do in_ putInt64 ;;; ret 0).

(* coev_kafka/packet_encoder.cpp packet_encoder::putNullableInt32Array *)
Definition putNullableInt32Array (in_ : list Z) : PE Z :=
  by_type
    (by_context
      (if empty in_ then add_length 4 ;;; ret 0
       else try putArrayLength (to_i32 (Zlen in_)) ;;; add_elements 4 in_ ;;; ret 0)
      (if empty in_ then putUVarint 0 ;;; ret 0
       else putUVarint (to_u64 (Zlen in_ + 1)) ;;; add_elements 4 in_ ;;; ret 0)
      (ret 0))
    (by_context
      (if empty in_ then putInt32 (-1) ;;; ret 0
       else putArrayLength (to_i32 (Zlen in_)) ;;; for_do in_ putInt32 ;;; ret 0)
      (if empty in_ then putUVarint 0 ;;; ret 0
       else putUVarint (to_u64 (Zlen in_ + 1)) ;;; for_do in_ putInt32 ;;; ret 0)
      (ret 0)).

(* coev_kafka/packet_encoder.cpp packet_encoder::putEmptyTaggedFieldArray *)
Definition putEmptyTaggedFieldArray : PE unit :=
  by_type (by_context (ret tt) (putUVarint 0) (ret tt))
          (by_context (ret tt) (putUVarint 0) (ret tt)).

(** ** Deferred fields *)

(* coev_kafka/packet_encoder.cpp packet_encoder::offset *)
Definition offset : PE Z := fun s =>
  match m_type s with PREP | REAL => Done (to_i32 (m_offset s)) s | NONE => Fault FAssert end.

(** The pushed object is the caller's: the stack entry is its state from here
    to the matching [pop], which hands the state back. *)
(* coev_kafka/packet_encoder.cpp packet_encoder::push *)
Definition push (f : push_field) : PE unit := fun s =>
  let f' := save_offset f (to_i32 (m_offset s)) in
  match reserve_length f' with
  | None => Fault FDiverge
  | Some reserve =>
      by_type
        (fun s => Done tt (set_stack (f' :: m_stack s) (set_offset (m_offset s + reserve) s)))
        (assert_room reserve ;;;
         modify (fun s => set_stack (f' :: m_stack s) (set_offset (m_offset s + reserve) s)))
        s
  end.

(* coev_kafka/packet_encoder.cpp packet_encoder::pop *)
Definition popField : PE (Z * option push_field) :=
  by_type
    (fun s =>
      match m_stack s with
      | [] => Done (-1, None) s
      | FVariantLength f :: st =>
          match VariantLengthField_adjust_length f (to_i32 (m_offset s)) with
          | None => Fault FDiverge
          | Some (adj, f') =>
              Done (0, Some (FVariantLength f')) (set_offset (m_offset s + adj) (set_stack st s))
          end
      | f :: st => Done (0, Some f) (set_stack st s)
      end)
    (fun s =>
      match m_stack s with
      | [] => Done (0, None) s
      | f :: st =>
          match run f (to_i32 (m_offset s)) (m_raw s) with
          | None => Fault FUB
          | Some raw => Done (0, Some f) (set_raw raw (set_stack st s))
          end
      end).

(** [pop] of a field that is local to the caller: its state is dropped. *)
Definition pop : PE Z := let* r := popField in ret (fst r).
