(* ===== verification/Decoder.v ===== *)
(** * The packet decoder

    [coev_kafka/packet_decoder.cpp]: a read position in a byte view.  A getter
    returns an error code or the value it stores through its out parameter; an
    error may move the position (to the end, on short input).  A read past the
    view is undefined behaviour, so it is a [Fault]. *)
From Stdlib Require Import ZArith Lia Bool.
From stdpp Require Import base tactics list numbers.
From S2P Require Import Prelude Errors Wire Crc Fields.

(* coev_kafka/packet_decoder.h:26-71 packet_decoder *)
Record packet_decoder := mkDecoder {
  pd_offset : Z;
  pd_raw : list Z;
  pd_stack : list push_field; (* back of the vector first *)
  pd_flexible : Z;
}.

Definition set_pd_offset (o : Z) (d : packet_decoder) : packet_decoder :=
  mkDecoder o (pd_raw d) (pd_stack d) (pd_flexible d).
Definition set_pd_stack (st : list push_field) (d : packet_decoder) : packet_decoder :=
  mkDecoder (pd_offset d) (pd_raw d) st (pd_flexible d).
Definition set_pd_flexible (f : Z) (d : packet_decoder) : packet_decoder :=
  mkDecoder (pd_offset d) (pd_raw d) (pd_stack d) f.

(* coev_kafka/packet_decoder.cpp:819-822 packet_decoder::packet_decoder *)
Definition new_decoder (buf : list Z) : packet_decoder := mkDecoder 0 buf [] 0.

Abbreviation PD A := (M packet_decoder (dres A)).

(* coev_kafka/response_header.h:16-16 MaxResponseSize *)
Definition MaxResponseSize : Z := 100 * 1024 * 1024.

Definition ok {A} (a : A) : PD A := ret (Ok a).
Definition err {A} (c : Z) : PD A := ret (Err c).

(* coev_kafka/packet_decoder.cpp packet_decoder::remaining *)
Definition remaining (d : packet_decoder) : Z := to_i32 (Zlen (pd_raw d)) - pd_offset d.

Definition advance (n : Z) (d : packet_decoder) : packet_decoder :=
  set_pd_offset (pd_offset d + n) d.
(** [m_offset += n] *)
Definition skip (n : Z) : M packet_decoder unit := modify (advance n).
(** [m_offset = m_raw.size(); return c;] *)
Definition exhaust {A} (c : Z) : PD A :=
  fun d => Done (Err c) (set_pd_offset (to_i32 (Zlen (pd_raw d))) d).
(** The unsigned byte at [m_raw[m_offset + k]] *)
Definition byte_at (k : Z) : M packet_decoder Z := fun d =>
  match pd_raw d !! Z.to_nat (pd_offset d + k) with
  | Some b => Done b d
  | None => Fault FUB
  end.
Definition when_short {A} (n : Z) (rest : PD A) : PD A := fun d =>
  if remaining d <? n then exhaust ErrInsufficientData d else rest d.

(* coev_kafka/flexible_type.cpp:14-17 flexible_type::__push_flexible *)
Definition pd_push_flexible : M packet_decoder unit :=
  modify (fun d => set_pd_flexible (to_u16 (pd_flexible d + 1)) d).
(* coev_kafka/flexible_type.cpp:18-22 flexible_type::__pop_flexible *)
Definition pd_pop_flexible : M packet_decoder unit := fun d =>
  if 0 <? pd_flexible d then Done tt (set_pd_flexible (to_u16 (pd_flexible d - 1)) d)
  else Fault FAssert.

(** [if (__is_fixed()) {..} else if (__is_flexible()) {..} rest] *)
Definition by_ctx {A} (fixed flexible rest : M packet_decoder A) : M packet_decoder A := fun d =>
  if pd_flexible d =? 0 then fixed d
  else if 0 <? pd_flexible d then flexible d
  else rest d.

(** ** Fixed-width integers *)

(* coev_kafka/packet_decoder.cpp packet_decoder::getInt8 *)
Definition getInt8 : PD Z :=
  when_short 1 (let* b := byte_at 0 in skip 1 ;;; ok (to_i8 b)).

(* coev_kafka/packet_decoder.cpp packet_decoder::getInt16 *)
Definition getInt16 : PD Z :=
  when_short 2
    (let* b0 := byte_at 0 in let* b1 := byte_at 1 in
     skip 2 ;;; ok (to_i16 (Z.lor (Z.shiftl b0 8) b1))).

(** [x << k] on an [int] *)
Definition shl32 (x k : Z) : Z := to_i32 (Z.shiftl x k).
(** The four-byte read shared by [getInt32] and the array readers *)
Definition be32_at : M packet_decoder Z :=
  let* b0 := byte_at 0 in let* b1 := byte_at 1 in
  let* b2 := byte_at 2 in let* b3 := byte_at 3 in
  ret (to_i32 (Z.lor (Z.lor (Z.lor (shl32 b0 24) (shl32 b1 16)) (shl32 b2 8)) b3)).
(* coev_kafka/packet_decoder.cpp packet_decoder::getInt32 *)
Definition getInt32 : PD Z :=
  when_short 4 (let* v := be32_at in skip 4 ;;; ok v).

(** The eight-byte read shared by [getInt64], [getFloat64] and [getInt64Array] *)
Definition be64_at : M packet_decoder Z :=
  let* b0 := byte_at 0 in let* b1 := byte_at 1 in
  let* b2 := byte_at 2 in let* b3 := byte_at 3 in
  let* b4 := byte_at 4 in let* b5 := byte_at 5 in
  let* b6 := byte_at 6 in let* b7 := byte_at 7 in
  ret (Z.lor (Z.lor (Z.lor (Z.lor (Z.lor (Z.lor (Z.lor
    (to_u64 (Z.shiftl b0 56)) (to_u64 (Z.shiftl b1 48))) (to_u64 (Z.shiftl b2 40)))
    (to_u64 (Z.shiftl b3 32))) (to_u64 (Z.shiftl b4 24))) (to_u64 (Z.shiftl b5 16)))
    (to_u64 (Z.shiftl b6 8))) b7).
(* coev_kafka/packet_decoder.cpp packet_decoder::getInt64 *)
Definition getInt64 : PD Z :=
  when_short 8 (let* v := be64_at in skip 8 ;;; ok (to_i64 v)).
(** The result is the 64-bit pattern of the [double]. *)
(* coev_kafka/packet_decoder.cpp packet_decoder::getFloat64 *)
Definition getFloat64 : PD Z :=
  when_short 8 (let* v := be64_at in skip 8 ;;; ok v).

(** ** Varints *)

Fixpoint getVariant_loop (fuel : nat) (i shift ux : Z) : PD Z :=
  match fuel with
  | O => skip (-10) ;;; err ErrVariantOverflow
  | S fuel' => fun d =>
      if Zlen (pd_raw d) <=? pd_offset d then exhaust ErrInsufficientData d
      else
        (let* b := byte_at 0 in
         skip 1 ;;;
         let ux := Z.lor ux (to_u64 (Z.shiftl (Z.land b 0x7F) shift)) in
         if Z.land b 0x80 =? 0 then
           if (i =? 9) && (negb (Z.land ux 0xFE00000000000000 =? 0) || (1 <? Z.land b 0x7F))
           then skip (- (i + 1)) ;;; err ErrVariantOverflow
           else ok (zigzagDecode ux)
         else getVariant_loop fuel' (i + 1) (shift + 7) ux) d
  end.
(* coev_kafka/packet_decoder.cpp packet_decoder::getVariant *)
Definition getVariant : PD Z := getVariant_loop 10 0 0 0.

Fixpoint getUVariant_loop (fuel : nat) (i shift result : Z) : PD Z :=
  match fuel with
  | O => skip (-10) ;;; err ErrUVariantOverflow
  | S fuel' => fun d =>
      if Zlen (pd_raw d) <=? pd_offset d then exhaust ErrInsufficientData d
      else
        (let* b := byte_at 0 in
         skip 1 ;;;
         let result := Z.lor result (to_u64 (Z.shiftl (Z.land b 0x7F) shift)) in
         if Z.land b 0x80 =? 0 then
           if (i =? 9) && negb (Z.shiftr result 63 =? 0)
           then skip (- (i + 1)) ;;; err ErrUVariantOverflow
           else ok result
         else getUVariant_loop fuel' (i + 1) (shift + 7) result) d
  end.
(* coev_kafka/packet_decoder.cpp packet_decoder::getUVariant *)
Definition getUVariant : PD Z := getUVariant_loop 10 0 0 0.

(** ** Lengths and small values *)

(** The bytes of a fixed-context array length are read as [char], which is
    signed: each is sign-extended before it is shifted. *)
(* coev_kafka/packet_decoder.cpp packet_decoder::getArrayLength *)
Definition getArrayLength : PD Z :=
  by_ctx
    (when_short 4
      (let* b0 := byte_at 0 in let* b1 := byte_at 1 in
       let* b2 := byte_at 2 in let* b3 := byte_at 3 in
       skip 4 ;;;
       let result := to_i32 (Z.lor (Z.lor (Z.lor
         (shl32 (to_i8 b0) 24) (shl32 (to_i8 b1) 16)) (shl32 (to_i8 b2) 8)) (to_i8 b3)) in
       if MaxResponseSize <? result then err ErrInvalidArrayLength else ok result))
    (let! n := getUVariant in
     if n =? 0 then ok 0 else ok (to_i32 (n - 1)))
    (ok 0).

(* coev_kafka/packet_decoder.cpp packet_decoder::getBool *)
Definition getBool : PD bool :=
  let! b := getInt8 in
  if b =? 0 then ok false
  else if negb (b =? 1) then err ErrInvalidBool
  else ok true.
(* coev_kafka/packet_decoder.cpp packet_decoder::getKError *)
Definition getKError : PD Z := let! out := getInt16 in ok out.
(* coev_kafka/packet_decoder.cpp packet_decoder::getDurationMs *)
Definition getDurationMs : PD Z := let! t := getInt32 in ok t.

(** ** Byte strings *)

(** [result = string_view(m_raw.data() + m_offset, n); m_offset += n;]: the bytes must be
    in the view. *)
Definition take_view (n : Z) : PD (list Z) := fun d =>
  match peek_bytes (pd_raw d) (pd_offset d) n with
  | Some v => Done (Ok v) (advance n d)
  | None => Fault FUB
  end.
(* coev_kafka/packet_decoder.cpp packet_decoder::getRawBytes *)
Definition getRawBytes (length : Z) : PD (list Z) := fun d =>
  if length <? 0 then Done (Err ErrValidByteSliceLength) d
  else if remaining d <? length then exhaust ErrInsufficientData d
  else take_view length d.
(* coev_kafka/packet_decoder.cpp packet_decoder::getSubset *)
Definition getSubset (length : Z) : PD (list Z) :=
  let! r := getRawBytes length in ok r.

(* coev_kafka/packet_decoder.cpp packet_decoder::getBytes *)
Definition getBytes : PD (list Z) :=
  by_ctx
    (let! tmp := getInt32 in if tmp =? -1 then ok [] else getRawBytes tmp)
    (let! n := getUVariant in getRawBytes (to_i32 (to_u64 (n - 1))))
    (ok []).
(* coev_kafka/packet_decoder.cpp packet_decoder::getVariantBytes *)
Definition getVariantBytes : PD (list Z) :=
  let! tmp := getVariant in if tmp =? -1 then ok [] else getRawBytes (to_i32 tmp).

Definition check_string_length (n : Z) : PD Z :=
  if n <? -1 then err ErrInvalidStringLength
  else when_short n (ok n).
(* coev_kafka/packet_decoder.cpp packet_decoder::getStringLength *)
Definition getStringLength : PD Z :=
  by_ctx
    (let! length := getInt16 in check_string_length length)
    (let! length := getUVariant in
     check_string_length (if length =? 0 then -1 else to_i32 (length - 1)))
    (ok 0).

(* coev_kafka/packet_decoder.cpp packet_decoder::getString *)
Definition getString : PD (list Z) :=
  by_ctx
    (let! length := getStringLength in if length =? -1 then ok [] else take_view length)
    (let! length := getStringLength in if length =? -1 then ok [] else take_view length)
    (ok []).
(* coev_kafka/packet_decoder.cpp packet_decoder::getNullableString *)
Definition getNullableString : PD (list Z) :=
  by_ctx
    (let! n := getStringLength in if n =? -1 then ok [] else take_view n)
    (let! length := getStringLength in if length =? -1 then ok [] else take_view length)
    (ok []).

(** ** Arrays *)

(** [result.resize(n)] throws when [n], as a [size_t], exceeds [max_size]: a
    negative [int] does.  Allocation itself is taken to succeed. *)
Definition resize_int (n : Z) : M packet_decoder unit :=
  if n <? 0 then fail FThrow else ret tt.
(** [if (remaining() < k * n)], an [int] product *)
Definition need_elements {A} (k n : Z) (rest : PD A) : PD A :=
  let* total := i32_arith (k * n) in when_short total rest.

(* coev_kafka/packet_decoder.cpp packet_decoder::getInt32Array *)
Definition getInt32Array : PD (list Z) :=
  by_ctx
    (let! n := getArrayLength in
     if n <=? 0 then ok []
     else need_elements 4 n
       (read_n (Z.to_nat n) (let* v := be32_at in skip 4 ;;; ok v)))
    (let! n := getUVariant in
     if n =? 0 then ok []
     else
       let array_length := to_i32 (n - 1) in
       resize_int array_length ;;;
       read_n (Z.to_nat array_length) (let* v := be32_at in skip 4 ;;; ok v))
    (ok []).
(* coev_kafka/packet_decoder.cpp packet_decoder::getInt64Array *)
Definition getInt64Array : PD (list Z) :=
  let! n := getArrayLength in
  if n <=? 0 then ok []
  else need_elements 8 n
    (read_n (Z.to_nat n) (let* v := be64_at in skip 8 ;;; ok (to_i64 v))).
(* coev_kafka/packet_decoder.cpp packet_decoder::getStringArray *)
Definition getStringArray : PD (list (list Z)) :=
  by_ctx
    (let! n := getArrayLength in
     if n <=? 0 then ok [] else read_n (Z.to_nat n) getString)
    (let! n := getArrayLength in
     if n <=? 0 then ok [] else read_n (Z.to_nat n) getString)
    (ok []).

(** ** Tagged fields *)

(** Every turn consumes at least two bytes or returns, so the length of the view
    bounds the turns whatever the count says ([getEmptyTaggedFieldArray_total]). *)
Fixpoint skip_tags (fuel : nat) (i tag_count : Z) : PD unit :=
  match fuel with
  | O => fail FDiverge
  | S fuel' =>
      if tag_count <=? i then ok tt
      else
        let! tag_id := getUVariant in
        let! length := getUVariant in
        let! view := getRawBytes (to_i32 length) in
        skip_tags fuel' (i + 1) tag_count
  end.
Definition tag_fuel (d : packet_decoder) : nat := S (length (pd_raw d)).
(* coev_kafka/packet_decoder.cpp packet_decoder::getEmptyTaggedFieldArray *)
Definition getEmptyTaggedFieldArray : PD unit :=
  by_ctx (ok tt)
    (let! tag_count := getUVariant in fun d => skip_tags (tag_fuel d) 0 tag_count d)
    (ok tt).

(** The map of decoders is consulted by tag id; a decoder reads from the same
    object, after the field's bytes have been skipped, and changes what it captured. *)
Fixpoint read_tags {C} (fuel : nat) (decoders : list (Z * (C -> PD C))) (i tag_count : Z) (captured : C) : PD C :=
  match fuel with
  | O => fail FDiverge
  | S fuel' =>
      if tag_count <=? i then ok captured
      else
        let! id := getUVariant in
        let! length := getUVariant in
        let! view := getRawBytes (to_i32 length) in
        match find (fun p => fst p =? id) decoders with
        | None => read_tags fuel' decoders (i + 1) tag_count captured
        | Some (_, decoder) =>
            let! captured := (pd_push_flexible ;;;
                              let* r := decoder captured in
                              pd_pop_flexible ;;; ret r) in
            read_tags fuel' decoders (i + 1) tag_count captured
        end
  end.
(* coev_kafka/packet_decoder.cpp packet_decoder::getTaggedFieldArray *)
Definition getTaggedFieldArray {C} (decoders : list (Z * (C -> PD C))) (captured : C) : PD C :=
  by_ctx (err ErrTaggedFieldsInNonFlexibleContext)
    (match decoders with
     | [] => let! _t := getEmptyTaggedFieldArray in ok captured
     | _ :: _ =>
         let! tag_count := getUVariant in
         fun d => read_tags (tag_fuel d) decoders 0 tag_count captured d
     end)
    (ok captured).

(** ** Looking ahead *)

(* coev_kafka/packet_decoder.cpp packet_decoder::peek *)
Definition peek (offset length : Z) : PD (list Z) :=
  let* last := i32_arith (offset + length) in fun d =>
  if remaining d <? last then Done (Err ErrInsufficientData) d
  else
    match peek_bytes (pd_raw d) (pd_offset d + offset) length with
    | Some v => Done (Ok v) d
    | None => Fault FUB
    end.
(** The position is compared as an unsigned number. *)
(* coev_kafka/packet_decoder.cpp packet_decoder::peekInt8 *)
Definition peekInt8 (offset : Z) : PD Z :=
  let* start := gets pd_offset in
  let* at_ := i32_arith (start + offset) in fun d =>
  if Zlen (pd_raw d) <=? to_u64 at_ then Done (Err ErrInsufficientData) d
  else (let* b := byte_at offset in ok (to_i8 b)) d.

(** ** Deferred fields *)

(* coev_kafka/variant_length_field.cpp VariantLengthField::decode *)
Definition VariantLengthField_decode (f : VariantLengthField) : PD VariantLengthField :=
  let! val := getVariant in ok (mkVariantLengthField (vl_start_offset f) val).
(* coev_kafka/length_field.cpp LengthField::decode *)
Definition LengthField_decode (f : LengthField) : PD LengthField :=
  let! n := getInt32 in
  fun d => if to_i32 (remaining d) <? n then Done (Err ErrInsufficientData) d
           else Done (Ok (mkLengthField (lf_start_offset f) n)) d.

(** Only a [dynamicPushDecoder] decodes itself here, and only
    [VariantLengthField] is one; the other fields get four bytes reserved. *)
(* coev_kafka/packet_decoder.cpp packet_decoder::push *)
Definition pd_push (in_ : push_field) : PD unit := fun d =>
  match save_offset in_ (pd_offset d) with
  | FVariantLength f =>
      (let! f' := VariantLengthField_decode f in
       modify (fun d => set_pd_stack (FVariantLength f' :: pd_stack d) d) ;;; ok tt) d
  | f =>
      match reserve_length f with
      | None => Fault FDiverge
      | Some reserve =>
          when_short reserve
            (modify (fun d => advance reserve (set_pd_stack (f :: pd_stack d) d)) ;;; ok tt) d
      end
  end.

(** The code [check] returns; the popped object's state with success. *)
(* coev_kafka/packet_decoder.cpp packet_decoder::pop *)
Definition pd_pop : PD push_field := fun d =>
  match pd_stack d with
  | [] => Fault FUB
  | f :: st =>
      let res := match f with
                 | FLength g => inl (LengthField_check g (pd_offset d))
                 | FVariantLength g =>
                     match VariantLengthField_check g (pd_offset d) with
                     | Some c => inl c | None => inr FDiverge end
                 | FCrc32 g =>
                     match Crc32Field_check g (pd_offset d) (pd_raw d) with
                     | Some c => inl c | None => inr FUB end
                 end in
      match res with
      | inr flt => Fault flt
      | inl c => Done (if c =? 0 then Ok f else Err c) (set_pd_stack st d)
      end
  end.
