(* ===== verification/Codec.v ===== *)
(** * Reasoning about the codec

    Three judgements, each closed under sequencing.  [sizes fl e v bs]: in the
    sizing pass [e] returns [v] and adds the length of [bs].  [writes fl e v bs]:
    in the writing pass it returns [v] and stores [bs] at the offset, touching
    nothing else.  [consumes fl g v bs]: on input that continues with [bs] the
    decoder [g] returns [v] and advances past [bs].  [fl] says whether the object
    is in a flexible context.  [emits] is the first two together. *)
From Stdlib Require Import ZArith Lia Bool.
From stdpp Require Import base tactics list numbers.
From S2P Require Import Prelude Errors Wire Crc Fields Encoder Decoder.

(** The flexible depth [f] agrees with the context flag. *)
Definition ctx (fl : bool) (f : Z) : Prop := if fl then 0 < f < 2 ^ 16 else f = 0.

Definition LIMIT : Z := 2 ^ 31.

Definition sizes {A} (fl : bool) (e : PE A) (v : A) (bs : list Z) : Prop :=
  forall s, m_type s = PREP -> ctx fl (pe_flexible s) ->
  0 <= m_offset s -> m_offset s + Zlen bs < LIMIT ->
  e s = Done v (set_offset (m_offset s + Zlen bs) s).

Definition writes {A} (fl : bool) (e : PE A) (v : A) (bs : list Z) : Prop :=
  forall s pre old post, m_type s = REAL -> ctx fl (pe_flexible s) ->
  m_raw s = pre ++ old ++ post -> Zlen old = Zlen bs -> m_offset s = Zlen pre ->
  Zlen (m_raw s) < LIMIT ->
  e s = Done v (set_offset (m_offset s + Zlen bs) (set_raw (pre ++ bs ++ post) s)).

Definition emits {A} (fl : bool) (e : PE A) (v : A) (bs : list Z) : Prop :=
  sizes fl e v bs /\ writes fl e v bs.

(** The unread input *)
Definition rest (d : packet_decoder) : list Z := drop (Z.to_nat (pd_offset d)) (pd_raw d).

Definition pd_ok (d : packet_decoder) : Prop :=
  0 <= pd_offset d <= Zlen (pd_raw d) /\ Zlen (pd_raw d) < LIMIT.

Definition consumes {A} (fl : bool) (g : M packet_decoder A) (v : A) (bs : list Z) : Prop :=
  forall d tl, pd_ok d -> ctx fl (pd_flexible d) -> rest d = bs ++ tl ->
  g d = Done v (advance (Zlen bs) d).

(** ** Sequencing *)

Lemma split_old (old b1 b2 : list Z) :
  Zlen old = Zlen (b1 ++ b2) ->
  exists o1 o2, old = o1 ++ o2 /\ Zlen o1 = Zlen b1 /\ Zlen o2 = Zlen b2.
Proof.
  intros H. exists (take (length b1) old), (drop (length b1) old).
  rewrite take_drop. unfold Zlen in *. rewrite length_take, length_drop.
  rewrite length_app in H. split_and!; [done|lia|lia].
Qed.

Lemma sizes_ret {A} fl (v : A) : sizes fl (ret v) v [].
Proof. intros [] ????; unfold ret, set_offset; cbn in *. rewrite Z.add_0_r. done. Qed.
Lemma writes_ret {A} fl (v : A) : writes fl (ret v) v [].
Proof.
  intros [] pre old post Ht Hc Hr Ho Hoff _; unfold ret, set_offset, set_raw; cbn in *.
  destruct old; [|rewrite Zlen_cons in Ho; pose proof (Zlen_nonneg old); unfold Zlen in *; simpl in *; lia].
  subst. by rewrite Z.add_0_r.
Qed.
Lemma emits_ret {A} fl (v : A) : emits fl (ret v) v [].
Proof. split; [apply sizes_ret|apply writes_ret]. Qed.

Lemma sizes_bind {A B} fl (e : PE A) (k : A -> PE B) v w b1 b2 :
  sizes fl e v b1 -> sizes fl (k v) w b2 -> sizes fl (bind e k) w (b1 ++ b2).
Proof.
  intros H1 H2 s Ht Hc H0 Hl. rewrite Zlen_app in Hl.
  pose proof (Zlen_nonneg b1). pose proof (Zlen_nonneg b2).
  unfold bind. rewrite H1 by (done || lia). rewrite H2 by (cbn; done || lia).
  cbn. rewrite Zlen_app, Z.add_assoc. by destruct s.
Qed.
Lemma writes_bind {A B} fl (e : PE A) (k : A -> PE B) v w b1 b2 :
  writes fl e v b1 -> writes fl (k v) w b2 -> writes fl (bind e k) w (b1 ++ b2).
Proof.
  intros H1 H2 s pre old post Ht Hc Hr Ho Hoff Hl.
  destruct (split_old _ _ _ Ho) as (o1 & o2 & -> & Ho1 & Ho2).
  rewrite <- app_assoc in Hr. unfold bind.
  rewrite (H1 s pre o1 (o2 ++ post)) by done.
  rewrite (H2 _ (pre ++ b1) o2 post); cbn; try done.
  - rewrite Zlen_app, Z.add_assoc. f_equal. destruct s; cbn. unfold set_offset, set_raw; cbn.
    f_equal. by rewrite <- !app_assoc.
  - by rewrite <- app_assoc.
  - rewrite Zlen_app. lia.
  - rewrite Hr in Hl. rewrite !Zlen_app in *. lia.
Qed.
Lemma emits_bind {A B} fl (e : PE A) (k : A -> PE B) v w b1 b2 :
  emits fl e v b1 -> emits fl (k v) w b2 -> emits fl (bind e k) w (b1 ++ b2).
Proof. intros [] []. split; [by eapply sizes_bind|by eapply writes_bind]. Qed.

Lemma consumes_ret {A} fl (v : A) : consumes fl (ret v) v [].
Proof.
  intros [] tl _ _ _. unfold ret, advance, set_pd_offset, Zlen; cbn. by rewrite Z.add_0_r.
Qed.

Lemma rest_bound d bs tl : pd_ok d -> rest d = bs ++ tl -> pd_offset d + Zlen bs <= Zlen (pd_raw d).
Proof.
  intros [Ho _] H. apply (f_equal length) in H. unfold rest, Zlen in *.
  rewrite length_drop, length_app in H. lia.
Qed.
Lemma pd_ok_advance d bs tl : pd_ok d -> rest d = bs ++ tl -> pd_ok (advance (Zlen bs) d).
Proof.
  intros Hok H. pose proof (rest_bound _ _ _ Hok H). pose proof (Zlen_nonneg bs).
  destruct Hok as [? ?]. split; cbn; lia.
Qed.
Lemma rest_advance d bs tl : pd_ok d -> rest d = bs ++ tl -> rest (advance (Zlen bs) d) = tl.
Proof.
  intros [[Ho _] _] H. pose proof (Zlen_nonneg bs). unfold rest in *. cbn.
  replace (Z.to_nat (pd_offset d + Zlen bs)) with (Z.to_nat (pd_offset d) + length bs)%nat
    by (unfold Zlen in *; lia).
  by rewrite <- drop_drop, H, drop_app_length.
Qed.
Lemma consumes_bind {A B} fl (g : M packet_decoder A) (k : A -> M packet_decoder B) v w b1 b2 :
  consumes fl g v b1 -> consumes fl (k v) w b2 -> consumes fl (bind g k) w (b1 ++ b2).
Proof.
  intros H1 H2 d tl Hok Hc Hr. rewrite <- app_assoc in Hr. unfold bind.
  rewrite (H1 _ _ Hok Hc Hr).
  rewrite (H2 _ tl); cbn; try done.
  - unfold advance, set_pd_offset; cbn. by rewrite Zlen_app, Z.add_assoc.
  - by eapply pd_ok_advance.
  - by eapply rest_advance.
Qed.

(** ** Branches *)

Lemma sizes_by_type {A} fl (p r : PE A) v bs : sizes fl p v bs -> sizes fl (by_type p r) v bs.
Proof. intros H s Ht. unfold by_type. rewrite Ht. by apply H. Qed.
Lemma writes_by_type {A} fl (p r : PE A) v bs : writes fl r v bs -> writes fl (by_type p r) v bs.
Proof. intros H s pre old post Ht. unfold by_type. rewrite Ht. by apply H. Qed.
Lemma emits_by_type {A} fl (p r : PE A) v bs :
  sizes fl p v bs -> writes fl r v bs -> emits fl (by_type p r) v bs.
Proof. split; [by apply sizes_by_type|by apply writes_by_type]. Qed.

Lemma by_context_eq {A} (fl : bool) (a b c : PE A) s :
  ctx fl (pe_flexible s) -> by_context a b c s = if fl then b s else a s.
Proof.
  unfold by_context, is_fixed, is_flexible_ctx. destruct fl; cbn; intros H.
  - destruct (Z.eqb_spec (pe_flexible s) 0); [lia|]. by replace (0 <? pe_flexible s) with true by lia.
  - by rewrite H.
Qed.
Lemma sizes_by_context {A} fl (a b c : PE A) v bs :
  sizes fl (if fl then b else a) v bs -> sizes fl (by_context a b c) v bs.
Proof. intros H s Ht Hc. rewrite (by_context_eq fl) by done. destruct fl; by apply H. Qed.
Lemma writes_by_context {A} fl (a b c : PE A) v bs :
  writes fl (if fl then b else a) v bs -> writes fl (by_context a b c) v bs.
Proof.
  intros H s pre old post Ht Hc. rewrite (by_context_eq fl) by done. destruct fl; by apply H.
Qed.
Lemma consumes_by_ctx {A} fl (a b c : M packet_decoder A) v bs :
  consumes fl (if fl then b else a) v bs -> consumes fl (by_ctx a b c) v bs.
Proof.
  intros H d tl Hok Hc. unfold by_ctx. destruct fl; cbn in Hc.
  - replace (pd_flexible d =? 0) with false by lia.
    replace (0 <? pd_flexible d) with true by lia. by apply H.
  - rewrite Hc. by apply H.
Qed.

(** ** Storing and adding *)

Lemma sizes_add_length fl n bs : Zlen bs = n -> sizes fl (add_length n) tt bs.
Proof. intros <- s Ht Hc H0 Hl. done. Qed.
Lemma writes_store fl bs : writes fl (store bs) tt bs.
Proof.
  intros s pre old post Ht Hc Hr Ho Hoff Hl. unfold store. rewrite Hr, Hoff.
  by rewrite poke_spec by done.
Qed.
Lemma writes_room {A} fl n (e : PE A) v bs :
  n <= Zlen bs -> writes fl e v bs -> writes fl (assert_room n ;;; e) v bs.
Proof.
  intros Hn He s pre old post Ht Hc Hr Ho Hoff Hl. unfold bind, assert_room.
  replace (m_offset s + n <=? Zlen (m_raw s)) with true.
  - by apply (He s pre old post).
  - symmetry. apply Z.leb_le. rewrite Hr, !Zlen_app. pose proof (Zlen_nonneg post). lia.
Qed.
Lemma writes_room_after fl e bs :
  writes fl e tt bs -> writes fl (e ;;; assert_room 0) tt bs.
Proof.
  intros He s pre old post Ht Hc Hr Ho Hoff Hl. unfold bind. rewrite (He s pre old post) by done.
  unfold assert_room; cbn. replace (_ <=? _) with true; [done|].
  symmetry. apply Z.leb_le. rewrite !Zlen_app. pose proof (Zlen_nonneg post). lia.
Qed.

Lemma emits_store_sized fl n bs :
  Zlen bs = n -> emits fl (by_type (add_length n) (assert_room n ;;; store bs)) tt bs.
Proof.
  intros H. apply emits_by_type; [by apply sizes_add_length|].
  apply writes_room; [lia|apply writes_store].
Qed.

Lemma sizes_as {A} fl (e : PE A) v bs bs' : sizes fl e v bs' -> bs' = bs -> sizes fl e v bs.
Proof. by intros ? <-. Qed.
Lemma writes_as {A} fl (e : PE A) v bs bs' : writes fl e v bs' -> bs' = bs -> writes fl e v bs.
Proof. by intros ? <-. Qed.
Lemma emits_as {A} fl (e : PE A) v bs bs' : emits fl e v bs' -> bs' = bs -> emits fl e v bs.
Proof. by intros ? <-. Qed.
Lemma consumes_as {A} fl (g : M packet_decoder A) v bs bs' :
  consumes fl g v bs' -> bs' = bs -> consumes fl g v bs.
Proof. by intros ? <-. Qed.

(** ** The wire format

    What the encoder's members put on the wire, as functions of the value. *)

Definition w_uvarint (x : Z) : list Z := encodeUVariant x.
Definition w_varint (x : Z) : list Z := encodeVariant x.
Definition w_array_length (fl : bool) (n : Z) : list Z :=
  if fl then w_uvarint (n + 1) else be 4 n.
Definition w_bool (b : bool) : list Z := be 1 (if b then 1 else 0).
Definition w_bytes (fl : bool) (s : list Z) : list Z :=
  if fl then w_uvarint (Zlen s + 1) ++ s
  else if empty s then be 4 (-1) else be 4 (Zlen s) ++ s.
Definition w_varint_bytes (s : list Z) : list Z :=
  if empty s then w_varint (-1) else w_varint (Zlen s) ++ s.
Definition w_string (fl : bool) (s : list Z) : list Z :=
  (if fl then w_uvarint (Zlen s + 1) else be 2 (Zlen s)) ++ s.
Definition w_nullable_string (fl : bool) (s : list Z) : list Z :=
  if empty s then (if fl then w_uvarint 0 else be 2 (-1)) else w_string fl s.
Definition w_list {X} (w : X -> list Z) (l : list X) : list Z := concat (map w l).
Definition w_tags (fl : bool) : list Z := if fl then w_uvarint 0 else [].
Definition w_when (c : bool) (bs : list Z) : list Z := if c then bs else [].

(** Values the format can carry *)
Definition string_ok (fl : bool) (s : list Z) : Prop :=
  if fl then Zlen s < INT32_MAX else Zlen s <= INT16_MAX.
Definition bytes_ok (s : list Z) : Prop := Zlen s < INT32_MAX.

#[export] Instance string_ok_dec fl s : Decision (string_ok fl s).
Proof. unfold string_ok. destruct fl; apply _. Defined.
#[export] Instance bytes_ok_dec s : Decision (bytes_ok s).
Proof. unfold bytes_ok. apply _. Defined.
(** The sizing pass counts what the writing pass writes. *)
Definition varint_sized (x : Z) : bool := negb ((0 <=? x) && top_group_full 10 x).
