(* ===== verification/CodecEnc.v ===== *)
(** * What each encoder member emits *)
From Stdlib Require Import ZArith Lia Bool.
From stdpp Require Import base tactics list numbers sets.
From S2P Require Import Prelude Errors Wire Crc Fields Encoder Decoder Codec.

Create HintDb emit discriminated.

(** ** Integers *)

Lemma emits_putInt8 fl x : emits fl (putInt8 x) tt (be 1 x).
Proof.
  unfold putInt8. assert (be 1 x = [to_u8 x]) as ->.
  { cbn. change (8 * 0) with 0. by rewrite Z.shiftr_0_r, land_255. }
  by apply emits_store_sized.
Qed.
Lemma emits_putInt16 fl x : emits fl (putInt16 x) tt (be 2 x).
Proof. by apply emits_store_sized. Qed.
Lemma emits_putInt32 fl x : emits fl (putInt32 x) tt (be 4 x).
Proof. by apply emits_store_sized. Qed.
Lemma emits_putInt64 fl x : emits fl (putInt64 x) tt (be 8 x).
Proof. by apply emits_store_sized. Qed.
#[export] Hint Resolve emits_putInt8 emits_putInt16 emits_putInt32 emits_putInt64 : emit.

Lemma emits_putUVarint fl x : in_u 64 x -> emits fl (putUVarint x) tt (w_uvarint x).
Proof.
  intros Hx. apply emits_by_type.
  - apply sizes_add_length. by apply Zlen_encodeUVariant.
  - apply writes_room_after, writes_store.
Qed.

Lemma varint_sized_spec x : in_s 64 x -> varint_sized x = true <-> Zlen (w_varint x) = varintLen x.
Proof.
  intros Hx. unfold w_varint, varint_sized. rewrite Zlen_encodeVariant by done.
  destruct (_ && _); cbn; split; intros; try done; lia.
Qed.
Lemma emits_putVariant fl x :
  in_s 64 x -> varint_sized x = true -> emits fl (putVariant x) tt (w_varint x).
Proof.
  intros Hx Hs. apply emits_by_type.
  - apply sizes_add_length. by apply varint_sized_spec.
  - apply writes_room_after, writes_store.
Qed.
#[export] Hint Resolve emits_putUVarint emits_putVariant : emit.

(** ** Weakening a member to one of its two passes *)

Lemma emits_sizes {A} fl (e : PE A) v bs : emits fl e v bs -> sizes fl e v bs.
Proof. by intros []. Qed.
Lemma emits_writes {A} fl (e : PE A) v bs : emits fl e v bs -> writes fl e v bs.
Proof. by intros []. Qed.

(** A call whose value is then replaced: [e ;;; ret w]. *)
Lemma sizes_then {A B} fl (e : PE A) v (w : B) bs :
  sizes fl e v bs -> sizes fl (e ;;; ret w) w bs.
Proof.
  intros H. eapply sizes_as; [eapply sizes_bind; [exact H|apply sizes_ret]|apply app_nil_r].
Qed.
Lemma writes_then {A B} fl (e : PE A) v (w : B) bs :
  writes fl e v bs -> writes fl (e ;;; ret w) w bs.
Proof.
  intros H. eapply writes_as; [eapply writes_bind; [exact H|apply writes_ret]|apply app_nil_r].
Qed.
Lemma emits_then {A B} fl (e : PE A) v (w : B) bs :
  emits fl e v bs -> emits fl (e ;;; ret w) w bs.
Proof. intros []. split; [by eapply sizes_then|by eapply writes_then]. Qed.

(** [try]: the call succeeds, the rest runs. *)
Lemma sizes_try fl (e k : PE Z) w b1 b2 :
  sizes fl e 0 b1 -> sizes fl k w b2 -> sizes fl (try e ;;; k) w (b1 ++ b2).
Proof. intros H1 H2. eapply sizes_bind; [exact H1|]. done. Qed.
Lemma emits_try fl (e k : PE Z) w b1 b2 :
  emits fl e 0 b1 -> emits fl k w b2 -> emits fl (try e ;;; k) w (b1 ++ b2).
Proof. intros H1 H2. eapply emits_bind; [exact H1|]. done. Qed.
Lemma emits_seq {A B} fl (e : PE A) (k : PE B) v w b1 b2 :
  emits fl e v b1 -> emits fl k w b2 -> emits fl (e ;;; k) w (b1 ++ b2).
Proof. intros H1 H2. by eapply emits_bind. Qed.

Lemma emits_when fl c e bs : (c = true -> emits fl e 0 bs) -> emits fl (when c e) 0 (w_when c bs).
Proof. intros H. destruct c; [by apply H|apply emits_ret]. Qed.
Lemma emits_whenU fl c e bs : (c = true -> emits fl e tt bs) -> emits fl (whenU c e) tt (w_when c bs).
Proof. intros H. destruct c; [by apply H|apply emits_ret]. Qed.

Lemma emits_for_try {X} fl (l : list X) f w :
  (forall x, x ∈ l -> emits fl (f x) 0 (w x)) -> emits fl (for_try l f) 0 (w_list w l).
Proof.
  induction l as [|x l IH]; intros H; [apply emits_ret|].
  apply emits_try; [apply H; set_solver|apply IH; intros; apply H; set_solver].
Qed.
Lemma emits_for_do {X} fl (l : list X) f w :
  (forall x, x ∈ l -> emits fl (f x) tt (w x)) -> emits fl (for_do l f) tt (w_list w l).
Proof.
  induction l as [|x l IH]; intros H; [apply emits_ret|].
  eapply emits_seq; [apply H; set_solver|apply IH; intros; apply H; set_solver].
Qed.

(** ** Lengths and small values *)

Lemma to_i32_len {A} (l : list A) : Zlen l < LIMIT -> to_i32 (Zlen l) = Zlen l.
Proof.
  intros. apply to_s_id; [lia|]. pose proof (Zlen_nonneg l). unfold in_s, LIMIT in *.
  change (2 ^ (32 - 1)) with (2 ^ 31). lia.
Qed.
Lemma i32_arith_ok {S} z : in_s 32 z -> @i32_arith S z = ret z.
Proof. intros. unfold i32_arith. by rewrite bool_decide_true. Qed.

Lemma emits_put_compact_length fl n :
  0 <= n < INT32_MAX -> emits fl (put_compact_length n) tt (w_uvarint (n + 1)).
Proof.
  unfold INT32_MAX. intros Hn. unfold put_compact_length.
  rewrite i32_arith_ok by (unfold in_s; change (2 ^ (32 - 1)) with 2147483648; lia).
  eapply emits_as; [eapply (emits_seq _ (ret (n + 1))); [apply emits_ret|]|done].
  rewrite to_u_id by (unfold in_u; lia). apply emits_putUVarint. unfold in_u; lia.
Qed.

Lemma emits_putArrayLength fl n :
  0 <= n < INT32_MAX -> emits fl (putArrayLength n) 0 (w_array_length fl n).
Proof.
  intros Hn. unfold putArrayLength. apply emits_by_type.
  - apply sizes_by_context. destruct fl.
    + eapply sizes_then, emits_sizes. by apply emits_put_compact_length.
    + replace (INT32_MAX <? n) with false by lia. eapply sizes_then. by apply sizes_add_length.
  - eapply writes_then, writes_by_context. destruct fl.
    + apply emits_writes. by apply emits_put_compact_length.
    + rewrite to_s_id; [apply emits_writes, emits_putInt32|lia|].
      unfold in_s, INT32_MAX in *. change (2 ^ (32 - 1)) with 2147483648. lia.
Qed.

Lemma emits_putBool fl b : emits fl (putBool b) tt (w_bool b).
Proof. apply emits_by_type; [by apply sizes_add_length|apply emits_writes, emits_putInt8]. Qed.
Lemma emits_putKError fl x : in_s 16 x -> emits fl (putKError x) tt (be 2 x).
Proof.
  intros. apply emits_by_type; [by apply sizes_add_length|].
  rewrite to_s_id by (done || lia). apply emits_writes, emits_putInt16.
Qed.
Lemma emits_putDurationMs fl x : in_s 32 x -> emits fl (putDurationMs x) tt (be 4 x).
Proof.
  intros. apply emits_by_type; [by apply sizes_add_length|].
  rewrite to_s_id by (done || lia). apply emits_writes, emits_putInt32.
Qed.
#[export] Hint Resolve emits_putArrayLength emits_putBool emits_putKError emits_putDurationMs : emit.

(** ** Byte strings *)

Lemma emits_putRawBytes fl s : bytes_ok s -> emits fl (putRawBytes s) 0 s.
Proof.
  unfold bytes_ok. intros Hs. apply emits_by_type.
  - replace (INT32_MAX <? Zlen s) with false by lia.
    rewrite to_i32_len by (unfold LIMIT, INT32_MAX in *; lia).
    eapply sizes_then. by apply sizes_add_length.
  - apply writes_room; [lia|]. eapply writes_then, writes_store.
Qed.

Lemma empty_nil s : empty s = true -> s = [].
Proof. unfold empty. destruct s; [done|]. rewrite Zlen_cons. pose proof (Zlen_nonneg s). lia. Qed.

Lemma compact_length_ok {A} (s : list A) : Zlen s < INT32_MAX -> in_u 64 (Zlen s + 1).
Proof. pose proof (Zlen_nonneg s). unfold in_u, INT32_MAX. lia. Qed.

Lemma emits_putBytes fl s : bytes_ok s -> emits fl (putBytes s) 0 (w_bytes fl s).
Proof.
  intros Hs. pose proof Hs as Hs'. unfold bytes_ok in Hs'. pose proof (compact_length_ok s Hs').
  apply emits_by_type; [apply sizes_by_context|apply writes_by_context]; unfold w_bytes; destruct fl.
  - rewrite to_u_id by done.
    eapply sizes_bind; [by apply emits_sizes, emits_putUVarint|by apply emits_sizes, emits_putRawBytes].
  - destruct (empty s) eqn:E.
    + eapply sizes_then. by apply sizes_add_length.
    + replace (INT32_MAX <? Zlen s) with false by lia.
      eapply sizes_bind; [by apply sizes_add_length|by apply emits_sizes, emits_putRawBytes].
  - rewrite to_u_id by done.
    eapply writes_bind; [by apply emits_writes, emits_putUVarint|by apply emits_writes, emits_putRawBytes].
  - rewrite to_i32_len by (unfold LIMIT, INT32_MAX in *; lia). destruct (empty s) eqn:E.
    + eapply writes_then, emits_writes, emits_putInt32.
    + eapply writes_bind; [apply emits_writes, emits_putInt32|].
      by eapply writes_then, emits_writes, emits_putRawBytes.
Qed.

Lemma emits_putVariantBytes fl s :
  bytes_ok s -> varint_sized (Zlen s) = true -> emits fl (putVariantBytes s) 0 (w_varint_bytes s).
Proof.
  intros Hs Hv. pose proof (Zlen_nonneg s).
  assert (in_s 64 (Zlen s)) by (unfold bytes_ok, INT32_MAX, in_s in *; change (2 ^ (64 - 1)) with (2 ^ 63); lia).
  unfold putVariantBytes, w_varint_bytes. destruct (empty s) eqn:E.
  - split; [apply sizes_by_type, emits_sizes|apply writes_by_type, emits_writes];
      by eapply emits_then, emits_putVariant.
  - apply emits_by_type.
    + eapply sizes_bind; [by apply emits_sizes, emits_putVariant|by apply emits_sizes, emits_putRawBytes].
    + eapply writes_bind; [by apply emits_writes, emits_putVariant|].
      by eapply writes_then, emits_writes, emits_putRawBytes.
Qed.

Lemma string_ok_len fl s : string_ok fl s -> Zlen s < INT32_MAX.
Proof. unfold string_ok, INT32_MAX, INT16_MAX. destruct fl; lia. Qed.

Lemma emits_putString fl s : string_ok fl s -> emits fl (putString s) 0 (w_string fl s).
Proof.
  intros Hs. pose proof (string_ok_len _ _ Hs) as Hl. pose proof (Zlen_nonneg s).
  unfold putString, w_string. rewrite to_i32_len by (unfold LIMIT, INT32_MAX in *; lia).
  apply emits_by_type; [apply sizes_by_context|apply writes_by_context]; destruct fl; cbn in Hs.
  - eapply sizes_try; [apply emits_sizes, (emits_putArrayLength true); lia|].
    by apply emits_sizes, emits_putRawBytes.
  - replace (INT16_MAX <? Zlen s) with false by lia.
    eapply sizes_bind; [by apply sizes_add_length|]. eapply sizes_then. by apply sizes_add_length.
  - eapply writes_bind; [apply emits_writes, (emits_putArrayLength true); lia|].
    by eapply writes_then, emits_writes, emits_putRawBytes.
  - rewrite to_s_id by (unfold in_s, INT16_MAX in *; change (2 ^ (16 - 1)) with 32768; lia).
    eapply writes_bind; [apply emits_writes, emits_putInt16|].
    apply writes_room; [lia|]. eapply writes_then, writes_store.
Qed.

Lemma emits_putNullableString fl s :
  string_ok fl s -> emits fl (putNullableString s) 0 (w_nullable_string fl s).
Proof.
  intros Hs. unfold putNullableString, w_nullable_string.
  apply emits_by_type; [apply sizes_by_context|apply writes_by_context]; destruct fl, (empty s) eqn:E.
  - by eapply sizes_then, emits_sizes, emits_putUVarint.
  - by apply emits_sizes, emits_putString.
  - eapply sizes_then. by apply sizes_add_length.
  - by apply emits_sizes, emits_putString.
  - by eapply writes_then, emits_writes, emits_putUVarint.
  - by apply emits_writes, emits_putString.
  - eapply writes_then, emits_writes, emits_putInt16.
  - by eapply writes_then, emits_writes, emits_putString.
Qed.

Lemma emits_putEmptyTaggedFieldArray fl : emits fl putEmptyTaggedFieldArray tt (w_tags fl).
Proof.
  apply emits_by_type; [apply sizes_by_context|apply writes_by_context]; destruct fl.
  1: by apply emits_sizes, emits_putUVarint. 1: apply sizes_ret.
  1: by apply emits_writes, emits_putUVarint. apply writes_ret.
Qed.
#[export] Hint Resolve emits_putRawBytes emits_putBytes emits_putVariantBytes emits_putString
  emits_putNullableString emits_putEmptyTaggedFieldArray : emit.

(** ** Arrays *)

Definition array_ok {A} (l : list A) : Prop := Zlen l < 2 ^ 28.
#[export] Instance array_ok_dec {A} (l : list A) : Decision (array_ok l).
Proof. unfold array_ok. apply _. Defined.

Definition w_int32_array (fl : bool) (l : list Z) : list Z :=
  w_array_length fl (Zlen l) ++ w_list (be 4) l.
Definition w_int64_array (fl : bool) (l : list Z) : list Z :=
  w_array_length fl (Zlen l) ++ w_list (be 8) l.
Definition w_nullable_int32_array (fl : bool) (l : list Z) : list Z :=
  if empty l then (if fl then w_uvarint 0 else be 4 (-1)) else w_int32_array fl l.
Definition w_string_array (fl : bool) (l : list (list Z)) : list Z :=
  w_array_length fl (Zlen l) ++ w_list (w_string fl) l.

Lemma array_ok_len {A} (l : list A) : array_ok l -> 0 <= Zlen l < INT32_MAX.
Proof. unfold array_ok, INT32_MAX. pose proof (Zlen_nonneg l). lia. Qed.
Lemma array_to_i32 {A} (l : list A) : array_ok l -> to_i32 (Zlen l) = Zlen l.
Proof. unfold array_ok. intros. apply to_i32_len. unfold LIMIT. lia. Qed.

Lemma Zlen_w_list {X} (w : X -> list Z) k l :
  (forall x, x ∈ l -> Zlen (w x) = k) -> Zlen (w_list w l) = k * Zlen l.
Proof.
  unfold w_list. induction l as [|x l IH]; intros H; [unfold Zlen; cbn; lia|].
  cbn [map concat]. rewrite Zlen_app, H, IH, Zlen_cons by set_solver. lia.
Qed.

Lemma sizes_add_elements {X} fl k (l : list X) w :
  array_ok l -> 0 <= k <= 8 -> (forall x, Zlen (w x) = k) ->
  sizes fl (add_elements k l) tt (w_list w l).
Proof.
  intros Hl Hk Hw. unfold add_elements. rewrite array_to_i32 by done.
  pose proof Hl as Hl'. unfold array_ok in Hl'. pose proof (Zlen_nonneg l).
  rewrite i32_arith_ok by (unfold in_s; change (2 ^ (32 - 1)) with (2 ^ 31); nia).
  eapply sizes_as; [eapply sizes_bind; [apply sizes_ret|]|apply app_nil_l].
  apply sizes_add_length. apply Zlen_w_list. intros; apply Hw.
Qed.

Lemma emits_int_array fl k (put : Z -> PE unit) w l :
  array_ok l -> 0 <= k <= 8 -> (forall x, Zlen (w x) = k) ->
  (forall x, emits fl (put x) tt (w x)) ->
  sizes fl (add_elements k l ;;; ret 0) 0 (w_list w l) /\
  writes fl (for_do l put ;;; ret 0) 0 (w_list w l).
Proof.
  intros Hl Hk Hw Hp. split.
  - by eapply sizes_then, sizes_add_elements.
  - eapply writes_then, emits_writes, emits_for_do. auto.
Qed.

Lemma emits_compact_array_length l :
  array_ok l -> emits true (putUVarint (to_u64 (Zlen (l : list Z) + 1))) tt (w_array_length true (Zlen l)).
Proof.
  intros Hl%array_ok_len. pose proof (compact_length_ok l (proj2 Hl)).
  rewrite to_u_id by done. by apply emits_putUVarint.
Qed.

Lemma emits_putInt32Array fl l : array_ok l -> emits fl (putInt32Array l) 0 (w_int32_array fl l).
Proof.
  intros Hl. destruct (emits_int_array fl 4 putInt32 (be 4) l) as [Hs Hw];
    [done|lia|intros; apply Zlen_be|intros; apply emits_putInt32|].
  unfold putInt32Array. rewrite array_to_i32 by done.
  apply emits_by_type; [apply sizes_by_context|apply writes_by_context]; destruct fl.
  - eapply sizes_bind; [by apply emits_sizes, emits_compact_array_length|done].
  - eapply sizes_bind; [by apply sizes_add_length|done].
  - eapply writes_bind; [by apply emits_writes, emits_compact_array_length|done].
  - eapply writes_bind; [by apply emits_writes, (emits_putArrayLength false), array_ok_len|done].
Qed.

Lemma emits_putInt64Array fl l : array_ok l -> emits fl (putInt64Array l) 0 (w_int64_array fl l).
Proof.
  intros Hl. destruct (emits_int_array fl 8 putInt64 (be 8) l) as [Hs Hw];
    [done|lia|intros; apply Zlen_be|intros; apply emits_putInt64|].
  unfold putInt64Array. rewrite array_to_i32 by done. apply emits_by_type.
  - eapply sizes_try; [by apply emits_sizes, emits_putArrayLength, array_ok_len|done].
  - eapply writes_bind; [by apply emits_writes, emits_putArrayLength, array_ok_len|done].
Qed.

Lemma emits_putNullableInt32Array fl l :
  array_ok l -> emits fl (putNullableInt32Array l) 0 (w_nullable_int32_array fl l).
Proof.
  intros Hl. destruct (emits_int_array fl 4 putInt32 (be 4) l) as [Hs Hw];
    [done|lia|intros; apply Zlen_be|intros; apply emits_putInt32|].
  unfold putNullableInt32Array, w_nullable_int32_array. rewrite array_to_i32 by done.
  apply emits_by_type; [apply sizes_by_context|apply writes_by_context]; destruct fl, (empty l).
  - by eapply sizes_then, emits_sizes, emits_putUVarint.
  - eapply sizes_bind; [by apply emits_sizes, emits_compact_array_length|done].
  - eapply sizes_then. by apply sizes_add_length.
  - eapply sizes_try; [by apply emits_sizes, (emits_putArrayLength false), array_ok_len|done].
  - by eapply writes_then, emits_writes, emits_putUVarint.
  - eapply writes_bind; [by apply emits_writes, emits_compact_array_length|done].
  - eapply writes_then, emits_writes, emits_putInt32.
  - eapply writes_bind; [by apply emits_writes, (emits_putArrayLength false), array_ok_len|done].
Qed.

(** In a flexible context the sizing pass counts four bytes per string: only the
    fixed context is covered here ([putStringArray_flexible_missized]). *)
Lemma emits_putStringArray l :
  array_ok l -> Forall (string_ok false) l -> emits false (putStringArray l) 0 (w_string_array false l).
Proof.
  intros Hl Hs. rewrite Forall_forall in Hs. unfold putStringArray, w_string_array.
  rewrite array_to_i32 by done. apply emits_by_type; [apply sizes_by_context|apply writes_by_context].
  - eapply sizes_try; [by apply emits_sizes, (emits_putArrayLength false), array_ok_len|].
    apply emits_sizes, emits_for_try. intros. by apply emits_putString, Hs.
  - eapply writes_bind; [by apply emits_writes, (emits_putArrayLength false), array_ok_len|].
    eapply writes_then, emits_writes, emits_for_do. intros. by eapply emits_then, emits_putString, Hs.
Qed.
#[export] Hint Resolve emits_putInt32Array emits_putInt64Array emits_putNullableInt32Array
  emits_putStringArray : emit.

(** ** Deferred fields *)

(** What a four-byte field ends up holding when [bs] lies between its push and
    its pop. *)
Definition field_value (f : push_field) (bs : list Z) : list Z :=
  match f with
  | FLength _ => be 4 (Zlen bs)
  | FCrc32 c => be 4 (crc_of (cf_polynomial c) bs)
  | FVariantLength _ => []
  end.
Definition is_static (f : push_field) : bool :=
  match f with FVariantLength _ => false | _ => true end.

Lemma Zlen_field_value f bs : is_static f = true -> Zlen (field_value f bs) = 4.
Proof. destruct f; intros; try done; apply Zlen_be. Qed.
Lemma reserve_static f o : is_static f = true -> reserve_length (save_offset f o) = Some 4.
Proof. by destruct f. Qed.

Lemma to_i32_small z : 0 <= z < LIMIT -> to_i32 z = z.
Proof.
  unfold LIMIT. intros. apply to_s_id; [lia|]. unfold in_s. change (2 ^ (32 - 1)) with (2 ^ 31). lia.
Qed.

Lemma run_static f pre hole bs post :
  is_static f = true -> Zlen hole = 4 -> Zlen (pre ++ hole ++ bs ++ post) < LIMIT ->
  run (save_offset f (Zlen pre)) (Zlen pre + 4 + Zlen bs) (pre ++ hole ++ bs ++ post) =
  Some (pre ++ field_value f bs ++ bs ++ post).
Proof.
  intros Hf Hh Hl. rewrite !Zlen_app in Hl.
  pose proof (Zlen_nonneg pre); pose proof (Zlen_nonneg bs); pose proof (Zlen_nonneg post).
  destruct f as [f|f|f]; try done; cbn.
  - unfold LengthField_run, LengthField_save_offset; cbn.
    replace (Zlen pre + 4 + Zlen bs - Zlen pre - 4) with (Zlen bs) by lia.
    rewrite to_u_id by (unfold in_u, LIMIT in *; lia).
    by apply (poke_spec pre hole (be 4 (Zlen bs))).
  - unfold Crc32Field_run, Crc32Field_covered, Crc32Field_save_offset; cbn.
    replace (Z.max 0 _) with (Zlen bs) by lia.
    replace (Zlen pre + 4) with (Zlen (pre ++ hole)) by (rewrite Zlen_app; lia).
    rewrite (app_assoc pre), peek_bytes_spec, <- app_assoc. by apply poke_spec.
Qed.

Lemma sizes_field {A B} fl f (body : PE A) (K : A -> PE B) v k w b1 b2 :
  is_static f = true -> sizes fl body v b1 ->
  (forall s, K v s = bind pop k s) -> sizes fl (k 0) w b2 ->
  sizes fl (push f ;;; bind body K) w (field_value f b1 ++ b1 ++ b2).
Proof.
  intros Hf Hb HK Hk s Ht Hc H0 Hl.
  rewrite !Zlen_app, Zlen_field_value in * by done.
  pose proof (Zlen_nonneg b1); pose proof (Zlen_nonneg b2).
  unfold bind at 1, push. rewrite reserve_static by done. unfold by_type at 1. rewrite Ht.
  unfold bind at 1. rewrite Hb by (cbn; done || lia). rewrite HK.
  unfold bind at 1, pop, popField. unfold bind at 1, by_type. cbn. rewrite Ht.
  destruct f as [f|f|f]; try done; cbn; (rewrite Hk by (cbn; done || lia)); cbn; f_equal;
    destruct s; unfold set_offset, set_stack; cbn; f_equal; lia.
Qed.

Lemma writes_field {A B} fl f (body : PE A) (K : A -> PE B) v k w b1 b2 :
  is_static f = true -> writes fl body v b1 ->
  (forall s, K v s = bind pop k s) -> writes fl (k 0) w b2 ->
  writes fl (push f ;;; bind body K) w (field_value f b1 ++ b1 ++ b2).
Proof.
  intros Hf Hb HK Hk s pre old post Ht Hc Hr Ho Hoff Hl.
  destruct (split_old _ _ _ Ho) as (hole & o' & -> & Hh & Ho').
  destruct (split_old _ _ _ Ho') as (o1 & o2 & -> & Ho1 & Ho2).
  rewrite Zlen_field_value in Hh by done.
  pose proof Hl as Hl'. rewrite Hr, !Zlen_app in Hl'.
  pose proof (Zlen_nonneg b1); pose proof (Zlen_nonneg b2);
    pose proof (Zlen_nonneg pre); pose proof (Zlen_nonneg post).
  unfold bind at 1, push. rewrite reserve_static by done. unfold by_type at 1. rewrite Ht.
  unfold bind at 1, assert_room at 1. rewrite Hr, !Zlen_app.
  replace (m_offset s + 4 <=? _) with true by lia. unfold modify at 1.
  unfold bind at 1. rewrite (Hb _ (pre ++ hole) o1 (o2 ++ post)); cbn;
    [|done|done|by rewrite Hr, <- !app_assoc|done|rewrite Zlen_app; lia|done].
  rewrite HK. unfold bind at 1, pop, popField. unfold bind at 1, by_type. cbn. rewrite Ht.
  rewrite !to_i32_small, Hoff, <- app_assoc, run_static; cbn;
    try done; try (unfold LIMIT in *; rewrite ?Zlen_app; lia).
  rewrite (Hk _ (pre ++ field_value f b1 ++ b1) o2 post); cbn; try done.
  - rewrite Zlen_field_value, <- !app_assoc by done.
    destruct s; unfold set_offset, set_stack, set_raw; cbn. do 2 f_equal. lia.
  - by rewrite <- !app_assoc.
  - rewrite !Zlen_app, Zlen_field_value by done. lia.
  - rewrite !Zlen_app, Zlen_field_value by done. unfold LIMIT in *. lia.
Qed.

Lemma emits_field {A B} fl f (body : PE A) (K : A -> PE B) v k w b1 b2 :
  is_static f = true -> emits fl body v b1 ->
  (forall s, K v s = bind pop k s) -> emits fl (k 0) w b2 ->
  emits fl (push f ;;; bind body K) w (field_value f b1 ++ b1 ++ b2).
Proof.
  intros Hf [] HK []. split; [by eapply sizes_field|by eapply writes_field].
Qed.
