(* ===== verification/CodecDec.v ===== *)
(** * What each decoder member consumes *)
From Stdlib Require Import ZArith Lia Bool.
From stdpp Require Import base tactics list numbers sets.
From S2P Require Import Prelude Errors Wire Crc Fields Encoder Decoder Codec CodecEnc.

Create HintDb consume discriminated.

(** ** Reading bytes *)

Lemma byte_at_rest d k b : 0 <= pd_offset d -> 0 <= k ->
  rest d !! Z.to_nat k = Some b -> byte_at k d = Done b d.
Proof.
  unfold rest, byte_at. intros Ho Hk. rewrite lookup_drop.
  replace (Z.to_nat (pd_offset d) + Z.to_nat k)%nat with (Z.to_nat (pd_offset d + k)) by lia.
  by intros ->.
Qed.

Lemma remaining_spec d : pd_ok d -> remaining d = Zlen (rest d).
Proof.
  intros [[H0 H1] Hl]. unfold remaining, rest. rewrite to_i32_small.
  - unfold Zlen in *. rewrite length_drop. lia.
  - pose proof (Zlen_nonneg (pd_raw d)). lia.
Qed.

Lemma consumes_when_short {A} fl n (g : PD A) v bs :
  n <= Zlen bs -> consumes fl g v bs -> consumes fl (when_short n g) v bs.
Proof.
  intros Hn Hg d tl Hok Hc Hr. unfold when_short. rewrite remaining_spec, Hr, Zlen_app by done.
  pose proof (Zlen_nonneg tl). replace (_ <? n) with false by lia. by eapply Hg.
Qed.

(** The error branch of every fixed-width read: short input moves the position to
    the end. *)
Lemma when_short_exhausts {A} n (g : PD A) d :
  pd_ok d -> Zlen (rest d) < n ->
  when_short n g d = Done (Err ErrInsufficientData) (set_pd_offset (Zlen (pd_raw d)) d).
Proof.
  intros Hok Hn. unfold when_short. rewrite remaining_spec by done.
  replace (_ <? n) with true by lia. unfold exhaust. rewrite to_i32_small; [done|].
  destruct Hok as [? ?]. pose proof (Zlen_nonneg (pd_raw d)). lia.
Qed.

Ltac read_bytes :=
  repeat (unfold bind at 1; rewrite (byte_at_rest _ _ _) by
            (try lia; try (match goal with H : pd_ok _ |- _ => destruct H as [[? ?] ?]; lia end);
             try (match goal with H : rest _ = _ |- _ => rewrite H end); reflexivity)).

(** ** Big-endian values *)

Lemma be_read n x : be_val (be n x) = to_u (8 * Z.of_nat n) x.
Proof. apply be_val_be. Qed.

Lemma shl32_byte b : is_byte b -> shl32 b 24 = Z.shiftl (to_i8 b) 24.
Proof.
  unfold in_u, shl32. intros Hb. rewrite !Z.shiftl_mul_pow2 by lia.
  unfold to_s. change (2 ^ (32 - 1)) with 2147483648. change (2 ^ 32) with 4294967296.
  change (2 ^ (8 - 1)) with 128. change (2 ^ 8) with 256. change (2 ^ 24) with 16777216.
  Z.div_mod_to_equations. lia.
Qed.
Lemma shl32_small b k : is_byte b -> 0 <= k <= 16 -> shl32 b k = Z.shiftl b k.
Proof.
  unfold in_u, shl32. intros Hb Hk. apply to_s_id; [lia|].
  rewrite Z.shiftl_mul_pow2 by lia. unfold in_s. change (2 ^ (32 - 1)) with (2 ^ 31).
  assert (2 ^ k <= 2 ^ 16) by (apply Z.pow_le_mono_r; lia).
  assert (0 < 2 ^ k) by (apply Z.pow_pos_nonneg; lia).
  change (2 ^ 16) with 65536 in *. change (2 ^ 31) with 2147483648. nia.
Qed.

(** [x << k | y] with [y] below [2 ^ k], for a chain of byte shifts. *)
Lemma lor_chain a b k : 0 <= k -> is_byte b ->
  Z.lor (Z.shiftl a (k + 8)) (Z.shiftl b k) = Z.shiftl (a * 256 + b) k.
Proof.
  unfold in_u. intros Hk Hb. rewrite <- Z.shiftl_shiftl by lia.
  rewrite Z.shiftl_shiftl, Z.add_comm, <- Z.shiftl_shiftl by lia.
  rewrite <- Z.shiftl_lor. f_equal. by rewrite lor_shiftl_low by lia.
Qed.

Lemma lor_last a b : is_byte b -> Z.lor (Z.shiftl a 8) b = a * 256 + b.
Proof. unfold in_u. intros. by rewrite lor_shiftl_low by lia. Qed.

Lemma be32_value b0 b1 b2 b3 :
  is_byte b0 -> is_byte b1 -> is_byte b2 -> is_byte b3 ->
  to_i32 (Z.lor (Z.lor (Z.lor (shl32 b0 24) (shl32 b1 16)) (shl32 b2 8)) b3) =
  to_i32 (be_val [b0; b1; b2; b3]).
Proof.
  intros H0 H1 H2 H3. rewrite shl32_byte, !shl32_small by (done || lia).
  rewrite (lor_chain _ _ 16), (lor_chain _ _ 8) by (done || lia).
  rewrite lor_last by done. unfold be_val; cbn. unfold in_u, to_s in *.
  change (2 ^ (32 - 1)) with 2147483648. change (2 ^ 32) with 4294967296.
  change (2 ^ (8 - 1)) with 128. change (2 ^ 8) with 256 in *.
  Z.div_mod_to_equations. lia.
Qed.

Lemma be64_value b0 b1 b2 b3 b4 b5 b6 b7 :
  Forall (in_u 8) [b0; b1; b2; b3; b4; b5; b6; b7] ->
  Z.lor (Z.lor (Z.lor (Z.lor (Z.lor (Z.lor (Z.lor
    (to_u64 (Z.shiftl b0 56)) (to_u64 (Z.shiftl b1 48))) (to_u64 (Z.shiftl b2 40)))
    (to_u64 (Z.shiftl b3 32))) (to_u64 (Z.shiftl b4 24))) (to_u64 (Z.shiftl b5 16)))
    (to_u64 (Z.shiftl b6 8))) b7 = be_val [b0; b1; b2; b3; b4; b5; b6; b7].
Proof.
  intros H. repeat match goal with H : Forall _ (_ :: _) |- _ => inversion_clear H end.
  assert (forall b k, is_byte b -> 0 <= k <= 56 -> to_u64 (Z.shiftl b k) = Z.shiftl b k) as E.
  { intros b k Hb Hk. apply to_u_id. unfold in_u in *. rewrite Z.shiftl_mul_pow2 by lia.
    assert (2 ^ k <= 2 ^ 56) by (apply Z.pow_le_mono_r; lia).
    assert (0 < 2 ^ k) by (apply Z.pow_pos_nonneg; lia).
    change (2 ^ 64) with (2 ^ 8 * 2 ^ 56). nia. }
  rewrite !E by (done || lia).
  rewrite (lor_chain _ _ 48), (lor_chain _ _ 40), (lor_chain _ _ 32), (lor_chain _ _ 24),
    (lor_chain _ _ 16), (lor_chain _ _ 8) by (done || lia).
  by rewrite lor_last by done.
Qed.

Lemma be_bytes_inv n x : Forall (in_u 8) (be n x).
Proof. apply be_bytes. Qed.

(** Reading [n] bytes in place and stepping over them. *)
Lemma consumes_read {A} fl n (g : M packet_decoder A) v bs :
  Zlen bs = n ->
  (forall d tl, pd_ok d -> rest d = bs ++ tl -> g d = Done v d) ->
  consumes fl (let* r := g in skip n ;;; ok r) (Ok v) bs.
Proof.
  intros <- Hg d tl Hok Hc Hr. unfold bind at 1. by rewrite (Hg d tl).
Qed.

Lemma be32_at_spec x d tl :
  pd_ok d -> rest d = be 4 x ++ tl -> be32_at d = Done (to_i32 x) d.
Proof.
  intros Hok Hr. pose proof (be_bytes 4 x) as Hb. rewrite <- (to_s_mod 32 x) by lia.
  change (x mod 2 ^ 32) with (to_u (8 * Z.of_nat 4) x). rewrite <- be_read.
  unfold be32_at. cbn [be] in *. read_bytes.
  repeat match goal with H : Forall _ (_ :: _) |- _ => inversion_clear H end.
  unfold ret. by rewrite be32_value.
Qed.

Lemma be64_at_spec x d tl :
  pd_ok d -> rest d = be 8 x ++ tl -> be64_at d = Done (to_u64 x) d.
Proof.
  intros Hok Hr. pose proof (be_bytes 8 x) as Hb.
  change (to_u64 x) with (to_u (8 * Z.of_nat 8) x). rewrite <- be_read.
  unfold be64_at. cbn [be] in *. read_bytes. unfold ret. by rewrite be64_value.
Qed.

Lemma consumes_getInt8 fl x : in_s 8 x -> consumes fl getInt8 (Ok x) (be 1 x).
Proof.
  intros Hx. apply consumes_when_short; [done|]. intros d tl Hok Hc Hr.
  cbn [be] in Hr. read_bytes. unfold bind, skip, modify, ok, ret. do 2 f_equal.
  rewrite Z.shiftr_0_r, land_255. by rewrite (to_s_mod 8), to_s_id by (done || lia).
Qed.

Lemma consumes_getInt16 fl x : in_s 16 x -> consumes fl getInt16 (Ok x) (be 2 x).
Proof.
  intros Hx. apply consumes_when_short; [done|]. intros d tl Hok Hc Hr.
  pose proof (be_bytes 2 x) as Hb. pose proof (be_read 2 x) as E.
  cbn [be] in *. read_bytes. unfold bind, skip, modify, ok, ret. do 2 f_equal.
  repeat match goal with H : Forall _ (_ :: _) |- _ => inversion_clear H end.
  rewrite lor_last by done. unfold be_val in E. cbn [fold_left] in E.
  rewrite Z.add_0_l in E. rewrite E. change (8 * Z.of_nat 2) with 16.
  by apply to_s_to_u.
Qed.

Lemma consumes_getInt32 fl x : in_s 32 x -> consumes fl getInt32 (Ok x) (be 4 x).
Proof.
  intros Hx. apply consumes_when_short; [done|]. apply consumes_read; [apply Zlen_be|].
  intros d tl Hok Hr. rewrite (be32_at_spec x d tl) by done. by rewrite to_s_id by (done || lia).
Qed.

Lemma consumes_getInt64 fl x : in_s 64 x -> consumes fl getInt64 (Ok x) (be 8 x).
Proof.
  intros Hx. apply consumes_when_short; [done|]. intros d tl Hok Hc Hr.
  unfold bind at 1. rewrite (be64_at_spec x d tl) by done.
  unfold bind, skip, modify, ok, ret. by rewrite to_s_to_u by (done || lia).
Qed.
#[export] Hint Resolve consumes_getInt8 consumes_getInt16 consumes_getInt32 consumes_getInt64 : consume.

(** ** Varints *)

(** One group: the byte is there, and is stepped over. *)
Lemma consumes_group {A} fl (g : Z -> PD A) v b bs :
  consumes fl (g b) v bs ->
  consumes fl (fun d => if Zlen (pd_raw d) <=? pd_offset d then exhaust ErrInsufficientData d
                        else (let* b := byte_at 0 in skip 1 ;;; g b) d) v (b :: bs).
Proof.
  intros Hg d tl Hok Hc Hr. change ((b :: bs) ++ tl) with ([b] ++ bs ++ tl) in Hr.
  pose proof (rest_bound _ _ _ Hok Hr) as Hb. change (Zlen [b]) with 1 in Hb.
  replace (_ <=? _) with false by lia. unfold bind at 1.
  rewrite (byte_at_rest d 0 b); [|destruct Hok; lia|lia|by rewrite Hr].
  unfold bind, skip, modify. change 1 with (Zlen [b]).
  rewrite (Hg (advance (Zlen [b]) d) tl).
  - unfold advance, set_pd_offset; cbn. rewrite (Zlen_cons b bs). change (Zlen [b]) with 1.
    by rewrite Z.add_assoc.
  - by eapply pd_ok_advance.
  - done.
  - by eapply rest_advance.
Qed.

(** Adding a group at position [i] keeps the value in 64 bits. *)
Lemma group_value acc x i :
  0 <= i -> 0 <= acc < 2 ^ (7 * i) -> 0 <= x -> x * 2 ^ (7 * i) < 2 ^ 63 ->
  Z.lor acc (to_u64 (Z.shiftl x (7 * i))) = acc + x * 2 ^ (7 * i).
Proof.
  intros Hi Ha Hx Hb. rewrite to_u_id.
  - by apply lor_low_shiftl; [lia|].
  - rewrite Z.shiftl_mul_pow2 by lia. assert (0 < 2 ^ (7 * i)) by (apply Z.pow_pos_nonneg; lia).
    unfold in_u. change (2 ^ 64) with (2 * 2 ^ 63). nia.
Qed.

Lemma next_group acc x i :
  0 <= i -> 0 <= acc < 2 ^ (7 * i) -> 128 <= x -> x * 2 ^ (7 * i) < 2 ^ 63 ->
  let acc' := acc + (x mod 128) * 2 ^ (7 * i) in
  0 <= acc' < 2 ^ (7 * (i + 1)) /\ 1 <= Z.shiftr x 7 /\
  Z.shiftr x 7 * 2 ^ (7 * (i + 1)) < 2 ^ 63 /\
  acc' + Z.shiftr x 7 * 2 ^ (7 * (i + 1)) = acc + x * 2 ^ (7 * i) /\ i + 1 < 9.
Proof.
  intros Hi Ha Hx Hb. rewrite Z.shiftr_div_pow2 by lia. change (2 ^ 7) with 128.
  replace (7 * (i + 1)) with (7 * i + 7) by lia. rewrite Z.pow_add_r by lia. change (2 ^ 7) with 128.
  assert (i + 1 < 9) as Hi9.
  { destruct (Z.lt_ge_cases (i + 1) 9); [done|].
    assert (2 ^ 56 <= 2 ^ (7 * i)) by (apply Z.pow_le_mono_r; lia).
    change (2 ^ 63) with (128 * 2 ^ 56) in Hb. nia. }
  set (p := 2 ^ (7 * i)) in *. assert (0 < p) by (apply Z.pow_pos_nonneg; lia).
  pose proof (Z.div_mod x 128 ltac:(lia)) as E. pose proof (Z.mod_pos_bound x 128 ltac:(lia)).
  assert (1 <= x / 128) by (apply Z.div_le_lower_bound; lia).
  assert (x / 128 * 128 <= x) by lia.
  split_and!; nia || done.
Qed.


Ltac step_group :=
  match goal with
  | |- consumes ?fl (fun d => if _ then _ else
         bind (byte_at 0) (fun b => bind (skip 1) (fun _ => @?G b)) d) _ _ =>
      apply (consumes_group fl G); cbv beta zeta
  end.

Lemma consumes_getUVariant_loop fl fuel i acc x :
  (0 < fuel)%nat -> Z.of_nat fuel + i = 10 -> 0 <= i -> 0 <= acc < 2 ^ (7 * i) ->
  0 <= x -> (i = 0 \/ 1 <= x) -> x * 2 ^ (7 * i) < 2 ^ 63 ->
  consumes fl (getUVariant_loop fuel i (7 * i) acc) (Ok (acc + x * 2 ^ (7 * i)))
    (encodeUVariant_loop fuel x).
Proof.
  revert i acc x. induction fuel as [|fuel IH]; intros i acc x Hf Hs Hi Ha Hx Hn Hb; [lia|].
  cbn [encodeUVariant_loop getUVariant_loop]. destruct (Z.leb_spec 128 x).
  - destruct (next_group acc x i Hi Ha ltac:(lia) Hb) as (Ha' & Hx' & Hb' & E & Hi').
    step_group. rewrite flag_continued, low7_continued, group_value by
      (try lia; pose proof (Z.mod_le x 128); assert (0 < 2 ^ (7 * i)) by (apply Z.pow_pos_nonneg; lia); nia).
    rewrite <- E. replace (7 * i + 7) with (7 * (i + 1)) by lia.
    apply IH; lia.
  - step_group. rewrite flag_last, low7_last, group_value by lia.
    destruct (Z.eqb_spec i 9) as [->|]; [|apply consumes_ret].
    exfalso. change (2 ^ (7 * 9)) with (2 ^ 63) in Hb. lia.
Qed.

Lemma consumes_getVariant_loop fl fuel i acc x :
  (0 < fuel)%nat -> Z.of_nat fuel + i = 10 -> 0 <= i -> 0 <= acc < 2 ^ (7 * i) ->
  0 <= x -> (i = 0 \/ 1 <= x) -> x * 2 ^ (7 * i) < 2 ^ 63 ->
  consumes fl (getVariant_loop fuel i (7 * i) acc) (Ok (zigzagDecode (acc + x * 2 ^ (7 * i))))
    (encodeUVariant_loop fuel x).
Proof.
  revert i acc x. induction fuel as [|fuel IH]; intros i acc x Hf Hs Hi Ha Hx Hn Hb; [lia|].
  cbn [encodeUVariant_loop getVariant_loop]. destruct (Z.leb_spec 128 x).
  - destruct (next_group acc x i Hi Ha ltac:(lia) Hb) as (Ha' & Hx' & Hb' & E & Hi').
    step_group. rewrite flag_continued, low7_continued, group_value by
      (try lia; pose proof (Z.mod_le x 128); assert (0 < 2 ^ (7 * i)) by (apply Z.pow_pos_nonneg; lia); nia).
    rewrite <- E. replace (7 * i + 7) with (7 * (i + 1)) by lia.
    apply IH; lia.
  - step_group. rewrite flag_last, low7_last, group_value by lia.
    destruct (Z.eqb_spec i 9) as [->|]; [|apply consumes_ret].
    exfalso. change (2 ^ (7 * 9)) with (2 ^ 63) in Hb. lia.
Qed.

Lemma consumes_getUVariant fl x :
  0 <= x < 2 ^ 63 -> consumes fl getUVariant (Ok x) (w_uvarint x).
Proof.
  intros Hx. pose proof (consumes_getUVariant_loop fl 10 0 0 x) as H.
  change (2 ^ (7 * 0)) with 1 in H. rewrite Z.add_0_l, Z.mul_1_r in H. apply H; lia.
Qed.

(** Signed values survive when their zigzag image fits in nine groups. *)
Definition varint_decodable (x : Z) : Prop := - 2 ^ 62 <= x < 2 ^ 62.
#[export] Instance varint_decodable_dec x : Decision (varint_decodable x).
Proof. unfold varint_decodable. apply _. Defined.

Lemma decodable_in_s x : varint_decodable x -> in_s 64 x.
Proof. unfold varint_decodable, in_s. change (2 ^ (64 - 1)) with (2 * 2 ^ 62). lia. Qed.

Lemma consumes_getVariant fl x :
  varint_decodable x -> consumes fl getVariant (Ok x) (w_varint x).
Proof.
  intros Hx. pose proof (decodable_in_s x Hx) as Hs.
  pose proof (zigzagEncode_range x Hs) as [Hz _].
  assert (zigzagEncode x < 2 ^ 63) as Hz'.
  { rewrite zigzagEncode_spec by done. unfold varint_decodable in Hx.
    change (2 ^ 63) with (2 * 2 ^ 62). destruct (Z.ltb_spec x 0); lia. }
  pose proof (consumes_getVariant_loop fl 10 0 0 (zigzagEncode x)) as H.
  change (2 ^ (7 * 0)) with 1 in H. rewrite Z.add_0_l, Z.mul_1_r, zigzag_roundtrip in H by done.
  apply H; lia.
Qed.
#[export] Hint Resolve consumes_getUVariant consumes_getVariant : consume.

(** ** Sequencing *)

Lemma consumes_let {A B} fl (g : PD A) (k : A -> PD B) v w b1 b2 :
  consumes fl g (Ok v) b1 -> consumes fl (k v) w b2 ->
  consumes fl (let! x := g in k x) w (b1 ++ b2).
Proof. intros H1 H2. eapply consumes_bind; [exact H1|]. done. Qed.
Lemma consumes_let_or {A B} fl c (g : PD A) (k : A -> PD B) v w b1 b2 :
  consumes fl g (Ok v) b1 -> consumes fl (k v) w b2 ->
  consumes fl (let! x := g /! c in k x) w (b1 ++ b2).
Proof. intros H1 H2. eapply consumes_bind; [exact H1|]. done. Qed.
Lemma consumes_last {A B} fl (g : PD A) (k : A -> PD B) v w bs :
  consumes fl g (Ok v) bs -> consumes fl (k v) w [] ->
  consumes fl (let! x := g in k x) w bs.
Proof. intros H1 H2. eapply consumes_as; [by eapply consumes_let|apply app_nil_r]. Qed.

Lemma consumes_readIf {A} fl c (g : PD A) (v old : A) bs :
  (c = true -> consumes fl g (Ok v) bs) -> (c = false -> v = old) ->
  consumes fl (readIf c g old) (Ok v) (w_when c bs).
Proof.
  intros Hg Hold. destruct c; [by apply Hg|]. rewrite Hold by done. apply consumes_ret.
Qed.

Lemma consumes_read_n {X} fl (g : PD X) w (l : list X) :
  (forall x, x ∈ l -> consumes fl g (Ok x) (w x)) ->
  consumes fl (read_n (length l) g) (Ok l) (w_list w l).
Proof.
  induction l as [|x l IH]; intros H; [apply consumes_ret|].
  cbn [length read_n]. change (w_list w (x :: l)) with (w x ++ w_list w l).
  eapply consumes_let; [apply H; set_solver|]. apply consumes_last with l.
  - apply IH. intros. apply H. set_solver.
  - apply consumes_ret.
Qed.

(** ** Lengths and small values *)

(** Lengths a reader gets back: in a fixed context no byte of the length may
    have its top bit set, as the reader sign-extends each one. *)
Definition length_ok (fl : bool) (n : Z) : Prop :=
  if fl then 0 <= n < INT32_MAX
  else 0 <= n <= MaxResponseSize /\ Forall (fun b => b < 128) (be 4 n).
#[export] Instance length_ok_dec fl n : Decision (length_ok fl n).
Proof. unfold length_ok. destruct fl; apply _. Defined.

Lemma length_ok_small fl n : 0 <= n < 128 -> length_ok fl n.
Proof.
  intros Hn. unfold length_ok, INT32_MAX, MaxResponseSize. destruct fl; [lia|]. split; [lia|].
  cbn [be]. rewrite !Z.shiftr_div_pow2, !land_255 by lia. repeat constructor.
  all: match goal with |- (_ / ?p) mod 256 < _ => let q := eval vm_compute in p in change p with q end.
  all: Z.div_mod_to_equations; lia.
Qed.

Lemma length_ok_range fl n : length_ok fl n -> 0 <= n < INT32_MAX.
Proof. unfold length_ok, INT32_MAX, MaxResponseSize. destruct fl; lia. Qed.

Lemma to_i8_small b : 0 <= b < 128 -> to_i8 b = b.
Proof. intros. apply to_s_id; [lia|]. unfold in_s. change (2 ^ (8 - 1)) with 128. lia. Qed.

Lemma consumes_fixed_length fl n :
  length_ok false n ->
  consumes fl
    (let* b0 := byte_at 0 in let* b1 := byte_at 1 in
     let* b2 := byte_at 2 in let* b3 := byte_at 3 in
     skip 4 ;;;
     let result := to_i32 (Z.lor (Z.lor (Z.lor
       (shl32 (to_i8 b0) 24) (shl32 (to_i8 b1) 16)) (shl32 (to_i8 b2) 8)) (to_i8 b3)) in
     if MaxResponseSize <? result then err ErrInvalidArrayLength else ok result)
    (Ok n) (be 4 n).
Proof.
  intros [Hn Hplain] d tl Hok Hc Hr. pose proof (be_bytes 4 n) as Hb. pose proof (be_read 4 n) as E.
  cbn [be] in *. read_bytes.
  repeat match goal with H : Forall _ (_ :: _) |- _ => inversion_clear H end.
  unfold in_u in *. change (2 ^ 8) with 256 in *. rewrite !to_i8_small by (split; [lia|done]).
  rewrite be32_value by (unfold in_u; change (2 ^ 8) with 256; lia). rewrite E.
  unfold MaxResponseSize in *. change (8 * Z.of_nat 4) with 32. rewrite to_s_to_u.
  2: lia. 2: unfold in_s; change (2 ^ (32 - 1)) with 2147483648; lia.
  replace (_ <? n) with false by lia. done.
Qed.

Lemma consumes_getArrayLength fl n :
  length_ok fl n -> consumes fl getArrayLength (Ok n) (w_array_length fl n).
Proof.
  intros Hn. apply consumes_by_ctx. destruct fl.
  - cbn in Hn. unfold INT32_MAX in Hn. apply consumes_last with (n + 1).
    + apply consumes_getUVariant. lia.
    + replace (n + 1 =? 0) with false by lia. replace (n + 1 - 1) with n by lia.
      rewrite to_i32_small by (unfold LIMIT; lia). apply consumes_ret.
  - unfold w_array_length. apply consumes_when_short; [by rewrite Zlen_be|]. by apply consumes_fixed_length.
Qed.

Lemma consumes_getBool fl b : consumes fl getBool (Ok b) (w_bool b).
Proof.
  apply consumes_last with (if b then 1 else 0).
  - apply consumes_getInt8. by destruct b.
  - destruct b; apply consumes_ret.
Qed.
Lemma consumes_getKError fl x : in_s 16 x -> consumes fl getKError (Ok x) (be 2 x).
Proof. intros. apply consumes_last with x; [by apply consumes_getInt16|apply consumes_ret]. Qed.
Lemma consumes_getDurationMs fl x : in_s 32 x -> consumes fl getDurationMs (Ok x) (be 4 x).
Proof. intros. apply consumes_last with x; [by apply consumes_getInt32|apply consumes_ret]. Qed.
#[export] Hint Resolve consumes_getArrayLength consumes_getBool consumes_getKError
  consumes_getDurationMs : consume.

(** ** Byte strings *)

Lemma take_view_run n d :
  pd_ok d -> 0 <= n <= Zlen (rest d) -> take_view n d = Done (Ok (take (Z.to_nat n) (rest d))) (advance n d).
Proof.
  intros [[Ho ?] _] Hn. unfold take_view, peek_bytes. rewrite bool_decide_true; [done|].
  unfold rest, Zlen in *. rewrite length_drop in Hn. lia.
Qed.
Lemma consumes_take_view fl n s : Zlen s = n -> consumes fl (take_view n) (Ok s) s.
Proof.
  intros <- d tl Hok Hc Hr. pose proof (Zlen_nonneg s). pose proof (Zlen_nonneg tl).
  rewrite take_view_run by (rewrite ?Hr, ?Zlen_app; done || lia).
  rewrite Hr. unfold Zlen at 1. by rewrite Nat2Z.id, take_app_length.
Qed.
Lemma consumes_getRawBytes fl n s : Zlen s = n -> consumes fl (getRawBytes n) (Ok s) s.
Proof.
  intros Hn d tl Hok Hc Hr. unfold getRawBytes. rewrite remaining_spec, Hr, Zlen_app by done.
  pose proof (Zlen_nonneg s). pose proof (Zlen_nonneg tl).
  replace (n <? 0) with false by lia. replace (_ <? n) with false by lia.
  by apply (consumes_take_view fl n s Hn d tl).
Qed.

Lemma compact_back {A} (s : list A) :
  Zlen s < INT32_MAX -> to_i32 (Zlen s + 1 - 1) = Zlen s /\ to_i32 (to_u64 (Zlen s + 1 - 1)) = Zlen s.
Proof.
  pose proof (Zlen_nonneg s). unfold INT32_MAX. intros Hl. replace (Zlen s + 1 - 1) with (Zlen s) by lia.
  rewrite to_u_id by (unfold in_u; lia). split; apply to_i32_small; unfold LIMIT; lia.
Qed.

Lemma consumes_getBytes fl s : bytes_ok s -> consumes fl getBytes (Ok s) (w_bytes fl s).
Proof.
  intros Hs. pose proof (Zlen_nonneg s). unfold bytes_ok in Hs.
  apply consumes_by_ctx. unfold w_bytes. destruct fl.
  - eapply consumes_let; [apply consumes_getUVariant; unfold INT32_MAX in *; lia|].
    rewrite (proj2 (compact_back s Hs)). by apply consumes_getRawBytes.
  - destruct (empty s) eqn:E.
    + apply empty_nil in E as ->. eapply consumes_last; [by apply consumes_getInt32|apply consumes_ret].
    + eapply consumes_let; [apply consumes_getInt32; unfold in_s, INT32_MAX in *; change (2 ^ (32 - 1)) with 2147483648; lia|].
      replace (Zlen s =? -1) with false by lia. by apply consumes_getRawBytes.
Qed.

Lemma consumes_getVariantBytes fl s :
  bytes_ok s -> consumes fl getVariantBytes (Ok s) (w_varint_bytes s).
Proof.
  intros Hs. pose proof (Zlen_nonneg s). unfold bytes_ok, INT32_MAX in Hs. unfold w_varint_bytes.
  destruct (empty s) eqn:E.
  - apply empty_nil in E as ->.
    eapply consumes_last; [by apply consumes_getVariant; unfold varint_decodable; lia|apply consumes_ret].
  - eapply consumes_let; [apply consumes_getVariant; unfold varint_decodable; lia|].
    replace (Zlen s =? -1) with false by lia. rewrite to_i32_small by (unfold LIMIT; lia).
    by apply consumes_getRawBytes.
Qed.

(** The reader of a string checks the length against what remains before it
    takes the bytes, so both are consumed together. *)
Lemma consumes_string_body fl s :
  consumes fl (let! n := check_string_length (Zlen s) in if n =? -1 then ok [] else take_view n)
    (Ok s) s.
Proof.
  intros d tl Hok Hc Hr. pose proof (Zlen_nonneg s). pose proof (Zlen_nonneg tl).
  unfold bind at 1, check_string_length. replace (Zlen s <? -1) with false by lia.
  unfold when_short. rewrite remaining_spec, Hr, Zlen_app by done.
  replace (_ <? Zlen s) with false by lia. cbn.
  replace (Zlen s =? -1) with false by lia. by eapply consumes_take_view.
Qed.

(** A bind on the left of a bind. *)
Lemma bind_assoc {S A B C} (m : M S A) (f : A -> M S B) (g : B -> M S C) s :
  bind (bind m f) g s = bind m (fun a => bind (f a) g) s.
Proof. unfold bind. by destruct (m s). Qed.
Lemma consumes_ext {A} fl (g h : M packet_decoder A) v bs :
  (forall d, g d = h d) -> consumes fl h v bs -> consumes fl g v bs.
Proof. intros E H d tl Hok Hc Hr. rewrite E. by eapply H. Qed.

Definition string_tail (n : Z) : PD (list Z) := if n =? -1 then ok [] else take_view n.

Lemma consumes_string fl s (g : PD Z) (dec : Z -> Z) n hdr :
  consumes fl g (Ok n) hdr -> dec n = Zlen s ->
  consumes fl (let! m := (let! l := g in check_string_length (dec l)) in string_tail m)
    (Ok s) (hdr ++ s).
Proof.
  intros Hg Hd. eapply consumes_ext.
  { intros d. rewrite bind_assoc. reflexivity. }
  eapply consumes_bind; [exact Hg|]. cbv beta iota. rewrite Hd. apply consumes_string_body.
Qed.
Lemma consumes_null_string fl (g : PD Z) (dec : Z -> Z) n hdr :
  consumes fl g (Ok n) hdr -> dec n = -1 ->
  consumes fl (let! m := (let! l := g in check_string_length (dec l)) in string_tail m)
    (Ok []) hdr.
Proof.
  intros Hg Hd. eapply consumes_ext.
  { intros d. rewrite bind_assoc. reflexivity. }
  eapply consumes_as; [eapply consumes_bind; [exact Hg|]|apply app_nil_r].
  cbv beta iota. rewrite Hd.
  intros d tl Hok Hc Hr. unfold bind, check_string_length. cbn. unfold when_short.
  rewrite remaining_spec by done. pose proof (Zlen_nonneg (rest d)).
  replace (_ <? -1) with false by lia. cbn. by eapply consumes_ret.
Qed.

Lemma getStringLength_by_ctx fl {A} (k : Z -> PD A) d :
  ctx fl (pd_flexible d) ->
  (let! n := getStringLength in k n) d =
  (let! n := (if fl then let! length := getUVariant in
                check_string_length (if length =? 0 then -1 else to_i32 (length - 1))
              else let! length := getInt16 in check_string_length length) in k n) d.
Proof.
  intros Hc. unfold bind at 1 4. unfold getStringLength at 1, by_ctx. destruct fl; cbn in Hc.
  - replace (pd_flexible d =? 0) with false by lia. by replace (0 <? pd_flexible d) with true by lia.
  - by rewrite Hc.
Qed.

Lemma consumes_string_reader fl s hdr :
  consumes fl
    (let! n := (if fl then let! length := getUVariant in
                check_string_length (if length =? 0 then -1 else to_i32 (length - 1))
              else let! length := getInt16 in check_string_length length) in string_tail n)
    (Ok s) hdr ->
  consumes fl getString (Ok s) hdr /\ consumes fl getNullableString (Ok s) hdr.
Proof.
  intros H.
  assert (consumes fl (let! n := getStringLength in string_tail n) (Ok s) hdr) as H'.
  { intros d tl Hok Hc Hr. rewrite (getStringLength_by_ctx fl) by done. by eapply H. }
  split; apply consumes_by_ctx; destruct fl; exact H'.
Qed.

Lemma consumes_getString_both fl s :
  string_ok fl s ->
  consumes fl getString (Ok s) (w_string fl s) /\ consumes fl getNullableString (Ok s) (w_string fl s).
Proof.
  intros Hs. pose proof (string_ok_len _ _ Hs) as Hl. pose proof (Zlen_nonneg s).
  apply consumes_string_reader. unfold w_string. destruct fl; cbn in Hs.
  - eapply (consumes_string _ _ _ (fun l => if l =? 0 then -1 else to_i32 (l - 1))).
    + apply consumes_getUVariant. unfold INT32_MAX in *; lia.
    + replace (Zlen s + 1 =? 0) with false by lia. apply (compact_back s Hl).
  - eapply (consumes_string _ _ _ (fun l => l)); [|done].
    apply consumes_getInt16. unfold in_s, INT16_MAX in *. change (2 ^ (16 - 1)) with 32768. lia.
Qed.
Lemma consumes_getString fl s : string_ok fl s -> consumes fl getString (Ok s) (w_string fl s).
Proof. apply consumes_getString_both. Qed.
Lemma consumes_getNullableString fl s :
  string_ok fl s -> consumes fl getNullableString (Ok s) (w_nullable_string fl s).
Proof.
  intros Hs. unfold w_nullable_string. destruct (empty s) eqn:E; [|by apply consumes_getString_both].
  apply empty_nil in E as ->. apply consumes_string_reader. destruct fl.
  - eapply (consumes_null_string _ _ (fun l => if l =? 0 then -1 else to_i32 (l - 1)));
      [by apply consumes_getUVariant|done].
  - eapply (consumes_null_string _ _ (fun l => l)); [by apply consumes_getInt16|done].
Qed.
#[export] Hint Resolve consumes_getRawBytes consumes_getBytes consumes_getVariantBytes
  consumes_getString consumes_getNullableString : consume.

(** ** Arrays *)

Lemma consumes_need_elements {A} fl k n (g : PD A) v bs :
  0 <= k * n -> k * n <= Zlen bs -> k * n < LIMIT -> consumes fl g v bs ->
  consumes fl (need_elements k n g) v bs.
Proof.
  intros H0 Hn Hl Hg d tl Hok Hc Hr. unfold need_elements.
  rewrite i32_arith_ok by (unfold in_s, LIMIT in *; change (2 ^ (32 - 1)) with (2 ^ 31); lia).
  unfold bind, ret. by eapply consumes_when_short.
Qed.

Lemma length_Zlen {A} (l : list A) : Z.to_nat (Zlen l) = length l.
Proof. unfold Zlen. by rewrite Nat2Z.id. Qed.

Lemma Zlen_zero {A} (l : list A) : Zlen l <= 0 -> l = [].
Proof. destruct l; [done|]. rewrite Zlen_cons. pose proof (Zlen_nonneg l). lia. Qed.

Lemma consumes_int_elements fl (g : PD Z) (w : Z -> list Z) (ok_elt : Z -> Prop) l :
  (forall x, ok_elt x -> consumes fl g (Ok x) (w x)) -> Forall ok_elt l ->
  consumes fl (read_n (Z.to_nat (Zlen l)) g) (Ok l) (w_list w l).
Proof.
  intros Hg Hl. rewrite length_Zlen. apply consumes_read_n. rewrite Forall_forall in Hl. auto.
Qed.

Lemma consumes_be32 fl x : in_s 32 x -> consumes fl (let* v := be32_at in skip 4 ;;; ok v) (Ok x) (be 4 x).
Proof.
  intros Hx. apply consumes_read; [apply Zlen_be|]. intros d tl Hok Hr.
  rewrite (be32_at_spec x d tl) by done. by rewrite to_s_id by (done || lia).
Qed.
Lemma consumes_be64 fl x :
  in_s 64 x -> consumes fl (let* v := be64_at in skip 8 ;;; ok (to_i64 v)) (Ok x) (be 8 x).
Proof.
  intros Hx d tl Hok Hc Hr. unfold bind at 1. rewrite (be64_at_spec x d tl) by done.
  unfold bind, skip, modify, ok, ret. by rewrite to_s_to_u by (done || lia).
Qed.

Definition int32s_ok (fl : bool) (l : list Z) : Prop :=
  array_ok l /\ length_ok fl (Zlen l) /\ Forall (in_s 32) l.
Definition int64s_ok (fl : bool) (l : list Z) : Prop :=
  array_ok l /\ length_ok fl (Zlen l) /\ Forall (in_s 64) l.
Definition strings_ok (fl : bool) (l : list (list Z)) : Prop :=
  array_ok l /\ length_ok fl (Zlen l) /\ Forall (string_ok fl) l.
#[export] Instance int32s_ok_dec fl l : Decision (int32s_ok fl l).
Proof. unfold int32s_ok. apply _. Defined.
#[export] Instance int64s_ok_dec fl l : Decision (int64s_ok fl l).
Proof. unfold int64s_ok. apply _. Defined.
#[export] Instance strings_ok_dec fl l : Decision (strings_ok fl l).
Proof. unfold strings_ok. apply _. Defined.

Lemma consumes_getInt32Array fl l :
  int32s_ok fl l -> consumes fl getInt32Array (Ok l) (w_int32_array fl l).
Proof.
  intros (Ha & Hl & Hf). pose proof (consumes_int_elements fl _ _ _ l (consumes_be32 fl) Hf) as Hr.
  pose proof (array_ok_len l Ha) as Hr'. unfold array_ok in Ha.
  apply consumes_by_ctx. unfold w_int32_array. destruct fl.
  - eapply consumes_let; [apply consumes_getUVariant; unfold INT32_MAX in *; lia|].
    replace (Zlen l + 1 =? 0) with false by lia. rewrite (proj1 (compact_back l (proj2 Hr'))).
    eapply (consumes_bind _ _ _ tt _ []); [|done].
    unfold resize_int. replace (Zlen l <? 0) with false by lia. apply consumes_ret.
  - eapply consumes_let; [by apply consumes_getArrayLength|]. destruct (Z.leb_spec (Zlen l) 0).
    + rewrite (Zlen_zero l) by done. apply consumes_ret.
    + apply consumes_need_elements; [lia| |unfold LIMIT; lia|done].
      rewrite (Zlen_w_list _ 4); [lia|]. intros; apply Zlen_be.
Qed.

(** The sizing and writing passes of the nullable variant put -1 (or 0) for an
    empty array; every reader gives the empty array back. *)
Lemma consumes_getInt32Array_null fl :
  consumes fl getInt32Array (Ok []) (if fl then w_uvarint 0 else be 4 (-1)).
Proof.
  apply consumes_by_ctx. destruct fl.
  - eapply consumes_last; [by apply consumes_getUVariant|apply consumes_ret].
  - intros d tl Hok Hc Hr.
    assert (getArrayLength d = Done (Ok (-1)) (advance 4 d)) as E.
    { unfold getArrayLength, by_ctx. cbn in Hc. rewrite Hc. cbn [Z.eqb].
      unfold when_short. rewrite remaining_spec, Hr, Zlen_app, Zlen_be by done.
      pose proof (Zlen_nonneg tl). change (Z.of_nat 4) with 4.
      replace (4 + Zlen tl <? 4) with false by lia.
      change (be 4 (-1)) with [255; 255; 255; 255] in Hr. read_bytes. reflexivity. }
    unfold bind. rewrite E. reflexivity.
Qed.
Lemma consumes_getNullableInt32Array fl l :
  int32s_ok fl l -> consumes fl getInt32Array (Ok l) (w_nullable_int32_array fl l).
Proof.
  intros Hl. unfold w_nullable_int32_array. destruct (empty l) eqn:E.
  - apply empty_nil in E as ->. apply consumes_getInt32Array_null.
  - by apply consumes_getInt32Array.
Qed.

Lemma consumes_getInt64Array fl l :
  int64s_ok fl l -> consumes fl getInt64Array (Ok l) (w_int64_array fl l).
Proof.
  intros (Ha & Hl & Hf). pose proof (consumes_int_elements fl _ _ _ l (consumes_be64 fl) Hf) as Hr.
  pose proof (array_ok_len l Ha) as Hr'. unfold array_ok in Ha.
  eapply consumes_let; [by apply consumes_getArrayLength|]. destruct (Z.leb_spec (Zlen l) 0).
  - rewrite (Zlen_zero l) by done. apply consumes_ret.
  - apply consumes_need_elements; [lia| |unfold LIMIT; lia|done].
    rewrite (Zlen_w_list _ 8); [lia|]. intros; apply Zlen_be.
Qed.

Lemma consumes_getStringArray fl l :
  strings_ok fl l -> consumes fl getStringArray (Ok l) (w_string_array fl l).
Proof.
  intros (Ha & Hl & Hf).
  apply consumes_by_ctx. unfold w_string_array.
  assert (consumes fl (let! n := getArrayLength in
            if n <=? 0 then ok [] else read_n (Z.to_nat n) getString) (Ok l)
            (w_array_length fl (Zlen l) ++ w_list (w_string fl) l)) as H; [|by destruct fl].
  eapply consumes_let; [by apply consumes_getArrayLength|]. destruct (Z.leb_spec (Zlen l) 0).
  - rewrite (Zlen_zero l) by done. apply consumes_ret.
  - rewrite length_Zlen. apply consumes_read_n. rewrite Forall_forall in Hf.
    intros. by apply consumes_getString, Hf.
Qed.
#[export] Hint Resolve consumes_getInt32Array consumes_getNullableInt32Array
  consumes_getInt64Array consumes_getStringArray : consume.

(** ** Tagged fields *)

Lemma consumes_getEmptyTaggedFieldArray fl :
  consumes fl getEmptyTaggedFieldArray (Ok tt) (w_tags fl).
Proof.
  apply consumes_by_ctx. unfold w_tags. destruct fl; [|apply consumes_ret].
  eapply consumes_last; [by apply consumes_getUVariant|].
  intros d tl Hok Hc Hr. cbn. by eapply consumes_ret.
Qed.
#[export] Hint Resolve consumes_getEmptyTaggedFieldArray : consume.

(** ** Entering and leaving a flexible context *)

Lemma emits_flexible {A} (e : PE A) v bs :
  emits true e v bs ->
  emits false (pe_push_flexible ;;; let* r := e in pe_pop_flexible ;;; ret r) v bs.
Proof.
  intros [Hs Hw]. split.
  - intros s Ht Hc H0 Hl. cbn in Hc. unfold bind, pe_push_flexible, modify. rewrite Hc.
    rewrite Hs by (cbn; done || lia). destruct s; cbn in *. by subst.
  - intros s pre old post Ht Hc Hr Ho Hoff Hl. cbn in Hc.
    unfold bind, pe_push_flexible, modify. rewrite Hc.
    rewrite (Hw _ pre old post) by (cbn; done || lia). destruct s; cbn in *. by subst.
Qed.
Lemma consumes_flexible {A} (g : PD A) v bs :
  consumes true g v bs ->
  consumes false (pd_push_flexible ;;; let* r := g in pd_pop_flexible ;;; ret r) v bs.
Proof.
  intros H d tl Hok Hc Hr. cbn in Hc. unfold bind, pd_push_flexible, modify. rewrite Hc.
  rewrite (H _ tl) by (cbn; done || lia). destruct d; cbn in *. by subst.
Qed.

