(* ===== verification/EncoderDecoder.v ===== *)
(** * Messages: the interface and the two-pass driver

    [coev_kafka/protocol_body.h] as a type class, the drivers of
    [encoder_decoder.cpp] against it, and [WireFormat], the contract a message
    discharges once and the drivers' theorems are proved from. *)
From Stdlib Require Import ZArith Lia Bool.
From stdpp Require Import base tactics list numbers sets.
From S2P Require Import Prelude Errors Wire Crc Fields Encoder Decoder Codec CodecEnc CodecDec.

(** The virtual members of a request or response body.  [encode] does not change
    the body; [decode] starts from the object it is called on. *)
(* coev_kafka/protocol_body.h:17-29 protocol_body *)
Class protocol_body (T : Type) := {
  pb_encode : T -> PE Z;
  pb_decode : T -> Z -> PD T;
  pb_key : T -> Z;
  pb_version : T -> Z;
  pb_header_version : T -> Z;
  pb_is_valid_version : T -> bool;
  pb_is_flexible : T -> bool;
  pb_is_flexible_version : T -> Z -> bool;
}.

(* coev_kafka/request.h:20-20 MaxRequestSize *)
Definition MaxRequestSize : Z := 100 * 1024 * 1024.

(** ** Drivers *)

Definition flexible_encode (e : PE Z) : PE Z :=
  pe_push_flexible ;;; let* r := e in pe_pop_flexible ;;; ret r.
Definition flexible_decode {A} (g : PD A) : PD A :=
  pd_push_flexible ;;; let* r := g in pd_pop_flexible ;;; ret r.

(* coev_kafka/encoder_decoder.cpp prepare_flexible_encoder *)
Definition prepare_flexible_encoder {T} `{protocol_body T} (req : T) : PE Z :=
  if pb_is_flexible req then flexible_encode (pb_encode req) else pb_encode req.
(* coev_kafka/encoder_decoder.cpp prepare_flexible_decoder *)
Definition prepare_flexible_decoder {T} `{protocol_body T} (req : T) (version : Z) : PD T :=
  if pb_is_flexible_version req version
  then flexible_decode (pb_decode req version)
  else pb_decode req version.

(** The encoded object may have [mutable] members: [enc] returns its state after
    the pass, and the writing pass starts from the state the sizing pass left.
    The result is the return code, [out], and the object. *)
(* coev_kafka/encoder_decoder.cpp:16-51 encode *)
Definition encode_object {T} (enc : T -> PE (Z * T)) (e : T) (out : list Z)
  : outcome T (Z * list Z) :=
  match enc e (new_encoder PREP 0) with
  | Fault f => Fault f
  | Done (r, e') s =>
      if negb (r =? ErrNoError) then Done (ErrEncodeError, out) e'
      else if MaxRequestSize <? to_u64 (m_offset s) then Done (ErrEncodeError, out) e'
      else
        match enc e' (new_encoder REAL (m_offset s)) with
        | Fault f => Fault f
        | Done (r, e'') s' =>
            if negb (r =? ErrNoError) then Done (ErrEncodeError, out) e''
            else Done (ErrNoError, out ++ m_raw s') e''
        end
  end.

(** [encode] of a body without mutable members *)
Definition encode {T} `{protocol_body T} (e : T) (out : list Z) : outcome T (Z * list Z) :=
  encode_object (fun e => let* r := prepare_flexible_encoder e in ret (r, e)) e out.

(** The decoded object, or the code; empty input leaves the object as it is. *)
(* coev_kafka/encoder_decoder.cpp decode_version *)
Definition decode_version {T} `{protocol_body T} (buf : list Z) (in_ : T) (version : Z)
  : outcome packet_decoder (dres T) :=
  if empty buf then Done (Ok in_) (new_decoder buf)
  else
    match prepare_flexible_decoder in_ version (new_decoder buf) with
    | Fault f => Fault f
    | Done (Err e) helper => Done (Err e) helper
    | Done (Ok v) helper =>
        if negb (remaining helper =? 0) then Done (Err ErrDecodeError) helper
        else Done (Ok v) helper
    end.

(* coev_kafka/encoder_decoder.cpp magic_value *)
Definition magic_value : PD Z := peekInt8 16.

(** ** The contract of a message *)

Class WireFormat (T : Type) `{protocol_body T} := {
  wire : T -> list Z;
  wire_ok : T -> Prop;
  wire_initial : Z -> T; (* a fresh object of a version *)
  wire_flexible (x m : T) : pb_is_flexible_version x (pb_version m) = pb_is_flexible m;
  wire_encode m : wire_ok m -> emits (pb_is_flexible m) (pb_encode m) 0 (wire m);
  wire_decode m : wire_ok m ->
    consumes (pb_is_flexible m) (pb_decode (wire_initial (pb_version m)) (pb_version m)) (Ok m) (wire m);
}.

(** ** Facts *)

Lemma emits_refine {A} fl (g g' : PE A) v bs :
  (forall s w s', g' s = Done w s' -> g s = Done w s') -> emits fl g' v bs -> emits fl g v bs.
Proof.
  intros Hr [Hs Hw]. split.
  - intros s Ht Hc H0 Hl. by apply Hr, Hs.
  - intros s pre old post Ht Hc Hraw Ho Hoff Hl. by eapply Hr, Hw.
Qed.

Lemma flexible_encode_emits (e : PE Z) fl v bs :
  emits fl e v bs -> emits false (if fl then flexible_encode e else e) v bs.
Proof. destruct fl; [apply emits_flexible|done]. Qed.
Lemma flexible_decode_consumes {A} (g : PD A) fl v bs :
  consumes fl g v bs -> consumes false (if fl then flexible_decode g else g) v bs.
Proof. destruct fl; [apply consumes_flexible|done]. Qed.

Lemma Zlen_replicate n : 0 <= n -> Zlen (replicate (Z.to_nat n) 0) = n.
Proof. intros. unfold Zlen. rewrite length_replicate. lia. Qed.

(** The sizing pass from a fresh encoder finds the length of what the writing
    pass then stores, exactly filling the buffer. *)
Lemma encode_object_emits {T} (enc : T -> PE (Z * T)) e out bs :
  emits false (enc e) (0, e) bs -> Zlen bs <= MaxRequestSize ->
  encode_object enc e out = Done (ErrNoError, out ++ bs) e.
Proof.
  unfold MaxRequestSize. intros [Hs Hw] Hl. pose proof (Zlen_nonneg bs).
  unfold encode_object. rewrite Hs by (cbn; done || unfold LIMIT; lia). cbn.
  rewrite to_u_id by (unfold in_u; lia). unfold MaxRequestSize.
  replace (_ <? Zlen bs) with false by lia.
  rewrite (Hw _ [] (replicate (Z.to_nat (Zlen bs)) 0) []); cbn; try done.
  - by rewrite app_nil_r.
  - by rewrite app_nil_r.
  - by apply Zlen_replicate.
  - rewrite Zlen_replicate by done. unfold LIMIT. lia.
Qed.

Lemma empty_false (l : list Z) : l <> [] -> empty l = false.
Proof.
  intros. unfold empty. destruct l; [done|]. rewrite Zlen_cons. pose proof (Zlen_nonneg l). lia.
Qed.

(** The drivers from the two judgements, for any body. *)
Lemma encode_emits {T} `{protocol_body T} (m : T) bs out :
  emits (pb_is_flexible m) (pb_encode m) 0 bs -> Zlen bs <= MaxRequestSize ->
  encode m out = Done (ErrNoError, out ++ bs) m.
Proof.
  intros Hm Hl. apply encode_object_emits; [|done].
  eapply emits_as; [eapply emits_bind; [|apply emits_ret]|apply app_nil_r].
  unfold prepare_flexible_encoder. by apply flexible_encode_emits.
Qed.

(** A body that returns an error code in the sizing pass is not sent. *)
Lemma emits_abort fl (e k : PE Z) c bs :
  emits fl e c bs -> c <> 0 -> emits fl (try e ;;; k) c bs.
Proof.
  intros He Hc. eapply emits_as; [eapply emits_bind; [exact He|]|apply app_nil_r].
  cbv beta. replace (c =? 0) with false by lia. apply emits_ret.
Qed.
Lemma encode_refused {T} `{protocol_body T} (m : T) c bs out :
  emits (pb_is_flexible m) (pb_encode m) c bs -> c <> 0 -> Zlen bs < LIMIT ->
  encode m out = Done (ErrEncodeError, out) m.
Proof.
  intros Hm Hc Hl. pose proof (Zlen_nonneg bs). unfold encode, encode_object.
  assert (emits false (let* r := prepare_flexible_encoder m in ret (r, m)) (c, m) bs) as [Hs _].
  { eapply emits_as; [eapply emits_bind; [|apply emits_ret]|apply app_nil_r].
    unfold prepare_flexible_encoder. by apply flexible_encode_emits. }
  rewrite Hs by (cbn; done || lia). unfold ErrNoError.
  by replace (c =? 0) with false by lia.
Qed.

Lemma decode_version_run {T} `{protocol_body T} (in_ v : T) version bs tl :
  consumes (pb_is_flexible_version in_ version) (pb_decode in_ version) (Ok v) bs ->
  Zlen (bs ++ tl) <= MaxRequestSize -> bs ++ tl <> [] ->
  decode_version (bs ++ tl) in_ version =
    Done (if Zlen tl =? 0 then Ok v else Err ErrDecodeError)
         (advance (Zlen bs) (new_decoder (bs ++ tl))).
Proof.
  intros Hd%flexible_decode_consumes Hl Hne.
  pose proof (Zlen_nonneg bs). pose proof (Zlen_nonneg tl). unfold MaxRequestSize in Hl.
  assert (pd_ok (new_decoder (bs ++ tl))) as Hok.
  { split; cbn; [pose proof (Zlen_nonneg (bs ++ tl)); lia|]. unfold LIMIT. lia. }
  specialize (Hd (new_decoder (bs ++ tl)) tl Hok eq_refl eq_refl).
  unfold decode_version. rewrite empty_false by done.
  unfold prepare_flexible_decoder. rewrite Hd.
  rewrite Zlen_app in Hl. unfold remaining; cbn. rewrite Zlen_app, to_i32_small by (unfold LIMIT; lia).
  replace (Zlen bs + Zlen tl - (0 + Zlen bs)) with (Zlen tl) by lia. by destruct (Zlen tl =? 0).
Qed.
Lemma decode_version_consumes {T} `{protocol_body T} (in_ v : T) version bs :
  consumes (pb_is_flexible_version in_ version) (pb_decode in_ version) (Ok v) bs ->
  Zlen bs <= MaxRequestSize -> bs <> [] ->
  decode_version bs in_ version = Done (Ok v) (advance (Zlen bs) (new_decoder bs)).
Proof.
  intros Hd Hl Hne. pose proof (decode_version_run in_ v version bs [] Hd) as Hr.
  rewrite app_nil_r in Hr. by apply Hr.
Qed.
(** Bytes after the message are an error. *)
Lemma decode_version_trailing {T} `{protocol_body T} (in_ v : T) version bs tl :
  consumes (pb_is_flexible_version in_ version) (pb_decode in_ version) (Ok v) bs ->
  Zlen (bs ++ tl) <= MaxRequestSize -> tl <> [] ->
  exists helper, decode_version (bs ++ tl) in_ version = Done (Err ErrDecodeError) helper.
Proof.
  intros Hd Hl Hne. eexists. erewrite decode_version_run; [|done..|].
  - destruct tl; [done|]. rewrite Zlen_cons. pose proof (Zlen_nonneg tl).
    by replace (1 + Zlen tl =? 0) with false by lia.
  - intros [? ?]%app_eq_nil. done.
Qed.

(** The encoder appends the wire form [w m]; decoding it into a fresh object of
    the same version gives the message back, with nothing left over. *)
Definition roundtrips {T} `{protocol_body T} (fresh : Z -> T) (w : T -> list Z) (m : T) : Prop :=
  (forall out, encode m out = Done (ErrNoError, out ++ w m) m) /\
  exists helper, decode_version (w m) (fresh (pb_version m)) (pb_version m) = Done (Ok m) helper /\
                 remaining helper = 0.

Lemma wire_roundtrips {T} `{WireFormat T} (m : T) :
  wire_ok m -> Zlen (wire m) <= MaxRequestSize ->
  wire m <> [] \/ wire_initial (pb_version m) = m ->
  roundtrips wire_initial wire m.
Proof.
  intros Hm Hl Hne. split.
  { intros out. by apply (encode_emits m (wire m) out); [apply wire_encode|]. }
  destruct (decide (wire m = [])) as [E|E].
  - destruct Hne as [|Hi]; [done|]. eexists. unfold decode_version. rewrite E, Hi. done.
  - eexists. split; [apply decode_version_consumes; [|done..]|].
    + rewrite wire_flexible. by apply wire_decode.
    + unfold remaining; cbn. rewrite to_i32_len; [lia|]. unfold MaxRequestSize, LIMIT in *. lia.
Qed.

(** No member's wire form is empty but those the version leaves out. *)
Lemma encodeUVariant_ne x : encodeUVariant x <> [].
Proof. unfold encodeUVariant. cbn. by destruct (128 <=? x). Qed.
Lemma w_string_ne fl s : w_string fl s <> [].
Proof. unfold w_string. destruct fl; [|done]. intros [[]%encodeUVariant_ne _]%app_eq_nil. Qed.
Lemma w_array_length_ne fl n : w_array_length fl n <> [].
Proof. unfold w_array_length. destruct fl; [apply encodeUVariant_ne|done]. Qed.
(** ** Proving a message's contract

    Both directions follow the shape of the code: one step per member call, the
    side conditions found among the hypotheses. *)

Lemma emits_putArrayLength_of {A} fl (l : list A) :
  array_ok l -> emits fl (putArrayLength (to_i32 (Zlen l))) 0 (w_array_length fl (Zlen l)).
Proof. intros Hl. rewrite array_to_i32 by done. by apply emits_putArrayLength, array_ok_len. Qed.
#[export] Hint Resolve emits_putArrayLength_of : emit.

Lemma emits_putInt32_cast fl x : in_s 32 x -> emits fl (putInt32 (to_i32 x)) tt (be 4 x).
Proof. intros. rewrite to_s_id by (done || lia). apply emits_putInt32. Qed.
#[export] Hint Resolve emits_putInt32_cast : emit.

(** The array members, from the condition both directions share *)
Lemma emits_putInt32Array_ok fl l : int32s_ok fl l -> emits fl (putInt32Array l) 0 (w_int32_array fl l).
Proof. intros []. by apply emits_putInt32Array. Qed.
Lemma emits_putNullableInt32Array_ok fl l :
  int32s_ok fl l -> emits fl (putNullableInt32Array l) 0 (w_nullable_int32_array fl l).
Proof. intros []. by apply emits_putNullableInt32Array. Qed.
Lemma emits_putInt64Array_ok fl l : int64s_ok fl l -> emits fl (putInt64Array l) 0 (w_int64_array fl l).
Proof. intros []. by apply emits_putInt64Array. Qed.
Lemma emits_putStringArray_ok l :
  strings_ok false l -> emits false (putStringArray l) 0 (w_string_array false l).
Proof. intros (? & _ & ?). by apply emits_putStringArray. Qed.
#[export] Hint Resolve emits_putInt32Array_ok emits_putNullableInt32Array_ok emits_putInt64Array_ok
  emits_putStringArray_ok : emit.

(** [if (m(x) != 0) return c;] in an encoder *)
Lemma emits_check fl c (e k : PE Z) w b1 b2 :
  emits fl e 0 b1 -> emits fl k w b2 ->
  emits fl (let* r := e in if negb (r =? ErrNoError) then ret c else k) w (b1 ++ b2).
Proof. intros H1 H2. eapply emits_bind; [exact H1|]. done. Qed.

(** The same, when nothing follows the call. *)
Lemma emits_check_last fl c (e : PE Z) (w : Z) bs :
  emits fl e 0 bs -> emits fl (let* r := e in if negb (r =? ErrNoError) then ret c else ret w) w bs.
Proof. intros H. eapply emits_as; [eapply emits_check; [exact H|apply emits_ret]|apply app_nil_r]. Qed.
Lemma emits_try_last fl (e : PE Z) (w : Z) bs : emits fl e 0 bs -> emits fl (try e ;;; ret w) w bs.
Proof. intros H. eapply emits_as; [eapply emits_try; [exact H|apply emits_ret]|apply app_nil_r]. Qed.
Lemma consumes_last_or {A B} fl c (g : PD A) (k : A -> PD B) v w bs :
  consumes fl g (Ok v) bs -> consumes fl (k v) w [] ->
  consumes fl (let! x := g /! c in k x) w bs.
Proof. intros H1 H2. eapply consumes_as; [by eapply consumes_let_or|apply app_nil_r]. Qed.

(** [m(x); k]: the result is dropped. *)
Lemma consumes_ignored {A B} fl (g : PD A) (k : PD B) v w b1 b2 :
  consumes fl g v b1 -> consumes fl k w b2 -> consumes fl (g ;;; k) w (b1 ++ b2).
Proof. intros H1 H2. by eapply consumes_bind. Qed.
Lemma consumes_ignored_last {A B} fl (g : PD A) (k : PD B) v w bs :
  consumes fl g v bs -> consumes fl k w [] -> consumes fl (g ;;; k) w bs.
Proof. intros H1 H2. eapply consumes_as; [by eapply consumes_ignored|apply app_nil_r]. Qed.

(** An array of structures: [fl] is the context its length is put in. *)
Definition array_fits {X} (fl : bool) (P : X -> Prop) (l : list X) : Prop :=
  array_ok l /\ length_ok fl (Zlen l) /\ Forall P l.
#[export] Instance array_fits_dec {X} fl (P : X -> Prop) `{!forall x, Decision (P x)} l :
  Decision (array_fits fl P l).
Proof. unfold array_fits. apply _. Defined.

Lemma emits_array_length {X} fl (P : X -> Prop) l :
  array_fits fl P l -> emits fl (putArrayLength (to_i32 (Zlen l))) 0 (w_array_length fl (Zlen l)).
Proof. intros []. by apply emits_putArrayLength_of. Qed.
Lemma emits_each {X} fl (l : list X) f w P :
  array_fits fl P l -> (forall x, P x -> emits fl (f x) 0 (w x)) ->
  emits fl (for_try l f) 0 (w_list w l).
Proof.
  intros (_ & _ & Hf) H. rewrite Forall_forall in Hf.
  apply emits_for_try. intros x Hx. by apply H, Hf.
Qed.

(** An element of a map: its key, then its value *)
Definition w_pair {K V} (wk : K -> list Z) (wv : V -> list Z) (p : K * V) : list Z :=
  wk (fst p) ++ wv (snd p).
Definition pair_ok {K V} (Pk : K -> Prop) (Pv : V -> Prop) (p : K * V) : Prop := Pk (fst p) /\ Pv (snd p).
#[export] Instance pair_ok_dec {K V} (Pk : K -> Prop) (Pv : V -> Prop) p
  `{!forall k, Decision (Pk k), !forall v, Decision (Pv v)} : Decision (pair_ok Pk Pv p).
Proof. unfold pair_ok. apply _. Defined.
Lemma emits_each_pair {K V} fl (l : list (K * V)) f wk wv (Pk : K -> Prop) (Pv : V -> Prop) :
  array_fits fl (pair_ok Pk Pv) l -> (forall k v, Pk k -> Pv v -> emits fl (f (k, v)) 0 (wk k ++ wv v)) ->
  emits fl (for_try l f) 0 (w_list (w_pair wk wv) l).
Proof. intros Hl H. eapply emits_each; [exact Hl|]. intros [k v] [Hk Hv]. by apply H. Qed.

(** [v.resize(n)] for an [int] count, then one read per element *)
Definition read_resized {X} (n : Z) (g : PD X) : PD (list X) :=
  resize_int n ;;; read_n (Z.to_nat n) g.
(** [for (i = 0; i < n; ++i)] with [push_back], or [if (n > 0)] around a resize
    of a cleared vector: a negative count reads nothing. *)
Definition read_counted {X} (n : Z) (g : PD X) : PD (list X) := read_n (Z.to_nat n) g.

Lemma consumes_array_length {X} fl (P : X -> Prop) l :
  array_fits fl P l -> consumes fl getArrayLength (Ok (Zlen l)) (w_array_length fl (Zlen l)).
Proof. intros (? & ? & _). by apply consumes_getArrayLength. Qed.
Lemma consumes_counted {X} fl (g : PD X) w P (l : list X) :
  array_fits fl P l -> (forall x, P x -> consumes fl g (Ok x) (w x)) ->
  consumes fl (read_counted (Zlen l) g) (Ok l) (w_list w l).
Proof.
  intros (_ & _ & Hf) H. rewrite Forall_forall in Hf.
  unfold read_counted. rewrite length_Zlen. apply consumes_read_n. intros x Hx. by apply H, Hf.
Qed.
Lemma consumes_resized {X} fl (g : PD X) w P (l : list X) :
  array_fits fl P l -> (forall x, P x -> consumes fl g (Ok x) (w x)) ->
  consumes fl (read_resized (Zlen l) g) (Ok l) (w_list w l).
Proof.
  intros Hl H. pose proof (Zlen_nonneg l).
  eapply (consumes_bind _ _ _ tt _ []); [|by eapply consumes_counted].
  unfold resize_int. replace (Zlen l <? 0) with false by lia. apply consumes_ret.
Qed.

#[global] Arguments be : simpl never.
#[global] Arguments w_uvarint : simpl never.
#[global] Arguments w_varint : simpl never.
#[global] Arguments w_array_length : simpl never.
#[global] Arguments w_bool : simpl never.
#[global] Arguments w_bytes : simpl never.
#[global] Arguments w_varint_bytes : simpl never.
#[global] Arguments w_string : simpl never.
#[global] Arguments w_nullable_string : simpl never.
#[global] Arguments w_list : simpl never.
#[global] Arguments w_tags : simpl never.
#[global] Arguments w_when : simpl never.
#[global] Arguments w_int32_array : simpl never.
#[global] Arguments w_int64_array : simpl never.
#[global] Arguments w_string_array : simpl never.
#[global] Arguments w_nullable_int32_array : simpl never.
#[global] Arguments string_ok : simpl never.
#[global] Arguments bytes_ok : simpl never.
#[global] Arguments in_s : simpl never.
#[global] Arguments in_u : simpl never.
#[global] Arguments array_fits : simpl never.
#[global] Arguments w_pair : simpl never.
#[global] Arguments pair_ok : simpl never.

Ltac use_facts := repeat match goal with
  | H : _ /\ _ |- _ => destruct H
  | H : ?c = true -> _, E : ?c = true |- _ => specialize (H E)
  end.

Create HintDb message discriminated.

(** A member that has its value already is given it again. *)
Lemma same_branches {A} (b : bool) (x : A) : (if b then x else x) = x.
Proof. by destruct b. Qed.

Ltac emit_steps :=
  cbv beta;
  lazymatch goal with
  | |- emits _ (when _ _) _ _ => apply emits_when; intros ?; use_facts; emit_steps
  | |- emits _ (whenU _ _) _ _ => apply emits_whenU; intros ?; use_facts; emit_steps
  | |- emits _ (bind _ (fun _ => ret _)) _ _ =>
      first [ eapply emits_then; emit_steps | emit_bind ]
  | |- emits _ (bind _ _) _ _ => emit_bind
  | |- emits _ (for_try _ _) _ _ =>
      first [ eapply emits_each_pair; [eassumption|intros ? ? ? ?; cbn [fst snd]; emit_element]
            | eapply emits_each; [eassumption|intros ? ?; emit_element] ]
  | |- emits _ (putArrayLength (to_s 32 (Zlen _))) _ _ =>
      first [ eapply emits_array_length; eassumption | solve [eauto with emit] ]
  | |- emits _ (ret _) _ _ => apply emits_ret
  | |- _ => solve [eauto with emit]
  end
with emit_bind :=
  first
    [ solve [eauto with emit]
    | eapply emits_check_last; emit_steps
    | eapply emits_try_last; emit_steps
    | eapply emits_check; [emit_steps|emit_steps]
    | eapply emits_try; [emit_steps|emit_steps]
    | eapply emits_seq; [emit_steps|emit_steps] ]
with emit_element :=
  first [ solve [eauto with emit]
        | autounfold with message in *; cbn in *; use_facts; emit_steps ].

Ltac consume_steps :=
  cbv beta;
  lazymatch goal with
  | |- consumes _ (readIf _ _ _) _ _ =>
      apply consumes_readIf; [intros ?; use_facts; consume_steps | solve [auto | done] ]
  | |- consumes _ (bind _ _) _ _ =>
      first
        [ solve [eauto with consume]
        | eapply consumes_let; [consume_steps|consume_steps]
        | eapply consumes_let_or; [consume_steps|consume_steps]
        | eapply consumes_last; [consume_steps|consume_steps]
        | eapply consumes_last_or; [consume_steps|consume_steps]
        | eapply consumes_ignored; [consume_steps|consume_steps]
        | eapply consumes_ignored_last; [consume_steps|consume_steps] ]
  | |- consumes _ getArrayLength _ _ =>
      first [ eapply consumes_array_length; eassumption | solve [eauto with consume] ]
  | |- consumes _ (read_resized _ _) _ _ =>
      eapply consumes_resized; [eassumption|intros ? ?; consume_element]
  | |- consumes _ (read_counted _ _) _ _ =>
      eapply consumes_counted; [eassumption|intros ? ?; consume_element]
  | |- consumes _ (ok _) _ _ =>
      first [ apply consumes_ret | rewrite ?same_branches; apply consumes_ret ]
  | |- consumes _ (ret _) _ _ => apply consumes_ret
  | |- _ => solve [eauto with consume]
  end
with consume_element :=
  first [ solve [eauto with consume]
        | autounfold with message in *; cbn in *; use_facts; consume_steps ].

(** The frame of every message's two lemmas: open the record and the condition,
    then follow the code. *)
Ltac open_message m :=
  intros H; destruct m; cbn in *; autounfold with message in *; cbn in *; use_facts; subst.
Ltac solve_emits m := open_message m; emit_steps.
Ltac solve_consumes m := open_message m; consume_steps.
Ltac wire_nonempty :=
  intros E; autounfold with message in E; cbv zeta in E;
  repeat match goal with H : _ ++ _ = [] |- _ => apply app_eq_nil in H as [? ?] end;
  first [ discriminate | by eapply w_string_ne | by eapply w_array_length_ne ].
Ltac solve_roundtrip m :=
  refine (wire_roundtrips m _ _ _); [assumption|assumption|left; cbn; wire_nonempty].
