(* ===== verification/StdMap.v ===== *)
(** * Ordered maps

    [std::map<K, V>] as the list of its pairs in key order, which is the order the code
    iterates in.  [KeyOrder] is what [operator<] of the key type has to be. *)
From Stdlib Require Import ZArith Lia Bool.
From stdpp Require Import base tactics list numbers.
From S2P Require Import Prelude.

(** ** Keys *)

#[local] Obligation Tactic := idtac.

Class KeyOrder (K : Type) := {
  key_compare : K -> K -> comparison;
  key_compare_eq a b : key_compare a b = Eq <-> a = b;
  key_compare_antisym a b : key_compare b a = CompOpp (key_compare a b);
  key_compare_trans a b c : key_compare a b = Lt -> key_compare b c = Lt -> key_compare a c = Lt
}.
Definition key_lt {K} `{KeyOrder K} (a b : K) : Prop := key_compare a b = Lt.

Lemma key_compare_refl {K} `{KeyOrder K} a : key_compare a a = Eq.
Proof. by apply key_compare_eq. Qed.
#[export] Instance key_lt_dec {K} `{KeyOrder K} a b : Decision (key_lt a b).
Proof. unfold key_lt. apply _. Defined.
Lemma key_lt_trans {K} `{KeyOrder K} a b c : key_lt a b -> key_lt b c -> key_lt a c.
Proof. apply key_compare_trans. Qed.
Lemma key_lt_ne {K} `{KeyOrder K} a b : key_lt a b -> a <> b.
Proof. intros Hl ->. unfold key_lt in Hl. by rewrite key_compare_refl in Hl. Qed.
Lemma key_gt_lt {K} `{KeyOrder K} a b : key_compare a b = Gt -> key_lt b a.
Proof. unfold key_lt. intros E. by rewrite key_compare_antisym, E. Qed.
Lemma key_compare_ne {K} `{KeyOrder K} a b : a <> b -> key_lt a b \/ key_lt b a.
Proof.
  intros Hne. destruct (key_compare a b) eqn:E; [by apply key_compare_eq in E|by left|].
  right. by apply key_gt_lt.
Qed.

#[export] Program Instance Z_order : KeyOrder Z := {| key_compare := Z.compare |}.
Next Obligation. apply Z.compare_eq_iff. Qed.
Next Obligation. apply Z.compare_antisym. Qed.
Next Obligation. intros a b c. rewrite !Z.compare_lt_iff. lia. Qed.

(** [std::string::compare], on unsigned bytes *)
Fixpoint bytes_compare (a b : list Z) : comparison :=
  match a, b with
  | [], [] => Eq
  | [], _ => Lt
  | _, [] => Gt
  | x :: a', y :: b' => match x ?= y with Eq => bytes_compare a' b' | c => c end
  end.
#[export] Program Instance bytes_order : KeyOrder (list Z) := {| key_compare := bytes_compare |}.
Next Obligation.
  intros a. induction a as [|x a IH]; intros [|y b]; cbn; try (split; congruence).
  destruct (Z.compare_spec x y) as [->| |]; [rewrite IH| |]; (split; [|intros [=]; subst]);
    solve [done | by intros -> | lia].
Qed.
Next Obligation.
  intros a. induction a as [|x a IH]; intros [|y b]; cbn; try done.
  rewrite Z.compare_antisym. destruct (x ?= y); cbn; auto.
Qed.
Next Obligation.
  intros a. induction a as [|x a IH]; intros [|y b] [|z c]; cbn; try done.
  destruct (Z.compare_spec x y), (Z.compare_spec y z), (Z.compare_spec x z); subst; try done;
    try lia. eauto.
Qed.

(** [a.first < b.first || (a.first == b.first && a.second < b.second)] *)
Definition pair_compare {A B} `{KeyOrder A, KeyOrder B} (p q : A * B) : comparison :=
  match key_compare (fst p) (fst q) with Eq => key_compare (snd p) (snd q) | c => c end.
#[export] Program Instance pair_order {A B} `{KeyOrder A, KeyOrder B} : KeyOrder (A * B) :=
  {| key_compare := pair_compare |}.
Next Obligation.
  intros A B OA OB [a b] [a' b']. unfold pair_compare. cbn. destruct (key_compare a a') eqn:E.
  - apply key_compare_eq in E as ->. rewrite key_compare_eq. split; congruence.
  - split; [done|]. intros [= -> ->]. by rewrite key_compare_refl in E.
  - split; [done|]. intros [= -> ->]. by rewrite key_compare_refl in E.
Qed.
Next Obligation.
  intros A B OA OB [a b] [a' b']. unfold pair_compare. cbn. rewrite (key_compare_antisym a a'), (key_compare_antisym b b').
  by destruct (key_compare a a').
Qed.
Next Obligation.
  intros A B OA OB [a b] [a' b'] [a'' b'']. unfold pair_compare. cbn.
  destruct (key_compare a a') eqn:E; try done; destruct (key_compare a' a'') eqn:E'; try done; intros Hb Hb'.
  - apply key_compare_eq in E as ->. rewrite E'. by eapply key_compare_trans.
  - apply key_compare_eq in E as ->. by rewrite E'.
  - apply key_compare_eq in E' as ->. by rewrite E.
  - by rewrite (key_compare_trans _ _ _ E E').
Qed.

(** ** Maps *)

Section Map.
Context {K : Type} `{KeyOrder K} {V : Type}.
Implicit Types (k : K) (v : V) (m : list (K * V)).

(** [m[k] = v] *)
Fixpoint map_assign k v m : list (K * V) :=
  match m with
  | [] => [(k, v)]
  | (k', v') :: m' =>
      match key_compare k k' with
      | Lt => (k, v) :: m
      | Eq => (k', v) :: m'
      | Gt => (k', v') :: map_assign k v m'
      end
  end.
(** [m.find(k)] *)
Fixpoint map_find k m : option V :=
  match m with
  | [] => None
  | (k', v') :: m' => match key_compare k k' with Eq => Some v' | _ => map_find k m' end
  end.
(** [m.erase(k)] *)
Fixpoint map_erase k m : list (K * V) :=
  match m with
  | [] => []
  | (k', v') :: m' => match key_compare k k' with Eq => m' | _ => (k', v') :: map_erase k m' end
  end.
(** [m.count(k) != 0] *)
Definition map_count k m : bool := match map_find k m with Some _ => true | None => false end.
(** [m[k] = f(m[k])], where a missing element starts as [d] *)
Definition map_update (d : V) (f : V -> V) k m : list (K * V) :=
  map_assign k (f (match map_find k m with Some v => v | None => d end)) m.
(** The iteration order *)
Definition map_keys m : list K := map fst m.

(** The keys are in strictly increasing order. *)
Fixpoint map_sorted m : Prop :=
  match m with
  | [] => True
  | (k, _) :: m' => Forall (fun p => key_lt k (fst p)) m' /\ map_sorted m'
  end.

Lemma map_find_assign k k' v m :
  map_find k' (map_assign k v m) = match key_compare k' k with Eq => Some v | _ => map_find k' m end.
Proof.
  induction m as [|[k0 v0] m IH]; cbn; [done|].
  destruct (key_compare k k0) eqn:E; cbn.
  - apply key_compare_eq in E as ->. by destruct (key_compare k' k0).
  - done.
  - rewrite IH. destruct (key_compare k' k0) eqn:E0, (key_compare k' k) eqn:E1; try done.
    apply key_compare_eq in E0 as ->, E1 as ->. by rewrite key_compare_refl in E.
Qed.
Lemma map_find_assign_eq k v m : map_find k (map_assign k v m) = Some v.
Proof. by rewrite map_find_assign, key_compare_refl. Qed.
Lemma map_find_assign_ne k k' v m : k' <> k -> map_find k' (map_assign k v m) = map_find k' m.
Proof.
  intros Hne. rewrite map_find_assign. destruct (key_compare k' k) eqn:E; [|done..].
  by apply key_compare_eq in E.
Qed.
Lemma map_find_update_eq d f k m :
  map_find k (map_update d f k m) = Some (f (match map_find k m with Some v => v | None => d end)).
Proof. apply map_find_assign_eq. Qed.
Lemma map_find_update_ne d f k k' m : k' <> k -> map_find k' (map_update d f k m) = map_find k' m.
Proof. apply map_find_assign_ne. Qed.

Lemma map_assign_keys k v m (P : K -> Prop) :
  P k -> Forall (fun p => P (fst p)) m -> Forall (fun p => P (fst p)) (map_assign k v m).
Proof.
  intros Hk. induction m as [|[k0 v0] m IH]; cbn; intros Hm; [by repeat constructor|].
  inversion_clear Hm. destruct (key_compare k k0); repeat constructor; auto.
Qed.
Lemma map_assign_sorted k v m : map_sorted m -> map_sorted (map_assign k v m).
Proof.
  induction m as [|[k0 v0] m IH]; cbn; [by repeat constructor|]. intros [Hf Hs].
  destruct (key_compare k k0) eqn:E; cbn.
  - done.
  - split; [|done]. constructor; [exact E|]. eapply Forall_impl; [|exact Hf].
    intros p Hp. by eapply key_lt_trans.
  - split; [|by apply IH]. apply map_assign_keys; [|done]. by apply key_gt_lt.
Qed.
Lemma map_update_sorted d f k m : map_sorted m -> map_sorted (map_update d f k m).
Proof. apply map_assign_sorted. Qed.
Lemma map_erase_forall k m (P : K * V -> Prop) : Forall P m -> Forall P (map_erase k m).
Proof.
  induction 1 as [|[k0 v0] m Hp Hm IH]; cbn; [done|]. destruct (key_compare k k0); [done|by constructor..].
Qed.
Lemma map_erase_sorted k m : map_sorted m -> map_sorted (map_erase k m).
Proof.
  induction m as [|[k0 v0] m IH]; cbn; [done|]. intros [Hf Hs]. destruct (key_compare k k0); cbn; [done|..];
    (split; [by apply map_erase_forall|by apply IH]).
Qed.

Lemma map_find_here k v m : map_find k ((k, v) :: m) = Some v.
Proof. cbn. by rewrite key_compare_refl. Qed.
Lemma map_find_there k k' v m : k <> k' -> map_find k ((k', v) :: m) = map_find k m.
Proof. intros Hne. cbn. destruct (key_compare k k') eqn:E; [|done..]. by apply key_compare_eq in E. Qed.
Lemma map_find_lower k m : Forall (fun p => key_lt k (fst p)) m -> map_find k m = None.
Proof.
  induction 1 as [|[k0 v0] m Hp Hm IH]; cbn; [done|]. cbn in Hp. unfold key_lt in Hp. by rewrite Hp.
Qed.
Lemma map_find_erase_eq k m : map_sorted m -> map_find k (map_erase k m) = None.
Proof.
  induction m as [|[k0 v0] m IH]; cbn; [done|]. intros [Hf Hs]. destruct (key_compare k k0) eqn:E.
  - apply key_compare_eq in E as ->. by apply map_find_lower.
  - cbn. rewrite E. auto.
  - cbn. rewrite E. auto.
Qed.
Lemma map_find_erase_ne k k' m : k' <> k -> map_find k' (map_erase k m) = map_find k' m.
Proof.
  intros Hne. induction m as [|[k0 v0] m IH]; cbn; [done|]. destruct (key_compare k k0) eqn:E; cbn.
  - apply key_compare_eq in E as ->. destruct (key_compare k' k0) eqn:E; [|done..].
    by apply key_compare_eq in E.
  - by rewrite IH.
  - by rewrite IH.
Qed.

(** In a sorted map the pairs and the results of [find] are the same thing. *)
Lemma map_find_in k v m : map_find k m = Some v -> (k, v) ∈ m.
Proof.
  induction m as [|[k0 v0] m IH]; cbn; [done|]. destruct (key_compare k k0) eqn:E; intros Hk.
  - apply key_compare_eq in E as ->. simplify_eq. by left.
  - right. auto.
  - right. auto.
Qed.
Lemma map_in_find k v m : map_sorted m -> (k, v) ∈ m -> map_find k m = Some v.
Proof.
  induction m as [|[k0 v0] m IH]; cbn; intros Hs Hin; [by apply elem_of_nil in Hin|].
  destruct Hs as [Hf Hs]. apply elem_of_cons in Hin as [[= -> ->]|Hin]; [by rewrite key_compare_refl|].
  destruct (key_compare k k0) eqn:E; [|by apply IH..]. apply key_compare_eq in E as ->.
  rewrite Forall_forall in Hf. by destruct (key_lt_ne _ _ (Hf _ (proj1 (list_elem_of_In _ _) Hin))).
Qed.
Lemma map_sorted_nodup m : map_sorted m -> NoDup (map_keys m).
Proof.
  unfold map_keys. induction m as [|[k v] m IH]; cbn; [constructor|]. intros [Hf Hs].
  constructor; [|by apply IH]. intros (p & E & Hp)%list_elem_of_fmap. rewrite Forall_forall in Hf.
  by destruct (key_lt_ne _ _ (Hf p (proj1 (list_elem_of_In _ _) Hp))).
Qed.
Lemma map_keys_find k m : k ∈ map_keys m <-> is_Some (map_find k m).
Proof.
  unfold map_keys. induction m as [|[k0 v0] m IH]; cbn.
  - split; [by intros ?%elem_of_nil|by intros []].
  - rewrite elem_of_cons, IH. destruct (key_compare k k0) eqn:E.
    + apply key_compare_eq in E as ->. split; [by eexists|by left].
    + split; [|by right]. intros [->|]; [by rewrite key_compare_refl in E|done].
    + split; [|by right]. intros [->|]; [by rewrite key_compare_refl in E|done].
Qed.

(** [for (auto &[k, v] : l) m[k] = v;] into an empty map *)
Definition map_of (l : list (K * V)) : list (K * V) :=
  fold_left (fun m p => map_assign (fst p) (snd p) m) l [].

Lemma map_assign_last k v m :
  Forall (fun p => key_lt (fst p) k) m -> map_assign k v m = m ++ [(k, v)].
Proof.
  induction m as [|[k0 v0] m IH]; cbn; intros Hf; [done|]. inversion_clear Hf as [|? ? Hk Hm].
  rewrite key_compare_antisym. unfold key_lt in Hk. cbn in Hk. rewrite Hk. cbn. by rewrite IH.
Qed.
Lemma map_sorted_app_l m k v l :
  map_sorted (m ++ (k, v) :: l) -> Forall (fun p => key_lt (fst p) k) m.
Proof.
  induction m as [|[k0 v0] m IH]; cbn; intros Hs; [constructor|]. destruct Hs as [Hf Hs].
  constructor; [|by apply IH]. apply Forall_app in Hf as [_ Hf]. by inversion_clear Hf.
Qed.
(** Reading the pairs of a map back in key order rebuilds the map. *)
Lemma map_of_sorted l : map_sorted l -> map_of l = l.
Proof.
  unfold map_of. change l with ([] ++ l) at 1 3. generalize (@nil (K * V)).
  induction l as [|[k v] l IH]; intros acc; cbn; [by rewrite app_nil_r|]. intros Hs.
  rewrite map_assign_last by by eapply map_sorted_app_l.
  rewrite IH; rewrite <- app_assoc; done.
Qed.
Lemma map_assign_ne k v m : map_assign k v m <> [].
Proof. destruct m as [|[k' v'] m]; cbn; [done|]. by destruct (key_compare k k'). Qed.
End Map.
#[export] Instance map_sorted_dec {K} `{KeyOrder K} {V} (m : list (K * V)) : Decision (map_sorted m).
Proof. induction m as [|[k v] m IH]; cbn; apply _. Defined.
