(* ===== verification/Decimal.v ===== *)
(** * Decimal numbers

    [std::to_string] and the reading of digits, on byte strings. *)
From Stdlib Require Import ZArith Lia Bool.
From stdpp Require Import base tactics list numbers.
From S2P Require Import Prelude.

Fixpoint digits (fuel : nat) (n : Z) (acc : list Z) : list Z :=
  match fuel with
  | O => acc
  | S fuel => let acc := (48 + n mod 10) :: acc in if n / 10 =? 0 then acc else digits fuel (n / 10) acc
  end.
(** [std::to_string] of a 32-bit integer, at most ten digits *)
Definition to_string (n : Z) : list Z :=
  if n <? 0 then 45 :: digits 10 (- n) [] else digits 10 n [].

(** [%u] on a string of digits *)
Definition decimal (l : list Z) : Z := fold_left (fun v c => 10 * v + (c - 48)) l 0.
Definition is_digit (c : Z) : bool := (48 <=? c) && (c <=? 57).
Abbreviation all_digits := (Forall (fun c => is_digit c = true)).

Lemma digits_app fuel n acc : digits fuel n acc = digits fuel n [] ++ acc.
Proof.
  revert n acc. induction fuel as [|fuel IH]; intros n acc; cbn; [done|].
  destruct (n / 10 =? 0); [done|]. rewrite IH, (IH _ [_]), <- app_assoc. done.
Qed.
Lemma digits_step fuel n :
  digits (S fuel) n [] = (if n / 10 =? 0 then [] else digits fuel (n / 10) []) ++ [48 + n mod 10].
Proof. cbn. destruct (n / 10 =? 0); [done|]. by rewrite digits_app. Qed.
Lemma decimal_snoc l c : decimal (l ++ [c]) = 10 * decimal l + (c - 48).
Proof. unfold decimal. by rewrite fold_left_app. Qed.
Lemma decimal_digits fuel n : 0 <= n < 10 ^ Z.of_nat fuel -> decimal (digits fuel n []) = n.
Proof.
  revert n. induction fuel as [|fuel IH]; intros n Hn; [change (10 ^ Z.of_nat 0) with 1 in Hn; cbn; lia|].
  rewrite Nat2Z.inj_succ, Z.pow_succ_r in Hn by lia. rewrite digits_step, decimal_snoc.
  destruct (Z.eqb_spec (n / 10) 0) as [E|E].
  - cbn. Z.div_mod_to_equations. lia.
  - rewrite IH by (Z.div_mod_to_equations; lia). Z.div_mod_to_equations. lia.
Qed.
Lemma digits_all fuel n : all_digits (digits fuel n []).
Proof.
  revert n. induction fuel as [|fuel IH]; intros n; [constructor|].
  rewrite digits_step. apply Forall_app. split; [destruct (n / 10 =? 0); [constructor|apply IH]|].
  repeat constructor. pose proof (Z.mod_pos_bound n 10 ltac:(lia)). unfold is_digit.
  apply andb_true_intro. split; apply Z.leb_le; lia.
Qed.
Lemma digits_ne fuel n : digits (S fuel) n [] <> [].
Proof. rewrite digits_step. by intros []%app_nil. Qed.
(** The first digit of a positive number is not zero. *)
Lemma digits_head fuel n : 0 < n < 10 ^ Z.of_nat fuel -> exists c l, digits fuel n [] = c :: l /\ 49 <= c <= 57.
Proof.
  revert n. induction fuel as [|fuel IH]; intros n Hn; [change (10 ^ Z.of_nat 0) with 1 in Hn; lia|].
  rewrite Nat2Z.inj_succ, Z.pow_succ_r in Hn by lia. rewrite digits_step.
  destruct (Z.eqb_spec (n / 10) 0) as [E|E].
  - eexists _, []. split; [done|]. Z.div_mod_to_equations. lia.
  - destruct (IH (n / 10)) as (c & l & -> & Hc); [Z.div_mod_to_equations; lia|]. eexists c, _. by split.
Qed.

Lemma to_string_decimal n : in_u 32 n -> decimal (to_string n) = n.
Proof.
  unfold in_u, to_string. intros H. destruct (Z.ltb_spec n 0); [lia|]. apply decimal_digits. cbn. lia.
Qed.
Lemma to_string_digits n : 0 <= n -> all_digits (to_string n).
Proof. unfold to_string. intros H. destruct (Z.ltb_spec n 0); [lia|]. apply digits_all. Qed.
Lemma to_string_ne n : to_string n <> [].
Proof. unfold to_string. destruct (n <? 0); [done|apply digits_ne]. Qed.
Lemma to_string_inj m n : in_s 32 m -> in_s 32 n -> to_string m = to_string n -> m = n.
Proof.
  unfold in_s, to_string. intros Hm Hn.
  destruct (Z.ltb_spec m 0) as [Nm|Nm], (Z.ltb_spec n 0) as [Nn|Nn]; intros E.
  - apply (f_equal (fun l => decimal (tail l))) in E. cbn [tail] in E. rewrite !decimal_digits in E by (cbn; lia). lia.
  - pose proof (digits_all 10 n) as Hd. rewrite <- E in Hd. by inversion Hd.
  - pose proof (digits_all 10 m) as Hd. rewrite E in Hd. by inversion Hd.
  - apply (f_equal decimal) in E. by rewrite !decimal_digits in E by (cbn; lia).
Qed.
