(* ===== verification/GroupMessages.v ===== *)
(** * Consumer-group messages

    Heartbeat, JoinGroup, LeaveGroup and SyncGroup requests and responses: the
    members of each body in the order of the code, the wire form they agree on,
    and the message contract. *)
From Stdlib Require Import ZArith Lia Bool.
From stdpp Require Import base tactics list numbers sets.
From S2P Require Import Prelude Errors Wire Crc Fields Encoder Decoder Codec CodecEnc CodecDec.
From S2P Require Import EncoderDecoder StdMap.

(** ** Heartbeat *)

(* coev_kafka/heartbeat_request.h:21-43 HeartbeatRequest *)
Record HeartbeatRequest := mkHeartbeatRequest {
  hbq_version : Z; hbq_group_id : list Z; hbq_generation_id : Z; hbq_member_id : list Z;
  hbq_group_instance_id : list Z }.

(* coev_kafka/heartbeat_request.cpp HeartbeatRequest::encode *)
Definition HeartbeatRequest_encode (m : HeartbeatRequest) : PE Z :=
  try putString (hbq_group_id m) ;;;
  putInt32 (hbq_generation_id m) ;;;
  try putString (hbq_member_id m) ;;;
  try when (3 <=? hbq_version m)
    (putNullableString (hbq_group_instance_id m)) ;;;
  putEmptyTaggedFieldArray ;;;
  ret 0.

(* coev_kafka/heartbeat_request.cpp HeartbeatRequest::decode *)
Definition HeartbeatRequest_decode (self : HeartbeatRequest) (version : Z) : PD HeartbeatRequest :=
  let! group_id := getString in
  let! generation_id := getInt32 in
  let! member_id := getString in
  let! group_instance_id :=
    readIf (3 <=? version) getNullableString (hbq_group_instance_id self) in
  let! _t := getEmptyTaggedFieldArray in
  ok (mkHeartbeatRequest version group_id generation_id member_id group_instance_id).

(* coev_kafka/heartbeat_request.cpp HeartbeatRequest::is_flexible_version *)
Definition HeartbeatRequest_is_flexible_version (ver : Z) : bool := 4 <=? ver.
(* coev_kafka/heartbeat_request.cpp HeartbeatRequest::key..HeartbeatRequest::is_flexible *)
#[export] Instance HeartbeatRequest_body : protocol_body HeartbeatRequest := {
  pb_encode := HeartbeatRequest_encode;
  pb_decode := HeartbeatRequest_decode;
  pb_key _ := 12;
  pb_version := hbq_version;
  pb_header_version m := if 4 <=? hbq_version m then 2 else 1;
  pb_is_valid_version m := (0 <=? hbq_version m) && (hbq_version m <=? 4);
  pb_is_flexible m := HeartbeatRequest_is_flexible_version (hbq_version m);
  pb_is_flexible_version _ := HeartbeatRequest_is_flexible_version;
}.

Definition HeartbeatRequest_wire (m : HeartbeatRequest) : list Z :=
  let fl := pb_is_flexible m in
  w_string fl (hbq_group_id m) ++ be 4 (hbq_generation_id m) ++ w_string fl (hbq_member_id m) ++
  w_when (3 <=? hbq_version m) (w_nullable_string fl (hbq_group_instance_id m)) ++ w_tags fl.
Definition HeartbeatRequest_ok (m : HeartbeatRequest) : Prop :=
  let fl := pb_is_flexible m in
  string_ok fl (hbq_group_id m) /\ in_s 32 (hbq_generation_id m) /\
  string_ok fl (hbq_member_id m) /\ string_ok fl (hbq_group_instance_id m) /\
  ((3 <=? hbq_version m) = false -> hbq_group_instance_id m = []).
#[export] Instance HeartbeatRequest_ok_dec m : Decision (HeartbeatRequest_ok m).
Proof. unfold HeartbeatRequest_ok. cbv zeta. apply _. Defined.
Definition HeartbeatRequest_initial (v : Z) : HeartbeatRequest :=
  mkHeartbeatRequest v [] 0 [] [].
#[export] Hint Unfold HeartbeatRequest_encode HeartbeatRequest_decode HeartbeatRequest_wire HeartbeatRequest_ok HeartbeatRequest_initial : message.

Lemma HeartbeatRequest_emits m :
  HeartbeatRequest_ok m -> emits (pb_is_flexible m) (pb_encode m) 0 (HeartbeatRequest_wire m).
Proof. solve_emits m. Qed.
Lemma HeartbeatRequest_consumes m :
  HeartbeatRequest_ok m ->
  consumes (pb_is_flexible m) (pb_decode (HeartbeatRequest_initial (pb_version m)) (pb_version m))
    (Ok m) (HeartbeatRequest_wire m).
Proof. solve_consumes m. Qed.
#[export] Instance HeartbeatRequest_format : WireFormat HeartbeatRequest := {
  wire := HeartbeatRequest_wire;
  wire_ok := HeartbeatRequest_ok;
  wire_initial := HeartbeatRequest_initial;
  wire_flexible _ _ := eq_refl;
  wire_encode := HeartbeatRequest_emits;
  wire_decode := HeartbeatRequest_consumes;
}.

(* coev_kafka/heartbeat_response.h:21-39 HeartbeatResponse *)
Record HeartbeatResponse := mkHeartbeatResponse {
  hbs_version : Z; hbs_throttle_time : Z; hbs_err : Z }.

(* coev_kafka/heartbeat_response.cpp HeartbeatResponse::encode *)
Definition HeartbeatResponse_encode (m : HeartbeatResponse) : PE Z :=
  whenU (1 <=? hbs_version m)
    (putDurationMs (hbs_throttle_time m)) ;;;
  putKError (hbs_err m) ;;;
  putEmptyTaggedFieldArray ;;;
  ret 0.

(* coev_kafka/heartbeat_response.cpp HeartbeatResponse::decode *)
Definition HeartbeatResponse_decode (self : HeartbeatResponse) (version : Z) : PD HeartbeatResponse :=
  let! throttle_time :=
    readIf (1 <=? version) getDurationMs (hbs_throttle_time self) in
  let! err := getKError in
  let! _t := getEmptyTaggedFieldArray in
  ok (mkHeartbeatResponse version throttle_time err).

(* coev_kafka/heartbeat_response.cpp HeartbeatResponse::is_flexible_version *)
Definition HeartbeatResponse_is_flexible_version (ver : Z) : bool := 4 <=? ver.
(* coev_kafka/heartbeat_response.cpp HeartbeatResponse::key..HeartbeatResponse::is_flexible *)
#[export] Instance HeartbeatResponse_body : protocol_body HeartbeatResponse := {
  pb_encode := HeartbeatResponse_encode;
  pb_decode := HeartbeatResponse_decode;
  pb_key _ := 12;
  pb_version := hbs_version;
  pb_header_version m := if 4 <=? hbs_version m then 1 else 0;
  pb_is_valid_version m := (0 <=? hbs_version m) && (hbs_version m <=? 4);
  pb_is_flexible m := HeartbeatResponse_is_flexible_version (hbs_version m);
  pb_is_flexible_version _ := HeartbeatResponse_is_flexible_version;
}.

Definition HeartbeatResponse_wire (m : HeartbeatResponse) : list Z :=
  let fl := pb_is_flexible m in
  w_when (1 <=? hbs_version m) (be 4 (hbs_throttle_time m)) ++ be 2 (hbs_err m) ++ w_tags fl.
Definition HeartbeatResponse_ok (m : HeartbeatResponse) : Prop :=
  in_s 32 (hbs_throttle_time m) /\ ((1 <=? hbs_version m) = false -> hbs_throttle_time m = 0) /\
  in_s 16 (hbs_err m).
#[export] Instance HeartbeatResponse_ok_dec m : Decision (HeartbeatResponse_ok m).
Proof. unfold HeartbeatResponse_ok. cbv zeta. apply _. Defined.
Definition HeartbeatResponse_initial (v : Z) : HeartbeatResponse :=
  mkHeartbeatResponse v 0 0.
#[export] Hint Unfold HeartbeatResponse_encode HeartbeatResponse_decode HeartbeatResponse_wire HeartbeatResponse_ok HeartbeatResponse_initial : message.

Lemma HeartbeatResponse_emits m :
  HeartbeatResponse_ok m -> emits (pb_is_flexible m) (pb_encode m) 0 (HeartbeatResponse_wire m).
Proof. solve_emits m. Qed.
Lemma HeartbeatResponse_consumes m :
  HeartbeatResponse_ok m ->
  consumes (pb_is_flexible m) (pb_decode (HeartbeatResponse_initial (pb_version m)) (pb_version m))
    (Ok m) (HeartbeatResponse_wire m).
Proof. solve_consumes m. Qed.
#[export] Instance HeartbeatResponse_format : WireFormat HeartbeatResponse := {
  wire := HeartbeatResponse_wire;
  wire_ok := HeartbeatResponse_ok;
  wire_initial := HeartbeatResponse_initial;
  wire_flexible _ _ := eq_refl;
  wire_encode := HeartbeatResponse_emits;
  wire_decode := HeartbeatResponse_consumes;
}.

(** ** LeaveGroup *)

(* coev_kafka/leave_group_request.h:23-27 MemberIdentity *)
Record MemberIdentity := mkMemberIdentity {
  mid_member_id : list Z; mid_group_instance_id : list Z }.

(* coev_kafka/leave_group_request.cpp:37-48 LeaveGroupRequest::encode *)
Definition MemberIdentity_encode (m : MemberIdentity) : PE Z :=
  try putString (mid_member_id m) ;;;
  try putNullableString (mid_group_instance_id m) ;;;
  putEmptyTaggedFieldArray ;;;
  ret 0.

(* coev_kafka/leave_group_request.cpp:78-98 LeaveGroupRequest::decode *)
Definition MemberIdentity_decode : PD MemberIdentity :=
  let! member_id := getString in
  let! group_instance_id := getNullableString in
  let! _t := getEmptyTaggedFieldArray in
  ok (mkMemberIdentity member_id group_instance_id).

Definition MemberIdentity_wire (fl : bool) (m : MemberIdentity) : list Z :=
  w_string fl (mid_member_id m) ++ w_nullable_string fl (mid_group_instance_id m) ++ w_tags fl.
Definition MemberIdentity_ok (fl : bool) (m : MemberIdentity) : Prop :=
  string_ok fl (mid_member_id m) /\ string_ok fl (mid_group_instance_id m).
#[export] Instance MemberIdentity_ok_dec fl m : Decision (MemberIdentity_ok fl m).
Proof. unfold MemberIdentity_ok. apply _. Defined.
#[export] Hint Unfold MemberIdentity_encode MemberIdentity_decode MemberIdentity_wire MemberIdentity_ok : message.
Lemma MemberIdentity_emits fl m : MemberIdentity_ok fl m -> emits fl (MemberIdentity_encode m) 0 (MemberIdentity_wire fl m).
Proof. solve_emits m. Qed.
Lemma MemberIdentity_consumes fl m : MemberIdentity_ok fl m -> consumes fl MemberIdentity_decode (Ok m) (MemberIdentity_wire fl m).
Proof. solve_consumes m. Qed.
#[export] Hint Resolve MemberIdentity_emits : emit.
#[export] Hint Resolve MemberIdentity_consumes : consume.
#[global] Arguments MemberIdentity_wire : simpl never.
#[global] Arguments MemberIdentity_encode : simpl never.
#[global] Arguments MemberIdentity_decode : simpl never.
#[global] Arguments MemberIdentity_ok : simpl never.

(* coev_kafka/leave_group_request.h:29-49 LeaveGroupRequest *)
Record LeaveGroupRequest := mkLeaveGroupRequest {
  lgq_version : Z; lgq_group_id : list Z; lgq_member_id : list Z;
  lgq_members : list MemberIdentity }.

(* coev_kafka/leave_group_request.cpp LeaveGroupRequest::encode *)
Definition LeaveGroupRequest_encode (m : LeaveGroupRequest) : PE Z :=
  try putString (lgq_group_id m) ;;;
  try when (lgq_version m <? 3)
    (putString (lgq_member_id m)) ;;;
  try when (3 <=? lgq_version m)
    (try putArrayLength (to_i32 (Zlen (lgq_members m))) ;;; for_try (lgq_members m) MemberIdentity_encode) ;;;
  putEmptyTaggedFieldArray ;;;
  ret 0.

(* coev_kafka/leave_group_request.cpp LeaveGroupRequest::decode *)
Definition LeaveGroupRequest_decode (self : LeaveGroupRequest) (version : Z) : PD LeaveGroupRequest :=
  let! group_id := getString in
  let! member_id :=
    readIf (version <? 3) getString (lgq_member_id self) in
  let! members :=
    readIf (3 <=? version) (let! n := getArrayLength in read_resized n MemberIdentity_decode) (lgq_members self) in
  let! _t := getEmptyTaggedFieldArray in
  ok (mkLeaveGroupRequest version group_id member_id members).

(* coev_kafka/leave_group_request.cpp LeaveGroupRequest::is_flexible_version *)
Definition LeaveGroupRequest_is_flexible_version (ver : Z) : bool := 4 <=? ver.
(* coev_kafka/leave_group_request.cpp LeaveGroupRequest::key..LeaveGroupRequest::is_flexible *)
#[export] Instance LeaveGroupRequest_body : protocol_body LeaveGroupRequest := {
  pb_encode := LeaveGroupRequest_encode;
  pb_decode := LeaveGroupRequest_decode;
  pb_key _ := 13;
  pb_version := lgq_version;
  pb_header_version m := if 4 <=? lgq_version m then 2 else 1;
  pb_is_valid_version m := (0 <=? lgq_version m) && (lgq_version m <=? 4);
  pb_is_flexible m := LeaveGroupRequest_is_flexible_version (lgq_version m);
  pb_is_flexible_version _ := LeaveGroupRequest_is_flexible_version;
}.

Definition LeaveGroupRequest_wire (m : LeaveGroupRequest) : list Z :=
  let fl := pb_is_flexible m in
  w_string fl (lgq_group_id m) ++ w_when (lgq_version m <? 3) (w_string fl (lgq_member_id m)) ++
  w_when (3 <=? lgq_version m) (w_array_length fl (Zlen (lgq_members m)) ++ w_list (MemberIdentity_wire fl) (lgq_members m)) ++
  w_tags fl.
Definition LeaveGroupRequest_ok (m : LeaveGroupRequest) : Prop :=
  let fl := pb_is_flexible m in
  string_ok fl (lgq_group_id m) /\ string_ok fl (lgq_member_id m) /\
  ((lgq_version m <? 3) = false -> lgq_member_id m = []) /\
  array_fits fl (MemberIdentity_ok fl) (lgq_members m) /\
  ((3 <=? lgq_version m) = false -> lgq_members m = []).
#[export] Instance LeaveGroupRequest_ok_dec m : Decision (LeaveGroupRequest_ok m).
Proof. unfold LeaveGroupRequest_ok. cbv zeta. apply _. Defined.
Definition LeaveGroupRequest_initial (v : Z) : LeaveGroupRequest :=
  mkLeaveGroupRequest v [] [] [].
#[export] Hint Unfold LeaveGroupRequest_encode LeaveGroupRequest_decode LeaveGroupRequest_wire LeaveGroupRequest_ok LeaveGroupRequest_initial : message.

Lemma LeaveGroupRequest_emits m :
  LeaveGroupRequest_ok m -> emits (pb_is_flexible m) (pb_encode m) 0 (LeaveGroupRequest_wire m).
Proof. solve_emits m. Qed.
Lemma LeaveGroupRequest_consumes m :
  LeaveGroupRequest_ok m ->
  consumes (pb_is_flexible m) (pb_decode (LeaveGroupRequest_initial (pb_version m)) (pb_version m))
    (Ok m) (LeaveGroupRequest_wire m).
Proof. solve_consumes m. Qed.
#[export] Instance LeaveGroupRequest_format : WireFormat LeaveGroupRequest := {
  wire := LeaveGroupRequest_wire;
  wire_ok := LeaveGroupRequest_ok;
  wire_initial := LeaveGroupRequest_initial;
  wire_flexible _ _ := eq_refl;
  wire_encode := LeaveGroupRequest_emits;
  wire_decode := LeaveGroupRequest_consumes;
}.

(* coev_kafka/leave_group_response.h:24-29 MemberResponse *)
Record MemberResponse := mkMemberResponse {
  mrs_member_id : list Z; mrs_group_instance_id : list Z; mrs_err : Z }.

(* coev_kafka/leave_group_response.cpp:32-44 LeaveGroupResponse::encode *)
Definition MemberResponse_encode (m : MemberResponse) : PE Z :=
  try putString (mrs_member_id m) ;;;
  try putNullableString (mrs_group_instance_id m) ;;;
  putKError (mrs_err m) ;;;
  putEmptyTaggedFieldArray ;;;
  ret 0.

(* coev_kafka/leave_group_response.cpp:74-91 LeaveGroupResponse::decode *)
Definition MemberResponse_decode : PD MemberResponse :=
  let! member_id := getString in
  let! group_instance_id := getNullableString in
  let! err := getKError in
  let! _t := getEmptyTaggedFieldArray in
  ok (mkMemberResponse member_id group_instance_id err).

Definition MemberResponse_wire (fl : bool) (m : MemberResponse) : list Z :=
  w_string fl (mrs_member_id m) ++ w_nullable_string fl (mrs_group_instance_id m) ++
  be 2 (mrs_err m) ++ w_tags fl.
Definition MemberResponse_ok (fl : bool) (m : MemberResponse) : Prop :=
  string_ok fl (mrs_member_id m) /\ string_ok fl (mrs_group_instance_id m) /\
  in_s 16 (mrs_err m).
#[export] Instance MemberResponse_ok_dec fl m : Decision (MemberResponse_ok fl m).
Proof. unfold MemberResponse_ok. apply _. Defined.
#[export] Hint Unfold MemberResponse_encode MemberResponse_decode MemberResponse_wire MemberResponse_ok : message.
Lemma MemberResponse_emits fl m : MemberResponse_ok fl m -> emits fl (MemberResponse_encode m) 0 (MemberResponse_wire fl m).
Proof. solve_emits m. Qed.
Lemma MemberResponse_consumes fl m : MemberResponse_ok fl m -> consumes fl MemberResponse_decode (Ok m) (MemberResponse_wire fl m).
Proof. solve_consumes m. Qed.
#[export] Hint Resolve MemberResponse_emits : emit.
#[export] Hint Resolve MemberResponse_consumes : consume.
#[global] Arguments MemberResponse_wire : simpl never.
#[global] Arguments MemberResponse_encode : simpl never.
#[global] Arguments MemberResponse_decode : simpl never.
#[global] Arguments MemberResponse_ok : simpl never.

(* coev_kafka/leave_group_response.h:31-50 LeaveGroupResponse *)
Record LeaveGroupResponse := mkLeaveGroupResponse {
  lgs_version : Z; lgs_throttle_time : Z; lgs_err : Z;
  lgs_member_responses : list MemberResponse }.

(* coev_kafka/leave_group_response.cpp LeaveGroupResponse::encode *)
Definition LeaveGroupResponse_encode (m : LeaveGroupResponse) : PE Z :=
  whenU (1 <=? lgs_version m)
    (putDurationMs (lgs_throttle_time m)) ;;;
  putKError (lgs_err m) ;;;
  try when (3 <=? lgs_version m)
    (try putArrayLength (to_i32 (Zlen (lgs_member_responses m))) ;;; for_try (lgs_member_responses m) MemberResponse_encode) ;;;
  putEmptyTaggedFieldArray ;;;
  ret 0.

(* coev_kafka/leave_group_response.cpp LeaveGroupResponse::decode *)
Definition LeaveGroupResponse_decode (self : LeaveGroupResponse) (version : Z) : PD LeaveGroupResponse :=
  let! throttle_time :=
    readIf (1 <=? version) getDurationMs (lgs_throttle_time self) in
  let! err := getKError in
  let! member_responses :=
    readIf (3 <=? version) (let! n := getArrayLength in read_resized n MemberResponse_decode) (lgs_member_responses self) in
  let! _t := getEmptyTaggedFieldArray in
  ok (mkLeaveGroupResponse version throttle_time err member_responses).

(* coev_kafka/leave_group_response.cpp LeaveGroupResponse::is_flexible_version *)
Definition LeaveGroupResponse_is_flexible_version (ver : Z) : bool := 4 <=? ver.
(* coev_kafka/leave_group_response.cpp LeaveGroupResponse::key..LeaveGroupResponse::is_flexible *)
#[export] Instance LeaveGroupResponse_body : protocol_body LeaveGroupResponse := {
  pb_encode := LeaveGroupResponse_encode;
  pb_decode := LeaveGroupResponse_decode;
  pb_key _ := 13;
  pb_version := lgs_version;
  pb_header_version m := if 4 <=? lgs_version m then 1 else 0;
  pb_is_valid_version m := (0 <=? lgs_version m) && (lgs_version m <=? 4);
  pb_is_flexible m := LeaveGroupResponse_is_flexible_version (lgs_version m);
  pb_is_flexible_version _ := LeaveGroupResponse_is_flexible_version;
}.

Definition LeaveGroupResponse_wire (m : LeaveGroupResponse) : list Z :=
  let fl := pb_is_flexible m in
  w_when (1 <=? lgs_version m) (be 4 (lgs_throttle_time m)) ++ be 2 (lgs_err m) ++
  w_when (3 <=? lgs_version m) (w_array_length fl (Zlen (lgs_member_responses m)) ++ w_list (MemberResponse_wire fl) (lgs_member_responses m)) ++
  w_tags fl.
Definition LeaveGroupResponse_ok (m : LeaveGroupResponse) : Prop :=
  let fl := pb_is_flexible m in
  in_s 32 (lgs_throttle_time m) /\ ((1 <=? lgs_version m) = false -> lgs_throttle_time m = 0) /\
  in_s 16 (lgs_err m) /\ array_fits fl (MemberResponse_ok fl) (lgs_member_responses m) /\
  ((3 <=? lgs_version m) = false -> lgs_member_responses m = []).
#[export] Instance LeaveGroupResponse_ok_dec m : Decision (LeaveGroupResponse_ok m).
Proof. unfold LeaveGroupResponse_ok. cbv zeta. apply _. Defined.
Definition LeaveGroupResponse_initial (v : Z) : LeaveGroupResponse :=
  mkLeaveGroupResponse v 0 0 [].
#[export] Hint Unfold LeaveGroupResponse_encode LeaveGroupResponse_decode LeaveGroupResponse_wire LeaveGroupResponse_ok LeaveGroupResponse_initial : message.

Lemma LeaveGroupResponse_emits m :
  LeaveGroupResponse_ok m -> emits (pb_is_flexible m) (pb_encode m) 0 (LeaveGroupResponse_wire m).
Proof. solve_emits m. Qed.
Lemma LeaveGroupResponse_consumes m :
  LeaveGroupResponse_ok m ->
  consumes (pb_is_flexible m) (pb_decode (LeaveGroupResponse_initial (pb_version m)) (pb_version m))
    (Ok m) (LeaveGroupResponse_wire m).
Proof. solve_consumes m. Qed.
#[export] Instance LeaveGroupResponse_format : WireFormat LeaveGroupResponse := {
  wire := LeaveGroupResponse_wire;
  wire_ok := LeaveGroupResponse_ok;
  wire_initial := LeaveGroupResponse_initial;
  wire_flexible _ _ := eq_refl;
  wire_encode := LeaveGroupResponse_emits;
  wire_decode := LeaveGroupResponse_consumes;
}.

(** ** SyncGroup *)

(* coev_kafka/sync_group_request.h:24-34 SyncGroupRequestAssignment *)
Record SyncGroupRequestAssignment := mkSyncGroupRequestAssignment {
  sga_member_id : list Z; sga_assignment : list Z }.

(* coev_kafka/sync_group_request.cpp SyncGroupRequestAssignment::encode *)
Definition SyncGroupRequestAssignment_encode (m : SyncGroupRequestAssignment) : PE Z :=
  try putString (sga_member_id m) ;;;
  try putBytes (sga_assignment m) ;;;
  putEmptyTaggedFieldArray ;;;
  ret 0.

(* coev_kafka/sync_group_request.cpp SyncGroupRequestAssignment::decode *)
Definition SyncGroupRequestAssignment_decode : PD SyncGroupRequestAssignment :=
  let! member_id := getString in
  let! assignment := getBytes in
  let! _t := getEmptyTaggedFieldArray in
  ok (mkSyncGroupRequestAssignment member_id assignment).

Definition SyncGroupRequestAssignment_wire (fl : bool) (m : SyncGroupRequestAssignment) : list Z :=
  w_string fl (sga_member_id m) ++ w_bytes fl (sga_assignment m) ++ w_tags fl.
Definition SyncGroupRequestAssignment_ok (fl : bool) (m : SyncGroupRequestAssignment) : Prop :=
  string_ok fl (sga_member_id m) /\ bytes_ok (sga_assignment m).
#[export] Instance SyncGroupRequestAssignment_ok_dec fl m : Decision (SyncGroupRequestAssignment_ok fl m).
Proof. unfold SyncGroupRequestAssignment_ok. apply _. Defined.
#[export] Hint Unfold SyncGroupRequestAssignment_encode SyncGroupRequestAssignment_decode SyncGroupRequestAssignment_wire SyncGroupRequestAssignment_ok : message.
Lemma SyncGroupRequestAssignment_emits fl m : SyncGroupRequestAssignment_ok fl m -> emits fl (SyncGroupRequestAssignment_encode m) 0 (SyncGroupRequestAssignment_wire fl m).
Proof. solve_emits m. Qed.
Lemma SyncGroupRequestAssignment_consumes fl m : SyncGroupRequestAssignment_ok fl m -> consumes fl SyncGroupRequestAssignment_decode (Ok m) (SyncGroupRequestAssignment_wire fl m).
Proof. solve_consumes m. Qed.
#[export] Hint Resolve SyncGroupRequestAssignment_emits : emit.
#[export] Hint Resolve SyncGroupRequestAssignment_consumes : consume.
#[global] Arguments SyncGroupRequestAssignment_wire : simpl never.
#[global] Arguments SyncGroupRequestAssignment_encode : simpl never.
#[global] Arguments SyncGroupRequestAssignment_decode : simpl never.
#[global] Arguments SyncGroupRequestAssignment_ok : simpl never.

(* coev_kafka/sync_group_request.h:36-62 SyncGroupRequest *)
Record SyncGroupRequest := mkSyncGroupRequest {
  sgq_version : Z; sgq_group_id : list Z; sgq_generation_id : Z; sgq_member_id : list Z;
  sgq_group_instance_id : list Z; sgq_group_assignments : list SyncGroupRequestAssignment }.

(* coev_kafka/sync_group_request.cpp SyncGroupRequest::encode *)
Definition SyncGroupRequest_encode (m : SyncGroupRequest) : PE Z :=
  try putString (sgq_group_id m) ;;;
  putInt32 (sgq_generation_id m) ;;;
  try putString (sgq_member_id m) ;;;
  try when (3 <=? sgq_version m)
    (putNullableString (sgq_group_instance_id m)) ;;;
  try putArrayLength (to_i32 (Zlen (sgq_group_assignments m))) ;;;
  try for_try (sgq_group_assignments m) SyncGroupRequestAssignment_encode ;;;
  putEmptyTaggedFieldArray ;;;
  ret 0.

(* coev_kafka/sync_group_request.cpp SyncGroupRequest::decode *)
Definition SyncGroupRequest_decode (self : SyncGroupRequest) (version : Z) : PD SyncGroupRequest :=
  let! group_id := getString in
  let! generation_id := getInt32 in
  let! member_id := getString in
  let! group_instance_id :=
    readIf (3 <=? version) getNullableString (sgq_group_instance_id self) in
  let! n := getArrayLength in
  let! group_assignments := read_counted n SyncGroupRequestAssignment_decode in
  let! _t := getEmptyTaggedFieldArray in
  ok (mkSyncGroupRequest version group_id generation_id member_id group_instance_id group_assignments).

(* coev_kafka/sync_group_request.cpp SyncGroupRequest::is_flexible_version *)
Definition SyncGroupRequest_is_flexible_version (ver : Z) : bool := 4 <=? ver.
(* coev_kafka/sync_group_request.cpp SyncGroupRequest::key..SyncGroupRequest::is_flexible *)
#[export] Instance SyncGroupRequest_body : protocol_body SyncGroupRequest := {
  pb_encode := SyncGroupRequest_encode;
  pb_decode := SyncGroupRequest_decode;
  pb_key _ := 14;
  pb_version := sgq_version;
  pb_header_version m := if 4 <=? sgq_version m then 2 else 1;
  pb_is_valid_version m := (0 <=? sgq_version m) && (sgq_version m <=? 5);
  pb_is_flexible m := SyncGroupRequest_is_flexible_version (sgq_version m);
  pb_is_flexible_version _ := SyncGroupRequest_is_flexible_version;
}.

Definition SyncGroupRequest_wire (m : SyncGroupRequest) : list Z :=
  let fl := pb_is_flexible m in
  w_string fl (sgq_group_id m) ++ be 4 (sgq_generation_id m) ++ w_string fl (sgq_member_id m) ++
  w_when (3 <=? sgq_version m) (w_nullable_string fl (sgq_group_instance_id m)) ++
  w_array_length fl (Zlen (sgq_group_assignments m)) ++ w_list (SyncGroupRequestAssignment_wire fl) (sgq_group_assignments m) ++
  w_tags fl.
Definition SyncGroupRequest_ok (m : SyncGroupRequest) : Prop :=
  let fl := pb_is_flexible m in
  string_ok fl (sgq_group_id m) /\ in_s 32 (sgq_generation_id m) /\
  string_ok fl (sgq_member_id m) /\ string_ok fl (sgq_group_instance_id m) /\
  ((3 <=? sgq_version m) = false -> sgq_group_instance_id m = []) /\
  array_fits fl (SyncGroupRequestAssignment_ok fl) (sgq_group_assignments m).
#[export] Instance SyncGroupRequest_ok_dec m : Decision (SyncGroupRequest_ok m).
Proof. unfold SyncGroupRequest_ok. cbv zeta. apply _. Defined.
Definition SyncGroupRequest_initial (v : Z) : SyncGroupRequest :=
  mkSyncGroupRequest v [] 0 [] [] [].
#[export] Hint Unfold SyncGroupRequest_encode SyncGroupRequest_decode SyncGroupRequest_wire SyncGroupRequest_ok SyncGroupRequest_initial : message.

Lemma SyncGroupRequest_emits m :
  SyncGroupRequest_ok m -> emits (pb_is_flexible m) (pb_encode m) 0 (SyncGroupRequest_wire m).
Proof. solve_emits m. Qed.
Lemma SyncGroupRequest_consumes m :
  SyncGroupRequest_ok m ->
  consumes (pb_is_flexible m) (pb_decode (SyncGroupRequest_initial (pb_version m)) (pb_version m))
    (Ok m) (SyncGroupRequest_wire m).
Proof. solve_consumes m. Qed.
#[export] Instance SyncGroupRequest_format : WireFormat SyncGroupRequest := {
  wire := SyncGroupRequest_wire;
  wire_ok := SyncGroupRequest_ok;
  wire_initial := SyncGroupRequest_initial;
  wire_flexible _ _ := eq_refl;
  wire_encode := SyncGroupRequest_emits;
  wire_decode := SyncGroupRequest_consumes;
}.

(* coev_kafka/sync_group_response.h:23-46 SyncGroupResponse *)
Record SyncGroupResponse := mkSyncGroupResponse {
  sgs_version : Z; sgs_throttle_time : Z; sgs_err : Z; sgs_member_assignment : list Z }.

(* coev_kafka/sync_group_response.cpp SyncGroupResponse::encode *)
Definition SyncGroupResponse_encode (m : SyncGroupResponse) : PE Z :=
  whenU (1 <=? sgs_version m)
    (putDurationMs (sgs_throttle_time m)) ;;;
  putKError (sgs_err m) ;;;
  try putBytes (sgs_member_assignment m) ;;;
  putEmptyTaggedFieldArray ;;;
  ret 0.

(* coev_kafka/sync_group_response.cpp SyncGroupResponse::decode *)
Definition SyncGroupResponse_decode (self : SyncGroupResponse) (version : Z) : PD SyncGroupResponse :=
  let! throttle_time :=
    readIf (1 <=? version) getDurationMs (sgs_throttle_time self) in
  let! err := getKError in
  let! member_assignment := getBytes in
  let! _t := getEmptyTaggedFieldArray in
  ok (mkSyncGroupResponse version throttle_time err member_assignment).

(* coev_kafka/sync_group_response.cpp SyncGroupResponse::is_flexible_version *)
Definition SyncGroupResponse_is_flexible_version (ver : Z) : bool := 4 <=? ver.
(* coev_kafka/sync_group_response.cpp SyncGroupResponse::key..SyncGroupResponse::is_flexible *)
#[export] Instance SyncGroupResponse_body : protocol_body SyncGroupResponse := {
  pb_encode := SyncGroupResponse_encode;
  pb_decode := SyncGroupResponse_decode;
  pb_key _ := 14;
  pb_version := sgs_version;
  pb_header_version m := if 4 <=? sgs_version m then 1 else 0;
  pb_is_valid_version m := (0 <=? sgs_version m) && (sgs_version m <=? 5);
  pb_is_flexible m := SyncGroupResponse_is_flexible_version (sgs_version m);
  pb_is_flexible_version _ := SyncGroupResponse_is_flexible_version;
}.

Definition SyncGroupResponse_wire (m : SyncGroupResponse) : list Z :=
  let fl := pb_is_flexible m in
  w_when (1 <=? sgs_version m) (be 4 (sgs_throttle_time m)) ++ be 2 (sgs_err m) ++
  w_bytes fl (sgs_member_assignment m) ++ w_tags fl.
Definition SyncGroupResponse_ok (m : SyncGroupResponse) : Prop :=
  in_s 32 (sgs_throttle_time m) /\ ((1 <=? sgs_version m) = false -> sgs_throttle_time m = 0) /\
  in_s 16 (sgs_err m) /\ bytes_ok (sgs_member_assignment m).
#[export] Instance SyncGroupResponse_ok_dec m : Decision (SyncGroupResponse_ok m).
Proof. unfold SyncGroupResponse_ok. cbv zeta. apply _. Defined.
Definition SyncGroupResponse_initial (v : Z) : SyncGroupResponse :=
  mkSyncGroupResponse v 0 0 [].
#[export] Hint Unfold SyncGroupResponse_encode SyncGroupResponse_decode SyncGroupResponse_wire SyncGroupResponse_ok SyncGroupResponse_initial : message.

Lemma SyncGroupResponse_emits m :
  SyncGroupResponse_ok m -> emits (pb_is_flexible m) (pb_encode m) 0 (SyncGroupResponse_wire m).
Proof. solve_emits m. Qed.
Lemma SyncGroupResponse_consumes m :
  SyncGroupResponse_ok m ->
  consumes (pb_is_flexible m) (pb_decode (SyncGroupResponse_initial (pb_version m)) (pb_version m))
    (Ok m) (SyncGroupResponse_wire m).
Proof. solve_consumes m. Qed.
#[export] Instance SyncGroupResponse_format : WireFormat SyncGroupResponse := {
  wire := SyncGroupResponse_wire;
  wire_ok := SyncGroupResponse_ok;
  wire_initial := SyncGroupResponse_initial;
  wire_flexible _ _ := eq_refl;
  wire_encode := SyncGroupResponse_emits;
  wire_decode := SyncGroupResponse_consumes;
}.

(** ** JoinGroup *)

(* coev_kafka/join_group_request.h:28-38 GroupProtocol *)
Record GroupProtocol := mkGroupProtocol {
  gp_name : list Z; gp_metadata : list Z }.

(* coev_kafka/join_group_request.cpp GroupProtocol::encode *)
Definition GroupProtocol_encode (m : GroupProtocol) : PE Z :=
  try putString (gp_name m) ;;;
  try putBytes (gp_metadata m) ;;;
  putEmptyTaggedFieldArray ;;;
  ret 0.

(* coev_kafka/join_group_request.cpp GroupProtocol::decode *)
Definition GroupProtocol_decode : PD GroupProtocol :=
  let! name := getString in
  let! metadata := getBytes in
  let! _t := getEmptyTaggedFieldArray in
  ok (mkGroupProtocol name metadata).

Definition GroupProtocol_wire (fl : bool) (m : GroupProtocol) : list Z :=
  w_string fl (gp_name m) ++ w_bytes fl (gp_metadata m) ++ w_tags fl.
Definition GroupProtocol_ok (fl : bool) (m : GroupProtocol) : Prop :=
  string_ok fl (gp_name m) /\ bytes_ok (gp_metadata m).
#[export] Instance GroupProtocol_ok_dec fl m : Decision (GroupProtocol_ok fl m).
Proof. unfold GroupProtocol_ok. apply _. Defined.
#[export] Hint Unfold GroupProtocol_encode GroupProtocol_decode GroupProtocol_wire GroupProtocol_ok : message.
Lemma GroupProtocol_emits fl m : GroupProtocol_ok fl m -> emits fl (GroupProtocol_encode m) 0 (GroupProtocol_wire fl m).
Proof. solve_emits m. Qed.
Lemma GroupProtocol_consumes fl m : GroupProtocol_ok fl m -> consumes fl GroupProtocol_decode (Ok m) (GroupProtocol_wire fl m).
Proof. solve_consumes m. Qed.
#[export] Hint Resolve GroupProtocol_emits : emit.
#[export] Hint Resolve GroupProtocol_consumes : consume.
#[global] Arguments GroupProtocol_wire : simpl never.
#[global] Arguments GroupProtocol_encode : simpl never.
#[global] Arguments GroupProtocol_decode : simpl never.
#[global] Arguments GroupProtocol_ok : simpl never.

(* coev_kafka/join_group_request.h:40-68 JoinGroupRequest *)
Record JoinGroupRequest := mkJoinGroupRequest {
  jgq_version : Z; jgq_group_id : list Z; jgq_session_timeout : Z; jgq_rebalance_timeout : Z;
  jgq_member_id : list Z; jgq_group_instance_id : list Z; jgq_protocol_type : list Z;
  jgq_group_protocols : list (list Z * list Z); (* [std::map], in key order *)
  jgq_ordered_group_protocols : list GroupProtocol }.

(** The body of the loop over the map's pairs *)
(* coev_kafka/join_group_request.cpp:89-98 JoinGroupRequest::encode *)
Definition group_protocol_pair_encode (kv : list Z * list Z) : PE Z :=
  try putString (fst kv) ;;; try putBytes (snd kv) ;;; putEmptyTaggedFieldArray ;;; ret 0.

(* coev_kafka/join_group_request.cpp JoinGroupRequest::encode *)
Definition JoinGroupRequest_encode (m : JoinGroupRequest) : PE Z :=
  try putString (jgq_group_id m) ;;;
  putInt32 (jgq_session_timeout m) ;;;
  whenU (1 <=? jgq_version m) (putInt32 (jgq_rebalance_timeout m)) ;;;
  try putString (jgq_member_id m) ;;;
  try when (5 <=? jgq_version m) (putNullableString (jgq_group_instance_id m)) ;;;
  try putString (jgq_protocol_type m) ;;;
  try (match jgq_group_protocols m with
       | _ :: _ =>
           match jgq_ordered_group_protocols m with
           | _ :: _ => ret (-1)
           | [] =>
               try putArrayLength (to_i32 (Zlen (jgq_group_protocols m))) ;;;
               for_try (jgq_group_protocols m) group_protocol_pair_encode
           end
       | [] =>
           try putArrayLength (to_i32 (Zlen (jgq_ordered_group_protocols m))) ;;;
           for_try (jgq_ordered_group_protocols m) GroupProtocol_encode
       end) ;;;
  putEmptyTaggedFieldArray ;;;
  ret 0.

(** [m_group_protocols[protocol.m_name] = protocol.m_metadata] for each, from empty *)
(* coev_kafka/join_group_request.cpp:163-177 JoinGroupRequest::decode *)
Definition group_protocols_of (l : list GroupProtocol) : list (list Z * list Z) :=
  fold_left (fun m p => map_assign (gp_name p) (gp_metadata p) m) l [].

(** No protocol: the function returns before the tag section, and before the
    two containers are cleared. *)
(* coev_kafka/join_group_request.cpp JoinGroupRequest::decode *)
Definition JoinGroupRequest_decode (self : JoinGroupRequest) (version : Z) : PD JoinGroupRequest :=
  let! group_id := getString in
  let! session_timeout := getInt32 in
  let! rebalance_timeout := readIf (1 <=? version) getInt32 (jgq_rebalance_timeout self) in
  let! member_id := getString in
  let! group_instance_id :=
    readIf (5 <=? version) getNullableString (jgq_group_instance_id self) in
  let! protocol_type := getString in
  let! n := getArrayLength in
  if n =? 0 then
    ok (mkJoinGroupRequest version group_id session_timeout rebalance_timeout member_id
          group_instance_id protocol_type (jgq_group_protocols self)
          (jgq_ordered_group_protocols self))
  else
    let! protocols := read_counted n GroupProtocol_decode in
    let! _t := getEmptyTaggedFieldArray in
    ok (mkJoinGroupRequest version group_id session_timeout rebalance_timeout member_id
          group_instance_id protocol_type (group_protocols_of protocols) protocols).

(* coev_kafka/join_group_request.cpp JoinGroupRequest::is_flexible_version *)
Definition JoinGroupRequest_is_flexible_version (ver : Z) : bool := 6 <=? ver.
(* coev_kafka/join_group_request.cpp JoinGroupRequest::key..JoinGroupRequest::is_flexible *)
#[export] Instance JoinGroupRequest_body : protocol_body JoinGroupRequest := {
  pb_encode := JoinGroupRequest_encode;
  pb_decode := JoinGroupRequest_decode;
  pb_key _ := 11;
  pb_version := jgq_version;
  pb_header_version m := if 6 <=? jgq_version m then 2 else 1;
  pb_is_valid_version m := (0 <=? jgq_version m) && (jgq_version m <=? 6);
  pb_is_flexible m := JoinGroupRequest_is_flexible_version (jgq_version m);
  pb_is_flexible_version _ := JoinGroupRequest_is_flexible_version;
}.

Definition pair_protocol (kv : list Z * list Z) : GroupProtocol := mkGroupProtocol (fst kv) (snd kv).
(** The protocols of a request, from whichever container holds them *)
Definition sent_protocols (m : JoinGroupRequest) : list GroupProtocol :=
  match jgq_group_protocols m with
  | [] => jgq_ordered_group_protocols m
  | l => map pair_protocol l
  end.
(** What precedes the protocols on the wire *)
Definition JoinGroupRequest_front (m : JoinGroupRequest) : list Z :=
  let fl := pb_is_flexible m in
  w_string fl (jgq_group_id m) ++ be 4 (jgq_session_timeout m) ++
  w_when (1 <=? jgq_version m) (be 4 (jgq_rebalance_timeout m)) ++
  w_string fl (jgq_member_id m) ++
  w_when (5 <=? jgq_version m) (w_nullable_string fl (jgq_group_instance_id m)) ++
  w_string fl (jgq_protocol_type m).
Definition JoinGroupRequest_wire (m : JoinGroupRequest) : list Z :=
  let fl := pb_is_flexible m in
  JoinGroupRequest_front m ++
  (w_array_length fl (Zlen (sent_protocols m)) ++
   w_list (GroupProtocol_wire fl) (sent_protocols m)) ++ w_tags fl.
Definition JoinGroupRequest_ok (m : JoinGroupRequest) : Prop :=
  let fl := pb_is_flexible m in
  string_ok fl (jgq_group_id m) /\ in_s 32 (jgq_session_timeout m) /\
  in_s 32 (jgq_rebalance_timeout m) /\ ((1 <=? jgq_version m) = false -> jgq_rebalance_timeout m = 0) /\
  string_ok fl (jgq_member_id m) /\
  string_ok fl (jgq_group_instance_id m) /\ ((5 <=? jgq_version m) = false -> jgq_group_instance_id m = []) /\
  string_ok fl (jgq_protocol_type m) /\ array_fits fl (GroupProtocol_ok fl) (sent_protocols m) /\
  (jgq_group_protocols m = [] \/ jgq_ordered_group_protocols m = []).
#[export] Instance JoinGroupRequest_ok_dec m : Decision (JoinGroupRequest_ok m).
Proof. unfold JoinGroupRequest_ok. cbv zeta. apply _. Defined.
Definition JoinGroupRequest_initial (v : Z) : JoinGroupRequest :=
  mkJoinGroupRequest v [] 0 0 [] [] [] [] [].
(** The receiver fills both containers. *)
Definition JoinGroupRequest_received (m : JoinGroupRequest) : JoinGroupRequest :=
  mkJoinGroupRequest (jgq_version m) (jgq_group_id m) (jgq_session_timeout m)
    (jgq_rebalance_timeout m) (jgq_member_id m) (jgq_group_instance_id m) (jgq_protocol_type m)
    (group_protocols_of (sent_protocols m)) (sent_protocols m).

Lemma emits_pairs fl pairs :
  array_fits fl (GroupProtocol_ok fl) (map pair_protocol pairs) ->
  emits fl (try putArrayLength (to_i32 (Zlen pairs)) ;;; for_try pairs group_protocol_pair_encode) 0
    (w_array_length fl (Zlen (map pair_protocol pairs)) ++
     w_list (GroupProtocol_wire fl) (map pair_protocol pairs)).
Proof.
  intros Hfit. assert (Zlen pairs = Zlen (map pair_protocol pairs)) as ->
    by (unfold Zlen; by rewrite length_map).
  eapply emits_try; [by eapply emits_array_length|].
  destruct Hfit as (_ & _ & Hf). unfold w_list. rewrite map_map.
  apply (emits_for_try _ pairs _ (fun kv => GroupProtocol_wire fl (pair_protocol kv))).
  intros p Hp. rewrite Forall_forall in Hf. apply (GroupProtocol_emits fl (pair_protocol p)).
  apply Hf. by apply list_elem_of_fmap_2.
Qed.
Lemma emits_protocols fl m :
  (jgq_group_protocols m = [] \/ jgq_ordered_group_protocols m = []) ->
  array_fits fl (GroupProtocol_ok fl) (sent_protocols m) ->
  emits fl
    (match jgq_group_protocols m with
     | _ :: _ =>
         match jgq_ordered_group_protocols m with
         | _ :: _ => ret (-1)
         | [] =>
             try putArrayLength (to_i32 (Zlen (jgq_group_protocols m))) ;;;
             for_try (jgq_group_protocols m) group_protocol_pair_encode
         end
     | [] =>
         try putArrayLength (to_i32 (Zlen (jgq_ordered_group_protocols m))) ;;;
         for_try (jgq_ordered_group_protocols m) GroupProtocol_encode
     end) 0
    (w_array_length fl (Zlen (sent_protocols m)) ++
     w_list (GroupProtocol_wire fl) (sent_protocols m)).
Proof.
  unfold sent_protocols. destruct m as [? ? ? ? ? ? ? gp ogp]; cbn. intros Hor Hfit.
  destruct gp as [|kv gp]; [emit_steps|]. destruct ogp; [|by destruct Hor].
  exact (emits_pairs fl (kv :: gp) Hfit).
Qed.

Lemma emits_front_assoc {A} fl (e : PE A) v b1 b2 b3 b4 b5 b6 bs :
  emits fl e v (b1 ++ b2 ++ b3 ++ b4 ++ b5 ++ b6 ++ bs) ->
  emits fl e v ((b1 ++ b2 ++ b3 ++ b4 ++ b5 ++ b6) ++ bs).
Proof. intros H. eapply emits_as; [exact H|]. by rewrite <- !app_assoc. Qed.
Lemma consumes_front_assoc {A} fl (e : PD A) v b1 b2 b3 b4 b5 b6 bs :
  consumes fl e v (b1 ++ b2 ++ b3 ++ b4 ++ b5 ++ b6 ++ bs) ->
  consumes fl e v ((b1 ++ b2 ++ b3 ++ b4 ++ b5 ++ b6) ++ bs).
Proof. intros H. eapply consumes_as; [exact H|]. by rewrite <- !app_assoc. Qed.

Lemma JoinGroupRequest_emits m :
  JoinGroupRequest_ok m -> emits (pb_is_flexible m) (pb_encode m) 0 (JoinGroupRequest_wire m).
Proof.
  unfold JoinGroupRequest_ok. intros H. use_facts.
  unfold JoinGroupRequest_wire, JoinGroupRequest_front. apply emits_front_assoc.
  pose proof (emits_protocols (pb_is_flexible m) m ltac:(done) ltac:(done)) as Hp.
  cbn [pb_encode JoinGroupRequest_body]. unfold JoinGroupRequest_encode.
  remember (match jgq_group_protocols m with [] => _ | _ => _ end) as body.
  emit_steps.
Qed.

(** Up to the count of the protocols, the decoder follows the encoder. *)
Lemma JoinGroupRequest_consumes m :
  JoinGroupRequest_ok m -> sent_protocols m <> [] ->
  consumes (pb_is_flexible m) (pb_decode (JoinGroupRequest_initial (pb_version m)) (pb_version m))
    (Ok (JoinGroupRequest_received m)) (JoinGroupRequest_wire m).
Proof.
  unfold JoinGroupRequest_ok. intros H Hne. use_facts.
  unfold JoinGroupRequest_wire, JoinGroupRequest_front. apply consumes_front_assoc.
  rewrite <- (app_assoc (w_array_length _ _)).
  cbn [pb_decode JoinGroupRequest_body pb_version]. unfold JoinGroupRequest_decode. cbn.
  repeat (eapply consumes_let; [consume_steps|cbv beta]).
  replace (Zlen (sent_protocols m) =? 0) with false.
  2:{ destruct (sent_protocols m); [done|]. rewrite Zlen_cons. pose proof (Zlen_nonneg l). lia. }
  consume_steps.
Qed.
Lemma JoinGroupRequest_consumes_empty m :
  JoinGroupRequest_ok m -> sent_protocols m = [] ->
  consumes (pb_is_flexible m) (pb_decode (JoinGroupRequest_initial (pb_version m)) (pb_version m))
    (Ok (mkJoinGroupRequest (jgq_version m) (jgq_group_id m) (jgq_session_timeout m)
           (jgq_rebalance_timeout m) (jgq_member_id m) (jgq_group_instance_id m)
           (jgq_protocol_type m) [] []))
    (JoinGroupRequest_front m ++ w_array_length (pb_is_flexible m) 0).
Proof.
  unfold JoinGroupRequest_ok. intros H He. use_facts. rewrite He in *.
  unfold JoinGroupRequest_front. apply consumes_front_assoc.
  cbn [pb_decode JoinGroupRequest_body pb_version]. unfold JoinGroupRequest_decode. cbn.
  repeat (eapply consumes_let; [consume_steps|cbv beta]).
  eapply consumes_last; [by eapply (consumes_array_length _ _ (@nil GroupProtocol))|].
  apply consumes_ret.
Qed.
Lemma JoinGroupRequest_wire_ne m : JoinGroupRequest_wire m <> [].
Proof.
  unfold JoinGroupRequest_wire, JoinGroupRequest_front. wire_nonempty.
Qed.
(** What the receiver holds has both containers filled: it cannot be sent on. *)
Lemma group_protocols_of_ne l : l <> [] -> group_protocols_of l <> [].
Proof.
  unfold group_protocols_of. destruct l as [|p l] using rev_ind; [done|]. intros _.
  rewrite fold_left_app. cbn. apply map_assign_ne.
Qed.
Lemma JoinGroupRequest_received_emits m :
  JoinGroupRequest_ok m -> sent_protocols m <> [] ->
  emits (pb_is_flexible m) (pb_encode (JoinGroupRequest_received m)) (-1) (JoinGroupRequest_front m).
Proof.
  unfold JoinGroupRequest_ok. intros H Hne. use_facts.
  eapply emits_as; [|apply app_nil_r]. apply emits_front_assoc.
  cbn [pb_encode JoinGroupRequest_body]. unfold JoinGroupRequest_encode, JoinGroupRequest_received; cbn.
  pose proof (group_protocols_of_ne _ Hne) as Hg.
  destruct (group_protocols_of (sent_protocols m)) as [|kv gp]; [done|].
  destruct (sent_protocols m) as [|p ps]; [done|].
  do 6 (first [eapply emits_try; [emit_steps|]|eapply emits_seq; [emit_steps|]]).
  apply emits_abort; [apply emits_ret|done].
Qed.
Lemma JoinGroupRequest_front_short m :
  Zlen (JoinGroupRequest_wire m) <= MaxRequestSize -> Zlen (JoinGroupRequest_front m) < LIMIT.
Proof.
  unfold JoinGroupRequest_wire, MaxRequestSize, LIMIT. rewrite Zlen_app.
  match goal with |- context [Zlen (_ ++ w_tags ?f)] => pose proof (Zlen_nonneg
    ((w_array_length f (Zlen (sent_protocols m)) ++ w_list (GroupProtocol_wire f) (sent_protocols m)) ++ w_tags f)) end.
  lia.
Qed.

(** ** Round trips *)

(** Heartbeat, LeaveGroup and SyncGroup messages travel unchanged: for every
    version and every value the format can carry, [encode] appends exactly the
    message's wire form and [decode_version] of that form, into a fresh object of
    the version, returns the message with no byte left over. *)
Theorem group_messages_roundtrip :
  (forall m, HeartbeatRequest_ok m -> Zlen (HeartbeatRequest_wire m) <= MaxRequestSize ->
     roundtrips HeartbeatRequest_initial HeartbeatRequest_wire m) /\
  (forall m, HeartbeatResponse_ok m -> Zlen (HeartbeatResponse_wire m) <= MaxRequestSize ->
     roundtrips HeartbeatResponse_initial HeartbeatResponse_wire m) /\
  (forall m, LeaveGroupRequest_ok m -> Zlen (LeaveGroupRequest_wire m) <= MaxRequestSize ->
     roundtrips LeaveGroupRequest_initial LeaveGroupRequest_wire m) /\
  (forall m, LeaveGroupResponse_ok m -> Zlen (LeaveGroupResponse_wire m) <= MaxRequestSize ->
     roundtrips LeaveGroupResponse_initial LeaveGroupResponse_wire m) /\
  (forall m, SyncGroupRequest_ok m -> Zlen (SyncGroupRequest_wire m) <= MaxRequestSize ->
     roundtrips SyncGroupRequest_initial SyncGroupRequest_wire m) /\
  (forall m, SyncGroupResponse_ok m -> Zlen (SyncGroupResponse_wire m) <= MaxRequestSize ->
     roundtrips SyncGroupResponse_initial SyncGroupResponse_wire m).
Proof.
  split_and!; intros m Hm Hl; solve_roundtrip m.
Qed.

Definition example_leave : LeaveGroupRequest :=
  mkLeaveGroupRequest 4 [103; 49] [] [mkMemberIdentity [109; 49] []; mkMemberIdentity [109; 50] [105]].
Definition example_sync : SyncGroupRequest :=
  mkSyncGroupRequest 5 [103] 7 [109] [] [mkSyncGroupRequestAssignment [109] [1; 2; 3]].
Example group_messages_roundtrip_witness :
  roundtrips LeaveGroupRequest_initial LeaveGroupRequest_wire example_leave /\
  roundtrips SyncGroupRequest_initial SyncGroupRequest_wire example_sync.
Proof.
  split.
  - apply group_messages_roundtrip; [by apply (bool_decide_unpack _); vm_compute|by vm_compute].
  - apply group_messages_roundtrip; [by apply (bool_decide_unpack _); vm_compute|by vm_compute].
Defined.

(** A JoinGroup request with protocols, held in either container, is encoded
    to its wire form and decoded completely; the receiver holds the protocols both
    in order and in the map, where the last metadata of a name wins, and [encode]
    then refuses that object. *)
Theorem JoinGroupRequest_roundtrip m :
  JoinGroupRequest_ok m -> sent_protocols m <> [] -> Zlen (JoinGroupRequest_wire m) <= MaxRequestSize ->
  (forall out, encode m out = Done (ErrNoError, out ++ JoinGroupRequest_wire m) m) /\
  (exists helper, decode_version (JoinGroupRequest_wire m) (JoinGroupRequest_initial (jgq_version m))
     (jgq_version m) = Done (Ok (JoinGroupRequest_received m)) helper) /\
  (forall out, encode (JoinGroupRequest_received m) out =
     Done (ErrEncodeError, out) (JoinGroupRequest_received m)).
Proof.
  intros Hm Hne Hl. split_and!.
  - intros out. by apply (encode_emits m (JoinGroupRequest_wire m) out); [apply JoinGroupRequest_emits|].
  - eexists. eapply decode_version_consumes; [by apply JoinGroupRequest_consumes|done|].
    apply JoinGroupRequest_wire_ne.
  - intros out. apply (encode_refused (JoinGroupRequest_received m) (-1) (JoinGroupRequest_front m));
      [exact (JoinGroupRequest_received_emits m Hm Hne)|done|by apply JoinGroupRequest_front_short].
Qed.
Definition example_join : JoinGroupRequest :=
  mkJoinGroupRequest 6 [103] 10000 30000 [] [] [99]
    [] [mkGroupProtocol [114] [0; 1]; mkGroupProtocol [114] [2]].
Example JoinGroupRequest_roundtrip_witness :
  jgq_group_protocols (JoinGroupRequest_received example_join) = [([114], [2])] /\
  (forall out, encode example_join out =
     Done (ErrNoError, out ++ JoinGroupRequest_wire example_join) example_join).
Proof.
  split; [reflexivity|].
  apply (JoinGroupRequest_roundtrip example_join); [|done|by vm_compute].
  by apply (bool_decide_unpack _); vm_compute.
Defined.

(** A JoinGroup request of version 6 that lists no protocol is encoded, and its
    bytes are refused by [decode_version]: the decoder returns before the tag section. *)
Theorem JoinGroupRequest_no_protocol m :
  JoinGroupRequest_ok m -> sent_protocols m = [] -> 6 <= jgq_version m ->
  Zlen (JoinGroupRequest_wire m) <= MaxRequestSize ->
  (forall out, encode m out = Done (ErrNoError, out ++ JoinGroupRequest_wire m) m) /\
  exists helper, decode_version (JoinGroupRequest_wire m) (JoinGroupRequest_initial (jgq_version m))
    (jgq_version m) = Done (Err ErrDecodeError) helper.
Proof.
  intros Hm He Hv Hl. split.
  - intros out. by apply (encode_emits m (JoinGroupRequest_wire m) out); [apply JoinGroupRequest_emits|].
  - pose proof (JoinGroupRequest_consumes_empty m Hm He) as Hc.
    assert (JoinGroupRequest_wire m =
            (JoinGroupRequest_front m ++ w_array_length (pb_is_flexible m) 0) ++ w_tags true) as Hw.
    { unfold JoinGroupRequest_wire. rewrite He. cbn. unfold w_list; cbn.
      rewrite app_nil_r, <- app_assoc. unfold JoinGroupRequest_is_flexible_version.
      by replace (6 <=? jgq_version m) with true by lia. }
    rewrite Hw in *. eapply decode_version_trailing; [exact Hc|exact Hl|done].
Qed.
Definition example_join_empty : JoinGroupRequest :=
  mkJoinGroupRequest 6 [103] 10000 30000 [] [] [99] [] [].
Example JoinGroupRequest_no_protocol_witness :
  exists helper, decode_version (JoinGroupRequest_wire example_join_empty)
    (JoinGroupRequest_initial 6) 6 = Done (Err ErrDecodeError) helper.
Proof.
  apply (JoinGroupRequest_no_protocol example_join_empty); [|done|by vm_compute..].
  by apply (bool_decide_unpack _); vm_compute.
Defined.
