(* ===== verification/TxnMessages.v ===== *)
(** * Transaction messages

    InitProducerID, AddOffsetsToTxn, EndTxn, AddPartitionsToTxn and the
    TxnOffsetCommit response. *)
From Stdlib Require Import ZArith Lia Bool.
From stdpp Require Import base tactics list numbers sets gmap fin_maps.
From S2P Require Import Prelude Errors Wire Crc Fields Encoder Decoder Codec CodecEnc CodecDec.
From S2P Require Import EncoderDecoder StdMap.

(** ** InitProducerID *)

(* coev_kafka/init_producer_id_request.h:23-46 InitProducerIDRequest *)
Record InitProducerIDRequest := mkInitProducerIDRequest {
  ipq_version : Z; ipq_transactional_id : list Z; ipq_transaction_timeout : Z;
  ipq_producer_id : Z; ipq_producer_epoch : Z }.

(* coev_kafka/init_producer_id_request.cpp InitProducerIDRequest::encode *)
Definition InitProducerIDRequest_encode (m : InitProducerIDRequest) : PE Z :=
  try putNullableString (ipq_transactional_id m) ;;;
  putInt32 (to_i32 (ipq_transaction_timeout m)) ;;;
  whenU (3 <=? ipq_version m)
    (putInt64 (ipq_producer_id m)) ;;;
  whenU (3 <=? ipq_version m)
    (putInt16 (ipq_producer_epoch m)) ;;;
  putEmptyTaggedFieldArray ;;;
  ret 0.

(* coev_kafka/init_producer_id_request.cpp InitProducerIDRequest::decode *)
Definition InitProducerIDRequest_decode (self : InitProducerIDRequest) (version : Z) : PD InitProducerIDRequest :=
  let! transactional_id := getNullableString in
  let! transaction_timeout := getInt32 in
  let! producer_id :=
    readIf (3 <=? version) getInt64 (ipq_producer_id self) in
  let! producer_epoch :=
    readIf (3 <=? version) getInt16 (ipq_producer_epoch self) in
  let! _t := getEmptyTaggedFieldArray in
  ok (mkInitProducerIDRequest version transactional_id transaction_timeout producer_id producer_epoch).

(* coev_kafka/init_producer_id_request.cpp InitProducerIDRequest::is_flexible_version *)
Definition InitProducerIDRequest_is_flexible_version (ver : Z) : bool := 2 <=? ver.
(* coev_kafka/init_producer_id_request.cpp InitProducerIDRequest::key..InitProducerIDRequest::is_flexible *)
#[export] Instance InitProducerIDRequest_body : protocol_body InitProducerIDRequest := {
  pb_encode := InitProducerIDRequest_encode;
  pb_decode := InitProducerIDRequest_decode;
  pb_key _ := 22;
  pb_version := ipq_version;
  pb_header_version m := if 2 <=? ipq_version m then 2 else 1;
  pb_is_valid_version m := (0 <=? ipq_version m) && (ipq_version m <=? 4);
  pb_is_flexible m := InitProducerIDRequest_is_flexible_version (ipq_version m);
  pb_is_flexible_version _ := InitProducerIDRequest_is_flexible_version;
}.

Definition InitProducerIDRequest_wire (m : InitProducerIDRequest) : list Z :=
  let fl := pb_is_flexible m in
  w_nullable_string fl (ipq_transactional_id m) ++ be 4 (ipq_transaction_timeout m) ++
  w_when (3 <=? ipq_version m) (be 8 (ipq_producer_id m)) ++
  w_when (3 <=? ipq_version m) (be 2 (ipq_producer_epoch m)) ++ w_tags fl.
Definition InitProducerIDRequest_ok (m : InitProducerIDRequest) : Prop :=
  let fl := pb_is_flexible m in
  string_ok fl (ipq_transactional_id m) /\ in_s 32 (ipq_transaction_timeout m) /\
  in_s 64 (ipq_producer_id m) /\ ((3 <=? ipq_version m) = false -> ipq_producer_id m = 0) /\
  in_s 16 (ipq_producer_epoch m) /\ ((3 <=? ipq_version m) = false -> ipq_producer_epoch m = 0).
#[export] Instance InitProducerIDRequest_ok_dec m : Decision (InitProducerIDRequest_ok m).
Proof. unfold InitProducerIDRequest_ok. cbv zeta. apply _. Defined.
Definition InitProducerIDRequest_initial (v : Z) : InitProducerIDRequest :=
  mkInitProducerIDRequest v [] 0 0 0.
#[export] Hint Unfold InitProducerIDRequest_encode InitProducerIDRequest_decode InitProducerIDRequest_wire InitProducerIDRequest_ok InitProducerIDRequest_initial : message.

Lemma InitProducerIDRequest_emits m :
  InitProducerIDRequest_ok m -> emits (pb_is_flexible m) (pb_encode m) 0 (InitProducerIDRequest_wire m).
Proof. solve_emits m. Qed.
Lemma InitProducerIDRequest_consumes m :
  InitProducerIDRequest_ok m ->
  consumes (pb_is_flexible m) (pb_decode (InitProducerIDRequest_initial (pb_version m)) (pb_version m))
    (Ok m) (InitProducerIDRequest_wire m).
Proof. solve_consumes m. Qed.
#[export] Instance InitProducerIDRequest_format : WireFormat InitProducerIDRequest := {
  wire := InitProducerIDRequest_wire;
  wire_ok := InitProducerIDRequest_ok;
  wire_initial := InitProducerIDRequest_initial;
  wire_flexible _ _ := eq_refl;
  wire_encode := InitProducerIDRequest_emits;
  wire_decode := InitProducerIDRequest_consumes;
}.

(* coev_kafka/init_producer_id_response.h:22-41 InitProducerIDResponse *)
Record InitProducerIDResponse := mkInitProducerIDResponse {
  ips_version : Z; ips_throttle_time : Z; ips_err : Z; ips_producer_id : Z;
  ips_producer_epoch : Z }.

(* coev_kafka/init_producer_id_response.cpp InitProducerIDResponse::encode *)
Definition InitProducerIDResponse_encode (m : InitProducerIDResponse) : PE Z :=
  putDurationMs (ips_throttle_time m) ;;;
  putKError (ips_err m) ;;;
  putInt64 (ips_producer_id m) ;;;
  putInt16 (ips_producer_epoch m) ;;;
  putEmptyTaggedFieldArray ;;;
  ret 0.

(* coev_kafka/init_producer_id_response.cpp InitProducerIDResponse::decode *)
Definition InitProducerIDResponse_decode (self : InitProducerIDResponse) (version : Z) : PD InitProducerIDResponse :=
  let! throttle_time := getDurationMs in
  let! err := getKError in
  let! producer_id := getInt64 in
  let! producer_epoch := getInt16 in
  let! _t := getEmptyTaggedFieldArray in
  ok (mkInitProducerIDResponse version throttle_time err producer_id producer_epoch).

(* coev_kafka/init_producer_id_response.cpp InitProducerIDResponse::is_flexible_version *)
Definition InitProducerIDResponse_is_flexible_version (ver : Z) : bool := 2 <=? ver.
(* coev_kafka/init_producer_id_response.cpp InitProducerIDResponse::key..InitProducerIDResponse::is_flexible *)
#[export] Instance InitProducerIDResponse_body : protocol_body InitProducerIDResponse := {
  pb_encode := InitProducerIDResponse_encode;
  pb_decode := InitProducerIDResponse_decode;
  pb_key _ := 22;
  pb_version := ips_version;
  pb_header_version m := if 2 <=? ips_version m then 1 else 0;
  pb_is_valid_version m := (0 <=? ips_version m) && (ips_version m <=? 4);
  pb_is_flexible m := InitProducerIDResponse_is_flexible_version (ips_version m);
  pb_is_flexible_version _ := InitProducerIDResponse_is_flexible_version;
}.

Definition InitProducerIDResponse_wire (m : InitProducerIDResponse) : list Z :=
  let fl := pb_is_flexible m in
  be 4 (ips_throttle_time m) ++ be 2 (ips_err m) ++ be 8 (ips_producer_id m) ++
  be 2 (ips_producer_epoch m) ++ w_tags fl.
Definition InitProducerIDResponse_ok (m : InitProducerIDResponse) : Prop :=
  in_s 32 (ips_throttle_time m) /\ in_s 16 (ips_err m) /\ in_s 64 (ips_producer_id m) /\
  in_s 16 (ips_producer_epoch m).
#[export] Instance InitProducerIDResponse_ok_dec m : Decision (InitProducerIDResponse_ok m).
Proof. unfold InitProducerIDResponse_ok. cbv zeta. apply _. Defined.
Definition InitProducerIDResponse_initial (v : Z) : InitProducerIDResponse :=
  mkInitProducerIDResponse v 0 0 0 0.
#[export] Hint Unfold InitProducerIDResponse_encode InitProducerIDResponse_decode InitProducerIDResponse_wire InitProducerIDResponse_ok InitProducerIDResponse_initial : message.

Lemma InitProducerIDResponse_emits m :
  InitProducerIDResponse_ok m -> emits (pb_is_flexible m) (pb_encode m) 0 (InitProducerIDResponse_wire m).
Proof. solve_emits m. Qed.
Lemma InitProducerIDResponse_consumes m :
  InitProducerIDResponse_ok m ->
  consumes (pb_is_flexible m) (pb_decode (InitProducerIDResponse_initial (pb_version m)) (pb_version m))
    (Ok m) (InitProducerIDResponse_wire m).
Proof. solve_consumes m. Qed.
#[export] Instance InitProducerIDResponse_format : WireFormat InitProducerIDResponse := {
  wire := InitProducerIDResponse_wire;
  wire_ok := InitProducerIDResponse_ok;
  wire_initial := InitProducerIDResponse_initial;
  wire_flexible _ _ := eq_refl;
  wire_encode := InitProducerIDResponse_emits;
  wire_decode := InitProducerIDResponse_consumes;
}.

(** ** AddOffsetsToTxn: [decode] leaves the object's version as it is *)

(* coev_kafka/add_offsets_to_txn_request.h:20-40 AddOffsetsToTxnRequest *)
Record AddOffsetsToTxnRequest := mkAddOffsetsToTxnRequest {
  aoq_version : Z; aoq_transactional_id : list Z; aoq_producer_id : Z; aoq_producer_epoch : Z;
  aoq_group_id : list Z }.

(* coev_kafka/add_offsets_to_txn_request.cpp AddOffsetsToTxnRequest::encode *)
Definition AddOffsetsToTxnRequest_encode (m : AddOffsetsToTxnRequest) : PE Z :=
  let* r := putString (aoq_transactional_id m) in if negb (r =? 0) then ret (-1) else
  putInt64 (aoq_producer_id m) ;;;
  putInt16 (aoq_producer_epoch m) ;;;
  let* r := putString (aoq_group_id m) in if negb (r =? 0) then ret (-1) else
  ret 0.

(* coev_kafka/add_offsets_to_txn_request.cpp AddOffsetsToTxnRequest::decode *)
Definition AddOffsetsToTxnRequest_decode (self : AddOffsetsToTxnRequest) (version : Z) : PD AddOffsetsToTxnRequest :=
  let! transactional_id := getString in
  let! producer_id := getInt64 in
  let! producer_epoch := getInt16 in
  let! group_id := getString in
  ok (mkAddOffsetsToTxnRequest (aoq_version self) transactional_id producer_id producer_epoch group_id).

(* coev_kafka/add_offsets_to_txn_request.cpp AddOffsetsToTxnRequest::key..AddOffsetsToTxnRequest::is_valid_version *)
#[export] Instance AddOffsetsToTxnRequest_body : protocol_body AddOffsetsToTxnRequest := {
  pb_encode := AddOffsetsToTxnRequest_encode;
  pb_decode := AddOffsetsToTxnRequest_decode;
  pb_key _ := 25;
  pb_version := aoq_version;
  pb_header_version m := 1;
  pb_is_valid_version m := (0 <=? aoq_version m) && (aoq_version m <=? 2);
  pb_is_flexible _ := false;
  pb_is_flexible_version _ _ := false;
}.

Definition AddOffsetsToTxnRequest_wire (m : AddOffsetsToTxnRequest) : list Z :=
  let fl := pb_is_flexible m in
  w_string fl (aoq_transactional_id m) ++ be 8 (aoq_producer_id m) ++
  be 2 (aoq_producer_epoch m) ++ w_string fl (aoq_group_id m).
Definition AddOffsetsToTxnRequest_ok (m : AddOffsetsToTxnRequest) : Prop :=
  let fl := pb_is_flexible m in
  string_ok fl (aoq_transactional_id m) /\ in_s 64 (aoq_producer_id m) /\
  in_s 16 (aoq_producer_epoch m) /\ string_ok fl (aoq_group_id m).
#[export] Instance AddOffsetsToTxnRequest_ok_dec m : Decision (AddOffsetsToTxnRequest_ok m).
Proof. unfold AddOffsetsToTxnRequest_ok. cbv zeta. apply _. Defined.
Definition AddOffsetsToTxnRequest_initial (v : Z) : AddOffsetsToTxnRequest :=
  mkAddOffsetsToTxnRequest v [] 0 0 [].
#[export] Hint Unfold AddOffsetsToTxnRequest_encode AddOffsetsToTxnRequest_decode AddOffsetsToTxnRequest_wire AddOffsetsToTxnRequest_ok AddOffsetsToTxnRequest_initial : message.

Lemma AddOffsetsToTxnRequest_emits m :
  AddOffsetsToTxnRequest_ok m -> emits (pb_is_flexible m) (pb_encode m) 0 (AddOffsetsToTxnRequest_wire m).
Proof. solve_emits m. Qed.
Lemma AddOffsetsToTxnRequest_consumes m :
  AddOffsetsToTxnRequest_ok m ->
  consumes (pb_is_flexible m) (pb_decode (AddOffsetsToTxnRequest_initial (pb_version m)) (pb_version m))
    (Ok m) (AddOffsetsToTxnRequest_wire m).
Proof. solve_consumes m. Qed.
#[export] Instance AddOffsetsToTxnRequest_format : WireFormat AddOffsetsToTxnRequest := {
  wire := AddOffsetsToTxnRequest_wire;
  wire_ok := AddOffsetsToTxnRequest_ok;
  wire_initial := AddOffsetsToTxnRequest_initial;
  wire_flexible _ _ := eq_refl;
  wire_encode := AddOffsetsToTxnRequest_emits;
  wire_decode := AddOffsetsToTxnRequest_consumes;
}.

(* coev_kafka/add_offsets_to_txn_response.h:21-36 AddOffsetsToTxnResponse *)
Record AddOffsetsToTxnResponse := mkAddOffsetsToTxnResponse {
  aos_version : Z; aos_throttle_time : Z; aos_err : Z }.

(* coev_kafka/add_offsets_to_txn_response.cpp AddOffsetsToTxnResponse::encode *)
Definition AddOffsetsToTxnResponse_encode (m : AddOffsetsToTxnResponse) : PE Z :=
  putDurationMs (aos_throttle_time m) ;;;
  putKError (aos_err m) ;;;
  ret 0.

(* coev_kafka/add_offsets_to_txn_response.cpp AddOffsetsToTxnResponse::decode *)
Definition AddOffsetsToTxnResponse_decode (self : AddOffsetsToTxnResponse) (version : Z) : PD AddOffsetsToTxnResponse :=
  let! throttle_time := getDurationMs in
  let! err := getKError in
  ok (mkAddOffsetsToTxnResponse (aos_version self) throttle_time err).

(* coev_kafka/add_offsets_to_txn_response.cpp AddOffsetsToTxnResponse::key..AddOffsetsToTxnResponse::is_valid_version *)
#[export] Instance AddOffsetsToTxnResponse_body : protocol_body AddOffsetsToTxnResponse := {
  pb_encode := AddOffsetsToTxnResponse_encode;
  pb_decode := AddOffsetsToTxnResponse_decode;
  pb_key _ := 25;
  pb_version := aos_version;
  pb_header_version m := 0;
  pb_is_valid_version m := (0 <=? aos_version m) && (aos_version m <=? 2);
  pb_is_flexible _ := false;
  pb_is_flexible_version _ _ := false;
}.

Definition AddOffsetsToTxnResponse_wire (m : AddOffsetsToTxnResponse) : list Z :=
  be 4 (aos_throttle_time m) ++ be 2 (aos_err m).
Definition AddOffsetsToTxnResponse_ok (m : AddOffsetsToTxnResponse) : Prop :=
  in_s 32 (aos_throttle_time m) /\ in_s 16 (aos_err m).
#[export] Instance AddOffsetsToTxnResponse_ok_dec m : Decision (AddOffsetsToTxnResponse_ok m).
Proof. unfold AddOffsetsToTxnResponse_ok. cbv zeta. apply _. Defined.
Definition AddOffsetsToTxnResponse_initial (v : Z) : AddOffsetsToTxnResponse :=
  mkAddOffsetsToTxnResponse v 0 0.
#[export] Hint Unfold AddOffsetsToTxnResponse_encode AddOffsetsToTxnResponse_decode AddOffsetsToTxnResponse_wire AddOffsetsToTxnResponse_ok AddOffsetsToTxnResponse_initial : message.

Lemma AddOffsetsToTxnResponse_emits m :
  AddOffsetsToTxnResponse_ok m -> emits (pb_is_flexible m) (pb_encode m) 0 (AddOffsetsToTxnResponse_wire m).
Proof. solve_emits m. Qed.
Lemma AddOffsetsToTxnResponse_consumes m :
  AddOffsetsToTxnResponse_ok m ->
  consumes (pb_is_flexible m) (pb_decode (AddOffsetsToTxnResponse_initial (pb_version m)) (pb_version m))
    (Ok m) (AddOffsetsToTxnResponse_wire m).
Proof. solve_consumes m. Qed.
#[export] Instance AddOffsetsToTxnResponse_format : WireFormat AddOffsetsToTxnResponse := {
  wire := AddOffsetsToTxnResponse_wire;
  wire_ok := AddOffsetsToTxnResponse_ok;
  wire_initial := AddOffsetsToTxnResponse_initial;
  wire_flexible _ _ := eq_refl;
  wire_encode := AddOffsetsToTxnResponse_emits;
  wire_decode := AddOffsetsToTxnResponse_consumes;
}.

(** ** EndTxn: any failure is reported as one code *)

(* coev_kafka/end_txn_request.h:19-39 EndTxnRequest *)
Record EndTxnRequest := mkEndTxnRequest {
  etq_version : Z; etq_transactional_id : list Z; etq_producer_id : Z; etq_producer_epoch : Z;
  etq_transaction_result : bool }.

(* coev_kafka/end_txn_request.cpp EndTxnRequest::encode *)
Definition EndTxnRequest_encode (m : EndTxnRequest) : PE Z :=
  let* r := putString (etq_transactional_id m) in if negb (r =? ErrNoError) then ret ErrEncodeError else
  putInt64 (etq_producer_id m) ;;;
  putInt16 (etq_producer_epoch m) ;;;
  putBool (etq_transaction_result m) ;;;
  ret ErrNoError.

(* coev_kafka/end_txn_request.cpp EndTxnRequest::decode *)
Definition EndTxnRequest_decode (self : EndTxnRequest) (version : Z) : PD EndTxnRequest :=
  let! transactional_id := getString /! ErrDecodeError in
  let! producer_id := getInt64 /! ErrDecodeError in
  let! producer_epoch := getInt16 /! ErrDecodeError in
  let! transaction_result := getBool /! ErrDecodeError in
  ok (mkEndTxnRequest (etq_version self) transactional_id producer_id producer_epoch transaction_result).

(* coev_kafka/end_txn_request.cpp EndTxnRequest::key..EndTxnRequest::is_valid_version *)
#[export] Instance EndTxnRequest_body : protocol_body EndTxnRequest := {
  pb_encode := EndTxnRequest_encode;
  pb_decode := EndTxnRequest_decode;
  pb_key _ := 26;
  pb_version := etq_version;
  pb_header_version m := 1;
  pb_is_valid_version m := (0 <=? etq_version m) && (etq_version m <=? 2);
  pb_is_flexible _ := false;
  pb_is_flexible_version _ _ := false;
}.

Definition EndTxnRequest_wire (m : EndTxnRequest) : list Z :=
  let fl := pb_is_flexible m in
  w_string fl (etq_transactional_id m) ++ be 8 (etq_producer_id m) ++
  be 2 (etq_producer_epoch m) ++ w_bool (etq_transaction_result m).
Definition EndTxnRequest_ok (m : EndTxnRequest) : Prop :=
  let fl := pb_is_flexible m in
  string_ok fl (etq_transactional_id m) /\ in_s 64 (etq_producer_id m) /\
  in_s 16 (etq_producer_epoch m).
#[export] Instance EndTxnRequest_ok_dec m : Decision (EndTxnRequest_ok m).
Proof. unfold EndTxnRequest_ok. cbv zeta. apply _. Defined.
Definition EndTxnRequest_initial (v : Z) : EndTxnRequest :=
  mkEndTxnRequest v [] 0 0 false.
#[export] Hint Unfold EndTxnRequest_encode EndTxnRequest_decode EndTxnRequest_wire EndTxnRequest_ok EndTxnRequest_initial : message.

Lemma EndTxnRequest_emits m :
  EndTxnRequest_ok m -> emits (pb_is_flexible m) (pb_encode m) 0 (EndTxnRequest_wire m).
Proof. solve_emits m. Qed.
Lemma EndTxnRequest_consumes m :
  EndTxnRequest_ok m ->
  consumes (pb_is_flexible m) (pb_decode (EndTxnRequest_initial (pb_version m)) (pb_version m))
    (Ok m) (EndTxnRequest_wire m).
Proof. solve_consumes m. Qed.
#[export] Instance EndTxnRequest_format : WireFormat EndTxnRequest := {
  wire := EndTxnRequest_wire;
  wire_ok := EndTxnRequest_ok;
  wire_initial := EndTxnRequest_initial;
  wire_flexible _ _ := eq_refl;
  wire_encode := EndTxnRequest_emits;
  wire_decode := EndTxnRequest_consumes;
}.

(* coev_kafka/end_txn_response.h:21-37 EndTxnResponse *)
Record EndTxnResponse := mkEndTxnResponse {
  ets_version : Z; ets_throttle_time : Z; ets_err : Z }.

(* coev_kafka/end_txn_response.cpp EndTxnResponse::encode *)
Definition EndTxnResponse_encode (m : EndTxnResponse) : PE Z :=
  putDurationMs (ets_throttle_time m) ;;;
  putKError (ets_err m) ;;;
  ret 0.

(* coev_kafka/end_txn_response.cpp EndTxnResponse::decode *)
Definition EndTxnResponse_decode (self : EndTxnResponse) (version : Z) : PD EndTxnResponse :=
  let! throttle_time := getDurationMs /! ErrDecodeError in
  let! err := getKError /! ErrDecodeError in
  ok (mkEndTxnResponse (ets_version self) throttle_time err).

(* coev_kafka/end_txn_response.cpp EndTxnResponse::key..EndTxnResponse::is_valid_version *)
#[export] Instance EndTxnResponse_body : protocol_body EndTxnResponse := {
  pb_encode := EndTxnResponse_encode;
  pb_decode := EndTxnResponse_decode;
  pb_key _ := 26;
  pb_version := ets_version;
  pb_header_version m := 0;
  pb_is_valid_version m := (0 <=? ets_version m) && (ets_version m <=? 2);
  pb_is_flexible _ := false;
  pb_is_flexible_version _ _ := false;
}.

Definition EndTxnResponse_wire (m : EndTxnResponse) : list Z :=
  be 4 (ets_throttle_time m) ++ be 2 (ets_err m).
Definition EndTxnResponse_ok (m : EndTxnResponse) : Prop :=
  in_s 32 (ets_throttle_time m) /\ in_s 16 (ets_err m).
#[export] Instance EndTxnResponse_ok_dec m : Decision (EndTxnResponse_ok m).
Proof. unfold EndTxnResponse_ok. cbv zeta. apply _. Defined.
Definition EndTxnResponse_initial (v : Z) : EndTxnResponse :=
  mkEndTxnResponse v 0 0.
#[export] Hint Unfold EndTxnResponse_encode EndTxnResponse_decode EndTxnResponse_wire EndTxnResponse_ok EndTxnResponse_initial : message.

Lemma EndTxnResponse_emits m :
  EndTxnResponse_ok m -> emits (pb_is_flexible m) (pb_encode m) 0 (EndTxnResponse_wire m).
Proof. solve_emits m. Qed.
Lemma EndTxnResponse_consumes m :
  EndTxnResponse_ok m ->
  consumes (pb_is_flexible m) (pb_decode (EndTxnResponse_initial (pb_version m)) (pb_version m))
    (Ok m) (EndTxnResponse_wire m).
Proof. solve_consumes m. Qed.
#[export] Instance EndTxnResponse_format : WireFormat EndTxnResponse := {
  wire := EndTxnResponse_wire;
  wire_ok := EndTxnResponse_ok;
  wire_initial := EndTxnResponse_initial;
  wire_flexible _ _ := eq_refl;
  wire_encode := EndTxnResponse_emits;
  wire_decode := EndTxnResponse_consumes;
}.

(** ** AddPartitionsToTxn *)

(* coev_kafka/partition_error.h:16-23 PartitionError *)
Record PartitionError := mkPartitionError {
  per_partition : Z; per_err : Z }.

(* coev_kafka/partition_error.cpp PartitionError::encode *)
Definition PartitionError_encode (m : PartitionError) : PE Z :=
  putInt32 (per_partition m) ;;;
  putKError (per_err m) ;;;
  ret 0.

(* coev_kafka/partition_error.cpp PartitionError::decode *)
Definition PartitionError_decode : PD PartitionError :=
  let! partition := getInt32 in
  let! err := getKError in
  ok (mkPartitionError partition err).

Definition PartitionError_wire (fl : bool) (m : PartitionError) : list Z :=
  be 4 (per_partition m) ++ be 2 (per_err m).
Definition PartitionError_ok (fl : bool) (m : PartitionError) : Prop :=
  in_s 32 (per_partition m) /\ in_s 16 (per_err m).
#[export] Instance PartitionError_ok_dec fl m : Decision (PartitionError_ok fl m).
Proof. unfold PartitionError_ok. apply _. Defined.
#[export] Hint Unfold PartitionError_encode PartitionError_decode PartitionError_wire PartitionError_ok : message.
Lemma PartitionError_emits fl m : PartitionError_ok fl m -> emits fl (PartitionError_encode m) 0 (PartitionError_wire fl m).
Proof. solve_emits m. Qed.
Lemma PartitionError_consumes fl m : PartitionError_ok fl m -> consumes fl PartitionError_decode (Ok m) (PartitionError_wire fl m).
Proof. solve_consumes m. Qed.
#[export] Hint Resolve PartitionError_emits : emit.
#[export] Hint Resolve PartitionError_consumes : consume.
#[global] Arguments PartitionError_wire : simpl never.
#[global] Arguments PartitionError_encode : simpl never.
#[global] Arguments PartitionError_decode : simpl never.
#[global] Arguments PartitionError_ok : simpl never.

Lemma Zlen_map {A B} (f : A -> B) (l : list A) : Zlen (map f l) = Zlen l.
Proof. unfold Zlen. by rewrite length_map. Qed.

(** [std::unordered_map] iterates in an order of its own: a parameter, any
    function that lists the pairs of the map. *)
(* coev_kafka/add_partitions_to_txn_request.h:24-45 AddPartitionsToTxnRequest *)
Record AddPartitionsToTxnRequest := mkAddPartitionsToTxnRequest {
  apq_version : Z; apq_transactional_id : list Z; apq_producer_id : Z; apq_producer_epoch : Z;
  apq_topic_partitions : gmap (list Z) (list Z) }.

(* coev_kafka/add_partitions_to_txn_request.cpp:49-59 AddPartitionsToTxnRequest::encode *)
Definition topic_partitions_encode (kv : list Z * list Z) : PE Z :=
  let* r := putString (fst kv) in if negb (r =? 0) then ret (-1) else
  let* r := putInt32Array (snd kv) in if negb (r =? 0) then ret (-1) else
  ret 0.
(* coev_kafka/add_partitions_to_txn_request.cpp AddPartitionsToTxnRequest::encode *)
Definition AddPartitionsToTxnRequest_encode
  (iterate : gmap (list Z) (list Z) -> list (list Z * list Z)) (m : AddPartitionsToTxnRequest) : PE Z :=
  let* r := putString (apq_transactional_id m) in if negb (r =? 0) then ret (-1) else
  putInt64 (apq_producer_id m) ;;;
  putInt16 (apq_producer_epoch m) ;;;
  let* r := putArrayLength (to_i32 (Z.of_nat (size (apq_topic_partitions m)))) in
  if negb (r =? 0) then ret (-1) else
  try for_try (iterate (apq_topic_partitions m)) topic_partitions_encode ;;;
  ret 0.

(* coev_kafka/add_partitions_to_txn_request.cpp:89-100 AddPartitionsToTxnRequest::decode *)
Definition topic_partitions_decode : PD (list Z * list Z) :=
  let! topic := getString in
  let! partitions := getInt32Array in
  ok (topic, partitions).
(** [m_topic_partitions[topic] = partitions], in the order read *)
Definition assign_all (l : list (list Z * list Z)) : gmap (list Z) (list Z) :=
  fold_left (fun m p => <[fst p := snd p]> m) l ∅.
(* coev_kafka/add_partitions_to_txn_request.cpp AddPartitionsToTxnRequest::decode *)
Definition AddPartitionsToTxnRequest_decode (self : AddPartitionsToTxnRequest) (version : Z)
  : PD AddPartitionsToTxnRequest :=
  let! transactional_id := getString in
  let! producer_id := getInt64 in
  let! producer_epoch := getInt16 in
  let! n := getArrayLength in
  let! pairs := read_counted n topic_partitions_decode in
  ok (mkAddPartitionsToTxnRequest (apq_version self) transactional_id producer_id producer_epoch
        (assign_all pairs)).

(* coev_kafka/add_partitions_to_txn_request.cpp AddPartitionsToTxnRequest::key..AddPartitionsToTxnRequest::is_valid_version *)
Definition AddPartitionsToTxnRequest_body iterate : protocol_body AddPartitionsToTxnRequest := {|
  pb_encode := AddPartitionsToTxnRequest_encode iterate;
  pb_decode := AddPartitionsToTxnRequest_decode;
  pb_key _ := 24;
  pb_version := apq_version;
  pb_header_version _ := 1;
  pb_is_valid_version m := (0 <=? apq_version m) && (apq_version m <=? 2);
  pb_is_flexible _ := false;
  pb_is_flexible_version _ _ := false;
|}.

Definition topic_partitions_wire (kv : list Z * list Z) : list Z :=
  w_string false (fst kv) ++ w_int32_array false (snd kv).
Definition topic_partitions_ok (kv : list Z * list Z) : Prop :=
  string_ok false (fst kv) /\ int32s_ok false (snd kv).
#[export] Instance topic_partitions_ok_dec kv : Decision (topic_partitions_ok kv).
Proof. unfold topic_partitions_ok. apply _. Defined.
Definition AddPartitionsToTxnRequest_wire
  (iterate : gmap (list Z) (list Z) -> list (list Z * list Z)) (m : AddPartitionsToTxnRequest) : list Z :=
  w_string false (apq_transactional_id m) ++ be 8 (apq_producer_id m) ++
  be 2 (apq_producer_epoch m) ++
  w_array_length false (Zlen (iterate (apq_topic_partitions m))) ++
  w_list topic_partitions_wire (iterate (apq_topic_partitions m)).
Definition AddPartitionsToTxnRequest_ok (m : AddPartitionsToTxnRequest) : Prop :=
  string_ok false (apq_transactional_id m) /\ in_s 64 (apq_producer_id m) /\
  in_s 16 (apq_producer_epoch m) /\
  array_fits false topic_partitions_ok (map_to_list (apq_topic_partitions m)).
#[export] Instance AddPartitionsToTxnRequest_ok_dec m : Decision (AddPartitionsToTxnRequest_ok m).
Proof. unfold AddPartitionsToTxnRequest_ok. apply _. Defined.

Lemma topic_partitions_emits kv :
  topic_partitions_ok kv -> emits false (topic_partitions_encode kv) 0 (topic_partitions_wire kv).
Proof.
  intros [? ?]. unfold topic_partitions_encode, topic_partitions_wire. emit_steps.
Qed.
Lemma topic_partitions_consumes kv :
  topic_partitions_ok kv -> consumes false topic_partitions_decode (Ok kv) (topic_partitions_wire kv).
Proof.
  destruct kv as [k v]. intros [? ?]. unfold topic_partitions_decode, topic_partitions_wire.
  cbn in *. consume_steps.
Qed.
#[export] Hint Resolve topic_partitions_emits : emit.
#[export] Hint Resolve topic_partitions_consumes : consume.

Lemma assign_all_nodup l : NoDup l.*1 -> assign_all l = list_to_map l.
Proof.
  unfold assign_all. intros Hn.
  rewrite <- (fold_left_rev_right (fun p (m : gmap (list Z) (list Z)) => <[fst p := snd p]> m)).
  transitivity (list_to_map (M := gmap (list Z) (list Z)) (rev l)).
  - induction (rev l) as [|[k v] l' IH]; cbn; [done|]. by rewrite IH.
  - apply list_to_map_proper.
    + by rewrite <- (Permutation_rev l).
    + by rewrite <- (Permutation_rev l).
Qed.

Section UnorderedMap.
Context (iterate : gmap (list Z) (list Z) -> list (list Z * list Z)).
Hypothesis iterate_pairs : forall m, iterate m ≡ₚ map_to_list m.
Let body := AddPartitionsToTxnRequest_body iterate.
Local Existing Instance body.

Lemma iterate_rebuild m : assign_all (iterate m) = m.
Proof.
  assert (NoDup (iterate m).*1) as Hn by (rewrite iterate_pairs; apply NoDup_fst_map_to_list).
  rewrite assign_all_nodup by done. transitivity (list_to_map (M := gmap _ _) (map_to_list m)).
  - by apply list_to_map_proper.
  - apply list_to_map_to_list.
Qed.
Lemma iterate_fits m P :
  array_fits false P (map_to_list m) -> array_fits false P (iterate m).
Proof.
  unfold array_fits, array_ok, Zlen. intros (Ha & Hl & Hf).
  by rewrite !(Permutation_length (iterate_pairs m)), (iterate_pairs m).
Qed.
Lemma iterate_size m : Z.of_nat (size m) = Zlen (iterate m).
Proof. unfold Zlen. by rewrite (Permutation_length (iterate_pairs m)), length_map_to_list. Qed.

Lemma AddPartitionsToTxnRequest_emits m :
  AddPartitionsToTxnRequest_ok m ->
  emits (pb_is_flexible m) (pb_encode m) 0 (AddPartitionsToTxnRequest_wire iterate m).
Proof.
  intros (? & ? & ? & Hf). pose proof (iterate_fits _ _ Hf) as Hf'.
  cbn. unfold AddPartitionsToTxnRequest_encode, AddPartitionsToTxnRequest_wire.
  rewrite iterate_size. emit_steps.
Qed.
Lemma AddPartitionsToTxnRequest_consumes m v :
  AddPartitionsToTxnRequest_ok m -> apq_version m = v ->
  consumes false (pb_decode (mkAddPartitionsToTxnRequest v [] 0 0 ∅) v) (Ok m)
    (AddPartitionsToTxnRequest_wire iterate m).
Proof.
  intros (? & ? & ? & Hf) <-. pose proof (iterate_fits _ _ Hf) as Hf'.
  cbn. unfold AddPartitionsToTxnRequest_decode, AddPartitionsToTxnRequest_wire.
  assert (m = mkAddPartitionsToTxnRequest (apq_version m) (apq_transactional_id m) (apq_producer_id m)
            (apq_producer_epoch m) (assign_all (iterate (apq_topic_partitions m)))) as Hm.
  { rewrite iterate_rebuild. by destruct m. }
  rewrite Hm at 1. cbn [apq_version]. consume_steps.
Qed.

(** An AddPartitionsToTxn request travels unchanged whatever order the hash
    map iterates in: the receiver, inserting the pairs one by one, ends with the
    same map. *)
Theorem AddPartitionsToTxnRequest_roundtrip m :
  AddPartitionsToTxnRequest_ok m -> Zlen (AddPartitionsToTxnRequest_wire iterate m) <= MaxRequestSize ->
  roundtrips (fun v => mkAddPartitionsToTxnRequest v [] 0 0 ∅) (AddPartitionsToTxnRequest_wire iterate) m.
Proof.
  intros Hm Hl. split.
  - intros out. by apply (encode_emits m (AddPartitionsToTxnRequest_wire iterate m) out);
      [apply AddPartitionsToTxnRequest_emits|].
  - eexists. split.
    + eapply decode_version_consumes; [by apply AddPartitionsToTxnRequest_consumes|done|].
      unfold AddPartitionsToTxnRequest_wire. wire_nonempty.
    + unfold remaining; cbn. rewrite to_i32_len; [lia|]. unfold MaxRequestSize, LIMIT in *. lia.
Qed.
End UnorderedMap.

Definition example_add_partitions : AddPartitionsToTxnRequest :=
  mkAddPartitionsToTxnRequest 1 [116; 120] 77 3 (<[ [97] := [0; 1] ]> (<[ [98] := [5] ]> ∅)).
(** Two different iteration orders *)
Example AddPartitionsToTxnRequest_roundtrip_witness :
  (exists helper, @decode_version _ (AddPartitionsToTxnRequest_body map_to_list)
     (AddPartitionsToTxnRequest_wire (fun m => reverse (map_to_list m)) example_add_partitions)
     (mkAddPartitionsToTxnRequest 1 [] 0 0 ∅) 1 = Done (Ok example_add_partitions) helper) /\
  @roundtrips _ (AddPartitionsToTxnRequest_body map_to_list)
    (fun v => mkAddPartitionsToTxnRequest v [] 0 0 ∅)
    (AddPartitionsToTxnRequest_wire map_to_list) example_add_partitions.
Proof.
  split.
  - destruct (AddPartitionsToTxnRequest_roundtrip (fun m => reverse (map_to_list m))
      (fun m => reverse_Permutation (map_to_list m)) example_add_partitions) as [_ [h [Hh _]]].
    + by apply (bool_decide_unpack _); vm_compute.
    + by vm_compute.
    + exists h. exact Hh.
  - apply AddPartitionsToTxnRequest_roundtrip; [done|by apply (bool_decide_unpack _); vm_compute|by vm_compute].
Defined.

(** ** The response: an ordered map of vectors *)

(* coev_kafka/add_partitions_to_txn_response.h:25-44 AddPartitionsToTxnResponse *)
Record AddPartitionsToTxnResponse := mkAddPartitionsToTxnResponse {
  aps_version : Z; aps_throttle_time : Z; aps_errors : list (list Z * list PartitionError) }.

(* coev_kafka/add_partitions_to_txn_response.cpp:29-50 AddPartitionsToTxnResponse::encode *)
Definition topic_errors_encode (kv : list Z * list PartitionError) : PE Z :=
  let* r := putString (fst kv) in if negb (r =? 0) then ret (-1) else
  let* r := putArrayLength (to_i32 (Zlen (snd kv))) in if negb (r =? 0) then ret (-1) else
  for_try (snd kv) (fun e => let* r := PartitionError_encode e in if negb (r =? 0) then ret (-1) else ret 0).
(* coev_kafka/add_partitions_to_txn_response.cpp AddPartitionsToTxnResponse::encode *)
Definition AddPartitionsToTxnResponse_encode (m : AddPartitionsToTxnResponse) : PE Z :=
  putDurationMs (aps_throttle_time m) ;;;
  let* r := putArrayLength (to_i32 (Zlen (aps_errors m))) in if negb (r =? 0) then ret (-1) else
  try for_try (aps_errors m) topic_errors_encode ;;;
  ret 0.

(** The vector at [m_errors[topic]] is resized and then read whole, so it holds
    what was read last. *)
(* coev_kafka/add_partitions_to_txn_response.cpp:73-93 AddPartitionsToTxnResponse::decode *)
Definition topic_errors_decode : PD (list Z * list PartitionError) :=
  let! topic := getString in
  let! m := getArrayLength in
  let! partition_errors := read_resized m PartitionError_decode in
  ok (topic, partition_errors).
(* coev_kafka/add_partitions_to_txn_response.cpp AddPartitionsToTxnResponse::decode *)
Definition AddPartitionsToTxnResponse_decode (self : AddPartitionsToTxnResponse) (version : Z)
  : PD AddPartitionsToTxnResponse :=
  let! throttle_time := getDurationMs in
  let! n := getArrayLength in
  let! pairs := read_counted n topic_errors_decode in
  ok (mkAddPartitionsToTxnResponse version throttle_time (map_of pairs)).

(* coev_kafka/add_partitions_to_txn_response.cpp AddPartitionsToTxnResponse::key..AddPartitionsToTxnResponse::is_valid_version *)
#[export] Instance AddPartitionsToTxnResponse_body : protocol_body AddPartitionsToTxnResponse := {
  pb_encode := AddPartitionsToTxnResponse_encode;
  pb_decode := AddPartitionsToTxnResponse_decode;
  pb_key _ := 24;
  pb_version := aps_version;
  pb_header_version _ := 0;
  pb_is_valid_version m := (0 <=? aps_version m) && (aps_version m <=? 2);
  pb_is_flexible _ := false;
  pb_is_flexible_version _ _ := false;
}.

Definition topic_errors_wire (kv : list Z * list PartitionError) : list Z :=
  w_string false (fst kv) ++ w_array_length false (Zlen (snd kv)) ++
  w_list (PartitionError_wire false) (snd kv).
Definition topic_errors_ok (kv : list Z * list PartitionError) : Prop :=
  string_ok false (fst kv) /\ array_fits false (PartitionError_ok false) (snd kv).
#[export] Instance topic_errors_ok_dec kv : Decision (topic_errors_ok kv).
Proof. unfold topic_errors_ok. apply _. Defined.
Lemma topic_errors_emits kv :
  topic_errors_ok kv -> emits false (topic_errors_encode kv) 0 (topic_errors_wire kv).
Proof.
  intros [? ?]. unfold topic_errors_encode, topic_errors_wire. emit_steps.
Qed.
Lemma topic_errors_consumes kv :
  topic_errors_ok kv -> consumes false topic_errors_decode (Ok kv) (topic_errors_wire kv).
Proof.
  destruct kv as [k v]. intros [? ?]. unfold topic_errors_decode, topic_errors_wire.
  cbn in *. consume_steps.
Qed.
#[export] Hint Resolve topic_errors_emits : emit.
#[export] Hint Resolve topic_errors_consumes : consume.

Definition AddPartitionsToTxnResponse_wire (m : AddPartitionsToTxnResponse) : list Z :=
  be 4 (aps_throttle_time m) ++ w_array_length false (Zlen (aps_errors m)) ++
  w_list topic_errors_wire (aps_errors m).
Definition AddPartitionsToTxnResponse_ok (m : AddPartitionsToTxnResponse) : Prop :=
  in_s 32 (aps_throttle_time m) /\ array_fits false topic_errors_ok (aps_errors m) /\
  map_sorted (aps_errors m).
#[export] Instance AddPartitionsToTxnResponse_ok_dec m : Decision (AddPartitionsToTxnResponse_ok m).
Proof. unfold AddPartitionsToTxnResponse_ok. apply _. Defined.
Definition AddPartitionsToTxnResponse_initial (v : Z) : AddPartitionsToTxnResponse :=
  mkAddPartitionsToTxnResponse v 0 [].
#[export] Hint Unfold AddPartitionsToTxnResponse_encode AddPartitionsToTxnResponse_decode
  AddPartitionsToTxnResponse_wire AddPartitionsToTxnResponse_ok AddPartitionsToTxnResponse_initial : message.
Lemma AddPartitionsToTxnResponse_emits m :
  AddPartitionsToTxnResponse_ok m ->
  emits (pb_is_flexible m) (pb_encode m) 0 (AddPartitionsToTxnResponse_wire m).
Proof. solve_emits m. Qed.
Lemma AddPartitionsToTxnResponse_consumes m :
  AddPartitionsToTxnResponse_ok m ->
  consumes (pb_is_flexible m) (pb_decode (AddPartitionsToTxnResponse_initial (pb_version m)) (pb_version m))
    (Ok m) (AddPartitionsToTxnResponse_wire m).
Proof.
  open_message m. rewrite <- (map_of_sorted aps_errors0) at 1 by done. consume_steps.
Qed.
#[export] Instance AddPartitionsToTxnResponse_format : WireFormat AddPartitionsToTxnResponse := {
  wire := AddPartitionsToTxnResponse_wire;
  wire_ok := AddPartitionsToTxnResponse_ok;
  wire_initial := AddPartitionsToTxnResponse_initial;
  wire_flexible _ _ := eq_refl;
  wire_encode := AddPartitionsToTxnResponse_emits;
  wire_decode := AddPartitionsToTxnResponse_consumes;
}.

(** ** TxnOffsetCommit response *)

(* coev_kafka/txn_offset_commit_response.h:25-42 TxnOffsetCommitResponse *)
Record TxnOffsetCommitResponse := mkTxnOffsetCommitResponse {
  tcs_version : Z; tcs_throttle_time : Z; tcs_topics : list (list Z * list PartitionError) }.

(** The codes of the members are dropped. *)
(* coev_kafka/txn_offset_commit_response.cpp:26-34 TxnOffsetCommitResponse::encode *)
Definition topic_results_encode (kv : list Z * list PartitionError) : PE unit :=
  putString (fst kv) ;;;
  putArrayLength (to_i32 (Zlen (snd kv))) ;;;
  for_do (snd kv) (fun e => PartitionError_encode e ;;; ret tt).
(* coev_kafka/txn_offset_commit_response.cpp TxnOffsetCommitResponse::encode *)
Definition TxnOffsetCommitResponse_encode (m : TxnOffsetCommitResponse) : PE Z :=
  putDurationMs (tcs_throttle_time m) ;;;
  putArrayLength (to_i32 (Zlen (tcs_topics m))) ;;;
  for_do (tcs_topics m) topic_results_encode ;;;
  ret ErrNoError.

(** [pd.getArrayLength(n);] without a look at the code: in a fixed context every
    failure stores -1. *)
Definition count_stored (g : PD Z) : M packet_decoder Z :=
  let* r := g in ret (match r with Ok n => n | Err _ => -1 end).
(** [pd.getString(s);] of a new string, without a look at the code *)
Definition string_stored (g : PD (list Z)) : M packet_decoder (list Z) :=
  let* r := g in ret (match r with Ok s => s | Err _ => [] end).

(** [errors] is the vector at the topic, always empty: [reserve] of a negative
    count throws, and [errors[0]] of an empty vector is undefined. *)
(* coev_kafka/txn_offset_commit_response.cpp:52-63 TxnOffsetCommitResponse::decode *)
Definition topic_results_decode : M packet_decoder (list Z) :=
  let* topic := string_stored getString in
  let* m := count_stored getArrayLength in
  if m <? 0 then fail FThrow
  else if 0 <? m then fail FUB
  else ret topic.
(* coev_kafka/txn_offset_commit_response.cpp:51-64 TxnOffsetCommitResponse::decode *)
Fixpoint topics_results_decode (n : nat) (acc : list (list Z * list PartitionError))
  : M packet_decoder (list (list Z * list PartitionError)) :=
  match n with
  | O => ret acc
  | S n' => let* topic := topic_results_decode in topics_results_decode n' (map_assign topic [] acc)
  end.
(* coev_kafka/txn_offset_commit_response.cpp TxnOffsetCommitResponse::decode *)
Definition TxnOffsetCommitResponse_decode (self : TxnOffsetCommitResponse) (version : Z)
  : PD TxnOffsetCommitResponse :=
  let! throttle_time := getDurationMs in
  let* n := count_stored getArrayLength in
  let* topics := topics_results_decode (Z.to_nat n) [] in
  ok (mkTxnOffsetCommitResponse version throttle_time topics).

(* coev_kafka/txn_offset_commit_response.cpp TxnOffsetCommitResponse::key..TxnOffsetCommitResponse::is_valid_version *)
#[export] Instance TxnOffsetCommitResponse_body : protocol_body TxnOffsetCommitResponse := {
  pb_encode := TxnOffsetCommitResponse_encode;
  pb_decode := TxnOffsetCommitResponse_decode;
  pb_key _ := 28;
  pb_version := tcs_version;
  pb_header_version _ := 0;
  pb_is_valid_version m := (0 <=? tcs_version m) && (tcs_version m <=? 2);
  pb_is_flexible _ := false;
  pb_is_flexible_version _ _ := false;
}.

Definition TxnOffsetCommitResponse_wire (m : TxnOffsetCommitResponse) : list Z :=
  be 4 (tcs_throttle_time m) ++ w_array_length false (Zlen (tcs_topics m)) ++
  w_list topic_errors_wire (tcs_topics m).
Definition TxnOffsetCommitResponse_ok (m : TxnOffsetCommitResponse) : Prop :=
  in_s 32 (tcs_throttle_time m) /\ array_fits false topic_errors_ok (tcs_topics m).
#[export] Instance TxnOffsetCommitResponse_ok_dec m : Decision (TxnOffsetCommitResponse_ok m).
Proof. unfold TxnOffsetCommitResponse_ok. apply _. Defined.

Lemma topic_results_emits kv :
  topic_errors_ok kv -> emits false (topic_results_encode kv) tt (topic_errors_wire kv).
Proof.
  intros [Hk Hv]. unfold topic_results_encode, topic_errors_wire.
  eapply emits_seq; [by apply emits_putString|]. eapply emits_seq; [by eapply emits_array_length|].
  destruct Hv as (_ & _ & Hf). rewrite Forall_forall in Hf.
  apply emits_for_do. intros e He. eapply emits_then. by apply PartitionError_emits, Hf.
Qed.
Lemma TxnOffsetCommitResponse_emits m :
  TxnOffsetCommitResponse_ok m ->
  emits (pb_is_flexible m) (pb_encode m) 0 (TxnOffsetCommitResponse_wire m).
Proof.
  intros [Ht Hf]. cbn. unfold TxnOffsetCommitResponse_encode, TxnOffsetCommitResponse_wire.
  eapply emits_seq; [by apply emits_putDurationMs|].
  eapply emits_seq; [by eapply emits_array_length|].
  eapply emits_then. destruct Hf as (_ & _ & Hf). rewrite Forall_forall in Hf.
  apply emits_for_do. intros kv Hkv. by apply topic_results_emits, Hf.
Qed.

Lemma consumes_count_stored fl g n bs :
  consumes fl g (Ok n) bs -> consumes fl (count_stored g) n bs.
Proof.
  intros H. eapply consumes_as; [eapply consumes_bind; [exact H|apply consumes_ret]|apply app_nil_r].
Qed.
Lemma consumes_string_stored fl g s bs :
  consumes fl g (Ok s) bs -> consumes fl (string_stored g) s bs.
Proof.
  intros H. eapply consumes_as; [eapply consumes_bind; [exact H|apply consumes_ret]|apply app_nil_r].
Qed.

(** A topic with a partition is read up to its count, and the element is then
    written past the end of the vector. *)
Lemma topics_results_fault pairs acc d tl :
  Forall topic_errors_ok pairs -> Exists (fun kv => snd kv <> []) pairs ->
  pd_ok d -> pd_flexible d = 0 -> rest d = w_list topic_errors_wire pairs ++ tl ->
  topics_results_decode (length pairs) acc d = Fault FUB.
Proof.
  revert acc d. induction pairs as [|[k v] pairs IH]; intros acc d Hf Hex Hok Hc Hr; [inversion Hex|].
  inversion_clear Hf as [|? ? [Hk Hv] Hf']. cbn in Hk, Hv.
  change (w_list topic_errors_wire ((k, v) :: pairs)) with
    (topic_errors_wire (k, v) ++ w_list topic_errors_wire pairs) in Hr.
  unfold topic_errors_wire in Hr. cbn in Hr. rewrite <- !app_assoc in Hr.
  pose proof (consumes_bind false (string_stored getString)
    (fun topic => let* m := count_stored getArrayLength in ret (topic, m)) k (k, Zlen v)
    (w_string false k) (w_array_length false (Zlen v))) as Hstep.
  cbn [length topics_results_decode]. unfold bind at 1.
  assert (topic_results_decode d =
    match (let* topic := string_stored getString in let* m := count_stored getArrayLength in
           ret (topic, m)) d with
    | Done (topic, m) d' =>
        (if m <? 0 then fail FThrow else if 0 <? m then fail FUB else ret topic) d'
    | Fault f => Fault f
    end) as ->.
  { unfold topic_results_decode, bind. destruct (string_stored getString d); [|done].
    by destruct (count_stored getArrayLength s). }
  rewrite (Hstep ltac:(by apply consumes_string_stored, consumes_getString)
    ltac:(eapply consumes_as; [eapply consumes_bind;
      [by eapply consumes_count_stored, consumes_array_length|apply consumes_ret]|apply app_nil_r])
    d _ Hok Hc ltac:(rewrite <- app_assoc; exact Hr)).
  pose proof (Zlen_nonneg v). replace (Zlen v <? 0) with false by lia.
  destruct v as [|e v].
  - apply Exists_cons in Hex as [|Hex]; [done|]. cbn.
    eapply IH; [done|done| |done|].
    + eapply pd_ok_advance; [done|]. rewrite <- app_assoc. exact Hr.
    + eapply rest_advance; [done|]. rewrite <- app_assoc. exact Hr.
  - rewrite Zlen_cons in *. pose proof (Zlen_nonneg v).
    by replace (0 <? 1 + Zlen v) with true by lia.
Qed.

(** The TxnOffsetCommit response the encoder writes cannot be read when it
    carries a result: as soon as a topic has a partition, decoding the bytes [encode]
    produced indexes an empty vector ([reserve] does not make elements). *)
Theorem TxnOffsetCommitResponse_unreadable m self :
  TxnOffsetCommitResponse_ok m -> Zlen (TxnOffsetCommitResponse_wire m) <= MaxRequestSize ->
  Exists (fun kv => snd kv <> []) (tcs_topics m) ->
  (forall out, encode m out = Done (ErrNoError, out ++ TxnOffsetCommitResponse_wire m) m) /\
  decode_version (TxnOffsetCommitResponse_wire m) self (tcs_version m) = Fault FUB.
Proof.
  intros Hm Hl Hex. split.
  { intros out. by apply (encode_emits m (TxnOffsetCommitResponse_wire m) out);
      [apply TxnOffsetCommitResponse_emits|]. }
  destruct Hm as [Ht Hf]. pose proof Hf as (_ & _ & Hf').
  unfold decode_version. rewrite empty_false by (unfold TxnOffsetCommitResponse_wire; wire_nonempty).
  cbn. unfold TxnOffsetCommitResponse_decode.
  set (d := new_decoder _).
  assert (pd_ok d) as Hok.
  { pose proof (Zlen_nonneg (TxnOffsetCommitResponse_wire m)). unfold MaxRequestSize in Hl.
    split; cbn; unfold LIMIT; lia. }
  pose proof (consumes_getDurationMs false _ Ht) as H1.
  pose proof (consumes_count_stored false _ _ _ (consumes_array_length false _ _ Hf)) as H2.
  assert (rest d = be 4 (tcs_throttle_time m) ++ w_array_length false (Zlen (tcs_topics m)) ++
          w_list topic_errors_wire (tcs_topics m)) as Hr by done.
  unfold bind at 1. rewrite (H1 d _ Hok eq_refl Hr).
  pose proof (pd_ok_advance _ _ _ Hok Hr) as Hok1. pose proof (rest_advance _ _ _ Hok Hr) as Hr1.
  unfold bind at 1. rewrite (H2 _ _ Hok1 eq_refl Hr1).
  unfold bind. rewrite length_Zlen.
  erewrite topics_results_fault; [done|done|done| | |rewrite app_nil_r].
  - by eapply pd_ok_advance.
  - done.
  - by eapply rest_advance.
Qed.
Definition example_offset_commit_response : TxnOffsetCommitResponse :=
  mkTxnOffsetCommitResponse 2 0 [([116], [mkPartitionError 0 0])].
Example TxnOffsetCommitResponse_unreadable_witness :
  decode_version (TxnOffsetCommitResponse_wire example_offset_commit_response)
    (mkTxnOffsetCommitResponse 2 0 []) 2 = Fault FUB.
Proof.
  apply (TxnOffsetCommitResponse_unreadable example_offset_commit_response);
    [by apply (bool_decide_unpack _); vm_compute|by vm_compute|by constructor].
Defined.

(** ** Round trips *)

(** The transaction messages travel unchanged: InitProducerID in its fixed and
    flexible versions, AddOffsetsToTxn, EndTxn, and the AddPartitionsToTxn response
    with its ordered map of vectors. *)
Theorem txn_messages_roundtrip :
  (forall m, InitProducerIDRequest_ok m -> Zlen (InitProducerIDRequest_wire m) <= MaxRequestSize ->
     roundtrips InitProducerIDRequest_initial InitProducerIDRequest_wire m) /\
  (forall m, InitProducerIDResponse_ok m -> Zlen (InitProducerIDResponse_wire m) <= MaxRequestSize ->
     roundtrips InitProducerIDResponse_initial InitProducerIDResponse_wire m) /\
  (forall m, AddOffsetsToTxnRequest_ok m -> Zlen (AddOffsetsToTxnRequest_wire m) <= MaxRequestSize ->
     roundtrips AddOffsetsToTxnRequest_initial AddOffsetsToTxnRequest_wire m) /\
  (forall m, AddOffsetsToTxnResponse_ok m -> Zlen (AddOffsetsToTxnResponse_wire m) <= MaxRequestSize ->
     roundtrips AddOffsetsToTxnResponse_initial AddOffsetsToTxnResponse_wire m) /\
  (forall m, EndTxnRequest_ok m -> Zlen (EndTxnRequest_wire m) <= MaxRequestSize ->
     roundtrips EndTxnRequest_initial EndTxnRequest_wire m) /\
  (forall m, EndTxnResponse_ok m -> Zlen (EndTxnResponse_wire m) <= MaxRequestSize ->
     roundtrips EndTxnResponse_initial EndTxnResponse_wire m) /\
  (forall m, AddPartitionsToTxnResponse_ok m -> Zlen (AddPartitionsToTxnResponse_wire m) <= MaxRequestSize ->
     roundtrips AddPartitionsToTxnResponse_initial AddPartitionsToTxnResponse_wire m).
Proof.
  split_and!; intros m Hm Hl; solve_roundtrip m.
Qed.
Example txn_messages_roundtrip_witness :
  roundtrips EndTxnRequest_initial EndTxnRequest_wire (mkEndTxnRequest 1 [116] (2 ^ 40) 5 true) /\
  roundtrips AddPartitionsToTxnResponse_initial AddPartitionsToTxnResponse_wire
    (mkAddPartitionsToTxnResponse 1 100 [([97], [mkPartitionError 0 0; mkPartitionError 1 48]); ([97; 98], [])]).
Proof.
  split; apply txn_messages_roundtrip;
    first [by apply (bool_decide_unpack _); vm_compute | by vm_compute].
Defined.
