(* ===== verification/SetVersion.v ===== *)
(** * Setting a body's version

    The virtual member [set_version] of the bodies with a message contract, with the two laws
    an exchange relies on. *)
From Stdlib Require Import ZArith.
From stdpp Require Import base tactics list numbers.
From S2P Require Import Prelude Encoder Decoder EncoderDecoder GroupMessages TxnMessages.

(** The virtual member that sets the version of a body *)
Class Versioned (T : Type) := { set_version : T -> Z -> T }.

(** A fresh object of one version becomes one of the other, the version is then the one that
    was set, and the header version depends on the version alone. *)
Class VersionLaws (T : Type) `{WireFormat T, !Versioned T} := {
  set_version_initial v0 v : set_version (wire_initial v0) v = wire_initial v;
  version_set (x : T) v : pb_version (set_version x v) = v;
  header_by_version (x y : T) : pb_version x = pb_version y -> pb_header_version x = pb_header_version y }.

Lemma version_initial {T} `{VersionLaws T} v : pb_version (wire_initial (T := T) v) = v.
Proof. rewrite <- (set_version_initial 0 v). apply version_set. Qed.

Ltac version_laws := split; [done|done|]; intros x y E; cbn in *; by rewrite ?E.

(* coev_kafka/heartbeat_request.cpp HeartbeatRequest::set_version *)
Definition HeartbeatRequest_set_version (m : HeartbeatRequest) (v : Z) : HeartbeatRequest := mkHeartbeatRequest v (hbq_group_id m) (hbq_generation_id m) (hbq_member_id m) (hbq_group_instance_id m).
#[export] Instance HeartbeatRequest_versioned : Versioned HeartbeatRequest := { set_version := HeartbeatRequest_set_version }.
#[export] Instance HeartbeatRequest_laws : VersionLaws HeartbeatRequest.
Proof. version_laws. Qed.

(* coev_kafka/heartbeat_response.cpp HeartbeatResponse::set_version *)
Definition HeartbeatResponse_set_version (m : HeartbeatResponse) (v : Z) : HeartbeatResponse := mkHeartbeatResponse v (hbs_throttle_time m) (hbs_err m).
#[export] Instance HeartbeatResponse_versioned : Versioned HeartbeatResponse := { set_version := HeartbeatResponse_set_version }.
#[export] Instance HeartbeatResponse_laws : VersionLaws HeartbeatResponse.
Proof. version_laws. Qed.

(* coev_kafka/leave_group_request.cpp LeaveGroupRequest::set_version *)
Definition LeaveGroupRequest_set_version (m : LeaveGroupRequest) (v : Z) : LeaveGroupRequest := mkLeaveGroupRequest v (lgq_group_id m) (lgq_member_id m) (lgq_members m).
#[export] Instance LeaveGroupRequest_versioned : Versioned LeaveGroupRequest := { set_version := LeaveGroupRequest_set_version }.
#[export] Instance LeaveGroupRequest_laws : VersionLaws LeaveGroupRequest.
Proof. version_laws. Qed.

(* coev_kafka/leave_group_response.cpp LeaveGroupResponse::set_version *)
Definition LeaveGroupResponse_set_version (m : LeaveGroupResponse) (v : Z) : LeaveGroupResponse := mkLeaveGroupResponse v (lgs_throttle_time m) (lgs_err m) (lgs_member_responses m).
#[export] Instance LeaveGroupResponse_versioned : Versioned LeaveGroupResponse := { set_version := LeaveGroupResponse_set_version }.
#[export] Instance LeaveGroupResponse_laws : VersionLaws LeaveGroupResponse.
Proof. version_laws. Qed.

(* coev_kafka/sync_group_request.cpp SyncGroupRequest::set_version *)
Definition SyncGroupRequest_set_version (m : SyncGroupRequest) (v : Z) : SyncGroupRequest := mkSyncGroupRequest v (sgq_group_id m) (sgq_generation_id m) (sgq_member_id m) (sgq_group_instance_id m) (sgq_group_assignments m).
#[export] Instance SyncGroupRequest_versioned : Versioned SyncGroupRequest := { set_version := SyncGroupRequest_set_version }.
#[export] Instance SyncGroupRequest_laws : VersionLaws SyncGroupRequest.
Proof. version_laws. Qed.

(* coev_kafka/sync_group_response.cpp SyncGroupResponse::set_version *)
Definition SyncGroupResponse_set_version (m : SyncGroupResponse) (v : Z) : SyncGroupResponse := mkSyncGroupResponse v (sgs_throttle_time m) (sgs_err m) (sgs_member_assignment m).
#[export] Instance SyncGroupResponse_versioned : Versioned SyncGroupResponse := { set_version := SyncGroupResponse_set_version }.
#[export] Instance SyncGroupResponse_laws : VersionLaws SyncGroupResponse.
Proof. version_laws. Qed.

(* coev_kafka/init_producer_id_request.cpp InitProducerIDRequest::set_version *)
Definition InitProducerIDRequest_set_version (m : InitProducerIDRequest) (v : Z) : InitProducerIDRequest := mkInitProducerIDRequest v (ipq_transactional_id m) (ipq_transaction_timeout m) (ipq_producer_id m) (ipq_producer_epoch m).
#[export] Instance InitProducerIDRequest_versioned : Versioned InitProducerIDRequest := { set_version := InitProducerIDRequest_set_version }.
#[export] Instance InitProducerIDRequest_laws : VersionLaws InitProducerIDRequest.
Proof. version_laws. Qed.

(* coev_kafka/init_producer_id_response.cpp InitProducerIDResponse::set_version *)
Definition InitProducerIDResponse_set_version (m : InitProducerIDResponse) (v : Z) : InitProducerIDResponse := mkInitProducerIDResponse v (ips_throttle_time m) (ips_err m) (ips_producer_id m) (ips_producer_epoch m).
#[export] Instance InitProducerIDResponse_versioned : Versioned InitProducerIDResponse := { set_version := InitProducerIDResponse_set_version }.
#[export] Instance InitProducerIDResponse_laws : VersionLaws InitProducerIDResponse.
Proof. version_laws. Qed.

(* coev_kafka/add_offsets_to_txn_request.cpp AddOffsetsToTxnRequest::set_version *)
Definition AddOffsetsToTxnRequest_set_version (m : AddOffsetsToTxnRequest) (v : Z) : AddOffsetsToTxnRequest := mkAddOffsetsToTxnRequest v (aoq_transactional_id m) (aoq_producer_id m) (aoq_producer_epoch m) (aoq_group_id m).
#[export] Instance AddOffsetsToTxnRequest_versioned : Versioned AddOffsetsToTxnRequest := { set_version := AddOffsetsToTxnRequest_set_version }.
#[export] Instance AddOffsetsToTxnRequest_laws : VersionLaws AddOffsetsToTxnRequest.
Proof. version_laws. Qed.

(* coev_kafka/add_offsets_to_txn_response.cpp AddOffsetsToTxnResponse::set_version *)
Definition AddOffsetsToTxnResponse_set_version (m : AddOffsetsToTxnResponse) (v : Z) : AddOffsetsToTxnResponse := mkAddOffsetsToTxnResponse v (aos_throttle_time m) (aos_err m).
#[export] Instance AddOffsetsToTxnResponse_versioned : Versioned AddOffsetsToTxnResponse := { set_version := AddOffsetsToTxnResponse_set_version }.
#[export] Instance AddOffsetsToTxnResponse_laws : VersionLaws AddOffsetsToTxnResponse.
Proof. version_laws. Qed.

(* coev_kafka/end_txn_request.cpp EndTxnRequest::set_version *)
Definition EndTxnRequest_set_version (m : EndTxnRequest) (v : Z) : EndTxnRequest := mkEndTxnRequest v (etq_transactional_id m) (etq_producer_id m) (etq_producer_epoch m) (etq_transaction_result m).
#[export] Instance EndTxnRequest_versioned : Versioned EndTxnRequest := { set_version := EndTxnRequest_set_version }.
#[export] Instance EndTxnRequest_laws : VersionLaws EndTxnRequest.
Proof. version_laws. Qed.

(* coev_kafka/end_txn_response.cpp EndTxnResponse::set_version *)
Definition EndTxnResponse_set_version (m : EndTxnResponse) (v : Z) : EndTxnResponse := mkEndTxnResponse v (ets_throttle_time m) (ets_err m).
#[export] Instance EndTxnResponse_versioned : Versioned EndTxnResponse := { set_version := EndTxnResponse_set_version }.
#[export] Instance EndTxnResponse_laws : VersionLaws EndTxnResponse.
Proof. version_laws. Qed.

(* coev_kafka/add_partitions_to_txn_response.cpp AddPartitionsToTxnResponse::set_version *)
Definition AddPartitionsToTxnResponse_set_version (m : AddPartitionsToTxnResponse) (v : Z) : AddPartitionsToTxnResponse := mkAddPartitionsToTxnResponse v (aps_throttle_time m) (aps_errors m).
#[export] Instance AddPartitionsToTxnResponse_versioned : Versioned AddPartitionsToTxnResponse := { set_version := AddPartitionsToTxnResponse_set_version }.
#[export] Instance AddPartitionsToTxnResponse_laws : VersionLaws AddPartitionsToTxnResponse.
Proof. version_laws. Qed.
