(* ===== verification/MessageKit.v ===== *)
(** * What the bodies of several files share

    Maps, vectors that are read in place and arrays of strings inside a message, in both
    directions.  [EncoderDecoder] has the same for single fields and for vectors of structures
    that are read afresh. *)
From Stdlib Require Import ZArith Lia Bool.
From stdpp Require Import base tactics list numbers.
From S2P Require Import Prelude Errors Wire Decoder Encoder Codec CodecEnc CodecDec EncoderDecoder StdMap.

(** [if (m(x) != ErrNoError) return c; k] in an encoder *)
Notation "'try' m '/!' c ;;; k" :=
  (bind m (fun r => if negb (r =? ErrNoError) then ret c else k))
  (at level 101, m at level 100, c at level 100, k at level 200, right associativity) : coev_scope.

(** ** Maps *)

(** [for (i = 0; i < n; ++i) { read(k); read(v); m[k] = v; }] into an empty map *)
Definition read_map {K} `{KeyOrder K} {V} (n : Z) (g : PD (K * V)) : PD (list (K * V)) :=
  let! l := read_counted n g in ok (map_of l).

Lemma consumes_map {K} `{KeyOrder K} {V} fl (g : PD (K * V)) wk wv Pk Pv (m : list (K * V)) :
  array_fits fl (pair_ok Pk Pv) m -> map_sorted m ->
  (forall k v, Pk k -> Pv v -> consumes fl g (Ok (k, v)) (wk k ++ wv v)) ->
  consumes fl (read_map (Zlen m) g) (Ok m) (w_list (w_pair wk wv) m).
Proof.
  intros Hm Hs Hg. unfold read_map. eapply consumes_last; [eapply consumes_counted; [exact Hm|by intros [] []; apply Hg]|].
  rewrite map_of_sorted by done. apply consumes_ret.
Qed.

(** The same with [emplace], which keeps the first value of a key *)
Definition map_emplace {K} `{KeyOrder K} {V} (p : K * V) (m : list (K * V)) : list (K * V) :=
  if map_count (fst p) m then m else map_assign (fst p) (snd p) m.
Definition read_map_first {K} `{KeyOrder K} {V} (n : Z) (g : PD (K * V)) : PD (list (K * V)) :=
  let! l := read_counted n g in ok (fold_left (fun m p => map_emplace p m) l []).
(** The same behind [if (n > 0)], which leaves the map as it is otherwise *)
Definition read_map_or {K} `{KeyOrder K} {V} (n : Z) (old : list (K * V)) (g : PD (K * V)) : PD (list (K * V)) :=
  if 0 <? n then read_map n g else ok old.
(** [for (i = 0; i < n; ++i) { read(k); m[k].decode(pd); }]: a key that comes again is read
    into the element it has *)
Fixpoint read_map_at {K} `{KeyOrder K} {V} (d : V) (n : nat) (gk : PD K) (gv : V -> PD V)
  (m : list (K * V)) : PD (list (K * V)) :=
  match n with
  | O => ok m
  | S n' =>
      let! k := gk in
      let! v := gv (match map_find k m with Some v => v | None => d end) in
      read_map_at d n' gk gv (map_assign k v m)
  end.

Section Maps.
Context {K : Type} `{KeyOrder K} {V : Type}.
Implicit Types (m l : list (K * V)).

Lemma map_sorted_app_find m k v l : map_sorted (m ++ (k, v) :: l) -> map_find k m = None.
Proof.
  intros Hs%map_sorted_app_l. induction Hs as [|[k0 v0] m Hk Hm IH]; cbn; [done|]. cbn in Hk.
  rewrite key_compare_antisym. unfold key_lt in Hk. by rewrite Hk.
Qed.
Lemma map_sorted_assign m k v l : map_sorted (m ++ (k, v) :: l) -> map_assign k v m = m ++ [(k, v)].
Proof. intros Hs. apply map_assign_last. by eapply map_sorted_app_l. Qed.

Lemma map_first_sorted l : map_sorted l -> fold_left (fun m p => map_emplace p m) l [] = l.
Proof.
  change l with ([] ++ l) at 1 3. generalize (@nil (K * V)).
  induction l as [|[k v] l IH]; intros acc; cbn; [by rewrite app_nil_r|]. intros Hs.
  unfold map_emplace, map_count. cbn [fst snd]. rewrite (map_sorted_app_find _ _ _ _ Hs).
  rewrite (map_sorted_assign _ _ _ _ Hs), IH; rewrite <- app_assoc; done.
Qed.
Lemma consumes_map_first fl (g : PD (K * V)) wk wv Pk Pv m :
  array_fits fl (pair_ok Pk Pv) m -> map_sorted m ->
  (forall k v, Pk k -> Pv v -> consumes fl g (Ok (k, v)) (wk k ++ wv v)) ->
  consumes fl (read_map_first (Zlen m) g) (Ok m) (w_list (w_pair wk wv) m).
Proof.
  intros Hm Hs Hg. unfold read_map_first. eapply consumes_last; [eapply consumes_counted; [exact Hm|by intros [] []; apply Hg]|].
  rewrite map_first_sorted by done. apply consumes_ret.
Qed.
Lemma consumes_map_or fl (g : PD (K * V)) wk wv Pk Pv m :
  array_fits fl (pair_ok Pk Pv) m -> map_sorted m ->
  (forall k v, Pk k -> Pv v -> consumes fl g (Ok (k, v)) (wk k ++ wv v)) ->
  consumes fl (read_map_or (Zlen m) [] g) (Ok m) (w_list (w_pair wk wv) m).
Proof.
  intros Hm Hs Hg. unfold read_map_or. destruct (0 <? Zlen m) eqn:E; [by eapply consumes_map|].
  assert (m = []) as -> by (apply Zlen_zero; lia). apply consumes_ret.
Qed.

Lemma consumes_map_at_app fl (d : V) gk gv wk wv (Pk : K -> Prop) Pv acc m :
  map_sorted (acc ++ m) -> Forall (fun p => Pk (fst p) /\ Pv (snd p)) m ->
  (forall k, Pk k -> consumes fl gk (Ok k) (wk k)) -> (forall v, Pv v -> consumes fl (gv d) (Ok v) (wv v)) ->
  consumes fl (read_map_at d (length m) gk gv acc) (Ok (acc ++ m))
    (w_list (fun p => wk (fst p) ++ wv (snd p)) m).
Proof.
  intros Hs Hf Hk Hv. revert acc Hs. induction Hf as [|[k v] m [Hk0 Hv0] Hf IH]; intros acc Hs.
  - rewrite app_nil_r. apply consumes_ret.
  - change (w_list _ ((k, v) :: m)) with ((wk k ++ wv v) ++ w_list (fun p => wk (fst p) ++ wv (snd p)) m).
    rewrite <- app_assoc. cbn [length read_map_at]. eapply consumes_let; [by apply Hk|].
    rewrite (map_sorted_app_find _ _ _ _ Hs). eapply consumes_let; [by apply Hv|].
    rewrite (map_sorted_assign _ _ _ _ Hs).
    replace (acc ++ (k, v) :: m) with ((acc ++ [(k, v)]) ++ m) by by rewrite <- app_assoc.
    apply IH. by rewrite <- app_assoc.
Qed.
End Maps.

Lemma consumes_map_at {K} `{KeyOrder K} {V} fl (d : V) gk gv wk wv Pk Pv (m : list (K * V)) :
  array_fits fl (pair_ok Pk Pv) m -> map_sorted m ->
  (forall k, Pk k -> consumes fl gk (Ok k) (wk k)) -> (forall v, Pv v -> consumes fl (gv d) (Ok v) (wv v)) ->
  consumes fl (read_map_at d (Z.to_nat (Zlen m)) gk gv []) (Ok m) (w_list (w_pair wk wv) m).
Proof.
  intros (_ & _ & Hf) Hs Hk Hv. rewrite length_Zlen. by apply (consumes_map_at_app fl d gk gv wk wv Pk Pv []).
Qed.

(** ** Vectors that are read in place *)

(** [v.resize(n)] *)
Definition resized {X} (d : X) (n : nat) (old : list X) : list X := take n old ++ replicate (n - length old) d.
(** [for (auto &x : v) x.decode(pd);] *)
Fixpoint read_each {X} (old : list X) (g : X -> PD X) : PD (list X) :=
  match old with
  | [] => ok []
  | x :: old' => let! y := g x in let! l := read_each old' g in ok (y :: l)
  end.
(** [v.resize(n); for (i = 0; i < n; ++i) v[i].decode(pd);] *)
Definition read_into {X} (d : X) (n : Z) (old : list X) (g : X -> PD X) : PD (list X) :=
  resize_int n ;;; read_each (resized d (Z.to_nat n) old) g.

Lemma read_each_replicate {X} (d : X) n g : read_each (replicate n d) g = read_n n (g d).
Proof. induction n as [|n IH]; cbn; [done|]. by rewrite IH. Qed.
Lemma read_into_fresh {X} (d : X) n g : read_into d n [] g = read_resized n (g d).
Proof.
  unfold read_into, read_resized, resized. rewrite take_nil. cbn [length app].
  by rewrite Nat.sub_0_r, read_each_replicate.
Qed.
Lemma consumes_into {X} fl (d : X) g w P (l : list X) :
  array_fits fl P l -> (forall x, P x -> consumes fl (g d) (Ok x) (w x)) ->
  consumes fl (read_into d (Zlen l) [] g) (Ok l) (w_list w l).
Proof. rewrite read_into_fresh. apply consumes_resized. Qed.

(** ** Arrays of strings *)

(** A length, and a [putString] for each string *)
Definition putStrings (l : list (list Z)) : PE Z :=
  try putArrayLength (to_i32 (Zlen l)) ;;; for_try l putString.
Lemma emits_putStrings fl l : strings_ok fl l -> emits fl (putStrings l) 0 (w_string_array fl l).
Proof.
  intros (Hl & _ & Hs). rewrite Forall_forall in Hs. unfold putStrings, w_string_array.
  apply emits_try; [by apply emits_putArrayLength_of|]. apply emits_for_try. intros x Hx.
  apply emits_putString. by apply Hs, list_elem_of_In.
Qed.

(** What [putStringArray] can write: where the context is flexible its sizing pass counts four
    bytes for every string, and only the empty array is safe ([putStringArray_flexible_missized]). *)
Definition string_array_ok (fl : bool) (l : list (list Z)) : Prop := strings_ok fl l /\ (fl = true -> l = []).
#[export] Instance string_array_ok_dec fl l : Decision (string_array_ok fl l).
Proof. unfold string_array_ok. apply _. Defined.
Lemma emits_putStringArray_any fl l : string_array_ok fl l -> emits fl (putStringArray l) 0 (w_string_array fl l).
Proof.
  intros [Hl He]. destruct fl; [|by apply emits_putStringArray_ok]. rewrite (He eq_refl).
  apply emits_by_type; [apply sizes_by_context|apply writes_by_context].
  - eapply sizes_try; [apply emits_sizes, (emits_putArrayLength true); done|].
    change (add_elements 4 [] ;;; ret 0) with (add_length 0 ;;; ret 0).
    eapply sizes_then. by apply sizes_add_length.
  - eapply writes_bind; [apply emits_writes, (emits_putArrayLength true); done|]. apply writes_ret.
Qed.
Lemma consumes_getStringArray_any fl l : string_array_ok fl l -> consumes fl getStringArray (Ok l) (w_string_array fl l).
Proof. intros [Hl _]. by apply consumes_getStringArray. Qed.

(** ** Single members *)

Lemma emits_putInt8_cast fl x : in_s 8 x -> emits fl (putInt8 (to_i8 x)) tt (be 1 x).
Proof. intros. rewrite to_s_id by (done || lia). apply emits_putInt8. Qed.
(** A string that was written as one that cannot be null *)
Lemma consumes_getNullableString_any fl s :
  string_ok fl s -> consumes fl getNullableString (Ok s) (w_string fl s).
Proof. apply consumes_getString_both. Qed.
Lemma consumes_getFloat64 fl x : in_u 64 x -> consumes fl getFloat64 (Ok x) (be 8 x).
Proof.
  intros Hx. apply consumes_when_short; [done|]. intros d tl Hok Hc Hr.
  unfold bind at 1. rewrite (be64_at_spec x d tl) by done.
  unfold bind, skip, modify, ok, ret. by rewrite to_u_id by done.
Qed.
Lemma be_congruent n x y : x mod 2 ^ (8 * Z.of_nat n) = y mod 2 ^ (8 * Z.of_nat n) -> be n x = be n y.
Proof.
  intros E. assert (forall i, 0 <= i < 8 * Z.of_nat n -> Z.testbit x i = Z.testbit y i) as Hb.
  { intros i Hi. rewrite <- (Z.mod_pow2_bits_low x (8 * Z.of_nat n)), E by lia. apply Z.mod_pow2_bits_low. lia. }
  clear E. induction n as [|n IH]; [done|]. unfold be; fold be. rewrite IH by (intros; apply Hb; lia). f_equal.
  apply Z.bits_inj'. intros i Hi. rewrite !Z.land_spec. change 255 with (Z.ones 8).
  destruct (decide (i < 8)) as [Hl|Hl].
  - rewrite !Z.shiftr_spec by done. rewrite Hb by lia. done.
  - rewrite !Z.ones_spec_high by lia. by rewrite !andb_false_r.
Qed.
Lemma emits_putFloat64 fl x : in_u 64 x -> emits fl (putFloat64 x) tt (be 8 x).
Proof.
  intros Hx. apply emits_by_type; [by apply sizes_add_length|].
  rewrite (be_congruent 8 x (to_i64 x)); [apply emits_writes, emits_putInt64|]. unfold to_s. change (8 * Z.of_nat 8) with 64.
  rewrite Zminus_mod_idemp_l. f_equal. lia.
Qed.
(** An array that is not there *)
Lemma consumes_null_array : consumes false getArrayLength (Ok (-1)) (be 4 (-1)).
Proof.
  apply consumes_by_ctx. apply consumes_when_short; [done|]. intros d tl Hok Hc Hr.
  change (be 4 (-1)) with [255; 255; 255; 255] in *. read_bytes. done.
Qed.

Lemma consumes_null_length fl : consumes fl getArrayLength (Ok (if fl then 0 else -1)) (w_array_length fl (-1)).
Proof.
  destruct fl; [|apply consumes_null_array]. apply consumes_by_ctx.
  eapply consumes_last; [by apply (consumes_getUVariant true 0)|]. apply consumes_ret.
Qed.
Lemma emits_null_length fl : emits fl (putArrayLength (-1)) 0 (w_array_length fl (-1)).
Proof.
  unfold putArrayLength. apply emits_by_type; [apply sizes_by_context|].
  - destruct fl; [|by eapply sizes_then, sizes_add_length]. eapply sizes_then, emits_sizes.
    by apply (emits_putUVarint true 0).
  - eapply writes_then, writes_by_context. destruct fl; [|apply emits_writes, emits_putInt32].
    apply emits_writes. by apply (emits_putUVarint true 0).
Qed.
(** Tags that one direction puts or gets in the flexible versions only *)
Lemma emits_tags_when fl c : c = fl -> emits fl putEmptyTaggedFieldArray tt (w_when c (w_tags fl)).
Proof. intros ->. destruct fl; apply emits_putEmptyTaggedFieldArray. Qed.
Lemma consumes_tags_when fl c : c = fl -> consumes fl getEmptyTaggedFieldArray (Ok tt) (w_when c (w_tags fl)).
Proof. intros ->. destruct fl; apply consumes_getEmptyTaggedFieldArray. Qed.

(** [if (n != 0) { v.resize(n); .. }] *)
Definition read_resized_or {X} (n : Z) (old : list X) (g : PD X) : PD (list X) :=
  if n =? 0 then ok old else read_resized n g.
Lemma consumes_resized_or {X} fl (g : PD X) w P (l : list X) :
  array_fits fl P l -> (forall x, P x -> consumes fl g (Ok x) (w x)) ->
  consumes fl (read_resized_or (Zlen l) [] g) (Ok l) (w_list w l).
Proof.
  intros Hl Hg. unfold read_resized_or. destruct (Zlen l =? 0) eqn:E; [|by eapply consumes_resized].
  assert (l = []) as -> by (apply Zlen_zero; lia). apply consumes_ret.
Qed.

#[export] Hint Resolve emits_putInt8_cast emits_putFloat64 : emit.
#[export] Hint Resolve consumes_getFloat64 : consume.
#[export] Hint Resolve consumes_getNullableString_any | 3 : consume.
#[export] Hint Resolve emits_putStrings emits_putStringArray_any : emit.
#[export] Hint Resolve consumes_getStringArray_any : consume.
#[export] Hint Extern 1 (consumes _ (read_map _ _) _ _) =>
  eapply consumes_map; [eassumption|eassumption|intros ? ? ? ?; consume_element] : consume.
#[export] Hint Extern 1 (consumes _ (read_map_first _ _) _ _) =>
  eapply consumes_map_first; [eassumption|eassumption|intros ? ? ? ?; consume_element] : consume.
#[export] Hint Extern 1 (consumes _ (read_map_or _ _ _) _ _) =>
  eapply consumes_map_or; [eassumption|eassumption|intros ? ? ? ?; consume_element] : consume.
#[export] Hint Extern 1 (consumes _ (read_map_at _ _ _ _ _) _ _) =>
  eapply consumes_map_at; [eassumption|eassumption|intros ? ?; consume_element|intros ? ?; consume_element] : consume.
#[export] Hint Extern 1 (consumes _ (read_into _ _ _ _) _ _) =>
  eapply consumes_into; [eassumption|intros ? ?; consume_element] : consume.
#[global] Arguments string_array_ok : simpl never.
#[export] Hint Extern 1 (consumes _ (read_resized_or _ _ _) _ _) =>
  eapply consumes_resized_or; [eassumption|intros ? ?; consume_element] : consume.
#[export] Hint Extern 2 (emits _ putEmptyTaggedFieldArray _ (w_when _ _)) => apply emits_tags_when; reflexivity : emit.
#[export] Hint Extern 2 (consumes _ getEmptyTaggedFieldArray _ (w_when _ _)) => apply consumes_tags_when; reflexivity : consume.

(** ** Refusals *)

(** The reader returns the code [c] after reading no more than [bs]. *)
Definition refuses {A} (fl : bool) (g : PD A) (c : Z) (bs : list Z) : Prop :=
  exists p q, bs = p ++ q /\ consumes fl g (Err c) p.

Lemma refuses_let {A B} fl c (g : PD A) (k : A -> PD B) v b1 b2 :
  consumes fl g (Ok v) b1 -> refuses fl (k v) c b2 -> refuses fl (let! x := g in k x) c (b1 ++ b2).
Proof.
  intros H1 (p & q & -> & H2). exists (b1 ++ p), q. rewrite app_assoc. split; [done|]. by eapply consumes_let.
Qed.
Lemma refuses_let_or {A B} fl c c' (g : PD A) (k : A -> PD B) v b1 b2 :
  consumes fl g (Ok v) b1 -> refuses fl (k v) c b2 -> refuses fl (let! x := g /! c' in k x) c (b1 ++ b2).
Proof.
  intros H1 (p & q & -> & H2). exists (b1 ++ p), q. rewrite app_assoc. split; [done|]. by eapply consumes_let_or.
Qed.
Lemma consumes_refused {A B} fl c (g : PD A) (k : dres A -> PD B) w p :
  consumes fl g (Err c) p -> k (Err c) = ret w -> consumes fl (bind g k) w p.
Proof.
  intros Hg Hk. eapply consumes_as; [eapply consumes_bind; [exact Hg|]|apply app_nil_r]. rewrite Hk. apply consumes_ret.
Qed.
Lemma refuses_here {A B} fl c (g : PD A) (k : A -> PD B) b1 b2 :
  refuses fl g c b1 -> refuses fl (let! x := g in k x) c (b1 ++ b2).
Proof.
  intros (p & q & -> & H). exists p, (q ++ b2). rewrite <- app_assoc. split; [done|]. by eapply consumes_refused.
Qed.
Lemma refuses_here_or {A B} fl c c' (g : PD A) (k : A -> PD B) b1 b2 :
  refuses fl g c b1 -> refuses fl (let! x := g /! c' in k x) c' (b1 ++ b2).
Proof.
  intros (p & q & -> & H). exists p, (q ++ b2). rewrite <- app_assoc. split; [done|]. by eapply consumes_refused.
Qed.
Lemma refuses_only {A} fl c c' (g : PD A) bs :
  refuses fl g c bs -> refuses fl (let! y := g /! c' in ok y) c' bs.
Proof. intros H. rewrite <- (app_nil_r bs). by eapply refuses_here_or. Qed.

(** An element that is refused ends the loop, after those before it. *)
Lemma refuses_read_n {X} fl c (g : PD X) w (good : X -> Prop) l :
  (forall x, x ∈ l -> good x -> exists y, consumes fl g (Ok y) (w x)) ->
  (forall x, x ∈ l -> ~ good x -> refuses fl g c (w x)) -> (forall x, good x \/ ~ good x) ->
  ~ Forall good l -> refuses fl (read_n (length l) g) c (w_list w l).
Proof.
  intros Hg Hb Hd. induction l as [|x l IH]; intros Hn; [by destruct Hn|].
  change (w_list w (x :: l)) with (w x ++ w_list w l). cbn [length read_n]. destruct (Hd x) as [Hx|Hx].
  - destruct (Hg x ltac:(by left) Hx) as [y Hy]. eapply refuses_let; [exact Hy|]. rewrite <- (app_nil_r (w_list w l)). eapply refuses_here, IH.
    + intros z Hz. apply Hg. by right.
    + intros z Hz. apply Hb. by right.
    + intros Hf. apply Hn. by constructor.
  - eapply refuses_here, Hb; [by left|done].
Qed.

Lemma decode_version_refused {T} `{protocol_body T} (in_ : T) version c bs :
  refuses (pb_is_flexible_version in_ version) (pb_decode in_ version) c bs ->
  Zlen bs <= MaxRequestSize -> bs <> [] ->
  exists helper, decode_version bs in_ version = Done (Err c) helper.
Proof.
  intros (p & q & -> & Hd%flexible_decode_consumes) Hl Hne. unfold MaxRequestSize in Hl.
  assert (pd_ok (new_decoder (p ++ q))) as Hok.
  { split; cbn; [pose proof (Zlen_nonneg (p ++ q)); lia|]. unfold LIMIT. lia. }
  unfold decode_version. rewrite empty_false by done. unfold prepare_flexible_decoder.
  rewrite (Hd (new_decoder (p ++ q)) q Hok eq_refl eq_refl). by eexists.
Qed.
