(* ===== verification/AdminMessages.v ===== *)
(** * Topics, groups and the handshake

    The bodies with which a client introduces itself (SaslHandshake, SaslAuthenticate), finds
    a coordinator, and lists and deletes topics, groups, partitions and records. *)
From Stdlib Require Import ZArith Lia Bool.
From stdpp Require Import base tactics list numbers.
From S2P Require Import Prelude Errors Wire Decoder Encoder Codec CodecEnc CodecDec EncoderDecoder.
From S2P Require Import StdMap MessageKit SetVersion.

(** ** SASL *)

(* coev_kafka/sasl_handshake_request.h:21-38 SaslHandshakeRequest *)
Record SaslHandshakeRequest := mkSaslHandshakeRequest {
  shq_version : Z; shq_mechanism : list Z }.

(* coev_kafka/sasl_handshake_request.cpp SaslHandshakeRequest::encode *)
Definition SaslHandshakeRequest_encode (m : SaslHandshakeRequest) : PE Z :=
  putString (shq_mechanism m).

(* coev_kafka/sasl_handshake_request.cpp SaslHandshakeRequest::decode *)
Definition SaslHandshakeRequest_decode (self : SaslHandshakeRequest) (version : Z) : PD SaslHandshakeRequest :=
  let! mechanism := getString in
  ok (mkSaslHandshakeRequest version mechanism).

(* coev_kafka/sasl_handshake_request.cpp SaslHandshakeRequest::key..SaslHandshakeRequest::is_valid_version *)
#[export] Instance SaslHandshakeRequest_body : protocol_body SaslHandshakeRequest := {
  pb_encode := SaslHandshakeRequest_encode;
  pb_decode := SaslHandshakeRequest_decode;
  pb_key _ := 17;
  pb_version := shq_version;
  pb_header_version m := 1;
  pb_is_valid_version m := (0 <=? shq_version m) && (shq_version m <=? 1);
  pb_is_flexible _ := false;
  pb_is_flexible_version _ _ := false;
}.

Definition SaslHandshakeRequest_wire (m : SaslHandshakeRequest) : list Z :=
  let fl := pb_is_flexible m in
  w_string fl (shq_mechanism m).
Definition SaslHandshakeRequest_ok (m : SaslHandshakeRequest) : Prop :=
  let fl := pb_is_flexible m in
  string_ok fl (shq_mechanism m).
#[export] Instance SaslHandshakeRequest_ok_dec m : Decision (SaslHandshakeRequest_ok m).
Proof. unfold SaslHandshakeRequest_ok. cbv zeta. apply _. Defined.
Definition SaslHandshakeRequest_initial (v : Z) : SaslHandshakeRequest :=
  mkSaslHandshakeRequest v [].
#[export] Hint Unfold SaslHandshakeRequest_encode SaslHandshakeRequest_decode SaslHandshakeRequest_wire SaslHandshakeRequest_ok SaslHandshakeRequest_initial : message.

Lemma SaslHandshakeRequest_emits m :
  SaslHandshakeRequest_ok m -> emits (pb_is_flexible m) (pb_encode m) 0 (SaslHandshakeRequest_wire m).
Proof. solve_emits m. Qed.
Lemma SaslHandshakeRequest_consumes m :
  SaslHandshakeRequest_ok m ->
  consumes (pb_is_flexible m) (pb_decode (SaslHandshakeRequest_initial (pb_version m)) (pb_version m)) (Ok m) (SaslHandshakeRequest_wire m).
Proof. solve_consumes m. Qed.
#[export] Instance SaslHandshakeRequest_format : WireFormat SaslHandshakeRequest := {
  wire := SaslHandshakeRequest_wire;
  wire_ok := SaslHandshakeRequest_ok;
  wire_initial := SaslHandshakeRequest_initial;
  wire_flexible _ _ := eq_refl;
  wire_encode := SaslHandshakeRequest_emits;
  wire_decode := SaslHandshakeRequest_consumes;
}.
(* coev_kafka/sasl_handshake_request.cpp SaslHandshakeRequest::set_version *)
Definition SaslHandshakeRequest_set_version (m : SaslHandshakeRequest) (v : Z) : SaslHandshakeRequest :=
  mkSaslHandshakeRequest v (shq_mechanism m).
#[export] Instance SaslHandshakeRequest_versioned : Versioned SaslHandshakeRequest := { set_version := SaslHandshakeRequest_set_version }.
#[export] Instance SaslHandshakeRequest_laws : VersionLaws SaslHandshakeRequest.
Proof. version_laws. Qed.

(* coev_kafka/sasl_handshake_response.h:22-36 SaslHandshakeResponse *)
Record SaslHandshakeResponse := mkSaslHandshakeResponse {
  shs_version : Z; shs_err : Z; shs_enabled_mechanisms : list (list Z) }.

(* coev_kafka/sasl_handshake_response.cpp SaslHandshakeResponse::encode *)
Definition SaslHandshakeResponse_encode (m : SaslHandshakeResponse) : PE Z :=
  putKError (shs_err m) ;;;
  putStringArray (shs_enabled_mechanisms m).

(* coev_kafka/sasl_handshake_response.cpp SaslHandshakeResponse::decode *)
Definition SaslHandshakeResponse_decode (self : SaslHandshakeResponse) (version : Z) : PD SaslHandshakeResponse :=
  let! err := getKError in
  let! enabled_mechanisms := getStringArray in
  ok (mkSaslHandshakeResponse version err enabled_mechanisms).

(* coev_kafka/sasl_handshake_response.cpp SaslHandshakeResponse::key..SaslHandshakeResponse::is_valid_version *)
#[export] Instance SaslHandshakeResponse_body : protocol_body SaslHandshakeResponse := {
  pb_encode := SaslHandshakeResponse_encode;
  pb_decode := SaslHandshakeResponse_decode;
  pb_key _ := 17;
  pb_version := shs_version;
  pb_header_version m := 0;
  pb_is_valid_version m := (0 <=? shs_version m) && (shs_version m <=? 1);
  pb_is_flexible _ := false;
  pb_is_flexible_version _ _ := false;
}.

Definition SaslHandshakeResponse_wire (m : SaslHandshakeResponse) : list Z :=
  let fl := pb_is_flexible m in
  be 2 (shs_err m) ++ w_string_array fl (shs_enabled_mechanisms m).
Definition SaslHandshakeResponse_ok (m : SaslHandshakeResponse) : Prop :=
  let fl := pb_is_flexible m in
  in_s 16 (shs_err m) /\ string_array_ok fl (shs_enabled_mechanisms m).
#[export] Instance SaslHandshakeResponse_ok_dec m : Decision (SaslHandshakeResponse_ok m).
Proof. unfold SaslHandshakeResponse_ok. cbv zeta. apply _. Defined.
Definition SaslHandshakeResponse_initial (v : Z) : SaslHandshakeResponse :=
  mkSaslHandshakeResponse v 0 [].
#[export] Hint Unfold SaslHandshakeResponse_encode SaslHandshakeResponse_decode SaslHandshakeResponse_wire SaslHandshakeResponse_ok SaslHandshakeResponse_initial : message.

Lemma SaslHandshakeResponse_emits m :
  SaslHandshakeResponse_ok m -> emits (pb_is_flexible m) (pb_encode m) 0 (SaslHandshakeResponse_wire m).
Proof. solve_emits m. Qed.
Lemma SaslHandshakeResponse_consumes m :
  SaslHandshakeResponse_ok m ->
  consumes (pb_is_flexible m) (pb_decode (SaslHandshakeResponse_initial (pb_version m)) (pb_version m)) (Ok m) (SaslHandshakeResponse_wire m).
Proof. solve_consumes m. Qed.
#[export] Instance SaslHandshakeResponse_format : WireFormat SaslHandshakeResponse := {
  wire := SaslHandshakeResponse_wire;
  wire_ok := SaslHandshakeResponse_ok;
  wire_initial := SaslHandshakeResponse_initial;
  wire_flexible _ _ := eq_refl;
  wire_encode := SaslHandshakeResponse_emits;
  wire_decode := SaslHandshakeResponse_consumes;
}.
(* coev_kafka/sasl_handshake_response.cpp SaslHandshakeResponse::set_version *)
Definition SaslHandshakeResponse_set_version (m : SaslHandshakeResponse) (v : Z) : SaslHandshakeResponse :=
  mkSaslHandshakeResponse v (shs_err m) (shs_enabled_mechanisms m).
#[export] Instance SaslHandshakeResponse_versioned : Versioned SaslHandshakeResponse := { set_version := SaslHandshakeResponse_set_version }.
#[export] Instance SaslHandshakeResponse_laws : VersionLaws SaslHandshakeResponse.
Proof. version_laws. Qed.

(* coev_kafka/sasl_authenticate_request.h:22-41 SaslAuthenticateRequest *)
Record SaslAuthenticateRequest := mkSaslAuthenticateRequest {
  saq_version : Z; saq_sasl_auth_bytes : list Z }.

(* coev_kafka/sasl_authenticate_request.cpp SaslAuthenticateRequest::encode *)
Definition SaslAuthenticateRequest_encode (m : SaslAuthenticateRequest) : PE Z :=
  putBytes (saq_sasl_auth_bytes m).

(* coev_kafka/sasl_authenticate_request.cpp SaslAuthenticateRequest::decode *)
Definition SaslAuthenticateRequest_decode (self : SaslAuthenticateRequest) (version : Z) : PD SaslAuthenticateRequest :=
  let! sasl_auth_bytes := getBytes in
  ok (mkSaslAuthenticateRequest version sasl_auth_bytes).

(* coev_kafka/sasl_authenticate_request.cpp SaslAuthenticateRequest::key..SaslAuthenticateRequest::is_valid_version *)
#[export] Instance SaslAuthenticateRequest_body : protocol_body SaslAuthenticateRequest := {
  pb_encode := SaslAuthenticateRequest_encode;
  pb_decode := SaslAuthenticateRequest_decode;
  pb_key _ := 36;
  pb_version := saq_version;
  pb_header_version m := 1;
  pb_is_valid_version m := (0 <=? saq_version m) && (saq_version m <=? 1);
  pb_is_flexible _ := false;
  pb_is_flexible_version _ _ := false;
}.

Definition SaslAuthenticateRequest_wire (m : SaslAuthenticateRequest) : list Z :=
  let fl := pb_is_flexible m in
  w_bytes fl (saq_sasl_auth_bytes m).
Definition SaslAuthenticateRequest_ok (m : SaslAuthenticateRequest) : Prop :=
  bytes_ok (saq_sasl_auth_bytes m).
#[export] Instance SaslAuthenticateRequest_ok_dec m : Decision (SaslAuthenticateRequest_ok m).
Proof. unfold SaslAuthenticateRequest_ok. cbv zeta. apply _. Defined.
Definition SaslAuthenticateRequest_initial (v : Z) : SaslAuthenticateRequest :=
  mkSaslAuthenticateRequest v [].
#[export] Hint Unfold SaslAuthenticateRequest_encode SaslAuthenticateRequest_decode SaslAuthenticateRequest_wire SaslAuthenticateRequest_ok SaslAuthenticateRequest_initial : message.

Lemma SaslAuthenticateRequest_emits m :
  SaslAuthenticateRequest_ok m -> emits (pb_is_flexible m) (pb_encode m) 0 (SaslAuthenticateRequest_wire m).
Proof. solve_emits m. Qed.
Lemma SaslAuthenticateRequest_consumes m :
  SaslAuthenticateRequest_ok m ->
  consumes (pb_is_flexible m) (pb_decode (SaslAuthenticateRequest_initial (pb_version m)) (pb_version m)) (Ok m) (SaslAuthenticateRequest_wire m).
Proof. solve_consumes m. Qed.
#[export] Instance SaslAuthenticateRequest_format : WireFormat SaslAuthenticateRequest := {
  wire := SaslAuthenticateRequest_wire;
  wire_ok := SaslAuthenticateRequest_ok;
  wire_initial := SaslAuthenticateRequest_initial;
  wire_flexible _ _ := eq_refl;
  wire_encode := SaslAuthenticateRequest_emits;
  wire_decode := SaslAuthenticateRequest_consumes;
}.
(* coev_kafka/sasl_authenticate_request.cpp SaslAuthenticateRequest::set_version *)
Definition SaslAuthenticateRequest_set_version (m : SaslAuthenticateRequest) (v : Z) : SaslAuthenticateRequest :=
  mkSaslAuthenticateRequest v (saq_sasl_auth_bytes m).
#[export] Instance SaslAuthenticateRequest_versioned : Versioned SaslAuthenticateRequest := { set_version := SaslAuthenticateRequest_set_version }.
#[export] Instance SaslAuthenticateRequest_laws : VersionLaws SaslAuthenticateRequest.
Proof. version_laws. Qed.

(** The message is read into a local variable and dropped. *)
(* coev_kafka/sasl_authenticate_response.h:23-39 SaslAuthenticateResponse *)
Record SaslAuthenticateResponse := mkSaslAuthenticateResponse {
  sas_version : Z; sas_err : Z; sas_message : list Z; sas_sasl_auth_bytes : list Z;
  sas_session_lifetime_ms : Z }.

(* coev_kafka/sasl_authenticate_response.cpp SaslAuthenticateResponse::encode *)
Definition SaslAuthenticateResponse_encode (m : SaslAuthenticateResponse) : PE Z :=
  putKError (sas_err m) ;;;
  try putNullableString (sas_message m) ;;;
  try putBytes (sas_sasl_auth_bytes m) ;;;
  whenU (0 <? sas_version m) (putInt64 (sas_session_lifetime_ms m)) ;;;
  ret 0.

(* coev_kafka/sasl_authenticate_response.cpp SaslAuthenticateResponse::decode *)
Definition SaslAuthenticateResponse_decode (self : SaslAuthenticateResponse) (version : Z) : PD SaslAuthenticateResponse :=
  let! err := getKError in
  let! _msg := getNullableString in
  let! sasl_auth_bytes := getBytes in
  let! session_lifetime_ms := readIf (0 <? version) getInt64 (sas_session_lifetime_ms self) in
  ok (mkSaslAuthenticateResponse version err (sas_message self) sasl_auth_bytes session_lifetime_ms).

(* coev_kafka/sasl_authenticate_response.cpp SaslAuthenticateResponse::key..SaslAuthenticateResponse::is_valid_version *)
#[export] Instance SaslAuthenticateResponse_body : protocol_body SaslAuthenticateResponse := {
  pb_encode := SaslAuthenticateResponse_encode;
  pb_decode := SaslAuthenticateResponse_decode;
  pb_key _ := 36;
  pb_version := sas_version;
  pb_header_version m := 0;
  pb_is_valid_version m := (0 <=? sas_version m) && (sas_version m <=? 1);
  pb_is_flexible _ := false;
  pb_is_flexible_version _ _ := false;
}.

Definition SaslAuthenticateResponse_wire (m : SaslAuthenticateResponse) : list Z :=
  let fl := pb_is_flexible m in
  be 2 (sas_err m) ++ w_nullable_string fl (sas_message m) ++
  w_bytes fl (sas_sasl_auth_bytes m) ++
  w_when (0 <? sas_version m) (be 8 (sas_session_lifetime_ms m)).
Definition SaslAuthenticateResponse_ok (m : SaslAuthenticateResponse) : Prop :=
  let fl := pb_is_flexible m in
  sas_message m = [] /\ in_s 16 (sas_err m) /\ string_ok fl (sas_message m) /\
  bytes_ok (sas_sasl_auth_bytes m) /\ in_s 64 (sas_session_lifetime_ms m) /\
  ((0 <? sas_version m) = false -> sas_session_lifetime_ms m = 0).
#[export] Instance SaslAuthenticateResponse_ok_dec m : Decision (SaslAuthenticateResponse_ok m).
Proof. unfold SaslAuthenticateResponse_ok. cbv zeta. apply _. Defined.
Definition SaslAuthenticateResponse_initial (v : Z) : SaslAuthenticateResponse :=
  mkSaslAuthenticateResponse v 0 [] [] 0.
#[export] Hint Unfold SaslAuthenticateResponse_encode SaslAuthenticateResponse_decode SaslAuthenticateResponse_wire SaslAuthenticateResponse_ok SaslAuthenticateResponse_initial : message.

Lemma SaslAuthenticateResponse_emits m :
  SaslAuthenticateResponse_ok m -> emits (pb_is_flexible m) (pb_encode m) 0 (SaslAuthenticateResponse_wire m).
Proof. solve_emits m. Qed.
Lemma SaslAuthenticateResponse_consumes m :
  SaslAuthenticateResponse_ok m ->
  consumes (pb_is_flexible m) (pb_decode (SaslAuthenticateResponse_initial (pb_version m)) (pb_version m)) (Ok m) (SaslAuthenticateResponse_wire m).
Proof. solve_consumes m. Qed.
#[export] Instance SaslAuthenticateResponse_format : WireFormat SaslAuthenticateResponse := {
  wire := SaslAuthenticateResponse_wire;
  wire_ok := SaslAuthenticateResponse_ok;
  wire_initial := SaslAuthenticateResponse_initial;
  wire_flexible _ _ := eq_refl;
  wire_encode := SaslAuthenticateResponse_emits;
  wire_decode := SaslAuthenticateResponse_consumes;
}.
(* coev_kafka/sasl_authenticate_response.cpp SaslAuthenticateResponse::set_version *)
Definition SaslAuthenticateResponse_set_version (m : SaslAuthenticateResponse) (v : Z) : SaslAuthenticateResponse :=
  mkSaslAuthenticateResponse v (sas_err m) (sas_message m) (sas_sasl_auth_bytes m) (sas_session_lifetime_ms m).
#[export] Instance SaslAuthenticateResponse_versioned : Versioned SaslAuthenticateResponse := { set_version := SaslAuthenticateResponse_set_version }.
#[export] Instance SaslAuthenticateResponse_laws : VersionLaws SaslAuthenticateResponse.
Proof. version_laws. Qed.

(** ** Coordinators: the version is taken over from 1 on *)

(* coev_kafka/find_coordinator_request.h:23-43 FindCoordinatorRequest *)
Record FindCoordinatorRequest := mkFindCoordinatorRequest {
  fcq_version : Z; fcq_coordinator_key : list Z; fcq_coordinator_type : Z }.

(* coev_kafka/find_coordinator_request.cpp FindCoordinatorRequest::encode *)
Definition FindCoordinatorRequest_encode (m : FindCoordinatorRequest) : PE Z :=
  try putString (fcq_coordinator_key m) ;;;
  whenU (1 <=? fcq_version m) (putInt8 (fcq_coordinator_type m)) ;;;
  ret 0.

(* coev_kafka/find_coordinator_request.cpp FindCoordinatorRequest::decode *)
Definition FindCoordinatorRequest_decode (self : FindCoordinatorRequest) (version : Z) : PD FindCoordinatorRequest :=
  let! coordinator_key := getString in
  let! coordinator_type := readIf (1 <=? version) getInt8 (fcq_coordinator_type self) in
  ok (mkFindCoordinatorRequest (if 1 <=? version then version else fcq_version self) coordinator_key coordinator_type).

(* coev_kafka/find_coordinator_request.cpp FindCoordinatorRequest::key..FindCoordinatorRequest::is_valid_version *)
#[export] Instance FindCoordinatorRequest_body : protocol_body FindCoordinatorRequest := {
  pb_encode := FindCoordinatorRequest_encode;
  pb_decode := FindCoordinatorRequest_decode;
  pb_key _ := 10;
  pb_version := fcq_version;
  pb_header_version m := 1;
  pb_is_valid_version m := (0 <=? fcq_version m) && (fcq_version m <=? 3);
  pb_is_flexible _ := false;
  pb_is_flexible_version _ _ := false;
}.

Definition FindCoordinatorRequest_wire (m : FindCoordinatorRequest) : list Z :=
  let fl := pb_is_flexible m in
  w_string fl (fcq_coordinator_key m) ++
  w_when (1 <=? fcq_version m) (be 1 (fcq_coordinator_type m)).
Definition FindCoordinatorRequest_ok (m : FindCoordinatorRequest) : Prop :=
  let fl := pb_is_flexible m in
  string_ok fl (fcq_coordinator_key m) /\ in_s 8 (fcq_coordinator_type m) /\
  ((1 <=? fcq_version m) = false -> fcq_coordinator_type m = 0).
#[export] Instance FindCoordinatorRequest_ok_dec m : Decision (FindCoordinatorRequest_ok m).
Proof. unfold FindCoordinatorRequest_ok. cbv zeta. apply _. Defined.
Definition FindCoordinatorRequest_initial (v : Z) : FindCoordinatorRequest :=
  mkFindCoordinatorRequest v [] 0.
#[export] Hint Unfold FindCoordinatorRequest_encode FindCoordinatorRequest_decode FindCoordinatorRequest_wire FindCoordinatorRequest_ok FindCoordinatorRequest_initial : message.

Lemma FindCoordinatorRequest_emits m :
  FindCoordinatorRequest_ok m -> emits (pb_is_flexible m) (pb_encode m) 0 (FindCoordinatorRequest_wire m).
Proof. solve_emits m. Qed.
Lemma FindCoordinatorRequest_consumes m :
  FindCoordinatorRequest_ok m ->
  consumes (pb_is_flexible m) (pb_decode (FindCoordinatorRequest_initial (pb_version m)) (pb_version m)) (Ok m) (FindCoordinatorRequest_wire m).
Proof. solve_consumes m. Qed.
#[export] Instance FindCoordinatorRequest_format : WireFormat FindCoordinatorRequest := {
  wire := FindCoordinatorRequest_wire;
  wire_ok := FindCoordinatorRequest_ok;
  wire_initial := FindCoordinatorRequest_initial;
  wire_flexible _ _ := eq_refl;
  wire_encode := FindCoordinatorRequest_emits;
  wire_decode := FindCoordinatorRequest_consumes;
}.
(* coev_kafka/find_coordinator_request.cpp FindCoordinatorRequest::set_version *)
Definition FindCoordinatorRequest_set_version (m : FindCoordinatorRequest) (v : Z) : FindCoordinatorRequest :=
  mkFindCoordinatorRequest v (fcq_coordinator_key m) (fcq_coordinator_type m).
#[export] Instance FindCoordinatorRequest_versioned : Versioned FindCoordinatorRequest := { set_version := FindCoordinatorRequest_set_version }.
#[export] Instance FindCoordinatorRequest_laws : VersionLaws FindCoordinatorRequest.
Proof. version_laws. Qed.

(** ** Groups *)

(* coev_kafka/delete_groups_request.h:19-39 DeleteGroupsRequest *)
Record DeleteGroupsRequest := mkDeleteGroupsRequest {
  dgq_version : Z; dgq_groups : list (list Z) }.

(* coev_kafka/delete_groups_request.cpp DeleteGroupsRequest::encode *)
Definition DeleteGroupsRequest_encode (m : DeleteGroupsRequest) : PE Z :=
  try putStringArray (dgq_groups m) /! ErrEncodeError ;;;
  putEmptyTaggedFieldArray ;;;
  ret ErrNoError.

(* coev_kafka/delete_groups_request.cpp DeleteGroupsRequest::decode *)
Definition DeleteGroupsRequest_decode (self : DeleteGroupsRequest) (version : Z) : PD DeleteGroupsRequest :=
  let! groups := getStringArray /! ErrDecodeError in
  let! _t := getEmptyTaggedFieldArray in
  ok (mkDeleteGroupsRequest version groups).

(* coev_kafka/delete_groups_request.cpp DeleteGroupsRequest::is_flexible_version *)
Definition DeleteGroupsRequest_is_flexible_version (ver : Z) : bool := 2 <=? ver.
(* coev_kafka/delete_groups_request.cpp DeleteGroupsRequest::key..DeleteGroupsRequest::is_valid_version *)
#[export] Instance DeleteGroupsRequest_body : protocol_body DeleteGroupsRequest := {
  pb_encode := DeleteGroupsRequest_encode;
  pb_decode := DeleteGroupsRequest_decode;
  pb_key _ := 42;
  pb_version := dgq_version;
  pb_header_version m := if 2 <=? dgq_version m then 2 else 1;
  pb_is_valid_version m := (0 <=? dgq_version m) && (dgq_version m <=? 2);
  pb_is_flexible m := DeleteGroupsRequest_is_flexible_version (dgq_version m);
  pb_is_flexible_version _ := DeleteGroupsRequest_is_flexible_version;
}.

Definition DeleteGroupsRequest_wire (m : DeleteGroupsRequest) : list Z :=
  let fl := pb_is_flexible m in
  w_string_array fl (dgq_groups m) ++ w_tags fl.
Definition DeleteGroupsRequest_ok (m : DeleteGroupsRequest) : Prop :=
  let fl := pb_is_flexible m in
  string_array_ok fl (dgq_groups m).
#[export] Instance DeleteGroupsRequest_ok_dec m : Decision (DeleteGroupsRequest_ok m).
Proof. unfold DeleteGroupsRequest_ok. cbv zeta. apply _. Defined.
Definition DeleteGroupsRequest_initial (v : Z) : DeleteGroupsRequest :=
  mkDeleteGroupsRequest v [].
#[export] Hint Unfold DeleteGroupsRequest_encode DeleteGroupsRequest_decode DeleteGroupsRequest_wire DeleteGroupsRequest_ok DeleteGroupsRequest_initial : message.

Lemma DeleteGroupsRequest_emits m :
  DeleteGroupsRequest_ok m -> emits (pb_is_flexible m) (pb_encode m) 0 (DeleteGroupsRequest_wire m).
Proof. solve_emits m. Qed.
Lemma DeleteGroupsRequest_consumes m :
  DeleteGroupsRequest_ok m ->
  consumes (pb_is_flexible m) (pb_decode (DeleteGroupsRequest_initial (pb_version m)) (pb_version m)) (Ok m) (DeleteGroupsRequest_wire m).
Proof. solve_consumes m. Qed.
#[export] Instance DeleteGroupsRequest_format : WireFormat DeleteGroupsRequest := {
  wire := DeleteGroupsRequest_wire;
  wire_ok := DeleteGroupsRequest_ok;
  wire_initial := DeleteGroupsRequest_initial;
  wire_flexible _ _ := eq_refl;
  wire_encode := DeleteGroupsRequest_emits;
  wire_decode := DeleteGroupsRequest_consumes;
}.
(* coev_kafka/delete_groups_request.cpp DeleteGroupsRequest::set_version *)
Definition DeleteGroupsRequest_set_version (m : DeleteGroupsRequest) (v : Z) : DeleteGroupsRequest :=
  mkDeleteGroupsRequest v (dgq_groups m).
#[export] Instance DeleteGroupsRequest_versioned : Versioned DeleteGroupsRequest := { set_version := DeleteGroupsRequest_set_version }.
#[export] Instance DeleteGroupsRequest_laws : VersionLaws DeleteGroupsRequest.
Proof. version_laws. Qed.

(* coev_kafka/delete_groups_response.h:21-41 DeleteGroupsResponse *)
Record DeleteGroupsResponse := mkDeleteGroupsResponse {
  dgs_version : Z; dgs_throttle_time : Z; dgs_group_error_codes : list (list Z * Z) }.

(* coev_kafka/delete_groups_response.cpp DeleteGroupsResponse::encode *)
Definition DeleteGroupsResponse_encode (m : DeleteGroupsResponse) : PE Z :=
  putDurationMs (dgs_throttle_time m) ;;;
  try putArrayLength (to_i32 (Zlen (dgs_group_error_codes m))) /! ErrEncodeError ;;;
  try for_try (dgs_group_error_codes m) (fun kv =>
    try putString (fst kv) /! ErrEncodeError ;;; putInt16 (snd kv) ;;; putEmptyTaggedFieldArray ;;; ret 0) ;;;
  putEmptyTaggedFieldArray ;;;
  ret ErrNoError.

(* coev_kafka/delete_groups_response.cpp DeleteGroupsResponse::decode *)
Definition DeleteGroupsResponse_decode (self : DeleteGroupsResponse) (version : Z) : PD DeleteGroupsResponse :=
  let! throttle_time := getDurationMs /! ErrDecodeError in
  let! n := getArrayLength /! ErrDecodeError in
  let! group_error_codes := read_map n (
    let! k := getString /! ErrDecodeError in let! v := getInt16 /! ErrDecodeError in let! _t := getEmptyTaggedFieldArray /! ErrDecodeError in ok (k, v)) in
  let! _t := getEmptyTaggedFieldArray in
  ok (mkDeleteGroupsResponse version throttle_time group_error_codes).

(* coev_kafka/delete_groups_response.cpp DeleteGroupsResponse::is_flexible_version *)
Definition DeleteGroupsResponse_is_flexible_version (ver : Z) : bool := 2 <=? ver.
(* coev_kafka/delete_groups_response.cpp DeleteGroupsResponse::key..DeleteGroupsResponse::is_valid_version *)
#[export] Instance DeleteGroupsResponse_body : protocol_body DeleteGroupsResponse := {
  pb_encode := DeleteGroupsResponse_encode;
  pb_decode := DeleteGroupsResponse_decode;
  pb_key _ := 42;
  pb_version := dgs_version;
  pb_header_version m := if 2 <=? dgs_version m then 1 else 0;
  pb_is_valid_version m := (0 <=? dgs_version m) && (dgs_version m <=? 2);
  pb_is_flexible m := DeleteGroupsResponse_is_flexible_version (dgs_version m);
  pb_is_flexible_version _ := DeleteGroupsResponse_is_flexible_version;
}.

Definition DeleteGroupsResponse_wire (m : DeleteGroupsResponse) : list Z :=
  let fl := pb_is_flexible m in
  be 4 (dgs_throttle_time m) ++ w_array_length fl (Zlen (dgs_group_error_codes m)) ++
  w_list (w_pair (w_string fl) (fun v => be 2 v ++ w_tags fl)) (dgs_group_error_codes m) ++
  w_tags fl.
Definition DeleteGroupsResponse_ok (m : DeleteGroupsResponse) : Prop :=
  let fl := pb_is_flexible m in
  in_s 32 (dgs_throttle_time m) /\
  array_fits fl (pair_ok (string_ok fl) (in_s 16)) (dgs_group_error_codes m) /\
  map_sorted (dgs_group_error_codes m).
#[export] Instance DeleteGroupsResponse_ok_dec m : Decision (DeleteGroupsResponse_ok m).
Proof. unfold DeleteGroupsResponse_ok. cbv zeta. apply _. Defined.
Definition DeleteGroupsResponse_initial (v : Z) : DeleteGroupsResponse :=
  mkDeleteGroupsResponse v 0 [].
#[export] Hint Unfold DeleteGroupsResponse_encode DeleteGroupsResponse_decode DeleteGroupsResponse_wire DeleteGroupsResponse_ok DeleteGroupsResponse_initial : message.

Lemma DeleteGroupsResponse_emits m :
  DeleteGroupsResponse_ok m -> emits (pb_is_flexible m) (pb_encode m) 0 (DeleteGroupsResponse_wire m).
Proof. solve_emits m. Qed.
Lemma DeleteGroupsResponse_consumes m :
  DeleteGroupsResponse_ok m ->
  consumes (pb_is_flexible m) (pb_decode (DeleteGroupsResponse_initial (pb_version m)) (pb_version m)) (Ok m) (DeleteGroupsResponse_wire m).
Proof. solve_consumes m. Qed.
#[export] Instance DeleteGroupsResponse_format : WireFormat DeleteGroupsResponse := {
  wire := DeleteGroupsResponse_wire;
  wire_ok := DeleteGroupsResponse_ok;
  wire_initial := DeleteGroupsResponse_initial;
  wire_flexible _ _ := eq_refl;
  wire_encode := DeleteGroupsResponse_emits;
  wire_decode := DeleteGroupsResponse_consumes;
}.
(* coev_kafka/delete_groups_response.cpp DeleteGroupsResponse::set_version *)
Definition DeleteGroupsResponse_set_version (m : DeleteGroupsResponse) (v : Z) : DeleteGroupsResponse :=
  mkDeleteGroupsResponse v (dgs_throttle_time m) (dgs_group_error_codes m).
#[export] Instance DeleteGroupsResponse_versioned : Versioned DeleteGroupsResponse := { set_version := DeleteGroupsResponse_set_version }.
#[export] Instance DeleteGroupsResponse_laws : VersionLaws DeleteGroupsResponse.
Proof. version_laws. Qed.

(* coev_kafka/describe_groups_request.h:20-40 DescribeGroupsRequest *)
Record DescribeGroupsRequest := mkDescribeGroupsRequest {
  dsq_version : Z; dsq_groups : list (list Z); dsq_include_authorized_operations : bool }.

(* coev_kafka/describe_groups_request.cpp DescribeGroupsRequest::encode *)
Definition DescribeGroupsRequest_encode (m : DescribeGroupsRequest) : PE Z :=
  try putStringArray (dsq_groups m) /! ErrEncodeError ;;;
  whenU (3 <=? dsq_version m) (putBool (dsq_include_authorized_operations m)) ;;;
  putEmptyTaggedFieldArray ;;;
  ret ErrNoError.

(* coev_kafka/describe_groups_request.cpp DescribeGroupsRequest::decode *)
Definition DescribeGroupsRequest_decode (self : DescribeGroupsRequest) (version : Z) : PD DescribeGroupsRequest :=
  let! groups := getStringArray /! ErrDecodeError in
  let! include_authorized_operations := readIf (3 <=? version) getBool (dsq_include_authorized_operations self) /! ErrDecodeError in
  let! _t := getEmptyTaggedFieldArray /! ErrDecodeError in
  ok (mkDescribeGroupsRequest version groups include_authorized_operations).

(* coev_kafka/describe_groups_request.cpp DescribeGroupsRequest::is_flexible_version *)
Definition DescribeGroupsRequest_is_flexible_version (ver : Z) : bool := 5 <=? ver.
(* coev_kafka/describe_groups_request.cpp DescribeGroupsRequest::key..DescribeGroupsRequest::is_flexible *)
#[export] Instance DescribeGroupsRequest_body : protocol_body DescribeGroupsRequest := {
  pb_encode := DescribeGroupsRequest_encode;
  pb_decode := DescribeGroupsRequest_decode;
  pb_key _ := 15;
  pb_version := dsq_version;
  pb_header_version m := if 5 <=? dsq_version m then 2 else 1;
  pb_is_valid_version m := (0 <=? dsq_version m) && (dsq_version m <=? 5);
  pb_is_flexible m := DescribeGroupsRequest_is_flexible_version (dsq_version m);
  pb_is_flexible_version _ := DescribeGroupsRequest_is_flexible_version;
}.

Definition DescribeGroupsRequest_wire (m : DescribeGroupsRequest) : list Z :=
  let fl := pb_is_flexible m in
  w_string_array fl (dsq_groups m) ++
  w_when (3 <=? dsq_version m) (w_bool (dsq_include_authorized_operations m)) ++ w_tags fl.
Definition DescribeGroupsRequest_ok (m : DescribeGroupsRequest) : Prop :=
  let fl := pb_is_flexible m in
  string_array_ok fl (dsq_groups m) /\
  ((3 <=? dsq_version m) = false -> dsq_include_authorized_operations m = false).
#[export] Instance DescribeGroupsRequest_ok_dec m : Decision (DescribeGroupsRequest_ok m).
Proof. unfold DescribeGroupsRequest_ok. cbv zeta. apply _. Defined.
Definition DescribeGroupsRequest_initial (v : Z) : DescribeGroupsRequest :=
  mkDescribeGroupsRequest v [] false.
#[export] Hint Unfold DescribeGroupsRequest_encode DescribeGroupsRequest_decode DescribeGroupsRequest_wire DescribeGroupsRequest_ok DescribeGroupsRequest_initial : message.

Lemma DescribeGroupsRequest_emits m :
  DescribeGroupsRequest_ok m -> emits (pb_is_flexible m) (pb_encode m) 0 (DescribeGroupsRequest_wire m).
Proof. solve_emits m. Qed.
Lemma DescribeGroupsRequest_consumes m :
  DescribeGroupsRequest_ok m ->
  consumes (pb_is_flexible m) (pb_decode (DescribeGroupsRequest_initial (pb_version m)) (pb_version m)) (Ok m) (DescribeGroupsRequest_wire m).
Proof. solve_consumes m. Qed.
#[export] Instance DescribeGroupsRequest_format : WireFormat DescribeGroupsRequest := {
  wire := DescribeGroupsRequest_wire;
  wire_ok := DescribeGroupsRequest_ok;
  wire_initial := DescribeGroupsRequest_initial;
  wire_flexible _ _ := eq_refl;
  wire_encode := DescribeGroupsRequest_emits;
  wire_decode := DescribeGroupsRequest_consumes;
}.
(* coev_kafka/describe_groups_request.cpp DescribeGroupsRequest::set_version *)
Definition DescribeGroupsRequest_set_version (m : DescribeGroupsRequest) (v : Z) : DescribeGroupsRequest :=
  mkDescribeGroupsRequest v (dsq_groups m) (dsq_include_authorized_operations m).
#[export] Instance DescribeGroupsRequest_versioned : Versioned DescribeGroupsRequest := { set_version := DescribeGroupsRequest_set_version }.
#[export] Instance DescribeGroupsRequest_laws : VersionLaws DescribeGroupsRequest.
Proof. version_laws. Qed.

(* coev_kafka/list_groups_request.h:22-43 ListGroupsRequest *)
Record ListGroupsRequest := mkListGroupsRequest {
  lgq_version : Z; lgq_states_filter : list (list Z); lgq_types_filter : list (list Z) }.

(* coev_kafka/list_groups_request.cpp ListGroupsRequest::encode *)
Definition ListGroupsRequest_encode (m : ListGroupsRequest) : PE Z :=
  try when (4 <=? lgq_version m) (putStrings (lgq_states_filter m)) ;;;
  try when ((4 <=? lgq_version m) && (5 <=? lgq_version m)) (putStrings (lgq_types_filter m)) ;;;
  putEmptyTaggedFieldArray ;;;
  ret 0.

(* coev_kafka/list_groups_request.cpp ListGroupsRequest::decode *)
Definition ListGroupsRequest_decode (self : ListGroupsRequest) (version : Z) : PD ListGroupsRequest :=
  let! states_filter := readIf (4 <=? version) getStringArray (lgq_states_filter self) in
  let! types_filter := readIf ((4 <=? version) && (5 <=? version)) getStringArray (lgq_types_filter self) in
  let! _t := getEmptyTaggedFieldArray in
  ok (mkListGroupsRequest version states_filter types_filter).

(* coev_kafka/list_groups_request.cpp ListGroupsRequest::is_flexible_version *)
Definition ListGroupsRequest_is_flexible_version (ver : Z) : bool := 3 <=? ver.
(* coev_kafka/list_groups_request.cpp ListGroupsRequest::key..ListGroupsRequest::is_flexible *)
#[export] Instance ListGroupsRequest_body : protocol_body ListGroupsRequest := {
  pb_encode := ListGroupsRequest_encode;
  pb_decode := ListGroupsRequest_decode;
  pb_key _ := 16;
  pb_version := lgq_version;
  pb_header_version m := if 3 <=? lgq_version m then 2 else 1;
  pb_is_valid_version m := (0 <=? lgq_version m) && (lgq_version m <=? 5);
  pb_is_flexible m := ListGroupsRequest_is_flexible_version (lgq_version m);
  pb_is_flexible_version _ := ListGroupsRequest_is_flexible_version;
}.

Definition ListGroupsRequest_wire (m : ListGroupsRequest) : list Z :=
  let fl := pb_is_flexible m in
  w_when (4 <=? lgq_version m) (w_string_array fl (lgq_states_filter m)) ++
  w_when ((4 <=? lgq_version m) && (5 <=? lgq_version m)) (w_string_array fl (lgq_types_filter m)) ++
  w_tags fl.
Definition ListGroupsRequest_ok (m : ListGroupsRequest) : Prop :=
  let fl := pb_is_flexible m in
  strings_ok fl (lgq_states_filter m) /\
  ((4 <=? lgq_version m) = false -> lgq_states_filter m = []) /\
  strings_ok fl (lgq_types_filter m) /\
  (((4 <=? lgq_version m) && (5 <=? lgq_version m)) = false -> lgq_types_filter m = []).
#[export] Instance ListGroupsRequest_ok_dec m : Decision (ListGroupsRequest_ok m).
Proof. unfold ListGroupsRequest_ok. cbv zeta. apply _. Defined.
Definition ListGroupsRequest_initial (v : Z) : ListGroupsRequest :=
  mkListGroupsRequest v [] [].
#[export] Hint Unfold ListGroupsRequest_encode ListGroupsRequest_decode ListGroupsRequest_wire ListGroupsRequest_ok ListGroupsRequest_initial : message.

Lemma ListGroupsRequest_emits m :
  ListGroupsRequest_ok m -> emits (pb_is_flexible m) (pb_encode m) 0 (ListGroupsRequest_wire m).
Proof. solve_emits m. Qed.
Lemma ListGroupsRequest_consumes m :
  ListGroupsRequest_ok m ->
  consumes (pb_is_flexible m) (pb_decode (ListGroupsRequest_initial (pb_version m)) (pb_version m)) (Ok m) (ListGroupsRequest_wire m).
Proof. solve_consumes m. Qed.
#[export] Instance ListGroupsRequest_format : WireFormat ListGroupsRequest := {
  wire := ListGroupsRequest_wire;
  wire_ok := ListGroupsRequest_ok;
  wire_initial := ListGroupsRequest_initial;
  wire_flexible _ _ := eq_refl;
  wire_encode := ListGroupsRequest_emits;
  wire_decode := ListGroupsRequest_consumes;
}.
(* coev_kafka/list_groups_request.cpp ListGroupsRequest::set_version *)
Definition ListGroupsRequest_set_version (m : ListGroupsRequest) (v : Z) : ListGroupsRequest :=
  mkListGroupsRequest v (lgq_states_filter m) (lgq_types_filter m).
#[export] Instance ListGroupsRequest_versioned : Versioned ListGroupsRequest := { set_version := ListGroupsRequest_set_version }.
#[export] Instance ListGroupsRequest_laws : VersionLaws ListGroupsRequest.
Proof. version_laws. Qed.

(** ** Topics *)

(* coev_kafka/delete_topics_request.h:19-41 DeleteTopicsRequest *)
Record DeleteTopicsRequest := mkDeleteTopicsRequest {
  dtq_version : Z; dtq_topics : list (list Z); dtq_timeout : Z }.

(* coev_kafka/delete_topics_request.cpp DeleteTopicsRequest::encode *)
Definition DeleteTopicsRequest_encode (m : DeleteTopicsRequest) : PE Z :=
  try putStringArray (dtq_topics m) /! ErrEncodeError ;;;
  putDurationMs (dtq_timeout m) ;;;
  whenU (4 <=? dtq_version m) putEmptyTaggedFieldArray ;;;
  ret ErrNoError.

(* coev_kafka/delete_topics_request.cpp DeleteTopicsRequest::decode *)
Definition DeleteTopicsRequest_decode (self : DeleteTopicsRequest) (version : Z) : PD DeleteTopicsRequest :=
  let! topics := getStringArray /! ErrDecodeError in
  let! timeout := getDurationMs /! ErrDecodeError in
  let! _t := readIf (4 <=? version) getEmptyTaggedFieldArray tt /! ErrDecodeError in
  ok (mkDeleteTopicsRequest version topics timeout).

(* coev_kafka/delete_topics_request.cpp DeleteTopicsRequest::is_flexible_version *)
Definition DeleteTopicsRequest_is_flexible_version (ver : Z) : bool := 4 <=? ver.
(* coev_kafka/delete_topics_request.cpp DeleteTopicsRequest::key..DeleteTopicsRequest::is_valid_version *)
#[export] Instance DeleteTopicsRequest_body : protocol_body DeleteTopicsRequest := {
  pb_encode := DeleteTopicsRequest_encode;
  pb_decode := DeleteTopicsRequest_decode;
  pb_key _ := 20;
  pb_version := dtq_version;
  pb_header_version m := if 4 <=? dtq_version m then 2 else 1;
  pb_is_valid_version m := (0 <=? dtq_version m) && (dtq_version m <=? 4);
  pb_is_flexible m := DeleteTopicsRequest_is_flexible_version (dtq_version m);
  pb_is_flexible_version _ := DeleteTopicsRequest_is_flexible_version;
}.

Definition DeleteTopicsRequest_wire (m : DeleteTopicsRequest) : list Z :=
  let fl := pb_is_flexible m in
  w_string_array fl (dtq_topics m) ++ be 4 (dtq_timeout m) ++
  w_when (4 <=? dtq_version m) (w_tags fl).
Definition DeleteTopicsRequest_ok (m : DeleteTopicsRequest) : Prop :=
  let fl := pb_is_flexible m in
  string_array_ok fl (dtq_topics m) /\ in_s 32 (dtq_timeout m).
#[export] Instance DeleteTopicsRequest_ok_dec m : Decision (DeleteTopicsRequest_ok m).
Proof. unfold DeleteTopicsRequest_ok. cbv zeta. apply _. Defined.
Definition DeleteTopicsRequest_initial (v : Z) : DeleteTopicsRequest :=
  mkDeleteTopicsRequest v [] 0.
#[export] Hint Unfold DeleteTopicsRequest_encode DeleteTopicsRequest_decode DeleteTopicsRequest_wire DeleteTopicsRequest_ok DeleteTopicsRequest_initial : message.

Lemma DeleteTopicsRequest_emits m :
  DeleteTopicsRequest_ok m -> emits (pb_is_flexible m) (pb_encode m) 0 (DeleteTopicsRequest_wire m).
Proof. solve_emits m. Qed.
Lemma DeleteTopicsRequest_consumes m :
  DeleteTopicsRequest_ok m ->
  consumes (pb_is_flexible m) (pb_decode (DeleteTopicsRequest_initial (pb_version m)) (pb_version m)) (Ok m) (DeleteTopicsRequest_wire m).
Proof. solve_consumes m. Qed.
#[export] Instance DeleteTopicsRequest_format : WireFormat DeleteTopicsRequest := {
  wire := DeleteTopicsRequest_wire;
  wire_ok := DeleteTopicsRequest_ok;
  wire_initial := DeleteTopicsRequest_initial;
  wire_flexible _ _ := eq_refl;
  wire_encode := DeleteTopicsRequest_emits;
  wire_decode := DeleteTopicsRequest_consumes;
}.
(* coev_kafka/delete_topics_request.cpp DeleteTopicsRequest::set_version *)
Definition DeleteTopicsRequest_set_version (m : DeleteTopicsRequest) (v : Z) : DeleteTopicsRequest :=
  mkDeleteTopicsRequest v (dtq_topics m) (dtq_timeout m).
#[export] Instance DeleteTopicsRequest_versioned : Versioned DeleteTopicsRequest := { set_version := DeleteTopicsRequest_set_version }.
#[export] Instance DeleteTopicsRequest_laws : VersionLaws DeleteTopicsRequest.
Proof. version_laws. Qed.

(* coev_kafka/delete_topics_response.h:23-40 DeleteTopicsResponse *)
Record DeleteTopicsResponse := mkDeleteTopicsResponse {
  dts_version : Z; dts_throttle_time : Z; dts_topic_error_codes : list (list Z * Z) }.

(* coev_kafka/delete_topics_response.cpp DeleteTopicsResponse::encode *)
Definition DeleteTopicsResponse_encode (m : DeleteTopicsResponse) : PE Z :=
  whenU (1 <=? dts_version m) (putDurationMs (dts_throttle_time m)) ;;;
  try putArrayLength (to_i32 (Zlen (dts_topic_error_codes m))) /! ErrEncodeError ;;;
  try for_try (dts_topic_error_codes m) (fun kv =>
    try putString (fst kv) /! ErrEncodeError ;;; putInt16 (snd kv) ;;; putEmptyTaggedFieldArray ;;; ret 0) ;;;
  putEmptyTaggedFieldArray ;;;
  ret ErrNoError.

(* coev_kafka/delete_topics_response.cpp DeleteTopicsResponse::decode *)
Definition DeleteTopicsResponse_decode (self : DeleteTopicsResponse) (version : Z) : PD DeleteTopicsResponse :=
  let! throttle_time := readIf (1 <=? version) getDurationMs (dts_throttle_time self) /! ErrDecodeError in
  let! n := getArrayLength /! ErrDecodeError in
  let! topic_error_codes := read_map n (
    let! k := getString /! ErrDecodeError in let! v := getInt16 /! ErrDecodeError in let! _t := getEmptyTaggedFieldArray /! ErrDecodeError in ok (k, v)) in
  let! _t := getEmptyTaggedFieldArray /! ErrDecodeError in
  ok (mkDeleteTopicsResponse (if 1 <=? version then version else dts_version self) throttle_time topic_error_codes).

(* coev_kafka/delete_topics_response.cpp DeleteTopicsResponse::is_flexible_version *)
Definition DeleteTopicsResponse_is_flexible_version (ver : Z) : bool := 4 <=? ver.
(* coev_kafka/delete_topics_response.cpp DeleteTopicsResponse::key..DeleteTopicsResponse::is_valid_version *)
#[export] Instance DeleteTopicsResponse_body : protocol_body DeleteTopicsResponse := {
  pb_encode := DeleteTopicsResponse_encode;
  pb_decode := DeleteTopicsResponse_decode;
  pb_key _ := 20;
  pb_version := dts_version;
  pb_header_version m := if 4 <=? dts_version m then 1 else 0;
  pb_is_valid_version m := (0 <=? dts_version m) && (dts_version m <=? 4);
  pb_is_flexible m := DeleteTopicsResponse_is_flexible_version (dts_version m);
  pb_is_flexible_version _ := DeleteTopicsResponse_is_flexible_version;
}.

Definition DeleteTopicsResponse_wire (m : DeleteTopicsResponse) : list Z :=
  let fl := pb_is_flexible m in
  w_when (1 <=? dts_version m) (be 4 (dts_throttle_time m)) ++
  w_array_length fl (Zlen (dts_topic_error_codes m)) ++
  w_list (w_pair (w_string fl) (fun v => be 2 v ++ w_tags fl)) (dts_topic_error_codes m) ++
  w_tags fl.
Definition DeleteTopicsResponse_ok (m : DeleteTopicsResponse) : Prop :=
  let fl := pb_is_flexible m in
  in_s 32 (dts_throttle_time m) /\ ((1 <=? dts_version m) = false -> dts_throttle_time m = 0) /\
  array_fits fl (pair_ok (string_ok fl) (in_s 16)) (dts_topic_error_codes m) /\
  map_sorted (dts_topic_error_codes m).
#[export] Instance DeleteTopicsResponse_ok_dec m : Decision (DeleteTopicsResponse_ok m).
Proof. unfold DeleteTopicsResponse_ok. cbv zeta. apply _. Defined.
Definition DeleteTopicsResponse_initial (v : Z) : DeleteTopicsResponse :=
  mkDeleteTopicsResponse v 0 [].
#[export] Hint Unfold DeleteTopicsResponse_encode DeleteTopicsResponse_decode DeleteTopicsResponse_wire DeleteTopicsResponse_ok DeleteTopicsResponse_initial : message.

Lemma DeleteTopicsResponse_emits m :
  DeleteTopicsResponse_ok m -> emits (pb_is_flexible m) (pb_encode m) 0 (DeleteTopicsResponse_wire m).
Proof. solve_emits m. Qed.
Lemma DeleteTopicsResponse_consumes m :
  DeleteTopicsResponse_ok m ->
  consumes (pb_is_flexible m) (pb_decode (DeleteTopicsResponse_initial (pb_version m)) (pb_version m)) (Ok m) (DeleteTopicsResponse_wire m).
Proof. solve_consumes m. Qed.
#[export] Instance DeleteTopicsResponse_format : WireFormat DeleteTopicsResponse := {
  wire := DeleteTopicsResponse_wire;
  wire_ok := DeleteTopicsResponse_ok;
  wire_initial := DeleteTopicsResponse_initial;
  wire_flexible _ _ := eq_refl;
  wire_encode := DeleteTopicsResponse_emits;
  wire_decode := DeleteTopicsResponse_consumes;
}.
(* coev_kafka/delete_topics_response.cpp DeleteTopicsResponse::set_version *)
Definition DeleteTopicsResponse_set_version (m : DeleteTopicsResponse) (v : Z) : DeleteTopicsResponse :=
  mkDeleteTopicsResponse v (dts_throttle_time m) (dts_topic_error_codes m).
#[export] Instance DeleteTopicsResponse_versioned : Versioned DeleteTopicsResponse := { set_version := DeleteTopicsResponse_set_version }.
#[export] Instance DeleteTopicsResponse_laws : VersionLaws DeleteTopicsResponse.
Proof. version_laws. Qed.

(** ** Partitions *)

(** With a manual assignment the length is written as an array's and read as an [int32_t]. *)
(* coev_kafka/topic_partition.h:18-35 TopicPartition *)
Record TopicPartition := mkTopicPartition {
  tp_topic : list Z; tp_partition : Z; tp_count : Z; tp_assignment : list (list Z) }.

(* coev_kafka/topic_partition.cpp TopicPartition::encode *)
Definition TopicPartition_encode (m : TopicPartition) : PE Z :=
  putInt32 (tp_count m) ;;;
  if Zlen (tp_assignment m) =? 0 then putInt32 (-1) ;;; ret ErrNoError
  else
    try putArrayLength (to_i32 (Zlen (tp_assignment m))) /! ErrEncodeError ;;;
    try for_try (tp_assignment m) (fun assign => try putInt32Array assign /! ErrEncodeError ;;; ret 0) ;;;
    ret ErrNoError.

(* coev_kafka/topic_partition.cpp TopicPartition::decode *)
Definition TopicPartition_decode (self : TopicPartition) : PD TopicPartition :=
  let! count := getInt32 /! ErrDecodeError in
  let! n := getInt32 /! ErrDecodeError in
  if n <=? 0 then ok (mkTopicPartition (tp_topic self) (tp_partition self) count (tp_assignment self))
  else
    let! assignment := read_into [] n (tp_assignment self)
      (fun _ => let! assign := getInt32Array /! ErrDecodeError in ok assign) in
    ok (mkTopicPartition (tp_topic self) (tp_partition self) count assignment).

Definition TopicPartition_wire (fl : bool) (m : TopicPartition) : list Z :=
  be 4 (tp_count m) ++
  if Zlen (tp_assignment m) =? 0 then be 4 (-1)
  else w_array_length fl (Zlen (tp_assignment m)) ++ w_list (w_int32_array fl) (tp_assignment m).
Definition TopicPartition_ok (fl : bool) (m : TopicPartition) : Prop :=
  fl = false /\ tp_topic m = [] /\ tp_partition m = 0 /\ in_s 32 (tp_count m) /\
  array_fits fl (int32s_ok fl) (tp_assignment m).
#[export] Instance TopicPartition_ok_dec fl m : Decision (TopicPartition_ok fl m).
Proof. unfold TopicPartition_ok. apply _. Defined.
Lemma TopicPartition_emits fl m : TopicPartition_ok fl m -> emits fl (TopicPartition_encode m) 0 (TopicPartition_wire fl m).
Proof.
  unfold TopicPartition_ok, TopicPartition_encode, TopicPartition_wire. intros H. use_facts.
  eapply emits_seq; [apply emits_putInt32|]. destruct (Zlen (tp_assignment m) =? 0); emit_steps.
Qed.
Lemma TopicPartition_consumes fl m :
  TopicPartition_ok fl m -> consumes fl (TopicPartition_decode (mkTopicPartition [] 0 0 [])) (Ok m) (TopicPartition_wire fl m).
Proof.
  unfold TopicPartition_ok, TopicPartition_decode, TopicPartition_wire. intros (-> & Ht & Hp & Hc & H3). destruct m as [t p c l]. cbn in *. subst.
  eapply consumes_let_or; [by apply consumes_getInt32|]. destruct (Z.eqb_spec (Zlen l) 0) as [E|E].
  - assert (l = []) as -> by (apply Zlen_zero; lia).
    eapply consumes_last_or; [by apply consumes_getInt32|]. apply consumes_ret.
  - assert (0 < Zlen l < INT32_MAX) as Hl by (pose proof (Zlen_nonneg l); destruct H3 as [Ha _]; unfold array_ok, INT32_MAX in *; lia).
    change (w_array_length false (Zlen l)) with (be 4 (Zlen l)).
    eapply consumes_let_or; [apply consumes_getInt32; unfold in_s, INT32_MAX in *; lia|]. replace (Zlen l <=? 0) with false by lia.
    consume_steps.
Qed.
#[export] Hint Resolve TopicPartition_emits : emit.
#[export] Hint Resolve TopicPartition_consumes : consume.
#[global] Arguments TopicPartition_wire : simpl never.
#[global] Arguments TopicPartition_encode : simpl never.
#[global] Arguments TopicPartition_decode : simpl never.
#[global] Arguments TopicPartition_ok : simpl never.

(* coev_kafka/create_partitions_request.h:23-44 CreatePartitionsRequest *)
Record CreatePartitionsRequest := mkCreatePartitionsRequest {
  cpq_version : Z; cpq_topic_partitions : list (list Z * TopicPartition); cpq_timeout : Z;
  cpq_validate_only : bool }.

(* coev_kafka/create_partitions_request.cpp CreatePartitionsRequest::encode *)
Definition CreatePartitionsRequest_encode (m : CreatePartitionsRequest) : PE Z :=
  try putArrayLength (to_i32 (Zlen (cpq_topic_partitions m))) /! ErrEncodeError ;;;
  try for_try (cpq_topic_partitions m) (fun kv =>
    try putString (fst kv) /! ErrEncodeError ;;; try TopicPartition_encode (snd kv) /! ErrEncodeError ;;; ret 0) ;;;
  putInt32 (to_i32 (cpq_timeout m)) ;;;
  putBool (cpq_validate_only m) ;;;
  ret ErrNoError.

(* coev_kafka/create_partitions_request.cpp CreatePartitionsRequest::decode *)
Definition CreatePartitionsRequest_decode (self : CreatePartitionsRequest) (version : Z) : PD CreatePartitionsRequest :=
  let! n := getArrayLength /! ErrDecodeError in
  let! topic_partitions := read_map n (
    let! k := getString /! ErrDecodeError in let! v := TopicPartition_decode (mkTopicPartition [] 0 0 []) /! ErrDecodeError in ok (k, v)) in
  let! timeout := getDurationMs /! ErrDecodeError in
  let! validate_only := getBool /! ErrDecodeError in
  ok (mkCreatePartitionsRequest (cpq_version self) topic_partitions timeout validate_only).

(* coev_kafka/create_partitions_request.cpp CreatePartitionsRequest::key..CreatePartitionsRequest::is_valid_version *)
#[export] Instance CreatePartitionsRequest_body : protocol_body CreatePartitionsRequest := {
  pb_encode := CreatePartitionsRequest_encode;
  pb_decode := CreatePartitionsRequest_decode;
  pb_key _ := 37;
  pb_version := cpq_version;
  pb_header_version m := 1;
  pb_is_valid_version m := (0 <=? cpq_version m) && (cpq_version m <=? 3);
  pb_is_flexible _ := false;
  pb_is_flexible_version _ _ := false;
}.

Definition CreatePartitionsRequest_wire (m : CreatePartitionsRequest) : list Z :=
  let fl := pb_is_flexible m in
  w_array_length fl (Zlen (cpq_topic_partitions m)) ++
  w_list (w_pair (w_string fl) (TopicPartition_wire fl)) (cpq_topic_partitions m) ++
  be 4 (cpq_timeout m) ++ w_bool (cpq_validate_only m).
Definition CreatePartitionsRequest_ok (m : CreatePartitionsRequest) : Prop :=
  let fl := pb_is_flexible m in
  array_fits fl (pair_ok (string_ok fl) (TopicPartition_ok fl)) (cpq_topic_partitions m) /\
  map_sorted (cpq_topic_partitions m) /\ in_s 32 (cpq_timeout m).
#[export] Instance CreatePartitionsRequest_ok_dec m : Decision (CreatePartitionsRequest_ok m).
Proof. unfold CreatePartitionsRequest_ok. cbv zeta. apply _. Defined.
Definition CreatePartitionsRequest_initial (v : Z) : CreatePartitionsRequest :=
  mkCreatePartitionsRequest v [] 0 false.
#[export] Hint Unfold CreatePartitionsRequest_encode CreatePartitionsRequest_decode CreatePartitionsRequest_wire CreatePartitionsRequest_ok CreatePartitionsRequest_initial : message.

Lemma CreatePartitionsRequest_emits m :
  CreatePartitionsRequest_ok m -> emits (pb_is_flexible m) (pb_encode m) 0 (CreatePartitionsRequest_wire m).
Proof. solve_emits m. Qed.
Lemma CreatePartitionsRequest_consumes m :
  CreatePartitionsRequest_ok m ->
  consumes (pb_is_flexible m) (pb_decode (CreatePartitionsRequest_initial (pb_version m)) (pb_version m)) (Ok m) (CreatePartitionsRequest_wire m).
Proof. solve_consumes m. Qed.
#[export] Instance CreatePartitionsRequest_format : WireFormat CreatePartitionsRequest := {
  wire := CreatePartitionsRequest_wire;
  wire_ok := CreatePartitionsRequest_ok;
  wire_initial := CreatePartitionsRequest_initial;
  wire_flexible _ _ := eq_refl;
  wire_encode := CreatePartitionsRequest_emits;
  wire_decode := CreatePartitionsRequest_consumes;
}.
(* coev_kafka/create_partitions_request.cpp CreatePartitionsRequest::set_version *)
Definition CreatePartitionsRequest_set_version (m : CreatePartitionsRequest) (v : Z) : CreatePartitionsRequest :=
  mkCreatePartitionsRequest v (cpq_topic_partitions m) (cpq_timeout m) (cpq_validate_only m).
#[export] Instance CreatePartitionsRequest_versioned : Versioned CreatePartitionsRequest := { set_version := CreatePartitionsRequest_set_version }.
#[export] Instance CreatePartitionsRequest_laws : VersionLaws CreatePartitionsRequest.
Proof. version_laws. Qed.

(* coev_kafka/create_partitions_response.h:24-32 TopicPartitionError *)
Record TopicPartitionError := mkTopicPartitionError {
  tpe_err : Z; tpe_err_msg : list Z }.

(* coev_kafka/create_partitions_response.cpp TopicPartitionError::encode *)
Definition TopicPartitionError_encode (m : TopicPartitionError) : PE Z :=
  putKError (tpe_err m) ;;;
  try putNullableString (tpe_err_msg m) /! ErrEncodeError ;;;
  ret ErrNoError.

(* coev_kafka/create_partitions_response.cpp TopicPartitionError::decode *)
Definition TopicPartitionError_decode : PD TopicPartitionError :=
  let! err := getKError /! ErrEncodeError in
  let! err_msg := getNullableString /! ErrEncodeError in
  ok (mkTopicPartitionError err err_msg).

Definition TopicPartitionError_wire (fl : bool) (m : TopicPartitionError) : list Z :=
  be 2 (tpe_err m) ++ w_nullable_string fl (tpe_err_msg m).
Definition TopicPartitionError_ok (fl : bool) (m : TopicPartitionError) : Prop :=
  in_s 16 (tpe_err m) /\ string_ok fl (tpe_err_msg m).
#[export] Instance TopicPartitionError_ok_dec fl m : Decision (TopicPartitionError_ok fl m).
Proof. unfold TopicPartitionError_ok. apply _. Defined.
Lemma TopicPartitionError_emits fl m : TopicPartitionError_ok fl m -> emits fl (TopicPartitionError_encode m) 0 (TopicPartitionError_wire fl m).
Proof. unfold TopicPartitionError_ok, TopicPartitionError_encode, TopicPartitionError_wire. solve_emits m. Qed.
Lemma TopicPartitionError_consumes fl m : TopicPartitionError_ok fl m -> consumes fl TopicPartitionError_decode (Ok m) (TopicPartitionError_wire fl m).
Proof. unfold TopicPartitionError_ok, TopicPartitionError_decode, TopicPartitionError_wire. solve_consumes m. Qed.
#[export] Hint Resolve TopicPartitionError_emits : emit.
#[export] Hint Resolve TopicPartitionError_consumes : consume.
#[global] Arguments TopicPartitionError_wire : simpl never.
#[global] Arguments TopicPartitionError_encode : simpl never.
#[global] Arguments TopicPartitionError_decode : simpl never.
#[global] Arguments TopicPartitionError_ok : simpl never.

(* coev_kafka/create_partitions_response.h:34-49 CreatePartitionsResponse *)
Record CreatePartitionsResponse := mkCreatePartitionsResponse {
  cps_version : Z; cps_throttle_time : Z;
  cps_topic_partition_errors : list (list Z * TopicPartitionError) }.

(* coev_kafka/create_partitions_response.cpp CreatePartitionsResponse::encode *)
Definition CreatePartitionsResponse_encode (m : CreatePartitionsResponse) : PE Z :=
  putDurationMs (cps_throttle_time m) ;;;
  try putArrayLength (to_i32 (Zlen (cps_topic_partition_errors m))) /! ErrEncodeError ;;;
  try for_try (cps_topic_partition_errors m) (fun kv =>
    try putString (fst kv) /! ErrEncodeError ;;; try TopicPartitionError_encode (snd kv) /! ErrEncodeError ;;; ret 0) ;;;
  ret ErrNoError.

(* coev_kafka/create_partitions_response.cpp CreatePartitionsResponse::decode *)
Definition CreatePartitionsResponse_decode (self : CreatePartitionsResponse) (version : Z) : PD CreatePartitionsResponse :=
  let! throttle_time := getDurationMs /! ErrDecodeError in
  let! n := getArrayLength /! ErrDecodeError in
  let! topic_partition_errors := read_map n (
    let! k := getString /! ErrDecodeError in let! v := TopicPartitionError_decode /! ErrDecodeError in ok (k, v)) in
  ok (mkCreatePartitionsResponse (cps_version self) throttle_time topic_partition_errors).

(* coev_kafka/create_partitions_response.cpp CreatePartitionsResponse::key..CreatePartitionsResponse::is_valid_version *)
#[export] Instance CreatePartitionsResponse_body : protocol_body CreatePartitionsResponse := {
  pb_encode := CreatePartitionsResponse_encode;
  pb_decode := CreatePartitionsResponse_decode;
  pb_key _ := 37;
  pb_version := cps_version;
  pb_header_version m := 0;
  pb_is_valid_version m := (0 <=? cps_version m) && (cps_version m <=? 3);
  pb_is_flexible _ := false;
  pb_is_flexible_version _ _ := false;
}.

Definition CreatePartitionsResponse_wire (m : CreatePartitionsResponse) : list Z :=
  let fl := pb_is_flexible m in
  be 4 (cps_throttle_time m) ++ w_array_length fl (Zlen (cps_topic_partition_errors m)) ++
  w_list (w_pair (w_string fl) (TopicPartitionError_wire fl)) (cps_topic_partition_errors m).
Definition CreatePartitionsResponse_ok (m : CreatePartitionsResponse) : Prop :=
  let fl := pb_is_flexible m in
  in_s 32 (cps_throttle_time m) /\
  array_fits fl (pair_ok (string_ok fl) (TopicPartitionError_ok fl)) (cps_topic_partition_errors m) /\
  map_sorted (cps_topic_partition_errors m).
#[export] Instance CreatePartitionsResponse_ok_dec m : Decision (CreatePartitionsResponse_ok m).
Proof. unfold CreatePartitionsResponse_ok. cbv zeta. apply _. Defined.
Definition CreatePartitionsResponse_initial (v : Z) : CreatePartitionsResponse :=
  mkCreatePartitionsResponse v 0 [].
#[export] Hint Unfold CreatePartitionsResponse_encode CreatePartitionsResponse_decode CreatePartitionsResponse_wire CreatePartitionsResponse_ok CreatePartitionsResponse_initial : message.

Lemma CreatePartitionsResponse_emits m :
  CreatePartitionsResponse_ok m -> emits (pb_is_flexible m) (pb_encode m) 0 (CreatePartitionsResponse_wire m).
Proof. solve_emits m. Qed.
Lemma CreatePartitionsResponse_consumes m :
  CreatePartitionsResponse_ok m ->
  consumes (pb_is_flexible m) (pb_decode (CreatePartitionsResponse_initial (pb_version m)) (pb_version m)) (Ok m) (CreatePartitionsResponse_wire m).
Proof. solve_consumes m. Qed.
#[export] Instance CreatePartitionsResponse_format : WireFormat CreatePartitionsResponse := {
  wire := CreatePartitionsResponse_wire;
  wire_ok := CreatePartitionsResponse_ok;
  wire_initial := CreatePartitionsResponse_initial;
  wire_flexible _ _ := eq_refl;
  wire_encode := CreatePartitionsResponse_emits;
  wire_decode := CreatePartitionsResponse_consumes;
}.
(* coev_kafka/create_partitions_response.cpp CreatePartitionsResponse::set_version *)
Definition CreatePartitionsResponse_set_version (m : CreatePartitionsResponse) (v : Z) : CreatePartitionsResponse :=
  mkCreatePartitionsResponse v (cps_throttle_time m) (cps_topic_partition_errors m).
#[export] Instance CreatePartitionsResponse_versioned : Versioned CreatePartitionsResponse := { set_version := CreatePartitionsResponse_set_version }.
#[export] Instance CreatePartitionsResponse_laws : VersionLaws CreatePartitionsResponse.
Proof. version_laws. Qed.

(** ** Records: the sorted keys are the order of the maps *)

(* coev_kafka/delete_records_response.h:21-28 DeleteRecordsResponsePartition *)
Record DeleteRecordsResponsePartition := mkDeleteRecordsResponsePartition {
  drp_low_watermark : Z; drp_err : Z }.

(* coev_kafka/delete_records_response.cpp DeleteRecordsResponsePartition::encode *)
Definition DeleteRecordsResponsePartition_encode (m : DeleteRecordsResponsePartition) : PE Z :=
  putInt64 (drp_low_watermark m) ;;;
  putInt16 (drp_err m) ;;;
  ret ErrNoError.

(* coev_kafka/delete_records_response.cpp DeleteRecordsResponsePartition::decode *)
Definition DeleteRecordsResponsePartition_decode : PD DeleteRecordsResponsePartition :=
  let! low_watermark := getInt64 /! ErrEncodeError in
  let! err := getInt16 /! ErrEncodeError in
  ok (mkDeleteRecordsResponsePartition low_watermark err).

Definition DeleteRecordsResponsePartition_wire (fl : bool) (m : DeleteRecordsResponsePartition) : list Z :=
  be 8 (drp_low_watermark m) ++ be 2 (drp_err m).
Definition DeleteRecordsResponsePartition_ok (fl : bool) (m : DeleteRecordsResponsePartition) : Prop :=
  in_s 64 (drp_low_watermark m) /\ in_s 16 (drp_err m).
#[export] Instance DeleteRecordsResponsePartition_ok_dec fl m : Decision (DeleteRecordsResponsePartition_ok fl m).
Proof. unfold DeleteRecordsResponsePartition_ok. apply _. Defined.
Lemma DeleteRecordsResponsePartition_emits fl m : DeleteRecordsResponsePartition_ok fl m -> emits fl (DeleteRecordsResponsePartition_encode m) 0 (DeleteRecordsResponsePartition_wire fl m).
Proof. unfold DeleteRecordsResponsePartition_ok, DeleteRecordsResponsePartition_encode, DeleteRecordsResponsePartition_wire. solve_emits m. Qed.
Lemma DeleteRecordsResponsePartition_consumes fl m : DeleteRecordsResponsePartition_ok fl m -> consumes fl DeleteRecordsResponsePartition_decode (Ok m) (DeleteRecordsResponsePartition_wire fl m).
Proof. unfold DeleteRecordsResponsePartition_ok, DeleteRecordsResponsePartition_decode, DeleteRecordsResponsePartition_wire. solve_consumes m. Qed.
#[export] Hint Resolve DeleteRecordsResponsePartition_emits : emit.
#[export] Hint Resolve DeleteRecordsResponsePartition_consumes : consume.
#[global] Arguments DeleteRecordsResponsePartition_wire : simpl never.
#[global] Arguments DeleteRecordsResponsePartition_encode : simpl never.
#[global] Arguments DeleteRecordsResponsePartition_decode : simpl never.
#[global] Arguments DeleteRecordsResponsePartition_ok : simpl never.

(* coev_kafka/delete_records_response.h:30-38 DeleteRecordsResponseTopic *)
Record DeleteRecordsResponseTopic := mkDeleteRecordsResponseTopic {
  drt_partitions : list (Z * DeleteRecordsResponsePartition) }.

(* coev_kafka/delete_records_response.cpp DeleteRecordsResponseTopic::encode *)
Definition DeleteRecordsResponseTopic_encode (m : DeleteRecordsResponseTopic) : PE Z :=
  try putArrayLength (to_i32 (Zlen (drt_partitions m))) /! ErrEncodeError ;;;
  try for_try (drt_partitions m) (fun kv =>
    putInt32 (fst kv) ;;; try DeleteRecordsResponsePartition_encode (snd kv) /! ErrEncodeError ;;; ret 0) ;;;
  ret ErrNoError.

(* coev_kafka/delete_records_response.cpp DeleteRecordsResponseTopic::decode *)
Definition DeleteRecordsResponseTopic_decode : PD DeleteRecordsResponseTopic :=
  let! n := getArrayLength /! ErrEncodeError in
  let! partitions := read_map n (
    let! k := getInt32 /! ErrEncodeError in let! v := DeleteRecordsResponsePartition_decode /! ErrEncodeError in ok (k, v)) in
  ok (mkDeleteRecordsResponseTopic partitions).

Definition DeleteRecordsResponseTopic_wire (fl : bool) (m : DeleteRecordsResponseTopic) : list Z :=
  w_array_length fl (Zlen (drt_partitions m)) ++
  w_list (w_pair (be 4) (DeleteRecordsResponsePartition_wire fl)) (drt_partitions m).
Definition DeleteRecordsResponseTopic_ok (fl : bool) (m : DeleteRecordsResponseTopic) : Prop :=
  array_fits fl (pair_ok (in_s 32) (DeleteRecordsResponsePartition_ok fl)) (drt_partitions m) /\
  map_sorted (drt_partitions m).
#[export] Instance DeleteRecordsResponseTopic_ok_dec fl m : Decision (DeleteRecordsResponseTopic_ok fl m).
Proof. unfold DeleteRecordsResponseTopic_ok. apply _. Defined.
Lemma DeleteRecordsResponseTopic_emits fl m : DeleteRecordsResponseTopic_ok fl m -> emits fl (DeleteRecordsResponseTopic_encode m) 0 (DeleteRecordsResponseTopic_wire fl m).
Proof. unfold DeleteRecordsResponseTopic_ok, DeleteRecordsResponseTopic_encode, DeleteRecordsResponseTopic_wire. solve_emits m. Qed.
Lemma DeleteRecordsResponseTopic_consumes fl m : DeleteRecordsResponseTopic_ok fl m -> consumes fl DeleteRecordsResponseTopic_decode (Ok m) (DeleteRecordsResponseTopic_wire fl m).
Proof. unfold DeleteRecordsResponseTopic_ok, DeleteRecordsResponseTopic_decode, DeleteRecordsResponseTopic_wire. solve_consumes m. Qed.
#[export] Hint Resolve DeleteRecordsResponseTopic_emits : emit.
#[export] Hint Resolve DeleteRecordsResponseTopic_consumes : consume.
#[global] Arguments DeleteRecordsResponseTopic_wire : simpl never.
#[global] Arguments DeleteRecordsResponseTopic_encode : simpl never.
#[global] Arguments DeleteRecordsResponseTopic_decode : simpl never.
#[global] Arguments DeleteRecordsResponseTopic_ok : simpl never.

(* coev_kafka/delete_records_response.h:40-56 DeleteRecordsResponse *)
Record DeleteRecordsResponse := mkDeleteRecordsResponse {
  drs_version : Z; drs_throttle_time : Z; drs_topics : list (list Z * DeleteRecordsResponseTopic) }.

(* coev_kafka/delete_records_response.cpp DeleteRecordsResponse::encode *)
Definition DeleteRecordsResponse_encode (m : DeleteRecordsResponse) : PE Z :=
  putDurationMs (drs_throttle_time m) ;;;
  try putArrayLength (to_i32 (Zlen (drs_topics m))) /! ErrEncodeError ;;;
  try for_try (drs_topics m) (fun kv =>
    try putString (fst kv) /! ErrEncodeError ;;; try DeleteRecordsResponseTopic_encode (snd kv) /! ErrEncodeError ;;; ret 0) ;;;
  ret ErrNoError.

(* coev_kafka/delete_records_response.cpp DeleteRecordsResponse::decode *)
Definition DeleteRecordsResponse_decode (self : DeleteRecordsResponse) (version : Z) : PD DeleteRecordsResponse :=
  let! throttle_time := getDurationMs /! ErrDecodeError in
  let! n := getArrayLength /! ErrDecodeError in
  let! topics := read_map n (
    let! k := getString /! ErrDecodeError in let! v := DeleteRecordsResponseTopic_decode /! ErrDecodeError in ok (k, v)) in
  ok (mkDeleteRecordsResponse version throttle_time topics).

(* coev_kafka/delete_records_response.cpp DeleteRecordsResponse::key..DeleteRecordsResponse::is_valid_version *)
#[export] Instance DeleteRecordsResponse_body : protocol_body DeleteRecordsResponse := {
  pb_encode := DeleteRecordsResponse_encode;
  pb_decode := DeleteRecordsResponse_decode;
  pb_key _ := 21;
  pb_version := drs_version;
  pb_header_version m := 0;
  pb_is_valid_version m := (0 <=? drs_version m) && (drs_version m <=? 2);
  pb_is_flexible _ := false;
  pb_is_flexible_version _ _ := false;
}.

Definition DeleteRecordsResponse_wire (m : DeleteRecordsResponse) : list Z :=
  let fl := pb_is_flexible m in
  be 4 (drs_throttle_time m) ++ w_array_length fl (Zlen (drs_topics m)) ++
  w_list (w_pair (w_string fl) (DeleteRecordsResponseTopic_wire fl)) (drs_topics m).
Definition DeleteRecordsResponse_ok (m : DeleteRecordsResponse) : Prop :=
  let fl := pb_is_flexible m in
  in_s 32 (drs_throttle_time m) /\
  array_fits fl (pair_ok (string_ok fl) (DeleteRecordsResponseTopic_ok fl)) (drs_topics m) /\
  map_sorted (drs_topics m).
#[export] Instance DeleteRecordsResponse_ok_dec m : Decision (DeleteRecordsResponse_ok m).
Proof. unfold DeleteRecordsResponse_ok. cbv zeta. apply _. Defined.
Definition DeleteRecordsResponse_initial (v : Z) : DeleteRecordsResponse :=
  mkDeleteRecordsResponse v 0 [].
#[export] Hint Unfold DeleteRecordsResponse_encode DeleteRecordsResponse_decode DeleteRecordsResponse_wire DeleteRecordsResponse_ok DeleteRecordsResponse_initial : message.

Lemma DeleteRecordsResponse_emits m :
  DeleteRecordsResponse_ok m -> emits (pb_is_flexible m) (pb_encode m) 0 (DeleteRecordsResponse_wire m).
Proof. solve_emits m. Qed.
Lemma DeleteRecordsResponse_consumes m :
  DeleteRecordsResponse_ok m ->
  consumes (pb_is_flexible m) (pb_decode (DeleteRecordsResponse_initial (pb_version m)) (pb_version m)) (Ok m) (DeleteRecordsResponse_wire m).
Proof. solve_consumes m. Qed.
#[export] Instance DeleteRecordsResponse_format : WireFormat DeleteRecordsResponse := {
  wire := DeleteRecordsResponse_wire;
  wire_ok := DeleteRecordsResponse_ok;
  wire_initial := DeleteRecordsResponse_initial;
  wire_flexible _ _ := eq_refl;
  wire_encode := DeleteRecordsResponse_emits;
  wire_decode := DeleteRecordsResponse_consumes;
}.
(* coev_kafka/delete_records_response.cpp DeleteRecordsResponse::set_version *)
Definition DeleteRecordsResponse_set_version (m : DeleteRecordsResponse) (v : Z) : DeleteRecordsResponse :=
  mkDeleteRecordsResponse v (drs_throttle_time m) (drs_topics m).
#[export] Instance DeleteRecordsResponse_versioned : Versioned DeleteRecordsResponse := { set_version := DeleteRecordsResponse_set_version }.
#[export] Instance DeleteRecordsResponse_laws : VersionLaws DeleteRecordsResponse.
Proof. version_laws. Qed.

