(* ===== verification/ConfigMessages.v ===== *)
(** * Configurations and supported versions

    The bodies that read and change configurations (AlterConfigs, IncrementalAlterConfigs,
    DescribeConfigs), create topics and ask a broker for the versions it knows. *)
From Stdlib Require Import ZArith Lia Bool.
From stdpp Require Import base tactics list numbers.
From S2P Require Import Prelude Errors Wire Decoder Encoder Codec CodecEnc CodecDec EncoderDecoder.
From S2P Require Import StdMap MessageKit SetVersion.

(** ** AlterConfigs *)

(* coev_kafka/alter_configs_request.h:21-29 AlterConfigsResource *)
Record AlterConfigsResource := mkAlterConfigsResource {
  acr_type : Z; acr_name : list Z; acr_config_entries : list (list Z * list Z) }.

(* coev_kafka/alter_configs_request.cpp AlterConfigsResource::encode *)
Definition AlterConfigsResource_encode (m : AlterConfigsResource) : PE Z :=
  putInt8 (acr_type m) ;;;
  try putString (acr_name m) /! ErrEncodeError ;;;
  try putArrayLength (to_i32 (Zlen (acr_config_entries m))) /! ErrEncodeError ;;;
  try for_try (acr_config_entries m) (fun kv =>
    try putString (fst kv) /! ErrEncodeError ;;; try putNullableString (snd kv) /! ErrEncodeError ;;; ret 0) ;;;
  ret ErrNoError.

(* coev_kafka/alter_configs_request.cpp AlterConfigsResource::decode *)
Definition AlterConfigsResource_decode (self : AlterConfigsResource) : PD AlterConfigsResource :=
  let! type := getInt8 /! ErrDecodeError in
  let! name := getString /! ErrDecodeError in
  let! n := getArrayLength /! ErrDecodeError in
  let! config_entries := read_map_or n (acr_config_entries self) (
    let! k := getString /! ErrDecodeError in let! v := getNullableString /! ErrDecodeError in ok (k, v)) in
  ok (mkAlterConfigsResource type name config_entries).

Definition AlterConfigsResource_wire (fl : bool) (m : AlterConfigsResource) : list Z :=
  be 1 (acr_type m) ++ w_string fl (acr_name m) ++
  w_array_length fl (Zlen (acr_config_entries m)) ++
  w_list (w_pair (w_string fl) (w_nullable_string fl)) (acr_config_entries m).
Definition AlterConfigsResource_ok (fl : bool) (m : AlterConfigsResource) : Prop :=
  in_s 8 (acr_type m) /\ string_ok fl (acr_name m) /\
  array_fits fl (pair_ok (string_ok fl) (string_ok fl)) (acr_config_entries m) /\
  map_sorted (acr_config_entries m).
#[export] Instance AlterConfigsResource_ok_dec fl m : Decision (AlterConfigsResource_ok fl m).
Proof. unfold AlterConfigsResource_ok. apply _. Defined.
Lemma AlterConfigsResource_emits fl m : AlterConfigsResource_ok fl m -> emits fl (AlterConfigsResource_encode m) 0 (AlterConfigsResource_wire fl m).
Proof. unfold AlterConfigsResource_ok, AlterConfigsResource_encode, AlterConfigsResource_wire. solve_emits m. Qed.
Lemma AlterConfigsResource_consumes fl m : AlterConfigsResource_ok fl m -> consumes fl (AlterConfigsResource_decode (mkAlterConfigsResource 0 [] [])) (Ok m) (AlterConfigsResource_wire fl m).
Proof. unfold AlterConfigsResource_ok, AlterConfigsResource_decode, AlterConfigsResource_wire. solve_consumes m. Qed.
#[export] Hint Resolve AlterConfigsResource_emits : emit.
#[export] Hint Resolve AlterConfigsResource_consumes : consume.
#[global] Arguments AlterConfigsResource_wire : simpl never.
#[global] Arguments AlterConfigsResource_encode : simpl never.
#[global] Arguments AlterConfigsResource_decode : simpl never.
#[global] Arguments AlterConfigsResource_ok : simpl never.

(* coev_kafka/alter_configs_request.h:31-51 AlterConfigsRequest *)
Record AlterConfigsRequest := mkAlterConfigsRequest {
  acq_version : Z; acq_resources : list AlterConfigsResource; acq_validate_only : bool }.

(* coev_kafka/alter_configs_request.cpp AlterConfigsRequest::encode *)
Definition AlterConfigsRequest_encode (m : AlterConfigsRequest) : PE Z :=
  try putArrayLength (to_i32 (Zlen (acq_resources m))) /! ErrEncodeError ;;;
  try for_try (acq_resources m) (fun x => try AlterConfigsResource_encode x /! ErrEncodeError ;;; ret 0) ;;;
  putBool (acq_validate_only m) ;;;
  ret ErrNoError.

(* coev_kafka/alter_configs_request.cpp AlterConfigsRequest::decode *)
Definition AlterConfigsRequest_decode (self : AlterConfigsRequest) (version : Z) : PD AlterConfigsRequest :=
  let! n := getArrayLength /! ErrDecodeError in
  let! resources := read_into (mkAlterConfigsResource 0 [] []) n (acq_resources self) (fun x => let! y := AlterConfigsResource_decode x /! ErrDecodeError in ok y) in
  let! validate_only := getBool /! ErrDecodeError in
  ok (mkAlterConfigsRequest (acq_version self) resources validate_only).

(* coev_kafka/alter_configs_request.cpp AlterConfigsRequest::key..AlterConfigsRequest::is_valid_version *)
#[export] Instance AlterConfigsRequest_body : protocol_body AlterConfigsRequest := {
  pb_encode := AlterConfigsRequest_encode;
  pb_decode := AlterConfigsRequest_decode;
  pb_key _ := 33;
  pb_version := acq_version;
  pb_header_version m := 1;
  pb_is_valid_version m := (0 <=? acq_version m) && (acq_version m <=? 1);
  pb_is_flexible _ := false;
  pb_is_flexible_version _ _ := false;
}.

Definition AlterConfigsRequest_wire (m : AlterConfigsRequest) : list Z :=
  let fl := pb_is_flexible m in
  w_array_length fl (Zlen (acq_resources m)) ++
  w_list (AlterConfigsResource_wire fl) (acq_resources m) ++ w_bool (acq_validate_only m).
Definition AlterConfigsRequest_ok (m : AlterConfigsRequest) : Prop :=
  let fl := pb_is_flexible m in
  array_fits fl (AlterConfigsResource_ok fl) (acq_resources m).
#[export] Instance AlterConfigsRequest_ok_dec m : Decision (AlterConfigsRequest_ok m).
Proof. unfold AlterConfigsRequest_ok. cbv zeta. apply _. Defined.
Definition AlterConfigsRequest_initial (v : Z) : AlterConfigsRequest :=
  mkAlterConfigsRequest v [] false.
#[export] Hint Unfold AlterConfigsRequest_encode AlterConfigsRequest_decode AlterConfigsRequest_wire AlterConfigsRequest_ok AlterConfigsRequest_initial : message.

Lemma AlterConfigsRequest_emits m :
  AlterConfigsRequest_ok m -> emits (pb_is_flexible m) (pb_encode m) 0 (AlterConfigsRequest_wire m).
Proof. solve_emits m. Qed.
Lemma AlterConfigsRequest_consumes m :
  AlterConfigsRequest_ok m ->
  consumes (pb_is_flexible m) (pb_decode (AlterConfigsRequest_initial (pb_version m)) (pb_version m)) (Ok m) (AlterConfigsRequest_wire m).
Proof. solve_consumes m. Qed.
#[export] Instance AlterConfigsRequest_format : WireFormat AlterConfigsRequest := {
  wire := AlterConfigsRequest_wire;
  wire_ok := AlterConfigsRequest_ok;
  wire_initial := AlterConfigsRequest_initial;
  wire_flexible _ _ := eq_refl;
  wire_encode := AlterConfigsRequest_emits;
  wire_decode := AlterConfigsRequest_consumes;
}.
(* coev_kafka/alter_configs_request.cpp AlterConfigsRequest::set_version *)
Definition AlterConfigsRequest_set_version (m : AlterConfigsRequest) (v : Z) : AlterConfigsRequest :=
  mkAlterConfigsRequest v (acq_resources m) (acq_validate_only m).
#[export] Instance AlterConfigsRequest_versioned : Versioned AlterConfigsRequest := { set_version := AlterConfigsRequest_set_version }.
#[export] Instance AlterConfigsRequest_laws : VersionLaws AlterConfigsRequest.
Proof. version_laws. Qed.

(** The message is written as a string and read as one that can be null. *)
(* coev_kafka/alter_configs_response.h:26-35 AlterConfigsResourceResponse *)
Record AlterConfigsResourceResponse := mkAlterConfigsResourceResponse {
  acp_code : Z; acp_message : list Z; acp_type : Z; acp_name : list Z }.

(* coev_kafka/alter_configs_response.cpp AlterConfigsResourceResponse::encode *)
Definition AlterConfigsResourceResponse_encode (m : AlterConfigsResourceResponse) : PE Z :=
  putInt16 (acp_code m) ;;;
  try putString (acp_message m) /! ErrEncodeError ;;;
  putInt8 (acp_type m) ;;;
  try putString (acp_name m) /! ErrEncodeError ;;;
  putEmptyTaggedFieldArray ;;;
  ret ErrNoError.

(* coev_kafka/alter_configs_response.cpp AlterConfigsResourceResponse::decode *)
Definition AlterConfigsResourceResponse_decode : PD AlterConfigsResourceResponse :=
  let! code := getInt16 /! ErrDecodeError in
  let! message := getNullableString /! ErrDecodeError in
  let! type := getInt8 /! ErrDecodeError in
  let! name := getString /! ErrDecodeError in
  let! _t := getEmptyTaggedFieldArray in
  ok (mkAlterConfigsResourceResponse code message type name).

Definition AlterConfigsResourceResponse_wire (fl : bool) (m : AlterConfigsResourceResponse) : list Z :=
  be 2 (acp_code m) ++ w_string fl (acp_message m) ++ be 1 (acp_type m) ++
  w_string fl (acp_name m) ++ w_tags fl.
Definition AlterConfigsResourceResponse_ok (fl : bool) (m : AlterConfigsResourceResponse) : Prop :=
  in_s 16 (acp_code m) /\ string_ok fl (acp_message m) /\ in_s 8 (acp_type m) /\
  string_ok fl (acp_name m).
#[export] Instance AlterConfigsResourceResponse_ok_dec fl m : Decision (AlterConfigsResourceResponse_ok fl m).
Proof. unfold AlterConfigsResourceResponse_ok. apply _. Defined.
Lemma AlterConfigsResourceResponse_emits fl m : AlterConfigsResourceResponse_ok fl m -> emits fl (AlterConfigsResourceResponse_encode m) 0 (AlterConfigsResourceResponse_wire fl m).
Proof. unfold AlterConfigsResourceResponse_ok, AlterConfigsResourceResponse_encode, AlterConfigsResourceResponse_wire. solve_emits m. Qed.
Lemma AlterConfigsResourceResponse_consumes fl m : AlterConfigsResourceResponse_ok fl m -> consumes fl AlterConfigsResourceResponse_decode (Ok m) (AlterConfigsResourceResponse_wire fl m).
Proof. unfold AlterConfigsResourceResponse_ok, AlterConfigsResourceResponse_decode, AlterConfigsResourceResponse_wire. solve_consumes m. Qed.
#[export] Hint Resolve AlterConfigsResourceResponse_emits : emit.
#[export] Hint Resolve AlterConfigsResourceResponse_consumes : consume.
#[global] Arguments AlterConfigsResourceResponse_wire : simpl never.
#[global] Arguments AlterConfigsResourceResponse_encode : simpl never.
#[global] Arguments AlterConfigsResourceResponse_decode : simpl never.
#[global] Arguments AlterConfigsResourceResponse_ok : simpl never.

(* coev_kafka/alter_configs_response.h:37-57 AlterConfigsResponse *)
Record AlterConfigsResponse := mkAlterConfigsResponse {
  acs_version : Z; acs_throttle_time : Z; acs_resources : list AlterConfigsResourceResponse }.

(* coev_kafka/alter_configs_response.cpp AlterConfigsResponse::encode *)
Definition AlterConfigsResponse_encode (m : AlterConfigsResponse) : PE Z :=
  putDurationMs (acs_throttle_time m) ;;;
  try putArrayLength (to_i32 (Zlen (acs_resources m))) /! ErrEncodeError ;;;
  try for_try (acs_resources m) (fun x => try AlterConfigsResourceResponse_encode x /! ErrEncodeError ;;; ret 0) ;;;
  ret ErrNoError.

(* coev_kafka/alter_configs_response.cpp AlterConfigsResponse::decode *)
Definition AlterConfigsResponse_decode (self : AlterConfigsResponse) (version : Z) : PD AlterConfigsResponse :=
  let! throttle_time := getDurationMs /! ErrDecodeError in
  let! n := getArrayLength /! ErrDecodeError in
  let! resources := read_resized n (let! y := AlterConfigsResourceResponse_decode /! ErrDecodeError in ok y) in
  ok (mkAlterConfigsResponse (acs_version self) throttle_time resources).

(* coev_kafka/alter_configs_response.cpp AlterConfigsResponse::key..AlterConfigsResponse::is_valid_version *)
#[export] Instance AlterConfigsResponse_body : protocol_body AlterConfigsResponse := {
  pb_encode := AlterConfigsResponse_encode;
  pb_decode := AlterConfigsResponse_decode;
  pb_key _ := 33;
  pb_version := acs_version;
  pb_header_version m := 0;
  pb_is_valid_version m := (0 <=? acs_version m) && (acs_version m <=? 1);
  pb_is_flexible _ := false;
  pb_is_flexible_version _ _ := false;
}.

Definition AlterConfigsResponse_wire (m : AlterConfigsResponse) : list Z :=
  let fl := pb_is_flexible m in
  be 4 (acs_throttle_time m) ++ w_array_length fl (Zlen (acs_resources m)) ++
  w_list (AlterConfigsResourceResponse_wire fl) (acs_resources m).
Definition AlterConfigsResponse_ok (m : AlterConfigsResponse) : Prop :=
  let fl := pb_is_flexible m in
  in_s 32 (acs_throttle_time m) /\
  array_fits fl (AlterConfigsResourceResponse_ok fl) (acs_resources m).
#[export] Instance AlterConfigsResponse_ok_dec m : Decision (AlterConfigsResponse_ok m).
Proof. unfold AlterConfigsResponse_ok. cbv zeta. apply _. Defined.
Definition AlterConfigsResponse_initial (v : Z) : AlterConfigsResponse :=
  mkAlterConfigsResponse v 0 [].
#[export] Hint Unfold AlterConfigsResponse_encode AlterConfigsResponse_decode AlterConfigsResponse_wire AlterConfigsResponse_ok AlterConfigsResponse_initial : message.

Lemma AlterConfigsResponse_emits m :
  AlterConfigsResponse_ok m -> emits (pb_is_flexible m) (pb_encode m) 0 (AlterConfigsResponse_wire m).
Proof. solve_emits m. Qed.
Lemma AlterConfigsResponse_consumes m :
  AlterConfigsResponse_ok m ->
  consumes (pb_is_flexible m) (pb_decode (AlterConfigsResponse_initial (pb_version m)) (pb_version m)) (Ok m) (AlterConfigsResponse_wire m).
Proof. solve_consumes m. Qed.
#[export] Instance AlterConfigsResponse_format : WireFormat AlterConfigsResponse := {
  wire := AlterConfigsResponse_wire;
  wire_ok := AlterConfigsResponse_ok;
  wire_initial := AlterConfigsResponse_initial;
  wire_flexible _ _ := eq_refl;
  wire_encode := AlterConfigsResponse_emits;
  wire_decode := AlterConfigsResponse_consumes;
}.
(* coev_kafka/alter_configs_response.cpp AlterConfigsResponse::set_version *)
Definition AlterConfigsResponse_set_version (m : AlterConfigsResponse) (v : Z) : AlterConfigsResponse :=
  mkAlterConfigsResponse v (acs_throttle_time m) (acs_resources m).
#[export] Instance AlterConfigsResponse_versioned : Versioned AlterConfigsResponse := { set_version := AlterConfigsResponse_set_version }.
#[export] Instance AlterConfigsResponse_laws : VersionLaws AlterConfigsResponse.
Proof. version_laws. Qed.

(** ** IncrementalAlterConfigs *)

(* coev_kafka/incremental_alter_configs_request.h:25-32 IncrementalAlterConfigsEntry *)
Record IncrementalAlterConfigsEntry := mkIncrementalAlterConfigsEntry {
  iae_operation : Z; iae_value : list Z }.

(* coev_kafka/incremental_alter_configs_request.cpp IncrementalAlterConfigsEntry::encode *)
Definition IncrementalAlterConfigsEntry_encode (m : IncrementalAlterConfigsEntry) : PE Z :=
  putInt8 (iae_operation m) ;;;
  try putNullableString (iae_value m) ;;;
  putEmptyTaggedFieldArray ;;;
  ret 0.

(* coev_kafka/incremental_alter_configs_request.cpp IncrementalAlterConfigsEntry::decode *)
Definition IncrementalAlterConfigsEntry_decode : PD IncrementalAlterConfigsEntry :=
  let! operation := getInt8 in
  let! value := getNullableString in
  let! _t := getEmptyTaggedFieldArray in
  ok (mkIncrementalAlterConfigsEntry operation value).

Definition IncrementalAlterConfigsEntry_wire (fl : bool) (m : IncrementalAlterConfigsEntry) : list Z :=
  be 1 (iae_operation m) ++ w_nullable_string fl (iae_value m) ++ w_tags fl.
Definition IncrementalAlterConfigsEntry_ok (fl : bool) (m : IncrementalAlterConfigsEntry) : Prop :=
  in_s 8 (iae_operation m) /\ string_ok fl (iae_value m).
#[export] Instance IncrementalAlterConfigsEntry_ok_dec fl m : Decision (IncrementalAlterConfigsEntry_ok fl m).
Proof. unfold IncrementalAlterConfigsEntry_ok. apply _. Defined.
Lemma IncrementalAlterConfigsEntry_emits fl m : IncrementalAlterConfigsEntry_ok fl m -> emits fl (IncrementalAlterConfigsEntry_encode m) 0 (IncrementalAlterConfigsEntry_wire fl m).
Proof. unfold IncrementalAlterConfigsEntry_ok, IncrementalAlterConfigsEntry_encode, IncrementalAlterConfigsEntry_wire. solve_emits m. Qed.
Lemma IncrementalAlterConfigsEntry_consumes fl m : IncrementalAlterConfigsEntry_ok fl m -> consumes fl IncrementalAlterConfigsEntry_decode (Ok m) (IncrementalAlterConfigsEntry_wire fl m).
Proof. unfold IncrementalAlterConfigsEntry_ok, IncrementalAlterConfigsEntry_decode, IncrementalAlterConfigsEntry_wire. solve_consumes m. Qed.
#[export] Hint Resolve IncrementalAlterConfigsEntry_emits : emit.
#[export] Hint Resolve IncrementalAlterConfigsEntry_consumes : consume.
#[global] Arguments IncrementalAlterConfigsEntry_wire : simpl never.
#[global] Arguments IncrementalAlterConfigsEntry_encode : simpl never.
#[global] Arguments IncrementalAlterConfigsEntry_decode : simpl never.
#[global] Arguments IncrementalAlterConfigsEntry_ok : simpl never.

(* coev_kafka/incremental_alter_configs_request.h:34-43 IncrementalAlterConfigsResource *)
Record IncrementalAlterConfigsResource := mkIncrementalAlterConfigsResource {
  iar_type : Z; iar_name : list Z;
  iar_config_entries : list (list Z * IncrementalAlterConfigsEntry) }.

(* coev_kafka/incremental_alter_configs_request.cpp IncrementalAlterConfigsResource::encode *)
Definition IncrementalAlterConfigsResource_encode (m : IncrementalAlterConfigsResource) : PE Z :=
  putInt8 (iar_type m) ;;;
  try putString (iar_name m) ;;;
  try putArrayLength (to_i32 (Zlen (iar_config_entries m))) ;;;
  try for_try (iar_config_entries m) (fun kv =>
    try putString (fst kv) ;;; try IncrementalAlterConfigsEntry_encode (snd kv) ;;; ret 0) ;;;
  putEmptyTaggedFieldArray ;;;
  ret 0.

(* coev_kafka/incremental_alter_configs_request.cpp IncrementalAlterConfigsResource::decode *)
Definition IncrementalAlterConfigsResource_decode : PD IncrementalAlterConfigsResource :=
  let! type := getInt8 in
  let! name := getString in
  let! n := getArrayLength in
  let! config_entries := read_map_first n (
    let! k := getString in let! v := IncrementalAlterConfigsEntry_decode in ok (k, v)) in
  let! _t := getEmptyTaggedFieldArray in
  ok (mkIncrementalAlterConfigsResource type name config_entries).

Definition IncrementalAlterConfigsResource_wire (fl : bool) (m : IncrementalAlterConfigsResource) : list Z :=
  be 1 (iar_type m) ++ w_string fl (iar_name m) ++
  w_array_length fl (Zlen (iar_config_entries m)) ++
  w_list (w_pair (w_string fl) (IncrementalAlterConfigsEntry_wire fl)) (iar_config_entries m) ++
  w_tags fl.
Definition IncrementalAlterConfigsResource_ok (fl : bool) (m : IncrementalAlterConfigsResource) : Prop :=
  in_s 8 (iar_type m) /\ string_ok fl (iar_name m) /\
  array_fits fl (pair_ok (string_ok fl) (IncrementalAlterConfigsEntry_ok fl)) (iar_config_entries m) /\
  map_sorted (iar_config_entries m).
#[export] Instance IncrementalAlterConfigsResource_ok_dec fl m : Decision (IncrementalAlterConfigsResource_ok fl m).
Proof. unfold IncrementalAlterConfigsResource_ok. apply _. Defined.
Lemma IncrementalAlterConfigsResource_emits fl m : IncrementalAlterConfigsResource_ok fl m -> emits fl (IncrementalAlterConfigsResource_encode m) 0 (IncrementalAlterConfigsResource_wire fl m).
Proof. unfold IncrementalAlterConfigsResource_ok, IncrementalAlterConfigsResource_encode, IncrementalAlterConfigsResource_wire. solve_emits m. Qed.
Lemma IncrementalAlterConfigsResource_consumes fl m : IncrementalAlterConfigsResource_ok fl m -> consumes fl IncrementalAlterConfigsResource_decode (Ok m) (IncrementalAlterConfigsResource_wire fl m).
Proof. unfold IncrementalAlterConfigsResource_ok, IncrementalAlterConfigsResource_decode, IncrementalAlterConfigsResource_wire. solve_consumes m. Qed.
#[export] Hint Resolve IncrementalAlterConfigsResource_emits : emit.
#[export] Hint Resolve IncrementalAlterConfigsResource_consumes : consume.
#[global] Arguments IncrementalAlterConfigsResource_wire : simpl never.
#[global] Arguments IncrementalAlterConfigsResource_encode : simpl never.
#[global] Arguments IncrementalAlterConfigsResource_decode : simpl never.
#[global] Arguments IncrementalAlterConfigsResource_ok : simpl never.

(** [reserve] throws for a negative count as [resize] does. *)
(* coev_kafka/incremental_alter_configs_request.h:45-65 IncrementalAlterConfigsRequest *)
Record IncrementalAlterConfigsRequest := mkIncrementalAlterConfigsRequest {
  iaq_version : Z; iaq_resources : list IncrementalAlterConfigsResource; iaq_validate_only : bool }.

(* coev_kafka/incremental_alter_configs_request.cpp IncrementalAlterConfigsRequest::encode *)
Definition IncrementalAlterConfigsRequest_encode (m : IncrementalAlterConfigsRequest) : PE Z :=
  try putArrayLength (to_i32 (Zlen (iaq_resources m))) ;;;
  try for_try (iaq_resources m) IncrementalAlterConfigsResource_encode ;;;
  putBool (iaq_validate_only m) ;;;
  putEmptyTaggedFieldArray ;;;
  ret 0.

(* coev_kafka/incremental_alter_configs_request.cpp IncrementalAlterConfigsRequest::decode *)
Definition IncrementalAlterConfigsRequest_decode (self : IncrementalAlterConfigsRequest) (version : Z) : PD IncrementalAlterConfigsRequest :=
  let! n := getArrayLength in
  let! resources := read_resized n IncrementalAlterConfigsResource_decode in
  let! validate_only := getBool in
  let! _t := getEmptyTaggedFieldArray in
  ok (mkIncrementalAlterConfigsRequest version resources validate_only).

(* coev_kafka/incremental_alter_configs_request.cpp IncrementalAlterConfigsRequest::is_flexible_version *)
Definition IncrementalAlterConfigsRequest_is_flexible_version (ver : Z) : bool := 1 <=? ver.
(* coev_kafka/incremental_alter_configs_request.cpp IncrementalAlterConfigsRequest::key..IncrementalAlterConfigsRequest::is_flexible *)
#[export] Instance IncrementalAlterConfigsRequest_body : protocol_body IncrementalAlterConfigsRequest := {
  pb_encode := IncrementalAlterConfigsRequest_encode;
  pb_decode := IncrementalAlterConfigsRequest_decode;
  pb_key _ := 44;
  pb_version := iaq_version;
  pb_header_version m := if 1 <=? iaq_version m then 2 else 1;
  pb_is_valid_version m := (0 <=? iaq_version m) && (iaq_version m <=? 1);
  pb_is_flexible m := IncrementalAlterConfigsRequest_is_flexible_version (iaq_version m);
  pb_is_flexible_version _ := IncrementalAlterConfigsRequest_is_flexible_version;
}.

Definition IncrementalAlterConfigsRequest_wire (m : IncrementalAlterConfigsRequest) : list Z :=
  let fl := pb_is_flexible m in
  w_array_length fl (Zlen (iaq_resources m)) ++
  w_list (IncrementalAlterConfigsResource_wire fl) (iaq_resources m) ++
  w_bool (iaq_validate_only m) ++ w_tags fl.
Definition IncrementalAlterConfigsRequest_ok (m : IncrementalAlterConfigsRequest) : Prop :=
  let fl := pb_is_flexible m in
  array_fits fl (IncrementalAlterConfigsResource_ok fl) (iaq_resources m).
#[export] Instance IncrementalAlterConfigsRequest_ok_dec m : Decision (IncrementalAlterConfigsRequest_ok m).
Proof. unfold IncrementalAlterConfigsRequest_ok. cbv zeta. apply _. Defined.
Definition IncrementalAlterConfigsRequest_initial (v : Z) : IncrementalAlterConfigsRequest :=
  mkIncrementalAlterConfigsRequest v [] false.
#[export] Hint Unfold IncrementalAlterConfigsRequest_encode IncrementalAlterConfigsRequest_decode IncrementalAlterConfigsRequest_wire IncrementalAlterConfigsRequest_ok IncrementalAlterConfigsRequest_initial : message.

Lemma IncrementalAlterConfigsRequest_emits m :
  IncrementalAlterConfigsRequest_ok m -> emits (pb_is_flexible m) (pb_encode m) 0 (IncrementalAlterConfigsRequest_wire m).
Proof. solve_emits m. Qed.
Lemma IncrementalAlterConfigsRequest_consumes m :
  IncrementalAlterConfigsRequest_ok m ->
  consumes (pb_is_flexible m) (pb_decode (IncrementalAlterConfigsRequest_initial (pb_version m)) (pb_version m)) (Ok m) (IncrementalAlterConfigsRequest_wire m).
Proof. solve_consumes m. Qed.
#[export] Instance IncrementalAlterConfigsRequest_format : WireFormat IncrementalAlterConfigsRequest := {
  wire := IncrementalAlterConfigsRequest_wire;
  wire_ok := IncrementalAlterConfigsRequest_ok;
  wire_initial := IncrementalAlterConfigsRequest_initial;
  wire_flexible _ _ := eq_refl;
  wire_encode := IncrementalAlterConfigsRequest_emits;
  wire_decode := IncrementalAlterConfigsRequest_consumes;
}.
(* coev_kafka/incremental_alter_configs_request.cpp IncrementalAlterConfigsRequest::set_version *)
Definition IncrementalAlterConfigsRequest_set_version (m : IncrementalAlterConfigsRequest) (v : Z) : IncrementalAlterConfigsRequest :=
  mkIncrementalAlterConfigsRequest v (iaq_resources m) (iaq_validate_only m).
#[export] Instance IncrementalAlterConfigsRequest_versioned : Versioned IncrementalAlterConfigsRequest := { set_version := IncrementalAlterConfigsRequest_set_version }.
#[export] Instance IncrementalAlterConfigsRequest_laws : VersionLaws IncrementalAlterConfigsRequest.
Proof. version_laws. Qed.

(* coev_kafka/incremental_alter_configs_response.h:24-41 IncrementalAlterConfigsResponse *)
Record IncrementalAlterConfigsResponse := mkIncrementalAlterConfigsResponse {
  ias_version : Z; ias_throttle_time : Z; ias_resources : list AlterConfigsResourceResponse }.

(* coev_kafka/incremental_alter_configs_response.cpp IncrementalAlterConfigsResponse::encode *)
Definition IncrementalAlterConfigsResponse_encode (m : IncrementalAlterConfigsResponse) : PE Z :=
  putDurationMs (ias_throttle_time m) ;;;
  try putArrayLength (to_i32 (Zlen (ias_resources m))) ;;;
  try for_try (ias_resources m) AlterConfigsResourceResponse_encode ;;;
  whenU (1 <=? ias_version m) putEmptyTaggedFieldArray ;;;
  ret 0.

(* coev_kafka/incremental_alter_configs_response.cpp IncrementalAlterConfigsResponse::decode *)
Definition IncrementalAlterConfigsResponse_decode (self : IncrementalAlterConfigsResponse) (version : Z) : PD IncrementalAlterConfigsResponse :=
  let! throttle_time := getDurationMs in
  let! n := getArrayLength in
  let! resources := read_resized n AlterConfigsResourceResponse_decode in
  let! _t := readIf (1 <=? version) getEmptyTaggedFieldArray tt in
  ok (mkIncrementalAlterConfigsResponse version throttle_time resources).

(* coev_kafka/incremental_alter_configs_response.cpp IncrementalAlterConfigsResponse::is_flexible_version *)
Definition IncrementalAlterConfigsResponse_is_flexible_version (ver : Z) : bool := 1 <=? ver.
(* coev_kafka/incremental_alter_configs_response.cpp IncrementalAlterConfigsResponse::key..IncrementalAlterConfigsResponse::is_flexible *)
#[export] Instance IncrementalAlterConfigsResponse_body : protocol_body IncrementalAlterConfigsResponse := {
  pb_encode := IncrementalAlterConfigsResponse_encode;
  pb_decode := IncrementalAlterConfigsResponse_decode;
  pb_key _ := 44;
  pb_version := ias_version;
  pb_header_version m := if 1 <=? ias_version m then 1 else 0;
  pb_is_valid_version m := (0 <=? ias_version m) && (ias_version m <=? 1);
  pb_is_flexible m := IncrementalAlterConfigsResponse_is_flexible_version (ias_version m);
  pb_is_flexible_version _ := IncrementalAlterConfigsResponse_is_flexible_version;
}.

Definition IncrementalAlterConfigsResponse_wire (m : IncrementalAlterConfigsResponse) : list Z :=
  let fl := pb_is_flexible m in
  be 4 (ias_throttle_time m) ++ w_array_length fl (Zlen (ias_resources m)) ++
  w_list (AlterConfigsResourceResponse_wire fl) (ias_resources m) ++
  w_when (1 <=? ias_version m) (w_tags fl).
Definition IncrementalAlterConfigsResponse_ok (m : IncrementalAlterConfigsResponse) : Prop :=
  let fl := pb_is_flexible m in
  in_s 32 (ias_throttle_time m) /\
  array_fits fl (AlterConfigsResourceResponse_ok fl) (ias_resources m).
#[export] Instance IncrementalAlterConfigsResponse_ok_dec m : Decision (IncrementalAlterConfigsResponse_ok m).
Proof. unfold IncrementalAlterConfigsResponse_ok. cbv zeta. apply _. Defined.
Definition IncrementalAlterConfigsResponse_initial (v : Z) : IncrementalAlterConfigsResponse :=
  mkIncrementalAlterConfigsResponse v 0 [].
#[export] Hint Unfold IncrementalAlterConfigsResponse_encode IncrementalAlterConfigsResponse_decode IncrementalAlterConfigsResponse_wire IncrementalAlterConfigsResponse_ok IncrementalAlterConfigsResponse_initial : message.

Lemma IncrementalAlterConfigsResponse_emits m :
  IncrementalAlterConfigsResponse_ok m -> emits (pb_is_flexible m) (pb_encode m) 0 (IncrementalAlterConfigsResponse_wire m).
Proof. solve_emits m. Qed.
Lemma IncrementalAlterConfigsResponse_consumes m :
  IncrementalAlterConfigsResponse_ok m ->
  consumes (pb_is_flexible m) (pb_decode (IncrementalAlterConfigsResponse_initial (pb_version m)) (pb_version m)) (Ok m) (IncrementalAlterConfigsResponse_wire m).
Proof. solve_consumes m. Qed.
#[export] Instance IncrementalAlterConfigsResponse_format : WireFormat IncrementalAlterConfigsResponse := {
  wire := IncrementalAlterConfigsResponse_wire;
  wire_ok := IncrementalAlterConfigsResponse_ok;
  wire_initial := IncrementalAlterConfigsResponse_initial;
  wire_flexible _ _ := eq_refl;
  wire_encode := IncrementalAlterConfigsResponse_emits;
  wire_decode := IncrementalAlterConfigsResponse_consumes;
}.
(* coev_kafka/incremental_alter_configs_response.cpp IncrementalAlterConfigsResponse::set_version *)
Definition IncrementalAlterConfigsResponse_set_version (m : IncrementalAlterConfigsResponse) (v : Z) : IncrementalAlterConfigsResponse :=
  mkIncrementalAlterConfigsResponse v (ias_throttle_time m) (ias_resources m).
#[export] Instance IncrementalAlterConfigsResponse_versioned : Versioned IncrementalAlterConfigsResponse := { set_version := IncrementalAlterConfigsResponse_set_version }.
#[export] Instance IncrementalAlterConfigsResponse_laws : VersionLaws IncrementalAlterConfigsResponse.
Proof. version_laws. Qed.

(** ** DescribeConfigs *)

(** No names are written as a null array. *)
(* coev_kafka/config_resource_type.h:23-32 ConfigResource *)
Record ConfigResource := mkConfigResource {
  cor_type : Z; cor_name : list Z; cor_config_names : list (list Z) }.

(* coev_kafka/describe_configs_request.cpp:24-42 DescribeConfigsRequest::encode *)
Definition ConfigResource_encode (c : ConfigResource) : PE Z :=
  putInt8 (cor_type c) ;;;
  try putString (cor_name c) /! ErrEncodeError ;;;
  if Zlen (cor_config_names c) =? 0 then putInt32 (-1) ;;; ret 0
  else try putStringArray (cor_config_names c) /! ErrEncodeError ;;; ret 0.

(* coev_kafka/describe_configs_request.cpp:68-105 DescribeConfigsRequest::decode *)
Definition ConfigResource_decode (self : ConfigResource) : PD ConfigResource :=
  let! type := getInt8 /! ErrDecodeError in
  let! name := getString /! ErrDecodeError in
  let! conf_length := getArrayLength /! ErrDecodeError in
  if conf_length =? -1 then ok (mkConfigResource type name (cor_config_names self))
  else
    let! config_names := read_resized conf_length (let! s := getString /! ErrDecodeError in ok s) in
    ok (mkConfigResource type name config_names).

Definition ConfigResource_wire (fl : bool) (c : ConfigResource) : list Z :=
  be 1 (cor_type c) ++ w_string fl (cor_name c) ++
  if Zlen (cor_config_names c) =? 0 then be 4 (-1) else w_string_array fl (cor_config_names c).
Definition ConfigResource_ok (fl : bool) (c : ConfigResource) : Prop :=
  fl = false /\ in_s 8 (cor_type c) /\ string_ok fl (cor_name c) /\ strings_ok fl (cor_config_names c).
#[export] Instance ConfigResource_ok_dec fl m : Decision (ConfigResource_ok fl m).
Proof. unfold ConfigResource_ok. apply _. Defined.
Lemma ConfigResource_emits fl m : ConfigResource_ok fl m -> emits fl (ConfigResource_encode m) 0 (ConfigResource_wire fl m).
Proof.
  unfold ConfigResource_ok, ConfigResource_encode, ConfigResource_wire. intros (-> & Ht & Hn & Hs).
  eapply emits_seq; [apply emits_putInt8|]. eapply emits_check; [by apply emits_putString|].
  destruct (Zlen (cor_config_names m) =? 0); emit_steps.
Qed.
Lemma ConfigResource_consumes fl m :
  ConfigResource_ok fl m -> consumes fl (ConfigResource_decode (mkConfigResource 0 [] [])) (Ok m) (ConfigResource_wire fl m).
Proof.
  unfold ConfigResource_ok, ConfigResource_decode, ConfigResource_wire. intros (-> & Ht & Hn & Hl & Hs & Hf).
  destruct m as [t n l]. cbn in *. eapply consumes_let_or; [by apply consumes_getInt8|].
  eapply consumes_let_or; [by apply consumes_getString|]. destruct (Z.eqb_spec (Zlen l) 0) as [E|E].
  - assert (l = []) as -> by (apply Zlen_zero; lia). eapply consumes_last_or; [apply consumes_null_array|]. apply consumes_ret.
  - unfold w_string_array. pose proof (Zlen_nonneg l).
    eapply consumes_let_or; [by apply (consumes_getArrayLength false)|]. replace (Zlen l =? -1) with false by lia.
    eapply consumes_last; [|apply consumes_ret]. eapply (consumes_resized _ _ _ (string_ok false)); [done|].
    intros x Hx. consume_steps.
Qed.
#[export] Hint Resolve ConfigResource_emits : emit.
#[export] Hint Resolve ConfigResource_consumes : consume.
#[global] Arguments ConfigResource_wire : simpl never.
#[global] Arguments ConfigResource_encode : simpl never.
#[global] Arguments ConfigResource_decode : simpl never.
#[global] Arguments ConfigResource_ok : simpl never.

(* coev_kafka/describe_configs_request.h:22-40 DescribeConfigsRequest *)
Record DescribeConfigsRequest := mkDescribeConfigsRequest {
  dcq_version : Z; dcq_resources : list ConfigResource; dcq_include_synonyms : bool }.

(* coev_kafka/describe_configs_request.cpp DescribeConfigsRequest::encode *)
Definition DescribeConfigsRequest_encode (m : DescribeConfigsRequest) : PE Z :=
  try putArrayLength (to_i32 (Zlen (dcq_resources m))) /! ErrEncodeError ;;;
  try for_try (dcq_resources m) ConfigResource_encode ;;;
  whenU (1 <=? dcq_version m) (putBool (dcq_include_synonyms m)) ;;;
  ret ErrNoError.

(* coev_kafka/describe_configs_request.cpp DescribeConfigsRequest::decode *)
Definition DescribeConfigsRequest_decode (self : DescribeConfigsRequest) (version : Z) : PD DescribeConfigsRequest :=
  let! n := getArrayLength /! ErrDecodeError in
  let! resources := read_resized n (let! y := (ConfigResource_decode (mkConfigResource 0 [] [])) /! ErrDecodeError in ok y) in
  let! include_synonyms := readIf (1 <=? version) getBool (dcq_include_synonyms self) /! ErrDecodeError in
  ok (mkDescribeConfigsRequest version resources include_synonyms).

(* coev_kafka/describe_configs_request.cpp DescribeConfigsRequest::key..DescribeConfigsRequest::is_valid_version *)
#[export] Instance DescribeConfigsRequest_body : protocol_body DescribeConfigsRequest := {
  pb_encode := DescribeConfigsRequest_encode;
  pb_decode := DescribeConfigsRequest_decode;
  pb_key _ := 32;
  pb_version := dcq_version;
  pb_header_version m := 1;
  pb_is_valid_version m := (0 <=? dcq_version m) && (dcq_version m <=? 4);
  pb_is_flexible _ := false;
  pb_is_flexible_version _ _ := false;
}.

Definition DescribeConfigsRequest_wire (m : DescribeConfigsRequest) : list Z :=
  let fl := pb_is_flexible m in
  w_array_length fl (Zlen (dcq_resources m)) ++
  w_list (ConfigResource_wire fl) (dcq_resources m) ++
  w_when (1 <=? dcq_version m) (w_bool (dcq_include_synonyms m)).
Definition DescribeConfigsRequest_ok (m : DescribeConfigsRequest) : Prop :=
  let fl := pb_is_flexible m in
  array_fits fl (ConfigResource_ok fl) (dcq_resources m) /\
  ((1 <=? dcq_version m) = false -> dcq_include_synonyms m = false).
#[export] Instance DescribeConfigsRequest_ok_dec m : Decision (DescribeConfigsRequest_ok m).
Proof. unfold DescribeConfigsRequest_ok. cbv zeta. apply _. Defined.
Definition DescribeConfigsRequest_initial (v : Z) : DescribeConfigsRequest :=
  mkDescribeConfigsRequest v [] false.
#[export] Hint Unfold DescribeConfigsRequest_encode DescribeConfigsRequest_decode DescribeConfigsRequest_wire DescribeConfigsRequest_ok DescribeConfigsRequest_initial : message.

Lemma DescribeConfigsRequest_emits m :
  DescribeConfigsRequest_ok m -> emits (pb_is_flexible m) (pb_encode m) 0 (DescribeConfigsRequest_wire m).
Proof. solve_emits m. Qed.
Lemma DescribeConfigsRequest_consumes m :
  DescribeConfigsRequest_ok m ->
  consumes (pb_is_flexible m) (pb_decode (DescribeConfigsRequest_initial (pb_version m)) (pb_version m)) (Ok m) (DescribeConfigsRequest_wire m).
Proof. solve_consumes m. Qed.
#[export] Instance DescribeConfigsRequest_format : WireFormat DescribeConfigsRequest := {
  wire := DescribeConfigsRequest_wire;
  wire_ok := DescribeConfigsRequest_ok;
  wire_initial := DescribeConfigsRequest_initial;
  wire_flexible _ _ := eq_refl;
  wire_encode := DescribeConfigsRequest_emits;
  wire_decode := DescribeConfigsRequest_consumes;
}.
(* coev_kafka/describe_configs_request.cpp DescribeConfigsRequest::set_version *)
Definition DescribeConfigsRequest_set_version (m : DescribeConfigsRequest) (v : Z) : DescribeConfigsRequest :=
  mkDescribeConfigsRequest v (dcq_resources m) (dcq_include_synonyms m).
#[export] Instance DescribeConfigsRequest_versioned : Versioned DescribeConfigsRequest := { set_version := DescribeConfigsRequest_set_version }.
#[export] Instance DescribeConfigsRequest_laws : VersionLaws DescribeConfigsRequest.
Proof. version_laws. Qed.

(* coev_kafka/describe_configs_response.h:24-32 ConfigSynonym *)
Record ConfigSynonym := mkConfigSynonym {
  csy_config_name : list Z; csy_config_value : list Z; csy_source : Z }.

(* coev_kafka/describe_configs_response.cpp ConfigSynonym::encode *)
Definition ConfigSynonym_encode (m : ConfigSynonym) : PE Z :=
  try putString (csy_config_name m) /! ErrEncodeError ;;;
  try putString (csy_config_value m) /! ErrEncodeError ;;;
  putInt8 (csy_source m) ;;;
  ret ErrNoError.

(* coev_kafka/describe_configs_response.cpp ConfigSynonym::decode *)
Definition ConfigSynonym_decode : PD ConfigSynonym :=
  let! config_name := getString /! ErrDecodeError in
  let! config_value := getString /! ErrDecodeError in
  let! source := getInt8 /! ErrDecodeError in
  ok (mkConfigSynonym config_name config_value source).

Definition ConfigSynonym_wire (fl : bool) (m : ConfigSynonym) : list Z :=
  w_string fl (csy_config_name m) ++ w_string fl (csy_config_value m) ++ be 1 (csy_source m).
Definition ConfigSynonym_ok (fl : bool) (m : ConfigSynonym) : Prop :=
  string_ok fl (csy_config_name m) /\ string_ok fl (csy_config_value m) /\ in_s 8 (csy_source m).
#[export] Instance ConfigSynonym_ok_dec fl m : Decision (ConfigSynonym_ok fl m).
Proof. unfold ConfigSynonym_ok. apply _. Defined.
Lemma ConfigSynonym_emits fl m : ConfigSynonym_ok fl m -> emits fl (ConfigSynonym_encode m) 0 (ConfigSynonym_wire fl m).
Proof. unfold ConfigSynonym_ok, ConfigSynonym_encode, ConfigSynonym_wire. solve_emits m. Qed.
Lemma ConfigSynonym_consumes fl m : ConfigSynonym_ok fl m -> consumes fl ConfigSynonym_decode (Ok m) (ConfigSynonym_wire fl m).
Proof. unfold ConfigSynonym_ok, ConfigSynonym_decode, ConfigSynonym_wire. solve_consumes m. Qed.
#[export] Hint Resolve ConfigSynonym_emits : emit.
#[export] Hint Resolve ConfigSynonym_consumes : consume.
#[global] Arguments ConfigSynonym_wire : simpl never.
#[global] Arguments ConfigSynonym_encode : simpl never.
#[global] Arguments ConfigSynonym_decode : simpl never.
#[global] Arguments ConfigSynonym_ok : simpl never.

(** What a version does not carry is worked out from what it does. *)
(* coev_kafka/describe_configs_response.h:34-46 ConfigEntry *)
Record ConfigEntry := mkConfigEntry {
  cfe_name : list Z; cfe_value : list Z; cfe_read_only : bool; cfe_default : bool; cfe_sensitive : bool;
  cfe_source : Z; cfe_synonyms : list ConfigSynonym }.
(* coev_kafka/config_source.h:13-21 ConfigSource *)
Definition SourceUnknown : Z := 0.
Definition SourceDefault : Z := 5.

(* coev_kafka/describe_configs_response.cpp ConfigEntry::encode *)
Definition ConfigEntry_encode (version : Z) (m : ConfigEntry) : PE Z :=
  try putString (cfe_name m) /! ErrEncodeError ;;;
  try putString (cfe_value m) /! ErrEncodeError ;;;
  putBool (cfe_read_only m) ;;;
  if version =? 0 then putBool (cfe_default m) ;;; putBool (cfe_sensitive m) ;;; ret ErrNoError
  else
    putInt8 (cfe_source m) ;;;
    putBool (cfe_sensitive m) ;;;
    try putArrayLength (to_i32 (Zlen (cfe_synonyms m))) /! ErrEncodeError ;;;
    try for_try (cfe_synonyms m) (fun x => try ConfigSynonym_encode x /! ErrEncodeError ;;; ret 0) ;;;
    ret ErrNoError.

(* coev_kafka/describe_configs_response.cpp ConfigEntry::decode *)
Definition ConfigEntry_decode (version : Z) (self : ConfigEntry) : PD ConfigEntry :=
  let! name := getString /! ErrDecodeError in
  let! value := getString /! ErrDecodeError in
  let! read_only := getBool /! ErrDecodeError in
  let! ds :=
    (if version =? 0 then
       let! b := getBool /! ErrDecodeError in ok (b, if b then SourceDefault else SourceUnknown)
     else let! src := getInt8 /! ErrDecodeError in ok (src =? SourceDefault, src)) in
  let! sensitive := getBool /! ErrDecodeError in
  let! synonyms := readIf (0 <? version)
    (let! n := getArrayLength /! ErrDecodeError in
     read_resized n (let! y := ConfigSynonym_decode /! ErrDecodeError in ok y)) (cfe_synonyms self) in
  ok (mkConfigEntry name value read_only (fst ds) sensitive (snd ds) synonyms).

Definition ConfigEntry_wire (version : Z) (fl : bool) (m : ConfigEntry) : list Z :=
  w_string fl (cfe_name m) ++ w_string fl (cfe_value m) ++ w_bool (cfe_read_only m) ++
  (if version =? 0 then w_bool (cfe_default m) else be 1 (cfe_source m)) ++ w_bool (cfe_sensitive m) ++
  w_when (0 <? version)
    (w_array_length fl (Zlen (cfe_synonyms m)) ++ w_list (ConfigSynonym_wire fl) (cfe_synonyms m)).
Definition ConfigEntry_ok (version : Z) (fl : bool) (m : ConfigEntry) : Prop :=
  0 <= version /\ string_ok fl (cfe_name m) /\ string_ok fl (cfe_value m) /\
  array_fits fl (ConfigSynonym_ok fl) (cfe_synonyms m) /\ in_s 8 (cfe_source m) /\
  if version =? 0 then cfe_source m = (if cfe_default m then SourceDefault else SourceUnknown) /\ cfe_synonyms m = []
  else cfe_default m = (cfe_source m =? SourceDefault).
#[export] Instance ConfigEntry_ok_dec version fl m : Decision (ConfigEntry_ok version fl m).
Proof. unfold ConfigEntry_ok. destruct (version =? 0); apply _. Defined.
Lemma ConfigEntry_emits version fl m :
  ConfigEntry_ok version fl m -> emits fl (ConfigEntry_encode version m) 0 (ConfigEntry_wire version fl m).
Proof.
  unfold ConfigEntry_ok, ConfigEntry_encode, ConfigEntry_wire. intros (Hv & Hn & Hx & Hs & Hi & _).
  eapply emits_check; [by apply emits_putString|]. eapply emits_check; [by apply emits_putString|].
  eapply emits_seq; [by apply emits_putBool|]. destruct (Z.eqb_spec version 0) as [->|].
  - eapply emits_as; [emit_steps|]. by rewrite app_nil_r.
  - replace (0 <? version) with true by lia. emit_steps.
Qed.
Lemma ConfigEntry_consumes version fl m :
  ConfigEntry_ok version fl m ->
  consumes fl (ConfigEntry_decode version (mkConfigEntry [] [] false false false 0 [])) (Ok m) (ConfigEntry_wire version fl m).
Proof.
  unfold ConfigEntry_ok, ConfigEntry_decode, ConfigEntry_wire. intros (Hv & Hn & Hx & Hs & Hi & Hc).
  destruct m as [n x r d s src l]. cbn in *. do 2 (eapply consumes_let_or; [by apply consumes_getString|]).
  eapply consumes_let_or; [by apply consumes_getBool|].
  destruct (Z.eqb_spec version 0) as [->|]; use_facts; subst.
  - eapply (consumes_let _ _ _ (d, if d then SourceDefault else SourceUnknown));
      [eapply consumes_last_or; [by apply consumes_getBool|]; apply consumes_ret|].
    eapply consumes_let_or; [by apply consumes_getBool|]. apply consumes_ret.
  - eapply (consumes_let _ _ _ (src =? SourceDefault, src));
      [eapply consumes_last_or; [by apply consumes_getInt8|]; apply consumes_ret|].
    eapply consumes_let_or; [by apply consumes_getBool|]. replace (0 <? version) with true by lia. consume_steps.
Qed.
#[export] Hint Resolve ConfigEntry_emits : emit.
#[export] Hint Resolve ConfigEntry_consumes : consume.
#[global] Arguments ConfigEntry_wire : simpl never.
#[global] Arguments ConfigEntry_encode : simpl never.
#[global] Arguments ConfigEntry_decode : simpl never.
#[global] Arguments ConfigEntry_ok : simpl never.

(* coev_kafka/describe_configs_response.h:48-58 ResourceResponse *)
Record ResourceResponse := mkResourceResponse {
  rrs_code : Z; rrs_message : list Z; rrs_type : Z; rrs_name : list Z;
  rrs_configs : list ConfigEntry }.

(* coev_kafka/describe_configs_response.cpp ResourceResponse::encode *)
Definition ResourceResponse_encode (version : Z) (m : ResourceResponse) : PE Z :=
  putInt16 (rrs_code m) ;;;
  try putString (rrs_message m) /! ErrEncodeError ;;;
  putInt8 (rrs_type m) ;;;
  try putString (rrs_name m) /! ErrEncodeError ;;;
  try putArrayLength (to_i32 (Zlen (rrs_configs m))) /! ErrEncodeError ;;;
  try for_try (rrs_configs m) (fun x => try ConfigEntry_encode version x /! ErrEncodeError ;;; ret 0) ;;;
  ret ErrNoError.

(* coev_kafka/describe_configs_response.cpp ResourceResponse::decode *)
Definition ResourceResponse_decode (version : Z) : PD ResourceResponse :=
  let! code := getInt16 /! ErrDecodeError in
  let! message := getString /! ErrDecodeError in
  let! type := getInt8 /! ErrDecodeError in
  let! name := getString /! ErrDecodeError in
  let! n := getArrayLength /! ErrDecodeError in
  let! configs := read_resized n (let! y := (ConfigEntry_decode version (mkConfigEntry [] [] false false false 0 [])) /! ErrDecodeError in ok y) in
  ok (mkResourceResponse code message type name configs).

Definition ResourceResponse_wire (version : Z) (fl : bool) (m : ResourceResponse) : list Z :=
  be 2 (rrs_code m) ++ w_string fl (rrs_message m) ++ be 1 (rrs_type m) ++
  w_string fl (rrs_name m) ++ w_array_length fl (Zlen (rrs_configs m)) ++
  w_list (ConfigEntry_wire version fl) (rrs_configs m).
Definition ResourceResponse_ok (version : Z) (fl : bool) (m : ResourceResponse) : Prop :=
  in_s 16 (rrs_code m) /\ string_ok fl (rrs_message m) /\ in_s 8 (rrs_type m) /\
  string_ok fl (rrs_name m) /\ array_fits fl (ConfigEntry_ok version fl) (rrs_configs m).
#[export] Instance ResourceResponse_ok_dec version fl m : Decision (ResourceResponse_ok version fl m).
Proof. unfold ResourceResponse_ok. apply _. Defined.
Lemma ResourceResponse_emits version fl m : ResourceResponse_ok version fl m -> emits fl (ResourceResponse_encode version m) 0 (ResourceResponse_wire version fl m).
Proof. unfold ResourceResponse_ok, ResourceResponse_encode, ResourceResponse_wire. solve_emits m. Qed.
Lemma ResourceResponse_consumes version fl m : ResourceResponse_ok version fl m -> consumes fl (ResourceResponse_decode version) (Ok m) (ResourceResponse_wire version fl m).
Proof. unfold ResourceResponse_ok, ResourceResponse_decode, ResourceResponse_wire. solve_consumes m. Qed.
#[export] Hint Resolve ResourceResponse_emits : emit.
#[export] Hint Resolve ResourceResponse_consumes : consume.
#[global] Arguments ResourceResponse_wire : simpl never.
#[global] Arguments ResourceResponse_encode : simpl never.
#[global] Arguments ResourceResponse_decode : simpl never.
#[global] Arguments ResourceResponse_ok : simpl never.

(* coev_kafka/describe_configs_response.h:60-76 DescribeConfigsResponse *)
Record DescribeConfigsResponse := mkDescribeConfigsResponse {
  dcs_version : Z; dcs_throttle_time : Z; dcs_resources : list ResourceResponse }.

(* coev_kafka/describe_configs_response.cpp DescribeConfigsResponse::encode *)
Definition DescribeConfigsResponse_encode (m : DescribeConfigsResponse) : PE Z :=
  putDurationMs (dcs_throttle_time m) ;;;
  try putArrayLength (to_i32 (Zlen (dcs_resources m))) /! ErrEncodeError ;;;
  try for_try (dcs_resources m) (fun x => try ResourceResponse_encode (dcs_version m) x /! ErrEncodeError ;;; ret 0) ;;;
  ret ErrNoError.

(* coev_kafka/describe_configs_response.cpp DescribeConfigsResponse::decode *)
Definition DescribeConfigsResponse_decode (self : DescribeConfigsResponse) (version : Z) : PD DescribeConfigsResponse :=
  let! throttle_time := getDurationMs /! ErrDecodeError in
  let! n := getArrayLength /! ErrDecodeError in
  let! resources := read_resized n (let! y := ResourceResponse_decode version /! ErrDecodeError in ok y) in
  ok (mkDescribeConfigsResponse version throttle_time resources).

(* coev_kafka/describe_configs_response.cpp DescribeConfigsResponse::key..DescribeConfigsResponse::is_valid_version *)
#[export] Instance DescribeConfigsResponse_body : protocol_body DescribeConfigsResponse := {
  pb_encode := DescribeConfigsResponse_encode;
  pb_decode := DescribeConfigsResponse_decode;
  pb_key _ := 32;
  pb_version := dcs_version;
  pb_header_version m := 0;
  pb_is_valid_version m := (0 <=? dcs_version m) && (dcs_version m <=? 4);
  pb_is_flexible _ := false;
  pb_is_flexible_version _ _ := false;
}.

Definition DescribeConfigsResponse_wire (m : DescribeConfigsResponse) : list Z :=
  let fl := pb_is_flexible m in
  be 4 (dcs_throttle_time m) ++ w_array_length fl (Zlen (dcs_resources m)) ++
  w_list (ResourceResponse_wire (dcs_version m) fl) (dcs_resources m).
Definition DescribeConfigsResponse_ok (m : DescribeConfigsResponse) : Prop :=
  let fl := pb_is_flexible m in
  in_s 32 (dcs_throttle_time m) /\
  array_fits fl (ResourceResponse_ok (dcs_version m) fl) (dcs_resources m).
#[export] Instance DescribeConfigsResponse_ok_dec m : Decision (DescribeConfigsResponse_ok m).
Proof. unfold DescribeConfigsResponse_ok. cbv zeta. apply _. Defined.
Definition DescribeConfigsResponse_initial (v : Z) : DescribeConfigsResponse :=
  mkDescribeConfigsResponse v 0 [].
#[export] Hint Unfold DescribeConfigsResponse_encode DescribeConfigsResponse_decode DescribeConfigsResponse_wire DescribeConfigsResponse_ok DescribeConfigsResponse_initial : message.

Lemma DescribeConfigsResponse_emits m :
  DescribeConfigsResponse_ok m -> emits (pb_is_flexible m) (pb_encode m) 0 (DescribeConfigsResponse_wire m).
Proof. solve_emits m. Qed.
Lemma DescribeConfigsResponse_consumes m :
  DescribeConfigsResponse_ok m ->
  consumes (pb_is_flexible m) (pb_decode (DescribeConfigsResponse_initial (pb_version m)) (pb_version m)) (Ok m) (DescribeConfigsResponse_wire m).
Proof. solve_consumes m. Qed.
#[export] Instance DescribeConfigsResponse_format : WireFormat DescribeConfigsResponse := {
  wire := DescribeConfigsResponse_wire;
  wire_ok := DescribeConfigsResponse_ok;
  wire_initial := DescribeConfigsResponse_initial;
  wire_flexible _ _ := eq_refl;
  wire_encode := DescribeConfigsResponse_emits;
  wire_decode := DescribeConfigsResponse_consumes;
}.
(* coev_kafka/describe_configs_response.cpp DescribeConfigsResponse::set_version *)
Definition DescribeConfigsResponse_set_version (m : DescribeConfigsResponse) (v : Z) : DescribeConfigsResponse :=
  mkDescribeConfigsResponse v (dcs_throttle_time m) (dcs_resources m).
#[export] Instance DescribeConfigsResponse_versioned : Versioned DescribeConfigsResponse := { set_version := DescribeConfigsResponse_set_version }.
#[export] Instance DescribeConfigsResponse_laws : VersionLaws DescribeConfigsResponse.
Proof. version_laws. Qed.

(** ** CreateTopics *)

(* coev_kafka/create_topics_request.h:22-32 TopicDetail *)
Record TopicDetail := mkTopicDetail {
  tdt_num_partitions : Z; tdt_replication_factor : Z; tdt_replica_assignment : list (Z * list Z);
  tdt_config_entries : list (list Z * list Z) }.

(* coev_kafka/create_topics_request.cpp TopicDetail::encode *)
Definition TopicDetail_encode (m : TopicDetail) : PE Z :=
  putInt32 (tdt_num_partitions m) ;;;
  putInt16 (tdt_replication_factor m) ;;;
  try putArrayLength (to_i32 (Zlen (tdt_replica_assignment m))) /! ErrEncodeError ;;;
  try for_try (tdt_replica_assignment m) (fun kv =>
    putInt32 (fst kv) ;;; try putInt32Array (snd kv) /! ErrEncodeError ;;; putEmptyTaggedFieldArray ;;; ret 0) ;;;
  try putArrayLength (to_i32 (Zlen (tdt_config_entries m))) /! ErrEncodeError ;;;
  try for_try (tdt_config_entries m) (fun kv =>
    try putString (fst kv) /! ErrEncodeError ;;; try putNullableString (snd kv) /! ErrEncodeError ;;; putEmptyTaggedFieldArray ;;; ret 0) ;;;
  putEmptyTaggedFieldArray ;;;
  ret ErrNoError.

(* coev_kafka/create_topics_request.cpp TopicDetail::decode *)
Definition TopicDetail_decode (self : TopicDetail) : PD TopicDetail :=
  let! num_partitions := getInt32 /! ErrDecodeError in
  let! replication_factor := getInt16 /! ErrDecodeError in
  let! n := getArrayLength /! ErrDecodeError in
  let! replica_assignment := read_map_or n (tdt_replica_assignment self) (
    let! k := getInt32 /! ErrDecodeError in let! v := getInt32Array /! ErrDecodeError in let! _t := getEmptyTaggedFieldArray /! ErrDecodeError in ok (k, v)) in
  let! n := getArrayLength /! ErrDecodeError in
  let! config_entries := read_map_or n (tdt_config_entries self) (
    let! k := getString /! ErrDecodeError in let! v := getNullableString /! ErrDecodeError in let! _t := getEmptyTaggedFieldArray /! ErrDecodeError in ok (k, v)) in
  let! _t := getEmptyTaggedFieldArray in
  ok (mkTopicDetail num_partitions replication_factor replica_assignment config_entries).

Definition TopicDetail_wire (fl : bool) (m : TopicDetail) : list Z :=
  be 4 (tdt_num_partitions m) ++ be 2 (tdt_replication_factor m) ++
  w_array_length fl (Zlen (tdt_replica_assignment m)) ++
  w_list (w_pair (be 4) (fun v => w_int32_array fl v ++ w_tags fl)) (tdt_replica_assignment m) ++
  w_array_length fl (Zlen (tdt_config_entries m)) ++
  w_list (w_pair (w_string fl) (fun v => w_nullable_string fl v ++ w_tags fl)) (tdt_config_entries m) ++
  w_tags fl.
Definition TopicDetail_ok (fl : bool) (m : TopicDetail) : Prop :=
  in_s 32 (tdt_num_partitions m) /\ in_s 16 (tdt_replication_factor m) /\
  array_fits fl (pair_ok (in_s 32) (int32s_ok fl)) (tdt_replica_assignment m) /\
  map_sorted (tdt_replica_assignment m) /\
  array_fits fl (pair_ok (string_ok fl) (string_ok fl)) (tdt_config_entries m) /\
  map_sorted (tdt_config_entries m).
#[export] Instance TopicDetail_ok_dec fl m : Decision (TopicDetail_ok fl m).
Proof. unfold TopicDetail_ok. apply _. Defined.
Lemma TopicDetail_emits fl m : TopicDetail_ok fl m -> emits fl (TopicDetail_encode m) 0 (TopicDetail_wire fl m).
Proof. unfold TopicDetail_ok, TopicDetail_encode, TopicDetail_wire. solve_emits m. Qed.
Lemma TopicDetail_consumes fl m : TopicDetail_ok fl m -> consumes fl (TopicDetail_decode (mkTopicDetail 0 0 [] [])) (Ok m) (TopicDetail_wire fl m).
Proof. unfold TopicDetail_ok, TopicDetail_decode, TopicDetail_wire. solve_consumes m. Qed.
#[export] Hint Resolve TopicDetail_emits : emit.
#[export] Hint Resolve TopicDetail_consumes : consume.
#[global] Arguments TopicDetail_wire : simpl never.
#[global] Arguments TopicDetail_encode : simpl never.
#[global] Arguments TopicDetail_decode : simpl never.
#[global] Arguments TopicDetail_ok : simpl never.

(* coev_kafka/create_topics_request.h:34-60 CreateTopicsRequest *)
Record CreateTopicsRequest := mkCreateTopicsRequest {
  ctq_version : Z; ctq_topic_details : list (list Z * TopicDetail); ctq_timeout : Z;
  ctq_validate_only : bool }.

(* coev_kafka/create_topics_request.cpp CreateTopicsRequest::encode *)
Definition CreateTopicsRequest_encode (m : CreateTopicsRequest) : PE Z :=
  try putArrayLength (to_i32 (Zlen (ctq_topic_details m))) /! ErrEncodeError ;;;
  try for_try (ctq_topic_details m) (fun kv =>
    try putString (fst kv) /! ErrEncodeError ;;; try TopicDetail_encode (snd kv) /! ErrEncodeError ;;; ret 0) ;;;
  putDurationMs (ctq_timeout m) ;;;
  whenU (1 <=? ctq_version m) (putBool (ctq_validate_only m)) ;;;
  putEmptyTaggedFieldArray ;;;
  ret ErrNoError.

(* coev_kafka/create_topics_request.cpp CreateTopicsRequest::decode *)
Definition CreateTopicsRequest_decode (self : CreateTopicsRequest) (version : Z) : PD CreateTopicsRequest :=
  let! n := getArrayLength /! ErrDecodeError in
  let! topic_details := read_map_at (mkTopicDetail 0 0 [] []) (Z.to_nat n) (let! k := getString /! ErrDecodeError in ok k)
    (fun v => let! v := TopicDetail_decode v /! ErrDecodeError in ok v) [] in
  let! timeout := getDurationMs /! ErrDecodeError in
  let! validate_only := readIf (1 <=? version) getBool (ctq_validate_only self) /! ErrDecodeError in
  let! _t := getEmptyTaggedFieldArray in
  ok (mkCreateTopicsRequest (if 1 <=? version then version else ctq_version self) topic_details timeout validate_only).

(* coev_kafka/create_topics_request.cpp CreateTopicsRequest::is_flexible_version *)
Definition CreateTopicsRequest_is_flexible_version (ver : Z) : bool := 5 <=? ver.
(* coev_kafka/create_topics_request.cpp CreateTopicsRequest::key..CreateTopicsRequest::is_valid_version *)
#[export] Instance CreateTopicsRequest_body : protocol_body CreateTopicsRequest := {
  pb_encode := CreateTopicsRequest_encode;
  pb_decode := CreateTopicsRequest_decode;
  pb_key _ := 19;
  pb_version := ctq_version;
  pb_header_version m := if 5 <=? ctq_version m then 2 else 1;
  pb_is_valid_version m := (0 <=? ctq_version m) && (ctq_version m <=? 6);
  pb_is_flexible m := CreateTopicsRequest_is_flexible_version (ctq_version m);
  pb_is_flexible_version _ := CreateTopicsRequest_is_flexible_version;
}.

Definition CreateTopicsRequest_wire (m : CreateTopicsRequest) : list Z :=
  let fl := pb_is_flexible m in
  w_array_length fl (Zlen (ctq_topic_details m)) ++
  w_list (w_pair (w_string fl) (TopicDetail_wire fl)) (ctq_topic_details m) ++
  be 4 (ctq_timeout m) ++ w_when (1 <=? ctq_version m) (w_bool (ctq_validate_only m)) ++ w_tags fl.
Definition CreateTopicsRequest_ok (m : CreateTopicsRequest) : Prop :=
  let fl := pb_is_flexible m in
  array_fits fl (pair_ok (string_ok fl) (TopicDetail_ok fl)) (ctq_topic_details m) /\
  map_sorted (ctq_topic_details m) /\ in_s 32 (ctq_timeout m) /\
  ((1 <=? ctq_version m) = false -> ctq_validate_only m = false).
#[export] Instance CreateTopicsRequest_ok_dec m : Decision (CreateTopicsRequest_ok m).
Proof. unfold CreateTopicsRequest_ok. cbv zeta. apply _. Defined.
Definition CreateTopicsRequest_initial (v : Z) : CreateTopicsRequest :=
  mkCreateTopicsRequest v [] 0 false.
#[export] Hint Unfold CreateTopicsRequest_encode CreateTopicsRequest_decode CreateTopicsRequest_wire CreateTopicsRequest_ok CreateTopicsRequest_initial : message.

Lemma CreateTopicsRequest_emits m :
  CreateTopicsRequest_ok m -> emits (pb_is_flexible m) (pb_encode m) 0 (CreateTopicsRequest_wire m).
Proof. solve_emits m. Qed.
Lemma CreateTopicsRequest_consumes m :
  CreateTopicsRequest_ok m ->
  consumes (pb_is_flexible m) (pb_decode (CreateTopicsRequest_initial (pb_version m)) (pb_version m)) (Ok m) (CreateTopicsRequest_wire m).
Proof. solve_consumes m. Qed.
#[export] Instance CreateTopicsRequest_format : WireFormat CreateTopicsRequest := {
  wire := CreateTopicsRequest_wire;
  wire_ok := CreateTopicsRequest_ok;
  wire_initial := CreateTopicsRequest_initial;
  wire_flexible _ _ := eq_refl;
  wire_encode := CreateTopicsRequest_emits;
  wire_decode := CreateTopicsRequest_consumes;
}.
(* coev_kafka/create_topics_request.cpp CreateTopicsRequest::set_version *)
Definition CreateTopicsRequest_set_version (m : CreateTopicsRequest) (v : Z) : CreateTopicsRequest :=
  mkCreateTopicsRequest v (ctq_topic_details m) (ctq_timeout m) (ctq_validate_only m).
#[export] Instance CreateTopicsRequest_versioned : Versioned CreateTopicsRequest := { set_version := CreateTopicsRequest_set_version }.
#[export] Instance CreateTopicsRequest_laws : VersionLaws CreateTopicsRequest.
Proof. version_laws. Qed.

(** ** ApiVersions *)

(* coev_kafka/config.h:52-53 defaultClientSoftwareName *)
Definition defaultClientSoftwareName : list Z := [99; 111; 101; 118].
Definition defaultClientSoftwareVersion : list Z := [100; 101; 118].
Definition or_default (s d : list Z) : list Z := if empty s then d else s.
(** An empty name is replaced, by [encode] in the object too, whose names are mutable. *)
(* coev_kafka/api_versions_request.h:20-41 ApiVersionsRequest *)
Record ApiVersionsRequest := mkApiVersionsRequest {
  avq_version : Z; avq_client_software_name : list Z; avq_client_software_version : list Z }.

(* coev_kafka/api_versions_request.cpp ApiVersionsRequest::encode *)
Definition ApiVersionsRequest_encode (m : ApiVersionsRequest) : PE Z :=
  try when (3 <=? avq_version m) (try putString (or_default (avq_client_software_name m) defaultClientSoftwareName) /! ErrEncodeError ;;; ret 0) ;;;
  try when (3 <=? avq_version m) (try putString (or_default (avq_client_software_version m) defaultClientSoftwareVersion) /! ErrEncodeError ;;; ret 0) ;;;
  whenU (3 <=? avq_version m) putEmptyTaggedFieldArray ;;;
  ret ErrNoError.

(* coev_kafka/api_versions_request.cpp ApiVersionsRequest::decode *)
Definition ApiVersionsRequest_decode (self : ApiVersionsRequest) (version : Z) : PD ApiVersionsRequest :=
  let! client_software_name := readIf (3 <=? version) getString (avq_client_software_name self) /! ErrDecodeError in
  let! client_software_version := readIf (3 <=? version) getString (avq_client_software_version self) /! ErrDecodeError in
  let! _t := getEmptyTaggedFieldArray in
  ok (mkApiVersionsRequest version client_software_name client_software_version).

(* coev_kafka/api_versions_request.cpp ApiVersionsRequest::is_flexible_version *)
Definition ApiVersionsRequest_is_flexible_version (ver : Z) : bool := 3 <=? ver.
(* coev_kafka/api_versions_request.cpp ApiVersionsRequest::key..ApiVersionsRequest::is_flexible *)
#[export] Instance ApiVersionsRequest_body : protocol_body ApiVersionsRequest := {
  pb_encode := ApiVersionsRequest_encode;
  pb_decode := ApiVersionsRequest_decode;
  pb_key _ := 18;
  pb_version := avq_version;
  pb_header_version m := if 3 <=? avq_version m then 2 else 1;
  pb_is_valid_version m := (0 <=? avq_version m) && (avq_version m <=? 3);
  pb_is_flexible m := ApiVersionsRequest_is_flexible_version (avq_version m);
  pb_is_flexible_version _ := ApiVersionsRequest_is_flexible_version;
}.

Definition ApiVersionsRequest_wire (m : ApiVersionsRequest) : list Z :=
  let fl := pb_is_flexible m in
  w_when (3 <=? avq_version m) (w_string fl (avq_client_software_name m)) ++
  w_when (3 <=? avq_version m) (w_string fl (avq_client_software_version m)) ++ w_tags fl.
Definition ApiVersionsRequest_ok (m : ApiVersionsRequest) : Prop :=
  let fl := pb_is_flexible m in
  string_ok fl (avq_client_software_name m) /\ avq_client_software_name m <> [] /\
  ((3 <=? avq_version m) = false -> avq_client_software_name m = defaultClientSoftwareName) /\
  string_ok fl (avq_client_software_version m) /\ avq_client_software_version m <> [] /\
  ((3 <=? avq_version m) = false -> avq_client_software_version m = defaultClientSoftwareVersion).
#[export] Instance ApiVersionsRequest_ok_dec m : Decision (ApiVersionsRequest_ok m).
Proof. unfold ApiVersionsRequest_ok. cbv zeta. apply _. Defined.
Definition ApiVersionsRequest_initial (v : Z) : ApiVersionsRequest :=
  mkApiVersionsRequest v defaultClientSoftwareName defaultClientSoftwareVersion.
#[export] Hint Unfold ApiVersionsRequest_encode ApiVersionsRequest_decode ApiVersionsRequest_wire ApiVersionsRequest_ok ApiVersionsRequest_initial : message.

Lemma ApiVersionsRequest_emits m :
  ApiVersionsRequest_ok m -> emits (pb_is_flexible m) (pb_encode m) 0 (ApiVersionsRequest_wire m).
Proof.
  destruct m as [v n s]. unfold ApiVersionsRequest_ok, ApiVersionsRequest_wire.
  cbn [pb_is_flexible pb_encode ApiVersionsRequest_body avq_version avq_client_software_name avq_client_software_version].
  intros H. unfold ApiVersionsRequest_encode, ApiVersionsRequest_is_flexible_version, or_default in *.
  cbn [avq_version avq_client_software_name avq_client_software_version].
  destruct (3 <=? v); use_facts; [rewrite !empty_false by done|]; cbn [when whenU w_when]; emit_steps.
Qed.
Lemma ApiVersionsRequest_consumes m :
  ApiVersionsRequest_ok m ->
  consumes (pb_is_flexible m) (pb_decode (ApiVersionsRequest_initial (pb_version m)) (pb_version m)) (Ok m) (ApiVersionsRequest_wire m).
Proof.
  destruct m as [v n s]. unfold ApiVersionsRequest_ok, ApiVersionsRequest_wire.
  cbn [pb_is_flexible pb_decode pb_version ApiVersionsRequest_body avq_version avq_client_software_name avq_client_software_version].
  intros H. unfold ApiVersionsRequest_decode, ApiVersionsRequest_initial, ApiVersionsRequest_is_flexible_version in *.
  destruct (3 <=? v); use_facts; consume_steps.
Qed.
#[export] Instance ApiVersionsRequest_format : WireFormat ApiVersionsRequest := {
  wire := ApiVersionsRequest_wire;
  wire_ok := ApiVersionsRequest_ok;
  wire_initial := ApiVersionsRequest_initial;
  wire_flexible _ _ := eq_refl;
  wire_encode := ApiVersionsRequest_emits;
  wire_decode := ApiVersionsRequest_consumes;
}.
(* coev_kafka/api_versions_request.cpp ApiVersionsRequest::set_version *)
Definition ApiVersionsRequest_set_version (m : ApiVersionsRequest) (v : Z) : ApiVersionsRequest :=
  if 3 <=? v then
    mkApiVersionsRequest v (or_default (avq_client_software_name m) defaultClientSoftwareName)
      (or_default (avq_client_software_version m) defaultClientSoftwareVersion)
  else mkApiVersionsRequest v (avq_client_software_name m) (avq_client_software_version m).
#[export] Instance ApiVersionsRequest_versioned : Versioned ApiVersionsRequest := { set_version := ApiVersionsRequest_set_version }.
#[export] Instance ApiVersionsRequest_laws : VersionLaws ApiVersionsRequest.
Proof.
  split.
  - intros v0 v. cbn. unfold ApiVersionsRequest_set_version. by destruct (3 <=? v).
  - intros x v. cbn. unfold ApiVersionsRequest_set_version. by destruct (3 <=? v).
  - intros x y E. cbn in *. by rewrite E.
Qed.

(* coev_kafka/api_versions_response.h:21-30 ApiVersionsResponseKey *)
Record ApiVersionsResponseKey := mkApiVersionsResponseKey {
  avk_version : Z; avk_api_key : Z; avk_min_version : Z; avk_max_version : Z }.

(* coev_kafka/api_versions_response.cpp ApiVersionsResponseKey::encode *)
Definition ApiVersionsResponseKey_encode (version : Z) (m : ApiVersionsResponseKey) : PE Z :=
  putInt16 (avk_api_key m) ;;;
  putInt16 (avk_min_version m) ;;;
  putInt16 (avk_max_version m) ;;;
  whenU (3 <=? version) putEmptyTaggedFieldArray ;;;
  ret ErrNoError.

(* coev_kafka/api_versions_response.cpp ApiVersionsResponseKey::decode *)
Definition ApiVersionsResponseKey_decode (version : Z) (self : ApiVersionsResponseKey) : PD ApiVersionsResponseKey :=
  let! api_key := getInt16 /! ErrDecodeError in
  let! min_version := getInt16 /! ErrDecodeError in
  let! max_version := getInt16 /! ErrDecodeError in
  let! _t := readIf (3 <=? version) getEmptyTaggedFieldArray tt /! ErrDecodeError in
  ok (mkApiVersionsResponseKey (avk_version self) api_key min_version max_version).

Definition ApiVersionsResponseKey_wire (version : Z) (fl : bool) (m : ApiVersionsResponseKey) : list Z :=
  be 2 (avk_api_key m) ++ be 2 (avk_min_version m) ++ be 2 (avk_max_version m) ++
  w_when (3 <=? version) (w_tags fl).
Definition ApiVersionsResponseKey_ok (version : Z) (fl : bool) (m : ApiVersionsResponseKey) : Prop :=
  avk_version m = 0 /\ in_s 16 (avk_api_key m) /\ in_s 16 (avk_min_version m) /\
  in_s 16 (avk_max_version m).
#[export] Instance ApiVersionsResponseKey_ok_dec version fl m : Decision (ApiVersionsResponseKey_ok version fl m).
Proof. unfold ApiVersionsResponseKey_ok. apply _. Defined.
Lemma ApiVersionsResponseKey_emits version fl m : ApiVersionsResponseKey_ok version fl m -> emits fl (ApiVersionsResponseKey_encode version m) 0 (ApiVersionsResponseKey_wire version fl m).
Proof. unfold ApiVersionsResponseKey_ok, ApiVersionsResponseKey_encode, ApiVersionsResponseKey_wire. solve_emits m. Qed.
Lemma ApiVersionsResponseKey_consumes version fl m : ApiVersionsResponseKey_ok version fl m -> consumes fl (ApiVersionsResponseKey_decode version (mkApiVersionsResponseKey 0 0 0 0)) (Ok m) (ApiVersionsResponseKey_wire version fl m).
Proof. unfold ApiVersionsResponseKey_ok, ApiVersionsResponseKey_decode, ApiVersionsResponseKey_wire. solve_consumes m. Qed.
#[export] Hint Resolve ApiVersionsResponseKey_emits : emit.
#[export] Hint Resolve ApiVersionsResponseKey_consumes : consume.
#[global] Arguments ApiVersionsResponseKey_wire : simpl never.
#[global] Arguments ApiVersionsResponseKey_encode : simpl never.
#[global] Arguments ApiVersionsResponseKey_decode : simpl never.
#[global] Arguments ApiVersionsResponseKey_ok : simpl never.

(** A broker that does not know the version answers in version 0: the decoder leaves the
    flexible context, if it is in one. *)
(* coev_kafka/api_versions_response.cpp ApiVersionsResponse::downgrade_flexible_decoder *)
Definition downgrade_flexible_decoder : M packet_decoder unit := fun pd =>
  (if 0 <? pd_flexible pd then pd_pop_flexible else ret tt) pd.
(* coev_kafka/api_versions_response.h:32-58 ApiVersionsResponse *)
Record ApiVersionsResponse := mkApiVersionsResponse {
  avs_version : Z; avs_code : Z; avs_api_keys : list ApiVersionsResponseKey; avs_throttle_time : Z }.

(* coev_kafka/api_versions_response.cpp ApiVersionsResponse::encode *)
Definition ApiVersionsResponse_encode (m : ApiVersionsResponse) : PE Z :=
  putInt16 (avs_code m) ;;;
  try putArrayLength (to_i32 (Zlen (avs_api_keys m))) /! ErrEncodeError ;;;
  try for_try (avs_api_keys m) (fun x => try ApiVersionsResponseKey_encode (avs_version m) x /! ErrEncodeError ;;; ret 0) ;;;
  whenU (1 <=? avs_version m) (putDurationMs (avs_throttle_time m)) ;;;
  whenU (3 <=? avs_version m) putEmptyTaggedFieldArray ;;;
  ret ErrNoError.

(* coev_kafka/api_versions_response.cpp ApiVersionsResponse::decode *)
Definition ApiVersionsResponse_decode (self : ApiVersionsResponse) (version : Z) : PD ApiVersionsResponse :=
  let! code := getInt16 /! ErrDecodeError in
  let unsupported := code =? ErrUnsupportedVersion in
  let version := if unsupported then 0 else version in
  (if unsupported then downgrade_flexible_decoder else ret tt) ;;;
  let! n := getArrayLength /! ErrDecodeError in
  let! api_keys := read_into (mkApiVersionsResponseKey 0 0 0 0) n (avs_api_keys self)
    (fun x => let! y := ApiVersionsResponseKey_decode version x /! ErrDecodeError in ok y) in
  let! throttle_time := readIf (1 <=? version) getDurationMs (avs_throttle_time self) /! ErrDecodeError in
  let! _t := readIf (3 <=? version) getEmptyTaggedFieldArray tt /! ErrDecodeError in
  ok (mkApiVersionsResponse version code api_keys throttle_time).

(* coev_kafka/api_versions_response.cpp ApiVersionsResponse::is_flexible_version *)
Definition ApiVersionsResponse_is_flexible_version (ver : Z) : bool := 3 <=? ver.
(* coev_kafka/api_versions_response.cpp ApiVersionsResponse::key..ApiVersionsResponse::is_flexible *)
#[export] Instance ApiVersionsResponse_body : protocol_body ApiVersionsResponse := {
  pb_encode := ApiVersionsResponse_encode;
  pb_decode := ApiVersionsResponse_decode;
  pb_key _ := 18;
  pb_version := avs_version;
  pb_header_version m := 0;
  pb_is_valid_version m := (0 <=? avs_version m) && (avs_version m <=? 3);
  pb_is_flexible m := ApiVersionsResponse_is_flexible_version (avs_version m);
  pb_is_flexible_version _ := ApiVersionsResponse_is_flexible_version;
}.

Definition ApiVersionsResponse_wire (m : ApiVersionsResponse) : list Z :=
  let fl := pb_is_flexible m in
  be 2 (avs_code m) ++ w_array_length fl (Zlen (avs_api_keys m)) ++
  w_list (ApiVersionsResponseKey_wire (avs_version m) fl) (avs_api_keys m) ++
  w_when (1 <=? avs_version m) (be 4 (avs_throttle_time m)) ++
  w_when (3 <=? avs_version m) (w_tags fl).
Definition ApiVersionsResponse_ok (m : ApiVersionsResponse) : Prop :=
  let fl := pb_is_flexible m in
  (avs_code m = ErrUnsupportedVersion -> avs_version m = 0) /\ in_s 16 (avs_code m) /\
  array_fits fl (ApiVersionsResponseKey_ok (avs_version m) fl) (avs_api_keys m) /\
  in_s 32 (avs_throttle_time m) /\ ((1 <=? avs_version m) = false -> avs_throttle_time m = 0).
#[export] Instance ApiVersionsResponse_ok_dec m : Decision (ApiVersionsResponse_ok m).
Proof. unfold ApiVersionsResponse_ok. cbv zeta. apply _. Defined.
Definition ApiVersionsResponse_initial (v : Z) : ApiVersionsResponse :=
  mkApiVersionsResponse v 0 [] 0.
#[export] Hint Unfold ApiVersionsResponse_encode ApiVersionsResponse_decode ApiVersionsResponse_wire ApiVersionsResponse_ok ApiVersionsResponse_initial : message.

Lemma consumes_skip {A} fl (g : M packet_decoder unit) (k : PD A) w bs :
  consumes fl g tt [] -> consumes fl k w bs -> consumes fl (g ;;; k) w bs.
Proof. intros Hg Hk. by apply (consumes_bind _ _ (fun _ => k) tt _ [] bs). Qed.
Lemma consumes_downgrade : consumes false downgrade_flexible_decoder tt [].
Proof.
  intros d tl Hok Hc Hr. unfold downgrade_flexible_decoder. cbn in Hc. rewrite Hc.
  change (0 <? 0) with false. cbv iota. by apply (consumes_ret false tt d tl).
Qed.
Lemma ApiVersionsResponse_emits m :
  ApiVersionsResponse_ok m -> emits (pb_is_flexible m) (pb_encode m) 0 (ApiVersionsResponse_wire m).
Proof. solve_emits m. Qed.
Lemma ApiVersionsResponse_consumes m :
  ApiVersionsResponse_ok m ->
  consumes (pb_is_flexible m) (pb_decode (ApiVersionsResponse_initial (pb_version m)) (pb_version m)) (Ok m) (ApiVersionsResponse_wire m).
Proof.
  open_message m. destruct (Z.eqb_spec avs_code0 ErrUnsupportedVersion) as [E|E].
  - specialize (H E). subst. eapply consumes_let_or; [by apply consumes_getInt16|].
    change (ApiVersionsResponse_is_flexible_version 0) with false in *.
    change (ErrUnsupportedVersion =? ErrUnsupportedVersion) with true. cbv iota zeta.
    apply consumes_skip; [apply consumes_downgrade|]. consume_steps.
  - replace (avs_code0 =? ErrUnsupportedVersion) with false in * by lia.
    eapply consumes_let_or; [by apply consumes_getInt16|].
    replace (avs_code0 =? ErrUnsupportedVersion) with false by lia.
    apply consumes_skip; [apply consumes_ret|]. consume_steps.
Qed.
#[export] Instance ApiVersionsResponse_format : WireFormat ApiVersionsResponse := {
  wire := ApiVersionsResponse_wire;
  wire_ok := ApiVersionsResponse_ok;
  wire_initial := ApiVersionsResponse_initial;
  wire_flexible _ _ := eq_refl;
  wire_encode := ApiVersionsResponse_emits;
  wire_decode := ApiVersionsResponse_consumes;
}.
(* coev_kafka/api_versions_response.cpp ApiVersionsResponse::set_version *)
Definition ApiVersionsResponse_set_version (m : ApiVersionsResponse) (v : Z) : ApiVersionsResponse :=
  mkApiVersionsResponse v (avs_code m) (avs_api_keys m) (avs_throttle_time m).
#[export] Instance ApiVersionsResponse_versioned : Versioned ApiVersionsResponse := { set_version := ApiVersionsResponse_set_version }.
#[export] Instance ApiVersionsResponse_laws : VersionLaws ApiVersionsResponse.
Proof. version_laws. Qed.

