(* ===== verification/AclMessages.v ===== *)
(** * Access control lists

    The bodies that create, delete and describe ACLs, and the structures they are made of.
    Every failure is reported as -1. *)
From Stdlib Require Import ZArith Lia Bool.
From stdpp Require Import base tactics list numbers.
From S2P Require Import Prelude Errors Wire Decoder Encoder Codec CodecEnc CodecDec EncoderDecoder.
From S2P Require Import StdMap MessageKit SetVersion.

(** ** Resources, entries and filters *)

(* coev_kafka/acl_types.h:64-71 AclResourcePatternType *)
Definition AclResourcePatternTypeUnknown : Z := 0.
Definition AclResourcePatternTypeLiteral : Z := 3.
(* coev_kafka/acl_types.h:49-58 AclResourceType *)
Definition AclResourceTypeAny : Z := 1.
(* coev_kafka/acl_types.h:16-31 AclOperation *)
Definition AclOperationAny : Z := 1.
(* coev_kafka/acl_types.h:37-43 AclPermissionType *)
Definition AclPermissionTypeAny : Z := 1.

(* coev_kafka/acl_bindings.h:20-28 Resource *)
Record Resource := mkResource {
  rsc_resource_type : Z; rsc_resource_name : list Z; rsc_resource_pattern_type : Z }.

(** [encode] replaces an unknown pattern type in the object too, where it is mutable. *)
Definition known_pattern_type (m : Resource) : Z :=
  if rsc_resource_pattern_type m =? -1 then AclResourcePatternTypeUnknown else rsc_resource_pattern_type m.
(* coev_kafka/acl_bindings.cpp Resource::encode *)
Definition Resource_encode (version : Z) (m : Resource) : PE Z :=
  putInt8 (to_i8 (rsc_resource_type m)) ;;;
  try putString (rsc_resource_name m) /! (-1) ;;;
  whenU (version =? 1) (putInt8 (to_i8 (known_pattern_type m))) ;;;
  ret ErrNoError.

(* coev_kafka/acl_bindings.cpp Resource::decode *)
Definition Resource_decode (version : Z) (self : Resource) : PD Resource :=
  let! resource_type := getInt8 /! (-1) in
  let! resource_name := getString /! (-1) in
  let! resource_pattern_type := readIf (version =? 1) getInt8 (rsc_resource_pattern_type self) /! (-1) in
  ok (mkResource resource_type resource_name resource_pattern_type).

Definition Resource_wire (version : Z) (fl : bool) (m : Resource) : list Z :=
  be 1 (rsc_resource_type m) ++ w_string fl (rsc_resource_name m) ++
  w_when (version =? 1) (be 1 (rsc_resource_pattern_type m)).
Definition Resource_ok (version : Z) (fl : bool) (m : Resource) : Prop :=
  rsc_resource_pattern_type m <> -1 /\ in_s 8 (rsc_resource_type m) /\
  string_ok fl (rsc_resource_name m) /\ in_s 8 (rsc_resource_pattern_type m) /\
  ((version =? 1) = false -> rsc_resource_pattern_type m = AclResourcePatternTypeLiteral).
#[export] Instance Resource_ok_dec version fl m : Decision (Resource_ok version fl m).
Proof. unfold Resource_ok. apply _. Defined.
Lemma Resource_emits version fl m : Resource_ok version fl m -> emits fl (Resource_encode version m) 0 (Resource_wire version fl m).
Proof.
  unfold Resource_ok, Resource_encode, Resource_wire, known_pattern_type. intros (Hp & H).
  replace (rsc_resource_pattern_type m =? -1) with false by lia. revert H. solve_emits m.
Qed.
Lemma Resource_consumes version fl m : Resource_ok version fl m -> consumes fl (Resource_decode version (mkResource 0 [] AclResourcePatternTypeLiteral)) (Ok m) (Resource_wire version fl m).
Proof. unfold Resource_ok, Resource_decode, Resource_wire. solve_consumes m. Qed.
#[export] Hint Resolve Resource_emits : emit.
#[export] Hint Resolve Resource_consumes : consume.
#[global] Arguments Resource_wire : simpl never.
#[global] Arguments Resource_encode : simpl never.
#[global] Arguments Resource_decode : simpl never.
#[global] Arguments Resource_ok : simpl never.

(* coev_kafka/acl_bindings.h:30-39 Acl *)
Record Acl := mkAcl {
  acl_principal : list Z; acl_host : list Z; acl_operation : Z; acl_permission_type : Z }.

(* coev_kafka/acl_bindings.cpp Acl::encode *)
Definition Acl_encode (m : Acl) : PE Z :=
  try putString (acl_principal m) /! (-1) ;;;
  try putString (acl_host m) /! (-1) ;;;
  putInt8 (to_i8 (acl_operation m)) ;;;
  putInt8 (to_i8 (acl_permission_type m)) ;;;
  ret ErrNoError.

(* coev_kafka/acl_bindings.cpp Acl::decode *)
Definition Acl_decode : PD Acl :=
  let! principal := getString /! (-1) in
  let! host := getString /! (-1) in
  let! operation := getInt8 /! (-1) in
  let! permission_type := getInt8 /! (-1) in
  ok (mkAcl principal host operation permission_type).

Definition Acl_wire (fl : bool) (m : Acl) : list Z :=
  w_string fl (acl_principal m) ++ w_string fl (acl_host m) ++ be 1 (acl_operation m) ++
  be 1 (acl_permission_type m).
Definition Acl_ok (fl : bool) (m : Acl) : Prop :=
  string_ok fl (acl_principal m) /\ string_ok fl (acl_host m) /\ in_s 8 (acl_operation m) /\
  in_s 8 (acl_permission_type m).
#[export] Instance Acl_ok_dec fl m : Decision (Acl_ok fl m).
Proof. unfold Acl_ok. apply _. Defined.
Lemma Acl_emits fl m : Acl_ok fl m -> emits fl (Acl_encode m) 0 (Acl_wire fl m).
Proof. unfold Acl_ok, Acl_encode, Acl_wire. solve_emits m. Qed.
Lemma Acl_consumes fl m : Acl_ok fl m -> consumes fl Acl_decode (Ok m) (Acl_wire fl m).
Proof. unfold Acl_ok, Acl_decode, Acl_wire. solve_consumes m. Qed.
#[export] Hint Resolve Acl_emits : emit.
#[export] Hint Resolve Acl_consumes : consume.
#[global] Arguments Acl_wire : simpl never.
#[global] Arguments Acl_encode : simpl never.
#[global] Arguments Acl_decode : simpl never.
#[global] Arguments Acl_ok : simpl never.

(* coev_kafka/acl_bindings.h:41-48 ResourceAcls *)
Record ResourceAcls := mkResourceAcls {
  ral_resource : Resource; ral_acls : list Acl }.

(* coev_kafka/acl_bindings.cpp ResourceAcls::encode *)
Definition ResourceAcls_encode (version : Z) (m : ResourceAcls) : PE Z :=
  try Resource_encode version (ral_resource m) /! (-1) ;;;
  try putArrayLength (to_i32 (Zlen (ral_acls m))) /! (-1) ;;;
  try for_try (ral_acls m) (fun x => try Acl_encode x /! (-1) ;;; ret 0) ;;;
  ret ErrNoError.

(* coev_kafka/acl_bindings.cpp ResourceAcls::decode *)
Definition ResourceAcls_decode (version : Z) (self : ResourceAcls) : PD ResourceAcls :=
  let! resource := Resource_decode version (ral_resource self) /! (-1) in
  let! n := getArrayLength /! (-1) in
  let! acls := read_resized n (let! y := Acl_decode /! (-1) in ok y) in
  ok (mkResourceAcls resource acls).

Definition ResourceAcls_wire (version : Z) (fl : bool) (m : ResourceAcls) : list Z :=
  Resource_wire version fl (ral_resource m) ++ w_array_length fl (Zlen (ral_acls m)) ++
  w_list (Acl_wire fl) (ral_acls m).
Definition ResourceAcls_ok (version : Z) (fl : bool) (m : ResourceAcls) : Prop :=
  Resource_ok version fl (ral_resource m) /\ array_fits fl (Acl_ok fl) (ral_acls m).
#[export] Instance ResourceAcls_ok_dec version fl m : Decision (ResourceAcls_ok version fl m).
Proof. unfold ResourceAcls_ok. apply _. Defined.
Lemma ResourceAcls_emits version fl m : ResourceAcls_ok version fl m -> emits fl (ResourceAcls_encode version m) 0 (ResourceAcls_wire version fl m).
Proof. unfold ResourceAcls_ok, ResourceAcls_encode, ResourceAcls_wire. solve_emits m. Qed.
Lemma ResourceAcls_consumes version fl m : ResourceAcls_ok version fl m -> consumes fl (ResourceAcls_decode version (mkResourceAcls (mkResource 0 [] AclResourcePatternTypeLiteral) [])) (Ok m) (ResourceAcls_wire version fl m).
Proof. unfold ResourceAcls_ok, ResourceAcls_decode, ResourceAcls_wire. solve_consumes m. Qed.
#[export] Hint Resolve ResourceAcls_emits : emit.
#[export] Hint Resolve ResourceAcls_consumes : consume.
#[global] Arguments ResourceAcls_wire : simpl never.
#[global] Arguments ResourceAcls_encode : simpl never.
#[global] Arguments ResourceAcls_decode : simpl never.
#[global] Arguments ResourceAcls_ok : simpl never.

(* coev_kafka/acl_filter.h:19-36 AclFilter *)
Record AclFilter := mkAclFilter {
  flt_version : Z; flt_resource_type : Z; flt_resource_name : list Z;
  flt_resource_pattern_type_filter : Z; flt_principal : list Z; flt_host : list Z;
  flt_operation : Z; flt_permission_type : Z }.

(* coev_kafka/acl_filter.h:31-33 AclFilter::AclFilter *)
Definition AclFilter_default (v : Z) : AclFilter := mkAclFilter v AclResourceTypeAny [] AclResourcePatternTypeLiteral [] [] AclOperationAny AclPermissionTypeAny.
(** [filter.m_version = v] *)
Definition with_filter_version (v : Z) (m : AclFilter) : AclFilter :=
  mkAclFilter v (flt_resource_type m) (flt_resource_name m) (flt_resource_pattern_type_filter m)
    (flt_principal m) (flt_host m) (flt_operation m) (flt_permission_type m).
(* coev_kafka/acl_filter.cpp AclFilter::encode *)
Definition AclFilter_encode (m : AclFilter) : PE Z :=
  putInt8 (to_i8 (flt_resource_type m)) ;;;
  try putNullableString (flt_resource_name m) /! (-1) ;;;
  whenU (flt_version m =? 1) (putInt8 (to_i8 (flt_resource_pattern_type_filter m))) ;;;
  try putNullableString (flt_principal m) /! (-1) ;;;
  try putNullableString (flt_host m) /! (-1) ;;;
  putInt8 (to_i8 (flt_operation m)) ;;;
  putInt8 (to_i8 (flt_permission_type m)) ;;;
  ret 0.

(* coev_kafka/acl_filter.cpp AclFilter::decode *)
Definition AclFilter_decode (version : Z) (self : AclFilter) : PD AclFilter :=
  let! resource_type := getInt8 /! (-1) in
  let! resource_name := getNullableString /! (-1) in
  let! resource_pattern_type_filter := readIf (version =? 1) getInt8 (flt_resource_pattern_type_filter self) /! (-1) in
  let! principal := getNullableString /! (-1) in
  let! host := getNullableString /! (-1) in
  let! operation := getInt8 /! (-1) in
  let! permission_type := getInt8 /! (-1) in
  ok (mkAclFilter (flt_version self) resource_type resource_name resource_pattern_type_filter principal host operation permission_type).

Definition AclFilter_wire (fl : bool) (m : AclFilter) : list Z :=
  be 1 (flt_resource_type m) ++ w_nullable_string fl (flt_resource_name m) ++
  w_when (flt_version m =? 1) (be 1 (flt_resource_pattern_type_filter m)) ++
  w_nullable_string fl (flt_principal m) ++ w_nullable_string fl (flt_host m) ++
  be 1 (flt_operation m) ++ be 1 (flt_permission_type m).
Definition AclFilter_ok (fl : bool) (m : AclFilter) : Prop :=
  in_s 8 (flt_resource_type m) /\ string_ok fl (flt_resource_name m) /\
  in_s 8 (flt_resource_pattern_type_filter m) /\
  ((flt_version m =? 1) = false -> flt_resource_pattern_type_filter m = AclResourcePatternTypeLiteral) /\
  string_ok fl (flt_principal m) /\ string_ok fl (flt_host m) /\ in_s 8 (flt_operation m) /\
  in_s 8 (flt_permission_type m).
#[export] Instance AclFilter_ok_dec fl m : Decision (AclFilter_ok fl m).
Proof. unfold AclFilter_ok. apply _. Defined.
Lemma AclFilter_emits fl m : AclFilter_ok fl m -> emits fl (AclFilter_encode m) 0 (AclFilter_wire fl m).
Proof. unfold AclFilter_ok, AclFilter_encode, AclFilter_wire. solve_emits m. Qed.
Lemma AclFilter_consumes fl m : AclFilter_ok fl m -> consumes fl (AclFilter_decode (flt_version m) (AclFilter_default (flt_version m))) (Ok m) (AclFilter_wire fl m).
Proof. unfold AclFilter_ok, AclFilter_decode, AclFilter_wire, AclFilter_default. solve_consumes m. Qed.
#[export] Hint Resolve AclFilter_emits : emit.
#[export] Hint Resolve AclFilter_consumes : consume.
#[global] Arguments AclFilter_wire : simpl never.
#[global] Arguments AclFilter_encode : simpl never.
#[global] Arguments AclFilter_decode : simpl never.
#[global] Arguments AclFilter_ok : simpl never.

(** ** CreateAcls *)

(* coev_kafka/acl_create_request.h:23-33 AclCreation *)
Record AclCreation := mkAclCreation {
  acc_resource : Resource; acc_acl : Acl }.

(* coev_kafka/acl_create_request.cpp AclCreation::encode *)
Definition AclCreation_encode (version : Z) (m : AclCreation) : PE Z :=
  try Resource_encode version (acc_resource m) /! (-1) ;;;
  try Acl_encode (acc_acl m) /! (-1) ;;;
  ret 0.

(* coev_kafka/acl_create_request.cpp AclCreation::decode *)
Definition AclCreation_decode (version : Z) (self : AclCreation) : PD AclCreation :=
  let! resource := Resource_decode version (acc_resource self) /! (-1) in
  let! acl := Acl_decode /! (-1) in
  ok (mkAclCreation resource acl).

Definition AclCreation_wire (version : Z) (fl : bool) (m : AclCreation) : list Z :=
  Resource_wire version fl (acc_resource m) ++ Acl_wire fl (acc_acl m).
Definition AclCreation_ok (version : Z) (fl : bool) (m : AclCreation) : Prop :=
  Resource_ok version fl (acc_resource m) /\ Acl_ok fl (acc_acl m).
#[export] Instance AclCreation_ok_dec version fl m : Decision (AclCreation_ok version fl m).
Proof. unfold AclCreation_ok. apply _. Defined.
Lemma AclCreation_emits version fl m : AclCreation_ok version fl m -> emits fl (AclCreation_encode version m) 0 (AclCreation_wire version fl m).
Proof. unfold AclCreation_ok, AclCreation_encode, AclCreation_wire. solve_emits m. Qed.
Lemma AclCreation_consumes version fl m : AclCreation_ok version fl m -> consumes fl (AclCreation_decode version (mkAclCreation (mkResource 0 [] AclResourcePatternTypeLiteral) (mkAcl [] [] 0 0))) (Ok m) (AclCreation_wire version fl m).
Proof. unfold AclCreation_ok, AclCreation_decode, AclCreation_wire. solve_consumes m. Qed.
#[export] Hint Resolve AclCreation_emits : emit.
#[export] Hint Resolve AclCreation_consumes : consume.
#[global] Arguments AclCreation_wire : simpl never.
#[global] Arguments AclCreation_encode : simpl never.
#[global] Arguments AclCreation_decode : simpl never.
#[global] Arguments AclCreation_ok : simpl never.

(* coev_kafka/acl_create_request.h:35-53 CreateAclsRequest *)
Record CreateAclsRequest := mkCreateAclsRequest {
  caq_version : Z; caq_acl_creations : list AclCreation }.

(* coev_kafka/acl_create_request.cpp CreateAclsRequest::encode *)
Definition CreateAclsRequest_encode (m : CreateAclsRequest) : PE Z :=
  try putArrayLength (to_i32 (Zlen (caq_acl_creations m))) /! (-1) ;;;
  try for_try (caq_acl_creations m) (fun x => try AclCreation_encode (caq_version m) x /! (-1) ;;; ret 0) ;;;
  ret 0.

(* coev_kafka/acl_create_request.cpp CreateAclsRequest::decode *)
Definition CreateAclsRequest_decode (self : CreateAclsRequest) (version : Z) : PD CreateAclsRequest :=
  let! n := getArrayLength /! (-1) in
  let! acl_creations := read_into ((mkAclCreation (mkResource 0 [] AclResourcePatternTypeLiteral) (mkAcl [] [] 0 0))) n (caq_acl_creations self) (fun x => let! y := AclCreation_decode version x /! (-1) in ok y) in
  ok (mkCreateAclsRequest version acl_creations).

(* coev_kafka/acl_create_request.cpp CreateAclsRequest::key..CreateAclsRequest::is_valid_version *)
#[export] Instance CreateAclsRequest_body : protocol_body CreateAclsRequest := {
  pb_encode := CreateAclsRequest_encode;
  pb_decode := CreateAclsRequest_decode;
  pb_key _ := 30;
  pb_version := caq_version;
  pb_header_version m := 1;
  pb_is_valid_version m := (0 <=? caq_version m) && (caq_version m <=? 1);
  pb_is_flexible _ := false;
  pb_is_flexible_version _ _ := false;
}.

Definition CreateAclsRequest_wire (m : CreateAclsRequest) : list Z :=
  let fl := pb_is_flexible m in
  w_array_length fl (Zlen (caq_acl_creations m)) ++
  w_list (AclCreation_wire (caq_version m) fl) (caq_acl_creations m).
Definition CreateAclsRequest_ok (m : CreateAclsRequest) : Prop :=
  let fl := pb_is_flexible m in
  array_fits fl (AclCreation_ok (caq_version m) fl) (caq_acl_creations m).
#[export] Instance CreateAclsRequest_ok_dec m : Decision (CreateAclsRequest_ok m).
Proof. unfold CreateAclsRequest_ok. cbv zeta. apply _. Defined.
Definition CreateAclsRequest_initial (v : Z) : CreateAclsRequest :=
  mkCreateAclsRequest v [].
#[export] Hint Unfold CreateAclsRequest_encode CreateAclsRequest_decode CreateAclsRequest_wire CreateAclsRequest_ok CreateAclsRequest_initial : message.

Lemma CreateAclsRequest_emits m :
  CreateAclsRequest_ok m -> emits (pb_is_flexible m) (pb_encode m) 0 (CreateAclsRequest_wire m).
Proof. solve_emits m. Qed.
Lemma CreateAclsRequest_consumes m :
  CreateAclsRequest_ok m ->
  consumes (pb_is_flexible m) (pb_decode (CreateAclsRequest_initial (pb_version m)) (pb_version m)) (Ok m) (CreateAclsRequest_wire m).
Proof. solve_consumes m. Qed.
#[export] Instance CreateAclsRequest_format : WireFormat CreateAclsRequest := {
  wire := CreateAclsRequest_wire;
  wire_ok := CreateAclsRequest_ok;
  wire_initial := CreateAclsRequest_initial;
  wire_flexible _ _ := eq_refl;
  wire_encode := CreateAclsRequest_emits;
  wire_decode := CreateAclsRequest_consumes;
}.
(* coev_kafka/acl_create_request.cpp CreateAclsRequest::set_version *)
Definition CreateAclsRequest_set_version (m : CreateAclsRequest) (v : Z) : CreateAclsRequest :=
  mkCreateAclsRequest v (caq_acl_creations m).
#[export] Instance CreateAclsRequest_versioned : Versioned CreateAclsRequest := { set_version := CreateAclsRequest_set_version }.
#[export] Instance CreateAclsRequest_laws : VersionLaws CreateAclsRequest.
Proof. version_laws. Qed.

(* coev_kafka/acl_create_response.h:23-31 AclCreationResponse *)
Record AclCreationResponse := mkAclCreationResponse {
  acp_err : Z; acp_err_msg : list Z }.

(* coev_kafka/acl_create_response.cpp AclCreationResponse::encode *)
Definition AclCreationResponse_encode (m : AclCreationResponse) : PE Z :=
  putKError (acp_err m) ;;;
  try putNullableString (acp_err_msg m) /! (-1) ;;;
  ret 0.

(* coev_kafka/acl_create_response.cpp AclCreationResponse::decode *)
Definition AclCreationResponse_decode : PD AclCreationResponse :=
  let! err := getKError /! (-1) in
  let! err_msg := getNullableString /! (-1) in
  ok (mkAclCreationResponse err err_msg).

Definition AclCreationResponse_wire (fl : bool) (m : AclCreationResponse) : list Z :=
  be 2 (acp_err m) ++ w_nullable_string fl (acp_err_msg m).
Definition AclCreationResponse_ok (fl : bool) (m : AclCreationResponse) : Prop :=
  in_s 16 (acp_err m) /\ string_ok fl (acp_err_msg m).
#[export] Instance AclCreationResponse_ok_dec fl m : Decision (AclCreationResponse_ok fl m).
Proof. unfold AclCreationResponse_ok. apply _. Defined.
Lemma AclCreationResponse_emits fl m : AclCreationResponse_ok fl m -> emits fl (AclCreationResponse_encode m) 0 (AclCreationResponse_wire fl m).
Proof. unfold AclCreationResponse_ok, AclCreationResponse_encode, AclCreationResponse_wire. solve_emits m. Qed.
Lemma AclCreationResponse_consumes fl m : AclCreationResponse_ok fl m -> consumes fl AclCreationResponse_decode (Ok m) (AclCreationResponse_wire fl m).
Proof. unfold AclCreationResponse_ok, AclCreationResponse_decode, AclCreationResponse_wire. solve_consumes m. Qed.
#[export] Hint Resolve AclCreationResponse_emits : emit.
#[export] Hint Resolve AclCreationResponse_consumes : consume.
#[global] Arguments AclCreationResponse_wire : simpl never.
#[global] Arguments AclCreationResponse_encode : simpl never.
#[global] Arguments AclCreationResponse_decode : simpl never.
#[global] Arguments AclCreationResponse_ok : simpl never.

(* coev_kafka/acl_create_response.h:33-48 CreateAclsResponse *)
Record CreateAclsResponse := mkCreateAclsResponse {
  cas_version : Z; cas_throttle_time : Z; cas_acl_creation_responses : list AclCreationResponse }.

(* coev_kafka/acl_create_response.cpp CreateAclsResponse::encode *)
Definition CreateAclsResponse_encode (m : CreateAclsResponse) : PE Z :=
  putDurationMs (cas_throttle_time m) ;;;
  try putArrayLength (to_i32 (Zlen (cas_acl_creation_responses m))) /! (-1) ;;;
  try for_try (cas_acl_creation_responses m) (fun x => try AclCreationResponse_encode x /! (-1) ;;; ret 0) ;;;
  ret 0.

(* coev_kafka/acl_create_response.cpp CreateAclsResponse::decode *)
Definition CreateAclsResponse_decode (self : CreateAclsResponse) (version : Z) : PD CreateAclsResponse :=
  let! throttle_time := getDurationMs /! (-1) in
  let! n := getArrayLength /! (-1) in
  let! acl_creation_responses := read_resized n (let! y := AclCreationResponse_decode /! (-1) in ok y) in
  ok (mkCreateAclsResponse (cas_version self) throttle_time acl_creation_responses).

(* coev_kafka/acl_create_response.cpp CreateAclsResponse::key..CreateAclsResponse::is_valid_version *)
#[export] Instance CreateAclsResponse_body : protocol_body CreateAclsResponse := {
  pb_encode := CreateAclsResponse_encode;
  pb_decode := CreateAclsResponse_decode;
  pb_key _ := 30;
  pb_version := cas_version;
  pb_header_version m := 0;
  pb_is_valid_version m := (0 <=? cas_version m) && (cas_version m <=? 1);
  pb_is_flexible _ := false;
  pb_is_flexible_version _ _ := false;
}.

Definition CreateAclsResponse_wire (m : CreateAclsResponse) : list Z :=
  let fl := pb_is_flexible m in
  be 4 (cas_throttle_time m) ++ w_array_length fl (Zlen (cas_acl_creation_responses m)) ++
  w_list (AclCreationResponse_wire fl) (cas_acl_creation_responses m).
Definition CreateAclsResponse_ok (m : CreateAclsResponse) : Prop :=
  let fl := pb_is_flexible m in
  in_s 32 (cas_throttle_time m) /\
  array_fits fl (AclCreationResponse_ok fl) (cas_acl_creation_responses m).
#[export] Instance CreateAclsResponse_ok_dec m : Decision (CreateAclsResponse_ok m).
Proof. unfold CreateAclsResponse_ok. cbv zeta. apply _. Defined.
Definition CreateAclsResponse_initial (v : Z) : CreateAclsResponse :=
  mkCreateAclsResponse v 0 [].
#[export] Hint Unfold CreateAclsResponse_encode CreateAclsResponse_decode CreateAclsResponse_wire CreateAclsResponse_ok CreateAclsResponse_initial : message.

Lemma CreateAclsResponse_emits m :
  CreateAclsResponse_ok m -> emits (pb_is_flexible m) (pb_encode m) 0 (CreateAclsResponse_wire m).
Proof. solve_emits m. Qed.
Lemma CreateAclsResponse_consumes m :
  CreateAclsResponse_ok m ->
  consumes (pb_is_flexible m) (pb_decode (CreateAclsResponse_initial (pb_version m)) (pb_version m)) (Ok m) (CreateAclsResponse_wire m).
Proof. solve_consumes m. Qed.
#[export] Instance CreateAclsResponse_format : WireFormat CreateAclsResponse := {
  wire := CreateAclsResponse_wire;
  wire_ok := CreateAclsResponse_ok;
  wire_initial := CreateAclsResponse_initial;
  wire_flexible _ _ := eq_refl;
  wire_encode := CreateAclsResponse_emits;
  wire_decode := CreateAclsResponse_consumes;
}.
(* coev_kafka/acl_create_response.cpp CreateAclsResponse::set_version *)
Definition CreateAclsResponse_set_version (m : CreateAclsResponse) (v : Z) : CreateAclsResponse :=
  mkCreateAclsResponse v (cas_throttle_time m) (cas_acl_creation_responses m).
#[export] Instance CreateAclsResponse_versioned : Versioned CreateAclsResponse := { set_version := CreateAclsResponse_set_version }.
#[export] Instance CreateAclsResponse_laws : VersionLaws CreateAclsResponse.
Proof. version_laws. Qed.

(** ** DeleteAcls: the filters take the version of the request *)

(* coev_kafka/acl_delete_request.h:23-41 DeleteAclsRequest *)
Record DeleteAclsRequest := mkDeleteAclsRequest {
  daq_version : Z; daq_filters : list AclFilter }.

(* coev_kafka/acl_delete_request.cpp DeleteAclsRequest::encode *)
Definition DeleteAclsRequest_encode (m : DeleteAclsRequest) : PE Z :=
  try putArrayLength (to_i32 (Zlen (daq_filters m))) /! (-1) ;;;
  try for_try (daq_filters m) (fun filter =>
    try AclFilter_encode (with_filter_version (daq_version m) filter) /! (-1) ;;; ret 0) ;;;
  ret 0.

(* coev_kafka/acl_delete_request.cpp DeleteAclsRequest::decode *)
Definition DeleteAclsRequest_decode (self : DeleteAclsRequest) (version : Z) : PD DeleteAclsRequest :=
  let! n := getArrayLength /! (-1) in
  let! filters := read_into (AclFilter_default 0) n (daq_filters self) (fun x =>
    let! y := AclFilter_decode version (with_filter_version version x) /! (-1) in ok y) in
  ok (mkDeleteAclsRequest version filters).

(* coev_kafka/acl_delete_request.cpp DeleteAclsRequest::key..DeleteAclsRequest::is_valid_version *)
#[export] Instance DeleteAclsRequest_body : protocol_body DeleteAclsRequest := {
  pb_encode := DeleteAclsRequest_encode;
  pb_decode := DeleteAclsRequest_decode;
  pb_key _ := 31;
  pb_version := daq_version;
  pb_header_version m := 1;
  pb_is_valid_version m := (0 <=? daq_version m) && (daq_version m <=? 1);
  pb_is_flexible _ := false;
  pb_is_flexible_version _ _ := false;
}.

Definition DeleteAclsRequest_wire (m : DeleteAclsRequest) : list Z :=
  let fl := pb_is_flexible m in
  w_array_length fl (Zlen (daq_filters m)) ++ w_list (AclFilter_wire fl) (daq_filters m).
Definition DeleteAclsRequest_ok (m : DeleteAclsRequest) : Prop :=
  let fl := pb_is_flexible m in
  array_fits fl (fun x => AclFilter_ok fl x /\ flt_version x = daq_version m) (daq_filters m).
#[export] Instance DeleteAclsRequest_ok_dec m : Decision (DeleteAclsRequest_ok m).
Proof. unfold DeleteAclsRequest_ok. cbv zeta. apply _. Defined.
Definition DeleteAclsRequest_initial (v : Z) : DeleteAclsRequest :=
  mkDeleteAclsRequest v [].
#[export] Hint Unfold DeleteAclsRequest_encode DeleteAclsRequest_decode DeleteAclsRequest_wire DeleteAclsRequest_ok DeleteAclsRequest_initial : message.

Lemma with_filter_same x v : flt_version x = v -> with_filter_version v x = x.
Proof. by destruct x; cbn; intros ->. Qed.
Lemma DeleteAclsRequest_emits m :
  DeleteAclsRequest_ok m -> emits (pb_is_flexible m) (pb_encode m) 0 (DeleteAclsRequest_wire m).
Proof.
  open_message m. eapply emits_check; [by eapply emits_array_length|]. eapply emits_try_last, emits_each; [eassumption|].
  intros x [Hx E]. rewrite (with_filter_same x) by done. emit_steps.
Qed.
Lemma DeleteAclsRequest_consumes m :
  DeleteAclsRequest_ok m ->
  consumes (pb_is_flexible m) (pb_decode (DeleteAclsRequest_initial (pb_version m)) (pb_version m)) (Ok m) (DeleteAclsRequest_wire m).
Proof.
  open_message m. eapply consumes_let_or; [by eapply consumes_array_length|].
  eapply consumes_last; [|apply consumes_ret]. eapply consumes_into; [eassumption|]. intros x [Hx <-].
  change (with_filter_version (flt_version x) (AclFilter_default 0)) with (AclFilter_default (flt_version x)). consume_steps.
Qed.
#[export] Instance DeleteAclsRequest_format : WireFormat DeleteAclsRequest := {
  wire := DeleteAclsRequest_wire;
  wire_ok := DeleteAclsRequest_ok;
  wire_initial := DeleteAclsRequest_initial;
  wire_flexible _ _ := eq_refl;
  wire_encode := DeleteAclsRequest_emits;
  wire_decode := DeleteAclsRequest_consumes;
}.
(* coev_kafka/acl_delete_request.cpp DeleteAclsRequest::set_version *)
Definition DeleteAclsRequest_set_version (m : DeleteAclsRequest) (v : Z) : DeleteAclsRequest :=
  mkDeleteAclsRequest v (daq_filters m).
#[export] Instance DeleteAclsRequest_versioned : Versioned DeleteAclsRequest := { set_version := DeleteAclsRequest_set_version }.
#[export] Instance DeleteAclsRequest_laws : VersionLaws DeleteAclsRequest.
Proof. version_laws. Qed.

(* coev_kafka/acl_delete_response.h:25-34 MatchingAcl *)
Record MatchingAcl := mkMatchingAcl {
  mac_err : Z; mac_err_msg : list Z; mac_resource : Resource; mac_acl : Acl }.

(* coev_kafka/acl_delete_response.cpp MatchingAcl::encode *)
Definition MatchingAcl_encode (version : Z) (m : MatchingAcl) : PE Z :=
  putKError (mac_err m) ;;;
  try putNullableString (mac_err_msg m) /! (-1) ;;;
  try Resource_encode version (mac_resource m) /! (-1) ;;;
  try Acl_encode (mac_acl m) /! (-1) ;;;
  ret 0.

(* coev_kafka/acl_delete_response.cpp MatchingAcl::decode *)
Definition MatchingAcl_decode (version : Z) (self : MatchingAcl) : PD MatchingAcl :=
  let! err := getKError /! (-1) in
  let! err_msg := getNullableString /! (-1) in
  let! resource := Resource_decode version (mac_resource self) /! (-1) in
  let! acl := Acl_decode /! (-1) in
  ok (mkMatchingAcl err err_msg resource acl).

Definition MatchingAcl_wire (version : Z) (fl : bool) (m : MatchingAcl) : list Z :=
  be 2 (mac_err m) ++ w_nullable_string fl (mac_err_msg m) ++
  Resource_wire version fl (mac_resource m) ++ Acl_wire fl (mac_acl m).
Definition MatchingAcl_ok (version : Z) (fl : bool) (m : MatchingAcl) : Prop :=
  in_s 16 (mac_err m) /\ string_ok fl (mac_err_msg m) /\
  Resource_ok version fl (mac_resource m) /\ Acl_ok fl (mac_acl m).
#[export] Instance MatchingAcl_ok_dec version fl m : Decision (MatchingAcl_ok version fl m).
Proof. unfold MatchingAcl_ok. apply _. Defined.
Lemma MatchingAcl_emits version fl m : MatchingAcl_ok version fl m -> emits fl (MatchingAcl_encode version m) 0 (MatchingAcl_wire version fl m).
Proof. unfold MatchingAcl_ok, MatchingAcl_encode, MatchingAcl_wire. solve_emits m. Qed.
Lemma MatchingAcl_consumes version fl m : MatchingAcl_ok version fl m -> consumes fl (MatchingAcl_decode version (mkMatchingAcl 0 [] (mkResource 0 [] AclResourcePatternTypeLiteral) (mkAcl [] [] 0 0))) (Ok m) (MatchingAcl_wire version fl m).
Proof. unfold MatchingAcl_ok, MatchingAcl_decode, MatchingAcl_wire. solve_consumes m. Qed.
#[export] Hint Resolve MatchingAcl_emits : emit.
#[export] Hint Resolve MatchingAcl_consumes : consume.
#[global] Arguments MatchingAcl_wire : simpl never.
#[global] Arguments MatchingAcl_encode : simpl never.
#[global] Arguments MatchingAcl_decode : simpl never.
#[global] Arguments MatchingAcl_ok : simpl never.

(* coev_kafka/acl_delete_response.h:36-44 FilterResponse *)
Record FilterResponse := mkFilterResponse {
  frs_err : Z; frs_err_msg : list Z; frs_matching_acls : list MatchingAcl }.

(* coev_kafka/acl_delete_response.cpp FilterResponse::encode *)
Definition FilterResponse_encode (version : Z) (m : FilterResponse) : PE Z :=
  putKError (frs_err m) ;;;
  try putNullableString (frs_err_msg m) /! (-1) ;;;
  try putArrayLength (to_i32 (Zlen (frs_matching_acls m))) /! (-1) ;;;
  try for_try (frs_matching_acls m) (fun x => try MatchingAcl_encode version x /! (-1) ;;; ret 0) ;;;
  ret 0.

(* coev_kafka/acl_delete_response.cpp FilterResponse::decode *)
Definition FilterResponse_decode (version : Z) (self : FilterResponse) : PD FilterResponse :=
  let! err := getKError /! (-1) in
  let! err_msg := getNullableString /! (-1) in
  let! n := getArrayLength /! (-1) in
  let! matching_acls := read_into ((mkMatchingAcl 0 [] (mkResource 0 [] AclResourcePatternTypeLiteral) (mkAcl [] [] 0 0))) n (frs_matching_acls self) (fun x => let! y := MatchingAcl_decode version x /! (-1) in ok y) in
  ok (mkFilterResponse err err_msg matching_acls).

Definition FilterResponse_wire (version : Z) (fl : bool) (m : FilterResponse) : list Z :=
  be 2 (frs_err m) ++ w_nullable_string fl (frs_err_msg m) ++
  w_array_length fl (Zlen (frs_matching_acls m)) ++
  w_list (MatchingAcl_wire version fl) (frs_matching_acls m).
Definition FilterResponse_ok (version : Z) (fl : bool) (m : FilterResponse) : Prop :=
  in_s 16 (frs_err m) /\ string_ok fl (frs_err_msg m) /\
  array_fits fl (MatchingAcl_ok version fl) (frs_matching_acls m).
#[export] Instance FilterResponse_ok_dec version fl m : Decision (FilterResponse_ok version fl m).
Proof. unfold FilterResponse_ok. apply _. Defined.
Lemma FilterResponse_emits version fl m : FilterResponse_ok version fl m -> emits fl (FilterResponse_encode version m) 0 (FilterResponse_wire version fl m).
Proof. unfold FilterResponse_ok, FilterResponse_encode, FilterResponse_wire. solve_emits m. Qed.
Lemma FilterResponse_consumes version fl m : FilterResponse_ok version fl m -> consumes fl (FilterResponse_decode version (mkFilterResponse 0 [] [])) (Ok m) (FilterResponse_wire version fl m).
Proof. unfold FilterResponse_ok, FilterResponse_decode, FilterResponse_wire. solve_consumes m. Qed.
#[export] Hint Resolve FilterResponse_emits : emit.
#[export] Hint Resolve FilterResponse_consumes : consume.
#[global] Arguments FilterResponse_wire : simpl never.
#[global] Arguments FilterResponse_encode : simpl never.
#[global] Arguments FilterResponse_decode : simpl never.
#[global] Arguments FilterResponse_ok : simpl never.

(** [decode] leaves the version as it is. *)
(* coev_kafka/acl_delete_response.h:46-61 DeleteAclsResponse *)
Record DeleteAclsResponse := mkDeleteAclsResponse {
  das_version : Z; das_throttle_time : Z; das_filter_responses : list FilterResponse }.

(* coev_kafka/acl_delete_response.cpp DeleteAclsResponse::encode *)
Definition DeleteAclsResponse_encode (m : DeleteAclsResponse) : PE Z :=
  putDurationMs (das_throttle_time m) ;;;
  try putArrayLength (to_i32 (Zlen (das_filter_responses m))) /! (-1) ;;;
  try for_try (das_filter_responses m) (fun x => try FilterResponse_encode (das_version m) x /! (-1) ;;; ret 0) ;;;
  ret 0.

(* coev_kafka/acl_delete_response.cpp DeleteAclsResponse::decode *)
Definition DeleteAclsResponse_decode (self : DeleteAclsResponse) (version : Z) : PD DeleteAclsResponse :=
  let! throttle_time := getDurationMs /! (-1) in
  let! n := getArrayLength /! (-1) in
  let! filter_responses := read_into (mkFilterResponse 0 [] []) n (das_filter_responses self) (fun x => let! y := FilterResponse_decode version x /! (-1) in ok y) in
  ok (mkDeleteAclsResponse (das_version self) throttle_time filter_responses).

(* coev_kafka/acl_delete_response.cpp DeleteAclsResponse::key..DeleteAclsResponse::is_valid_version *)
#[export] Instance DeleteAclsResponse_body : protocol_body DeleteAclsResponse := {
  pb_encode := DeleteAclsResponse_encode;
  pb_decode := DeleteAclsResponse_decode;
  pb_key _ := 31;
  pb_version := das_version;
  pb_header_version m := 0;
  pb_is_valid_version m := (0 <=? das_version m) && (das_version m <=? 1);
  pb_is_flexible _ := false;
  pb_is_flexible_version _ _ := false;
}.

Definition DeleteAclsResponse_wire (m : DeleteAclsResponse) : list Z :=
  let fl := pb_is_flexible m in
  be 4 (das_throttle_time m) ++ w_array_length fl (Zlen (das_filter_responses m)) ++
  w_list (FilterResponse_wire (das_version m) fl) (das_filter_responses m).
Definition DeleteAclsResponse_ok (m : DeleteAclsResponse) : Prop :=
  let fl := pb_is_flexible m in
  in_s 32 (das_throttle_time m) /\
  array_fits fl (FilterResponse_ok (das_version m) fl) (das_filter_responses m).
#[export] Instance DeleteAclsResponse_ok_dec m : Decision (DeleteAclsResponse_ok m).
Proof. unfold DeleteAclsResponse_ok. cbv zeta. apply _. Defined.
Definition DeleteAclsResponse_initial (v : Z) : DeleteAclsResponse :=
  mkDeleteAclsResponse v 0 [].
#[export] Hint Unfold DeleteAclsResponse_encode DeleteAclsResponse_decode DeleteAclsResponse_wire DeleteAclsResponse_ok DeleteAclsResponse_initial : message.

Lemma DeleteAclsResponse_emits m :
  DeleteAclsResponse_ok m -> emits (pb_is_flexible m) (pb_encode m) 0 (DeleteAclsResponse_wire m).
Proof. solve_emits m. Qed.
Lemma DeleteAclsResponse_consumes m :
  DeleteAclsResponse_ok m ->
  consumes (pb_is_flexible m) (pb_decode (DeleteAclsResponse_initial (pb_version m)) (pb_version m)) (Ok m) (DeleteAclsResponse_wire m).
Proof. solve_consumes m. Qed.
#[export] Instance DeleteAclsResponse_format : WireFormat DeleteAclsResponse := {
  wire := DeleteAclsResponse_wire;
  wire_ok := DeleteAclsResponse_ok;
  wire_initial := DeleteAclsResponse_initial;
  wire_flexible _ _ := eq_refl;
  wire_encode := DeleteAclsResponse_emits;
  wire_decode := DeleteAclsResponse_consumes;
}.
(* coev_kafka/acl_delete_response.cpp DeleteAclsResponse::set_version *)
Definition DeleteAclsResponse_set_version (m : DeleteAclsResponse) (v : Z) : DeleteAclsResponse :=
  mkDeleteAclsResponse v (das_throttle_time m) (das_filter_responses m).
#[export] Instance DeleteAclsResponse_versioned : Versioned DeleteAclsResponse := { set_version := DeleteAclsResponse_set_version }.
#[export] Instance DeleteAclsResponse_laws : VersionLaws DeleteAclsResponse.
Proof. version_laws. Qed.

(** ** DescribeAcls *)

(* coev_kafka/acl_describe_request.h:20-37 DescribeAclsRequest *)
Record DescribeAclsRequest := mkDescribeAclsRequest {
  dbq_version : Z; dbq_filter : AclFilter }.

(* coev_kafka/acl_describe_request.cpp DescribeAclsRequest::encode *)
Definition DescribeAclsRequest_encode (m : DescribeAclsRequest) : PE Z :=
  AclFilter_encode (dbq_filter m).

(* coev_kafka/acl_describe_request.cpp DescribeAclsRequest::decode *)
Definition DescribeAclsRequest_decode (self : DescribeAclsRequest) (version : Z) : PD DescribeAclsRequest :=
  let! filter := AclFilter_decode version (with_filter_version version (dbq_filter self)) in
  ok (mkDescribeAclsRequest version filter).

(* coev_kafka/acl_describe_request.cpp DescribeAclsRequest::key..DescribeAclsRequest::is_valid_version *)
#[export] Instance DescribeAclsRequest_body : protocol_body DescribeAclsRequest := {
  pb_encode := DescribeAclsRequest_encode;
  pb_decode := DescribeAclsRequest_decode;
  pb_key _ := 29;
  pb_version := dbq_version;
  pb_header_version m := 1;
  pb_is_valid_version m := (0 <=? dbq_version m) && (dbq_version m <=? 1);
  pb_is_flexible _ := false;
  pb_is_flexible_version _ _ := false;
}.

Definition DescribeAclsRequest_wire (m : DescribeAclsRequest) : list Z :=
  let fl := pb_is_flexible m in
  AclFilter_wire fl (dbq_filter m).
Definition DescribeAclsRequest_ok (m : DescribeAclsRequest) : Prop :=
  let fl := pb_is_flexible m in
  AclFilter_ok fl (dbq_filter m) /\ flt_version (dbq_filter m) = dbq_version m.
#[export] Instance DescribeAclsRequest_ok_dec m : Decision (DescribeAclsRequest_ok m).
Proof. unfold DescribeAclsRequest_ok. cbv zeta. apply _. Defined.
Definition DescribeAclsRequest_initial (v : Z) : DescribeAclsRequest :=
  mkDescribeAclsRequest v (AclFilter_default v).
#[export] Hint Unfold DescribeAclsRequest_encode DescribeAclsRequest_decode DescribeAclsRequest_wire DescribeAclsRequest_ok DescribeAclsRequest_initial : message.

Lemma DescribeAclsRequest_emits m :
  DescribeAclsRequest_ok m -> emits (pb_is_flexible m) (pb_encode m) 0 (DescribeAclsRequest_wire m).
Proof. solve_emits m. Qed.
Lemma DescribeAclsRequest_consumes m :
  DescribeAclsRequest_ok m ->
  consumes (pb_is_flexible m) (pb_decode (DescribeAclsRequest_initial (pb_version m)) (pb_version m)) (Ok m) (DescribeAclsRequest_wire m).
Proof.
  open_message m. cbn. eapply consumes_last; [|apply consumes_ret].
  match goal with |- context [AclFilter_decode _ ?d] => change d with (AclFilter_default (flt_version dbq_filter0)) end.
  by apply AclFilter_consumes.
Qed.
#[export] Instance DescribeAclsRequest_format : WireFormat DescribeAclsRequest := {
  wire := DescribeAclsRequest_wire;
  wire_ok := DescribeAclsRequest_ok;
  wire_initial := DescribeAclsRequest_initial;
  wire_flexible _ _ := eq_refl;
  wire_encode := DescribeAclsRequest_emits;
  wire_decode := DescribeAclsRequest_consumes;
}.
(* coev_kafka/acl_describe_request.cpp DescribeAclsRequest::set_version *)
Definition DescribeAclsRequest_set_version (m : DescribeAclsRequest) (v : Z) : DescribeAclsRequest :=
  mkDescribeAclsRequest v (with_filter_version v (dbq_filter m)).
#[export] Instance DescribeAclsRequest_versioned : Versioned DescribeAclsRequest := { set_version := DescribeAclsRequest_set_version }.
#[export] Instance DescribeAclsRequest_laws : VersionLaws DescribeAclsRequest.
Proof. version_laws. Qed.

(** An empty message leaves the one the object has. *)
Definition keep_nonempty (old s : list Z) : list Z := if empty s then old else s.
Lemma consumes_keep fl c (g : PD (list Z)) s bs :
  consumes fl g (Ok s) bs -> consumes fl (let! x := g /! c in ok (keep_nonempty [] x)) (Ok s) bs.
Proof.
  intros Hg. eapply consumes_last_or; [exact Hg|]. unfold keep_nonempty.
  destruct (empty s) eqn:E; [|apply consumes_ret]. apply empty_nil in E as ->. apply consumes_ret.
Qed.
#[export] Hint Extern 1 (consumes _ (bind _ (fun _ => match _ with Err _ => _ | Ok _ => ok (keep_nonempty _ _) end)) _ _) =>
  apply consumes_keep; solve [eauto with consume] : consume.
(* coev_kafka/acl_describe_response.h:24-47 DescribeAclsResponse *)
Record DescribeAclsResponse := mkDescribeAclsResponse {
  dbs_version : Z; dbs_throttle_time : Z; dbs_resource_acls : list ResourceAcls;
  dbs_err_msg : list Z; dbs_err : Z }.

(* coev_kafka/acl_describe_response.cpp DescribeAclsResponse::encode *)
Definition DescribeAclsResponse_encode (m : DescribeAclsResponse) : PE Z :=
  putDurationMs (dbs_throttle_time m) ;;;
  putKError (dbs_err m) ;;;
  try putNullableString (dbs_err_msg m) /! (-1) ;;;
  try putArrayLength (to_i32 (Zlen (dbs_resource_acls m))) /! (-1) ;;;
  try for_try (dbs_resource_acls m) (fun x => try ResourceAcls_encode (dbs_version m) x /! (-1) ;;; ret 0) ;;;
  ret 0.

(* coev_kafka/acl_describe_response.cpp DescribeAclsResponse::decode *)
Definition DescribeAclsResponse_decode (self : DescribeAclsResponse) (version : Z) : PD DescribeAclsResponse :=
  let! throttle_time := getDurationMs /! (-1) in
  let! err := getKError /! (-1) in
  let! err_msg := (let! s := getNullableString /! (-1) in ok (keep_nonempty (dbs_err_msg self) s)) in
  let! n := getArrayLength /! (-1) in
  let! resource_acls := read_into ((mkResourceAcls (mkResource 0 [] AclResourcePatternTypeLiteral) [])) n (dbs_resource_acls self) (fun x => let! y := ResourceAcls_decode version x /! (-1) in ok y) in
  let! _t := readIf (1 <=? version) getEmptyTaggedFieldArray tt /! (-1) in
  ok (mkDescribeAclsResponse (dbs_version self) throttle_time resource_acls err_msg err).

(* coev_kafka/acl_describe_response.cpp DescribeAclsResponse::key..DescribeAclsResponse::is_flexible *)
#[export] Instance DescribeAclsResponse_body : protocol_body DescribeAclsResponse := {
  pb_encode := DescribeAclsResponse_encode;
  pb_decode := DescribeAclsResponse_decode;
  pb_key _ := 29;
  pb_version := dbs_version;
  pb_header_version m := if 1 <=? dbs_version m then 1 else 0;
  pb_is_valid_version m := (0 <=? dbs_version m) && (dbs_version m <=? 1);
  pb_is_flexible _ := false;
  pb_is_flexible_version _ _ := false;
}.

Definition DescribeAclsResponse_wire (m : DescribeAclsResponse) : list Z :=
  let fl := pb_is_flexible m in
  be 4 (dbs_throttle_time m) ++ be 2 (dbs_err m) ++ w_nullable_string fl (dbs_err_msg m) ++
  w_array_length fl (Zlen (dbs_resource_acls m)) ++
  w_list (ResourceAcls_wire (dbs_version m) fl) (dbs_resource_acls m).
Definition DescribeAclsResponse_ok (m : DescribeAclsResponse) : Prop :=
  let fl := pb_is_flexible m in
  in_s 32 (dbs_throttle_time m) /\ in_s 16 (dbs_err m) /\ string_ok fl (dbs_err_msg m) /\
  array_fits fl (ResourceAcls_ok (dbs_version m) fl) (dbs_resource_acls m).
#[export] Instance DescribeAclsResponse_ok_dec m : Decision (DescribeAclsResponse_ok m).
Proof. unfold DescribeAclsResponse_ok. cbv zeta. apply _. Defined.
Definition DescribeAclsResponse_initial (v : Z) : DescribeAclsResponse :=
  mkDescribeAclsResponse v 0 [] [] 0.
#[export] Hint Unfold DescribeAclsResponse_encode DescribeAclsResponse_decode DescribeAclsResponse_wire DescribeAclsResponse_ok DescribeAclsResponse_initial : message.

Lemma consumes_no_tags c : consumes false (readIf c getEmptyTaggedFieldArray tt) (Ok tt) [].
Proof. destruct c; [apply (consumes_getEmptyTaggedFieldArray false)|apply consumes_ret]. Qed.
Lemma DescribeAclsResponse_emits m :
  DescribeAclsResponse_ok m -> emits (pb_is_flexible m) (pb_encode m) 0 (DescribeAclsResponse_wire m).
Proof. solve_emits m. Qed.
Lemma DescribeAclsResponse_consumes m :
  DescribeAclsResponse_ok m ->
  consumes (pb_is_flexible m) (pb_decode (DescribeAclsResponse_initial (pb_version m)) (pb_version m)) (Ok m) (DescribeAclsResponse_wire m).
Proof.
  open_message m. do 2 (eapply consumes_let_or; [consume_steps|]). eapply consumes_let; [consume_steps|].
  eapply consumes_let_or; [consume_steps|]. eapply consumes_last; [consume_steps|].
  eapply consumes_last_or; [apply consumes_no_tags|apply consumes_ret].
Qed.
#[export] Instance DescribeAclsResponse_format : WireFormat DescribeAclsResponse := {
  wire := DescribeAclsResponse_wire;
  wire_ok := DescribeAclsResponse_ok;
  wire_initial := DescribeAclsResponse_initial;
  wire_flexible _ _ := eq_refl;
  wire_encode := DescribeAclsResponse_emits;
  wire_decode := DescribeAclsResponse_consumes;
}.
(* coev_kafka/acl_describe_response.cpp DescribeAclsResponse::set_version *)
Definition DescribeAclsResponse_set_version (m : DescribeAclsResponse) (v : Z) : DescribeAclsResponse :=
  mkDescribeAclsResponse v (dbs_throttle_time m) (dbs_resource_acls m) (dbs_err_msg m) (dbs_err m).
#[export] Instance DescribeAclsResponse_versioned : Versioned DescribeAclsResponse := { set_version := DescribeAclsResponse_set_version }.
#[export] Instance DescribeAclsResponse_laws : VersionLaws DescribeAclsResponse.
Proof. version_laws. Qed.

