(* ===== verification/ClusterMessages.v ===== *)
(** * Cluster administration

    The bodies about reassignments of partitions, quotas, SCRAM credentials, log directories
    and the members of a group that is joined. *)
From Stdlib Require Import ZArith Lia Bool.
From stdpp Require Import base tactics list numbers.
From S2P Require Import Prelude Errors Wire Decoder Encoder Codec CodecEnc CodecDec EncoderDecoder.
From S2P Require Import StdMap MessageKit SetVersion.

(** ** Reassignments of partitions *)

(** [decode] reports the code of a failed encoding. *)
(* coev_kafka/alter_partition_reassignments_request.h:21-30 AlterPartitionReassignmentsBlock *)
Record AlterPartitionReassignmentsBlock := mkAlterPartitionReassignmentsBlock {
  apb_replicas : list Z }.

(* coev_kafka/alter_partition_reassignments_request.cpp AlterPartitionReassignmentsBlock::encode *)
Definition AlterPartitionReassignmentsBlock_encode (m : AlterPartitionReassignmentsBlock) : PE Z :=
  try putNullableInt32Array (apb_replicas m) /! ErrEncodeError ;;;
  putEmptyTaggedFieldArray ;;;
  ret ErrNoError.

(* coev_kafka/alter_partition_reassignments_request.cpp AlterPartitionReassignmentsBlock::decode *)
Definition AlterPartitionReassignmentsBlock_decode : PD AlterPartitionReassignmentsBlock :=
  let! replicas := getInt32Array /! ErrEncodeError in
  let! _t := getEmptyTaggedFieldArray in
  ok (mkAlterPartitionReassignmentsBlock replicas).

Definition AlterPartitionReassignmentsBlock_wire (fl : bool) (m : AlterPartitionReassignmentsBlock) : list Z :=
  w_nullable_int32_array fl (apb_replicas m) ++ w_tags fl.
Definition AlterPartitionReassignmentsBlock_ok (fl : bool) (m : AlterPartitionReassignmentsBlock) : Prop :=
  int32s_ok fl (apb_replicas m).
#[export] Instance AlterPartitionReassignmentsBlock_ok_dec fl m : Decision (AlterPartitionReassignmentsBlock_ok fl m).
Proof. unfold AlterPartitionReassignmentsBlock_ok. apply _. Defined.
Lemma AlterPartitionReassignmentsBlock_emits fl m : AlterPartitionReassignmentsBlock_ok fl m -> emits fl (AlterPartitionReassignmentsBlock_encode m) 0 (AlterPartitionReassignmentsBlock_wire fl m).
Proof. unfold AlterPartitionReassignmentsBlock_ok, AlterPartitionReassignmentsBlock_encode, AlterPartitionReassignmentsBlock_wire. solve_emits m. Qed.
Lemma AlterPartitionReassignmentsBlock_consumes fl m : AlterPartitionReassignmentsBlock_ok fl m -> consumes fl AlterPartitionReassignmentsBlock_decode (Ok m) (AlterPartitionReassignmentsBlock_wire fl m).
Proof. unfold AlterPartitionReassignmentsBlock_ok, AlterPartitionReassignmentsBlock_decode, AlterPartitionReassignmentsBlock_wire. solve_consumes m. Qed.
#[export] Hint Resolve AlterPartitionReassignmentsBlock_emits : emit.
#[export] Hint Resolve AlterPartitionReassignmentsBlock_consumes : consume.
#[global] Arguments AlterPartitionReassignmentsBlock_wire : simpl never.
#[global] Arguments AlterPartitionReassignmentsBlock_encode : simpl never.
#[global] Arguments AlterPartitionReassignmentsBlock_decode : simpl never.
#[global] Arguments AlterPartitionReassignmentsBlock_ok : simpl never.

(* coev_kafka/alter_partition_reassignments_request.h:32-55 AlterPartitionReassignmentsRequest *)
Record AlterPartitionReassignmentsRequest := mkAlterPartitionReassignmentsRequest {
  arq_version : Z; arq_timeout : Z;
  arq_blocks : list (list Z * list (Z * AlterPartitionReassignmentsBlock)) }.

(* coev_kafka/alter_partition_reassignments_request.cpp AlterPartitionReassignmentsRequest::encode *)
Definition AlterPartitionReassignmentsRequest_encode (m : AlterPartitionReassignmentsRequest) : PE Z :=
  putInt32 (to_i32 (arq_timeout m)) ;;;
  try putArrayLength (to_i32 (Zlen (arq_blocks m))) /! ErrEncodeError ;;;
  try for_try (arq_blocks m) (fun kv =>
    try putString (fst kv) /! ErrEncodeError ;;; try putArrayLength (to_i32 (Zlen (snd kv))) /! ErrEncodeError ;;; try for_try (snd kv) (fun kv =>
    putInt32 (fst kv) ;;; try AlterPartitionReassignmentsBlock_encode (snd kv) /! ErrEncodeError ;;; ret 0) ;;; putEmptyTaggedFieldArray ;;; ret 0) ;;;
  putEmptyTaggedFieldArray ;;;
  ret ErrNoError.

(* coev_kafka/alter_partition_reassignments_request.cpp AlterPartitionReassignmentsRequest::decode *)
Definition AlterPartitionReassignmentsRequest_decode (self : AlterPartitionReassignmentsRequest) (version : Z) : PD AlterPartitionReassignmentsRequest :=
  let! timeout := getInt32 /! ErrDecodeError in
  let! n := getArrayLength /! ErrDecodeError in
  let! blocks := read_map_at [] (Z.to_nat n) (let! k := getString /! ErrDecodeError in ok k)
    (fun v => let! n := getArrayLength /! ErrDecodeError in let! v := read_map_at (mkAlterPartitionReassignmentsBlock []) (Z.to_nat n) (let! k := getInt32 /! ErrDecodeError in ok k)
    (fun v => let! v := AlterPartitionReassignmentsBlock_decode /! ErrDecodeError in ok v) v in let! _t := getEmptyTaggedFieldArray /! ErrDecodeError in ok v) (arq_blocks self) in
  let! _t := getEmptyTaggedFieldArray in
  ok (mkAlterPartitionReassignmentsRequest version timeout blocks).

(* coev_kafka/alter_partition_reassignments_request.cpp AlterPartitionReassignmentsRequest::is_flexible_version *)
Definition AlterPartitionReassignmentsRequest_is_flexible_version (ver : Z) : bool := 0 <=? ver.
(* coev_kafka/alter_partition_reassignments_request.cpp AlterPartitionReassignmentsRequest::key..AlterPartitionReassignmentsRequest::is_flexible *)
#[export] Instance AlterPartitionReassignmentsRequest_body : protocol_body AlterPartitionReassignmentsRequest := {
  pb_encode := AlterPartitionReassignmentsRequest_encode;
  pb_decode := AlterPartitionReassignmentsRequest_decode;
  pb_key _ := 45;
  pb_version := arq_version;
  pb_header_version m := 2;
  pb_is_valid_version m := arq_version m =? 0;
  pb_is_flexible m := AlterPartitionReassignmentsRequest_is_flexible_version (arq_version m);
  pb_is_flexible_version _ := AlterPartitionReassignmentsRequest_is_flexible_version;
}.

Definition AlterPartitionReassignmentsRequest_wire (m : AlterPartitionReassignmentsRequest) : list Z :=
  let fl := pb_is_flexible m in
  be 4 (arq_timeout m) ++ w_array_length fl (Zlen (arq_blocks m)) ++
  w_list (w_pair (w_string fl) ((fun v => w_array_length fl (Zlen v) ++ w_list (w_pair (be 4) (AlterPartitionReassignmentsBlock_wire fl)) v ++ w_tags fl))) (arq_blocks m) ++
  w_tags fl.
Definition AlterPartitionReassignmentsRequest_ok (m : AlterPartitionReassignmentsRequest) : Prop :=
  let fl := pb_is_flexible m in
  in_s 32 (arq_timeout m) /\
  array_fits fl (pair_ok (string_ok fl) ((fun v => array_fits fl (pair_ok (in_s 32) (AlterPartitionReassignmentsBlock_ok fl)) v /\ map_sorted v))) (arq_blocks m) /\
  map_sorted (arq_blocks m).
#[export] Instance AlterPartitionReassignmentsRequest_ok_dec m : Decision (AlterPartitionReassignmentsRequest_ok m).
Proof. unfold AlterPartitionReassignmentsRequest_ok. cbv zeta. apply _. Defined.
Definition AlterPartitionReassignmentsRequest_initial (v : Z) : AlterPartitionReassignmentsRequest :=
  mkAlterPartitionReassignmentsRequest v 0 [].
#[export] Hint Unfold AlterPartitionReassignmentsRequest_encode AlterPartitionReassignmentsRequest_decode AlterPartitionReassignmentsRequest_wire AlterPartitionReassignmentsRequest_ok AlterPartitionReassignmentsRequest_initial : message.

Lemma AlterPartitionReassignmentsRequest_emits m :
  AlterPartitionReassignmentsRequest_ok m -> emits (pb_is_flexible m) (pb_encode m) 0 (AlterPartitionReassignmentsRequest_wire m).
Proof. solve_emits m. Qed.
Lemma AlterPartitionReassignmentsRequest_consumes m :
  AlterPartitionReassignmentsRequest_ok m ->
  consumes (pb_is_flexible m) (pb_decode (AlterPartitionReassignmentsRequest_initial (pb_version m)) (pb_version m)) (Ok m) (AlterPartitionReassignmentsRequest_wire m).
Proof. solve_consumes m. Qed.
#[export] Instance AlterPartitionReassignmentsRequest_format : WireFormat AlterPartitionReassignmentsRequest := {
  wire := AlterPartitionReassignmentsRequest_wire;
  wire_ok := AlterPartitionReassignmentsRequest_ok;
  wire_initial := AlterPartitionReassignmentsRequest_initial;
  wire_flexible _ _ := eq_refl;
  wire_encode := AlterPartitionReassignmentsRequest_emits;
  wire_decode := AlterPartitionReassignmentsRequest_consumes;
}.
(* coev_kafka/alter_partition_reassignments_request.cpp AlterPartitionReassignmentsRequest::set_version *)
Definition AlterPartitionReassignmentsRequest_set_version (m : AlterPartitionReassignmentsRequest) (v : Z) : AlterPartitionReassignmentsRequest :=
  mkAlterPartitionReassignmentsRequest v (arq_timeout m) (arq_blocks m).
#[export] Instance AlterPartitionReassignmentsRequest_versioned : Versioned AlterPartitionReassignmentsRequest := { set_version := AlterPartitionReassignmentsRequest_set_version }.
#[export] Instance AlterPartitionReassignmentsRequest_laws : VersionLaws AlterPartitionReassignmentsRequest.
Proof. version_laws. Qed.

(* coev_kafka/alter_partition_reassignments_response.h:22-33 AlterPartitionReassignmentsErrorBlock *)
Record AlterPartitionReassignmentsErrorBlock := mkAlterPartitionReassignmentsErrorBlock {
  aeb_code : Z; aeb_message : list Z }.

(* coev_kafka/alter_partition_reassignments_response.cpp AlterPartitionReassignmentsErrorBlock::encode *)
Definition AlterPartitionReassignmentsErrorBlock_encode (m : AlterPartitionReassignmentsErrorBlock) : PE Z :=
  putKError (aeb_code m) ;;;
  try putNullableString (aeb_message m) /! ErrEncodeError ;;;
  putEmptyTaggedFieldArray ;;;
  ret ErrNoError.

(* coev_kafka/alter_partition_reassignments_response.cpp AlterPartitionReassignmentsErrorBlock::decode *)
Definition AlterPartitionReassignmentsErrorBlock_decode : PD AlterPartitionReassignmentsErrorBlock :=
  let! code := getKError /! ErrEncodeError in
  let! message := getNullableString /! ErrEncodeError in
  let! _t := getEmptyTaggedFieldArray in
  ok (mkAlterPartitionReassignmentsErrorBlock code message).

Definition AlterPartitionReassignmentsErrorBlock_wire (fl : bool) (m : AlterPartitionReassignmentsErrorBlock) : list Z :=
  be 2 (aeb_code m) ++ w_nullable_string fl (aeb_message m) ++ w_tags fl.
Definition AlterPartitionReassignmentsErrorBlock_ok (fl : bool) (m : AlterPartitionReassignmentsErrorBlock) : Prop :=
  in_s 16 (aeb_code m) /\ string_ok fl (aeb_message m).
#[export] Instance AlterPartitionReassignmentsErrorBlock_ok_dec fl m : Decision (AlterPartitionReassignmentsErrorBlock_ok fl m).
Proof. unfold AlterPartitionReassignmentsErrorBlock_ok. apply _. Defined.
Lemma AlterPartitionReassignmentsErrorBlock_emits fl m : AlterPartitionReassignmentsErrorBlock_ok fl m -> emits fl (AlterPartitionReassignmentsErrorBlock_encode m) 0 (AlterPartitionReassignmentsErrorBlock_wire fl m).
Proof. unfold AlterPartitionReassignmentsErrorBlock_ok, AlterPartitionReassignmentsErrorBlock_encode, AlterPartitionReassignmentsErrorBlock_wire. solve_emits m. Qed.
Lemma AlterPartitionReassignmentsErrorBlock_consumes fl m : AlterPartitionReassignmentsErrorBlock_ok fl m -> consumes fl AlterPartitionReassignmentsErrorBlock_decode (Ok m) (AlterPartitionReassignmentsErrorBlock_wire fl m).
Proof. unfold AlterPartitionReassignmentsErrorBlock_ok, AlterPartitionReassignmentsErrorBlock_decode, AlterPartitionReassignmentsErrorBlock_wire. solve_consumes m. Qed.
#[export] Hint Resolve AlterPartitionReassignmentsErrorBlock_emits : emit.
#[export] Hint Resolve AlterPartitionReassignmentsErrorBlock_consumes : consume.
#[global] Arguments AlterPartitionReassignmentsErrorBlock_wire : simpl never.
#[global] Arguments AlterPartitionReassignmentsErrorBlock_encode : simpl never.
#[global] Arguments AlterPartitionReassignmentsErrorBlock_decode : simpl never.
#[global] Arguments AlterPartitionReassignmentsErrorBlock_ok : simpl never.

(* coev_kafka/alter_partition_reassignments_response.h:35-61 AlterPartitionReassignmentsResponse *)
Record AlterPartitionReassignmentsResponse := mkAlterPartitionReassignmentsResponse {
  ars_version : Z; ars_throttle_time : Z; ars_code : Z; ars_message : list Z;
  ars_errors : list (list Z * list (Z * AlterPartitionReassignmentsErrorBlock)) }.

(* coev_kafka/alter_partition_reassignments_response.cpp AlterPartitionReassignmentsResponse::encode *)
Definition AlterPartitionReassignmentsResponse_encode (m : AlterPartitionReassignmentsResponse) : PE Z :=
  putDurationMs (ars_throttle_time m) ;;;
  putKError (ars_code m) ;;;
  try putNullableString (ars_message m) /! ErrEncodeError ;;;
  try putArrayLength (to_i32 (Zlen (ars_errors m))) /! ErrEncodeError ;;;
  try for_try (ars_errors m) (fun kv =>
    try putString (fst kv) /! ErrEncodeError ;;; try putArrayLength (to_i32 (Zlen (snd kv))) /! ErrEncodeError ;;; try for_try (snd kv) (fun kv =>
    putInt32 (fst kv) ;;; try AlterPartitionReassignmentsErrorBlock_encode (snd kv) /! ErrEncodeError ;;; ret 0) ;;; putEmptyTaggedFieldArray ;;; ret 0) ;;;
  putEmptyTaggedFieldArray ;;;
  ret ErrNoError.

(* coev_kafka/alter_partition_reassignments_response.cpp AlterPartitionReassignmentsResponse::decode *)
Definition AlterPartitionReassignmentsResponse_decode (self : AlterPartitionReassignmentsResponse) (version : Z) : PD AlterPartitionReassignmentsResponse :=
  let! throttle_time := getDurationMs /! ErrDecodeError in
  let! code := getKError /! ErrDecodeError in
  let! message := getNullableString /! ErrDecodeError in
  let! n := getArrayLength /! ErrDecodeError in
  let! errors := read_map_at [] (Z.to_nat n) (let! k := getString /! ErrDecodeError in ok k)
    (fun v => let! n := getArrayLength /! ErrDecodeError in let! v := read_map_at (mkAlterPartitionReassignmentsErrorBlock 0 []) (Z.to_nat n) (let! k := getInt32 /! ErrDecodeError in ok k)
    (fun v => let! v := AlterPartitionReassignmentsErrorBlock_decode /! ErrDecodeError in ok v) v in let! _t := getEmptyTaggedFieldArray /! ErrDecodeError in ok v) (ars_errors self) in
  let! _t := getEmptyTaggedFieldArray in
  ok (mkAlterPartitionReassignmentsResponse version throttle_time code message errors).

(* coev_kafka/alter_partition_reassignments_response.cpp AlterPartitionReassignmentsResponse::is_flexible_version *)
Definition AlterPartitionReassignmentsResponse_is_flexible_version (ver : Z) : bool := 0 <=? ver.
(* coev_kafka/alter_partition_reassignments_response.cpp AlterPartitionReassignmentsResponse::key..AlterPartitionReassignmentsResponse::is_flexible *)
#[export] Instance AlterPartitionReassignmentsResponse_body : protocol_body AlterPartitionReassignmentsResponse := {
  pb_encode := AlterPartitionReassignmentsResponse_encode;
  pb_decode := AlterPartitionReassignmentsResponse_decode;
  pb_key _ := 45;
  pb_version := ars_version;
  pb_header_version m := 1;
  pb_is_valid_version m := ars_version m =? 0;
  pb_is_flexible m := AlterPartitionReassignmentsResponse_is_flexible_version (ars_version m);
  pb_is_flexible_version _ := AlterPartitionReassignmentsResponse_is_flexible_version;
}.

Definition AlterPartitionReassignmentsResponse_wire (m : AlterPartitionReassignmentsResponse) : list Z :=
  let fl := pb_is_flexible m in
  be 4 (ars_throttle_time m) ++ be 2 (ars_code m) ++ w_nullable_string fl (ars_message m) ++
  w_array_length fl (Zlen (ars_errors m)) ++
  w_list (w_pair (w_string fl) ((fun v => w_array_length fl (Zlen v) ++ w_list (w_pair (be 4) (AlterPartitionReassignmentsErrorBlock_wire fl)) v ++ w_tags fl))) (ars_errors m) ++
  w_tags fl.
Definition AlterPartitionReassignmentsResponse_ok (m : AlterPartitionReassignmentsResponse) : Prop :=
  let fl := pb_is_flexible m in
  in_s 32 (ars_throttle_time m) /\ in_s 16 (ars_code m) /\ string_ok fl (ars_message m) /\
  array_fits fl (pair_ok (string_ok fl) ((fun v => array_fits fl (pair_ok (in_s 32) (AlterPartitionReassignmentsErrorBlock_ok fl)) v /\ map_sorted v))) (ars_errors m) /\
  map_sorted (ars_errors m).
#[export] Instance AlterPartitionReassignmentsResponse_ok_dec m : Decision (AlterPartitionReassignmentsResponse_ok m).
Proof. unfold AlterPartitionReassignmentsResponse_ok. cbv zeta. apply _. Defined.
Definition AlterPartitionReassignmentsResponse_initial (v : Z) : AlterPartitionReassignmentsResponse :=
  mkAlterPartitionReassignmentsResponse v 0 0 [] [].
#[export] Hint Unfold AlterPartitionReassignmentsResponse_encode AlterPartitionReassignmentsResponse_decode AlterPartitionReassignmentsResponse_wire AlterPartitionReassignmentsResponse_ok AlterPartitionReassignmentsResponse_initial : message.

Lemma AlterPartitionReassignmentsResponse_emits m :
  AlterPartitionReassignmentsResponse_ok m -> emits (pb_is_flexible m) (pb_encode m) 0 (AlterPartitionReassignmentsResponse_wire m).
Proof. solve_emits m. Qed.
Lemma AlterPartitionReassignmentsResponse_consumes m :
  AlterPartitionReassignmentsResponse_ok m ->
  consumes (pb_is_flexible m) (pb_decode (AlterPartitionReassignmentsResponse_initial (pb_version m)) (pb_version m)) (Ok m) (AlterPartitionReassignmentsResponse_wire m).
Proof. solve_consumes m. Qed.
#[export] Instance AlterPartitionReassignmentsResponse_format : WireFormat AlterPartitionReassignmentsResponse := {
  wire := AlterPartitionReassignmentsResponse_wire;
  wire_ok := AlterPartitionReassignmentsResponse_ok;
  wire_initial := AlterPartitionReassignmentsResponse_initial;
  wire_flexible _ _ := eq_refl;
  wire_encode := AlterPartitionReassignmentsResponse_emits;
  wire_decode := AlterPartitionReassignmentsResponse_consumes;
}.
(* coev_kafka/alter_partition_reassignments_response.cpp AlterPartitionReassignmentsResponse::set_version *)
Definition AlterPartitionReassignmentsResponse_set_version (m : AlterPartitionReassignmentsResponse) (v : Z) : AlterPartitionReassignmentsResponse :=
  mkAlterPartitionReassignmentsResponse v (ars_throttle_time m) (ars_code m) (ars_message m) (ars_errors m).
#[export] Instance AlterPartitionReassignmentsResponse_versioned : Versioned AlterPartitionReassignmentsResponse := { set_version := AlterPartitionReassignmentsResponse_set_version }.
#[export] Instance AlterPartitionReassignmentsResponse_laws : VersionLaws AlterPartitionReassignmentsResponse.
Proof. version_laws. Qed.

(* coev_kafka/list_partition_reassignments_response.h:26-34 PartitionReplicaReassignmentsStatus *)
Record PartitionReplicaReassignmentsStatus := mkPartitionReplicaReassignmentsStatus {
  prs_replicas : list Z; prs_adding_replicas : list Z; prs_removing_replicas : list Z }.

(* coev_kafka/list_partition_reassignments_response.cpp PartitionReplicaReassignmentsStatus::encode *)
Definition PartitionReplicaReassignmentsStatus_encode (m : PartitionReplicaReassignmentsStatus) : PE Z :=
  try putInt32Array (prs_replicas m) ;;;
  try putInt32Array (prs_adding_replicas m) ;;;
  try putInt32Array (prs_removing_replicas m) ;;;
  putEmptyTaggedFieldArray ;;;
  ret 0.

(* coev_kafka/list_partition_reassignments_response.cpp PartitionReplicaReassignmentsStatus::decode *)
Definition PartitionReplicaReassignmentsStatus_decode : PD PartitionReplicaReassignmentsStatus :=
  let! replicas := getInt32Array in
  let! adding_replicas := getInt32Array in
  let! removing_replicas := getInt32Array in
  let! _t := getEmptyTaggedFieldArray in
  ok (mkPartitionReplicaReassignmentsStatus replicas adding_replicas removing_replicas).

Definition PartitionReplicaReassignmentsStatus_wire (fl : bool) (m : PartitionReplicaReassignmentsStatus) : list Z :=
  w_int32_array fl (prs_replicas m) ++ w_int32_array fl (prs_adding_replicas m) ++
  w_int32_array fl (prs_removing_replicas m) ++ w_tags fl.
Definition PartitionReplicaReassignmentsStatus_ok (fl : bool) (m : PartitionReplicaReassignmentsStatus) : Prop :=
  int32s_ok fl (prs_replicas m) /\ int32s_ok fl (prs_adding_replicas m) /\
  int32s_ok fl (prs_removing_replicas m).
#[export] Instance PartitionReplicaReassignmentsStatus_ok_dec fl m : Decision (PartitionReplicaReassignmentsStatus_ok fl m).
Proof. unfold PartitionReplicaReassignmentsStatus_ok. apply _. Defined.
Lemma PartitionReplicaReassignmentsStatus_emits fl m : PartitionReplicaReassignmentsStatus_ok fl m -> emits fl (PartitionReplicaReassignmentsStatus_encode m) 0 (PartitionReplicaReassignmentsStatus_wire fl m).
Proof. unfold PartitionReplicaReassignmentsStatus_ok, PartitionReplicaReassignmentsStatus_encode, PartitionReplicaReassignmentsStatus_wire. solve_emits m. Qed.
Lemma PartitionReplicaReassignmentsStatus_consumes fl m : PartitionReplicaReassignmentsStatus_ok fl m -> consumes fl PartitionReplicaReassignmentsStatus_decode (Ok m) (PartitionReplicaReassignmentsStatus_wire fl m).
Proof. unfold PartitionReplicaReassignmentsStatus_ok, PartitionReplicaReassignmentsStatus_decode, PartitionReplicaReassignmentsStatus_wire. solve_consumes m. Qed.
#[export] Hint Resolve PartitionReplicaReassignmentsStatus_emits : emit.
#[export] Hint Resolve PartitionReplicaReassignmentsStatus_consumes : consume.
#[global] Arguments PartitionReplicaReassignmentsStatus_wire : simpl never.
#[global] Arguments PartitionReplicaReassignmentsStatus_encode : simpl never.
#[global] Arguments PartitionReplicaReassignmentsStatus_decode : simpl never.
#[global] Arguments PartitionReplicaReassignmentsStatus_ok : simpl never.

(* coev_kafka/list_partition_reassignments_response.h:36-59 ListPartitionReassignmentsResponse *)
Record ListPartitionReassignmentsResponse := mkListPartitionReassignmentsResponse {
  lps_version : Z; lps_throttle_time : Z; lps_err : Z; lps_message : list Z;
  lps_topic_status : list (list Z * list (Z * PartitionReplicaReassignmentsStatus)) }.

(* coev_kafka/list_partition_reassignments_response.cpp ListPartitionReassignmentsResponse::encode *)
Definition ListPartitionReassignmentsResponse_encode (m : ListPartitionReassignmentsResponse) : PE Z :=
  putDurationMs (lps_throttle_time m) ;;;
  putKError (lps_err m) ;;;
  try putNullableString (lps_message m) ;;;
  try putArrayLength (to_i32 (Zlen (lps_topic_status m))) ;;;
  try for_try (lps_topic_status m) (fun kv =>
    try putString (fst kv) ;;; try putArrayLength (to_i32 (Zlen (snd kv))) ;;; try for_try (snd kv) (fun kv =>
    putInt32 (fst kv) ;;; try PartitionReplicaReassignmentsStatus_encode (snd kv) ;;; ret 0) ;;; putEmptyTaggedFieldArray ;;; ret 0) ;;;
  putEmptyTaggedFieldArray ;;;
  ret 0.

(* coev_kafka/list_partition_reassignments_response.cpp ListPartitionReassignmentsResponse::decode *)
Definition ListPartitionReassignmentsResponse_decode (self : ListPartitionReassignmentsResponse) (version : Z) : PD ListPartitionReassignmentsResponse :=
  let! throttle_time := getDurationMs in
  let! err := getKError in
  let! message := getNullableString in
  let! n := getArrayLength in
  let! topic_status := read_map_at [] (Z.to_nat n) getString
    (fun v => let! n := getArrayLength in let! v := read_map_at (mkPartitionReplicaReassignmentsStatus [] [] []) (Z.to_nat n) getInt32
    (fun v => let! v := PartitionReplicaReassignmentsStatus_decode in ok v) v in let! _t := getEmptyTaggedFieldArray in ok v) [] in
  let! _t := getEmptyTaggedFieldArray in
  ok (mkListPartitionReassignmentsResponse version throttle_time err message topic_status).

(* coev_kafka/list_partition_reassignments_response.cpp ListPartitionReassignmentsResponse::is_flexible_version *)
Definition ListPartitionReassignmentsResponse_is_flexible_version (ver : Z) : bool := true.
(* coev_kafka/list_partition_reassignments_response.cpp ListPartitionReassignmentsResponse::key..ListPartitionReassignmentsResponse::is_flexible *)
#[export] Instance ListPartitionReassignmentsResponse_body : protocol_body ListPartitionReassignmentsResponse := {
  pb_encode := ListPartitionReassignmentsResponse_encode;
  pb_decode := ListPartitionReassignmentsResponse_decode;
  pb_key _ := 46;
  pb_version := lps_version;
  pb_header_version m := 1;
  pb_is_valid_version m := (0 <=? lps_version m) && (lps_version m <=? 1);
  pb_is_flexible m := ListPartitionReassignmentsResponse_is_flexible_version (lps_version m);
  pb_is_flexible_version _ := ListPartitionReassignmentsResponse_is_flexible_version;
}.

Definition ListPartitionReassignmentsResponse_wire (m : ListPartitionReassignmentsResponse) : list Z :=
  let fl := pb_is_flexible m in
  be 4 (lps_throttle_time m) ++ be 2 (lps_err m) ++ w_nullable_string fl (lps_message m) ++
  w_array_length fl (Zlen (lps_topic_status m)) ++
  w_list (w_pair (w_string fl) ((fun v => w_array_length fl (Zlen v) ++ w_list (w_pair (be 4) (PartitionReplicaReassignmentsStatus_wire fl)) v ++ w_tags fl))) (lps_topic_status m) ++
  w_tags fl.
Definition ListPartitionReassignmentsResponse_ok (m : ListPartitionReassignmentsResponse) : Prop :=
  let fl := pb_is_flexible m in
  in_s 32 (lps_throttle_time m) /\ in_s 16 (lps_err m) /\ string_ok fl (lps_message m) /\
  array_fits fl (pair_ok (string_ok fl) ((fun v => array_fits fl (pair_ok (in_s 32) (PartitionReplicaReassignmentsStatus_ok fl)) v /\ map_sorted v))) (lps_topic_status m) /\
  map_sorted (lps_topic_status m).
#[export] Instance ListPartitionReassignmentsResponse_ok_dec m : Decision (ListPartitionReassignmentsResponse_ok m).
Proof. unfold ListPartitionReassignmentsResponse_ok. cbv zeta. apply _. Defined.
Definition ListPartitionReassignmentsResponse_initial (v : Z) : ListPartitionReassignmentsResponse :=
  mkListPartitionReassignmentsResponse v 0 0 [] [].
#[export] Hint Unfold ListPartitionReassignmentsResponse_encode ListPartitionReassignmentsResponse_decode ListPartitionReassignmentsResponse_wire ListPartitionReassignmentsResponse_ok ListPartitionReassignmentsResponse_initial : message.

Lemma ListPartitionReassignmentsResponse_emits m :
  ListPartitionReassignmentsResponse_ok m -> emits (pb_is_flexible m) (pb_encode m) 0 (ListPartitionReassignmentsResponse_wire m).
Proof. solve_emits m. Qed.
Lemma ListPartitionReassignmentsResponse_consumes m :
  ListPartitionReassignmentsResponse_ok m ->
  consumes (pb_is_flexible m) (pb_decode (ListPartitionReassignmentsResponse_initial (pb_version m)) (pb_version m)) (Ok m) (ListPartitionReassignmentsResponse_wire m).
Proof. solve_consumes m. Qed.
#[export] Instance ListPartitionReassignmentsResponse_format : WireFormat ListPartitionReassignmentsResponse := {
  wire := ListPartitionReassignmentsResponse_wire;
  wire_ok := ListPartitionReassignmentsResponse_ok;
  wire_initial := ListPartitionReassignmentsResponse_initial;
  wire_flexible _ _ := eq_refl;
  wire_encode := ListPartitionReassignmentsResponse_emits;
  wire_decode := ListPartitionReassignmentsResponse_consumes;
}.
(* coev_kafka/list_partition_reassignments_response.cpp ListPartitionReassignmentsResponse::set_version *)
Definition ListPartitionReassignmentsResponse_set_version (m : ListPartitionReassignmentsResponse) (v : Z) : ListPartitionReassignmentsResponse :=
  mkListPartitionReassignmentsResponse v (lps_throttle_time m) (lps_err m) (lps_message m) (lps_topic_status m).
#[export] Instance ListPartitionReassignmentsResponse_versioned : Versioned ListPartitionReassignmentsResponse := { set_version := ListPartitionReassignmentsResponse_set_version }.
#[export] Instance ListPartitionReassignmentsResponse_laws : VersionLaws ListPartitionReassignmentsResponse.
Proof. version_laws. Qed.

(** ** Quotas: a component without a name is the default one *)

(* coev_kafka/quota_types.h:15-20 QuotaMatchType *)
Definition QuotaMatchExact : Z := 0.
Definition QuotaMatchDefault : Z := 1.
Definition QuotaMatchAny : Z := 2.
(* coev_kafka/describe_client_quotas_response.h:24-32 QuotaEntityComponent *)
Record QuotaEntityComponent := mkQuotaEntityComponent {
  qec_entity_type : list Z; qec_match_type : Z; qec_name : list Z }.

(* coev_kafka/describe_client_quotas_response.cpp QuotaEntityComponent::encode *)
Definition QuotaEntityComponent_encode (m : QuotaEntityComponent) : PE Z :=
  try putString (qec_entity_type m) /! ErrEncodeError ;;;
  try (if qec_match_type m =? QuotaMatchDefault
       then try putNullableString [] /! ErrEncodeError ;;; ret 0
       else try putString (qec_name m) /! ErrEncodeError ;;; ret 0) ;;;
  putEmptyTaggedFieldArray ;;;
  ret ErrNoError.

(* coev_kafka/describe_client_quotas_response.cpp QuotaEntityComponent::decode *)
Definition QuotaEntityComponent_decode : PD QuotaEntityComponent :=
  let! entity_type := getString /! ErrDecodeError in
  let! name := getNullableString /! ErrDecodeError in
  let match_type := if empty name then QuotaMatchDefault else QuotaMatchExact in
  let! _t := getEmptyTaggedFieldArray /! ErrDecodeError in
  ok (mkQuotaEntityComponent entity_type match_type name).

Definition QuotaEntityComponent_wire (fl : bool) (m : QuotaEntityComponent) : list Z :=
  w_string fl (qec_entity_type m) ++ w_nullable_string fl (qec_name m) ++ w_tags fl.
Definition QuotaEntityComponent_ok (fl : bool) (m : QuotaEntityComponent) : Prop :=
  string_ok fl (qec_entity_type m) /\ string_ok fl (qec_name m) /\
  qec_match_type m = (if empty (qec_name m) then QuotaMatchDefault else QuotaMatchExact).
#[export] Instance QuotaEntityComponent_ok_dec fl m : Decision (QuotaEntityComponent_ok fl m).
Proof. unfold QuotaEntityComponent_ok. apply _. Defined.
Lemma QuotaEntityComponent_emits fl m :
  QuotaEntityComponent_ok fl m -> emits fl (QuotaEntityComponent_encode m) 0 (QuotaEntityComponent_wire fl m).
Proof.
  unfold QuotaEntityComponent_ok, QuotaEntityComponent_encode, QuotaEntityComponent_wire. intros (Ht & Hn & ->).
  eapply emits_check; [by apply emits_putString|]. destruct (empty (qec_name m)) eqn:E.
  - apply empty_nil in E. rewrite E in *. cbn [Z.eqb QuotaMatchDefault Pos.eqb]. emit_steps.
  - cbn [Z.eqb QuotaMatchDefault QuotaMatchExact]. unfold w_nullable_string. rewrite E. emit_steps.
Qed.
Lemma QuotaEntityComponent_consumes fl m :
  QuotaEntityComponent_ok fl m -> consumes fl QuotaEntityComponent_decode (Ok m) (QuotaEntityComponent_wire fl m).
Proof.
  unfold QuotaEntityComponent_ok, QuotaEntityComponent_decode, QuotaEntityComponent_wire.
  destruct m. cbn. intros (Ht & Hn & ->). consume_steps.
Qed.
#[export] Hint Resolve QuotaEntityComponent_emits : emit.
#[export] Hint Resolve QuotaEntityComponent_consumes : consume.
#[global] Arguments QuotaEntityComponent_wire : simpl never.
#[global] Arguments QuotaEntityComponent_encode : simpl never.
#[global] Arguments QuotaEntityComponent_decode : simpl never.
#[global] Arguments QuotaEntityComponent_ok : simpl never.

(** A [double] is its bits. *)
(* coev_kafka/describe_client_quotas_response.h:34-41 DescribeClientQuotasEntry *)
Record DescribeClientQuotasEntry := mkDescribeClientQuotasEntry {
  dqe_entity : list QuotaEntityComponent; dqe_values : list (list Z * Z) }.

(* coev_kafka/describe_client_quotas_response.cpp DescribeClientQuotasEntry::encode *)
Definition DescribeClientQuotasEntry_encode (m : DescribeClientQuotasEntry) : PE Z :=
  try putArrayLength (to_i32 (Zlen (dqe_entity m))) /! ErrEncodeError ;;;
  try for_try (dqe_entity m) (fun x => try QuotaEntityComponent_encode x /! ErrEncodeError ;;; ret 0) ;;;
  try putArrayLength (to_i32 (Zlen (dqe_values m))) /! ErrEncodeError ;;;
  try for_try (dqe_values m) (fun kv =>
    try putString (fst kv) /! ErrEncodeError ;;; putFloat64 (snd kv) ;;; putEmptyTaggedFieldArray ;;; ret 0) ;;;
  putEmptyTaggedFieldArray ;;;
  ret ErrNoError.

(* coev_kafka/describe_client_quotas_response.cpp DescribeClientQuotasEntry::decode *)
Definition DescribeClientQuotasEntry_decode : PD DescribeClientQuotasEntry :=
  let! n := getArrayLength /! ErrDecodeError in
  let! entity := read_counted n (let! y := QuotaEntityComponent_decode /! ErrDecodeError in ok y) in
  let! n := getArrayLength /! ErrDecodeError in
  let! values := read_map n (
    let! k := getString /! ErrDecodeError in let! v := getFloat64 /! ErrDecodeError in let! _t := getEmptyTaggedFieldArray /! ErrDecodeError in ok (k, v)) in
  let! _t := getEmptyTaggedFieldArray /! ErrDecodeError in
  ok (mkDescribeClientQuotasEntry entity values).

Definition DescribeClientQuotasEntry_wire (fl : bool) (m : DescribeClientQuotasEntry) : list Z :=
  w_array_length fl (Zlen (dqe_entity m)) ++
  w_list (QuotaEntityComponent_wire fl) (dqe_entity m) ++
  w_array_length fl (Zlen (dqe_values m)) ++
  w_list (w_pair (w_string fl) (fun v => be 8 v ++ w_tags fl)) (dqe_values m) ++ w_tags fl.
Definition DescribeClientQuotasEntry_ok (fl : bool) (m : DescribeClientQuotasEntry) : Prop :=
  array_fits fl (QuotaEntityComponent_ok fl) (dqe_entity m) /\
  array_fits fl (pair_ok (string_ok fl) (in_u 64)) (dqe_values m) /\ map_sorted (dqe_values m).
#[export] Instance DescribeClientQuotasEntry_ok_dec fl m : Decision (DescribeClientQuotasEntry_ok fl m).
Proof. unfold DescribeClientQuotasEntry_ok. apply _. Defined.
Lemma DescribeClientQuotasEntry_emits fl m : DescribeClientQuotasEntry_ok fl m -> emits fl (DescribeClientQuotasEntry_encode m) 0 (DescribeClientQuotasEntry_wire fl m).
Proof. unfold DescribeClientQuotasEntry_ok, DescribeClientQuotasEntry_encode, DescribeClientQuotasEntry_wire. solve_emits m. Qed.
Lemma DescribeClientQuotasEntry_consumes fl m : DescribeClientQuotasEntry_ok fl m -> consumes fl DescribeClientQuotasEntry_decode (Ok m) (DescribeClientQuotasEntry_wire fl m).
Proof. unfold DescribeClientQuotasEntry_ok, DescribeClientQuotasEntry_decode, DescribeClientQuotasEntry_wire. solve_consumes m. Qed.
#[export] Hint Resolve DescribeClientQuotasEntry_emits : emit.
#[export] Hint Resolve DescribeClientQuotasEntry_consumes : consume.
#[global] Arguments DescribeClientQuotasEntry_wire : simpl never.
#[global] Arguments DescribeClientQuotasEntry_encode : simpl never.
#[global] Arguments DescribeClientQuotasEntry_decode : simpl never.
#[global] Arguments DescribeClientQuotasEntry_ok : simpl never.

(* coev_kafka/describe_client_quotas_response.h:43-63 DescribeClientQuotasResponse *)
Record DescribeClientQuotasResponse := mkDescribeClientQuotasResponse {
  dqs_version : Z; dqs_throttle_time : Z; dqs_code : Z; dqs_message : list Z;
  dqs_entries : list DescribeClientQuotasEntry }.

(* coev_kafka/describe_client_quotas_response.cpp DescribeClientQuotasResponse::encode *)
Definition DescribeClientQuotasResponse_encode (m : DescribeClientQuotasResponse) : PE Z :=
  putDurationMs (dqs_throttle_time m) ;;;
  putInt16 (dqs_code m) ;;;
  try putNullableString (dqs_message m) /! ErrEncodeError ;;;
  try putArrayLength (to_i32 (Zlen (dqs_entries m))) /! ErrEncodeError ;;;
  try for_try (dqs_entries m) (fun x => try DescribeClientQuotasEntry_encode x /! ErrEncodeError ;;; ret 0) ;;;
  putEmptyTaggedFieldArray ;;;
  ret ErrNoError.

(* coev_kafka/describe_client_quotas_response.cpp DescribeClientQuotasResponse::decode *)
Definition DescribeClientQuotasResponse_decode (self : DescribeClientQuotasResponse) (version : Z) : PD DescribeClientQuotasResponse :=
  let! throttle_time := getInt32 /! ErrDecodeError in
  let! code := getInt16 /! ErrDecodeError in
  let! message := getNullableString /! ErrDecodeError in
  let! n := getArrayLength /! ErrDecodeError in
  let! entries := read_counted n (let! y := DescribeClientQuotasEntry_decode /! ErrDecodeError in ok y) in
  let! _t := readIf (1 <=? version) getEmptyTaggedFieldArray tt /! ErrDecodeError in
  ok (mkDescribeClientQuotasResponse version throttle_time code message entries).

(* coev_kafka/describe_client_quotas_response.cpp DescribeClientQuotasResponse::is_flexible_version *)
Definition DescribeClientQuotasResponse_is_flexible_version (ver : Z) : bool := 1 <=? ver.
(* coev_kafka/describe_client_quotas_response.cpp DescribeClientQuotasResponse::key..DescribeClientQuotasResponse::is_flexible *)
#[export] Instance DescribeClientQuotasResponse_body : protocol_body DescribeClientQuotasResponse := {
  pb_encode := DescribeClientQuotasResponse_encode;
  pb_decode := DescribeClientQuotasResponse_decode;
  pb_key _ := 48;
  pb_version := dqs_version;
  pb_header_version m := if 1 <=? dqs_version m then 1 else 0;
  pb_is_valid_version m := (0 <=? dqs_version m) && (dqs_version m <=? 1);
  pb_is_flexible m := DescribeClientQuotasResponse_is_flexible_version (dqs_version m);
  pb_is_flexible_version _ := DescribeClientQuotasResponse_is_flexible_version;
}.

Definition DescribeClientQuotasResponse_wire (m : DescribeClientQuotasResponse) : list Z :=
  let fl := pb_is_flexible m in
  be 4 (dqs_throttle_time m) ++ be 2 (dqs_code m) ++ w_nullable_string fl (dqs_message m) ++
  w_array_length fl (Zlen (dqs_entries m)) ++
  w_list (DescribeClientQuotasEntry_wire fl) (dqs_entries m) ++
  w_when (1 <=? dqs_version m) (w_tags fl).
Definition DescribeClientQuotasResponse_ok (m : DescribeClientQuotasResponse) : Prop :=
  let fl := pb_is_flexible m in
  in_s 32 (dqs_throttle_time m) /\ in_s 16 (dqs_code m) /\ string_ok fl (dqs_message m) /\
  array_fits fl (DescribeClientQuotasEntry_ok fl) (dqs_entries m).
#[export] Instance DescribeClientQuotasResponse_ok_dec m : Decision (DescribeClientQuotasResponse_ok m).
Proof. unfold DescribeClientQuotasResponse_ok. cbv zeta. apply _. Defined.
Definition DescribeClientQuotasResponse_initial (v : Z) : DescribeClientQuotasResponse :=
  mkDescribeClientQuotasResponse v 0 0 [] [].
#[export] Hint Unfold DescribeClientQuotasResponse_encode DescribeClientQuotasResponse_decode DescribeClientQuotasResponse_wire DescribeClientQuotasResponse_ok DescribeClientQuotasResponse_initial : message.

Lemma DescribeClientQuotasResponse_emits m :
  DescribeClientQuotasResponse_ok m -> emits (pb_is_flexible m) (pb_encode m) 0 (DescribeClientQuotasResponse_wire m).
Proof. solve_emits m. Qed.
Lemma DescribeClientQuotasResponse_consumes m :
  DescribeClientQuotasResponse_ok m ->
  consumes (pb_is_flexible m) (pb_decode (DescribeClientQuotasResponse_initial (pb_version m)) (pb_version m)) (Ok m) (DescribeClientQuotasResponse_wire m).
Proof. solve_consumes m. Qed.
#[export] Instance DescribeClientQuotasResponse_format : WireFormat DescribeClientQuotasResponse := {
  wire := DescribeClientQuotasResponse_wire;
  wire_ok := DescribeClientQuotasResponse_ok;
  wire_initial := DescribeClientQuotasResponse_initial;
  wire_flexible _ _ := eq_refl;
  wire_encode := DescribeClientQuotasResponse_emits;
  wire_decode := DescribeClientQuotasResponse_consumes;
}.
(* coev_kafka/describe_client_quotas_response.cpp DescribeClientQuotasResponse::set_version *)
Definition DescribeClientQuotasResponse_set_version (m : DescribeClientQuotasResponse) (v : Z) : DescribeClientQuotasResponse :=
  mkDescribeClientQuotasResponse v (dqs_throttle_time m) (dqs_code m) (dqs_message m) (dqs_entries m).
#[export] Instance DescribeClientQuotasResponse_versioned : Versioned DescribeClientQuotasResponse := { set_version := DescribeClientQuotasResponse_set_version }.
#[export] Instance DescribeClientQuotasResponse_laws : VersionLaws DescribeClientQuotasResponse.
Proof. version_laws. Qed.

(* coev_kafka/alter_client_quotas_request.h:31-39 ClientQuotasOp *)
Record ClientQuotasOp := mkClientQuotasOp {
  cqo_key : list Z; cqo_value : Z; cqo_remove : bool }.

(* coev_kafka/alter_client_quotas_request.cpp ClientQuotasOp::encode *)
Definition ClientQuotasOp_encode (m : ClientQuotasOp) : PE Z :=
  try putString (cqo_key m) /! ErrEncodeError ;;;
  putFloat64 (cqo_value m) ;;;
  putBool (cqo_remove m) ;;;
  ret ErrNoError.

(* coev_kafka/alter_client_quotas_request.cpp ClientQuotasOp::decode *)
Definition ClientQuotasOp_decode : PD ClientQuotasOp :=
  let! key := getString /! ErrEncodeError in
  let! value := getFloat64 /! ErrEncodeError in
  let! remove := getBool /! ErrEncodeError in
  ok (mkClientQuotasOp key value remove).

Definition ClientQuotasOp_wire (fl : bool) (m : ClientQuotasOp) : list Z :=
  w_string fl (cqo_key m) ++ be 8 (cqo_value m) ++ w_bool (cqo_remove m).
Definition ClientQuotasOp_ok (fl : bool) (m : ClientQuotasOp) : Prop :=
  string_ok fl (cqo_key m) /\ in_u 64 (cqo_value m).
#[export] Instance ClientQuotasOp_ok_dec fl m : Decision (ClientQuotasOp_ok fl m).
Proof. unfold ClientQuotasOp_ok. apply _. Defined.
Lemma ClientQuotasOp_emits fl m : ClientQuotasOp_ok fl m -> emits fl (ClientQuotasOp_encode m) 0 (ClientQuotasOp_wire fl m).
Proof. unfold ClientQuotasOp_ok, ClientQuotasOp_encode, ClientQuotasOp_wire. solve_emits m. Qed.
Lemma ClientQuotasOp_consumes fl m : ClientQuotasOp_ok fl m -> consumes fl ClientQuotasOp_decode (Ok m) (ClientQuotasOp_wire fl m).
Proof. unfold ClientQuotasOp_ok, ClientQuotasOp_decode, ClientQuotasOp_wire. solve_consumes m. Qed.
#[export] Hint Resolve ClientQuotasOp_emits : emit.
#[export] Hint Resolve ClientQuotasOp_consumes : consume.
#[global] Arguments ClientQuotasOp_wire : simpl never.
#[global] Arguments ClientQuotasOp_encode : simpl never.
#[global] Arguments ClientQuotasOp_decode : simpl never.
#[global] Arguments ClientQuotasOp_ok : simpl never.

(* coev_kafka/alter_client_quotas_request.h:22-29 AlterClientQuotasEntry *)
Record AlterClientQuotasEntry := mkAlterClientQuotasEntry {
  aqe_entity : list QuotaEntityComponent; aqe_ops : list ClientQuotasOp }.

(* coev_kafka/alter_client_quotas_request.cpp AlterClientQuotasEntry::encode *)
Definition AlterClientQuotasEntry_encode (m : AlterClientQuotasEntry) : PE Z :=
  try putArrayLength (to_i32 (Zlen (aqe_entity m))) /! ErrEncodeError ;;;
  try for_try (aqe_entity m) (fun x => try QuotaEntityComponent_encode x /! ErrEncodeError ;;; ret 0) ;;;
  try putArrayLength (to_i32 (Zlen (aqe_ops m))) /! ErrEncodeError ;;;
  try for_try (aqe_ops m) (fun x => try ClientQuotasOp_encode x /! ErrEncodeError ;;; ret 0) ;;;
  ret ErrNoError.

(* coev_kafka/alter_client_quotas_request.cpp AlterClientQuotasEntry::decode *)
Definition AlterClientQuotasEntry_decode : PD AlterClientQuotasEntry :=
  let! n := getArrayLength /! ErrEncodeError in
  let! entity := read_counted n (let! y := QuotaEntityComponent_decode /! ErrEncodeError in ok y) in
  let! n := getArrayLength /! ErrEncodeError in
  let! ops := read_counted n (let! y := ClientQuotasOp_decode /! ErrEncodeError in ok y) in
  ok (mkAlterClientQuotasEntry entity ops).

Definition AlterClientQuotasEntry_wire (fl : bool) (m : AlterClientQuotasEntry) : list Z :=
  w_array_length fl (Zlen (aqe_entity m)) ++
  w_list (QuotaEntityComponent_wire fl) (aqe_entity m) ++ w_array_length fl (Zlen (aqe_ops m)) ++
  w_list (ClientQuotasOp_wire fl) (aqe_ops m).
Definition AlterClientQuotasEntry_ok (fl : bool) (m : AlterClientQuotasEntry) : Prop :=
  array_fits fl (QuotaEntityComponent_ok fl) (aqe_entity m) /\
  array_fits fl (ClientQuotasOp_ok fl) (aqe_ops m).
#[export] Instance AlterClientQuotasEntry_ok_dec fl m : Decision (AlterClientQuotasEntry_ok fl m).
Proof. unfold AlterClientQuotasEntry_ok. apply _. Defined.
Lemma AlterClientQuotasEntry_emits fl m : AlterClientQuotasEntry_ok fl m -> emits fl (AlterClientQuotasEntry_encode m) 0 (AlterClientQuotasEntry_wire fl m).
Proof. unfold AlterClientQuotasEntry_ok, AlterClientQuotasEntry_encode, AlterClientQuotasEntry_wire. solve_emits m. Qed.
Lemma AlterClientQuotasEntry_consumes fl m : AlterClientQuotasEntry_ok fl m -> consumes fl AlterClientQuotasEntry_decode (Ok m) (AlterClientQuotasEntry_wire fl m).
Proof. unfold AlterClientQuotasEntry_ok, AlterClientQuotasEntry_decode, AlterClientQuotasEntry_wire. solve_consumes m. Qed.
#[export] Hint Resolve AlterClientQuotasEntry_emits : emit.
#[export] Hint Resolve AlterClientQuotasEntry_consumes : consume.
#[global] Arguments AlterClientQuotasEntry_wire : simpl never.
#[global] Arguments AlterClientQuotasEntry_encode : simpl never.
#[global] Arguments AlterClientQuotasEntry_decode : simpl never.
#[global] Arguments AlterClientQuotasEntry_ok : simpl never.

(* coev_kafka/alter_client_quotas_request.h:41-60 AlterClientQuotasRequest *)
Record AlterClientQuotasRequest := mkAlterClientQuotasRequest {
  aqq_version : Z; aqq_entries : list AlterClientQuotasEntry; aqq_validate_only : bool }.

(* coev_kafka/alter_client_quotas_request.cpp AlterClientQuotasRequest::encode *)
Definition AlterClientQuotasRequest_encode (m : AlterClientQuotasRequest) : PE Z :=
  try putArrayLength (to_i32 (Zlen (aqq_entries m))) /! ErrEncodeError ;;;
  try for_try (aqq_entries m) (fun x => try AlterClientQuotasEntry_encode x /! ErrEncodeError ;;; ret 0) ;;;
  putBool (aqq_validate_only m) ;;;
  ret ErrNoError.

(* coev_kafka/alter_client_quotas_request.cpp AlterClientQuotasRequest::decode *)
Definition AlterClientQuotasRequest_decode (self : AlterClientQuotasRequest) (version : Z) : PD AlterClientQuotasRequest :=
  let! n := getArrayLength /! ErrDecodeError in
  let! entries := read_counted n (let! y := AlterClientQuotasEntry_decode /! ErrDecodeError in ok y) in
  let! validate_only := getBool /! ErrDecodeError in
  ok (mkAlterClientQuotasRequest (aqq_version self) entries validate_only).

(* coev_kafka/alter_client_quotas_request.cpp AlterClientQuotasRequest::key..AlterClientQuotasRequest::is_valid_version *)
#[export] Instance AlterClientQuotasRequest_body : protocol_body AlterClientQuotasRequest := {
  pb_encode := AlterClientQuotasRequest_encode;
  pb_decode := AlterClientQuotasRequest_decode;
  pb_key _ := 49;
  pb_version := aqq_version;
  pb_header_version m := 1;
  pb_is_valid_version m := aqq_version m =? 0;
  pb_is_flexible _ := false;
  pb_is_flexible_version _ _ := false;
}.

Definition AlterClientQuotasRequest_wire (m : AlterClientQuotasRequest) : list Z :=
  let fl := pb_is_flexible m in
  w_array_length fl (Zlen (aqq_entries m)) ++
  w_list (AlterClientQuotasEntry_wire fl) (aqq_entries m) ++ w_bool (aqq_validate_only m).
Definition AlterClientQuotasRequest_ok (m : AlterClientQuotasRequest) : Prop :=
  let fl := pb_is_flexible m in
  array_fits fl (AlterClientQuotasEntry_ok fl) (aqq_entries m).
#[export] Instance AlterClientQuotasRequest_ok_dec m : Decision (AlterClientQuotasRequest_ok m).
Proof. unfold AlterClientQuotasRequest_ok. cbv zeta. apply _. Defined.
Definition AlterClientQuotasRequest_initial (v : Z) : AlterClientQuotasRequest :=
  mkAlterClientQuotasRequest v [] false.
#[export] Hint Unfold AlterClientQuotasRequest_encode AlterClientQuotasRequest_decode AlterClientQuotasRequest_wire AlterClientQuotasRequest_ok AlterClientQuotasRequest_initial : message.

Lemma AlterClientQuotasRequest_emits m :
  AlterClientQuotasRequest_ok m -> emits (pb_is_flexible m) (pb_encode m) 0 (AlterClientQuotasRequest_wire m).
Proof. solve_emits m. Qed.
Lemma AlterClientQuotasRequest_consumes m :
  AlterClientQuotasRequest_ok m ->
  consumes (pb_is_flexible m) (pb_decode (AlterClientQuotasRequest_initial (pb_version m)) (pb_version m)) (Ok m) (AlterClientQuotasRequest_wire m).
Proof. solve_consumes m. Qed.
#[export] Instance AlterClientQuotasRequest_format : WireFormat AlterClientQuotasRequest := {
  wire := AlterClientQuotasRequest_wire;
  wire_ok := AlterClientQuotasRequest_ok;
  wire_initial := AlterClientQuotasRequest_initial;
  wire_flexible _ _ := eq_refl;
  wire_encode := AlterClientQuotasRequest_emits;
  wire_decode := AlterClientQuotasRequest_consumes;
}.
(* coev_kafka/alter_client_quotas_request.cpp AlterClientQuotasRequest::set_version *)
Definition AlterClientQuotasRequest_set_version (m : AlterClientQuotasRequest) (v : Z) : AlterClientQuotasRequest :=
  mkAlterClientQuotasRequest v (aqq_entries m) (aqq_validate_only m).
#[export] Instance AlterClientQuotasRequest_versioned : Versioned AlterClientQuotasRequest := { set_version := AlterClientQuotasRequest_set_version }.
#[export] Instance AlterClientQuotasRequest_laws : VersionLaws AlterClientQuotasRequest.
Proof. version_laws. Qed.

(* coev_kafka/alter_client_quotas_response.h:24-42 AlterClientQuotasEntryResponse *)
Record AlterClientQuotasEntryResponse := mkAlterClientQuotasEntryResponse {
  aqp_version : Z; aqp_code : Z; aqp_message : list Z; aqp_entity : list QuotaEntityComponent }.

(* coev_kafka/alter_client_quotas_response.cpp AlterClientQuotasEntryResponse::encode *)
Definition AlterClientQuotasEntryResponse_encode (m : AlterClientQuotasEntryResponse) : PE Z :=
  putKError (aqp_code m) ;;;
  try putNullableString (aqp_message m) ;;;
  try putArrayLength (to_i32 (Zlen (aqp_entity m))) ;;;
  try for_try (aqp_entity m) QuotaEntityComponent_encode ;;;
  ret 0.

(* coev_kafka/alter_client_quotas_response.cpp AlterClientQuotasEntryResponse::decode *)
Definition AlterClientQuotasEntryResponse_decode : PD AlterClientQuotasEntryResponse :=
  let! code := getKError in
  let! message := getNullableString in
  let! n := getArrayLength in
  let! entity := read_counted n QuotaEntityComponent_decode in
  ok (mkAlterClientQuotasEntryResponse 0 code message entity).

Definition AlterClientQuotasEntryResponse_wire (fl : bool) (m : AlterClientQuotasEntryResponse) : list Z :=
  be 2 (aqp_code m) ++ w_nullable_string fl (aqp_message m) ++
  w_array_length fl (Zlen (aqp_entity m)) ++ w_list (QuotaEntityComponent_wire fl) (aqp_entity m).
Definition AlterClientQuotasEntryResponse_ok (fl : bool) (m : AlterClientQuotasEntryResponse) : Prop :=
  aqp_version m = 0 /\ in_s 16 (aqp_code m) /\ string_ok fl (aqp_message m) /\
  array_fits fl (QuotaEntityComponent_ok fl) (aqp_entity m).
#[export] Instance AlterClientQuotasEntryResponse_ok_dec fl m : Decision (AlterClientQuotasEntryResponse_ok fl m).
Proof. unfold AlterClientQuotasEntryResponse_ok. apply _. Defined.
Lemma AlterClientQuotasEntryResponse_emits fl m : AlterClientQuotasEntryResponse_ok fl m -> emits fl (AlterClientQuotasEntryResponse_encode m) 0 (AlterClientQuotasEntryResponse_wire fl m).
Proof. unfold AlterClientQuotasEntryResponse_ok, AlterClientQuotasEntryResponse_encode, AlterClientQuotasEntryResponse_wire. solve_emits m. Qed.
Lemma AlterClientQuotasEntryResponse_consumes fl m : AlterClientQuotasEntryResponse_ok fl m -> consumes fl AlterClientQuotasEntryResponse_decode (Ok m) (AlterClientQuotasEntryResponse_wire fl m).
Proof. unfold AlterClientQuotasEntryResponse_ok, AlterClientQuotasEntryResponse_decode, AlterClientQuotasEntryResponse_wire. solve_consumes m. Qed.
#[export] Hint Resolve AlterClientQuotasEntryResponse_emits : emit.
#[export] Hint Resolve AlterClientQuotasEntryResponse_consumes : consume.
#[global] Arguments AlterClientQuotasEntryResponse_wire : simpl never.
#[global] Arguments AlterClientQuotasEntryResponse_encode : simpl never.
#[global] Arguments AlterClientQuotasEntryResponse_decode : simpl never.
#[global] Arguments AlterClientQuotasEntryResponse_ok : simpl never.

(* coev_kafka/alter_client_quotas_response.h:44-59 AlterClientQuotasResponse *)
Record AlterClientQuotasResponse := mkAlterClientQuotasResponse {
  aqs_version : Z; aqs_throttle_time : Z; aqs_entries : list AlterClientQuotasEntryResponse }.

(* coev_kafka/alter_client_quotas_response.cpp AlterClientQuotasResponse::encode *)
Definition AlterClientQuotasResponse_encode (m : AlterClientQuotasResponse) : PE Z :=
  putDurationMs (aqs_throttle_time m) ;;;
  try putArrayLength (to_i32 (Zlen (aqs_entries m))) ;;;
  try for_try (aqs_entries m) AlterClientQuotasEntryResponse_encode ;;;
  ret 0.

(* coev_kafka/alter_client_quotas_response.cpp AlterClientQuotasResponse::decode *)
Definition AlterClientQuotasResponse_decode (self : AlterClientQuotasResponse) (version : Z) : PD AlterClientQuotasResponse :=
  let! throttle_time := getDurationMs in
  let! n := getArrayLength in
  let! entries := read_counted n AlterClientQuotasEntryResponse_decode in
  ok (mkAlterClientQuotasResponse (aqs_version self) throttle_time entries).

(* coev_kafka/alter_client_quotas_response.cpp AlterClientQuotasResponse::key..AlterClientQuotasResponse::is_valid_version *)
#[export] Instance AlterClientQuotasResponse_body : protocol_body AlterClientQuotasResponse := {
  pb_encode := AlterClientQuotasResponse_encode;
  pb_decode := AlterClientQuotasResponse_decode;
  pb_key _ := 49;
  pb_version := aqs_version;
  pb_header_version m := 0;
  pb_is_valid_version m := aqs_version m =? 0;
  pb_is_flexible _ := false;
  pb_is_flexible_version _ _ := false;
}.

Definition AlterClientQuotasResponse_wire (m : AlterClientQuotasResponse) : list Z :=
  let fl := pb_is_flexible m in
  be 4 (aqs_throttle_time m) ++ w_array_length fl (Zlen (aqs_entries m)) ++
  w_list (AlterClientQuotasEntryResponse_wire fl) (aqs_entries m).
Definition AlterClientQuotasResponse_ok (m : AlterClientQuotasResponse) : Prop :=
  let fl := pb_is_flexible m in
  in_s 32 (aqs_throttle_time m) /\
  array_fits fl (AlterClientQuotasEntryResponse_ok fl) (aqs_entries m).
#[export] Instance AlterClientQuotasResponse_ok_dec m : Decision (AlterClientQuotasResponse_ok m).
Proof. unfold AlterClientQuotasResponse_ok. cbv zeta. apply _. Defined.
Definition AlterClientQuotasResponse_initial (v : Z) : AlterClientQuotasResponse :=
  mkAlterClientQuotasResponse v 0 [].
#[export] Hint Unfold AlterClientQuotasResponse_encode AlterClientQuotasResponse_decode AlterClientQuotasResponse_wire AlterClientQuotasResponse_ok AlterClientQuotasResponse_initial : message.

Lemma AlterClientQuotasResponse_emits m :
  AlterClientQuotasResponse_ok m -> emits (pb_is_flexible m) (pb_encode m) 0 (AlterClientQuotasResponse_wire m).
Proof. solve_emits m. Qed.
Lemma AlterClientQuotasResponse_consumes m :
  AlterClientQuotasResponse_ok m ->
  consumes (pb_is_flexible m) (pb_decode (AlterClientQuotasResponse_initial (pb_version m)) (pb_version m)) (Ok m) (AlterClientQuotasResponse_wire m).
Proof. solve_consumes m. Qed.
#[export] Instance AlterClientQuotasResponse_format : WireFormat AlterClientQuotasResponse := {
  wire := AlterClientQuotasResponse_wire;
  wire_ok := AlterClientQuotasResponse_ok;
  wire_initial := AlterClientQuotasResponse_initial;
  wire_flexible _ _ := eq_refl;
  wire_encode := AlterClientQuotasResponse_emits;
  wire_decode := AlterClientQuotasResponse_consumes;
}.
(* coev_kafka/alter_client_quotas_response.cpp AlterClientQuotasResponse::set_version *)
Definition AlterClientQuotasResponse_set_version (m : AlterClientQuotasResponse) (v : Z) : AlterClientQuotasResponse :=
  mkAlterClientQuotasResponse v (aqs_throttle_time m) (aqs_entries m).
#[export] Instance AlterClientQuotasResponse_versioned : Versioned AlterClientQuotasResponse := { set_version := AlterClientQuotasResponse_set_version }.
#[export] Instance AlterClientQuotasResponse_laws : VersionLaws AlterClientQuotasResponse.
Proof. version_laws. Qed.

(** ** SCRAM credentials *)

(* coev_kafka/alter_user_scram_credentials_response.h:22-27 AlterUserScramCredentialsResult *)
Record AlterUserScramCredentialsResult := mkAlterUserScramCredentialsResult {
  aur_user : list Z; aur_code : Z; aur_message : list Z }.

(* coev_kafka/alter_user_scram_credentials_response.cpp:26-38 AlterUserScramCredentialsResponse::encode *)
Definition AlterUserScramCredentialsResult_encode (m : AlterUserScramCredentialsResult) : PE Z :=
  try putString (aur_user m) /! ErrEncodeError ;;;
  putKError (aur_code m) ;;;
  try putNullableString (aur_message m) /! ErrEncodeError ;;;
  putEmptyTaggedFieldArray ;;;
  ret ErrNoError.

(* coev_kafka/alter_user_scram_credentials_response.cpp:60-81 AlterUserScramCredentialsResponse::decode *)
Definition AlterUserScramCredentialsResult_decode : PD AlterUserScramCredentialsResult :=
  let! user := getString /! ErrEncodeError in
  let! code := getKError /! ErrEncodeError in
  let! message := getNullableString /! ErrEncodeError in
  let! _t := getEmptyTaggedFieldArray /! ErrEncodeError in
  ok (mkAlterUserScramCredentialsResult user code message).

Definition AlterUserScramCredentialsResult_wire (fl : bool) (m : AlterUserScramCredentialsResult) : list Z :=
  w_string fl (aur_user m) ++ be 2 (aur_code m) ++ w_nullable_string fl (aur_message m) ++
  w_tags fl.
Definition AlterUserScramCredentialsResult_ok (fl : bool) (m : AlterUserScramCredentialsResult) : Prop :=
  string_ok fl (aur_user m) /\ in_s 16 (aur_code m) /\ string_ok fl (aur_message m).
#[export] Instance AlterUserScramCredentialsResult_ok_dec fl m : Decision (AlterUserScramCredentialsResult_ok fl m).
Proof. unfold AlterUserScramCredentialsResult_ok. apply _. Defined.
Lemma AlterUserScramCredentialsResult_emits fl m : AlterUserScramCredentialsResult_ok fl m -> emits fl (AlterUserScramCredentialsResult_encode m) 0 (AlterUserScramCredentialsResult_wire fl m).
Proof. unfold AlterUserScramCredentialsResult_ok, AlterUserScramCredentialsResult_encode, AlterUserScramCredentialsResult_wire. solve_emits m. Qed.
Lemma AlterUserScramCredentialsResult_consumes fl m : AlterUserScramCredentialsResult_ok fl m -> consumes fl AlterUserScramCredentialsResult_decode (Ok m) (AlterUserScramCredentialsResult_wire fl m).
Proof. unfold AlterUserScramCredentialsResult_ok, AlterUserScramCredentialsResult_decode, AlterUserScramCredentialsResult_wire. solve_consumes m. Qed.
#[export] Hint Resolve AlterUserScramCredentialsResult_emits : emit.
#[export] Hint Resolve AlterUserScramCredentialsResult_consumes : consume.
#[global] Arguments AlterUserScramCredentialsResult_wire : simpl never.
#[global] Arguments AlterUserScramCredentialsResult_encode : simpl never.
#[global] Arguments AlterUserScramCredentialsResult_decode : simpl never.
#[global] Arguments AlterUserScramCredentialsResult_ok : simpl never.

(* coev_kafka/alter_user_scram_credentials_response.h:29-52 AlterUserScramCredentialsResponse *)
Record AlterUserScramCredentialsResponse := mkAlterUserScramCredentialsResponse {
  aus_version : Z; aus_throttle_time : Z; aus_results : list AlterUserScramCredentialsResult }.

(* coev_kafka/alter_user_scram_credentials_response.cpp AlterUserScramCredentialsResponse::encode *)
Definition AlterUserScramCredentialsResponse_encode (m : AlterUserScramCredentialsResponse) : PE Z :=
  putDurationMs (aus_throttle_time m) ;;;
  try putArrayLength (to_i32 (Zlen (aus_results m))) /! ErrEncodeError ;;;
  try for_try (aus_results m) (fun x => try AlterUserScramCredentialsResult_encode x /! ErrEncodeError ;;; ret 0) ;;;
  putEmptyTaggedFieldArray ;;;
  ret ErrNoError.

(* coev_kafka/alter_user_scram_credentials_response.cpp AlterUserScramCredentialsResponse::decode *)
Definition AlterUserScramCredentialsResponse_decode (self : AlterUserScramCredentialsResponse) (version : Z) : PD AlterUserScramCredentialsResponse :=
  let! throttle_time := getDurationMs /! ErrEncodeError in
  let! n := getArrayLength /! ErrEncodeError in
  let! results := read_counted n (let! y := AlterUserScramCredentialsResult_decode /! ErrEncodeError in ok y) in
  let! _t := getEmptyTaggedFieldArray in
  ok (mkAlterUserScramCredentialsResponse (aus_version self) throttle_time results).

(* coev_kafka/alter_user_scram_credentials_response.cpp AlterUserScramCredentialsResponse::is_flexible_version *)
Definition AlterUserScramCredentialsResponse_is_flexible_version (ver : Z) : bool := 0 <=? ver.
(* coev_kafka/alter_user_scram_credentials_response.cpp AlterUserScramCredentialsResponse::key..AlterUserScramCredentialsResponse::is_flexible *)
#[export] Instance AlterUserScramCredentialsResponse_body : protocol_body AlterUserScramCredentialsResponse := {
  pb_encode := AlterUserScramCredentialsResponse_encode;
  pb_decode := AlterUserScramCredentialsResponse_decode;
  pb_key _ := 51;
  pb_version := aus_version;
  pb_header_version m := 2;
  pb_is_valid_version m := (0 <=? aus_version m) && (aus_version m <=? 1);
  pb_is_flexible m := AlterUserScramCredentialsResponse_is_flexible_version (aus_version m);
  pb_is_flexible_version _ := AlterUserScramCredentialsResponse_is_flexible_version;
}.

Definition AlterUserScramCredentialsResponse_wire (m : AlterUserScramCredentialsResponse) : list Z :=
  let fl := pb_is_flexible m in
  be 4 (aus_throttle_time m) ++ w_array_length fl (Zlen (aus_results m)) ++
  w_list (AlterUserScramCredentialsResult_wire fl) (aus_results m) ++ w_tags fl.
Definition AlterUserScramCredentialsResponse_ok (m : AlterUserScramCredentialsResponse) : Prop :=
  let fl := pb_is_flexible m in
  in_s 32 (aus_throttle_time m) /\
  array_fits fl (AlterUserScramCredentialsResult_ok fl) (aus_results m).
#[export] Instance AlterUserScramCredentialsResponse_ok_dec m : Decision (AlterUserScramCredentialsResponse_ok m).
Proof. unfold AlterUserScramCredentialsResponse_ok. cbv zeta. apply _. Defined.
Definition AlterUserScramCredentialsResponse_initial (v : Z) : AlterUserScramCredentialsResponse :=
  mkAlterUserScramCredentialsResponse v 0 [].
#[export] Hint Unfold AlterUserScramCredentialsResponse_encode AlterUserScramCredentialsResponse_decode AlterUserScramCredentialsResponse_wire AlterUserScramCredentialsResponse_ok AlterUserScramCredentialsResponse_initial : message.

Lemma AlterUserScramCredentialsResponse_emits m :
  AlterUserScramCredentialsResponse_ok m -> emits (pb_is_flexible m) (pb_encode m) 0 (AlterUserScramCredentialsResponse_wire m).
Proof. solve_emits m. Qed.
Lemma AlterUserScramCredentialsResponse_consumes m :
  AlterUserScramCredentialsResponse_ok m ->
  consumes (pb_is_flexible m) (pb_decode (AlterUserScramCredentialsResponse_initial (pb_version m)) (pb_version m)) (Ok m) (AlterUserScramCredentialsResponse_wire m).
Proof. solve_consumes m. Qed.
#[export] Instance AlterUserScramCredentialsResponse_format : WireFormat AlterUserScramCredentialsResponse := {
  wire := AlterUserScramCredentialsResponse_wire;
  wire_ok := AlterUserScramCredentialsResponse_ok;
  wire_initial := AlterUserScramCredentialsResponse_initial;
  wire_flexible _ _ := eq_refl;
  wire_encode := AlterUserScramCredentialsResponse_emits;
  wire_decode := AlterUserScramCredentialsResponse_consumes;
}.
(* coev_kafka/alter_user_scram_credentials_response.cpp AlterUserScramCredentialsResponse::set_version *)
Definition AlterUserScramCredentialsResponse_set_version (m : AlterUserScramCredentialsResponse) (v : Z) : AlterUserScramCredentialsResponse :=
  mkAlterUserScramCredentialsResponse v (aus_throttle_time m) (aus_results m).
#[export] Instance AlterUserScramCredentialsResponse_versioned : Versioned AlterUserScramCredentialsResponse := { set_version := AlterUserScramCredentialsResponse_set_version }.
#[export] Instance AlterUserScramCredentialsResponse_laws : VersionLaws AlterUserScramCredentialsResponse.
Proof. version_laws. Qed.

(* coev_kafka/describe_user_scram_credentials_request.h:20-23 DescribeUserScramCredentialsRequestUser *)
Record DescribeUserScramCredentialsRequestUser := mkDescribeUserScramCredentialsRequestUser {
  duu_name : list Z }.

(* coev_kafka/describe_user_scram_credentials_request.cpp:23-30 DescribeUserScramCredentialsRequest::encode *)
Definition DescribeUserScramCredentialsRequestUser_encode (m : DescribeUserScramCredentialsRequestUser) : PE Z :=
  try putString (duu_name m) /! ErrEncodeError ;;;
  putEmptyTaggedFieldArray ;;;
  ret ErrNoError.

(* coev_kafka/describe_user_scram_credentials_request.cpp:51-63 DescribeUserScramCredentialsRequest::decode *)
Definition DescribeUserScramCredentialsRequestUser_decode : PD DescribeUserScramCredentialsRequestUser :=
  let! name := getString /! ErrDecodeError in
  let! _t := getEmptyTaggedFieldArray /! ErrDecodeError in
  ok (mkDescribeUserScramCredentialsRequestUser name).

Definition DescribeUserScramCredentialsRequestUser_wire (fl : bool) (m : DescribeUserScramCredentialsRequestUser) : list Z :=
  w_string fl (duu_name m) ++ w_tags fl.
Definition DescribeUserScramCredentialsRequestUser_ok (fl : bool) (m : DescribeUserScramCredentialsRequestUser) : Prop :=
  string_ok fl (duu_name m).
#[export] Instance DescribeUserScramCredentialsRequestUser_ok_dec fl m : Decision (DescribeUserScramCredentialsRequestUser_ok fl m).
Proof. unfold DescribeUserScramCredentialsRequestUser_ok. apply _. Defined.
Lemma DescribeUserScramCredentialsRequestUser_emits fl m : DescribeUserScramCredentialsRequestUser_ok fl m -> emits fl (DescribeUserScramCredentialsRequestUser_encode m) 0 (DescribeUserScramCredentialsRequestUser_wire fl m).
Proof. unfold DescribeUserScramCredentialsRequestUser_ok, DescribeUserScramCredentialsRequestUser_encode, DescribeUserScramCredentialsRequestUser_wire. solve_emits m. Qed.
Lemma DescribeUserScramCredentialsRequestUser_consumes fl m : DescribeUserScramCredentialsRequestUser_ok fl m -> consumes fl DescribeUserScramCredentialsRequestUser_decode (Ok m) (DescribeUserScramCredentialsRequestUser_wire fl m).
Proof. unfold DescribeUserScramCredentialsRequestUser_ok, DescribeUserScramCredentialsRequestUser_decode, DescribeUserScramCredentialsRequestUser_wire. solve_consumes m. Qed.
#[export] Hint Resolve DescribeUserScramCredentialsRequestUser_emits : emit.
#[export] Hint Resolve DescribeUserScramCredentialsRequestUser_consumes : consume.
#[global] Arguments DescribeUserScramCredentialsRequestUser_wire : simpl never.
#[global] Arguments DescribeUserScramCredentialsRequestUser_encode : simpl never.
#[global] Arguments DescribeUserScramCredentialsRequestUser_decode : simpl never.
#[global] Arguments DescribeUserScramCredentialsRequestUser_ok : simpl never.

(* coev_kafka/describe_user_scram_credentials_request.h:25-43 DescribeUserScramCredentialsRequest *)
Record DescribeUserScramCredentialsRequest := mkDescribeUserScramCredentialsRequest {
  duq_version : Z; duq_describe_users : list DescribeUserScramCredentialsRequestUser }.

(* coev_kafka/describe_user_scram_credentials_request.cpp DescribeUserScramCredentialsRequest::encode *)
Definition DescribeUserScramCredentialsRequest_encode (m : DescribeUserScramCredentialsRequest) : PE Z :=
  try putArrayLength (to_i32 (Zlen (duq_describe_users m))) /! ErrEncodeError ;;;
  try for_try (duq_describe_users m) (fun x => try DescribeUserScramCredentialsRequestUser_encode x /! ErrEncodeError ;;; ret 0) ;;;
  putEmptyTaggedFieldArray ;;;
  ret ErrNoError.

(* coev_kafka/describe_user_scram_credentials_request.cpp DescribeUserScramCredentialsRequest::decode *)
Definition DescribeUserScramCredentialsRequest_decode (self : DescribeUserScramCredentialsRequest) (version : Z) : PD DescribeUserScramCredentialsRequest :=
  let! n := getArrayLength /! ErrDecodeError in
  let! describe_users := read_resized n (let! y := DescribeUserScramCredentialsRequestUser_decode /! ErrDecodeError in ok y) in
  let! _t := getEmptyTaggedFieldArray /! ErrDecodeError in
  ok (mkDescribeUserScramCredentialsRequest version describe_users).

(* coev_kafka/describe_user_scram_credentials_request.cpp DescribeUserScramCredentialsRequest::is_flexible_version *)
Definition DescribeUserScramCredentialsRequest_is_flexible_version (ver : Z) : bool := 0 <=? ver.
(* coev_kafka/describe_user_scram_credentials_request.cpp DescribeUserScramCredentialsRequest::key..DescribeUserScramCredentialsRequest::is_flexible *)
#[export] Instance DescribeUserScramCredentialsRequest_body : protocol_body DescribeUserScramCredentialsRequest := {
  pb_encode := DescribeUserScramCredentialsRequest_encode;
  pb_decode := DescribeUserScramCredentialsRequest_decode;
  pb_key _ := 50;
  pb_version := duq_version;
  pb_header_version m := 2;
  pb_is_valid_version m := (0 <=? duq_version m) && (duq_version m <=? 1);
  pb_is_flexible m := DescribeUserScramCredentialsRequest_is_flexible_version (duq_version m);
  pb_is_flexible_version _ := DescribeUserScramCredentialsRequest_is_flexible_version;
}.

Definition DescribeUserScramCredentialsRequest_wire (m : DescribeUserScramCredentialsRequest) : list Z :=
  let fl := pb_is_flexible m in
  w_array_length fl (Zlen (duq_describe_users m)) ++
  w_list (DescribeUserScramCredentialsRequestUser_wire fl) (duq_describe_users m) ++ w_tags fl.
Definition DescribeUserScramCredentialsRequest_ok (m : DescribeUserScramCredentialsRequest) : Prop :=
  let fl := pb_is_flexible m in
  array_fits fl (DescribeUserScramCredentialsRequestUser_ok fl) (duq_describe_users m).
#[export] Instance DescribeUserScramCredentialsRequest_ok_dec m : Decision (DescribeUserScramCredentialsRequest_ok m).
Proof. unfold DescribeUserScramCredentialsRequest_ok. cbv zeta. apply _. Defined.
Definition DescribeUserScramCredentialsRequest_initial (v : Z) : DescribeUserScramCredentialsRequest :=
  mkDescribeUserScramCredentialsRequest v [].
#[export] Hint Unfold DescribeUserScramCredentialsRequest_encode DescribeUserScramCredentialsRequest_decode DescribeUserScramCredentialsRequest_wire DescribeUserScramCredentialsRequest_ok DescribeUserScramCredentialsRequest_initial : message.

Lemma DescribeUserScramCredentialsRequest_emits m :
  DescribeUserScramCredentialsRequest_ok m -> emits (pb_is_flexible m) (pb_encode m) 0 (DescribeUserScramCredentialsRequest_wire m).
Proof. solve_emits m. Qed.
Lemma DescribeUserScramCredentialsRequest_consumes m :
  DescribeUserScramCredentialsRequest_ok m ->
  consumes (pb_is_flexible m) (pb_decode (DescribeUserScramCredentialsRequest_initial (pb_version m)) (pb_version m)) (Ok m) (DescribeUserScramCredentialsRequest_wire m).
Proof. solve_consumes m. Qed.
#[export] Instance DescribeUserScramCredentialsRequest_format : WireFormat DescribeUserScramCredentialsRequest := {
  wire := DescribeUserScramCredentialsRequest_wire;
  wire_ok := DescribeUserScramCredentialsRequest_ok;
  wire_initial := DescribeUserScramCredentialsRequest_initial;
  wire_flexible _ _ := eq_refl;
  wire_encode := DescribeUserScramCredentialsRequest_emits;
  wire_decode := DescribeUserScramCredentialsRequest_consumes;
}.
(* coev_kafka/describe_user_scram_credentials_request.cpp DescribeUserScramCredentialsRequest::set_version *)
Definition DescribeUserScramCredentialsRequest_set_version (m : DescribeUserScramCredentialsRequest) (v : Z) : DescribeUserScramCredentialsRequest :=
  mkDescribeUserScramCredentialsRequest v (duq_describe_users m).
#[export] Instance DescribeUserScramCredentialsRequest_versioned : Versioned DescribeUserScramCredentialsRequest := { set_version := DescribeUserScramCredentialsRequest_set_version }.
#[export] Instance DescribeUserScramCredentialsRequest_laws : VersionLaws DescribeUserScramCredentialsRequest.
Proof. version_laws. Qed.

(* coev_kafka/describe_user_scram_credentials_response.h:24-28 UserScramCredentialsResponseInfo *)
Record UserScramCredentialsResponseInfo := mkUserScramCredentialsResponseInfo {
  dui_mechanism : Z; dui_iterations : Z }.

(* coev_kafka/describe_user_scram_credentials_response.cpp:48-53 DescribeUserScramCredentialsResponse::encode *)
Definition UserScramCredentialsResponseInfo_encode (m : UserScramCredentialsResponseInfo) : PE Z :=
  putInt8 (dui_mechanism m) ;;;
  putInt32 (dui_iterations m) ;;;
  putEmptyTaggedFieldArray ;;;
  ret ErrNoError.

(* coev_kafka/describe_user_scram_credentials_response.cpp:113-134 DescribeUserScramCredentialsResponse::decode *)
Definition UserScramCredentialsResponseInfo_decode : PD UserScramCredentialsResponseInfo :=
  let! mechanism := getInt8 /! ErrDecodeError in
  let! iterations := getInt32 /! ErrDecodeError in
  let! _t := getEmptyTaggedFieldArray /! ErrDecodeError in
  ok (mkUserScramCredentialsResponseInfo mechanism iterations).

Definition UserScramCredentialsResponseInfo_wire (fl : bool) (m : UserScramCredentialsResponseInfo) : list Z :=
  be 1 (dui_mechanism m) ++ be 4 (dui_iterations m) ++ w_tags fl.
Definition UserScramCredentialsResponseInfo_ok (fl : bool) (m : UserScramCredentialsResponseInfo) : Prop :=
  in_s 8 (dui_mechanism m) /\ in_s 32 (dui_iterations m).
#[export] Instance UserScramCredentialsResponseInfo_ok_dec fl m : Decision (UserScramCredentialsResponseInfo_ok fl m).
Proof. unfold UserScramCredentialsResponseInfo_ok. apply _. Defined.
Lemma UserScramCredentialsResponseInfo_emits fl m : UserScramCredentialsResponseInfo_ok fl m -> emits fl (UserScramCredentialsResponseInfo_encode m) 0 (UserScramCredentialsResponseInfo_wire fl m).
Proof. unfold UserScramCredentialsResponseInfo_ok, UserScramCredentialsResponseInfo_encode, UserScramCredentialsResponseInfo_wire. solve_emits m. Qed.
Lemma UserScramCredentialsResponseInfo_consumes fl m : UserScramCredentialsResponseInfo_ok fl m -> consumes fl UserScramCredentialsResponseInfo_decode (Ok m) (UserScramCredentialsResponseInfo_wire fl m).
Proof. unfold UserScramCredentialsResponseInfo_ok, UserScramCredentialsResponseInfo_decode, UserScramCredentialsResponseInfo_wire. solve_consumes m. Qed.
#[export] Hint Resolve UserScramCredentialsResponseInfo_emits : emit.
#[export] Hint Resolve UserScramCredentialsResponseInfo_consumes : consume.
#[global] Arguments UserScramCredentialsResponseInfo_wire : simpl never.
#[global] Arguments UserScramCredentialsResponseInfo_encode : simpl never.
#[global] Arguments UserScramCredentialsResponseInfo_decode : simpl never.
#[global] Arguments UserScramCredentialsResponseInfo_ok : simpl never.

(* coev_kafka/describe_user_scram_credentials_response.h:30-36 DescribeUserScramCredentialsResult *)
Record DescribeUserScramCredentialsResult := mkDescribeUserScramCredentialsResult {
  dur_user : list Z; dur_code : Z; dur_message : list Z;
  dur_credential_infos : list UserScramCredentialsResponseInfo }.

(* coev_kafka/describe_user_scram_credentials_response.cpp:31-56 DescribeUserScramCredentialsResponse::encode *)
Definition DescribeUserScramCredentialsResult_encode (m : DescribeUserScramCredentialsResult) : PE Z :=
  try putString (dur_user m) /! ErrEncodeError ;;;
  putKError (dur_code m) ;;;
  try putNullableString (dur_message m) /! ErrEncodeError ;;;
  try putArrayLength (to_i32 (Zlen (dur_credential_infos m))) /! ErrEncodeError ;;;
  try for_try (dur_credential_infos m) (fun x => try UserScramCredentialsResponseInfo_encode x /! ErrEncodeError ;;; ret 0) ;;;
  putEmptyTaggedFieldArray ;;;
  ret ErrNoError.

(* coev_kafka/describe_user_scram_credentials_response.cpp:89-141 DescribeUserScramCredentialsResponse::decode *)
Definition DescribeUserScramCredentialsResult_decode : PD DescribeUserScramCredentialsResult :=
  let! user := getString /! ErrDecodeError in
  let! code := getKError /! ErrDecodeError in
  let! message := getNullableString /! ErrDecodeError in
  let! n := getArrayLength /! ErrDecodeError in
  let! credential_infos := read_resized n (let! y := UserScramCredentialsResponseInfo_decode /! ErrDecodeError in ok y) in
  let! _t := getEmptyTaggedFieldArray /! ErrDecodeError in
  ok (mkDescribeUserScramCredentialsResult user code message credential_infos).

Definition DescribeUserScramCredentialsResult_wire (fl : bool) (m : DescribeUserScramCredentialsResult) : list Z :=
  w_string fl (dur_user m) ++ be 2 (dur_code m) ++ w_nullable_string fl (dur_message m) ++
  w_array_length fl (Zlen (dur_credential_infos m)) ++
  w_list (UserScramCredentialsResponseInfo_wire fl) (dur_credential_infos m) ++ w_tags fl.
Definition DescribeUserScramCredentialsResult_ok (fl : bool) (m : DescribeUserScramCredentialsResult) : Prop :=
  string_ok fl (dur_user m) /\ in_s 16 (dur_code m) /\ string_ok fl (dur_message m) /\
  array_fits fl (UserScramCredentialsResponseInfo_ok fl) (dur_credential_infos m).
#[export] Instance DescribeUserScramCredentialsResult_ok_dec fl m : Decision (DescribeUserScramCredentialsResult_ok fl m).
Proof. unfold DescribeUserScramCredentialsResult_ok. apply _. Defined.
Lemma DescribeUserScramCredentialsResult_emits fl m : DescribeUserScramCredentialsResult_ok fl m -> emits fl (DescribeUserScramCredentialsResult_encode m) 0 (DescribeUserScramCredentialsResult_wire fl m).
Proof. unfold DescribeUserScramCredentialsResult_ok, DescribeUserScramCredentialsResult_encode, DescribeUserScramCredentialsResult_wire. solve_emits m. Qed.
Lemma DescribeUserScramCredentialsResult_consumes fl m : DescribeUserScramCredentialsResult_ok fl m -> consumes fl DescribeUserScramCredentialsResult_decode (Ok m) (DescribeUserScramCredentialsResult_wire fl m).
Proof. unfold DescribeUserScramCredentialsResult_ok, DescribeUserScramCredentialsResult_decode, DescribeUserScramCredentialsResult_wire. solve_consumes m. Qed.
#[export] Hint Resolve DescribeUserScramCredentialsResult_emits : emit.
#[export] Hint Resolve DescribeUserScramCredentialsResult_consumes : consume.
#[global] Arguments DescribeUserScramCredentialsResult_wire : simpl never.
#[global] Arguments DescribeUserScramCredentialsResult_encode : simpl never.
#[global] Arguments DescribeUserScramCredentialsResult_decode : simpl never.
#[global] Arguments DescribeUserScramCredentialsResult_ok : simpl never.

(* coev_kafka/describe_user_scram_credentials_response.h:38-57 DescribeUserScramCredentialsResponse *)
Record DescribeUserScramCredentialsResponse := mkDescribeUserScramCredentialsResponse {
  dus_version : Z; dus_throttle_time : Z; dus_code : Z; dus_message : list Z;
  dus_results : list DescribeUserScramCredentialsResult }.

(* coev_kafka/describe_user_scram_credentials_response.cpp DescribeUserScramCredentialsResponse::encode *)
Definition DescribeUserScramCredentialsResponse_encode (m : DescribeUserScramCredentialsResponse) : PE Z :=
  putDurationMs (dus_throttle_time m) ;;;
  putKError (dus_code m) ;;;
  try putNullableString (dus_message m) /! ErrEncodeError ;;;
  try putArrayLength (to_i32 (Zlen (dus_results m))) /! ErrEncodeError ;;;
  try for_try (dus_results m) (fun x => try DescribeUserScramCredentialsResult_encode x /! ErrEncodeError ;;; ret 0) ;;;
  putEmptyTaggedFieldArray ;;;
  ret ErrNoError.

(* coev_kafka/describe_user_scram_credentials_response.cpp DescribeUserScramCredentialsResponse::decode *)
Definition DescribeUserScramCredentialsResponse_decode (self : DescribeUserScramCredentialsResponse) (version : Z) : PD DescribeUserScramCredentialsResponse :=
  let! throttle_time := getDurationMs /! ErrDecodeError in
  let! code := getKError /! ErrDecodeError in
  let! message := getNullableString /! ErrDecodeError in
  let! n := getArrayLength /! ErrDecodeError in
  let! results := read_resized n (let! y := DescribeUserScramCredentialsResult_decode /! ErrDecodeError in ok y) in
  let! _t := getEmptyTaggedFieldArray /! ErrDecodeError in
  ok (mkDescribeUserScramCredentialsResponse version throttle_time code message results).

(* coev_kafka/describe_user_scram_credentials_response.cpp DescribeUserScramCredentialsResponse::is_flexible_version *)
Definition DescribeUserScramCredentialsResponse_is_flexible_version (ver : Z) : bool := 0 <=? ver.
(* coev_kafka/describe_user_scram_credentials_response.cpp DescribeUserScramCredentialsResponse::key..DescribeUserScramCredentialsResponse::is_flexible *)
#[export] Instance DescribeUserScramCredentialsResponse_body : protocol_body DescribeUserScramCredentialsResponse := {
  pb_encode := DescribeUserScramCredentialsResponse_encode;
  pb_decode := DescribeUserScramCredentialsResponse_decode;
  pb_key _ := 50;
  pb_version := dus_version;
  pb_header_version m := 2;
  pb_is_valid_version m := (0 <=? dus_version m) && (dus_version m <=? 1);
  pb_is_flexible m := DescribeUserScramCredentialsResponse_is_flexible_version (dus_version m);
  pb_is_flexible_version _ := DescribeUserScramCredentialsResponse_is_flexible_version;
}.

Definition DescribeUserScramCredentialsResponse_wire (m : DescribeUserScramCredentialsResponse) : list Z :=
  let fl := pb_is_flexible m in
  be 4 (dus_throttle_time m) ++ be 2 (dus_code m) ++ w_nullable_string fl (dus_message m) ++
  w_array_length fl (Zlen (dus_results m)) ++
  w_list (DescribeUserScramCredentialsResult_wire fl) (dus_results m) ++ w_tags fl.
Definition DescribeUserScramCredentialsResponse_ok (m : DescribeUserScramCredentialsResponse) : Prop :=
  let fl := pb_is_flexible m in
  in_s 32 (dus_throttle_time m) /\ in_s 16 (dus_code m) /\ string_ok fl (dus_message m) /\
  array_fits fl (DescribeUserScramCredentialsResult_ok fl) (dus_results m).
#[export] Instance DescribeUserScramCredentialsResponse_ok_dec m : Decision (DescribeUserScramCredentialsResponse_ok m).
Proof. unfold DescribeUserScramCredentialsResponse_ok. cbv zeta. apply _. Defined.
Definition DescribeUserScramCredentialsResponse_initial (v : Z) : DescribeUserScramCredentialsResponse :=
  mkDescribeUserScramCredentialsResponse v 0 0 [] [].
#[export] Hint Unfold DescribeUserScramCredentialsResponse_encode DescribeUserScramCredentialsResponse_decode DescribeUserScramCredentialsResponse_wire DescribeUserScramCredentialsResponse_ok DescribeUserScramCredentialsResponse_initial : message.

Lemma DescribeUserScramCredentialsResponse_emits m :
  DescribeUserScramCredentialsResponse_ok m -> emits (pb_is_flexible m) (pb_encode m) 0 (DescribeUserScramCredentialsResponse_wire m).
Proof. solve_emits m. Qed.
Lemma DescribeUserScramCredentialsResponse_consumes m :
  DescribeUserScramCredentialsResponse_ok m ->
  consumes (pb_is_flexible m) (pb_decode (DescribeUserScramCredentialsResponse_initial (pb_version m)) (pb_version m)) (Ok m) (DescribeUserScramCredentialsResponse_wire m).
Proof. solve_consumes m. Qed.
#[export] Instance DescribeUserScramCredentialsResponse_format : WireFormat DescribeUserScramCredentialsResponse := {
  wire := DescribeUserScramCredentialsResponse_wire;
  wire_ok := DescribeUserScramCredentialsResponse_ok;
  wire_initial := DescribeUserScramCredentialsResponse_initial;
  wire_flexible _ _ := eq_refl;
  wire_encode := DescribeUserScramCredentialsResponse_emits;
  wire_decode := DescribeUserScramCredentialsResponse_consumes;
}.
(* coev_kafka/describe_user_scram_credentials_response.cpp DescribeUserScramCredentialsResponse::set_version *)
Definition DescribeUserScramCredentialsResponse_set_version (m : DescribeUserScramCredentialsResponse) (v : Z) : DescribeUserScramCredentialsResponse :=
  mkDescribeUserScramCredentialsResponse v (dus_throttle_time m) (dus_code m) (dus_message m) (dus_results m).
#[export] Instance DescribeUserScramCredentialsResponse_versioned : Versioned DescribeUserScramCredentialsResponse := { set_version := DescribeUserScramCredentialsResponse_set_version }.
#[export] Instance DescribeUserScramCredentialsResponse_laws : VersionLaws DescribeUserScramCredentialsResponse.
Proof. version_laws. Qed.

(** ** Log directories *)

(* coev_kafka/describe_log_dirs_request.h:21-25 DescribeLogDirsRequestTopic *)
Record DescribeLogDirsRequestTopic := mkDescribeLogDirsRequestTopic {
  dlt_topic : list Z; dlt_partition_ids : list Z }.

(* coev_kafka/describe_log_dirs_request.cpp:29-40 DescribeLogDirsRequest::encode *)
Definition DescribeLogDirsRequestTopic_encode (m : DescribeLogDirsRequestTopic) : PE Z :=
  try putString (dlt_topic m) /! ErrEncodeError ;;;
  try putInt32Array (dlt_partition_ids m) /! ErrEncodeError ;;;
  putEmptyTaggedFieldArray ;;;
  ret ErrNoError.

(* coev_kafka/describe_log_dirs_request.cpp:61-80 DescribeLogDirsRequest::decode *)
Definition DescribeLogDirsRequestTopic_decode : PD DescribeLogDirsRequestTopic :=
  let! topic := getString /! ErrDecodeError in
  let! partition_ids := getInt32Array /! ErrDecodeError in
  let! _t := getEmptyTaggedFieldArray /! ErrDecodeError in
  ok (mkDescribeLogDirsRequestTopic topic partition_ids).

Definition DescribeLogDirsRequestTopic_wire (fl : bool) (m : DescribeLogDirsRequestTopic) : list Z :=
  w_string fl (dlt_topic m) ++ w_int32_array fl (dlt_partition_ids m) ++ w_tags fl.
Definition DescribeLogDirsRequestTopic_ok (fl : bool) (m : DescribeLogDirsRequestTopic) : Prop :=
  string_ok fl (dlt_topic m) /\ int32s_ok fl (dlt_partition_ids m).
#[export] Instance DescribeLogDirsRequestTopic_ok_dec fl m : Decision (DescribeLogDirsRequestTopic_ok fl m).
Proof. unfold DescribeLogDirsRequestTopic_ok. apply _. Defined.
Lemma DescribeLogDirsRequestTopic_emits fl m : DescribeLogDirsRequestTopic_ok fl m -> emits fl (DescribeLogDirsRequestTopic_encode m) 0 (DescribeLogDirsRequestTopic_wire fl m).
Proof. unfold DescribeLogDirsRequestTopic_ok, DescribeLogDirsRequestTopic_encode, DescribeLogDirsRequestTopic_wire. solve_emits m. Qed.
Lemma DescribeLogDirsRequestTopic_consumes fl m : DescribeLogDirsRequestTopic_ok fl m -> consumes fl DescribeLogDirsRequestTopic_decode (Ok m) (DescribeLogDirsRequestTopic_wire fl m).
Proof. unfold DescribeLogDirsRequestTopic_ok, DescribeLogDirsRequestTopic_decode, DescribeLogDirsRequestTopic_wire. solve_consumes m. Qed.
#[export] Hint Resolve DescribeLogDirsRequestTopic_emits : emit.
#[export] Hint Resolve DescribeLogDirsRequestTopic_consumes : consume.
#[global] Arguments DescribeLogDirsRequestTopic_wire : simpl never.
#[global] Arguments DescribeLogDirsRequestTopic_encode : simpl never.
#[global] Arguments DescribeLogDirsRequestTopic_decode : simpl never.
#[global] Arguments DescribeLogDirsRequestTopic_ok : simpl never.

(* coev_kafka/describe_log_dirs_request.h:27-47 DescribeLogDirsRequest *)
Record DescribeLogDirsRequest := mkDescribeLogDirsRequest {
  dlq_version : Z; dlq_describe_topics : list DescribeLogDirsRequestTopic }.

(* coev_kafka/describe_log_dirs_request.cpp DescribeLogDirsRequest::encode *)
Definition DescribeLogDirsRequest_encode (m : DescribeLogDirsRequest) : PE Z :=
  let length := to_i32 (Zlen (dlq_describe_topics m)) in
  let length := if length =? 0 then -1 else length in
  try putArrayLength length /! ErrEncodeError ;;;
  try for_try (dlq_describe_topics m) (fun x => try DescribeLogDirsRequestTopic_encode x /! ErrEncodeError ;;; ret 0) ;;;
  putEmptyTaggedFieldArray ;;;
  ret ErrNoError.

(* coev_kafka/describe_log_dirs_request.cpp DescribeLogDirsRequest::decode *)
Definition DescribeLogDirsRequest_decode (self : DescribeLogDirsRequest) (version : Z) : PD DescribeLogDirsRequest :=
  let! n := getArrayLength /! ErrDecodeError in
  let n := if n =? -1 then 0 else n in
  let! describe_topics := read_resized n (let! y := DescribeLogDirsRequestTopic_decode /! ErrDecodeError in ok y) in
  let! _t := getEmptyTaggedFieldArray /! ErrDecodeError in
  ok (mkDescribeLogDirsRequest version describe_topics).

(* coev_kafka/describe_log_dirs_request.cpp DescribeLogDirsRequest::is_flexible_version *)
Definition DescribeLogDirsRequest_is_flexible_version (ver : Z) : bool := 2 <=? ver.
(* coev_kafka/describe_log_dirs_request.cpp DescribeLogDirsRequest::key..DescribeLogDirsRequest::is_flexible *)
#[export] Instance DescribeLogDirsRequest_body : protocol_body DescribeLogDirsRequest := {
  pb_encode := DescribeLogDirsRequest_encode;
  pb_decode := DescribeLogDirsRequest_decode;
  pb_key _ := 35;
  pb_version := dlq_version;
  pb_header_version m := if 2 <=? dlq_version m then 2 else 1;
  pb_is_valid_version m := (0 <=? dlq_version m) && (dlq_version m <=? 4);
  pb_is_flexible m := DescribeLogDirsRequest_is_flexible_version (dlq_version m);
  pb_is_flexible_version _ := DescribeLogDirsRequest_is_flexible_version;
}.

Definition DescribeLogDirsRequest_wire (m : DescribeLogDirsRequest) : list Z :=
  let fl := pb_is_flexible m in
  w_array_length fl (if Zlen (dlq_describe_topics m) =? 0 then -1 else Zlen (dlq_describe_topics m)) ++
  w_list (DescribeLogDirsRequestTopic_wire fl) (dlq_describe_topics m) ++ w_tags fl.
Definition DescribeLogDirsRequest_ok (m : DescribeLogDirsRequest) : Prop :=
  let fl := pb_is_flexible m in
  array_fits fl (DescribeLogDirsRequestTopic_ok fl) (dlq_describe_topics m).
#[export] Instance DescribeLogDirsRequest_ok_dec m : Decision (DescribeLogDirsRequest_ok m).
Proof. unfold DescribeLogDirsRequest_ok. cbv zeta. apply _. Defined.
Definition DescribeLogDirsRequest_initial (v : Z) : DescribeLogDirsRequest :=
  mkDescribeLogDirsRequest v [].
#[export] Hint Unfold DescribeLogDirsRequest_encode DescribeLogDirsRequest_decode DescribeLogDirsRequest_wire DescribeLogDirsRequest_ok DescribeLogDirsRequest_initial : message.

Lemma Zlen_cases {A} (l : list A) : l = [] \/ (Zlen l =? 0) = false /\ (Zlen l =? -1) = false.
Proof. destruct l; [by left|right]. rewrite Zlen_cons. pose proof (Zlen_nonneg l). lia. Qed.
Lemma DescribeLogDirsRequest_emits m :
  DescribeLogDirsRequest_ok m -> emits (pb_is_flexible m) (pb_encode m) 0 (DescribeLogDirsRequest_wire m).
Proof.
  open_message m. match goal with H : array_fits _ _ ?l |- _ =>
    rewrite array_to_i32 by apply H; destruct (Zlen_cases l) as [->|[E _]] end.
  - eapply emits_check; [apply emits_null_length|]. cbn [for_try]. emit_steps.
  - rewrite E. eapply emits_check; [apply emits_putArrayLength, array_ok_len, H|]. emit_steps.
Qed.
Lemma DescribeLogDirsRequest_consumes m :
  DescribeLogDirsRequest_ok m ->
  consumes (pb_is_flexible m) (pb_decode (DescribeLogDirsRequest_initial (pb_version m)) (pb_version m)) (Ok m) (DescribeLogDirsRequest_wire m).
Proof.
  open_message m. match goal with H : array_fits _ _ ?l |- _ => destruct (Zlen_cases l) as [->|[E E']] end.
  - eapply (consumes_let_or _ _ _ _ (if DescribeLogDirsRequest_is_flexible_version dlq_version0 then 0 else -1));
      [apply consumes_null_length|]. destruct (DescribeLogDirsRequest_is_flexible_version dlq_version0); cbv zeta; consume_steps.
  - rewrite E. eapply consumes_let_or; [by eapply consumes_array_length|]. rewrite E'. consume_steps.
Qed.
#[export] Instance DescribeLogDirsRequest_format : WireFormat DescribeLogDirsRequest := {
  wire := DescribeLogDirsRequest_wire;
  wire_ok := DescribeLogDirsRequest_ok;
  wire_initial := DescribeLogDirsRequest_initial;
  wire_flexible _ _ := eq_refl;
  wire_encode := DescribeLogDirsRequest_emits;
  wire_decode := DescribeLogDirsRequest_consumes;
}.
(* coev_kafka/describe_log_dirs_request.cpp DescribeLogDirsRequest::set_version *)
Definition DescribeLogDirsRequest_set_version (m : DescribeLogDirsRequest) (v : Z) : DescribeLogDirsRequest :=
  mkDescribeLogDirsRequest v (dlq_describe_topics m).
#[export] Instance DescribeLogDirsRequest_versioned : Versioned DescribeLogDirsRequest := { set_version := DescribeLogDirsRequest_set_version }.
#[export] Instance DescribeLogDirsRequest_laws : VersionLaws DescribeLogDirsRequest.
Proof. version_laws. Qed.

(** The tags are put from version 2 on and looked for in every version, which agrees as only
    those versions are flexible. *)
(* coev_kafka/describe_log_dirs_response.h:21-30 DescribeLogDirsResponsePartition *)
Record DescribeLogDirsResponsePartition := mkDescribeLogDirsResponsePartition {
  dlp_size : Z; dlp_offset_lag : Z; dlp_partition_id : Z; dlp_is_temporary : bool }.

(* coev_kafka/describe_log_dirs_response.cpp DescribeLogDirsResponsePartition::encode *)
Definition DescribeLogDirsResponsePartition_encode (version : Z) (m : DescribeLogDirsResponsePartition) : PE Z :=
  putInt32 (dlp_partition_id m) ;;;
  putInt64 (dlp_size m) ;;;
  putInt64 (dlp_offset_lag m) ;;;
  putBool (dlp_is_temporary m) ;;;
  whenU (2 <=? version) putEmptyTaggedFieldArray ;;;
  ret ErrNoError.

(* coev_kafka/describe_log_dirs_response.cpp DescribeLogDirsResponsePartition::decode *)
Definition DescribeLogDirsResponsePartition_decode (version : Z) : PD DescribeLogDirsResponsePartition :=
  let! partition_id := getInt32 /! ErrDecodeError in
  let! size := getInt64 /! ErrDecodeError in
  let! offset_lag := getInt64 /! ErrDecodeError in
  let! is_temporary := getBool /! ErrDecodeError in
  let! _t := getEmptyTaggedFieldArray /! ErrDecodeError in
  ok (mkDescribeLogDirsResponsePartition size offset_lag partition_id is_temporary).

Definition DescribeLogDirsResponsePartition_wire (version : Z) (fl : bool) (m : DescribeLogDirsResponsePartition) : list Z :=
  be 4 (dlp_partition_id m) ++ be 8 (dlp_size m) ++ be 8 (dlp_offset_lag m) ++
  w_bool (dlp_is_temporary m) ++ w_when (2 <=? version) (w_tags fl).
Definition DescribeLogDirsResponsePartition_ok (version : Z) (fl : bool) (m : DescribeLogDirsResponsePartition) : Prop :=
  fl = (2 <=? version) /\ in_s 32 (dlp_partition_id m) /\ in_s 64 (dlp_size m) /\
  in_s 64 (dlp_offset_lag m).
#[export] Instance DescribeLogDirsResponsePartition_ok_dec version fl m : Decision (DescribeLogDirsResponsePartition_ok version fl m).
Proof. unfold DescribeLogDirsResponsePartition_ok. apply _. Defined.
Lemma DescribeLogDirsResponsePartition_emits version fl m : DescribeLogDirsResponsePartition_ok version fl m -> emits fl (DescribeLogDirsResponsePartition_encode version m) 0 (DescribeLogDirsResponsePartition_wire version fl m).
Proof. unfold DescribeLogDirsResponsePartition_ok, DescribeLogDirsResponsePartition_encode, DescribeLogDirsResponsePartition_wire. solve_emits m. Qed.
Lemma DescribeLogDirsResponsePartition_consumes version fl m : DescribeLogDirsResponsePartition_ok version fl m -> consumes fl (DescribeLogDirsResponsePartition_decode version) (Ok m) (DescribeLogDirsResponsePartition_wire version fl m).
Proof. unfold DescribeLogDirsResponsePartition_ok, DescribeLogDirsResponsePartition_decode, DescribeLogDirsResponsePartition_wire. solve_consumes m. Qed.
#[export] Hint Resolve DescribeLogDirsResponsePartition_emits : emit.
#[export] Hint Resolve DescribeLogDirsResponsePartition_consumes : consume.
#[global] Arguments DescribeLogDirsResponsePartition_wire : simpl never.
#[global] Arguments DescribeLogDirsResponsePartition_encode : simpl never.
#[global] Arguments DescribeLogDirsResponsePartition_decode : simpl never.
#[global] Arguments DescribeLogDirsResponsePartition_ok : simpl never.

(* coev_kafka/describe_log_dirs_response.h:32-39 DescribeLogDirsResponseTopic *)
Record DescribeLogDirsResponseTopic := mkDescribeLogDirsResponseTopic {
  dlo_topic : list Z; dlo_partitions : list DescribeLogDirsResponsePartition }.

(* coev_kafka/describe_log_dirs_response.cpp DescribeLogDirsResponseTopic::encode *)
Definition DescribeLogDirsResponseTopic_encode (version : Z) (m : DescribeLogDirsResponseTopic) : PE Z :=
  try putString (dlo_topic m) /! ErrEncodeError ;;;
  try putArrayLength (to_i32 (Zlen (dlo_partitions m))) /! ErrEncodeError ;;;
  try for_try (dlo_partitions m) (fun x => try DescribeLogDirsResponsePartition_encode version x /! ErrEncodeError ;;; ret 0) ;;;
  putEmptyTaggedFieldArray ;;;
  ret ErrNoError.

(* coev_kafka/describe_log_dirs_response.cpp DescribeLogDirsResponseTopic::decode *)
Definition DescribeLogDirsResponseTopic_decode (version : Z) : PD DescribeLogDirsResponseTopic :=
  let! topic := getString /! ErrDecodeError in
  let! n := getArrayLength /! ErrDecodeError in
  let! partitions := read_resized n (let! y := DescribeLogDirsResponsePartition_decode version /! ErrDecodeError in ok y) in
  let! _t := getEmptyTaggedFieldArray /! ErrDecodeError in
  ok (mkDescribeLogDirsResponseTopic topic partitions).

Definition DescribeLogDirsResponseTopic_wire (version : Z) (fl : bool) (m : DescribeLogDirsResponseTopic) : list Z :=
  w_string fl (dlo_topic m) ++ w_array_length fl (Zlen (dlo_partitions m)) ++
  w_list (DescribeLogDirsResponsePartition_wire version fl) (dlo_partitions m) ++ w_tags fl.
Definition DescribeLogDirsResponseTopic_ok (version : Z) (fl : bool) (m : DescribeLogDirsResponseTopic) : Prop :=
  string_ok fl (dlo_topic m) /\
  array_fits fl (DescribeLogDirsResponsePartition_ok version fl) (dlo_partitions m).
#[export] Instance DescribeLogDirsResponseTopic_ok_dec version fl m : Decision (DescribeLogDirsResponseTopic_ok version fl m).
Proof. unfold DescribeLogDirsResponseTopic_ok. apply _. Defined.
Lemma DescribeLogDirsResponseTopic_emits version fl m : DescribeLogDirsResponseTopic_ok version fl m -> emits fl (DescribeLogDirsResponseTopic_encode version m) 0 (DescribeLogDirsResponseTopic_wire version fl m).
Proof. unfold DescribeLogDirsResponseTopic_ok, DescribeLogDirsResponseTopic_encode, DescribeLogDirsResponseTopic_wire. solve_emits m. Qed.
Lemma DescribeLogDirsResponseTopic_consumes version fl m : DescribeLogDirsResponseTopic_ok version fl m -> consumes fl (DescribeLogDirsResponseTopic_decode version) (Ok m) (DescribeLogDirsResponseTopic_wire version fl m).
Proof. unfold DescribeLogDirsResponseTopic_ok, DescribeLogDirsResponseTopic_decode, DescribeLogDirsResponseTopic_wire. solve_consumes m. Qed.
#[export] Hint Resolve DescribeLogDirsResponseTopic_emits : emit.
#[export] Hint Resolve DescribeLogDirsResponseTopic_consumes : consume.
#[global] Arguments DescribeLogDirsResponseTopic_wire : simpl never.
#[global] Arguments DescribeLogDirsResponseTopic_encode : simpl never.
#[global] Arguments DescribeLogDirsResponseTopic_decode : simpl never.
#[global] Arguments DescribeLogDirsResponseTopic_ok : simpl never.

(* coev_kafka/describe_log_dirs_response.h:41-51 DescribeLogDirsResponseDirMetadata *)
Record DescribeLogDirsResponseDirMetadata := mkDescribeLogDirsResponseDirMetadata {
  dlm_code : Z; dlm_path : list Z; dlm_topics : list DescribeLogDirsResponseTopic;
  dlm_total_bytes : Z; dlm_usable_bytes : Z }.

(* coev_kafka/describe_log_dirs_response.cpp DescribeLogDirsResponseDirMetadata::encode *)
Definition DescribeLogDirsResponseDirMetadata_encode (version : Z) (m : DescribeLogDirsResponseDirMetadata) : PE Z :=
  putKError (dlm_code m) ;;;
  try putString (dlm_path m) /! ErrEncodeError ;;;
  try putArrayLength (to_i32 (Zlen (dlm_topics m))) /! ErrEncodeError ;;;
  try for_try (dlm_topics m) (fun x => try DescribeLogDirsResponseTopic_encode version x /! ErrEncodeError ;;; ret 0) ;;;
  whenU (4 <=? version) (putInt64 (dlm_total_bytes m)) ;;;
  whenU (4 <=? version) (putInt64 (dlm_usable_bytes m)) ;;;
  putEmptyTaggedFieldArray ;;;
  ret ErrNoError.

(* coev_kafka/describe_log_dirs_response.cpp DescribeLogDirsResponseDirMetadata::decode *)
Definition DescribeLogDirsResponseDirMetadata_decode (version : Z) (self : DescribeLogDirsResponseDirMetadata) : PD DescribeLogDirsResponseDirMetadata :=
  let! code := getKError /! ErrDecodeError in
  let! path := getString /! ErrDecodeError in
  let! n := getArrayLength /! ErrDecodeError in
  let! topics := read_resized n (let! y := DescribeLogDirsResponseTopic_decode version /! ErrDecodeError in ok y) in
  let! total_bytes := readIf (4 <=? version) getInt64 (dlm_total_bytes self) /! ErrDecodeError in
  let! usable_bytes := readIf (4 <=? version) getInt64 (dlm_usable_bytes self) /! ErrDecodeError in
  let! _t := getEmptyTaggedFieldArray /! ErrDecodeError in
  ok (mkDescribeLogDirsResponseDirMetadata code path topics total_bytes usable_bytes).

Definition DescribeLogDirsResponseDirMetadata_wire (version : Z) (fl : bool) (m : DescribeLogDirsResponseDirMetadata) : list Z :=
  be 2 (dlm_code m) ++ w_string fl (dlm_path m) ++ w_array_length fl (Zlen (dlm_topics m)) ++
  w_list (DescribeLogDirsResponseTopic_wire version fl) (dlm_topics m) ++
  w_when (4 <=? version) (be 8 (dlm_total_bytes m)) ++
  w_when (4 <=? version) (be 8 (dlm_usable_bytes m)) ++ w_tags fl.
Definition DescribeLogDirsResponseDirMetadata_ok (version : Z) (fl : bool) (m : DescribeLogDirsResponseDirMetadata) : Prop :=
  in_s 16 (dlm_code m) /\ string_ok fl (dlm_path m) /\
  array_fits fl (DescribeLogDirsResponseTopic_ok version fl) (dlm_topics m) /\
  in_s 64 (dlm_total_bytes m) /\ ((4 <=? version) = false -> dlm_total_bytes m = 0) /\
  in_s 64 (dlm_usable_bytes m) /\ ((4 <=? version) = false -> dlm_usable_bytes m = 0).
#[export] Instance DescribeLogDirsResponseDirMetadata_ok_dec version fl m : Decision (DescribeLogDirsResponseDirMetadata_ok version fl m).
Proof. unfold DescribeLogDirsResponseDirMetadata_ok. apply _. Defined.
Lemma DescribeLogDirsResponseDirMetadata_emits version fl m : DescribeLogDirsResponseDirMetadata_ok version fl m -> emits fl (DescribeLogDirsResponseDirMetadata_encode version m) 0 (DescribeLogDirsResponseDirMetadata_wire version fl m).
Proof. unfold DescribeLogDirsResponseDirMetadata_ok, DescribeLogDirsResponseDirMetadata_encode, DescribeLogDirsResponseDirMetadata_wire. solve_emits m. Qed.
Lemma DescribeLogDirsResponseDirMetadata_consumes version fl m : DescribeLogDirsResponseDirMetadata_ok version fl m -> consumes fl (DescribeLogDirsResponseDirMetadata_decode version (mkDescribeLogDirsResponseDirMetadata 0 [] [] 0 0)) (Ok m) (DescribeLogDirsResponseDirMetadata_wire version fl m).
Proof. unfold DescribeLogDirsResponseDirMetadata_ok, DescribeLogDirsResponseDirMetadata_decode, DescribeLogDirsResponseDirMetadata_wire. solve_consumes m. Qed.
#[export] Hint Resolve DescribeLogDirsResponseDirMetadata_emits : emit.
#[export] Hint Resolve DescribeLogDirsResponseDirMetadata_consumes : consume.
#[global] Arguments DescribeLogDirsResponseDirMetadata_wire : simpl never.
#[global] Arguments DescribeLogDirsResponseDirMetadata_encode : simpl never.
#[global] Arguments DescribeLogDirsResponseDirMetadata_decode : simpl never.
#[global] Arguments DescribeLogDirsResponseDirMetadata_ok : simpl never.

(* coev_kafka/describe_log_dirs_response.h:53-72 DescribeLogDirsResponse *)
Record DescribeLogDirsResponse := mkDescribeLogDirsResponse {
  dls_version : Z; dls_throttle_time : Z; dls_code : Z;
  dls_log_dirs : list DescribeLogDirsResponseDirMetadata }.

(* coev_kafka/describe_log_dirs_response.cpp DescribeLogDirsResponse::encode *)
Definition DescribeLogDirsResponse_encode (m : DescribeLogDirsResponse) : PE Z :=
  putDurationMs (dls_throttle_time m) ;;;
  whenU (3 <=? dls_version m) (putKError (dls_code m)) ;;;
  try putArrayLength (to_i32 (Zlen (dls_log_dirs m))) /! ErrEncodeError ;;;
  try for_try (dls_log_dirs m) (fun x => try DescribeLogDirsResponseDirMetadata_encode (dls_version m) x /! ErrEncodeError ;;; ret 0) ;;;
  putEmptyTaggedFieldArray ;;;
  ret ErrNoError.

(* coev_kafka/describe_log_dirs_response.cpp DescribeLogDirsResponse::decode *)
Definition DescribeLogDirsResponse_decode (self : DescribeLogDirsResponse) (version : Z) : PD DescribeLogDirsResponse :=
  let! throttle_time := getDurationMs /! ErrDecodeError in
  let! code := readIf (3 <=? version) getKError (dls_code self) /! ErrDecodeError in
  let! n := getArrayLength /! ErrDecodeError in
  let! log_dirs := read_into (mkDescribeLogDirsResponseDirMetadata 0 [] [] 0 0) n (dls_log_dirs self) (fun x => let! y := DescribeLogDirsResponseDirMetadata_decode version x /! ErrDecodeError in ok y) in
  let! _t := getEmptyTaggedFieldArray /! ErrDecodeError in
  ok (mkDescribeLogDirsResponse version throttle_time code log_dirs).

(* coev_kafka/describe_log_dirs_response.cpp DescribeLogDirsResponse::is_flexible_version *)
Definition DescribeLogDirsResponse_is_flexible_version (ver : Z) : bool := 2 <=? ver.
(* coev_kafka/describe_log_dirs_response.cpp DescribeLogDirsResponse::key..DescribeLogDirsResponse::is_flexible *)
#[export] Instance DescribeLogDirsResponse_body : protocol_body DescribeLogDirsResponse := {
  pb_encode := DescribeLogDirsResponse_encode;
  pb_decode := DescribeLogDirsResponse_decode;
  pb_key _ := 35;
  pb_version := dls_version;
  pb_header_version m := if 2 <=? dls_version m then 1 else 0;
  pb_is_valid_version m := (0 <=? dls_version m) && (dls_version m <=? 4);
  pb_is_flexible m := DescribeLogDirsResponse_is_flexible_version (dls_version m);
  pb_is_flexible_version _ := DescribeLogDirsResponse_is_flexible_version;
}.

Definition DescribeLogDirsResponse_wire (m : DescribeLogDirsResponse) : list Z :=
  let fl := pb_is_flexible m in
  be 4 (dls_throttle_time m) ++ w_when (3 <=? dls_version m) (be 2 (dls_code m)) ++
  w_array_length fl (Zlen (dls_log_dirs m)) ++
  w_list (DescribeLogDirsResponseDirMetadata_wire (dls_version m) fl) (dls_log_dirs m) ++
  w_tags fl.
Definition DescribeLogDirsResponse_ok (m : DescribeLogDirsResponse) : Prop :=
  let fl := pb_is_flexible m in
  in_s 32 (dls_throttle_time m) /\ in_s 16 (dls_code m) /\
  ((3 <=? dls_version m) = false -> dls_code m = 0) /\
  array_fits fl (DescribeLogDirsResponseDirMetadata_ok (dls_version m) fl) (dls_log_dirs m).
#[export] Instance DescribeLogDirsResponse_ok_dec m : Decision (DescribeLogDirsResponse_ok m).
Proof. unfold DescribeLogDirsResponse_ok. cbv zeta. apply _. Defined.
Definition DescribeLogDirsResponse_initial (v : Z) : DescribeLogDirsResponse :=
  mkDescribeLogDirsResponse v 0 0 [].
#[export] Hint Unfold DescribeLogDirsResponse_encode DescribeLogDirsResponse_decode DescribeLogDirsResponse_wire DescribeLogDirsResponse_ok DescribeLogDirsResponse_initial : message.

Lemma DescribeLogDirsResponse_emits m :
  DescribeLogDirsResponse_ok m -> emits (pb_is_flexible m) (pb_encode m) 0 (DescribeLogDirsResponse_wire m).
Proof. solve_emits m. Qed.
Lemma DescribeLogDirsResponse_consumes m :
  DescribeLogDirsResponse_ok m ->
  consumes (pb_is_flexible m) (pb_decode (DescribeLogDirsResponse_initial (pb_version m)) (pb_version m)) (Ok m) (DescribeLogDirsResponse_wire m).
Proof. solve_consumes m. Qed.
#[export] Instance DescribeLogDirsResponse_format : WireFormat DescribeLogDirsResponse := {
  wire := DescribeLogDirsResponse_wire;
  wire_ok := DescribeLogDirsResponse_ok;
  wire_initial := DescribeLogDirsResponse_initial;
  wire_flexible _ _ := eq_refl;
  wire_encode := DescribeLogDirsResponse_emits;
  wire_decode := DescribeLogDirsResponse_consumes;
}.
(* coev_kafka/describe_log_dirs_response.cpp DescribeLogDirsResponse::set_version *)
Definition DescribeLogDirsResponse_set_version (m : DescribeLogDirsResponse) (v : Z) : DescribeLogDirsResponse :=
  mkDescribeLogDirsResponse v (dls_throttle_time m) (dls_code m) (dls_log_dirs m).
#[export] Instance DescribeLogDirsResponse_versioned : Versioned DescribeLogDirsResponse := { set_version := DescribeLogDirsResponse_set_version }.
#[export] Instance DescribeLogDirsResponse_laws : VersionLaws DescribeLogDirsResponse.
Proof. version_laws. Qed.

(** ** Joining a group *)

(* coev_kafka/join_group_response.h:26-32 GroupMember *)
Record GroupMember := mkGroupMember {
  gmb_member_id : list Z; gmb_group_instance_id : list Z; gmb_metadata : list Z }.

(* coev_kafka/join_group_response.cpp:44-62 JoinGroupResponse::encode *)
Definition GroupMember_encode (version : Z) (m : GroupMember) : PE Z :=
  try putString (gmb_member_id m) ;;;
  try when (5 <=? version) (putNullableString (gmb_group_instance_id m)) ;;;
  try putBytes (gmb_metadata m) ;;;
  putEmptyTaggedFieldArray ;;;
  ret 0.

(* coev_kafka/join_group_response.cpp:111-136 JoinGroupResponse::decode *)
Definition GroupMember_decode (version : Z) : PD GroupMember :=
  let! member_id := getString in
  let! group_instance_id := readIf (5 <=? version) getNullableString ([]) in
  let! metadata := getBytes in
  let! _t := getEmptyTaggedFieldArray in
  ok (mkGroupMember member_id group_instance_id metadata).

Definition GroupMember_wire (version : Z) (fl : bool) (m : GroupMember) : list Z :=
  w_string fl (gmb_member_id m) ++
  w_when (5 <=? version) (w_nullable_string fl (gmb_group_instance_id m)) ++
  w_bytes fl (gmb_metadata m) ++ w_tags fl.
Definition GroupMember_ok (version : Z) (fl : bool) (m : GroupMember) : Prop :=
  string_ok fl (gmb_member_id m) /\ string_ok fl (gmb_group_instance_id m) /\
  ((5 <=? version) = false -> gmb_group_instance_id m = []) /\ bytes_ok (gmb_metadata m).
#[export] Instance GroupMember_ok_dec version fl m : Decision (GroupMember_ok version fl m).
Proof. unfold GroupMember_ok. apply _. Defined.
Lemma GroupMember_emits version fl m : GroupMember_ok version fl m -> emits fl (GroupMember_encode version m) 0 (GroupMember_wire version fl m).
Proof. unfold GroupMember_ok, GroupMember_encode, GroupMember_wire. solve_emits m. Qed.
Lemma GroupMember_consumes version fl m : GroupMember_ok version fl m -> consumes fl (GroupMember_decode version) (Ok m) (GroupMember_wire version fl m).
Proof. unfold GroupMember_ok, GroupMember_decode, GroupMember_wire. solve_consumes m. Qed.
#[export] Hint Resolve GroupMember_emits : emit.
#[export] Hint Resolve GroupMember_consumes : consume.
#[global] Arguments GroupMember_wire : simpl never.
#[global] Arguments GroupMember_encode : simpl never.
#[global] Arguments GroupMember_decode : simpl never.
#[global] Arguments GroupMember_ok : simpl never.

(** No members leave those of the object. *)
(* coev_kafka/join_group_response.h:34-58 JoinGroupResponse *)
Record JoinGroupResponse := mkJoinGroupResponse {
  jgs_version : Z; jgs_throttle_time : Z; jgs_err : Z; jgs_generation_id : Z;
  jgs_group_protocol : list Z; jgs_leader_id : list Z; jgs_member_id : list Z;
  jgs_members : list GroupMember }.

(* coev_kafka/join_group_response.cpp JoinGroupResponse::encode *)
Definition JoinGroupResponse_encode (m : JoinGroupResponse) : PE Z :=
  whenU (2 <=? jgs_version m) (putDurationMs (jgs_throttle_time m)) ;;;
  putKError (jgs_err m) ;;;
  putInt32 (jgs_generation_id m) ;;;
  try putString (jgs_group_protocol m) ;;;
  try putString (jgs_leader_id m) ;;;
  try putString (jgs_member_id m) ;;;
  try putArrayLength (to_i32 (Zlen (jgs_members m))) ;;;
  try for_try (jgs_members m) (GroupMember_encode (jgs_version m)) ;;;
  putEmptyTaggedFieldArray ;;;
  ret 0.

(* coev_kafka/join_group_response.cpp JoinGroupResponse::decode *)
Definition JoinGroupResponse_decode (self : JoinGroupResponse) (version : Z) : PD JoinGroupResponse :=
  let! throttle_time := readIf (2 <=? version) getDurationMs (jgs_throttle_time self) in
  let! err := getKError in
  let! generation_id := getInt32 in
  let! group_protocol := getString in
  let! leader_id := getString in
  let! member_id := getString in
  let! n := getArrayLength in
  let! members := read_resized_or n (jgs_members self) (GroupMember_decode version) in
  let! _t := getEmptyTaggedFieldArray in
  ok (mkJoinGroupResponse version throttle_time err generation_id group_protocol leader_id member_id members).

(* coev_kafka/join_group_response.cpp JoinGroupResponse::is_flexible_version *)
Definition JoinGroupResponse_is_flexible_version (ver : Z) : bool := 6 <=? ver.
(* coev_kafka/join_group_response.cpp JoinGroupResponse::key..JoinGroupResponse::is_flexible *)
#[export] Instance JoinGroupResponse_body : protocol_body JoinGroupResponse := {
  pb_encode := JoinGroupResponse_encode;
  pb_decode := JoinGroupResponse_decode;
  pb_key _ := 11;
  pb_version := jgs_version;
  pb_header_version m := if 6 <=? jgs_version m then 1 else 0;
  pb_is_valid_version m := (0 <=? jgs_version m) && (jgs_version m <=? 6);
  pb_is_flexible m := JoinGroupResponse_is_flexible_version (jgs_version m);
  pb_is_flexible_version _ := JoinGroupResponse_is_flexible_version;
}.

Definition JoinGroupResponse_wire (m : JoinGroupResponse) : list Z :=
  let fl := pb_is_flexible m in
  w_when (2 <=? jgs_version m) (be 4 (jgs_throttle_time m)) ++ be 2 (jgs_err m) ++
  be 4 (jgs_generation_id m) ++ w_string fl (jgs_group_protocol m) ++
  w_string fl (jgs_leader_id m) ++ w_string fl (jgs_member_id m) ++
  w_array_length fl (Zlen (jgs_members m)) ++
  w_list (GroupMember_wire (jgs_version m) fl) (jgs_members m) ++ w_tags fl.
Definition JoinGroupResponse_ok (m : JoinGroupResponse) : Prop :=
  let fl := pb_is_flexible m in
  in_s 32 (jgs_throttle_time m) /\ ((2 <=? jgs_version m) = false -> jgs_throttle_time m = 0) /\
  in_s 16 (jgs_err m) /\ in_s 32 (jgs_generation_id m) /\ string_ok fl (jgs_group_protocol m) /\
  string_ok fl (jgs_leader_id m) /\ string_ok fl (jgs_member_id m) /\
  array_fits fl (GroupMember_ok (jgs_version m) fl) (jgs_members m).
#[export] Instance JoinGroupResponse_ok_dec m : Decision (JoinGroupResponse_ok m).
Proof. unfold JoinGroupResponse_ok. cbv zeta. apply _. Defined.
Definition JoinGroupResponse_initial (v : Z) : JoinGroupResponse :=
  mkJoinGroupResponse v 0 0 0 [] [] [] [].
#[export] Hint Unfold JoinGroupResponse_encode JoinGroupResponse_decode JoinGroupResponse_wire JoinGroupResponse_ok JoinGroupResponse_initial : message.

Lemma JoinGroupResponse_emits m :
  JoinGroupResponse_ok m -> emits (pb_is_flexible m) (pb_encode m) 0 (JoinGroupResponse_wire m).
Proof. solve_emits m. Qed.
Lemma JoinGroupResponse_consumes m :
  JoinGroupResponse_ok m ->
  consumes (pb_is_flexible m) (pb_decode (JoinGroupResponse_initial (pb_version m)) (pb_version m)) (Ok m) (JoinGroupResponse_wire m).
Proof. solve_consumes m. Qed.
#[export] Instance JoinGroupResponse_format : WireFormat JoinGroupResponse := {
  wire := JoinGroupResponse_wire;
  wire_ok := JoinGroupResponse_ok;
  wire_initial := JoinGroupResponse_initial;
  wire_flexible _ _ := eq_refl;
  wire_encode := JoinGroupResponse_emits;
  wire_decode := JoinGroupResponse_consumes;
}.
(* coev_kafka/join_group_response.cpp JoinGroupResponse::set_version *)
Definition JoinGroupResponse_set_version (m : JoinGroupResponse) (v : Z) : JoinGroupResponse :=
  mkJoinGroupResponse v (jgs_throttle_time m) (jgs_err m) (jgs_generation_id m) (jgs_group_protocol m) (jgs_leader_id m) (jgs_member_id m) (jgs_members m).
#[export] Instance JoinGroupResponse_versioned : Versioned JoinGroupResponse := { set_version := JoinGroupResponse_set_version }.
#[export] Instance JoinGroupResponse_laws : VersionLaws JoinGroupResponse.
Proof. version_laws. Qed.

