(* ===== verification/DescribeMessages.v ===== *)
(** * Descriptions that cannot be read

    DescribeGroups responses and DescribeClientQuotas requests.  The loops that read their
    elements take the 0 an element's [decode] returns for its failure, so that both are read
    back only if there is nothing in them. *)
From Stdlib Require Import ZArith Lia Bool.
From stdpp Require Import base tactics list numbers.
From S2P Require Import Prelude Errors Wire Decoder Encoder Codec CodecEnc CodecDec EncoderDecoder.
From S2P Require Import StdMap MessageKit SetVersion.

(** ** Members of a group *)

(* coev_kafka/describe_groups_response.h:26-41 GroupMemberDescription *)
Record GroupMemberDescription := mkGroupMemberDescription {
  gmd_version : Z; gmd_member_id : list Z; gmd_group_instance_id : list Z; gmd_client_id : list Z;
  gmd_client_host : list Z; gmd_member_metadata : list Z; gmd_member_assignment : list Z }.
Definition set_member_id (s : list Z) (m : GroupMemberDescription) : GroupMemberDescription :=
  mkGroupMemberDescription (gmd_version m) s (gmd_group_instance_id m) (gmd_client_id m) (gmd_client_host m) (gmd_member_metadata m) (gmd_member_assignment m).
Definition set_group_instance_id (s : list Z) (m : GroupMemberDescription) : GroupMemberDescription :=
  mkGroupMemberDescription (gmd_version m) (gmd_member_id m) s (gmd_client_id m) (gmd_client_host m) (gmd_member_metadata m) (gmd_member_assignment m).
Definition set_client_id (s : list Z) (m : GroupMemberDescription) : GroupMemberDescription :=
  mkGroupMemberDescription (gmd_version m) (gmd_member_id m) (gmd_group_instance_id m) s (gmd_client_host m) (gmd_member_metadata m) (gmd_member_assignment m).
Definition set_client_host (s : list Z) (m : GroupMemberDescription) : GroupMemberDescription :=
  mkGroupMemberDescription (gmd_version m) (gmd_member_id m) (gmd_group_instance_id m) (gmd_client_id m) s (gmd_member_metadata m) (gmd_member_assignment m).
Definition set_member_metadata (s : list Z) (m : GroupMemberDescription) : GroupMemberDescription :=
  mkGroupMemberDescription (gmd_version m) (gmd_member_id m) (gmd_group_instance_id m) (gmd_client_id m) (gmd_client_host m) s (gmd_member_assignment m).
Definition set_member_assignment (s : list Z) (m : GroupMemberDescription) : GroupMemberDescription :=
  mkGroupMemberDescription (gmd_version m) (gmd_member_id m) (gmd_group_instance_id m) (gmd_client_id m) (gmd_client_host m) (gmd_member_metadata m) s.

(** The version of the object, which is mutable, becomes the argument. *)
(* coev_kafka/describe_groups_response.cpp GroupMemberDescription::encode *)
Definition GroupMemberDescription_encode (version : Z) (m : GroupMemberDescription) : PE Z :=
  try putString (gmd_member_id m) /! ErrEncodeError ;;;
  try when (4 <=? version) (try putNullableString (gmd_group_instance_id m) /! ErrEncodeError ;;; ret 0) ;;;
  try putString (gmd_client_id m) /! ErrEncodeError ;;;
  try putString (gmd_client_host m) /! ErrEncodeError ;;;
  try putBytes (gmd_member_metadata m) /! ErrEncodeError ;;;
  try putBytes (gmd_member_assignment m) /! ErrEncodeError ;;;
  putEmptyTaggedFieldArray ;;;
  ret ErrNoError.

(** [if (m(x) != ErrNoError) return c;], with the object [o] as it is when the code is returned *)
Notation "'let?' x := m '/!' c 'else' o 'in' k" :=
  (bind m (fun r => match r with Err _ => ret (c, o) | Ok x => k end))
  (at level 10, x name, m at level 100, c at level 100, o at level 100, k at level 200) : coev_scope.

(** The code that is returned and the object as it is then *)
(* coev_kafka/describe_groups_response.cpp GroupMemberDescription::decode *)
Definition GroupMemberDescription_decode (version : Z) (m : GroupMemberDescription)
  : M packet_decoder (Z * GroupMemberDescription) :=
  let m := mkGroupMemberDescription version (gmd_member_id m) (gmd_group_instance_id m) (gmd_client_id m)
    (gmd_client_host m) (gmd_member_metadata m) (gmd_member_assignment m) in
  let? s := getString /! ErrDecodeError else m in let m := set_member_id s m in
  let? s := readIf (4 <=? version) getNullableString (gmd_group_instance_id m) /! ErrDecodeError else m in
  let m := set_group_instance_id s m in
  let? s := getString /! ErrDecodeError else m in let m := set_client_id s m in
  let? s := getString /! ErrDecodeError else m in let m := set_client_host s m in
  let? s := getBytes /! ErrDecodeError else m in let m := set_member_metadata s m in
  let? s := getBytes /! ErrDecodeError else m in let m := set_member_assignment s m in
  let? _t := getEmptyTaggedFieldArray /! ErrDecodeError else m in
  ret (ErrNoError, m).

Definition GroupMemberDescription_wire (version : Z) (fl : bool) (m : GroupMemberDescription) : list Z :=
  w_string fl (gmd_member_id m) ++ w_when (4 <=? version) (w_nullable_string fl (gmd_group_instance_id m)) ++
  w_string fl (gmd_client_id m) ++ w_string fl (gmd_client_host m) ++ w_bytes fl (gmd_member_metadata m) ++
  w_bytes fl (gmd_member_assignment m) ++ w_tags fl.
Definition GroupMemberDescription_ok (fl : bool) (m : GroupMemberDescription) : Prop :=
  string_ok fl (gmd_member_id m) /\ string_ok fl (gmd_group_instance_id m) /\ string_ok fl (gmd_client_id m) /\
  string_ok fl (gmd_client_host m) /\ bytes_ok (gmd_member_metadata m) /\ bytes_ok (gmd_member_assignment m).
#[export] Instance GroupMemberDescription_ok_dec fl m : Decision (GroupMemberDescription_ok fl m).
Proof. unfold GroupMemberDescription_ok. apply _. Defined.
Lemma GroupMemberDescription_emits version fl m :
  GroupMemberDescription_ok fl m ->
  emits fl (GroupMemberDescription_encode version m) 0 (GroupMemberDescription_wire version fl m).
Proof. unfold GroupMemberDescription_ok, GroupMemberDescription_encode, GroupMemberDescription_wire. solve_emits m. Qed.
#[export] Hint Resolve GroupMemberDescription_emits : emit.
#[global] Arguments GroupMemberDescription_wire : simpl never.
#[global] Arguments GroupMemberDescription_encode : simpl never.
#[global] Arguments GroupMemberDescription_ok : simpl never.

(** A member is read whole, whatever becomes of it. *)
Lemma consumes_let_else {A X} fl c (o : X) (g : PD A) (k : A -> M packet_decoder (Z * X)) v w b1 b2 :
  consumes fl g (Ok v) b1 -> consumes fl (k v) w b2 -> consumes fl (let? x := g /! c else o in k x) w (b1 ++ b2).
Proof. intros H1 H2. eapply consumes_bind; [exact H1|]. done. Qed.
Lemma GroupMemberDescription_read version fl m self :
  GroupMemberDescription_ok fl m ->
  exists m', consumes fl (GroupMemberDescription_decode version self) (ErrNoError, m') (GroupMemberDescription_wire version fl m).
Proof.
  unfold GroupMemberDescription_ok, GroupMemberDescription_decode, GroupMemberDescription_wire. intros H. use_facts.
  eexists. eapply consumes_let_else; [consume_steps|].
  eapply (consumes_let_else _ _ _ _ _ (if 4 <=? version then gmd_group_instance_id m else _)).
  { destruct (4 <=? version); [consume_steps|apply consumes_ret]. }
  do 4 (eapply consumes_let_else; [consume_steps|]).
  eapply consumes_as; [eapply consumes_let_else; [apply consumes_getEmptyTaggedFieldArray|]|apply app_nil_r]. apply consumes_ret.
Qed.

(** ** Groups *)

(* coev_kafka/describe_groups_response.h:43-57 GroupDescription *)
Record GroupDescription := mkGroupDescription {
  grd_version : Z; grd_code : Z; grd_message : list Z; grd_group_id : list Z; grd_state : list Z;
  grd_protocol_type : list Z; grd_protocol : list Z;
  grd_members : list (list Z * GroupMemberDescription); grd_authorized_operations : Z }.

(* coev_kafka/describe_groups_response.cpp GroupDescription::encode *)
Definition GroupDescription_encode (version : Z) (m : GroupDescription) : PE Z :=
  putInt16 (grd_code m) ;;;
  try putString (grd_group_id m) /! ErrEncodeError ;;;
  try putString (grd_state m) /! ErrEncodeError ;;;
  try putString (grd_protocol_type m) /! ErrEncodeError ;;;
  try putString (grd_protocol m) /! ErrEncodeError ;;;
  try putArrayLength (to_i32 (Zlen (grd_members m))) /! ErrEncodeError ;;;
  try for_try (grd_members m) (fun pair =>
    try GroupMemberDescription_encode version (snd pair) /! ErrEncodeError ;;; ret 0) ;;;
  whenU (3 <=? version) (putInt32 (grd_authorized_operations m)) ;;;
  putEmptyTaggedFieldArray ;;;
  ret ErrNoError.

(** The check of the result is the wrong way round. *)
(* coev_kafka/describe_groups_response.cpp:194-206 GroupDescription::decode *)
Fixpoint read_members (n : nat) (version : Z) (members : list (list Z * GroupMemberDescription))
  : PD (list (list Z * GroupMemberDescription)) :=
  match n with
  | O => ok members
  | S n' =>
      let* r := GroupMemberDescription_decode version (mkGroupMemberDescription 0 [] [] [] [] [] []) in
      if fst r =? 0 then err ErrDecodeError
      else read_members n' version (map_assign (gmd_member_id (snd r)) (snd r) members)
  end.
(* coev_kafka/describe_groups_response.cpp GroupDescription::decode *)
Definition GroupDescription_decode (version : Z) (self : GroupDescription) : PD GroupDescription :=
  let! code := getInt16 /! ErrDecodeError in
  let! group_id := getString /! ErrDecodeError in
  let! state := getString /! ErrDecodeError in
  let! protocol_type := getString /! ErrDecodeError in
  let! protocol := getString /! ErrEncodeError in
  let! numMembers := getArrayLength /! ErrDecodeError in
  let! members := read_members (Z.to_nat numMembers) version [] in
  let! authorized_operations := readIf (3 <=? version) getInt32 (grd_authorized_operations self) /! ErrDecodeError in
  let! _t := getEmptyTaggedFieldArray /! ErrDecodeError in
  ok (mkGroupDescription version code (grd_message self) group_id state protocol_type protocol members
        authorized_operations).

Definition member_wire (version : Z) (fl : bool) (p : list Z * GroupMemberDescription) : list Z :=
  GroupMemberDescription_wire version fl (snd p).
Definition member_ok (fl : bool) (p : list Z * GroupMemberDescription) : Prop := GroupMemberDescription_ok fl (snd p).
Definition GroupDescription_wire (version : Z) (fl : bool) (m : GroupDescription) : list Z :=
  be 2 (grd_code m) ++ w_string fl (grd_group_id m) ++ w_string fl (grd_state m) ++
  w_string fl (grd_protocol_type m) ++ w_string fl (grd_protocol m) ++
  w_array_length fl (Zlen (grd_members m)) ++ w_list (member_wire version fl) (grd_members m) ++
  w_when (3 <=? version) (be 4 (grd_authorized_operations m)) ++ w_tags fl.
Definition GroupDescription_ok (fl : bool) (m : GroupDescription) : Prop :=
  in_s 16 (grd_code m) /\ string_ok fl (grd_group_id m) /\ string_ok fl (grd_state m) /\
  string_ok fl (grd_protocol_type m) /\ string_ok fl (grd_protocol m) /\
  array_fits fl (member_ok fl) (grd_members m) /\ in_s 32 (grd_authorized_operations m).
#[export] Instance GroupDescription_ok_dec fl m : Decision (GroupDescription_ok fl m).
Proof. unfold GroupDescription_ok, member_ok. apply _. Defined.
(** What a group without members has to be to come back as it was *)
Definition bare_group (version : Z) (m : GroupDescription) : Prop :=
  grd_version m = version /\ grd_message m = [] /\ grd_members m = [] /\
  ((3 <=? version) = false -> grd_authorized_operations m = 0).
#[export] Instance bare_group_dec version m : Decision (bare_group version m).
Proof. unfold bare_group. apply _. Defined.
Definition empty_group : GroupDescription := mkGroupDescription 0 0 [] [] [] [] [] [] 0.

Lemma GroupDescription_emits version fl m :
  GroupDescription_ok fl m -> emits fl (GroupDescription_encode version m) 0 (GroupDescription_wire version fl m).
Proof.
  unfold GroupDescription_ok, GroupDescription_encode, GroupDescription_wire. intros H. use_facts.
  eapply emits_seq; [apply emits_putInt16|]. do 4 (eapply emits_check; [emit_steps|]).
  eapply emits_check; [emit_steps|]. eapply emits_try.
  { eapply emits_each; [eassumption|]. intros p Hp. eapply emits_check_last, GroupMemberDescription_emits, Hp. }
  emit_steps.
Qed.
#[export] Hint Resolve GroupDescription_emits : emit.

(** ** DescribeGroups *)

Lemma bare_group_consumes version fl m :
  GroupDescription_ok fl m -> bare_group version m ->
  consumes fl (GroupDescription_decode version empty_group) (Ok m) (GroupDescription_wire version fl m).
Proof.
  unfold GroupDescription_ok, bare_group, GroupDescription_decode, GroupDescription_wire.
  destruct m as [v c t g s pt p l o]. cbn [grd_version grd_code grd_message grd_group_id grd_state grd_protocol_type grd_protocol grd_members grd_authorized_operations]. intros H H'. use_facts. subst.
  do 5 (eapply consumes_let_or; [consume_steps|]). eapply consumes_let_or; [by eapply consumes_array_length|].
  cbn [Zlen length Z.of_nat Z.to_nat read_members]. eapply (consumes_let _ _ _ [] _ []); [apply consumes_ret|].
  eapply consumes_let_or; [apply consumes_readIf; [intros _; consume_steps|done]|]. consume_steps.
Qed.
Lemma memberless_group_consumes version fl m :
  GroupDescription_ok fl m -> grd_members m = [] ->
  exists m', consumes fl (GroupDescription_decode version empty_group) (Ok m') (GroupDescription_wire version fl m).
Proof.
  intros Hm He. set (m' := mkGroupDescription version (grd_code m) [] (grd_group_id m) (grd_state m) (grd_protocol_type m)
    (grd_protocol m) [] (if 3 <=? version then grd_authorized_operations m else 0)).
  exists m'. replace (GroupDescription_wire version fl m) with (GroupDescription_wire version fl m').
  - apply bare_group_consumes.
    + unfold GroupDescription_ok in *. cbn. rewrite He in Hm. destruct Hm as (? & ? & ? & ? & ? & ? & ?).
      split_and!; try done. by destruct (3 <=? version).
    + split_and!; try done. cbn. by destruct (3 <=? version).
  - unfold GroupDescription_wire. cbn -[Z.leb]. rewrite He. by destruct (3 <=? version).
Qed.
Lemma full_group_refused version fl m :
  GroupDescription_ok fl m -> grd_members m <> [] ->
  refuses fl (GroupDescription_decode version empty_group) ErrDecodeError (GroupDescription_wire version fl m).
Proof.
  unfold GroupDescription_ok, GroupDescription_decode, GroupDescription_wire.
  destruct m as [v c t g s pt p l o]. cbn [grd_version grd_code grd_message grd_group_id grd_state grd_protocol_type grd_protocol grd_members grd_authorized_operations]. intros H Hl. use_facts.
  do 5 (eapply refuses_let_or; [consume_steps|]). eapply refuses_let_or; [by eapply consumes_array_length|].
  destruct l as [|x l]; [done|]. rewrite length_Zlen. cbn [length].
  match goal with H : array_fits _ _ _ |- _ => destruct H as (_ & _ & Hf) end. inversion_clear Hf as [|? ? Hx Hf'].
  eapply refuses_here. exists (member_wire version fl x), (w_list (member_wire version fl) l). split; [done|].
  cbn [read_members]. destruct (GroupMemberDescription_read version fl (snd x) (mkGroupMemberDescription 0 [] [] [] [] [] []) Hx) as [m' Hm].
  eapply consumes_as; [eapply consumes_bind; [exact Hm|]|apply app_nil_r]. apply consumes_ret.
Qed.

(* coev_kafka/describe_groups_response.h:59-76 DescribeGroupsResponse *)
Record DescribeGroupsResponse := mkDescribeGroupsResponse {
  dgr_version : Z; dgr_throttle_time : Z; dgr_groups : list GroupDescription }.

(* coev_kafka/describe_groups_response.cpp DescribeGroupsResponse::encode *)
Definition DescribeGroupsResponse_encode (m : DescribeGroupsResponse) : PE Z :=
  whenU (1 <=? dgr_version m) (putDurationMs (dgr_throttle_time m)) ;;;
  try putArrayLength (to_i32 (Zlen (dgr_groups m))) /! ErrEncodeError ;;;
  try for_try (dgr_groups m) (fun x => try GroupDescription_encode (dgr_version m) x /! ErrEncodeError ;;; ret 0) ;;;
  putEmptyTaggedFieldArray ;;;
  ret ErrNoError.

(* coev_kafka/describe_groups_response.cpp DescribeGroupsResponse::decode *)
Definition DescribeGroupsResponse_decode (self : DescribeGroupsResponse) (version : Z) : PD DescribeGroupsResponse :=
  let! throttle_time := readIf (1 <=? version) getDurationMs (dgr_throttle_time self) /! ErrEncodeError in
  let! n := getArrayLength /! ErrEncodeError in
  let! groups := read_counted n (let! y := GroupDescription_decode version empty_group /! ErrEncodeError in ok y) in
  let! _t := getEmptyTaggedFieldArray /! ErrEncodeError in
  ok (mkDescribeGroupsResponse version throttle_time groups).

(* coev_kafka/describe_groups_response.cpp DescribeGroupsResponse::is_flexible_version *)
Definition DescribeGroupsResponse_is_flexible_version (ver : Z) : bool := 5 <=? ver.
(* coev_kafka/describe_groups_response.cpp DescribeGroupsResponse::key..DescribeGroupsResponse::is_flexible *)
#[export] Instance DescribeGroupsResponse_body : protocol_body DescribeGroupsResponse := {
  pb_encode := DescribeGroupsResponse_encode;
  pb_decode := DescribeGroupsResponse_decode;
  pb_key _ := 15;
  pb_version := dgr_version;
  pb_header_version m := if 5 <=? dgr_version m then 1 else 0;
  pb_is_valid_version m := (0 <=? dgr_version m) && (dgr_version m <=? 5);
  pb_is_flexible m := DescribeGroupsResponse_is_flexible_version (dgr_version m);
  pb_is_flexible_version _ := DescribeGroupsResponse_is_flexible_version;
}.

Definition DescribeGroupsResponse_wire (m : DescribeGroupsResponse) : list Z :=
  let fl := pb_is_flexible m in
  w_when (1 <=? dgr_version m) (be 4 (dgr_throttle_time m)) ++
  w_array_length fl (Zlen (dgr_groups m)) ++
  w_list (GroupDescription_wire (dgr_version m) fl) (dgr_groups m) ++ w_tags fl.
Definition DescribeGroupsResponse_ok (m : DescribeGroupsResponse) : Prop :=
  let fl := pb_is_flexible m in
  in_s 32 (dgr_throttle_time m) /\ ((1 <=? dgr_version m) = false -> dgr_throttle_time m = 0) /\
  array_fits fl (fun x => GroupDescription_ok fl x /\ bare_group (dgr_version m) x) (dgr_groups m).
#[export] Instance DescribeGroupsResponse_ok_dec m : Decision (DescribeGroupsResponse_ok m).
Proof. unfold DescribeGroupsResponse_ok. cbv zeta. apply _. Defined.
Definition DescribeGroupsResponse_initial (v : Z) : DescribeGroupsResponse :=
  mkDescribeGroupsResponse v 0 [].
#[export] Hint Unfold DescribeGroupsResponse_encode DescribeGroupsResponse_decode DescribeGroupsResponse_wire DescribeGroupsResponse_ok DescribeGroupsResponse_initial : message.

Lemma DescribeGroupsResponse_emits m :
  DescribeGroupsResponse_ok m -> emits (pb_is_flexible m) (pb_encode m) 0 (DescribeGroupsResponse_wire m).
Proof.
  open_message m. eapply emits_seq; [emit_steps|]. eapply emits_check; [by eapply emits_array_length|].
  eapply emits_try; [|emit_steps]. eapply emits_each; [eassumption|]. intros x [Hx _]. emit_steps.
Qed.
Lemma DescribeGroupsResponse_consumes m :
  DescribeGroupsResponse_ok m ->
  consumes (pb_is_flexible m) (pb_decode (DescribeGroupsResponse_initial (pb_version m)) (pb_version m)) (Ok m) (DescribeGroupsResponse_wire m).
Proof.
  open_message m. eapply consumes_let_or; [consume_steps|]. eapply consumes_let_or; [by eapply consumes_array_length|].
  eapply consumes_let; [eapply consumes_counted; [eassumption|]|consume_steps]. intros x [Hx Hb].
  eapply consumes_last_or; [by apply bare_group_consumes|]. apply consumes_ret.
Qed.
#[export] Instance DescribeGroupsResponse_format : WireFormat DescribeGroupsResponse := {
  wire := DescribeGroupsResponse_wire;
  wire_ok := DescribeGroupsResponse_ok;
  wire_initial := DescribeGroupsResponse_initial;
  wire_flexible _ _ := eq_refl;
  wire_encode := DescribeGroupsResponse_emits;
  wire_decode := DescribeGroupsResponse_consumes;
}.
(* coev_kafka/describe_groups_response.cpp DescribeGroupsResponse::set_version *)
Definition DescribeGroupsResponse_set_version (m : DescribeGroupsResponse) (v : Z) : DescribeGroupsResponse :=
  mkDescribeGroupsResponse v (dgr_throttle_time m) (dgr_groups m).
#[export] Instance DescribeGroupsResponse_versioned : Versioned DescribeGroupsResponse := { set_version := DescribeGroupsResponse_set_version }.
#[export] Instance DescribeGroupsResponse_laws : VersionLaws DescribeGroupsResponse.
Proof. version_laws. Qed.

(** ** DescribeClientQuotas *)

(* coev_kafka/quota_types.h:15-20 QuotaMatchType #2 *)
Definition quota_match_any (t : Z) : bool := (t =? 2) || (t =? 1).
(* coev_kafka/describe_client_quotas_request.h:23-31 QuotaFilterComponent *)
Record QuotaFilterComponent := mkQuotaFilterComponent {
  qfc_entity_type : list Z; qfc_match_type : Z; qfc_match : list Z }.

(* coev_kafka/describe_client_quotas_request.cpp QuotaFilterComponent::encode *)
Definition QuotaFilterComponent_encode (m : QuotaFilterComponent) : PE Z :=
  try putString (qfc_entity_type m) /! ErrEncodeError ;;;
  putInt8 (qfc_match_type m) ;;;
  try (if quota_match_any (qfc_match_type m) then try putNullableString [] /! ErrEncodeError ;;; ret 0
       else try putString (qfc_match m) /! ErrEncodeError ;;; ret 0) ;;;
  putEmptyTaggedFieldArray ;;;
  ret ErrNoError.

(* coev_kafka/describe_client_quotas_request.cpp QuotaFilterComponent::decode *)
Definition QuotaFilterComponent_decode (m : QuotaFilterComponent) : M packet_decoder (Z * QuotaFilterComponent) :=
  let? t := getString /! ErrDecodeError else m in
  let m := mkQuotaFilterComponent t (qfc_match_type m) (qfc_match m) in
  let? t := getInt8 /! ErrDecodeError else m in
  let m := mkQuotaFilterComponent (qfc_entity_type m) t (qfc_match m) in
  let? s := getNullableString /! ErrDecodeError else m in
  let m := mkQuotaFilterComponent (qfc_entity_type m) (qfc_match_type m) s in
  let? _t := getEmptyTaggedFieldArray /! ErrDecodeError else m in
  ret (ErrNoError, m).
Definition QuotaFilterComponent_wire (fl : bool) (m : QuotaFilterComponent) : list Z :=
  w_string fl (qfc_entity_type m) ++ be 1 (qfc_match_type m) ++
  (if quota_match_any (qfc_match_type m) then w_nullable_string fl [] else w_string fl (qfc_match m)) ++ w_tags fl.
Definition QuotaFilterComponent_ok (fl : bool) (m : QuotaFilterComponent) : Prop :=
  string_ok fl (qfc_entity_type m) /\ in_s 8 (qfc_match_type m) /\ string_ok fl (qfc_match m).
#[export] Instance QuotaFilterComponent_ok_dec fl m : Decision (QuotaFilterComponent_ok fl m).
Proof. unfold QuotaFilterComponent_ok. apply _. Defined.
Lemma string_ok_nil fl : string_ok fl [].
Proof. destruct fl; by vm_compute. Qed.
Lemma QuotaFilterComponent_emits fl m :
  QuotaFilterComponent_ok fl m -> emits fl (QuotaFilterComponent_encode m) 0 (QuotaFilterComponent_wire fl m).
Proof.
  unfold QuotaFilterComponent_ok, QuotaFilterComponent_encode, QuotaFilterComponent_wire. intros H. use_facts.
  pose proof (string_ok_nil fl).
  eapply emits_check; [emit_steps|]. eapply emits_seq; [emit_steps|].
  destruct (quota_match_any (qfc_match_type m)); (eapply emits_try; [|emit_steps]); emit_steps.
Qed.
#[export] Hint Resolve QuotaFilterComponent_emits : emit.
Lemma QuotaFilterComponent_read fl m self :
  QuotaFilterComponent_ok fl m ->
  exists m', consumes fl (QuotaFilterComponent_decode self) (ErrNoError, m') (QuotaFilterComponent_wire fl m).
Proof.
  unfold QuotaFilterComponent_ok, QuotaFilterComponent_decode, QuotaFilterComponent_wire. intros H. use_facts.
  eexists. do 2 (eapply consumes_let_else; [consume_steps|]).
  eapply (consumes_let_else _ _ _ _ _ (if quota_match_any (qfc_match_type m) then [] else qfc_match m)).
  { destruct (quota_match_any (qfc_match_type m)); [|consume_steps].
    apply consumes_getNullableString, string_ok_nil. }
  eapply consumes_as; [eapply consumes_let_else; [apply consumes_getEmptyTaggedFieldArray|]|apply app_nil_r]. apply consumes_ret.
Qed.

(** Once more the wrong way round: a component is read on only after it has failed. *)
(* coev_kafka/describe_client_quotas_request.cpp:45-56 DescribeClientQuotasRequest::decode *)
Fixpoint read_components (old : list QuotaFilterComponent) : PD (list QuotaFilterComponent) :=
  match old with
  | [] => ok []
  | x :: old' =>
      let* r := QuotaFilterComponent_decode x in
      if fst r =? 0 then err ErrDecodeError
      else let! l := read_components old' in ok (snd r :: l)
  end.
(* coev_kafka/describe_client_quotas_request.h:33-53 DescribeClientQuotasRequest *)
Record DescribeClientQuotasRequest := mkDescribeClientQuotasRequest {
  dcr_version : Z; dcr_components : list QuotaFilterComponent; dcr_strict : bool }.

(* coev_kafka/describe_client_quotas_request.cpp DescribeClientQuotasRequest::encode *)
Definition DescribeClientQuotasRequest_encode (m : DescribeClientQuotasRequest) : PE Z :=
  try putArrayLength (to_i32 (Zlen (dcr_components m))) /! ErrEncodeError ;;;
  try for_try (dcr_components m) (fun x => try QuotaFilterComponent_encode x /! ErrEncodeError ;;; ret 0) ;;;
  putBool (dcr_strict m) ;;;
  putEmptyTaggedFieldArray ;;;
  ret ErrNoError.

(* coev_kafka/describe_client_quotas_request.cpp DescribeClientQuotasRequest::decode *)
Definition DescribeClientQuotasRequest_decode (self : DescribeClientQuotasRequest) (version : Z) : PD DescribeClientQuotasRequest :=
  let! n := getArrayLength /! ErrDecodeError in
  let! components := read_components (replicate (Z.to_nat n) (mkQuotaFilterComponent [] 0 [])) in
  let! strict := getBool /! ErrDecodeError in
  let! _t := getEmptyTaggedFieldArray /! ErrDecodeError in
  ok (mkDescribeClientQuotasRequest version components strict).

(* coev_kafka/describe_client_quotas_request.cpp DescribeClientQuotasRequest::is_flexible_version *)
Definition DescribeClientQuotasRequest_is_flexible_version (ver : Z) : bool := 1 <=? ver.
(* coev_kafka/describe_client_quotas_request.cpp DescribeClientQuotasRequest::key..DescribeClientQuotasRequest::is_flexible *)
#[export] Instance DescribeClientQuotasRequest_body : protocol_body DescribeClientQuotasRequest := {
  pb_encode := DescribeClientQuotasRequest_encode;
  pb_decode := DescribeClientQuotasRequest_decode;
  pb_key _ := 48;
  pb_version := dcr_version;
  pb_header_version m := if 1 <=? dcr_version m then 2 else 1;
  pb_is_valid_version m := (0 <=? dcr_version m) && (dcr_version m <=? 1);
  pb_is_flexible m := DescribeClientQuotasRequest_is_flexible_version (dcr_version m);
  pb_is_flexible_version _ := DescribeClientQuotasRequest_is_flexible_version;
}.

Definition DescribeClientQuotasRequest_wire (m : DescribeClientQuotasRequest) : list Z :=
  let fl := pb_is_flexible m in
  w_array_length fl (Zlen (dcr_components m)) ++
  w_list (QuotaFilterComponent_wire fl) (dcr_components m) ++ w_bool (dcr_strict m) ++ w_tags fl.
Definition DescribeClientQuotasRequest_ok (m : DescribeClientQuotasRequest) : Prop :=
  dcr_components m = [].
#[export] Instance DescribeClientQuotasRequest_ok_dec m : Decision (DescribeClientQuotasRequest_ok m).
Proof. unfold DescribeClientQuotasRequest_ok. cbv zeta. apply _. Defined.
Definition DescribeClientQuotasRequest_initial (v : Z) : DescribeClientQuotasRequest :=
  mkDescribeClientQuotasRequest v [] false.
#[export] Hint Unfold DescribeClientQuotasRequest_encode DescribeClientQuotasRequest_decode DescribeClientQuotasRequest_wire DescribeClientQuotasRequest_ok DescribeClientQuotasRequest_initial : message.

Lemma DescribeClientQuotasRequest_emits m :
  DescribeClientQuotasRequest_ok m -> emits (pb_is_flexible m) (pb_encode m) 0 (DescribeClientQuotasRequest_wire m).
Proof.
  open_message m. eapply emits_check; [by apply (emits_putArrayLength_of _ (@nil QuotaFilterComponent))|].
  cbn [for_try]. emit_steps.
Qed.
Lemma DescribeClientQuotasRequest_consumes m :
  DescribeClientQuotasRequest_ok m ->
  consumes (pb_is_flexible m) (pb_decode (DescribeClientQuotasRequest_initial (pb_version m)) (pb_version m)) (Ok m) (DescribeClientQuotasRequest_wire m).
Proof.
  open_message m. eapply consumes_let_or; [by apply consumes_getArrayLength, length_ok_small|]. change (Z.to_nat (Zlen [])) with 0%nat.
  cbn [replicate read_components]. eapply (consumes_let _ _ _ [] _ []); [apply consumes_ret|]. consume_steps.
Qed.
#[export] Instance DescribeClientQuotasRequest_format : WireFormat DescribeClientQuotasRequest := {
  wire := DescribeClientQuotasRequest_wire;
  wire_ok := DescribeClientQuotasRequest_ok;
  wire_initial := DescribeClientQuotasRequest_initial;
  wire_flexible _ _ := eq_refl;
  wire_encode := DescribeClientQuotasRequest_emits;
  wire_decode := DescribeClientQuotasRequest_consumes;
}.
(* coev_kafka/describe_client_quotas_request.cpp DescribeClientQuotasRequest::set_version *)
Definition DescribeClientQuotasRequest_set_version (m : DescribeClientQuotasRequest) (v : Z) : DescribeClientQuotasRequest :=
  mkDescribeClientQuotasRequest v (dcr_components m) (dcr_strict m).
#[export] Instance DescribeClientQuotasRequest_versioned : Versioned DescribeClientQuotasRequest := { set_version := DescribeClientQuotasRequest_set_version }.
#[export] Instance DescribeClientQuotasRequest_laws : VersionLaws DescribeClientQuotasRequest.
Proof. version_laws. Qed.


(** ** What comes back *)

Lemma DescribeGroupsResponse_writes m :
  in_s 32 (dgr_throttle_time m) -> array_fits (pb_is_flexible m) (GroupDescription_ok (pb_is_flexible m)) (dgr_groups m) ->
  emits (pb_is_flexible m) (pb_encode m) 0 (DescribeGroupsResponse_wire m).
Proof.
  destruct m as [v t l]. cbn [pb_is_flexible pb_encode DescribeGroupsResponse_body dgr_version dgr_throttle_time dgr_groups].
  intros Ht Hl. unfold DescribeGroupsResponse_encode, DescribeGroupsResponse_wire.
  cbn [pb_is_flexible DescribeGroupsResponse_body dgr_version dgr_throttle_time dgr_groups].
  eapply emits_seq; [emit_steps|]. eapply emits_check; [by eapply emits_array_length|].
  eapply emits_try; [|emit_steps]. eapply emits_each; [eassumption|]. intros x Hx. emit_steps.
Qed.
Lemma DescribeGroupsResponse_refuses m :
  in_s 32 (dgr_throttle_time m) -> array_fits (pb_is_flexible m) (GroupDescription_ok (pb_is_flexible m)) (dgr_groups m) ->
  ~ Forall (fun x => grd_members x = []) (dgr_groups m) ->
  refuses (pb_is_flexible m) (pb_decode (DescribeGroupsResponse_initial (dgr_version m)) (dgr_version m)) ErrEncodeError
    (DescribeGroupsResponse_wire m).
Proof.
  destruct m as [v t l]. cbn [pb_is_flexible pb_decode DescribeGroupsResponse_body dgr_version dgr_throttle_time dgr_groups].
  intros Ht Hl Hm. unfold DescribeGroupsResponse_decode, DescribeGroupsResponse_wire, DescribeGroupsResponse_initial.
  cbn [pb_is_flexible DescribeGroupsResponse_body dgr_version dgr_throttle_time dgr_groups].
  eapply (refuses_let_or _ _ _ _ _ (if 1 <=? v then t else 0)).
  { destruct (1 <=? v); [by apply consumes_getDurationMs|apply consumes_ret]. }
  eapply refuses_let_or; [by eapply consumes_array_length|]. destruct Hl as (_ & _ & Hf). rewrite Forall_forall in Hf.
  unfold read_counted. rewrite length_Zlen. eapply refuses_here, refuses_read_n; [| | |exact Hm].
  - intros x Hx He. destruct (memberless_group_consumes v (DescribeGroupsResponse_is_flexible_version v) x) as [y Hy]; [by apply Hf, list_elem_of_In|done|].
    exists y. eapply consumes_last_or; [exact Hy|]. apply consumes_ret.
  - intros x Hx He. eapply refuses_only. apply full_group_refused; [by apply Hf, list_elem_of_In|exact He].
  - intros x. cbv beta. destruct (grd_members x); [by left|by right].
Qed.

Lemma DescribeClientQuotasRequest_writes m :
  array_fits (pb_is_flexible m) (QuotaFilterComponent_ok (pb_is_flexible m)) (dcr_components m) -> emits (pb_is_flexible m) (pb_encode m) 0 (DescribeClientQuotasRequest_wire m).
Proof.
  destruct m as [v l s]. cbn [pb_is_flexible pb_encode DescribeClientQuotasRequest_body dcr_version dcr_components dcr_strict].
  intros Hl. unfold DescribeClientQuotasRequest_encode, DescribeClientQuotasRequest_wire.
  cbn [pb_is_flexible DescribeClientQuotasRequest_body dcr_version dcr_components dcr_strict].
  eapply emits_check; [by eapply emits_array_length|].
  eapply emits_try; [|emit_steps]. eapply emits_each; [eassumption|]. intros x Hx. emit_steps.
Qed.
Lemma DescribeClientQuotasRequest_refuses m :
  array_fits (pb_is_flexible m) (QuotaFilterComponent_ok (pb_is_flexible m)) (dcr_components m) -> dcr_components m <> [] ->
  refuses (pb_is_flexible m) (pb_decode (DescribeClientQuotasRequest_initial (dcr_version m)) (dcr_version m)) ErrDecodeError
    (DescribeClientQuotasRequest_wire m).
Proof.
  destruct m as [v l s]. cbn [pb_is_flexible pb_decode DescribeClientQuotasRequest_body dcr_version dcr_components dcr_strict].
  intros Hl Hne. unfold DescribeClientQuotasRequest_decode, DescribeClientQuotasRequest_wire.
  cbn [pb_is_flexible DescribeClientQuotasRequest_body dcr_version dcr_components dcr_strict].
  eapply refuses_let_or; [by eapply consumes_array_length|]. destruct l as [|x l]; [done|].
  rewrite length_Zlen. cbn [length replicate read_components]. destruct Hl as (_ & _ & Hf). inversion_clear Hf as [|? ? Hx Hf'].
  eapply refuses_here. exists (QuotaFilterComponent_wire (DescribeClientQuotasRequest_is_flexible_version v) x), (w_list (QuotaFilterComponent_wire (DescribeClientQuotasRequest_is_flexible_version v)) l). split; [done|].
  destruct (QuotaFilterComponent_read (DescribeClientQuotasRequest_is_flexible_version v) x (mkQuotaFilterComponent [] 0 []) Hx) as [m' Hm].
  eapply consumes_as; [eapply consumes_bind; [exact Hm|]|apply app_nil_r]. apply consumes_ret.
Qed.

(** C31: A DescribeGroups response with a group that has a member, and a DescribeClientQuotas
    request with a component, are written in full, and what is written is refused when it is
    read, in every version.  Without members and without components both come back as they
    were. *)
Theorem descriptions_unreadable :
  (forall m, let fl := pb_is_flexible m in
     in_s 32 (dgr_throttle_time m) -> array_fits fl (GroupDescription_ok fl) (dgr_groups m) ->
     ~ Forall (fun x => grd_members x = []) (dgr_groups m) ->
     Zlen (DescribeGroupsResponse_wire m) <= MaxRequestSize ->
     encode m [] = Done (ErrNoError, DescribeGroupsResponse_wire m) m /\
     exists helper, decode_version (DescribeGroupsResponse_wire m) (DescribeGroupsResponse_initial (dgr_version m))
                      (dgr_version m) = Done (Err ErrEncodeError) helper) /\
  (forall m, let fl := pb_is_flexible m in
     array_fits fl (QuotaFilterComponent_ok fl) (dcr_components m) -> dcr_components m <> [] ->
     Zlen (DescribeClientQuotasRequest_wire m) <= MaxRequestSize ->
     encode m [] = Done (ErrNoError, DescribeClientQuotasRequest_wire m) m /\
     exists helper, decode_version (DescribeClientQuotasRequest_wire m) (DescribeClientQuotasRequest_initial (dcr_version m))
                      (dcr_version m) = Done (Err ErrDecodeError) helper) /\
  (forall m, DescribeGroupsResponse_ok m -> Zlen (DescribeGroupsResponse_wire m) <= MaxRequestSize ->
     roundtrips DescribeGroupsResponse_initial DescribeGroupsResponse_wire m) /\
  (forall m, DescribeClientQuotasRequest_ok m -> Zlen (DescribeClientQuotasRequest_wire m) <= MaxRequestSize ->
     roundtrips DescribeClientQuotasRequest_initial DescribeClientQuotasRequest_wire m).
Proof.
  split_and!.
  - intros m fl Ht Hl Hm Hw. split; [by apply (encode_emits m (DescribeGroupsResponse_wire m) []); [apply DescribeGroupsResponse_writes|]|].
    apply decode_version_refused; [by apply DescribeGroupsResponse_refuses|done|].
    unfold DescribeGroupsResponse_wire. intros [_ [[]%w_array_length_ne _]%app_eq_nil]%app_eq_nil.
  - intros m fl Hl Hm Hw. split; [by apply (encode_emits m (DescribeClientQuotasRequest_wire m) []); [apply DescribeClientQuotasRequest_writes|]|].
    apply decode_version_refused; [by apply DescribeClientQuotasRequest_refuses|done|].
    unfold DescribeClientQuotasRequest_wire. by intros [[]%w_array_length_ne _]%app_eq_nil.
  - intros m Hm Hw. refine (wire_roundtrips m Hm Hw (or_introl _)).
    cbn. unfold DescribeGroupsResponse_wire. intros [_ [[]%w_array_length_ne _]%app_eq_nil]%app_eq_nil.
  - intros m Hm Hw. refine (wire_roundtrips m Hm Hw (or_introl _)).
    cbn. unfold DescribeClientQuotasRequest_wire. by intros [[]%w_array_length_ne _]%app_eq_nil.
Qed.
Definition example_groups : DescribeGroupsResponse :=
  mkDescribeGroupsResponse 5 7 [mkGroupDescription 5 0 [] [103] [83] [] [] [([109], mkGroupMemberDescription 5 [109] [] [99] [104] [1] [])] 0].
Definition example_quotas : DescribeClientQuotasRequest :=
  mkDescribeClientQuotasRequest 1 [mkQuotaFilterComponent [117] 0 [97]] true.
Example descriptions_unreadable_witness :
  (exists helper, decode_version (DescribeGroupsResponse_wire example_groups) (DescribeGroupsResponse_initial 5) 5 =
     Done (Err ErrEncodeError) helper) /\
  (exists helper, decode_version (DescribeClientQuotasRequest_wire example_quotas) (DescribeClientQuotasRequest_initial 1) 1 =
     Done (Err ErrDecodeError) helper) /\
  roundtrips DescribeClientQuotasRequest_initial DescribeClientQuotasRequest_wire (mkDescribeClientQuotasRequest 1 [] true).
Proof.
  destruct descriptions_unreadable as (Hg & Hq & _ & Hr). split_and!.
  - apply (Hg example_groups); [by apply (bool_decide_unpack _); vm_compute..| |by vm_compute].
    intros Hf. by inversion_clear Hf.
  - apply (Hq example_quotas); [by apply (bool_decide_unpack _); vm_compute|done|by vm_compute].
  - apply Hr; [by apply (bool_decide_unpack _); vm_compute|by vm_compute].
Defined.
