(* ===== verification/MetadataMessages.v ===== *)
(** * Metadata, coordinators and committed offsets

    What a [Client] and a consumer group ask a broker for: Metadata, FindCoordinator responses
    and OffsetFetch, with the address of a broker as they carry it. *)
From Stdlib Require Import ZArith Lia Bool.
From stdpp Require Import base tactics list numbers.
From S2P Require Import Prelude Errors Wire Decoder Encoder Codec CodecEnc CodecDec EncoderDecoder.
From S2P Require Import StdMap MessageKit Decimal SetVersion.

(** ** Addresses *)

(** [std::to_string] is [to_string]. *)
(* coev_kafka/undefined.h:43-46 net::JoinHostPort *)
Definition JoinHostPort (host : list Z) (port : Z) : list Z := host ++ 58 :: to_string port.

(** [std::stoi]: white space, a sign, digits and whatever follows; it throws without a digit
    and for a number that is no [int]. *)
Definition is_space (c : Z) : bool := (c =? 32) || ((9 <=? c) && (c <=? 13)).
Fixpoint skip_spaces (l : list Z) : list Z :=
  match l with [] => [] | c :: l' => if is_space c then skip_spaces l' else l end.
Fixpoint leading_digits (l : list Z) : list Z :=
  match l with [] => [] | c :: l' => if is_digit c then c :: leading_digits l' else [] end.
Definition signed_digits (l : list Z) : bool * list Z :=
  match l with
  | c :: l' => if c =? 45 then (true, leading_digits l') else if c =? 43 then (false, leading_digits l')
               else (false, leading_digits l)
  | [] => (false, [])
  end.
Definition stoi (l : list Z) : option Z :=
  let '(negative, ds) := signed_digits (skip_spaces l) in
  let n := if negative then - decimal ds else decimal ds in
  if empty ds || negb ((- 2 ^ 31 <=? n) && (n <? 2 ^ 31)) then None else Some n.

(** The text before the first colon and the number after it; [None] is an exception. *)
Fixpoint before_colon (l : list Z) : list Z * option (list Z) :=
  match l with
  | [] => ([], None)
  | c :: l' => if c =? 58 then ([], Some l') else let '(h, p) := before_colon l' in (c :: h, p)
  end.
(* coev_kafka/undefined.h:47-55 net::SplitHostPort *)
Definition SplitHostPort (addr : list Z) : option (list Z * Z) :=
  match before_colon addr with
  | (host, None) => Some (host, 0)
  | (host, Some port) => match stoi port with Some p => Some (host, p) | None => None end
  end.

Lemma before_colon_app h p : 58 ∉ h -> before_colon (h ++ 58 :: p) = (h, Some p).
Proof.
  induction h as [|c h IH]; intros Hh; [done|]. apply not_elem_of_cons in Hh as [Hc Hh]. cbn.
  replace (c =? 58) with false by lia. by rewrite IH.
Qed.
Lemma leading_digits_all l : all_digits l -> leading_digits l = l.
Proof. induction 1 as [|c l Hc Hl IH]; cbn; [done|]. by rewrite Hc, IH. Qed.
Lemma digit_plain c : is_digit c = true -> is_space c = false /\ (c =? 45) = false /\ (c =? 43) = false.
Proof. unfold is_digit, is_space. lia. Qed.
Lemma stoi_to_string n : in_s 32 n -> stoi (to_string n) = Some n.
Proof.
  unfold in_s. change (2 ^ (32 - 1)) with (2 ^ 31). intros Hn. unfold stoi, to_string.
  destruct (Z.ltb_spec n 0) as [Hneg|Hpos].
  - cbn [skip_spaces is_space]. change (is_space 45) with false. cbn [signed_digits].
    change (45 =? 45) with true. cbv iota. rewrite leading_digits_all by apply digits_all.
    rewrite decimal_digits by (cbn; lia). rewrite empty_false by apply digits_ne.
    replace ((- 2 ^ 31 <=? - - n) && (- - n <? 2 ^ 31)) with true by lia. cbn. f_equal. lia.
  - pose proof (digits_all 10 n) as Hd. destruct (digits 10 n []) as [|c l] eqn:E; [by destruct (digits_ne 9 n)|].
    inversion_clear Hd as [|? ? Hc Hl]. destruct (digit_plain c Hc) as (Hs & H45 & H43).
    cbn [skip_spaces]. rewrite Hs. cbn [signed_digits]. rewrite H45, H43.
    rewrite leading_digits_all, <- E by by constructor. rewrite decimal_digits by (cbn; lia).
    rewrite empty_false by apply digits_ne. replace ((- 2 ^ 31 <=? n) && (n <? 2 ^ 31)) with true by lia. done.
Qed.
(** A host name without a colon is found again. *)
Lemma split_join host port : 58 ∉ host -> in_s 32 port -> SplitHostPort (JoinHostPort host port) = Some (host, port).
Proof. intros Hh Hp. unfold SplitHostPort, JoinHostPort. by rewrite before_colon_app, stoi_to_string by done. Qed.

(** ** Brokers *)

(** What a [Broker] has to say for itself in a message *)
(* coev_kafka/broker.h:182-184 Broker *)
Record BrokerNode := mkBrokerNode { bn_id : Z; bn_rack : list Z; bn_addr : list Z }.
Definition localhost : list Z := [108; 111; 99; 97; 108; 104; 111; 115; 116].
Definition loopback : list Z := [49; 50; 55; 46; 48; 46; 48; 46; 49].

(* coev_kafka/broker.cpp Broker::encode *)
Definition BrokerNode_encode (version : Z) (m : BrokerNode) : PE Z :=
  match SplitHostPort (bn_addr m) with
  | None => fail FThrow
  | Some (host, port) =>
      if empty host then ret 1
      else
        putInt32 (bn_id m) ;;;
        try putString host ;;;
        putInt32 port ;;;
        try when (1 <=? version) (putNullableString (bn_rack m)) ;;;
        putEmptyTaggedFieldArray ;;;
        ret 0
  end.

(* coev_kafka/broker.cpp Broker::decode *)
Definition BrokerNode_decode (version : Z) : PD BrokerNode :=
  let! id := getInt32 in
  let! host := getString in
  let! port := getInt32 in
  let host := if decide (host = localhost) then loopback else host in
  let addr := JoinHostPort host port in
  let! rack := readIf (1 <=? version) getNullableString [] in
  let! _t := readIf (5 <=? version) getEmptyTaggedFieldArray tt in
  ok (mkBrokerNode id rack addr).

Definition node_host (m : BrokerNode) : list Z :=
  match SplitHostPort (bn_addr m) with Some (h, _) => h | None => [] end.
Definition node_port (m : BrokerNode) : Z := match SplitHostPort (bn_addr m) with Some (_, p) => p | None => 0 end.
Definition BrokerNode_wire (version : Z) (fl : bool) (m : BrokerNode) : list Z :=
  be 4 (bn_id m) ++ w_string fl (node_host m) ++ be 4 (node_port m) ++
  w_when (1 <=? version) (w_nullable_string fl (bn_rack m)) ++ w_tags fl.
(** The address is that of a host with a name other than [localhost]; where the context is
    flexible the version has tags. *)
Definition BrokerNode_ok (version : Z) (fl : bool) (m : BrokerNode) : Prop :=
  bn_addr m = JoinHostPort (node_host m) (node_port m) /\ node_host m <> [] /\ (58 ∉ node_host m) /\
  node_host m <> localhost /\ in_s 32 (node_port m) /\ string_ok fl (node_host m) /\ in_s 32 (bn_id m) /\
  string_ok fl (bn_rack m) /\ ((1 <=? version) = false -> bn_rack m = []) /\ (fl = true -> 5 <= version).
#[export] Instance BrokerNode_ok_dec version fl m : Decision (BrokerNode_ok version fl m).
Proof. unfold BrokerNode_ok. apply _. Defined.
Lemma BrokerNode_split version fl m : BrokerNode_ok version fl m -> SplitHostPort (bn_addr m) = Some (node_host m, node_port m).
Proof. intros (-> & _ & Hc & _ & Hp & _). by apply split_join. Qed.
Lemma BrokerNode_emits version fl m :
  BrokerNode_ok version fl m -> emits fl (BrokerNode_encode version m) 0 (BrokerNode_wire version fl m).
Proof.
  intros Hm. unfold BrokerNode_encode, BrokerNode_wire. rewrite (BrokerNode_split version fl) by done.
  destruct Hm as (_ & Hh & _ & _ & Hp & Hs & Hi & Hr & _). rewrite empty_false by done. emit_steps.
Qed.
Lemma BrokerNode_consumes version fl m :
  BrokerNode_ok version fl m -> consumes fl (BrokerNode_decode version) (Ok m) (BrokerNode_wire version fl m).
Proof.
  unfold BrokerNode_decode, BrokerNode_wire. intros (Ha & Hh & _ & Hl & Hp & Hs & Hi & Hr & Hv & Hf).
  eapply consumes_let; [consume_steps|]. eapply consumes_let; [consume_steps|]. eapply consumes_let; [consume_steps|].
  rewrite decide_False by done. cbv zeta. rewrite <- Ha.
  eapply consumes_let; [apply consumes_readIf; [intros _; consume_steps|done]|].
  eapply consumes_last; [|destruct m; apply consumes_ret]. unfold readIf. destruct (Z.leb_spec 5 version); [consume_steps|].
  destruct fl; [by specialize (Hf eq_refl); lia|]. apply consumes_ret.
Qed.
#[export] Hint Resolve BrokerNode_emits : emit.
#[export] Hint Resolve BrokerNode_consumes : consume.
#[global] Arguments BrokerNode_wire : simpl never.
#[global] Arguments BrokerNode_encode : simpl never.
#[global] Arguments BrokerNode_decode : simpl never.
#[global] Arguments BrokerNode_ok : simpl never.

(** ** Requests for metadata *)

(* coev_kafka/metadata_request.cpp:18-18 NullUUID *)
Definition NullUUID : list Z := replicate 16 0.
(* coev_kafka/metadata_request.h:26-51 MetadataRequest *)
Record MetadataRequest := mkMetadataRequest {
  mdq_version : Z; mdq_topics : list (list Z); mdq_allow_auto_topic_creation : bool;
  mdq_include_cluster_authorized_operations : bool; mdq_include_topic_authorized_operations : bool }.

(* coev_kafka/metadata_request.cpp MetadataRequest::encode *)
Definition MetadataRequest_encode (m : MetadataRequest) : PE Z :=
  if (mdq_version m <? 0) || (10 <? mdq_version m) then ret (-1) else
  try (if (mdq_version m =? 0) || negb (Zlen (mdq_topics m) =? 0) then
       try putArrayLength (to_i32 (Zlen (mdq_topics m))) ;;;
       if mdq_version m <=? 9 then
         for_try (mdq_topics m) (fun name => try putString name ;;; putEmptyTaggedFieldArray ;;; ret 0)
       else
         for_try (mdq_topics m) (fun name =>
           try putRawBytes NullUUID ;;; try putNullableString name ;;; putEmptyTaggedFieldArray ;;; ret 0)
     else putArrayLength (-1)) ;;;
  whenU (3 <? mdq_version m) (putBool (mdq_allow_auto_topic_creation m)) ;;;
  whenU (7 <? mdq_version m) (putBool (mdq_include_cluster_authorized_operations m)) ;;;
  whenU (7 <? mdq_version m) (putBool (mdq_include_topic_authorized_operations m)) ;;;
  putEmptyTaggedFieldArray ;;;
  ret 0.

(* coev_kafka/metadata_request.cpp MetadataRequest::decode *)
Definition MetadataRequest_decode (self : MetadataRequest) (version : Z) : PD MetadataRequest :=
  let! size := getArrayLength in
  let! topics := read_each (if 0 <? size then resized [] (Z.to_nat size) (mdq_topics self) else mdq_topics self)
    (if version <=? 9 then fun _ => let! name := getString in let! _t := getEmptyTaggedFieldArray in ok name
     else fun _ => let! _u := getRawBytes 16 in let! name := getNullableString in
            let! _t := getEmptyTaggedFieldArray in ok name) in
  let! allow_auto_topic_creation := readIf (3 <? version) getBool (mdq_allow_auto_topic_creation self) in
  let! include_cluster_authorized_operations := readIf (7 <? version) getBool (mdq_include_cluster_authorized_operations self) in
  let! include_topic_authorized_operations := readIf (7 <? version) getBool (mdq_include_topic_authorized_operations self) in
  let! _t := getEmptyTaggedFieldArray in
  ok (mkMetadataRequest version topics allow_auto_topic_creation include_cluster_authorized_operations include_topic_authorized_operations).

(* coev_kafka/metadata_request.cpp MetadataRequest::is_flexible_version *)
Definition MetadataRequest_is_flexible_version (ver : Z) : bool := 9 <=? ver.
(* coev_kafka/metadata_request.cpp MetadataRequest::key..MetadataRequest::is_flexible *)
#[export] Instance MetadataRequest_body : protocol_body MetadataRequest := {
  pb_encode := MetadataRequest_encode;
  pb_decode := MetadataRequest_decode;
  pb_key _ := 3;
  pb_version := mdq_version;
  pb_header_version m := if 9 <=? mdq_version m then 2 else 1;
  pb_is_valid_version m := (0 <=? mdq_version m) && (mdq_version m <=? 10);
  pb_is_flexible m := MetadataRequest_is_flexible_version (mdq_version m);
  pb_is_flexible_version _ := MetadataRequest_is_flexible_version;
}.

(** The topics, by name or behind an identifier of zeros, or no array for all of them *)
Definition w_topics (fl : bool) (version : Z) (l : list (list Z)) : list Z :=
  if (version =? 0) || negb (Zlen l =? 0) then
    w_array_length fl (Zlen l) ++
    w_list (fun s => if version <=? 9 then w_string fl s ++ w_tags fl
                     else NullUUID ++ w_nullable_string fl s ++ w_tags fl) l
  else w_array_length fl (-1).
Definition topics_fit (fl : bool) (l : list (list Z)) : Prop := array_fits fl (string_ok fl) l.
#[export] Instance topics_fit_dec fl l : Decision (topics_fit fl l).
Proof. unfold topics_fit. apply _. Defined.
Lemma consumes_no_array fl : exists n, n <= 0 /\ consumes fl getArrayLength (Ok n) (w_array_length fl (-1)).
Proof. exists (if fl then 0 else -1). split; [by destruct fl|apply consumes_null_length]. Qed.
Lemma consumes_each_fresh {X} fl (d : X) g w P (l : list X) :
  Forall P l -> (forall x, P x -> consumes fl (g d) (Ok x) (w x)) ->
  consumes fl (read_each (resized d (Z.to_nat (Zlen l)) []) g) (Ok l) (w_list w l).
Proof.
  intros Hl Hg. unfold resized. rewrite take_nil. cbn [length app]. rewrite Nat.sub_0_r, read_each_replicate, length_Zlen.
  rewrite Forall_forall in Hl. apply consumes_read_n. intros x Hx. by apply Hg, Hl, list_elem_of_In.
Qed.
Definition MetadataRequest_wire (m : MetadataRequest) : list Z :=
  let fl := pb_is_flexible m in
  w_topics fl (mdq_version m) (mdq_topics m) ++
  w_when (3 <? mdq_version m) (w_bool (mdq_allow_auto_topic_creation m)) ++
  w_when (7 <? mdq_version m) (w_bool (mdq_include_cluster_authorized_operations m)) ++
  w_when (7 <? mdq_version m) (w_bool (mdq_include_topic_authorized_operations m)) ++ w_tags fl.
Definition MetadataRequest_ok (m : MetadataRequest) : Prop :=
  let fl := pb_is_flexible m in
  0 <= mdq_version m <= 10 /\ topics_fit fl (mdq_topics m) /\
  ((3 <? mdq_version m) = false -> mdq_allow_auto_topic_creation m = false) /\
  ((7 <? mdq_version m) = false -> mdq_include_cluster_authorized_operations m = false) /\
  ((7 <? mdq_version m) = false -> mdq_include_topic_authorized_operations m = false).
#[export] Instance MetadataRequest_ok_dec m : Decision (MetadataRequest_ok m).
Proof. unfold MetadataRequest_ok. cbv zeta. apply _. Defined.
Definition MetadataRequest_initial (v : Z) : MetadataRequest :=
  mkMetadataRequest v [] false false false.
#[export] Hint Unfold MetadataRequest_encode MetadataRequest_decode MetadataRequest_wire MetadataRequest_ok MetadataRequest_initial : message.

Lemma consumes_empty_topics {A} fl n (g : list Z -> PD (list Z)) (k : list (list Z) -> PD A) w bs :
  n <= 0 -> consumes fl (k []) w bs ->
  consumes fl (let! x := read_each (if 0 <? n then resized [] (Z.to_nat n) [] else []) g in k x) w bs.
Proof.
  intros Hn Hk. replace (0 <? n) with false by lia.
  by apply (consumes_bind fl (read_each [] g) (fun r => match r with Err e => ret (Err e) | Ok x => k x end) (Ok []) w [] bs); [apply consumes_ret|].
Qed.
Lemma MetadataRequest_emits m :
  MetadataRequest_ok m -> emits (pb_is_flexible m) (pb_encode m) 0 (MetadataRequest_wire m).
Proof.
  destruct m as [v l a b c]. unfold MetadataRequest_ok, MetadataRequest_wire.
  cbn [pb_is_flexible pb_encode MetadataRequest_body mdq_version mdq_topics mdq_allow_auto_topic_creation
    mdq_include_cluster_authorized_operations mdq_include_topic_authorized_operations].
  set (fl := MetadataRequest_is_flexible_version v). intros H. unfold MetadataRequest_encode, w_topics, topics_fit in *.
  cbn [mdq_version mdq_topics mdq_allow_auto_topic_creation mdq_include_cluster_authorized_operations mdq_include_topic_authorized_operations].
  use_facts. replace ((v <? 0) || (10 <? v)) with false by lia. eapply emits_try; [|emit_steps].
  destruct ((v =? 0) || negb (Zlen l =? 0)); [|apply emits_null_length].
  eapply emits_try; [by eapply emits_array_length|].
  destruct (v <=? 9); (eapply emits_each; [eassumption|]; intros x Hx); [emit_steps|].
  eapply emits_try; [by apply emits_putRawBytes|]. emit_steps.
Qed.
Lemma MetadataRequest_consumes m :
  MetadataRequest_ok m ->
  consumes (pb_is_flexible m) (pb_decode (MetadataRequest_initial (pb_version m)) (pb_version m)) (Ok m) (MetadataRequest_wire m).
Proof.
  destruct m as [v l a b c]. unfold MetadataRequest_ok, MetadataRequest_wire.
  cbn [pb_is_flexible pb_decode pb_version MetadataRequest_body mdq_version mdq_topics mdq_allow_auto_topic_creation
    mdq_include_cluster_authorized_operations mdq_include_topic_authorized_operations].
  set (fl := MetadataRequest_is_flexible_version v). intros H.
  unfold MetadataRequest_decode, MetadataRequest_initial, w_topics, topics_fit in *.
  cbn [mdq_version mdq_topics mdq_allow_auto_topic_creation mdq_include_cluster_authorized_operations mdq_include_topic_authorized_operations].
  use_facts. destruct (Z.eqb_spec (Zlen l) 0) as [E|E].
  - assert (l = []) as -> by (apply Zlen_zero; lia). cbn [negb]. rewrite orb_false_r. destruct (v =? 0).
    + cbn [w_list map concat]. rewrite app_nil_r. eapply consumes_let; [by apply consumes_getArrayLength, length_ok_small|].
      apply consumes_empty_topics; [done|]. consume_steps.
    + destruct (consumes_no_array fl) as (n & Hn & Hc). eapply consumes_let; [exact Hc|].
      apply consumes_empty_topics; [done|]. consume_steps.
  - cbn [negb]. rewrite orb_true_r. pose proof (Zlen_nonneg l). rewrite <- app_assoc.
    eapply consumes_let; [by eapply consumes_array_length|]. replace (0 <? Zlen l) with true by lia.
    eapply consumes_let; [|consume_steps].
    match goal with H : array_fits _ _ _ |- _ => destruct H as (_ & _ & Hf) end.
    eapply consumes_each_fresh; [exact Hf|]. intros x Hx. cbv beta. destruct (v <=? 9); [consume_steps|].
    eapply consumes_let; [by apply consumes_getRawBytes|]. consume_steps.
Qed.
#[export] Instance MetadataRequest_format : WireFormat MetadataRequest := {
  wire := MetadataRequest_wire;
  wire_ok := MetadataRequest_ok;
  wire_initial := MetadataRequest_initial;
  wire_flexible _ _ := eq_refl;
  wire_encode := MetadataRequest_emits;
  wire_decode := MetadataRequest_consumes;
}.
(* coev_kafka/metadata_request.cpp MetadataRequest::set_version *)
Definition MetadataRequest_set_version (m : MetadataRequest) (v : Z) : MetadataRequest :=
  mkMetadataRequest v (mdq_topics m) (mdq_allow_auto_topic_creation m) (mdq_include_cluster_authorized_operations m) (mdq_include_topic_authorized_operations m).
#[export] Instance MetadataRequest_versioned : Versioned MetadataRequest := { set_version := MetadataRequest_set_version }.
#[export] Instance MetadataRequest_laws : VersionLaws MetadataRequest.
Proof. version_laws. Qed.

(** ** Metadata: a failure among the tags of a topic or a partition is not reported *)

(** The version of the object, which is mutable, becomes the argument of [encode]. *)
(* coev_kafka/metadata_response.h:27-44 PartitionMetadata *)
Record PartitionMetadata := mkPartitionMetadata {
  mpt_version : Z; mpt_err : Z; mpt_id : Z; mpt_leader : Z; mpt_leader_epoch : Z;
  mpt_replicas : list Z; mpt_isr : list Z; mpt_offline_replicas : list Z }.

(* coev_kafka/metadata_response.cpp PartitionMetadata::encode *)
Definition PartitionMetadata_encode (version : Z) (m : PartitionMetadata) : PE Z :=
  putKError (mpt_err m) ;;;
  putInt32 (mpt_id m) ;;;
  putInt32 (mpt_leader m) ;;;
  whenU (7 <=? version) (putInt32 (mpt_leader_epoch m)) ;;;
  try putInt32Array (mpt_replicas m) ;;;
  try putInt32Array (mpt_isr m) ;;;
  try when (5 <=? version) (putInt32Array (mpt_offline_replicas m)) ;;;
  putEmptyTaggedFieldArray ;;;
  ret 0.

(* coev_kafka/metadata_response.cpp PartitionMetadata::decode *)
Definition PartitionMetadata_decode (version : Z) (self : PartitionMetadata) : PD PartitionMetadata :=
  let! err := getKError in
  let! id := getInt32 in
  let! leader := getInt32 in
  let! leader_epoch := readIf (7 <=? version) getInt32 (mpt_leader_epoch self) in
  let! replicas := getInt32Array in
  let! isr := getInt32Array in
  let! offline_replicas := readIf (5 <=? version) getInt32Array (mpt_offline_replicas self) in
  getEmptyTaggedFieldArray ;;;
  ok (mkPartitionMetadata version err id leader leader_epoch replicas isr offline_replicas).

Definition PartitionMetadata_wire (version : Z) (fl : bool) (m : PartitionMetadata) : list Z :=
  be 2 (mpt_err m) ++ be 4 (mpt_id m) ++ be 4 (mpt_leader m) ++
  w_when (7 <=? version) (be 4 (mpt_leader_epoch m)) ++ w_int32_array fl (mpt_replicas m) ++
  w_int32_array fl (mpt_isr m) ++
  w_when (5 <=? version) (w_int32_array fl (mpt_offline_replicas m)) ++ w_tags fl.
Definition PartitionMetadata_ok (version : Z) (fl : bool) (m : PartitionMetadata) : Prop :=
  mpt_version m = version /\ in_s 16 (mpt_err m) /\ in_s 32 (mpt_id m) /\
  in_s 32 (mpt_leader m) /\ in_s 32 (mpt_leader_epoch m) /\
  ((7 <=? version) = false -> mpt_leader_epoch m = 0) /\ int32s_ok fl (mpt_replicas m) /\
  int32s_ok fl (mpt_isr m) /\ int32s_ok fl (mpt_offline_replicas m) /\
  ((5 <=? version) = false -> mpt_offline_replicas m = []).
#[export] Instance PartitionMetadata_ok_dec version fl m : Decision (PartitionMetadata_ok version fl m).
Proof. unfold PartitionMetadata_ok. apply _. Defined.
Lemma PartitionMetadata_emits version fl m : PartitionMetadata_ok version fl m -> emits fl (PartitionMetadata_encode version m) 0 (PartitionMetadata_wire version fl m).
Proof. unfold PartitionMetadata_ok, PartitionMetadata_encode, PartitionMetadata_wire. solve_emits m. Qed.
Lemma PartitionMetadata_consumes version fl m : PartitionMetadata_ok version fl m -> consumes fl (PartitionMetadata_decode version (mkPartitionMetadata 0 0 0 0 0 [] [] [])) (Ok m) (PartitionMetadata_wire version fl m).
Proof. unfold PartitionMetadata_ok, PartitionMetadata_decode, PartitionMetadata_wire. solve_consumes m. Qed.
#[export] Hint Resolve PartitionMetadata_emits : emit.
#[export] Hint Resolve PartitionMetadata_consumes : consume.
#[global] Arguments PartitionMetadata_wire : simpl never.
#[global] Arguments PartitionMetadata_encode : simpl never.
#[global] Arguments PartitionMetadata_decode : simpl never.
#[global] Arguments PartitionMetadata_ok : simpl never.

(** A topic's id is 16 bytes. *)
Lemma emits_uuid fl s : Zlen s = 16 -> emits fl (putRawBytes s) 0 s.
Proof. intros H. apply emits_putRawBytes. unfold bytes_ok, INT32_MAX. lia. Qed.
#[export] Hint Resolve emits_uuid : emit.
#[export] Hint Resolve consumes_getRawBytes : consume.

(* coev_kafka/metadata_response.h:46-60 TopicMetadata *)
Record TopicMetadata := mkTopicMetadata {
  mtp_version : Z; mtp_err : Z; mtp_name : list Z; mtp_uuid : list Z; mtp_is_internal : bool;
  mtp_partitions : list PartitionMetadata; mtp_topic_authorized_operations : Z }.

(* coev_kafka/metadata_response.cpp TopicMetadata::encode *)
Definition TopicMetadata_encode (version : Z) (m : TopicMetadata) : PE Z :=
  putKError (mtp_err m) ;;;
  try putString (mtp_name m) ;;;
  try when (10 <=? version) (putRawBytes (mtp_uuid m)) ;;;
  whenU (1 <=? version) (putBool (mtp_is_internal m)) ;;;
  try putArrayLength (to_i32 (Zlen (mtp_partitions m))) ;;;
  try for_try (mtp_partitions m) (PartitionMetadata_encode version) ;;;
  whenU (8 <=? version) (putInt32 (mtp_topic_authorized_operations m)) ;;;
  putEmptyTaggedFieldArray ;;;
  ret 0.

(* coev_kafka/metadata_response.cpp TopicMetadata::decode *)
Definition TopicMetadata_decode (version : Z) (self : TopicMetadata) : PD TopicMetadata :=
  let! err := getKError in
  let! name := getString in
  let! uuid := readIf (10 <=? version) (getRawBytes 16) (mtp_uuid self) in
  let! is_internal := readIf (1 <=? version) getBool (mtp_is_internal self) in
  let! n := getArrayLength in
  let! partitions := read_into (mkPartitionMetadata 0 0 0 0 0 [] [] []) n (mtp_partitions self) (PartitionMetadata_decode version) in
  let! topic_authorized_operations := readIf (8 <=? version) getInt32 (mtp_topic_authorized_operations self) in
  getEmptyTaggedFieldArray ;;;
  ok (mkTopicMetadata version err name uuid is_internal partitions topic_authorized_operations).

Definition TopicMetadata_wire (version : Z) (fl : bool) (m : TopicMetadata) : list Z :=
  be 2 (mtp_err m) ++ w_string fl (mtp_name m) ++ w_when (10 <=? version) (mtp_uuid m) ++
  w_when (1 <=? version) (w_bool (mtp_is_internal m)) ++
  w_array_length fl (Zlen (mtp_partitions m)) ++
  w_list (PartitionMetadata_wire version fl) (mtp_partitions m) ++
  w_when (8 <=? version) (be 4 (mtp_topic_authorized_operations m)) ++ w_tags fl.
Definition TopicMetadata_ok (version : Z) (fl : bool) (m : TopicMetadata) : Prop :=
  mtp_version m = version /\ in_s 16 (mtp_err m) /\ string_ok fl (mtp_name m) /\
  Zlen (mtp_uuid m) = 16 /\ ((10 <=? version) = false -> mtp_uuid m = NullUUID) /\
  ((1 <=? version) = false -> mtp_is_internal m = false) /\
  array_fits fl (PartitionMetadata_ok version fl) (mtp_partitions m) /\
  in_s 32 (mtp_topic_authorized_operations m) /\
  ((8 <=? version) = false -> mtp_topic_authorized_operations m = 0).
#[export] Instance TopicMetadata_ok_dec version fl m : Decision (TopicMetadata_ok version fl m).
Proof. unfold TopicMetadata_ok. apply _. Defined.
Lemma TopicMetadata_emits version fl m : TopicMetadata_ok version fl m -> emits fl (TopicMetadata_encode version m) 0 (TopicMetadata_wire version fl m).
Proof. unfold TopicMetadata_ok, TopicMetadata_encode, TopicMetadata_wire. solve_emits m. Qed.
Lemma TopicMetadata_consumes version fl m : TopicMetadata_ok version fl m -> consumes fl (TopicMetadata_decode version (mkTopicMetadata 0 0 [] NullUUID false [] 0)) (Ok m) (TopicMetadata_wire version fl m).
Proof. unfold TopicMetadata_ok, TopicMetadata_decode, TopicMetadata_wire. solve_consumes m. Qed.
#[export] Hint Resolve TopicMetadata_emits : emit.
#[export] Hint Resolve TopicMetadata_consumes : consume.
#[global] Arguments TopicMetadata_wire : simpl never.
#[global] Arguments TopicMetadata_encode : simpl never.
#[global] Arguments TopicMetadata_decode : simpl never.
#[global] Arguments TopicMetadata_ok : simpl never.

(* coev_kafka/metadata_response.h:62-89 MetadataResponse *)
Record MetadataResponse := mkMetadataResponse {
  mds_version : Z; mds_throttle_time : Z; mds_brokers : list BrokerNode;
  mds_topics : list TopicMetadata; mds_cluster_id : list Z; mds_controller_id : Z;
  mds_cluster_authorized_operations : Z }.

(* coev_kafka/metadata_response.cpp MetadataResponse::encode *)
Definition MetadataResponse_encode (m : MetadataResponse) : PE Z :=
  whenU (3 <=? mds_version m) (putDurationMs (mds_throttle_time m)) ;;;
  try putArrayLength (to_i32 (Zlen (mds_brokers m))) ;;;
  try for_try (mds_brokers m) (BrokerNode_encode (mds_version m)) ;;;
  try when (2 <=? mds_version m) (putNullableString (mds_cluster_id m)) ;;;
  whenU (1 <=? mds_version m) (putInt32 (mds_controller_id m)) ;;;
  try putArrayLength (to_i32 (Zlen (mds_topics m))) ;;;
  try for_try (mds_topics m) (TopicMetadata_encode (mds_version m)) ;;;
  whenU (8 <=? mds_version m) (putInt32 (mds_cluster_authorized_operations m)) ;;;
  putEmptyTaggedFieldArray ;;;
  ret 0.

(* coev_kafka/metadata_response.cpp MetadataResponse::decode *)
Definition MetadataResponse_decode (self : MetadataResponse) (version : Z) : PD MetadataResponse :=
  let! throttle_time := readIf (3 <=? version) getDurationMs (mds_throttle_time self) in
  let! n := getArrayLength in
  let! brokers := read_resized n (BrokerNode_decode version) in
  let! cluster_id := readIf (2 <=? version) getNullableString (mds_cluster_id self) in
  let! controller_id := readIf (1 <=? version) getInt32 (mds_controller_id self) in
  let! n := getArrayLength in
  let! topics := read_into (mkTopicMetadata 0 0 [] NullUUID false [] 0) n (mds_topics self) (TopicMetadata_decode version) in
  let! cluster_authorized_operations := readIf (8 <=? version) getInt32 (mds_cluster_authorized_operations self) in
  getEmptyTaggedFieldArray ;;;
  ok (mkMetadataResponse version throttle_time brokers topics cluster_id controller_id cluster_authorized_operations).

(* coev_kafka/metadata_response.cpp MetadataResponse::is_flexible_version *)
Definition MetadataResponse_is_flexible_version (ver : Z) : bool := 9 <=? ver.
(* coev_kafka/metadata_response.cpp MetadataResponse::key..MetadataResponse::is_flexible *)
#[export] Instance MetadataResponse_body : protocol_body MetadataResponse := {
  pb_encode := MetadataResponse_encode;
  pb_decode := MetadataResponse_decode;
  pb_key _ := 3;
  pb_version := mds_version;
  pb_header_version m := if mds_version m <? 9 then 0 else 1;
  pb_is_valid_version m := (0 <=? mds_version m) && (mds_version m <=? 10);
  pb_is_flexible m := MetadataResponse_is_flexible_version (mds_version m);
  pb_is_flexible_version _ := MetadataResponse_is_flexible_version;
}.

Definition MetadataResponse_wire (m : MetadataResponse) : list Z :=
  let fl := pb_is_flexible m in
  w_when (3 <=? mds_version m) (be 4 (mds_throttle_time m)) ++
  w_array_length fl (Zlen (mds_brokers m)) ++
  w_list (BrokerNode_wire (mds_version m) fl) (mds_brokers m) ++
  w_when (2 <=? mds_version m) (w_nullable_string fl (mds_cluster_id m)) ++
  w_when (1 <=? mds_version m) (be 4 (mds_controller_id m)) ++
  w_array_length fl (Zlen (mds_topics m)) ++
  w_list (TopicMetadata_wire (mds_version m) fl) (mds_topics m) ++
  w_when (8 <=? mds_version m) (be 4 (mds_cluster_authorized_operations m)) ++ w_tags fl.
Definition MetadataResponse_ok (m : MetadataResponse) : Prop :=
  let fl := pb_is_flexible m in
  in_s 32 (mds_throttle_time m) /\ ((3 <=? mds_version m) = false -> mds_throttle_time m = 0) /\
  array_fits fl (BrokerNode_ok (mds_version m) fl) (mds_brokers m) /\
  string_ok fl (mds_cluster_id m) /\ ((2 <=? mds_version m) = false -> mds_cluster_id m = []) /\
  in_s 32 (mds_controller_id m) /\ ((1 <=? mds_version m) = false -> mds_controller_id m = 0) /\
  array_fits fl (TopicMetadata_ok (mds_version m) fl) (mds_topics m) /\
  in_s 32 (mds_cluster_authorized_operations m) /\
  ((8 <=? mds_version m) = false -> mds_cluster_authorized_operations m = 0).
#[export] Instance MetadataResponse_ok_dec m : Decision (MetadataResponse_ok m).
Proof. unfold MetadataResponse_ok. cbv zeta. apply _. Defined.
Definition MetadataResponse_initial (v : Z) : MetadataResponse :=
  mkMetadataResponse v 0 [] [] [] 0 0.
#[export] Hint Unfold MetadataResponse_encode MetadataResponse_decode MetadataResponse_wire MetadataResponse_ok MetadataResponse_initial : message.

Lemma MetadataResponse_emits m :
  MetadataResponse_ok m -> emits (pb_is_flexible m) (pb_encode m) 0 (MetadataResponse_wire m).
Proof. solve_emits m. Qed.
Lemma MetadataResponse_consumes m :
  MetadataResponse_ok m ->
  consumes (pb_is_flexible m) (pb_decode (MetadataResponse_initial (pb_version m)) (pb_version m)) (Ok m) (MetadataResponse_wire m).
Proof. solve_consumes m. Qed.
#[export] Instance MetadataResponse_format : WireFormat MetadataResponse := {
  wire := MetadataResponse_wire;
  wire_ok := MetadataResponse_ok;
  wire_initial := MetadataResponse_initial;
  wire_flexible _ _ := eq_refl;
  wire_encode := MetadataResponse_emits;
  wire_decode := MetadataResponse_consumes;
}.
(* coev_kafka/metadata_response.cpp MetadataResponse::set_version *)
Definition MetadataResponse_set_version (m : MetadataResponse) (v : Z) : MetadataResponse :=
  mkMetadataResponse v (mds_throttle_time m) (mds_brokers m) (mds_topics m) (mds_cluster_id m) (mds_controller_id m) (mds_cluster_authorized_operations m).
#[export] Instance MetadataResponse_versioned : Versioned MetadataResponse := { set_version := MetadataResponse_set_version }.
#[export] Instance MetadataResponse_laws : VersionLaws MetadataResponse.
Proof. version_laws. Qed.

(** ** FindCoordinator: without a coordinator a default [Broker] is encoded, which has no address *)

(* coev_kafka/find_coordinator_response.h:25-43 FindCoordinatorResponse *)
Record FindCoordinatorResponse := mkFindCoordinatorResponse {
  fcs_version : Z; fcs_throttle_time : Z; fcs_err : Z; fcs_err_msg : list Z;
  fcs_coordinator : option BrokerNode }.

(* coev_kafka/find_coordinator_response.cpp FindCoordinatorResponse::encode *)
Definition FindCoordinatorResponse_encode (m : FindCoordinatorResponse) : PE Z :=
  whenU (1 <=? fcs_version m) (putDurationMs (fcs_throttle_time m)) ;;;
  putKError (fcs_err m) ;;;
  try when (1 <=? fcs_version m) (putNullableString (fcs_err_msg m)) ;;;
  try match fcs_coordinator m with Some coord => BrokerNode_encode 0 coord | None => BrokerNode_encode 0 (mkBrokerNode 0 [] []) end ;;;
  ret 0.

(* coev_kafka/find_coordinator_response.cpp FindCoordinatorResponse::decode *)
Definition FindCoordinatorResponse_decode (self : FindCoordinatorResponse) (version : Z) : PD FindCoordinatorResponse :=
  let! throttle_time := readIf (1 <=? version) getDurationMs (fcs_throttle_time self) in
  let! err := getKError in
  let! err_msg := readIf (1 <=? version) getNullableString (fcs_err_msg self) in
  let! coordinator := (let! c := BrokerNode_decode 0 in ok (if decide (bn_addr c = JoinHostPort [] 0) then None else Some c)) in
  ok (mkFindCoordinatorResponse (if 1 <=? version then version else fcs_version self) throttle_time err err_msg coordinator).

(* coev_kafka/find_coordinator_response.cpp FindCoordinatorResponse::key..FindCoordinatorResponse::is_valid_version *)
#[export] Instance FindCoordinatorResponse_body : protocol_body FindCoordinatorResponse := {
  pb_encode := FindCoordinatorResponse_encode;
  pb_decode := FindCoordinatorResponse_decode;
  pb_key _ := 10;
  pb_version := fcs_version;
  pb_header_version m := 0;
  pb_is_valid_version m := (0 <=? fcs_version m) && (fcs_version m <=? 3);
  pb_is_flexible _ := false;
  pb_is_flexible_version _ _ := false;
}.

Definition FindCoordinatorResponse_wire (m : FindCoordinatorResponse) : list Z :=
  let fl := pb_is_flexible m in
  w_when (1 <=? fcs_version m) (be 4 (fcs_throttle_time m)) ++ be 2 (fcs_err m) ++
  w_when (1 <=? fcs_version m) (w_nullable_string fl (fcs_err_msg m)) ++
  match fcs_coordinator m with Some c => BrokerNode_wire 0 fl c | None => [] end.
Definition FindCoordinatorResponse_ok (m : FindCoordinatorResponse) : Prop :=
  let fl := pb_is_flexible m in
  in_s 32 (fcs_throttle_time m) /\ ((1 <=? fcs_version m) = false -> fcs_throttle_time m = 0) /\
  in_s 16 (fcs_err m) /\ string_ok fl (fcs_err_msg m) /\
  ((1 <=? fcs_version m) = false -> fcs_err_msg m = []) /\
  match fcs_coordinator m with Some c => BrokerNode_ok 0 fl c | None => False end.
#[export] Instance FindCoordinatorResponse_ok_dec m : Decision (FindCoordinatorResponse_ok m).
Proof. unfold FindCoordinatorResponse_ok. cbv zeta. destruct (fcs_coordinator m); apply _. Defined.
Definition FindCoordinatorResponse_initial (v : Z) : FindCoordinatorResponse :=
  mkFindCoordinatorResponse v 0 0 [] None.
#[export] Hint Unfold FindCoordinatorResponse_encode FindCoordinatorResponse_decode FindCoordinatorResponse_wire FindCoordinatorResponse_ok FindCoordinatorResponse_initial : message.

Lemma FindCoordinatorResponse_emits m :
  FindCoordinatorResponse_ok m -> emits (pb_is_flexible m) (pb_encode m) 0 (FindCoordinatorResponse_wire m).
Proof. open_message m. destruct fcs_coordinator0 as [c|]; [|done]. emit_steps. Qed.
Lemma FindCoordinatorResponse_consumes m :
  FindCoordinatorResponse_ok m ->
  consumes (pb_is_flexible m) (pb_decode (FindCoordinatorResponse_initial (pb_version m)) (pb_version m)) (Ok m) (FindCoordinatorResponse_wire m).
Proof.
  open_message m. destruct fcs_coordinator0 as [c|]; [|done].
  do 3 (eapply consumes_let; [consume_steps|]). eapply consumes_last; [|rewrite same_branches; apply consumes_ret].
  eapply consumes_last; [by apply BrokerNode_consumes|]. rewrite decide_False; [apply consumes_ret|].
  intros Hc. match goal with H : BrokerNode_ok _ _ _ |- _ => destruct H as (_ & Hh & _) end. apply Hh.
  unfold node_host. by rewrite Hc.
Qed.
#[export] Instance FindCoordinatorResponse_format : WireFormat FindCoordinatorResponse := {
  wire := FindCoordinatorResponse_wire;
  wire_ok := FindCoordinatorResponse_ok;
  wire_initial := FindCoordinatorResponse_initial;
  wire_flexible _ _ := eq_refl;
  wire_encode := FindCoordinatorResponse_emits;
  wire_decode := FindCoordinatorResponse_consumes;
}.
(* coev_kafka/find_coordinator_response.cpp FindCoordinatorResponse::set_version *)
Definition FindCoordinatorResponse_set_version (m : FindCoordinatorResponse) (v : Z) : FindCoordinatorResponse :=
  mkFindCoordinatorResponse v (fcs_throttle_time m) (fcs_err m) (fcs_err_msg m) (fcs_coordinator m).
#[export] Instance FindCoordinatorResponse_versioned : Versioned FindCoordinatorResponse := { set_version := FindCoordinatorResponse_set_version }.
#[export] Instance FindCoordinatorResponse_laws : VersionLaws FindCoordinatorResponse.
Proof. version_laws. Qed.

