(* ===== verification/UnorderedMap.v ===== *)
(** * Unordered maps in messages

    [std::unordered_map] as a finite map, which is iterated in an order of its own: any order,
    the same as long as the map does not change.  Reading the pairs in whatever order they were
    written gives the map back. *)
From Stdlib Require Import ZArith Lia Bool.
From stdpp Require Import base tactics list numbers gmap sorting.
From S2P Require Import Prelude Errors Wire Decoder Encoder Codec CodecEnc CodecDec EncoderDecoder StdMap MessageKit.

(** [for (auto &kv : m)]; [m.size()] is the number of pairs. *)
Class Iteration := {
  iterate {K} `{Countable K} {V} : gmap K V -> list (K * V);
  iterate_permutation {K} `{Countable K} {V} (m : gmap K V) : iterate m ≡ₚ map_to_list m
}.
(** One such order, that of the finite map itself *)
Definition list_order : Iteration :=
  {| iterate K _ _ V m := map_to_list m; iterate_permutation K _ _ V m := reflexivity _ |}.

(** [m[k] = v] for each pair in turn *)
Definition umap_of {K} `{Countable K} {V} (l : list (K * V)) : gmap K V :=
  fold_left (fun m p => <[fst p := snd p]> m) l ∅.

(** [for (i = 0; i < n; ++i) { read(k); read(v); m[k] = v; }] into an empty map *)
Definition read_umap {K} `{Countable K} {V} (n : Z) (g : PD (K * V)) : PD (gmap K V) :=
  let! l := read_counted n g in ok (umap_of l).
(** The same behind [if (n > 0)] *)
Definition read_umap_or {K} `{Countable K} {V} (n : Z) (old : gmap K V) (g : PD (K * V)) : PD (gmap K V) :=
  if 0 <? n then read_umap n g else ok old.
(** [for (i = 0; i < n; ++i) { read(k); m[k].decode(pd); }] *)
Fixpoint read_umap_at {K} `{Countable K} {V} (d : V) (n : nat) (gk : PD K) (gv : V -> PD V)
  (m : gmap K V) : PD (gmap K V) :=
  match n with
  | O => ok m
  | S n' =>
      let! k := gk in
      let! v := gv (default d (m !! k)) in
      read_umap_at d n' gk gv (<[k := v]> m)
  end.

(** A count of zero leaves the map as it was; any other one clears it before it is filled.  The
    same for a count that is not positive. *)
Definition unless_zero {A} (n : Z) (old : A) (g : PD A) : PD A := if n =? 0 then ok old else g.
Definition when_positive {A} (n : Z) (old : A) (g : PD A) : PD A := if n <=? 0 then ok old else g.

Lemma consumes_unless_zero {X A} fl (l : list X) (old v : A) g (w : X -> list Z) :
  (l = [] -> v = old) -> consumes fl g (Ok v) (w_list w l) ->
  consumes fl (unless_zero (Zlen l) old g) (Ok v) (w_list w l).
Proof.
  intros He Hg. unfold unless_zero. destruct (Zlen l =? 0) eqn:E; [|done].
  assert (l = []) as -> by (apply Zlen_zero; lia). rewrite He by done. apply consumes_ret.
Qed.

Lemma consumes_when_positive {X A} fl (l : list X) (old v : A) g (w : X -> list Z) :
  (l = [] -> v = old) -> consumes fl g (Ok v) (w_list w l) ->
  consumes fl (when_positive (Zlen l) old g) (Ok v) (w_list w l).
Proof.
  intros He Hg. unfold when_positive. destruct (Zlen l <=? 0) eqn:E; [|done].
  assert (l = []) as -> by (apply Zlen_zero; pose proof (Zlen_nonneg l); lia).
  rewrite He by done. apply consumes_ret.
Qed.

Section Order.
Context `{!Iteration} {K : Type} `{Countable K} {V : Type}.
Implicit Types (m : gmap K V) (l : list (K * V)).

Lemma iterate_NoDup m : NoDup (iterate m).*1.
Proof. rewrite iterate_permutation. apply NoDup_fst_map_to_list. Qed.
Lemma iterate_lookup m k v : (k, v) ∈ iterate m <-> m !! k = Some v.
Proof. rewrite iterate_permutation. apply elem_of_map_to_list. Qed.
Lemma iterate_of m : list_to_map (iterate m) = m.
Proof.
  rewrite <- (list_to_map_to_list m) at 2. apply list_to_map_proper, iterate_permutation.
  apply iterate_NoDup.
Qed.

Lemma iterate_nil m : iterate m = [] -> m = ∅.
Proof. intros E. by rewrite <- (iterate_of m), E. Qed.

Lemma fold_insert_fresh l m :
  NoDup l.*1 -> (forall k, k ∈ l.*1 -> m !! k = None) ->
  fold_left (fun m p => <[fst p := snd p]> m) l m = list_to_map l ∪ m.
Proof.
  revert m. induction l as [|[k v] l IH]; intros m; cbn; [by rewrite map_empty_union|].
  intros [Hk Hn]%NoDup_cons Hf. rewrite IH; [|done|].
  - by rewrite <- insert_union_l, <- insert_union_r by (by apply not_elem_of_list_to_map_1).
  - intros k' Hk'. rewrite lookup_insert_ne by (intros ->; by apply Hk). apply Hf. by right.
Qed.
(** Assigning the pairs of a map in any order gives the map. *)
Lemma umap_of_permutation l m : l ≡ₚ map_to_list m -> umap_of l = m.
Proof.
  intros Hl. assert (NoDup l.*1) as Hn by (rewrite Hl; apply NoDup_fst_map_to_list).
  unfold umap_of. rewrite fold_insert_fresh by (done || (intros; apply lookup_empty)).
  rewrite map_union_empty, <- (list_to_map_to_list m). by apply list_to_map_proper.
Qed.
Lemma umap_of_iterate m : umap_of (iterate m) = m.
Proof. apply umap_of_permutation, iterate_permutation. Qed.

Lemma consumes_umap fl (g : PD (K * V)) wk wv Pk Pv m :
  array_fits fl (pair_ok Pk Pv) (iterate m) ->
  (forall k v, Pk k -> Pv v -> consumes fl g (Ok (k, v)) (wk k ++ wv v)) ->
  consumes fl (read_umap (Zlen (iterate m)) g) (Ok m) (w_list (w_pair wk wv) (iterate m)).
Proof.
  intros Hm Hg. unfold read_umap.
  eapply consumes_last; [eapply consumes_counted; [exact Hm|by intros [] []; apply Hg]|].
  rewrite umap_of_iterate. apply consumes_ret.
Qed.
Lemma consumes_umap_or fl (g : PD (K * V)) wk wv Pk Pv m :
  array_fits fl (pair_ok Pk Pv) (iterate m) ->
  (forall k v, Pk k -> Pv v -> consumes fl g (Ok (k, v)) (wk k ++ wv v)) ->
  consumes fl (read_umap_or (Zlen (iterate m)) ∅ g) (Ok m) (w_list (w_pair wk wv) (iterate m)).
Proof.
  intros Hm Hg. unfold read_umap_or. destruct (0 <? Zlen (iterate m)) eqn:E; [by eapply consumes_umap|].
  assert (iterate m = []) as Hn by (apply Zlen_zero; pose proof (Zlen_nonneg (iterate m)); lia).
  rewrite Hn. rewrite <- (iterate_of m), Hn. apply consumes_ret.
Qed.

Lemma consumes_umap_at_from fl (d : V) gk gv wk wv (Pk : K -> Prop) Pv l m :
  NoDup l.*1 -> (forall k, k ∈ l.*1 -> m !! k = None) -> Forall (pair_ok Pk Pv) l ->
  (forall k, Pk k -> consumes fl gk (Ok k) (wk k)) -> (forall v, Pv v -> consumes fl (gv d) (Ok v) (wv v)) ->
  consumes fl (read_umap_at d (length l) gk gv m) (Ok (fold_left (fun m p => <[fst p := snd p]> m) l m))
    (w_list (w_pair wk wv) l).
Proof.
  intros Hn Hf Hl Hk Hv. revert m Hn Hf. induction Hl as [|[k v] l [Hk0 Hv0] Hl IH]; intros m; [intros; apply consumes_ret|].
  cbn [fmap list_fmap fst snd]. intros [Hkl Hn]%NoDup_cons Hf.
  change (w_list (w_pair wk wv) ((k, v) :: l)) with ((wk k ++ wv v) ++ w_list (w_pair wk wv) l).
  rewrite <- app_assoc. cbn [length read_umap_at fold_left fst snd].
  eapply consumes_let; [by apply Hk|]. rewrite Hf by (by left). cbn [default].
  eapply consumes_let; [by apply Hv|]. apply IH; [done|].
  intros k' Hk'. rewrite lookup_insert_ne by (intros ->; by apply Hkl). apply Hf. by right.
Qed.
Lemma consumes_umap_at fl (d : V) gk gv wk wv Pk Pv m :
  array_fits fl (pair_ok Pk Pv) (iterate m) ->
  (forall k, Pk k -> consumes fl gk (Ok k) (wk k)) -> (forall v, Pv v -> consumes fl (gv d) (Ok v) (wv v)) ->
  consumes fl (read_umap_at d (Z.to_nat (Zlen (iterate m))) gk gv ∅) (Ok m) (w_list (w_pair wk wv) (iterate m)).
Proof.
  intros (_ & _ & Hf) Hk Hv. rewrite length_Zlen. rewrite <- (umap_of_iterate m) at 2.
  apply (consumes_umap_at_from fl d gk gv wk wv Pk Pv); try done. apply iterate_NoDup.
Qed.
End Order.

#[export] Hint Extern 1 (consumes _ (read_umap _ _) _ _) =>
  eapply consumes_umap; [eassumption|intros ? ? ? ?; consume_element] : consume.
#[export] Hint Extern 1 (consumes _ (read_umap_or _ _ _) _ _) =>
  eapply consumes_umap_or; [eassumption|intros ? ? ? ?; consume_element] : consume.
#[export] Hint Extern 1 (consumes _ (read_umap_at _ _ _ _ _) _ _) =>
  eapply consumes_umap_at; [eassumption|intros ? ?; consume_element|intros ? ?; consume_element] : consume.
#[export] Hint Extern 1 (consumes _ (unless_zero _ _ _) _ _) =>
  apply consumes_unless_zero; [|solve [eauto with consume]]; first [apply iterate_nil | done] : consume.
#[export] Hint Extern 1 (consumes _ (when_positive _ _ _) _ _) =>
  apply consumes_when_positive; [|solve [eauto with consume]]; first [apply iterate_nil | done] : consume.
Lemma consumes_reserve {A} fl n (g : PD A) v bs : 0 <= n -> consumes fl g v bs -> consumes fl (resize_int n ;;; g) v bs.
Proof.
  intros Hn Hg. apply (consumes_bind fl (resize_int n) (fun _ => g) tt v [] bs); [|exact Hg].
  unfold resize_int. replace (n <? 0) with false by lia. apply consumes_ret.
Qed.
#[export] Hint Extern 1 (consumes _ (resize_int _ ;;; _) _ _) =>
  apply consumes_reserve; [apply Zlen_nonneg|solve [eauto with consume]] : consume.

(** [for (auto &x : l) f(x);]: the results are dropped. *)
Lemma emits_do_pairs {K V} fl (l : list (K * V)) f wk wv (Pk : K -> Prop) (Pv : V -> Prop) :
  array_fits fl (pair_ok Pk Pv) l -> (forall k v, Pk k -> Pv v -> emits fl (f (k, v)) tt (wk k ++ wv v)) ->
  emits fl (for_do l f) tt (w_list (w_pair wk wv) l).
Proof.
  intros (_ & _ & Hf) H. rewrite Forall_forall in Hf.
  apply emits_for_do. intros [k v] Hx. destruct (Hf _ Hx) as [Hk Hv]. by apply H.
Qed.
#[export] Hint Extern 1 (emits _ (for_do _ _) _ _) =>
  eapply emits_do_pairs; [eassumption|intros ? ? ? ?; cbn [fst snd]; emit_element] : emit.

(** [pd.m(x);]: the code is dropped, and [x] has the value the member leaves in it. *)
Definition or_value {A} (d : A) (g : PD A) : PD A :=
  let* r := g in ok (match r with Ok v => v | Err _ => d end).
Lemma consumes_or_value {A} fl (d v : A) g bs : consumes fl g (Ok v) bs -> consumes fl (or_value d g) (Ok v) bs.
Proof. intros H. eapply consumes_as; [eapply consumes_bind; [exact H|apply consumes_ret]|apply app_nil_r]. Qed.
#[export] Hint Resolve consumes_or_value : consume.

(** ** Sorted keys *)

Definition key_le {K} `{KeyOrder K} (a b : K) : Prop := key_compare a b <> Gt.
#[export] Instance key_le_dec {K} `{KeyOrder K} (a b : K) : Decision (key_le a b).
Proof. unfold key_le. apply _. Defined.
#[export] Instance key_le_total {K} `{KeyOrder K} : Total (key_le (K := K)).
Proof.
  intros a b. unfold key_le. destruct (key_compare a b) eqn:E; [by left|by left|right].
  by rewrite key_compare_antisym, E.
Qed.
#[export] Instance key_le_trans {K} `{KeyOrder K} : Transitive (key_le (K := K)).
Proof.
  intros a b c Hab Hbc. unfold key_le in *. destruct (key_compare a b) eqn:E; [| |done].
  - apply key_compare_eq in E as ->. done.
  - destruct (key_compare b c) eqn:E'; [| |done].
    + apply key_compare_eq in E' as ->. by rewrite E.
    + by rewrite (key_compare_trans a b c E E').
Qed.
#[export] Instance key_le_antisym {K} `{KeyOrder K} : AntiSymm (=) (key_le (K := K)).
Proof.
  intros a b Hab Hba. unfold key_le in *. apply key_compare_eq. rewrite key_compare_antisym in Hba.
  by destruct (key_compare a b).
Qed.

(** [for (auto &[key, _] : m) keys.push_back(key); std::sort(keys.begin(), keys.end());] *)
Definition sorted_keys `{!Iteration} {K} `{Countable K, !KeyOrder K} {V} (m : gmap K V) : list K :=
  merge_sort key_le (iterate m).*1.
(** The pairs of the map in the order of their keys *)
Definition by_key `{!Iteration} {K} `{Countable K, !KeyOrder K} {V} (m : gmap K V) : list (K * V) :=
  omap (fun k => pair k <$> m !! k) (sorted_keys m).

Section Sorted.
Context `{!Iteration} {K : Type} `{Countable K, !KeyOrder K} {V : Type}.
Implicit Types (m : gmap K V) (l : list (K * V)).

Lemma omap_keys l m : Forall (fun p => m !! p.1 = Some p.2) l -> omap (fun k => pair k <$> m !! k) l.*1 = l.
Proof. induction 1 as [|[k v] l Hk Hl IH]; cbn; [done|]. cbn in Hk. by rewrite Hk, IH. Qed.
Lemma by_key_permutation m : by_key m ≡ₚ map_to_list m.
Proof.
  unfold by_key, sorted_keys. rewrite (merge_sort_Permutation key_le (iterate m).*1), omap_keys.
  - apply iterate_permutation.
  - apply Forall_forall. intros [k v] Hk. by apply iterate_lookup.
Qed.
Lemma by_key_length m : Zlen (by_key m) = Zlen (iterate m).
Proof. unfold Zlen. by rewrite by_key_permutation, iterate_permutation. Qed.
Lemma umap_of_by_key m : umap_of (by_key m) = m.
Proof. apply umap_of_permutation, by_key_permutation. Qed.

Lemma emits_by_key fl m f wk wv (Pk : K -> Prop) (Pv : V -> Prop) :
  Forall (pair_ok Pk Pv) (by_key m) ->
  (forall k v, m !! k = Some v -> Pk k -> Pv v -> emits fl (f k) 0 (wk k ++ wv v)) ->
  emits fl (for_try (sorted_keys m) f) 0 (w_list (w_pair wk wv) (by_key m)).
Proof.
  intros Hp Hf. unfold by_key in *.
  assert (Forall (fun k => is_Some (m !! k)) (sorted_keys m)) as Hs.
  { apply Forall_forall. intros k. unfold sorted_keys. rewrite merge_sort_Permutation.
    intros ([k' v] & -> & Hk)%list_elem_of_fmap. apply iterate_lookup in Hk. by exists v. }
  induction Hs as [|k ks [v Hv] Hs IH]; [apply emits_ret|]. cbn [omap list_omap] in *. rewrite Hv in *. cbn in *.
  apply Forall_cons in Hp as [[Hk Hw] Hp].
  change (w_list (w_pair wk wv) ((k, v) :: ?l)) with ((wk k ++ wv v) ++ w_list (w_pair wk wv) l).
  eapply emits_try; [by apply Hf|by apply IH].
Qed.
Lemma consumes_by_key fl (g : PD (K * V)) wk wv Pk Pv m :
  array_fits fl (pair_ok Pk Pv) (by_key m) ->
  (forall k v, Pk k -> Pv v -> consumes fl g (Ok (k, v)) (wk k ++ wv v)) ->
  consumes fl (read_umap (Zlen (by_key m)) g) (Ok m) (w_list (w_pair wk wv) (by_key m)).
Proof.
  intros Hm Hg. unfold read_umap.
  eapply consumes_last; [eapply consumes_counted; [exact Hm|by intros [] []; apply Hg]|].
  rewrite umap_of_by_key. apply consumes_ret.
Qed.
End Sorted.

(** The order of iteration does not show. *)
Lemma by_key_canonical (o1 o2 : Iteration) {K} `{Countable K, !KeyOrder K} {V} (m : gmap K V) :
  by_key (H := o1) m = by_key (H := o2) m.
Proof.
  unfold by_key. f_equal. unfold sorted_keys.
  apply (StronglySorted_unique key_le); [apply (StronglySorted_merge_sort key_le)..|].
  rewrite !merge_sort_Permutation. apply fmap_Permutation. by rewrite !iterate_permutation.
Qed.
