(* ===== verification/OffsetMessages.v ===== *)
(** * Offsets

    The bodies that list, commit, fetch and delete offsets.  Which of them hold an unordered
    map, whose order of iteration is a parameter, follows the headers. *)
From Stdlib Require Import ZArith Lia Bool.
From stdpp Require Import base tactics list numbers gmap.
From S2P Require Import Prelude Errors Wire Decoder Encoder Codec CodecEnc CodecDec EncoderDecoder.
From S2P Require Import StdMap MessageKit UnorderedMap SetVersion.

(** ** ListOffsets *)

(** The epoch is reset before it is read. *)
(* coev_kafka/offset_request.h:23-34 OffsetRequestBlock *)
Record OffsetRequestBlock := mkOffsetRequestBlock {
  orb_leader_epoch : Z; orb_timestamp : Z; orb_max_num_offsets : Z }.

(* coev_kafka/offset_request.cpp OffsetRequestBlock::encode *)
Definition OffsetRequestBlock_encode (version : Z) (m : OffsetRequestBlock) : PE Z :=
  whenU (4 <=? version) (putInt32 (orb_leader_epoch m)) ;;;
  putInt64 (orb_timestamp m) ;;;
  whenU (version =? 0) (putInt32 (orb_max_num_offsets m)) ;;;
  ret 0.

(* coev_kafka/offset_request.cpp OffsetRequestBlock::decode *)
Definition OffsetRequestBlock_decode (version : Z) (self : OffsetRequestBlock) : PD OffsetRequestBlock :=
  let! leader_epoch := readIf (4 <=? version) getInt32 (-1) in
  let! timestamp := getInt64 in
  let! max_num_offsets := readIf (version =? 0) getInt32 (orb_max_num_offsets self) in
  ok (mkOffsetRequestBlock leader_epoch timestamp max_num_offsets).

Definition OffsetRequestBlock_wire (version : Z) (fl : bool) (m : OffsetRequestBlock) : list Z :=
  w_when (4 <=? version) (be 4 (orb_leader_epoch m)) ++ be 8 (orb_timestamp m) ++
  w_when (version =? 0) (be 4 (orb_max_num_offsets m)).
Definition OffsetRequestBlock_ok (version : Z) (fl : bool) (m : OffsetRequestBlock) : Prop :=
  in_s 32 (orb_leader_epoch m) /\ ((4 <=? version) = false -> orb_leader_epoch m = (-1)) /\
  in_s 64 (orb_timestamp m) /\ in_s 32 (orb_max_num_offsets m) /\
  ((version =? 0) = false -> orb_max_num_offsets m = 0).
#[export] Instance OffsetRequestBlock_ok_dec version fl m : Decision (OffsetRequestBlock_ok version fl m).
Proof. unfold OffsetRequestBlock_ok. apply _. Defined.
Lemma OffsetRequestBlock_emits version fl m : OffsetRequestBlock_ok version fl m -> emits fl (OffsetRequestBlock_encode version m) 0 (OffsetRequestBlock_wire version fl m).
Proof. unfold OffsetRequestBlock_ok, OffsetRequestBlock_encode, OffsetRequestBlock_wire. solve_emits m. Qed.
Lemma OffsetRequestBlock_consumes version fl m : OffsetRequestBlock_ok version fl m -> consumes fl (OffsetRequestBlock_decode version (mkOffsetRequestBlock (-1) 0 0)) (Ok m) (OffsetRequestBlock_wire version fl m).
Proof. unfold OffsetRequestBlock_ok, OffsetRequestBlock_decode, OffsetRequestBlock_wire. solve_consumes m. Qed.
#[export] Hint Resolve OffsetRequestBlock_emits : emit.
#[export] Hint Resolve OffsetRequestBlock_consumes : consume.
#[global] Arguments OffsetRequestBlock_wire : simpl never.
#[global] Arguments OffsetRequestBlock_encode : simpl never.
#[global] Arguments OffsetRequestBlock_decode : simpl never.
#[global] Arguments OffsetRequestBlock_ok : simpl never.

(** A replica id that was not set is written as -1, and a negative one is not set when it is read. *)
(* coev_kafka/offset_request.h:36-62 OffsetRequest *)
Record OffsetRequest := mkOffsetRequest {
  ofq_version : Z; ofq_level : bool; ofq_replica_id : Z; ofq_is_replica_id_set : bool;
  ofq_blocks : gmap (list Z) (list (Z * OffsetRequestBlock)) }.

(* coev_kafka/offset_request.cpp OffsetRequest::encode *)
Definition OffsetRequest_encode {order : Iteration} (m : OffsetRequest) : PE Z :=
  putInt32 (if ofq_is_replica_id_set m then ofq_replica_id m else -1) ;;;
  whenU (2 <=? ofq_version m) (putBool (ofq_level m)) ;;;
  try putArrayLength (to_i32 (Zlen (iterate (ofq_blocks m)))) ;;;
  try for_try (iterate (ofq_blocks m)) (fun kv =>
    try putString (fst kv) ;;; try putArrayLength (to_i32 (Zlen (snd kv))) ;;; try for_try (snd kv) (fun kv =>
    putInt32 (fst kv) ;;; try OffsetRequestBlock_encode (ofq_version m) (snd kv) ;;; ret 0) ;;; ret 0) ;;;
  ret 0.

(* coev_kafka/offset_request.cpp OffsetRequest::decode *)
Definition OffsetRequest_decode (self : OffsetRequest) (version : Z) : PD OffsetRequest :=
  let! replica := getInt32 in
  let! level := readIf (2 <=? version) getBool (ofq_level self) in
  let! n := getArrayLength in
  let! blocks := (unless_zero n (ofq_blocks self) (read_umap_at [] (Z.to_nat n) getString
    (fun v => let! n := getArrayLength in let! v := read_map_at ((mkOffsetRequestBlock (-1) 0 0)) (Z.to_nat n) getInt32
    (fun v => let! v := OffsetRequestBlock_decode version v in ok v) v in ok v) (∅))) in
  ok (mkOffsetRequest version level
        (if 0 <=? replica then replica else ofq_replica_id self)
        (if 0 <=? replica then true else ofq_is_replica_id_set self) blocks).

(* coev_kafka/offset_request.cpp OffsetRequest::key..OffsetRequest::is_valid_version *)
#[export] Instance OffsetRequest_body {order : Iteration} : protocol_body OffsetRequest := {
  pb_encode := OffsetRequest_encode;
  pb_decode := OffsetRequest_decode;
  pb_key _ := 2;
  pb_version := ofq_version;
  pb_header_version m := 1;
  pb_is_valid_version m := (0 <=? ofq_version m) && (ofq_version m <=? 5);
  pb_is_flexible _ := false;
  pb_is_flexible_version _ _ := false;
}.

Definition OffsetRequest_wire {order : Iteration} (m : OffsetRequest) : list Z :=
  let fl := pb_is_flexible m in
  be 4 (ofq_replica_id m) ++ w_when (2 <=? ofq_version m) (w_bool (ofq_level m)) ++
  w_array_length fl (Zlen (iterate (ofq_blocks m))) ++
  w_list (w_pair (w_string fl) ((fun v => w_array_length fl (Zlen v) ++ w_list (w_pair (be 4) (OffsetRequestBlock_wire (ofq_version m) fl)) v))) (iterate (ofq_blocks m)).
Definition OffsetRequest_ok {order : Iteration} (m : OffsetRequest) : Prop :=
  let fl := pb_is_flexible m in
  in_s 32 (ofq_replica_id m) /\ (if ofq_is_replica_id_set m then 0 <= ofq_replica_id m else ofq_replica_id m = -1) /\
  ((2 <=? ofq_version m) = false -> ofq_level m = false) /\
  array_fits fl (pair_ok (string_ok fl) ((fun v => array_fits fl (pair_ok (in_s 32) (OffsetRequestBlock_ok (ofq_version m) fl)) v /\ map_sorted v))) (iterate (ofq_blocks m)).
#[export] Instance OffsetRequest_ok_dec {order : Iteration} m : Decision (OffsetRequest_ok m).
Proof. unfold OffsetRequest_ok. cbv zeta. destruct (ofq_is_replica_id_set m); apply _. Defined.
Definition OffsetRequest_initial (v : Z) : OffsetRequest :=
  mkOffsetRequest v false (-1) false (∅).
#[export] Hint Unfold OffsetRequest_encode OffsetRequest_decode OffsetRequest_wire OffsetRequest_ok OffsetRequest_initial : message.

Lemma OffsetRequest_emits {order : Iteration} m :
  OffsetRequest_ok m -> emits (pb_is_flexible m) (pb_encode m) 0 (OffsetRequest_wire m).
Proof.
  open_message m. destruct ofq_is_replica_id_set0; [|subst]; emit_steps.
Qed.
Lemma OffsetRequest_consumes {order : Iteration} m :
  OffsetRequest_ok m ->
  consumes (pb_is_flexible m) (pb_decode (OffsetRequest_initial (pb_version m)) (pb_version m)) (Ok m) (OffsetRequest_wire m).
Proof.
  open_message m. destruct ofq_is_replica_id_set0; [|subst].
  - eapply consumes_let; [consume_steps|]. replace (0 <=? ofq_replica_id0) with true by lia. consume_steps.
  - eapply consumes_let; [consume_steps|]. consume_steps.
Qed.
#[export] Instance OffsetRequest_format {order : Iteration} : WireFormat OffsetRequest := {
  wire := OffsetRequest_wire;
  wire_ok := OffsetRequest_ok;
  wire_initial := OffsetRequest_initial;
  wire_flexible _ _ := eq_refl;
  wire_encode := OffsetRequest_emits;
  wire_decode := OffsetRequest_consumes;
}.
(* coev_kafka/offset_request.cpp OffsetRequest::set_version *)
Definition OffsetRequest_set_version (m : OffsetRequest) (v : Z) : OffsetRequest :=
  mkOffsetRequest v (ofq_level m) (ofq_replica_id m) (ofq_is_replica_id_set m) (ofq_blocks m).
#[export] Instance OffsetRequest_versioned : Versioned OffsetRequest := { set_version := OffsetRequest_set_version }.
#[export] Instance OffsetRequest_laws {order : Iteration} : VersionLaws OffsetRequest.
Proof. version_laws. Qed.

(** Version 0 carries the offsets, the later ones a timestamp and one offset. *)
(* coev_kafka/offset_response.h:25-37 OffsetResponseBlock *)
Record OffsetResponseBlock := mkOffsetResponseBlock {
  osb_err : Z; osb_offsets : list Z; osb_timestamp : Z; osb_offset : Z; osb_leader_epoch : Z }.

(* coev_kafka/offset_response.cpp OffsetResponseBlock::encode *)
Definition OffsetResponseBlock_encode (version : Z) (m : OffsetResponseBlock) : PE Z :=
  putKError (osb_err m) ;;;
  if version =? 0 then putInt64Array (osb_offsets m)
  else
    whenU (1 <=? version) (putInt64 (osb_timestamp m)) ;;;
    whenU (1 <=? version) (putInt64 (osb_offset m)) ;;;
    whenU (4 <=? version) (putInt32 (osb_leader_epoch m)) ;;;
    ret 0.

(* coev_kafka/offset_response.cpp OffsetResponseBlock::decode *)
Definition OffsetResponseBlock_decode (version : Z) (self : OffsetResponseBlock) : PD OffsetResponseBlock :=
  let! err := getKError in
  if version =? 0 then
    let! offsets := getInt64Array in
    ok (mkOffsetResponseBlock err offsets (osb_timestamp self) (osb_offset self) (osb_leader_epoch self))
  else
    let! timestamp := readIf (1 <=? version) getInt64 (osb_timestamp self) in
    let! offset := readIf (1 <=? version) getInt64 (osb_offset self) in
    let! leader_epoch := readIf (4 <=? version) getInt32 (osb_leader_epoch self) in
    ok (mkOffsetResponseBlock err (if 1 <=? version then [offset] else osb_offsets self) timestamp offset leader_epoch).

Definition OffsetResponseBlock_wire (version : Z) (fl : bool) (m : OffsetResponseBlock) : list Z :=
  be 2 (osb_err m) ++
  if version =? 0 then w_int64_array fl (osb_offsets m)
  else be 8 (osb_timestamp m) ++ be 8 (osb_offset m) ++ w_when (4 <=? version) (be 4 (osb_leader_epoch m)).
Definition OffsetResponseBlock_ok (version : Z) (fl : bool) (m : OffsetResponseBlock) : Prop :=
  0 <= version /\ in_s 16 (osb_err m) /\ in_s 64 (osb_timestamp m) /\ in_s 64 (osb_offset m) /\
  in_s 32 (osb_leader_epoch m) /\ int64s_ok fl (osb_offsets m) /\
  (version = 0 -> osb_timestamp m = 0 /\ osb_offset m = 0 /\ osb_leader_epoch m = -1) /\
  (version <> 0 -> osb_offsets m = [osb_offset m]) /\
  ((4 <=? version) = false -> osb_leader_epoch m = -1).
#[export] Instance OffsetResponseBlock_ok_dec version fl m : Decision (OffsetResponseBlock_ok version fl m).
Proof. unfold OffsetResponseBlock_ok. apply _. Defined.
Lemma OffsetResponseBlock_emits version fl m :
  OffsetResponseBlock_ok version fl m -> emits fl (OffsetResponseBlock_encode version m) 0 (OffsetResponseBlock_wire version fl m).
Proof.
  intros (Hv & He & Ht & Ho & Hl & Hs & _). unfold OffsetResponseBlock_encode, OffsetResponseBlock_wire.
  eapply emits_seq; [by apply emits_putKError|]. destruct (version =? 0) eqn:E; [emit_steps|].
  replace (1 <=? version) with true by lia. cbn [whenU]. emit_steps.
Qed.
Lemma OffsetResponseBlock_consumes version fl m :
  OffsetResponseBlock_ok version fl m ->
  consumes fl (OffsetResponseBlock_decode version (mkOffsetResponseBlock 0 [] 0 0 (-1))) (Ok m) (OffsetResponseBlock_wire version fl m).
Proof.
  destruct m as [e os t o le]. unfold OffsetResponseBlock_ok. cbn. intros (Hv & He & Ht & Ho & Hl & Hs & H0 & H1 & H4).
  unfold OffsetResponseBlock_decode, OffsetResponseBlock_wire. cbn [osb_err osb_offsets osb_timestamp osb_offset osb_leader_epoch].
  eapply consumes_let; [consume_steps|]. destruct (Z.eqb_spec version 0) as [Hz|Hz].
  - destruct (H0 Hz) as (-> & -> & ->). consume_steps.
  - replace (1 <=? version) with true by lia. rewrite H1 by done. cbn [readIf]. consume_steps.
Qed.
#[export] Hint Resolve OffsetResponseBlock_emits : emit.
#[export] Hint Resolve OffsetResponseBlock_consumes : consume.
#[global] Arguments OffsetResponseBlock_wire : simpl never.
#[global] Arguments OffsetResponseBlock_encode : simpl never.
#[global] Arguments OffsetResponseBlock_decode : simpl never.
#[global] Arguments OffsetResponseBlock_ok : simpl never.

(** The version of the object is not changed by [decode]. *)
(* coev_kafka/offset_response.h:39-58 OffsetResponse *)
Record OffsetResponse := mkOffsetResponse {
  ofs_version : Z; ofs_throttle_time : Z; ofs_blocks : gmap (list Z) (gmap Z OffsetResponseBlock) }.

(* coev_kafka/offset_response.cpp OffsetResponse::encode *)
Definition OffsetResponse_encode {order : Iteration} (m : OffsetResponse) : PE Z :=
  whenU (2 <=? ofs_version m) (putDurationMs (ofs_throttle_time m)) ;;;
  try putArrayLength (to_i32 (Zlen (iterate (ofs_blocks m)))) ;;;
  try for_try (iterate (ofs_blocks m)) (fun kv =>
    try putString (fst kv) ;;; try putArrayLength (to_i32 (Zlen (iterate (snd kv)))) ;;; try for_try (iterate (snd kv)) (fun kv =>
    putInt32 (fst kv) ;;; try OffsetResponseBlock_encode (ofs_version m) (snd kv) ;;; ret 0) ;;; ret 0) ;;;
  ret 0.

(* coev_kafka/offset_response.cpp OffsetResponse::decode *)
Definition OffsetResponse_decode (self : OffsetResponse) (version : Z) : PD OffsetResponse :=
  let! throttle_time := readIf (2 <=? version) getDurationMs (ofs_throttle_time self) in
  let! n := getArrayLength in
  let! blocks := (resize_int n ;;; read_umap_at (∅) (Z.to_nat n) getString
    (fun v => let! n := getArrayLength in let! v := read_umap_at ((mkOffsetResponseBlock 0 [] 0 0 (-1))) (Z.to_nat n) getInt32
    (fun v => let! v := OffsetResponseBlock_decode version v in ok v) v in ok v) (∅)) in
  ok (mkOffsetResponse (ofs_version self) throttle_time blocks).

(* coev_kafka/offset_response.cpp OffsetResponse::key..OffsetResponse::is_valid_version *)
#[export] Instance OffsetResponse_body {order : Iteration} : protocol_body OffsetResponse := {
  pb_encode := OffsetResponse_encode;
  pb_decode := OffsetResponse_decode;
  pb_key _ := 2;
  pb_version := ofs_version;
  pb_header_version m := 0;
  pb_is_valid_version m := (0 <=? ofs_version m) && (ofs_version m <=? 5);
  pb_is_flexible _ := false;
  pb_is_flexible_version _ _ := false;
}.

Definition OffsetResponse_wire {order : Iteration} (m : OffsetResponse) : list Z :=
  let fl := pb_is_flexible m in
  w_when (2 <=? ofs_version m) (be 4 (ofs_throttle_time m)) ++
  w_array_length fl (Zlen (iterate (ofs_blocks m))) ++
  w_list (w_pair (w_string fl) ((fun v => w_array_length fl (Zlen (iterate v)) ++ w_list (w_pair (be 4) (OffsetResponseBlock_wire (ofs_version m) fl)) (iterate v)))) (iterate (ofs_blocks m)).
Definition OffsetResponse_ok {order : Iteration} (m : OffsetResponse) : Prop :=
  let fl := pb_is_flexible m in
  in_s 32 (ofs_throttle_time m) /\ ((2 <=? ofs_version m) = false -> ofs_throttle_time m = 0) /\
  array_fits fl (pair_ok (string_ok fl) ((fun v => array_fits fl (pair_ok (in_s 32) (OffsetResponseBlock_ok (ofs_version m) fl)) (iterate v)))) (iterate (ofs_blocks m)).
#[export] Instance OffsetResponse_ok_dec {order : Iteration} m : Decision (OffsetResponse_ok m).
Proof. unfold OffsetResponse_ok. cbv zeta. apply _. Defined.
Definition OffsetResponse_initial (v : Z) : OffsetResponse :=
  mkOffsetResponse v 0 (∅).
#[export] Hint Unfold OffsetResponse_encode OffsetResponse_decode OffsetResponse_wire OffsetResponse_ok OffsetResponse_initial : message.

Lemma OffsetResponse_emits {order : Iteration} m :
  OffsetResponse_ok m -> emits (pb_is_flexible m) (pb_encode m) 0 (OffsetResponse_wire m).
Proof. solve_emits m. Qed.
Lemma OffsetResponse_consumes {order : Iteration} m :
  OffsetResponse_ok m ->
  consumes (pb_is_flexible m) (pb_decode (OffsetResponse_initial (pb_version m)) (pb_version m)) (Ok m) (OffsetResponse_wire m).
Proof. solve_consumes m. Qed.
#[export] Instance OffsetResponse_format {order : Iteration} : WireFormat OffsetResponse := {
  wire := OffsetResponse_wire;
  wire_ok := OffsetResponse_ok;
  wire_initial := OffsetResponse_initial;
  wire_flexible _ _ := eq_refl;
  wire_encode := OffsetResponse_emits;
  wire_decode := OffsetResponse_consumes;
}.
(* coev_kafka/offset_response.cpp OffsetResponse::set_version *)
Definition OffsetResponse_set_version (m : OffsetResponse) (v : Z) : OffsetResponse :=
  mkOffsetResponse v (ofs_throttle_time m) (ofs_blocks m).
#[export] Instance OffsetResponse_versioned : Versioned OffsetResponse := { set_version := OffsetResponse_set_version }.
#[export] Instance OffsetResponse_laws {order : Iteration} : VersionLaws OffsetResponse.
Proof. version_laws. Qed.

(** ** OffsetCommit *)

(** The results of the encoder's members are dropped. *)
(* coev_kafka/offset_commit_response.h:25-44 OffsetCommitResponse *)
Record OffsetCommitResponse := mkOffsetCommitResponse {
  ocs_version : Z; ocs_throttle_time : Z; ocs_errors : gmap (list Z) (list (Z * Z)) }.

(* coev_kafka/offset_commit_response.cpp OffsetCommitResponse::encode *)
Definition OffsetCommitResponse_encode {order : Iteration} (m : OffsetCommitResponse) : PE Z :=
  whenU (3 <=? ocs_version m) (putDurationMs (ocs_throttle_time m)) ;;;
  putArrayLength (to_i32 (Zlen (iterate (ocs_errors m)))) ;;;
  for_do (iterate (ocs_errors m)) (fun kv =>
    putString (fst kv) ;;; putArrayLength (to_i32 (Zlen (snd kv))) ;;; for_do (snd kv) (fun kv =>
    putInt32 (fst kv) ;;; putKError (snd kv) ;;; ret tt) ;;; ret tt) ;;;
  ret 0.

(* coev_kafka/offset_commit_response.cpp OffsetCommitResponse::decode *)
Definition OffsetCommitResponse_decode (self : OffsetCommitResponse) (version : Z) : PD OffsetCommitResponse :=
  let! throttle_time := readIf (3 <=? version) getDurationMs (ocs_throttle_time self) in
  let! n := getArrayLength in
  let! errors := (when_positive n (ocs_errors self) ((resize_int n ;;; read_umap_at [] (Z.to_nat n) getString
    (fun v => let! n := getArrayLength in let! v := read_map_at 0 (Z.to_nat n) getInt32
    (fun v => let! v := getKError in ok v) v in ok v) (∅)))) in
  ok (mkOffsetCommitResponse version throttle_time errors).

(* coev_kafka/offset_commit_response.cpp OffsetCommitResponse::key..OffsetCommitResponse::is_valid_version *)
#[export] Instance OffsetCommitResponse_body {order : Iteration} : protocol_body OffsetCommitResponse := {
  pb_encode := OffsetCommitResponse_encode;
  pb_decode := OffsetCommitResponse_decode;
  pb_key _ := 8;
  pb_version := ocs_version;
  pb_header_version m := 0;
  pb_is_valid_version m := (0 <=? ocs_version m) && (ocs_version m <=? 7);
  pb_is_flexible _ := false;
  pb_is_flexible_version _ _ := false;
}.

Definition OffsetCommitResponse_wire {order : Iteration} (m : OffsetCommitResponse) : list Z :=
  let fl := pb_is_flexible m in
  w_when (3 <=? ocs_version m) (be 4 (ocs_throttle_time m)) ++
  w_array_length fl (Zlen (iterate (ocs_errors m))) ++
  w_list (w_pair (w_string fl) ((fun v => w_array_length fl (Zlen v) ++ w_list (w_pair (be 4) (be 2)) v))) (iterate (ocs_errors m)).
Definition OffsetCommitResponse_ok {order : Iteration} (m : OffsetCommitResponse) : Prop :=
  let fl := pb_is_flexible m in
  in_s 32 (ocs_throttle_time m) /\ ((3 <=? ocs_version m) = false -> ocs_throttle_time m = 0) /\
  array_fits fl (pair_ok (string_ok fl) ((fun v => array_fits fl (pair_ok (in_s 32) (in_s 16)) v /\ map_sorted v))) (iterate (ocs_errors m)).
#[export] Instance OffsetCommitResponse_ok_dec {order : Iteration} m : Decision (OffsetCommitResponse_ok m).
Proof. unfold OffsetCommitResponse_ok. cbv zeta. apply _. Defined.
Definition OffsetCommitResponse_initial (v : Z) : OffsetCommitResponse :=
  mkOffsetCommitResponse v 0 (∅).
#[export] Hint Unfold OffsetCommitResponse_encode OffsetCommitResponse_decode OffsetCommitResponse_wire OffsetCommitResponse_ok OffsetCommitResponse_initial : message.

Lemma OffsetCommitResponse_emits {order : Iteration} m :
  OffsetCommitResponse_ok m -> emits (pb_is_flexible m) (pb_encode m) 0 (OffsetCommitResponse_wire m).
Proof. solve_emits m. Qed.
Lemma OffsetCommitResponse_consumes {order : Iteration} m :
  OffsetCommitResponse_ok m ->
  consumes (pb_is_flexible m) (pb_decode (OffsetCommitResponse_initial (pb_version m)) (pb_version m)) (Ok m) (OffsetCommitResponse_wire m).
Proof. solve_consumes m. Qed.
#[export] Instance OffsetCommitResponse_format {order : Iteration} : WireFormat OffsetCommitResponse := {
  wire := OffsetCommitResponse_wire;
  wire_ok := OffsetCommitResponse_ok;
  wire_initial := OffsetCommitResponse_initial;
  wire_flexible _ _ := eq_refl;
  wire_encode := OffsetCommitResponse_emits;
  wire_decode := OffsetCommitResponse_consumes;
}.
(* coev_kafka/offset_commit_response.cpp OffsetCommitResponse::set_version *)
Definition OffsetCommitResponse_set_version (m : OffsetCommitResponse) (v : Z) : OffsetCommitResponse :=
  mkOffsetCommitResponse v (ocs_throttle_time m) (ocs_errors m).
#[export] Instance OffsetCommitResponse_versioned : Versioned OffsetCommitResponse := { set_version := OffsetCommitResponse_set_version }.
#[export] Instance OffsetCommitResponse_laws {order : Iteration} : VersionLaws OffsetCommitResponse.
Proof. version_laws. Qed.

(** ** OffsetFetch *)

(** Results of members are dropped where no code is returned. *)
(* coev_kafka/offset_fetch_response.h:25-34 OffsetFetchResponseBlock *)
Record OffsetFetchResponseBlock := mkOffsetFetchResponseBlock {
  ofb_offset : Z; ofb_leader_epoch : Z; ofb_metadata : list Z; ofb_err : Z }.

(* coev_kafka/offset_fetch_response.cpp OffsetFetchResponseBlock::encode *)
Definition OffsetFetchResponseBlock_encode (version : Z) (m : OffsetFetchResponseBlock) : PE Z :=
  putInt64 (ofb_offset m) ;;;
  whenU (5 <=? version) (putInt32 (ofb_leader_epoch m)) ;;;
  putString (ofb_metadata m) ;;;
  putKError (ofb_err m) ;;;
  putEmptyTaggedFieldArray ;;;
  ret 0.

(* coev_kafka/offset_fetch_response.cpp OffsetFetchResponseBlock::decode *)
Definition OffsetFetchResponseBlock_decode (version : Z) : PD OffsetFetchResponseBlock :=
  let! offset := getInt64 in
  let! leader_epoch := readIf (5 <=? version) getInt32 ((-1)) in
  let! metadata := getString in
  let! err := getKError in
  getEmptyTaggedFieldArray ;;;
  ok (mkOffsetFetchResponseBlock offset leader_epoch metadata err).

Definition OffsetFetchResponseBlock_wire (version : Z) (fl : bool) (m : OffsetFetchResponseBlock) : list Z :=
  be 8 (ofb_offset m) ++ w_when (5 <=? version) (be 4 (ofb_leader_epoch m)) ++
  w_string fl (ofb_metadata m) ++ be 2 (ofb_err m) ++ w_tags fl.
Definition OffsetFetchResponseBlock_ok (version : Z) (fl : bool) (m : OffsetFetchResponseBlock) : Prop :=
  in_s 64 (ofb_offset m) /\ in_s 32 (ofb_leader_epoch m) /\
  ((5 <=? version) = false -> ofb_leader_epoch m = (-1)) /\ string_ok fl (ofb_metadata m) /\
  in_s 16 (ofb_err m).
#[export] Instance OffsetFetchResponseBlock_ok_dec version fl m : Decision (OffsetFetchResponseBlock_ok version fl m).
Proof. unfold OffsetFetchResponseBlock_ok. apply _. Defined.
Lemma OffsetFetchResponseBlock_emits version fl m : OffsetFetchResponseBlock_ok version fl m -> emits fl (OffsetFetchResponseBlock_encode version m) 0 (OffsetFetchResponseBlock_wire version fl m).
Proof. unfold OffsetFetchResponseBlock_ok, OffsetFetchResponseBlock_encode, OffsetFetchResponseBlock_wire. solve_emits m. Qed.
Lemma OffsetFetchResponseBlock_consumes version fl m : OffsetFetchResponseBlock_ok version fl m -> consumes fl (OffsetFetchResponseBlock_decode version) (Ok m) (OffsetFetchResponseBlock_wire version fl m).
Proof. unfold OffsetFetchResponseBlock_ok, OffsetFetchResponseBlock_decode, OffsetFetchResponseBlock_wire. solve_consumes m. Qed.
#[export] Hint Resolve OffsetFetchResponseBlock_emits : emit.
#[export] Hint Resolve OffsetFetchResponseBlock_consumes : consume.
#[global] Arguments OffsetFetchResponseBlock_wire : simpl never.
#[global] Arguments OffsetFetchResponseBlock_encode : simpl never.
#[global] Arguments OffsetFetchResponseBlock_decode : simpl never.
#[global] Arguments OffsetFetchResponseBlock_ok : simpl never.

(** Without a topic the blocks are left as they are.  Whether the tags of a topic can be read is
    not looked at. *)
(* coev_kafka/offset_fetch_response.h:36-59 OffsetFetchResponse *)
Record OffsetFetchResponse := mkOffsetFetchResponse {
  ors_version : Z; ors_throttle_time : Z;
  ors_blocks : list (list Z * list (Z * OffsetFetchResponseBlock)); ors_err : Z }.

(* coev_kafka/offset_fetch_response.cpp OffsetFetchResponse::encode *)
Definition OffsetFetchResponse_encode (m : OffsetFetchResponse) : PE Z :=
  whenU (3 <=? ors_version m) (putDurationMs (ors_throttle_time m)) ;;;
  putArrayLength (to_i32 (Zlen (ors_blocks m))) ;;;
  for_do (ors_blocks m) (fun kv =>
    putString (fst kv) ;;; putArrayLength (to_i32 (Zlen (snd kv))) ;;; for_do (snd kv) (fun kv =>
    putInt32 (fst kv) ;;; OffsetFetchResponseBlock_encode (ors_version m) (snd kv) ;;; ret tt) ;;; putEmptyTaggedFieldArray ;;; ret tt) ;;;
  whenU (2 <=? ors_version m) (putKError (ors_err m)) ;;;
  putEmptyTaggedFieldArray ;;;
  ret 0.

(* coev_kafka/offset_fetch_response.cpp OffsetFetchResponse::decode *)
Definition OffsetFetchResponse_decode (self : OffsetFetchResponse) (version : Z) : PD OffsetFetchResponse :=
  let! throttle_time := readIf (3 <=? version) getDurationMs (ors_throttle_time self) in
  let! n := getArrayLength in
  let! blocks := when_positive n (ors_blocks self) (read_map_at [] (Z.to_nat n) getString
    (fun v => let! n := getArrayLength in let! v := read_map_at ((mkOffsetFetchResponseBlock 0 (-1) [] 0)) (Z.to_nat n) getInt32
    (fun v => let! v := OffsetFetchResponseBlock_decode version in ok v) v in getEmptyTaggedFieldArray ;;; ok v) []) in
  let! err := readIf (2 <=? version) getKError (ors_err self) in
  let! _t := getEmptyTaggedFieldArray in
  ok (mkOffsetFetchResponse version throttle_time blocks err).

(* coev_kafka/offset_fetch_response.cpp OffsetFetchResponse::is_flexible_version *)
Definition OffsetFetchResponse_is_flexible_version (ver : Z) : bool := 6 <=? ver.
(* coev_kafka/offset_fetch_response.cpp OffsetFetchResponse::key..OffsetFetchResponse::is_flexible *)
#[export] Instance OffsetFetchResponse_body : protocol_body OffsetFetchResponse := {
  pb_encode := OffsetFetchResponse_encode;
  pb_decode := OffsetFetchResponse_decode;
  pb_key _ := 9;
  pb_version := ors_version;
  pb_header_version m := if 6 <=? ors_version m then 1 else 0;
  pb_is_valid_version m := (0 <=? ors_version m) && (ors_version m <=? 7);
  pb_is_flexible m := OffsetFetchResponse_is_flexible_version (ors_version m);
  pb_is_flexible_version _ := OffsetFetchResponse_is_flexible_version;
}.

Definition OffsetFetchResponse_wire (m : OffsetFetchResponse) : list Z :=
  let fl := pb_is_flexible m in
  w_when (3 <=? ors_version m) (be 4 (ors_throttle_time m)) ++
  w_array_length fl (Zlen (ors_blocks m)) ++
  w_list (w_pair (w_string fl) ((fun v => w_array_length fl (Zlen v) ++ w_list (w_pair (be 4) (OffsetFetchResponseBlock_wire (ors_version m) fl)) v ++ w_tags fl))) (ors_blocks m) ++
  w_when (2 <=? ors_version m) (be 2 (ors_err m)) ++ w_tags fl.
Definition OffsetFetchResponse_ok (m : OffsetFetchResponse) : Prop :=
  let fl := pb_is_flexible m in
  in_s 32 (ors_throttle_time m) /\ ((3 <=? ors_version m) = false -> ors_throttle_time m = 0) /\
  array_fits fl (pair_ok (string_ok fl) ((fun v => array_fits fl (pair_ok (in_s 32) (OffsetFetchResponseBlock_ok (ors_version m) fl)) v /\ map_sorted v))) (ors_blocks m) /\
  map_sorted (ors_blocks m) /\ in_s 16 (ors_err m) /\
  ((2 <=? ors_version m) = false -> ors_err m = 0).
#[export] Instance OffsetFetchResponse_ok_dec m : Decision (OffsetFetchResponse_ok m).
Proof. unfold OffsetFetchResponse_ok. cbv zeta. apply _. Defined.
Definition OffsetFetchResponse_initial (v : Z) : OffsetFetchResponse :=
  mkOffsetFetchResponse v 0 [] 0.
#[export] Hint Unfold OffsetFetchResponse_encode OffsetFetchResponse_decode OffsetFetchResponse_wire OffsetFetchResponse_ok OffsetFetchResponse_initial : message.

Lemma OffsetFetchResponse_emits m :
  OffsetFetchResponse_ok m -> emits (pb_is_flexible m) (pb_encode m) 0 (OffsetFetchResponse_wire m).
Proof. solve_emits m. Qed.
Lemma OffsetFetchResponse_consumes m :
  OffsetFetchResponse_ok m ->
  consumes (pb_is_flexible m) (pb_decode (OffsetFetchResponse_initial (pb_version m)) (pb_version m)) (Ok m) (OffsetFetchResponse_wire m).
Proof. solve_consumes m. Qed.
#[export] Instance OffsetFetchResponse_format : WireFormat OffsetFetchResponse := {
  wire := OffsetFetchResponse_wire;
  wire_ok := OffsetFetchResponse_ok;
  wire_initial := OffsetFetchResponse_initial;
  wire_flexible _ _ := eq_refl;
  wire_encode := OffsetFetchResponse_emits;
  wire_decode := OffsetFetchResponse_consumes;
}.
(* coev_kafka/offset_fetch_response.cpp OffsetFetchResponse::set_version *)
Definition OffsetFetchResponse_set_version (m : OffsetFetchResponse) (v : Z) : OffsetFetchResponse :=
  mkOffsetFetchResponse v (ors_throttle_time m) (ors_blocks m) (ors_err m).
#[export] Instance OffsetFetchResponse_versioned : Versioned OffsetFetchResponse := { set_version := OffsetFetchResponse_set_version }.
#[export] Instance OffsetFetchResponse_laws : VersionLaws OffsetFetchResponse.
Proof. version_laws. Qed.

(** ** DeleteOffsets *)

(** A topic that comes again loses what was read for it before. *)
(* coev_kafka/delete_offsets_response.h:20-40 DeleteOffsetsResponse *)
Record DeleteOffsetsResponse := mkDeleteOffsetsResponse {
  dos_version : Z; dos_code : Z; dos_throttle_time : Z; dos_errors : list (list Z * list (Z * Z)) }.

(* coev_kafka/delete_offsets_response.cpp DeleteOffsetsResponse::encode *)
Definition DeleteOffsetsResponse_encode (m : DeleteOffsetsResponse) : PE Z :=
  putInt16 (dos_code m) ;;;
  putDurationMs (dos_throttle_time m) ;;;
  try putArrayLength (to_i32 (Zlen (dos_errors m))) /! ErrEncodeError ;;;
  try for_try (dos_errors m) (fun kv =>
    try putString (fst kv) /! ErrEncodeError ;;; try putArrayLength (to_i32 (Zlen (snd kv))) /! ErrEncodeError ;;; try for_try (snd kv) (fun kv =>
    putInt32 (fst kv) ;;; putInt16 (snd kv) ;;; ret 0) ;;; ret 0) ;;;
  ret ErrNoError.

(* coev_kafka/delete_offsets_response.cpp DeleteOffsetsResponse::decode *)
Definition DeleteOffsetsResponse_decode (self : DeleteOffsetsResponse) (version : Z) : PD DeleteOffsetsResponse :=
  let! code := getInt16 /! ErrDecodeError in
  let! throttle_time := getDurationMs /! ErrDecodeError in
  let! n := getArrayLength /! ErrDecodeError in
  let! errors := read_map_at [] (Z.to_nat n) (let! k := getString /! ErrDecodeError in ok k)
    (fun v => let! n := getArrayLength /! ErrDecodeError in let! v := read_map_at 0 (Z.to_nat n) (let! k := getInt32 /! ErrDecodeError in ok k)
    (fun v => let! v := getInt16 /! ErrDecodeError in ok v) [] in ok v) [] in
  ok (mkDeleteOffsetsResponse version code throttle_time errors).

(* coev_kafka/delete_offsets_response.cpp DeleteOffsetsResponse::key..DeleteOffsetsResponse::is_valid_version *)
#[export] Instance DeleteOffsetsResponse_body : protocol_body DeleteOffsetsResponse := {
  pb_encode := DeleteOffsetsResponse_encode;
  pb_decode := DeleteOffsetsResponse_decode;
  pb_key _ := 47;
  pb_version := dos_version;
  pb_header_version m := 0;
  pb_is_valid_version m := (0 <=? dos_version m) && (dos_version m <=? 2);
  pb_is_flexible _ := false;
  pb_is_flexible_version _ _ := false;
}.

Definition DeleteOffsetsResponse_wire (m : DeleteOffsetsResponse) : list Z :=
  let fl := pb_is_flexible m in
  be 2 (dos_code m) ++ be 4 (dos_throttle_time m) ++ w_array_length fl (Zlen (dos_errors m)) ++
  w_list (w_pair (w_string fl) ((fun v => w_array_length fl (Zlen v) ++ w_list (w_pair (be 4) (be 2)) v))) (dos_errors m).
Definition DeleteOffsetsResponse_ok (m : DeleteOffsetsResponse) : Prop :=
  let fl := pb_is_flexible m in
  in_s 16 (dos_code m) /\ in_s 32 (dos_throttle_time m) /\
  array_fits fl (pair_ok (string_ok fl) ((fun v => array_fits fl (pair_ok (in_s 32) (in_s 16)) v /\ map_sorted v))) (dos_errors m) /\
  map_sorted (dos_errors m).
#[export] Instance DeleteOffsetsResponse_ok_dec m : Decision (DeleteOffsetsResponse_ok m).
Proof. unfold DeleteOffsetsResponse_ok. cbv zeta. apply _. Defined.
Definition DeleteOffsetsResponse_initial (v : Z) : DeleteOffsetsResponse :=
  mkDeleteOffsetsResponse v 0 0 [].
#[export] Hint Unfold DeleteOffsetsResponse_encode DeleteOffsetsResponse_decode DeleteOffsetsResponse_wire DeleteOffsetsResponse_ok DeleteOffsetsResponse_initial : message.

Lemma DeleteOffsetsResponse_emits m :
  DeleteOffsetsResponse_ok m -> emits (pb_is_flexible m) (pb_encode m) 0 (DeleteOffsetsResponse_wire m).
Proof. solve_emits m. Qed.
Lemma DeleteOffsetsResponse_consumes m :
  DeleteOffsetsResponse_ok m ->
  consumes (pb_is_flexible m) (pb_decode (DeleteOffsetsResponse_initial (pb_version m)) (pb_version m)) (Ok m) (DeleteOffsetsResponse_wire m).
Proof. solve_consumes m. Qed.
#[export] Instance DeleteOffsetsResponse_format : WireFormat DeleteOffsetsResponse := {
  wire := DeleteOffsetsResponse_wire;
  wire_ok := DeleteOffsetsResponse_ok;
  wire_initial := DeleteOffsetsResponse_initial;
  wire_flexible _ _ := eq_refl;
  wire_encode := DeleteOffsetsResponse_emits;
  wire_decode := DeleteOffsetsResponse_consumes;
}.
(* coev_kafka/delete_offsets_response.cpp DeleteOffsetsResponse::set_version *)
Definition DeleteOffsetsResponse_set_version (m : DeleteOffsetsResponse) (v : Z) : DeleteOffsetsResponse :=
  mkDeleteOffsetsResponse v (dos_code m) (dos_throttle_time m) (dos_errors m).
#[export] Instance DeleteOffsetsResponse_versioned : Versioned DeleteOffsetsResponse := { set_version := DeleteOffsetsResponse_set_version }.
#[export] Instance DeleteOffsetsResponse_laws : VersionLaws DeleteOffsetsResponse.
Proof. version_laws. Qed.

(* coev_kafka/delete_offsets_request.h:22-40 DeleteOffsetsRequest *)
Record DeleteOffsetsRequest := mkDeleteOffsetsRequest {
  doq_version : Z; doq_group : list Z; doq_partitions : gmap (list Z) (list Z) }.

(* coev_kafka/delete_offsets_request.cpp DeleteOffsetsRequest::encode *)
Definition DeleteOffsetsRequest_encode {order : Iteration} (m : DeleteOffsetsRequest) : PE Z :=
  try putString (doq_group m) /! ErrEncodeError ;;;
  if Zlen (iterate (doq_partitions m)) =? 0 then putInt32 0 ;;; ret ErrNoError else
  try putArrayLength (to_i32 (Zlen (iterate (doq_partitions m)))) /! ErrEncodeError ;;;
  try for_try (iterate (doq_partitions m)) (fun kv =>
    try putString (fst kv) /! ErrEncodeError ;;; try putInt32Array (snd kv) /! ErrEncodeError ;;; ret 0) ;;;
  ret ErrNoError.

(* coev_kafka/delete_offsets_request.cpp DeleteOffsetsRequest::decode *)
Definition DeleteOffsetsRequest_decode (self : DeleteOffsetsRequest) (version : Z) : PD DeleteOffsetsRequest :=
  let! group := getString /! ErrDecodeError in
  let! n := getArrayLength /! ErrDecodeError in
  let! partitions := read_umap_at [] (Z.to_nat n) (let! k := getString /! ErrDecodeError in ok k)
    (fun v => let! v := getInt32Array /! ErrDecodeError in ok v) (∅) in
  ok (mkDeleteOffsetsRequest version group partitions).

(* coev_kafka/delete_offsets_request.cpp DeleteOffsetsRequest::key..DeleteOffsetsRequest::is_valid_version *)
#[export] Instance DeleteOffsetsRequest_body {order : Iteration} : protocol_body DeleteOffsetsRequest := {
  pb_encode := DeleteOffsetsRequest_encode;
  pb_decode := DeleteOffsetsRequest_decode;
  pb_key _ := 47;
  pb_version := doq_version;
  pb_header_version m := 1;
  pb_is_valid_version m := (0 <=? doq_version m) && (doq_version m <=? 2);
  pb_is_flexible _ := false;
  pb_is_flexible_version _ _ := false;
}.

Definition DeleteOffsetsRequest_wire {order : Iteration} (m : DeleteOffsetsRequest) : list Z :=
  let fl := pb_is_flexible m in
  w_string fl (doq_group m) ++ w_array_length fl (Zlen (iterate (doq_partitions m))) ++
  w_list (w_pair (w_string fl) (w_int32_array fl)) (iterate (doq_partitions m)).
Definition DeleteOffsetsRequest_ok {order : Iteration} (m : DeleteOffsetsRequest) : Prop :=
  let fl := pb_is_flexible m in
  string_ok fl (doq_group m) /\
  array_fits fl (pair_ok (string_ok fl) (int32s_ok fl)) (iterate (doq_partitions m)).
#[export] Instance DeleteOffsetsRequest_ok_dec {order : Iteration} m : Decision (DeleteOffsetsRequest_ok m).
Proof. unfold DeleteOffsetsRequest_ok. cbv zeta. apply _. Defined.
Definition DeleteOffsetsRequest_initial (v : Z) : DeleteOffsetsRequest :=
  mkDeleteOffsetsRequest v [] (∅).
#[export] Hint Unfold DeleteOffsetsRequest_encode DeleteOffsetsRequest_decode DeleteOffsetsRequest_wire DeleteOffsetsRequest_ok DeleteOffsetsRequest_initial : message.

Lemma DeleteOffsetsRequest_emits {order : Iteration} m :
  DeleteOffsetsRequest_ok m -> emits (pb_is_flexible m) (pb_encode m) 0 (DeleteOffsetsRequest_wire m).
Proof.
  open_message m. eapply emits_check; [emit_steps|]. destruct (Zlen (iterate doq_partitions0) =? 0) eqn:E; [|emit_steps].
  assert (iterate doq_partitions0 = []) as -> by (apply Zlen_zero; lia).
  eapply emits_as; [eapply emits_then, emits_putInt32|done].
Qed.
Lemma DeleteOffsetsRequest_consumes {order : Iteration} m :
  DeleteOffsetsRequest_ok m ->
  consumes (pb_is_flexible m) (pb_decode (DeleteOffsetsRequest_initial (pb_version m)) (pb_version m)) (Ok m) (DeleteOffsetsRequest_wire m).
Proof. solve_consumes m. Qed.
#[export] Instance DeleteOffsetsRequest_format {order : Iteration} : WireFormat DeleteOffsetsRequest := {
  wire := DeleteOffsetsRequest_wire;
  wire_ok := DeleteOffsetsRequest_ok;
  wire_initial := DeleteOffsetsRequest_initial;
  wire_flexible _ _ := eq_refl;
  wire_encode := DeleteOffsetsRequest_emits;
  wire_decode := DeleteOffsetsRequest_consumes;
}.
(* coev_kafka/delete_offsets_request.cpp DeleteOffsetsRequest::set_version *)
Definition DeleteOffsetsRequest_set_version (m : DeleteOffsetsRequest) (v : Z) : DeleteOffsetsRequest :=
  mkDeleteOffsetsRequest v (doq_group m) (doq_partitions m).
#[export] Instance DeleteOffsetsRequest_versioned : Versioned DeleteOffsetsRequest := { set_version := DeleteOffsetsRequest_set_version }.
#[export] Instance DeleteOffsetsRequest_laws {order : Iteration} : VersionLaws DeleteOffsetsRequest.
Proof. version_laws. Qed.

(** ** OffsetCommit: a topic without a partition ends the reading *)

(* coev_kafka/offset_commit_request.h:22-35 OffsetCommitRequestBlock *)
Record OffsetCommitRequestBlock := mkOffsetCommitRequestBlock {
  ocb_offset : Z; ocb_timestamp : Z; ocb_committed_leader_epoch : Z; ocb_metadata : list Z }.

(* coev_kafka/offset_commit_request.cpp OffsetCommitRequestBlock::encode *)
Definition OffsetCommitRequestBlock_encode (version : Z) (m : OffsetCommitRequestBlock) : PE Z :=
  putInt64 (ocb_offset m) ;;;
  whenU (version =? 1) (putInt64 (ocb_timestamp m)) ;;;
  whenU (6 <=? version) (putInt32 (ocb_committed_leader_epoch m)) ;;;
  putString (ocb_metadata m).

(** The code, and the block with what had been read when it was returned *)
(* coev_kafka/offset_commit_request.cpp OffsetCommitRequestBlock::decode *)
Definition OffsetCommitRequestBlock_decode (version : Z) (self : OffsetCommitRequestBlock)
  : M packet_decoder (Z * OffsetCommitRequestBlock) :=
  let* offset := getInt64 in
  match offset with
  | Err e => ret (e, mkOffsetCommitRequestBlock (-1) (ocb_timestamp self) (ocb_committed_leader_epoch self) (ocb_metadata self))
  | Ok offset =>
      let* timestamp := readIf (version =? 1) getInt64 (ocb_timestamp self) in
      match timestamp with
      | Err e => ret (e, mkOffsetCommitRequestBlock offset (-1) (ocb_committed_leader_epoch self) (ocb_metadata self))
      | Ok timestamp =>
          let* epoch := readIf (6 <=? version) getInt32 (ocb_committed_leader_epoch self) in
          match epoch with
          | Err e => ret (e, mkOffsetCommitRequestBlock offset timestamp (-1) (ocb_metadata self))
          | Ok epoch =>
              let* metadata := getString in
              match metadata with
              | Err e => ret (e, mkOffsetCommitRequestBlock offset timestamp epoch (ocb_metadata self))
              | Ok metadata => ret (0, mkOffsetCommitRequestBlock offset timestamp epoch metadata)
              end
          end
      end
  end.

Definition OffsetCommitRequestBlock_wire (version : Z) (fl : bool) (m : OffsetCommitRequestBlock) : list Z :=
  be 8 (ocb_offset m) ++ w_when (version =? 1) (be 8 (ocb_timestamp m)) ++
  w_when (6 <=? version) (be 4 (ocb_committed_leader_epoch m)) ++ w_string fl (ocb_metadata m).
Definition OffsetCommitRequestBlock_ok (version : Z) (fl : bool) (m : OffsetCommitRequestBlock) : Prop :=
  in_s 64 (ocb_offset m) /\ in_s 64 (ocb_timestamp m) /\ in_s 32 (ocb_committed_leader_epoch m) /\
  string_ok fl (ocb_metadata m) /\ ((version =? 1) = false -> ocb_timestamp m = 0) /\
  ((6 <=? version) = false -> ocb_committed_leader_epoch m = 0).
#[export] Instance OffsetCommitRequestBlock_ok_dec version fl m : Decision (OffsetCommitRequestBlock_ok version fl m).
Proof. unfold OffsetCommitRequestBlock_ok. apply _. Defined.
Lemma OffsetCommitRequestBlock_emits version fl m :
  OffsetCommitRequestBlock_ok version fl m ->
  emits fl (OffsetCommitRequestBlock_encode version m) 0 (OffsetCommitRequestBlock_wire version fl m).
Proof. unfold OffsetCommitRequestBlock_ok, OffsetCommitRequestBlock_encode, OffsetCommitRequestBlock_wire. solve_emits m. Qed.
(** A block that is read as far as its codes go *)
Lemma consumes_step {A B} fl (g : PD A) (k : A -> M packet_decoder B) (e : Z -> M packet_decoder B) a w b1 b2 :
  consumes fl g (Ok a) b1 -> consumes fl (k a) w b2 ->
  consumes fl (let* r := g in match r with Err c => e c | Ok x => k x end) w (b1 ++ b2).
Proof. intros H1 H2. by eapply consumes_bind. Qed.
Lemma consumes_step_last {A B} fl (g : PD A) (k : A -> M packet_decoder B) (e : Z -> M packet_decoder B) a w bs :
  consumes fl g (Ok a) bs -> consumes fl (k a) w [] ->
  consumes fl (let* r := g in match r with Err c => e c | Ok x => k x end) w bs.
Proof. intros H1 H2. eapply consumes_as; [by eapply consumes_step|apply app_nil_r]. Qed.
Lemma OffsetCommitRequestBlock_consumes version fl m :
  OffsetCommitRequestBlock_ok version fl m ->
  consumes fl (OffsetCommitRequestBlock_decode version (mkOffsetCommitRequestBlock 0 0 0 [])) (0, m)
    (OffsetCommitRequestBlock_wire version fl m).
Proof.
  unfold OffsetCommitRequestBlock_ok, OffsetCommitRequestBlock_decode, OffsetCommitRequestBlock_wire. open_message m.
  do 3 (eapply consumes_step; [consume_steps|]).
  eapply consumes_step_last; [consume_steps|apply consumes_ret].
Qed.
#[export] Hint Resolve OffsetCommitRequestBlock_emits : emit.
#[global] Arguments OffsetCommitRequestBlock_wire : simpl never.
#[global] Arguments OffsetCommitRequestBlock_encode : simpl never.
#[global] Arguments OffsetCommitRequestBlock_decode : simpl never.
#[global] Arguments OffsetCommitRequestBlock_ok : simpl never.

(** The code of a block is not looked at. *)
(* coev_kafka/offset_commit_request.cpp:164-173 OffsetCommitRequest::decode *)
Fixpoint read_commit_partitions (version : Z) (n : nat) (m : list (Z * OffsetCommitRequestBlock))
  : PD (list (Z * OffsetCommitRequestBlock)) :=
  match n with
  | O => ok m
  | S n' =>
      let! partition := getInt32 in
      let* r := OffsetCommitRequestBlock_decode version
                  (default (mkOffsetCommitRequestBlock 0 0 0 []) (map_find partition m)) in
      read_commit_partitions version n' (map_assign partition (snd r) m)
  end.
(** What [getArrayLength] leaves in its argument *)
Definition length_out (r : dres Z) : Z := match r with Ok n => n | Err _ => -1 end.
(** A length of zero returns from the function, before the topic has an entry, with the code of
    the length that was read; another code of it is not looked at. *)
(* coev_kafka/offset_commit_request.cpp:149-174 OffsetCommitRequest::decode *)
Fixpoint read_commit_topics (version : Z) (n : nat) (m : gmap (list Z) (list (Z * OffsetCommitRequestBlock)))
  : PD (gmap (list Z) (list (Z * OffsetCommitRequestBlock))) :=
  match n with
  | O => ok m
  | S n' =>
      let! topic := getString in
      let* r := getArrayLength in
      if length_out r =? 0 then ok m
      else
        let! partitions := read_commit_partitions version (Z.to_nat (length_out r)) (default [] (m !! topic)) in
        read_commit_topics version n' (<[topic := partitions]> m)
  end.

(* coev_kafka/offset_commit_request.h:37-63 OffsetCommitRequest *)
Record OffsetCommitRequest := mkOffsetCommitRequest {
  ocq_version : Z; ocq_consumer_group : list Z; ocq_consumer_group_generation : Z;
  ocq_consumer_id : list Z; ocq_group_instance_id : list Z; ocq_retention_time : Z;
  ocq_blocks : gmap (list Z) (list (Z * OffsetCommitRequestBlock)) }.

(* coev_kafka/offset_commit_request.cpp OffsetCommitRequest::encode *)
Definition OffsetCommitRequest_encode {order : Iteration} (m : OffsetCommitRequest) : PE Z :=
  if (ocq_version m <? 0) || (7 <? ocq_version m) then ret ErrConsumerOffsetNotAdvanced else
  putString (ocq_consumer_group m) ;;;
  whenU (1 <=? ocq_version m) (putInt32 (ocq_consumer_group_generation m)) ;;;
  whenU (1 <=? ocq_version m) (putString (ocq_consumer_id m) ;;; ret tt) ;;;
  whenU ((2 <=? ocq_version m) && (ocq_version m <=? 4)) (putInt64 (ocq_retention_time m)) ;;;
  whenU (7 <=? ocq_version m) (putNullableString (ocq_group_instance_id m) ;;; ret tt) ;;;
  putArrayLength (to_i32 (Zlen (iterate (ocq_blocks m)))) ;;;
  for_do (iterate (ocq_blocks m)) (fun topicEntry =>
    putString (fst topicEntry) ;;;
    putArrayLength (to_i32 (Zlen (snd topicEntry))) ;;;
    for_do (snd topicEntry) (fun partitionEntry =>
      putInt32 (fst partitionEntry) ;;;
      OffsetCommitRequestBlock_encode (ocq_version m) (snd partitionEntry) ;;; ret tt) ;;;
    ret tt) ;;;
  ret 0.

(** A member whose code is dropped has the value that the failed read leaves: -1, or what it had
    before for a string. *)
(* coev_kafka/offset_commit_request.cpp OffsetCommitRequest::decode *)
Definition OffsetCommitRequest_decode (self : OffsetCommitRequest) (version : Z) : PD OffsetCommitRequest :=
  let! consumer_group := getString in
  let! generation := readIf (1 <=? version) (or_value (-1) getInt32) (ocq_consumer_group_generation self) in
  let! consumer_id := readIf (1 <=? version) (or_value (ocq_consumer_id self) getString) (ocq_consumer_id self) in
  let! retention_time := readIf ((2 <=? version) && (version <=? 4)) (or_value (-1) getInt64) (ocq_retention_time self) in
  let! group_instance_id := readIf (7 <=? version) (or_value (ocq_group_instance_id self) getNullableString) (ocq_group_instance_id self) in
  let with_blocks blocks := mkOffsetCommitRequest version consumer_group generation consumer_id group_instance_id retention_time blocks in
  let* r := getArrayLength in
  if length_out r =? 0 then ok (with_blocks (ocq_blocks self))
  else let! blocks := read_commit_topics version (Z.to_nat (length_out r)) ∅ in ok (with_blocks blocks).

(* coev_kafka/offset_commit_request.cpp OffsetCommitRequest::key..OffsetCommitRequest::is_valid_version *)
#[export] Instance OffsetCommitRequest_body {order : Iteration} : protocol_body OffsetCommitRequest := {
  pb_encode := OffsetCommitRequest_encode;
  pb_decode := OffsetCommitRequest_decode;
  pb_key _ := 8;
  pb_version := ocq_version;
  pb_header_version m := 1;
  pb_is_valid_version m := (0 <=? ocq_version m) && (ocq_version m <=? 7);
  pb_is_flexible _ := false;
  pb_is_flexible_version _ _ := false;
}.

Definition commit_topic_wire (version : Z) (fl : bool) : list Z * list (Z * OffsetCommitRequestBlock) -> list Z :=
  w_pair (w_string fl) (fun v => w_array_length fl (Zlen v) ++ w_list (w_pair (be 4) (OffsetCommitRequestBlock_wire version fl)) v).
Definition commit_topic_ok (version : Z) (fl : bool) : list Z * list (Z * OffsetCommitRequestBlock) -> Prop :=
  pair_ok (string_ok fl) (fun v => array_fits fl (pair_ok (in_s 32) (OffsetCommitRequestBlock_ok version fl)) v /\ map_sorted v).
#[export] Instance commit_topic_ok_dec version fl p : Decision (commit_topic_ok version fl p).
Proof. unfold commit_topic_ok. apply _. Defined.
Definition OffsetCommitRequest_wire {order : Iteration} (m : OffsetCommitRequest) : list Z :=
  w_string false (ocq_consumer_group m) ++
  w_when (1 <=? ocq_version m) (be 4 (ocq_consumer_group_generation m)) ++
  w_when (1 <=? ocq_version m) (w_string false (ocq_consumer_id m)) ++
  w_when ((2 <=? ocq_version m) && (ocq_version m <=? 4)) (be 8 (ocq_retention_time m)) ++
  w_when (7 <=? ocq_version m) (w_nullable_string false (ocq_group_instance_id m)) ++
  w_array_length false (Zlen (iterate (ocq_blocks m))) ++
  w_list (commit_topic_wire (ocq_version m) false) (iterate (ocq_blocks m)).
(** What the encoder writes in full *)
Definition OffsetCommitRequest_fits {order : Iteration} (m : OffsetCommitRequest) : Prop :=
  0 <= ocq_version m <= 7 /\ string_ok false (ocq_consumer_group m) /\
  in_s 32 (ocq_consumer_group_generation m) /\ ((1 <=? ocq_version m) = false -> ocq_consumer_group_generation m = 0) /\
  string_ok false (ocq_consumer_id m) /\ ((1 <=? ocq_version m) = false -> ocq_consumer_id m = []) /\
  in_s 64 (ocq_retention_time m) /\
  (((2 <=? ocq_version m) && (ocq_version m <=? 4)) = false -> ocq_retention_time m = 0) /\
  string_ok false (ocq_group_instance_id m) /\ ((7 <=? ocq_version m) = false -> ocq_group_instance_id m = []) /\
  array_fits false (commit_topic_ok (ocq_version m) false) (iterate (ocq_blocks m)).
(** What can be read again: every topic has a partition. *)
Definition OffsetCommitRequest_ok {order : Iteration} (m : OffsetCommitRequest) : Prop :=
  OffsetCommitRequest_fits m /\ Forall (fun p => snd p <> []) (iterate (ocq_blocks m)).
#[export] Instance OffsetCommitRequest_ok_dec {order : Iteration} m : Decision (OffsetCommitRequest_ok m).
Proof. unfold OffsetCommitRequest_ok, OffsetCommitRequest_fits. apply _. Defined.
Definition OffsetCommitRequest_initial (v : Z) : OffsetCommitRequest :=
  mkOffsetCommitRequest v [] 0 [] [] 0 (∅).
#[export] Hint Unfold OffsetCommitRequest_encode OffsetCommitRequest_decode OffsetCommitRequest_wire OffsetCommitRequest_ok OffsetCommitRequest_initial : message.

Lemma commit_partitions_emits version fl (l : list (Z * OffsetCommitRequestBlock)) :
  array_fits fl (pair_ok (in_s 32) (OffsetCommitRequestBlock_ok version fl)) l ->
  emits fl (for_do l (fun partitionEntry =>
    putInt32 (fst partitionEntry) ;;; OffsetCommitRequestBlock_encode version (snd partitionEntry) ;;; ret tt)) tt
    (w_list (w_pair (be 4) (OffsetCommitRequestBlock_wire version fl)) l).
Proof.
  intros Hl. eapply emits_do_pairs; [exact Hl|]. intros k b Hk Hb. cbn [fst snd].
  eapply emits_seq; [apply emits_putInt32|]. eapply emits_then. by apply OffsetCommitRequestBlock_emits.
Qed.
Lemma OffsetCommitRequest_writes {order : Iteration} m :
  OffsetCommitRequest_fits m -> emits (pb_is_flexible m) (pb_encode m) 0 (OffsetCommitRequest_wire m).
Proof.
  destruct m as [v g gen id gi rt bs]. unfold OffsetCommitRequest_fits. cbn.
  intros (Hv & Hg & Hn & _ & Hid & _ & Hr & _ & Hgi & _ & Hl).
  unfold OffsetCommitRequest_encode, OffsetCommitRequest_wire. cbn.
  replace ((v <? 0) || (7 <? v)) with false by lia.
  eapply emits_seq; [by apply emits_putString|]. eapply emits_seq; [apply emits_whenU; intros _; apply emits_putInt32|].
  eapply emits_seq; [apply emits_whenU; intros _; eapply emits_then; by apply emits_putString|].
  eapply emits_seq; [apply emits_whenU; intros _; apply emits_putInt64|].
  eapply emits_seq; [apply emits_whenU; intros _; eapply emits_then; by apply emits_putNullableString|].
  eapply emits_seq; [by eapply emits_array_length|]. eapply emits_then.
  eapply emits_do_pairs; [exact Hl|]. cbn [fst snd]. intros t ps Ht [Hps _].
  eapply emits_seq; [by apply emits_putString|]. eapply emits_seq; [by eapply emits_array_length|].
  eapply emits_then. by apply commit_partitions_emits.
Qed.
(** An array length that is not zero *)
Lemma length_out_read fl n : in_s 32 n -> length_ok fl n -> 0 <= n ->
  exists r, consumes fl getArrayLength r (w_array_length fl n) /\ length_out r = n.
Proof. intros _ Hl Hn. exists (Ok n). split; [by apply consumes_getArrayLength|done]. Qed.
Lemma read_commit_partitions_consumes version fl acc l :
  map_sorted (acc ++ l) -> Forall (pair_ok (in_s 32) (OffsetCommitRequestBlock_ok version fl)) l ->
  consumes fl (read_commit_partitions version (length l) acc) (Ok (acc ++ l))
    (w_list (w_pair (be 4) (OffsetCommitRequestBlock_wire version fl)) l).
Proof.
  intros Hs Hf. revert acc Hs. induction Hf as [|[k b] l [Hk Hb] Hf IH]; intros acc Hs.
  - rewrite app_nil_r. apply consumes_ret.
  - change (w_list ?w ((k, b) :: l)) with ((be 4 k ++ OffsetCommitRequestBlock_wire version fl b) ++ w_list w l).
    rewrite <- app_assoc. cbn [length read_commit_partitions]. eapply consumes_let; [by apply consumes_getInt32|].
    rewrite (map_sorted_app_find _ _ _ _ Hs). eapply consumes_bind; [by apply OffsetCommitRequestBlock_consumes|].
    cbn [snd]. rewrite (map_sorted_assign _ _ _ _ Hs).
    replace (acc ++ (k, b) :: l) with ((acc ++ [(k, b)]) ++ l) by by rewrite <- app_assoc.
    apply IH. by rewrite <- app_assoc.
Qed.
Lemma read_commit_topics_consumes version l m :
  NoDup l.*1 -> (forall k, k ∈ l.*1 -> m !! k = None) ->
  Forall (commit_topic_ok version false) l -> Forall (fun p => snd p <> []) l ->
  consumes false (read_commit_topics version (length l) m) (Ok (fold_left (fun m p => <[fst p := snd p]> m) l m))
    (w_list (commit_topic_wire version false) l).
Proof.
  intros Hn Hf Hl. revert m Hn Hf. induction Hl as [|[k ps] l [Hk [Hps Hs]] Hl IH]; intros m; [intros; apply consumes_ret|].
  cbn [fmap list_fmap fst snd]. intros [Hkl Hn]%NoDup_cons Hf [He Hne]%Forall_cons. cbn [fst snd] in *.
  change (w_list ?w ((k, ps) :: l)) with
    ((w_string false k ++ w_array_length false (Zlen ps) ++
      w_list (w_pair (be 4) (OffsetCommitRequestBlock_wire version false)) ps) ++ w_list w l).
  rewrite <- !app_assoc. cbn [length read_commit_topics fold_left fst snd].
  eapply consumes_let; [by apply consumes_getString|]. eapply consumes_bind; [by eapply consumes_array_length|].
  cbn [length_out]. destruct (Z.eqb_spec (Zlen ps) 0) as [E|E]; [destruct He; apply Zlen_zero; lia|].
  rewrite Hf by (by left). cbn [default]. rewrite length_Zlen.
  eapply consumes_let; [apply (read_commit_partitions_consumes version false []); [done|apply Hps]|].
  apply IH; [done| |done]. intros k' Hk'. rewrite lookup_insert_ne by (intros ->; by apply Hkl). apply Hf. by right.
Qed.
Lemma OffsetCommitRequest_emits {order : Iteration} m :
  OffsetCommitRequest_ok m -> emits (pb_is_flexible m) (pb_encode m) 0 (OffsetCommitRequest_wire m).
Proof. intros [Hm _]. by apply OffsetCommitRequest_writes. Qed.
Lemma OffsetCommitRequest_consumes {order : Iteration} m :
  OffsetCommitRequest_ok m ->
  consumes (pb_is_flexible m) (pb_decode (OffsetCommitRequest_initial (pb_version m)) (pb_version m)) (Ok m) (OffsetCommitRequest_wire m).
Proof.
  destruct m as [v g gen id gi rt bs]. unfold OffsetCommitRequest_ok, OffsetCommitRequest_fits. cbn.
  intros [(Hv & Hg & Hn & Hn0 & Hid & Hid0 & Hr & Hr0 & Hgi & Hgi0 & Hl) Hne].
  unfold OffsetCommitRequest_decode, OffsetCommitRequest_wire. cbn.
  eapply consumes_let; [consume_steps|]. do 4 (eapply consumes_let; [consume_steps|]).
  eapply consumes_bind; [by eapply consumes_array_length|]. cbn [length_out].
  destruct (Zlen (iterate bs) =? 0) eqn:E.
  - assert (iterate bs = []) as Hb by (apply Zlen_zero; lia). rewrite (iterate_nil bs Hb), <- (iterate_nil bs Hb), Hb.
    rewrite (iterate_nil bs Hb). apply consumes_ret.
  - eapply consumes_last; [|apply consumes_ret]. rewrite length_Zlen. rewrite <- (umap_of_iterate bs) at 2.
    apply read_commit_topics_consumes; [apply iterate_NoDup|intros; apply lookup_empty|apply Hl|done].
Qed.
#[export] Instance OffsetCommitRequest_format {order : Iteration} : WireFormat OffsetCommitRequest := {
  wire := OffsetCommitRequest_wire;
  wire_ok := OffsetCommitRequest_ok;
  wire_initial := OffsetCommitRequest_initial;
  wire_flexible _ _ := eq_refl;
  wire_encode := OffsetCommitRequest_emits;
  wire_decode := OffsetCommitRequest_consumes;
}.
(* coev_kafka/offset_commit_request.cpp OffsetCommitRequest::set_version *)
Definition OffsetCommitRequest_set_version (m : OffsetCommitRequest) (v : Z) : OffsetCommitRequest :=
  mkOffsetCommitRequest v (ocq_consumer_group m) (ocq_consumer_group_generation m) (ocq_consumer_id m) (ocq_group_instance_id m) (ocq_retention_time m) (ocq_blocks m).
#[export] Instance OffsetCommitRequest_versioned : Versioned OffsetCommitRequest := { set_version := OffsetCommitRequest_set_version }.
#[export] Instance OffsetCommitRequest_laws {order : Iteration} : VersionLaws OffsetCommitRequest.
Proof. version_laws. Qed.

(** ** OffsetFetch: the request for all the partitions *)

(* coev_kafka/offset_fetch_request.h:24-49 OffsetFetchRequest *)
Record OffsetFetchRequest := mkOffsetFetchRequest {
  orq_version : Z; orq_consumer_group : list Z; orq_require_stable : bool;
  orq_partitions : list (list Z * list Z) }.

(* coev_kafka/offset_fetch_request.cpp OffsetFetchRequest::is_flexible_version *)
Definition OffsetFetchRequest_is_flexible_version (ver : Z) : bool := 6 <=? ver.
(** The exceptions of the encoder are for a version it does not know and for [m_require_stable]
    before version 7, when a part has been written already. *)
(* coev_kafka/offset_fetch_request.cpp OffsetFetchRequest::encode *)
Definition OffsetFetchRequest_encode (m : OffsetFetchRequest) : PE Z :=
  if (orq_version m <? 0) || (7 <? orq_version m) then fail FThrow else
  putString (orq_consumer_group m) ;;;
  putArrayLength (if (Zlen (orq_partitions m) =? 0) && (2 <=? orq_version m) then -1
                  else to_i32 (Zlen (orq_partitions m))) ;;;
  for_do (orq_partitions m) (fun entry =>
    putString (fst entry) ;;;
    putInt32Array (snd entry) ;;;
    whenU (OffsetFetchRequest_is_flexible_version (orq_version m)) putEmptyTaggedFieldArray ;;; ret tt) ;;;
  if orq_require_stable m && (orq_version m <? 7) then fail FThrow else
  whenU (7 <=? orq_version m) (putBool (orq_require_stable m)) ;;;
  whenU (OffsetFetchRequest_is_flexible_version (orq_version m)) putEmptyTaggedFieldArray ;;;
  ret 0.

(** Whether the flag could be read is not looked at. *)
(* coev_kafka/offset_fetch_request.cpp OffsetFetchRequest::decode *)
Definition OffsetFetchRequest_decode (self : OffsetFetchRequest) (version : Z) : PD OffsetFetchRequest :=
  let! consumer_group := getString in
  let! partitionCount := getArrayLength in
  if ((partitionCount =? 0) && (version <? 2)) || (partitionCount <? 0) then err ErrInvalidPartitions else
  let! partitions := read_map_at [] (Z.to_nat partitionCount) getString
    (fun _ => let! parts := getInt32Array in let! _t := getEmptyTaggedFieldArray in ok parts) [] in
  let! require_stable := readIf (7 <=? version) (or_value false getBool) (orq_require_stable self) in
  let! _t := getEmptyTaggedFieldArray in
  ok (mkOffsetFetchRequest version consumer_group require_stable partitions).

(* coev_kafka/offset_fetch_request.cpp OffsetFetchRequest::key..OffsetFetchRequest::is_flexible *)
#[export] Instance OffsetFetchRequest_body : protocol_body OffsetFetchRequest := {
  pb_encode := OffsetFetchRequest_encode;
  pb_decode := OffsetFetchRequest_decode;
  pb_key _ := 9;
  pb_version := orq_version;
  pb_header_version m := if 6 <=? orq_version m then 2 else 1;
  pb_is_valid_version m := (0 <=? orq_version m) && (orq_version m <=? 7);
  pb_is_flexible m := OffsetFetchRequest_is_flexible_version (orq_version m);
  pb_is_flexible_version _ := OffsetFetchRequest_is_flexible_version;
}.

Definition OffsetFetchRequest_wire (m : OffsetFetchRequest) : list Z :=
  let fl := pb_is_flexible m in
  w_string fl (orq_consumer_group m) ++
  w_array_length fl (if (Zlen (orq_partitions m) =? 0) && (2 <=? orq_version m) then -1 else Zlen (orq_partitions m)) ++
  w_list (w_pair (w_string fl) (fun v => w_int32_array fl v ++ w_tags fl)) (orq_partitions m) ++
  w_when (7 <=? orq_version m) (w_bool (orq_require_stable m)) ++ w_tags fl.
(** What the encoder writes in full *)
Definition OffsetFetchRequest_fits (m : OffsetFetchRequest) : Prop :=
  let fl := pb_is_flexible m in
  0 <= orq_version m <= 7 /\ string_ok fl (orq_consumer_group m) /\
  array_fits fl (pair_ok (string_ok fl) (int32s_ok fl)) (orq_partitions m) /\ map_sorted (orq_partitions m) /\
  ((7 <=? orq_version m) = false -> orq_require_stable m = false).
#[export] Instance OffsetFetchRequest_fits_dec m : Decision (OffsetFetchRequest_fits m).
Proof. unfold OffsetFetchRequest_fits. cbv zeta. apply _. Defined.
(** All the partitions, no entry, can be asked for in the flexible versions only. *)
Definition OffsetFetchRequest_ok (m : OffsetFetchRequest) : Prop :=
  OffsetFetchRequest_fits m /\ (orq_version m < 6 -> Zlen (orq_partitions m) <> 0).
#[export] Instance OffsetFetchRequest_ok_dec m : Decision (OffsetFetchRequest_ok m).
Proof. unfold OffsetFetchRequest_ok. cbv zeta. apply _. Defined.
Definition OffsetFetchRequest_initial (v : Z) : OffsetFetchRequest :=
  mkOffsetFetchRequest v [] false [].
#[export] Hint Unfold OffsetFetchRequest_encode OffsetFetchRequest_decode OffsetFetchRequest_wire OffsetFetchRequest_ok OffsetFetchRequest_initial : message.

Lemma emits_tags_if fl : emits fl (whenU fl putEmptyTaggedFieldArray) tt (w_tags fl).
Proof. destruct fl; [apply emits_putEmptyTaggedFieldArray|apply emits_ret]. Qed.
Lemma OffsetFetchRequest_writes m :
  OffsetFetchRequest_fits m -> emits (pb_is_flexible m) (pb_encode m) 0 (OffsetFetchRequest_wire m).
Proof.
  destruct m as [v g st ps]. unfold OffsetFetchRequest_fits. cbn. intros (Hv & Hg & Hl & _ & Hst).
  unfold OffsetFetchRequest_encode, OffsetFetchRequest_wire. cbn. replace ((v <? 0) || (7 <? v)) with false by lia.
  eapply emits_seq; [by apply emits_putString|]. eapply emits_seq.
  { destruct (_ && _); [apply emits_null_length|by eapply emits_array_length]. }
  eapply emits_seq.
  { eapply emits_do_pairs; [exact Hl|]. cbn [fst snd]. intros t l Ht Hp.
    eapply emits_seq; [by apply emits_putString|]. eapply emits_seq; [by apply emits_putInt32Array_ok|].
    eapply emits_then, emits_tags_if. }
  replace (st && (v <? 7)) with false by (destruct (7 <=? v) eqn:E; [destruct st; cbn; lia|by rewrite Hst]).
  eapply emits_seq; [apply emits_whenU; intros _; apply emits_putBool|].
  eapply emits_then, emits_tags_if.
Qed.
Lemma OffsetFetchRequest_emits m :
  OffsetFetchRequest_ok m -> emits (pb_is_flexible m) (pb_encode m) 0 (OffsetFetchRequest_wire m).
Proof. intros [Hm _]. by apply OffsetFetchRequest_writes. Qed.
Lemma OffsetFetchRequest_consumes m :
  OffsetFetchRequest_ok m ->
  consumes (pb_is_flexible m) (pb_decode (OffsetFetchRequest_initial (pb_version m)) (pb_version m)) (Ok m) (OffsetFetchRequest_wire m).
Proof.
  destruct m as [v g st ps]. unfold OffsetFetchRequest_ok, OffsetFetchRequest_fits. cbn.
  intros [(Hv & Hg & Hl & Hs & Hst) Hne]. unfold OffsetFetchRequest_decode, OffsetFetchRequest_wire. cbn.
  set (fl := OffsetFetchRequest_is_flexible_version v) in *.
  eapply consumes_let; [consume_steps|].
  eapply (consumes_let _ _ _ (Zlen ps)).
  { destruct ((Zlen ps =? 0) && (2 <=? v)) eqn:E; [|by eapply consumes_array_length].
    replace (Zlen ps) with (if fl then 0 else -1); [apply consumes_null_length|].
    subst fl. unfold OffsetFetchRequest_is_flexible_version. destruct (6 <=? v) eqn:Ev; lia. }
  pose proof (Zlen_nonneg ps).
  replace (_ || _) with false by (symmetry; apply orb_false_iff; split; [apply andb_false_iff|]; lia).
  eapply consumes_let; [solve [eauto with consume]|].
  eapply consumes_let; [consume_steps|]. consume_steps.
Qed.
#[export] Instance OffsetFetchRequest_format : WireFormat OffsetFetchRequest := {
  wire := OffsetFetchRequest_wire;
  wire_ok := OffsetFetchRequest_ok;
  wire_initial := OffsetFetchRequest_initial;
  wire_flexible _ _ := eq_refl;
  wire_encode := OffsetFetchRequest_emits;
  wire_decode := OffsetFetchRequest_consumes;
}.
(* coev_kafka/offset_fetch_request.cpp OffsetFetchRequest::set_version *)
Definition OffsetFetchRequest_set_version (m : OffsetFetchRequest) (v : Z) : OffsetFetchRequest :=
  mkOffsetFetchRequest v (orq_consumer_group m) (orq_require_stable m) (orq_partitions m).
#[export] Instance OffsetFetchRequest_versioned : Versioned OffsetFetchRequest := { set_version := OffsetFetchRequest_set_version }.
#[export] Instance OffsetFetchRequest_laws : VersionLaws OffsetFetchRequest.
Proof. version_laws. Qed.

