(* ===== verification/Requests.v ===== *)
(** * Request frames and response headers

    [coev_kafka/request.cpp]: a request is its length, the header fields and the
    body; [coev_kafka/response_header.cpp]: what precedes a response's body. *)
From Stdlib Require Import ZArith Lia Bool.
From stdpp Require Import base tactics list numbers sets.
From S2P Require Import Prelude Errors Wire Crc Fields Encoder Decoder Codec CodecEnc CodecDec.
From S2P Require Import EncoderDecoder GroupMessages.

(** ** Requests *)

(* coev_kafka/request.h:24-33 Request *)
Record Request (T : Type) := mkRequest {
  rq_correlation_id : Z; rq_client_id : list Z; rq_body : T }.
Arguments mkRequest {T}.
Arguments rq_correlation_id {T}.
Arguments rq_client_id {T}.
Arguments rq_body {T}.

Section Request.
Context {T : Type} `{protocol_body T}.

(** The length is filled in by the last [pop], inside the flexible context when
    the body is flexible. *)
(* coev_kafka/request.cpp:18-63 Request::encode *)
Definition Request_encode (r : Request T) : PE Z :=
  let body := rq_body r in
  push (FLength LengthField_default) ;;;
  putInt16 (pb_key body) ;;;
  putInt16 (pb_version body) ;;;
  putInt32 (rq_correlation_id r) ;;;
  let is_flexible := pb_is_flexible_version body (pb_version body) in
  whenU (1 <=? pb_header_version body)
    (putInt16 (to_i16 (Zlen (rq_client_id r))) ;;; putRawBytes (rq_client_id r) ;;; ret tt) ;;;
  whenU (2 <=? pb_header_version body) (putUVarint 0) ;;;
  if is_flexible then
    pe_push_flexible ;;;
    let* err := (let* err := pb_encode body in if negb (err =? 0) then ret err else pop) in
    pe_pop_flexible ;;;
    ret err
  else
    let* err := pb_encode body in if negb (err =? 0) then ret err else pop.

(* coev_kafka/request.cpp Request::is_flexible *)
Definition Request_is_flexible (r : Request T) : bool := pb_is_flexible (rq_body r).

(** What follows the length *)
Definition Request_payload (w : T -> list Z) (r : Request T) : list Z :=
  be 2 (pb_key (rq_body r)) ++ be 2 (pb_version (rq_body r)) ++ be 4 (rq_correlation_id r) ++
  w_when (1 <=? pb_header_version (rq_body r)) (be 2 (Zlen (rq_client_id r)) ++ rq_client_id r) ++
  w_when (2 <=? pb_header_version (rq_body r)) (w_uvarint 0) ++
  w (rq_body r).
Definition Request_frame (w : T -> list Z) (r : Request T) : list Z :=
  be 4 (Zlen (Request_payload w r)) ++ Request_payload w r.

(** ** The frame

    The code pops the length inside the flexible context; popping it after gives
    the same run, and that order is the bracket [emits_field] describes. *)
Definition request_head (r : Request T) : PE unit :=
  let body := rq_body r in
  putInt16 (pb_key body) ;;;
  putInt16 (pb_version body) ;;;
  putInt32 (rq_correlation_id r) ;;;
  whenU (1 <=? pb_header_version body)
    (putInt16 (to_i16 (Zlen (rq_client_id r))) ;;; putRawBytes (rq_client_id r) ;;; ret tt) ;;;
  whenU (2 <=? pb_header_version body) (putUVarint 0).
Definition request_body (r : Request T) : PE Z :=
  let body := rq_body r in
  if pb_is_flexible_version body (pb_version body)
  then flexible_encode (pb_encode body) else pb_encode body.
Definition pop_or (err : Z) : PE Z := if negb (err =? 0) then ret err else pop.

Lemma bind_ext {S A B} (m : M S A) (k k' : A -> M S B) s :
  (forall a s', k a s' = k' a s') -> bind m k s = bind m k' s.
Proof. unfold bind. intros E. destruct (m s); [apply E|done]. Qed.

Lemma bind_mono {S A B} (m : M S A) (k k' : A -> M S B) s v s' :
  (forall a s1, k a s1 = Done v s' -> k' a s1 = Done v s') ->
  bind m k s = Done v s' -> bind m k' s = Done v s'.
Proof. unfold bind. intros E. destruct (m s); [apply E|done]. Qed.

Lemma pop_set_flexible f s :
  pop (set_pe_flexible f s) =
  match pop s with Done c s' => Done c (set_pe_flexible f s') | Fault x => Fault x end.
Proof.
  unfold pop, popField, bind, ret, by_type. destruct s as [ty off st raw fl]; cbn.
  destruct ty; [done| |].
  - destruct st as [|[g|g|g] st]; cbn; [done..| |done].
    by destruct (VariantLengthField_adjust_length g (to_i32 off)) as [[adj g']|].
  - destruct st as [|g st]; cbn; [done|]. by destruct (run g (to_i32 off) raw).
Qed.
Lemma pop_flexible_kept s c s' : pop s = Done c s' -> pe_flexible s' = pe_flexible s.
Proof.
  unfold pop, popField, bind, ret, by_type. destruct s as [ty off st raw fl]; cbn.
  destruct ty; [done| |].
  - destruct st as [|[g|g|g] st]; cbn; try (by intros [= <- <-]).
    destruct (VariantLengthField_adjust_length g (to_i32 off)) as [[adj g']|]; cbn; [|done].
    by intros [= <- <-].
  - destruct st as [|g st]; cbn; [by intros [= <- <-]|].
    destruct (run g (to_i32 off) raw); cbn; [|done]. by intros [= <- <-].
Qed.

Lemma flexible_pop_inside (e : PE Z) s v s' :
  bind (flexible_encode e) pop_or s = Done v s' ->
  (pe_push_flexible ;;; let* err := bind e pop_or in pe_pop_flexible ;;; ret err) s = Done v s'.
Proof.
  unfold flexible_encode, bind, pe_push_flexible, modify, pe_pop_flexible, ret.
  destruct (e _) as [x s2|]; [|done]. destruct (0 <? pe_flexible s2) eqn:Hf; [|done].
  unfold pop_or. destruct (negb (x =? 0)); cbn.
  - unfold ret. by rewrite Hf.
  - rewrite pop_set_flexible. destruct (pop s2) as [c s3|] eqn:Hp; [|done].
    by rewrite (pop_flexible_kept _ _ _ Hp), Hf.
Qed.

Lemma Request_encode_refines r s v s' :
  (push (FLength LengthField_default) ;;;
   bind (request_head r ;;; request_body r) pop_or) s = Done v s' ->
  Request_encode r s = Done v s'.
Proof.
  unfold Request_encode. intros E.
  assert ((push (FLength LengthField_default) ;;; request_head r ;;; bind (request_body r) pop_or) s
          = Done v s') as E'.
  { rewrite <- E. apply bind_ext. intros _ s1. by rewrite bind_assoc. }
  clear E. revert E'. unfold bind at 1. intros E. unfold bind at 1.
  destruct (push _ s) as [[] s0|]; [|done].
  rewrite <- (bind_assoc _ _ _ s0) in E.
  assert (forall k : PE Z, (request_head r ;;; k) s0 =
    (putInt16 (pb_key (rq_body r)) ;;; putInt16 (pb_version (rq_body r)) ;;;
     putInt32 (rq_correlation_id r) ;;;
     whenU (1 <=? pb_header_version (rq_body r))
       (putInt16 (to_i16 (Zlen (rq_client_id r))) ;;; putRawBytes (rq_client_id r) ;;; ret tt) ;;;
     whenU (2 <=? pb_header_version (rq_body r)) (putUVarint 0) ;;; k) s0) as Hhead.
  { intros k. unfold request_head. rewrite bind_assoc. apply bind_ext. intros _ s1.
    rewrite bind_assoc. apply bind_ext. intros _ s2. rewrite bind_assoc. apply bind_ext. intros _ s3.
    rewrite bind_assoc. apply bind_ext. by intros _ s4. }
  rewrite bind_assoc in E. rewrite <- Hhead. revert E. apply bind_mono. intros _ s1.
  unfold request_body. destruct (pb_is_flexible_version _ _); [apply flexible_pop_inside|exact (fun E => E)].
Qed.

Lemma request_puts_emits r w :
  pb_is_flexible_version (rq_body r) (pb_version (rq_body r)) = pb_is_flexible (rq_body r) ->
  emits (pb_is_flexible (rq_body r)) (pb_encode (rq_body r)) 0 (w (rq_body r)) ->
  Zlen (rq_client_id r) <= INT16_MAX ->
  emits false (request_head r ;;; request_body r) 0 (Request_payload w r).
Proof.
  intros Hfl Hb Hc. pose proof (Zlen_nonneg (rq_client_id r)).
  unfold request_head, request_body, Request_payload, INT16_MAX in *.
  rewrite !app_assoc. eapply emits_seq; [|rewrite Hfl; by apply flexible_encode_emits].
  rewrite <- !app_assoc. do 3 (eapply emits_seq; [emit_steps|]).
  eapply emits_seq; [|apply emits_whenU; intros _; by apply emits_putUVarint].
  apply emits_whenU. intros _.
  rewrite to_s_id by (unfold in_s; change (2 ^ (16 - 1)) with 32768; lia).
  eapply emits_seq; [emit_steps|]. eapply emits_then, emits_putRawBytes. unfold bytes_ok, INT32_MAX. lia.
Qed.

Lemma Request_emits r w :
  pb_is_flexible_version (rq_body r) (pb_version (rq_body r)) = pb_is_flexible (rq_body r) ->
  emits (pb_is_flexible (rq_body r)) (pb_encode (rq_body r)) 0 (w (rq_body r)) ->
  Zlen (rq_client_id r) <= INT16_MAX ->
  emits false (Request_encode r) 0 (Request_frame w r).
Proof.
  intros Hfl Hb Hc. eapply emits_refine; [apply Request_encode_refines|].
  eapply emits_as; [eapply (emits_field _ _ _ _ 0 ret); [done|by apply request_puts_emits| |apply emits_ret]|].
  - intros s. unfold pop_or; cbn. unfold bind, ret. by destruct (pop s).
  - by rewrite app_nil_r.
Qed.
End Request.

(** C14: A request frame: [encode] of a request with a well-formed body appends the
    four-byte length of all that follows, then the key, the version, the correlation
    id, the client id and the empty tag section as the header version asks, then the
    body's wire form, for every message that satisfies the contract. *)
Theorem Request_frame_correct {T} `{WireFormat T} (r : Request T) out :
  wire_ok (rq_body r) -> Zlen (rq_client_id r) <= INT16_MAX ->
  Zlen (Request_frame wire r) <= MaxRequestSize ->
  encode_object (fun r => let* x := Request_encode r in ret (x, r)) r out =
    Done (ErrNoError, out ++ be 4 (Zlen (Request_payload wire r)) ++ Request_payload wire r) r /\
  be_val (take 4 (Request_frame wire r)) = Zlen (Request_frame wire r) - 4.
Proof.
  intros Hb Hc Hl. split.
  - apply encode_object_emits; [|done].
    eapply emits_as; [eapply emits_bind; [|apply emits_ret]|apply app_nil_r].
    apply (Request_emits r wire); [apply wire_flexible|by apply wire_encode|done].
  - unfold Request_frame. rewrite take_app_le by by rewrite length_be.
    rewrite take_ge by by rewrite length_be. rewrite Zlen_app, Zlen_be.
    pose proof (Zlen_nonneg (Request_payload wire r)).
    unfold Request_frame in Hl. rewrite Zlen_app, Zlen_be in Hl. unfold MaxRequestSize in Hl.
    rewrite be_val_be. rewrite Z.mod_small; lia.
Qed.
Definition example_request : Request HeartbeatRequest :=
  mkRequest 77 [99; 108; 105] (mkHeartbeatRequest 4 [103] 5 [109] []).
Example Request_frame_correct_witness :
  Request_frame wire example_request =
    [0; 0; 0; 24; 0; 12; 0; 4; 0; 0; 0; 77; 0; 3; 99; 108; 105; 0; 2; 103; 0; 0; 0; 5; 2; 109; 0; 0] /\
  forall out, encode_object (fun r => let* x := Request_encode r in ret (x, r)) example_request out =
    Done (ErrNoError, out ++ be 4 (Zlen (Request_payload wire example_request)) ++
                      Request_payload wire example_request) example_request.
Proof.
  split; [by vm_compute|]. intros out.
  apply (Request_frame_correct example_request out); [|by vm_compute..].
  by apply (bool_decide_unpack _); vm_compute.
Defined.

(** ** Response headers *)

(* coev_kafka/response_header.cpp:14-34 decode *)
Definition header_fields : PD (Z * Z) :=
  let! length := getInt32 in
  if (length <=? 4) || (MaxResponseSize <? length) then err (-1)
  else
    let! correlationID := getInt32 in
    let! _t := getEmptyTaggedFieldArray in
    ok (length, correlationID).
(** [m_length] and [m_correlation_id]; the cast of the decoder's address is never null. *)
(* coev_kafka/response_header.cpp ResponseHeader::decode *)
Definition ResponseHeader_decode (version : Z) : PD (Z * Z) :=
  if 1 <=? version then flexible_decode header_fields else header_fields.

Definition header_wire (version length correlation_id : Z) : list Z :=
  be 4 length ++ be 4 correlation_id ++ w_tags (1 <=? version).

Lemma header_fields_consumes fl length correlation_id :
  4 < length <= MaxResponseSize -> in_s 32 correlation_id ->
  consumes fl header_fields (Ok (length, correlation_id)) (be 4 length ++ be 4 correlation_id ++ w_tags fl).
Proof.
  unfold MaxResponseSize. intros Hl Hc. unfold header_fields. eapply consumes_let.
  { apply consumes_getInt32. unfold in_s. change (2 ^ (32 - 1)) with 2147483648. lia. }
  replace (length <=? 4) with false by lia. unfold MaxResponseSize.
  replace (_ <? length) with false by lia. cbn [orb]. consume_steps.
Qed.

Lemma header_fields_refuses fl length body d :
  ~ (4 < length <= MaxResponseSize) -> in_s 32 length -> pd_ok d -> ctx fl (pd_flexible d) ->
  rest d = be 4 length ++ body -> header_fields d = Done (Err (-1)) (advance 4 d).
Proof.
  intros Hn Hl Hok Hc Hr. unfold header_fields. unfold bind at 1.
  rewrite (consumes_getInt32 fl length Hl d body Hok Hc Hr). rewrite Zlen_be.
  replace ((length <=? 4) || (MaxResponseSize <? length)) with true; [done|].
  symmetry. apply orb_true_iff. lia.
Qed.

Lemma ResponseHeader_consumes version length correlation_id :
  4 < length <= MaxResponseSize -> in_s 32 correlation_id ->
  consumes false (ResponseHeader_decode version) (Ok (length, correlation_id))
    (header_wire version length correlation_id).
Proof.
  intros Hl Hc. unfold ResponseHeader_decode, header_wire. apply flexible_decode_consumes.
  by apply header_fields_consumes.
Qed.

Lemma new_decoder_ok bs : Zlen bs < LIMIT -> pd_ok (new_decoder bs).
Proof. intros. pose proof (Zlen_nonneg bs). split; cbn; lia. Qed.

(** A response header: on input that starts with a length between 5 and the limit,
    a correlation id and, from header version 1 on, an empty tag section, [decode]
    returns the two numbers and leaves the reader at the body, in the fixed context;
    any other length is refused with -1, in either header version. *)
Theorem ResponseHeader_decode_correct version length correlation_id body :
  in_s 32 length -> in_s 32 correlation_id ->
  Zlen (header_wire version length correlation_id ++ body) < LIMIT ->
  (4 < length <= MaxResponseSize ->
   exists d, ResponseHeader_decode version (new_decoder (header_wire version length correlation_id ++ body)) =
     Done (Ok (length, correlation_id)) d /\ rest d = body /\ pd_flexible d = 0) /\
  (~ (4 < length <= MaxResponseSize) ->
   exists d, ResponseHeader_decode version (new_decoder (header_wire version length correlation_id ++ body)) =
     Done (Err (-1)) d).
Proof.
  intros Hl Hc Hs. pose proof (new_decoder_ok _ Hs) as Hok. split; intros Hr.
  - eexists. split_and!.
    + by apply (ResponseHeader_consumes version length correlation_id Hr Hc _ body Hok).
    + by apply rest_advance.
    + done.
  - unfold ResponseHeader_decode. destruct (1 <=? version) eqn:E.
    + eexists. unfold flexible_decode, bind, pd_push_flexible, modify, pd_pop_flexible, ret.
      erewrite (header_fields_refuses true _ (be 4 correlation_id ++ w_tags true ++ body)); cbn; try done.
      unfold header_wire. rewrite E. unfold rest; cbn. by rewrite <- !app_assoc.
    + eexists. erewrite (header_fields_refuses false _ (be 4 correlation_id ++ w_tags false ++ body)); try done.
      unfold header_wire. rewrite E. unfold rest; cbn. by rewrite <- !app_assoc.
Qed.
Example ResponseHeader_decode_correct_witness :
  (exists d, ResponseHeader_decode 1 (new_decoder (header_wire 1 20 7 ++ [1; 2])) = Done (Ok (20, 7)) d /\
     rest d = [1; 2] /\ pd_flexible d = 0) /\
  (exists d, ResponseHeader_decode 1 (new_decoder (header_wire 1 4 7 ++ [1; 2])) = Done (Err (-1)) d).
Proof.
  split; apply ResponseHeader_decode_correct;
    first [by apply (bool_decide_unpack _); vm_compute | unfold MaxResponseSize; lia].
Defined.
