(* ===== verification/Records.v ===== *)
(** * Records, control records and timestamps

    [coev_kafka/record.cpp], [timestamp.cpp], [control_record.cpp] and the record
    loops of [record_batch.cpp].  A record is preceded by its length as a varint,
    which is put on the encoder's stack and filled in when the body is known. *)
From Stdlib Require Import ZArith Lia Bool.
From stdpp Require Import base tactics list numbers sets.
From S2P Require Import Prelude Errors Wire Crc Fields Encoder Decoder Codec CodecEnc CodecDec.
From S2P Require Import EncoderDecoder.

(** ** Records *)

(* coev_kafka/record_header.h:14-23 RecordHeader *)
Record RecordHeader := mkRecordHeader { rh_key : list Z; rh_value : list Z }.

(* coev_kafka/record.cpp RecordHeader::encode *)
Definition RecordHeader_encode (h : RecordHeader) : PE Z :=
  let* e := putVariantBytes (rh_key h) in if negb (e =? 0) then ret (-1) else
  let* e := putVariantBytes (rh_value h) in if negb (e =? 0) then ret (-1) else
  ret 0.
(** [if (pd.get(member) != 0) return -1; ...]: the object is decoded in place, and an error
    leaves it as [failed]. *)
Definition or_return {A O} (g : PD A) (failed : O) (k : A -> M packet_decoder (Z * O)) : M packet_decoder (Z * O) :=
  let* x := g in match x with Ok v => k v | Err _ => ret (-1, failed) end.
(** [v.resize(n)] *)
Definition resize_list {A} (fresh : A) (n : Z) (l : list A) : list A :=
  take (Z.to_nat n) l ++ replicate (Z.to_nat n - length l) fresh.

(** The code, and the header the object holds then *)
(* coev_kafka/record.cpp RecordHeader::decode *)
Definition RecordHeader_decode (old : RecordHeader) : M packet_decoder (Z * RecordHeader) :=
  or_return getVariantBytes old (fun k =>
  or_return getVariantBytes (mkRecordHeader k (rh_value old)) (fun v =>
  ret (0, mkRecordHeader k v))).

(* coev_kafka/record.h:23-37 Record *)
Record record := mkRecord {
  r_headers : list RecordHeader;
  r_attributes : Z;
  r_timestamp_delta : Z; (* milliseconds *)
  r_offset_delta : Z;
  r_key : list Z;
  r_value : list Z;
  r_length : VariantLengthField;
}.
Definition with_length (f : VariantLengthField) (r : record) : record :=
  mkRecord (r_headers r) (r_attributes r) (r_timestamp_delta r) (r_offset_delta r)
    (r_key r) (r_value r) f.

(** What [Record::encode] does between its [push] and its [pop] *)
(* coev_kafka/record.cpp:42-65 Record::encode *)
Definition record_puts (r : record) : PE Z :=
  putInt8 (r_attributes r) ;;;
  putVariant (r_timestamp_delta r) ;;;
  putVariant (r_offset_delta r) ;;;
  let* e := putVariantBytes (r_key r) in if negb (e =? 0) then ret (-1) else
  let* e := putVariantBytes (r_value r) in if negb (e =? 0) then ret (-1) else
  putVariant (to_i64 (Zlen (r_headers r))) ;;;
  for_try (r_headers r) (fun h =>
    let* e := RecordHeader_encode h in if negb (e =? 0) then ret (-1) else ret 0).

(** The [mutable] length field of the record is the object on the stack: its
    state at a return is the record's. *)
Definition field_on_top (s : packet_encoder) : option push_field := head (m_stack s).
Definition length_of_field (f : option push_field) (old : VariantLengthField) : VariantLengthField :=
  match f with Some (FVariantLength f) => f | _ => old end.
(* coev_kafka/record.cpp Record::encode *)
Definition Record_encode (r : record) : PE (Z * record) :=
  push (FVariantLength (r_length r)) ;;;
  let* e := record_puts r in
  if negb (e =? 0) then
    let* f := gets field_on_top in
    ret (-1, with_length (length_of_field f (r_length r)) r)
  else
    let* x := popField in
    ret (fst x, with_length (length_of_field (snd x) (r_length r)) r).

(** [for (i = 0; i < numHeaders; ++i) if (m_headers[i].decode(pd) != 0) return -1;] *)
(* coev_kafka/record.cpp:109-116 Record::decode *)
Fixpoint decode_headers (headers : list RecordHeader) : M packet_decoder (Z * list RecordHeader) :=
  match headers with
  | [] => ret (0, [])
  | h :: headers' =>
      let* x := RecordHeader_decode h in
      if negb (fst x =? 0) then ret (-1, snd x :: headers')
      else let* y := decode_headers headers' in ret (fst y, snd x :: snd y)
  end.
(** What [Record::decode] does between its [push] and its [pop]: the code, and the record
    as it is then.  An integer that cannot be read is stored as -1; the timestamp is read
    into a local variable. *)
(* coev_kafka/record.cpp:77-119 Record::decode *)
Definition record_gets (r : record) : M packet_decoder (Z * record) :=
  let set attributes timestamp offset_delta key value headers :=
    mkRecord headers attributes timestamp offset_delta key value (r_length r) in
  let t := r_timestamp_delta r in let o := r_offset_delta r in
  let k := r_key r in let v := r_value r in let hs := r_headers r in
  or_return getInt8 (set (-1) t o k v hs) (fun a =>
  or_return getVariant (set a t o k v hs) (fun t =>
  or_return getVariant (set a t (-1) k v hs) (fun o =>
  or_return getVariantBytes (set a t o k v hs) (fun k =>
  or_return getVariantBytes (set a t o k v hs) (fun v =>
  or_return getVariant (set a t o k v hs) (fun numHeaders =>
  if 0 <=? numHeaders then
    let* x := decode_headers (resize_list (mkRecordHeader [] []) numHeaders hs) in
    ret (fst x, set a t o k v (snd x))
  else ret (0, set a t o k v hs))))))).
(** The length field is on the stack from the [push] on: its state at a return is the
    record's.  A field that is not popped stays on the stack. *)
Definition decoded_field (d : packet_decoder) : option push_field := head (pd_stack d).
(** The code, and the record the object holds then *)
(* coev_kafka/record.cpp Record::decode *)
Definition Record_decode (old : record) : M packet_decoder (Z * record) :=
  let* start := gets pd_offset in
  let old := with_length (mkVariantLengthField start (vl_length (r_length old))) old in
  or_return (pd_push (FVariantLength (r_length old))) old (fun _ =>
  let* x := record_gets old in
  let* f := gets decoded_field in
  let r := with_length (length_of_field f (r_length old)) (snd x) in
  if negb (fst x =? 0) then ret (-1, r)
  else
    let* popped := pd_pop in
    ret (match popped with Ok _ => 0 | Err e => e end, r)).

(** The loop over a batch's records: the result of [encode] is dropped. *)
(* coev_kafka/record_batch.cpp:113-117 RecordBatch::encode *)
Fixpoint encode_records_raw (rs : list record) (raw : list Z) : outcome unit (list record * list Z) :=
  match rs with
  | [] => Done ([], raw) tt
  | r :: rs' =>
      match encode_object Record_encode r raw with
      | Fault f => Fault f
      | Done (_, raw') r' =>
          match encode_records_raw rs' raw' with
          | Fault f => Fault f
          | Done (l, raw'') _ => Done (r' :: l, raw'') tt
          end
      end
  end.

(** The records are decoded in place, up to the first that is refused. *)
(* coev_kafka/record_batch.cpp:27-33 decode *)
Fixpoint decode_each (inputs : list record) : M packet_decoder (Z * list record) :=
  match inputs with
  | [] => ret (ErrNoError, [])
  | r :: inputs' =>
      let* x := Record_decode r in
      if negb (fst x =? ErrNoError) then ret (ErrDecodeError, snd x :: inputs')
      else let* y := decode_each inputs' in ret (fst y, snd x :: snd y)
  end.
(** The code, and the records then; bytes left over are an exception. *)
(* coev_kafka/record_batch.cpp decode *)
Definition decode_records (buf : list Z) (inputs : list record) : outcome packet_decoder (Z * list record) :=
  if empty buf then Done (ErrNoError, inputs) (new_decoder buf)
  else
    match decode_each inputs (new_decoder buf) with
    | Fault f => Fault f
    | Done (e, l) helper =>
        if negb (e =? ErrNoError) then Done (e, l) helper
        else if negb (pd_offset helper =? to_i32 (Zlen buf)) then Fault FThrow
        else Done (e, l) helper
    end.

(** ** The wire form of a record *)

Definition header_bytes (h : RecordHeader) : list Z := w_varint_bytes (rh_key h) ++ w_varint_bytes (rh_value h).
Definition record_body (r : record) : list Z :=
  be 1 (r_attributes r) ++ w_varint (r_timestamp_delta r) ++ w_varint (r_offset_delta r) ++
  w_varint_bytes (r_key r) ++ w_varint_bytes (r_value r) ++
  w_varint (Zlen (r_headers r)) ++ w_list header_bytes (r_headers r).
(** What the protocol asks for: the length as a varint, then the body *)
Definition record_wire (r : record) : list Z := w_varint (Zlen (record_body r)) ++ record_body r.
(** What the encoder writes: the reserved length can be one byte short, and the
    varint is then stored over the first byte of the body. *)
Definition record_written (r : record) : list Z :=
  let v := w_varint (Zlen (record_body r)) in
  v ++ drop (Z.to_nat (Zlen v - varintLen (Zlen (record_body r)))) (record_body r).
Definition record_length (o : Z) (r : record) : VariantLengthField :=
  mkVariantLengthField o (Zlen (record_body r)).

(** A number the sizing pass counts right and the decoder takes back *)
Definition varint_ok (x : Z) : Prop := varint_decodable x /\ varint_sized x = true.
Definition varint_bytes_ok (s : list Z) : Prop := bytes_ok s /\ varint_sized (Zlen s) = true.
Definition header_ok (h : RecordHeader) : Prop :=
  varint_bytes_ok (rh_key h) /\ varint_bytes_ok (rh_value h).
Definition record_ok (r : record) : Prop :=
  in_s 8 (r_attributes r) /\ varint_ok (r_timestamp_delta r) /\ varint_ok (r_offset_delta r) /\
  varint_bytes_ok (r_key r) /\ varint_bytes_ok (r_value r) /\
  varint_ok (Zlen (r_headers r)) /\ Forall header_ok (r_headers r) /\
  0 <= vl_length (r_length r) < 2 ^ 63 /\ Zlen (record_body r) <= MaxRequestSize - 11.
(** The length's varint fits the bytes reserved for it. *)
Definition length_fits (r : record) : bool := varint_sized (Zlen (record_body r)).

#[export] Instance varint_ok_dec x : Decision (varint_ok x).
Proof. unfold varint_ok, varint_decodable. apply _. Defined.
#[export] Instance varint_bytes_ok_dec s : Decision (varint_bytes_ok s).
Proof. unfold varint_bytes_ok. apply _. Defined.
#[export] Instance header_ok_dec h : Decision (header_ok h).
Proof. unfold header_ok. apply _. Defined.
#[export] Instance record_ok_dec r : Decision (record_ok r).
Proof. unfold record_ok, in_s. apply _. Defined.

(** ** Both passes over the body *)

Lemma emits_check_any fl c c' (e k : PE Z) w b1 b2 :
  c' = 0 -> emits fl e 0 b1 -> emits fl k w b2 ->
  emits fl (let* r := e in if negb (r =? c') then ret c else k) w (b1 ++ b2).
Proof. intros -> H1 H2. eapply emits_bind; [exact H1|]. done. Qed.

Lemma varint_ok_emits fl x : varint_ok x -> emits fl (putVariant x) tt (w_varint x).
Proof. intros [Hd Hs]. apply emits_putVariant; [by apply decodable_in_s|done]. Qed.
Lemma varint_ok_consumes fl x : varint_ok x -> consumes fl getVariant (Ok x) (w_varint x).
Proof. intros [Hd Hs]. by apply consumes_getVariant. Qed.
Lemma varint_bytes_emits fl s : varint_bytes_ok s -> emits fl (putVariantBytes s) 0 (w_varint_bytes s).
Proof. intros []. by apply emits_putVariantBytes. Qed.
Lemma varint_bytes_consumes fl s : varint_bytes_ok s -> consumes fl getVariantBytes (Ok s) (w_varint_bytes s).
Proof. intros []. by apply consumes_getVariantBytes. Qed.
#[export] Hint Resolve varint_ok_emits varint_bytes_emits : emit.
#[export] Hint Resolve varint_ok_consumes varint_bytes_consumes : consume.

Lemma RecordHeader_emits fl h : header_ok h -> emits fl (RecordHeader_encode h) 0 (header_bytes h).
Proof.
  intros []. unfold RecordHeader_encode, header_bytes.
  eapply emits_check_any; [done|eauto with emit|].
  eapply emits_as; [eapply emits_check_any; [done|eauto with emit|apply emits_ret]|apply app_nil_r].
Qed.
Lemma consumes_or_return {A O} fl (g : PD A) (failed : O) (k : A -> M packet_decoder (Z * O)) v w b1 b2 :
  consumes fl g (Ok v) b1 -> consumes fl (k v) w b2 -> consumes fl (or_return g failed k) w (b1 ++ b2).
Proof. intros H1 H2. eapply consumes_bind; [exact H1|exact H2]. Qed.
Lemma RecordHeader_consumes fl old h : header_ok h -> consumes fl (RecordHeader_decode old) (0, h) (header_bytes h).
Proof.
  intros []. destruct h as [k v]. unfold RecordHeader_decode, header_bytes; cbn in *.
  eapply consumes_or_return; [eauto with consume|].
  eapply consumes_as; [eapply consumes_or_return; [eauto with consume|apply consumes_ret]|apply app_nil_r].
Qed.
Lemma headers_consume fl hs : forall olds,
  Forall header_ok hs -> length olds = length hs -> consumes fl (decode_headers olds) (0, hs) (w_list header_bytes hs).
Proof.
  induction hs as [|h hs IH]; intros [|old olds] Hh Hl; try done; [apply consumes_ret|].
  apply Forall_cons in Hh as [Hh Hhs]. injection Hl as Hl. cbn [decode_headers].
  eapply consumes_bind; [by apply RecordHeader_consumes|]. cbn [fst snd]. change (negb (0 =? 0)) with false. cbn iota.
  eapply consumes_as; [eapply consumes_bind; [by apply IH|apply consumes_ret]|apply app_nil_r].
Qed.

Lemma record_puts_emits fl r : record_ok r -> emits fl (record_puts r) 0 (record_body r).
Proof.
  intros (Ha & Ht & Ho & Hk & Hv & Hn & Hh & _ & _). unfold record_puts, record_body.
  eapply emits_seq; [eauto with emit|]. eapply emits_seq; [eauto with emit|].
  eapply emits_seq; [eauto with emit|].
  eapply emits_check_any; [done|eauto with emit|]. eapply emits_check_any; [done|eauto with emit|].
  rewrite to_s_id; [|lia|apply decodable_in_s, Hn].
  eapply emits_seq; [eauto with emit|]. apply emits_for_try. intros h Hin.
  rewrite Forall_forall in Hh.
  eapply emits_as; [eapply emits_check_any; [done|by apply RecordHeader_emits, Hh|apply emits_ret]|apply app_nil_r].
Qed.

Lemma length_resize_list {A} (fresh : A) n l : length (resize_list fresh n l) = Z.to_nat n.
Proof. unfold resize_list. rewrite length_app, length_take, length_replicate. lia. Qed.
Lemma record_gets_consumes fl old r :
  record_ok r -> consumes fl (record_gets old) (0, with_length (r_length old) r) (record_body r).
Proof.
  intros (Ha & Ht & Ho & Hk & Hv & Hn & Hh & _ & _). unfold record_gets, record_body.
  do 6 (eapply consumes_or_return; [eauto with consume|]).
  pose proof (Zlen_nonneg (r_headers r)). replace (0 <=? Zlen (r_headers r)) with true by lia.
  eapply consumes_as; [eapply consumes_bind|apply app_nil_r].
  - apply headers_consume; [done|]. rewrite length_resize_list. apply Nat2Z.id.
  - apply consumes_ret.
Qed.

(** ** The reserved length *)

Lemma variantSize_loop_spec fuel x s :
  0 <= x < 2 ^ (7 * Z.of_nat fuel) -> (0 < fuel)%nat ->
  variantSize_loop fuel x s = Some (s + varintLen_loop fuel x 0 + 1).
Proof.
  revert x s. induction fuel as [|fuel IH]; intros x s Hx Hf; [lia|].
  cbn [variantSize_loop]. rewrite varintLen_loop_S.
  replace (x <? -64) with false by lia. rewrite orb_false_r.
  rewrite Z.shiftr_div_pow2 by lia. change (2 ^ 7) with 128.
  destruct (Z.leb_spec 128 x) as [H|H].
  - assert (1 <= x / 128) by (apply Z.div_le_lower_bound; lia).
    replace (x / 128 =? 0) with false by lia. rewrite varintLen_loop_acc.
    replace (Z.of_nat (S fuel)) with (Z.of_nat fuel + 1) in Hx by lia.
    rewrite Z.mul_add_distr_l, Z.pow_add_r in Hx by lia. change (2 ^ (7 * 1)) with 128 in Hx.
    rewrite IH; [f_equal; lia| |].
    + split; [lia|]. apply Z.div_lt_upper_bound; lia.
    + destruct fuel; [|lia]. change (2 ^ (7 * Z.of_nat 0)) with 1 in Hx. lia.
  - rewrite Z.div_small by lia. cbn. f_equal. lia.
Qed.
Lemma variantSize_spec x : 0 <= x < 2 ^ 63 -> variantSize x = Some (varintLen x).
Proof.
  intros Hx. unfold variantSize, varintLen.
  rewrite variantSize_loop_spec; [f_equal; lia| |lia].
  change (2 ^ (7 * Z.of_nat 10)) with (2 ^ 70). lia.
Qed.

Lemma Zlen_w_varint x : in_s 64 x -> Zlen (w_varint x) = varintLen x + (if varint_sized x then 0 else 1).
Proof.
  intros Hx. unfold w_varint, varint_sized. rewrite Zlen_encodeVariant by done. by destruct (_ && _).
Qed.
Lemma record_body_ne r : 1 <= Zlen (record_body r).
Proof.
  unfold record_body. rewrite Zlen_app, Zlen_be.
  match goal with |- context [Zlen ?l] => pose proof (Zlen_nonneg l) end. lia.
Qed.
Lemma record_body_range r : record_ok r -> in_s 64 (Zlen (record_body r)) /\ 1 <= Zlen (record_body r) < 2 ^ 27.
Proof.
  intros Hr. pose proof (record_body_ne r). assert (Zlen (record_body r) < 2 ^ 27).
  { unfold record_ok, MaxRequestSize in Hr. lia. }
  split; [|lia]. unfold in_s. change (2 ^ (64 - 1)) with (2 ^ 63). lia.
Qed.

(** ** Encoding *)

Definition overlap (r : record) : nat :=
  Z.to_nat (Zlen (w_varint (Zlen (record_body r))) - varintLen (Zlen (record_body r))).
Lemma overlap_spec r :
  record_ok r -> overlap r = if length_fits r then 0%nat else 1%nat.
Proof.
  intros Hr. unfold overlap, length_fits. rewrite Zlen_w_varint by apply record_body_range, Hr.
  destruct (varint_sized _); lia.
Qed.

Lemma record_prep r :
  record_ok r ->
  Record_encode r (new_encoder PREP 0) =
    Done (0, with_length (record_length 0 r) r)
         (set_offset (varintLen (Zlen (record_body r)) + Zlen (record_body r)) (new_encoder PREP 0)).
Proof.
  intros Hr. pose proof (record_body_range r Hr) as [_ HL].
  destruct (record_puts_emits false r Hr) as [Hs _].
  destruct Hr as (_ & _ & _ & _ & _ & _ & _ & Hl & _).
  pose proof (varintLen_pos (vl_length (r_length r))). pose proof (varintLen_bound (vl_length (r_length r))).
  pose proof (varintLen_bound (Zlen (record_body r))).
  unfold Record_encode, bind at 1, push. cbn [save_offset reserve_length].
  unfold VariantLengthField_reserve_length, VariantLengthField_save_offset. cbn [vl_length].
  rewrite variantSize_spec by done. unfold by_type. cbn [m_type new_encoder].
  unfold bind at 1. rewrite Hs by (cbn; unfold LIMIT; done || lia). cbn [negb Z.eqb].
  unfold bind at 1, popField, by_type. cbn -[varintLen Z.add].
  unfold VariantLengthField_adjust_length, VariantLengthField_reserve_length; cbn [vl_start_offset vl_length].
  rewrite variantSize_spec by done. rewrite !to_i32_small by (unfold LIMIT; lia).
  replace (0 + _ + _ - 0 - _) with (Zlen (record_body r)) by lia.
  rewrite variantSize_spec by lia. unfold ret, set_offset, set_stack; cbn -[varintLen Z.add].
  do 2 f_equal. lia.
Qed.

#[local] Arguments encodeVariant : simpl never.

(** The length is stored over the reserved bytes and, when they are one short,
    over the start of the body. *)
Lemma record_run r :
  record_ok r ->
  poke (replicate (Z.to_nat (varintLen (Zlen (record_body r)))) 0 ++ record_body r) 0
    (encodeVariant (Zlen (record_body r))) = Some (record_written r).
Proof.
  intros Hr. pose proof (record_body_range r Hr) as [Hs HL]. pose proof (overlap_spec r Hr) as Hov.
  unfold record_written. fold (overlap r). set (L := Zlen (record_body r)) in *.
  pose proof (varintLen_pos L). change (encodeVariant L) with (w_varint L).
  pose proof (poke_spec [] (replicate (Z.to_nat (varintLen L)) 0 ++ take (overlap r) (record_body r))
               (w_varint L) (drop (overlap r) (record_body r))) as E.
  rewrite !app_nil_l, (Zlen_nil (A := Z)), <- app_assoc, take_drop in E. apply E.
  rewrite Zlen_app, Zlen_replicate, Zlen_w_varint by (done || lia). f_equal.
  rewrite Hov. unfold length_fits. fold L. unfold Zlen. rewrite length_take.
  unfold L, Zlen in HL. unfold L. destruct (varint_sized _); lia.
Qed.

Lemma record_real r n :
  record_ok r -> n = varintLen (Zlen (record_body r)) + Zlen (record_body r) ->
  Record_encode (with_length (record_length 0 r) r) (new_encoder REAL n) =
    Done (0, with_length (record_length 0 r) r)
         (set_offset n (set_raw (record_written r) (new_encoder REAL n))).
Proof.
  intros Hr ->. pose proof (record_body_range r Hr) as [_ HL].
  destruct (record_puts_emits false r Hr) as [_ Hw].
  set (L := Zlen (record_body r)) in *. set (n := varintLen L).
  pose proof (varintLen_pos L). pose proof (varintLen_bound L).
  assert (record_puts (with_length (record_length 0 r) r) = record_puts r) as Hp by done.
  unfold Record_encode, bind at 1, push. cbn [save_offset reserve_length].
  unfold VariantLengthField_reserve_length, VariantLengthField_save_offset. cbn [vl_length r_length with_length record_length].
  fold L. rewrite variantSize_spec by lia. fold n. unfold by_type. cbn [m_type new_encoder].
  unfold bind at 1, assert_room at 1. cbn [m_offset m_raw new_encoder].
  rewrite Zlen_replicate by lia. replace (0 + n <=? n + L) with true by lia.
  unfold bind at 1, modify. unfold bind at 1. rewrite Hp.
  rewrite (Hw _ (replicate (Z.to_nat n) 0) (replicate (Z.to_nat L) 0) []); cbn -[Z.add].
  2, 3: done.
  2: { rewrite app_nil_r, <- replicate_add. f_equal. lia. }
  2: { rewrite Zlen_replicate; lia. }
  2: { rewrite Zlen_replicate; lia. }
  2: { rewrite Zlen_replicate; unfold LIMIT; lia. }
  unfold bind at 1, popField, by_type. cbn -[Z.add].
  rewrite app_nil_r. unfold VariantLengthField_run; cbn -[Z.add]. fold L.
  rewrite (to_i32_small 0) by (unfold LIMIT; lia). change (encodeUVariant (zigzagEncode L)) with (encodeVariant L).
  unfold n, L. rewrite record_run by done. unfold ret, set_offset, set_stack, set_raw; cbn -[Z.add]. do 2 f_equal; lia.
Qed.

(** What the encoder writes for a record: the varint of the body's length [L]
    followed by the body, except that when the length's top 7-bit group is 64 or more
    (for instance 64 <= L < 128) one byte too few has been reserved and the body's
    first byte, the attributes, is overwritten.  The record keeps [L] in its length
    field, whatever length an earlier encoding left there. *)
Theorem Record_encode_writes r out :
  record_ok r ->
  encode_object Record_encode r out =
    Done (ErrNoError, out ++ record_written r) (with_length (record_length 0 r) r) /\
  record_written r = w_varint (Zlen (record_body r)) ++
                     drop (if length_fits r then 0 else 1) (record_body r).
Proof.
  intros Hr. pose proof (record_body_range r Hr) as [_ HL]. split.
  - unfold encode_object. rewrite record_prep by done.
    pose proof (varintLen_pos (Zlen (record_body r))). pose proof (varintLen_bound (Zlen (record_body r))).
    unfold record_ok, MaxRequestSize in Hr. unfold MaxRequestSize.
    cbn -[varintLen Z.add to_u Z.mul]. rewrite to_u_id by (unfold in_u; lia).
    replace (_ <? _) with false by lia. by rewrite record_real.
  - unfold record_written. fold (overlap r). by rewrite overlap_spec.
Qed.

(** ** Decoding *)

Lemma length_ok_varint r : record_ok r -> varint_decodable (Zlen (record_body r)).
Proof. intros Hr. pose proof (record_body_range r Hr) as [_ HL]. unfold varint_decodable. lia. Qed.

Lemma with_length_id f r : with_length f (with_length (r_length r) r) = with_length f r.
Proof. by destruct r. Qed.

(** Decoding a record in its protocol form, whatever the object holds: it is read
    to its end and stored, and accepted when the length's varint has the size
    [variantSize] gives. *)
Lemma Record_decode_run fl old r d tl :
  record_ok r -> pd_ok d -> ctx fl (pd_flexible d) -> rest d = record_wire r ++ tl ->
  Record_decode old d =
    Done (if length_fits r then 0 else -1, with_length (record_length (pd_offset d) r) r)
         (advance (Zlen (record_wire r)) d).
Proof.
  intros Hr Hok Hc Hd. pose proof (record_body_range r Hr) as [Hs HL].
  unfold record_wire in Hd |- *. set (L := Zlen (record_body r)) in *.
  rewrite <- app_assoc in Hd.
  pose proof (consumes_getVariant fl L (length_ok_varint r Hr) d _ Hok Hc Hd) as Hg.
  unfold Record_decode, bind at 1, gets at 1. set (old' := with_length _ old).
  unfold or_return, bind at 1, pd_push. cbn [save_offset].
  unfold VariantLengthField_decode, bind at 1. unfold bind at 1. rewrite Hg.
  unfold ok at 1, ret at 1. unfold bind at 1, modify, ok at 1, ret at 1.
  unfold bind at 1.
  rewrite (record_gets_consumes fl old' r Hr _ tl).
  2: { by apply (pd_ok_advance d _ _ Hok Hd). }
  2: done.
  2: { by apply (rest_advance d _ _ Hok Hd). }
  unfold bind, gets, decoded_field, pd_pop. cbn -[Zlen Z.add].
  unfold VariantLengthField_check, VariantLengthField_reserve_length. cbn [vl_length vl_start_offset].
  rewrite variantSize_spec, Zlen_app, !Zlen_w_varint by (done || lia). fold L.
  replace (pd_offset d + _ + L - pd_offset d - varintLen L =? L) with (varint_sized L)
    by (destruct (varint_sized _); lia).
  unfold length_fits. fold L. destruct (varint_sized L); cbn -[Zlen Z.add];
    unfold ret, ok, ret, advance, set_pd_offset, set_pd_stack; cbn -[Zlen Z.add];
    destruct d; cbn -[Zlen Z.add];
    f_equal; solve [by destruct r | f_equal; lia].
Qed.

(** The records a decoder that starts at offset [o] ends up with *)
Fixpoint placed (o : Z) (rs : list record) : list record :=
  match rs with
  | [] => []
  | r :: rs' => with_length (record_length o r) r :: placed (o + Zlen (record_wire r)) rs'
  end.
(** The same up to the first record that is refused, and with it; behind it the objects are
    as they were. *)
Fixpoint placed_over (o : Z) (rs inputs : list record) : list record :=
  match rs with
  | [] => []
  | r :: rs' =>
      with_length (record_length o r) r ::
      (if length_fits r then placed_over (o + Zlen (record_wire r)) rs' (tail inputs) else tail inputs)
  end.
Lemma placed_over_fit rs : forall o inputs, forallb length_fits rs = true -> placed_over o rs inputs = placed o rs.
Proof.
  induction rs as [|r rs IH]; intros o inputs; cbn; [done|]. intros [-> Hf]%andb_true_iff. by rewrite IH.
Qed.
Lemma length_placed_over rs : forall o inputs, length inputs = length rs -> length (placed_over o rs inputs) = length rs.
Proof.
  induction rs as [|r rs IH]; intros o [|i inputs] Hl; cbn in *; try done. injection Hl as Hl.
  destruct (length_fits r); [by rewrite IH|by rewrite Hl].
Qed.

Lemma decode_each_run fl rs : forall inputs d tl,
  Forall record_ok rs -> length inputs = length rs -> pd_ok d -> ctx fl (pd_flexible d) ->
  rest d = w_list record_wire rs ++ tl ->
  exists d', decode_each inputs d =
    Done (if forallb length_fits rs then ErrNoError else ErrDecodeError, placed_over (pd_offset d) rs inputs) d' /\
    (forallb length_fits rs = true -> d' = advance (Zlen (w_list record_wire rs)) d).
Proof.
  induction rs as [|r rs IH]; intros [|i inputs] d tl Ho Hn Hok Hc Hd; try done.
  - eexists. split; [reflexivity|]. intros _. cbn. unfold advance, set_pd_offset, Zlen; cbn. rewrite Z.add_0_r. by destruct d.
  - apply Forall_cons in Ho as [Hr Ho]. injection Hn as Hn.
    change (w_list record_wire (r :: rs)) with (record_wire r ++ w_list record_wire rs) in *.
    rewrite <- app_assoc in Hd. cbn [decode_each placed_over forallb tail]. unfold bind at 1.
    rewrite (Record_decode_run fl i r d _ Hr Hok Hc Hd). cbn [fst snd].
    destruct (length_fits r); [|by eexists]. change (negb (0 =? ErrNoError)) with false. cbn iota. unfold bind at 1.
    destruct (IH inputs (advance (Zlen (record_wire r)) d) tl) as (d' & -> & Hd'); try done.
    + by apply (pd_ok_advance d _ _ Hok Hd).
    + by apply (rest_advance d _ _ Hok Hd).
    + exists d'. split; [done|]. intros Hf. rewrite (Hd' Hf). unfold advance, set_pd_offset; cbn -[Zlen Z.add].
      by rewrite Zlen_app, Z.add_assoc.
Qed.

Lemma written_wire r : record_ok r -> length_fits r = true -> record_written r = record_wire r.
Proof.
  intros Hr Hf. destruct (Record_encode_writes r [] Hr) as [_ ->]. by rewrite Hf.
Qed.
Lemma encode_records_run rs : forall raw,
  Forall record_ok rs ->
  encode_records_raw rs raw =
    Done (map (fun r => with_length (record_length 0 r) r) rs, raw ++ w_list record_written rs) tt.
Proof.
  induction rs as [|r rs IH]; intros raw Ho; cbn.
  - by rewrite app_nil_r.
  - apply Forall_cons in Ho as [Hr Ho].
    destruct (Record_encode_writes r raw Hr) as [-> _]. rewrite IH by done.
    change (w_list record_written (r :: rs)) with (record_written r ++ w_list record_written rs).
    by rewrite app_assoc.
Qed.

(** [varintLen] counts the 7-bit groups. *)
Lemma varintLen_loop_groups fuel k x :
  (k < fuel)%nat -> (if k is O then 0 else 128 ^ Z.of_nat k) <= x < 128 ^ Z.of_nat (S k) ->
  varintLen_loop fuel x 0 = Z.of_nat k.
Proof.
  revert k x. induction fuel as [|fuel IH]; intros k x Hk Hx; [lia|].
  rewrite varintLen_loop_S. assert (0 <= x) by (destruct k; lia).
  replace (x <? -64) with false by lia. rewrite orb_false_r. destruct k as [|k].
  - change (128 ^ Z.of_nat 1) with 128 in Hx. by replace (128 <=? x) with false by lia.
  - assert (0 < 128 ^ Z.of_nat k) by lia. rewrite !Nat2Z.inj_succ, !Z.pow_succ_r in Hx by lia.
    replace (128 <=? x) with true by lia. rewrite varintLen_loop_acc.
    rewrite Z.shiftr_div_pow2 by lia. change (2 ^ 7) with 128.
    rewrite (IH k); [lia|lia|]. rewrite Nat2Z.inj_succ, Z.pow_succ_r by lia.
    destruct k; Z.div_mod_to_equations; lia.
Qed.

Lemma length_fits_spec r :
  record_ok r -> let L := Zlen (record_body r) in
  length_fits r = false <-> 64 <= L < 128 \/ 8192 <= L < 16384 \/ 1048576 <= L < 2097152.
Proof.
  intros Hr L. pose proof (record_body_range r Hr) as [_ HL]. fold L in HL.
  unfold length_fits. fold L. unfold varint_sized, top_group_full.
  replace (0 <=? L) with true by lia. rewrite andb_true_l, negb_false_iff, Z.leb_le.
  assert (exists k, (k < 4)%nat /\ (if k is O then 0 else 128 ^ Z.of_nat k) <= L < 128 ^ Z.of_nat (S k))
    as (k & Hk & HLk).
  { destruct (Z_lt_le_dec L 128); [by exists 0%nat; split; [lia|cbn; lia]|].
    destruct (Z_lt_le_dec L 16384); [by exists 1%nat; split; [lia|cbn; lia]|].
    destruct (Z_lt_le_dec L 2097152); [by exists 2%nat; split; [lia|cbn; lia]|].
    by exists 3%nat; split; [lia|cbn; lia]. }
  rewrite (varintLen_loop_groups 10 k) by (done || lia).
  destruct k as [|[|[|[|]]]]; [..|lia]; cbn in HLk |- *; lia.
Qed.

Lemma all_fit rs : forallb length_fits rs = true <-> Forall (fun r => length_fits r = true) rs.
Proof.
  induction rs as [|r rs IH]; cbn; [by split; [constructor|]|].
  by rewrite andb_true_iff, Forall_cons, IH.
Qed.
(** Well-formed records are read back when all their lengths fit, and up to the first whose
    length does not otherwise. *)
Lemma decode_records_run rs inputs :
  Forall record_ok rs -> length inputs = length rs -> Zlen (w_list record_wire rs) < 2 ^ 31 ->
  exists helper,
    decode_records (w_list record_wire rs) inputs =
      Done (if forallb length_fits rs then ErrNoError else ErrDecodeError, placed_over 0 rs inputs) helper /\
    (forallb length_fits rs = true -> remaining helper = 0).
Proof.
  intros Ho Hn Hl. set (w := w_list record_wire rs) in *. pose proof (Zlen_nonneg w).
  assert (rest (new_decoder w) = w ++ []) as Hrest by (by rewrite app_nil_r).
  assert (pd_ok (new_decoder w)) as Hok by (split; cbn; unfold LIMIT; lia).
  unfold decode_records. destruct (empty w) eqn:E.
  { apply empty_nil in E. destruct rs as [|r rs].
    { destruct inputs; [|done]. exists (new_decoder w). by rewrite E. }
    exfalso. change w with (record_wire r ++ w_list record_wire rs) in E.
    apply app_eq_nil in E as [[E _]%app_eq_nil _]. by apply encodeUVariant_ne in E. }
  destruct (decode_each_run false rs inputs (new_decoder w) [] Ho Hn Hok eq_refl Hrest) as (d' & -> & Hd').
  change (pd_offset (new_decoder w)) with 0. exists d'. fold w in Hd'. destruct (forallb length_fits rs); [|done].
  rewrite Hd' by done. unfold remaining; cbn [pd_offset advance set_pd_offset new_decoder pd_raw].
  change (negb (ErrNoError =? ErrNoError)) with false. cbn iota.
  rewrite to_i32_small by (unfold LIMIT; lia). rewrite Z.add_0_l, Z.eqb_refl. split; [done|]. intros _. lia.
Qed.


Definition example_record (headers : list RecordHeader) (value : list Z) : record :=
  mkRecord headers 0 5 (-3) [107] value (mkVariantLengthField 0 0).
Definition example_records : list record :=
  [example_record [mkRecordHeader [104] [105; 106]] [118]; example_record [] (replicate 200 7)].
Example Record_encode_writes_witness :
  encode_object Record_encode (example_record [] (replicate 58 7)) [1] =
    Done (ErrNoError, [1; 130; 1] ++ drop 1 (record_body (example_record [] (replicate 58 7))))
         (with_length (record_length 0 (example_record [] (replicate 58 7))) (example_record [] (replicate 58 7))).
Proof.
  destruct (Record_encode_writes (example_record [] (replicate 58 7)) [1]) as [-> ->];
    [by apply (bool_decide_unpack _); vm_compute|].
  by vm_compute.
Defined.

(** A correct record whose body is 64 to 127 bytes long (or 8192 to 16383, or
    1048576 to 2097151) is refused, though it has been stored: [check] takes the length's
    varint to be one byte shorter than it is, so [decode] reports ErrDecodeError on the bytes
    the protocol prescribes, whatever follows them; any other length is accepted. *)
Theorem Record_decode_refuses r old tl :
  record_ok r -> Zlen (record_wire r ++ tl) < 2 ^ 31 ->
  let L := Zlen (record_body r) in
  if bool_decide (64 <= L < 128 \/ 8192 <= L < 16384 \/ 1048576 <= L < 2097152)
  then exists helper, decode_records (record_wire r ++ tl) [old] =
                      Done (ErrDecodeError, [with_length (record_length 0 r) r]) helper
  else exists helper, Record_decode old (new_decoder (record_wire r ++ tl)) =
                      Done (0, with_length (record_length 0 r) r) helper /\ rest helper = tl.
Proof.
  intros Hr Hl L. pose proof (Zlen_nonneg (record_wire r ++ tl)).
  assert (pd_ok (new_decoder (record_wire r ++ tl))) as Hok by (split; cbn; unfold LIMIT; lia).
  pose proof (Record_decode_run false old r _ tl Hr Hok eq_refl eq_refl) as Hd.
  pose proof (length_fits_spec r Hr) as Hs. fold L in Hs.
  destruct (length_fits r).
  - rewrite bool_decide_false by (rewrite <- Hs; done).
    eexists. split; [exact Hd|]. by apply rest_advance.
  - rewrite bool_decide_true by (by apply Hs). eexists. unfold decode_records.
    rewrite empty_false.
    + cbn [decode_each]. unfold bind at 1. rewrite Hd. done.
    + intros [[E _]%app_eq_nil _]%app_eq_nil. by apply encodeUVariant_ne in E.
Qed.
Example Record_decode_refuses_witness :
  exists helper, decode_records (record_wire (example_record [] (replicate 58 7)) ++ []) [example_record [] []] =
    Done (ErrDecodeError, [with_length (record_length 0 (example_record [] (replicate 58 7))) (example_record [] (replicate 58 7))]) helper.
Proof.
  apply (Record_decode_refuses (example_record [] (replicate 58 7)) (example_record [] []) []);
    [by apply (bool_decide_unpack _); vm_compute|by vm_compute].
Defined.
