(* ===== verification/Batches.v ===== *)
(** * Timestamps, control records and record batches

    [coev_kafka/timestamp.cpp], [control_record.cpp] and the encoding half of
    [record_batch.cpp].  A [time_point] is its count of nanoseconds. *)
From Stdlib Require Import ZArith Lia Bool.
From stdpp Require Import base tactics list numbers sets.
From S2P Require Import Prelude Errors Wire Crc Fields Encoder Decoder Codec CodecEnc CodecDec.
From S2P Require Import EncoderDecoder Records.

(** ** Timestamps *)

Definition time_point := Z.
Definition epoch : time_point := 0.
Definition nanos_per_milli : Z := 1000000.
Definition nanos_per_second : Z := 1000000000.
(** Arithmetic on the 64-bit count of a duration *)
Definition i64_arith {S} (z : Z) : M S Z := if bool_decide (in_s 64 z) then ret z else fail FUB.

(* coev_kafka/timestamp.cpp Timestamp::encode *)
Definition Timestamp_encode (m_time : time_point) : PE Z :=
  let put (timestamp : Z) : PE Z := putInt64 timestamp ;;; ret ErrNoError in
  if epoch <=? m_time then put (Z.quot m_time nanos_per_milli)
  else if negb (m_time =? 0) then ret ErrEncodeError
  else put (-1).
(* coev_kafka/timestamp.cpp Timestamp::decode *)
Definition Timestamp_decode : PD time_point :=
  let! millis := getInt64 in
  if 0 <=? millis then
    let seconds := Z.quot millis 1000 in
    let nanos := Z.rem millis 1000 * 1000000 in
    let* timestamp := i64_arith (seconds * nanos_per_second) in
    let* timestamp := i64_arith (timestamp + nanos) in
    ok timestamp
  else ok 0.

Definition MAX_MILLIS : Z := 9223372036854.

Lemma Timestamp_emits fl t : 0 <= t -> emits fl (Timestamp_encode t) 0 (be 8 (t / nanos_per_milli)).
Proof.
  intros Ht. unfold Timestamp_encode, epoch. replace (0 <=? t) with true by lia.
  rewrite Z.quot_div_nonneg by (unfold nanos_per_milli; lia). eapply emits_then. eauto with emit.
Qed.

Lemma Timestamp_consumes fl millis :
  in_s 64 millis -> millis <= MAX_MILLIS ->
  consumes fl Timestamp_decode (Ok (Z.max 0 (millis * nanos_per_milli))) (be 8 millis).
Proof.
  unfold MAX_MILLIS, nanos_per_milli. intros Hm Hb. unfold Timestamp_decode.
  eapply consumes_as; [eapply consumes_let; [eauto with consume|]|apply app_nil_r].
  destruct (Z.leb_spec 0 millis); [|rewrite Z.max_l by lia; apply consumes_ret].
  rewrite Z.quot_div_nonneg, Z.rem_mod_nonneg by lia. unfold nanos_per_second.
  assert (forall z, 0 <= z < 2 ^ 63 -> @i64_arith packet_decoder z = ret z) as Ha.
  { intros z Hz. unfold i64_arith. rewrite bool_decide_true; [done|].
    unfold in_s. change (2 ^ (64 - 1)) with (2 ^ 63). lia. }
  rewrite Ha by (Z.div_mod_to_equations; lia).
  eapply (consumes_bind _ _ _ _ _ []); [apply consumes_ret|].
  rewrite Ha by (Z.div_mod_to_equations; lia).
  eapply (consumes_bind _ _ _ _ _ []); [apply consumes_ret|].
  replace (Z.max 0 (millis * 1000000)) with (millis / 1000 * 1000000000 + millis mod 1000 * 1000000)
    by (Z.div_mod_to_equations; lia). apply consumes_ret.
Qed.

(** A timestamp from the epoch on is written as its milliseconds and read back cut
    to the millisecond.  Reading is defined on a millisecond count exactly when it is at
    most 9223372036854, which the wire does not ensure: above it the conversion to
    nanoseconds overflows. *)
Theorem Timestamp_roundtrip fl t d tl millis :
  0 <= t < 2 ^ 63 -> in_s 64 millis -> pd_ok d -> ctx fl (pd_flexible d) ->
  rest d = be 8 millis ++ tl ->
  emits fl (Timestamp_encode t) 0 (be 8 (t / nanos_per_milli)) /\
  (millis = t / nanos_per_milli ->
   Timestamp_decode d = Done (Ok (t - t mod nanos_per_milli)) (advance 8 d)) /\
  (Timestamp_decode d = Fault FUB <-> MAX_MILLIS < millis).
Proof.
  intros Ht Hm Hok Hc Hr. split_and!; [apply Timestamp_emits; lia|intros ->|].
  - rewrite (Timestamp_consumes fl (t / nanos_per_milli) Hm ltac:(unfold MAX_MILLIS, nanos_per_milli; Z.div_mod_to_equations; lia) d tl) by done.
    do 2 f_equal. unfold nanos_per_milli. Z.div_mod_to_equations; lia.
  - destruct (Z_le_gt_dec millis MAX_MILLIS) as [Hb|Hb].
    + rewrite (Timestamp_consumes fl millis Hm Hb d tl) by done. split; [done|lia].
    + split; [intros _; lia|intros _]. unfold Timestamp_decode, bind at 1.
      rewrite (consumes_getInt64 fl millis Hm d tl) by done. unfold MAX_MILLIS in Hb.
      replace (0 <=? millis) with true by lia. rewrite Z.quot_div_nonneg, Z.rem_mod_nonneg by lia.
      unfold bind, i64_arith at 1, nanos_per_second.
      destruct (bool_decide_reflect (in_s 64 (millis / 1000 * 1000000000))); [|done].
      unfold ret, i64_arith. rewrite bool_decide_false; [done|].
      unfold in_s. change (2 ^ (64 - 1)) with 9223372036854775808. Z.div_mod_to_equations; lia.
Qed.
Example Timestamp_roundtrip_witness :
  Timestamp_decode (new_decoder (be 8 9223372036855 ++ [])) = Fault FUB.
Proof.
  apply (Timestamp_roundtrip false 5000000 (new_decoder (be 8 9223372036855 ++ [])) [] 9223372036855);
    first [by apply (bool_decide_unpack _); vm_compute | unfold pd_ok, LIMIT; cbn; lia | by vm_compute | lia].
Defined.

(** ** Control records *)

(* coev_kafka/control_record_type.h:11-16 ControlRecordType *)
Inductive ControlRecordType := ControlRecordAbort | ControlRecordCommit | ControlRecordUnknown.
(* coev_kafka/control_record.h:15-27 ControlRecord *)
Record ControlRecord := mkControlRecord {
  cr_version : Z; cr_coordinator_epoch : Z; cr_type : ControlRecordType }.

(** Two coders, one for the key and one for the value *)
Definition on_key {S1 S2 A} (m : M S1 A) : M (S1 * S2) A := fun s =>
  match m (fst s) with Done a s1 => Done a (s1, snd s) | Fault f => Fault f end.
Definition on_value {S1 S2 A} (m : M S2 A) : M (S1 * S2) A := fun s =>
  match m (snd s) with Done a s2 => Done a (fst s, s2) | Fault f => Fault f end.

Definition is_unknown (t : ControlRecordType) : bool :=
  match t with ControlRecordUnknown => true | _ => false end.

(* coev_kafka/control_record.cpp ControlRecord::encode *)
Definition ControlRecord_encode (r : ControlRecord) : M (packet_encoder * packet_encoder) Z :=
  on_key (putInt16 (cr_version r)) ;;;
  on_key (match cr_type r with
          | ControlRecordAbort => putInt16 0
          | ControlRecordCommit => putInt16 1
          | ControlRecordUnknown => putInt16 128
          end) ;;;
  (if negb (is_unknown (cr_type r)) then
     on_value (putInt16 (cr_version r)) ;;;
     on_value (putInt32 (cr_coordinator_epoch r))
   else ret tt) ;;;
  ret ErrNoError.

(** [r] is the object [decode] is called on. *)
(* coev_kafka/control_record.cpp ControlRecord::decode *)
Definition ControlRecord_decode (r : ControlRecord) : M (packet_decoder * packet_decoder) (dres ControlRecord) :=
  let! version := on_key getInt16 /! ErrDecodeError in
  let! recordType := on_key getInt16 /! ErrDecodeError in
  let type := if recordType =? 0 then ControlRecordAbort
              else if recordType =? 1 then ControlRecordCommit
              else ControlRecordUnknown in
  let* left := on_value (gets remaining) in
  if negb (is_unknown type) && (0 <? left) then
    let! tempVersion := on_value getInt16 /! ErrDecodeError in
    if negb (tempVersion =? version) then ret (Err ErrDecodeError)
    else
      let! epoch := on_value getInt32 /! ErrDecodeError in
      ret (Ok (mkControlRecord version epoch type))
  else ret (Ok (mkControlRecord version (cr_coordinator_epoch r) type)).

Definition control_code (t : ControlRecordType) : Z :=
  match t with ControlRecordAbort => 0 | ControlRecordCommit => 1 | ControlRecordUnknown => 128 end.
Definition control_key (r : ControlRecord) : list Z := be 2 (cr_version r) ++ be 2 (control_code (cr_type r)).
Definition control_value (r : ControlRecord) : list Z :=
  if is_unknown (cr_type r) then [] else be 2 (cr_version r) ++ be 4 (cr_coordinator_epoch r).

Lemma on_key_value {S1 S2 A B C} (m1 : M S1 A) (m2 : M S2 B) (k : M (S1 * S2) C) s1 s2 a b s1' s2' :
  m1 s1 = Done a s1' -> m2 s2 = Done b s2' ->
  (on_key m1 ;;; on_value m2 ;;; k) (s1, s2) = k (s1', s2').
Proof. intros E1 E2. unfold bind, on_key, on_value; cbn. rewrite E1; cbn. by rewrite E2. Qed.

Lemma ControlRecord_encode_split r s :
  ControlRecord_encode r s =
  (on_key (putInt16 (cr_version r) ;;; putInt16 (control_code (cr_type r))) ;;;
   on_value (if is_unknown (cr_type r) then ret tt
             else putInt16 (cr_version r) ;;; putInt32 (cr_coordinator_epoch r)) ;;;
   ret 0) s.
Proof.
  unfold ControlRecord_encode, bind, on_key, on_value, ret. destruct s as [k v]; cbn [fst snd].
  destruct (putInt16 (cr_version r) k) as [[] k1|]; [|done]; cbn [fst snd].
  destruct r as [ver ep []]; cbn [cr_type cr_version cr_coordinator_epoch is_unknown negb control_code];
    match goal with |- context [putInt16 ?c k1] => destruct (putInt16 c k1) as [[] k2|] end; cbn [fst snd];
    try done; destruct (putInt16 ver v) as [[] v1|]; cbn [fst snd]; try done;
    by destruct (putInt32 ep v1) as [[] v2|].
Qed.

Lemma emits_control_value fl r :
  emits fl (if is_unknown (cr_type r) then ret tt
            else putInt16 (cr_version r) ;;; putInt32 (cr_coordinator_epoch r)) tt (control_value r).
Proof.
  unfold control_value. destruct (is_unknown _); [apply emits_ret|].
  eapply emits_seq; eauto with emit.
Qed.

(** A single coder run to its end from a fresh state *)
Lemma emits_fresh {A} (e : PE A) v bs :
  emits false e v bs -> Zlen bs < LIMIT ->
  exists s, e (new_encoder REAL (Zlen bs)) = Done v s /\ m_raw s = bs.
Proof.
  intros [_ Hw] Hl. eexists. split; [apply (Hw _ [] (replicate (Z.to_nat (Zlen bs)) 0) []); cbn; try done|].
  - by rewrite app_nil_r.
  - rewrite Zlen_replicate; [done|apply Zlen_nonneg].
  - rewrite Zlen_replicate; [done|apply Zlen_nonneg].
  - cbn. by rewrite app_nil_r.
Qed.
Lemma consumes_fresh {A} (g : M packet_decoder A) v bs tl :
  consumes false g v bs -> Zlen (bs ++ tl) < LIMIT ->
  exists s, g (new_decoder (bs ++ tl)) = Done v s /\ rest s = tl /\ pd_ok s /\ pd_flexible s = 0.
Proof.
  intros Hg Hl. pose proof (Zlen_nonneg (bs ++ tl)).
  assert (pd_ok (new_decoder (bs ++ tl))) as Hok by (split; cbn; lia).
  eexists. split; [by apply (Hg _ tl)|]. split; [|split; [|done]].
  - by apply rest_advance.
  - by apply (pd_ok_advance (new_decoder (bs ++ tl)) bs tl).
Qed.

(** The value of a control record may be missing; its version must be the key's. *)
Lemma control_value_decoded (r : packet_decoder) version epoch :
  in_s 16 version -> in_s 32 epoch ->
  exists s, on_value getInt16 (r, new_decoder (be 2 version ++ be 4 epoch)) = Done (Ok version) (r, s) /\
    exists s', on_value getInt32 (r, s) = Done (Ok epoch) (r, s').
Proof.
  intros Hv He.
  destruct (consumes_fresh getInt16 (Ok version) (be 2 version) (be 4 epoch)) as (s & E & Hr & Hok & Hf);
    [eauto with consume|by vm_compute|].
  exists s. unfold on_value; cbn. rewrite E. split; [done|].
  eexists. cbn. by rewrite (consumes_getInt32 false epoch He s []) by (done || by rewrite app_nil_r).
Qed.

Lemma control_key_decoded (r : packet_decoder) version type :
  in_s 16 version -> in_s 16 type ->
  exists s s', on_key getInt16 (new_decoder (be 2 version ++ be 2 type), r) = Done (Ok version) (s, r) /\
    on_key getInt16 (s, r) = Done (Ok type) (s', r).
Proof.
  intros Hv Ht.
  destruct (consumes_fresh getInt16 (Ok version) (be 2 version) (be 2 type)) as (s & E & Hr & Hok & Hf);
    [eauto with consume|by vm_compute|].
  exists s. unfold on_key; cbn. rewrite E.
  eexists. split; [done|]. by rewrite (consumes_getInt16 false type Ht s []) by (done || by rewrite app_nil_r).
Qed.

Lemma control_value_left v e : (0 <? remaining (new_decoder (be 2 v ++ be 4 e))) = true.
Proof. done. Qed.

(** A control record's key and value are written as version and type, and version
    and coordinator epoch; decoding them gives the record back.  A record of unknown
    type has no value and keeps the epoch of the object decoded into.  A value that
    carries another version than the key is refused. *)
Theorem ControlRecord_roundtrip r old version' :
  in_s 16 (cr_version r) -> in_s 32 (cr_coordinator_epoch r) -> in_s 16 version' ->
  (exists k v, ControlRecord_encode r (new_encoder REAL (Zlen (control_key r)),
                                       new_encoder REAL (Zlen (control_value r))) = Done ErrNoError (k, v) /\
     m_raw k = control_key r /\ m_raw v = control_value r) /\
  (exists s, ControlRecord_decode old (new_decoder (control_key r), new_decoder (control_value r)) =
     Done (Ok (if is_unknown (cr_type r)
               then mkControlRecord (cr_version r) (cr_coordinator_epoch old) ControlRecordUnknown
               else r)) s) /\
  (is_unknown (cr_type r) = false -> version' <> cr_version r ->
   exists s, ControlRecord_decode old
     (new_decoder (control_key r), new_decoder (be 2 version' ++ be 4 (cr_coordinator_epoch r))) =
     Done (Err ErrDecodeError) s).
Proof.
  intros Hv He Hv'. split_and!.
  - destruct (emits_fresh (putInt16 (cr_version r) ;;; putInt16 (control_code (cr_type r))) tt (control_key r))
      as (k & Ek & Hk); [eapply emits_seq; eauto with emit|by vm_compute|].
    destruct (emits_fresh _ _ _ (emits_control_value false r)) as (v & Ev & Hval);
      [unfold control_value; by destruct (is_unknown _)|].
    exists k, v. split; [|done]. rewrite ControlRecord_encode_split.
    by rewrite (on_key_value _ _ _ _ _ _ _ _ _ Ek Ev).
  - destruct (control_key_decoded (new_decoder (control_value r)) (cr_version r) (control_code (cr_type r)) Hv)
      as (s1 & s2 & E1 & E2); [destruct (cr_type r); by apply (bool_decide_unpack _); vm_compute|].
    unfold ControlRecord_decode, control_key, bind at 1. rewrite E1. unfold bind at 1. rewrite E2.
    unfold control_value. destruct r as [v e []]; cbn in *; [..|by eexists];
      destruct (control_value_decoded s2 v e Hv He) as (s3 & E3 & s4 & E4);
      cbn -[on_value]; unfold bind; rewrite control_value_left; cbn -[on_value];
      rewrite E3, Z.eqb_refl; cbn -[on_value]; rewrite E4; by eexists.
  - intros Hu Hne.
    destruct (control_key_decoded (new_decoder (be 2 version' ++ be 4 (cr_coordinator_epoch r)))
                (cr_version r) (control_code (cr_type r)) Hv)
      as (s1 & s2 & E1 & E2); [destruct (cr_type r); by apply (bool_decide_unpack _); vm_compute|].
    destruct (control_value_decoded s2 version' (cr_coordinator_epoch r) Hv' He) as (s3 & E3 & _).
    unfold ControlRecord_decode, control_key, bind at 1. rewrite E1. unfold bind at 1. rewrite E2.
    destruct r as [v e []]; cbn in *; [..|done]; cbn -[on_value]; unfold bind; rewrite control_value_left; cbn -[on_value];
      rewrite E3; replace (version' =? v) with false by lia; by eexists.
Qed.
Example ControlRecord_roundtrip_witness :
  (exists s, ControlRecord_decode (mkControlRecord 0 0 ControlRecordUnknown)
     (new_decoder (control_key (mkControlRecord 1 9 ControlRecordCommit)),
      new_decoder (control_value (mkControlRecord 1 9 ControlRecordCommit))) =
     Done (Ok (mkControlRecord 1 9 ControlRecordCommit)) s) /\
  (exists s, ControlRecord_decode (mkControlRecord 0 0 ControlRecordUnknown)
     (new_decoder (control_key (mkControlRecord 1 9 ControlRecordCommit)), new_decoder (be 2 3 ++ be 4 9)) =
     Done (Err ErrDecodeError) s).
Proof.
  destruct (ControlRecord_roundtrip (mkControlRecord 1 9 ControlRecordCommit) (mkControlRecord 0 0 ControlRecordUnknown) 3)
    as (_ & H1 & H2); [by apply (bool_decide_unpack _); vm_compute..|].
  split; [exact H1|apply H2; done].
Defined.

(** ** Record batches *)

(* utils/compress/coev_compress.h:14-21 CompressionCodec *)
Definition CompressionCodec := Z.
Definition None_ : CompressionCodec := 0.
Definition GZIP : CompressionCodec := 1.
Definition Snappy : CompressionCodec := 2.
Definition LZ4 : CompressionCodec := 3.
Definition ZSTD : CompressionCodec := 4.

(* coev_kafka/record_batch.h:22-63 RecordBatch *)
Record RecordBatch := mkRecordBatch {
  rb_version : Z;
  rb_codec : CompressionCodec;
  rb_first_offset : Z;
  rb_partition_leader_epoch : Z;
  rb_last_offset_delta : Z;
  rb_first_timestamp : time_point;
  rb_max_timestamp : time_point;
  rb_producer_id : Z;
  rb_producer_epoch : Z;
  rb_first_sequence : Z;
  rb_control : bool;
  rb_log_append_time : bool;
  rb_is_transactional : bool;
  rb_compressed_records : list Z;
  rb_records : list record;
}.
Definition with_records (rs : list record) (b : RecordBatch) : RecordBatch :=
  mkRecordBatch (rb_version b) (rb_codec b) (rb_first_offset b) (rb_partition_leader_epoch b)
    (rb_last_offset_delta b) (rb_first_timestamp b) (rb_max_timestamp b) (rb_producer_id b)
    (rb_producer_epoch b) (rb_first_sequence b) (rb_control b) (rb_log_append_time b)
    (rb_is_transactional b) (rb_compressed_records b) rs.

(* coev_kafka/record_batch.h:20-20 RECORD_BATCH_OVERHEAD *)
Definition RECORD_BATCH_OVERHEAD : Z := 49.
(* coev_kafka/record_batch.cpp RecordBatch::last_offset *)
Definition last_offset (b : RecordBatch) : Z := rb_first_offset b + rb_last_offset_delta b.

(* coev_kafka/record_batch.cpp RecordBatch::compute_attributes *)
Definition compute_attributes (b : RecordBatch) : Z :=
  let attr := Z.land (rb_codec b) 0x07 in
  let attr := if rb_control b then Z.lor attr 0x20 else attr in
  let attr := if rb_log_append_time b then Z.lor attr 0x08 else attr in
  if rb_is_transactional b then Z.lor attr 0x10 else attr.
(** The four members [decode] takes from the attributes *)
(* coev_kafka/record_batch.cpp:164-167 RecordBatch::decode *)
Definition read_attributes (attributes : Z) : CompressionCodec * bool * bool * bool :=
  (Z.land attributes 0x07,
   negb (Z.land attributes 0x20 =? 0),
   negb (Z.land attributes 0x08 =? 0),
   negb (Z.land attributes 0x10 =? 0)).

Section RecordBatch.
(** The compression libraries: what the output holds after the call. *)
Context (library_compress : CompressionCodec -> list Z -> list Z).

(* coev_kafka/message.cpp compress *)
Definition compress (codec : CompressionCodec) (data : list Z) : list Z :=
  if (codec =? GZIP) || (codec =? Snappy) || (codec =? LZ4) || (codec =? ZSTD)
  then library_compress codec data else data.

(** The records part: compressed beforehand, or encoded and compressed here;
    the records' own length fields change as they are encoded. *)
(* coev_kafka/record_batch.cpp:106-121 RecordBatch::encode *)
Definition RecordBatch_put_records (b : RecordBatch) : PE RecordBatch :=
  if negb (empty (rb_compressed_records b)) then
    putRawBytes (rb_compressed_records b) ;;; ret b
  else
    match encode_records_raw (rb_records b) [] with
    | Fault f => fail f
    | Done (rs, raw) _ =>
        putRawBytes (compress (rb_codec b) raw) ;;; ret (with_records rs b)
    end.

(** What lies between the push and the pop of the CRC field *)
(* coev_kafka/record_batch.cpp:90-121 RecordBatch::encode *)
Definition RecordBatch_covered (b : RecordBatch) : PE RecordBatch :=
  putInt16 (compute_attributes b) ;;;
  putInt32 (rb_last_offset_delta b) ;;;
  Timestamp_encode (rb_first_timestamp b) ;;;
  Timestamp_encode (rb_max_timestamp b) ;;;
  putInt64 (rb_producer_id b) ;;;
  putInt16 (rb_producer_epoch b) ;;;
  putInt32 (rb_first_sequence b) ;;;
  putArrayLength (to_i32 (Zlen (rb_records b))) ;;;
  RecordBatch_put_records b.

(** What lies between the push and the pop of the length field *)
(* coev_kafka/record_batch.cpp:84-123 RecordBatch::encode *)
Definition RecordBatch_framed (b : RecordBatch) : PE RecordBatch :=
  putInt32 (rb_partition_leader_epoch b) ;;;
  putInt8 (rb_version b) ;;;
  push (FCrc32 (mkCrc32Field 0 CrcCastagnoli)) ;;;
  let* b' := RecordBatch_covered b in
  pop ;;;
  ret b'.

(* coev_kafka/record_batch.cpp RecordBatch::encode *)
Definition RecordBatch_encode (b : RecordBatch) : PE (Z * RecordBatch) :=
  if negb (rb_version b =? 2) then ret (ErrUnsupportedRecordBatchVersion, b)
  else
    putInt64 (rb_first_offset b) ;;;
    push (FLength LengthField_default) ;;;
    let* b' := RecordBatch_framed b in
    pop ;;;
    ret (0, b').

(** *** The wire form *)

Definition batch_records (b : RecordBatch) : list Z :=
  if negb (empty (rb_compressed_records b)) then rb_compressed_records b
  else compress (rb_codec b) (w_list record_written (rb_records b)).
Definition batch_covered (fl : bool) (b : RecordBatch) : list Z :=
  be 2 (compute_attributes b) ++ be 4 (rb_last_offset_delta b) ++
  be 8 (rb_first_timestamp b / nanos_per_milli) ++ be 8 (rb_max_timestamp b / nanos_per_milli) ++
  be 8 (rb_producer_id b) ++ be 2 (rb_producer_epoch b) ++ be 4 (rb_first_sequence b) ++
  w_array_length fl (Zlen (rb_records b)) ++ batch_records b.
Definition batch_framed (fl : bool) (b : RecordBatch) : list Z :=
  be 4 (rb_partition_leader_epoch b) ++ be 1 2 ++
  be 4 (crc_of CrcCastagnoli (batch_covered fl b)) ++ batch_covered fl b.
Definition batch_wire (fl : bool) (b : RecordBatch) : list Z :=
  be 8 (rb_first_offset b) ++ be 4 (Zlen (batch_framed fl b)) ++ batch_framed fl b.

Definition batch_ok (b : RecordBatch) : Prop :=
  rb_version b = 2 /\ 0 <= rb_first_timestamp b /\ 0 <= rb_max_timestamp b /\
  Forall record_ok (rb_records b) /\ Zlen (rb_records b) < INT32_MAX /\ bytes_ok (batch_records b).
(** The batch after an encoding *)
Definition settled (b : RecordBatch) : RecordBatch :=
  if negb (empty (rb_compressed_records b)) then b
  else with_records (map (fun r => with_length (record_length 0 r) r) (rb_records b)) b.

Lemma put_records_emits fl b :
  batch_ok b -> emits fl (RecordBatch_put_records b) (settled b) (batch_records b).
Proof.
  intros (_ & _ & _ & Hr & _ & Hb). unfold RecordBatch_put_records, settled, batch_records in *.
  destruct (negb (empty _)).
  - by eapply emits_then, emits_putRawBytes.
  - rewrite encode_records_run by done. by eapply emits_then, emits_putRawBytes.
Qed.

Lemma covered_emits fl b : batch_ok b -> emits fl (RecordBatch_covered b) (settled b) (batch_covered fl b).
Proof.
  intros Hb. pose proof Hb as (_ & H1 & H2 & _ & Hn & _). unfold RecordBatch_covered, batch_covered.
  pose proof (Zlen_nonneg (rb_records b)).
  rewrite to_i32_len by (unfold LIMIT, INT32_MAX in *; lia).
  do 2 (eapply emits_seq; [eauto with emit|]). do 2 (eapply emits_seq; [by apply Timestamp_emits|]).
  do 3 (eapply emits_seq; [eauto with emit|]).
  eapply emits_seq; [by apply emits_putArrayLength|]. by apply put_records_emits.
Qed.

Lemma framed_emits fl b : batch_ok b -> emits fl (RecordBatch_framed b) (settled b) (batch_framed fl b).
Proof.
  intros Hb. unfold RecordBatch_framed, batch_framed. destruct Hb as (Hv & Hb'). rewrite Hv.
  assert (batch_ok b) as Hb by done. clear Hb'.
  do 2 (eapply emits_seq; [eauto with emit|]).
  eapply emits_as; [eapply (emits_field _ _ _ _ (settled b) (fun _ => ret (settled b)));
    [done|by apply covered_emits|done|apply emits_ret]|].
  by rewrite app_nil_r.
Qed.

(** C35: A record batch of version 2 for which [batch_ok] holds is written as its first
    offset, the length of the rest, leader epoch, magic byte, the Castagnoli CRC of everything
    after it, and the covered fields and records; the sizing pass finds the same length the
    writing pass fills, whichever pass changed the records' length fields before.  [batch_ok]
    asks that the timestamps are not before 1970, that the batch fits a message and, in
    [record_ok], that the sizing pass counts every varint of a record right: no timestamp or
    offset delta, number of headers or length of a key, a value or a header's part is one
    whose top group of seven bits is 64 or more (64 to 127, 8192 to 16383 and so on).  With
    such a number, for instance in a batch of 65 records numbered from 0, the passes disagree.
    Any other version is refused with nothing written. *)
Theorem RecordBatch_encode_writes fl b :
  (batch_ok b ->
   emits fl (RecordBatch_encode b) (0, settled b) (batch_wire fl b) /\
   batch_ok (settled b) /\ settled (settled b) = settled b /\
   batch_wire fl (settled b) = batch_wire fl b) /\
  (rb_version b <> 2 -> emits fl (RecordBatch_encode b) (ErrUnsupportedRecordBatchVersion, b) []).
Proof.
  split.
  - intros Hb.
    assert (batch_records (settled b) = batch_records b) as Hrec.
    { unfold batch_records, settled. destruct (negb (empty (rb_compressed_records b))) eqn:E; cbn; rewrite E; [done|].
      f_equal. unfold w_list. by rewrite map_map. }
    assert (Zlen (rb_records (settled b)) = Zlen (rb_records b)) as Hlen.
    { unfold settled. destruct (negb (empty (rb_compressed_records b))); [done|]. cbn. unfold Zlen. by rewrite length_map. }
    split_and!.
    + unfold RecordBatch_encode, batch_wire. destruct Hb as (Hv & Hb'). rewrite Hv; cbn [negb Z.eqb].
      eapply emits_seq; [eauto with emit|].
      eapply emits_as; [eapply (emits_field _ _ _ _ (settled b) (fun _ => ret (0, settled b)));
        [done|by apply framed_emits|done|apply emits_ret]|].
      by rewrite app_nil_r.
    + destruct Hb as (Hv & H1 & H2 & Hr & Hn & Hb). unfold batch_ok. rewrite Hrec, Hlen.
      assert (Forall record_ok (rb_records (settled b))) as Hr'.
      { unfold settled. destruct (negb (empty (rb_compressed_records b))); [done|]. cbn. apply Forall_map.
        eapply Forall_impl; [exact Hr|]. intros r Hok.
        pose proof (record_body_range r Hok) as [_ ?]. unfold record_ok in *; cbn.
        destruct Hok as (?&?&?&?&?&?&?&_&Hs). split_and!; done || cbn; lia. }
      unfold settled in *. destruct (negb (empty (rb_compressed_records b))); done.
    + unfold settled. destruct (negb (empty (rb_compressed_records b))) eqn:E; cbn; rewrite E; [done|].
      unfold with_records; cbn. by rewrite map_map.
    + unfold batch_wire, batch_framed, batch_covered. rewrite Hrec, Hlen.
      unfold settled. destruct (negb (empty (rb_compressed_records b))); done.
  - intros Hv. unfold RecordBatch_encode. replace (rb_version b =? 2) with false by lia. apply emits_ret.
Qed.
End RecordBatch.

Definition example_batch (codec : CompressionCodec) (version : Z) : RecordBatch :=
  mkRecordBatch version codec 10 0 1 1500000000 2500000000 (-1) (-1) (-1) false true true [] example_records.
Example RecordBatch_encode_writes_witness :
  emits false (RecordBatch_encode (fun _ l => rev l) (example_batch GZIP 2))
    (0, settled (example_batch GZIP 2)) (batch_wire (fun _ l => rev l) false (example_batch GZIP 2)) /\
  emits false (RecordBatch_encode (fun _ l => rev l) (example_batch GZIP 1))
    (ErrUnsupportedRecordBatchVersion, example_batch GZIP 1) [].
Proof.
  split; apply RecordBatch_encode_writes; [|done].
  split; [done|]. split; [done|]. split; [done|]. split; [|by vm_compute].
  by apply (bool_decide_unpack _); vm_compute.
Defined.

(** The codec and the three flags survive the attributes field. *)
Lemma attributes_read b :
  0 <= rb_codec b < 8 ->
  read_attributes (compute_attributes b) =
    (rb_codec b, rb_control b, rb_log_append_time b, rb_is_transactional b) /\
  0 <= compute_attributes b < 64.
Proof.
  intros Hc. unfold read_attributes, compute_attributes.
  destruct b as [? codec ? ? ? ? ? ? ? ? ctl lat txn ? ?]; cbn [rb_codec rb_control rb_log_append_time rb_is_transactional] in *.
  assert (codec = 0 \/ codec = 1 \/ codec = 2 \/ codec = 3 \/ codec = 4 \/ codec = 5 \/ codec = 6 \/ codec = 7)
    as [->|[->|[->|[->|[->|[->|[->| ->]]]]]]] by lia; destruct ctl, lat, txn; split; done.
Qed.
(** The codec and the three flags survive the attributes field: what [decode]
    extracts from the attributes [encode] computes is what the batch has, for every
    codec of three bits. *)
