(* ===== verification/TopicMessages.v ===== *)
(** * Topics, leaders and groups

    The bodies that answer the creation of topics, elect leaders, list reassignments and groups,
    delete records and ask for a group's coordinator.  The unordered maps among their members
    are iterated in an order that is a parameter. *)
From Stdlib Require Import ZArith Lia Bool.
From stdpp Require Import base tactics list numbers gmap.
From S2P Require Import Prelude Errors Wire Decoder Encoder Codec CodecEnc CodecDec EncoderDecoder.
From S2P Require Import StdMap MessageKit UnorderedMap SetVersion AdminMessages.

(** [std::vector<int32_t> v(n)], then a [getInt32] for each element *)
Definition getInt32s : PD (list Z) := let! n := getArrayLength in read_resized n getInt32.
Lemma consumes_getInt32s fl l : int32s_ok fl l -> consumes fl getInt32s (Ok l) (w_int32_array fl l).
Proof.
  intros (Ha & Hl & Hf). unfold getInt32s, w_int32_array. eapply consumes_let; [by apply consumes_getArrayLength|].
  eapply (consumes_resized fl getInt32 (be 4) (in_s 32)); [by split_and!|]. intros. by apply consumes_getInt32.
Qed.
#[export] Hint Resolve consumes_getInt32s : consume.

(** ** ElectLeaders *)

(* coev_kafka/elect_leaders_request.h:23-45 ElectLeadersRequest *)
Record ElectLeadersRequest := mkElectLeadersRequest {
  elq_version : Z; elq_type : Z; elq_topic_partitions : gmap (list Z) (list Z); elq_timeout : Z }.

(* coev_kafka/elect_leaders_request.cpp ElectLeadersRequest::encode *)
Definition ElectLeadersRequest_encode {order : Iteration} (m : ElectLeadersRequest) : PE Z :=
  whenU (0 <? elq_version m) (putInt8 (elq_type m)) ;;;
  try putArrayLength (to_i32 (Zlen (iterate (elq_topic_partitions m)))) /! ErrEncodeError ;;;
  try for_try (iterate (elq_topic_partitions m)) (fun kv =>
    try putString (fst kv) /! ErrEncodeError ;;; try putInt32Array (snd kv) /! ErrEncodeError ;;; putEmptyTaggedFieldArray ;;; ret 0) ;;;
  putDurationMs (elq_timeout m) ;;;
  putEmptyTaggedFieldArray ;;;
  ret ErrNoError.

(* coev_kafka/elect_leaders_request.cpp ElectLeadersRequest::decode *)
Definition ElectLeadersRequest_decode (self : ElectLeadersRequest) (version : Z) : PD ElectLeadersRequest :=
  let! type := readIf (0 <? version) getInt8 (elq_type self) /! ErrDecodeError in
  let! n := getArrayLength /! ErrDecodeError in
  let! topic_partitions := read_umap n (
    let! k := getString /! ErrDecodeError in let! v := getInt32s /! ErrDecodeError in let! _t := getEmptyTaggedFieldArray /! ErrDecodeError in ok (k, v)) in
  let! timeout := getDurationMs /! ErrDecodeError in
  let! _t := getEmptyTaggedFieldArray /! ErrDecodeError in
  ok (mkElectLeadersRequest version type topic_partitions timeout).

(* coev_kafka/elect_leaders_request.cpp ElectLeadersRequest::is_flexible_version *)
Definition ElectLeadersRequest_is_flexible_version (ver : Z) : bool := 2 <=? ver.
(* coev_kafka/elect_leaders_request.cpp ElectLeadersRequest::key..ElectLeadersRequest::is_flexible *)
#[export] Instance ElectLeadersRequest_body {order : Iteration} : protocol_body ElectLeadersRequest := {
  pb_encode := ElectLeadersRequest_encode;
  pb_decode := ElectLeadersRequest_decode;
  pb_key _ := 43;
  pb_version := elq_version;
  pb_header_version m := 2;
  pb_is_valid_version m := (0 <=? elq_version m) && (elq_version m <=? 2);
  pb_is_flexible m := ElectLeadersRequest_is_flexible_version (elq_version m);
  pb_is_flexible_version _ := ElectLeadersRequest_is_flexible_version;
}.

Definition ElectLeadersRequest_wire {order : Iteration} (m : ElectLeadersRequest) : list Z :=
  let fl := pb_is_flexible m in
  w_when (0 <? elq_version m) (be 1 (elq_type m)) ++
  w_array_length fl (Zlen (iterate (elq_topic_partitions m))) ++
  w_list (w_pair (w_string fl) (fun v => w_int32_array fl v ++ w_tags fl)) (iterate (elq_topic_partitions m)) ++
  be 4 (elq_timeout m) ++ w_tags fl.
Definition ElectLeadersRequest_ok {order : Iteration} (m : ElectLeadersRequest) : Prop :=
  let fl := pb_is_flexible m in
  in_s 8 (elq_type m) /\ ((0 <? elq_version m) = false -> elq_type m = 0) /\
  array_fits fl (pair_ok (string_ok fl) (int32s_ok fl)) (iterate (elq_topic_partitions m)) /\
  in_s 32 (elq_timeout m).
#[export] Instance ElectLeadersRequest_ok_dec {order : Iteration} m : Decision (ElectLeadersRequest_ok m).
Proof. unfold ElectLeadersRequest_ok. cbv zeta. apply _. Defined.
Definition ElectLeadersRequest_initial (v : Z) : ElectLeadersRequest :=
  mkElectLeadersRequest v 0 (∅) 0.
#[export] Hint Unfold ElectLeadersRequest_encode ElectLeadersRequest_decode ElectLeadersRequest_wire ElectLeadersRequest_ok ElectLeadersRequest_initial : message.

Lemma ElectLeadersRequest_emits {order : Iteration} m :
  ElectLeadersRequest_ok m -> emits (pb_is_flexible m) (pb_encode m) 0 (ElectLeadersRequest_wire m).
Proof. solve_emits m. Qed.
Lemma ElectLeadersRequest_consumes {order : Iteration} m :
  ElectLeadersRequest_ok m ->
  consumes (pb_is_flexible m) (pb_decode (ElectLeadersRequest_initial (pb_version m)) (pb_version m)) (Ok m) (ElectLeadersRequest_wire m).
Proof. solve_consumes m. Qed.
#[export] Instance ElectLeadersRequest_format {order : Iteration} : WireFormat ElectLeadersRequest := {
  wire := ElectLeadersRequest_wire;
  wire_ok := ElectLeadersRequest_ok;
  wire_initial := ElectLeadersRequest_initial;
  wire_flexible _ _ := eq_refl;
  wire_encode := ElectLeadersRequest_emits;
  wire_decode := ElectLeadersRequest_consumes;
}.
(* coev_kafka/elect_leaders_request.cpp ElectLeadersRequest::set_version *)
Definition ElectLeadersRequest_set_version (m : ElectLeadersRequest) (v : Z) : ElectLeadersRequest :=
  mkElectLeadersRequest v (elq_type m) (elq_topic_partitions m) (elq_timeout m).
#[export] Instance ElectLeadersRequest_versioned : Versioned ElectLeadersRequest := { set_version := ElectLeadersRequest_set_version }.
#[export] Instance ElectLeadersRequest_laws {order : Iteration} : VersionLaws ElectLeadersRequest.
Proof. version_laws. Qed.

(** [decode] reports the code of a failed encoding. *)
(* coev_kafka/elect_leaders_response.h:23-30 PartitionResult *)
Record PartitionResult := mkPartitionResult {
  par_code : Z; par_message : list Z }.

(* coev_kafka/elect_leaders_response.cpp PartitionResult::encode *)
Definition PartitionResult_encode (m : PartitionResult) : PE Z :=
  putKError (par_code m) ;;;
  try putNullableString (par_message m) /! ErrEncodeError ;;;
  putEmptyTaggedFieldArray ;;;
  ret ErrNoError.

(* coev_kafka/elect_leaders_response.cpp PartitionResult::decode *)
Definition PartitionResult_decode : PD PartitionResult :=
  let! code := getKError /! ErrEncodeError in
  let! message := getNullableString /! ErrEncodeError in
  let! _t := getEmptyTaggedFieldArray /! ErrEncodeError in
  ok (mkPartitionResult code message).

Definition PartitionResult_wire (fl : bool) (m : PartitionResult) : list Z :=
  be 2 (par_code m) ++ w_nullable_string fl (par_message m) ++ w_tags fl.
Definition PartitionResult_ok (fl : bool) (m : PartitionResult) : Prop :=
  in_s 16 (par_code m) /\ string_ok fl (par_message m).
#[export] Instance PartitionResult_ok_dec fl m : Decision (PartitionResult_ok fl m).
Proof. unfold PartitionResult_ok. apply _. Defined.
Lemma PartitionResult_emits fl m : PartitionResult_ok fl m -> emits fl (PartitionResult_encode m) 0 (PartitionResult_wire fl m).
Proof. unfold PartitionResult_ok, PartitionResult_encode, PartitionResult_wire. solve_emits m. Qed.
Lemma PartitionResult_consumes fl m : PartitionResult_ok fl m -> consumes fl PartitionResult_decode (Ok m) (PartitionResult_wire fl m).
Proof. unfold PartitionResult_ok, PartitionResult_decode, PartitionResult_wire. solve_consumes m. Qed.
#[export] Hint Resolve PartitionResult_emits : emit.
#[export] Hint Resolve PartitionResult_consumes : consume.
#[global] Arguments PartitionResult_wire : simpl never.
#[global] Arguments PartitionResult_encode : simpl never.
#[global] Arguments PartitionResult_decode : simpl never.
#[global] Arguments PartitionResult_ok : simpl never.

(* coev_kafka/elect_leaders_response.h:32-51 ElectLeadersResponse *)
Record ElectLeadersResponse := mkElectLeadersResponse {
  els_version : Z; els_throttle_time : Z; els_code : Z;
  els_replica_election_results : gmap (list Z) (list (Z * PartitionResult)) }.

(* coev_kafka/elect_leaders_response.cpp ElectLeadersResponse::encode *)
Definition ElectLeadersResponse_encode {order : Iteration} (m : ElectLeadersResponse) : PE Z :=
  putDurationMs (els_throttle_time m) ;;;
  whenU (0 <? els_version m) (putKError (els_code m)) ;;;
  try putArrayLength (to_i32 (Zlen (iterate (els_replica_election_results m)))) /! ErrEncodeError ;;;
  try for_try (iterate (els_replica_election_results m)) (fun kv =>
    try putString (fst kv) /! ErrEncodeError ;;; try putArrayLength (to_i32 (Zlen (snd kv))) /! ErrEncodeError ;;; try for_try (snd kv) (fun kv =>
    putInt32 (fst kv) ;;; try PartitionResult_encode (snd kv) /! ErrEncodeError ;;; ret 0) ;;; putEmptyTaggedFieldArray ;;; ret 0) ;;;
  putEmptyTaggedFieldArray ;;;
  ret ErrNoError.

(* coev_kafka/elect_leaders_response.cpp ElectLeadersResponse::decode *)
Definition ElectLeadersResponse_decode (self : ElectLeadersResponse) (version : Z) : PD ElectLeadersResponse :=
  let! throttle_time := getDurationMs /! ErrDecodeError in
  let! code := readIf (0 <? version) getKError (els_code self) /! ErrDecodeError in
  let! n := getArrayLength /! ErrDecodeError in
  let! replica_election_results := (resize_int n ;;; read_umap_at [] (Z.to_nat n) (let! k := getString /! ErrDecodeError in ok k)
    (fun v => let! n := getArrayLength /! ErrDecodeError in let! v := read_map_at (mkPartitionResult 0 []) (Z.to_nat n) (let! k := getInt32 /! ErrDecodeError in ok k)
    (fun v => let! v := PartitionResult_decode /! ErrDecodeError in ok v) v in let! _t := getEmptyTaggedFieldArray /! ErrDecodeError in ok v) (∅)) in
  let! _t := getEmptyTaggedFieldArray /! ErrDecodeError in
  ok (mkElectLeadersResponse version throttle_time code replica_election_results).

(* coev_kafka/elect_leaders_response.cpp ElectLeadersResponse::is_flexible_version *)
Definition ElectLeadersResponse_is_flexible_version (ver : Z) : bool := 2 <=? ver.
(* coev_kafka/elect_leaders_response.cpp ElectLeadersResponse::key..ElectLeadersResponse::is_flexible *)
#[export] Instance ElectLeadersResponse_body {order : Iteration} : protocol_body ElectLeadersResponse := {
  pb_encode := ElectLeadersResponse_encode;
  pb_decode := ElectLeadersResponse_decode;
  pb_key _ := 43;
  pb_version := els_version;
  pb_header_version m := 1;
  pb_is_valid_version m := (0 <=? els_version m) && (els_version m <=? 2);
  pb_is_flexible m := ElectLeadersResponse_is_flexible_version (els_version m);
  pb_is_flexible_version _ := ElectLeadersResponse_is_flexible_version;
}.

Definition ElectLeadersResponse_wire {order : Iteration} (m : ElectLeadersResponse) : list Z :=
  let fl := pb_is_flexible m in
  be 4 (els_throttle_time m) ++ w_when (0 <? els_version m) (be 2 (els_code m)) ++
  w_array_length fl (Zlen (iterate (els_replica_election_results m))) ++
  w_list (w_pair (w_string fl) ((fun v => w_array_length fl (Zlen v) ++ w_list (w_pair (be 4) (PartitionResult_wire fl)) v ++ w_tags fl))) (iterate (els_replica_election_results m)) ++
  w_tags fl.
Definition ElectLeadersResponse_ok {order : Iteration} (m : ElectLeadersResponse) : Prop :=
  let fl := pb_is_flexible m in
  in_s 32 (els_throttle_time m) /\ in_s 16 (els_code m) /\
  ((0 <? els_version m) = false -> els_code m = 0) /\
  array_fits fl (pair_ok (string_ok fl) ((fun v => array_fits fl (pair_ok (in_s 32) (PartitionResult_ok fl)) v /\ map_sorted v))) (iterate (els_replica_election_results m)).
#[export] Instance ElectLeadersResponse_ok_dec {order : Iteration} m : Decision (ElectLeadersResponse_ok m).
Proof. unfold ElectLeadersResponse_ok. cbv zeta. apply _. Defined.
Definition ElectLeadersResponse_initial (v : Z) : ElectLeadersResponse :=
  mkElectLeadersResponse v 0 0 (∅).
#[export] Hint Unfold ElectLeadersResponse_encode ElectLeadersResponse_decode ElectLeadersResponse_wire ElectLeadersResponse_ok ElectLeadersResponse_initial : message.

Lemma ElectLeadersResponse_emits {order : Iteration} m :
  ElectLeadersResponse_ok m -> emits (pb_is_flexible m) (pb_encode m) 0 (ElectLeadersResponse_wire m).
Proof. solve_emits m. Qed.
Lemma ElectLeadersResponse_consumes {order : Iteration} m :
  ElectLeadersResponse_ok m ->
  consumes (pb_is_flexible m) (pb_decode (ElectLeadersResponse_initial (pb_version m)) (pb_version m)) (Ok m) (ElectLeadersResponse_wire m).
Proof. solve_consumes m. Qed.
#[export] Instance ElectLeadersResponse_format {order : Iteration} : WireFormat ElectLeadersResponse := {
  wire := ElectLeadersResponse_wire;
  wire_ok := ElectLeadersResponse_ok;
  wire_initial := ElectLeadersResponse_initial;
  wire_flexible _ _ := eq_refl;
  wire_encode := ElectLeadersResponse_emits;
  wire_decode := ElectLeadersResponse_consumes;
}.
(* coev_kafka/elect_leaders_response.cpp ElectLeadersResponse::set_version *)
Definition ElectLeadersResponse_set_version (m : ElectLeadersResponse) (v : Z) : ElectLeadersResponse :=
  mkElectLeadersResponse v (els_throttle_time m) (els_code m) (els_replica_election_results m).
#[export] Instance ElectLeadersResponse_versioned : Versioned ElectLeadersResponse := { set_version := ElectLeadersResponse_set_version }.
#[export] Instance ElectLeadersResponse_laws {order : Iteration} : VersionLaws ElectLeadersResponse.
Proof. version_laws. Qed.

(** ** ListPartitionReassignments *)

(* coev_kafka/list_partition_reassignments_request.h:23-44 ListPartitionReassignmentsRequest *)
Record ListPartitionReassignmentsRequest := mkListPartitionReassignmentsRequest {
  lpq_version : Z; lpq_timeout : Z; lpq_blocks : gmap (list Z) (list Z) }.

(* coev_kafka/list_partition_reassignments_request.cpp ListPartitionReassignmentsRequest::encode *)
Definition ListPartitionReassignmentsRequest_encode {order : Iteration} (m : ListPartitionReassignmentsRequest) : PE Z :=
  putInt32 (to_i32 (lpq_timeout m)) ;;;
  try putArrayLength (to_i32 (Zlen (iterate (lpq_blocks m)))) ;;;
  try for_try (iterate (lpq_blocks m)) (fun kv =>
    try putString (fst kv) ;;; try putInt32Array (snd kv) ;;; putEmptyTaggedFieldArray ;;; ret 0) ;;;
  putEmptyTaggedFieldArray ;;;
  ret 0.

(* coev_kafka/list_partition_reassignments_request.cpp ListPartitionReassignmentsRequest::decode *)
Definition ListPartitionReassignmentsRequest_decode (self : ListPartitionReassignmentsRequest) (version : Z) : PD ListPartitionReassignmentsRequest :=
  let! timeout := getInt32 in
  let! n := getArrayLength in
  let! blocks := read_umap n (
    let! k := getString in let! v := getInt32s in let! _t := getEmptyTaggedFieldArray in ok (k, v)) in
  let! _t := getEmptyTaggedFieldArray in
  ok (mkListPartitionReassignmentsRequest version timeout blocks).

(* coev_kafka/list_partition_reassignments_request.cpp ListPartitionReassignmentsRequest::is_flexible_version *)
Definition ListPartitionReassignmentsRequest_is_flexible_version (ver : Z) : bool := true.
(* coev_kafka/list_partition_reassignments_request.cpp ListPartitionReassignmentsRequest::key..ListPartitionReassignmentsRequest::is_flexible *)
#[export] Instance ListPartitionReassignmentsRequest_body {order : Iteration} : protocol_body ListPartitionReassignmentsRequest := {
  pb_encode := ListPartitionReassignmentsRequest_encode;
  pb_decode := ListPartitionReassignmentsRequest_decode;
  pb_key _ := 46;
  pb_version := lpq_version;
  pb_header_version m := 2;
  pb_is_valid_version m := (0 <=? lpq_version m) && (lpq_version m <=? 1);
  pb_is_flexible m := ListPartitionReassignmentsRequest_is_flexible_version (lpq_version m);
  pb_is_flexible_version _ := ListPartitionReassignmentsRequest_is_flexible_version;
}.

Definition ListPartitionReassignmentsRequest_wire {order : Iteration} (m : ListPartitionReassignmentsRequest) : list Z :=
  let fl := pb_is_flexible m in
  be 4 (lpq_timeout m) ++ w_array_length fl (Zlen (iterate (lpq_blocks m))) ++
  w_list (w_pair (w_string fl) (fun v => w_int32_array fl v ++ w_tags fl)) (iterate (lpq_blocks m)) ++
  w_tags fl.
Definition ListPartitionReassignmentsRequest_ok {order : Iteration} (m : ListPartitionReassignmentsRequest) : Prop :=
  let fl := pb_is_flexible m in
  in_s 32 (lpq_timeout m) /\
  array_fits fl (pair_ok (string_ok fl) (int32s_ok fl)) (iterate (lpq_blocks m)).
#[export] Instance ListPartitionReassignmentsRequest_ok_dec {order : Iteration} m : Decision (ListPartitionReassignmentsRequest_ok m).
Proof. unfold ListPartitionReassignmentsRequest_ok. cbv zeta. apply _. Defined.
Definition ListPartitionReassignmentsRequest_initial (v : Z) : ListPartitionReassignmentsRequest :=
  mkListPartitionReassignmentsRequest v 0 (∅).
#[export] Hint Unfold ListPartitionReassignmentsRequest_encode ListPartitionReassignmentsRequest_decode ListPartitionReassignmentsRequest_wire ListPartitionReassignmentsRequest_ok ListPartitionReassignmentsRequest_initial : message.

Lemma ListPartitionReassignmentsRequest_emits {order : Iteration} m :
  ListPartitionReassignmentsRequest_ok m -> emits (pb_is_flexible m) (pb_encode m) 0 (ListPartitionReassignmentsRequest_wire m).
Proof. solve_emits m. Qed.
Lemma ListPartitionReassignmentsRequest_consumes {order : Iteration} m :
  ListPartitionReassignmentsRequest_ok m ->
  consumes (pb_is_flexible m) (pb_decode (ListPartitionReassignmentsRequest_initial (pb_version m)) (pb_version m)) (Ok m) (ListPartitionReassignmentsRequest_wire m).
Proof. solve_consumes m. Qed.
#[export] Instance ListPartitionReassignmentsRequest_format {order : Iteration} : WireFormat ListPartitionReassignmentsRequest := {
  wire := ListPartitionReassignmentsRequest_wire;
  wire_ok := ListPartitionReassignmentsRequest_ok;
  wire_initial := ListPartitionReassignmentsRequest_initial;
  wire_flexible _ _ := eq_refl;
  wire_encode := ListPartitionReassignmentsRequest_emits;
  wire_decode := ListPartitionReassignmentsRequest_consumes;
}.
(* coev_kafka/list_partition_reassignments_request.cpp ListPartitionReassignmentsRequest::set_version *)
Definition ListPartitionReassignmentsRequest_set_version (m : ListPartitionReassignmentsRequest) (v : Z) : ListPartitionReassignmentsRequest :=
  mkListPartitionReassignmentsRequest v (lpq_timeout m) (lpq_blocks m).
#[export] Instance ListPartitionReassignmentsRequest_versioned : Versioned ListPartitionReassignmentsRequest := { set_version := ListPartitionReassignmentsRequest_set_version }.
#[export] Instance ListPartitionReassignmentsRequest_laws {order : Iteration} : VersionLaws ListPartitionReassignmentsRequest.
Proof. version_laws. Qed.

(** ** ConsumerMetadata *)

(** The group of a [FindCoordinator] request of type [CoordinatorGroup], whose decoder reads it. *)
(* coev_kafka/consumer_metadata_request.h:21-38 ConsumerMetadataRequest *)
Record ConsumerMetadataRequest := mkConsumerMetadataRequest {
  cmq_version : Z; cmq_consumer_group : list Z }.

(* coev_kafka/consumer_metadata_request.cpp ConsumerMetadataRequest::encode *)
Definition ConsumerMetadataRequest_encode (m : ConsumerMetadataRequest) : PE Z :=
  try putString (cmq_consumer_group m) ;;;
  whenU (1 <=? cmq_version m) (putInt8 0) ;;;
  ret 0.

(* coev_kafka/consumer_metadata_request.cpp ConsumerMetadataRequest::decode *)
Definition ConsumerMetadataRequest_decode (self : ConsumerMetadataRequest) (version : Z) : PD ConsumerMetadataRequest :=
  let! tmp := FindCoordinatorRequest_decode (mkFindCoordinatorRequest 0 [] 0) version in
  ok (mkConsumerMetadataRequest (cmq_version self) (fcq_coordinator_key tmp)).

(* coev_kafka/consumer_metadata_request.cpp ConsumerMetadataRequest::key..ConsumerMetadataRequest::is_valid_version *)
#[export] Instance ConsumerMetadataRequest_body : protocol_body ConsumerMetadataRequest := {
  pb_encode := ConsumerMetadataRequest_encode;
  pb_decode := ConsumerMetadataRequest_decode;
  pb_key _ := 10;
  pb_version := cmq_version;
  pb_header_version m := 1;
  pb_is_valid_version m := (0 <=? cmq_version m) && (cmq_version m <=? 2);
  pb_is_flexible _ := false;
  pb_is_flexible_version _ _ := false;
}.

Definition ConsumerMetadataRequest_wire (m : ConsumerMetadataRequest) : list Z :=
  let fl := pb_is_flexible m in
  w_string fl (cmq_consumer_group m) ++ w_when (1 <=? cmq_version m) (be 1 0).
Definition ConsumerMetadataRequest_ok (m : ConsumerMetadataRequest) : Prop :=
  let fl := pb_is_flexible m in
  string_ok fl (cmq_consumer_group m).
#[export] Instance ConsumerMetadataRequest_ok_dec m : Decision (ConsumerMetadataRequest_ok m).
Proof. unfold ConsumerMetadataRequest_ok. cbv zeta. apply _. Defined.
Definition ConsumerMetadataRequest_initial (v : Z) : ConsumerMetadataRequest :=
  mkConsumerMetadataRequest v [].
#[export] Hint Unfold ConsumerMetadataRequest_encode ConsumerMetadataRequest_decode ConsumerMetadataRequest_wire ConsumerMetadataRequest_ok ConsumerMetadataRequest_initial : message.

Lemma ConsumerMetadataRequest_emits m :
  ConsumerMetadataRequest_ok m -> emits (pb_is_flexible m) (pb_encode m) 0 (ConsumerMetadataRequest_wire m).
Proof.
  open_message m. eapply emits_try; [emit_steps|]. eapply emits_then, emits_whenU. intros _. apply emits_putInt8.
Qed.
Lemma ConsumerMetadataRequest_consumes m :
  ConsumerMetadataRequest_ok m ->
  consumes (pb_is_flexible m) (pb_decode (ConsumerMetadataRequest_initial (pb_version m)) (pb_version m)) (Ok m) (ConsumerMetadataRequest_wire m).
Proof.
  open_message m. unfold FindCoordinatorRequest_decode.
  eapply (consumes_last _ _ _ (mkFindCoordinatorRequest (if 1 <=? cmq_version0 then cmq_version0 else 0) cmq_consumer_group0 0));
    [|apply consumes_ret].
  eapply consumes_let; [consume_steps|]. eapply (consumes_last _ _ _ 0); [|apply consumes_ret].
  apply consumes_readIf; [intros _; by apply (consumes_getInt8 false 0)|done].
Qed.
#[export] Instance ConsumerMetadataRequest_format : WireFormat ConsumerMetadataRequest := {
  wire := ConsumerMetadataRequest_wire;
  wire_ok := ConsumerMetadataRequest_ok;
  wire_initial := ConsumerMetadataRequest_initial;
  wire_flexible _ _ := eq_refl;
  wire_encode := ConsumerMetadataRequest_emits;
  wire_decode := ConsumerMetadataRequest_consumes;
}.
(* coev_kafka/consumer_metadata_request.cpp ConsumerMetadataRequest::set_version *)
Definition ConsumerMetadataRequest_set_version (m : ConsumerMetadataRequest) (v : Z) : ConsumerMetadataRequest :=
  mkConsumerMetadataRequest v (cmq_consumer_group m).
#[export] Instance ConsumerMetadataRequest_versioned : Versioned ConsumerMetadataRequest := { set_version := ConsumerMetadataRequest_set_version }.
#[export] Instance ConsumerMetadataRequest_laws : VersionLaws ConsumerMetadataRequest.
Proof. version_laws. Qed.

(** ** DeleteRecords: the keys are sorted *)

(* coev_kafka/delete_records_request.h:22-28 DeleteRecordsRequestTopic *)
Record DeleteRecordsRequestTopic := mkDeleteRecordsRequestTopic { drt_partition_offsets : gmap Z Z }.

(** [at] finds every key, since the keys are those of the map. *)
(* coev_kafka/delete_records_request.cpp DeleteRecordsRequestTopic::encode *)
Definition DeleteRecordsRequestTopic_encode {order : Iteration} (m : DeleteRecordsRequestTopic) : PE Z :=
  try putArrayLength (to_i32 (Zlen (iterate (drt_partition_offsets m)))) /! ErrEncodeError ;;;
  try for_try (sorted_keys (drt_partition_offsets m)) (fun partition =>
    putInt32 partition ;;;
    match drt_partition_offsets m !! partition with
    | Some offset => putInt64 offset ;;; ret 0
    | None => fail FThrow
    end) ;;;
  ret ErrNoError.

(** [emplace] keeps the offset that came first. *)
Definition umap_emplace (m : gmap Z Z) (p : Z * Z) : gmap Z Z :=
  match m !! fst p with Some _ => m | None => <[fst p := snd p]> m end.
(* coev_kafka/delete_records_request.cpp DeleteRecordsRequestTopic::decode *)
Definition DeleteRecordsRequestTopic_decode : PD DeleteRecordsRequestTopic :=
  let! n := getArrayLength /! ErrEncodeError in
  let! l := read_counted n (
    let! partition := getInt32 /! ErrEncodeError in
    let! offset := getInt64 /! ErrEncodeError in ok (partition, offset)) in
  ok (mkDeleteRecordsRequestTopic (fold_left umap_emplace l ∅)).

Definition DeleteRecordsRequestTopic_wire {order : Iteration} (fl : bool) (m : DeleteRecordsRequestTopic) : list Z :=
  w_array_length fl (Zlen (by_key (drt_partition_offsets m))) ++
  w_list (w_pair (be 4) (be 8)) (by_key (drt_partition_offsets m)).
Definition DeleteRecordsRequestTopic_ok {order : Iteration} (fl : bool) (m : DeleteRecordsRequestTopic) : Prop :=
  array_fits fl (pair_ok (in_s 32) (in_s 64)) (by_key (drt_partition_offsets m)).
#[export] Instance DeleteRecordsRequestTopic_ok_dec {order : Iteration} fl m : Decision (DeleteRecordsRequestTopic_ok fl m).
Proof. unfold DeleteRecordsRequestTopic_ok. apply _. Defined.
Lemma emplace_fresh l (m : gmap Z Z) :
  NoDup l.*1 -> (forall k, k ∈ l.*1 -> m !! k = None) ->
  fold_left umap_emplace l m = fold_left (fun m p => <[fst p := snd p]> m) l m.
Proof.
  revert m. induction l as [|[k v] l IH]; intros m; cbn; [done|]. intros [Hk Hn]%NoDup_cons Hf.
  unfold umap_emplace at 2. cbn. rewrite Hf by (by left). apply IH; [done|].
  intros k' Hk'. rewrite lookup_insert_ne by (intros ->; by apply Hk). apply Hf. by right.
Qed.
Lemma emplace_by_key {order : Iteration} (m : gmap Z Z) : fold_left umap_emplace (by_key m) ∅ = m.
Proof.
  rewrite emplace_fresh; [apply umap_of_by_key| |intros; apply lookup_empty].
  rewrite by_key_permutation. apply NoDup_fst_map_to_list.
Qed.
Lemma DeleteRecordsRequestTopic_emits {order : Iteration} fl m :
  DeleteRecordsRequestTopic_ok fl m -> emits fl (DeleteRecordsRequestTopic_encode m) 0 (DeleteRecordsRequestTopic_wire fl m).
Proof.
  unfold DeleteRecordsRequestTopic_ok, DeleteRecordsRequestTopic_encode, DeleteRecordsRequestTopic_wire.
  destruct m as [o]. cbn. intros Hm. rewrite <- by_key_length. eapply emits_check; [by eapply emits_array_length|].
  eapply emits_try_last, emits_by_key; [apply Hm|]. intros k v -> Hk Hv.
  eapply emits_seq; [apply emits_putInt32|]. eapply emits_then, emits_putInt64.
Qed.
Lemma DeleteRecordsRequestTopic_consumes {order : Iteration} fl m :
  DeleteRecordsRequestTopic_ok fl m -> consumes fl DeleteRecordsRequestTopic_decode (Ok m) (DeleteRecordsRequestTopic_wire fl m).
Proof.
  unfold DeleteRecordsRequestTopic_ok, DeleteRecordsRequestTopic_decode, DeleteRecordsRequestTopic_wire.
  destruct m as [o]. cbn. intros Hm. eapply consumes_let_or; [by eapply consumes_array_length|].
  eapply consumes_last; [eapply consumes_counted; [exact Hm|]|rewrite emplace_by_key; apply consumes_ret].
  intros [k v] [Hk Hv]. unfold w_pair. cbn in *. consume_steps.
Qed.
#[export] Hint Resolve DeleteRecordsRequestTopic_emits : emit.
#[export] Hint Resolve DeleteRecordsRequestTopic_consumes : consume.
#[global] Arguments DeleteRecordsRequestTopic_wire : simpl never.
#[global] Arguments DeleteRecordsRequestTopic_encode : simpl never.
#[global] Arguments DeleteRecordsRequestTopic_decode : simpl never.
#[global] Arguments DeleteRecordsRequestTopic_ok : simpl never.

(* coev_kafka/delete_records_request.h:30-50 DeleteRecordsRequest *)
Record DeleteRecordsRequest := mkDeleteRecordsRequest {
  drq_version : Z; drq_topics : gmap (list Z) DeleteRecordsRequestTopic; drq_timeout : Z }.

(* coev_kafka/delete_records_request.cpp DeleteRecordsRequest::encode *)
Definition DeleteRecordsRequest_encode {order : Iteration} (m : DeleteRecordsRequest) : PE Z :=
  try putArrayLength (to_i32 (Zlen (iterate (drq_topics m)))) /! ErrEncodeError ;;;
  try for_try (sorted_keys (drq_topics m)) (fun topic =>
    try putString topic /! ErrEncodeError ;;;
    match drq_topics m !! topic with
    | Some details => try DeleteRecordsRequestTopic_encode details /! ErrEncodeError ;;; ret 0
    | None => fail FThrow
    end) ;;;
  putInt32 (to_i32 (drq_timeout m)) ;;;
  ret ErrNoError.

(* coev_kafka/delete_records_request.cpp DeleteRecordsRequest::decode *)
Definition DeleteRecordsRequest_decode (self : DeleteRecordsRequest) (version : Z) : PD DeleteRecordsRequest :=
  let! n := getArrayLength /! ErrDecodeError in
  let! topics := read_umap n (
    let! k := getString /! ErrDecodeError in let! v := DeleteRecordsRequestTopic_decode /! ErrDecodeError in ok (k, v)) in
  let! timeout := getDurationMs /! ErrDecodeError in
  ok (mkDeleteRecordsRequest version topics timeout).

(* coev_kafka/delete_records_request.cpp DeleteRecordsRequest::key..DeleteRecordsRequest::is_valid_version *)
#[export] Instance DeleteRecordsRequest_body {order : Iteration} : protocol_body DeleteRecordsRequest := {
  pb_encode := DeleteRecordsRequest_encode;
  pb_decode := DeleteRecordsRequest_decode;
  pb_key _ := 21;
  pb_version := drq_version;
  pb_header_version m := 1;
  pb_is_valid_version m := (0 <=? drq_version m) && (drq_version m <=? 2);
  pb_is_flexible _ := false;
  pb_is_flexible_version _ _ := false;
}.

Definition DeleteRecordsRequest_wire {order : Iteration} (m : DeleteRecordsRequest) : list Z :=
  let fl := pb_is_flexible m in
  w_array_length fl (Zlen (by_key (drq_topics m))) ++
  w_list (w_pair (w_string fl) (DeleteRecordsRequestTopic_wire fl)) (by_key (drq_topics m)) ++
  be 4 (drq_timeout m).
Definition DeleteRecordsRequest_ok {order : Iteration} (m : DeleteRecordsRequest) : Prop :=
  let fl := pb_is_flexible m in
  array_fits fl (pair_ok (string_ok fl) (DeleteRecordsRequestTopic_ok fl)) (by_key (drq_topics m)) /\
  in_s 32 (drq_timeout m).
#[export] Instance DeleteRecordsRequest_ok_dec {order : Iteration} m : Decision (DeleteRecordsRequest_ok m).
Proof. unfold DeleteRecordsRequest_ok. cbv zeta. apply _. Defined.
Definition DeleteRecordsRequest_initial (v : Z) : DeleteRecordsRequest :=
  mkDeleteRecordsRequest v (∅) 0.
#[export] Hint Unfold DeleteRecordsRequest_encode DeleteRecordsRequest_decode DeleteRecordsRequest_wire DeleteRecordsRequest_ok DeleteRecordsRequest_initial : message.

Lemma DeleteRecordsRequest_emits {order : Iteration} m :
  DeleteRecordsRequest_ok m -> emits (pb_is_flexible m) (pb_encode m) 0 (DeleteRecordsRequest_wire m).
Proof.
  open_message m. rewrite <- by_key_length. eapply emits_check; [by eapply emits_array_length|]. eapply emits_try.
  - match goal with H : array_fits _ _ _ |- _ => destruct H as (_ & _ & Hf) end.
    eapply emits_by_key; [exact Hf|]. intros k v -> Hk Hv. eapply emits_check; [by apply emits_putString|].
    eapply emits_check_last. by apply DeleteRecordsRequestTopic_emits.
  - eapply emits_then. by apply emits_putInt32_cast.
Qed.
Lemma DeleteRecordsRequest_consumes {order : Iteration} m :
  DeleteRecordsRequest_ok m ->
  consumes (pb_is_flexible m) (pb_decode (DeleteRecordsRequest_initial (pb_version m)) (pb_version m)) (Ok m) (DeleteRecordsRequest_wire m).
Proof.
  open_message m. eapply consumes_let_or; [by eapply consumes_array_length|].
  eapply consumes_let; [|consume_steps]. eapply consumes_by_key; [eassumption|]. intros k v Hk Hv. cbn in *. consume_steps.
Qed.
#[export] Instance DeleteRecordsRequest_format {order : Iteration} : WireFormat DeleteRecordsRequest := {
  wire := DeleteRecordsRequest_wire;
  wire_ok := DeleteRecordsRequest_ok;
  wire_initial := DeleteRecordsRequest_initial;
  wire_flexible _ _ := eq_refl;
  wire_encode := DeleteRecordsRequest_emits;
  wire_decode := DeleteRecordsRequest_consumes;
}.
(* coev_kafka/delete_records_request.cpp DeleteRecordsRequest::set_version *)
Definition DeleteRecordsRequest_set_version (m : DeleteRecordsRequest) (v : Z) : DeleteRecordsRequest :=
  mkDeleteRecordsRequest v (drq_topics m) (drq_timeout m).
#[export] Instance DeleteRecordsRequest_versioned : Versioned DeleteRecordsRequest := { set_version := DeleteRecordsRequest_set_version }.
#[export] Instance DeleteRecordsRequest_laws {order : Iteration} : VersionLaws DeleteRecordsRequest.
Proof. version_laws. Qed.

(** ** ListGroups *)

(* coev_kafka/list_groups_response.h:22-26 GroupData *)
Record GroupData := mkGroupData { gd_group_state : list Z; gd_group_type : list Z }.

(* coev_kafka/list_groups_response.h:28-47 ListGroupsResponse *)
Record ListGroupsResponse := mkListGroupsResponse {
  lgr_version : Z; lgr_throttle_time : Z; lgr_err : Z; lgr_groups : gmap (list Z) (list Z);
  lgr_groups_data : gmap (list Z) GroupData }.

(** [at] throws for a group without data. *)
(* coev_kafka/list_groups_response.cpp ListGroupsResponse::encode *)
Definition ListGroupsResponse_encode {order : Iteration} (m : ListGroupsResponse) : PE Z :=
  let data_at (groupId : list Z) (k : GroupData -> PE Z) : PE Z :=
    match lgr_groups_data m !! groupId with Some gd => k gd | None => fail FThrow end in
  whenU (1 <=? lgr_version m) (putDurationMs (lgr_throttle_time m)) ;;;
  putKError (lgr_err m) ;;;
  try putArrayLength (to_i32 (Zlen (iterate (lgr_groups m)))) ;;;
  try for_try (iterate (lgr_groups m)) (fun kv =>
    try putString (fst kv) ;;;
    try putString (snd kv) ;;;
    try when (4 <=? lgr_version m) (data_at (fst kv) (fun gd => putString (gd_group_state gd))) ;;;
    try when (5 <=? lgr_version m) (data_at (fst kv) (fun gd => putString (gd_group_type gd))) ;;;
    putEmptyTaggedFieldArray ;;; ret 0) ;;;
  putEmptyTaggedFieldArray ;;;
  ret 0.

(* coev_kafka/list_groups_response.cpp:99-132 ListGroupsResponse::decode *)
Fixpoint read_groups (version : Z) (n : nat) (groups : gmap (list Z) (list Z)) (groups_data : gmap (list Z) GroupData)
  : PD (gmap (list Z) (list Z) * gmap (list Z) GroupData) :=
  match n with
  | O => ok (groups, groups_data)
  | S n' =>
      let! groupId := getString in
      let! protocolType := getString in
      let! groups_data :=
        readIf (4 <=? version)
          (let! state := getString in
           let! type := readIf (5 <=? version) getString [] in
           ok (<[groupId := mkGroupData state type]> groups_data)) groups_data in
      let! _t := getEmptyTaggedFieldArray in
      read_groups version n' (<[groupId := protocolType]> groups) groups_data
  end.
(* coev_kafka/list_groups_response.cpp ListGroupsResponse::decode *)
Definition ListGroupsResponse_decode (self : ListGroupsResponse) (version : Z) : PD ListGroupsResponse :=
  let! throttle_time := readIf (1 <=? version) getDurationMs (lgr_throttle_time self) in
  let! err := getKError in
  let! n := getArrayLength in
  let! p := read_groups version (Z.to_nat n) (if 0 <? n then ∅ else lgr_groups self)
              (if (0 <? n) && (4 <=? version) then ∅ else lgr_groups_data self) in
  let! _t := getEmptyTaggedFieldArray in
  ok (mkListGroupsResponse version throttle_time err (fst p) (snd p)).

(* coev_kafka/list_groups_response.cpp ListGroupsResponse::is_flexible_version *)
Definition ListGroupsResponse_is_flexible_version (ver : Z) : bool := 3 <=? ver.
(* coev_kafka/list_groups_response.cpp ListGroupsResponse::key..ListGroupsResponse::is_flexible *)
#[export] Instance ListGroupsResponse_body {order : Iteration} : protocol_body ListGroupsResponse := {
  pb_encode := ListGroupsResponse_encode;
  pb_decode := ListGroupsResponse_decode;
  pb_key _ := 16;
  pb_version := lgr_version;
  pb_header_version m := if 3 <=? lgr_version m then 1 else 0;
  pb_is_valid_version m := (0 <=? lgr_version m) && (lgr_version m <=? 5);
  pb_is_flexible m := ListGroupsResponse_is_flexible_version (lgr_version m);
  pb_is_flexible_version _ := ListGroupsResponse_is_flexible_version;
}.

Definition group_wire (version : Z) (fl : bool) (data : gmap (list Z) GroupData) (kv : list Z * list Z) : list Z :=
  w_string fl (fst kv) ++ w_string fl (snd kv) ++
  w_when (4 <=? version) (w_string fl (match data !! fst kv with Some gd => gd_group_state gd | None => [] end)) ++
  w_when (5 <=? version) (w_string fl (match data !! fst kv with Some gd => gd_group_type gd | None => [] end)) ++ w_tags fl.
Definition group_data_ok (version : Z) (fl : bool) (d : option GroupData) : Prop :=
  match d with
  | Some gd => (4 <=? version) = true /\ string_ok fl (gd_group_state gd) /\ string_ok fl (gd_group_type gd) /\
               ((5 <=? version) = false -> gd_group_type gd = [])
  | None => (4 <=? version) = false
  end.
#[export] Instance group_data_ok_dec version fl d : Decision (group_data_ok version fl d).
Proof. unfold group_data_ok. destruct d; apply _. Defined.
Definition group_ok (version : Z) (fl : bool) (data : gmap (list Z) GroupData) (kv : list Z * list Z) : Prop :=
  string_ok fl (fst kv) /\ string_ok fl (snd kv) /\ group_data_ok version fl (data !! fst kv).
#[export] Instance group_ok_dec version fl data kv : Decision (group_ok version fl data kv).
Proof. unfold group_ok. apply _. Defined.
Definition ListGroupsResponse_wire {order : Iteration} (m : ListGroupsResponse) : list Z :=
  let fl := pb_is_flexible m in
  w_when (1 <=? lgr_version m) (be 4 (lgr_throttle_time m)) ++ be 2 (lgr_err m) ++
  w_array_length fl (Zlen (iterate (lgr_groups m))) ++
  w_list (group_wire (lgr_version m) fl (lgr_groups_data m)) (iterate (lgr_groups m)) ++ w_tags fl.
(** From version 4 on every group has data, and there is no other data. *)
Definition ListGroupsResponse_ok {order : Iteration} (m : ListGroupsResponse) : Prop :=
  let fl := pb_is_flexible m in
  in_s 32 (lgr_throttle_time m) /\ ((1 <=? lgr_version m) = false -> lgr_throttle_time m = 0) /\
  in_s 16 (lgr_err m) /\ array_fits fl (group_ok (lgr_version m) fl (lgr_groups_data m)) (iterate (lgr_groups m)) /\
  dom (lgr_groups_data m) ⊆ dom (lgr_groups m).
#[export] Instance ListGroupsResponse_ok_dec {order : Iteration} m : Decision (ListGroupsResponse_ok m).
Proof. unfold ListGroupsResponse_ok. cbv zeta. apply _. Defined.
Definition ListGroupsResponse_initial (v : Z) : ListGroupsResponse :=
  mkListGroupsResponse v 0 0 (∅) (∅).
#[export] Hint Unfold ListGroupsResponse_encode ListGroupsResponse_decode ListGroupsResponse_wire ListGroupsResponse_ok ListGroupsResponse_initial : message.

Lemma group_emits version fl data kv :
  group_ok version fl data kv ->
  emits fl
    (try putString (fst kv) ;;; try putString (snd kv) ;;;
     try when (4 <=? version) (match data !! fst kv with Some gd => putString (gd_group_state gd) | None => fail FThrow end) ;;;
     try when (5 <=? version) (match data !! fst kv with Some gd => putString (gd_group_type gd) | None => fail FThrow end) ;;;
     putEmptyTaggedFieldArray ;;; ret 0) 0 (group_wire version fl data kv).
Proof.
  intros (Hk & Hp & Hd). unfold group_wire.
  do 2 (eapply emits_try; [by apply emits_putString|]).
  eapply emits_try; [|eapply emits_try; [|eapply emits_then, emits_putEmptyTaggedFieldArray]].
  - apply emits_when. intros Hv. unfold group_data_ok in Hd. destruct (data !! fst kv); [|congruence].
    apply emits_putString, Hd.
  - apply emits_when. intros Hv. unfold group_data_ok in Hd.
    destruct (data !! fst kv); [|lia]. apply emits_putString, Hd.
Qed.
(** The data of the groups in the list *)
Definition data_of (data : gmap (list Z) GroupData) (l : list (list Z * list Z)) (m : gmap (list Z) GroupData) :=
  fold_left (fun m p => match data !! fst p with Some gd => <[fst p := gd]> m | None => m end) l m.
Lemma data_of_lookup data l m k :
  (forall k, m !! k = None \/ m !! k = data !! k) ->
  data_of data l m !! k = if decide (k ∈ l.*1) then data !! k else m !! k.
Proof.
  revert m. induction l as [|[k' v] l IH]; intros m Hm; [by rewrite decide_False by set_solver|].
  unfold data_of. cbn [fold_left fst]. fold (data_of data l (match data !! k' with Some gd => <[k' := gd]> m | None => m end)).
  rewrite IH.
  - cbn. destruct (decide (k ∈ l.*1)), (decide (k ∈ k' :: l.*1)); try done; [set_solver| |].
    + assert (k = k') as -> by set_solver. destruct (data !! k') eqn:E; [by rewrite lookup_insert_eq|].
      destruct (Hm k'); congruence.
    + destruct (data !! k'); [|done]. rewrite lookup_insert_ne; [done|set_solver].
  - intros k0. destruct (data !! k') eqn:E; [|apply Hm]. destruct (decide (k' = k0)) as [->|].
    + right. by rewrite lookup_insert_eq.
    + rewrite lookup_insert_ne by done. apply Hm.
Qed.
Lemma data_of_all {order : Iteration} (data : gmap (list Z) GroupData) (groups : gmap (list Z) (list Z)) :
  dom data ⊆ dom groups -> data_of data (iterate groups) ∅ = data.
Proof.
  intros Hd. apply map_eq. intros k. rewrite data_of_lookup by (left; apply lookup_empty).
  destruct (decide _) as [|Hk]; [done|]. rewrite lookup_empty. symmetry. apply not_elem_of_dom.
  intros Hin%Hd%elem_of_dom. destruct Hin as [v Hv%iterate_lookup]. apply Hk, list_elem_of_fmap. by exists (k, v).
Qed.
Lemma read_groups_consumes version fl data l gs ds :
  Forall (group_ok version fl data) l ->
  consumes fl (read_groups version (length l) gs ds)
    (Ok (fold_left (fun m p => <[fst p := snd p]> m) l gs, data_of data l ds)) (w_list (group_wire version fl data) l).
Proof.
  intros Hl. revert gs ds. induction Hl as [|[k p] l (Hk & Hp & Hd) Hl IH]; intros gs ds; [apply consumes_ret|].
  change (w_list ?w ((k, p) :: l)) with (w (k, p) ++ w_list w l). unfold group_wire at 1. rewrite <- !app_assoc.
  cbn [length read_groups fst snd] in *. do 2 (eapply consumes_let; [by apply consumes_getString|]).
  unfold data_of. cbn [fold_left fst snd]. unfold group_data_ok in Hd. destruct (data !! k) as [gd|]; cycle 1.
  - replace (5 <=? version) with false by lia. rewrite Hd. unfold w_when. cbn [app readIf].
    eapply (consumes_let _ _ _ ds _ []); [apply consumes_ret|].
    eapply consumes_let; [apply consumes_getEmptyTaggedFieldArray|]. apply IH.
  - destruct Hd as (Hv & Hs & Ht & H0). rewrite Hv. unfold w_when at 1. cbn [readIf]. rewrite app_assoc.
    eapply consumes_let; [|eapply consumes_let; [apply consumes_getEmptyTaggedFieldArray|apply IH]].
    destruct gd as [s ty]. cbn in *. eapply consumes_let; [by apply consumes_getString|].
    eapply consumes_last; [|apply consumes_ret]. apply consumes_readIf; [intros; by apply consumes_getString|].
    intros E. by rewrite (H0 E).
Qed.
Lemma ListGroupsResponse_emits {order : Iteration} m :
  ListGroupsResponse_ok m -> emits (pb_is_flexible m) (pb_encode m) 0 (ListGroupsResponse_wire m).
Proof.
  open_message m. do 2 (eapply emits_seq; [emit_steps|]). eapply emits_try; [by eapply emits_array_length|].
  eapply emits_try; [|eapply emits_then, emits_putEmptyTaggedFieldArray].
  eapply emits_each; [eassumption|]. intros kv Hkv. by apply group_emits.
Qed.
Lemma ListGroupsResponse_consumes {order : Iteration} m :
  ListGroupsResponse_ok m ->
  consumes (pb_is_flexible m) (pb_decode (ListGroupsResponse_initial (pb_version m)) (pb_version m)) (Ok m) (ListGroupsResponse_wire m).
Proof.
  open_message m. do 2 (eapply consumes_let; [consume_steps|]). eapply consumes_let; [by eapply consumes_array_length|].
  rewrite !same_branches, length_Zlen. eapply consumes_let; [apply read_groups_consumes; match goal with H : array_fits _ _ _ |- _ => apply H end|].
  eapply consumes_last; [apply consumes_getEmptyTaggedFieldArray|]. cbn [fst snd].
  rewrite data_of_all by done. fold (umap_of (iterate lgr_groups0)). rewrite umap_of_iterate. apply consumes_ret.
Qed.
#[export] Instance ListGroupsResponse_format {order : Iteration} : WireFormat ListGroupsResponse := {
  wire := ListGroupsResponse_wire;
  wire_ok := ListGroupsResponse_ok;
  wire_initial := ListGroupsResponse_initial;
  wire_flexible _ _ := eq_refl;
  wire_encode := ListGroupsResponse_emits;
  wire_decode := ListGroupsResponse_consumes;
}.
(* coev_kafka/list_groups_response.cpp ListGroupsResponse::set_version *)
Definition ListGroupsResponse_set_version (m : ListGroupsResponse) (v : Z) : ListGroupsResponse :=
  mkListGroupsResponse v (lgr_throttle_time m) (lgr_err m) (lgr_groups m) (lgr_groups_data m).
#[export] Instance ListGroupsResponse_versioned : Versioned ListGroupsResponse := { set_version := ListGroupsResponse_set_version }.
#[export] Instance ListGroupsResponse_laws {order : Iteration} : VersionLaws ListGroupsResponse.
Proof. version_laws. Qed.

(** ** CreateTopics: the error code of a configuration is a tagged field *)

(* coev_kafka/create_topics_response.h:24-33 CreatableTopicConfigs *)
Record CreatableTopicConfigs := mkCreatableTopicConfigs {
  ctc_value : list Z; ctc_read_only : bool; ctc_config_source : Z; ctc_is_sensitive : bool }.

(* coev_kafka/create_topics_response.cpp CreatableTopicConfigs::encode *)
Definition CreatableTopicConfigs_encode (m : CreatableTopicConfigs) : PE Z :=
  try putNullableString (ctc_value m) /! ErrEncodeError ;;;
  putBool (ctc_read_only m) ;;;
  putInt8 (ctc_config_source m) ;;;
  putBool (ctc_is_sensitive m) ;;;
  putEmptyTaggedFieldArray ;;;
  ret ErrNoError.

(* coev_kafka/create_topics_response.cpp CreatableTopicConfigs::decode *)
Definition CreatableTopicConfigs_decode : PD CreatableTopicConfigs :=
  let! value := getNullableString /! ErrDecodeError in
  let! read_only := getBool /! ErrDecodeError in
  let! config_source := getInt8 /! ErrDecodeError in
  let! is_sensitive := getBool /! ErrDecodeError in
  let! _t := getEmptyTaggedFieldArray in
  ok (mkCreatableTopicConfigs value read_only config_source is_sensitive).

Definition CreatableTopicConfigs_wire (fl : bool) (m : CreatableTopicConfigs) : list Z :=
  w_nullable_string fl (ctc_value m) ++ w_bool (ctc_read_only m) ++ be 1 (ctc_config_source m) ++
  w_bool (ctc_is_sensitive m) ++ w_tags fl.
Definition CreatableTopicConfigs_ok (fl : bool) (m : CreatableTopicConfigs) : Prop :=
  string_ok fl (ctc_value m) /\ in_s 8 (ctc_config_source m).
#[export] Instance CreatableTopicConfigs_ok_dec fl m : Decision (CreatableTopicConfigs_ok fl m).
Proof. unfold CreatableTopicConfigs_ok. apply _. Defined.
Lemma CreatableTopicConfigs_emits fl m : CreatableTopicConfigs_ok fl m -> emits fl (CreatableTopicConfigs_encode m) 0 (CreatableTopicConfigs_wire fl m).
Proof. unfold CreatableTopicConfigs_ok, CreatableTopicConfigs_encode, CreatableTopicConfigs_wire. solve_emits m. Qed.
Lemma CreatableTopicConfigs_consumes fl m : CreatableTopicConfigs_ok fl m -> consumes fl CreatableTopicConfigs_decode (Ok m) (CreatableTopicConfigs_wire fl m).
Proof. unfold CreatableTopicConfigs_ok, CreatableTopicConfigs_decode, CreatableTopicConfigs_wire. solve_consumes m. Qed.
#[export] Hint Resolve CreatableTopicConfigs_emits : emit.
#[export] Hint Resolve CreatableTopicConfigs_consumes : consume.
#[global] Arguments CreatableTopicConfigs_wire : simpl never.
#[global] Arguments CreatableTopicConfigs_encode : simpl never.
#[global] Arguments CreatableTopicConfigs_decode : simpl never.
#[global] Arguments CreatableTopicConfigs_ok : simpl never.

(* coev_kafka/create_topics_response.h:35-44 CreatableTopicResult *)
Record CreatableTopicResult := mkCreatableTopicResult {
  ctr_topic_config_error_code : Z; ctr_num_partitions : Z; ctr_replication_factor : Z;
  ctr_configs : list (list Z * CreatableTopicConfigs) }.

(** The code is written as one tagged field, of id 0 and length 2. *)
(* coev_kafka/create_topics_response.cpp CreatableTopicResult::encode *)
Definition CreatableTopicResult_encode (m : CreatableTopicResult) : PE Z :=
  putInt32 (ctr_num_partitions m) ;;;
  putInt16 (ctr_replication_factor m) ;;;
  try putArrayLength (to_i32 (Zlen (ctr_configs m))) /! ErrEncodeError ;;;
  try for_try (ctr_configs m) (fun kv =>
    try putString (fst kv) /! ErrEncodeError ;;;
    try CreatableTopicConfigs_encode (snd kv) /! ErrEncodeError ;;; ret 0) ;;;
  if ctr_topic_config_error_code m =? ErrNoError then putEmptyTaggedFieldArray ;;; ret ErrNoError
  else putUVarint 1 ;;; putUVarint 0 ;;; putUVarint 2 ;;; putInt16 (ctr_topic_config_error_code m) ;;; ret ErrNoError.

(** What the handler of tag 0 captures: the code, when it was called *)
(* coev_kafka/create_topics_response.cpp:341-352 CreatableTopicResult::decode *)
Definition config_error_handler : list (Z * (option Z -> PD (option Z))) :=
  [(0, fun _ => let! e := getInt16 /! ErrDecodeError in ok (Some e))].
(* coev_kafka/create_topics_response.cpp CreatableTopicResult::decode *)
Definition CreatableTopicResult_decode : PD CreatableTopicResult :=
  let! num_partitions := getInt32 /! ErrDecodeError in
  let! replication_factor := getInt16 /! ErrDecodeError in
  let! n := getArrayLength /! ErrDecodeError in
  let! configs := read_map n (
    let! name := getString /! ErrDecodeError in
    let! config := CreatableTopicConfigs_decode /! ErrDecodeError in ok (name, config)) in
  let! tag0 := getTaggedFieldArray config_error_handler None /! ErrDecodeError in
  ok (mkCreatableTopicResult (match tag0 with Some e => e | None => ErrNoError end) num_partitions replication_factor configs).

(** The tags of a result *)
Definition config_error_wire (code : Z) : list Z :=
  if code =? 0 then w_tags true else w_uvarint 1 ++ w_uvarint 0 ++ w_uvarint 2 ++ be 2 code.
Definition CreatableTopicResult_wire (fl : bool) (m : CreatableTopicResult) : list Z :=
  be 4 (ctr_num_partitions m) ++ be 2 (ctr_replication_factor m) ++
  w_array_length fl (Zlen (ctr_configs m)) ++
  w_list (w_pair (w_string fl) (CreatableTopicConfigs_wire fl)) (ctr_configs m) ++
  config_error_wire (ctr_topic_config_error_code m).
Definition CreatableTopicResult_fits (fl : bool) (m : CreatableTopicResult) : Prop :=
  in_s 32 (ctr_num_partitions m) /\ in_s 16 (ctr_replication_factor m) /\
  array_fits fl (pair_ok (string_ok fl) (CreatableTopicConfigs_ok fl)) (ctr_configs m) /\
  map_sorted (ctr_configs m).
#[export] Instance CreatableTopicResult_fits_dec fl m : Decision (CreatableTopicResult_fits fl m).
Proof. unfold CreatableTopicResult_fits. apply _. Defined.
Lemma CreatableTopicResult_emits m :
  CreatableTopicResult_fits true m -> emits true (CreatableTopicResult_encode m) 0 (CreatableTopicResult_wire true m).
Proof.
  unfold CreatableTopicResult_fits, CreatableTopicResult_encode, CreatableTopicResult_wire. destruct m as [e n r cs]. cbn.
  intros (Hn & Hr & Hc & _). do 2 (eapply emits_seq; [emit_steps|]). eapply emits_check; [by eapply emits_array_length|].
  eapply emits_try; [emit_steps|]. unfold config_error_wire, ErrNoError. destruct (e =? 0).
  - eapply emits_then, (emits_putEmptyTaggedFieldArray true).
  - do 3 (eapply emits_seq; [by apply emits_putUVarint|]). eapply emits_then, emits_putInt16.
Qed.
Lemma no_tags_consumes {C} (hs : list (Z * (C -> PD C))) c :
  hs <> [] -> consumes true (getTaggedFieldArray hs c) (Ok c) (w_tags true).
Proof.
  intros Hne. apply consumes_by_ctx. destruct hs as [|h hs]; [done|].
  eapply (consumes_last _ _ _ 0); [by apply (consumes_getUVariant true 0)|]. intros d tl Hok Hc Hr. exact (consumes_ret true (Ok c) d tl Hok Hc Hr).
Qed.
Lemma CreatableTopicResult_consumes m :
  CreatableTopicResult_fits true m -> ctr_topic_config_error_code m = 0 ->
  consumes true CreatableTopicResult_decode (Ok m) (CreatableTopicResult_wire true m).
Proof.
  unfold CreatableTopicResult_fits, CreatableTopicResult_decode, CreatableTopicResult_wire. destruct m as [e n r cs]. cbn.
  intros (Hn & Hr & Hc & Hs) ->. do 3 (eapply consumes_let_or; [consume_steps|]). eapply consumes_let; [consume_steps|].
  eapply consumes_last_or; [by apply no_tags_consumes|apply consumes_ret].
Qed.
#[global] Arguments CreatableTopicResult_wire : simpl never.
#[global] Arguments CreatableTopicResult_encode : simpl never.
#[global] Arguments CreatableTopicResult_decode : simpl never.
#[global] Arguments CreatableTopicResult_fits : simpl never.

(* coev_kafka/create_topics_response.h:46-54 TopicError *)
Record TopicError := mkTopicError {
  toe_err : Z; toe_err_msg : list Z }.

(* coev_kafka/create_topics_response.cpp TopicError::encode *)
Definition TopicError_encode (version : Z) (m : TopicError) : PE Z :=
  putInt16 (toe_err m) ;;;
  try when (1 <=? version) (try putNullableString (toe_err_msg m) /! ErrEncodeError ;;; ret 0) ;;;
  ret ErrNoError.

(* coev_kafka/create_topics_response.cpp TopicError::decode *)
Definition TopicError_decode (version : Z) (self : TopicError) : PD TopicError :=
  let! err := getInt16 /! ErrDecodeError in
  let! err_msg := readIf (1 <=? version) getNullableString (toe_err_msg self) /! ErrDecodeError in
  ok (mkTopicError err err_msg).

Definition TopicError_wire (version : Z) (fl : bool) (m : TopicError) : list Z :=
  be 2 (toe_err m) ++ w_when (1 <=? version) (w_nullable_string fl (toe_err_msg m)).
Definition TopicError_ok (version : Z) (fl : bool) (m : TopicError) : Prop :=
  in_s 16 (toe_err m) /\ string_ok fl (toe_err_msg m) /\
  ((1 <=? version) = false -> toe_err_msg m = []).
#[export] Instance TopicError_ok_dec version fl m : Decision (TopicError_ok version fl m).
Proof. unfold TopicError_ok. apply _. Defined.
Lemma TopicError_emits version fl m : TopicError_ok version fl m -> emits fl (TopicError_encode version m) 0 (TopicError_wire version fl m).
Proof. unfold TopicError_ok, TopicError_encode, TopicError_wire. solve_emits m. Qed.
Lemma TopicError_consumes version fl m : TopicError_ok version fl m -> consumes fl (TopicError_decode version (mkTopicError 0 [])) (Ok m) (TopicError_wire version fl m).
Proof. unfold TopicError_ok, TopicError_decode, TopicError_wire. solve_consumes m. Qed.
#[export] Hint Resolve TopicError_emits : emit.
#[export] Hint Resolve TopicError_consumes : consume.
#[global] Arguments TopicError_wire : simpl never.
#[global] Arguments TopicError_encode : simpl never.
#[global] Arguments TopicError_decode : simpl never.
#[global] Arguments TopicError_ok : simpl never.

(* coev_kafka/create_topics_response.h:56-78 CreateTopicsResponse *)
Record CreateTopicsResponse := mkCreateTopicsResponse {
  cts_version : Z; cts_throttle_time : Z; cts_topic_errors : list (list Z * TopicError);
  cts_topic_results : list (list Z * CreatableTopicResult) }.

(* coev_kafka/create_topics_response.cpp CreateTopicsResponse::encode *)
Definition CreateTopicsResponse_encode (m : CreateTopicsResponse) : PE Z :=
  whenU (2 <=? cts_version m) (putDurationMs (cts_throttle_time m)) ;;;
  try putArrayLength (to_i32 (Zlen (cts_topic_errors m))) /! ErrEncodeError ;;;
  try for_try (cts_topic_errors m) (fun kv =>
    try putString (fst kv) /! ErrEncodeError ;;;
    try TopicError_encode (cts_version m) (snd kv) /! ErrEncodeError ;;;
    if 5 <=? cts_version m then
      match map_find (fst kv) (cts_topic_results m) with
      | None => ret ErrEncodeError
      | Some result => try CreatableTopicResult_encode result /! ErrEncodeError ;;; ret 0
      end
    else ret 0) ;;;
  putEmptyTaggedFieldArray ;;;
  ret ErrNoError.

(* coev_kafka/create_topics_response.cpp:89-113 CreateTopicsResponse::decode *)
Fixpoint read_created (version : Z) (n : nat) (errors : list (list Z * TopicError)) (results : list (list Z * CreatableTopicResult))
  : PD (list (list Z * TopicError) * list (list Z * CreatableTopicResult)) :=
  match n with
  | O => ok (errors, results)
  | S n' =>
      let! topic := getString /! ErrDecodeError in
      let! topicErr := TopicError_decode version (mkTopicError 0 []) /! ErrDecodeError in
      if 5 <=? version then
        let! result := CreatableTopicResult_decode /! ErrDecodeError in
        read_created version n' (map_assign topic topicErr errors) (map_assign topic result results)
      else read_created version n' (map_assign topic topicErr errors) results
  end.
(* coev_kafka/create_topics_response.cpp CreateTopicsResponse::decode *)
Definition CreateTopicsResponse_decode (self : CreateTopicsResponse) (version : Z) : PD CreateTopicsResponse :=
  let! throttle_time := readIf (2 <=? version) getDurationMs (cts_throttle_time self) /! ErrDecodeError in
  let! n := getArrayLength /! ErrDecodeError in
  let! p := read_created version (Z.to_nat n) [] (if 5 <=? version then [] else cts_topic_results self) in
  let! _t := getEmptyTaggedFieldArray in
  ok (mkCreateTopicsResponse version throttle_time (fst p) (snd p)).

(* coev_kafka/create_topics_response.cpp CreateTopicsResponse::is_flexible_version *)
Definition CreateTopicsResponse_is_flexible_version (ver : Z) : bool := 5 <=? ver.
(* coev_kafka/create_topics_response.cpp CreateTopicsResponse::key..CreateTopicsResponse::is_valid_version *)
#[export] Instance CreateTopicsResponse_body : protocol_body CreateTopicsResponse := {
  pb_encode := CreateTopicsResponse_encode;
  pb_decode := CreateTopicsResponse_decode;
  pb_key _ := 19;
  pb_version := cts_version;
  pb_header_version m := if 5 <=? cts_version m then 1 else 0;
  pb_is_valid_version m := (0 <=? cts_version m) && (cts_version m <=? 6);
  pb_is_flexible m := CreateTopicsResponse_is_flexible_version (cts_version m);
  pb_is_flexible_version _ := CreateTopicsResponse_is_flexible_version;
}.

Definition created_wire (version : Z) (fl : bool) (results : list (list Z * CreatableTopicResult)) (kv : list Z * TopicError) : list Z :=
  w_string fl (fst kv) ++ TopicError_wire version fl (snd kv) ++
  w_when (5 <=? version) (match map_find (fst kv) results with Some r => CreatableTopicResult_wire true r | None => [] end).
Definition CreateTopicsResponse_wire (m : CreateTopicsResponse) : list Z :=
  let fl := pb_is_flexible m in
  w_when (2 <=? cts_version m) (be 4 (cts_throttle_time m)) ++
  w_array_length fl (Zlen (cts_topic_errors m)) ++
  w_list (created_wire (cts_version m) fl (cts_topic_results m)) (cts_topic_errors m) ++ w_tags fl.
(** What the encoder writes in full: from version 5 on every topic has a result. *)
Definition CreateTopicsResponse_fits (m : CreateTopicsResponse) : Prop :=
  let fl := pb_is_flexible m in
  in_s 32 (cts_throttle_time m) /\ ((2 <=? cts_version m) = false -> cts_throttle_time m = 0) /\
  array_fits fl (pair_ok (string_ok fl) (TopicError_ok (cts_version m) fl)) (cts_topic_errors m) /\
  map_sorted (cts_topic_errors m) /\ map_sorted (cts_topic_results m) /\
  map_keys (cts_topic_results m) = (if 5 <=? cts_version m then map_keys (cts_topic_errors m) else []) /\
  Forall (fun p => CreatableTopicResult_fits true (snd p)) (cts_topic_results m).
#[export] Instance CreateTopicsResponse_fits_dec m : Decision (CreateTopicsResponse_fits m).
Proof. unfold CreateTopicsResponse_fits. cbv zeta. apply _. Defined.
(** What can be read again: no configuration has an error. *)
Definition CreateTopicsResponse_ok (m : CreateTopicsResponse) : Prop :=
  CreateTopicsResponse_fits m /\ Forall (fun p => ctr_topic_config_error_code (snd p) = 0) (cts_topic_results m).
#[export] Instance CreateTopicsResponse_ok_dec m : Decision (CreateTopicsResponse_ok m).
Proof. unfold CreateTopicsResponse_ok. apply _. Defined.
Definition CreateTopicsResponse_initial (v : Z) : CreateTopicsResponse :=
  mkCreateTopicsResponse v 0 [] [].
#[export] Hint Unfold CreateTopicsResponse_encode CreateTopicsResponse_decode CreateTopicsResponse_wire CreateTopicsResponse_ok CreateTopicsResponse_initial : message.

Lemma created_emits version fl results kv r :
  fl = (5 <=? version) -> string_ok fl (fst kv) -> TopicError_ok version fl (snd kv) ->
  ((5 <=? version) = true -> map_find (fst kv) results = Some r /\ CreatableTopicResult_fits true r) ->
  emits fl
    (try putString (fst kv) /! ErrEncodeError ;;; try TopicError_encode version (snd kv) /! ErrEncodeError ;;;
     if 5 <=? version then
       match map_find (fst kv) results with
       | None => ret ErrEncodeError
       | Some result => try CreatableTopicResult_encode result /! ErrEncodeError ;;; ret 0
       end
     else ret 0) 0 (created_wire version fl results kv).
Proof.
  intros Hfl Hk He Hr. unfold created_wire. eapply emits_check; [by apply emits_putString|].
  eapply emits_check; [by apply TopicError_emits|]. unfold w_when. rewrite <- Hfl in *. destruct fl; [|apply emits_ret].
  destruct (Hr eq_refl) as [-> Hf]. eapply emits_check_last. by apply CreatableTopicResult_emits.
Qed.
Lemma map_keys_find_same (results : list (list Z * CreatableTopicResult)) (errors : list (list Z * TopicError)) kv :
  map_keys results = map_keys errors -> kv ∈ errors -> is_Some (map_find (fst kv) results).
Proof. intros E Hin. apply map_keys_find. rewrite E. by apply list_elem_of_fmap_2. Qed.
Lemma CreateTopicsResponse_writes m :
  CreateTopicsResponse_fits m -> emits (pb_is_flexible m) (pb_encode m) 0 (CreateTopicsResponse_wire m).
Proof.
  destruct m as [v t es rs]. unfold CreateTopicsResponse_fits. cbn. intros (Ht & _ & Hes & _ & Hs & Hk & Hrs).
  unfold CreateTopicsResponse_encode, CreateTopicsResponse_wire. cbn.
  eapply emits_seq; [emit_steps|]. eapply emits_check; [by eapply emits_array_length|].
  eapply emits_try; [|eapply emits_then, emits_putEmptyTaggedFieldArray].
  destruct Hes as (_ & _ & Hf). rewrite Forall_forall in Hf. rewrite Forall_forall in Hrs.
  apply emits_for_try. intros kv Hin. destruct (Hf kv Hin) as [Hn He].
  apply (created_emits v _ rs kv (default (mkCreatableTopicResult 0 0 0 []) (map_find (fst kv) rs))); [done..|].
  intros H5. rewrite H5 in Hk. destruct (map_keys_find_same rs es kv Hk Hin) as [r Hr]. rewrite Hr. split; [done|].
  by apply map_find_in, Hrs in Hr.
Qed.
(** Both maps grow by the topics in turn. *)
Lemma read_created_consumes version l r es rs all :
  (5 <=? version) = true -> map_keys r = map_keys l -> map_sorted (es ++ l) -> map_sorted (rs ++ r) ->
  Forall (pair_ok (string_ok true) (TopicError_ok version true)) l ->
  Forall (fun p => map_find (fst p) all = Some (snd p)) r ->
  Forall (fun p => CreatableTopicResult_fits true (snd p)) r ->
  Forall (fun p => ctr_topic_config_error_code (snd p) = 0) r ->
  consumes true (read_created version (length l) es rs) (Ok (es ++ l, rs ++ r)) (w_list (created_wire version true all) l).
Proof.
  intros H5. revert r es rs. induction l as [|[k e] l IH]; intros [|[k' x] r] es rs; try done.
  { intros. rewrite !app_nil_r. apply consumes_ret. }
  intros [= -> Hk] Hes Hrs [[Hn He] Hl]%Forall_cons [Ha Hall]%Forall_cons [Hf Hfits]%Forall_cons [Hz Hzero]%Forall_cons.
  cbn [fst snd] in *. change (w_list ?w ((k, e) :: l)) with (w (k, e) ++ w_list w l).
  unfold created_wire at 1. cbn [fst snd]. rewrite Ha, H5. unfold w_when at 1. rewrite <- !app_assoc.
  cbn [length read_created]. eapply consumes_let_or; [by apply consumes_getString|].
  eapply consumes_let_or; [by apply TopicError_consumes|]. rewrite H5.
  eapply consumes_let_or; [by apply CreatableTopicResult_consumes|].
  rewrite (map_sorted_assign _ _ _ _ Hes), (map_sorted_assign _ _ _ _ Hrs).
  replace (es ++ (k, e) :: l) with ((es ++ [(k, e)]) ++ l) by by rewrite <- app_assoc.
  replace (rs ++ (k, x) :: r) with ((rs ++ [(k, x)]) ++ r) by by rewrite <- app_assoc.
  apply IH; [done|by rewrite <- app_assoc..|done|done|done|done].
Qed.
Lemma read_created_errors version fl l es rs all :
  (5 <=? version) = false -> map_sorted (es ++ l) ->
  Forall (pair_ok (string_ok fl) (TopicError_ok version fl)) l ->
  consumes fl (read_created version (length l) es rs) (Ok (es ++ l, rs)) (w_list (created_wire version fl all) l).
Proof.
  intros H5 Hes Hl. revert es Hes. induction Hl as [|[k e] l [Hn He] Hl IH]; intros es Hes.
  { rewrite app_nil_r. apply consumes_ret. }
  cbn [fst snd] in *. change (w_list ?w ((k, e) :: l)) with (w (k, e) ++ w_list w l).
  unfold created_wire at 1. cbn [fst snd]. rewrite H5. unfold w_when at 1. rewrite app_nil_r, <- app_assoc.
  cbn [length read_created]. eapply consumes_let_or; [by apply consumes_getString|].
  eapply consumes_let_or; [by apply TopicError_consumes|]. rewrite H5, (map_sorted_assign _ _ _ _ Hes).
  replace (es ++ (k, e) :: l) with ((es ++ [(k, e)]) ++ l) by by rewrite <- app_assoc.
  apply IH. by rewrite <- app_assoc.
Qed.
Lemma CreateTopicsResponse_emits m :
  CreateTopicsResponse_ok m -> emits (pb_is_flexible m) (pb_encode m) 0 (CreateTopicsResponse_wire m).
Proof. intros [Hm _]. by apply CreateTopicsResponse_writes. Qed.
Lemma CreateTopicsResponse_consumes m :
  CreateTopicsResponse_ok m ->
  consumes (pb_is_flexible m) (pb_decode (CreateTopicsResponse_initial (pb_version m)) (pb_version m)) (Ok m) (CreateTopicsResponse_wire m).
Proof.
  destruct m as [v t es rs]. unfold CreateTopicsResponse_ok, CreateTopicsResponse_fits. cbn.
  intros [(Ht & Ht0 & Hes & Hs & Hrs & Hk & Hf) Hz]. unfold CreateTopicsResponse_decode, CreateTopicsResponse_wire. cbn.
  eapply consumes_let_or; [consume_steps|]. eapply consumes_let_or; [by eapply consumes_array_length|]. rewrite length_Zlen.
  destruct Hes as (_ & _ & Hes). eapply (consumes_let _ _ _ (es, rs)); [|eapply consumes_last; [apply consumes_getEmptyTaggedFieldArray|apply consumes_ret]].
  unfold CreateTopicsResponse_is_flexible_version in *. destruct (5 <=? v) eqn:H5.
  - apply (read_created_consumes v es rs [] [] rs); try done. apply Forall_forall. intros [k r] Hin. by apply map_in_find.
  - assert (rs = []) as -> by (by destruct rs). by apply (read_created_errors v false es [] [] []).
Qed.
#[export] Instance CreateTopicsResponse_format : WireFormat CreateTopicsResponse := {
  wire := CreateTopicsResponse_wire;
  wire_ok := CreateTopicsResponse_ok;
  wire_initial := CreateTopicsResponse_initial;
  wire_flexible _ _ := eq_refl;
  wire_encode := CreateTopicsResponse_emits;
  wire_decode := CreateTopicsResponse_consumes;
}.
(* coev_kafka/create_topics_response.cpp CreateTopicsResponse::set_version *)
Definition CreateTopicsResponse_set_version (m : CreateTopicsResponse) (v : Z) : CreateTopicsResponse :=
  mkCreateTopicsResponse v (cts_throttle_time m) (cts_topic_errors m) (cts_topic_results m).
#[export] Instance CreateTopicsResponse_versioned : Versioned CreateTopicsResponse := { set_version := CreateTopicsResponse_set_version }.
#[export] Instance CreateTopicsResponse_laws : VersionLaws CreateTopicsResponse.
Proof. version_laws. Qed.

(** The handler of a code reads behind the field that holds it: a response of version 5 whose one
    topic has a configuration error is refused. *)
Definition example_config_error : CreateTopicsResponse :=
  mkCreateTopicsResponse 5 0 [([97], mkTopicError 0 [])] [([97], mkCreatableTopicResult 29 1 1 [])].
Example config_error_refused :
  CreateTopicsResponse_fits example_config_error /\
  exists helper, decode_version (CreateTopicsResponse_wire example_config_error) (CreateTopicsResponse_initial 5) 5 =
    Done (Err ErrDecodeError) helper.
Proof. split; [by apply (bool_decide_unpack _); vm_compute|]. eexists. vm_compute. reflexivity. Qed.
