(* ===== verification/FetchMessages.v ===== *)
(** * Fetch requests and produce responses

    The body that asks for the records of partitions, and the one that answers a produce
    request; and the requests that are written but cannot be read again. *)
From Stdlib Require Import ZArith Lia Bool.
From stdpp Require Import base tactics list numbers gmap.
From S2P Require Import Prelude Errors Wire Decoder Encoder Codec CodecEnc CodecDec EncoderDecoder.
From S2P Require Import StdMap MessageKit UnorderedMap SetVersion Records Batches OffsetMessages.

(** ** Fetch *)

(* coev_kafka/fetch_request_block.h:15-26 FetchRequestBlock *)
Record FetchRequestBlock := mkFetchRequestBlock {
  frb_version : Z; frb_current_leader_epoch : Z; frb_fetch_offset : Z; frb_log_start_offset : Z;
  frb_max_bytes : Z }.

(* coev_kafka/fetch_request_block.cpp FetchRequestBlock::encode *)
Definition FetchRequestBlock_encode (version : Z) (m : FetchRequestBlock) : PE Z :=
  whenU (9 <=? version) (putInt32 (frb_current_leader_epoch m)) ;;;
  putInt64 (frb_fetch_offset m) ;;;
  whenU (1 <=? version) (putInt64 (frb_log_start_offset m)) ;;;
  putInt32 (frb_max_bytes m) ;;;
  ret 0.

(* coev_kafka/fetch_request_block.cpp FetchRequestBlock::decode *)
Definition FetchRequestBlock_decode (version : Z) (self : FetchRequestBlock) : PD FetchRequestBlock :=
  let! current_leader_epoch := readIf (9 <=? version) getInt32 (frb_current_leader_epoch self) in
  let! fetch_offset := getInt64 in
  let! log_start_offset := readIf (1 <=? version) getInt64 (frb_log_start_offset self) in
  let! max_bytes := getInt32 in
  ok (mkFetchRequestBlock (frb_version self) current_leader_epoch fetch_offset log_start_offset max_bytes).

Definition FetchRequestBlock_wire (version : Z) (fl : bool) (m : FetchRequestBlock) : list Z :=
  w_when (9 <=? version) (be 4 (frb_current_leader_epoch m)) ++ be 8 (frb_fetch_offset m) ++
  w_when (1 <=? version) (be 8 (frb_log_start_offset m)) ++ be 4 (frb_max_bytes m).
Definition FetchRequestBlock_ok (version : Z) (fl : bool) (m : FetchRequestBlock) : Prop :=
  frb_version m = 0 /\ in_s 32 (frb_current_leader_epoch m) /\
  ((9 <=? version) = false -> frb_current_leader_epoch m = 0) /\ in_s 64 (frb_fetch_offset m) /\
  in_s 64 (frb_log_start_offset m) /\ ((1 <=? version) = false -> frb_log_start_offset m = 0) /\
  in_s 32 (frb_max_bytes m).
#[export] Instance FetchRequestBlock_ok_dec version fl m : Decision (FetchRequestBlock_ok version fl m).
Proof. unfold FetchRequestBlock_ok. apply _. Defined.
Lemma FetchRequestBlock_emits version fl m : FetchRequestBlock_ok version fl m -> emits fl (FetchRequestBlock_encode version m) 0 (FetchRequestBlock_wire version fl m).
Proof. unfold FetchRequestBlock_ok, FetchRequestBlock_encode, FetchRequestBlock_wire. solve_emits m. Qed.
Lemma FetchRequestBlock_consumes version fl m : FetchRequestBlock_ok version fl m -> consumes fl (FetchRequestBlock_decode version (mkFetchRequestBlock 0 0 0 0 0)) (Ok m) (FetchRequestBlock_wire version fl m).
Proof. unfold FetchRequestBlock_ok, FetchRequestBlock_decode, FetchRequestBlock_wire. solve_consumes m. Qed.
#[export] Hint Resolve FetchRequestBlock_emits : emit.
#[export] Hint Resolve FetchRequestBlock_consumes : consume.
#[global] Arguments FetchRequestBlock_wire : simpl never.
#[global] Arguments FetchRequestBlock_encode : simpl never.
#[global] Arguments FetchRequestBlock_decode : simpl never.
#[global] Arguments FetchRequestBlock_ok : simpl never.

(* coev_kafka/fetch_request.h:23-47 FetchRequest *)
Record FetchRequest := mkFetchRequest {
  frq_version : Z; frq_max_wait_time : Z; frq_min_bytes : Z; frq_max_bytes : Z; frq_isolation : Z;
  frq_session_id : Z; frq_session_epoch : Z;
  frq_blocks : list (list Z * list (Z * FetchRequestBlock));
  frq_forgotten : list (list Z * list Z); frq_rack_id : list Z }.

(* coev_kafka/fetch_request.cpp FetchRequest::encode *)
Definition FetchRequest_encode (m : FetchRequest) : PE Z :=
  putInt32 (-1) ;;;
  putInt32 (frq_max_wait_time m) ;;;
  putInt32 (frq_min_bytes m) ;;;
  whenU (3 <=? frq_version m) (putInt32 (frq_max_bytes m)) ;;;
  whenU (4 <=? frq_version m) (putInt8 (frq_isolation m)) ;;;
  whenU (7 <=? frq_version m) (putInt32 (frq_session_id m)) ;;;
  whenU (7 <=? frq_version m) (putInt32 (frq_session_epoch m)) ;;;
  try putArrayLength (to_i32 (Zlen (frq_blocks m))) ;;;
  try for_try (frq_blocks m) (fun kv =>
    try putString (fst kv) ;;; try putArrayLength (to_i32 (Zlen (snd kv))) ;;; try for_try (snd kv) (fun kv =>
    putInt32 (fst kv) ;;; try FetchRequestBlock_encode (frq_version m) (snd kv) ;;; ret 0) ;;; ret 0) ;;;
  try when (7 <=? frq_version m) (try putArrayLength (to_i32 (Zlen (frq_forgotten m))) ;;; try for_try (frq_forgotten m) (fun kv =>
    try putString (fst kv) ;;; try putArrayLength (to_i32 (Zlen (snd kv))) ;;; for_do (snd kv) putInt32 ;;; ret 0) ;;; ret 0) ;;;
  try when (11 <=? frq_version m) (putString (frq_rack_id m)) ;;;
  ret 0.

(** [partitions[j]] for a vector that nothing enlarges: beyond its end the behaviour is undefined. *)
(* coev_kafka/fetch_request.cpp:234-240 FetchRequest::decode *)
Fixpoint read_elements (n : nat) (j : Z) (partitions : list Z) : PD (list Z) :=
  match n with
  | O => ok partitions
  | S n' =>
      if j <? Zlen partitions then
        let! x := getInt32 in read_elements n' (j + 1) (<[Z.to_nat j := x]> partitions)
      else fail FUB
  end.
(* coev_kafka/fetch_request.cpp:214-241 FetchRequest::decode *)
Fixpoint read_forgotten (n : nat) (m : list (list Z * list Z)) : PD (list (list Z * list Z)) :=
  match n with
  | O => ok m
  | S n' =>
      let! topic := getString in
      let! partition_count := getArrayLength in
      if partition_count <? 0 then err (-1)
      else
        let! partitions := read_elements (Z.to_nat partition_count) 0 (default [] (map_find topic m)) in
        read_forgotten n' (map_assign topic partitions m)
  end.
(** Without a topic nothing behind the topics is read. *)
(* coev_kafka/fetch_request.cpp FetchRequest::decode *)
Definition FetchRequest_decode (self : FetchRequest) (version : Z) : PD FetchRequest :=
  let! _dummy := getInt32 in
  let! max_wait_time := getInt32 in
  let! min_bytes := getInt32 in
  let! max_bytes := readIf (3 <=? version) getInt32 (frq_max_bytes self) in
  let! isolation := readIf (4 <=? version) getInt8 (frq_isolation self) in
  let! session_id := readIf (7 <=? version) getInt32 (frq_session_id self) in
  let! session_epoch := readIf (7 <=? version) getInt32 (frq_session_epoch self) in
  let! n := getArrayLength in
  if n =? 0 then
    ok (mkFetchRequest version max_wait_time min_bytes max_bytes isolation session_id session_epoch
          (frq_blocks self) (frq_forgotten self) (frq_rack_id self))
  else
  let! blocks := read_map_at [] (Z.to_nat n) getString
    (fun v => let! n := getArrayLength in let! v := read_map_at (mkFetchRequestBlock 0 0 0 0 0) (Z.to_nat n) getInt32
    (fun v => let! v := FetchRequestBlock_decode version v in ok v) v in ok v) [] in
  let! forgotten := readIf (7 <=? version) (let! n := getArrayLength in read_forgotten (Z.to_nat n) []) (frq_forgotten self) in
  let! rack_id := readIf (11 <=? version) getString (frq_rack_id self) in
  ok (mkFetchRequest version max_wait_time min_bytes max_bytes isolation session_id session_epoch blocks forgotten rack_id).

(* coev_kafka/fetch_request.cpp FetchRequest::key..FetchRequest::is_valid_version *)
#[export] Instance FetchRequest_body : protocol_body FetchRequest := {
  pb_encode := FetchRequest_encode;
  pb_decode := FetchRequest_decode;
  pb_key _ := 1;
  pb_version := frq_version;
  pb_header_version m := 1;
  pb_is_valid_version m := (0 <=? frq_version m) && (frq_version m <=? 11);
  pb_is_flexible _ := false;
  pb_is_flexible_version _ _ := false;
}.

Definition FetchRequest_wire (m : FetchRequest) : list Z :=
  let fl := pb_is_flexible m in
  be 4 (-1) ++ be 4 (frq_max_wait_time m) ++ be 4 (frq_min_bytes m) ++
  w_when (3 <=? frq_version m) (be 4 (frq_max_bytes m)) ++
  w_when (4 <=? frq_version m) (be 1 (frq_isolation m)) ++
  w_when (7 <=? frq_version m) (be 4 (frq_session_id m)) ++
  w_when (7 <=? frq_version m) (be 4 (frq_session_epoch m)) ++
  w_array_length fl (Zlen (frq_blocks m)) ++
  w_list (w_pair (w_string fl) ((fun v => w_array_length fl (Zlen v) ++ w_list (w_pair (be 4) (FetchRequestBlock_wire (frq_version m) fl)) v))) (frq_blocks m) ++
  w_when (7 <=? frq_version m) (w_array_length fl (Zlen (frq_forgotten m)) ++ w_list (w_pair (w_string fl) (w_int32_array fl)) (frq_forgotten m)) ++
  w_when (11 <=? frq_version m) (w_string fl (frq_rack_id m)).
(** What the encoder writes in full *)
Definition FetchRequest_fits (m : FetchRequest) : Prop :=
  let fl := pb_is_flexible m in
  in_s 32 (frq_max_wait_time m) /\ in_s 32 (frq_min_bytes m) /\ in_s 32 (frq_max_bytes m) /\
  ((3 <=? frq_version m) = false -> frq_max_bytes m = 0) /\ in_s 8 (frq_isolation m) /\
  ((4 <=? frq_version m) = false -> frq_isolation m = 0) /\ in_s 32 (frq_session_id m) /\
  ((7 <=? frq_version m) = false -> frq_session_id m = 0) /\ in_s 32 (frq_session_epoch m) /\
  ((7 <=? frq_version m) = false -> frq_session_epoch m = 0) /\
  array_fits fl (pair_ok (string_ok fl) ((fun v => array_fits fl (pair_ok (in_s 32) (FetchRequestBlock_ok (frq_version m) fl)) v /\ map_sorted v))) (frq_blocks m) /\
  map_sorted (frq_blocks m) /\
  array_fits fl (pair_ok (string_ok fl) (int32s_ok fl)) (frq_forgotten m) /\
  map_sorted (frq_forgotten m) /\ ((7 <=? frq_version m) = false -> frq_forgotten m = []) /\
  string_ok fl (frq_rack_id m) /\ ((11 <=? frq_version m) = false -> frq_rack_id m = []).
#[export] Instance FetchRequest_fits_dec m : Decision (FetchRequest_fits m).
Proof. unfold FetchRequest_fits. cbv zeta. apply _. Defined.
(** What can be read again: nothing is forgotten, and from version 7 on there is a topic. *)
Definition FetchRequest_ok (m : FetchRequest) : Prop :=
  FetchRequest_fits m /\ Forall (fun p => Zlen (snd p) = 0) (frq_forgotten m) /\
  ((7 <=? frq_version m) = true -> Zlen (frq_blocks m) <> 0).
#[export] Instance FetchRequest_ok_dec m : Decision (FetchRequest_ok m).
Proof. unfold FetchRequest_ok, FetchRequest_fits. cbv zeta. apply _. Defined.
Definition FetchRequest_initial (v : Z) : FetchRequest :=
  mkFetchRequest v 0 0 0 0 0 0 [] [] [].
#[export] Hint Unfold FetchRequest_encode FetchRequest_decode FetchRequest_wire FetchRequest_ok FetchRequest_initial : message.

Lemma emits_ints fl l : emits fl (for_do l putInt32) tt (w_list (be 4) l).
Proof. apply emits_for_do. intros x _. apply emits_putInt32. Qed.
Lemma FetchRequest_writes m :
  FetchRequest_fits m -> emits (pb_is_flexible m) (pb_encode m) 0 (FetchRequest_wire m).
Proof.
  unfold FetchRequest_fits. open_message m. eapply emits_seq; [apply emits_putInt32|].
  do 6 (eapply emits_seq; [emit_steps|]). eapply emits_try; [emit_steps|]. eapply emits_try; [emit_steps|].
  eapply emits_try; [|emit_steps]. apply emits_when. intros _. eapply emits_try; [emit_steps|].
  eapply emits_try_last. eapply emits_each_pair; [eassumption|]. cbn [fst snd]. intros t ps Ht [Hp Hq].
  eapply emits_try; [by apply emits_putString|].
  eapply emits_as; [eapply emits_try; [by apply emits_putArrayLength_of|eapply emits_then, emits_ints]|done].
Qed.
(** Vectors that are empty *)
Lemma read_forgotten_consumes fl acc l :
  map_sorted (acc ++ l) -> Forall (pair_ok (string_ok fl) (int32s_ok fl)) l -> Forall (fun p => Zlen (snd p) = 0) l ->
  consumes fl (read_forgotten (length l) acc) (Ok (acc ++ l)) (w_list (w_pair (w_string fl) (w_int32_array fl)) l).
Proof.
  intros Hs Hf. revert acc Hs. induction Hf as [|[k ps] l [Hk [Hp Hl]] Hf IH]; intros acc Hs.
  - intros _. rewrite app_nil_r. apply consumes_ret.
  - intros [He Hne]%Forall_cons. cbn [fst snd] in *. assert (ps = []) as -> by (apply Zlen_zero; lia).
    change (w_list ?w ((k, []) :: l)) with ((w_string fl k ++ w_array_length fl 0 ++ []) ++ w_list w l).
    rewrite app_nil_r, <- app_assoc. cbn [length read_forgotten]. eapply consumes_let; [by apply consumes_getString|].
    eapply consumes_let; [apply (consumes_getArrayLength fl 0); destruct fl; by apply (bool_decide_unpack _); vm_compute|]. cbn [Z.ltb Z.compare Z.to_nat read_elements].
    rewrite (map_sorted_app_find _ _ _ _ Hs). cbn [default].
    apply (consumes_bind fl (ok []) _ (Ok []) _ []); [apply consumes_ret|]. cbv beta iota.
    rewrite (map_sorted_assign _ _ _ _ Hs).
    replace (acc ++ (k, []) :: l) with ((acc ++ [(k, [])]) ++ l) by by rewrite <- app_assoc.
    apply IH; [by rewrite <- app_assoc|done].
Qed.
Lemma FetchRequest_emits m :
  FetchRequest_ok m -> emits (pb_is_flexible m) (pb_encode m) 0 (FetchRequest_wire m).
Proof. intros [Hm _]. by apply FetchRequest_writes. Qed.
Lemma FetchRequest_consumes m :
  FetchRequest_ok m ->
  consumes (pb_is_flexible m) (pb_decode (FetchRequest_initial (pb_version m)) (pb_version m)) (Ok m) (FetchRequest_wire m).
Proof.
  unfold FetchRequest_ok, FetchRequest_fits. open_message m.
  eapply consumes_let; [by apply (consumes_getInt32 _ (-1))|].
  do 6 (eapply consumes_let; [consume_steps|]). eapply consumes_let; [by eapply consumes_array_length|].
  destruct (Zlen frq_blocks0 =? 0) eqn:E.
  - assert (frq_blocks0 = []) as -> by (apply Zlen_zero; lia). destruct (7 <=? frq_version0) eqn:E7.
    + by destruct (H1 eq_refl).
    + replace (11 <=? frq_version0) with false in * by lia. rewrite H15, H17 by done. apply consumes_ret.
  - eapply consumes_let; [consume_steps|]. eapply consumes_let; [|consume_steps].
    apply consumes_readIf; [|done]. intros _. eapply consumes_let; [by eapply consumes_array_length|].
    rewrite length_Zlen. apply (read_forgotten_consumes false []); [done|apply H13|done].
Qed.
#[export] Instance FetchRequest_format : WireFormat FetchRequest := {
  wire := FetchRequest_wire;
  wire_ok := FetchRequest_ok;
  wire_initial := FetchRequest_initial;
  wire_flexible _ _ := eq_refl;
  wire_encode := FetchRequest_emits;
  wire_decode := FetchRequest_consumes;
}.
(* coev_kafka/fetch_request.cpp FetchRequest::set_version *)
Definition FetchRequest_set_version (m : FetchRequest) (v : Z) : FetchRequest :=
  mkFetchRequest v (frq_max_wait_time m) (frq_min_bytes m) (frq_max_bytes m) (frq_isolation m) (frq_session_id m) (frq_session_epoch m) (frq_blocks m) (frq_forgotten m) (frq_rack_id m).
#[export] Instance FetchRequest_versioned : Versioned FetchRequest := { set_version := FetchRequest_set_version }.
#[export] Instance FetchRequest_laws : VersionLaws FetchRequest.
Proof. version_laws. Qed.

(** ** Produce *)

(** Milliseconds on the wire; the epoch itself is written as the time that is not there. *)
Definition produce_millis (t : time_point) : Z := if 0 <? t then t / nanos_per_milli else -1.
(* coev_kafka/produce_response.cpp:54-64 ProduceResponseBlock::encode *)
Definition put_produce_time (t : time_point) : PE Z :=
  if 0 <? t then putInt64 (Z.quot t nanos_per_milli) ;;; ret 0
  else if negb (t =? 0) then ret (-1)
  else putInt64 (-1) ;;; ret 0.
(* coev_kafka/produce_response.cpp:27-35 ProduceResponseBlock::decode *)
Definition read_produce_time (old : time_point) : PD time_point :=
  let! millis := getInt64 in
  if millis =? -1 then ok old
  else
    let seconds := Z.quot millis 1000 in
    let nanos := Z.rem millis 1000 * 1000000 in
    let* t := i64_arith (seconds * nanos_per_second) in
    let* t := i64_arith (t + nanos) in
    ok t.
Lemma emits_produce_time fl t : 0 <= t -> emits fl (put_produce_time t) 0 (be 8 (produce_millis t)).
Proof.
  intros Ht. unfold put_produce_time, produce_millis. destruct (0 <? t) eqn:E.
  - rewrite Z.quot_div_nonneg by (unfold nanos_per_milli; lia). eapply emits_then, emits_putInt64.
  - replace (t =? 0) with true by lia. eapply emits_then, emits_putInt64.
Qed.
Lemma consumes_produce_time fl t :
  0 <= t < 2 ^ 63 -> t mod nanos_per_milli = 0 -> consumes fl (read_produce_time 0) (Ok t) (be 8 (produce_millis t)).
Proof.
  unfold nanos_per_milli. intros Ht Hm. unfold read_produce_time, produce_millis.
  destruct (0 <? t) eqn:E; cycle 1.
  { replace t with 0 by lia. eapply consumes_last; [by apply consumes_getInt64|]. apply consumes_ret. }
  assert (0 <= t / nanos_per_milli < 2 ^ 63) by (unfold nanos_per_milli; Z.div_mod_to_equations; lia).
  eapply consumes_last; [apply consumes_getInt64; unfold in_s; change (2 ^ (64 - 1)) with (2 ^ 63); lia|].
  replace (t / nanos_per_milli =? -1) with false by lia.
  rewrite Z.quot_div_nonneg, Z.rem_mod_nonneg by lia. unfold nanos_per_second, nanos_per_milli in *.
  assert (forall z, 0 <= z < 2 ^ 63 -> @i64_arith packet_decoder z = ret z) as Ha.
  { intros z Hz. unfold i64_arith. rewrite bool_decide_true; [done|].
    unfold in_s. change (2 ^ (64 - 1)) with (2 ^ 63). lia. }
  rewrite Ha by (Z.div_mod_to_equations; lia). eapply (consumes_bind _ _ _ _ _ []); [apply consumes_ret|].
  rewrite Ha by (Z.div_mod_to_equations; lia). eapply (consumes_bind _ _ _ _ _ []); [apply consumes_ret|].
  replace (_ + _) with t by (Z.div_mod_to_equations; lia). apply consumes_ret.
Qed.
Lemma emits_produce_time_fits fl t : 0 <= t < 2 ^ 63 -> emits fl (put_produce_time t) 0 (be 8 (produce_millis t)).
Proof. intros []. by apply emits_produce_time. Qed.
#[export] Hint Resolve emits_produce_time_fits : emit.
#[export] Hint Resolve consumes_produce_time : consume.

(** The version of a block is that of the response. *)
(* coev_kafka/produce_response.h:25-34 ProduceResponseBlock *)
Record ProduceResponseBlock := mkProduceResponseBlock {
  psb_err : Z; psb_offset : Z; psb_start_offset : Z; psb_timestamp : time_point }.

(* coev_kafka/produce_response.cpp ProduceResponseBlock::encode *)
Definition ProduceResponseBlock_encode (version : Z) (m : ProduceResponseBlock) : PE Z :=
  putKError (psb_err m) ;;;
  putInt64 (psb_offset m) ;;;
  try when (2 <=? version) (put_produce_time (psb_timestamp m)) ;;;
  whenU (5 <=? version) (putInt64 (psb_start_offset m)) ;;;
  ret 0.

(* coev_kafka/produce_response.cpp ProduceResponseBlock::decode *)
Definition ProduceResponseBlock_decode (version : Z) (self : ProduceResponseBlock) : PD ProduceResponseBlock :=
  let! err := getKError in
  let! offset := getInt64 in
  let! timestamp := readIf (2 <=? version) (read_produce_time (psb_timestamp self)) (psb_timestamp self) in
  let! start_offset := readIf (5 <=? version) getInt64 (psb_start_offset self) in
  ok (mkProduceResponseBlock err offset start_offset timestamp).

Definition ProduceResponseBlock_wire (version : Z) (fl : bool) (m : ProduceResponseBlock) : list Z :=
  be 2 (psb_err m) ++ be 8 (psb_offset m) ++
  w_when (2 <=? version) (be 8 (produce_millis (psb_timestamp m))) ++
  w_when (5 <=? version) (be 8 (psb_start_offset m)).
Definition ProduceResponseBlock_ok (version : Z) (fl : bool) (m : ProduceResponseBlock) : Prop :=
  in_s 16 (psb_err m) /\ in_s 64 (psb_offset m) /\ 0 <= psb_timestamp m < 2 ^ 63 /\
  psb_timestamp m mod nanos_per_milli = 0 /\ ((2 <=? version) = false -> psb_timestamp m = 0) /\
  in_s 64 (psb_start_offset m) /\ ((5 <=? version) = false -> psb_start_offset m = 0).
#[export] Instance ProduceResponseBlock_ok_dec version fl m : Decision (ProduceResponseBlock_ok version fl m).
Proof. unfold ProduceResponseBlock_ok. apply _. Defined.
Lemma ProduceResponseBlock_emits version fl m : ProduceResponseBlock_ok version fl m -> emits fl (ProduceResponseBlock_encode version m) 0 (ProduceResponseBlock_wire version fl m).
Proof. unfold ProduceResponseBlock_ok, ProduceResponseBlock_encode, ProduceResponseBlock_wire. solve_emits m. Qed.
Lemma ProduceResponseBlock_consumes version fl m : ProduceResponseBlock_ok version fl m -> consumes fl (ProduceResponseBlock_decode version (mkProduceResponseBlock 0 0 0 0)) (Ok m) (ProduceResponseBlock_wire version fl m).
Proof. unfold ProduceResponseBlock_ok, ProduceResponseBlock_decode, ProduceResponseBlock_wire. solve_consumes m. Qed.
#[export] Hint Resolve ProduceResponseBlock_emits : emit.
#[export] Hint Resolve ProduceResponseBlock_consumes : consume.
#[global] Arguments ProduceResponseBlock_wire : simpl never.
#[global] Arguments ProduceResponseBlock_encode : simpl never.
#[global] Arguments ProduceResponseBlock_decode : simpl never.
#[global] Arguments ProduceResponseBlock_ok : simpl never.

(* coev_kafka/produce_response.h:36-55 ProduceResponse *)
Record ProduceResponse := mkProduceResponse {
  pds_version : Z; pds_blocks : gmap (list Z) (list (Z * ProduceResponseBlock));
  pds_throttle_time : Z }.

(* coev_kafka/produce_response.cpp ProduceResponse::encode *)
Definition ProduceResponse_encode {order : Iteration} (m : ProduceResponse) : PE Z :=
  try putArrayLength (to_i32 (Zlen (iterate (pds_blocks m)))) ;;;
  try for_try (iterate (pds_blocks m)) (fun kv =>
    try putString (fst kv) ;;; try putArrayLength (to_i32 (Zlen (snd kv))) ;;; try for_try (snd kv) (fun kv =>
    putInt32 (fst kv) ;;; try ProduceResponseBlock_encode (pds_version m) (snd kv) ;;; ret 0) ;;; ret 0) ;;;
  whenU (1 <=? pds_version m) (putDurationMs (pds_throttle_time m)) ;;;
  ret 0.

(* coev_kafka/produce_response.cpp ProduceResponse::decode *)
Definition ProduceResponse_decode (self : ProduceResponse) (version : Z) : PD ProduceResponse :=
  let! n := getArrayLength in
  let! blocks := (resize_int n ;;; read_umap_at [] (Z.to_nat n) getString
    (fun v => let! n := getArrayLength in let! v := read_map_at (mkProduceResponseBlock 0 0 0 0) (Z.to_nat n) getInt32
    (fun v => let! v := ProduceResponseBlock_decode version v in ok v) v in ok v) (∅)) in
  let! throttle_time := readIf (1 <=? version) getDurationMs (pds_throttle_time self) in
  ok (mkProduceResponse version blocks throttle_time).

(* coev_kafka/produce_response.cpp ProduceResponse::is_flexible_version *)
Definition ProduceResponse_is_flexible_version (ver : Z) : bool := 8 <=? ver.
(* coev_kafka/produce_response.cpp ProduceResponse::key..ProduceResponse::is_valid_version *)
#[export] Instance ProduceResponse_body {order : Iteration} : protocol_body ProduceResponse := {
  pb_encode := ProduceResponse_encode;
  pb_decode := ProduceResponse_decode;
  pb_key _ := 0;
  pb_version := pds_version;
  pb_header_version m := if 8 <=? pds_version m then 1 else 0;
  pb_is_valid_version m := (0 <=? pds_version m) && (pds_version m <=? 9);
  pb_is_flexible m := ProduceResponse_is_flexible_version (pds_version m);
  pb_is_flexible_version _ := ProduceResponse_is_flexible_version;
}.

Definition ProduceResponse_wire {order : Iteration} (m : ProduceResponse) : list Z :=
  let fl := pb_is_flexible m in
  w_array_length fl (Zlen (iterate (pds_blocks m))) ++
  w_list (w_pair (w_string fl) ((fun v => w_array_length fl (Zlen v) ++ w_list (w_pair (be 4) (ProduceResponseBlock_wire (pds_version m) fl)) v))) (iterate (pds_blocks m)) ++
  w_when (1 <=? pds_version m) (be 4 (pds_throttle_time m)).
Definition ProduceResponse_ok {order : Iteration} (m : ProduceResponse) : Prop :=
  let fl := pb_is_flexible m in
  array_fits fl (pair_ok (string_ok fl) ((fun v => array_fits fl (pair_ok (in_s 32) (ProduceResponseBlock_ok (pds_version m) fl)) v /\ map_sorted v))) (iterate (pds_blocks m)) /\
  in_s 32 (pds_throttle_time m) /\ ((1 <=? pds_version m) = false -> pds_throttle_time m = 0).
#[export] Instance ProduceResponse_ok_dec {order : Iteration} m : Decision (ProduceResponse_ok m).
Proof. unfold ProduceResponse_ok. cbv zeta. apply _. Defined.
Definition ProduceResponse_initial (v : Z) : ProduceResponse :=
  mkProduceResponse v (∅) 0.
#[export] Hint Unfold ProduceResponse_encode ProduceResponse_decode ProduceResponse_wire ProduceResponse_ok ProduceResponse_initial : message.

Lemma ProduceResponse_emits {order : Iteration} m :
  ProduceResponse_ok m -> emits (pb_is_flexible m) (pb_encode m) 0 (ProduceResponse_wire m).
Proof. solve_emits m. Qed.
Lemma ProduceResponse_consumes {order : Iteration} m :
  ProduceResponse_ok m ->
  consumes (pb_is_flexible m) (pb_decode (ProduceResponse_initial (pb_version m)) (pb_version m)) (Ok m) (ProduceResponse_wire m).
Proof. solve_consumes m. Qed.
#[export] Instance ProduceResponse_format {order : Iteration} : WireFormat ProduceResponse := {
  wire := ProduceResponse_wire;
  wire_ok := ProduceResponse_ok;
  wire_initial := ProduceResponse_initial;
  wire_flexible _ _ := eq_refl;
  wire_encode := ProduceResponse_emits;
  wire_decode := ProduceResponse_consumes;
}.
(* coev_kafka/produce_response.cpp ProduceResponse::set_version *)
Definition ProduceResponse_set_version (m : ProduceResponse) (v : Z) : ProduceResponse :=
  mkProduceResponse v (pds_blocks m) (pds_throttle_time m).
#[export] Instance ProduceResponse_versioned : Versioned ProduceResponse := { set_version := ProduceResponse_set_version }.
#[export] Instance ProduceResponse_laws {order : Iteration} : VersionLaws ProduceResponse.
Proof. version_laws. Qed.

(** ** What is written and cannot be read again *)

(** The reader ends in the fault [f] after it has read no more than [bs]. *)
Definition faults {A} (fl : bool) (g : PD A) (f : fault) (bs : list Z) : Prop :=
  forall d tl, pd_ok d -> ctx fl (pd_flexible d) -> rest d = bs ++ tl -> g d = Fault f.
Lemma faults_let {A B} fl f (g : PD A) (k : A -> PD B) v b1 b2 :
  consumes fl g (Ok v) b1 -> faults fl (k v) f b2 -> faults fl (let! x := g in k x) f (b1 ++ b2).
Proof.
  intros H1 H2 d tl Hok Hc Hr. rewrite <- app_assoc in Hr. unfold bind. rewrite (H1 d _ Hok Hc Hr).
  eapply H2; [by eapply pd_ok_advance|by destruct fl|by eapply rest_advance].
Qed.
Lemma faults_here {A B} fl f (g : PD A) (k : A -> PD B) b1 b2 :
  faults fl g f b1 -> faults fl (let! x := g in k x) f (b1 ++ b2).
Proof. intros H d tl Hok Hc Hr. rewrite <- app_assoc in Hr. unfold bind. by rewrite (H d _ Hok Hc Hr). Qed.
Lemma decode_version_faults {T} `{protocol_body T} (in_ : T) version f bs :
  pb_is_flexible_version in_ version = false -> faults false (pb_decode in_ version) f bs ->
  Zlen bs <= MaxRequestSize -> bs <> [] -> decode_version bs in_ version = Fault f.
Proof.
  intros Hf Hd Hl Hne. unfold decode_version. rewrite empty_false by done.
  unfold prepare_flexible_decoder. rewrite Hf. rewrite (Hd (new_decoder bs) []); [done| |done|by rewrite app_nil_r].
  pose proof (Zlen_nonneg bs). unfold MaxRequestSize in Hl. split; cbn; [lia|]. unfold LIMIT. lia.
Qed.

(** The first topic that has partitions to forget *)
Lemma read_forgotten_faults fl acc l :
  map_sorted (acc ++ l) -> Forall (pair_ok (string_ok fl) (int32s_ok fl)) l -> ~ Forall (fun p => Zlen (snd p) = 0) l ->
  faults fl (read_forgotten (length l) acc) FUB (w_list (w_pair (w_string fl) (w_int32_array fl)) l).
Proof.
  intros Hs Hf. revert acc Hs. induction Hf as [|[k ps] l [Hk (Hp & Hlen & _)] Hf IH]; intros acc Hs Hn; [by destruct Hn|].
  cbn [fst snd] in *. change (w_list ?w ((k, ps) :: l)) with ((w_string fl k ++ w_array_length fl (Zlen ps) ++ w_list (be 4) ps) ++ w_list w l).
  rewrite <- !app_assoc. cbn [length read_forgotten].
  eapply faults_let; [by apply consumes_getString|]. eapply faults_let; [by apply consumes_getArrayLength|].
  pose proof (Zlen_nonneg ps). replace (Zlen ps <? 0) with false by lia.
  rewrite (map_sorted_app_find _ _ _ _ Hs). cbn [default]. destruct ps as [|p ps].
  - apply (faults_let fl FUB (read_elements 0 0 []) _ [] []); [apply consumes_ret|].
    rewrite (map_sorted_assign _ _ _ _ Hs). apply IH; [by rewrite <- app_assoc|]. intros Hl. apply Hn. by constructor.
  - rewrite length_Zlen. apply faults_here. intros d tl _ _ _. done.
Qed.

(** A fetch request of version 7 or later *)
Lemma FetchRequest_forgets m :
  FetchRequest_fits m -> 7 <= frq_version m -> Zlen (frq_blocks m) <> 0 ->
  ~ Forall (fun p => Zlen (snd p) = 0) (frq_forgotten m) ->
  faults false (FetchRequest_decode (FetchRequest_initial (frq_version m)) (frq_version m)) FUB (FetchRequest_wire m).
Proof.
  unfold FetchRequest_fits. open_message m. intros Hv Hb Hn.
  eapply faults_let; [by apply (consumes_getInt32 _ (-1))|]. do 6 (eapply faults_let; [consume_steps|]).
  eapply faults_let; [by eapply consumes_array_length|]. replace (Zlen frq_blocks0 =? 0) with false by lia.
  eapply faults_let; [consume_steps|]. replace (7 <=? frq_version0) with true by lia. cbn [readIf w_when].
  eapply faults_here, faults_let; [by eapply consumes_array_length|]. rewrite length_Zlen.
  apply (read_forgotten_faults false []); [done|apply H11|done].
Qed.
(** What is behind the length of the topics of a request that has none *)
Definition FetchRequest_head (m : FetchRequest) : list Z :=
  be 4 (-1) ++ be 4 (frq_max_wait_time m) ++ be 4 (frq_min_bytes m) ++ w_when (3 <=? frq_version m) (be 4 (frq_max_bytes m)) ++
  w_when (4 <=? frq_version m) (be 1 (frq_isolation m)) ++ w_when (7 <=? frq_version m) (be 4 (frq_session_id m)) ++
  w_when (7 <=? frq_version m) (be 4 (frq_session_epoch m)) ++ w_array_length false 0.
Definition FetchRequest_tail (m : FetchRequest) : list Z :=
  w_when (7 <=? frq_version m) (w_array_length false (Zlen (frq_forgotten m)) ++
    w_list (w_pair (w_string false) (w_int32_array false)) (frq_forgotten m)) ++
  w_when (11 <=? frq_version m) (w_string false (frq_rack_id m)).
Lemma FetchRequest_split m : Zlen (frq_blocks m) = 0 -> FetchRequest_wire m = FetchRequest_head m ++ FetchRequest_tail m.
Proof.
  intros E. unfold FetchRequest_wire, FetchRequest_head, FetchRequest_tail. rewrite E.
  assert (frq_blocks m = []) as -> by (apply Zlen_zero; lia). cbn. by rewrite <- !app_assoc.
Qed.
Lemma FetchRequest_no_topics m :
  FetchRequest_fits m -> Zlen (frq_blocks m) = 0 ->
  exists v, consumes false (FetchRequest_decode (FetchRequest_initial (frq_version m)) (frq_version m)) (Ok v) (FetchRequest_head m).
Proof.
  unfold FetchRequest_fits, FetchRequest_head. open_message m. intros Hb. eexists.
  eapply consumes_let; [by apply (consumes_getInt32 _ (-1))|]. do 6 (eapply consumes_let; [consume_steps|]).
  eapply consumes_last; [apply (consumes_getArrayLength false 0); by apply (bool_decide_unpack _); vm_compute|apply consumes_ret].
Qed.

(** Asking for all the partitions before the flexible versions *)
Lemma OffsetFetchRequest_all m :
  OffsetFetchRequest_fits m -> Zlen (orq_partitions m) = 0 -> orq_version m < 6 -> 2 <= orq_version m ->
  refuses false (OffsetFetchRequest_decode (OffsetFetchRequest_initial (orq_version m)) (orq_version m))
    ErrInvalidPartitions (OffsetFetchRequest_wire m).
Proof.
  destruct m as [v g st ps]. unfold OffsetFetchRequest_fits. cbn. intros (Hv & Hg & Hl & _ & _) Hz H6 H2.
  unfold OffsetFetchRequest_decode, OffsetFetchRequest_wire. cbn.
  replace (OffsetFetchRequest_is_flexible_version v) with false in * by (unfold OffsetFetchRequest_is_flexible_version; lia).
  rewrite Hz. replace (2 <=? v) with true by lia. cbn [andb Z.eqb].
  eapply refuses_let; [consume_steps|]. eapply refuses_let; [apply (consumes_null_length false)|].
  rewrite orb_true_r. eexists [], _. split; [done|]. apply consumes_ret.
Qed.
(** No partition asked for in the versions that cannot say so *)
Lemma OffsetFetchRequest_none m :
  OffsetFetchRequest_fits m -> Zlen (orq_partitions m) = 0 -> orq_version m < 2 ->
  refuses false (OffsetFetchRequest_decode (OffsetFetchRequest_initial (orq_version m)) (orq_version m))
    ErrInvalidPartitions (OffsetFetchRequest_wire m).
Proof.
  destruct m as [v g st ps]. unfold OffsetFetchRequest_fits. cbn. intros (Hv & Hg & Hl & _ & _) Hz H2.
  unfold OffsetFetchRequest_decode, OffsetFetchRequest_wire. cbn.
  replace (OffsetFetchRequest_is_flexible_version v) with false in * by (unfold OffsetFetchRequest_is_flexible_version; lia).
  rewrite Hz. replace (2 <=? v) with false by lia. cbn [andb Z.eqb].
  eapply refuses_let; [consume_steps|]. eapply refuses_let; [apply (consumes_getArrayLength false 0); by apply (bool_decide_unpack _); vm_compute|].
  replace (v <? 2) with true by lia. eexists [], _. split; [done|]. apply consumes_ret.
Qed.

(** C30: Requests that are encoded without an error and that the decoder does not give back: an
    OffsetFetch request without partitions before version 6, refused with [ErrInvalidPartitions];
    a Fetch request of version 7 or later without topics, which every fetch session sends,
    refused because of what follows; and one that forgets a partition, which is stored past the
    end of an empty vector. *)
Theorem requests_unreadable :
  (forall m, OffsetFetchRequest_fits m -> Zlen (orq_partitions m) = 0 -> orq_version m < 6 ->
     Zlen (OffsetFetchRequest_wire m) <= MaxRequestSize ->
     encode m [] = Done (ErrNoError, OffsetFetchRequest_wire m) m /\
     exists helper, decode_version (OffsetFetchRequest_wire m) (OffsetFetchRequest_initial (orq_version m)) (orq_version m) =
       Done (Err ErrInvalidPartitions) helper) /\
  (forall m, FetchRequest_fits m -> Zlen (frq_blocks m) = 0 -> 7 <= frq_version m ->
     Zlen (FetchRequest_wire m) <= MaxRequestSize ->
     encode m [] = Done (ErrNoError, FetchRequest_wire m) m /\
     exists helper, decode_version (FetchRequest_wire m) (FetchRequest_initial (frq_version m)) (frq_version m) =
       Done (Err ErrDecodeError) helper) /\
  (forall m, FetchRequest_fits m -> Zlen (frq_blocks m) <> 0 -> 7 <= frq_version m ->
     ~ Forall (fun p => Zlen (snd p) = 0) (frq_forgotten m) -> Zlen (FetchRequest_wire m) <= MaxRequestSize ->
     encode m [] = Done (ErrNoError, FetchRequest_wire m) m /\
     decode_version (FetchRequest_wire m) (FetchRequest_initial (frq_version m)) (frq_version m) = Fault FUB).
Proof.
  split_and!.
  - intros m Hm Hz Hv Hl. split; [by apply (encode_emits m (OffsetFetchRequest_wire m) []); [apply OffsetFetchRequest_writes|]|].
    apply decode_version_refused; [|done|by unfold OffsetFetchRequest_wire; intros [[]%w_string_ne _]%app_eq_nil].
    cbn. replace (OffsetFetchRequest_is_flexible_version (orq_version m)) with false by (unfold OffsetFetchRequest_is_flexible_version; lia).
    destruct (Z_lt_ge_dec (orq_version m) 2); [by apply OffsetFetchRequest_none|apply OffsetFetchRequest_all; done || lia].
  - intros m Hm Hz Hv Hl. split; [by apply (encode_emits m (FetchRequest_wire m) []); [apply FetchRequest_writes|]|].
    destruct (FetchRequest_no_topics m Hm Hz) as [v Hc]. rewrite FetchRequest_split in * by done.
    eapply decode_version_trailing; [exact Hc|done|]. unfold FetchRequest_tail. replace (7 <=? frq_version m) with true by lia.
    cbn [w_when]. by intros [[[]%w_array_length_ne _]%app_eq_nil _]%app_eq_nil.
  - intros m Hm Hz Hv Hf Hl. split; [by apply (encode_emits m (FetchRequest_wire m) []); [apply FetchRequest_writes|]|].
    apply decode_version_faults; [done|by apply FetchRequest_forgets|done|]. by unfold FetchRequest_wire.
Qed.
Definition example_fetch : FetchRequest :=
  mkFetchRequest 7 500 1 1024 0 9 2 [([97], [(0, mkFetchRequestBlock 0 0 100 0 1024)])] [([98], [3])] [].
Example requests_unreadable_witness :
  (exists helper, decode_version (OffsetFetchRequest_wire (mkOffsetFetchRequest 2 [103] false [])) (OffsetFetchRequest_initial 2) 2 =
     Done (Err ErrInvalidPartitions) helper) /\
  (exists helper, decode_version (FetchRequest_wire (mkFetchRequest 7 500 1 1024 0 9 2 [] [] [])) (FetchRequest_initial 7) 7 =
     Done (Err ErrDecodeError) helper) /\
  decode_version (FetchRequest_wire example_fetch) (FetchRequest_initial 7) 7 = Fault FUB.
Proof.
  destruct requests_unreadable as (Ho & Hs & Hf). split_and!.
  - apply (Ho (mkOffsetFetchRequest 2 [103] false [])); by apply (bool_decide_unpack _); vm_compute.
  - apply (Hs (mkFetchRequest 7 500 1 1024 0 9 2 [] [] [])); by apply (bool_decide_unpack _); vm_compute.
  - apply (Hf example_fetch); by apply (bool_decide_unpack _); vm_compute.
Defined.
