(* ===== verification/MessageExchange.v ===== *)
(** * Message bodies on the wire

    The contract of [EncoderDecoder] for the bodies of [GroupMessages], [TxnMessages] and the files
    behind them: what is encoded is the wire form, a fresh object of the same version reads it
    back unchanged, and bytes behind it are refused. *)
From Stdlib Require Import ZArith Lia.
From stdpp Require Import base tactics list numbers gmap.
From S2P Require Import Prelude Errors Wire Codec CodecEnc Encoder Decoder EncoderDecoder SetVersion MessageKit UnorderedMap.
From S2P Require Import GroupMessages TxnMessages AdminMessages ConfigMessages AclMessages ClusterMessages DescribeMessages MetadataMessages OffsetMessages FetchMessages TopicMessages.

(** Encoding appends the wire form, decoding it into a fresh object gives the message with
    nothing left over, whichever version the object was made for before, and a longer buffer is
    refused with [ErrDecodeError]. *)
Definition travels {T} `{WireFormat T, !Versioned T} (m : T) : Prop :=
  roundtrips (fun v => set_version (wire_initial 0) v) wire m /\
  forall extra, extra <> [] -> Zlen (wire m ++ extra) <= MaxRequestSize ->
    exists helper, decode_version (wire m ++ extra) (set_version (wire_initial 0) (pb_version m)) (pb_version m) =
      Done (Err ErrDecodeError) helper.

Lemma travels_wire {T} `{VersionLaws T} (m : T) :
  wire_ok m -> Zlen (wire m) <= MaxRequestSize -> wire m <> [] \/ wire_initial (pb_version m) = m -> travels m.
Proof.
  intros Hm Hl Hne. split.
  - destruct (wire_roundtrips m Hm Hl Hne) as [He Hd]. split; [exact He|]. by rewrite set_version_initial.
  - intros extra Hx Hb. rewrite set_version_initial. eapply decode_version_trailing; [|done..].
    rewrite wire_flexible. by apply wire_decode.
Qed.

(** What a wire form can begin with is never empty. *)
Lemma w_bytes_ne fl s : w_bytes fl s <> [].
Proof. unfold w_bytes. destruct fl; [|by destruct (empty s)]. intros [[]%encodeUVariant_ne _]%app_eq_nil. Qed.
Lemma w_string_array_ne fl l : w_string_array fl l <> [].
Proof. unfold w_string_array. intros [[]%w_array_length_ne _]%app_eq_nil. Qed.
Lemma w_topics_ne fl v l : w_topics fl v l <> [].
Proof.
  unfold w_topics. destruct (_ || _); [|apply w_array_length_ne]. intros [[]%w_array_length_ne _]%app_eq_nil.
Qed.

Ltac solve_travels :=
  intros; match goal with Hm : wire_ok ?m', Hl : Zlen (wire ?m') <= _ |- _ =>
    refine (travels_wire m' Hm Hl (or_introl _)) end; cbn;
  first
    [ wire_nonempty
    | autounfold with message; intros [E _]%app_eq_nil;
      first [by eapply w_bytes_ne|by eapply w_string_array_ne|by eapply w_topics_ne]
    | by apply w_bytes_ne ].

(** The two requests whose wire form is empty in the versions before there was something to say *)
Lemma ApiVersionsRequest_travels (m : ApiVersionsRequest) :
  wire_ok m -> Zlen (wire m) <= MaxRequestSize -> travels m.
Proof.
  intros Hm Hl. refine (travels_wire m Hm Hl _). cbn. unfold ApiVersionsRequest_wire.
  destruct (3 <=? avq_version m) eqn:Ev.
  - left. cbn. intros [E _]%app_eq_nil. by eapply w_string_ne.
  - right. destruct m as [v n s]. destruct Hm as (_ & _ & Hn & _ & _ & Hs). cbn in *. by rewrite Hn, Hs.
Qed.
Lemma ListGroupsRequest_travels (m : ListGroupsRequest) :
  wire_ok m -> Zlen (wire m) <= MaxRequestSize -> travels m.
Proof.
  intros Hm Hl. refine (travels_wire m Hm Hl _). cbn. unfold ListGroupsRequest_wire.
  destruct (4 <=? lgq_version m) eqn:Ev.
  - left. cbn. intros [E _]%app_eq_nil. by eapply w_string_array_ne.
  - right. destruct m as [v s t]. destruct Hm as (_ & Hs & _ & Ht). cbn in *. rewrite Ev in *.
    by rewrite Hs, Ht.
Qed.

(** C2: Every group, transaction, topic, SASL, coordinator, configuration, ACL, reassignment, quota,
    credential, log-directory, description, metadata, offset, fetch and produce-response body
    for which [wire_ok] holds is encoded to its wire form, in whatever order its unordered maps
    are iterated, is read back unchanged with nothing left over into a fresh object whose
    version was set to the message's, and is refused when bytes follow it.  [wire_ok] says, for
    each body in its file, that the members are in the ranges the encoding can carry, that those
    the version does not carry have their initial values, and that the body holds nothing its
    decoder is shown or known not to give back: a DescribeGroups response has no members, a
    DescribeClientQuotas request no components, a Fetch request of version 7 or later has a
    topic and no Fetch request forgets a partition, an OffsetFetch request before version 6 is
    not for all partitions, an OffsetCommit request has no topic without partitions, a
    CreateTopics response no configuration error code, a SASL authenticate response no message,
    an OffsetResponse of version 1 or later the one offset it is for, an ApiVersions response
    of a version above 0 no unsupported-version code, a broker's address is a host other than
    localhost and a port, a coordinator is there, a JoinGroup request
    has its protocols in one of its two members, and in the flexible encoding an array written
    by [putStringArray], the topics of CreatePartitions and the resources of DescribeConfigs are
    empty. *)
Theorem message_bodies_travel :
  (forall m : HeartbeatRequest, wire_ok m -> Zlen (wire m) <= MaxRequestSize -> travels m) /\
  (forall m : HeartbeatResponse, wire_ok m -> Zlen (wire m) <= MaxRequestSize -> travels m) /\
  (forall m : LeaveGroupRequest, wire_ok m -> Zlen (wire m) <= MaxRequestSize -> travels m) /\
  (forall m : LeaveGroupResponse, wire_ok m -> Zlen (wire m) <= MaxRequestSize -> travels m) /\
  (forall m : SyncGroupRequest, wire_ok m -> Zlen (wire m) <= MaxRequestSize -> travels m) /\
  (forall m : SyncGroupResponse, wire_ok m -> Zlen (wire m) <= MaxRequestSize -> travels m) /\
  (forall m : InitProducerIDRequest, wire_ok m -> Zlen (wire m) <= MaxRequestSize -> travels m) /\
  (forall m : InitProducerIDResponse, wire_ok m -> Zlen (wire m) <= MaxRequestSize -> travels m) /\
  (forall m : AddOffsetsToTxnRequest, wire_ok m -> Zlen (wire m) <= MaxRequestSize -> travels m) /\
  (forall m : AddOffsetsToTxnResponse, wire_ok m -> Zlen (wire m) <= MaxRequestSize -> travels m) /\
  (forall m : EndTxnRequest, wire_ok m -> Zlen (wire m) <= MaxRequestSize -> travels m) /\
  (forall m : EndTxnResponse, wire_ok m -> Zlen (wire m) <= MaxRequestSize -> travels m) /\
  (forall m : AddPartitionsToTxnResponse, wire_ok m -> Zlen (wire m) <= MaxRequestSize -> travels m) /\
  (forall m : SaslHandshakeRequest, wire_ok m -> Zlen (wire m) <= MaxRequestSize -> travels m) /\
  (forall m : SaslHandshakeResponse, wire_ok m -> Zlen (wire m) <= MaxRequestSize -> travels m) /\
  (forall m : SaslAuthenticateRequest, wire_ok m -> Zlen (wire m) <= MaxRequestSize -> travels m) /\
  (forall m : SaslAuthenticateResponse, wire_ok m -> Zlen (wire m) <= MaxRequestSize -> travels m) /\
  (forall m : FindCoordinatorRequest, wire_ok m -> Zlen (wire m) <= MaxRequestSize -> travels m) /\
  (forall m : DeleteGroupsRequest, wire_ok m -> Zlen (wire m) <= MaxRequestSize -> travels m) /\
  (forall m : DeleteGroupsResponse, wire_ok m -> Zlen (wire m) <= MaxRequestSize -> travels m) /\
  (forall m : DescribeGroupsRequest, wire_ok m -> Zlen (wire m) <= MaxRequestSize -> travels m) /\
  (forall m : ListGroupsRequest, wire_ok m -> Zlen (wire m) <= MaxRequestSize -> travels m) /\
  (forall m : DeleteTopicsRequest, wire_ok m -> Zlen (wire m) <= MaxRequestSize -> travels m) /\
  (forall m : DeleteTopicsResponse, wire_ok m -> Zlen (wire m) <= MaxRequestSize -> travels m) /\
  (forall m : CreatePartitionsRequest, wire_ok m -> Zlen (wire m) <= MaxRequestSize -> travels m) /\
  (forall m : CreatePartitionsResponse, wire_ok m -> Zlen (wire m) <= MaxRequestSize -> travels m) /\
  (forall m : DeleteRecordsResponse, wire_ok m -> Zlen (wire m) <= MaxRequestSize -> travels m) /\
  (forall m : AlterConfigsRequest, wire_ok m -> Zlen (wire m) <= MaxRequestSize -> travels m) /\
  (forall m : AlterConfigsResponse, wire_ok m -> Zlen (wire m) <= MaxRequestSize -> travels m) /\
  (forall m : IncrementalAlterConfigsRequest, wire_ok m -> Zlen (wire m) <= MaxRequestSize -> travels m) /\
  (forall m : IncrementalAlterConfigsResponse, wire_ok m -> Zlen (wire m) <= MaxRequestSize -> travels m) /\
  (forall m : DescribeConfigsRequest, wire_ok m -> Zlen (wire m) <= MaxRequestSize -> travels m) /\
  (forall m : DescribeConfigsResponse, wire_ok m -> Zlen (wire m) <= MaxRequestSize -> travels m) /\
  (forall m : CreateTopicsRequest, wire_ok m -> Zlen (wire m) <= MaxRequestSize -> travels m) /\
  (forall m : ApiVersionsRequest, wire_ok m -> Zlen (wire m) <= MaxRequestSize -> travels m) /\
  (forall m : ApiVersionsResponse, wire_ok m -> Zlen (wire m) <= MaxRequestSize -> travels m) /\
  (forall m : CreateAclsRequest, wire_ok m -> Zlen (wire m) <= MaxRequestSize -> travels m) /\
  (forall m : CreateAclsResponse, wire_ok m -> Zlen (wire m) <= MaxRequestSize -> travels m) /\
  (forall m : DeleteAclsRequest, wire_ok m -> Zlen (wire m) <= MaxRequestSize -> travels m) /\
  (forall m : DeleteAclsResponse, wire_ok m -> Zlen (wire m) <= MaxRequestSize -> travels m) /\
  (forall m : DescribeAclsRequest, wire_ok m -> Zlen (wire m) <= MaxRequestSize -> travels m) /\
  (forall m : DescribeAclsResponse, wire_ok m -> Zlen (wire m) <= MaxRequestSize -> travels m) /\
  (forall m : AlterPartitionReassignmentsRequest, wire_ok m -> Zlen (wire m) <= MaxRequestSize -> travels m) /\
  (forall m : AlterPartitionReassignmentsResponse, wire_ok m -> Zlen (wire m) <= MaxRequestSize -> travels m) /\
  (forall m : ListPartitionReassignmentsResponse, wire_ok m -> Zlen (wire m) <= MaxRequestSize -> travels m) /\
  (forall m : DescribeClientQuotasResponse, wire_ok m -> Zlen (wire m) <= MaxRequestSize -> travels m) /\
  (forall m : AlterClientQuotasRequest, wire_ok m -> Zlen (wire m) <= MaxRequestSize -> travels m) /\
  (forall m : AlterClientQuotasResponse, wire_ok m -> Zlen (wire m) <= MaxRequestSize -> travels m) /\
  (forall m : AlterUserScramCredentialsResponse, wire_ok m -> Zlen (wire m) <= MaxRequestSize -> travels m) /\
  (forall m : DescribeUserScramCredentialsRequest, wire_ok m -> Zlen (wire m) <= MaxRequestSize -> travels m) /\
  (forall m : DescribeUserScramCredentialsResponse, wire_ok m -> Zlen (wire m) <= MaxRequestSize -> travels m) /\
  (forall m : DescribeLogDirsRequest, wire_ok m -> Zlen (wire m) <= MaxRequestSize -> travels m) /\
  (forall m : DescribeLogDirsResponse, wire_ok m -> Zlen (wire m) <= MaxRequestSize -> travels m) /\
  (forall m : JoinGroupResponse, wire_ok m -> Zlen (wire m) <= MaxRequestSize -> travels m) /\
  (forall m : DescribeGroupsResponse, wire_ok m -> Zlen (wire m) <= MaxRequestSize -> travels m) /\
  (forall m : DescribeClientQuotasRequest, wire_ok m -> Zlen (wire m) <= MaxRequestSize -> travels m) /\
  (forall m : MetadataRequest, wire_ok m -> Zlen (wire m) <= MaxRequestSize -> travels m) /\
  (forall m : MetadataResponse, wire_ok m -> Zlen (wire m) <= MaxRequestSize -> travels m) /\
  (forall m : FindCoordinatorResponse, wire_ok m -> Zlen (wire m) <= MaxRequestSize -> travels m) /\
  (forall (order : Iteration) (m : OffsetRequest), wire_ok m -> Zlen (wire m) <= MaxRequestSize -> travels m) /\
  (forall (order : Iteration) (m : OffsetResponse), wire_ok m -> Zlen (wire m) <= MaxRequestSize -> travels m) /\
  (forall (order : Iteration) (m : OffsetCommitResponse), wire_ok m -> Zlen (wire m) <= MaxRequestSize -> travels m) /\
  (forall m : OffsetFetchResponse, wire_ok m -> Zlen (wire m) <= MaxRequestSize -> travels m) /\
  (forall m : DeleteOffsetsResponse, wire_ok m -> Zlen (wire m) <= MaxRequestSize -> travels m) /\
  (forall (order : Iteration) (m : DeleteOffsetsRequest), wire_ok m -> Zlen (wire m) <= MaxRequestSize -> travels m) /\
  (forall (order : Iteration) (m : OffsetCommitRequest), wire_ok m -> Zlen (wire m) <= MaxRequestSize -> travels m) /\
  (forall m : OffsetFetchRequest, wire_ok m -> Zlen (wire m) <= MaxRequestSize -> travels m) /\
  (forall m : FetchRequest, wire_ok m -> Zlen (wire m) <= MaxRequestSize -> travels m) /\
  (forall (order : Iteration) (m : ProduceResponse), wire_ok m -> Zlen (wire m) <= MaxRequestSize -> travels m) /\
  (forall (order : Iteration) (m : ElectLeadersRequest), wire_ok m -> Zlen (wire m) <= MaxRequestSize -> travels m) /\
  (forall (order : Iteration) (m : ElectLeadersResponse), wire_ok m -> Zlen (wire m) <= MaxRequestSize -> travels m) /\
  (forall (order : Iteration) (m : ListPartitionReassignmentsRequest), wire_ok m -> Zlen (wire m) <= MaxRequestSize -> travels m) /\
  (forall m : ConsumerMetadataRequest, wire_ok m -> Zlen (wire m) <= MaxRequestSize -> travels m) /\
  (forall (order : Iteration) (m : DeleteRecordsRequest), wire_ok m -> Zlen (wire m) <= MaxRequestSize -> travels m) /\
  (forall (order : Iteration) (m : ListGroupsResponse), wire_ok m -> Zlen (wire m) <= MaxRequestSize -> travels m) /\
  (forall m : CreateTopicsResponse, wire_ok m -> Zlen (wire m) <= MaxRequestSize -> travels m).
Proof.
  split_and!; first [apply ApiVersionsRequest_travels | apply ListGroupsRequest_travels | solve_travels].
Qed.
Definition example_topics : DeleteTopicsResponse :=
  mkDeleteTopicsResponse 4 100 [([97], 0); ([97; 98], 41)].
Definition example_commit : OffsetCommitRequest :=
  mkOffsetCommitRequest 7 [103] 3 [109] [] 0
    {[ [116] := [(0, mkOffsetCommitRequestBlock 42 0 5 []); (1, mkOffsetCommitRequestBlock 7 0 5 [120])];
       [117] := [(2, mkOffsetCommitRequestBlock 0 0 (-1) [])] ]}.
Definition example_metadata : MetadataResponse :=
  mkMetadataResponse 10 5 [mkBrokerNode 1 [] (JoinHostPort [104] 9092)]
    [mkTopicMetadata 10 0 [116] (replicate 16 7) false [mkPartitionMetadata 10 0 0 1 3 [1] [1] []] 0] [99] 1 0.
(** The conjunct about the body [T] *)
Ltac of_body all T :=
  let H := fresh in pose proof all as H;
  repeat lazymatch type of H with
    | (forall _ : T, _) /\ _ => destruct H as [H _]
    | (forall (_ : Iteration) (_ : T), _) /\ _ => destruct H as [H _]
    | _ /\ _ => destruct H as [_ H]
    end;
  apply H; first [by apply (bool_decide_unpack _); vm_compute | by vm_compute].
Example message_bodies_travel_witness :
  travels example_topics /\ travels example_metadata /\
  (let order := list_order in travels example_commit) /\ travels (mkApiVersionsRequest 0 defaultClientSoftwareName defaultClientSoftwareVersion).
Proof.
  assert (all := message_bodies_travel).
  split_and!; [of_body all DeleteTopicsResponse|of_body all MetadataResponse| |of_body all ApiVersionsRequest].
  intros order. of_body all OffsetCommitRequest.
Defined.
