(* ===== verification/BatchRead.v ===== *)
(** * Record batches: reading

    [RecordBatch::decode] of [coev_kafka/record_batch.cpp], which goes on after most of the
    reads that fail and decodes records in place, and what it makes of the batches [Batches]
    writes. *)
From Stdlib Require Import ZArith Lia Bool.
From stdpp Require Import base tactics list numbers sets.
From S2P Require Import Prelude Errors Wire Crc Fields Encoder Decoder Codec CodecEnc CodecDec.
From S2P Require Import EncoderDecoder Records Batches.

(** [pd.get(x);] with the result dropped: what the getter stores after an error *)
Definition get_or {A} (failed : A) (g : PD A) : M packet_decoder A :=
  let* r := g in ret (match r with Ok x => x | Err _ => failed end).

Definition default_record : record := mkRecord [] 0 0 0 [] [] VariantLengthField_default.
(** The offset, the epoch and the version of a batch are set. *)
Definition with_head (first_offset epoch version : Z) (o : RecordBatch) : RecordBatch :=
  mkRecordBatch version (rb_codec o) first_offset epoch (rb_last_offset_delta o) (rb_first_timestamp o) (rb_max_timestamp o)
    (rb_producer_id o) (rb_producer_epoch o) (rb_first_sequence o) (rb_control o) (rb_log_append_time o)
    (rb_is_transactional o) (rb_compressed_records o) (rb_records o).

Section RecordBatch.
(** The compression libraries: what the output holds after the call. *)
Context (library_decompress : CompressionCodec -> list Z -> list Z).

(* coev_kafka/message.cpp decompress *)
Definition decompress (codec : CompressionCodec) (data : list Z) : list Z :=
  if (codec =? GZIP) || (codec =? Snappy) || (codec =? LZ4) || (codec =? ZSTD)
  then library_decompress codec data else data.

(** The fields behind the CRC, up to the number of records.  An integer that cannot be read
    is -1 - the number of records, in the flexible form, 0; the two timestamps are decoded
    into copies, and the members stay as they were. *)
(* coev_kafka/record_batch.cpp:162-186 RecordBatch::decode *)
Definition RecordBatch_fields (o : RecordBatch) : M packet_decoder (RecordBatch * Z) :=
  let* attributes := get_or (-1) getInt16 in
  let '(codec, control, log_append_time, is_transactional) := read_attributes attributes in
  let* last_offset_delta := get_or (-1) getInt32 in
  let* _first := get_or (rb_first_timestamp o) Timestamp_decode in
  let* _max_time := get_or (rb_max_timestamp o) Timestamp_decode in
  let* producer_id := get_or (-1) getInt64 in
  let* producer_epoch := get_or (-1) getInt16 in
  let* first_sequence := get_or (-1) getInt32 in
  let* flexible := gets pd_flexible in
  let* num_record := get_or (if flexible =? 0 then -1 else 0) getArrayLength in
  let records := if 0 <=? num_record then resize_list default_record num_record (rb_records o) else rb_records o in
  ret (mkRecordBatch (rb_version o) codec (rb_first_offset o) (rb_partition_leader_epoch o) last_offset_delta
         (rb_first_timestamp o) (rb_max_timestamp o) producer_id producer_epoch first_sequence control log_append_time
         is_transactional (rb_compressed_records o) records, num_record).

(** What lies between the push and the pop of the CRC: the batch and the number of records,
    and their bytes, or the error that leaves the CRC on the stack *)
(* coev_kafka/record_batch.cpp:162-193 RecordBatch::decode *)
Definition RecordBatch_behind_crc (o : RecordBatch) (batch_len : Z)
  : M packet_decoder (RecordBatch * Z * dres (list Z)) :=
  let* bn := RecordBatch_fields o in
  let* buf_size := i32_arith (batch_len - RECORD_BATCH_OVERHEAD) in
  let* rec_buffer := getRawBytes buf_size in
  ret (bn, rec_buffer).

(** [for (i = 0; i < num_record; ++i) decode(decompressed, m_records)]: all records, over
    and over, in place; the code is dropped. *)
(* coev_kafka/record_batch.cpp:199-206 RecordBatch::decode *)
Fixpoint decode_passes (n : nat) (buf : list Z) (records : list record) : outcome unit (list record) :=
  match n with
  | O => Done records tt
  | S n' =>
      match decode_records buf records with
      | Fault f => Fault f
      | Done (_, records') _ => decode_passes n' buf records'
      end
  end.

(** The code, and the batch as it is then.  The exception of another version is not caught,
    nor is that of bytes behind the last record. *)
(* coev_kafka/record_batch.cpp RecordBatch::decode *)
Definition RecordBatch_decode (o : RecordBatch) : M packet_decoder (Z * RecordBatch) :=
  let epoch := rb_partition_leader_epoch o in
  let version := rb_version o in
  let* first_offset := getInt64 in
  match first_offset with Err e => ret (e, with_head (-1) epoch version o) | Ok first_offset =>
  let* batch_len := getInt32 in
  match batch_len with Err e => ret (e, with_head first_offset epoch version o) | Ok batch_len =>
  let* epoch := getInt32 in
  match epoch with Err e => ret (e, with_head first_offset (-1) version o) | Ok epoch =>
  let* version := getInt8 in
  match version with Err e => ret (e, with_head first_offset epoch (-1) o) | Ok version =>
  if negb (version =? 2) then fail FThrow
  else
    let* _r := pd_push (FCrc32 (mkCrc32Field 0 CrcCastagnoli)) in
    let* x := RecordBatch_behind_crc (with_head first_offset epoch version o) batch_len in
    let '(b, num_record, rec_buffer) := x in
    match rec_buffer with Err e => ret (e, b) | Ok rec_buffer =>
    let* _r := pd_pop in
    let decompressed := decompress (rb_codec b) rec_buffer in
    match decode_passes (Z.to_nat num_record) decompressed (rb_records b) with
    | Fault f => fail f
    | Done records _ => ret (0, with_records records b)
    end end end end end end.

(** ** Facts *)

Lemma get_or_consumes {A} fl (failed : A) (g : PD A) v bs : consumes fl g (Ok v) bs -> consumes fl (get_or failed g) v bs.
Proof.
  intros H. unfold get_or. eapply consumes_as; [eapply consumes_bind; [exact H|apply consumes_ret]|apply app_nil_r].
Qed.

(** The fields of a batch, in their order on the wire. *)
Definition fields_wire (b : RecordBatch) : list Z :=
  be 2 (compute_attributes b) ++ be 4 (rb_last_offset_delta b) ++
  be 8 (rb_first_timestamp b / nanos_per_milli) ++ be 8 (rb_max_timestamp b / nanos_per_milli) ++
  be 8 (rb_producer_id b) ++ be 2 (rb_producer_epoch b) ++ be 4 (rb_first_sequence b) ++
  be 4 (Zlen (rb_records b)).
Definition fields_ok (b : RecordBatch) : Prop :=
  0 <= rb_codec b < 8 /\ in_s 64 (rb_first_offset b) /\ in_s 32 (rb_partition_leader_epoch b) /\
  in_s 32 (rb_last_offset_delta b) /\
  0 <= rb_first_timestamp b < 2 ^ 63 /\ 0 <= rb_max_timestamp b < 2 ^ 63 /\
  in_s 64 (rb_producer_id b) /\ in_s 16 (rb_producer_epoch b) /\ in_s 32 (rb_first_sequence b) /\
  length_ok false (Zlen (rb_records b)).

Lemma Timestamp_reads fl t : 0 <= t < 2 ^ 63 ->
  exists t', consumes fl Timestamp_decode (Ok t') (be 8 (t / nanos_per_milli)).
Proof.
  intros Ht. eexists. apply Timestamp_consumes; unfold nanos_per_milli, MAX_MILLIS, in_s.
  - change (2 ^ (64 - 1)) with 9223372036854775808. change (2 ^ 63) with 9223372036854775808 in Ht.
    Z.div_mod_to_equations; lia.
  - change (2 ^ 63) with 9223372036854775808 in Ht. Z.div_mod_to_equations; lia.
Qed.

(** The batch that has been read into the object [o], without its records *)
Definition read_fields (o b : RecordBatch) (records : list record) : RecordBatch :=
  mkRecordBatch 2 (rb_codec b) (rb_first_offset b) (rb_partition_leader_epoch b) (rb_last_offset_delta b)
    (rb_first_timestamp o) (rb_max_timestamp o) (rb_producer_id b) (rb_producer_epoch b) (rb_first_sequence b)
    (rb_control b) (rb_log_append_time b) (rb_is_transactional b) (rb_compressed_records o) records.

Lemma consumes_gets {A} fl (f : packet_decoder -> A) (v : A) :
  (forall d, ctx fl (pd_flexible d) -> f d = v) -> consumes fl (gets f) v [].
Proof. intros Hf d tl Hok Hc Hr. unfold gets. rewrite (Hf d Hc). by apply (consumes_ret fl v d tl). Qed.
Lemma RecordBatch_fields_reads o b : fields_ok b ->
  consumes false
    (RecordBatch_fields (with_head (rb_first_offset b) (rb_partition_leader_epoch b) 2 o))
    (read_fields o b (resize_list default_record (Zlen (rb_records b)) (rb_records o)), Zlen (rb_records b)) (fields_wire b).
Proof.
  intros (Hc & Hfo & Hep & Hl & Hft & Hmt & Hpi & Hpe & Hfs & Hn). unfold RecordBatch_fields, fields_wire.
  destruct (attributes_read b Hc) as [Ha Hr]. pose proof (Zlen_nonneg (rb_records b)).
  destruct (Timestamp_reads false _ Hft) as [t1 H1]. destruct (Timestamp_reads false _ Hmt) as [t2 H2].
  eapply consumes_bind; [apply get_or_consumes, consumes_getInt16|rewrite Ha].
  { unfold in_s. change (2 ^ (16 - 1)) with 32768. lia. }
  eapply consumes_bind; [by apply get_or_consumes, consumes_getInt32|].
  eapply consumes_bind; [by apply get_or_consumes|]. eapply consumes_bind; [by apply get_or_consumes|].
  eapply consumes_bind; [by apply get_or_consumes, consumes_getInt64|].
  eapply consumes_bind; [by apply get_or_consumes, consumes_getInt16|].
  eapply consumes_bind; [by apply get_or_consumes, consumes_getInt32|].
  eapply (consumes_bind _ _ _ _ _ []); [by apply (consumes_gets false _ 0)|].
  eapply consumes_as; [eapply consumes_bind|apply app_nil_r].
  - apply get_or_consumes. by apply (consumes_getArrayLength false).
  - replace (0 <=? Zlen (rb_records b)) with true by lia. apply consumes_ret.
Qed.

(** Every pass over the records ends where the first one has ended. *)
Lemma placed_over_again rs : forall o inputs, placed_over o rs (placed_over o rs inputs) = placed_over o rs inputs.
Proof.
  induction rs as [|r rs IH]; intros o inputs; cbn; [done|]. f_equal. destruct (length_fits r); [apply IH|done].
Qed.
Lemma decode_passes_settle rs n : forall inputs,
  Forall record_ok rs -> Zlen (w_list record_wire rs) < 2 ^ 31 ->
  length inputs = length rs -> (n = 0%nat -> inputs = placed_over 0 rs inputs) ->
  decode_passes n (w_list record_wire rs) inputs = Done (placed_over 0 rs inputs) tt.
Proof.
  induction n as [|n IH]; intros inputs Ho Hw Hl Hz; cbn; [by rewrite <- Hz|].
  destruct (decode_records_run rs inputs Ho Hl Hw) as (helper & -> & _).
  rewrite IH; try done; [by rewrite placed_over_again|by apply length_placed_over|by rewrite placed_over_again].
Qed.
(** As many passes as there are records *)
Lemma decode_passes_run rs inputs :
  Forall record_ok rs -> Zlen (w_list record_wire rs) < 2 ^ 31 -> length inputs = length rs ->
  decode_passes (length rs) (w_list record_wire rs) inputs = Done (placed_over 0 rs inputs) tt.
Proof.
  intros Ho Hw Hl. apply decode_passes_settle; try done. intros Hz. destruct rs; [|done]. by destruct inputs.
Qed.

(** Whatever the four bytes of the CRC say, the reading goes on. *)
Lemma crc_ignored {A B} fl (g : M packet_decoder A) (k : A -> M packet_decoder B) (h : M packet_decoder B) v w crc b1 b2 :
  Zlen crc = 4 -> consumes fl g v b1 -> k v = (let* _r := pd_pop in h) -> consumes fl h w b2 ->
  consumes fl (let* _r := pd_push (FCrc32 (mkCrc32Field 0 CrcCastagnoli)) in let* x := g in k x) w (crc ++ b1 ++ b2).
Proof.
  intros Hcrc Hg Ek Hk d tl Hok Hc Hr. rewrite <- !app_assoc in Hr.
  pose proof (rest_bound _ _ _ Hok Hr) as Hb0. pose proof (Zlen_nonneg tl). pose proof (Zlen_nonneg b2).
  set (c := FCrc32 (mkCrc32Field (pd_offset d) CrcCastagnoli)).
  set (d1 := advance 4 (set_pd_stack (c :: pd_stack d) d)).
  assert (pd_push (FCrc32 (mkCrc32Field 0 CrcCastagnoli)) d = Done (Ok tt) d1) as Hpush.
  { unfold pd_push; cbn [save_offset reserve_length]. unfold when_short. rewrite remaining_spec, Hr, !Zlen_app by done.
    pose proof (Zlen_nonneg b1).
    replace (_ <? Crc32Field_reserve_length _) with false by (unfold Crc32Field_reserve_length; lia). done. }
  assert (pd_ok d1 /\ rest d1 = b1 ++ b2 ++ tl) as [Hok1 Hr1].
  { pose proof (pd_ok_advance d _ _ Hok Hr) as H1. pose proof (rest_advance d _ _ Hok Hr) as H2.
    rewrite Hcrc in H1, H2. by split. }
  unfold bind at 1. rewrite Hpush. unfold bind at 1. rewrite (Hg d1 (b2 ++ tl)) by done.
  pose proof (rest_bound _ _ _ Hok1 Hr1) as Hb1.
  assert (exists r, pd_pop (advance (Zlen b1) d1) =
          Done r (set_pd_stack (pd_stack d) (advance (Zlen b1) d1))) as [r Hpop].
  { unfold pd_pop, d1, c. cbn [pd_stack set_pd_stack advance set_pd_offset pd_offset pd_raw].
    unfold Crc32Field_check, Crc32Field_covered, peek_bytes. cbn [cf_start_offset cf_polynomial].
    pose proof (Zlen_nonneg b1). destruct Hok as [Ho _]. cbn [pd_offset advance set_pd_offset d1] in Hb1.
    unfold d1 in Hb1; cbn in Hb1.
    rewrite !bool_decide_true by lia. cbn iota. by eexists. }
  rewrite Ek. unfold bind. rewrite Hpop. rewrite (Hk _ tl).
  - unfold advance, set_pd_stack, set_pd_offset, d1; cbn -[Zlen Z.add]. rewrite !Zlen_app, Hcrc.
    destruct d; cbn -[Zlen Z.add]. do 2 f_equal. lia.
  - by apply (pd_ok_advance d1 _ _ Hok1 Hr1).
  - done.
  - by apply (rest_advance d1 _ _ Hok1 Hr1).
Qed.

(** The bytes of a batch with [data] as its records and [crc] as its checksum *)
Definition batch_bytes (b : RecordBatch) (crc data : list Z) : list Z :=
  be 8 (rb_first_offset b) ++ be 4 (Zlen data + RECORD_BATCH_OVERHEAD) ++
  be 4 (rb_partition_leader_epoch b) ++ be 1 2 ++ crc ++ fields_wire b ++ data.

End RecordBatch.

(** The first length fits, the second does not. *)
Definition refused_records : list record := [example_record [] [118]; example_record [] (replicate 58 7); example_record [] [119]].
Definition refused_batch : RecordBatch := with_records refused_records (example_batch GZIP 2).
