(* ===== verification/CodecLimits.v ===== *)
(** * The codec at its limits

    [CodecEnc] and [CodecDec] say what a member does on the values and bytes it
    expects.  Here the decoder's input is anything, and the encoder's value too.
    [total]: the member returns, on every view, without touching a byte outside
    it, and leaves the view, the stack and the context as they were.  A deferred field is
    pushed and popped around what is [total] ([bracketed]).  The members
    that break this, or that refuse, change or mis-size a valid value, are
    characterised exactly. *)
From Stdlib Require Import ZArith Lia Bool.
From stdpp Require Import base tactics list numbers sets.
From S2P Require Import Prelude Errors Wire Crc Fields Encoder Decoder Codec CodecEnc CodecDec.
From S2P Require Import EncoderDecoder.

Create HintDb total discriminated.
#[export] Hint Constants Opaque : total.

(** ** The judgement *)

Definition framed (d d' : packet_decoder) : Prop :=
  pd_ok d' /\ pd_raw d' = pd_raw d /\ pd_stack d' = pd_stack d /\ pd_flexible d' = pd_flexible d.

(** In context [fl], with [n] bytes left, [g] returns a value and a state that
    satisfy [Q]. *)
Definition total_post {A} (fl : bool) (n : Z) (g : M packet_decoder A) (Q : A -> packet_decoder -> Prop) : Prop :=
  forall d, pd_ok d -> ctx fl (pd_flexible d) -> n <= Zlen (rest d) ->
  exists v d', g d = Done v d' /\ framed d d' /\ Q v d'.
Definition total_at {A} (fl : bool) (n : Z) (g : M packet_decoder A) : Prop :=
  total_post fl n g (fun _ _ => True).
Definition total {A} (fl : bool) (g : M packet_decoder A) : Prop := total_at fl 0 g.

Lemma framed_refl d : pd_ok d -> framed d d.
Proof. done. Qed.
Lemma framed_trans d1 d2 d3 : framed d1 d2 -> framed d2 d3 -> framed d1 d3.
Proof. intros (_ & ? & ? & ?) (? & ? & ? & ?). split; [done|]. split_and!; congruence. Qed.
Lemma Zlen_rest d : pd_ok d -> Zlen (rest d) = Zlen (pd_raw d) - pd_offset d.
Proof. intros [[? ?] _]. unfold rest, Zlen in *. rewrite length_drop. lia. Qed.
Lemma framed_advance k d : pd_ok d -> - pd_offset d <= k <= Zlen (rest d) -> framed d (advance k d).
Proof.
  intros Hok Hk. rewrite Zlen_rest in Hk by done. destruct Hok as [? ?].
  split; [split; cbn; lia|done].
Qed.
Lemma framed_end d : pd_ok d -> framed d (set_pd_offset (to_i32 (Zlen (pd_raw d))) d).
Proof.
  intros [? ?]. pose proof (Zlen_nonneg (pd_raw d)). rewrite to_i32_small by lia.
  split; [split; cbn; lia|done].
Qed.

Lemma total_bind_post {A B} fl n (g : M packet_decoder A) (k : A -> M packet_decoder B) P Q :
  total_post fl n g P ->
  (forall v d, P v d -> pd_ok d -> ctx fl (pd_flexible d) ->
     exists w d', k v d = Done w d' /\ framed d d' /\ Q w d') ->
  total_post fl n (bind g k) Q.
Proof.
  intros Hg Hk d Hok Hc Hn. destruct (Hg d Hok Hc Hn) as (v & d1 & E & Hf & HP).
  pose proof Hf as (Hok1 & _ & _ & Hfl).
  destruct (Hk v d1 HP Hok1 ltac:(by rewrite Hfl)) as (w & d2 & E2 & Hf2 & HQ).
  exists w, d2. unfold bind. rewrite E. split; [done|]. split; [eapply framed_trans; eassumption|done].
Qed.
Lemma total_bind {A B} fl n (g : M packet_decoder A) (k : A -> M packet_decoder B) :
  total_at fl n g -> (forall v, total fl (k v)) -> total_at fl n (bind g k).
Proof.
  intros Hg Hk. eapply total_bind_post; [exact Hg|]. intros v d _ Hok Hc.
  apply Hk; [done|done|apply Zlen_nonneg].
Qed.
Lemma total_ret {A} fl n (v : A) : total_at fl n (ret v).
Proof. intros d Hok _ _. by exists v, d. Qed.
Lemma total_weaken {A} fl n m (g : M packet_decoder A) : total_at fl n g -> n <= m -> total_at fl m g.
Proof. intros Hg Hm d Hok Hc Hn. apply Hg; [done|done|lia]. Qed.
Lemma total_lift {A} fl n (g : M packet_decoder A) : 0 <= n -> total fl g -> total_at fl n g.
Proof. intros Hn Hg. by apply (total_weaken fl 0). Qed.
Lemma total_let {A B} fl n (g : PD A) (k : A -> PD B) :
  total_at fl n g -> (forall v, total fl (k v)) -> total_at fl n (let! x := g in k x).
Proof. intros Hg Hk. apply total_bind; [done|]. intros [e|v]; [apply total_ret|apply Hk]. Qed.
Lemma total_let_or {A B} fl c n (g : PD A) (k : A -> PD B) :
  total_at fl n g -> (forall v, total fl (k v)) -> total_at fl n (let! x := g /! c in k x).
Proof. intros Hg Hk. apply total_bind; [done|]. intros [e|v]; [apply total_ret|apply Hk]. Qed.

Lemma total_by_ctx {A} fl (a b c : M packet_decoder A) :
  total fl (if fl then b else a) -> total fl (by_ctx a b c).
Proof.
  intros H d Hok Hc Hn. unfold by_ctx. destruct fl; cbn in Hc.
  - replace (pd_flexible d =? 0) with false by lia.
    replace (0 <? pd_flexible d) with true by lia. by apply H.
  - rewrite Hc. by apply H.
Qed.
Lemma total_when_short {A} fl n (g : PD A) : total_at fl n g -> total fl (when_short n g).
Proof.
  intros Hg d Hok Hc _. unfold when_short. rewrite remaining_spec by done.
  destruct (Z.ltb_spec (Zlen (rest d)) n).
  - eexists _, _. split; [done|]. split; [by apply framed_end|done].
  - by apply Hg.
Qed.
Lemma total_byte {A} fl n k (g : Z -> M packet_decoder A) :
  0 <= k < n -> (forall b, total_at fl n (g b)) -> total_at fl n (let* b := byte_at k in g b).
Proof.
  intros Hk Hg d Hok Hc Hn. unfold bind.
  destruct (lookup_lt_is_Some_2 (rest d) (Z.to_nat k)) as [b Hb]; [unfold Zlen in Hn; lia|].
  rewrite (byte_at_rest d k b); [by apply Hg|destruct Hok; lia|lia|done].
Qed.
Lemma total_skip {A} fl n k (g : M packet_decoder A) :
  0 <= k <= n -> total_at fl (n - k) g -> total_at fl n (skip k ;;; g).
Proof.
  intros Hk Hg d Hok Hc Hn. unfold bind, skip, modify.
  assert (framed d (advance k d)) as Hf by (apply framed_advance; [done|destruct Hok; lia]).
  destruct (Hg (advance k d)) as (v & d' & E & Hf' & _); [apply Hf|done| |].
  - rewrite Zlen_rest by apply Hf. rewrite Zlen_rest in Hn by done. cbn. lia.
  - exists v, d'. split; [done|]. split; [|done]. exact (framed_trans _ _ _ Hf Hf').
Qed.
Lemma total_if {A} fl n (c : bool) (g h : M packet_decoder A) :
  total_at fl n g -> total_at fl n h -> total_at fl n (if c then g else h).
Proof. by destruct c. Qed.
Lemma total_read_n {X} fl n (g : PD X) : total fl g -> total fl (read_n n g).
Proof.
  intros Hg. induction n as [|n IH]; [apply total_ret|].
  cbn [read_n]. apply total_let; [exact Hg|]. intros v. apply total_let; [exact IH|].
  intros l. apply total_ret.
Qed.
#[export] Hint Resolve total_read_n : total.

Ltac total_steps :=
  cbv beta zeta iota;
  lazymatch goal with
  | |- total _ _ => unfold total; total_steps
  | |- total_at _ _ (ret _) => apply total_ret
  | |- total_at _ _ (ok _) => apply total_ret
  | |- total_at _ _ (err _) => apply total_ret
  | |- total_at _ _ (if _ then _ else _) => apply total_if; total_steps
  | |- total_at _ 0 (when_short _ _) => apply total_when_short; total_steps
  | |- total_at _ 0 (by_ctx _ _ _) => apply total_by_ctx; cbv iota; total_steps
  | |- total_at _ _ (bind (byte_at _) _) => apply total_byte; [lia|intros ?; total_steps]
  | |- total_at _ _ (bind (skip _) _) => apply total_skip; [lia|total_steps]
  | |- total_at _ _ (bind _ _) =>
      first [ apply total_let; [total_steps|intros ?; total_steps]
            | apply total_let_or; [total_steps|intros ?; total_steps]
            | apply total_bind; [total_steps|intros ?; total_steps] ]
  | |- total_at _ _ _ => apply total_lift; [lia|solve [eauto with total]]
  end.

(** ** The members *)

(** Reads that do not move the position *)
Definition peeks {A} (n : Z) (g : M packet_decoder A) : Prop :=
  forall d, pd_ok d -> n <= Zlen (rest d) -> exists v, g d = Done v d.
Lemma peeks_byte {A} n k (g : Z -> M packet_decoder A) :
  0 <= k < n -> (forall b, peeks n (g b)) -> peeks n (let* b := byte_at k in g b).
Proof.
  intros Hk Hg d Hok Hn. unfold bind.
  destruct (lookup_lt_is_Some_2 (rest d) (Z.to_nat k)) as [b Hb]; [unfold Zlen in Hn; lia|].
  rewrite (byte_at_rest d k b); [by apply Hg|destruct Hok; lia|lia|done].
Qed.
Lemma peeks_ret {A} n (v : A) : peeks n (ret v).
Proof. intros d _ _. by exists v. Qed.
Lemma total_peeks {A B} fl n (g : M packet_decoder A) (k : A -> M packet_decoder B) :
  peeks n g -> (forall v, total_at fl n (k v)) -> total_at fl n (bind g k).
Proof.
  intros Hg Hk d Hok Hc Hn. destruct (Hg d Hok Hn) as [v E]. unfold bind. rewrite E. by apply Hk.
Qed.
Lemma peeks_be32_at : peeks 4 be32_at.
Proof. unfold be32_at. repeat (apply peeks_byte; [lia|intros ?]). apply peeks_ret. Qed.
Lemma peeks_be64_at : peeks 8 be64_at.
Proof. unfold be64_at. repeat (apply peeks_byte; [lia|intros ?]). apply peeks_ret. Qed.

Lemma total_be32 fl : total_at fl 4 (let* v := be32_at in skip 4 ;;; ok v).
Proof. apply total_peeks; [apply peeks_be32_at|]. intros v. total_steps. Qed.
Lemma total_be64 {A} fl (f : Z -> A) : total_at fl 8 (let* v := be64_at in skip 8 ;;; ok (f v)).
Proof. apply total_peeks; [apply peeks_be64_at|]. intros v. total_steps. Qed.

Lemma total_getInt8 fl : total fl getInt8.
Proof. unfold getInt8. total_steps. Qed.
Lemma total_getInt16 fl : total fl getInt16.
Proof. unfold getInt16. total_steps. Qed.
Lemma total_getInt32 fl : total fl getInt32.
Proof. apply total_when_short, total_be32. Qed.
Lemma total_getInt64 fl : total fl getInt64.
Proof. apply total_when_short, (total_be64 fl to_i64). Qed.
Lemma total_getFloat64 fl : total fl getFloat64.
Proof. apply total_when_short, (total_be64 fl (fun v => v)). Qed.
#[export] Hint Resolve total_getInt8 total_getInt16 total_getInt32 total_getInt64 total_getFloat64 : total.

(** A varint is read or refused; a value that is read has taken a byte. *)
Definition moves {A} (d : packet_decoder) (r : dres A) (d' : packet_decoder) : Prop :=
  match r with Ok _ => pd_offset d < pd_offset d' | Err _ => True end.

Lemma varint_turn {A} (d : packet_decoder) (K : Z -> PD A) :
  pd_ok d ->
  (forall b, framed d (advance 1 d) -> exists v d', K b (advance 1 d) = Done v d' /\ framed (advance 1 d) d' /\ moves d v d') ->
  exists v d', (if Zlen (pd_raw d) <=? pd_offset d then exhaust ErrInsufficientData d
                else (let* b := byte_at 0 in skip 1 ;;; K b) d) = Done v d' /\ framed d d' /\ moves d v d'.
Proof.
  intros Hok HK. destruct (Z.leb_spec (Zlen (pd_raw d)) (pd_offset d)).
  - eexists _, _. split; [done|]. split; [by apply framed_end|done].
  - assert (1 <= Zlen (rest d)) by (rewrite Zlen_rest by done; lia).
    destruct (lookup_lt_is_Some_2 (rest d) 0) as [b Hb]; [unfold Zlen in *; lia|].
    assert (framed d (advance 1 d)) as Hf by (apply framed_advance; [done|destruct Hok; lia]).
    destruct (HK b Hf) as (v & d' & E & Hf' & Hm).
    exists v, d'. unfold bind, skip, modify.
    rewrite (byte_at_rest d 0 b); [|destruct Hok; lia|lia|done].
    split; [done|]. split; [exact (framed_trans _ _ _ Hf Hf')|done].
Qed.

Lemma getUVariant_loop_total fuel i shift result d :
  Z.of_nat fuel + i = 10 -> 0 <= i <= pd_offset d -> pd_ok d ->
  exists v d', getUVariant_loop fuel i shift result d = Done v d' /\ framed d d' /\ moves d v d'.
Proof.
  revert i shift result d. induction fuel as [|fuel IH]; intros i shift result d Hf Hi Hok; cbn [getUVariant_loop].
  - eexists _, _. split; [done|]. split; [|done].
    apply framed_advance; [done|]. pose proof (Zlen_nonneg (rest d)). lia.
  - apply varint_turn; [done|]. intros b Hfr. cbv zeta. pose proof (proj1 Hfr) as Hok1.
    destruct (Z.land b 128 =? 0); [destruct (_ && _)|].
    + eexists _, _. split; [done|]. split; [|done].
      apply framed_advance; [done|]. pose proof (Zlen_nonneg (rest (advance 1 d))). cbn; lia.
    + eexists _, _. split; [done|]. split; [done|]. cbn. lia.
    + destruct (IH (i + 1) (shift + 7) (Z.lor result (to_u64 (Z.shiftl (Z.land b 127) shift))) (advance 1 d))
        as (v & d' & E & Hf' & Hm); [lia|cbn; lia|done|].
      exists v, d'. split; [done|]. split; [done|]. destruct v; cbn in *; lia.
Qed.
Lemma getVariant_loop_total fuel i shift ux d :
  Z.of_nat fuel + i = 10 -> 0 <= i <= pd_offset d -> pd_ok d ->
  exists v d', getVariant_loop fuel i shift ux d = Done v d' /\ framed d d' /\ moves d v d'.
Proof.
  revert i shift ux d. induction fuel as [|fuel IH]; intros i shift ux d Hf Hi Hok; cbn [getVariant_loop].
  - eexists _, _. split; [done|]. split; [|done].
    apply framed_advance; [done|]. pose proof (Zlen_nonneg (rest d)). lia.
  - apply varint_turn; [done|]. intros b Hfr. cbv zeta. pose proof (proj1 Hfr) as Hok1.
    destruct (Z.land b 128 =? 0); [destruct (_ && _)|].
    + eexists _, _. split; [done|]. split; [|done].
      apply framed_advance; [done|]. pose proof (Zlen_nonneg (rest (advance 1 d))). cbn; lia.
    + eexists _, _. split; [done|]. split; [done|]. cbn. lia.
    + destruct (IH (i + 1) (shift + 7) (Z.lor ux (to_u64 (Z.shiftl (Z.land b 127) shift))) (advance 1 d))
        as (v & d' & E & Hf' & Hm); [lia|cbn; lia|done|].
      exists v, d'. split; [done|]. split; [done|]. destruct v; cbn in *; lia.
Qed.
Lemma getUVariant_moves d :
  pd_ok d -> exists v d', getUVariant d = Done v d' /\ framed d d' /\ moves d v d'.
Proof. intros Hok. apply getUVariant_loop_total; [done| |done]. destruct Hok; lia. Qed.
Lemma total_getUVariant fl : total fl getUVariant.
Proof.
  intros d Hok _ _. destruct (getUVariant_moves d Hok) as (v & d' & E & Hf & _). by exists v, d'.
Qed.
Lemma total_getVariant fl : total fl getVariant.
Proof.
  intros d Hok _ _.
  destruct (getVariant_loop_total 10 0 0 0 d) as (v & d' & E & Hf & _); [done|destruct Hok; lia|done|].
  by exists v, d'.
Qed.
#[export] Hint Resolve total_getUVariant total_getVariant : total.

Lemma total_getArrayLength fl : total fl getArrayLength.
Proof. unfold getArrayLength. apply total_by_ctx. destruct fl; total_steps. Qed.
Lemma total_getBool fl : total fl getBool.
Proof. unfold getBool. total_steps. Qed.
Lemma total_getKError fl : total fl getKError.
Proof. unfold getKError. total_steps. Qed.
Lemma total_getDurationMs fl : total fl getDurationMs.
Proof. unfold getDurationMs. total_steps. Qed.
Lemma total_getRawBytes fl n : total fl (getRawBytes n).
Proof.
  intros d Hok _ _. unfold getRawBytes. destruct (Z.ltb_spec n 0); [by eexists _, _|].
  rewrite remaining_spec by done. destruct (Z.ltb_spec (Zlen (rest d)) n).
  - eexists _, _. split; [done|]. split; [by apply framed_end|done].
  - rewrite take_view_run by done. eexists _, _. split; [done|]. split; [|done].
    apply framed_advance; [done|destruct Hok; lia].
Qed.
#[export] Hint Resolve total_getArrayLength total_getBool total_getKError total_getDurationMs
  total_getRawBytes : total.
Lemma total_getSubset fl n : total fl (getSubset n).
Proof. unfold getSubset. total_steps. Qed.
Lemma total_getBytes fl : total fl getBytes.
Proof. unfold getBytes. apply total_by_ctx. destruct fl; total_steps. Qed.
Lemma total_getVariantBytes fl : total fl getVariantBytes.
Proof. unfold getVariantBytes. total_steps. Qed.

(** A string's length is checked against what is left before it is taken. *)
Definition fits_rest (r : dres Z) (d : packet_decoder) : Prop :=
  match r with Ok n => -1 <= n <= Zlen (rest d) | Err _ => True end.
Lemma check_string_length_post fl n : total_post fl 0 (check_string_length n) fits_rest.
Proof.
  intros d Hok _ _. unfold check_string_length. destruct (Z.ltb_spec n (-1)); [by eexists _, _|].
  unfold when_short. rewrite remaining_spec by done. destruct (Z.ltb_spec (Zlen (rest d)) n).
  - eexists _, _. split; [done|]. split; [by apply framed_end|done].
  - eexists _, _. split; [done|]. split; [done|]. cbn. lia.
Qed.
Lemma post_let {A} fl n (g : PD A) (k : A -> PD Z) :
  total_at fl n g -> (forall v, total_post fl 0 (k v) fits_rest) ->
  total_post fl n (let! x := g in k x) fits_rest.
Proof.
  intros Hg Hk. eapply total_bind_post; [exact Hg|]. intros [e|v] d _ Hok Hc.
  - by exists (Err e), d.
  - apply Hk; [done|done|apply Zlen_nonneg].
Qed.
Lemma getStringLength_post fl : total_post fl 0 getStringLength fits_rest.
Proof.
  intros d Hok Hc Hn. unfold getStringLength, by_ctx. destruct fl; cbn in Hc.
  - replace (pd_flexible d =? 0) with false by lia. replace (0 <? pd_flexible d) with true by lia.
    apply (post_let true 0 getUVariant _ (total_getUVariant true)
      (fun v => check_string_length_post true (if v =? 0 then -1 else to_i32 (v - 1)))); done.
  - rewrite Hc. apply (post_let false 0 getInt16 _ (total_getInt16 false)
      (fun v => check_string_length_post false v)); done.
Qed.
Lemma total_getStringLength fl : total fl getStringLength.
Proof.
  intros d Hok Hc Hn. destruct (getStringLength_post fl d Hok Hc Hn) as (v & d' & E & Hf & _). by exists v, d'.
Qed.
Lemma total_string_tail fl :
  total fl (let! n := getStringLength in if n =? -1 then ok [] else take_view n).
Proof.
  eapply total_bind_post; [apply getStringLength_post|]. intros [e|n] d HP Hok Hc; [by exists (Err e), d|].
  cbn in HP. destruct (Z.eqb_spec n (-1)); [by exists (Ok []), d|].
  rewrite take_view_run by (done || lia). eexists _, _. split; [done|]. split; [|done]. apply framed_advance; [done|destruct Hok; lia].
Qed.
Lemma total_getString fl : total fl getString.
Proof. unfold getString. apply total_by_ctx. destruct fl; apply total_string_tail. Qed.
Lemma total_getNullableString fl : total fl getNullableString.
Proof. unfold getNullableString. apply total_by_ctx. destruct fl; apply total_string_tail. Qed.
#[export] Hint Resolve total_getSubset total_getBytes total_getVariantBytes total_getStringLength
  total_getString total_getNullableString : total.
Lemma total_getStringArray fl : total fl getStringArray.
Proof. unfold getStringArray. apply total_by_ctx. destruct fl; total_steps. Qed.
#[export] Hint Resolve total_getStringArray : total.

(** ** Tagged fields

    A turn of the loop moves the position or ends it, so the count is bounded by
    the view whatever number the input gives. *)

(** The head of a field is read or refused; when it is read, the position has moved. *)
Lemma tag_head {A} (K : Z -> PD A) d :
  pd_ok d ->
  (forall id d', framed d d' -> pd_offset d < pd_offset d' -> exists v d'', K id d' = Done v d'' /\ framed d' d'') ->
  exists v d', (let! id := getUVariant in
                let! length := getUVariant in
                let! _view := getRawBytes (to_i32 length) in
                K id) d = Done v d' /\ framed d d'.
Proof.
  intros Hok HK. destruct (getUVariant_moves d Hok) as (r1 & d1 & E1 & Hf1 & Hm1).
  unfold bind at 1. rewrite E1. destruct r1 as [e|id]; [by exists (Err e), d1|].
  destruct (getUVariant_moves d1 (proj1 Hf1)) as (r2 & d2 & E2 & Hf2 & Hm2).
  unfold bind at 1. rewrite E2. pose proof (framed_trans _ _ _ Hf1 Hf2) as Hf12.
  destruct r2 as [e|len]; [by exists (Err e), d2|]. cbn in Hm1, Hm2.
  unfold bind at 1, getRawBytes.
  destruct (Z.ltb_spec (to_i32 len) 0); [by eexists _, _|].
  rewrite remaining_spec by apply Hf2.
  destruct (Z.ltb_spec (Zlen (rest d2)) (to_i32 len)).
  { eexists _, _. split; [done|]. exact (framed_trans _ _ _ Hf12 (framed_end d2 (proj1 Hf2))). }
  rewrite take_view_run by (done || apply Hf2).
  assert (framed d2 (advance (to_i32 len) d2)) as Hf3.
  { apply framed_advance; [apply Hf2|]. destruct Hf2 as [[[? ?] ?] _]; lia. }
  pose proof (framed_trans _ _ _ Hf12 Hf3) as Hf.
  destruct (HK id (advance (to_i32 len) d2) Hf) as (v & d' & E & Hf4); [cbn; lia|].
  exists v, d'. split; [done|]. exact (framed_trans _ _ _ Hf Hf4).
Qed.
Lemma rest_moved d d' : pd_ok d -> framed d d' -> pd_offset d < pd_offset d' -> Zlen (rest d') < Zlen (rest d).
Proof. intros Hok Hf Hm. rewrite !Zlen_rest by (done || apply Hf). destruct Hf as (_ & -> & _). lia. Qed.
Lemma skip_tags_total fl fuel i count d :
  pd_ok d -> ctx fl (pd_flexible d) -> Zlen (rest d) < Z.of_nat fuel ->
  exists v d', skip_tags fuel i count d = Done v d' /\ framed d d'.
Proof.
  revert i d. induction fuel as [|fuel IH]; intros i d Hok Hc Hl; [pose proof (Zlen_nonneg (rest d)); lia|].
  cbn [skip_tags]. destruct (count <=? i); [by exists (Ok tt), d|].
  apply (tag_head (fun _ => skip_tags fuel (i + 1) count)); [done|]. intros _ d' Hf Hm.
  apply IH; [apply Hf|by destruct Hf as (_ & _ & _ & ->)|]. pose proof (rest_moved d d' Hok Hf Hm). lia.
Qed.
(** A decoder that does not go back *)
Definition forward {A} (g : M packet_decoder A) : Prop :=
  forall d v d', pd_ok d -> g d = Done v d' -> pd_offset d <= pd_offset d'.
Definition tag_decoder {A} (g : PD A) : Prop := total true g /\ forward g.
(** A decoder of a field runs with the flag pushed once more. *)
Lemma pushed_total {A} (g : PD A) d :
  tag_decoder g -> pd_ok d -> 0 <= pd_flexible d < 2 ^ 16 - 1 ->
  exists v d', (pd_push_flexible ;;; let* r := g in pd_pop_flexible ;;; ret r) d = Done v d' /\ framed d d' /\
    pd_offset d <= pd_offset d'.
Proof.
  intros [Hg Hfw] Hok Hfl. unfold bind at 1, pd_push_flexible, modify.
  rewrite to_u_id by (unfold in_u; lia). set (d1 := set_pd_flexible _ d).
  destruct (Hg d1) as (v & d2 & E & (Hok2 & Hraw & Hst & Hf2) & _);
    [done|cbn; change (2 ^ 16) with 65536 in *; lia|apply Zlen_nonneg|].
  unfold bind at 1. rewrite E. apply Hfw in E; [|done]. unfold bind, pd_pop_flexible. rewrite Hf2. cbn [pd_flexible d1 set_pd_flexible].
  replace (0 <? pd_flexible d + 1) with true by lia. rewrite to_u_id by (unfold in_u; lia).
  eexists v, _. split; [done|]. split; [|exact E]. split; [done|]. split; [done|]. split; [done|]. cbn. lia.
Qed.
Lemma read_tags_total {C} fuel (decoders : list (Z * (C -> PD C))) i count captured d :
  Forall (fun p => forall c, tag_decoder (snd p c)) decoders ->
  pd_ok d -> 0 <= pd_flexible d < 2 ^ 16 - 1 -> Zlen (rest d) < Z.of_nat fuel ->
  exists v d', read_tags fuel decoders i count captured d = Done v d' /\ framed d d'.
Proof.
  intros Hds. revert i captured d.
  induction fuel as [|fuel IH]; intros i captured d Hok Hc Hl; [pose proof (Zlen_nonneg (rest d)); lia|].
  cbn [read_tags]. destruct (count <=? i); [by exists (Ok captured), d|].
  eapply (tag_head (fun id => match find (fun p => fst p =? id) decoders with
    | None => read_tags fuel decoders (i + 1) count captured
    | Some (_, decoder) => let! captured := (pd_push_flexible ;;; let* r := decoder captured in pd_pop_flexible ;;; ret r) in
        read_tags fuel decoders (i + 1) count captured end)); [done|]. intros id d' Hf Hm.
  pose proof (rest_moved d d' Hok Hf Hm) as Hr. assert (pd_flexible d' = pd_flexible d) as Hfl by apply Hf.
  destruct (find _ decoders) as [[j decoder]|] eqn:Ef; [|apply IH; [apply Hf|by rewrite Hfl|lia]].
  apply find_some in Ef as [Hin _]. rewrite List.Forall_forall in Hds. specialize (Hds _ Hin captured). cbn [snd] in Hds.
  destruct (pushed_total (decoder captured) d' Hds) as (v & d2 & E & Hf2 & Hge); [apply Hf|by rewrite Hfl|].
  unfold bind at 1. rewrite E. destruct v as [e|captured']; [by exists (Err e), d2|].
  assert (Zlen (rest d2) <= Zlen (rest d')).
  { destruct Hf2 as (Hok2 & Hraw2 & _). rewrite !Zlen_rest by (done || apply Hf). rewrite Hraw2. lia. }
  destruct (IH (i + 1) captured' d2) as (v & d3 & E3 & Hf3); [apply Hf2| |lia|].
  - destruct Hf2 as (_ & _ & _ & ->). by rewrite Hfl.
  - exists v, d3. split; [done|]. exact (framed_trans _ _ _ Hf2 Hf3).
Qed.
Lemma getEmptyTaggedFieldArray_total fl : total fl getEmptyTaggedFieldArray.
Proof.
  unfold getEmptyTaggedFieldArray. apply total_by_ctx. destruct fl; [|apply total_ret].
  apply total_let; [apply total_getUVariant|]. intros count d Hok Hc _.
  destruct (skip_tags_total true (tag_fuel d) 0 count d Hok Hc) as (v & d' & E & Hf); [|by exists v, d'].
  rewrite Zlen_rest by done. unfold tag_fuel, Zlen. destruct Hok as [[? ?] _]. lia.
Qed.
Lemma getTaggedFieldArray_total {C} fl (decoders : list (Z * (C -> PD C))) captured d :
  Forall (fun p => forall c, tag_decoder (snd p c)) decoders -> pd_ok d -> ctx fl (pd_flexible d) ->
  pd_flexible d < 2 ^ 16 - 1 ->
  exists v d', getTaggedFieldArray decoders captured d = Done v d' /\ framed d d'.
Proof.
  intros Hds Hok Hc Hfl. unfold getTaggedFieldArray, by_ctx. destruct fl; cbn [ctx] in Hc.
  - replace (pd_flexible d =? 0) with false by lia. replace (0 <? pd_flexible d) with true by lia.
    destruct decoders as [|p decoders].
    + destruct (getEmptyTaggedFieldArray_total true d Hok Hc (Zlen_nonneg _)) as (v & d' & E & Hf & _).
      unfold bind. rewrite E. destruct v; by eexists _, _.
    + destruct (getUVariant_moves d Hok) as (v & d1 & E & Hf & _). unfold bind. rewrite E.
      destruct v as [e|n]; [by exists (Err e), d1|]. pose proof Hf as (Hok1 & Hraw & _ & Hfl1).
      destruct (read_tags_total (tag_fuel d1) (p :: decoders) 0 n captured d1 Hds Hok1) as (v & d2 & E2 & Hf2); [lia| |].
      * rewrite Zlen_rest by done. unfold tag_fuel, Zlen. destruct Hok1 as [[? ?] _]. lia.
      * exists v, d2. split; [done|]. exact (framed_trans _ _ _ Hf Hf2).
  - rewrite Hc. by eexists _, _.
Qed.
#[export] Hint Resolve getEmptyTaggedFieldArray_total : total.

(** ** Arrays of integers in a fixed context

    The length limit keeps the product of element count and size inside [int]. *)

Lemma fixed_length_limit d n d' :
  pd_flexible d = 0 -> getArrayLength d = Done (Ok n) d' -> n <= MaxResponseSize.
Proof.
  intros Hc. unfold getArrayLength, by_ctx, when_short. rewrite Hc. cbn [Z.eqb].
  destruct (remaining d <? 4); [done|].
  unfold bind, byte_at. destruct (pd_raw d !! _); [|done]. destruct (pd_raw d !! _); [|done].
  destruct (pd_raw d !! _); [|done]. destruct (pd_raw d !! _); [|done].
  unfold skip, modify, err, ok, ret. destruct (Z.ltb_spec MaxResponseSize
    (to_i32 (Z.lor (Z.lor (Z.lor (shl32 (to_i8 z) 24) (shl32 (to_i8 z0) 16)) (shl32 (to_i8 z1) 8)) (to_i8 z2)))); [done|].
  by intros [= <- <-].
Qed.

(** Enough input for [n] elements of [k] bytes: none of them falls outside. *)
Lemma read_elements_total {X} fl k (g : PD X) :
  0 < k ->
  (forall d, pd_ok d -> ctx fl (pd_flexible d) -> k <= Zlen (rest d) -> exists v, g d = Done (Ok v) (advance k d)) ->
  forall n, total_at fl (k * Z.of_nat n) (read_n n g).
Proof.
  intros Hk Hg n. induction n as [|n IH]; [apply total_ret|].
  intros d Hok Hc Hn. destruct (Hg d Hok Hc ltac:(lia)) as [v E].
  assert (framed d (advance k d)) as Hf by (apply framed_advance; [done|destruct Hok; lia]).
  cbn [read_n]. unfold bind at 1. rewrite E.
  destruct (IH (advance k d)) as (r & d' & E' & Hf' & _); [apply Hf|done| |].
  { rewrite Zlen_rest by apply Hf. rewrite Zlen_rest in Hn by done. cbn. lia. }
  unfold bind. rewrite E'. pose proof (framed_trans _ _ _ Hf Hf').
  destruct r; by eexists _, _.
Qed.
Lemma peeks_element {X} k (g : M packet_decoder Z) (f : Z -> X) d :
  peeks k g -> pd_ok d -> k <= Zlen (rest d) ->
  exists v, (let* v := g in skip k ;;; ok (f v)) d = Done (Ok v) (advance k d).
Proof. intros Hg Hok Hn. destruct (Hg d Hok Hn) as [v E]. exists (f v). unfold bind. by rewrite E. Qed.

Lemma need_elements_total {X} fl k n (g : PD X) :
  0 <= k * n < 2 ^ 31 -> total_at fl (k * n) g -> total fl (need_elements k n g).
Proof.
  intros Hn Hg. unfold need_elements. rewrite i32_arith_ok.
  - intros d Hok Hc _. unfold bind, ret. by apply (total_when_short fl (k * n) g Hg); [..|apply Zlen_nonneg].
  - unfold in_s. change (2 ^ (32 - 1)) with (2 ^ 31). lia.
Qed.

Lemma total_fixed_array {X} k (g : PD X) (rest_ok : forall d, pd_ok d -> ctx false (pd_flexible d) ->
    k <= Zlen (rest d) -> exists v, g d = Done (Ok v) (advance k d)) :
  0 < k <= 8 ->
  total false (let! n := getArrayLength in
               if n <=? 0 then ok [] else need_elements k n (read_n (Z.to_nat n) g)).
Proof.
  intros Hk d Hok Hc _. cbn in Hc.
  destruct (total_getArrayLength false d Hok Hc (Zlen_nonneg _)) as (r & d' & E & Hf & _).
  unfold bind. rewrite E. destruct r as [e|n]; [by exists (Err e), d'|].
  apply fixed_length_limit in E; [|done]. unfold MaxResponseSize in E.
  destruct (Z.leb_spec n 0); [by exists (Ok []), d'|].
  assert (ctx false (pd_flexible d')) as Hc' by (destruct Hf as (_&_&_&->); done).
  destruct (need_elements_total false k n (read_n (Z.to_nat n) g)) with (d := d')
    as (v & d'' & E' & Hf' & _); [nia| |apply Hf|done|apply Zlen_nonneg|].
  - replace (k * n) with (k * Z.of_nat (Z.to_nat n)) by lia. apply read_elements_total; [lia|done].
  - exists v, d''. split; [done|]. split; [exact (framed_trans _ _ _ Hf Hf')|done].
Qed.
Lemma total_getInt32Array : total false getInt32Array.
Proof.
  unfold getInt32Array. apply total_by_ctx. apply (total_fixed_array 4); [|lia].
  intros d Hok _ Hn. by apply (peeks_element 4 be32_at (fun v => v) d peeks_be32_at).
Qed.
Lemma total_getInt64Array : total false getInt64Array.
Proof.
  unfold getInt64Array. apply (total_fixed_array 8); [|lia].
  intros d Hok _ Hn. by apply (peeks_element 8 be64_at to_i64 d peeks_be64_at).
Qed.

(** ** Looking ahead, and deferred fields *)

Lemma peek_total fl offset length :
  0 <= offset -> 0 <= length -> offset + length <= INT32_MAX -> total fl (peek offset length).
Proof.
  intros Ho Hl Hs d Hok _ _. unfold peek, bind. rewrite i32_arith_ok by (unfold in_s, INT32_MAX in *; lia).
  unfold ret. rewrite remaining_spec by done.
  destruct (Z.ltb_spec (Zlen (rest d)) (offset + length)); [by eexists _, _|]. unfold peek_bytes. rewrite bool_decide_true; [by eexists _, _|].
  rewrite Zlen_rest in * by done. destruct Hok as [[? ?] _]. lia.
Qed.
Lemma peekInt8_total offset d :
  pd_ok d -> in_s 32 (pd_offset d + offset) -> exists r, peekInt8 offset d = Done r d.
Proof.
  intros Hok Hi. unfold peekInt8, bind at 1, gets. unfold bind at 1. rewrite i32_arith_ok by done. unfold ret at 1.
  destruct (Z.leb_spec (Zlen (pd_raw d)) (to_u64 (pd_offset d + offset))) as [|Hlt]; [by eexists|].
  pose proof (Zlen_nonneg (pd_raw d)). destruct Hok as [? Hraw]. unfold LIMIT in Hraw.
  assert (0 <= pd_offset d + offset) as Hp.
  { destruct (Z.le_gt_cases 0 (pd_offset d + offset)); [done|]. exfalso. unfold in_s in Hi.
    change (2 ^ (32 - 1)) with 2147483648 in Hi. change (2 ^ 31) with 2147483648 in Hraw.
    unfold to_u in Hlt. rewrite <- (Z_mod_plus_full _ 1), Z.mod_small in Hlt;
      change (2 ^ 64) with 18446744073709551616 in *; lia. }
  rewrite to_u_id in Hlt.
  2: { unfold in_u, in_s in *. change (2 ^ (32 - 1)) with 2147483648 in Hi. change (2 ^ 64) with 18446744073709551616. lia. }
  destruct (lookup_lt_is_Some_2 (pd_raw d) (Z.to_nat (pd_offset d + offset))) as [b Hb]; [unfold Zlen in *; lia|].
  unfold bind, byte_at. rewrite Hb. by eexists.
Qed.

(** What is read between a push and its pop *)
Definition bracketed {A} (field : push_field) (g : M packet_decoder A) : PD (A * dres push_field) :=
  let! _u := pd_push field in
  let* r := g in
  let* popped := pd_pop in
  ok (r, popped).
(** The field's length is in the input, and it is negative. *)
Definition negative_length (field : push_field) (d : packet_decoder) : Prop :=
  match field with
  | FVariantLength _ => exists n d', getVariant d = Done (Ok n) d' /\ n < 0
  | _ => False
  end.
Lemma getVariant_loop_range fuel i shift ux d n d' :
  getVariant_loop fuel i shift ux d = Done (Ok n) d' -> in_s 64 n.
Proof.
  revert i shift ux d. induction fuel as [|fuel IH]; intros i shift ux d; cbn [getVariant_loop]; [done|].
  destruct (_ <=? _); [done|]. unfold bind, byte_at, skip, modify. destruct (pd_raw d !! _) as [b|]; [|done]. cbv zeta.
  destruct (Z.land b 128 =? 0); [|apply IH]. destruct (_ && _); [done|].
  intros [= <- _]. apply to_s_range. lia.
Qed.
Lemma variantSize_bounded n : 0 <= n < 2 ^ 63 -> exists k, variantSize n = Some k.
Proof.
  intros Hn. destruct (variantSize_loop_total 10 n 0) as (k & E & _); [|lia|by exists k].
  change (2 ^ (7 * Z.of_nat 10)) with (2 ^ 70). change (2 ^ 63) with 9223372036854775808 in Hn.
  change (2 ^ 70) with 1180591620717411303424. lia.
Qed.
Lemma bracket_variant_run {A} f (g : M packet_decoder A) d v d1 :
  getVariant d = Done v d1 ->
  bracketed (FVariantLength f) g d =
    match v with
    | Err e => Done (Err e) d1
    | Ok n => (let* r := g in let* popped := pd_pop in ok (r, popped))
        (set_pd_stack (FVariantLength (mkVariantLengthField (pd_offset d) n) :: pd_stack d1) d1)
    end.
Proof.
  intros E. unfold bracketed. unfold bind at 1. unfold pd_push. cbn [save_offset]. unfold VariantLengthField_decode.
  unfold bind at 1. unfold bind at 1. rewrite E. by destruct v.
Qed.
(** The variable-length field: its length is decoded by the push. *)
Lemma bracket_variant {A} fl f (g : M packet_decoder A) d :
  total fl g -> pd_ok d -> ctx fl (pd_flexible d) ->
  (negative_length (FVariantLength f) d -> bracketed (FVariantLength f) g d = Fault FDiverge) /\
  (~ negative_length (FVariantLength f) d -> exists v d', bracketed (FVariantLength f) g d = Done v d' /\ framed d d').
Proof.
  intros Hg Hok Hc. destruct (getVariant_loop_total 10 0 0 0 d) as (v & d1 & E & Hf & _); [done|destruct Hok; lia|done|].
  change (getVariant_loop 10 0 0 0 d) with (getVariant d) in E.
  assert (forall n, v = Ok n -> in_s 64 n) as Hrange by (intros n ->; by eapply (getVariant_loop_range 10 0 0 0)).
  rewrite (bracket_variant_run f g d v d1 E). destruct v as [e|n].
  { split; [intros (n & d' & E' & _); congruence|]. intros _. by exists (Err e), d1. }
  set (d2 := set_pd_stack _ d1). destruct (Hg d2) as (r & d3 & E3 & (Hok3 & Hraw3 & Hst3 & Hf3) & _);
    [apply Hf|destruct Hf as (_ & _ & _ & Hfl); cbn; by rewrite Hfl|apply Zlen_nonneg|].
  unfold bind at 1 3. rewrite E3. unfold bind, pd_pop. rewrite Hst3. cbn [pd_stack d2 set_pd_stack].
  unfold VariantLengthField_check, VariantLengthField_reserve_length. cbn [vl_length]. specialize (Hrange n eq_refl). split.
  - intros (n' & d' & E' & Hn). rewrite E in E'. injection E' as <- <-. unfold variantSize.
    by rewrite variantSize_neg_diverges.
  - intros Hn. assert (0 <= n) as Hn0.
    { destruct (Z.le_gt_cases 0 n); [done|]. destruct Hn. by exists n, d1. }
    destruct (variantSize_bounded n) as [k ->]; [unfold in_s in Hrange; change (2 ^ (64 - 1)) with (2 ^ 63) in Hrange; lia|].
    eexists _, _. split; [done|]. destruct Hf as (_ & Hraw & Hst & Hfl). split; [done|]. cbn.
    split; [by rewrite Hraw3|]. split; [done|]. by rewrite Hf3.
Qed.
(** The other two: four bytes are reserved, so that they are there for the check. *)
Lemma bracket_reserved {A} fl field (g : M packet_decoder A) d :
  (forall f, field <> FVariantLength f) -> total fl g -> pd_ok d -> ctx fl (pd_flexible d) ->
  exists v d', bracketed field g d = Done v d' /\ framed d d'.
Proof.
  intros Hv Hg Hok Hc.
  destruct (save_offset field (pd_offset d)) as [f'|f'|f'] eqn:Es; [| |].
  2: { destruct field as [f|f|f]; [done|by destruct (Hv f)|done]. }
  all: unfold bracketed; unfold bind at 1; unfold pd_push; rewrite Es; cbn [reserve_length];
    unfold LengthField_reserve_length, Crc32Field_reserve_length, when_short; rewrite remaining_spec by done;
    (destruct (Z.ltb_spec (Zlen (rest d)) 4); [by eexists _, _; split; [done|apply framed_end]|]);
    unfold bind at 1, modify, ok at 1, ret at 1; set (d2 := advance 4 _);
    (assert (framed (set_pd_stack (pd_stack d2) d) d2) as Hf2 by (apply (framed_advance 4 (set_pd_stack (pd_stack d2) d)); [done|];
      change (Zlen (rest (set_pd_stack (pd_stack d2) d))) with (Zlen (rest d)); destruct Hok; cbn; lia));
    (destruct (Hg d2) as (r & d3 & E3 & (Hok3 & Hraw3 & Hst3 & Hf3) & _); [apply Hf2|done|apply Zlen_nonneg|]);
    unfold bind at 1; rewrite E3; unfold bind, pd_pop; rewrite Hst3; cbn [pd_stack d2 advance set_pd_stack set_pd_offset].
  - eexists _, _. split; [done|]. split; [done|]. cbn. by rewrite Hraw3, Hf3.
  - rewrite Hraw3. change (pd_raw d2) with (pd_raw d).
    assert (exists c, Crc32Field_check f' (pd_offset d3) (pd_raw d) = Some c) as [c ->].
    { assert (cf_start_offset f' = pd_offset d) as Hs by (destruct field; try done; by injection Es as <-).
      rewrite Zlen_rest in * by done. pose proof Hok as [[? ?] _]. destruct Hok3 as [[? Hle] _]. rewrite Hraw3 in Hle.
      change (pd_raw d2) with (pd_raw d) in Hle. unfold Crc32Field_check, Crc32Field_covered, peek_bytes. rewrite Hs.
      rewrite !bool_decide_true by lia. by eexists. }
    eexists _, _. split; [done|]. split; [done|]. cbn. by rewrite Hraw3, Hf3.
Qed.

(** C20: On any input, in either context, every member of the decoder but [pop] by itself and
    the flexible integer arrays returns, with a value or an error code, without reading a
    byte outside the view; the position stays inside the view, and the view, the stack and
    the context are as before.  The loops over tagged fields end whatever count the input
    gives, if the decoders of the fields are such members that do not go back and the flag of
    the context is not at its greatest value; [peek] and
    [peekInt8] take positions that are no overflow; and what such a member reads between a
    [push] and a [pop] is read, and the field is popped, whatever the field, but for one: the
    check of a length in the input that is negative never ends. *)
Theorem decoder_reads_in_bounds fl :
  (total fl getInt8 /\ total fl getInt16 /\ total fl getInt32 /\ total fl getInt64 /\ total fl getFloat64) /\
  (total fl getVariant /\ total fl getUVariant /\ total fl getArrayLength /\ total fl getBool /\
   total fl getKError /\ total fl getDurationMs) /\
  (forall n, total fl (getRawBytes n) /\ total fl (getSubset n)) /\
  (total fl getBytes /\ total fl getVariantBytes /\ total fl getStringLength /\ total fl getString /\
   total fl getNullableString /\ total fl getStringArray /\ total fl getEmptyTaggedFieldArray) /\
  (total false getInt32Array /\ total false getInt64Array) /\
  (forall C (decoders : list (Z * (C -> PD C))) captured d,
    Forall (fun p => forall c, tag_decoder (snd p c)) decoders -> pd_ok d -> ctx fl (pd_flexible d) ->
    pd_flexible d < 2 ^ 16 - 1 ->
    exists v d', getTaggedFieldArray decoders captured d = Done v d' /\ framed d d') /\
  (forall offset length, 0 <= offset -> 0 <= length -> offset + length <= INT32_MAX -> total fl (peek offset length)) /\
  (forall offset d, pd_ok d -> in_s 32 (pd_offset d + offset) -> exists r, peekInt8 offset d = Done r d) /\
  (forall A field (g : M packet_decoder A) d, total fl g -> pd_ok d -> ctx fl (pd_flexible d) ->
    (~ negative_length field d -> exists v d', bracketed field g d = Done v d' /\ framed d d') /\
    (negative_length field d -> bracketed field g d = Fault FDiverge)).
Proof.
  split_and!; try solve [intros; split_and?; eauto using total_getInt32Array, total_getInt64Array with total].
  - intros C decoders captured d. apply getTaggedFieldArray_total.
  - apply peek_total.
  - apply peekInt8_total.
  - intros A field g d Hg Hok Hc. destruct field as [f|f|f]; [|split; by apply (bracket_variant fl f g d)|];
      (split; [intros _; by apply (bracket_reserved fl)|done]).
Qed.

(** A length of -1, and a byte that follows *)
Example decoder_reads_in_bounds_witness :
  bracketed (FVariantLength VariantLengthField_default) getInt8 (new_decoder [1; 7]) = Fault FDiverge.
Proof.
  destruct (decoder_reads_in_bounds false) as (H1 & _ & _ & _ & _ & _ & _ & _ & H). apply H.
  - apply H1.
  - split; by vm_compute.
  - done.
  - eexists _, _. split; [vm_compute; reflexivity|lia].
Defined.

(** ** The flexible integer arrays *)

Definition flexible_decoder (bs : list Z) : packet_decoder := set_pd_flexible 1 (new_decoder bs).
Lemma flexible_decoder_ok bs : Zlen bs < LIMIT -> pd_ok (flexible_decoder bs).
Proof. intros. pose proof (Zlen_nonneg bs). split; cbn; lia. Qed.

(** Reading elements without a check runs off the end of a short view. *)
Lemma read_elements_overrun n d :
  pd_ok d -> Zlen (rest d) < 4 * Z.of_nat n ->
  read_n n (let* v := be32_at in skip 4 ;;; ok v) d = Fault FUB.
Proof.
  revert d. induction n as [|n IH]; intros d Hok Hl; [pose proof (Zlen_nonneg (rest d)); lia|].
  cbn [read_n]. destruct (Z.le_gt_cases 4 (Zlen (rest d))) as [H|H].
  - destruct (peeks_element 4 be32_at (fun v => v) d peeks_be32_at Hok H) as [v E].
    unfold bind at 1. rewrite E. unfold bind at 1. rewrite IH; [done| |].
    + apply (framed_advance 4 d Hok). destruct Hok; lia.
    + rewrite Zlen_rest by (apply (framed_advance 4 d Hok); destruct Hok; lia).
      rewrite Zlen_rest in Hl, H by done. cbn. lia.
  - assert (forall k, 0 <= k -> Zlen (rest d) <= k -> byte_at k d = Fault FUB) as Hb.
    { intros k Hk Hr. unfold byte_at. rewrite Zlen_rest in Hr by done.
      rewrite lookup_ge_None_2; [done|]. destruct Hok as [[? ?] _]. unfold Zlen in *. lia. }
    assert (forall k (g : Z -> M packet_decoder Z), 0 <= k -> (forall b, g b d = Fault FUB) ->
              bind (byte_at k) g d = Fault FUB) as Hs.
    { intros k g Hk Hg. unfold bind at 1. destruct (byte_at k d) as [b d'|f] eqn:E.
      - unfold byte_at in E. destruct (pd_raw d !! _); [injection E as <- <-; apply Hg|done].
      - unfold byte_at in E. destruct (pd_raw d !! _); [done|by injection E as <-]. }
    assert (be32_at d = Fault FUB) as E; [|unfold bind; by rewrite E].
    unfold be32_at. do 3 (apply Hs; [lia|intros ?]). unfold bind at 1. by rewrite (Hb 3) by lia.
Qed.

(** In a flexible context the integer arrays trust the length they read.  A length
    that announces more 32-bit elements than there are bytes makes [getInt32Array] read
    past the view; one from 2^31 to 2^32 makes the resize throw; and from 2^28 elements on
    [getInt64Array] overflows the product it checks the remaining bytes against. *)
Theorem flexible_int_arrays_unchecked n tl :
  1 <= n < 2 ^ 62 -> Zlen (w_uvarint (n + 1) ++ tl) < 2 ^ 31 ->
  (n < INT32_MAX -> Zlen tl < 4 * n ->
   getInt32Array (flexible_decoder (w_uvarint (n + 1) ++ tl)) = Fault FUB) /\
  (2 ^ 31 <= n < 2 ^ 32 -> getInt32Array (flexible_decoder (w_uvarint (n + 1) ++ tl)) = Fault FThrow) /\
  (2 ^ 28 <= n < INT32_MAX -> getInt64Array (flexible_decoder (w_uvarint (n + 1) ++ tl)) = Fault FUB).
Proof.
  intros Hn Hl. set (d := flexible_decoder (w_uvarint (n + 1) ++ tl)).
  assert (pd_ok d) as Hok by by apply flexible_decoder_ok.
  assert (getUVariant d = Done (Ok (n + 1)) (advance (Zlen (w_uvarint (n + 1))) d)) as E.
  { apply (consumes_getUVariant true (n + 1) ltac:(lia) d tl); done. }
  assert (getInt32Array d = (resize_int (to_i32 n) ;;;
      read_n (Z.to_nat (to_i32 n)) (let* v := be32_at in skip 4 ;;; ok v))
      (advance (Zlen (w_uvarint (n + 1))) d)) as E32.
  { unfold getInt32Array, by_ctx. cbn [pd_flexible d flexible_decoder set_pd_flexible Z.eqb Z.ltb Z.compare].
    unfold bind at 1. rewrite E. replace (n + 1 =? 0) with false by lia.
    by replace (n + 1 - 1) with n by lia. }
  split_and!.
  - intros Hn' Ht. unfold INT32_MAX in Hn'. rewrite E32, to_i32_small by (unfold LIMIT; lia).
    unfold bind at 1, resize_int. replace (n <? 0) with false by lia. unfold ret.
    apply read_elements_overrun.
    + by apply (pd_ok_advance d _ tl).
    + rewrite (rest_advance d _ tl) by done. lia.
  - intros Hn'. rewrite E32. unfold bind at 1, resize_int, to_s.
    change (2 ^ (32 - 1)) with (2 ^ 31). replace (n + 2 ^ 31) with (n - 2 ^ 31 + 1 * 2 ^ 32) by lia.
    rewrite Z.mod_add, Z.mod_small by lia. by replace (n - 2 ^ 31 - 2 ^ 31 <? 0) with true by lia.
  - intros Hn'. unfold INT32_MAX in Hn'. unfold getInt64Array, bind at 1, getArrayLength, by_ctx.
    cbn [pd_flexible d flexible_decoder set_pd_flexible Z.eqb Z.ltb Z.compare].
    unfold bind at 1. rewrite E. replace (n + 1 =? 0) with false by lia.
    replace (n + 1 - 1) with n by lia. rewrite to_i32_small by (unfold LIMIT; lia). unfold ok, ret.
    replace (n <=? 0) with false by lia. unfold need_elements, bind at 1, i32_arith.
    rewrite bool_decide_false; [done|]. unfold in_s. change (2 ^ (32 - 1)) with (2 ^ 31). lia.
Qed.
Example flexible_int_arrays_unchecked_witness :
  getInt32Array (flexible_decoder (w_uvarint (2 + 1) ++ [1; 2; 3; 4; 5; 6; 7])) = Fault FUB.
Proof. apply (flexible_int_arrays_unchecked 2 [1; 2; 3; 4; 5; 6; 7]); by vm_compute. Defined.

(** ** Varints, exactly *)

Lemma big_group acc x i :
  0 <= i -> 0 <= acc < 2 ^ (7 * i) -> 0 <= x -> acc + x * 2 ^ (7 * i) < 2 ^ 64 ->
  Z.lor acc (to_u64 (Z.shiftl x (7 * i))) = acc + x * 2 ^ (7 * i).
Proof.
  intros Hi Ha Hx Hb. assert (0 < 2 ^ (7 * i)) by (apply Z.pow_pos_nonneg; lia).
  rewrite to_u_id; [by apply lor_low_shiftl; [lia|]|].
  rewrite Z.shiftl_mul_pow2 by lia. unfold in_u. nia.
Qed.

(** A value of 2^63 or more takes ten groups. *)
Lemma ten_groups acc x i :
  0 <= i <= 9 -> 0 <= acc < 2 ^ (7 * i) -> 0 <= x < 128 -> 2 ^ 63 <= acc + x * 2 ^ (7 * i) < 2 ^ 64 ->
  i = 9 /\ x = 1.
Proof.
  intros Hi Ha Hx Hb. assert (i = 9) as ->; [|change (2 ^ (7 * 9)) with (2 ^ 63) in *; lia].
  destruct (Z.lt_ge_cases i 9); [|lia].
  assert (2 ^ (7 * i) <= 2 ^ 56) by (apply Z.pow_le_mono_r; lia).
  change (2 ^ 63) with (128 * 2 ^ 56) in Hb. nia.
Qed.
Lemma next_big_group acc x i :
  0 <= i <= 9 -> 0 <= acc < 2 ^ (7 * i) -> 128 <= x -> 2 ^ 63 <= acc + x * 2 ^ (7 * i) < 2 ^ 64 ->
  let acc' := acc + (x mod 128) * 2 ^ (7 * i) in
  0 <= acc' < 2 ^ (7 * (i + 1)) /\ 0 <= Z.shiftr x 7 /\
  acc' + Z.shiftr x 7 * 2 ^ (7 * (i + 1)) = acc + x * 2 ^ (7 * i) /\ i + 1 <= 9.
Proof.
  intros Hi Ha Hx Hb. rewrite Z.shiftr_div_pow2 by lia. change (2 ^ 7) with 128.
  replace (7 * (i + 1)) with (7 * i + 7) by lia. rewrite Z.pow_add_r by lia. change (2 ^ 7) with 128.
  assert (i <> 9) by (intros ->; change (2 ^ (7 * 9)) with (2 ^ 63) in *; lia).
  set (p := 2 ^ (7 * i)) in *. assert (0 < p) by (apply Z.pow_pos_nonneg; lia).
  pose proof (Z.div_mod x 128 ltac:(lia)) as E. pose proof (Z.mod_pos_bound x 128 ltac:(lia)).
  assert (0 <= x / 128) by (apply Z.div_pos; lia).
  split_and!; nia || lia.
Qed.

(** One group read by either loop *)
Lemma group_step {A} d b bs (K : Z -> PD A) :
  pd_ok d -> rest d = b :: bs ->
  (if Zlen (pd_raw d) <=? pd_offset d then exhaust ErrInsufficientData d
   else (let* b := byte_at 0 in skip 1 ;;; K b) d) = K b (advance 1 d) /\
  pd_ok (advance 1 d) /\ rest (advance 1 d) = bs.
Proof.
  intros Hok Hr. change (b :: bs) with ([b] ++ bs) in Hr.
  pose proof (rest_bound _ _ _ Hok Hr) as Hb. change (Zlen [b]) with 1 in Hb. split; [|split].
  - replace (_ <=? _) with false by lia. unfold bind at 1.
    by rewrite (byte_at_rest d 0 b); [|destruct Hok; lia|lia|rewrite Hr].
  - apply (pd_ok_advance d [b] bs Hok Hr).
  - apply (rest_advance d [b] bs Hok Hr).
Qed.

Lemma getVariant_loop_overflow fuel i acc x d tl :
  Z.of_nat fuel + i = 10 -> 0 <= i <= 9 -> 0 <= acc < 2 ^ (7 * i) -> 0 <= x ->
  2 ^ 63 <= acc + x * 2 ^ (7 * i) < 2 ^ 64 ->
  pd_ok d -> rest d = encodeUVariant_loop fuel x ++ tl ->
  getVariant_loop fuel i (7 * i) acc d = Done (Err ErrVariantOverflow) (advance (- i) d).
Proof.
  revert i acc x d. induction fuel as [|fuel IH]; intros i acc x d Hf Hi Ha Hx Hb Hok Hr; [lia|].
  cbn [getVariant_loop encodeUVariant_loop] in *. destruct (Z.leb_spec 128 x).
  - destruct (next_big_group acc x i Hi Ha ltac:(lia) Hb) as (Ha' & Hx' & E & Hi').
    match goal with |- context [let* b := byte_at 0 in skip 1 ;;; @?K b] =>
      destruct (group_step d _ _ K Hok Hr) as (-> & Hok' & Hr') end. cbv beta zeta.
    rewrite flag_continued, low7_continued, big_group by
      (try lia; assert (0 < 2 ^ (7 * i)) by (apply Z.pow_pos_nonneg; lia); pose proof (Z.mod_pos_bound x 128);
       pose proof (Z.mod_le x 128); nia).
    replace (7 * i + 7) with (7 * (i + 1)) by lia.
    rewrite (IH (i + 1) _ (Z.shiftr x 7)) by (done || lia).
    unfold advance, set_pd_offset; cbn. do 2 f_equal. lia.
  - destruct (ten_groups acc x i Hi Ha ltac:(lia) Hb) as [-> ->].
    match goal with |- context [let* b := byte_at 0 in skip 1 ;;; @?K b] =>
      destruct (group_step d _ _ K Hok Hr) as (-> & Hok' & Hr') end. cbv beta zeta.
    rewrite flag_last, low7_last, big_group by (lia || done). cbn [Z.eqb Pos.eqb andb].
    replace (Z.land (acc + 1 * 2 ^ (7 * 9)) 18302628885633695744 =? 0) with false; [|symmetry; apply Z.eqb_neq].
    + cbn. unfold bind, skip, modify, err, ret, advance, set_pd_offset; cbn. do 2 f_equal. lia.
    + intros E. apply (f_equal (fun z => Z.testbit z 63)) in E.
      rewrite Z.land_spec, Z.bits_0 in E. change (2 ^ (7 * 9)) with (2 ^ 63) in *.
      assert (Z.testbit (acc + 1 * 2 ^ 63) 63 = true) as Ht.
      { apply Z.testbit_true; [lia|]. replace (acc + 1 * 2 ^ 63) with (1 * 2 ^ 63 + acc) by lia.
        rewrite Z.div_add_l, Z.div_small by lia. done. }
      rewrite Ht in E. by vm_compute in E.
Qed.

Definition encode_varint (x : Z) (out : list Z) : outcome Z (Z * list Z) :=
  encode_object (fun x => putVariant x ;;; ret (0, x)) x out.

Lemma poke_overrun (raw bs : list Z) : Zlen raw < Zlen bs -> poke raw 0 bs = None.
Proof. intros H. unfold poke. rewrite bool_decide_false; [done|]. lia. Qed.

Lemma encode_varint_overrun x out :
  in_s 64 x -> varint_sized x = false -> encode_varint x out = Fault FUB.
Proof.
  intros Hx Hs. pose proof (Zlen_encodeVariant x Hx) as Hl. unfold varint_sized in Hs.
  apply negb_false_iff in Hs. rewrite Hs in Hl.
  pose proof (varintLen_pos x). pose proof (varintLen_bound x).
  unfold encode_varint, encode_object, putVariant, bind, by_type, add_length, modify, ret, store.
  cbn [m_type new_encoder m_offset set_offset negb Z.eqb ErrNoError m_raw].
  rewrite to_u_id by (unfold in_u; lia). unfold MaxRequestSize.
  replace (_ <? 0 + varintLen x) with false by lia.
  by rewrite poke_overrun by (rewrite Zlen_replicate; lia).
Qed.

(** Signed varints, exactly.  A value is encoded when its top 7-bit group is below
    64, as the zigzag groups [encodeVariant] writes; when it is 64 or more (64, 8192,
    ...) the sizing pass counts one byte too few and the writing pass stores past its
    buffer.  Those bytes are decoded back to the value when it is in [-2^62, 2^62);
    beyond, the ten-byte form is refused with ErrVariantOverflow and the position is
    put back. *)
Theorem varint_roundtrip_exact x out tl :
  in_s 64 x -> Zlen (w_varint x ++ tl) < 2 ^ 31 ->
  encode_varint x out = (if (0 <=? x) && top_group_full 10 x then Fault FUB
                         else Done (ErrNoError, out ++ w_varint x) x) /\
  getVariant (new_decoder (w_varint x ++ tl)) =
    (if bool_decide (- 2 ^ 62 <= x < 2 ^ 62)
     then Done (Ok x) (advance (Zlen (w_varint x)) (new_decoder (w_varint x ++ tl)))
     else Done (Err ErrVariantOverflow) (new_decoder (w_varint x ++ tl))).
Proof.
  intros Hx Hl. pose proof (Zlen_nonneg (w_varint x)). pose proof (Zlen_nonneg tl).
  assert (pd_ok (new_decoder (w_varint x ++ tl))) as Hok.
  { pose proof (Zlen_nonneg (w_varint x ++ tl)). split; cbn; unfold LIMIT; lia. }
  split.
  - destruct ((0 <=? x) && top_group_full 10 x) eqn:E.
    + apply encode_varint_overrun; [done|]. unfold varint_sized. by rewrite E.
    + apply encode_object_emits.
      * eapply emits_then. apply emits_putVariant; [done|]. unfold varint_sized. by rewrite E.
      * pose proof (Zlen_encodeVariant x Hx) as Hz. rewrite E in Hz.
        rewrite Zlen_app in Hl. unfold MaxRequestSize, w_varint in *.
        pose proof (varintLen_bound x). lia.
  - pose proof (zigzagEncode_range x Hx) as Hz. pose proof (zigzagEncode_spec x Hx) as Hzs.
    destruct (bool_decide_reflect (- 2 ^ 62 <= x < 2 ^ 62)) as [Hd|Hd].
    + by apply (consumes_getVariant false x Hd _ tl).
    + unfold getVariant. change 0 with (7 * 0) at 2.
      unfold in_u in Hz. unfold in_s in Hx. change (2 ^ (64 - 1)) with (2 * 2 ^ 62) in Hx.
      rewrite (getVariant_loop_overflow 10 0 0 (zigzagEncode x) _ tl); try done; try lia.
      change (2 ^ (7 * 0)) with 1. change (2 ^ 63) with (2 * 2 ^ 62).
      destruct (Z.ltb_spec x 0); lia.
Qed.
Example varint_roundtrip_exact_witness :
  encode_varint 64 [] = Fault FUB /\
  getVariant (new_decoder (w_varint (2 ^ 62) ++ [7])) =
    Done (Err ErrVariantOverflow) (new_decoder (w_varint (2 ^ 62) ++ [7])) /\
  getVariant (new_decoder (w_varint (-65) ++ [7])) =
    Done (Ok (-65)) (advance 2 (new_decoder (w_varint (-65) ++ [7]))).
Proof.
  split; [|split].
  - destruct (varint_roundtrip_exact 64 [] []) as [E _]; [by vm_compute..|]. exact E.
  - destruct (varint_roundtrip_exact (2 ^ 62) [] [7]) as [_ E]; [by vm_compute..|]. exact E.
  - destruct (varint_roundtrip_exact (-65) [] [7]) as [_ E]; [by vm_compute..|]. exact E.
Defined.

(** ** Array lengths in a fixed context *)

Definition plain_bytes (n : Z) : bool := forallb (fun b => b <? 128) (be 4 n).
Lemma plain_bytes_ok n : 0 <= n <= MaxResponseSize -> plain_bytes n = true -> length_ok false n.
Proof.
  intros Hn Hp. split; [done|]. apply Forall_forall. intros b Hb%list_elem_of_In.
  unfold plain_bytes in Hp. rewrite forallb_forall in Hp. specialize (Hp b Hb). lia.
Qed.

Lemma to_i8_high b : 128 <= b < 256 -> to_i8 b = b - 256.
Proof.
  intros. unfold to_s. change (2 ^ (8 - 1)) with 128. change (2 ^ 8) with 256.
  Z.div_mod_to_equations. lia.
Qed.
(** A byte with its top bit set makes its term negative, and so the whole sum. *)
Lemma shl32_high b k : 128 <= b < 256 -> 0 <= k <= 16 -> shl32 (to_i8 b) k < 0.
Proof.
  intros Hb Hk. rewrite to_i8_high by done. unfold shl32. rewrite Z.shiftl_mul_pow2 by lia.
  assert (0 < 2 ^ k <= 2 ^ 16) by (split; [apply Z.pow_pos_nonneg; lia|apply Z.pow_le_mono_r; lia]).
  change (2 ^ 16) with 65536 in *. rewrite to_s_id; [nia|lia|].
  unfold in_s. change (2 ^ (32 - 1)) with 2147483648. nia.
Qed.
Lemma shl32_range x k : in_s 32 (shl32 x k).
Proof. apply to_s_range. lia. Qed.
Lemma in_s_shiftr x : in_s 32 x <-> Z.shiftr x 31 = 0 \/ Z.shiftr x 31 = -1.
Proof.
  unfold in_s. change (2 ^ (32 - 1)) with 2147483648. rewrite Z.shiftr_div_pow2 by lia.
  change (2 ^ 31) with 2147483648. Z.div_mod_to_equations. lia.
Qed.
Lemma lor_in_s a b : in_s 32 a -> in_s 32 b -> in_s 32 (Z.lor a b).
Proof.
  rewrite !in_s_shiftr, Z.shiftr_lor. intros [->| ->] [->| ->]; cbn; auto.
Qed.
Lemma to_i8_in_s b : in_s 32 (to_i8 b).
Proof.
  pose proof (to_s_range 8 b ltac:(lia)) as H. unfold in_s in *.
  change (2 ^ (32 - 1)) with 2147483648. change (2 ^ (8 - 1)) with 128 in H. lia.
Qed.

Definition signed_length (b0 b1 b2 b3 : Z) : Z :=
  to_i32 (Z.lor (Z.lor (Z.lor (shl32 (to_i8 b0) 24) (shl32 (to_i8 b1) 16)) (shl32 (to_i8 b2) 8)) (to_i8 b3)).
Lemma signed_length_negative b0 b1 b2 b3 :
  0 <= b1 < 256 -> 0 <= b2 < 256 -> 0 <= b3 < 256 -> 128 <= b1 \/ 128 <= b2 \/ 128 <= b3 ->
  signed_length b0 b1 b2 b3 < 0.
Proof.
  intros H1 H2 H3 Hh. unfold signed_length.
  rewrite to_s_id; [|lia|repeat apply lor_in_s; auto using shl32_range, to_i8_in_s].
  rewrite !Z.lor_neg. destruct Hh as [Hh|[Hh|Hh]].
  - left; left; right. apply shl32_high; lia.
  - left; right. apply shl32_high; lia.
  - right. rewrite to_i8_high; lia.
Qed.

Lemma be4_bytes n :
  0 <= n <= MaxResponseSize ->
  exists b0 b1 b2 b3, be 4 n = [b0; b1; b2; b3] /\ 0 <= b0 < 128 /\ 0 <= b1 < 256 /\ 0 <= b2 < 256 /\ 0 <= b3 < 256.
Proof.
  unfold MaxResponseSize. intros Hn. cbn [be]. eexists _, _, _, _. split; [reflexivity|].
  rewrite !land_255, !Z.shiftr_div_pow2 by lia.
  split; [|split_and!; apply Z.mod_pos_bound; lia].
  change (2 ^ (8 * Z.of_nat 3)) with 16777216. Z.div_mod_to_equations. lia.
Qed.

Lemma getArrayLength_sign_extended n d tl :
  0 <= n <= MaxResponseSize -> plain_bytes n = false ->
  pd_ok d -> pd_flexible d = 0 -> rest d = be 4 n ++ tl ->
  exists m, m < 0 /\ getArrayLength d = Done (Ok m) (advance 4 d).
Proof.
  intros Hn Hp Hok Hc Hr. pose proof (Zlen_nonneg tl).
  destruct (be4_bytes n Hn) as (b0 & b1 & b2 & b3 & Hbe & Hb0 & Hb1 & Hb2 & Hb3).
  rewrite Hbe in Hr. exists (signed_length b0 b1 b2 b3).
  assert (signed_length b0 b1 b2 b3 < 0) as Hneg.
  { apply signed_length_negative; [done..|]. unfold plain_bytes in Hp. rewrite Hbe in Hp. cbn in Hp. lia. }
  split; [done|]. unfold getArrayLength, by_ctx. rewrite Hc. cbn [Z.eqb].
  unfold when_short. rewrite remaining_spec by done.
  replace (Zlen (rest d) <? 4) with false by (rewrite Hr; cbn [app]; rewrite !Zlen_cons; lia).
  read_bytes. fold (signed_length b0 b1 b2 b3). cbv zeta.
  unfold bind, skip, modify. unfold MaxResponseSize.
  by replace (_ <? signed_length b0 b1 b2 b3) with false by lia.
Qed.

(** Array lengths in a fixed context.  The encoder writes every length as four
    bytes, but the decoder sign-extends each byte it reads: it returns the length when
    no byte has its top bit set and a negative number otherwise, without an error, for
    every length the format allows.  So an array of 128 to 255 strings, for instance, is
    read back as an empty one, its elements left in the input. *)
Theorem array_length_sign_extended n tl out :
  0 <= n <= MaxResponseSize -> Zlen tl < 2 ^ 30 ->
  let d := new_decoder (be 4 n ++ tl) in
  encode_object (fun n => let* r := putArrayLength n in ret (r, n)) n out = Done (ErrNoError, out ++ be 4 n) n /\
  if plain_bytes n then getArrayLength d = Done (Ok n) (advance 4 d)
  else exists m, m < 0 /\ getArrayLength d = Done (Ok m) (advance 4 d) /\
                 getStringArray d = Done (Ok []) (advance 4 d).
Proof.
  intros Hn Htl d. pose proof (Zlen_nonneg tl).
  assert (pd_ok d) as Hok.
  { split; cbn -[be]; rewrite Zlen_app, Zlen_be; unfold LIMIT; lia. }
  split.
  { apply encode_object_emits; [|by rewrite Zlen_be].
    eapply emits_as; [eapply emits_bind; [apply (emits_putArrayLength false)|apply emits_ret]|apply app_nil_r].
    unfold INT32_MAX, MaxResponseSize in *. lia. }
  destruct (plain_bytes n) eqn:Hp.
  { by apply (consumes_getArrayLength false n (plain_bytes_ok n Hn Hp) d tl). }
  destruct (getArrayLength_sign_extended n d tl Hn Hp Hok eq_refl eq_refl) as (m & Hm & E).
  exists m. split; [done|]. split; [done|].
  unfold getStringArray, by_ctx. cbn [d pd_flexible new_decoder Z.eqb]. fold d.
  unfold bind. rewrite E. by replace (m <=? 0) with true by lia.
Qed.
Example array_length_sign_extended_witness :
  exists m, m < 0 /\ getArrayLength (new_decoder (be 4 200 ++ [0; 1; 97])) =
              Done (Ok m) (advance 4 (new_decoder (be 4 200 ++ [0; 1; 97]))) /\
            getStringArray (new_decoder (be 4 200 ++ [0; 1; 97])) =
              Done (Ok []) (advance 4 (new_decoder (be 4 200 ++ [0; 1; 97]))).
Proof.
  destruct (array_length_sign_extended 200 [0; 1; 97] []) as [_ H];
    [unfold MaxResponseSize; lia|by vm_compute|exact H].
Defined.

(** ** Arrays of strings in a flexible context *)

(** A writing pass that runs past the end of its buffer stops in an assertion or in
    undefined behaviour. *)
Definition overruns {A} (fl : bool) (e : PE A) (bs : list Z) : Prop :=
  forall s, m_type s = REAL -> ctx fl (pe_flexible s) ->
  0 <= m_offset s <= Zlen (m_raw s) -> Zlen (m_raw s) < LIMIT -> Zlen (m_raw s) < m_offset s + Zlen bs ->
  exists f, e s = Fault f.

Lemma writes_room_run {A} fl (e : PE A) v bs s :
  writes fl e v bs -> m_type s = REAL -> ctx fl (pe_flexible s) ->
  0 <= m_offset s -> Zlen (m_raw s) < LIMIT -> m_offset s + Zlen bs <= Zlen (m_raw s) ->
  exists raw, e s = Done v (set_offset (m_offset s + Zlen bs) (set_raw raw s)) /\ Zlen raw = Zlen (m_raw s).
Proof.
  intros Hw Ht Hc Ho Hl Hr. pose proof (Zlen_nonneg bs).
  set (o := Z.to_nat (m_offset s)). set (n := length bs).
  assert (m_raw s = take o (m_raw s) ++ take n (drop o (m_raw s)) ++ drop n (drop o (m_raw s))) as E
    by by rewrite !take_drop.
  assert (Zlen (take o (m_raw s)) = m_offset s) as H1 by (unfold Zlen in *; rewrite length_take; lia).
  assert (Zlen (take n (drop o (m_raw s))) = Zlen bs) as H2
    by (unfold Zlen in *; rewrite length_take, length_drop; lia).
  eexists. split; [by apply (Hw s _ _ _ Ht Hc E)|].
  apply (f_equal Zlen) in E. rewrite !Zlen_app in *. lia.
Qed.

Lemma overruns_bind {A B} fl (e : PE A) (k : A -> PE B) v b1 b2 :
  writes fl e v b1 -> overruns fl e b1 -> overruns fl (k v) b2 -> overruns fl (bind e k) (b1 ++ b2).
Proof.
  intros Hw He Hk s Ht Hc Ho Hl Hover. rewrite Zlen_app in Hover. unfold bind.
  destruct (Z.lt_ge_cases (Zlen (m_raw s)) (m_offset s + Zlen b1)) as [H|H].
  - destruct (He s Ht Hc Ho Hl H) as [f ->]. by exists f.
  - destruct (writes_room_run fl e v b1 s Hw Ht Hc ltac:(lia) Hl H) as (raw & -> & Hraw).
    pose proof (Zlen_nonneg b1). apply Hk; cbn; done || lia.
Qed.
Lemma overruns_then {A B} fl (e : PE A) (w : B) bs : overruns fl e bs -> overruns fl (e ;;; ret w) bs.
Proof. intros He s Ht Hc Ho Hl Hover. unfold bind. destruct (He s Ht Hc Ho Hl Hover) as [f ->]. by exists f. Qed.

Lemma overruns_putUVarint fl x : overruns fl (putUVarint x) (w_uvarint x).
Proof.
  intros s Ht Hc Ho Hl Hover. unfold putUVarint, by_type. rewrite Ht. unfold bind, store, poke.
  rewrite bool_decide_false by (unfold w_uvarint in Hover; lia). by eexists.
Qed.
Lemma overruns_putRawBytes fl s' : overruns fl (putRawBytes s') s'.
Proof.
  intros s Ht Hc Ho Hl Hover. unfold putRawBytes, by_type. rewrite Ht. unfold bind, assert_room.
  replace (_ <=? _) with false by lia. by eexists.
Qed.
Lemma overruns_compact n : 0 <= n < INT32_MAX -> overruns true (putArrayLength n) (w_uvarint (n + 1)).
Proof.
  intros Hn s Ht Hc Ho Hl Hover. unfold putArrayLength, by_type. rewrite Ht. unfold bind at 1.
  rewrite (by_context_eq true) by done. unfold put_compact_length.
  rewrite i32_arith_ok by (unfold INT32_MAX, in_s in *; change (2 ^ (32 - 1)) with 2147483648; lia).
  unfold bind at 1, ret at 1. rewrite to_u_id by (unfold INT32_MAX, in_u in *; lia).
  destruct (overruns_putUVarint true (n + 1) s Ht Hc Ho Hl Hover) as [f ->]. by exists f.
Qed.

Lemma overruns_putString s' : string_ok true s' -> overruns true (putString s') (w_string true s').
Proof.
  intros Hs s Ht Hc Ho Hl Hover. pose proof (Zlen_nonneg s').
  unfold putString, by_type. rewrite Ht, (by_context_eq true) by done.
  rewrite to_i32_len by (unfold string_ok, INT32_MAX, LIMIT in *; lia).
  eapply (overruns_bind true (putArrayLength (Zlen s')) (fun _ => putRawBytes s' ;;; ret 0) 0
            (w_uvarint (Zlen s' + 1)) s'); try done.
  - apply emits_writes. apply (emits_putArrayLength true). split; done.
  - apply overruns_compact. split; done.
  - apply overruns_then, overruns_putRawBytes.
Qed.
Lemma overruns_strings l :
  Forall (string_ok true) l ->
  overruns true (for_do l (fun s => putString s ;;; ret tt)) (w_list (w_string true) l).
Proof.
  induction 1 as [|s l Hs Hl IH]; [intros s; unfold w_list; cbn; unfold Zlen; cbn; lia|].
  eapply (overruns_bind true (putString s ;;; ret tt) (fun _ => for_do l _) tt); [| |exact IH].
  - by eapply writes_then, emits_writes, emits_putString.
  - apply overruns_then. by apply overruns_putString.
Qed.

Definition encode_strings (l : list (list Z)) (out : list Z) : outcome (list (list Z)) (Z * list Z) :=
  encode_object (fun l => let* r := flexible_encode (putStringArray l) in ret (r, l)) l out.

Lemma flexible_string_sizes l :
  array_ok l -> sizes true (putStringArray l) 0 (w_array_length true (Zlen l) ++ replicate (4 * length l) 0).
Proof.
  intros Hl. unfold putStringArray. rewrite array_to_i32 by done. apply sizes_by_type, sizes_by_context.
  eapply sizes_try; [by apply emits_sizes, emits_putArrayLength, array_ok_len|].
  eapply sizes_then, sizes_as; [by apply (sizes_add_elements true 4 l (fun _ => replicate 4 0))|].
  clear Hl. induction l as [|x l IH]; [done|].
  change (w_list (fun _ => replicate 4 0) (x :: l)) with
    (replicate 4 0 ++ w_list (fun _ : list Z => replicate 4 0) l).
  rewrite IH, <- replicate_add. f_equal. cbn [length]. lia.
Qed.
Lemma flexible_string_writes l :
  array_ok l -> Forall (string_ok true) l -> writes true (putStringArray l) 0 (w_string_array true l).
Proof.
  intros Hl Hs. rewrite Forall_forall in Hs. unfold putStringArray, w_string_array.
  rewrite array_to_i32 by done. apply writes_by_type, writes_by_context.
  eapply writes_bind; [by apply emits_writes, (emits_putArrayLength true), array_ok_len|].
  eapply writes_then, emits_writes, emits_for_do. intros. by eapply emits_then, emits_putString, Hs.
Qed.
Lemma overruns_flexible_strings l :
  array_ok l -> Forall (string_ok true) l -> overruns true (putStringArray l) (w_string_array true l).
Proof.
  intros Hl Hs s Ht Hc Ho Hll Hover. unfold putStringArray, w_string_array in *.
  rewrite array_to_i32 by done. unfold by_type. rewrite Ht, (by_context_eq true) by done.
  eapply (overruns_bind true (putArrayLength (Zlen l)) (fun _ => for_do l (fun s => putString s ;;; ret tt) ;;; ret 0) 0
            (w_array_length true (Zlen l)) (w_list (w_string true) l)); try done.
  - by apply emits_writes, (emits_putArrayLength true), array_ok_len.
  - by apply overruns_compact, array_ok_len.
  - apply overruns_then. by apply overruns_strings.
Qed.

Lemma flexible_encode_run e s v s' :
  pe_flexible s = 0 -> e (set_pe_flexible 1 s) = Done v s' -> pe_flexible s' = 1 ->
  flexible_encode e s = Done v (set_pe_flexible 0 s').
Proof.
  intros H0 E H1. unfold flexible_encode, bind, pe_push_flexible, modify. rewrite H0.
  change (to_u16 (0 + 1)) with 1. rewrite E. unfold pe_pop_flexible. by rewrite H1.
Qed.
Lemma flexible_encode_fault e s f :
  pe_flexible s = 0 -> e (set_pe_flexible 1 s) = Fault f -> flexible_encode e s = Fault f.
Proof.
  intros H0 E. unfold flexible_encode, bind, pe_push_flexible, modify. rewrite H0.
  change (to_u16 (0 + 1)) with 1. by rewrite E.
Qed.

(** The driver after its sizing pass *)
Lemma encode_strings_real l out n :
  flexible_encode (putStringArray l) (new_encoder PREP 0) = Done 0 (set_offset n (new_encoder PREP 0)) ->
  0 <= n <= MaxRequestSize ->
  encode_strings l out =
    match flexible_encode (putStringArray l) (new_encoder REAL n) with
    | Fault f => Fault f
    | Done r s => if negb (r =? ErrNoError) then Done (ErrEncodeError, out) l
                  else Done (ErrNoError, out ++ m_raw s) l
    end.
Proof.
  intros E Hn. unfold encode_strings, encode_object, bind. rewrite E. unfold ret. cbn -[to_u MaxRequestSize flexible_encode].
  rewrite to_u_id by (unfold MaxRequestSize, in_u in *; lia). replace (MaxRequestSize <? n) with false by lia.
  by destruct (flexible_encode (putStringArray l) (new_encoder REAL n)).
Qed.

(** In a flexible context the sizing pass counts four bytes for each string of an
    array, whatever its length.  When the strings with their lengths need more, the
    writing pass runs past its buffer; when they need less, zero bytes follow the array
    in the output, so the message is right only when they need exactly that. *)
Theorem putStringArray_flexible_missized l out :
  array_ok l -> Forall (string_ok true) l -> Zlen l < 2 ^ 24 ->
  let need := Zlen (w_list (w_string true) l) in
  if need <=? 4 * Zlen l
  then encode_strings l out =
         Done (ErrNoError, out ++ w_string_array true l ++ replicate (Z.to_nat (4 * Zlen l - need)) 0) l
  else exists f, encode_strings l out = Fault f.
Proof.
  intros Hl Hs Hn need. pose proof (Zlen_nonneg l).
  pose proof (Zlen_encodeUVariant_bound (Zlen l + 1)) as Hh.
  set (total := w_array_length true (Zlen l) ++ replicate (4 * length l) 0).
  assert (Zlen total = Zlen (encodeUVariant (Zlen l + 1)) + 4 * Zlen l) as Ht.
  { unfold total. rewrite Zlen_app. f_equal. unfold Zlen. rewrite length_replicate. lia. }
  assert (Zlen (w_string_array true l) = Zlen (encodeUVariant (Zlen l + 1)) + need) as Hw
    by (unfold w_string_array; by rewrite Zlen_app).
  assert (flexible_encode (putStringArray l) (new_encoder PREP 0) =
          Done 0 (set_offset (Zlen total) (new_encoder PREP 0))) as Hprep.
  { pose proof (flexible_string_sizes l Hl) as Hsz. fold total in Hsz.
    by rewrite (flexible_encode_run _ _ 0 (set_offset (Zlen total) (set_pe_flexible 1 (new_encoder PREP 0))))
      by (done || (rewrite Hsz by (first [done | cbn -[Zlen]; unfold LIMIT; lia]); done)). }
  rewrite (encode_strings_real l out (Zlen total)) by (done || unfold MaxRequestSize; lia).
  set (s := set_pe_flexible 1 (new_encoder REAL (Zlen total))).
  assert (0 <= need) as Hneed by apply Zlen_nonneg.
  assert (Zlen (m_raw s) = Zlen total) as Hraw by (apply Zlen_replicate; lia).
  destruct (Z.leb_spec need (4 * Zlen l)).
  - erewrite (flexible_encode_run _ (new_encoder REAL (Zlen total)) 0); [|done| |].
    2: { fold s. apply (flexible_string_writes l Hl Hs s [] (replicate (Z.to_nat (Zlen total - (4 * Zlen l - need))) 0)
           (replicate (Z.to_nat (4 * Zlen l - need)) 0)); try done.
         - cbn -[Zlen]. rewrite <- replicate_add. f_equal. lia.
         - rewrite Zlen_replicate by lia. lia.
         - rewrite Hraw. unfold LIMIT. lia. }
    all: done.
  - destruct (overruns_flexible_strings l Hl Hs s) as [f E]; try done.
    + cbn -[Zlen]. rewrite Zlen_replicate by lia. lia.
    + rewrite Hraw. unfold LIMIT. lia.
    + rewrite Hraw, Hw. change (m_offset s) with 0. lia.
    + exists f. by rewrite (flexible_encode_fault _ _ f).
Qed.
Example putStringArray_flexible_missized_witness :
  (exists f, encode_strings [[104; 101; 108; 108; 111]] [] = Fault f) /\
  encode_strings [[104]; [105; 106]] [9] = Done (0, [9; 3; 2; 104; 3; 105; 106; 0; 0; 0]) [[104]; [105; 106]].
Proof.
  split.
  - apply (putStringArray_flexible_missized [[104; 101; 108; 108; 111]] []);
      first [by apply (bool_decide_unpack _); vm_compute | by vm_compute].
  - apply (putStringArray_flexible_missized [[104]; [105; 106]] [9]);
      first [by apply (bool_decide_unpack _); vm_compute | by vm_compute].
Defined.
