(* ===== verification/MessageSafety.v ===== *)
(** * Message bodies on arbitrary input

    From the totality of the decoder's members ([CodecLimits]): which bodies
    [decode_version] reads to a value or an error code whatever the bytes are, and
    how the ones that resize a vector to the count they read can fail. *)
From Stdlib Require Import ZArith Lia Bool.
From stdpp Require Import base tactics list numbers sets.
From S2P Require Import Prelude Errors Wire Crc Fields Encoder Decoder Codec CodecEnc CodecDec.
From S2P Require Import EncoderDecoder StdMap GroupMessages TxnMessages CodecLimits.

Lemma total_readIf {A} fl c (g : PD A) old : total fl g -> total fl (readIf c g old).
Proof. unfold readIf. destruct c; [done|]. intros _. apply total_ret. Qed.
Lemma total_read_counted {X} fl n (g : PD X) : total fl g -> total fl (read_counted n g).
Proof. apply total_read_n. Qed.

(** Both sides of a body: it is read in the context its version selects. *)
Class TotalBody (T : Type) `{protocol_body T} := {
  body_total (x : T) (version : Z) : total (pb_is_flexible_version x version) (pb_decode x version)
}.

Lemma total_flexible {A} (g : PD A) : total true g -> total false (flexible_decode g).
Proof.
  intros Hg d Hok Hc _. cbn in Hc. unfold flexible_decode, bind, pd_push_flexible, modify. rewrite Hc.
  change (to_u16 (0 + 1)) with 1.
  destruct (Hg (set_pd_flexible 1 d)) as (v & d' & E & Hf & _); [done|by cbn|apply Zlen_nonneg|].
  rewrite E. destruct Hf as (Hok' & Hraw & Hst & Hfl). cbn in *. unfold pd_pop_flexible. rewrite Hfl.
  change (0 <? 1) with true. cbv iota. unfold ret. exists v, (set_pd_flexible 0 d').
  split; [done|]. split; [|done]. split; [done|]. cbn. by rewrite Hraw, Hst, Hc.
Qed.

Lemma decode_version_total {T} `{TotalBody T} (x : T) version buf :
  Zlen buf < LIMIT -> exists r helper, decode_version buf x version = Done r helper.
Proof.
  intros Hl. unfold decode_version. destruct (empty buf); [by eexists _, _|].
  assert (pd_ok (new_decoder buf)) as Hok by (split; cbn; [pose proof (Zlen_nonneg buf)|]; lia).
  assert (total false (prepare_flexible_decoder x version)) as Ht.
  { unfold prepare_flexible_decoder. pose proof (body_total x version) as Hb.
    destruct (pb_is_flexible_version x version); [by apply total_flexible|done]. }
  destruct (Ht _ Hok eq_refl (Zlen_nonneg _)) as ([e|v] & d & -> & _ & _); [by eexists _, _|].
  destruct (negb (remaining d =? 0)); by eexists _, _.
Qed.

(** The bodies: every member call in turn *)
Ltac solve_total :=
  repeat first
    [ apply total_ret
    | apply total_let; [|intros ?] | apply total_let_or; [|intros ?]
    | apply total_readIf | apply total_read_counted
    | apply total_getArrayLength | apply total_getInt8 | apply total_getInt16 | apply total_getInt32
    | apply total_getInt64 | apply total_getBool | apply total_getKError | apply total_getDurationMs
    | apply total_getString | apply total_getNullableString | apply total_getBytes
    | apply getEmptyTaggedFieldArray_total
    | apply total_if | progress cbv beta zeta ].

#[export] Instance HeartbeatRequest_total : TotalBody HeartbeatRequest.
Proof. split. intros x v. cbn. unfold HeartbeatRequest_decode. solve_total. Qed.
#[export] Instance HeartbeatResponse_total : TotalBody HeartbeatResponse.
Proof. split. intros x v. cbn. unfold HeartbeatResponse_decode. solve_total. Qed.
#[export] Instance SyncGroupRequest_total : TotalBody SyncGroupRequest.
Proof.
  split. intros x v. cbn [pb_decode pb_is_flexible_version SyncGroupRequest_body].
  unfold SyncGroupRequest_decode. solve_total.
Qed.
#[export] Instance SyncGroupResponse_total : TotalBody SyncGroupResponse.
Proof. split. intros x v. cbn. unfold SyncGroupResponse_decode. solve_total. Qed.
#[export] Instance InitProducerIDRequest_total : TotalBody InitProducerIDRequest.
Proof. split. intros x v. cbn. unfold InitProducerIDRequest_decode. solve_total. Qed.
#[export] Instance InitProducerIDResponse_total : TotalBody InitProducerIDResponse.
Proof. split. intros x v. cbn. unfold InitProducerIDResponse_decode. solve_total. Qed.
#[export] Instance AddOffsetsToTxnRequest_total : TotalBody AddOffsetsToTxnRequest.
Proof. split. intros x v. cbn. unfold AddOffsetsToTxnRequest_decode. solve_total. Qed.
#[export] Instance AddOffsetsToTxnResponse_total : TotalBody AddOffsetsToTxnResponse.
Proof. split. intros x v. cbn. unfold AddOffsetsToTxnResponse_decode. solve_total. Qed.
#[export] Instance EndTxnRequest_total : TotalBody EndTxnRequest.
Proof. split. intros x v. cbn. unfold EndTxnRequest_decode. solve_total. Qed.
#[export] Instance EndTxnResponse_total : TotalBody EndTxnResponse.
Proof. split. intros x v. cbn. unfold EndTxnResponse_decode. solve_total. Qed.
#[export] Instance JoinGroupRequest_total : TotalBody JoinGroupRequest.
Proof.
  split. intros x v. cbn [pb_decode pb_is_flexible_version JoinGroupRequest_body].
  unfold JoinGroupRequest_decode. solve_total.
Qed.
Lemma AddPartitionsToTxnRequest_total iterate : @TotalBody _ (AddPartitionsToTxnRequest_body iterate).
Proof.
  split. intros x v. cbn [pb_decode pb_is_flexible_version AddPartitionsToTxnRequest_body].
  unfold AddPartitionsToTxnRequest_decode. solve_total.
  unfold topic_partitions_decode. solve_total. apply total_getInt32Array.
Qed.

(** C21: No input makes the decoder of these bodies fault: whatever the bytes, the version
    and the object decoded into, [decode_version] returns a body or an error code, with
    no read outside the input, no exception and no endless loop. *)
Theorem message_decoders_total buf version iterate :
  Zlen buf < 2 ^ 31 ->
  (forall x : HeartbeatRequest, exists r d, decode_version buf x version = Done r d) /\
  (forall x : HeartbeatResponse, exists r d, decode_version buf x version = Done r d) /\
  (forall x : SyncGroupRequest, exists r d, decode_version buf x version = Done r d) /\
  (forall x : SyncGroupResponse, exists r d, decode_version buf x version = Done r d) /\
  (forall x : JoinGroupRequest, exists r d, decode_version buf x version = Done r d) /\
  (forall x : InitProducerIDRequest, exists r d, decode_version buf x version = Done r d) /\
  (forall x : InitProducerIDResponse, exists r d, decode_version buf x version = Done r d) /\
  (forall x : AddOffsetsToTxnRequest, exists r d, decode_version buf x version = Done r d) /\
  (forall x : AddOffsetsToTxnResponse, exists r d, decode_version buf x version = Done r d) /\
  (forall x : EndTxnRequest, exists r d, decode_version buf x version = Done r d) /\
  (forall x : EndTxnResponse, exists r d, decode_version buf x version = Done r d) /\
  (forall x : AddPartitionsToTxnRequest, exists r d,
     decode_version (H := AddPartitionsToTxnRequest_body iterate) buf x version = Done r d).
Proof.
  intros Hl. pose proof (AddPartitionsToTxnRequest_total iterate) as Ha.
  repeat (split; [intros x; by apply decode_version_total|]).
  intros x. by apply (decode_version_total (H := AddPartitionsToTxnRequest_body iterate)).
Qed.
Example message_decoders_total_witness :
  exists r d, decode_version [0; 200; 1; 2] (SyncGroupRequest_initial 3) 3 = Done r d.
Proof. apply (message_decoders_total [0; 200; 1; 2] 3 (fun _ => [])). by vm_compute. Defined.

(** ** A vector resized to the count *)

(** The wire form of a leave-group request of version 3, for any number of members *)
Definition leave_group_3 (m : LeaveGroupRequest) : list Z :=
  w_string false (lgq_group_id m) ++ be 4 (Zlen (lgq_members m)) ++
  w_list (MemberIdentity_wire false) (lgq_members m).

Lemma leave_group_3_emits m :
  lgq_version m = 3 -> string_ok false (lgq_group_id m) ->
  Forall (MemberIdentity_ok false) (lgq_members m) -> Zlen (lgq_members m) < 2 ^ 28 ->
  emits false (LeaveGroupRequest_encode m) 0 (leave_group_3 m).
Proof.
  intros Hv Hg Hm Hn. unfold LeaveGroupRequest_encode, leave_group_3. rewrite Hv. cbn [Z.ltb Z.leb Z.compare Pos.compare Pos.compare_cont when].
  eapply emits_as.
  - eapply emits_try; [eauto with emit|]. eapply emits_try; [apply emits_ret|].
    eapply emits_try; [eapply emits_try|].
    + by apply emits_putArrayLength_of.
    + apply emits_for_try. intros x Hx. rewrite Forall_forall in Hm. by apply MemberIdentity_emits, Hm.
    + eapply emits_seq; [apply emits_putEmptyTaggedFieldArray|apply emits_ret].
  - cbn [app w_tags]. by rewrite app_nil_r.
Qed.

Lemma members_length l : Zlen l <= Zlen (w_list (MemberIdentity_wire false) l).
Proof.
  induction l as [|x l IH]; [done|].
  change (w_list _ (x :: l)) with (MemberIdentity_wire false x ++ w_list (MemberIdentity_wire false) l).
  rewrite Zlen_cons, Zlen_app. assert (1 <= Zlen (MemberIdentity_wire false x)); [|lia].
  unfold MemberIdentity_wire, w_string. rewrite !Zlen_app, Zlen_be.
  pose proof (Zlen_nonneg (mid_member_id x)). pose proof (Zlen_nonneg (w_tags false)).
  pose proof (Zlen_nonneg (w_nullable_string false (mid_group_instance_id x))). lia.
Qed.

(** The array reader of the decoder on such a count *)
Lemma resized_negative {X} (g : PD X) n d tl :
  0 <= n <= MaxResponseSize -> plain_bytes n = false ->
  pd_ok d -> pd_flexible d = 0 -> rest d = be 4 n ++ tl ->
  (let! n := getArrayLength in read_resized n g) d = Fault FThrow.
Proof.
  intros Hn Hp Hok Hc Hr.
  destruct (getArrayLength_sign_extended n d tl Hn Hp Hok Hc Hr) as (m & Hm & E).
  unfold bind. rewrite E. unfold read_resized, resize_int, bind. by replace (m <? 0) with true by lia.
Qed.

(** A leave-group request of version 3 with 128 to 255 members (in general, with a
    member count that has a byte of 128 or more) is encoded, and decoding those bytes
    throws: the sign-extended count is negative, and the vector of members is resized to
    it. *)
Theorem LeaveGroupRequest_decode_throws m out (self : LeaveGroupRequest) :
  lgq_version m = 3 -> string_ok false (lgq_group_id m) ->
  Forall (MemberIdentity_ok false) (lgq_members m) ->
  plain_bytes (Zlen (lgq_members m)) = false -> Zlen (leave_group_3 m) < MaxRequestSize ->
  encode m out = Done (ErrNoError, out ++ leave_group_3 m) m /\
  decode_version (leave_group_3 m) self 3 = Fault FThrow.
Proof.
  intros Hv Hg Hm Hp Hl. unfold MaxRequestSize in Hl.
  set (n := Zlen (lgq_members m)) in *.
  set (tl := w_list (MemberIdentity_wire false) (lgq_members m)).
  assert (0 <= n <= Zlen (leave_group_3 m)) as Hn.
  { split; [apply Zlen_nonneg|]. unfold leave_group_3. rewrite !Zlen_app, Zlen_be.
    pose proof (Zlen_nonneg (w_string false (lgq_group_id m))).
    pose proof (members_length (lgq_members m)). lia. }
  split.
  - apply (encode_emits m (leave_group_3 m) out); [|unfold MaxRequestSize; lia].
    cbn [pb_is_flexible pb_encode LeaveGroupRequest_body]. unfold LeaveGroupRequest_is_flexible_version.
    rewrite Hv. apply leave_group_3_emits; done || lia.
  - set (d := new_decoder (leave_group_3 m)).
    assert (pd_ok d) as Hok by (split; cbn -[leave_group_3]; unfold LIMIT; lia).
    assert (rest d = w_string false (lgq_group_id m) ++ be 4 n ++ tl) as Hr by done.
    unfold decode_version. rewrite empty_false by (intros E; unfold leave_group_3 in E;
      apply app_eq_nil in E as [E _]; by apply w_string_ne in E).
    change (prepare_flexible_decoder self 3) with (LeaveGroupRequest_decode self 3). fold d.
    unfold LeaveGroupRequest_decode, bind at 1.
    rewrite (consumes_getString false _ Hg d _ Hok eq_refl Hr).
    unfold bind at 1, readIf at 1. change (3 <? 3) with false. cbv iota. unfold ret at 1.
    unfold bind at 1, readIf at 1. change (3 <=? 3) with true. cbv iota.
    rewrite (resized_negative _ n _ tl); [done|unfold MaxResponseSize; lia|done| |done|].
    + by apply (pd_ok_advance d _ _ Hok Hr).
    + by apply (rest_advance d _ _ Hok Hr).
Qed.
Example LeaveGroupRequest_decode_throws_witness :
  let m := mkLeaveGroupRequest 3 [103] [] (replicate 200 (mkMemberIdentity [109] [])) in
  encode m [] = Done (ErrNoError, leave_group_3 m) m /\
  decode_version (leave_group_3 m) (LeaveGroupRequest_initial 3) 3 = Fault FThrow.
Proof.
  apply (LeaveGroupRequest_decode_throws
           (mkLeaveGroupRequest 3 [103] [] (replicate 200 (mkMemberIdentity [109] []))) []);
    first [by apply (bool_decide_unpack _); vm_compute | by vm_compute].
Defined.
