(* ===== verification/Version.v ===== *)
(** * Kafka versions

    [KafkaVersion] of [coev_kafka/version.h] and [coev_kafka/version.cpp]: comparison,
    printing and parsing, and the request version [CreateTopicsRequest] chooses with it. *)
From Stdlib Require Import ZArith Lia Bool.
From stdpp Require Import base tactics list numbers.
From S2P Require Import Prelude Decimal StdMap.

(* coev_kafka/version.h:16-31 KafkaVersion *)
Record KafkaVersion := mkVersion { v_major : Z; v_minor : Z; v_veryMinor : Z; v_patch : Z }.
#[export] Instance KafkaVersion_eq_dec : EqDecision KafkaVersion.
Proof. solve_decision. Defined.

Definition version_list (v : KafkaVersion) : list Z := [v_major v; v_minor v; v_veryMinor v; v_patch v].
Fixpoint at_least (a b : list Z) : bool :=
  match a, b with
  | x :: a, y :: b => if y <? x then true else if x <? y then false else at_least a b
  | _, _ => true
  end.
(* coev_kafka/version.cpp KafkaVersion::IsAtLeast *)
Definition IsAtLeast (v other : KafkaVersion) : bool := at_least (version_list v) (version_list other).
(* coev_kafka/version.cpp:55-63 KafkaVersion::operator== *)
Definition version_eq (v other : KafkaVersion) : bool := bool_decide (version_list v = version_list other).
(* coev_kafka/version.cpp:64-67 KafkaVersion::operator>= *)
Definition version_ge (v o : KafkaVersion) : bool :=
  (v_major o <=? v_major v) || ((v_major v =? v_major o) && (v_minor o <=? v_minor v)) ||
  ((v_minor v =? v_minor o) && (v_veryMinor o <=? v_veryMinor v)) ||
  ((v_veryMinor v =? v_veryMinor o) && (v_patch o <=? v_patch v)).

(* coev_kafka/version.h:34-114 V0_8_2_0 *)
Definition V0_8_2_0 := mkVersion 0 8 2 0.
Definition V0_10_0_0 := mkVersion 0 10 0 0.
Definition V0_10_2_0 := mkVersion 0 10 2 0.
Definition V0_11_0_0 := mkVersion 0 11 0 0.
Definition V1_0_0_0 := mkVersion 1 0 0 0.
Definition V2_0_0_0 := mkVersion 2 0 0 0.
Definition V2_1_0_0 := mkVersion 2 1 0 0.
Definition V2_4_0_0 := mkVersion 2 4 0 0.
Definition V2_5_0_0 := mkVersion 2 5 0 0.
Definition V2_7_0_0 := mkVersion 2 7 0 0.
Definition DefaultVersion := mkVersion 2 1 0 0.

(** ** Printing and parsing *)

Definition dot : Z := 46.
(* coev_kafka/version.cpp KafkaVersion::String *)
Definition version_String (v : KafkaVersion) : list Z :=
  if v_major v =? 0
  then [48; dot] ++ to_string (v_minor v) ++ [dot] ++ to_string (v_veryMinor v) ++ [dot] ++ to_string (v_patch v)
  else to_string (v_major v) ++ [dot] ++ to_string (v_minor v) ++ [dot] ++ to_string (v_veryMinor v).

(** The parts of a string between its dots, which the regular expressions look at: [\d+]
    matches a part when it is a number. *)
Fixpoint split_dots (s : list Z) : list (list Z) :=
  match s with
  | [] => [[]]
  | c :: s =>
      if c =? dot then [] :: split_dots s
      else match split_dots s with [] => [[c]] | p :: ps => (c :: p) :: ps end
  end.
Definition number (p : list Z) : bool := bool_decide (p <> []) && forallb is_digit p.
(** [%u] is undefined for a number that does not fit. *)
Definition scan_u (p : list Z) : option Z := if decimal p <? 2 ^ 32 then Some (decimal p) else None.
(* coev_kafka/version.cpp:69-97 ParseKafkaVersion *)
Definition ParseKafkaVersion (s : list Z) : option KafkaVersion :=
  if Zlen s <? 5 then Some DefaultVersion
  else match s with
  | 48 :: _ =>
      match split_dots s with
      | [[48]; a; b; c] =>
          if number a && number b && number c
          then minor ← scan_u a; veryMinor ← scan_u b; patch ← scan_u c; Some (mkVersion 0 minor veryMinor patch)
          else Some DefaultVersion
      | _ => Some DefaultVersion
      end
  | _ =>
      match split_dots s with
      | [a; b; c] =>
          if number a && number b && number c
          then major ← scan_u a; minor ← scan_u b; veryMinor ← scan_u c; Some (mkVersion major minor veryMinor 0)
          else Some DefaultVersion
      | _ => Some DefaultVersion
      end
  end.

(** The version of a CreateTopics request for a broker of version [version] *)
(* coev_kafka/create_topics_request.cpp:252-273 CreateTopicsRequest::CreateTopicsRequest *)
Definition CreateTopicsRequest_version (version : KafkaVersion) : Z :=
  if version_ge version V2_4_0_0 then 5
  else if version_ge version V2_0_0_0 then 3
  else if version_ge version V0_11_0_0 then 2
  else if version_ge version V0_10_2_0 then 1
  else 0.

(** ** Lemmas *)

Definition version_ok (v : KafkaVersion) : Prop := Forall (in_u 32) (version_list v).

Lemma at_least_compare a b : length a = length b -> at_least a b = false <-> bytes_compare a b = Lt.
Proof.
  revert b. induction a as [|x a IH]; intros [|y b] Hl; cbn in *; try done.
  destruct (Z.compare_spec x y) as [->|Hlt|Hgt].
  - rewrite Z.ltb_irrefl. apply IH. lia.
  - rewrite (proj2 (Z.ltb_ge y x)), (proj2 (Z.ltb_lt x y)) by lia. done.
  - by rewrite (proj2 (Z.ltb_lt y x)) by lia.
Qed.
Lemma IsAtLeast_compare v w : IsAtLeast v w = true <-> ~ key_lt (version_list v) (version_list w).
Proof.
  unfold IsAtLeast. destruct (at_least _ _) eqn:E.
  - split; [intros _ Hl|done].
    assert (at_least (version_list v) (version_list w) = false) by (by apply at_least_compare). congruence.
  - split; [done|]. intros Hn. destruct Hn. by apply at_least_compare in E.
Qed.
Lemma version_list_inj v w : version_list v = version_list w -> v = w.
Proof. destruct v, w. unfold version_list. cbn. congruence. Qed.

Lemma split_no_dots a : all_digits a -> split_dots a = [a].
Proof.
  induction 1 as [|c a Hc Ha IH]; [done|]. cbn. rewrite IH. destruct (Z.eqb_spec c dot) as [->|]; [done|]. done.
Qed.
Lemma split_dots_app a s : all_digits a -> split_dots (a ++ dot :: s) = a :: split_dots s.
Proof.
  induction 1 as [|c a Hc Ha IH]; [done|]. cbn [app split_dots]. rewrite IH.
  destruct (Z.eqb_spec c dot) as [->|]; [done|]. done.
Qed.
Lemma number_to_string n : in_u 32 n -> number (to_string n) = true.
Proof.
  intros H. unfold number. rewrite bool_decide_true by apply to_string_ne. cbn [andb].
  pose proof (to_string_digits n ltac:(unfold in_u in H; lia)) as Hd. induction Hd as [|c l Hc _ IH]; [done|].
  cbn. by rewrite Hc.
Qed.
Lemma scan_to_string n : in_u 32 n -> scan_u (to_string n) = Some n.
Proof.
  intros H. unfold scan_u. rewrite to_string_decimal by done. unfold in_u in H.
  destruct (Z.ltb_spec n (2 ^ 32)); [done|lia].
Qed.
Lemma to_string_length n : 1 <= Zlen (to_string n).
Proof. pose proof (to_string_ne n). unfold Zlen. destruct (to_string n); [done|]. cbn. lia. Qed.

Lemma ParseKafkaVersion_String v :
  version_ok v ->
  ParseKafkaVersion (version_String v) =
    Some (mkVersion (v_major v) (v_minor v) (v_veryMinor v) (if v_major v =? 0 then v_patch v else 0)).
Proof.
  destruct v as [ma mi ve pa]. unfold version_ok, version_list. cbn. intros Hv.
  decompose_Forall_hyps.
  assert (forall n, in_u 32 n -> all_digits (to_string n)) as Hd by (intros n []; by apply to_string_digits).
  unfold ParseKafkaVersion, version_String. cbn [v_major v_minor v_veryMinor v_patch].
  pose proof (to_string_length ma). pose proof (to_string_length mi). pose proof (to_string_length ve).
  pose proof (to_string_length pa).
  destruct (Z.eqb_spec ma 0) as [->|Hma].
  - destruct (Z.ltb_spec (Zlen ([48; dot] ++ to_string mi ++ [dot] ++ to_string ve ++ [dot] ++ to_string pa)) 5) as [Hs|_].
    { rewrite !Zlen_app in Hs. unfold Zlen in *. cbn [length] in Hs. lia. }
    cbn [app]. change (split_dots (48 :: dot :: to_string mi ++ dot :: to_string ve ++ dot :: to_string pa))
      with (split_dots ([48] ++ dot :: to_string mi ++ dot :: to_string ve ++ dot :: to_string pa)).
    rewrite (split_dots_app [48]), (split_dots_app (to_string mi)), (split_dots_app (to_string ve)), split_no_dots by auto.
    rewrite !number_to_string, !scan_to_string by done. done.
  - destruct (Z.ltb_spec (Zlen (to_string ma ++ [dot] ++ to_string mi ++ [dot] ++ to_string ve)) 5) as [Hs|_].
    { rewrite !Zlen_app in Hs. unfold Zlen in *. cbn [length] in Hs. lia. }
    destruct (digits_head 10 ma) as (c & l & E & Hc); [unfold in_u in *; cbn; lia|].
    assert (to_string ma = c :: l) as Ec.
    { unfold to_string. unfold in_u in *. destruct (Z.ltb_spec ma 0); [lia|done]. }
    assert (split_dots (to_string ma ++ [dot] ++ to_string mi ++ [dot] ++ to_string ve) =
      [to_string ma; to_string mi; to_string ve]) as Es.
    { cbn [app]. by rewrite (split_dots_app (to_string ma)), (split_dots_app (to_string mi)), split_no_dots by auto. }
    rewrite Es, !number_to_string, !scan_to_string by done. rewrite Ec. cbn [app].
    destruct c as [|c|c]; [lia| |lia]. do 6 (destruct c as [c|c|]; try done; try lia).
Qed.

(** ** Properties *)

(** C39: [IsAtLeast] is the lexicographic total order of the four components, equality of
    versions is equality of all of them, and parsing what was printed gives the version
    back, without the patch level, which is not printed from version 1 on. *)
Theorem KafkaVersion_order_and_text v :
  version_ok v ->
  (forall w, IsAtLeast v w = true <-> ~ key_lt (version_list v) (version_list w)) /\
  (forall w, IsAtLeast v w = true \/ IsAtLeast w v = true) /\
  (forall w, IsAtLeast v w = true /\ IsAtLeast w v = true <-> version_eq v w = true) /\
  (forall w u, IsAtLeast v w = true -> IsAtLeast w u = true -> IsAtLeast v u = true) /\
  ParseKafkaVersion (version_String v) =
    Some (mkVersion (v_major v) (v_minor v) (v_veryMinor v) (if v_major v =? 0 then v_patch v else 0)).
Proof.
  intros Hv. split; [apply IsAtLeast_compare|]. split_and!.
  - intros w. rewrite !IsAtLeast_compare. destruct (decide (key_lt (version_list v) (version_list w))) as [Hl|]; [|by left].
    right. intros Hl'. by pose proof (key_lt_ne _ _ (key_lt_trans _ _ _ Hl Hl')).
  - intros w. rewrite !IsAtLeast_compare. unfold version_eq. rewrite bool_decide_eq_true. split.
    + intros [H1 H2]. destruct (decide (version_list v = version_list w)) as [|Hne]; [done|].
      by destruct (key_compare_ne _ _ Hne).
    + intros ->. split; intros Hl; by apply key_lt_ne in Hl.
  - intros w u. rewrite !IsAtLeast_compare. intros H1 H2 H3.
    destruct (decide (version_list w = version_list u)) as [E|Hne]; [by rewrite <- E in H3|].
    destruct (key_compare_ne _ _ Hne) as [|Hl]; [done|]. apply H1. by eapply key_lt_trans.
  - by apply ParseKafkaVersion_String.
Qed.
Example KafkaVersion_order_and_text_witness :
  ParseKafkaVersion (version_String V2_7_0_0) = Some V2_7_0_0 /\ IsAtLeast V2_7_0_0 V0_11_0_0 = true.
Proof.
  destruct (KafkaVersion_order_and_text V2_7_0_0) as (_ & _ & _ & _ & E).
  - by apply (bool_decide_unpack _).
  - split; [exact E|by vm_compute].
Defined.

(** [operator>=] is not the order: it holds for any two versions with the same major
    number, and for any version whose third component is that of the other and whose
    fourth is not smaller, so that a CreateTopics request has version 5 for every broker
    from 2.0 on and for every release whose third and fourth components are 0. *)
Theorem version_ge_not_order :
  (forall v w, v_major w <= v_major v -> version_ge v w = true) /\
  (forall v w, v_veryMinor v = v_veryMinor w -> v_patch w <= v_patch v -> version_ge v w = true) /\
  (forall v, 2 <= v_major v \/ (v_veryMinor v = 0 /\ 0 <= v_patch v) -> CreateTopicsRequest_version v = 5) /\
  (exists v, version_ge v V2_4_0_0 = true /\ IsAtLeast v V2_4_0_0 = false /\ v = V0_10_0_0).
Proof.
  assert (forall v w, v_major w <= v_major v -> version_ge v w = true) as H1.
  { intros v w H. unfold version_ge. by rewrite (proj2 (Z.leb_le _ _) H). }
  assert (forall v w, v_veryMinor v = v_veryMinor w -> v_patch w <= v_patch v -> version_ge v w = true) as H2.
  { intros v w E H. unfold version_ge. by rewrite E, Z.eqb_refl, (proj2 (Z.leb_le _ _) H), !orb_true_r. }
  split; [done|]. split; [done|]. split; [|by exists V0_10_0_0].
  intros v Hv. unfold CreateTopicsRequest_version.
  destruct Hv as [H|[E H]]; [rewrite H1; [done|]|rewrite H2; [done..|]]; cbn; lia.
Qed.
