(* ===== verification/TxnManager.v ===== *)
(** * The transaction manager

    [TransactionManager] of [coev_kafka/transaction_manager.cpp]: the state machine of a
    transactional producer, its sequence numbers, and the requests it sends to its
    coordinator, with the parts of [coev_kafka/async_producer.cpp] that drive it.

    The network (finding a coordinator, exchanging a request for a response, sleeping) is
    an interface, [Client], over a state of its own; nothing is assumed about its answers.
    A coroutine runs from its call to its return without others running in between. *)
From Stdlib Require Import ZArith Lia Bool.
From stdpp Require Import base tactics list numbers sets gmap fin_maps.
From S2P Require Import Prelude Errors StdMap Decimal Version EncoderDecoder TxnMessages.

(** ** State *)

(** [TopicPartition]: only the topic and the partition are compared and hashed. *)
Abbreviation TopicPartition := (list Z * Z)%type.
(* coev_kafka/partition_offset_metadata.h:15-26 PartitionOffsetMetadata *)
Record PartitionOffsetMetadata := mkPartitionOffsetMetadata {
  pom_partition : Z; pom_offset : Z; pom_leader_epoch : Z; pom_metadata : list Z }.
(* coev_kafka/transaction_manager.h:45-46 TopicPartitionOffsets *)
Definition TopicPartitionOffsets : Type := gmap TopicPartition PartitionOffsetMetadata.

(* coev_kafka/transaction_manager.h:26-38 ProducerTxnStatusFlag *)
Definition ProducerTxnFlagUninitialized : Z := 1.
Definition ProducerTxnFlagInitializing : Z := 2.
Definition ProducerTxnFlagReady : Z := 4.
Definition ProducerTxnFlagInTransaction : Z := 8.
Definition ProducerTxnFlagEndTransaction : Z := 16.
Definition ProducerTxnFlagInError : Z := 32.
Definition ProducerTxnFlagCommittingTransaction : Z := 64.
Definition ProducerTxnFlagAbortingTransaction : Z := 128.
Definition ProducerTxnFlagAbortableError : Z := 256.
Definition ProducerTxnFlagFatalError : Z := 512.
Abbreviation AbortableError := (Z.lor ProducerTxnFlagInError ProducerTxnFlagAbortableError).
Abbreviation FatalError := (Z.lor ProducerTxnFlagInError ProducerTxnFlagFatalError).
(** [(status & flag) != 0] *)
Definition has (status flag : Z) : bool := negb (Z.land status flag =? 0).

(* coev_kafka/transaction_manager.cpp:20-27 producerTxnTransitions *)
Definition producerTxnTransitions : list (Z * list Z) :=
  [(ProducerTxnFlagUninitialized, [ProducerTxnFlagReady; ProducerTxnFlagInError]);
   (ProducerTxnFlagInitializing, [ProducerTxnFlagInitializing; ProducerTxnFlagReady; ProducerTxnFlagInError]);
   (ProducerTxnFlagReady, [ProducerTxnFlagInTransaction]);
   (ProducerTxnFlagInTransaction, [ProducerTxnFlagEndTransaction; ProducerTxnFlagInError]);
   (ProducerTxnFlagEndTransaction, [ProducerTxnFlagInitializing; ProducerTxnFlagReady; ProducerTxnFlagInError]);
   (ProducerTxnFlagAbortableError, [ProducerTxnFlagAbortingTransaction; ProducerTxnFlagInError]);
   (ProducerTxnFlagFatalError, [ProducerTxnFlagFatalError])].

Definition noProducerID : Z := -1.
Definition noProducerEpoch : Z := -1.

(* coev_kafka/transaction_manager.h:102-114 TransactionManager *)
Record TransactionManager := mkTransactionManager {
  m_status : Z;
  m_producer_id : Z;
  m_producer_epoch : Z;
  m_sequence_numbers : list (list Z * Z);
  m_transactional_id : list Z;
  m_transaction_timeout : Z;
  m_coordinator_supports_bumping_epoch : bool;
  m_epoch_bump_required : bool;
  m_last_error : Z;
  m_pending_partitions_in_current_txn : gset TopicPartition;
  m_partitions_in_current_txn : gset TopicPartition;
  m_offsets_in_current_txn : list (list Z * TopicPartitionOffsets) }.

Section Setters.
Variable m : TransactionManager.
Definition with_txn status last_error := mkTransactionManager status (m_producer_id m) (m_producer_epoch m)
  (m_sequence_numbers m) (m_transactional_id m) (m_transaction_timeout m) (m_coordinator_supports_bumping_epoch m)
  (m_epoch_bump_required m) last_error (m_pending_partitions_in_current_txn m) (m_partitions_in_current_txn m)
  (m_offsets_in_current_txn m).
Definition with_producer id epoch := mkTransactionManager (m_status m) id epoch
  (m_sequence_numbers m) (m_transactional_id m) (m_transaction_timeout m) (m_coordinator_supports_bumping_epoch m)
  (m_epoch_bump_required m) (m_last_error m) (m_pending_partitions_in_current_txn m) (m_partitions_in_current_txn m)
  (m_offsets_in_current_txn m).
Definition with_sequences l := mkTransactionManager (m_status m) (m_producer_id m) (m_producer_epoch m)
  l (m_transactional_id m) (m_transaction_timeout m) (m_coordinator_supports_bumping_epoch m)
  (m_epoch_bump_required m) (m_last_error m) (m_pending_partitions_in_current_txn m) (m_partitions_in_current_txn m)
  (m_offsets_in_current_txn m).
Definition with_bumping supports required := mkTransactionManager (m_status m) (m_producer_id m) (m_producer_epoch m)
  (m_sequence_numbers m) (m_transactional_id m) (m_transaction_timeout m) supports required (m_last_error m)
  (m_pending_partitions_in_current_txn m) (m_partitions_in_current_txn m) (m_offsets_in_current_txn m).
Definition with_partitions pending current := mkTransactionManager (m_status m) (m_producer_id m) (m_producer_epoch m)
  (m_sequence_numbers m) (m_transactional_id m) (m_transaction_timeout m) (m_coordinator_supports_bumping_epoch m)
  (m_epoch_bump_required m) (m_last_error m) pending current (m_offsets_in_current_txn m).
Definition with_offsets l := mkTransactionManager (m_status m) (m_producer_id m) (m_producer_epoch m)
  (m_sequence_numbers m) (m_transactional_id m) (m_transaction_timeout m) (m_coordinator_supports_bumping_epoch m)
  (m_epoch_bump_required m) (m_last_error m) (m_pending_partitions_in_current_txn m) (m_partitions_in_current_txn m) l.
End Setters.
Arguments with_txn : clear implicits.

(** What the manager reads of the configuration; times in milliseconds *)
(* coev_kafka/config.h:128-139 producer_transaction_config *)
Record TxnConfig := mkTxnConfig {
  cf_Version : KafkaVersion;
  cf_Idempotent : bool;
  cf_ID : list Z;
  cf_Timeout : Z;
  cf_Retry_Max : Z;
  cf_Retry_Backoff : Z;
  cf_Retry_BackoffFunc : option (Z -> Z -> Z) }.
(* coev_kafka/transaction_manager.cpp TransactionManager::TransactionManager *)
Definition TransactionManager_new (conf : TxnConfig) : TransactionManager :=
  mkTransactionManager ProducerTxnFlagUninitialized noProducerID noProducerEpoch []
    (if cf_Idempotent conf then cf_ID conf else []) (if cf_Idempotent conf then cf_Timeout conf else 0)
    false false 0 ∅ ∅ [].

(** ** Operations on the state alone *)

(* coev_kafka/transaction_manager.cpp TransactionManager::is_transition_valid *)
Definition is_transition_valid (m : TransactionManager) (target : Z) : bool :=
  existsb (fun st => has (m_status m) (fst st) && existsb (has target) (snd st)) producerTxnTransitions.
(* coev_kafka/transaction_manager.cpp TransactionManager::current_txn_status *)
Definition current_txn_status (m : TransactionManager) : Z := m_status m.
(** The code returned, and the manager *)
(* coev_kafka/transaction_manager.cpp TransactionManager::transition_to *)
Definition transition_to (target err : Z) (m : TransactionManager) : Z * TransactionManager :=
  if negb (is_transition_valid m target) then (ErrTransitionNotAllowed, m)
  else if has target ProducerTxnFlagInError then
    if err =? 0 then (ErrCannotTransitionNilError, m) else (err, with_txn m target err)
  else (err, with_txn m target 0).

(* coev_kafka/transaction_manager.cpp TransactionManager::get_and_increment_sequence_number *)
Definition get_and_increment_sequence_number (topic : list Z) (partition : Z) : M TransactionManager (Z * Z) := fun m =>
  let key := topic ++ [45] ++ to_string partition in
  let sequence := match map_find key (m_sequence_numbers m) with Some n => n | None => 0 end in
  bind (i32_arith (sequence + 1)) (fun next m =>
    Done (sequence, m_producer_epoch m) (with_sequences m (map_assign key next (m_sequence_numbers m)))) m.
(* coev_kafka/transaction_manager.cpp TransactionManager::bump_epoch *)
Definition bump_epoch (m : TransactionManager) : TransactionManager :=
  with_sequences (with_producer m (m_producer_id m) (to_i16 (m_producer_epoch m + 1)))
    (map (fun kv => (fst kv, 0)) (m_sequence_numbers m)).
(* coev_kafka/transaction_manager.cpp TransactionManager::get_producer_id *)
Definition get_producer_id (m : TransactionManager) : Z * Z := (m_producer_id m, m_producer_epoch m).
(* coev_kafka/transaction_manager.cpp TransactionManager::compute_backoff *)
Definition compute_backoff (config : TxnConfig) (attempts_remaining : Z) : Z :=
  match cf_Retry_BackoffFunc config with
  | Some f => let maxRetries := cf_Retry_Max config in f (maxRetries - attempts_remaining) maxRetries
  | None => cf_Retry_Backoff config
  end.
(* coev_kafka/transaction_manager.cpp TransactionManager::is_transactional *)
Definition is_transactional (m : TransactionManager) : bool := bool_decide (m_transactional_id m <> []).

(** [m[tp] = offset] for the offsets of one topic *)
Definition add_offsets (topic : list Z) (offsets : list PartitionOffsetMetadata) (l : TopicPartitionOffsets)
    : TopicPartitionOffsets :=
  fold_left (fun l o => <[(topic, pom_partition o) := o]> l) offsets l.
(* coev_kafka/transaction_manager.cpp TransactionManager::add_offsets_to_txn *)
Definition add_offsets_to_txn (offsets : list (list Z * list PartitionOffsetMetadata)) (group_id : list Z)
    (m : TransactionManager) : Z * TransactionManager :=
  if negb (has (current_txn_status m) ProducerTxnFlagInTransaction) then (ErrTransactionNotReady, m)
  else if has (current_txn_status m) ProducerTxnFlagFatalError then (m_last_error m, m)
  else (0, with_offsets m
    (map_update ∅ (fun l => fold_left (fun l t => add_offsets (fst t) (snd t) l) offsets l) group_id (m_offsets_in_current_txn m))).
(* coev_kafka/transaction_manager.cpp TransactionManager::maybe_add_partition_to_current_txn *)
Definition maybe_add_partition_to_current_txn (topic : list Z) (partition : Z) (m : TransactionManager) : TransactionManager :=
  if has (current_txn_status m) ProducerTxnFlagInError then m
  else if bool_decide ((topic, partition) ∈ m_partitions_in_current_txn m) then m
  else with_partitions m ({[(topic, partition)]} ∪ m_pending_partitions_in_current_txn m) (m_partitions_in_current_txn m).
(* coev_kafka/transaction_manager.cpp TransactionManager::abortable_error_if_possible *)
Definition abortable_error_if_possible (err : Z) (m : TransactionManager) : Z * TransactionManager :=
  if m_coordinator_supports_bumping_epoch m
  then transition_to AbortableError err (with_bumping m (m_coordinator_supports_bumping_epoch m) true)
  else transition_to FatalError err m.
(* coev_kafka/transaction_manager.cpp TransactionManager::complete_transaction *)
Definition complete_transaction (m : TransactionManager) : Z * TransactionManager :=
  let '(err, m) := transition_to (if m_epoch_bump_required m then ProducerTxnFlagInitializing else ProducerTxnFlagReady) 0 m in
  if negb (err =? 0) then (err, m)
  else (0, with_offsets (with_partitions
    (with_bumping (with_txn m (m_status m) 0) (m_coordinator_supports_bumping_epoch m) false) ∅ ∅) []).

(** ** The network *)

(** [TxnOffsetCommitRequest] as the manager fills it *)
(* coev_kafka/txn_offset_commit_request.h:23-46 TxnOffsetCommitRequest *)
Record TxnOffsetCommitRequest := mkTxnOffsetCommitRequest {
  tcq_version : Z; tcq_transactional_id : list Z; tcq_group_id : list Z; tcq_producer_id : Z;
  tcq_producer_epoch : Z; tcq_topics : list (list Z * list PartitionOffsetMetadata) }.

(** What the manager asks of [Client] and [Broker]: the error code, and whether a broker
    was found; for an exchange, the code and the response object, which starts as the one
    given and is what was read when the code is 0.  [E] is the state of the network. *)
Class Client (E : Type) := {
  TransactionCoordinator : list Z -> E -> (Z * bool) * E;
  LeastLoadedBroker : E -> (Z * bool) * E;
  GetCoordinator : list Z -> E -> (Z * bool) * E;
  RefreshTransactionCoordinator : list Z -> E -> Z * E;
  RefreshCoordinator : list Z -> E -> E;
  Broker_Close : E -> E;
  Broker_Ready : E -> Z * E;
  exchange_InitProducerID : InitProducerIDRequest -> InitProducerIDResponse -> E -> (Z * InitProducerIDResponse) * E;
  exchange_AddOffsetsToTxn : AddOffsetsToTxnRequest -> AddOffsetsToTxnResponse -> E -> (Z * AddOffsetsToTxnResponse) * E;
  exchange_TxnOffsetCommit : TxnOffsetCommitRequest -> TxnOffsetCommitResponse -> E -> (Z * TxnOffsetCommitResponse) * E;
  exchange_AddPartitionsToTxn :
    AddPartitionsToTxnRequest -> AddPartitionsToTxnResponse -> E -> (Z * AddPartitionsToTxnResponse) * E;
  sleep_for : Z -> E -> E
}.

(** [for (auto &x : l) { ... }] with an accumulator and an early [co_return] *)
Fixpoint for_acc {S X A R} (l : list X) (f : A -> X -> M S (R + A)) (a : A) : M S (R + A) :=
  match l with
  | [] => ret (inr a)
  | x :: l => let* r := f a x in match r with inl _ => ret r | inr a => for_acc l f a end
  end.

(* coev_kafka/transaction_manager.h:49-53 TransactionManager::Result *)
Record Result := mkResult { Retry_ : bool; Error : Z }.

Section Manager.
Context {E : Type} {client : Client E}.
Context (config : TxnConfig).
(** The iteration orders of the unordered containers *)
Context (iterate : gset TopicPartition -> list TopicPartition).
Context (iterate_offsets : TopicPartitionOffsets -> list (TopicPartition * PartitionOffsetMetadata)).
Abbreviation TM := (M (TransactionManager * E)).

Definition call {A} (f : E -> A * E) : TM A := fun s => let '(a, e) := f (snd s) in Done a (fst s, e).
Definition call_ (f : E -> E) : TM unit := fun s => Done tt (fst s, f (snd s)).
Definition tm_gets {A} (f : TransactionManager -> A) : TM A := fun s => Done (f (fst s)) s.
Definition tm_do {A} (f : TransactionManager -> A * TransactionManager) : TM A :=
  fun s => let '(a, m) := f (fst s) in Done a (m, snd s).
Definition tm_modify (f : TransactionManager -> TransactionManager) : TM unit := fun s => Done tt (f (fst s), snd s).

(** [Ready] stands for the reauthentication before it too; a null request is dereferenced
    when it is sent. *)
(* coev_kafka/broker.h:225-256 Broker::SendAndReceive *)
Definition SendAndReceive {Req Res} (exchange : Req -> Res -> E -> (Z * Res) * E) (request : option Req) (promise : Res)
    : TM (Z * Res) :=
  let* err := call Broker_Ready in
  if negb (err =? 0) then ret (err, promise)
  else match request with
       | None => fail FUB
       | Some request => call (exchange request promise)
       end.
(** A call through a broker pointer *)
Definition on {A} (broker : bool) (m : TM A) : TM A := if broker then m else fail FUB.

(** [func] returns, besides its result, the objects its reference parameters name. *)
(* coev_kafka/transaction_manager.h:84-100 TransactionManager::Retry *)
Fixpoint Retry {X} (attempts : nat) (func : X -> TM (Result * X)) (x : X) : TM (Z * X) :=
  match attempts with
  | O => ret (0, x)
  | S attempts_remaining =>
      let* r := func x in
      let '(r, x) := r in
      if negb (Retry_ r) then ret (Error r, x)
      else
        call_ (sleep_for (compute_backoff config (Z.of_nat attempts_remaining))) ;;;
        Retry attempts_remaining func x
  end.
(** [while (attempts_remaining >= 0)] *)
Definition attempts : nat := Z.to_nat (cf_Retry_Max config + 1).

(** *** Offsets *)

Definition offsets_version : Z :=
  if IsAtLeast (cf_Version config) V2_7_0_0 then 2
  else if IsAtLeast (cf_Version config) V2_0_0_0 then 1 else 0.
(* coev_kafka/transaction_manager.cpp TransactionManager::publish_offsets_to_txn_add_offset *)
Definition publish_offsets_to_txn_add_offset (group_id : list Z) : TM Result :=
  let* id := tm_gets m_transactional_id in
  let* found := call (TransactionCoordinator id) in
  let '(err, coordinator) := found in
  if negb (err =? 0) then ret (mkResult true err) else
  let* m := tm_gets (fun m => m) in
  let request := mkAddOffsetsToTxnRequest offsets_version (m_transactional_id m) (m_producer_id m) (m_producer_epoch m) group_id in
  let* answer := on coordinator (SendAndReceive exchange_AddOffsetsToTxn (Some request) (mkAddOffsetsToTxnResponse 0 0 0)) in
  let '(err, response) := answer in
  let* err :=
    if negb (err =? 0)
    then on coordinator (call_ Broker_Close) ;;; call (RefreshTransactionCoordinator id)
    else ret 0 in
  if negb (err =? 0) then ret (mkResult true err) else
  let code := aos_err response in
  if code =? ErrNoError then ret (mkResult false ErrNoError)
  else if (code =? ErrConsumerCoordinatorNotAvailable) || (code =? ErrNotCoordinatorForConsumer) then
    on coordinator (call_ Broker_Close) ;;;
    let* _e := call (RefreshTransactionCoordinator id) in
    ret (mkResult true code)
  else if (code =? ErrOffsetsLoadInProgress) || (code =? ErrConcurrentTransactions) then ret (mkResult true code)
  else if (code =? ErrUnknownProducerID) || (code =? ErrInvalidProducerIDMapping) then
    let* err := tm_do (abortable_error_if_possible code) in ret (mkResult false err)
  else if code =? ErrGroupAuthorizationFailed then
    let* err := tm_do (transition_to AbortableError code) in ret (mkResult false err)
  else
    let* err := tm_do (transition_to FatalError code) in ret (mkResult false err).

(* coev_kafka/transaction_manager.cpp:72-80 MapToRequest *)
Definition MapToRequest (offsets : TopicPartitionOffsets) : list (list Z * list PartitionOffsetMetadata) :=
  fold_left (fun r o => map_update [] (fun l => l ++ [snd o]) (fst (fst o)) r) (iterate_offsets offsets) [].
Definition commit_version : Z :=
  if IsAtLeast (cf_Version config) V2_1_0_0 then 2
  else if IsAtLeast (cf_Version config) V2_0_0_0 then 1 else 0.
(** One partition of the response: an early return, or the failed offsets so far *)
(* coev_kafka/transaction_manager.cpp:315-350 TransactionManager::publish_offsets_to_txn_commit *)
Definition commit_partition (group_id : list Z) (coordinator : bool) (offsets : TopicPartitionOffsets) (topic : list Z)
    (failed_txn : TopicPartitionOffsets) (pe : PartitionError) : TM (Result + TopicPartitionOffsets) :=
  let code := per_err pe in
  let failed : TM (Result + TopicPartitionOffsets) :=
    let tp := (topic, per_partition pe) in
    match offsets !! tp with
    | None => fail FThrow
    | Some o => ret (inr (<[tp := o]> failed_txn))
    end in
  if code =? ErrNoError then ret (inr failed_txn)
  else if (code =? ErrRequestTimedOut) || (code =? ErrConsumerCoordinatorNotAvailable) || (code =? ErrNotCoordinatorForConsumer) then
    on coordinator (call_ Broker_Close) ;;; call_ (RefreshCoordinator group_id) ;;; failed
  else if (code =? ErrUnknownTopicOrPartition) || (code =? ErrOffsetsLoadInProgress) then failed
  else if (code =? ErrIllegalGeneration) || (code =? ErrUnknownMemberId) || (code =? ErrFencedInstancedId) ||
          (code =? ErrGroupAuthorizationFailed) then
    let* err := tm_do (transition_to AbortableError code) in ret (inl (mkResult false err))
  else
    let* err := tm_do (transition_to FatalError code) in ret (inl (mkResult false err)).
(* coev_kafka/transaction_manager.cpp TransactionManager::publish_offsets_to_txn_commit *)
Definition publish_offsets_to_txn_commit (offsets : TopicPartitionOffsets) (group_id : list Z) (out : TopicPartitionOffsets)
    : TM (Result * TopicPartitionOffsets) :=
  let* found := call (GetCoordinator group_id) in
  let '(err, coordinator) := found in
  if negb (err =? 0) then ret (mkResult true err, out) else
  let* m := tm_gets (fun m => m) in
  let request := mkTxnOffsetCommitRequest commit_version (m_transactional_id m) group_id (m_producer_id m)
    (m_producer_epoch m) (MapToRequest offsets) in
  let* answer := on coordinator (SendAndReceive exchange_TxnOffsetCommit (Some request) (mkTxnOffsetCommitResponse 0 0 [])) in
  let '(err, response) := answer in
  if negb (err =? 0) then
    on coordinator (call_ Broker_Close) ;;; call_ (RefreshCoordinator group_id) ;;; ret (mkResult true err, out)
  else
    let* r := for_acc (tcs_topics response)
      (fun failed it => for_acc (snd it) (commit_partition group_id coordinator offsets (fst it)) failed) ∅ in
    match r with
    | inl result => ret (result, out)
    | inr failed_txn =>
        if bool_decide (failed_txn = ∅) then ret (mkResult false ErrNoError, failed_txn)
        else ret (mkResult true ErrTxnOffsetCommit, failed_txn)
    end.
(** The code, and what is written to [out] *)
(* coev_kafka/transaction_manager.cpp TransactionManager::publish_offsets_to_txn *)
Definition publish_offsets_to_txn (offsets : TopicPartitionOffsets) (group_id : list Z) (out : TopicPartitionOffsets)
    : TM (Z * TopicPartitionOffsets) :=
  let* r := Retry attempts (fun _ => let* r := publish_offsets_to_txn_add_offset group_id in ret (r, tt)) tt in
  let err := fst r in
  if negb (err =? 0) then ret (err, offsets)
  else
    let* r := Retry attempts (publish_offsets_to_txn_commit offsets group_id) ∅ in
    let err := fst r in
    if negb (err =? 0) then ret (err, offsets) else ret (err, out).

(** *** The producer id *)

(** The reference parameters [producer_id] and [producer_epoch] are the pair. *)
(* coev_kafka/transaction_manager.cpp TransactionManager::_init_producer_id *)
Definition _init_producer_id (is_epoch_bump : bool) (request : option InitProducerIDRequest) (producer : Z * Z)
    : TM (Result * (Z * Z)) :=
  let none := (noProducerID, noProducerEpoch) in
  let* m := tm_gets (fun m => m) in
  let id := m_transactional_id m in
  let* found := if is_transactional m then call (TransactionCoordinator id) else call LeastLoadedBroker in
  let '(err, coordinator) := found in
  if (if is_transactional m then negb coordinator else negb (err =? 0)) then ret (mkResult true (-1), none) else
  let* answer := on coordinator (SendAndReceive exchange_InitProducerID request (mkInitProducerIDResponse 0 0 ErrNoError 0 0)) in
  let '(err, response) := answer in
  let refresh : TM unit :=
    if is_transactional m
    then call_ Broker_Close ;;; let* _e := call (RefreshTransactionCoordinator id) in ret tt
    else ret tt in
  if negb (err =? 0) then refresh ;;; ret (mkResult true err, none) else
  let code := ips_err response in
  if code =? ErrNoError then
    (if is_epoch_bump then tm_modify (fun m => with_sequences m []) else ret tt) ;;;
    let* err := tm_do (transition_to ProducerTxnFlagReady ErrNoError) in
    if negb (err =? 0) then ret (mkResult true err, none)
    else ret (mkResult false ErrNoError, (ips_producer_id response, ips_producer_epoch response))
  else if (code =? ErrConsumerCoordinatorNotAvailable) || (code =? ErrNotCoordinatorForConsumer) || (code =? ErrOffsetsLoadInProgress)
  then refresh ;;; ret (mkResult true code, none)
  else
    let* _e := tm_do (transition_to FatalError code) in ret (mkResult false code, none).

(** [request->x = ...] for each listed assignment: writing through a null pointer *)
Definition assign_through (request : option InitProducerIDRequest)
    (f : InitProducerIDRequest -> InitProducerIDRequest) : TM (option InitProducerIDRequest) :=
  match request with None => fail FUB | Some r => ret (Some (f r)) end.
Definition set_version (v : Z) (r : InitProducerIDRequest) :=
  mkInitProducerIDRequest v (ipq_transactional_id r) (ipq_transaction_timeout r) (ipq_producer_id r) (ipq_producer_epoch r).
Definition set_id (id : list Z) (timeout : Z) (r : InitProducerIDRequest) :=
  mkInitProducerIDRequest (ipq_version r) id timeout (ipq_producer_id r) (ipq_producer_epoch r).
Definition set_producer (id epoch : Z) (r : InitProducerIDRequest) :=
  mkInitProducerIDRequest (ipq_version r) (ipq_transactional_id r) (ipq_transaction_timeout r) id epoch.
(** The request is declared as a null [shared_ptr] and never made to point to anything. *)
(* coev_kafka/transaction_manager.cpp TransactionManager::init_producer_id *)
Definition init_producer_id (producer : Z * Z) : TM (Z * (Z * Z)) :=
  let request : option InitProducerIDRequest := None in
  let* m := tm_gets (fun m => m) in
  let* request :=
    if is_transactional m
    then assign_through request (set_id (m_transactional_id m) (m_transaction_timeout m)) else ret request in
  let v := cf_Version config in
  let* r :=
    if IsAtLeast v V2_5_0_0 then
      let* request := assign_through request (set_version (if IsAtLeast v V2_7_0_0 then 4 else 3)) in
      tm_modify (fun m => with_bumping m true (m_epoch_bump_required m)) ;;;
      let* request := assign_through request (set_producer (fst producer) (snd producer)) in
      ret (request, negb (fst producer =? noProducerID) && negb (snd producer =? noProducerEpoch))
    else if IsAtLeast v V2_4_0_0 then let* request := assign_through request (set_version 2) in ret (request, false)
    else if IsAtLeast v V2_0_0_0 then let* request := assign_through request (set_version 1) in ret (request, false)
    else ret (request, false) in
  let '(request, is_epoch_bump) := r in
  Retry attempts (_init_producer_id is_epoch_bump request) producer.
(** The reference parameters are the manager's own fields. *)
(* coev_kafka/transaction_manager.cpp TransactionManager::initialize_transactions *)
Definition initialize_transactions : TM Z :=
  let* producer := tm_gets get_producer_id in
  let* r := init_producer_id producer in
  tm_modify (fun m => with_producer m (fst (snd r)) (snd (snd r))) ;;;
  ret (fst r).

(** *** Partitions *)

Definition partitions_version : Z :=
  if IsAtLeast (cf_Version config) V2_7_0_0 then 2
  else if IsAtLeast (cf_Version config) V2_0_0_0 then 1 else 0.
(* coev_kafka/transaction_manager.cpp:594-597 TransactionManager::_publish_txn_partitions *)
Definition request_partitions (pending : gset TopicPartition) : gmap (list Z) (list Z) :=
  fold_left (fun r tp => <[fst tp := default [] (r !! fst tp) ++ [snd tp]]> r) (iterate pending) ∅.
(* coev_kafka/transaction_manager.cpp:616-667 TransactionManager::_publish_txn_partitions *)
Definition publish_partition (coordinator : bool) (topic : list Z) (acc : unit) (pe : PartitionError) : TM (Result + unit) :=
  let tp := (topic, per_partition pe) in
  let code := per_err pe in
  let* id := tm_gets m_transactional_id in
  let clear := tm_modify (fun m => with_partitions m ∅ (m_partitions_in_current_txn m)) in
  if code =? ErrNoError then
    tm_modify (fun m => with_partitions m (m_pending_partitions_in_current_txn m ∖ {[tp]})
                          ({[tp]} ∪ m_partitions_in_current_txn m)) ;;;
    ret (inr tt)
  else if (code =? ErrConsumerCoordinatorNotAvailable) || (code =? ErrNotCoordinatorForConsumer) then
    on coordinator (call_ Broker_Close) ;;;
    let* _e := call (RefreshTransactionCoordinator id) in
    ret (inr tt)
  else if (code =? ErrUnknownTopicOrPartition) || (code =? ErrOffsetsLoadInProgress) || (code =? ErrConcurrentTransactions)
  then ret (inr tt)
  else if (code =? ErrOperationNotAttempted) || (code =? ErrTopicAuthorizationFailed) then
    clear ;;; let* _e := tm_do (transition_to AbortableError code) in ret (inl (mkResult false code))
  else if (code =? ErrUnknownProducerID) || (code =? ErrInvalidProducerIDMapping) then
    clear ;;;
    let* supports := tm_gets m_coordinator_supports_bumping_epoch in
    (if supports
     then tm_modify (fun m => with_bumping m true true) ;;;
          let* _e := tm_do (transition_to AbortableError code) in ret tt
     else let* _e := tm_do (transition_to FatalError code) in ret tt) ;;;
    ret (inl (mkResult false code))
  else
    clear ;;; let* _e := tm_do (transition_to FatalError code) in ret (inl (mkResult false code)).
(* coev_kafka/transaction_manager.cpp TransactionManager::_publish_txn_partitions *)
Definition _publish_txn_partitions : TM Result :=
  let* m := tm_gets (fun m => m) in
  let id := m_transactional_id m in
  if has (current_txn_status m) ProducerTxnFlagInError then ret (mkResult false (m_last_error m))
  else if bool_decide (m_pending_partitions_in_current_txn m = ∅) then ret (mkResult false 0)
  else
    let* found := call (TransactionCoordinator id) in
    let '(err, coordinator) := found in
    if negb (err =? 0) then ret (mkResult true err) else
    let* m := tm_gets (fun m => m) in
    let request := mkAddPartitionsToTxnRequest partitions_version id (m_producer_id m) (m_producer_epoch m)
      (request_partitions (m_pending_partitions_in_current_txn m)) in
    let* answer := on coordinator
      (SendAndReceive exchange_AddPartitionsToTxn (Some request) (mkAddPartitionsToTxnResponse 0 0 [])) in
    let '(err, response) := answer in
    if negb (err =? 0) then
      on coordinator (call_ Broker_Close) ;;;
      let* _e := call (RefreshTransactionCoordinator id) in
      ret (mkResult true err)
    else
      let* r := for_acc (aps_errors response)
        (fun acc it => for_acc (snd it) (publish_partition coordinator (fst it)) acc) tt in
      match r with
      | inl result => ret result
      | inr _ =>
          let* pending := tm_gets m_pending_partitions_in_current_txn in
          if bool_decide (pending = ∅) then ret (mkResult false 0) else ret (mkResult true (-1))
      end.
(* coev_kafka/transaction_manager.cpp TransactionManager::publish_txn_partitions *)
Definition publish_txn_partitions : TM Z :=
  let* m := tm_gets (fun m => m) in
  if has (current_txn_status m) ProducerTxnFlagInError then ret (m_last_error m)
  else if bool_decide (m_pending_partitions_in_current_txn m = ∅) then ret 0
  else
    let* r := Retry attempts (fun _ => let* r := _publish_txn_partitions in ret (r, tt)) tt in
    ret (fst r).

(** *** The end of a transaction *)

(** The coordinator is looked up; no request is sent. *)
(* coev_kafka/transaction_manager.cpp TransactionManager::_end_txn *)
Definition _end_txn (commit : bool) : TM Result :=
  let* id := tm_gets m_transactional_id in
  let* found := call (TransactionCoordinator id) in
  let '(err, _) := found in
  if negb (err =? 0) then ret (mkResult true (-1)) else ret (mkResult false 0).
(* coev_kafka/transaction_manager.cpp TransactionManager::end_txn *)
Definition end_txn (commit : bool) : TM Z :=
  let* r := Retry attempts (fun _ => let* r := _end_txn commit in ret (r, tt)) tt in
  ret (fst r).
(** [publish_offsets_to_txn] leaves the map alone, so that its entries are those at the
    start of the loop. *)
(* coev_kafka/transaction_manager.cpp:477-487 TransactionManager::finish_transaction *)
Definition publish_group (acc : unit) (it : list Z * TopicPartitionOffsets) : TM (Z + unit) :=
  let* r := publish_offsets_to_txn (snd it) (fst it) ∅ in
  let '(err, new_offsets) := r in
  if negb (err =? 0) then
    tm_modify (fun m => with_offsets m (map_assign (fst it) new_offsets (m_offsets_in_current_txn m))) ;;;
    ret (inl err)
  else
    tm_modify (fun m => with_offsets m (map_erase (fst it) (m_offsets_in_current_txn m))) ;;;
    ret (inr tt).
(* coev_kafka/transaction_manager.cpp TransactionManager::finish_transaction *)
Definition finish_transaction (commit : bool) : TM Z :=
  let* m := tm_gets (fun m => m) in
  if commit && has (current_txn_status m) ProducerTxnFlagInError then ret (m_last_error m)
  else if negb commit && has (current_txn_status m) ProducerTxnFlagFatalError then ret (m_last_error m)
  else if bool_decide (m_partitions_in_current_txn m = ∅) then tm_do complete_transaction
  else
    let epoch_bump := m_epoch_bump_required m in
    let* r := if commit then for_acc (m_offsets_in_current_txn m) publish_group tt else ret (inr tt) in
    match r with
    | inl err => ret err
    | inr _ =>
        let* m := tm_gets (fun m => m) in
        if has (current_txn_status m) ProducerTxnFlagFatalError then ret (m_last_error m)
        else if negb (m_last_error m =? ErrInvalidProducerIDMapping) then
          let* err := end_txn commit in
          if negb (err =? 0) then ret err
          else if negb epoch_bump then ret 0
          else initialize_transactions
        else initialize_transactions
    end.

(** ** The producer *)

(* coev_kafka/async_producer.cpp AsyncProducer::begin_txn *)
Definition begin_txn : TM Z :=
  let* m := tm_gets (fun m => m) in
  if negb (is_transactional m) then ret (-1) else tm_do (transition_to ProducerTxnFlagInTransaction ErrNoError).
(** What the dispatcher does with the message that ends a transaction *)
(* coev_kafka/async_producer.cpp:199-218 AsyncProducer::dispatcher *)
Definition dispatcher_end (commit : bool) : TM unit :=
  let* _e := tm_do (transition_to (Z.lor ProducerTxnFlagEndTransaction
    (if commit then ProducerTxnFlagCommittingTransaction else ProducerTxnFlagAbortingTransaction)) 0) in
  ret tt.
(** The message is queued behind the others; [m_in_flight.wait] returns after it. *)
(* coev_kafka/async_producer.cpp AsyncProducer::finish_transaction *)
Definition producer_finish_transaction (commit : bool) : TM Z := dispatcher_end commit ;;; finish_transaction commit.
(* coev_kafka/async_producer.cpp AsyncProducer::commit_txn *)
Definition commit_txn : TM Z :=
  let* m := tm_gets (fun m => m) in
  if negb (is_transactional m) then ret (-1) else producer_finish_transaction true.
(* coev_kafka/async_producer.cpp AsyncProducer::abort_txn *)
Definition abort_txn : TM Z :=
  let* m := tm_gets (fun m => m) in
  if negb (is_transactional m) then ret (-1) else producer_finish_transaction false.
(* coev_kafka/async_producer.cpp AsyncProducer::add_offsets_to_txn *)
Definition producer_add_offsets_to_txn (offsets : list (list Z * list PartitionOffsetMetadata)) (group_id : list Z) : TM Z :=
  let* m := tm_gets (fun m => m) in
  if negb (is_transactional m) then ret (-1) else tm_do (add_offsets_to_txn offsets group_id).
(* coev_kafka/async_producer.cpp AsyncProducer::maybe_transition_to_error_state *)
Definition maybe_transition_to_error_state (err : Z) : TM Z :=
  let* m := tm_gets (fun m => m) in
  if (err =? ErrClusterAuthorizationFailed) || (err =? ErrProducerFenced) || (err =? ErrUnsupportedVersion) ||
     (err =? ErrTransactionalIDAuthorizationFailed)
  then tm_do (transition_to FatalError err)
  else if m_coordinator_supports_bumping_epoch m && negb (has (current_txn_status m) ProducerTxnFlagEndTransaction) then
    tm_modify (fun m => with_bumping m (m_coordinator_supports_bumping_epoch m) true) ;;;
    tm_do (transition_to AbortableError err)
  else tm_do (transition_to AbortableError err).
End Manager.

(** The manager of the producer, or an error code.  The two locals the producer id is read
    into are not initialised; only a request that is never made would use them. *)
(* coev_kafka/async_producer.cpp NewAsyncProducer #2 *)
Definition NewAsyncProducer {E} {client : Client E} (config : TxnConfig) (closed : bool) (locals : Z * Z)
    (e : E) : outcome (TransactionManager * E) Z :=
  let m := TransactionManager_new config in
  if closed then Done ErrClosedClient (m, e)
  else if cf_Idempotent config then
    bind (init_producer_id config locals) (fun r => ret (fst r)) (m, e)
  else Done ErrNoError (m, e).
