(* ===== verification/TxnSafety.v ===== *)
(** * The state machine of a transaction

    Every operation of the transaction manager, with any network, changes the manager by
    atomic steps; what the steps preserve holds of every reachable manager. *)
From Stdlib Require Import ZArith Lia Bool.
From stdpp Require Import base tactics list numbers sets gmap fin_maps relations.
From S2P Require Import Prelude Errors StdMap Decimal Version EncoderDecoder TxnMessages TxnManager.

(** ** Statuses *)

(** The statuses the code passes to [transition_to], and the initial one *)
Inductive txn_status := Uninitialized | Initializing | Ready | InTransaction | Committing | Aborting | Abortable | Fatal.
Definition status_value (s : txn_status) : Z :=
  match s with
  | Uninitialized => ProducerTxnFlagUninitialized
  | Initializing => ProducerTxnFlagInitializing
  | Ready => ProducerTxnFlagReady
  | InTransaction => ProducerTxnFlagInTransaction
  | Committing => Z.lor ProducerTxnFlagEndTransaction ProducerTxnFlagCommittingTransaction
  | Aborting => Z.lor ProducerTxnFlagEndTransaction ProducerTxnFlagAbortingTransaction
  | Abortable => AbortableError
  | Fatal => FatalError
  end.
(** The transitions of the specification *)
Definition allowed (s t : txn_status) : bool :=
  match s, t with
  | Uninitialized, (Ready | Abortable | Fatal) => true
  | Initializing, (Initializing | Ready | Abortable | Fatal) => true
  | Ready, InTransaction => true
  | InTransaction, (Committing | Aborting | Abortable | Fatal) => true
  | (Committing | Aborting), (Initializing | Ready | Abortable | Fatal) => true
  | Abortable, (Aborting | Abortable | Fatal) => true
  | Fatal, Fatal => true
  | _, _ => false
  end.
Definition in_error (s : txn_status) : bool := match s with Abortable | Fatal => true | _ => false end.

Lemma has_error s : has (status_value s) ProducerTxnFlagInError = in_error s.
Proof. by destruct s. Qed.
(** [t] is a status the code moves to. *)
Lemma valid_allowed m s t :
  m_status m = status_value s -> t <> Uninitialized -> is_transition_valid m (status_value t) = allowed s t.
Proof. intros E Ht. unfold is_transition_valid. rewrite E. by destruct s, t. Qed.
Lemma transition_spec m s t err :
  m_status m = status_value s -> t <> Uninitialized ->
  transition_to (status_value t) err m =
    if negb (allowed s t) then (ErrTransitionNotAllowed, m)
    else if in_error t then if err =? 0 then (ErrCannotTransitionNilError, m) else (err, with_txn m (status_value t) err)
    else (err, with_txn m (status_value t) 0).
Proof. intros E Ht. unfold transition_to. by rewrite (valid_allowed m s t), has_error. Qed.

(** ** Steps *)

(** What one statement does to the manager *)
Inductive txn_step : TransactionManager -> TransactionManager -> Prop :=
| step_transition m t err : t <> Uninitialized -> txn_step m (snd (transition_to (status_value t) err m))
| step_producer m id epoch : txn_step m (with_producer m id epoch)
| step_sequences m l : txn_step m (with_sequences m l)
| step_bumping m supports required : txn_step m (with_bumping m supports required)
| step_partitions m pending current :
    (m_pending_partitions_in_current_txn m ## m_partitions_in_current_txn m -> pending ## current) ->
    txn_step m (with_partitions m pending current)
| step_offsets m l :
    (map_sorted (m_offsets_in_current_txn m) -> map_sorted l) -> txn_step m (with_offsets m l)
| step_completed m : has (m_status m) ProducerTxnFlagInError = false -> txn_step m (with_txn m (m_status m) 0).
Definition steps := rtc txn_step.

(** An operation only makes steps. *)
Definition stepping {E A} (f : M (TransactionManager * E) A) : Prop :=
  forall s a s', f s = Done a s' -> steps (fst s) (fst s').

Create HintDb stepping.
Section Stepping.
Context {E : Type} {client : Client E}.
Abbreviation TM := (M (TransactionManager * E)).
Implicit Types s : TransactionManager * E.

Lemma stepping_ret {A} (a : A) : stepping (E := E) (ret a).
Proof. intros s b s' [= _ <-]. constructor. Qed.
Lemma stepping_fail {A} f : stepping (E := E) (A := A) (fail f).
Proof. by intros s b s'. Qed.
Lemma stepping_bind {A B} (m : TM A) (k : A -> TM B) : stepping m -> (forall a, stepping (k a)) -> stepping (bind m k).
Proof.
  intros Hm Hk s b s'. unfold bind. destruct (m s) as [a s1|] eqn:E1; [|done]. intros E2.
  unfold steps. etrans; [by eapply Hm|by eapply Hk].
Qed.
Lemma stepping_call {A} (f : E -> A * E) : stepping (call f).
Proof. intros s b s'. unfold call. destruct (f (snd s)). intros [= _ <-]. constructor. Qed.
Lemma stepping_call_ (f : E -> E) : stepping (call_ f).
Proof. intros s b s' [= _ <-]. constructor. Qed.
Lemma stepping_gets {A} (f : TransactionManager -> A) : stepping (E := E) (tm_gets f).
Proof. intros s b s' [= _ <-]. constructor. Qed.
Lemma stepping_do {A} (f : TransactionManager -> A * TransactionManager) :
  (forall m, steps m (snd (f m))) -> stepping (E := E) (tm_do f).
Proof.
  intros Hf s b s'. unfold tm_do. pose proof (Hf (fst s)) as H. destruct (f (fst s)). intros [= _ <-]. done.
Qed.
Lemma stepping_modify (f : TransactionManager -> TransactionManager) :
  (forall m, steps m (f m)) -> stepping (E := E) (tm_modify f).
Proof. intros Hf s b s' [= _ <-]. apply Hf. Qed.
Lemma stepping_on {A} b (m : TM A) : stepping m -> stepping (on b m).
Proof. destruct b; [done|]. intros _. apply stepping_fail. Qed.
Lemma stepping_for_acc {X A R} (l : list X) (f : A -> X -> TM (R + A)) a :
  (forall a x, stepping (f a x)) -> stepping (for_acc l f a).
Proof.
  intros Hf. revert a. induction l as [|x l IH]; intros a; cbn [for_acc]; [apply stepping_ret|].
  apply stepping_bind; [done|]. intros [r|a']; [apply stepping_ret|apply IH].
Qed.
Lemma stepping_retry {X} config n (func : X -> TM (Result * X)) x :
  (forall x, stepping (func x)) -> stepping (Retry config n func x).
Proof.
  intros Hf. revert x. induction n as [|n IH]; intros x; cbn [Retry]; [apply stepping_ret|].
  apply stepping_bind; [done|]. intros [r y]. destruct (negb (Retry_ r)); [apply stepping_ret|].
  apply stepping_bind; [apply stepping_call_|]. intros _. apply IH.
Qed.
Lemma stepping_send {Req Res} (exchange : Req -> Res -> E -> (Z * Res) * E) request promise :
  stepping (SendAndReceive exchange request promise).
Proof.
  apply stepping_bind; [apply stepping_call|]. intros err. destruct (negb (err =? 0)); [apply stepping_ret|].
  destruct request; [apply stepping_call|apply stepping_fail].
Qed.
End Stepping.

#[export] Hint Resolve stepping_ret stepping_fail stepping_call stepping_call_ stepping_gets stepping_on
  stepping_send stepping_bind stepping_for_acc stepping_retry stepping_do stepping_modify : stepping.
(** Walks through an operation. *)
Ltac stepping :=
  repeat match goal with
  | |- stepping (bind _ _) => apply stepping_bind; [|intros ?]
  | |- stepping (for_acc _ _ _) => apply stepping_for_acc; intros ? ?
  | |- stepping (Retry _ _ _ _) => apply stepping_retry; intros ?
  | |- stepping (on _ _) => apply stepping_on
  | |- stepping (tm_do _) => apply stepping_do; intros ?
  | |- stepping (tm_modify _) => apply stepping_modify; intros ?
  | |- stepping (if ?b then _ else _) => destruct b
  | |- stepping (match ?x with _ => _ end) => destruct x
  | |- stepping (let '_ := ?x in _) => destruct x
  end; auto with stepping.

Lemma steps_one m m' : txn_step m m' -> steps m m'.
Proof. apply rtc_once. Qed.
Lemma steps_transition m t err : t <> Uninitialized -> steps m (snd (transition_to (status_value t) err m)).
Proof. intros Ht. apply steps_one. by constructor. Qed.
#[export] Hint Resolve steps_one : stepping.

Lemma steps_fatal m err : steps m (snd (transition_to FatalError err m)).
Proof. by apply (steps_transition m Fatal). Qed.
Lemma steps_abortable m err : steps m (snd (transition_to AbortableError err m)).
Proof. by apply (steps_transition m Abortable). Qed.
Lemma steps_ready m err : steps m (snd (transition_to ProducerTxnFlagReady err m)).
Proof. by apply (steps_transition m Ready). Qed.
Lemma steps_then m m1 m2 : txn_step m m1 -> steps m1 m2 -> steps m m2.
Proof. apply rtc_l. Qed.
Lemma steps_if_possible err m : steps m (snd (abortable_error_if_possible err m)).
Proof.
  unfold abortable_error_if_possible. destruct (m_coordinator_supports_bumping_epoch m); [|apply steps_fatal].
  eapply steps_then; [|apply steps_abortable]. apply step_bumping.
Qed.
Lemma steps_add_offsets offsets group m : steps m (snd (add_offsets_to_txn offsets group m)).
Proof.
  unfold add_offsets_to_txn. do 2 (destruct (_ : bool); [constructor|]). apply steps_one, step_offsets.
  apply map_update_sorted.
Qed.
Lemma steps_add_partition topic p m : steps m (maybe_add_partition_to_current_txn topic p m).
Proof.
  unfold maybe_add_partition_to_current_txn. destruct (has _ _); [constructor|].
  case_bool_decide as Hin; [constructor|]. apply steps_one, step_partitions. set_solver.
Qed.
Lemma steps_complete m : steps m (snd (complete_transaction m)).
Proof.
  unfold complete_transaction. set (t := if m_epoch_bump_required m then Initializing else Ready).
  replace (if m_epoch_bump_required m then ProducerTxnFlagInitializing else ProducerTxnFlagReady) with (status_value t)
    by (unfold t; by destruct (m_epoch_bump_required m)).
  pose proof (steps_transition m t 0 ltac:(unfold t; by destruct (m_epoch_bump_required m))) as H.
  assert (fst (transition_to (status_value t) 0 m) = 0 ->
    has (m_status (snd (transition_to (status_value t) 0 m))) ProducerTxnFlagInError = false) as Hok.
  { unfold transition_to. rewrite has_error. assert (in_error t = false) as Ht by (unfold t; by destruct (m_epoch_bump_required m)).
    rewrite Ht. destruct (negb _); [done|]. intros _. cbn. by rewrite has_error. }
  destruct (transition_to _ 0 m) as [err m1]. cbn [fst snd] in *. destruct (Z.eqb_spec err 0) as [->|]; cbn [negb]; [|done].
  specialize (Hok eq_refl). unfold steps. etrans; [done|].
  eapply steps_then; [by apply step_completed|]. eapply steps_then; [apply step_bumping|].
  eapply steps_then; [apply (step_partitions _ ∅ ∅); set_solver|]. apply steps_one. by apply step_offsets.
Qed.
#[export] Hint Resolve steps_fatal steps_abortable steps_ready steps_if_possible steps_add_offsets steps_add_partition
  steps_complete : stepping.
#[export] Hint Extern 1 (steps _ (with_partitions _ _ _)) =>
  (apply steps_one, step_partitions; set_solver) : stepping.
#[export] Hint Extern 1 (steps _ (with_offsets _ _)) =>
  (apply steps_one, step_offsets; first [apply map_assign_sorted|apply map_erase_sorted]) : stepping.
#[export] Hint Extern 1 (steps _ (with_bumping _ _ _)) => (apply steps_one, step_bumping) : stepping.
#[export] Hint Extern 1 (steps _ (with_sequences _ _)) => (apply steps_one, step_sequences) : stepping.
#[export] Hint Extern 1 (steps _ (with_producer _ _ _)) => (apply steps_one, step_producer) : stepping.

Section Operations.
Context {E : Type} {client : Client E} (config : TxnConfig).
Context (iterate : gset TopicPartition -> list TopicPartition).
Context (iterate_offsets : TopicPartitionOffsets -> list (TopicPartition * PartitionOffsetMetadata)).

Lemma add_offset_stepping group : stepping (publish_offsets_to_txn_add_offset config group).
Proof. unfold publish_offsets_to_txn_add_offset. stepping. Qed.
Lemma commit_partition_stepping group coordinator offsets topic failed pe :
  stepping (commit_partition group coordinator offsets topic failed pe).
Proof. unfold commit_partition. stepping. Qed.
Lemma commit_stepping offsets group out : stepping (publish_offsets_to_txn_commit config iterate_offsets offsets group out).
Proof. unfold publish_offsets_to_txn_commit. stepping. apply commit_partition_stepping. Qed.
Lemma publish_offsets_stepping offsets group out : stepping (publish_offsets_to_txn config iterate_offsets offsets group out).
Proof. unfold publish_offsets_to_txn. stepping; [apply add_offset_stepping|apply commit_stepping]. Qed.
Lemma _init_stepping bump request producer : stepping (_init_producer_id bump request producer).
Proof. unfold _init_producer_id. stepping. Qed.
Lemma init_stepping producer : stepping (init_producer_id config producer).
Proof. unfold init_producer_id, assign_through. stepping; apply _init_stepping. Qed.
Lemma initialize_stepping : stepping (initialize_transactions config).
Proof. unfold initialize_transactions. stepping. apply init_stepping. Qed.
Lemma publish_partition_stepping coordinator topic acc pe : stepping (publish_partition coordinator topic acc pe).
Proof. unfold publish_partition. stepping. Qed.
Lemma _publish_stepping : stepping (_publish_txn_partitions config iterate).
Proof. unfold _publish_txn_partitions. stepping. apply publish_partition_stepping. Qed.
Lemma publish_stepping : stepping (publish_txn_partitions config iterate).
Proof. unfold publish_txn_partitions. stepping. apply _publish_stepping. Qed.
Lemma end_txn_stepping commit : stepping (end_txn config commit).
Proof. unfold end_txn, _end_txn. stepping. Qed.
Lemma finish_stepping commit : stepping (finish_transaction config iterate_offsets commit).
Proof.
  unfold finish_transaction, publish_group.
  stepping; first [apply publish_offsets_stepping|apply end_txn_stepping|apply initialize_stepping].
Qed.
Lemma dispatcher_end_stepping commit : stepping (E := E) (dispatcher_end commit).
Proof.
  unfold dispatcher_end. stepping. destruct commit; [apply (steps_transition _ Committing)|apply (steps_transition _ Aborting)]; done.
Qed.

(** The operations of a producer on its manager *)
Inductive operation :=
| BeginTxn | CommitTxn | AbortTxn
| AddOffsets (offsets : list (list Z * list PartitionOffsetMetadata)) (group_id : list Z)
| AddPartition (topic : list Z) (partition : Z)
| PublishPartitions
| NextSequence (topic : list Z) (partition : Z)
| BumpEpoch
| ReportError (err : Z).
Definition perform (op : operation) : M (TransactionManager * E) Z :=
  match op with
  | BeginTxn => begin_txn
  | CommitTxn => commit_txn config iterate_offsets
  | AbortTxn => abort_txn config iterate_offsets
  | AddOffsets offsets group_id => producer_add_offsets_to_txn offsets group_id
  | AddPartition topic partition => tm_modify (maybe_add_partition_to_current_txn topic partition) ;;; ret 0
  | PublishPartitions => publish_txn_partitions config iterate
  | NextSequence topic partition => fun s =>
      match get_and_increment_sequence_number topic partition (fst s) with
      | Done r m => Done (fst r) (m, snd s)
      | Fault f => Fault f
      end
  | BumpEpoch => tm_modify bump_epoch ;;; ret 0
  | ReportError err => maybe_transition_to_error_state err
  end.
(** A life of the manager: the operations and what they returned *)
Definition perform_all (ops : list operation) : M (TransactionManager * E) unit :=
  for_do ops (fun op => perform op ;;; ret tt).

Lemma perform_stepping op : stepping (perform op).
Proof.
  destruct op; cbn [perform].
  - unfold begin_txn. stepping. by apply (steps_transition _ InTransaction).
  - unfold commit_txn, producer_finish_transaction. stepping; [apply dispatcher_end_stepping|apply finish_stepping].
  - unfold abort_txn, producer_finish_transaction. stepping; [apply dispatcher_end_stepping|apply finish_stepping].
  - unfold producer_add_offsets_to_txn. stepping.
  - stepping.
  - apply publish_stepping.
  - intros s a s'. unfold get_and_increment_sequence_number, bind, i32_arith, ret, fail. case_bool_decide; [|done].
    cbn. intros [= _ <-]. apply steps_one, step_sequences.
  - stepping. unfold bump_epoch. eapply steps_then; [apply step_producer|]. auto with stepping.
  - unfold maybe_transition_to_error_state. stepping.
Qed.
Lemma perform_all_stepping ops : stepping (perform_all ops).
Proof.
  unfold perform_all. induction ops as [|op ops IH]; cbn [for_do]; [apply stepping_ret|].
  apply stepping_bind; [|done]. stepping. apply perform_stepping.
Qed.
End Operations.

(** ** What reachable managers satisfy *)

(** A status of the specification, an error exactly in the error statuses, no partition both
    registered and waiting to be, and maps in order *)
Record txn_ok (m : TransactionManager) : Prop := {
  ok_status : exists s, m_status m = status_value s;
  ok_error : has (m_status m) ProducerTxnFlagInError = true <-> m_last_error m <> 0;
  ok_disjoint : m_pending_partitions_in_current_txn m ## m_partitions_in_current_txn m;
  ok_offsets : map_sorted (m_offsets_in_current_txn m)
}.
(** From status to status along allowed transitions *)
Definition evolves (m m' : TransactionManager) : Prop :=
  exists s s', m_status m = status_value s /\ m_status m' = status_value s' /\ rtc (fun s s' => allowed s s' = true) s s'.

Lemma new_manager_ok config : txn_ok (TransactionManager_new config).
Proof. split; cbn; [by exists Uninitialized|split; [done|done]|set_solver|done]. Qed.

Lemma step_evolves m m' : txn_step m m' -> txn_ok m -> txn_ok m' /\ evolves m m'.
Proof.
  intros Hstep [[s Es] He Hd Ho].
  assert (forall m', m_status m' = m_status m -> evolves m m') as Hsame.
  { intros x Ex. exists s, s. split_and!; [done|congruence|constructor]. }
  destruct Hstep as [m t err Ht|m id epoch|m l|m supports required|m pending current Hp|m l Hl|m Hno];
    (split; [split; cbn; eauto|by apply Hsame]) || idtac.
  - rewrite (transition_spec m s t err) by done. destruct (allowed s t) eqn:Ea; cbn [negb snd].
    2: { split; [split; eauto|by apply Hsame]. }
    assert (evolves m (with_txn m (status_value t) err) /\ evolves m (with_txn m (status_value t) 0)) as [H1 H2].
    { split; exists s, t; (split_and!; [done..|by apply rtc_once]). }
    destruct (in_error t) eqn:Et; [destruct (Z.eqb_spec err 0) as [->|Hne]|]; cbn [snd].
    + split; [split; eauto|by apply Hsame].
    + split; [|done]. split; cbn; [by exists t| |done..]. by rewrite has_error, Et.
    + split; [|done]. split; cbn; [by exists t| |done..]. by rewrite has_error, Et.
  - rewrite Hno. split; [done|]. intros Hne. by destruct Hne.
Qed.
Lemma steps_evolve m m' : steps m m' -> txn_ok m -> txn_ok m' /\ evolves m m'.
Proof.
  induction 1 as [m|m m1 m' H1 _ IH]; intros Hok.
  { split; [done|]. destruct (ok_status _ Hok) as [s Es]. exists s, s. split_and!; [done..|constructor]. }
  destruct (step_evolves _ _ H1 Hok) as (Hok1 & s & s1 & Es & Es1 & Hp).
  destruct (IH Hok1) as (Hok' & s1' & s' & Es1' & Es' & Hp'). split; [done|].
  assert (s1' = s1) as ->. { rewrite Es1 in Es1'. by destruct s1, s1'. }
  exists s, s'. split_and!; [done..|]. by etrans.
Qed.
Lemma fatal_stays s : rtc (fun s s' => allowed s s' = true) Fatal s -> s = Fatal.
Proof.
  intros H. remember Fatal as f eqn:Ef. induction H as [|x y z H1 _ IH]; [done|]. subst. assert (y = Fatal) as -> by by destruct y. by apply IH.
Qed.

(** What may happen between two observations of the status *)
Lemma evolves_fatal m m' : evolves m m' -> m_status m = FatalError -> m_status m' = FatalError.
Proof.
  intros (s & s' & Es & Es' & Hp) Ef. assert (s = Fatal) as ->. { rewrite Es in Ef. by destruct s. }
  apply fatal_stays in Hp as ->. exact Es'.
Qed.

(** ** Networks for the examples *)

(** No coordinator is ever found; the state counts the naps taken. *)
Definition unreachable : Client nat := {|
  TransactionCoordinator _ e := ((ErrConsumerCoordinatorNotAvailable, false), e);
  LeastLoadedBroker e := ((ErrConsumerCoordinatorNotAvailable, false), e);
  GetCoordinator _ e := ((ErrConsumerCoordinatorNotAvailable, false), e);
  RefreshTransactionCoordinator _ e := (ErrConsumerCoordinatorNotAvailable, e);
  RefreshCoordinator _ e := e;
  Broker_Close e := e;
  Broker_Ready e := (0, e);
  exchange_InitProducerID _ r e := ((0, r), e);
  exchange_AddOffsetsToTxn _ r e := ((0, r), e);
  exchange_TxnOffsetCommit _ r e := ((0, r), e);
  exchange_AddPartitionsToTxn _ r e := ((0, r), e);
  sleep_for _ e := S e |}.
(** Every request is granted; the state counts the requests. *)
Definition acknowledge (request : AddPartitionsToTxnRequest) : AddPartitionsToTxnResponse :=
  mkAddPartitionsToTxnResponse 0 0
    (map (fun tp => (fst tp, map (fun p => mkPartitionError p ErrNoError) (snd tp))) (map_to_list (apq_topic_partitions request))).
Definition obliging : Client nat := {|
  TransactionCoordinator _ e := ((0, true), e);
  LeastLoadedBroker e := ((0, true), e);
  GetCoordinator _ e := ((0, true), e);
  RefreshTransactionCoordinator _ e := (0, e);
  RefreshCoordinator _ e := e;
  Broker_Close e := e;
  Broker_Ready e := (0, e);
  exchange_InitProducerID _ r e := ((0, r), S e);
  exchange_AddOffsetsToTxn _ r e := ((0, r), S e);
  exchange_TxnOffsetCommit _ r e := ((0, r), S e);
  exchange_AddPartitionsToTxn q r e := ((0, acknowledge q), S e);
  sleep_for _ e := e |}.
Definition example_config : TxnConfig := mkTxnConfig V2_7_0_0 true [120] 60000 2 100 None.
(** A transaction with one registered partition *)
Definition example_manager (status : txn_status) : TransactionManager :=
  mkTransactionManager (status_value status) 7 0 [] [120] 60000 true false 0 ∅ {[([116], 3)]} [].

(** ** Properties *)

(** C3: Whatever a producer does with its transaction manager and whatever the network
    answers, the manager's status is one of eight and changes only along the allowed
    transitions, the last error is set exactly in the error statuses, a fatal error is
    final, and no partition is both registered and pending; [transition_to] makes exactly
    the allowed transitions, needs an error code for an error status, and otherwise leaves
    the manager as it is. *)
Theorem transaction_states {E} {client : Client E} config iterate iterate_offsets ops1 ops2 e s1 s2 :
  perform_all config iterate iterate_offsets ops1 (TransactionManager_new config, e) = Done tt s1 ->
  perform_all config iterate iterate_offsets ops2 s1 = Done tt s2 ->
  txn_ok (fst s1) /\ txn_ok (fst s2) /\ evolves (fst s1) (fst s2) /\
  (m_status (fst s1) = FatalError -> m_status (fst s2) = FatalError) /\
  forall s t err, m_status (fst s2) = status_value s -> t <> Uninitialized ->
    transition_to (status_value t) err (fst s2) =
      if negb (allowed s t) then (ErrTransitionNotAllowed, fst s2)
      else if in_error t then
        if err =? 0 then (ErrCannotTransitionNilError, fst s2) else (err, with_txn (fst s2) (status_value t) err)
      else (err, with_txn (fst s2) (status_value t) 0).
Proof.
  intros E1 E2. apply perform_all_stepping in E1. apply perform_all_stepping in E2.
  destruct (steps_evolve _ _ E1 (new_manager_ok config)) as [Hok1 _]. destruct (steps_evolve _ _ E2 Hok1) as [Hok2 Hev].
  split_and!; [done..|by apply evolves_fatal|]. intros s t err. apply transition_spec.
Qed.
Example transaction_states_witness :
  exists s1 s2 : TransactionManager * nat,
    perform_all (client := unreachable) example_config elements map_to_list [ReportError ErrProducerFenced] (TransactionManager_new example_config, O) = Done tt s1 /\
    perform_all (client := unreachable) example_config elements map_to_list [BeginTxn; AddPartition [116] 3; AbortTxn] s1 = Done tt s2 /\
    txn_ok (fst s2) /\ m_status (fst s2) = FatalError.
Proof.
  eexists _, _. split; [reflexivity|]. split; [reflexivity|].
  pose proof (transaction_states (client := unreachable) example_config elements map_to_list
    [ReportError ErrProducerFenced] [BeginTxn; AddPartition [116] 3; AbortTxn] O _ _ eq_refl eq_refl) as (_ & Hok & _ & Hf & _).
  split; [exact Hok|by apply Hf].
Defined.
