(* ===== verification/TxnProtocol.v ===== *)
(** * What a transaction achieves

    Sequence numbers, the registration of partitions, and the end of a transaction, over
    the definitions of [TxnManager]. *)
From Stdlib Require Import ZArith Lia Bool.
From stdpp Require Import base tactics list numbers sets gmap fin_maps relations.
From S2P Require Import Prelude Errors StdMap Decimal Version EncoderDecoder TxnMessages TxnManager TxnSafety.

(** ** Sequence numbers *)

(** The key of a partition *)
Definition sequence_key (tp : TopicPartition) : list Z := fst tp ++ [45] ++ to_string (snd tp).
Definition sequence_of (m : TransactionManager) (tp : TopicPartition) : Z :=
  match map_find (sequence_key tp) (m_sequence_numbers m) with Some n => n | None => 0 end.
Fixpoint next_sequences (l : list TopicPartition) : M TransactionManager (list (Z * Z)) :=
  match l with
  | [] => ret []
  | tp :: l =>
      let* r := get_and_increment_sequence_number (fst tp) (snd tp) in
      let* rs := next_sequences l in
      ret (r :: rs)
  end.
Definition occurrences (tp : TopicPartition) (l : list TopicPartition) : Z := Zlen (filter (fun x => x = tp) l).

Lemma last_separator {A} (x : A) a b a' b' :
  a ++ x :: b = a' ++ x :: b' -> x ∉ b -> x ∉ b' -> a = a' /\ b = b'.
Proof.
  revert a'. induction a as [|y a IH]; intros [|y' a']; cbn; intros E Hb Hb'.
  - by injection E as ->.
  - injection E as -> ->. destruct Hb. apply elem_of_app. right. by left.
  - injection E as -> <-. destruct Hb'. apply elem_of_app. right. by left.
  - injection E as -> E. by destruct (IH _ E Hb Hb') as [-> ->].
Qed.
Lemma sequence_key_inj tp tp' :
  0 <= snd tp -> 0 <= snd tp' -> in_s 32 (snd tp) -> in_s 32 (snd tp') -> sequence_key tp = sequence_key tp' -> tp = tp'.
Proof.
  destruct tp as [t p], tp' as [t' p']. cbn. intros Hp Hp' Rp Rp' E.
  assert (forall n, 0 <= n -> 45 ∉ to_string n) as Hno.
  { intros n Hn Hin. pose proof (to_string_digits n Hn) as Hd. rewrite Forall_forall in Hd. by apply Hd in Hin. }
  destruct (last_separator _ _ _ _ _ E) as [-> Es]; [by apply Hno..|]. f_equal. by apply to_string_inj.
Qed.

Lemma in_s32 z : - 2147483648 <= z <= INT32_MAX -> in_s 32 z.
Proof. unfold in_s, INT32_MAX. change (2 ^ (32 - 1)) with 2147483648. lia. Qed.
(** What one call returns and leaves *)
Lemma next_sequence tp m :
  0 <= snd tp -> in_s 32 (snd tp) -> in_s 32 (sequence_of m tp + 1) ->
  exists m', get_and_increment_sequence_number (fst tp) (snd tp) m = Done (sequence_of m tp, m_producer_epoch m) m' /\
    m_producer_epoch m' = m_producer_epoch m /\
    forall tp', 0 <= snd tp' -> in_s 32 (snd tp') ->
      sequence_of m' tp' = sequence_of m tp' + (if bool_decide (tp = tp') then 1 else 0).
Proof.
  intros Hp Rp Hr. eexists. split; [|split].
  - unfold get_and_increment_sequence_number, bind, i32_arith. fold (sequence_key tp). fold (sequence_of m tp).
    by rewrite bool_decide_true.
  - done.
  - intros tp' Hp' Rp'. unfold sequence_of at 1. cbn [m_sequence_numbers with_sequences].
    change (fst tp ++ [45] ++ to_string (snd tp)) with (sequence_key tp). case_bool_decide as Hd; [subst tp'|].
    + by rewrite map_find_assign_eq.
    + rewrite map_find_assign_ne; [|by intros ?%sequence_key_inj]. unfold sequence_of. lia.
Qed.

Definition partition_ok (tp : TopicPartition) : Prop := 0 <= snd tp /\ in_s 32 (snd tp).
#[export] Instance partition_ok_dec tp : Decision (partition_ok tp).
Proof. unfold partition_ok. apply _. Defined.
Lemma next_sequences_spec l m :
  Forall partition_ok l -> Forall (fun tp => 0 <= sequence_of m tp <= INT32_MAX - Zlen l) l ->
  exists rs m', next_sequences l m = Done rs m' /\ m_producer_epoch m' = m_producer_epoch m /\
    (forall tp, partition_ok tp -> sequence_of m' tp = sequence_of m tp + occurrences tp l) /\
    forall i tp, l !! i = Some tp -> rs !! i = Some (sequence_of m tp + occurrences tp (take i l), m_producer_epoch m).
Proof.
  revert m. induction l as [|tp l IH]; intros m Hok Hr.
  { exists [], m. split_and!; [done..| |done]. intros tp _. change (occurrences tp []) with 0. lia. }
  apply Forall_cons_1 in Hok as [Ht Hok]. apply Forall_cons_1 in Hr as [Hrt Hr].
  assert (Zlen (tp :: l) = Zlen l + 1) as El by (unfold Zlen; cbn; lia). rewrite El in Hrt, Hr.
  pose proof (Zlen_nonneg l) as Hl.
  destruct (next_sequence tp m (proj1 Ht) (proj2 Ht)) as (m1 & E1 & Ee & Hs); [apply in_s32; lia|].
  destruct (IH m1 Hok) as (rs & m' & E & Ee' & Hs' & Hrs).
  { rewrite Forall_forall in *. intros tp' Hin. destruct (Hok tp' Hin). specialize (Hr tp' Hin). cbn in Hr.
    rewrite Hs by done. case_bool_decide; lia. }
  eexists _, m'. split; [cbn [next_sequences]; unfold bind at 1; rewrite E1; unfold bind; by rewrite E|].
  split; [congruence|].
  assert (forall tp' k, occurrences tp' (tp :: k) = (if bool_decide (tp = tp') then 1 else 0) + occurrences tp' k) as Ho.
  { intros tp' k. unfold occurrences, Zlen. rewrite filter_cons. case_decide; case_bool_decide; try done; cbn; lia. }
  split.
  - intros tp' Htp'. rewrite Hs' by done. rewrite Hs by apply Htp'. rewrite Ho. lia.
  - intros [|i] tp' Hi; cbn in Hi |- *.
    + injection Hi as ->. change (occurrences tp' []) with 0. do 2 f_equal. lia.
    + etrans; [exact (Hrs i tp' Hi)|]. rewrite Ee, Ho. apply list_elem_of_lookup_2 in Hi. rewrite Forall_forall in Hok.
      rewrite Hs by by apply Hok. do 2 f_equal. lia.
Qed.

(** C18: Calls for any mixture of partitions number the messages of each partition
    consecutively from the partition's number, with the manager's epoch, and do not touch
    the numbers of others; after [bump_epoch] every partition starts again from 0 with the
    next epoch. *)
Theorem sequence_numbers_consecutive l m :
  Forall partition_ok l -> Forall (fun tp => 0 <= sequence_of m tp <= INT32_MAX - Zlen l) l ->
  exists rs m', next_sequences l m = Done rs m' /\
    (forall i tp, l !! i = Some tp -> rs !! i = Some (sequence_of m tp + occurrences tp (take i l), m_producer_epoch m)) /\
    (forall tp, partition_ok tp -> sequence_of m' tp = sequence_of m tp + occurrences tp l) /\
    forall tp, sequence_of (bump_epoch m') tp = 0 /\
      m_producer_epoch (bump_epoch m') = to_i16 (m_producer_epoch m + 1).
Proof.
  intros Hok Hr. destruct (next_sequences_spec l m Hok Hr) as (rs & m' & E & Ee & Hs & Hrs).
  exists rs, m'. split_and!; [done..|]. intros tp. split; [|cbn; by rewrite Ee].
  unfold sequence_of, bump_epoch. cbn. induction (m_sequence_numbers m') as [|[k v] s IH]; cbn; [done|].
  by destruct (bytes_compare (sequence_key tp) k).
Qed.
Example sequence_numbers_consecutive_witness :
  exists rs m', next_sequences [([116], 0); ([116], 1); ([116], 0)] (example_manager InTransaction) = Done rs m' /\
    rs !! 2%nat = Some (1, 0).
Proof.
  destruct (sequence_numbers_consecutive [([116], 0); ([116], 1); ([116], 0)] (example_manager InTransaction))
    as (rs & m' & E & Hrs & _).
  - by apply (bool_decide_unpack _).
  - repeat constructor; cbn; unfold INT32_MAX, Zlen; cbn; lia.
  - exists rs, m'. split; [exact E|]. by rewrite (Hrs 2%nat ([116], 0) eq_refl).
Defined.

(** ** What a code of 0 means *)

(** The part of the manager that only [transition_to], [complete_transaction] and the
    registration of partitions change *)
Definition same_txn (m m' : TransactionManager) : Prop :=
  m_status m' = m_status m /\ m_last_error m' = m_last_error m /\
  m_partitions_in_current_txn m' = m_partitions_in_current_txn m /\
  m_transactional_id m' = m_transactional_id m.
(** Unless the value returned is [bad], what held of the manager still holds. *)
Definition keeps {E A} (P : TransactionManager -> Prop) (bad : A -> Prop) (f : M (TransactionManager * E) A) : Prop :=
  forall s a s', P (fst s) -> f s = Done a s' -> bad a \/ P (fst s').
Definition never {A} (_ : A) : Prop := False.
Definition bad_result (r : Result) : Prop := Retry_ r = false /\ Error r <> 0.
Definition bad_code (c : Z) : Prop := c <> 0.
Definition bad_first {A B} (bad : A -> Prop) (r : A * B) : Prop := bad (fst r).
Definition bad_early {A B} (bad : A -> Prop) (r : A + B) : Prop := match r with inl a => bad a | inr _ => False end.

Create HintDb keeps.
Section Keeps.
Context {E : Type} {client : Client E} (P : TransactionManager -> Prop).
Abbreviation TM := (M (TransactionManager * E)).

Lemma keeps_ret {A} (bad : A -> Prop) a : keeps (E := E) P bad (ret a).
Proof. intros s b s' HP [= _ <-]. by right. Qed.
Lemma keeps_fail {A} (bad : A -> Prop) f : keeps (E := E) P bad (fail f).
Proof. by intros s b s'. Qed.
Lemma keeps_call {A} (bad : A -> Prop) (f : E -> A * E) : keeps P bad (call f).
Proof. intros s b s' HP. unfold call. destruct (f (snd s)). intros [= _ <-]. by right. Qed.
Lemma keeps_call_ bad (f : E -> E) : keeps P bad (call_ f).
Proof. intros s b s' HP [= _ <-]. by right. Qed.
Lemma keeps_gets {A} (bad : A -> Prop) (f : TransactionManager -> A) : keeps (E := E) P bad (tm_gets f).
Proof. intros s b s' HP [= _ <-]. by right. Qed.
Lemma keeps_modify bad (f : TransactionManager -> TransactionManager) :
  (forall m, P m -> P (f m)) -> keeps (E := E) P bad (tm_modify f).
Proof. intros Hf s b s' HP [= _ <-]. right. by apply Hf. Qed.
Lemma keeps_on {A} (bad : A -> Prop) b (m : TM A) : keeps P bad m -> keeps P bad (on b m).
Proof. destruct b; [done|]. intros _. apply keeps_fail. Qed.
(** A bad value makes the rest bad. *)
Lemma keeps_bind_bad {A B} (bad : A -> Prop) (bad' : B -> Prop) (m : TM A) (k : A -> TM B) :
  keeps P bad m -> (forall a s b s', bad a -> k a s = Done b s' -> bad' b) ->
  (forall a, keeps P bad' (k a)) -> keeps P bad' (bind m k).
Proof.
  intros Hm Hb Hk s b s' HP. unfold bind. destruct (m s) as [a s1|] eqn:E1; [|done]. intros E2.
  destruct (Hm _ _ _ HP E1) as [Ha|H1]; [left; by eapply Hb|by eapply Hk].
Qed.
Lemma keeps_bind {A B} (bad' : B -> Prop) (m : TM A) (k : A -> TM B) :
  keeps P never m -> (forall a, keeps P bad' (k a)) -> keeps P bad' (bind m k).
Proof. intros Hm Hk. by eapply keeps_bind_bad. Qed.
Lemma keeps_for_acc {X A V} (bad : V -> Prop) (l : list X) (f : A -> X -> TM (V + A)) a :
  (forall a x, keeps P (bad_early bad) (f a x)) -> keeps P (bad_early bad) (for_acc l f a).
Proof.
  intros Hf. revert a. induction l as [|x l IH]; intros a; cbn [for_acc]; [apply keeps_ret|].
  eapply keeps_bind_bad; [apply Hf| |].
  - intros [r|b] s c s' Hb; [|done]. intros [= <- _]. exact Hb.
  - intros [r|b]; [apply keeps_ret|apply IH].
Qed.
Lemma keeps_retry {X} config n (func : X -> TM (Result * X)) x :
  (forall x, keeps P (bad_first bad_result) (func x)) -> keeps P (bad_first bad_code) (Retry config n func x).
Proof.
  intros Hf. revert x. induction n as [|n IH]; intros x; cbn [Retry]; [apply keeps_ret|].
  eapply keeps_bind_bad; [apply Hf| |].
  - intros [r y] s b s' [Hr He]. cbn in Hr, He. rewrite Hr. cbn. intros [= <- _]. exact He.
  - intros [r y]. destruct (negb (Retry_ r)); [apply keeps_ret|].
    apply keeps_bind; [apply keeps_call_|]. intros _. apply IH.
Qed.
Lemma keeps_send {Req Res} bad (exchange : Req -> Res -> E -> (Z * Res) * E) request promise :
  keeps P bad (SendAndReceive exchange request promise).
Proof.
  apply keeps_bind; [apply keeps_call|]. intros err. destruct (negb (err =? 0)); [apply keeps_ret|].
  destruct request; [apply keeps_call|apply keeps_fail].
Qed.
(** Moving to an error status with an error code never returns 0. *)
Lemma keeps_error {A} (f : Z -> A) (bad : A -> Prop) t code :
  code <> 0 -> in_error t = true -> (forall c, c <> 0 -> bad (f c)) ->
  keeps (E := E) P bad (let* err := tm_do (transition_to (status_value t) code) in ret (f err)).
Proof.
  intros Hc Ht Hf [m e] a s' _ Ea. left. revert Ea. unfold bind, tm_do, transition_to, ret. cbn [fst snd].
  rewrite has_error, Ht. destruct (negb _); [intros [= <- _]; by apply Hf|].
  destruct (Z.eqb_spec code 0); [done|]. intros [= <- _]. by apply Hf.
Qed.
End Keeps.
#[export] Hint Resolve keeps_ret keeps_fail keeps_call keeps_call_ keeps_gets keeps_send : keeps.
Ltac keeps :=
  repeat match goal with
  | |- keeps _ _ (bind (tm_do _) _) => fail 1
  | |- keeps _ _ (bind (Retry _ _ _ _) _) => fail 1
  | |- keeps _ _ (bind (for_acc _ _ _) _) => fail 1
  | |- keeps _ _ (bind _ _) => apply keeps_bind; [|intros ?]
  | |- keeps _ _ (on _ _) => apply keeps_on
  | |- keeps _ _ (tm_modify _) => apply keeps_modify; intros ?
  | |- keeps _ _ (if ?c =? 0 then _ else _) => destruct (Z.eqb_spec c 0)
  | |- keeps _ _ (if ?c =? ErrNoError then _ else _) => destruct (Z.eqb_spec c ErrNoError)
  | |- keeps _ _ (if ?b then _ else _) => destruct b
  | |- keeps _ _ (match ?x with _ => _ end) => destruct x
  end; auto with keeps.

Section Publishing.
Context {E : Type} {client : Client E} (config : TxnConfig).
Context (iterate_offsets : TopicPartitionOffsets -> list (TopicPartition * PartitionOffsetMetadata)).

Lemma keeps_if_possible (P : TransactionManager -> Prop) {A} (f : Z -> A) (bad : A -> Prop) code :
  code <> 0 -> (forall c, c <> 0 -> bad (f c)) ->
  keeps (E := E) P bad (let* err := tm_do (abortable_error_if_possible code) in ret (f err)).
Proof.
  intros Hc Hf [m e] a s' _ Ea. left. revert Ea. unfold bind at 1, tm_do, abortable_error_if_possible. cbn [fst snd].
  assert (forall t m, in_error t = true -> fst (transition_to (status_value t) code m) <> 0) as Ht.
  { intros t m1 Ht. unfold transition_to. rewrite has_error, Ht. destruct (negb _); [done|].
    by destruct (Z.eqb_spec code 0). }
  assert (exists c m', (if m_coordinator_supports_bumping_epoch m
    then transition_to AbortableError code (with_bumping m (m_coordinator_supports_bumping_epoch m) true)
    else transition_to FatalError code m) = (c, m') /\ c <> 0) as (c & m' & -> & Hne).
  { destruct (m_coordinator_supports_bumping_epoch m).
    - eexists _, _. split; [apply surjective_pairing|]. by apply (Ht Abortable).
    - eexists _, _. split; [apply surjective_pairing|]. by apply (Ht Fatal). }
  intros [= <- _]. by apply Hf.
Qed.
Lemma bad_result_error c : c <> 0 -> bad_result (mkResult false c).
Proof. done. Qed.
Hint Resolve bad_result_error : keeps.
Hint Extern 1 (keeps _ _ (bind (tm_do (transition_to FatalError _)) _)) =>
  (apply (keeps_error _ _ _ Fatal); [done..|intros; by apply bad_result_error]) : keeps.
Hint Extern 1 (keeps _ _ (bind (tm_do (transition_to AbortableError _)) _)) =>
  (apply (keeps_error _ _ _ Abortable); [done..|intros; by apply bad_result_error]) : keeps.
Hint Extern 1 (keeps _ _ (bind (tm_do (abortable_error_if_possible _)) _)) =>
  (apply keeps_if_possible; [done..|intros; by apply bad_result_error]) : keeps.

Section From.
Variable m0 : TransactionManager.

Lemma keeps_add_offset group : keeps (same_txn m0) bad_result (publish_offsets_to_txn_add_offset config group).
Proof. unfold publish_offsets_to_txn_add_offset. keeps. Qed.
Lemma keeps_commit_partition group coordinator offsets topic failed pe :
  keeps (same_txn m0) (bad_early bad_result) (commit_partition group coordinator offsets topic failed pe).
Proof. unfold commit_partition. keeps. Qed.
Lemma keeps_commit offsets group out :
  keeps (same_txn m0) (bad_first bad_result) (publish_offsets_to_txn_commit config iterate_offsets offsets group out).
Proof.
  unfold publish_offsets_to_txn_commit. keeps.
  eapply (keeps_bind_bad _ (bad_early bad_result)).
  - apply keeps_for_acc. intros. apply keeps_for_acc. intros. apply keeps_commit_partition.
  - intros [r|failed] s c s' Hb; [|done]. intros [= <- _]. exact Hb.
  - intros [r|failed]; keeps.
Qed.
Lemma keeps_publish_offsets offsets group out :
  keeps (same_txn m0) (bad_first bad_code) (publish_offsets_to_txn config iterate_offsets offsets group out).
Proof.
  unfold publish_offsets_to_txn.
  apply (keeps_bind_bad _ (bad_first bad_code)).
  - apply keeps_retry. intros []. apply (keeps_bind_bad _ bad_result); [apply keeps_add_offset| |intros; apply keeps_ret].
    intros r s b s' Hb [= <- _]. exact Hb.
  - intros [err u] s b s' Hb. cbn in *. destruct (Z.eqb_spec err 0); [done|]. intros [= <- _]. exact Hb.
  - intros [err u]. cbn [fst]. destruct (negb (err =? 0)); [apply keeps_ret|].
    apply (keeps_bind_bad _ (bad_first bad_code)); [apply keeps_retry; intros; apply keeps_commit| |].
    + intros [err' v] s b s' Hb. cbn in *. destruct (Z.eqb_spec err' 0); [done|]. intros [= <- _]. exact Hb.
    + intros [err' v]. keeps.
Qed.
Lemma keeps_publish_group acc it : keeps (same_txn m0) (bad_early bad_code) (publish_group config iterate_offsets acc it).
Proof.
  unfold publish_group. apply (keeps_bind_bad _ (bad_first bad_code)); [apply keeps_publish_offsets| |].
  - intros [err o] s b s' Hb. cbn in *. destruct (Z.eqb_spec err 0); [done|]. cbn. intros [= <- _]. exact Hb.
  - intros [err o]. keeps; done.
Qed.
Lemma keeps_end_txn commit : keeps (same_txn m0) bad_code (end_txn config commit).
Proof.
  unfold end_txn. apply (keeps_bind_bad _ (bad_first bad_code)).
  - apply keeps_retry. intros []. unfold _end_txn. keeps.
  - intros [err u] s b s' Hb [= <- _]. exact Hb.
  - intros. apply keeps_ret.
Qed.

End From.

(** A commit or an abort that returns 0 after going through the requests leaves the status. *)
Lemma finish_keeps (commit : bool) (s s' : TransactionManager * E) :
  m_status (fst s) = status_value (if commit then Committing else Aborting) -> m_last_error (fst s) = 0 ->
  m_partitions_in_current_txn (fst s) <> ∅ -> m_epoch_bump_required (fst s) = false ->
  finish_transaction config iterate_offsets commit s = Done 0 s' -> same_txn (fst s) (fst s').
Proof.
  intros Es Hl Hp Hb Ef. unfold finish_transaction, bind at 1, tm_gets at 1, current_txn_status in Ef.
  assert (forall flag, flag = ProducerTxnFlagInError \/ flag = ProducerTxnFlagFatalError -> has (m_status (fst s)) flag = false) as Hno.
  { rewrite Es. by destruct commit; intros ? [->| ->]. }
  rewrite !Hno, !andb_false_r, bool_decide_false, Hb in Ef by auto.
  set (groups := if commit then for_acc (m_offsets_in_current_txn (fst s)) (publish_group config iterate_offsets) tt
                 else ret (inr tt)) in Ef.
  assert (keeps (same_txn (fst s)) (bad_early bad_code) groups) as Hg.
  { unfold groups. destruct commit; [|apply keeps_ret]. apply keeps_for_acc. intros. apply keeps_publish_group. }
  unfold bind at 1 in Ef. destruct (groups s) as [r s1|] eqn:E1; [|done].
  destruct (Hg _ _ _ ltac:(done) E1) as [Hbad|H1].
  { destruct r as [err|]; [|done]. injection Ef as -> _. by destruct Hbad. }
  destruct r as [err|u]. { injection Ef as _ <-. done. }
  unfold bind at 1, tm_gets at 1 in Ef. pose proof H1 as (Hs1 & Hl1 & Hp1 & Ht1).
  rewrite Hs1, Hno, Hl1, Hl in Ef by auto. cbn in Ef. unfold bind at 1 in Ef.
  destruct (end_txn config commit s1) as [err s2|] eqn:E2; [|done].
  destruct (keeps_end_txn (fst s) commit _ _ _ H1 E2) as [Hbad|H2].
  { destruct (Z.eqb_spec err 0) as [->|]; [by destruct Hbad|]. cbn in Ef. by injection Ef as -> _. }
  destruct (err =? 0); cbn in Ef; unfold ret in Ef; by simplify_eq.
Qed.

(** ** When no coordinator is found *)

(** [Retry] gives up with 0. *)
Lemma Retry_gives_up {X} n (func : X -> M (TransactionManager * E) (Result * X)) x m e :
  (forall e, exists r e', func x (m, e) = Done (r, x) (m, e') /\ Retry_ r = true) ->
  exists e', Retry config n func x (m, e) = Done (0, x) (m, e').
Proof.
  intros Hf. revert e. induction n as [|n IH]; intros e; cbn [Retry]; [by exists e|].
  unfold bind at 1. destruct (Hf e) as (r & e1 & -> & Hr). rewrite Hr. cbn [negb]. unfold bind, call_. apply IH.
Qed.
Definition unreachable_client : Prop :=
  (forall id e, fst (fst (TransactionCoordinator (E := E) id e)) <> 0) /\
  (forall group e, fst (fst (GetCoordinator (E := E) group e)) <> 0).

Section Unreachable.
Hypothesis Hno : unreachable_client.

Lemma publish_offsets_unreachable offsets group out m e :
  exists e', publish_offsets_to_txn config iterate_offsets offsets group out (m, e) = Done (0, out) (m, e').
Proof.
  unfold publish_offsets_to_txn, bind at 1.
  edestruct (Retry_gives_up (attempts config)
    (fun _ : () => let* r := publish_offsets_to_txn_add_offset config group in ret (r, tt)) tt m e) as (e1 & ->).
  { intros e0. unfold publish_offsets_to_txn_add_offset, bind, tm_gets, call. cbn [fst snd].
    pose proof (proj1 Hno (m_transactional_id m) e0) as Hc. destruct (TransactionCoordinator _ e0) as [[err b] e'].
    cbn in Hc. destruct (Z.eqb_spec err 0); [done|]. cbn. by eexists _, _. }
  cbn [fst negb Z.eqb]. unfold bind at 1.
  edestruct (Retry_gives_up (attempts config) (publish_offsets_to_txn_commit config iterate_offsets offsets group) ∅ m e1) as (e2 & ->).
  { intros e0. unfold publish_offsets_to_txn_commit, bind, call. cbn [fst snd].
    pose proof (proj2 Hno group e0) as Hc. destruct (GetCoordinator _ e0) as [[err b] e'].
    cbn in Hc. destruct (Z.eqb_spec err 0); [done|]. cbn. by eexists _, _. }
  by eexists.
Qed.
Lemma publish_groups_unreachable l m e :
  m_offsets_in_current_txn m = l ->
  exists e', for_acc l (publish_group config iterate_offsets) tt (m, e) = Done (inr tt) (with_offsets m [], e').
Proof.
  revert m e. induction l as [|[group offsets] l IH]; intros m e El; cbn [for_acc].
  { exists e. unfold ret. do 2 f_equal. destruct m. cbn in El |- *. by subst. }
  unfold bind at 1, publish_group. unfold bind at 1. cbn [fst snd].
  destruct (publish_offsets_unreachable offsets group ∅ m e) as (e1 & ->). cbn [Z.eqb negb].
  unfold bind at 1, tm_modify, ret at 1. cbn [fst snd].
  destruct (IH (with_offsets m (map_erase group (m_offsets_in_current_txn m))) e1) as (e2 & E2).
  - cbn [with_offsets m_offsets_in_current_txn]. rewrite El. cbn [map_erase]. by rewrite key_compare_refl.
  - exists e2. exact E2.
Qed.
Lemma end_txn_unreachable commit m e : exists e', end_txn config commit (m, e) = Done 0 (m, e').
Proof.
  unfold end_txn, bind at 1.
  edestruct (Retry_gives_up (attempts config) (fun _ : () => let* r := _end_txn commit in ret (r, tt)) tt m e) as (e2 & ->).
  { intros e0. unfold _end_txn, bind, tm_gets, call. cbn [fst snd].
    pose proof (proj1 Hno (m_transactional_id m) e0) as Hc. destruct (TransactionCoordinator _ e0) as [[err b] e'].
    cbn in Hc. destruct (Z.eqb_spec err 0); [done|]. cbn. by eexists _, _. }
  by exists e2.
Qed.
Lemma finish_unreachable (commit : bool) m e :
  m_status m = status_value (if commit then Committing else Aborting) -> m_last_error m = 0 ->
  m_partitions_in_current_txn m <> ∅ -> m_epoch_bump_required m = false ->
  exists e', finish_transaction config iterate_offsets commit (m, e) =
    Done 0 (if commit then with_offsets m [] else m, e').
Proof.
  intros Es Hl Hp Hb. unfold finish_transaction, bind at 1, tm_gets at 1, current_txn_status. cbn [fst].
  assert (forall flag, flag = ProducerTxnFlagInError \/ flag = ProducerTxnFlagFatalError -> has (m_status m) flag = false) as Hf.
  { rewrite Es. by destruct commit; intros ? [->| ->]. }
  rewrite !Hf, !andb_false_r, bool_decide_false, Hb by auto.
  set (m' := if commit then with_offsets m [] else m).
  assert (exists e1, (if commit then for_acc (m_offsets_in_current_txn m) (publish_group config iterate_offsets) tt
    else ret (inr tt)) (m, e) = Done (inr tt) (m', e1)) as (e1 & E1).
  { destruct commit; [by apply publish_groups_unreachable|by exists e]. }
  unfold bind at 1. rewrite E1. unfold bind at 1, tm_gets at 1. cbn [fst].
  assert (m_status m' = m_status m /\ m_last_error m' = m_last_error m) as [-> ->] by by destruct commit.
  rewrite Hf, Hl by auto. destruct (end_txn_unreachable commit m' e1) as (e2 & E2). exists e2.
  change (negb (0 =? ErrInvalidProducerIDMapping)) with true. cbv iota. unfold bind at 1. rewrite E2. done.
Qed.
End Unreachable.
End Publishing.

Lemma dispatcher_end_run {E} (commit : bool) m (e : E) :
  m_status m = status_value InTransaction ->
  dispatcher_end commit (m, e) = Done tt (with_txn m (status_value (if commit then Committing else Aborting)) 0, e).
Proof.
  intros Es. unfold dispatcher_end, bind, tm_do. cbn [fst snd].
  pose proof (transition_spec m InTransaction (if commit then Committing else Aborting) 0 Es ltac:(by destruct commit)) as Ht.
  destruct commit; cbn in Ht |- *; by rewrite Ht.
Qed.

(** C40: A commit or an abort of a transaction with a registered partition that returns 0
    leaves the transaction ending: the status is still the one the dispatcher set, the
    partitions are still registered, and the next [begin_txn] is refused.  It does return 0
    when no coordinator is ever found and nothing has been sent, and a commit has then
    dropped the offsets it should have published. *)
Theorem transaction_never_completes {E} {client : Client E} config iterate_offsets (commit : bool) m (e : E) :
  m_status m = status_value InTransaction -> m_transactional_id m <> [] ->
  m_partitions_in_current_txn m <> ∅ -> m_epoch_bump_required m = false ->
  let finish := if commit then commit_txn config iterate_offsets else abort_txn config iterate_offsets in
  (forall s', finish (m, e) = Done 0 s' ->
     m_status (fst s') = status_value (if commit then Committing else Aborting) /\
     m_partitions_in_current_txn (fst s') = m_partitions_in_current_txn m /\
     begin_txn s' = Done ErrTransitionNotAllowed s') /\
  (unreachable_client (E := E) ->
     exists s', finish (m, e) = Done 0 s' /\ (commit = true -> m_offsets_in_current_txn (fst s') = [])).
Proof.
  intros Es Hid Hp Hb finish.
  set (m1 := with_txn m (status_value (if commit then Committing else Aborting)) 0).
  assert (finish (m, e) = finish_transaction config iterate_offsets commit (m1, e)) as ->.
  { assert (is_transactional m = true) as Ht by (apply bool_decide_true; done).
    pose proof (dispatcher_end_run commit m e Es) as Hd.
    unfold finish. destruct commit; cbv iota; unfold commit_txn, abort_txn, producer_finish_transaction, bind at 1, tm_gets at 1;
      cbn [fst]; rewrite Ht; cbn [negb]; unfold bind at 1; by rewrite Hd. }
  split.
  - intros s' Ef. destruct (finish_keeps config iterate_offsets commit (m1, e) s') as (Hs & _ & Hps & Hids); [done..|].
    split; [exact Hs|]. split; [exact Hps|]. destruct s' as [m' e']. cbn [fst] in *.
    unfold begin_txn, bind, tm_gets, tm_do, is_transactional. cbn [fst snd].
    rewrite Hids, bool_decide_true by done. cbn [negb].
    change ProducerTxnFlagInTransaction with (status_value InTransaction).
    rewrite (transition_spec _ (if commit then Committing else Aborting)) by (done || by destruct commit). by destruct commit.
  - intros Hno. destruct (finish_unreachable config iterate_offsets Hno commit m1 e) as (e' & Ef); [done..|].
    eexists. split; [exact Ef|]. by intros ->.
Qed.
Example transaction_never_completes_witness :
  exists s', commit_txn (client := unreachable) example_config map_to_list (example_manager InTransaction, O) = Done 0 s' /\
    begin_txn s' = Done ErrTransitionNotAllowed s'.
Proof.
  destruct (transaction_never_completes (client := unreachable) example_config map_to_list true (example_manager InTransaction) O)
    as [Hany Hno].
  - done.
  - done.
  - cbn. set_solver.
  - done.
  - destruct Hno as (s' & Ef & _); [by split|]. exists s'. split; [exact Ef|]. by apply Hany.
Defined.

(** ** The producer id *)

Lemma IsAtLeast_trans v w u : IsAtLeast v w = true -> IsAtLeast w u = true -> IsAtLeast v u = true.
Proof.
  rewrite !IsAtLeast_compare. intros H1 H2 H3.
  destruct (decide (version_list w = version_list u)) as [E|Hne]; [by rewrite <- E in H3|].
  destruct (key_compare_ne _ _ Hne) as [|Hl]; [done|]. apply H1. by eapply key_lt_trans.
Qed.

Section ProducerId.
Context {E : Type} {client : Client E} (config : TxnConfig).

Lemma init_null m producer (e : E) :
  m_transactional_id m <> [] \/ IsAtLeast (cf_Version config) V2_0_0_0 = true ->
  init_producer_id config producer (m, e) = Fault FUB.
Proof.
  intros H. unfold init_producer_id. unfold bind at 1, tm_gets at 1. cbn [fst].
  destruct (is_transactional m) eqn:Et; [done|].
  assert (m_transactional_id m = []) as Eid by by apply bool_decide_eq_false, dec_stable in Et.
  destruct H as [|Hv]; [done|]. unfold bind, ret, assign_through, fail.
  destruct (IsAtLeast _ V2_5_0_0); [done|]. destruct (IsAtLeast _ V2_4_0_0); [done|]. by rewrite Hv.
Qed.
(** Without a request object nothing is sent, and the attempt is to be repeated. *)
Lemma _init_null m producer (e : E) r s' :
  m_transactional_id m = [] -> _init_producer_id false None producer (m, e) = Done r s' ->
  Retry_ (fst r) = true /\ fst s' = m.
Proof.
  intros Hid. unfold _init_producer_id, bind at 1, tm_gets at 1. cbn [fst].
  assert (is_transactional m = false) as -> by (unfold is_transactional; by rewrite Hid).
  unfold bind at 1, call at 1. cbn [fst snd]. destruct (LeastLoadedBroker e) as [[err b] e1].
  destruct (negb (err =? 0)); [by intros [= <- <-]|].
  unfold bind at 1, on. destruct b; [|done]. unfold SendAndReceive, bind at 1, call at 1. cbn [fst snd].
  destruct (Broker_Ready e1) as [err2 e2]. destruct (negb (err2 =? 0)) eqn:E2; [|done].
  unfold ret at 1. cbn. rewrite E2. unfold bind, ret. by intros [= <- <-].
Qed.
Lemma Retry_never_succeeds {X} n (func : X -> M (TransactionManager * E) (Result * X)) m :
  (forall x e r s', func x (m, e) = Done r s' -> Retry_ (fst r) = true /\ fst s' = m) ->
  forall x e r s', Retry config n func x (m, e) = Done r s' -> fst r = 0 /\ fst s' = m.
Proof.
  intros Hf. induction n as [|n IH]; intros x e r s'; cbn [Retry]; [by intros [= <- <-]|].
  unfold bind at 1. destruct (func x (m, e)) as [[r1 x1] s1|] eqn:E1; [|done].
  apply Hf in E1 as [Hr E1]. cbn in Hr. rewrite Hr. cbn [negb]. unfold bind, call_. destruct s1 as [m1 e1].
  cbn in E1 |- *. subst m1. apply IH.
Qed.

(** No idempotent producer ever gets a producer id: [init_producer_id] writes through a
    null request when there is a transactional id or the broker is of version 2.0 or later,
    and otherwise, if it returns at all, it returns 0 with the manager as it was made,
    without an id and not ready. *)
Theorem producer_id_never_obtained locals (e : E) :
  cf_Idempotent config = true ->
  (cf_ID config <> [] \/ IsAtLeast (cf_Version config) V2_0_0_0 = true ->
     NewAsyncProducer config false locals e = Fault FUB) /\
  (forall r s', NewAsyncProducer config false locals e = Done r s' ->
     r = ErrNoError /\ get_producer_id (fst s') = (noProducerID, noProducerEpoch) /\
     m_status (fst s') = ProducerTxnFlagUninitialized).
Proof.
  intros Hi. unfold NewAsyncProducer. rewrite Hi.
  set (m := TransactionManager_new config).
  assert (m_transactional_id m = cf_ID config) as Eid by (unfold m, TransactionManager_new; cbn; by rewrite Hi).
  split; [intros H; unfold bind; by rewrite init_null by by rewrite Eid|].
  intros r s'. unfold bind at 1. destruct (init_producer_id config locals (m, e)) as [r1 s1|] eqn:E1; [|done].
  intros [= <- <-]. destruct (decide (cf_ID config <> [] \/ IsAtLeast (cf_Version config) V2_0_0_0 = true)) as [H|H].
  { by rewrite init_null in E1 by by rewrite Eid. }
  assert (cf_ID config = [] /\ IsAtLeast (cf_Version config) V2_0_0_0 = false) as [Hid Hv].
  { split; [by apply dec_stable; tauto|]. destruct (IsAtLeast _ V2_0_0_0); [tauto|done]. }
  assert (forall w, IsAtLeast w V2_0_0_0 = true -> IsAtLeast (cf_Version config) w = false) as Hlow.
  { intros w Hw. destruct (IsAtLeast (cf_Version config) w) eqn:Ew; [|done]. by rewrite (IsAtLeast_trans _ _ _ Ew Hw) in Hv. }
  revert E1. unfold init_producer_id, bind at 1, tm_gets at 1. cbn [fst].
  assert (is_transactional m = false) as -> by (unfold is_transactional; by rewrite Eid, Hid).
  rewrite !Hlow by done. unfold bind at 1 2, ret at 1 2. intros E1.
  apply (Retry_never_succeeds _ (_init_producer_id false None)) in E1 as [-> ->].
  - done.
  - intros x e0 r s'. apply _init_null. by rewrite Eid.
Qed.
End ProducerId.
Example producer_id_never_obtained_witness :
  NewAsyncProducer (client := obliging) example_config false (0, 0) O = Fault FUB.
Proof. apply (producer_id_never_obtained example_config (0, 0) O); [done|by right]. Defined.

(** ** Registering partitions *)

(** The transaction goes on, and of the partitions [X] none has been lost. *)
Definition covers (m0 : TransactionManager) (X : gset TopicPartition) (m : TransactionManager) : Prop :=
  m_status m = m_status m0 /\ m_last_error m = m_last_error m0 /\
  X ⊆ m_pending_partitions_in_current_txn m ∪ m_partitions_in_current_txn m.

Section Registering.
Context {E : Type} {client : Client E} (config : TxnConfig) (iterate : gset TopicPartition -> list TopicPartition).

Section Covers.
Variable m0 : TransactionManager.
Variable X : gset TopicPartition.

(** Giving up with a code other than 0 *)
Lemma keeps_drop_broker {A B} (f : M (TransactionManager * E) A) (k : A -> M (TransactionManager * E) (Result + B)) :
  (forall a s r s', k a s = Done r s' -> bad_early bad_result r) -> keeps (covers m0 X) (bad_early bad_result) (bind f k).
Proof. intros Hk s r s' _. unfold bind. destruct (f s) as [a s1|]; [|done]. intros Ek. left. by eapply Hk. Qed.
Lemma gives_up {A B} (f : M (TransactionManager * E) A) code s (r : Result + B) s' :
  code <> 0 -> bind f (fun _ => ret (inl (mkResult false code))) s = Done r s' -> bad_early bad_result r.
Proof. intros Hc. unfold bind. destruct (f s); [|done]. by intros [= <- _]. Qed.
Lemma keeps_publish_partition coordinator topic acc pe :
  keeps (covers m0 X) (bad_early bad_result) (publish_partition (E := E) coordinator topic acc pe).
Proof.
  unfold publish_partition. apply keeps_bind; [apply keeps_gets|]. intros id.
  destruct (Z.eqb_spec (per_err pe) ErrNoError) as [|Hne].
  { apply keeps_bind; [|intros; apply keeps_ret]. apply keeps_modify. intros m (Hs & Hl & Hx). split_and!; [done..|].
    cbn. intros tp Htp. specialize (Hx tp Htp). destruct (decide (tp = (topic, per_partition pe))); set_solver. }
  do 2 (match goal with |- keeps _ _ (if ?b then _ else _) => destruct b end; [solve [keeps]|]).
  destruct (_ || _); [apply keeps_drop_broker; intros ? ? ? ?; by apply gives_up|].
  destruct (_ || _); apply keeps_drop_broker.
  - intros _ s r s'. unfold bind at 1, tm_gets. by apply gives_up.
  - intros _ s r s'. by apply gives_up.
Qed.
End Covers.

Lemma keeps__publish m0 X : keeps (covers m0 X) bad_result (_publish_txn_partitions config iterate).
Proof.
  unfold _publish_txn_partitions. keeps.
  apply (keeps_bind_bad _ (bad_early bad_result)).
  - apply keeps_for_acc. intros. apply keeps_for_acc. intros. apply keeps_publish_partition.
  - intros [r|u] s c s' Hb; [|done]. intros [= <- _]. exact Hb.
  - intros [r|u]; keeps.
Qed.
Lemma keeps_publish m0 X : keeps (covers m0 X) bad_code (publish_txn_partitions config iterate).
Proof.
  unfold publish_txn_partitions. keeps.
  apply (keeps_bind_bad _ (bad_first bad_code)).
  - apply keeps_retry. intros []. apply (keeps_bind_bad _ bad_result); [apply keeps__publish| |intros; apply keeps_ret].
    intros r s b s' Hb [= <- _]. exact Hb.
  - intros [err u] s b s' Hb [= <- _]. exact Hb.
  - intros. apply keeps_ret.
Qed.

(** A network that registers what it is asked to *)
Definition granting : Prop :=
  (forall id e, exists e', TransactionCoordinator (E := E) id e = ((0, true), e')) /\
  (forall e, exists e', Broker_Ready (E := E) e = (0, e')) /\
  (forall q r e, exists e' v t, exchange_AddPartitionsToTxn (E := E) q r e =
     ((0, mkAddPartitionsToTxnResponse v t
        (map (fun tp => (fst tp, map (fun p => mkPartitionError p ErrNoError) (snd tp))) (map_to_list (apq_topic_partitions q)))), e')).

(** The partitions of a request *)
Definition listed (r : gmap (list Z) (list Z)) (tp : TopicPartition) : Prop :=
  exists ps, r !! fst tp = Some ps /\ snd tp ∈ ps.
Lemma request_partitions_listed pending tp :
  iterate pending ≡ₚ elements pending -> listed (request_partitions iterate pending) tp <-> tp ∈ pending.
Proof.
  intros Hi. rewrite <- (elem_of_elements pending tp), <- Hi. unfold request_partitions.
  assert (forall l r, listed (fold_left (fun r tp => <[fst tp := default [] (r !! fst tp) ++ [snd tp]]> r) l r) tp <->
    tp ∈ l \/ listed r tp) as Hl.
  { induction l as [|x l IH]; intros r; cbn [fold_left]; [split; [by right|by intros [?%elem_of_nil|]]|].
    rewrite IH. unfold listed. destruct (decide (fst tp = fst x)) as [E1|E1].
    - rewrite E1, lookup_insert_eq. split.
      + intros [Hin|(ps & [= <-] & Hp)]; [left; by right|]. apply elem_of_app in Hp as [Hp|Hp].
        * right. destruct (r !! fst x) as [ps|]; [by exists ps|by apply elem_of_nil in Hp].
        * apply list_elem_of_singleton in Hp. left. destruct tp, x. cbn in *. subst. by left.
      + intros [[->|Hin]%elem_of_cons|(ps & E2 & Hp)]; [right|by left|right].
        * eexists. split; [done|]. apply elem_of_app. right. by left.
        * eexists. split; [done|]. rewrite E2. apply elem_of_app. by left.
    - rewrite lookup_insert_ne by done. split; [intros [?|?]; [left; by right|by right]|].
      intros [[->|Hin]%elem_of_cons|?]; [done|by left|by right]. }
  rewrite Hl. split; [|by left]. intros [?|(ps & E1 & _)]; [done|]. by rewrite lookup_empty in E1.
Qed.

Definition registered (l : list TopicPartition) (m : TransactionManager) : TransactionManager :=
  with_partitions m (m_pending_partitions_in_current_txn m ∖ list_to_set l)
    (list_to_set l ∪ m_partitions_in_current_txn m).
Lemma registered_app l k m : registered k (registered l m) = registered (l ++ k) m.
Proof. unfold registered, with_partitions. cbn. rewrite list_to_set_app_L. f_equal; set_solver. Qed.
Lemma registered_nil m : registered [] m = m.
Proof. unfold registered. destruct m. cbn. unfold with_partitions. cbn. f_equal; set_solver. Qed.
Lemma publish_partition_ok coordinator topic p m (e : E) :
  publish_partition coordinator topic tt (mkPartitionError p ErrNoError) (m, e) = Done (inr tt) (registered [(topic, p)] m, e).
Proof.
  unfold publish_partition, bind, tm_gets, tm_modify, ret. cbn [per_err per_partition]. change (ErrNoError =? ErrNoError) with true.
  cbv iota. cbn [fst snd]. unfold registered. do 2 f_equal. cbn [list_to_set]. f_equal; [set_solver|set_solver].
Qed.
Lemma publish_topic_ok coordinator topic ps m (e : E) :
  for_acc (map (fun p => mkPartitionError p ErrNoError) ps) (publish_partition coordinator topic) tt (m, e) =
    Done (inr tt) (registered (map (pair topic) ps) m, e).
Proof.
  revert m. induction ps as [|p ps IH]; intros m; cbn [map for_acc]; [by rewrite registered_nil|].
  unfold bind. rewrite publish_partition_ok, IH, registered_app. done.
Qed.
Definition listing (tps : list (list Z * list Z)) : list TopicPartition := tps ≫= fun tp => map (pair (fst tp)) (snd tp).
Lemma publish_topics_ok coordinator tps m (e : E) :
  for_acc (map (fun tp => (fst tp, map (fun p => mkPartitionError p ErrNoError) (snd tp))) tps)
    (fun acc it => for_acc (snd it) (publish_partition coordinator (fst it)) acc) tt (m, e) =
    Done (inr tt) (registered (listing tps) m, e).
Proof.
  revert m. induction tps as [|[t ps] tps IH]; intros m; cbn [map for_acc]; [by rewrite registered_nil|].
  unfold bind. cbn [fst snd]. rewrite publish_topic_ok, IH, registered_app. done.
Qed.
Lemma listing_listed r tp : tp ∈ listing (map_to_list r) <-> listed r tp.
Proof.
  unfold listing, listed. rewrite list_elem_of_bind. split.
  - intros ([t ps] & Hin & Hm). apply elem_of_map_to_list in Hm. cbn in *.
    apply list_elem_of_fmap in Hin as (p & -> & Hp). by exists ps.
  - intros (ps & Er & Hp). exists (fst tp, ps). split; [|by apply elem_of_map_to_list].
    cbn. apply list_elem_of_fmap. exists (snd tp). split; [by destruct tp|done].
Qed.
Lemma publish_granted m (e : E) :
  granting -> iterate (m_pending_partitions_in_current_txn m) ≡ₚ elements (m_pending_partitions_in_current_txn m) ->
  0 <= cf_Retry_Max config -> has (m_status m) ProducerTxnFlagInError = false ->
  exists e', publish_txn_partitions config iterate (m, e) =
    Done 0 (with_partitions m ∅ (m_pending_partitions_in_current_txn m ∪ m_partitions_in_current_txn m), e').
Proof.
  intros (Hc & Hr & Hx) Hi Hn He. unfold publish_txn_partitions, bind at 1, tm_gets at 1, current_txn_status. cbn [fst].
  rewrite He. case_bool_decide as Hp.
  { exists e. unfold ret. do 2 f_equal. destruct m. unfold with_partitions. cbn in *. subst. f_equal. set_solver. }
  unfold attempts. destruct (Z.to_nat (cf_Retry_Max config + 1)) as [|n] eqn:En; [lia|]. cbn [Retry].
  set (r := request_partitions iterate (m_pending_partitions_in_current_txn m)).
  assert (registered (listing (map_to_list r)) m =
    with_partitions m ∅ (m_pending_partitions_in_current_txn m ∪ m_partitions_in_current_txn m)) as Er.
  { unfold registered. assert (list_to_set (listing (map_to_list r)) = m_pending_partitions_in_current_txn m) as ->.
    { apply set_eq. intros tp. rewrite elem_of_list_to_set, listing_listed. by apply request_partitions_listed. }
    f_equal. set_solver. }
  assert (exists e', _publish_txn_partitions config iterate (m, e) = Done (mkResult false 0)
    (with_partitions m ∅ (m_pending_partitions_in_current_txn m ∪ m_partitions_in_current_txn m), e')) as (e' & E1).
  { unfold _publish_txn_partitions, bind at 1, tm_gets at 1, current_txn_status. cbn [fst].
    rewrite He, bool_decide_false by done. unfold bind at 1, call at 1. cbn [fst snd].
    destruct (Hc (m_transactional_id m) e) as (e1 & ->). cbn [negb Z.eqb]. unfold bind at 1, tm_gets at 1. cbn [fst].
    unfold bind at 1, on, SendAndReceive, bind at 1, call at 1. cbn [fst snd].
    destruct (Hr e1) as (e2 & ->). cbn [negb Z.eqb]. unfold call. cbn [fst snd]. fold r.
    edestruct (Hx (mkAddPartitionsToTxnRequest (partitions_version config) (m_transactional_id m) (m_producer_id m)
      (m_producer_epoch m) r) (mkAddPartitionsToTxnResponse 0 0 []) e2) as (e3 & v & t & ->).
    cbn [negb Z.eqb aps_errors apq_topic_partitions]. unfold bind at 1. rewrite publish_topics_ok, Er.
    exists e3. unfold bind, tm_gets. cbn [fst m_pending_partitions_in_current_txn with_partitions].
    by rewrite bool_decide_true. }
  exists e'. unfold bind. rewrite E1. done.
Qed.
End Registering.

(** C11: When registering the pending partitions returns 0, whatever the network answered,
    the transaction is not in a new state and no pending or registered partition has been
    lost (those the coordinator put off are still pending); when the coordinator grants
    the request, it returns 0 with every pending partition registered. *)
Theorem partitions_registered {E} {client : Client E} config iterate m (e : E) :
  iterate (m_pending_partitions_in_current_txn m) ≡ₚ elements (m_pending_partitions_in_current_txn m) ->
  (forall m' e', publish_txn_partitions config iterate (m, e) = Done 0 (m', e') ->
     m_status m' = m_status m /\ m_last_error m' = m_last_error m /\
     m_pending_partitions_in_current_txn m ∪ m_partitions_in_current_txn m ⊆
       m_pending_partitions_in_current_txn m' ∪ m_partitions_in_current_txn m') /\
  (granting (E := E) -> 0 <= cf_Retry_Max config -> has (m_status m) ProducerTxnFlagInError = false ->
   exists e', publish_txn_partitions config iterate (m, e) =
     Done 0 (with_partitions m ∅ (m_pending_partitions_in_current_txn m ∪ m_partitions_in_current_txn m), e')).
Proof.
  intros Hi. split.
  - intros m' e' Ep. edestruct (keeps_publish config iterate m
      (m_pending_partitions_in_current_txn m ∪ m_partitions_in_current_txn m)) as [Hbad|Hc]; [|exact Ep|by destruct Hbad|exact Hc].
    done.
  - intros Hg Hn He. by apply publish_granted.
Qed.
Example partitions_registered_witness :
  exists m' e', publish_txn_partitions (client := obliging) example_config elements
      (maybe_add_partition_to_current_txn [117] 1 (example_manager InTransaction), O) = Done 0 (m', e') /\
    ([117], 1) ∈ m_partitions_in_current_txn m'.
Proof.
  destruct (partitions_registered (client := obliging) example_config elements
    (maybe_add_partition_to_current_txn [117] 1 (example_manager InTransaction)) O) as [_ Hg].
  - done.
  - destruct Hg as (e' & Ep).
    + split; [by eexists|]. split; [by eexists|]. intros. by eexists _, _, _.
    + cbn. lia.
    + done.
    + eexists _, e'. split; [exact Ep|]. by apply (bool_decide_unpack _).
Defined.

(** A request to add offsets that fails is taken for granted when the coordinator can be
    looked up again, since the response object still holds its initial code 0. *)
Lemma add_offset_failure_hidden {E} {client : Client E} config group m (e : E) e1 e2 e3 e4 err q :
  TransactionCoordinator (m_transactional_id m) e = ((0, true), e1) -> Broker_Ready e1 = (0, e2) ->
  q = mkAddOffsetsToTxnRequest (offsets_version config) (m_transactional_id m) (m_producer_id m) (m_producer_epoch m) group ->
  exchange_AddOffsetsToTxn q (mkAddOffsetsToTxnResponse 0 0 0) e2 = ((err, mkAddOffsetsToTxnResponse 0 0 0), e3) ->
  RefreshTransactionCoordinator (m_transactional_id m) (Broker_Close e3) = (0, e4) -> err <> 0 ->
  publish_offsets_to_txn_add_offset config group (m, e) = Done (mkResult false 0) (m, e4).
Proof.
  intros Hc Hr -> Hx Hf Hne. unfold publish_offsets_to_txn_add_offset.
  unfold bind, tm_gets, call, on, SendAndReceive, bind, call, call_. cbn [fst snd]. rewrite Hc. cbn [negb Z.eqb fst snd].
  rewrite Hr. cbn [negb Z.eqb fst snd]. rewrite Hx. cbn [fst snd].
  destruct (Z.eqb_spec err 0); [done|]. cbn [negb fst snd]. rewrite Hf. done.
Qed.
