(* ===== verification/ProduceSet.v ===== *)
(** * Produce sets

    [ProduceSet] of [coev_kafka/produce_set.cpp]: the messages a broker's producer has
    collected by topic and partition, how their size is counted, when the set is full or
    ready to be sent, and the request made of it. *)
From Stdlib Require Import ZArith Lia Bool.
From stdpp Require Import base tactics list numbers gmap fin_maps.
From S2P Require Import Prelude Errors Fields StdMap Version Records Batches.

(** ** Data *)

(** Times are in nanoseconds since the epoch; a [time_point] that was not set is the epoch. *)
(* coev_kafka/producer_message.h:34-56 ProducerMessage *)
Record producer_message := mkProducerMessage {
  m_topic : list Z;
  m_key : list Z;
  m_value : list Z;
  m_headers : list RecordHeader;
  m_partition : Z;
  m_timestamp : time_point;
  m_sequence_number : Z;
  m_producer_epoch : Z }.
(** A message of the old format, as the set fills it, and its place in a message set *)
(* coev_kafka/message.h:30-50 Message *)
Record Message := mkMessage {
  ms_codec : CompressionCodec; ms_key : list Z; ms_value : list Z; ms_version : Z; ms_timestamp : time_point }.
(* coev_kafka/message_set.h:19-28 MessageBlock *)
Record MessageBlock := mkMessageBlock { mb_offset : Z; mb_message : Message }.
(** Either a message set or a record batch *)
(* coev_kafka/records.h:23-44 Records *)
Inductive records :=
| LegacyRecords (message_set : list MessageBlock)
| DefaultRecords (record_batch : RecordBatch).
(* coev_kafka/produce_set.h:28-33 PartitionSet *)
Record PartitionSet := mkPartitionSet {
  pt_messages : list producer_message; pt_records : records; pt_buffer_bytes : Z }.
(* coev_kafka/produce_set.h:35-43 ProduceSet *)
Record ProduceSet := mkProduceSet {
  st_messages : gmap (list Z) (list (Z * PartitionSet));
  st_producer_id : Z;
  st_producer_epoch : Z;
  st_buffer_bytes : Z;
  st_buffer_count : Z }.
(** What the set reads of the configuration and of its producer *)
(* coev_kafka/config.h:164-178 producer_config *)
Record SetConfig := mkSetConfig {
  sc_Version : KafkaVersion;
  sc_Idempotent : bool;
  sc_Compression : CompressionCodec;
  sc_MaxMessageBytes : Z;
  sc_Flush_Bytes : Z;
  sc_Flush_Messages : Z;
  sc_Flush_Frequency : Z;
  sc_Flush_MaxMessages : Z;
  sc_is_transactional : bool }.

Definition ProducerMessageOverhead : Z := 26.
Definition MaximumRecordOverhead : Z := 77.
Definition MaxSetBytes : Z := 100 * 1024 * 1024 - 10 * 1024.

(* coev_kafka/produce_set.cpp ProduceSet::ProduceSet *)
Definition ProduceSet_new (producer_id producer_epoch : Z) : ProduceSet :=
  mkProduceSet ∅ producer_id producer_epoch 0 0.

(** ** Sizes *)

Definition headers_size (hs : list RecordHeader) : Z :=
  fold_left (fun size h => size + Zlen (rh_key h) + Zlen (rh_value h) + 2 * 5) hs 0.
(* coev_kafka/producer_message.cpp ProducerMessage::byte_size *)
Definition byte_size (version : Z) (m : producer_message) : Z :=
  (if 2 <=? version then MaximumRecordOverhead + headers_size (m_headers m) else ProducerMessageOverhead) +
  Zlen (m_key m) + Zlen (m_value m).

Section WithConfig.
Variable config : SetConfig.
Definition is_v11 : bool := IsAtLeast (sc_Version config) V0_11_0_0.

(** ** Adding a message *)

Definition first_records (s : ProduceSet) (msg : producer_message) (timestamp : time_point) : records :=
  if is_v11
  then DefaultRecords (mkRecordBatch 2 (sc_Compression config) 0 0 0 timestamp epoch (st_producer_id s) (st_producer_epoch s)
         (if sc_Idempotent config then m_sequence_number msg else -1) false false false [] [])
  else LegacyRecords [].
Definition message_record (msg : producer_message) (timestamp_delta : Z) : record :=
  mkRecord (m_headers msg) 0 timestamp_delta 0 (m_key msg) (m_value msg) VariantLengthField_default.
Definition message_block (msg : producer_message) (timestamp : time_point) : MessageBlock :=
  let v10 := IsAtLeast (sc_Version config) V0_10_0_0 in
  mkMessageBlock 0 (mkMessage None_ (m_key msg) (m_value msg) (if v10 then 1 else 0) (if v10 then timestamp else epoch)).
(** The timestamp in whole milliseconds *)
Definition milliseconds (t : time_point) : time_point := Z.quot t 1000000 * 1000000.
(** The partition's records with the message, and what it adds to the size *)
(* coev_kafka/produce_set.cpp:191-228 ProduceSet::add *)
Definition append_message (msg : producer_message) (timestamp : time_point) (size : Z) (r : records) : records * Z :=
  match r with
  | DefaultRecords batch =>
      if is_v11 then
        let delta := Z.quot (timestamp - rb_first_timestamp batch) 1000000 in
        (DefaultRecords (with_records (rb_records batch ++ [message_record msg delta]) batch),
         size + MaximumRecordOverhead + (Zlen (m_key msg) + Zlen (m_value msg)) + headers_size (m_headers msg))
      else (r, size)
  | LegacyRecords l =>
      if is_v11 then (r, size)
      else (LegacyRecords (l ++ [message_block msg timestamp]), ProducerMessageOverhead + Zlen (m_key msg) + Zlen (m_value msg))
  end.
(** [now] is the clock.  The sizes are added as [int]s. *)
(* coev_kafka/produce_set.cpp ProduceSet::add *)
Definition add (now : time_point) (msg : producer_message) : M ProduceSet Z := fun s =>
  let timestamp := milliseconds (if m_timestamp msg =? epoch then now else m_timestamp msg) in
  let partitions := default [] (st_messages s !! m_topic msg) in
  let found := map_find (m_partition msg) partitions in
  let pset := match found with
              | Some pset => pset
              | None => mkPartitionSet [] (first_records s msg timestamp) 0
              end in
  let size := match found with Some _ => 0 | None => if is_v11 then RECORD_BATCH_OVERHEAD else 0 end in
  let store pset := mkProduceSet (<[m_topic msg := map_assign (m_partition msg) pset partitions]> (st_messages s))
                      (st_producer_id s) (st_producer_epoch s) in
  let late := match pt_records pset with
              | DefaultRecords batch => is_v11 && sc_Idempotent config && (m_sequence_number msg <? rb_first_sequence batch)
              | LegacyRecords _ => false
              end in
  if late then Done (-1) (store pset (st_buffer_bytes s) (st_buffer_count s))
  else
    let '(r, size) := append_message msg timestamp size (pt_records pset) in
    bind (i32_arith (pt_buffer_bytes pset + size)) (fun bytes =>
    bind (i32_arith (st_buffer_bytes s + size)) (fun total =>
    bind (i32_arith (st_buffer_count s + 1)) (fun count _ =>
      Done 0 (store (mkPartitionSet (pt_messages pset ++ [msg]) r bytes) total count)))) s.

(* coev_kafka/produce_set.cpp ProduceSet::drop_partition *)
Definition drop_partition (topic : list Z) (partition : Z) : M ProduceSet (list producer_message) := fun s =>
  match st_messages s !! topic with
  | None => Done [] s
  | Some partitions =>
      match map_find partition partitions with
      | None => Done [] s
      | Some pset =>
          Done (pt_messages pset)
            (mkProduceSet (<[topic := map_erase partition partitions]> (st_messages s))
               (st_producer_id s) (st_producer_epoch s)
               (st_buffer_bytes s - pt_buffer_bytes pset) (st_buffer_count s - Zlen (pt_messages pset)))
      end
  end.

(** ** When to send *)

(* coev_kafka/produce_set.cpp ProduceSet::empty *)
Definition set_empty (s : ProduceSet) : bool := st_buffer_count s =? 0.
(* coev_kafka/produce_set.cpp ProduceSet::would_overflow *)
Definition would_overflow (msg : producer_message) (s : ProduceSet) : bool :=
  let version := if is_v11 then 2 else 1 in
  if MaxSetBytes <=? st_buffer_bytes s + byte_size version msg then true
  else if match st_messages s !! m_topic msg with
          | None => false
          | Some partitions =>
              match map_find (m_partition msg) partitions with
              | None => false
              | Some pset => sc_MaxMessageBytes config <=? pt_buffer_bytes pset + byte_size version msg
              end
          end then true
  else (0 <? sc_Flush_MaxMessages config) && (sc_Flush_MaxMessages config <=? st_buffer_count s).
(* coev_kafka/produce_set.cpp ProduceSet::ready_to_flush *)
Definition ready_to_flush (s : ProduceSet) : bool :=
  if set_empty s then false
  else if (sc_Flush_Frequency config =? 0) && (sc_Flush_Bytes config =? 0) && (sc_Flush_Messages config =? 0) then true
  else if (0 <? sc_Flush_Messages config) && (sc_Flush_Messages config <=? st_buffer_count s) then true
  else (0 <? sc_Flush_Bytes config) && (sc_Flush_Bytes config <=? st_buffer_bytes s).

(** ** The request *)

(* coev_kafka/produce_request.h:21-38 ProduceRequest *)
Record ProduceRequest := mkProduceRequest {
  prq_version : Z; prq_records : list (list Z * list (Z * records)) }.
Definition request_version : Z :=
  let v := sc_Version config in
  if IsAtLeast v V2_1_0_0 then 7 else if IsAtLeast v V2_0_0_0 then 6 else if IsAtLeast v V1_0_0_0 then 5
  else if is_v11 then 3 else if IsAtLeast v V0_10_0_0 then 2 else 0.
(** [record_batch->m_records[i].m_offset_delta = i] *)
Fixpoint number_records (i : Z) (l : list record) : list record :=
  match l with
  | [] => []
  | r :: l => mkRecord (r_headers r) (r_attributes r) (r_timestamp_delta r) i (r_key r) (r_value r) (r_length r) :: number_records (i + 1) l
  end.
Definition max_delta (l : list record) : Z := fold_left (fun m r => Z.max m (r_timestamp_delta r)) l 0.
(* coev_kafka/produce_set.cpp:266-279 ProduceSet::build_request *)
Definition finish_batch (b : RecordBatch) : RecordBatch :=
  let '(last, max, rs) :=
    match rb_records b with
    | [] => (rb_last_offset_delta b, rb_max_timestamp b, [])
    | l => (Zlen l - 1, rb_first_timestamp b + max_delta l * 1000000, number_records 0 l)
    end in
  mkRecordBatch (rb_version b) (rb_codec b) (rb_first_offset b) (rb_partition_leader_epoch b) last (rb_first_timestamp b)
    max (rb_producer_id b) (rb_producer_epoch b) (rb_first_sequence b) (rb_control b) (rb_log_append_time b)
    (sc_is_transactional config) (rb_compressed_records b) rs.
(** What becomes of one partition: its records in the request, which are the set's own
    objects; [None] when nothing is put into the request.  A compressed message set is
    wrapped in a message of its own, put into the request by [emplace_message], which
    asserts that the request's new [Records] already have the legacy type. *)
(* coev_kafka/produce_set.cpp:263-326 ProduceSet::build_request *)
Definition build_partition (r : records) : M unit (option records) :=
  match r with
  | DefaultRecords b => ret (if 3 <=? request_version then Some (DefaultRecords (finish_batch b)) else None)
  | LegacyRecords l => if sc_Compression config =? None_ then ret (Some (LegacyRecords l)) else fail FAssert
  end.
Fixpoint build_partitions (topic : list Z) (l : list (Z * PartitionSet)) (req : list (list Z * list (Z * records)))
    : M unit (list (Z * PartitionSet) * list (list Z * list (Z * records))) :=
  match l with
  | [] => ret ([], req)
  | (partition, pset) :: l =>
      let* r := build_partition (pt_records pset) in
      let req := match r with Some r => map_update [] (map_assign partition r) topic req | None => req end in
      let pset := mkPartitionSet (pt_messages pset) (match r with Some r => r | None => pt_records pset end) (pt_buffer_bytes pset) in
      let* rest := build_partitions topic l req in
      ret ((partition, pset) :: fst rest, snd rest)
  end.
Fixpoint build_topics (topics : list (list Z * list (Z * PartitionSet))) (messages : gmap (list Z) (list (Z * PartitionSet)))
    (req : list (list Z * list (Z * records)))
    : M unit (gmap (list Z) (list (Z * PartitionSet)) * list (list Z * list (Z * records))) :=
  match topics with
  | [] => ret (messages, req)
  | (topic, partitions) :: topics =>
      let* r := build_partitions topic partitions req in
      build_topics topics (<[topic := fst r]> messages) (snd r)
  end.
(** [iterate] is the order of the unordered map. *)
(* coev_kafka/produce_set.cpp ProduceSet::build_request *)
Definition build_request (iterate : gmap (list Z) (list (Z * PartitionSet)) -> list (list Z * list (Z * PartitionSet)))
    : M ProduceSet ProduceRequest := fun s =>
  match build_topics (iterate (st_messages s)) (st_messages s) [] tt with
  | Done (messages, req) _ =>
      Done (mkProduceRequest request_version req)
        (mkProduceSet messages (st_producer_id s) (st_producer_epoch s) (st_buffer_bytes s) (st_buffer_count s))
  | Fault f => Fault f
  end.
End WithConfig.
