(* ===== verification/ProduceSetSafety.v ===== *)
(** * Produce sets: accounting and requests

    The set holds for every partition the messages added to it in order, its counters are
    the sums over the partitions, and the request carries every message once, numbered. *)
From Stdlib Require Import ZArith Lia Bool.
From stdpp Require Import base tactics list numbers gmap fin_maps.
From S2P Require Import Prelude Errors Fields StdMap Version Records Batches ProduceSet.

(** ** Sums over maps *)

Fixpoint total {K V} (f : V -> Z) (l : list (K * V)) : Z :=
  match l with [] => 0 | (_, v) :: l => f v + total f l end.
Definition old {V} (f : V -> Z) (o : option V) : Z := match o with Some v => f v | None => 0 end.

Lemma total_assign {K V} `{KeyOrder K} (f : V -> Z) k v (l : list (K * V)) :
  map_sorted l -> total f (map_assign k v l) = total f l + f v - old f (map_find k l).
Proof.
  induction l as [|[k0 v0] l IH]; intros Hs; cbn; [lia|]. destruct Hs as [Hf Hs].
  destruct (key_compare k k0) eqn:E; cbn.
  - lia.
  - rewrite map_find_lower; [cbn; lia|]. eapply Forall_impl; [exact Hf|]. intros p Hp. by eapply key_lt_trans.
  - rewrite IH by done. lia.
Qed.
Lemma total_erase {K V} `{KeyOrder K} (f : V -> Z) k (l : list (K * V)) :
  map_sorted l -> total f (map_erase k l) = total f l - old f (map_find k l).
Proof.
  induction l as [|[k0 v0] l IH]; intros Hs; cbn; [lia|]. destruct Hs as [Hf Hs].
  destruct (key_compare k k0) eqn:E; cbn; [lia|rewrite IH by done; lia..].
Qed.
Lemma total_perm {K V} (f : V -> Z) (l k : list (K * V)) : l ≡ₚ k -> total f l = total f k.
Proof. induction 1 as [|[]|[] []|]; cbn; lia. Qed.
Definition gtotal {V} (f : V -> Z) (m : gmap (list Z) V) : Z := total f (map_to_list m).
Lemma gtotal_insert {V} (f : V -> Z) (k : list Z) (v : V) (m : gmap (list Z) V) :
  gtotal f (<[k := v]> m) = gtotal f m + f v - old f (m !! k).
Proof.
  unfold gtotal. destruct (m !! k) as [o|] eqn:E; cbn [old].
  - rewrite <- (insert_delete_eq m k v), (total_perm _ _ _ (map_to_list_insert _ _ _ (lookup_delete_eq m k))).
    rewrite <- (total_perm _ _ _ (map_to_list_delete m k o E)). cbn. lia.
  - rewrite (total_perm _ _ _ (map_to_list_insert m k v E)). cbn. lia.
Qed.
Lemma total_nonneg {K V} (f : V -> Z) (l : list (K * V)) : (forall v, 0 <= f v) -> 0 <= total f l.
Proof. intros Hf. induction l as [|[k v] l IH]; cbn; [lia|]. specialize (Hf v). lia. Qed.

(** ** The invariant *)

Fixpoint sum_sizes (version : Z) (l : list producer_message) : Z :=
  match l with [] => 0 | m :: l => byte_size version m + sum_sizes version l end.
Lemma sum_sizes_snoc v l m : sum_sizes v (l ++ [m]) = sum_sizes v l + byte_size v m.
Proof. induction l as [|x l IH]; cbn; lia. Qed.

Section Invariant.
Variable config : SetConfig.

Definition carries (msg : producer_message) (r : record) : Prop :=
  r_key r = m_key msg /\ r_value r = m_value msg /\ r_headers r = m_headers msg.
Definition block_carries (msg : producer_message) (b : MessageBlock) : Prop :=
  ms_key (mb_message b) = m_key msg /\ ms_value (mb_message b) = m_value msg.
(** The records of a partition are those of its messages, and its size is theirs; the first
    sequence number is that of the first message, and none is smaller. *)
Record part_ok (topic : list Z) (partition : Z) (p : PartitionSet) : Prop := {
  part_some : pt_messages p <> [];
  part_there : Forall (fun m => m_topic m = topic /\ m_partition m = partition) (pt_messages p);
  part_records :
    match pt_records p with
    | DefaultRecords b =>
        is_v11 config = true /\ Forall2 carries (pt_messages p) (rb_records b) /\
        pt_buffer_bytes p = RECORD_BATCH_OVERHEAD + sum_sizes 2 (pt_messages p) /\
        (sc_Idempotent config = true ->
           head (map m_sequence_number (pt_messages p)) = Some (rb_first_sequence b) /\
           Forall (fun m => rb_first_sequence b <= m_sequence_number m) (pt_messages p))
    | LegacyRecords l =>
        is_v11 config = false /\ Forall2 block_carries (pt_messages p) l /\
        pt_buffer_bytes p = sum_sizes 1 (pt_messages p)
    end
}.
Definition part_count (p : PartitionSet) : Z := Zlen (pt_messages p).
Record set_ok (s : ProduceSet) : Prop := {
  set_bytes : st_buffer_bytes s = gtotal (total pt_buffer_bytes) (st_messages s);
  set_count : st_buffer_count s = gtotal (total part_count) (st_messages s);
  set_parts : forall topic l, st_messages s !! topic = Some l ->
    map_sorted l /\ forall partition p, map_find partition l = Some p -> part_ok topic partition p
}.
(** The abstract state: the messages of every partition *)
Definition part_of (s : ProduceSet) (topic : list Z) (partition : Z) : option PartitionSet :=
  l ← st_messages s !! topic; map_find partition l.
Definition messages_of (s : ProduceSet) (topic : list Z) (partition : Z) : list producer_message :=
  match part_of s topic partition with Some p => pt_messages p | None => [] end.

Lemma empty_set_ok id e : set_ok (ProduceSet_new id e).
Proof. by split. Qed.
Lemma set_part s topic partition p : set_ok s -> part_of s topic partition = Some p -> part_ok topic partition p.
Proof.
  intros Hok. unfold part_of. destruct (st_messages s !! topic) as [l|] eqn:E; [|done]. cbn.
  apply (set_parts _ Hok _ _ E).
Qed.
Lemma sorted_partitions s topic : set_ok s -> map_sorted (default [] (st_messages s !! topic)).
Proof.
  intros Hok. destruct (st_messages s !! topic) as [l|] eqn:E; [|done]. apply (set_parts _ Hok _ _ E).
Qed.
Lemma part_default s topic partition : map_find partition (default [] (st_messages s !! topic)) = part_of s topic partition.
Proof. unfold part_of. by destruct (st_messages s !! topic). Qed.

(** Storing a partition *)
Definition stored (s s' : ProduceSet) (topic : list Z) (partition : Z) (p : PartitionSet) : Prop :=
  st_messages s' = <[topic := map_assign partition p (default [] (st_messages s !! topic))]> (st_messages s).
Lemma stored_part s s' topic partition p topic' partition' :
  stored s s' topic partition p ->
  part_of s' topic' partition' =
    if bool_decide (topic' = topic /\ partition' = partition) then Some p else part_of s topic' partition'.
Proof.
  intros E. unfold part_of. rewrite E. destruct (decide (topic' = topic)) as [->|Ht].
  - rewrite lookup_insert_eq. cbn. destruct (decide (partition' = partition)) as [->|Hp].
    + by rewrite map_find_assign_eq, bool_decide_true.
    + rewrite map_find_assign_ne, bool_decide_false by naive_solver. by rewrite part_default.
  - rewrite lookup_insert_ne, bool_decide_false by naive_solver. done.
Qed.
Lemma stored_total s s' topic partition p (f : PartitionSet -> Z) :
  set_ok s -> stored s s' topic partition p ->
  gtotal (total f) (st_messages s') = gtotal (total f) (st_messages s) + f p - old f (part_of s topic partition).
Proof.
  intros Hok ->. rewrite gtotal_insert, total_assign by by apply sorted_partitions. rewrite part_default.
  destruct (st_messages s !! topic); cbn; lia.
Qed.
Lemma stored_ok s s' topic partition p :
  set_ok s -> stored s s' topic partition p -> part_ok topic partition p ->
  st_buffer_bytes s' = st_buffer_bytes s + pt_buffer_bytes p - old pt_buffer_bytes (part_of s topic partition) ->
  st_buffer_count s' = st_buffer_count s + part_count p - old part_count (part_of s topic partition) ->
  set_ok s'.
Proof.
  intros Hok Hst Hp Hb Hc. split.
  - rewrite (stored_total s s' topic partition p) by done. rewrite Hb, (set_bytes _ Hok). done.
  - rewrite (stored_total s s' topic partition p) by done. rewrite Hc, (set_count _ Hok). done.
  - intros topic' l' El'. assert (forall q r, map_find q l' = Some r -> part_of s' topic' q = Some r) as Hpart.
    { intros q r Er. unfold part_of. by rewrite El'. }
    split.
    + rewrite Hst in El'. destruct (decide (topic' = topic)) as [->|Ht].
      * rewrite lookup_insert_eq in El'. injection El' as <-. by apply map_assign_sorted, sorted_partitions.
      * rewrite lookup_insert_ne in El' by done. by eapply set_parts.
    + intros q r Er%Hpart. rewrite (stored_part _ _ _ _ _ _ _ Hst) in Er. case_bool_decide as Hd.
      * destruct Hd as [-> ->]. by injection Er as <-.
      * by eapply set_part.
Qed.

(** ** Adding and dropping *)

Definition is_late (msg : producer_message) (r : records) : bool :=
  match r with
  | DefaultRecords batch => is_v11 config && sc_Idempotent config && (m_sequence_number msg <? rb_first_sequence batch)
  | LegacyRecords _ => false
  end.
Lemma byte_size_2 m : byte_size 2 m = MaximumRecordOverhead + (Zlen (m_key m) + Zlen (m_value m)) + headers_size (m_headers m).
Proof. unfold byte_size. change (2 <=? 2) with true. cbv iota. lia. Qed.
Lemma byte_size_1 m : byte_size 1 m = ProducerMessageOverhead + Zlen (m_key m) + Zlen (m_value m).
Proof. done. Qed.
Lemma appended msg timestamp p r size :
  part_ok (m_topic msg) (m_partition msg) p -> is_late msg (pt_records p) = false ->
  append_message config msg timestamp 0 (pt_records p) = (r, size) ->
  part_ok (m_topic msg) (m_partition msg) (mkPartitionSet (pt_messages p ++ [msg]) r (pt_buffer_bytes p + size)).
Proof.
  intros [Hs Ht Hr] Hl E. split; cbn [pt_messages pt_records pt_buffer_bytes].
  - by intros []%app_nil.
  - apply Forall_app. split; [done|by repeat constructor].
  - destruct (pt_records p) as [l|b]; cbn [append_message is_late] in *.
    + destruct Hr as (Ev & Hc & Hb). rewrite Ev in E. injection E as <- <-. split; [done|]. split.
      * apply Forall2_app; [done|by repeat constructor].
      * rewrite Hb, sum_sizes_snoc, byte_size_1. lia.
    + destruct Hr as (Ev & Hc & Hb & Hi). rewrite Ev in E, Hl. injection E as <- <-. split; [done|]. split; [|split].
      * cbn. apply Forall2_app; [done|by repeat constructor].
      * rewrite Hb, sum_sizes_snoc, byte_size_2. lia.
      * intros Hid. rewrite Hid in Hl. cbn in Hl |- *. destruct (Hi Hid) as [Hh Hall]. split.
        { destruct (pt_messages p); [done|exact Hh]. }
        apply Forall_app. split; [done|]. repeat constructor. by apply Z.ltb_ge.
Qed.
Lemma appended_first s msg timestamp r size :
  append_message config msg timestamp (if is_v11 config then RECORD_BATCH_OVERHEAD else 0) (first_records config s msg timestamp) = (r, size) ->
  part_ok (m_topic msg) (m_partition msg) (mkPartitionSet [msg] r (0 + size)).
Proof.
  unfold first_records. intros E. split; cbn [pt_messages pt_records pt_buffer_bytes].
  - done.
  - by repeat constructor.
  - destruct (is_v11 config) eqn:Ev; cbn [append_message] in E; rewrite Ev in E; injection E as <- <-.
    + split; [done|]. split; [by repeat constructor|]. split; [cbn [sum_sizes]; rewrite byte_size_2; lia|].
      cbn. intros ->. split; [done|]. repeat constructor. lia.
    + split; [done|]. split; [by repeat constructor|]. cbn [sum_sizes]. rewrite byte_size_1. lia.
Qed.

(** A sequence number smaller than that of the first message which the queue [l] holds *)
Definition stale (l : list producer_message) (msg : producer_message) : Prop :=
  is_v11 config = true /\ sc_Idempotent config = true /\
  exists first, head l = Some first /\ m_sequence_number msg < m_sequence_number first.
Lemma is_late_stale topic partition p msg :
  part_ok topic partition p -> is_late msg (pt_records p) = true <-> stale (pt_messages p) msg.
Proof.
  intros [_ _ Hr]. unfold is_late, stale. destruct (pt_records p) as [l|b].
  - destruct Hr as [-> _]. by split; [|intros [? _]].
  - destruct Hr as (-> & _ & _ & Hi). destruct (sc_Idempotent config); [|by split; [|intros (_ & ? & _)]].
    destruct (Hi eq_refl) as [Hh _]. cbn. rewrite Z.ltb_lt.
    destruct (pt_messages p) as [|m l]; [done|]. injection Hh as <-. split; [by eauto|]. by intros (_ & _ & ? & [= <-] & ?).
Qed.
Lemma first_not_late s msg timestamp : is_late msg (first_records config s msg timestamp) = false.
Proof.
  unfold is_late, first_records. destruct (is_v11 config); [|done]. cbn. destruct (sc_Idempotent config); [|done].
  apply Z.ltb_irrefl.
Qed.
(** Only the messages of one partition change, to [l]. *)
Definition only_there (s s' : ProduceSet) (topic : list Z) (partition : Z) (l : list producer_message) : Prop :=
  forall topic' partition', messages_of s' topic' partition' =
    if bool_decide (topic' = topic /\ partition' = partition) then l else messages_of s topic' partition'.
Lemma stored_messages s s' topic partition p :
  stored s s' topic partition p -> only_there s s' topic partition (pt_messages p).
Proof. intros Hst t q. unfold messages_of. rewrite (stored_part _ _ _ _ _ _ _ Hst). by case_bool_decide. Qed.

Lemma add_spec now msg s r s' :
  set_ok s -> add config now msg s = Done r s' ->
  set_ok s' /\
  (r = 0 /\ ~ stale (messages_of s (m_topic msg) (m_partition msg)) msg /\
   only_there s s' (m_topic msg) (m_partition msg) (messages_of s (m_topic msg) (m_partition msg) ++ [msg]) \/
   r = -1 /\ stale (messages_of s (m_topic msg) (m_partition msg)) msg /\
   only_there s s' (m_topic msg) (m_partition msg) (messages_of s (m_topic msg) (m_partition msg))).
Proof.
  intros Hok. unfold add. set (timestamp := milliseconds _). rewrite part_default.
  set (pset := match part_of s (m_topic msg) (m_partition msg) with Some p => p | None => _ end).
  set (size := match part_of s (m_topic msg) (m_partition msg) with Some _ => 0 | None => _ end).
  fold (is_late msg (pt_records pset)).
  assert (messages_of s (m_topic msg) (m_partition msg) = pt_messages pset) as Em.
  { unfold messages_of, pset. by destruct (part_of _ _ _). }
  assert (old pt_buffer_bytes (part_of s (m_topic msg) (m_partition msg)) = pt_buffer_bytes pset) as Eb.
  { unfold pset. by destruct (part_of _ _ _). }
  assert (old part_count (part_of s (m_topic msg) (m_partition msg)) = part_count pset) as Ec.
  { unfold pset. by destruct (part_of _ _ _). }
  assert (is_late msg (pt_records pset) = true <-> stale (pt_messages pset) msg) as Hlate.
  { unfold pset. destruct (part_of s (m_topic msg) (m_partition msg)) as [p|] eqn:Ep.
    - by eapply is_late_stale, set_part.
    - cbn. rewrite first_not_late. by split; [|intros (_ & _ & ? & ? & _)]. }
  destruct (is_late msg (pt_records pset)) eqn:El.
  - intros [= <- <-].
    assert (stored s (mkProduceSet (<[m_topic msg := map_assign (m_partition msg) pset (default [] (st_messages s !! m_topic msg))]> (st_messages s))
      (st_producer_id s) (st_producer_epoch s) (st_buffer_bytes s) (st_buffer_count s)) (m_topic msg) (m_partition msg) pset) as Hst by done.
    split.
    + eapply stored_ok; [done..| | |]; [|cbn [st_buffer_bytes st_buffer_count]; lia..].
      unfold pset in El |- *. clear pset Hst Em Eb Ec Hlate.
      destruct (part_of s (m_topic msg) (m_partition msg)) as [p|] eqn:Ep; [by apply (set_part s)|].
      cbn [pt_records] in El. by rewrite first_not_late in El.
    + right. split; [done|]. rewrite Em. split; [by apply Hlate|]. by eapply stored_messages.
  - destruct (append_message config msg timestamp size (pt_records pset)) as [r' size'] eqn:Ea.
    unfold bind, i32_arith, ret, fail.
    do 3 (case_bool_decide; [|done]). intros [= <- <-].
    set (p' := mkPartitionSet (pt_messages pset ++ [msg]) r' (pt_buffer_bytes pset + size')).
    assert (forall b c, stored s (mkProduceSet (<[m_topic msg := map_assign (m_partition msg) p' (default [] (st_messages s !! m_topic msg))]> (st_messages s))
      (st_producer_id s) (st_producer_epoch s) b c) (m_topic msg) (m_partition msg) p') as Hst by done.
    split.
    + eapply stored_ok; [done|apply Hst| | |].
      * unfold p', pset, size in *. clear Hlate. destruct (part_of s (m_topic msg) (m_partition msg)) as [p|] eqn:Ep.
        -- eapply appended; [by apply (set_part s)|done|exact Ea].
        -- eapply appended_first. exact Ea.
      * cbn [st_buffer_bytes p' pt_buffer_bytes]. lia.
      * cbn [st_buffer_count]. rewrite Ec. unfold part_count, p'. cbn [pt_messages]. rewrite Zlen_app. change (Zlen [msg]) with 1. lia.
    + left. split; [done|]. rewrite Em. split; [by rewrite <- Hlate|]. by eapply (stored_messages _ _ _ _ p').
Qed.

Lemma drop_spec topic partition s l s' :
  set_ok s -> drop_partition topic partition s = Done l s' ->
  set_ok s' /\ l = messages_of s topic partition /\ only_there s s' topic partition [].
Proof.
  intros Hok. unfold drop_partition.
  assert (part_of s topic partition = None -> only_there s s topic partition []) as Hnone.
  { intros E t q. unfold messages_of. case_bool_decide as Hd; [|done]. destruct Hd as [-> ->]. by rewrite E. }
  destruct (st_messages s !! topic) as [ps|] eqn:Et.
  2: { intros [= <- <-]. assert (part_of s topic partition = None) as E by (unfold part_of; by rewrite Et).
    split_and!; [done|unfold messages_of; by rewrite E|by apply Hnone]. }
  destruct (map_find partition ps) as [p|] eqn:Ep.
  2: { intros [= <- <-]. assert (part_of s topic partition = None) as E by (unfold part_of; by rewrite Et).
    split_and!; [done|unfold messages_of; by rewrite E|by apply Hnone]. }
  intros [= <- <-]. assert (part_of s topic partition = Some p) as E by (unfold part_of; by rewrite Et).
  destruct (set_parts _ Hok _ _ Et) as [Hs Hps].
  set (s' := mkProduceSet _ _ _ _ _).
  assert (forall t q, part_of s' t q = if bool_decide (t = topic /\ q = partition) then None else part_of s t q) as Hpart.
  { intros t q. unfold part_of, s'. cbn [st_messages]. destruct (decide (t = topic)) as [->|Hne].
    - rewrite lookup_insert_eq, Et. cbn. destruct (decide (q = partition)) as [->|Hq].
      + by rewrite map_find_erase_eq, bool_decide_true.
      + by rewrite map_find_erase_ne, bool_decide_false by naive_solver.
    - by rewrite lookup_insert_ne, bool_decide_false by naive_solver. }
  split; [|split].
  - split.
    + unfold s'. cbn. rewrite gtotal_insert, total_erase, Et, Ep, (set_bytes _ Hok) by done. cbn [old]. lia.
    + unfold s'. cbn. rewrite gtotal_insert, total_erase, Et, Ep, (set_count _ Hok) by done. cbn [old].
      change (Zlen (pt_messages p)) with (part_count p). lia.
    + intros t l El. assert (forall q r, map_find q l = Some r -> part_of s' t q = Some r) as Hl.
      { intros q r Er. unfold part_of. by rewrite El. }
      split.
      * unfold s' in El. cbn in El. destruct (decide (t = topic)) as [->|Hne].
        -- rewrite lookup_insert_eq in El. injection El as <-. by apply map_erase_sorted.
        -- rewrite lookup_insert_ne in El by done. by eapply set_parts.
      * intros q r Er%Hl. rewrite Hpart in Er. case_bool_decide; [done|]. by eapply set_part.
  - unfold messages_of. by rewrite E.
  - intros t q. unfold messages_of. rewrite Hpart. by case_bool_decide.
Qed.

(** ** Building the request *)

Definition built (r : records) : records :=
  match r with DefaultRecords b => DefaultRecords (finish_batch config b) | LegacyRecords l => LegacyRecords l end.
Definition built_part (p : PartitionSet) : PartitionSet :=
  mkPartitionSet (pt_messages p) (built (pt_records p)) (pt_buffer_bytes p).
(** The records of a partition in a request *)
Definition sent (req : list (list Z * list (Z * records))) (topic : list Z) (partition : Z) : option records :=
  l ← map_find topic req; map_find partition l.
Definition put (req : list (list Z * list (Z * records))) (topic : list Z) (partition : Z) (r : records) :=
  map_update [] (map_assign partition r) topic req.
Lemma sent_put req topic partition r topic' partition' :
  sent (put req topic partition r) topic' partition' =
    if bool_decide (topic' = topic /\ partition' = partition) then Some r else sent req topic' partition'.
Proof.
  unfold sent, put. destruct (decide (topic' = topic)) as [->|Ht].
  - rewrite map_find_update_eq. cbn. destruct (decide (partition' = partition)) as [->|Hp].
    + by rewrite map_find_assign_eq, bool_decide_true.
    + rewrite map_find_assign_ne, bool_decide_false by naive_solver. by destruct (map_find topic req).
  - by rewrite map_find_update_ne, bool_decide_false by naive_solver.
Qed.

Lemma request_version_v11 : (3 <=? request_version config) = is_v11 config.
Proof.
  unfold request_version. set (v := sc_Version config).
  assert (forall w, IsAtLeast w V0_11_0_0 = true -> IsAtLeast v w = true -> is_v11 config = true) as Hup.
  { intros w Hw Hv. unfold is_v11. rewrite IsAtLeast_compare in *. intros Hl. fold v in Hl.
    destruct (decide (version_list w = version_list V0_11_0_0)) as [E|Hne]; [by rewrite E in Hv|].
    destruct (key_compare_ne _ _ Hne) as [|Hl']; [done|]. apply Hv. by eapply key_lt_trans. }
  destruct (IsAtLeast v V2_1_0_0) eqn:E1; [by rewrite (Hup V2_1_0_0)|].
  destruct (IsAtLeast v V2_0_0_0) eqn:E2; [by rewrite (Hup V2_0_0_0)|].
  destruct (IsAtLeast v V1_0_0_0) eqn:E3; [by rewrite (Hup V1_0_0_0)|].
  destruct (is_v11 config); [done|]. by destruct (IsAtLeast v V0_10_0_0).
Qed.
(** A partition whose records can be put into the request *)
Definition sendable (p : PartitionSet) : Prop :=
  match pt_records p with DefaultRecords _ => is_v11 config = true | LegacyRecords _ => sc_Compression config = None_ end.
Lemma build_partition_ok p u : sendable p -> build_partition config (pt_records p) u = Done (Some (built (pt_records p))) u.
Proof.
  unfold sendable, build_partition. destruct (pt_records p) as [l|b]; intros H.
  - by rewrite H, Z.eqb_refl.
  - by rewrite request_version_v11, H.
Qed.
Definition put_all (req : list (list Z * list (Z * records))) (topic : list Z) (l : list (Z * PartitionSet)) :=
  fold_left (fun req e => put req topic (fst e) (built (pt_records (snd e)))) l req.
Lemma build_partitions_ok topic l req u :
  Forall (fun e => sendable (snd e)) l ->
  build_partitions config topic l req u = Done (map (fun e => (fst e, built_part (snd e))) l, put_all req topic l) u.
Proof.
  intros Hl. revert req. induction Hl as [|[q p] l Hp Hl IH]; intros req; [done|]. cbn [build_partitions].
  unfold bind at 1. rewrite build_partition_ok by done. cbn [pt_records]. unfold bind. rewrite IH. done.
Qed.
Lemma sent_put_all req topic l topic' partition' :
  map_sorted l ->
  sent (put_all req topic l) topic' partition' =
    if bool_decide (topic' = topic) then
      match map_find partition' l with Some p => Some (built (pt_records p)) | None => sent req topic' partition' end
    else sent req topic' partition'.
Proof.
  revert req. unfold put_all. induction l as [|[q p] l IH]; intros req; cbn [fold_left].
  { intros _. by case_bool_decide. }
  intros [Hf Hs]. rewrite IH, sent_put by done. cbn [fst snd]. case_bool_decide as Ht; [subst topic'|].
  2: { rewrite bool_decide_false by naive_solver. done. }
  destruct (decide (partition' = q)) as [->|Hq].
  - rewrite map_find_here, map_find_lower by done. by rewrite bool_decide_true.
  - rewrite map_find_there by done. destruct (map_find partition' l); [done|]. by rewrite bool_decide_false by naive_solver.
Qed.
Lemma map_find_built q (l : list (Z * PartitionSet)) :
  map_find q (map (fun e => (fst e, built_part (snd e))) l) = built_part <$> map_find q l.
Proof. induction l as [|[k p] l IH]; [done|]. cbn. by destruct (q ?= k). Qed.

Lemma total_built f (l : list (Z * PartitionSet)) :
  (forall p, f (built_part p) = f p) -> total f (map (fun e => (fst e, built_part (snd e))) l) = total f l.
Proof. intros Hf. induction l as [|[q p] l IH]; [done|]. cbn [map total fst snd]. by rewrite Hf, IH. Qed.
Lemma build_topics_ok topics messages req u :
  NoDup topics.*1 -> Forall (fun e => map_sorted (snd e) /\ Forall (fun e => sendable (snd e)) (snd e)) topics ->
  exists messages' req', build_topics config topics messages req u = Done (messages', req') u /\
    (forall t, messages' !! t = match list_find (fun e => fst e = t) topics with
                                | Some (_, e) => Some (map (fun e => (fst e, built_part (snd e))) (snd e))
                                | None => messages !! t end) /\
    forall t q, sent req' t q = match list_find (fun e => fst e = t) topics with
                                | Some (_, e) => match map_find q (snd e) with Some p => Some (built (pt_records p)) | None => sent req t q end
                                | None => sent req t q end.
Proof.
  intros Hnd Hall. revert messages req Hnd. induction Hall as [|[t l] topics [Hs Hl] Hall IH]; intros messages req Hnd.
  { by exists messages, req. }
  cbn in Hnd. apply NoDup_cons in Hnd as [Hnin Hnd]. cbn [build_topics fst snd] in *.
  destruct (IH (<[t := map (fun e => (fst e, built_part (snd e))) l]> messages) (put_all req t l) Hnd) as (m' & r' & E & Hm & Hr).
  exists m', r'. split; [unfold bind at 1; rewrite build_partitions_ok by done; exact E|].
  assert (list_find (fun e => fst e = t) topics = None) as Hno.
  { apply list_find_None, Forall_forall. intros e He <-. apply Hnin, list_elem_of_fmap. by exists e. }
  split.
  - intros t'. rewrite Hm. cbn [list_find]. case_decide as Ht; cbn [fst] in Ht.
    + subst t'. rewrite Hno, lookup_insert_eq. done.
    + rewrite lookup_insert_ne by done. by destruct (list_find (fun e => fst e = t') topics) as [[]|].
  - intros t' q. rewrite Hr. cbn [list_find]. case_decide as Ht; cbn [fst] in Ht.
    + subst t'. rewrite Hno, sent_put_all, bool_decide_true by done. done.
    + rewrite sent_put_all, bool_decide_false by done. by destruct (list_find (fun e => fst e = t') topics) as [[]|].
Qed.

Lemma number_records_carries i ms rs : Forall2 carries ms rs -> Forall2 carries ms (number_records i rs).
Proof. intros H. revert i. induction H as [|m r ms rs Hc _ IH]; intros i; cbn; constructor; [exact Hc|apply IH]. Qed.
Lemma number_records_offset i rs k r : number_records i rs !! k = Some r -> r_offset_delta r = i + Z.of_nat k.
Proof.
  revert i k. induction rs as [|x rs IH]; intros i [|k]; cbn; try done.
  - intros [= <-]. cbn. lia.
  - intros E. rewrite (IH (i + 1) k E). lia.
Qed.
Lemma number_records_time i rs r : r ∈ number_records i rs -> exists r', r' ∈ rs /\ r_timestamp_delta r = r_timestamp_delta r'.
Proof.
  revert i. induction rs as [|x rs IH]; intros i; cbn; [by intros ?%elem_of_nil|].
  intros [->|Hr]%elem_of_cons; [exists x; split; [by left|done]|].
  destruct (IH _ Hr) as (r' & Hr' & E). exists r'. split; [by right|done].
Qed.
Lemma max_delta_bound l r : r ∈ l -> r_timestamp_delta r <= max_delta l.
Proof.
  unfold max_delta. assert (forall l m, m <= fold_left (fun m r => Z.max m (r_timestamp_delta r)) l m) as Hge.
  { induction l0 as [|x l0 IH]; intros m; cbn; [lia|]. etrans; [|apply IH]. lia. }
  generalize 0. induction l as [|x l IH]; intros m Hr; [by apply elem_of_nil in Hr|]. cbn.
  apply elem_of_cons in Hr as [->|Hr]; [etrans; [|apply Hge]; lia|by apply IH].
Qed.
Lemma finish_batch_records b : rb_records (finish_batch config b) = number_records 0 (rb_records b).
Proof. unfold finish_batch. by destruct (rb_records b) eqn:E. Qed.
Lemma finish_batch_sequence b : rb_first_sequence (finish_batch config b) = rb_first_sequence b.
Proof. unfold finish_batch. by destruct (rb_records b). Qed.
Lemma built_part_ok topic partition p : part_ok topic partition p -> part_ok topic partition (built_part p).
Proof.
  intros [Hs Ht Hr]. split; cbn; [done..|]. destruct (pt_records p) as [l|b]; cbn; [done|].
  destruct Hr as (Hv & Hc & Hb & Hi). rewrite finish_batch_records, finish_batch_sequence.
  split_and!; [done|by apply number_records_carries|done..].
Qed.

(** What the request says of a partition's messages *)
Definition sent_ok (ms : list producer_message) (r : records) : Prop :=
  match r with
  | DefaultRecords b =>
      is_v11 config = true /\ Forall2 carries ms (rb_records b) /\
      (forall k r, rb_records b !! k = Some r -> r_offset_delta r = Z.of_nat k /\
         rb_first_timestamp b + r_timestamp_delta r * 1000000 <= rb_max_timestamp b) /\
      rb_last_offset_delta b = Zlen ms - 1 /\ rb_is_transactional b = sc_is_transactional config
  | LegacyRecords l => is_v11 config = false /\ Forall2 block_carries ms l
  end.
Lemma built_sent topic partition p : part_ok topic partition p -> sent_ok (pt_messages p) (built (pt_records p)).
Proof.
  intros [Hs Ht Hr]. destruct (pt_records p) as [l|b]; cbn; [by destruct Hr as (? & ? & _)|].
  destruct Hr as (Hv & Hc & _ & _). rewrite finish_batch_records. split; [done|]. split; [by apply number_records_carries|].
  assert (length (rb_records b) = length (pt_messages p)) as El by (symmetry; by eapply Forall2_length).
  unfold finish_batch. destruct (rb_records b) as [|r0 rs] eqn:Er.
  { destruct (pt_messages p); [done|by cbn in El]. }
  rewrite <- Er in *. cbn [rb_first_timestamp rb_max_timestamp rb_last_offset_delta rb_is_transactional].
  split; [|split; [unfold Zlen; by rewrite El|done]].
  intros k r Hk. split; [by apply number_records_offset in Hk|].
  apply list_elem_of_lookup_2, number_records_time in Hk as (r' & Hr' & ->). apply max_delta_bound in Hr'. lia.
Qed.

Definition key_find_spec {V} (m : gmap (list Z) V) (l : list (list Z * V)) : Prop :=
  forall t, match list_find (fun e => fst e = t) l with Some (_, e) => m !! t = Some (snd e) | None => m !! t = None end.
Lemma list_find_perm {V} (m : gmap (list Z) V) l : l ≡ₚ map_to_list m -> key_find_spec m l.
Proof.
  intros Hp t. destruct (list_find (fun e => fst e = t) l) as [[i [t' v]]|] eqn:E.
  - apply list_find_Some in E as (Hl & Ht & _). cbn in Ht |- *. subst t'.
    apply elem_of_map_to_list. rewrite <- Hp. by eapply list_elem_of_lookup_2.
  - apply list_find_None in E. destruct (m !! t) as [v|] eqn:Em; [|done]. apply elem_of_map_to_list in Em.
    rewrite <- Hp in Em. rewrite Forall_forall in E. by destruct (E _ Em).
Qed.

Lemma all_sendable s :
  set_ok s -> is_v11 config = true \/ sc_Compression config = None_ -> forall t q p, part_of s t q = Some p -> sendable p.
Proof.
  intros Hok Hv t q p Hp. apply (set_part s) in Hp as [_ _ Hrec]; [|done]. unfold sendable.
  destruct (pt_records p); destruct Hrec as [Hrec _]; [|done]. destruct Hv; congruence.
Qed.
Lemma build_request_ok iterate s :
  set_ok s -> iterate (st_messages s) ≡ₚ map_to_list (st_messages s) ->
  (forall t q p, part_of s t q = Some p -> sendable p) ->
  exists req s', build_request config iterate s = Done req s' /\ set_ok s' /\
    prq_version req = request_version config /\
    forall t q, messages_of s' t q = messages_of s t q /\
      sent (prq_records req) t q = (fun p => built (pt_records p)) <$> part_of s t q.
Proof.
  intros Hok Hi Hv. set (topics := iterate (st_messages s)) in *.
  assert (key_find_spec (st_messages s) topics) as Hfind by by apply list_find_perm.
  assert (forall t l, (t, l) ∈ topics -> st_messages s !! t = Some l) as Hin.
  { intros t l Hl. apply elem_of_map_to_list. by rewrite <- Hi. }
  destruct (build_topics_ok topics (st_messages s) [] tt) as (m' & r' & E & Hm & Hr).
  { rewrite Hi. apply NoDup_fst_map_to_list. }
  { apply Forall_forall. intros [t l] Hl. cbn. destruct (set_parts _ Hok t l (Hin t l Hl)) as [Hs Hps]. split; [done|].
    apply Forall_forall. intros [q p] Hp. cbn. apply map_in_find in Hp; [|done]. apply (Hv t q). unfold part_of.
    by rewrite (Hin t l Hl). }
  assert (forall t, m' !! t = map (fun e => (fst e, built_part (snd e))) <$> st_messages s !! t) as Hm'.
  { intros t. rewrite Hm. specialize (Hfind t). destruct (list_find (fun e => fst e = t) topics) as [[i e]|]; by rewrite Hfind. }
  unfold build_request. fold topics. rewrite E.
  eexists _, _. split; [done|]. set (s' := mkProduceSet _ _ _ _ _).
  assert (forall t q, part_of s' t q = built_part <$> part_of s t q) as Hpart.
  { intros t q. unfold part_of. cbn [s' st_messages]. rewrite Hm'. destruct (st_messages s !! t) as [l|]; [|done].
    cbn. apply map_find_built. }
  assert (forall f, (forall p, f (built_part p) = f p) -> gtotal (total f) m' = gtotal (total f) (st_messages s)) as Htot.
  { intros f Hf. assert (m' = map (fun e => (fst e, built_part (snd e))) <$> st_messages s) as ->.
    { apply map_eq. intros t. by rewrite Hm', lookup_fmap. }
    unfold gtotal. rewrite map_to_list_fmap. clear -Hf. induction (map_to_list (st_messages s)) as [|[t l] ts IH]; [done|].
    cbn [fmap list_fmap total prod_map]. rewrite IH. cbn. by rewrite total_built. }
  split; [|split; [done|]].
  - split; cbn [s' st_buffer_bytes st_buffer_count st_messages].
    + by rewrite Htot, (set_bytes _ Hok).
    + by rewrite Htot, (set_count _ Hok).
    + intros t l' El'. rewrite Hm' in El'. destruct (st_messages s !! t) as [l|] eqn:El; [|done]. injection El' as <-.
      destruct (set_parts _ Hok t l El) as [Hs Hps]. split.
      * clear -Hs. induction l as [|[q p] l IH]; [done|]. destruct Hs as [Hf Hs]. split; [|by apply IH].
        clear -Hf. induction Hf; cbn; by constructor.
      * intros q p Hp. rewrite map_find_built in Hp. destruct (map_find q l) as [p0|] eqn:E0; [|done].
        injection Hp as <-. by apply built_part_ok, Hps.
  - intros t q. split; [unfold messages_of; rewrite Hpart; by destruct (part_of s t q)|].
    cbn [prq_records]. rewrite Hr. unfold part_of. specialize (Hfind t).
    destruct (list_find (fun e => fst e = t) topics) as [[i e]|]; rewrite Hfind; [|done]. cbn. by destruct (map_find q (snd e)).
Qed.
End Invariant.

(** ** The promise *)

Inductive set_op :=
| OpAdd (now : time_point) (msg : producer_message)
| OpDrop (topic : list Z) (partition : Z)
| OpBuild.
(** What an operation returns: a code, or the messages dropped *)
Definition set_result : Type := Z + list producer_message.
Definition perform_op config iterate (op : set_op) : M ProduceSet set_result :=
  match op with
  | OpAdd now msg => let* r := add config now msg in ret (inl r)
  | OpDrop topic partition => let* l := drop_partition topic partition in ret (inr l)
  | OpBuild => let* _r := build_request config iterate in ret (inl 0)
  end.
Fixpoint perform_ops config iterate (ops : list set_op) : M ProduceSet (list set_result) :=
  match ops with
  | [] => ret []
  | op :: ops => let* r := perform_op config iterate op in let* rs := perform_ops config iterate ops in ret (r :: rs)
  end.

(** A queue of messages for every partition *)
Definition queues : Type := list Z -> Z -> list producer_message.
Definition at_place (a : queues) (topic : list Z) (partition : Z) (l : list producer_message) (a' : queues) : Prop :=
  forall t q, a' t q = if bool_decide (t = topic /\ q = partition) then l else a t q.
Inductive queue_step (config : SetConfig) (a : queues) : set_op -> set_result -> queues -> Prop :=
| queue_add now msg a' :
    ~ stale config (a (m_topic msg) (m_partition msg)) msg ->
    at_place a (m_topic msg) (m_partition msg) (a (m_topic msg) (m_partition msg) ++ [msg]) a' ->
    queue_step config a (OpAdd now msg) (inl 0) a'
| queue_refuse now msg a' :
    stale config (a (m_topic msg) (m_partition msg)) msg -> (forall t q, a' t q = a t q) ->
    queue_step config a (OpAdd now msg) (inl (-1)) a'
| queue_drop topic partition a' :
    at_place a topic partition [] a' -> queue_step config a (OpDrop topic partition) (inr (a topic partition)) a'
| queue_build a' : (forall t q, a' t q = a t q) -> queue_step config a OpBuild (inl 0) a'.
Inductive queue_run (config : SetConfig) (a : queues) : list set_op -> list set_result -> queues -> Prop :=
| run_nil a' : (forall t q, a' t q = a t q) -> queue_run config a [] [] a'
| run_cons op r a1 ops rs a' :
    queue_step config a op r a1 -> queue_run config a1 ops rs a' -> queue_run config a (op :: ops) (r :: rs) a'.
(** The version a message's size is computed for *)
Definition set_version (config : SetConfig) : Z := if is_v11 config then 2 else 1.
(** The operations that fail: one that would take the byte counter out of the range of an
    [int], and building a request from a message set that is to be compressed. *)
Inductive cannot_perform (config : SetConfig) (s : ProduceSet) : set_op -> fault -> Prop :=
| cannot_add now msg :
    INT32_MAX < st_buffer_bytes s + RECORD_BATCH_OVERHEAD + byte_size (set_version config) msg ->
    cannot_perform config s (OpAdd now msg) FUB
| cannot_build :
    is_v11 config = false -> sc_Compression config <> None_ -> cannot_perform config s OpBuild FAssert.

Section Promise.
Context (config : SetConfig) (iterate : gmap (list Z) (list (Z * PartitionSet)) -> list (list Z * list (Z * PartitionSet))).
Hypothesis Hiterate : forall m, iterate m ≡ₚ map_to_list m.

Lemma there_same s s' topic partition :
  only_there s s' topic partition (messages_of s topic partition) -> forall t q, messages_of s' t q = messages_of s t q.
Proof. intros H t q. rewrite H. case_bool_decide as Hd; [by destruct Hd as [-> ->]|done]. Qed.
(** Nothing is built from a compressed message set. *)
Lemma legacy_compressed topics messages req u t l :
  is_v11 config = false -> sc_Compression config <> None_ ->
  Forall (fun e => Forall (fun e => exists l, pt_records (snd e) = LegacyRecords l) (snd e)) topics ->
  (t, l) ∈ topics -> l <> [] -> build_topics config topics messages req u = Fault FAssert.
Proof.
  intros Hv Hc Hall. revert messages req. induction Hall as [|[t0 l0] topics Hl Hall IH]; intros messages req; [by intros ?%elem_of_nil|].
  cbn [build_topics snd] in *. destruct l0 as [|[q p] l0].
  - intros [[= -> ->]|Hin]%elem_of_cons Hne; [done|]. cbn. unfold bind, ret. by apply IH.
  - intros _ _. inversion_clear Hl as [|? ? [lr Er] _]. cbn [snd] in Er. cbn [build_partitions]. unfold bind. rewrite Er.
    cbn [build_partition]. by rewrite (proj2 (Z.eqb_neq _ _) Hc).
Qed.
Lemma build_cases s :
  set_ok config s ->
  (forall t q p, part_of s t q = Some p -> sendable config p) \/
  (build_request config iterate s = Fault FAssert /\ is_v11 config = false /\ sc_Compression config <> None_).
Proof.
  intros Hok. destruct (decide (is_v11 config = true \/ sc_Compression config = None_)) as [Hv|Hv].
  { left. by apply all_sendable. }
  assert (is_v11 config = false /\ sc_Compression config <> None_) as [Ev Hc].
  { destruct (is_v11 config); naive_solver. }
  destruct (decide (Exists (fun e => snd e <> []) (map_to_list (st_messages s)))) as [He|He].
  - right. split; [|done]. apply Exists_exists in He as ([t l] & Hin & Hne). rewrite <- Hiterate in Hin. unfold build_request.
    rewrite (legacy_compressed _ _ _ _ t l); [done|done|done| |done|done].
    apply Forall_forall. intros [t' l'] Hin'. rewrite Hiterate in Hin'. apply elem_of_map_to_list in Hin'.
    destruct (set_parts _ _ Hok _ _ Hin') as [Hs Hps]. apply Forall_forall. intros [q p] Hp. cbn.
    apply map_in_find, Hps in Hp as [_ _ Hrec]; [|done]. destruct (pt_records p) as [lr|b]; [by exists lr|].
    destruct Hrec as [Hrec _]. congruence.
  - left. intros t q p. unfold part_of. destruct (st_messages s !! t) as [l|] eqn:El; [|done].
    destruct (decide (l = [])) as [->|Hne]; [done|]. destruct He. apply Exists_exists. exists (t, l).
    split; [by apply elem_of_map_to_list|done].
Qed.
(** ** No overflow *)

Lemma headers_size_nonneg hs : 0 <= headers_size hs.
Proof.
  unfold headers_size. assert (forall n, 0 <= n -> 0 <= fold_left (fun size h => size + Zlen (rh_key h) + Zlen (rh_value h) + 2 * 5) hs n) as H.
  { induction hs as [|h hs IH]; intros n Hn; cbn; [done|]. apply IH.
    pose proof (Zlen_nonneg (rh_key h)). pose proof (Zlen_nonneg (rh_value h)). lia. }
  by apply H.
Qed.
Lemma byte_size_pos v m : 1 <= byte_size v m.
Proof.
  unfold byte_size, MaximumRecordOverhead, ProducerMessageOverhead. pose proof (headers_size_nonneg (m_headers m)).
  pose proof (Zlen_nonneg (m_key m)). pose proof (Zlen_nonneg (m_value m)). destruct (2 <=? v); lia.
Qed.
Lemma sum_sizes_count v l : Zlen l <= sum_sizes v l.
Proof.
  induction l as [|m l IH]; [done|]. cbn [sum_sizes]. pose proof (byte_size_pos v m). unfold Zlen in *. cbn [length]. lia.
Qed.
Lemma part_count_bytes topic partition p : part_ok config topic partition p -> 0 <= part_count p <= pt_buffer_bytes p.
Proof.
  intros [_ _ Hr]. unfold part_count. split; [apply Zlen_nonneg|]. destruct (pt_records p).
  - destruct Hr as (_ & _ & ->). apply sum_sizes_count.
  - destruct Hr as (_ & _ & -> & _). pose proof (sum_sizes_count 2 (pt_messages p)). unfold RECORD_BATCH_OVERHEAD. lia.
Qed.
Lemma total_le {K V} (f g : V -> Z) (l : list (K * V)) :
  Forall (fun e => f (snd e) <= g (snd e)) l -> total f l <= total g l.
Proof. induction 1 as [|[k v] l Hv _ IH]; cbn in *; lia. Qed.
Lemma total_one {K V} `{KeyOrder K} (f : V -> Z) (l : list (K * V)) k v :
  Forall (fun e => 0 <= f (snd e)) l -> map_find k l = Some v -> f v <= total f l.
Proof.
  induction 1 as [|[k0 v0] l Hv Hall IH]; cbn; [done|]. cbn in Hv.
  assert (0 <= total f l). { clear -Hall. induction Hall as [|[] l Hv _ IH]; cbn in *; lia. }
  destruct (key_compare k k0); [intros [= ->]; lia|intros E; specialize (IH E); lia..].
Qed.
Definition parts_of (s : ProduceSet) : list (list Z * list (Z * PartitionSet)) := map_to_list (st_messages s).
Lemma parts_all s (P : PartitionSet -> Prop) :
  set_ok config s -> (forall t q p, part_ok config t q p -> P p) ->
  Forall (fun e => Forall (fun e => P (snd e)) (snd e)) (parts_of s).
Proof.
  intros Hok HP. apply Forall_forall. intros [t l] Hin. apply elem_of_map_to_list in Hin.
  destruct (set_parts _ _ Hok _ _ Hin) as [Hs Hps]. apply Forall_forall. intros [q p] Hp. cbn.
  apply map_in_find, Hps in Hp; [|done]. by eapply HP.
Qed.
Lemma set_count_bytes s : set_ok config s -> 0 <= st_buffer_count s <= st_buffer_bytes s.
Proof.
  intros Hok. rewrite (set_count _ _ Hok), (set_bytes _ _ Hok). unfold gtotal. fold (parts_of s).
  pose proof (parts_all s _ Hok part_count_bytes) as Hall. split.
  - clear -Hall. induction Hall as [|[t l] ts Hl _ IH]; cbn in *; [lia|].
    assert (0 <= total part_count l); [|lia]. clear -Hl. induction Hl as [|[] l Hv _ IH]; cbn in *; lia.
  - apply total_le. eapply Forall_impl; [exact Hall|]. intros [t l] Hl. cbn in *. apply total_le.
    eapply Forall_impl; [exact Hl|]. intros [q p] Hp. cbn in *. lia.
Qed.
Lemma part_bytes_le s t q p : set_ok config s -> part_of s t q = Some p -> 0 <= pt_buffer_bytes p <= st_buffer_bytes s.
Proof.
  intros Hok Hp. pose proof (part_count_bytes t q p (set_part _ _ _ _ _ Hok Hp)) as Hb. split; [lia|].
  rewrite (set_bytes _ _ Hok). unfold gtotal. unfold part_of in Hp.
  destruct (st_messages s !! t) as [l|] eqn:El; [|done]. cbn in Hp.
  destruct (set_parts _ _ Hok _ _ El) as [Hs Hps].
  assert (Forall (fun e => 0 <= pt_buffer_bytes (snd e)) l) as Hl.
  { apply Forall_forall. intros [q' p'] Hin. cbn. apply map_in_find, Hps, part_count_bytes in Hin; [lia|done]. }
  transitivity (total pt_buffer_bytes l); [exact (total_one pt_buffer_bytes l q p Hl Hp)|]. apply elem_of_map_to_list in El.
  pose proof (parts_all s _ Hok part_count_bytes) as Hall. unfold parts_of in Hall.
  induction Hall as [|[t0 l0] ts Hl0 Hall IH]; [by apply elem_of_nil in El|]. cbn [total].
  assert (forall l : list (Z * PartitionSet), Forall (fun e => 0 <= part_count (snd e) <= pt_buffer_bytes (snd e)) l -> 0 <= total pt_buffer_bytes l) as Hpos.
  { intros l1 H1. clear -H1. induction H1 as [|[] l1 Hv _ IH]; cbn in *; lia. }
  assert (0 <= total (total pt_buffer_bytes) ts).
  { clear -Hall Hpos. induction Hall as [|[t l] ts Hl _ IH]; cbn in *; [lia|]. specialize (Hpos l Hl). lia. }
  apply elem_of_cons in El as [[= -> ->]|El]; [lia|]. specialize (Hpos l0 Hl0). specialize (IH El). lia.
Qed.
Lemma append_size msg timestamp size r :
  match r with DefaultRecords _ => is_v11 config = true | LegacyRecords _ => is_v11 config = false /\ size = 0 end ->
  snd (append_message config msg timestamp size r) = size + byte_size (set_version config) msg.
Proof.
  unfold set_version. destruct r as [l|b]; cbn [append_message]; [intros [-> ->]|intros ->]; cbn [snd].
  - rewrite byte_size_1. lia.
  - rewrite byte_size_2. lia.
Qed.
(** What [add] finds or makes for the partition, and the size it starts from *)
Lemma added_sizes s msg timestamp :
  set_ok config s ->
  let pset := match part_of s (m_topic msg) (m_partition msg) with
              | Some p => p | None => mkPartitionSet [] (first_records config s msg timestamp) 0 end in
  let size := match part_of s (m_topic msg) (m_partition msg) with
              | Some _ => 0 | None => if is_v11 config then RECORD_BATCH_OVERHEAD else 0 end in
  match pt_records pset with DefaultRecords _ => is_v11 config = true | LegacyRecords _ => is_v11 config = false /\ size = 0 end /\
  0 <= pt_buffer_bytes pset <= st_buffer_bytes s /\ 0 <= size <= RECORD_BATCH_OVERHEAD.
Proof.
  intros Hok. pose proof (set_count_bytes s Hok) as Hc. cbv zeta. destruct (part_of s (m_topic msg) (m_partition msg)) as [p|] eqn:Ep.
  - pose proof (part_bytes_le s _ _ p Hok Ep) as Hb. apply (set_part config s) in Ep as [_ _ Hr]; [|done].
    split; [by destruct (pt_records p); destruct Hr as [Hr _]|]. unfold RECORD_BATCH_OVERHEAD. lia.
  - cbn [pt_records pt_buffer_bytes]. unfold first_records. destruct (is_v11 config); (split; [done|unfold RECORD_BATCH_OVERHEAD; lia]).
Qed.
Lemma add_run now msg s :
  set_ok config s -> would_overflow config msg s = false ->
  exists r s', add config now msg s = Done r s' /\
    st_buffer_bytes s' < MaxSetBytes + RECORD_BATCH_OVERHEAD /\
    (0 < sc_Flush_MaxMessages config -> st_buffer_count s' <= sc_Flush_MaxMessages config) /\
    (forall p p', part_of s (m_topic msg) (m_partition msg) = Some p -> r = 0 ->
       part_of s' (m_topic msg) (m_partition msg) = Some p' -> pt_buffer_bytes p' < sc_MaxMessageBytes config).
Proof.
  intros Hok. unfold would_overflow. fold (set_version config). destruct (Z.leb_spec MaxSetBytes (st_buffer_bytes s + byte_size (set_version config) msg)) as [|Hb]; [done|].
  assert (match st_messages s !! m_topic msg with None => false | Some partitions =>
     match map_find (m_partition msg) partitions with None => false
     | Some pset => sc_MaxMessageBytes config <=? pt_buffer_bytes pset + byte_size (set_version config) msg end end =
     match part_of s (m_topic msg) (m_partition msg) with None => false
     | Some pset => sc_MaxMessageBytes config <=? pt_buffer_bytes pset + byte_size (set_version config) msg end) as ->.
  { unfold part_of. by destruct (st_messages s !! m_topic msg). }
  intros Hw. destruct (match part_of s _ _ with Some _ => _ | None => _ end) eqn:Hp in Hw; [done|].
  pose proof (set_count_bytes s Hok) as Hc. pose proof (byte_size_pos (set_version config) msg) as Hpos.
  assert (0 < sc_Flush_MaxMessages config -> st_buffer_count s + 1 <= sc_Flush_MaxMessages config) as Hm.
  { intros H0. apply andb_false_iff in Hw as [Hw|Hw]; [apply Z.ltb_ge in Hw; lia|apply Z.leb_gt in Hw; lia]. }
  unfold add. set (timestamp := milliseconds _). rewrite part_default.
  set (pset := match part_of s (m_topic msg) (m_partition msg) with Some p => p | None => _ end).
  set (size := match part_of s (m_topic msg) (m_partition msg) with Some _ => 0 | None => _ end).
  fold (is_late config msg (pt_records pset)).
  destruct (added_sizes s msg timestamp Hok) as (Hr & Hps & Hs). fold pset size in Hr, Hps, Hs.
  destruct (is_late config msg (pt_records pset)) eqn:El.
  { eexists _, _. split; [done|]. cbn [st_buffer_bytes st_buffer_count]. unfold RECORD_BATCH_OVERHEAD. split_and!; [lia|lia|done]. }
  pose proof (append_size msg timestamp size (pt_records pset) Hr) as Ea.
  destruct (append_message config msg timestamp size (pt_records pset)) as [r' size']. cbn [snd] in Ea. subst size'.
  unfold bind, i32_arith, ret. rewrite !bool_decide_true by (unfold in_s, MaxSetBytes, RECORD_BATCH_OVERHEAD in *;
    change (2 ^ (32 - 1)) with 2147483648; lia).
  eexists _, _. split; [done|]. cbn [st_buffer_bytes st_buffer_count]. split; [lia|]. split; [lia|].
  intros p p' Ep _ Ep'. rewrite Ep in Hp. apply Z.leb_gt in Hp. unfold part_of in Ep'. cbn [st_messages] in Ep'.
  rewrite lookup_insert_eq in Ep'. cbn in Ep'. rewrite map_find_assign_eq in Ep'. injection Ep' as <-. cbn [pt_buffer_bytes].
  unfold pset, size. rewrite Ep. lia.
Qed.
(** An addition fails only when the counter of bytes would overflow. *)
Lemma add_fault now msg s f :
  set_ok config s -> add config now msg s = Fault f ->
  f = FUB /\ INT32_MAX < st_buffer_bytes s + RECORD_BATCH_OVERHEAD + byte_size (set_version config) msg.
Proof.
  intros Hok. pose proof (set_count_bytes s Hok) as Hc. pose proof (byte_size_pos (set_version config) msg) as Hpos.
  unfold add. set (timestamp := milliseconds _). rewrite part_default.
  set (pset := match part_of s (m_topic msg) (m_partition msg) with Some p => p | None => _ end).
  set (size := match part_of s (m_topic msg) (m_partition msg) with Some _ => 0 | None => _ end).
  fold (is_late config msg (pt_records pset)). destruct (is_late config msg (pt_records pset)); [done|].
  destruct (added_sizes s msg timestamp Hok) as (Hr & Hps & Hs). fold pset size in Hr, Hps, Hs.
  pose proof (append_size msg timestamp size (pt_records pset) Hr) as Ea.
  destruct (append_message config msg timestamp size (pt_records pset)) as [r' size']. cbn [snd] in Ea. subst size'.
  unfold bind, i32_arith, ret, fail, in_s, INT32_MAX. change (2 ^ (32 - 1)) with 2147483648.
  do 3 (case_bool_decide; [|intros [= <-]; split; [done|lia]]). done.
Qed.
Lemma perform_step op s :
  set_ok config s ->
  match perform_op config iterate op s with
  | Done r s' => set_ok config s' /\ queue_step config (messages_of s) op r (messages_of s')
  | Fault f => cannot_perform config s op f
  end.
Proof.
  intros Hok. destruct op as [now msg|topic partition|]; cbn [perform_op]; unfold bind, ret.
  - destruct (add config now msg s) as [c s1|f] eqn:E.
    + apply add_spec in E as [Hok' [(-> & Hl & H)|(-> & Hl & H)]]; [..|done]; (split; [done|]).
      * by apply queue_add.
      * apply queue_refuse; [done|]. by eapply there_same.
    + apply add_fault in E as [-> E]; [|done]. by constructor.
  - destruct (drop_partition topic partition s) as [l s1|f] eqn:E.
    + apply (drop_spec config) in E as (Hok' & -> & H); [|done]. split; [done|]. by apply queue_drop.
    + unfold drop_partition in E. destruct (_ !! _); [|done]. by destruct (map_find _ _).
  - destruct (build_cases s Hok) as [Hs|(-> & Hv & Hc)]; [|by constructor].
    destruct (build_request_ok config iterate s Hok (Hiterate _) Hs) as (req & s1 & -> & Hok' & _ & H).
    split; [done|]. apply queue_build. intros t q. apply H.
Qed.
Lemma perform_run ops s :
  set_ok config s ->
  match perform_ops config iterate ops s with
  | Done rs s' => set_ok config s' /\ queue_run config (messages_of s) ops rs (messages_of s')
  | Fault f => exists before op after rs s', ops = before ++ op :: after /\
      perform_ops config iterate before s = Done rs s' /\ cannot_perform config s' op f
  end.
Proof.
  revert s. induction ops as [|op ops IH]; intros s Hok; cbn [perform_ops].
  { split; [done|by constructor]. }
  unfold bind. pose proof (perform_step op s Hok) as Hs. destruct (perform_op config iterate op s) as [r s1|f] eqn:E1.
  - destruct Hs as [Hok1 H1]. specialize (IH s1 Hok1). destruct (perform_ops config iterate ops s1) as [rs1 s2|f] eqn:E2.
    + destruct IH as [Hok2 H2]. split; [done|]. by econstructor.
    + destruct IH as (before & op' & after & rs & s' & -> & E & H). exists (op :: before), op', after, (r :: rs), s'.
      split_and!; [done| |done]. cbn [perform_ops]. unfold bind. by rewrite E1, E.
  - by exists [], op, ops, [], s.
Qed.
End Promise.

(** ** Properties *)

(** C7: A produce set is a queue of messages for every partition: adding a message appends it
    to its partition's queue, unless the producer is idempotent and the sequence number is
    below that of the first message in the queue: then, and only then, it is refused with -1
    and nothing changes; dropping a partition returns its queue and empties it; building a
    request changes no queue.  After any operations, the byte and message counters are the
    sums over the partitions, and the records collected for a partition are those of its
    messages.  An operation can fail in two ways only: the byte counter would overflow, or a
    message set is to be compressed. *)
Theorem produce_set_refines config iterate ops id epoch :
  (forall m, iterate m ≡ₚ map_to_list m) ->
  match perform_ops config iterate ops (ProduceSet_new id epoch) with
  | Done rs s => set_ok config s /\ queue_run config (fun _ _ => []) ops rs (messages_of s)
  | Fault f => exists before op after rs s, ops = before ++ op :: after /\
      perform_ops config iterate before (ProduceSet_new id epoch) = Done rs s /\ cannot_perform config s op f
  end.
Proof. intros Hi. exact (perform_run config iterate Hi ops _ (empty_set_ok config id epoch)). Qed.
Definition example_set_config : SetConfig := mkSetConfig V2_1_0_0 true None_ 1000000 0 0 0 0 false.
Definition example_set_message (partition sequence : Z) : producer_message :=
  mkProducerMessage [116] [107] [118; 119] [] partition 5000000 sequence 0.
Definition example_set_ops : list set_op :=
  [OpAdd 0 (example_set_message 1 4); OpAdd 0 (example_set_message 2 0); OpAdd 0 (example_set_message 1 3); OpBuild].
Definition example_set : ProduceSet :=
  match perform_ops example_set_config map_to_list example_set_ops (ProduceSet_new 7 0) with
  | Done _ s => s | Fault _ => ProduceSet_new 7 0 end.
Example produce_set_refines_witness :
  exists rs s, perform_ops example_set_config map_to_list (example_set_ops ++ [OpDrop [116] 1]) (ProduceSet_new 7 0) = Done rs s /\
    rs = [inl 0; inl 0; inl (-1); inl 0; inr [example_set_message 1 4]] /\
    set_ok example_set_config s /\
    queue_run example_set_config (fun _ _ => []) (example_set_ops ++ [OpDrop [116] 1]) rs (messages_of s).
Proof.
  pose proof (produce_set_refines example_set_config map_to_list (example_set_ops ++ [OpDrop [116] 1]) 7 0
    ltac:(done)) as H.
  destruct (perform_ops _ _ _ _) as [rs s|] eqn:E; [|vm_compute in E; discriminate].
  exists rs, s. split; [reflexivity|]. split; [|exact H]. vm_compute in E. by injection E as <- _.
Defined.
(** The set before the last operation, whose first partition has one message. *)
Lemma example_set_ok : set_ok example_set_config example_set.
Proof.
  unfold example_set. pose proof (perform_run example_set_config map_to_list ltac:(done) example_set_ops _
    (empty_set_ok example_set_config 7 0)) as H. destruct (perform_ops _ _ _ _); [apply H|apply empty_set_ok].
Qed.

(** C17: The request built from a set carries, for every partition with messages and no
    other, exactly their records in order, with offsets counted from 0, the last offset,
    a latest timestamp that covers every record and the producer's transactional flag, or
    the message set of an older broker; a message set that is to be compressed fails an
    assertion instead. *)
Theorem produce_request_exact config iterate s :
  set_ok config s -> (forall m, iterate m ≡ₚ map_to_list m) ->
  (is_v11 config = true \/ sc_Compression config = None_ ->
   exists req s', build_request config iterate s = Done req s' /\ set_ok config s' /\ prq_version req = request_version config /\
     forall t q, messages_of s' t q = messages_of s t q /\
       match sent (prq_records req) t q with
       | Some r => messages_of s t q <> [] /\ sent_ok config (messages_of s t q) r
       | None => messages_of s t q = []
       end) /\
  (is_v11 config = false -> sc_Compression config <> None_ -> (exists t q, messages_of s t q <> []) ->
   build_request config iterate s = Fault FAssert).
Proof.
  intros Hok Hi. split.
  - intros Hv. destruct (build_request_ok config iterate s Hok (Hi _) (all_sendable config s Hok Hv)) as (req & s' & E & Hok' & Hr & H).
    exists req, s'. split_and!; [done..|]. intros t q. destruct (H t q) as [Hm Hs]. split; [done|]. rewrite Hs.
    unfold messages_of. destruct (part_of s t q) as [p|] eqn:Ep; [|done]. cbn. apply (set_part config s) in Ep; [|done].
    split; [apply Ep|by eapply built_sent].
  - intros Hv Hc (t & q & Hne). destruct (build_cases config iterate Hi s Hok) as [Hs|[]]; [|done].
    unfold messages_of in Hne. destruct (part_of s t q) as [p|] eqn:Ep; [|done]. specialize (Hs t q p Ep).
    apply (set_part config s) in Ep as [_ _ Hr]; [|done]. unfold sendable in Hs. destruct (pt_records p); [done|].
    destruct Hr as [Hr _]. congruence.
Qed.
Example produce_request_exact_witness :
  exists req s' r, build_request example_set_config map_to_list example_set = Done req s' /\ prq_version req = 7 /\
    sent (prq_records req) [116] 1 = Some r /\ sent_ok example_set_config [example_set_message 1 4] r.
Proof.
  destruct (produce_request_exact example_set_config map_to_list example_set) as [H _].
  - apply example_set_ok.
  - done.
  - destruct H as (req & s' & E & _ & Hv & H); [by left|]. destruct (H [116] 1) as [_ Hr].
    assert (messages_of example_set [116] 1 = [example_set_message 1 4]) as Em by (vm_compute; reflexivity). rewrite Em in Hr.
    destruct (sent (prq_records req) [116] 1) as [r|] eqn:Es; [|discriminate].
    exists req, s', r. split; [exact E|]. split; [exact Hv|]. split; [exact Es|apply Hr].
Defined.

(** A message that would not overflow a set can be added without any counter leaving the
    range of an [int]; the set then stays below the request limit but for the overhead of a
    new batch, a batch that has already been started below the message limit, and the
    number of messages within its limit. *)
Theorem produce_set_bounds config now msg s :
  set_ok config s -> would_overflow config msg s = false ->
  exists r s', add config now msg s = Done r s' /\
    st_buffer_bytes s' < MaxSetBytes + RECORD_BATCH_OVERHEAD /\
    (0 < sc_Flush_MaxMessages config -> st_buffer_count s' <= sc_Flush_MaxMessages config) /\
    (forall p p', part_of s (m_topic msg) (m_partition msg) = Some p -> r = 0 ->
       part_of s' (m_topic msg) (m_partition msg) = Some p' -> pt_buffer_bytes p' < sc_MaxMessageBytes config).
Proof. apply add_run. Qed.
Example produce_set_bounds_witness :
  exists r s', add example_set_config 0 (example_set_message 1 4) (ProduceSet_new 7 0) = Done r s' /\
    st_buffer_bytes s' < MaxSetBytes + RECORD_BATCH_OVERHEAD.
Proof.
  destruct (produce_set_bounds example_set_config 0 (example_set_message 1 4) (ProduceSet_new 7 0)) as (r & s' & E & Hb & _).
  - apply empty_set_ok.
  - by vm_compute.
  - exists r, s'. split; [exact E|exact Hb].
Defined.
