(* ===== verification/Hashes.v ===== *)
(** * Hash objects

    The classes behind [Hash32], [Hash64] and [Hash128] of [utils/hash/hash.h]: the
    six FNV variants of [utils/hash/fnv.cpp] and the [CRC32] digest of
    [utils/hash/crc32.cpp].  [Hasher] is the interface, [HasherLaws] what it promises:
    a digest may be saved and restored between two updates, and only a saved digest
    of its own kind is restored.  The 128-bit variants keep that promise, but the
    number they compute is not FNV-128. *)
From Stdlib Require Import ZArith Lia Bool.
From stdpp Require Import base tactics list numbers.
From S2P Require Import Prelude Wire Crc.

(** ** Big-endian words *)

(* utils/hash/fnv.cpp BEAppendUint32 *)
Definition BEAppendUint32 (str : list Z) (value : Z) : list Z := str ++ be 4 value.
(* utils/hash/fnv.cpp BEAppendUint64 *)
Definition BEAppendUint64 (str : list Z) (value : Z) : list Z := str ++ be 8 value.
(** The callers have checked that the bytes are there. *)
(* utils/hash/fnv.cpp BEUint32 *)
Definition BEUint32 (str : list Z) (offset : nat) : Z := be_val (take 4 (drop offset str)).
(* utils/hash/fnv.cpp BEUint64 *)
Definition BEUint64 (str : list Z) (offset : nat) : Z := be_val (take 8 (drop offset str)).

(* utils/hash/fnv.h:18-20 constants *)
Definition offset32 : Z := 2166136261.
Definition offset64 : Z := 14695981039346656037.
Definition offset128Lower : Z := 0x62b821756295c58d.
Definition offset128Higher : Z := 0x6c62272e07bb0142.
(* utils/hash/fnv.h:22-25 primes *)
Definition prime32 : Z := 16777619.
Definition prime64 : Z := 1099511628211.
Definition prime128Lower : Z := 0x13b.
Definition prime128Shift : Z := 24.

(** ["fnv\x01"] and its kin *)
(* utils/hash/fnv.cpp:16-24 magic *)
Definition fnv_magic (k : Z) : list Z := [102; 110; 118; k].

(** The guards of every [UnmarshalBinary]: the magic first, then the exact size. *)
Definition marshal_guard (magic b : list Z) (size : Z) : bool :=
  negb ((Zlen b <? 4) || negb (bool_decide (take 4 b = magic))) && (Zlen b =? size).

(** ** 32 and 64 bits *)

(* utils/hash/fnv.cpp FNV32::Reset *)
Definition FNV32_Reset (_ : Z) : Z := offset32.
(* utils/hash/fnv.cpp FNV32::Update *)
Definition FNV32_Update (data : list Z) : M Z unit := fun m_hash =>
  Done tt (fold_left (fun h b => Z.lxor (to_u32 (h * prime32)) b) data m_hash).
(* utils/hash/fnv.cpp FNV32::Sum *)
Definition FNV32_Sum (m_hash : Z) (inp : list Z) : list Z := BEAppendUint32 inp m_hash.
(* utils/hash/fnv.cpp FNV32::MarshalBinary *)
Definition FNV32_MarshalBinary (m_hash : Z) : list Z := BEAppendUint32 (fnv_magic 1) m_hash.
(* utils/hash/fnv.cpp FNV32::UnmarshalBinary *)
Definition FNV32_UnmarshalBinary (b : list Z) (m_hash : Z) : bool * Z :=
  if marshal_guard (fnv_magic 1) b 8 then (true, BEUint32 b 4) else (false, m_hash).

(* utils/hash/fnv.cpp FNV32a::Reset *)
Definition FNV32a_Reset (_ : Z) : Z := offset32.
(* utils/hash/fnv.cpp FNV32a::Update *)
Definition FNV32a_Update (data : list Z) : M Z unit := fun m_hash =>
  Done tt (fold_left (fun h b => to_u32 (Z.lxor h b * prime32)) data m_hash).
(* utils/hash/fnv.cpp FNV32a::Sum *)
Definition FNV32a_Sum (m_hash : Z) (inp : list Z) : list Z := BEAppendUint32 inp m_hash.
(* utils/hash/fnv.cpp FNV32a::MarshalBinary *)
Definition FNV32a_MarshalBinary (m_hash : Z) : list Z := BEAppendUint32 (fnv_magic 2) m_hash.
(* utils/hash/fnv.cpp FNV32a::UnmarshalBinary *)
Definition FNV32a_UnmarshalBinary (b : list Z) (m_hash : Z) : bool * Z :=
  if marshal_guard (fnv_magic 2) b 8 then (true, BEUint32 b 4) else (false, m_hash).

(* utils/hash/fnv.cpp FNV64::Reset *)
Definition FNV64_Reset (_ : Z) : Z := offset64.
(* utils/hash/fnv.cpp FNV64::Update *)
Definition FNV64_Update (data : list Z) : M Z unit := fun m_hash =>
  Done tt (fold_left (fun h b => Z.lxor (to_u64 (h * prime64)) b) data m_hash).
(* utils/hash/fnv.cpp FNV64::Sum *)
Definition FNV64_Sum (m_hash : Z) (inp : list Z) : list Z := BEAppendUint64 inp m_hash.
(* utils/hash/fnv.cpp FNV64::MarshalBinary *)
Definition FNV64_MarshalBinary (m_hash : Z) : list Z := BEAppendUint64 (fnv_magic 3) m_hash.
(* utils/hash/fnv.cpp FNV64::UnmarshalBinary *)
Definition FNV64_UnmarshalBinary (b : list Z) (m_hash : Z) : bool * Z :=
  if marshal_guard (fnv_magic 3) b 12 then (true, BEUint64 b 4) else (false, m_hash).

(* utils/hash/fnv.cpp FNV64a::Reset *)
Definition FNV64a_Reset (_ : Z) : Z := offset64.
(* utils/hash/fnv.cpp FNV64a::Update *)
Definition FNV64a_Update (data : list Z) : M Z unit := fun m_hash =>
  Done tt (fold_left (fun h b => to_u64 (Z.lxor h b * prime64)) data m_hash).
(* utils/hash/fnv.cpp FNV64a::Sum *)
Definition FNV64a_Sum (m_hash : Z) (inp : list Z) : list Z := BEAppendUint64 inp m_hash.
(* utils/hash/fnv.cpp FNV64a::MarshalBinary *)
Definition FNV64a_MarshalBinary (m_hash : Z) : list Z := BEAppendUint64 (fnv_magic 4) m_hash.
(* utils/hash/fnv.cpp FNV64a::UnmarshalBinary *)
Definition FNV64a_UnmarshalBinary (b : list Z) (m_hash : Z) : bool * Z :=
  if marshal_guard (fnv_magic 4) b 12 then (true, BEUint64 b 4) else (false, m_hash).

(** ** 128 bits: [(m_hash[0], m_hash[1])], the higher word first *)

(* utils/hash/fnv.cpp multiply128 *)
Definition multiply128 (higher lower primeLower primeShift : Z) : Z * Z :=
  let s0 := to_u64 (lower * primeLower) in
  let s1 := to_u64 (Z.shiftr lower 32 * primeLower) in
  let s1 := to_u64 (s1 + Z.shiftr s0 32) in
  let shift_part := to_u64 (Z.shiftl lower primeShift) in
  let s0 := to_u64 (s0 + shift_part) in
  let s1 := to_u64 (s1 + Z.shiftr shift_part 32) in
  let s0 := to_u64 (s0 + to_u64 (higher * primeLower)) in
  let s1 := to_u64 (s1 + Z.shiftr (to_u64 (higher * primeLower)) 32) in
  (s1, s0).

(* utils/hash/fnv.cpp FNV128::Reset *)
Definition FNV128_Reset (_ : Z * Z) : Z * Z := (offset128Higher, offset128Lower).
(* utils/hash/fnv.cpp FNV128::Update *)
Definition FNV128_Update (data : list Z) : M (Z * Z) unit := fun m_hash =>
  Done tt (fold_left (fun h b =>
    let h := multiply128 (fst h) (snd h) prime128Lower prime128Shift in
    (fst h, Z.lxor (snd h) b)) data m_hash).
(* utils/hash/fnv.cpp FNV128::Sum *)
Definition FNV128_Sum (m_hash : Z * Z) (inp : list Z) : list Z :=
  BEAppendUint64 (BEAppendUint64 inp (fst m_hash)) (snd m_hash).
(* utils/hash/fnv.cpp FNV128::MarshalBinary *)
Definition FNV128_MarshalBinary (m_hash : Z * Z) : list Z :=
  BEAppendUint64 (BEAppendUint64 (fnv_magic 5) (fst m_hash)) (snd m_hash).
(* utils/hash/fnv.cpp FNV128::UnmarshalBinary *)
Definition FNV128_UnmarshalBinary (b : list Z) (m_hash : Z * Z) : bool * (Z * Z) :=
  if marshal_guard (fnv_magic 5) b 20 then (true, (BEUint64 b 4, BEUint64 b 12)) else (false, m_hash).

(* utils/hash/fnv.cpp FNV128a::Reset *)
Definition FNV128a_Reset (_ : Z * Z) : Z * Z := (offset128Higher, offset128Lower).
(* utils/hash/fnv.cpp FNV128a::Update *)
Definition FNV128a_Update (data : list Z) : M (Z * Z) unit := fun m_hash =>
  Done tt (fold_left (fun h b =>
    multiply128 (fst h) (Z.lxor (snd h) b) prime128Lower prime128Shift) data m_hash).
(* utils/hash/fnv.cpp FNV128a::Sum *)
Definition FNV128a_Sum (m_hash : Z * Z) (inp : list Z) : list Z :=
  BEAppendUint64 (BEAppendUint64 inp (fst m_hash)) (snd m_hash).
(* utils/hash/fnv.cpp FNV128a::MarshalBinary *)
Definition FNV128a_MarshalBinary (m_hash : Z * Z) : list Z :=
  BEAppendUint64 (BEAppendUint64 (fnv_magic 6) (fst m_hash)) (snd m_hash).
(* utils/hash/fnv.cpp FNV128a::UnmarshalBinary *)
Definition FNV128a_UnmarshalBinary (b : list Z) (m_hash : Z * Z) : bool * (Z * Z) :=
  if marshal_guard (fnv_magic 6) b 20 then (true, (BEUint64 b 4, BEUint64 b 12)) else (false, m_hash).

(** ** The CRC-32 digest: a checksum and a table, which may be the null pointer *)

(* utils/hash/crc32.h:24-28 Digest *)
Record Digest := mkDigest { crc : Z; hdl : option (list Z) }.

(* utils/hash/crc32.cpp CRC32::CRC32 #2 *)
Definition CRC32_new (poly : Polynomial) : Digest := mkDigest 0 (Some (MakeHandle poly)).
(* utils/hash/crc32.cpp NewIEEE *)
Definition NewIEEE : Digest := mkDigest 0 (Some (MakeHandle IEEE)).
(* utils/hash/crc32.cpp CRC32::Reset *)
Definition CRC32_Reset (d : Digest) : Digest := mkDigest 0 (hdl d).
(** The loop does not touch the table when there is no byte. *)
(* utils/hash/crc32.cpp CRC32::Update *)
Definition CRC32_Update (data : list Z) : M Digest unit := fun d =>
  match hdl d, data with
  | Some tab, _ => Done tt (mkDigest (Update (crc d) data tab) (hdl d))
  | None, [] => Done tt (mkDigest (Update (crc d) [] []) (hdl d))
  | None, _ :: _ => Fault FUB
  end.
(* utils/hash/crc32.cpp CRC32::Sum *)
Definition CRC32_Sum (d : Digest) (inp : list Z) : list Z := BEAppendUint32 inp (crc d).

(** A word as its bytes in memory, least significant first *)
Definition le4 (w : Z) : list Z := rev (be 4 w).
(** [sizeof(Handle)] is the size of the pointer: eight bytes, two entries of the table. *)
Definition table_bytes (tab : list Z) : list Z := take 8 (tab ≫= le4).
Definition table_sum (d : Digest) : Z :=
  match hdl d with Some tab => ChecksumIEEE (table_bytes tab) | None => 0 end.
(* utils/hash/crc32.cpp CRC32::MarshalBinary *)
Definition CRC32_MarshalBinary (d : Digest) : list Z :=
  BEAppendUint32 (BEAppendUint32 [99; 114; 99; 1] (table_sum d)) (crc d).
(* utils/hash/crc32.cpp CRC32::UnmarshalBinary *)
Definition CRC32_UnmarshalBinary (b : list Z) (d : Digest) : bool * Digest :=
  if marshal_guard [99; 114; 99; 1] b 12 then
    let storedTableSum := BEUint32 b 4 in
    if negb (table_sum d =? storedTableSum) then (false, d)
    else (true, mkDigest (BEUint32 b 8) (hdl d))
  else (false, d).

(** ** The interface *)

Record Hasher (H : Type) := {
  h_reset : H -> H;
  h_update : list Z -> M H unit;
  h_marshal : H -> list Z;
  h_unmarshal : list Z -> H -> bool * H;
  (** the values a live object can have *)
  h_ok : H -> Prop;
  (** one of the two may be restored into the other *)
  h_same : H -> H -> Prop
}.

Arguments h_reset {H}.
Arguments h_update {H}.
Arguments h_marshal {H}.
Arguments h_unmarshal {H}.
Arguments h_ok {H}.
Arguments h_same {H}.

Class HasherLaws {H : Type} (X : Hasher H) : Prop := {
  law_same h : h_ok X h -> h_same X h h;
  law_same_trans h k l : h_same X h k -> h_same X k l -> h_same X h l;
  law_reset_same h k : h_same X h k -> h_reset X h = h_reset X k;
  law_reset h : h_ok X h -> h_ok X (h_reset X h) /\ h_same X (h_reset X h) h;
  law_update data h :
    Forall (in_u 8) data -> h_ok X h ->
    exists h', h_update X data h = Done tt h' /\ h_ok X h' /\ h_same X h' h;
  law_update_app a b h : h_update X (a ++ b) h = (h_update X a ;;; h_update X b) h;
  law_unmarshal b h k :
    Forall (in_u 8) b -> h_ok X k ->
    (h_unmarshal X b k = (true, h) <-> h_ok X h /\ h_same X h k /\ b = h_marshal X h);
  law_refused b h k : h_unmarshal X b k = (false, h) -> h = k;
  law_marshal_bytes h : Forall (in_u 8) (h_marshal X h)
}.

Definition FNV32_hasher : Hasher Z :=
  Build_Hasher Z FNV32_Reset FNV32_Update FNV32_MarshalBinary FNV32_UnmarshalBinary (in_u 32) (fun _ _ => True).
Definition FNV32a_hasher : Hasher Z :=
  Build_Hasher Z FNV32a_Reset FNV32a_Update FNV32a_MarshalBinary FNV32a_UnmarshalBinary (in_u 32) (fun _ _ => True).
Definition FNV64_hasher : Hasher Z :=
  Build_Hasher Z FNV64_Reset FNV64_Update FNV64_MarshalBinary FNV64_UnmarshalBinary (in_u 64) (fun _ _ => True).
Definition FNV64a_hasher : Hasher Z :=
  Build_Hasher Z FNV64a_Reset FNV64a_Update FNV64a_MarshalBinary FNV64a_UnmarshalBinary (in_u 64) (fun _ _ => True).
Definition pair_ok (h : Z * Z) : Prop := in_u 64 (fst h) /\ in_u 64 (snd h).
Definition FNV128_hasher : Hasher (Z * Z) :=
  Build_Hasher (Z * Z) FNV128_Reset FNV128_Update FNV128_MarshalBinary FNV128_UnmarshalBinary pair_ok (fun _ _ => True).
Definition FNV128a_hasher : Hasher (Z * Z) :=
  Build_Hasher (Z * Z) FNV128a_Reset FNV128a_Update FNV128a_MarshalBinary FNV128a_UnmarshalBinary pair_ok (fun _ _ => True).
(** A digest's table is the one of some polynomial. *)
Definition digest_ok (d : Digest) : Prop :=
  in_u 32 (crc d) /\ exists poly, in_u 32 poly /\ hdl d = Some (SimpleMakeHandle poly).
Definition CRC32_hasher : Hasher Digest :=
  Build_Hasher Digest CRC32_Reset CRC32_Update CRC32_MarshalBinary CRC32_UnmarshalBinary digest_ok
    (fun h k => hdl h = hdl k).

(** ** Bit ranges *)

Lemma bits_in_u w x : 0 <= w -> (in_u w x <-> 0 <= x /\ forall n, w <= n -> Z.testbit x n = false).
Proof.
  intros Hw. unfold in_u. split.
  - intros H. split; [lia|]. intros n Hn. rewrite <- (Z.mod_small x (2 ^ w)) by lia.
    by rewrite Z.mod_pow2_bits_high by lia.
  - intros [H0 H]. split; [done|]. destruct (Z.ltb_spec x (2 ^ w)) as [|Hge]; [done|].
    assert (x <> 0) as Hx by (pose proof (Z.pow_pos_nonneg 2 w); lia).
    pose proof (Z.bit_log2 x ltac:(lia)) as Hb. rewrite H in Hb; [done|].
    by apply Z.log2_le_pow2; lia.
Qed.
Lemma lxor_in_u w a b : 0 <= w -> in_u w a -> in_u w b -> in_u w (Z.lxor a b).
Proof.
  intros Hw. rewrite !bits_in_u by done. intros [Ha Hba] [Hb Hbb]. split.
  - apply Z.lxor_nonneg. lia.
  - intros n Hn. by rewrite Z.lxor_spec, Hba, Hbb.
Qed.
Lemma shiftr_in_u w a k : 0 <= w -> 0 <= k -> in_u w a -> in_u w (Z.shiftr a k).
Proof.
  unfold in_u. intros Hw Hk Ha. rewrite Z.shiftr_div_pow2 by done.
  assert (0 < 2 ^ k) by (apply Z.pow_pos_nonneg; lia).
  split; [apply Z.div_pos; lia|]. apply Z.div_lt_upper_bound; nia.
Qed.
Lemma in_u_weaken v w x : 0 <= v <= w -> in_u v x -> in_u w x.
Proof.
  unfold in_u. intros Hvw Hx. pose proof (Z.pow_le_mono_r 2 v w ltac:(lia) ltac:(lia)). lia.
Qed.

(** ** Big-endian words, read back *)

Lemma be_val_range bs : Forall (in_u 8) bs -> 0 <= be_val bs < 2 ^ (8 * Zlen bs).
Proof.
  induction 1 as [|b bs Hb _ IH]; [done|]. rewrite be_val_cons, Zlen_cons.
  replace (8 * (1 + Zlen bs)) with (8 + 8 * Zlen bs) by lia.
  rewrite Z.pow_add_r by (pose proof (Zlen_nonneg bs); lia). unfold in_u in Hb. nia.
Qed.
Lemma be_high n k x : be n (k * 2 ^ (8 * Z.of_nat n) + x) = be n x.
Proof.
  revert k. induction n as [|n IH]; intros k; [done|]. cbn [be].
  replace (8 * Z.of_nat (S n)) with (8 + 8 * Z.of_nat n) by lia.
  rewrite Z.pow_add_r, Z.mul_assoc by lia. f_equal; [|apply IH].
  rewrite !land_255, !Z.shiftr_div_pow2 by lia.
  rewrite Z.div_add_l by (pose proof (Z.pow_pos_nonneg 2 (8 * Z.of_nat n)); lia).
  change (2 ^ 8) with 256. by rewrite Z.add_comm, Z.mod_add by lia.
Qed.
Lemma be_be_val bs : Forall (in_u 8) bs -> be (length bs) (be_val bs) = bs.
Proof.
  induction 1 as [|b bs Hb Hbs IH]; [done|]. cbn [length be].
  pose proof (be_val_range _ Hbs) as Hr. unfold in_u in Hb. rewrite be_val_cons. unfold Zlen in *. f_equal.
  - rewrite land_255, Z.shiftr_div_pow2 by lia.
    rewrite Z.div_add_l, Z.div_small, Z.add_0_r by lia. by apply Z.mod_small.
  - by rewrite be_high.
Qed.
(** A string of [n] bytes and the [n]-byte number it denotes determine each other. *)
Lemma be_val_in_u n bs : Forall (in_u 8) bs -> length bs = n -> in_u (8 * Z.of_nat n) (be_val bs).
Proof. intros Hb <-. apply (be_val_range _ Hb). Qed.
Lemma be_val_inj n bs : Forall (in_u 8) bs -> length bs = n -> be n (be_val bs) = bs.
Proof. intros Hb <-. by apply be_be_val. Qed.
Lemma be_val_of_be n v : in_u (8 * Z.of_nat n) v -> be_val (be n v) = v.
Proof. intros Hv. rewrite be_val_be. by apply Z.mod_small. Qed.

Lemma marshal_guard_spec magic b n :
  length magic = 4%nat ->
  (marshal_guard magic b (4 + Z.of_nat n) = true <-> exists ws, b = magic ++ ws /\ length ws = n).
Proof.
  intros Hm. unfold marshal_guard, Zlen. rewrite andb_true_iff, negb_true_iff, orb_false_iff, negb_false_iff.
  rewrite Z.ltb_ge, Z.eqb_eq, bool_decide_eq_true. split.
  - intros [[H4 Ht] Hl]. exists (drop 4 b). split; [by rewrite <- Ht, take_drop|].
    rewrite length_drop. lia.
  - intros (ws & -> & Hw). rewrite length_app, take_app_length' by done. split_and!; [lia|done|lia].
Qed.

(** A digest that is one word, or two, after the magic. *)
Lemma unmarshal_word magic b h n :
  length magic = 4%nat -> Forall (in_u 8) b ->
  (marshal_guard magic b (4 + Z.of_nat n) = true /\ be_val (take n (drop 4 b)) = h <->
   in_u (8 * Z.of_nat n) h /\ b = magic ++ be n h).
Proof.
  intros Hm Hb. rewrite marshal_guard_spec by done. split.
  - intros [(ws & -> & Hw) Hv]. apply Forall_app in Hb as [_ Hb].
    rewrite drop_app_length', <- Hw, firstn_all in Hv by done. subst h.
    split; [by apply be_val_in_u|]. by rewrite be_val_inj.
  - intros [Hh ->]. split; [exists (be n h); split; [done|apply length_be]|].
    rewrite drop_app_length' by done. rewrite take_ge by by rewrite length_be. by apply be_val_of_be.
Qed.
Lemma unmarshal_words magic b h l n m :
  length magic = 4%nat -> Forall (in_u 8) b ->
  (marshal_guard magic b (4 + Z.of_nat (n + m)) = true /\
     be_val (take n (drop 4 b)) = h /\ be_val (take m (drop (4 + n) b)) = l <->
   (in_u (8 * Z.of_nat n) h /\ in_u (8 * Z.of_nat m) l) /\ b = magic ++ be n h ++ be m l).
Proof.
  intros Hm Hb. rewrite marshal_guard_spec by done. split.
  - intros [(ws & -> & Hw) [Hh Hl]]. apply Forall_app in Hb as [_ Hb].
    rewrite <- drop_drop in Hl. rewrite drop_app_length' in Hh, Hl by done.
    rewrite (take_ge (drop n ws)) in Hl by (rewrite length_drop; lia).
    assert (Forall (in_u 8) (take n ws)) by by apply Forall_take.
    assert (Forall (in_u 8) (drop n ws)) by by apply Forall_drop.
    assert (length (take n ws) = n) by (rewrite length_take; lia).
    assert (length (drop n ws) = m) by (rewrite length_drop; lia).
    subst h l. split; [split; by apply be_val_in_u|]. by rewrite !be_val_inj, take_drop.
  - intros [[Hh Hl] ->]. split; [|split].
    + eexists. split; [done|]. rewrite length_app, !length_be. done.
    + rewrite drop_app_length', take_app_length' by (done || by rewrite length_be). by apply be_val_of_be.
    + rewrite <- drop_drop, drop_app_length', drop_app_length' by (done || by rewrite length_be).
      rewrite take_ge by by rewrite length_be. by apply be_val_of_be.
Qed.

(** ** Every hash object keeps the interface *)

Lemma fold_ok {H} (ok : H -> Prop) (step : H -> Z -> H) data h :
  (forall k b, in_u 8 b -> ok k -> ok (step k b)) -> Forall (in_u 8) data -> ok h ->
  ok (fold_left step data h).
Proof. intros Hs Hd. revert h. induction Hd; cbn; auto. Qed.

Lemma to_u_in_u w x : 0 <= w -> in_u w (to_u w x).
Proof. apply to_u_range. Qed.
#[local] Hint Resolve to_u_in_u lxor_in_u be_bytes : core.
#[local] Hint Extern 1 (in_u _ _) => eapply in_u_weaken; [|eassumption]; lia : core.
#[local] Hint Extern 1 (_ <= _) => lia : core.

(** The laws of a digest that is one word of [n] bytes under a magic number *)
Lemma word_laws n magic reset step marshal unmarshal :
  length magic = 4%nat -> Forall (in_u 8) magic ->
  (forall h k, reset h = reset k) -> (forall h, in_u (8 * Z.of_nat n) (reset h)) ->
  (forall k b, in_u 8 b -> in_u (8 * Z.of_nat n) k -> in_u (8 * Z.of_nat n) (step k b)) ->
  (forall h, marshal h = magic ++ be n h) ->
  (forall b k, unmarshal b k =
     if marshal_guard magic b (4 + Z.of_nat n) then (true, be_val (take n (drop 4 b))) else (false, k)) ->
  HasherLaws (Build_Hasher Z reset (fun data h => Done tt (fold_left step data h)) marshal unmarshal
                (in_u (8 * Z.of_nat n)) (fun _ _ => True)).
Proof.
  intros Hm Hmb He Hr Hs Em Eu. split; cbn; try done.
  - intros data h Hd Hh. eexists. split; [done|]. split; [|done]. by apply (fold_ok (in_u _)).
  - intros a b h. unfold bind. by rewrite fold_left_app.
  - intros b h k Hb _. rewrite Eu, Em. pose proof (unmarshal_word magic b h n Hm Hb) as E.
    destruct (marshal_guard _ _ _); (split; [intros [=]; subst|intros (Hh & _ & Hb')]); try done.
    + by destruct (proj1 E (conj eq_refl eq_refl)).
    + f_equal. by apply (proj2 E).
    + by destruct (proj2 E (conj Hh Hb')).
  - intros b h k. rewrite Eu. case_match; by intros [=].
  - intros h. rewrite Em. by apply Forall_app.
Qed.
Lemma pair_laws magic reset step marshal unmarshal :
  length magic = 4%nat -> Forall (in_u 8) magic ->
  (forall h k, reset h = reset k) -> (forall h, pair_ok (reset h)) -> (forall k b, in_u 8 b -> pair_ok k -> pair_ok (step k b)) ->
  (forall h, marshal h = magic ++ be 8 (fst h) ++ be 8 (snd h)) ->
  (forall b k, unmarshal b k =
     if marshal_guard magic b 20
     then (true, (be_val (take 8 (drop 4 b)), be_val (take 8 (drop 12 b)))) else (false, k)) ->
  HasherLaws (Build_Hasher (Z * Z) reset (fun data h => Done tt (fold_left step data h)) marshal unmarshal
                pair_ok (fun _ _ => True)).
Proof.
  intros Hm Hmb He Hr Hs Em Eu. split; cbn; try done.
  - intros data h Hd Hh. eexists. split; [done|]. split; [|done]. by apply (fold_ok pair_ok).
  - intros a b h. unfold bind. by rewrite fold_left_app.
  - intros b [h l] k Hb _. rewrite Eu, Em. pose proof (unmarshal_words magic b h l 8 8 Hm Hb) as E.
    change (4 + Z.of_nat (8 + 8)) with 20 in E. change (8 * Z.of_nat 8) with 64 in E.
    cbn [fst snd Nat.add] in *. unfold pair_ok. cbn [fst snd].
    destruct (marshal_guard _ _ _); (split; [intros [=]; subst|intros (Hh & _ & Hb')]); try done.
    + by destruct (proj1 E (conj eq_refl (conj eq_refl eq_refl))).
    + by destruct (proj2 E (conj Hh Hb')) as (_ & <- & <-).
    + by destruct (proj2 E (conj Hh Hb')).
  - intros b h k. rewrite Eu. case_match; by intros [=].
  - intros h. rewrite Em. by repeat apply Forall_app_2.
Qed.

Ltac fnv_laws lem :=
  apply lem; try done;
  [ by repeat constructor | .. ];
  try (intros; unfold BEAppendUint32, BEAppendUint64; by rewrite <- ?app_assoc).

Lemma multiply128_ok hi lo p sh : pair_ok (multiply128 hi lo p sh).
Proof. unfold multiply128, pair_ok. cbn. auto. Qed.
#[local] Hint Resolve multiply128_ok : core.

#[export] Instance FNV32_laws : HasherLaws FNV32_hasher.
Proof. fnv_laws (word_laws 4 (fnv_magic 1)); auto 6. Qed.
#[export] Instance FNV32a_laws : HasherLaws FNV32a_hasher.
Proof. fnv_laws (word_laws 4 (fnv_magic 2)); auto 6. Qed.
#[export] Instance FNV64_laws : HasherLaws FNV64_hasher.
Proof. fnv_laws (word_laws 8 (fnv_magic 3)); auto 6. Qed.
#[export] Instance FNV64a_laws : HasherLaws FNV64a_hasher.
Proof. fnv_laws (word_laws 8 (fnv_magic 4)); auto 6. Qed.
#[export] Instance FNV128_laws : HasherLaws FNV128_hasher.
Proof.
  fnv_laws (pair_laws (fnv_magic 5)). intros k b Hb Hk.
  destruct (multiply128_ok (fst k) (snd k) prime128Lower prime128Shift). split; cbn [fst snd]; auto.
Qed.
#[export] Instance FNV128a_laws : HasherLaws FNV128a_hasher.
Proof. fnv_laws (pair_laws (fnv_magic 6)); auto. Qed.

(** The checksum stays a 32-bit word. *)
Lemma crc_bits_in_u n poly c : in_u 32 poly -> in_u 32 c -> in_u 32 (crc_bits n poly c).
Proof.
  intros Hp Hc. unfold crc_bits. apply Nat.iter_invariant; [|done]. intros x Hx. unfold crc_bit.
  assert (in_u 32 (Z.shiftr x 1)) by by apply shiftr_in_u. case_match; auto.
Qed.
Lemma crc_ref_in_u poly data c :
  in_u 32 poly -> Forall (in_u 8) data -> in_u 32 c -> in_u 32 (crc_ref poly data c).
Proof. intros Hp. apply (fold_ok (in_u 32)). intros k b Hb Hk. apply crc_bits_in_u; auto. Qed.
Lemma not32_in_u x : in_u 32 x -> in_u 32 (not32 x).
Proof. intros Hx. unfold not32. apply lxor_in_u; [done..|]. unfold in_u. lia. Qed.
Lemma Update_in_u poly data c :
  in_u 32 poly -> Forall (in_u 8) data -> in_u 32 c -> in_u 32 (Update c data (SimpleMakeHandle poly)).
Proof.
  intros. unfold Update, SimpleUpdate. rewrite fold_update_ref by done.
  by apply not32_in_u, crc_ref_in_u; [..|apply not32_in_u].
Qed.
Lemma table_bytes_ok tab : Forall (in_u 8) (table_bytes tab).
Proof.
  apply Forall_take. induction tab as [|w tab IH]; [constructor|].
  apply Forall_app_2; [|exact IH]. unfold le4. by apply Forall_rev.
Qed.
Lemma table_sum_in_u d : in_u 32 (table_sum d).
Proof.
  unfold table_sum, ChecksumIEEE, Checksum, MakeHandle. destruct (hdl d); [|by unfold in_u].
  apply Update_in_u; [by unfold in_u|apply table_bytes_ok|by unfold in_u].
Qed.
Lemma Update_app c a b tab : Update c (a ++ b) tab = Update (Update c a tab) b tab.
Proof. unfold Update, SimpleUpdate. by rewrite not32_not32, fold_left_app. Qed.

Lemma CRC32_unmarshal b c t k :
  Forall (in_u 8) b -> digest_ok k ->
  (CRC32_UnmarshalBinary b k = (true, mkDigest c t) <->
   digest_ok (mkDigest c t) /\ t = hdl k /\ b = CRC32_MarshalBinary (mkDigest c t)).
Proof.
  intros Hb Hk. unfold CRC32_UnmarshalBinary, BEUint32.
  pose proof (unmarshal_words [99; 114; 99; 1] b (table_sum k) c 4 4 eq_refl Hb) as E.
  change (4 + Z.of_nat (4 + 4)) with 12 in E. change (8 * Z.of_nat 4) with 32 in E. cbn [Nat.add] in E.
  assert (t = hdl k -> CRC32_MarshalBinary (mkDigest c t) = [99; 114; 99; 1] ++ be 4 (table_sum k) ++ be 4 c) as Em.
  { intros ->. unfold CRC32_MarshalBinary, BEAppendUint32. by rewrite <- app_assoc. }
  destruct Hk as (_ & poly & Hp & Ht). split.
  - destruct (marshal_guard _ _ _); [|done]. destruct (Z.eqb_spec (table_sum k) (be_val (take 4 (drop 4 b)))) as [Es|]; [|done].
    cbn [negb]. intros [= Ec Et]. destruct (proj1 E (conj eq_refl (conj (eq_sym Es) Ec))) as [[_ Hc] Eb].
    split; [split; [done|]|split; [done|by rewrite Em]]. subst t. eauto.
  - intros ([Hc _] & Et & Eb). rewrite Em in Eb by done.
    destruct (proj2 E (conj (conj (table_sum_in_u k) Hc) Eb)) as (-> & Es & Ec).
    rewrite Es, Ec, Z.eqb_refl. by subst t.
Qed.

#[export] Instance CRC32_laws : HasherLaws CRC32_hasher.
Proof.
  split; cbn.
  - done.
  - intros h k l. congruence.
  - intros h k E. unfold CRC32_Reset. by rewrite E.
  - intros h (Hc & poly & Hp & Ht). split; [|done]. split; [by unfold in_u; cbn|]. eauto.
  - intros data [c t] Hd (Hc & poly & Hp & Ht). cbn in *. subst t. eexists. split; [done|].
    split; [|done]. split; [by apply Update_in_u|]. eauto.
  - intros a b [c [t|]]; unfold bind, CRC32_Update; cbn.
    + by rewrite Update_app.
    + destruct a; cbn; [|done]. destruct b; [|done]. unfold Update, SimpleUpdate. cbn. by rewrite !not32_not32.
  - intros b [c t] k Hb Hk. exact (CRC32_unmarshal b c t k Hb Hk).
  - intros b h k. unfold CRC32_UnmarshalBinary. repeat case_match; by intros [=].
  - intros h. change (Forall (in_u 8) (([99; 114; 99; 1] ++ be 4 (table_sum h)) ++ be 4 (crc h))).
    apply Forall_app_2; [apply Forall_app_2|]; [|apply be_bytes..]. by repeat constructor.
Qed.

(** ** Saving and restoring *)

(** The state saved after [a] is restored into any object of the same kind and goes on to
    the digest of [a ++ b]; what is not a saved state is refused and changes nothing. *)
Definition resumes {H} (X : Hasher H) : Prop :=
  (forall h k a b, h_ok X h -> h_ok X k -> h_same X h k -> Forall (in_u 8) a -> Forall (in_u 8) b ->
     exists part whole,
       h_update X a (h_reset X h) = Done tt part /\
       h_unmarshal X (h_marshal X part) k = (true, part) /\
       h_update X b part = Done tt whole /\
       h_update X (a ++ b) (h_reset X h) = Done tt whole) /\
  (forall bs k, Forall (in_u 8) bs -> h_ok X k ->
     (forall h, h_ok X h -> h_same X h k -> bs <> h_marshal X h) -> h_unmarshal X bs k = (false, k)).

Lemma hasher_resumes {H} (X : Hasher H) `{!HasherLaws X} : resumes X.
Proof.
  split.
  - intros h k a b Hh Hk Hs Ha Hb. destruct (law_reset h Hh) as [Hr Hrs].
    destruct (law_update a _ Ha Hr) as (part & Ea & Hp & Hps).
    destruct (law_update b part Hb Hp) as (whole & Eb & _). exists part, whole. split_and!; [done| |done|].
    + apply law_unmarshal; [apply law_marshal_bytes|done|]. split; [done|]. split; [|done].
      eapply law_same_trans; [exact Hps|]. by eapply law_same_trans.
    + rewrite law_update_app. unfold bind. by rewrite Ea.
  - intros bs k Hb Hk Hno. destruct (h_unmarshal X bs k) as [[] h] eqn:E.
    + apply law_unmarshal in E as (Hh & Hs & ->); [|done..]. by destruct (Hno h Hh Hs).
    + by apply law_refused in E as ->.
Qed.

(** Every hash object (six FNV variants and the CRC-32 digest) can be saved between
    two updates and restored into another object of its kind, which goes on to the hash of
    the whole input; any other byte string is refused and leaves the object unchanged. *)
Theorem hashes_resume :
  resumes FNV32_hasher /\ resumes FNV32a_hasher /\ resumes FNV64_hasher /\ resumes FNV64a_hasher /\
  resumes FNV128_hasher /\ resumes FNV128a_hasher /\ resumes CRC32_hasher.
Proof. split_and!; apply (hasher_resumes _). Qed.

(** ** The 128-bit variants *)

(** FNV-128: a multiplication by 2^88 + 0x13b modulo 2^128 and a byte, in either order *)
Definition fnv128_prime : Z := 2 ^ 88 + 0x13b.
Definition word128 (h : Z * Z) : Z := fst h * 2 ^ 64 + snd h.
Definition fnv128_ref (data : list Z) (h : Z) : Z :=
  fold_left (fun h b => Z.lxor (to_u 128 (h * fnv128_prime)) b) data h.
Definition fnv128a_ref (data : list Z) (h : Z) : Z :=
  fold_left (fun h b => to_u 128 (Z.lxor h b * fnv128_prime)) data h.

(** The low word of the product is only right when the terms that belong to the high word
    happen to vanish from it. *)
Lemma multiply128_low hi lo :
  snd (multiply128 hi lo prime128Lower prime128Shift) =
    (lo * prime128Lower + (lo * 2 ^ 24 + hi * prime128Lower)) mod 2 ^ 64.
Proof.
  unfold multiply128, to_u. cbn [snd]. rewrite Z.shiftl_mul_pow2 by done.
  change (2 ^ prime128Shift) with (2 ^ 24).
  rewrite <- !Zplus_mod, <- Z.add_assoc, Zplus_mod_idemp_l, Z.add_comm, <- Z.add_assoc, Zplus_mod_idemp_l.
  f_equal. lia.
Qed.
Lemma word128_low hi lo :
  to_u 128 ((hi * 2 ^ 64 + lo) * fnv128_prime) mod 2 ^ 64 = (lo * prime128Lower) mod 2 ^ 64.
Proof.
  unfold to_u, fnv128_prime, prime128Lower.
  replace (((hi * 2 ^ 64 + lo) * (2 ^ 88 + 0x13b)) mod 2 ^ 128) with
    (((hi * 2 ^ 64 + lo) * (2 ^ 88 + 0x13b)) mod (2 ^ 64 * 2 ^ 64)) by done.
  rewrite Z.rem_mul_r, (Z.mul_comm (2 ^ 64) (_ mod _)), Z.mod_add, Z.mod_mod by done.
  replace ((hi * 2 ^ 64 + lo) * (2 ^ 88 + 315))
    with (lo * 315 + (hi * (2 ^ 88 + 315) + lo * 2 ^ 24) * 2 ^ 64) by lia.
  by apply Z.mod_add.
Qed.

(** A property of bytes that is decided on all 256 of them *)
Lemma byte_cases (P : Z -> Prop) `{!forall b, Decision (P b)} :
  forallb (fun n => bool_decide (P (Z.of_nat n))) (seq 0 256) = true -> forall b, in_u 8 b -> P b.
Proof.
  intros Hall b Hb. unfold in_u in Hb. rewrite forallb_forall in Hall.
  rewrite <- (Z2Nat.id b) by lia. apply (bool_decide_eq_true _), Hall, in_seq. lia.
Qed.

(** [multiply128] does not multiply by the FNV-128 prime: the low word is right only
    when [lo * 2^24 + hi * 0x13b] is a multiple of 2^64, and the hash of every one-byte
    input differs from FNV-128 and FNV-128a. *)
Theorem fnv128_not_fnv hi lo b :
  in_u 64 hi -> in_u 64 lo -> in_u 8 b ->
  (snd (multiply128 hi lo prime128Lower prime128Shift) =
     to_u 128 (word128 (hi, lo) * fnv128_prime) mod 2 ^ 64 <->
   (lo * 2 ^ 24 + hi * prime128Lower) mod 2 ^ 64 = 0) /\
  (forall h h', FNV128_Update [b] (FNV128_Reset h) = Done tt h' ->
     word128 h' <> fnv128_ref [b] (word128 (FNV128_Reset h))) /\
  (forall h h', FNV128a_Update [b] (FNV128a_Reset h) = Done tt h' ->
     word128 h' <> fnv128a_ref [b] (word128 (FNV128a_Reset h))).
Proof.
  intros Hhi Hlo Hb. split_and!.
  - unfold word128. cbn [fst snd]. rewrite multiply128_low, word128_low.
    set (x := lo * prime128Lower). set (y := lo * 2 ^ 24 + hi * prime128Lower).
    split; intros E; Z.div_mod_to_equations; lia.
  - intros h h' [= <-]. revert b Hb. refine (byte_cases (fun b => _ <> _) _). by vm_compute.
  - intros h h' [= <-]. revert b Hb. refine (byte_cases (fun b => _ <> _) _). by vm_compute.
Qed.
Example fnv128_not_fnv_witness :
  FNV128_Update [97] (FNV128_Reset (0, 0)) = Done tt (527262491087, 5384606242950127828) /\
  word128 (527262491087, 5384606242950127828) <>
    fnv128_ref [97] (word128 (FNV128_Reset (0, 0))).
Proof.
  assert (FNV128_Update [97] (FNV128_Reset (0, 0)) =
    Done tt (527262491087, 5384606242950127828)) as E by by vm_compute.
  split; [exact E|]. refine (proj1 (proj2 (fnv128_not_fnv 1 1 97 _ _ _)) (0, 0) _ E); by unfold in_u.
Defined.
