(* ===== verification/Partitioner.v ===== *)
(** * Partitioners

    [coev_kafka/partitioner.cpp]: which partition a message goes to.  The object graph
    is a tree (a hash partitioner owns its hasher and its fallback), so a partitioner is
    a value and a call returns the changed one.  The random engine and its distribution
    are the C++ library's: a parameter, with the documented range. *)
From Stdlib Require Import ZArith Lia Bool.
From stdpp Require Import base tactics list numbers.
From S2P Require Import Prelude Wire Crc Hashes.

(** The fields of a message that partitioners read *)
(* coev_kafka/producer_message.h:34-41 ProducerMessage *)
Record ProducerMessage := mkMessage { pm_topic : list Z; pm_key : list Z; pm_partition : Z }.

(** [shared_ptr<Hash32>]: an object together with the members of its class *)
(* utils/hash/hash.h:12-24 Hash32 *)
Record Hash32 := mkHash32 {
  h32_type : Type; h32_ops : Hasher h32_type; h32_final : h32_type -> Z; h32_object : h32_type
}.
(* utils/hash/fnv.cpp New32a *)
Definition New32a : Hash32 := mkHash32 Z FNV32a_hasher (fun h => h) offset32.
Definition NewIEEE32 : Hash32 := mkHash32 Digest CRC32_hasher crc NewIEEE.

(** [a % b] on [int32_t] *)
Definition i32_rem (a b : Z) : option Z :=
  if (b =? 0) || ((b =? -1) && (a =? - 2 ^ 31)) then None else Some (Z.rem a b).

Section Partitioner.
Context {G : Type} (uniform : Z -> Z -> G -> Z * G).

(* coev_kafka/partitioner.h:39-76 Partitioner *)
Inductive Partitioner :=
| ManualPartitioner
| RandomPartitioner (m_generator : G)
| RoundRobinPartitioner (m_partition : Z)
| HashPartitioner (m_random_partitioner : Partitioner) (m_hasher : Hash32)
    (m_reference_abs m_hash_unsigned : bool).

(** The hash of the key: [Reset], [Update], [Final] on the owned object *)
(* coev_kafka/partitioner.cpp:91-93 HashPartitioner::partition *)
Definition hash_key (h : Hash32) (bytes : list Z) : outcome Hash32 Z :=
  match h_update (h32_ops h) bytes (h_reset (h32_ops h) (h32_object h)) with
  | Done _ o => Done (h32_final h o) (mkHash32 _ (h32_ops h) (h32_final h) o)
  | Fault f => Fault f
  end.
(* coev_kafka/partitioner.cpp:95-110 HashPartitioner::partition *)
Definition hash_choice (reference_abs hash_unsigned : bool) (hash_value num_partitions : Z) : option Z :=
  if reference_abs then i32_rem (Z.land (to_i32 hash_value) 0x7fffffff) num_partitions
  else if hash_unsigned then
    if to_u32 num_partitions =? 0 then None else Some (to_i32 (hash_value mod to_u32 num_partitions))
  else
    match i32_rem (to_i32 hash_value) num_partitions with
    | Some result => Some (if result <? 0 then - result else result)
    | None => None
    end.

(* coev_kafka/partitioner.cpp RandomPartitioner::partition *)
Definition RandomPartitioner_partition (g : G) (num_partitions : Z) : outcome Partitioner (dres Z) :=
  if bool_decide (0 <= num_partitions - 1) then
    let '(result, g) := uniform 0 (num_partitions - 1) g in Done (Ok result) (RandomPartitioner g)
  else Fault FUB.
(* coev_kafka/partitioner.cpp RoundRobinPartitioner::partition *)
Definition RoundRobinPartitioner_partition (m_partition num_partitions : Z) : outcome Partitioner (dres Z) :=
  let m_partition := if num_partitions <=? m_partition then 0 else m_partition in
  let result := m_partition in
  if bool_decide (in_s 32 (m_partition + 1)) then Done (Ok result) (RoundRobinPartitioner (m_partition + 1))
  else Fault FUB.
(* coev_kafka/partitioner.cpp HashPartitioner::partition *)
Fixpoint partition (p : Partitioner) (message : ProducerMessage) (num_partitions : Z)
    : outcome Partitioner (dres Z) :=
  match p with
  | ManualPartitioner => Done (Ok (pm_partition message)) p
  | RandomPartitioner g => RandomPartitioner_partition g num_partitions
  | RoundRobinPartitioner m => RoundRobinPartitioner_partition m num_partitions
  | HashPartitioner random hasher reference_abs hash_unsigned =>
      match pm_key message with
      | [] =>
          match partition random message num_partitions with
          | Done r random => Done r (HashPartitioner random hasher reference_abs hash_unsigned)
          | Fault f => Fault f
          end
      | bytes =>
          match hash_key hasher bytes with
          | Done hash_value hasher =>
              match hash_choice reference_abs hash_unsigned hash_value num_partitions with
              | Some result => Done (Ok result) (HashPartitioner random hasher reference_abs hash_unsigned)
              | None => Fault FUB
              end
          | Fault f => Fault f
          end
      end
  end.

(* coev_kafka/partitioner.cpp HashPartitioner::requires_consistency *)
Definition requires_consistency (p : Partitioner) : bool :=
  match p with
  | ManualPartitioner => true
  | RandomPartitioner _ => false
  | RoundRobinPartitioner _ => false
  | HashPartitioner _ _ _ _ => true
  end.
(* coev_kafka/partitioner.cpp HashPartitioner::message_requires_consistency *)
Definition message_requires_consistency (message : ProducerMessage) : bool :=
  match pm_key message with [] => false | _ => true end.

(** ** Construction: [g] is the engine the clock seeds *)

(* coev_kafka/partitioner.cpp NewRandomPartitioner *)
Definition NewRandomPartitioner (g : G) : Partitioner := RandomPartitioner g.
(* coev_kafka/partitioner.cpp NewRoundRobinPartitioner *)
Definition NewRoundRobinPartitioner : Partitioner := RoundRobinPartitioner 0.
(* coev_kafka/partitioner.cpp NewHashPartitioner *)
Definition NewHashPartitioner (g : G) : Partitioner :=
  HashPartitioner (NewRandomPartitioner g) New32a false false.
(* coev_kafka/partitioner.cpp NewReferenceHashPartitioner *)
Definition NewReferenceHashPartitioner (g : G) : Partitioner :=
  HashPartitioner (NewRandomPartitioner g) New32a true false.
(* coev_kafka/partitioner.cpp NewConsistentCRCHashPartitioner *)
Definition NewConsistentCRCHashPartitioner (g : G) : Partitioner :=
  HashPartitioner (NewRandomPartitioner g) NewIEEE32 false true.
(* coev_kafka/partitioner.cpp NewCustomHashPartitioner *)
Definition NewCustomHashPartitioner (hasher : Hash32) (g : G) : Partitioner :=
  HashPartitioner (NewRandomPartitioner g) hasher false false.

(* coev_kafka/partitioner.h:78-107 HashPartitionerOption *)
Inductive HashPartitionerOption :=
| WithAbsFirstOption
| WithHashUnsignedOption
| WithCustomHashFunctionOption (m_hasher : Hash32)
| WithCustomFallbackPartitionerOption (m_random : Partitioner).
(* coev_kafka/partitioner.cpp WithAbsFirstOption::apply..WithCustomFallbackPartitionerOption::apply *)
Definition option_apply (hp : Partitioner) (o : HashPartitionerOption) : Partitioner :=
  match hp with
  | HashPartitioner random hasher reference_abs hash_unsigned =>
      match o with
      | WithAbsFirstOption => HashPartitioner random hasher true hash_unsigned
      | WithHashUnsignedOption => HashPartitioner random hasher reference_abs true
      | WithCustomHashFunctionOption h => HashPartitioner random h reference_abs hash_unsigned
      | WithCustomFallbackPartitionerOption r => HashPartitioner r hasher reference_abs hash_unsigned
      end
  | _ => hp
  end.
(* coev_kafka/partitioner.cpp NewCustomPartitioner *)
Definition NewCustomPartitioner (options : list HashPartitionerOption) (g : G) : Partitioner :=
  fold_left option_apply options (HashPartitioner (NewRandomPartitioner g) New32a false false).
End Partitioner.
Arguments Partitioner G : clear implicits.
Arguments HashPartitionerOption G : clear implicits.

Definition outcome_value {S A} (o : outcome S A) : option A :=
  match o with Done a _ => Some a | Fault _ => None end.

(** ** Well-formed partitioners *)

Definition hash32_ok (h : Hash32) : Prop :=
  HasherLaws (h32_ops h) /\ h_ok (h32_ops h) (h32_object h) /\
  forall s, h_ok (h32_ops h) s -> in_u 32 (h32_final h s).
Lemma New32a_ok : hash32_ok New32a.
Proof. split_and!; [apply FNV32a_laws|by unfold in_u; cbn|done]. Qed.
Lemma NewIEEE32_ok : hash32_ok NewIEEE32.
Proof.
  split_and!; [apply CRC32_laws| |by intros s [Hs _]]. split; [by unfold in_u; cbn|].
  exists (poly_value IEEE). split; [by unfold in_u; cbn|done].
Qed.

Lemma hash_key_ok h bytes :
  hash32_ok h -> Forall (in_u 8) bytes ->
  exists v h', hash_key h bytes = Done v h' /\ hash32_ok h' /\ in_u 32 v /\
    forall more, hash_key h' more = hash_key h more.
Proof.
  intros (Hl & Ho & Hf) Hb. destruct h as [T ops final o]. cbn in *. unfold hash_key. cbn.
  destruct (law_reset o Ho) as [Hr Hrs]. destruct (law_update bytes _ Hb Hr) as (o' & -> & Ho' & Hs).
  eexists _, _. split; [done|]. cbn. split; [done|]. split; [by apply Hf|]. intros more.
  by rewrite (law_reset_same o' o) by by eapply law_same_trans.
Qed.

Section WellFormed.
Context {G : Type} (uniform : Z -> Z -> G -> Z * G).

(** [std::uniform_int_distribution(lo, hi)] *)
Definition uniform_in_range : Prop :=
  forall lo hi g, lo <= hi -> lo <= fst (uniform lo hi g) <= hi.

Fixpoint par_ok (p : Partitioner G) : Prop :=
  match p with
  | ManualPartitioner => True
  | RandomPartitioner _ => True
  | RoundRobinPartitioner m => 0 <= m /\ in_s 32 m
  | HashPartitioner random hasher _ _ => par_ok random /\ hash32_ok hasher
  end.
(** The partitioner, not the caller, chooses. *)
Fixpoint chooses (p : Partitioner G) : Prop :=
  match p with
  | ManualPartitioner => False
  | HashPartitioner random _ _ _ => chooses random
  | _ => True
  end.

Lemma hash_choice_range abs uns v n :
  in_u 32 v -> 1 <= n <= INT32_MAX ->
  exists r, hash_choice abs uns v n = Some r /\ 0 <= r < n.
Proof.
  intros Hv Hn. unfold hash_choice, i32_rem, INT32_MAX in *.
  pose proof (to_s_range 32 v ltac:(done)) as Hs. unfold in_s in Hs. cbn in Hs.
  rewrite (proj2 (Z.eqb_neq n 0)), (proj2 (Z.eqb_neq n (-1))) by lia. cbn [andb orb].
  destruct abs; [|destruct uns].
  - eexists. split; [done|]. change 0x7fffffff with (Z.ones 31). rewrite Z.land_ones by lia.
    apply Z.rem_bound_pos; [apply Z.mod_pos_bound|]; lia.
  - rewrite to_u_id by (unfold in_u; cbn; lia). rewrite (proj2 (Z.eqb_neq n 0)) by lia.
    eexists. split; [done|]. pose proof (Z.mod_pos_bound v n ltac:(lia)).
    rewrite to_s_id by (unfold in_s; cbn; lia). done.
  - eexists. split; [done|]. pose proof (Z.rem_bound_abs (to_i32 v) n ltac:(lia)).
    destruct (Z.ltb_spec (Z.rem (to_i32 v) n) 0); lia.
Qed.
Lemma hash_choice_abs v n :
  in_u 32 v -> 1 <= n <= INT32_MAX -> hash_choice false false v n = Some (Z.abs (to_i32 v) mod n).
Proof.
  intros Hv Hn. unfold hash_choice, i32_rem, INT32_MAX in *.
  rewrite (proj2 (Z.eqb_neq n 0)), (proj2 (Z.eqb_neq n (-1))) by lia. cbn [andb orb]. f_equal.
  generalize (to_i32 v). intros x. destruct (Z.le_gt_cases 0 x) as [Hx|Hx].
  - rewrite Z.rem_mod_nonneg, (Z.abs_eq x) by lia.
    pose proof (Z.mod_pos_bound x n ltac:(lia)). by rewrite (proj2 (Z.ltb_ge _ _)) by lia.
  - assert (exists y, x = - y /\ 0 < y) as (y & -> & Hy) by (exists (- x); lia).
    rewrite Z.rem_opp_l, Z.rem_mod_nonneg, Z.abs_opp, Z.abs_eq by lia.
    pose proof (Z.mod_pos_bound y n ltac:(lia)). destruct (Z.ltb_spec (- (y mod n)) 0); lia.
Qed.

Context (Hu : uniform_in_range).

Lemma partition_ok p message n :
  par_ok p -> Forall (in_u 8) (pm_key message) -> 1 <= n <= INT32_MAX ->
  exists r p', partition uniform p message n = Done (Ok r) p' /\ par_ok p' /\
    (chooses p -> 0 <= r < n) /\ (chooses p -> chooses p').
Proof.
  intros Hp Hk Hn. revert Hp. induction p as [|g|m|random IH hasher abs uns]; cbn; intros Hp.
  - eexists _, _. split; [done|]. done.
  - unfold RandomPartitioner_partition. rewrite bool_decide_true by lia.
    pose proof (Hu 0 (n - 1) g ltac:(lia)) as Hr. destruct (uniform 0 (n - 1) g) as [r g']. cbn in Hr.
    eexists _, _. split; [done|]. split_and!; try done. lia.
  - unfold RoundRobinPartitioner_partition, INT32_MAX in *. destruct Hp as [H0 Hm].
    set (k := if n <=? m then 0 else m). assert (0 <= k < n) as Hk' by (unfold k; destruct (Z.leb_spec n m); lia).
    rewrite bool_decide_true by (unfold in_s; cbn; lia). eexists _, _. split; [done|]. cbn.
    split_and!; try done; try lia; unfold in_s; cbn; lia.
  - destruct Hp as [Hr Hh]. destruct (pm_key message) as [|b bs].
    + destruct (IH Hr) as (r & p' & -> & Hp' & Hc & Hc'). eexists _, _. split; [done|]. cbn. done.
    + destruct (hash_key_ok hasher (b :: bs) Hh Hk) as (v & h' & -> & Hh' & Hv & _).
      destruct (hash_choice_range abs uns v n Hv Hn) as (r & -> & Hrange).
      eexists _, _. split; [done|]. cbn. done.
Qed.
End WellFormed.

(** ** Sequences of calls *)

Section Calls.
Context {G : Type} (uniform : Z -> Z -> G -> Z * G).

Fixpoint calls (p : Partitioner G) (l : list (ProducerMessage * Z)) : outcome (Partitioner G) (list (dres Z)) :=
  match l with
  | [] => Done [] p
  | (message, n) :: l =>
      match partition uniform p message n with
      | Done r p => match calls p l with Done rs p => Done (r :: rs) p | Fault f => Fault f end
      | Fault f => Fault f
      end
  end.
Definition good_call (c : ProducerMessage * Z) : Prop :=
  Forall (in_u 8) (pm_key (fst c)) /\ 1 <= snd c <= INT32_MAX.
Definition is_hash (p : Partitioner G) : Prop :=
  match p with HashPartitioner _ _ _ _ => True | _ => False end.

Context (Hu : uniform_in_range uniform).

Lemma calls_ok p l :
  par_ok p -> Forall good_call l ->
  exists rs p', calls p l = Done rs p' /\ par_ok p' /\ (chooses p -> chooses p') /\
    (chooses p -> Forall2 (fun r c => exists v, r = Ok v /\ 0 <= v < snd c) rs l).
Proof.
  intros Hp Hl. revert p Hp. induction Hl as [|[msg n] l [Hk Hn] _ IH]; intros p Hp; cbn in *.
  { eexists _, _. split; [done|]. split; [done|]. split; [done|]. intros _. constructor. }
  destruct (partition_ok uniform Hu p msg n Hp Hk Hn) as (r & p1 & -> & Hp1 & Hr & Hc).
  destruct (IH p1 Hp1) as (rs & p2 & -> & Hp2 & Hc2 & Hrs). eexists _, _. split; [done|].
  split; [done|]. split; [auto|]. intros Hch. constructor; [cbn; eauto|auto].
Qed.

(** Hashing leaves the choice of later calls as it was. *)
Lemma partition_hash_stable p msg n r p' msg2 n2 :
  par_ok p -> is_hash p -> good_call (msg, n) -> pm_key msg2 <> [] ->
  partition uniform p msg n = Done r p' ->
  is_hash p' /\ outcome_value (partition uniform p' msg2 n2) = outcome_value (partition uniform p msg2 n2).
Proof.
  intros Hp Hh [Hk _] Hne. destruct p as [| | |random hasher abs uns]; try done. destruct Hp as [_ Ho]. cbn in *.
  destruct (pm_key msg2) as [|b2 k2] eqn:E2; [done|]. destruct (pm_key msg) as [|b k].
  - destruct (partition uniform random msg n); [|done]. intros [= <- <-]. split; [done|]. cbn.
    rewrite E2. destruct (hash_key hasher (b2 :: k2)); [|done]. by destruct (hash_choice _ _ _ _).
  - destruct (hash_key_ok hasher (b :: k) Ho Hk) as (v & h' & -> & _ & _ & Hsame).
    destruct (hash_choice abs uns v n); [|done]. intros [= <- <-]. split; [done|]. cbn.
    by rewrite E2, Hsame.
Qed.
Lemma calls_hash_stable p l rs p' msg n :
  par_ok p -> is_hash p -> Forall good_call l -> pm_key msg <> [] -> calls p l = Done rs p' ->
  is_hash p' /\ outcome_value (partition uniform p' msg n) = outcome_value (partition uniform p msg n).
Proof.
  intros Hp Hh Hl Hne. revert p rs Hp Hh. induction Hl as [|[m k] l [Hk Hn] Hl IH]; intros p rs Hp Hh E; cbn in *.
  { by simplify_eq. }
  destruct (partition_ok uniform Hu p m k Hp Hk Hn) as (r & p1 & E1 & Hp1 & _). rewrite E1 in E.
  destruct (partition_hash_stable p m k _ p1 msg n Hp Hh (conj Hk Hn) Hne E1) as [Hh1 Hs].
  destruct (calls p1 l) as [rs' p2|] eqn:E2; [|done]. simplify_eq.
  destruct (IH p1 rs' Hp1 Hh1 E2) as [Hh2 Hs2]. split; [done|]. by rewrite Hs2.
Qed.
End Calls.

(** ** Round robin *)

Lemma round_robin_calls {G} (uniform : Z -> Z -> G -> Z * G) n ms m :
  1 <= n <= INT32_MAX -> 0 <= m -> in_s 32 m ->
  exists p', calls uniform (RoundRobinPartitioner m) ((fun msg => (msg, n)) <$> ms) =
    Done ((fun i => Ok (((if n <=? m then 0 else m) + Z.of_nat i) mod n)) <$> seq 0 (length ms)) p'.
Proof.
  intros Hn. unfold INT32_MAX in *. revert m. induction ms as [|msg ms IH]; intros m H0 Hm; [by eexists|].
  cbn [fmap list_fmap calls partition length seq]. unfold RoundRobinPartitioner_partition.
  set (k := if n <=? m then 0 else m). assert (0 <= k < n) as Hk by (unfold k; destruct (Z.leb_spec n m); lia).
  rewrite bool_decide_true by (unfold in_s; cbn; lia).
  destruct (IH (k + 1)) as (p' & E); [lia|unfold in_s; cbn; lia|]. exists p'. cbn in E. rewrite E.
  f_equal. rewrite Z.add_0_r, Z.mod_small by lia. f_equal. rewrite <- fmap_S_seq, <- list_fmap_compose.
  apply list_fmap_ext. intros _ i _. unfold compose. f_equal.
  destruct (Z.leb_spec n (k + 1)).
  - replace (k + Z.of_nat (S i)) with (0 + Z.of_nat i + 1 * n) by lia. by rewrite Z.mod_add by lia.
  - f_equal. lia.
Qed.
Lemma rotation_perm n k :
  0 <= k < Z.of_nat n ->
  (fun i => (k + Z.of_nat i) mod Z.of_nat n) <$> seq 0 n ≡ₚ Z.of_nat <$> seq 0 n.
Proof.
  intros Hk. apply submseteq_length_Permutation; [|by rewrite !length_fmap]. apply NoDup_submseteq.
  - apply NoDup_fmap_2_strong; [|apply NoDup_seq]. intros x y Hx%elem_of_seq Hy%elem_of_seq E.
    Z.div_mod_to_equations. assert (q = q0 \/ q = q0 + 1 \/ q0 = q + 1) as [|[|]] by nia; nia.
  - intros x (i & -> & Hi)%list_elem_of_fmap. apply list_elem_of_fmap.
    exists (Z.to_nat ((k + Z.of_nat i) mod Z.of_nat n)).
    pose proof (Z.mod_pos_bound (k + Z.of_nat i) (Z.of_nat n) ltac:(lia)).
    rewrite elem_of_seq, Z2Nat.id by lia. split; [done|]. lia.
Qed.

(** ** Properties *)

(** Any partitioner that chooses by itself, after any earlier calls, returns no error
    and a partition between 0 and the number of partitions, without division by zero or
    overflow, whatever the message, the hasher and the state of the random engine. *)
Theorem partition_in_range {G} (uniform : Z -> Z -> G -> Z * G) p l rs p' message n :
  uniform_in_range uniform -> par_ok p -> chooses p -> Forall good_call l ->
  calls uniform p l = Done rs p' -> good_call (message, n) ->
  exists result p'', partition uniform p' message n = Done (Ok result) p'' /\ 0 <= result < n.
Proof.
  intros Hu Hp Hc Hl E [Hk Hn]. destruct (calls_ok uniform Hu p l Hp Hl) as (rs' & q & E' & Hq & Hcq & _).
  rewrite E in E'. simplify_eq.
  destruct (partition_ok uniform Hu q message n Hq Hk Hn) as (r & p2 & -> & _ & Hr & _).
  exists r, p2. auto.
Qed.
(** A random engine that counts *)
Definition counting (lo hi g : Z) : Z * Z := (lo + g mod (hi - lo + 1), g + 1).
Lemma counting_in_range : uniform_in_range counting.
Proof. intros lo hi g H. cbn. pose proof (Z.mod_pos_bound g (hi - lo + 1) ltac:(lia)). lia. Qed.
Definition example_message : ProducerMessage := mkMessage [116] [107; 49] 7.
Example partition_in_range_witness :
  exists result p, partition counting (NewConsistentCRCHashPartitioner 5) example_message 3 = Done (Ok result) p /\
    0 <= result < 3.
Proof.
  apply (partition_in_range counting (NewConsistentCRCHashPartitioner 5) [] [] _ example_message 3 counting_in_range);
    [|done|constructor|done|].
  - split; [done|apply NewIEEE32_ok].
  - split; [by repeat constructor|unfold INT32_MAX; cbn; lia].
Defined.

(** A hash partitioner sends a message with a key where it would have sent it at first,
    whatever was partitioned in between; the one of [NewHashPartitioner] to the absolute
    value of the key's signed FNV-32a hash modulo the number of partitions. *)
Theorem hash_partitioner_consistent {G} (uniform : Z -> Z -> G -> Z * G) p l rs p' message n :
  uniform_in_range uniform -> par_ok p -> is_hash p -> Forall good_call l ->
  calls uniform p l = Done rs p' -> pm_key message <> [] ->
  outcome_value (partition uniform p' message n) = outcome_value (partition uniform p message n) /\
  (forall g, p = NewHashPartitioner g -> good_call (message, n) ->
     outcome_value (partition uniform p' message n) =
     Some (Ok (Z.abs (to_i32 (fold_left (fun h b => to_u32 (Z.lxor h b * prime32)) (pm_key message) offset32)) mod n))).
Proof.
  intros Hu Hp Hh Hl E Hne.
  destruct (calls_hash_stable uniform Hu p l rs p' message n Hp Hh Hl Hne E) as [_ Hs].
  split; [done|]. rewrite Hs. intros g -> [Hk Hn]. cbn [fst snd] in Hk, Hn.
  unfold NewHashPartitioner. cbn [partition].
  destruct (pm_key message) as [|b k]; [done|].
  destruct (hash_key_ok New32a (b :: k) New32a_ok Hk) as (v & h & Ev & _ & Hv & _). rewrite Ev.
  injection Ev as <- _. by rewrite hash_choice_abs.
Qed.
Example hash_partitioner_consistent_witness :
  outcome_value (partition counting (NewHashPartitioner 5) example_message 10) = Some (Ok 7).
Proof.
  assert (par_ok (NewHashPartitioner 5)) as Hp by (split; [done|apply New32a_ok]).
  destruct (hash_partitioner_consistent counting (NewHashPartitioner 5) [] [] _ example_message 10
    counting_in_range Hp I (Forall_nil_2 _) eq_refl ltac:(done)) as [_ E].
  rewrite (E 5 eq_refl); [by vm_compute|]. split; [by repeat constructor|unfold INT32_MAX; cbn; lia].
Defined.

(** In any state, as many round-robin calls as there are partitions return every
    partition exactly once. *)
Theorem round_robin_fair {G} (uniform : Z -> Z -> G -> Z * G) m n ms :
  0 <= m -> in_s 32 m -> 1 <= n <= INT32_MAX -> Zlen ms = n ->
  exists rs p', calls uniform (RoundRobinPartitioner m) ((fun msg => (msg, n)) <$> ms) = Done rs p' /\
    rs ≡ₚ (fun i => Ok (Z.of_nat i)) <$> seq 0 (Z.to_nat n).
Proof.
  intros H0 Hm Hn Hl. destruct (round_robin_calls uniform n ms m Hn H0 Hm) as (p' & ->).
  eexists _, p'. split; [done|]. unfold Zlen in Hl. subst n. rewrite Nat2Z.id.
  rewrite (list_fmap_compose Z.of_nat Ok).
  rewrite <- (rotation_perm (length ms) (if Z.of_nat (length ms) <=? m then 0 else m)).
  - by rewrite <- list_fmap_compose.
  - destruct (Z.leb_spec (Z.of_nat (length ms)) m); lia.
Qed.
Example round_robin_fair_witness :
  exists rs p', calls counting (RoundRobinPartitioner 2) ((fun msg => (msg, 3)) <$> replicate 3 example_message) = Done rs p' /\
    rs ≡ₚ [Ok 0; Ok 1; Ok 2].
Proof. apply (round_robin_fair counting 2 3 (replicate 3 example_message)); [lia|unfold in_s; cbn; lia|unfold INT32_MAX; lia|done]. Defined.
