(* ===== verification/Balance.v ===== *)
(** * Range and round-robin assignment

    The first two strategies of [coev_kafka/balance_strategy.cpp]: given the members of a
    consumer group with the topics they subscribe to, and the partitions of each topic,
    which member consumes which partition. *)
From Stdlib Require Import ZArith Lia Bool.
From stdpp Require Import base tactics list numbers sorting.
From S2P Require Import Prelude Decimal StdMap.

(** [std::sort] with an order that is total on the keys used; between elements that
    compare equal the library's order is unspecified. *)
Definition key_le {K} `{KeyOrder K} (a b : K) : Prop := key_compare a b <> Gt.
#[export] Instance key_le_dec {K} `{KeyOrder K} : RelDecision (key_le (K := K)).
Proof. intros a b. unfold key_le. apply _. Defined.
Definition sort_by {A K} `{KeyOrder K} (f : A -> K) (l : list A) : list A :=
  merge_sort (fun a b => key_le (f a) (f b)) l.
(** [std::unique] and [erase] of what it leaves behind *)
Fixpoint unique {K} `{KeyOrder K} (l : list K) : list K :=
  match l with
  | [] => []
  | x :: l' => match unique l' with
               | [] => [x]
               | y :: r => match key_compare x y with Eq => y :: r | _ => x :: y :: r end
               end
  end.

(** The metadata of a member: the field the strategies read *)
(* coev_kafka/consumer_group_members.h:22-36 ConsumerGroupMemberMetadata *)
Record ConsumerGroupMemberMetadata := mkMetadata { m_topics : list (list Z) }.
Abbreviation members_t := (list (list Z * ConsumerGroupMemberMetadata)).
Abbreviation topics_t := (list (list Z * list Z)).
(** [std::map<std::string, std::map<std::string, std::vector<int32_t>>>] *)
(* coev_kafka/balance_strategy.h:26-26 BalanceStrategyPlan *)
Definition BalanceStrategyPlan : Type := list (list Z * list (list Z * list Z)).

(* coev_kafka/balance_strategy.cpp AddToPlan *)
Definition AddToPlan (p : BalanceStrategyPlan) (memberID topic : list Z) (partitions : list Z) : BalanceStrategyPlan :=
  match partitions with
  | [] => p
  | _ => map_update [] (map_update [] (fun l => l ++ partitions) topic) memberID p
  end.

(** ** Strategies with a core function, one topic at a time *)

(* coev_kafka/balance_strategy.cpp:45-54 balanceStrategy::Plan *)
Definition members_by_topic (members : members_t) : list (list Z * list (list Z)) :=
  fold_left (fun mbt it =>
    fold_left (fun mbt topic => map_update [] (fun ids => ids ++ [fst it]) topic mbt) (m_topics (snd it)) mbt)
    members [].
(* coev_kafka/balance_strategy.cpp:56-65 uniq *)
Definition uniq (ss : list (list Z)) : list (list Z) :=
  if Zlen ss <? 2 then ss else unique (sort_by id ss).

(** A core function fails where its arithmetic or its iterators are undefined. *)
Definition CoreFn : Type := BalanceStrategyPlan -> list (list Z) -> list Z -> list Z -> option BalanceStrategyPlan.

(* coev_kafka/balance_strategy.cpp:43-80 balanceStrategy::Plan *)
Definition balanceStrategy_Plan (coreFn : CoreFn) (members : members_t) (topics : topics_t)
    : option BalanceStrategyPlan :=
  fold_left (fun (plan : option BalanceStrategyPlan) e =>
    match plan with
    | None => None
    | Some plan =>
        match map_find (fst e) topics with
        | None => Some plan
        | Some partitions => coreFn plan (uniq (snd e)) (fst e) partitions
        end
    end) (members_by_topic members) (Some []).

(** [std::vector<int32_t>(v.begin() + min, v.begin() + max)] *)
Definition slice (min max : Z) (v : list Z) : option (list Z) :=
  if (0 <=? min) && (min <=? max) && (max <=? Zlen v)
  then Some (take (Z.to_nat (max - min)) (drop (Z.to_nat min) v)) else None.

(** One turn of the loop over the members: what the [i]-th one gets *)
(* coev_kafka/balance_strategy.cpp:100-107 NewBalanceStrategyRange *)
Definition range_slice (partitions : list Z) (partitionsPerConsumer consumersWithExtraPartition i : Z) : option (list Z) :=
  let min := i * partitionsPerConsumer + Z.min consumersWithExtraPartition i in
  let extra := if i <? consumersWithExtraPartition then 1 else 0 in
  let max := min + partitionsPerConsumer + extra in
  slice min max partitions.
Fixpoint range_loop (plan : BalanceStrategyPlan) (member_ids : list (list Z)) (topic partitions : list Z)
    (per extra i : Z) : option BalanceStrategyPlan :=
  match member_ids with
  | [] => Some plan
  | id :: ids =>
      match range_slice partitions per extra i with
      | Some s => range_loop (AddToPlan plan id topic s) ids topic partitions per extra (i + 1)
      | None => None
      end
  end.
(* coev_kafka/balance_strategy.cpp NewBalanceStrategyRange *)
Definition range_core : CoreFn := fun plan member_ids topic partitions =>
  if Zlen member_ids =? 0 then None
  else
    let partitionsPerConsumer := Z.quot (Zlen partitions) (Zlen member_ids) in
    let consumersWithExtraPartition := Z.rem (Zlen partitions) (Zlen member_ids) in
    range_loop plan (sort_by id member_ids) topic partitions partitionsPerConsumer consumersWithExtraPartition 0.
Definition Range_Plan := balanceStrategy_Plan range_core.

(** ** Round robin *)

(* coev_kafka/balance_strategy.cpp:205-217 TopicAndPartition *)
Record TopicAndPartition := mkTopicAndPartition { tp_topic : list Z; tp_partition : Z }.
(* coev_kafka/balance_strategy.cpp TopicAndPartition::comparedValue *)
Definition comparedValue (tp : TopicAndPartition) : list Z := tp_topic tp ++ [45] ++ to_string (tp_partition tp).
(** A set of topics is only asked what it contains. *)
(* coev_kafka/balance_strategy.cpp:219-227 MemberAndTopic *)
Record MemberAndTopic := mkMemberAndTopic { mt_memberID : list Z; mt_topics : list (list Z) }.
(* coev_kafka/balance_strategy.cpp MemberAndTopic::hasTopic *)
Definition hasTopic (m : MemberAndTopic) (topic : list Z) : bool := bool_decide (topic ∈ mt_topics m).

(** The [while] loop: [m] is a reference to element [slot] of the vector, so the
    assignment [m = members[i % n]] overwrites that element.  [budget] attempts remain
    before the loop gives up. *)
(* coev_kafka/balance_strategy.cpp:1209-1220 RoundRobinBalancer::Plan *)
Fixpoint rr_seek (budget : nat) (slot : nat) (topic : list Z) (members : list MemberAndTopic) (i : nat)
    : option (list MemberAndTopic * nat) :=
  match members !! slot with
  | None => None
  | Some m =>
      if hasTopic m topic then Some (members, i)
      else match budget with
           | O => Some (members, i)
           | S budget =>
               match members !! (S i mod length members)%nat with
               | None => None
               | Some other => rr_seek budget slot topic (<[slot := other]> members) (S i)
               end
           end
  end.
(* coev_kafka/balance_strategy.cpp:1207-1226 RoundRobinBalancer::Plan *)
Fixpoint rr_loop (tps : list TopicAndPartition) (members : list MemberAndTopic) (i : nat)
    (plan : BalanceStrategyPlan) : option BalanceStrategyPlan :=
  match tps with
  | [] => Some plan
  | tp :: tps =>
      let n := length members in
      let slot := (i mod n)%nat in
      match rr_seek n slot (tp_topic tp) members i with
      | None => None
      | Some (members, i) =>
          match members !! slot with
          | None => None
          | Some m =>
              let plan := if hasTopic m (tp_topic tp)
                          then AddToPlan plan (mt_memberID m) (tp_topic tp) [tp_partition tp] else plan in
              rr_loop tps members (S i) plan
          end
      end
  end.
Definition all_partitions (topics : topics_t) : list TopicAndPartition :=
  topics ≫= fun e => map (mkTopicAndPartition (fst e)) (snd e).
(** The code and the plan that is returned with it *)
(* coev_kafka/balance_strategy.cpp RoundRobinBalancer::Plan *)
Definition RoundRobin_Plan (memberAndMetadata : members_t) (topics : topics_t) (plan : BalanceStrategyPlan)
    : option (Z * BalanceStrategyPlan) :=
  match memberAndMetadata with
  | [] => Some (-1, plan)
  | _ =>
      match topics with
      | [] => Some (0, [])
      | _ =>
          let topicPartitions := sort_by comparedValue (all_partitions topics) in
          let members := sort_by mt_memberID
            (map (fun it => mkMemberAndTopic (fst it) (m_topics (snd it))) memberAndMetadata) in
          match rr_loop topicPartitions members 0 [] with
          | Some plan => Some (0, plan)
          | None => None
          end
      end
  end.

(** ** What a plan assigns *)

Definition assigned (plan : BalanceStrategyPlan) (id topic : list Z) : list Z :=
  match map_find id plan with
  | Some m => match map_find topic m with Some l => l | None => [] end
  | None => []
  end.
Definition subscribes (members : members_t) (id topic : list Z) : Prop :=
  exists meta, (id, meta) ∈ members /\ topic ∈ m_topics meta.

Lemma assigned_AddToPlan p id topic ps id' topic' :
  assigned (AddToPlan p id topic ps) id' topic' =
  if bool_decide (id' = id /\ topic' = topic) then assigned p id' topic' ++ ps else assigned p id' topic'.
Proof.
  unfold assigned, AddToPlan. destruct ps as [|x ps]; [rewrite app_nil_r; by case_bool_decide|].
  destruct (decide (id' = id)) as [->|Hid].
  - rewrite map_find_update_eq. destruct (decide (topic' = topic)) as [->|Ht].
    + rewrite bool_decide_true, map_find_update_eq by done. by destruct (map_find id p).
    + rewrite bool_decide_false by naive_solver. rewrite map_find_update_ne by done.
      by destruct (map_find id p).
  - rewrite bool_decide_false by naive_solver. by rewrite map_find_update_ne.
Qed.
Lemma assigned_same p id topic ps : assigned (AddToPlan p id topic ps) id topic = assigned p id topic ++ ps.
Proof. rewrite assigned_AddToPlan. by case_bool_decide; naive_solver. Qed.
Lemma assigned_other p id topic ps id' topic' :
  ~ (id' = id /\ topic' = topic) -> assigned (AddToPlan p id topic ps) id' topic' = assigned p id' topic'.
Proof. intros Hne. rewrite assigned_AddToPlan. by rewrite bool_decide_false. Qed.

(** ** Sorting *)

Lemma key_le_total {K} `{KeyOrder K} (a b : K) : key_le a b \/ key_le b a.
Proof. unfold key_le. rewrite (key_compare_antisym a b). destruct (key_compare a b); naive_solver. Qed.
Lemma key_le_lt {K} `{KeyOrder K} (a b : K) : key_le a b <-> key_lt a b \/ a = b.
Proof.
  unfold key_le, key_lt. destruct (key_compare a b) eqn:E.
  - apply key_compare_eq in E. naive_solver.
  - naive_solver.
  - split; [done|]. intros [| ->]; [done|]. by rewrite key_compare_refl in E.
Qed.
#[export] Instance key_le_transitive {K} `{KeyOrder K} : Transitive (key_le (K := K)).
Proof.
  intros a b c. rewrite !key_le_lt. intros [Hab| ->]; [|done]. intros [Hbc|<-]; left; [|done].
  by eapply key_lt_trans.
Qed.
Lemma sort_by_perm {A K} `{KeyOrder K} (f : A -> K) l : sort_by f l ≡ₚ l.
Proof. apply merge_sort_Permutation. Qed.
Lemma sort_by_sorted {A K} `{KeyOrder K} (f : A -> K) l :
  StronglySorted (fun a b => key_le (f a) (f b)) (sort_by f l).
Proof.
  apply StronglySorted_merge_sort.
  - intros a b c. apply key_le_transitive.
  - intros a b. apply key_le_total.
Qed.

Lemma unique_elements {K} `{KeyOrder K} (x : K) l : x ∈ unique l <-> x ∈ l.
Proof.
  induction l as [|y l IH]; cbn; [done|]. rewrite elem_of_cons, <- IH. destruct (unique l) as [|z r].
  - by rewrite elem_of_cons.
  - destruct (key_compare y z) eqn:E; [|by rewrite elem_of_cons..].
    apply key_compare_eq in E as ->. rewrite elem_of_cons. tauto.
Qed.
Lemma unique_sorted {K} `{KeyOrder K} (l : list K) : StronglySorted key_le l -> StronglySorted key_lt (unique l).
Proof.
  induction 1 as [|x l Hs IH Hx]; cbn; [constructor|].
  assert (Forall (key_le x) (unique l)) as Hu.
  { rewrite Forall_forall in Hx |- *. intros y Hy. by apply Hx, unique_elements. }
  destruct (unique l) as [|y r]; [by repeat constructor|]. inversion_clear Hu as [|? ? Hy Hr].
  inversion_clear IH as [|? ? Hsr Hyr].
  apply key_le_lt in Hy as [Hlt| ->].
  - assert (Forall (key_lt x) (y :: r)) as Hall.
    { constructor; [done|]. eapply Forall_impl; [exact Hyr|]. intros z. by apply key_lt_trans. }
    unfold key_lt in Hlt. rewrite Hlt. constructor; [by constructor|done].
  - rewrite key_compare_refl. by constructor.
Qed.
Lemma strictly_sorted_nodup {K} `{KeyOrder K} (l : list K) : StronglySorted key_lt l -> NoDup l.
Proof.
  induction 1 as [|x l Hs IH Hx]; constructor; [|done]. intros Hin. rewrite Forall_forall in Hx.
  by destruct (key_lt_ne _ _ (Hx x Hin)).
Qed.
Lemma uniq_spec ss : StronglySorted key_lt (uniq ss) /\ forall x, x ∈ uniq ss <-> x ∈ ss.
Proof.
  unfold uniq, Zlen. destruct (Z.ltb_spec (Z.of_nat (length ss)) 2).
  - split; [|done]. destruct ss as [|a [|b ss]]; [constructor|by repeat constructor|cbn in *; lia].
  - split; [apply unique_sorted, (sort_by_sorted id)|]. intros x. by rewrite unique_elements, sort_by_perm.
Qed.
(** Sorting a strictly sorted list changes nothing. *)
Lemma strictly_sorted_inj {A K} `{KeyOrder K} (f : A -> K) (l : list A) x y :
  StronglySorted (fun a b => key_lt (f a) (f b)) l -> x ∈ l -> y ∈ l -> f x = f y -> x = y.
Proof.
  induction 1 as [|z l Hs IH Hz]; [by intros ?%elem_of_nil|]. rewrite Forall_forall in Hz.
  intros [->|Hx]%elem_of_cons [->|Hy]%elem_of_cons E; [done|..|by apply IH].
  - specialize (Hz y Hy). by apply key_lt_ne in Hz.
  - specialize (Hz x Hx). by apply key_lt_ne in Hz.
Qed.
Lemma sort_by_id {A K} `{KeyOrder K} (f : A -> K) (l : list A) :
  StronglySorted (fun a b => key_lt (f a) (f b)) l -> sort_by f l = l.
Proof.
  intros Hs. apply (StronglySorted_unique_strong (fun a b => key_le (f a) (f b))).
  - intros x y Hx Hy. rewrite !key_le_lt. intros [Hxy|E] [Hyx|E']; try (apply (strictly_sorted_inj f l); [done..|congruence]).
    + by destruct (key_lt_ne _ _ (key_lt_trans _ _ _ Hxy Hyx)).
    + rewrite (sort_by_perm f l) in Hx. by apply (strictly_sorted_inj f l).
    + rewrite (sort_by_perm f l) in Hx. by apply (strictly_sorted_inj f l).
    + rewrite (sort_by_perm f l) in Hx. by apply (strictly_sorted_inj f l).
  - apply sort_by_sorted.
  - induction Hs as [|x l Hs IH Hx]; constructor; [done|]. eapply Forall_impl; [exact Hx|].
    intros y Hy. apply key_le_lt. by left.
  - apply sort_by_perm.
Qed.

(** ** The members of each topic *)

Definition members_of (mbt : list (list Z * list (list Z))) (topic : list Z) : list (list Z) :=
  match map_find topic mbt with Some ids => ids | None => [] end.
(** Every entry of the map has a member. *)
Definition mbt_ok (mbt : list (list Z * list (list Z))) : Prop :=
  map_sorted mbt /\ forall topic ids, map_find topic mbt = Some ids -> ids <> [].

Lemma mbt_member id ts mbt :
  mbt_ok mbt ->
  let mbt' := fold_left (fun mbt topic => map_update [] (fun ids => ids ++ [id]) topic mbt) ts mbt in
  mbt_ok mbt' /\
  forall id' topic, id' ∈ members_of mbt' topic <-> id' ∈ members_of mbt topic \/ (id' = id /\ topic ∈ ts).
Proof.
  revert mbt. induction ts as [|t ts IH]; intros mbt [Hs Hne]; cbn.
  - split; [done|]. intros id' topic. rewrite elem_of_nil. tauto.
  - destruct (IH (map_update [] (fun ids => ids ++ [id]) t mbt)) as [Hok Hin].
    { split; [by apply map_update_sorted|]. intros topic ids. destruct (decide (topic = t)) as [->|Hd].
      - rewrite map_find_update_eq. intros [= <-]. by intros [_ ?]%app_nil.
      - rewrite map_find_update_ne by done. apply Hne. }
    split; [exact Hok|]. intros id' topic. rewrite Hin, elem_of_cons. unfold members_of.
    destruct (decide (topic = t)) as [->|Hd].
    + rewrite map_find_update_eq. destruct (map_find t mbt); rewrite elem_of_app, list_elem_of_singleton;
        [|rewrite elem_of_nil]; naive_solver.
    + rewrite map_find_update_ne by done. naive_solver.
Qed.
Lemma members_by_topic_spec members :
  mbt_ok (members_by_topic members) /\
  forall id topic, id ∈ members_of (members_by_topic members) topic <-> subscribes members id topic.
Proof.
  unfold members_by_topic, subscribes.
  cut (forall mbt, mbt_ok mbt ->
    let mbt' := fold_left (fun mbt it => fold_left (fun mbt topic =>
      map_update [] (fun ids => ids ++ [fst it]) topic mbt) (m_topics (snd it)) mbt) members mbt in
    mbt_ok mbt' /\ forall id topic, id ∈ members_of mbt' topic <->
      id ∈ members_of mbt topic \/ exists meta, (id, meta) ∈ members /\ topic ∈ m_topics meta).
  { intros Hcut. destruct (Hcut []) as [Hok Hin]; [by split|]. split; [exact Hok|].
    intros id topic. rewrite Hin. unfold members_of. cbn. rewrite elem_of_nil. naive_solver. }
  induction members as [|[id meta] members IH]; intros mbt Hok; cbn.
  - split; [done|]. intros id topic. split; [by left|]. intros [|(m & Hm & _)]; [done|].
    by apply elem_of_nil in Hm.
  - destruct (mbt_member id (m_topics meta) mbt Hok) as [Hok1 Hin1].
    destruct (IH _ Hok1) as [Hok2 Hin2]. split; [exact Hok2|]. intros id' topic. rewrite Hin2, Hin1.
    setoid_rewrite elem_of_cons. naive_solver.
Qed.

(** ** The range core *)

Lemma slice_some lo hi v : 0 <= lo <= hi -> hi <= Zlen v ->
  slice lo hi v = Some (take (Z.to_nat (hi - lo)) (drop (Z.to_nat lo) v)).
Proof.
  intros H1 H2. unfold slice. rewrite (proj2 (Z.leb_le 0 lo)), (proj2 (Z.leb_le lo hi)),
    (proj2 (Z.leb_le hi (Zlen v))) by lia. done.
Qed.
Lemma take_drop_next lo hi (v : list Z) : 0 <= lo <= hi ->
  take (Z.to_nat (hi - lo)) (drop (Z.to_nat lo) v) ++ drop (Z.to_nat hi) v = drop (Z.to_nat lo) v.
Proof.
  intros Hlh. rewrite <- (take_drop (Z.to_nat (hi - lo)) (drop (Z.to_nat lo) v)) at 2. f_equal.
  rewrite drop_drop. f_equal. lia.
Qed.

Section RangeLoop.
Context (topic partitions : list Z) (per extra n : Z).
Context (Hper : 0 <= per) (Hextra : 0 <= extra < n) (Hlen : Zlen partitions = n * per + extra).

Definition range_start (i : Z) : Z := i * per + Z.min extra i.

Lemma range_loop_spec ids plan i :
  NoDup ids -> 0 <= i -> i + Zlen ids = n -> (forall id, id ∈ ids -> assigned plan id topic = []) ->
  exists plan', range_loop plan ids topic partitions per extra i = Some plan' /\
    (forall id t, ~ (id ∈ ids /\ t = topic) -> assigned plan' id t = assigned plan id t) /\
    (ids ≫= fun id => assigned plan' id topic) = drop (Z.to_nat (range_start i)) partitions /\
    forall id, id ∈ ids -> per <= Zlen (assigned plan' id topic) <= per + 1.
Proof.
  revert plan i. induction ids as [|id ids IH]; intros plan i Hnd H0 Hi He; cbn [range_loop].
  { exists plan. split; [done|]. split; [done|]. split; [|by intros id ?%elem_of_nil].
    rewrite drop_ge; [done|]. unfold Zlen, range_start in *. cbn in Hi. nia. }
  apply NoDup_cons in Hnd as [Hid Hnd]. rewrite Zlen_cons in Hi. pose proof (Zlen_nonneg ids).
  assert (0 <= range_start i <= range_start (i + 1) /\ range_start (i + 1) <= Zlen partitions /\
    per <= range_start (i + 1) - range_start i <= per + 1) as (Hse & Hle & Hw).
  { unfold range_start in *. rewrite Hlen. split_and!; nia. }
  assert (range_slice partitions per extra i =
    slice (range_start i) (range_start (i + 1)) partitions) as ->.
  { unfold range_slice, range_start. f_equal. destruct (Z.ltb_spec i extra); lia. }
  rewrite slice_some by done.
  set (s := take _ _). destruct (IH (AddToPlan plan id topic s) (i + 1)) as (plan' & -> & Ho & Hc & Hl); [done|lia|lia|..].
  { intros id' Hid'. rewrite assigned_other by (intros [-> _]; done). apply He. by right. }
  assert (assigned plan' id topic = s) as Eid.
  { rewrite Ho by naive_solver. rewrite assigned_same, He by by left. done. }
  exists plan'. split; [done|]. split; [|split].
  - intros id' t Hne. rewrite Ho by (intros [? ->]; apply Hne; split; [by right|done]).
    apply assigned_other. intros [-> ->]. apply Hne. split; [by left|done].
  - cbn. rewrite Eid. setoid_rewrite Hc. by apply take_drop_next.
  - intros id' [->|Hid']%elem_of_cons; [|by apply Hl]. rewrite Eid. unfold s, Zlen.
    rewrite length_take, length_drop. unfold Zlen in *. lia.
Qed.
End RangeLoop.

Lemma range_core_spec plan ids topic partitions :
  StronglySorted key_lt ids -> ids <> [] -> (forall id, id ∈ ids -> assigned plan id topic = []) ->
  exists plan', range_core plan ids topic partitions = Some plan' /\
    (forall id t, ~ (id ∈ ids /\ t = topic) -> assigned plan' id t = assigned plan id t) /\
    (ids ≫= fun id => assigned plan' id topic) = partitions /\
    forall id, id ∈ ids ->
      Zlen partitions / Zlen ids <= Zlen (assigned plan' id topic) <= Zlen partitions / Zlen ids + 1.
Proof.
  intros Hs Hne He. unfold range_core.
  assert (0 < Zlen ids) as Hn by (destruct ids; [done|rewrite Zlen_cons; pose proof (Zlen_nonneg ids); lia]).
  rewrite (proj2 (Z.eqb_neq _ _)) by lia. rewrite (sort_by_id id) by done.
  pose proof (Zlen_nonneg partitions). rewrite Z.quot_div_nonneg, Z.rem_mod_nonneg by lia.
  pose proof (Z.mod_pos_bound (Zlen partitions) (Zlen ids) Hn).
  destruct (range_loop_spec topic partitions (Zlen partitions / Zlen ids) (Zlen partitions mod Zlen ids) (Zlen ids))
    with (ids := ids) (plan := plan) (i := 0) as (plan' & E & Ho & Hc & Hl); try done.
  - by apply Z.div_pos.
  - rewrite <- Z.div_mod by lia. done.
  - by apply strictly_sorted_nodup.
  - exists plan'. split; [exact E|]. split; [done|]. split; [|done]. setoid_rewrite Hc.
    unfold range_start. by rewrite Z.min_r, drop_0 by lia.
Qed.

(** What the strategy has to achieve for one topic with subscribers [ids] *)
Definition topic_split (plan : BalanceStrategyPlan) (ids : list (list Z)) (topic partitions : list Z) : Prop :=
  (ids ≫= fun id => assigned plan id topic) = partitions /\
  forall id, id ∈ ids ->
    Zlen partitions / Zlen ids <= Zlen (assigned plan id topic) <= Zlen partitions / Zlen ids + 1.

Lemma range_topics topics mbt plan :
  mbt_ok mbt -> (forall id topic, is_Some (map_find topic mbt) -> assigned plan id topic = []) ->
  exists plan', fold_left (fun (plan : option BalanceStrategyPlan) e =>
      match plan with
      | None => None
      | Some plan =>
          match map_find (fst e) topics with
          | None => Some plan
          | Some partitions => range_core plan (uniq (snd e)) (fst e) partitions
          end
      end) mbt (Some plan) = Some plan' /\
    (forall id topic, ~ (id ∈ members_of mbt topic /\ is_Some (map_find topic topics)) ->
       assigned plan' id topic = assigned plan id topic) /\
    (forall topic ids partitions, map_find topic mbt = Some ids -> map_find topic topics = Some partitions ->
       topic_split plan' (uniq ids) topic partitions).
Proof.
  revert plan. induction mbt as [|[t ids] mbt IH]; intros plan [Hs Hne] He; cbn [fold_left fst snd].
  { exists plan. done. }
  destruct Hs as [Hlow Hs]. assert (map_find t mbt = None) as Ht by by apply map_find_lower.
  assert (mbt_ok mbt) as Hok.
  { split; [done|]. intros t' ids' Hf. apply (Hne t'). rewrite map_find_there; [done|]. intros ->. congruence. }
  assert (forall t', t' <> t -> map_find t' ((t, ids) :: mbt) = map_find t' mbt) as Hf.
  { intros t' Hd. by apply map_find_there. }
  pose proof (map_find_here t ids mbt) as Hft.
  assert (forall id t', is_Some (map_find t' mbt) -> assigned plan id t' = []) as He'.
  { intros id t' [x Hx]. apply He. rewrite Hf; [by eexists|]. intros ->. congruence. }
  destruct (map_find t topics) as [partitions|] eqn:Etop.
  - destruct (uniq_spec ids) as [Hu Hui].
    destruct (range_core_spec plan (uniq ids) t partitions) as (plan1 & -> & Ho1 & Hsplit); [done|..].
    { intros E. destruct ids as [|x ids]; [by apply (Hne t [])|]. specialize (Hui x). rewrite E in Hui.
      apply (elem_of_nil x), Hui. by left. }
    { intros id _. apply He. rewrite Hft. by eexists. }
    destruct (IH plan1 Hok) as (plan2 & -> & Ho2 & Hsplit2).
    { intros id t' Hx. rewrite Ho1 by (intros [_ ->]; rewrite Ht in Hx; by destruct Hx). by apply He'. }
    assert (forall id, assigned plan2 id t = assigned plan1 id t) as Hkeep.
    { intros id. apply Ho2. unfold members_of. rewrite Ht. intros [?%elem_of_nil _]. done. }
    exists plan2. split; [done|]. split.
    + intros id t' Hno. destruct (decide (t' = t)) as [->|Hd].
      * rewrite Hkeep. apply Ho1. intros [Hin _]. apply Hno. unfold members_of. rewrite Hft. split; [by apply Hui|by eexists].
      * rewrite Ho2, Ho1; [done|by intros [_ ?]|]. intros Hx. apply Hno. unfold members_of in *. by rewrite Hf.
    + intros t' ids' ps' Hm Hp. destruct (decide (t' = t)) as [->|Hd].
      * simplify_eq. destruct Hsplit as [Hc Hl]. split; [|intros id Hid; rewrite Hkeep; by apply Hl].
        rewrite <- Hc. apply list_bind_ext; [|done]. intros id. apply Hkeep.
      * rewrite Hf in Hm by done. by apply Hsplit2.
  - destruct (IH plan Hok He') as (plan2 & -> & Ho2 & Hsplit2). exists plan2. split; [done|]. split.
    + intros id t' Hno. apply Ho2. intros [Hm Hp]. apply Hno. split; [|done]. unfold members_of in *.
      rewrite Hf; [done|]. intros ->. rewrite Etop in Hp. by destruct Hp.
    + intros t' ids' ps' Hm Hp. destruct (decide (t' = t)) as [->|Hd]; [congruence|].
      rewrite Hf in Hm by done. by apply Hsplit2.
Qed.

(** C32: The range strategy succeeds for any members and topics, and in its plan the lists
    of a topic's subscribers, in the order of their names, put together are exactly the
    topic's partitions in their order; their sizes differ by at most one, and nobody else
    is assigned anything. *)
Theorem range_plan_exact members topics :
  exists plan, Range_Plan members topics = Some plan /\
    (forall id topic, ~ (subscribes members id topic /\ is_Some (map_find topic topics)) -> assigned plan id topic = []) /\
    forall topic partitions, map_find topic topics = Some partitions -> (exists id, subscribes members id topic) ->
      exists ids, StronglySorted key_lt ids /\ (forall id, id ∈ ids <-> subscribes members id topic) /\
        topic_split plan ids topic partitions.
Proof.
  destruct (members_by_topic_spec members) as [Hok Hin].
  destruct (range_topics topics (members_by_topic members) [] Hok) as (plan & E & Ho & Hsplit); [done|].
  exists plan. split; [exact E|]. split.
  - intros id topic Hno. rewrite Ho; [done|]. by rewrite Hin.
  - intros topic ps Hp [id0 Hid0]. apply Hin in Hid0 as Hm. unfold members_of in Hm.
    destruct (map_find topic (members_by_topic members)) as [ids|] eqn:Ef; [|by apply elem_of_nil in Hm].
    exists (uniq ids). destruct (uniq_spec ids) as [Hu Hui]. split; [done|]. split; [|by apply Hsplit].
    intros id. rewrite Hui, <- Hin. unfold members_of. by rewrite Ef.
Qed.
