(* ===== verification/BalanceRR.v ===== *)
(** * What round robin assigns

    The theorems about [RoundRobinBalancer] of [coev_kafka/balance_strategy.cpp].  A run of
    its loop is described by whom each partition is dealt to, in order; everything a plan
    holds follows from that list. *)
From Stdlib Require Import ZArith Lia Bool.
From stdpp Require Import base tactics list numbers sorting.
From S2P Require Import Prelude StdMap Balance.

#[local] Arguments hasTopic : simpl never.

(** ** Dealing *)

Abbreviation deal_t := (list (option (list Z) * TopicAndPartition)).
Fixpoint deal (l : deal_t) (plan : BalanceStrategyPlan) : BalanceStrategyPlan :=
  match l with
  | [] => plan
  | (Some id, tp) :: l => deal l (AddToPlan plan id (tp_topic tp) [tp_partition tp])
  | (None, _) :: l => deal l plan
  end.
(** The partitions of [topic] dealt to [id] *)
Definition dealt (l : deal_t) (id topic : list Z) : list Z :=
  l ≫= fun e => if bool_decide (fst e = Some id /\ tp_topic (snd e) = topic) then [tp_partition (snd e)] else [].
Definition of_topic (tps : list TopicAndPartition) (topic : list Z) : list Z :=
  tps ≫= fun tp => if bool_decide (tp_topic tp = topic) then [tp_partition tp] else [].

Lemma dealt_cons who tp l id topic :
  dealt ((who, tp) :: l) id topic =
  (if bool_decide (who = Some id /\ tp_topic tp = topic) then [tp_partition tp] else []) ++ dealt l id topic.
Proof. done. Qed.
Lemma of_topic_cons tp l topic :
  of_topic (tp :: l) topic = (if bool_decide (tp_topic tp = topic) then [tp_partition tp] else []) ++ of_topic l topic.
Proof. done. Qed.
Lemma assigned_deal l plan id topic :
  assigned (deal l plan) id topic = assigned plan id topic ++ dealt l id topic.
Proof.
  revert plan. induction l as [|[[i|] tp] l IH]; intros plan; cbn [deal]; [by rewrite app_nil_r|..];
    rewrite IH, dealt_cons; [rewrite assigned_AddToPlan|by rewrite bool_decide_false by naive_solver].
  repeat case_bool_decide; try naive_solver. by rewrite <- app_assoc.
Qed.

Lemma bind_app_perm {A B} (f g : A -> list B) l : (l ≫= fun x => f x ++ g x) ≡ₚ (l ≫= f) ++ (l ≫= g).
Proof.
  induction l as [|x l IH]; cbn; [done|]. rewrite IH, <- !app_assoc. apply Permutation_app_head.
  rewrite !app_assoc. apply Permutation_app_tail, Permutation_app_comm.
Qed.
Lemma bind_nil {A B} (l : list A) : (l ≫= fun _ => @nil B) = [].
Proof. induction l; cbn; auto. Qed.
(** Of the elements of a duplicate-free list exactly one is [x], if it is there. *)
Lemma bind_at {A B} `{EqDecision A} (x : A) (v : list B) l :
  NoDup l -> (l ≫= fun y => if bool_decide (x = y) then v else []) = if bool_decide (x ∈ l) then v else [].
Proof.
  induction 1 as [|y l Hy _ IH]; cbn; [by rewrite bool_decide_false by by intros ?%elem_of_nil|].
  setoid_rewrite IH. destruct (decide (x = y)) as [->|Hne].
  - rewrite (bool_decide_true (y = y)), (bool_decide_false (y ∈ l)), bool_decide_true; [|by left|done..].
    by rewrite app_nil_r.
  - rewrite bool_decide_false by done. cbn. do 2 case_bool_decide; rewrite ?elem_of_cons in *; naive_solver.
Qed.

Lemma dealt_once l ids topic :
  NoDup ids ->
  (ids ≫= fun id => dealt l id topic) ⊆+ of_topic (snd <$> l) topic /\
  ((forall e, e ∈ l -> exists id, fst e = Some id /\ id ∈ ids) ->
   (ids ≫= fun id => dealt l id topic) ≡ₚ of_topic (snd <$> l) topic).
Proof.
  intros Hnd. induction l as [|[who tp] l [IHs IHp]].
  { unfold dealt, of_topic. cbn. rewrite bind_nil. split; done. }
  assert ((ids ≫= fun id => dealt ((who, tp) :: l) id topic) ≡ₚ
    (ids ≫= fun id => if bool_decide (who = Some id /\ tp_topic tp = topic) then [tp_partition tp] else [])
      ++ (ids ≫= fun id => dealt l id topic)) as -> by apply bind_app_perm.
  rewrite fmap_cons, of_topic_cons. cbn [snd].
  destruct (decide (tp_topic tp = topic)) as [Et|Et].
  - rewrite (bool_decide_true _ Et). destruct who as [i|].
    + assert (forall id, (if bool_decide (Some i = Some id /\ tp_topic tp = topic) then [tp_partition tp] else []) =
        if bool_decide (i = id) then [tp_partition tp] else []) as Ei.
      { intros id. repeat case_bool_decide; naive_solver. }
      rewrite (list_bind_ext _ _ _ _ Ei eq_refl), bind_at by done. split.
      * apply submseteq_app; [|done]. case_bool_decide; [done|apply submseteq_nil_l].
      * intros Hall. destruct (Hall _ (list_elem_of_here _ _)) as (i' & [= <-] & Hi). rewrite bool_decide_true by done.
        apply Permutation_app_head, IHp. intros e He. apply Hall. by right.
    + rewrite (list_bind_ext _ (fun _ => []) ids ids), bind_nil by (done || intros; by rewrite bool_decide_false by naive_solver).
      split; [by apply submseteq_cons_r; left|].
      intros Hall. by destruct (Hall _ (list_elem_of_here _ _)) as (i' & ? & _).
  - rewrite (bool_decide_false _ Et). cbn.
    rewrite (list_bind_ext _ (fun _ => []) ids ids), bind_nil by (done || intros; by rewrite bool_decide_false by naive_solver).
    split; [done|]. intros Hall. apply IHp. intros e He. apply Hall. by right.
Qed.

(** ** The loop deals *)

(** Every element of the vector is one of the members. *)
Definition within (ms0 ms : list MemberAndTopic) : Prop := forall m, m ∈ ms -> m ∈ ms0.

Lemma rr_seek_total ms0 budget slot topic ms i :
  within ms0 ms -> (slot < length ms)%nat ->
  exists ms' i', rr_seek budget slot topic ms i = Some (ms', i') /\ within ms0 ms' /\ length ms' = length ms.
Proof.
  revert ms i. induction budget as [|budget IH]; intros ms i Hw Hs; cbn [rr_seek];
    destruct (lookup_lt_is_Some_2 ms slot Hs) as [m ->]; destruct (hasTopic m topic); try by eauto.
  destruct (lookup_lt_is_Some_2 ms (S i mod length ms)) as [o Ho].
  { apply Nat.mod_upper_bound. lia. }
  rewrite Ho. destruct (IH (<[slot:=o]> ms) (S i)) as (ms' & i' & E & Hw' & Hl).
  - intros x Hx. apply list_elem_of_lookup_1 in Hx as [j Hx].
    apply list_lookup_insert_Some in Hx as [(_ & <- & _)|[_ Hx]]; by eapply Hw, list_elem_of_lookup_2.
  - by rewrite length_insert.
  - rewrite length_insert in Hl. eauto 6.
Qed.
Lemma rr_loop_trace ms0 tps ms i plan :
  within ms0 ms -> ms <> [] ->
  exists who, length who = length tps /\ rr_loop tps ms i plan = Some (deal (zip who tps) plan) /\
    forall w tp, (w, tp) ∈ zip who tps ->
      forall id, w = Some id -> exists m, m ∈ ms0 /\ mt_memberID m = id /\ hasTopic m (tp_topic tp) = true.
Proof.
  revert ms i plan. induction tps as [|tp tps IH]; intros ms i plan Hw Hne; cbn [rr_loop].
  { exists []. split; [done|]. split; [done|]. by intros w tp ?%elem_of_nil. }
  assert (i mod length ms < length ms)%nat as Hslot.
  { apply Nat.mod_upper_bound. by destruct ms. }
  destruct (rr_seek_total ms0 (length ms) _ (tp_topic tp) ms i Hw Hslot) as (ms' & i' & -> & Hw' & Hl).
  rewrite <- Hl in Hslot. destruct (lookup_lt_is_Some_2 ms' _ Hslot) as [m Hm]. rewrite Hl in Hm. rewrite Hm.
  destruct (IH ms' (S i') (if hasTopic m (tp_topic tp) then AddToPlan plan (mt_memberID m) (tp_topic tp) [tp_partition tp] else plan))
    as (who & Hlen & -> & Hwho); [done|by intros ->|].
  exists ((if hasTopic m (tp_topic tp) then Some (mt_memberID m) else None) :: who).
  split; [cbn; by rewrite Hlen|]. split; [by destruct (hasTopic m (tp_topic tp))|].
  intros w tp' Hin id ->. cbn in Hin. apply elem_of_cons in Hin as [E|Hin]; [|by eapply Hwho].
  destruct (hasTopic m (tp_topic tp)) eqn:Eh; [|done]. simplify_eq. exists m. split; [|done].
  by eapply Hw', list_elem_of_lookup_2.
Qed.
(** When everybody takes every topic, turn [k] is for member [k mod n]. *)
Fixpoint turns (ids : list (list Z)) (k : nat) (tps : list TopicAndPartition) : deal_t :=
  match tps with
  | [] => []
  | tp :: tps => (ids !! (k mod length ids)%nat, tp) :: turns ids (S k) tps
  end.
Lemma rr_loop_turns tps ms i plan :
  (forall m tp, m ∈ ms -> tp ∈ tps -> hasTopic m (tp_topic tp) = true) -> ms <> [] ->
  rr_loop tps ms i plan = Some (deal (turns (mt_memberID <$> ms) i tps) plan).
Proof.
  revert i plan. induction tps as [|tp tps IH]; intros i plan Hall Hne; cbn [rr_loop turns]; [done|].
  assert (i mod length ms < length ms)%nat as Hslot by (apply Nat.mod_upper_bound; by destruct ms).
  destruct (lookup_lt_is_Some_2 ms _ Hslot) as [m Hm].
  assert (hasTopic m (tp_topic tp) = true) as Hh.
  { apply Hall; [by eapply list_elem_of_lookup_2|by left]. }
  assert (forall b, rr_seek b (i mod length ms) (tp_topic tp) ms i = Some (ms, i)) as ->.
  { intros []; cbn [rr_seek]; by rewrite Hm, Hh. }
  rewrite Hm, Hh, length_fmap, list_lookup_fmap, Hm. cbn [fmap option_fmap option_map deal].
  rewrite IH; [done|intros; apply Hall; [done|by right]|done].
Qed.

(** ** Counting turns *)

Definition turn_count (id : list Z) (l : deal_t) : Z :=
  Zlen (filter (fun e => fst e = Some id) l).

Lemma div_is a b q r : 0 <= r < b -> a = b * q + r -> a / b = q.
Proof. intros Hr Ha. symmetry. apply (Z.div_unique a b q r); [by left|done]. Qed.
Lemma turns_count ids j id k tps :
  NoDup ids -> ids !! j = Some id ->
  turn_count id (turns ids k tps) =
  (Z.of_nat k + Zlen tps + Zlen ids - 1 - Z.of_nat j) / Zlen ids -
  (Z.of_nat k + Zlen ids - 1 - Z.of_nat j) / Zlen ids.
Proof.
  intros Hnd Hj. unfold turn_count. assert (j < length ids)%nat as Hlt by by eapply lookup_lt_Some.
  revert k. induction tps as [|tp tps IH]; intros k; cbn [turns].
  { rewrite (Zlen_nil (A := TopicAndPartition)). change (Zlen _) with 0 at 1. rewrite Z.add_0_r. lia. }
  rewrite filter_cons, Zlen_cons. cbn [fst].
  assert ((if decide (ids !! (k mod length ids)%nat = Some id) then 1 else 0) =
    (Z.of_nat (S k) + Zlen ids - 1 - Z.of_nat j) / Zlen ids -
    (Z.of_nat k + Zlen ids - 1 - Z.of_nat j) / Zlen ids) as Estep.
  { assert (ids !! (k mod length ids)%nat = Some id <-> (k mod length ids = j)%nat) as Hiff.
    { split; [intros E; by eapply NoDup_lookup|by intros ->]. }
    unfold Zlen. pose proof (Nat.mod_upper_bound k (length ids) ltac:(lia)) as Hm.
    pose proof (Nat.div_mod_eq k (length ids)) as Hk. set (r := (k mod length ids)%nat) in *.
    set (q := (k / length ids)%nat) in *. set (n := length ids) in *.
    assert (Z.of_nat k = Z.of_nat n * Z.of_nat q + Z.of_nat r) as Ek by nia.
    case_decide as Hd; rewrite Hiff in Hd; [|destruct (decide (r < j)%nat)].
    - rewrite (div_is _ _ (Z.of_nat q + 1) 0), (div_is _ _ (Z.of_nat q) (Z.of_nat n - 1)); lia.
    - rewrite (div_is _ _ (Z.of_nat q) (Z.of_nat n + Z.of_nat r - Z.of_nat j)),
        (div_is _ _ (Z.of_nat q) (Z.of_nat n - 1 + Z.of_nat r - Z.of_nat j)); lia.
    - rewrite (div_is _ _ (Z.of_nat q + 1) (Z.of_nat r - Z.of_nat j)),
        (div_is _ _ (Z.of_nat q + 1) (Z.of_nat r - Z.of_nat j - 1)); lia. }
  case_decide as Hd; cbn [filter]; rewrite ?Zlen_cons, IH; (replace (Z.of_nat k + (1 + Zlen tps)) with (Z.of_nat (S k) + Zlen tps) by lia); lia.
Qed.
Lemma dealt_load l ts id :
  NoDup ts -> (forall e, e ∈ l -> tp_topic (snd e) ∈ ts) ->
  Zlen (ts ≫= fun t => dealt l id t) = turn_count id l.
Proof.
  intros Hnd. induction l as [|[who tp] l IH]; intros Hin.
  { unfold dealt. cbn. by rewrite bind_nil. }
  assert (length (ts ≫= fun t => dealt ((who, tp) :: l) id t) =
    length (ts ≫= fun t => if bool_decide (tp_topic tp = t) then if bool_decide (who = Some id) then [tp_partition tp] else [] else [])
      + length (ts ≫= fun t => dealt l id t))%nat as E.
  { rewrite <- length_app. rewrite <- bind_app_perm. f_equal. apply list_bind_ext; [|done]. intros t. rewrite dealt_cons. f_equal.
    repeat case_bool_decide; naive_solver. }
  rewrite bind_at, bool_decide_true in E; [|by apply (Hin (who, tp)); left|done].
  unfold turn_count in *. rewrite filter_cons. cbn [fst].
  assert (Zlen (ts ≫= fun t => dealt l id t) = Zlen (filter (fun e => fst e = Some id) l)) as El.
  { apply IH. intros e He. apply Hin. by right. }
  unfold Zlen in *. rewrite E. case_bool_decide as Hw; case_decide; cbn [length] in *; try done; lia.
Qed.
Lemma of_topic_perm l k topic : l ≡ₚ k -> of_topic l topic ≡ₚ of_topic k topic.
Proof. intros E. unfold of_topic. by rewrite E. Qed.
Lemma of_topic_app l k topic : of_topic (l ++ k) topic = of_topic l topic ++ of_topic k topic.
Proof. apply bind_app. Qed.
Lemma of_topic_map t ps topic :
  of_topic (map (mkTopicAndPartition t) ps) topic = if bool_decide (t = topic) then ps else [].
Proof.
  induction ps as [|p ps IH]; cbn [map]; [by case_bool_decide|]. rewrite of_topic_cons, IH. cbn. by case_bool_decide.
Qed.
Lemma of_topic_all topics topic :
  map_sorted topics ->
  of_topic (all_partitions topics) topic = match map_find topic topics with Some ps => ps | None => [] end.
Proof.
  induction topics as [|[t ps] topics IH]; [done|]. intros [Hlow Hs]. unfold all_partitions. cbn [mbind list_bind fst snd].
  rewrite of_topic_app, of_topic_map. setoid_rewrite IH; [|done]. destruct (decide (topic = t)) as [->|Hne].
  - by rewrite bool_decide_true, map_find_here, map_find_lower, app_nil_r.
  - by rewrite bool_decide_false, map_find_there.
Qed.
Lemma map_sorted_strongly {V} (m : list (list Z * V)) :
  map_sorted m -> StronglySorted (fun a b => key_lt (fst a) (fst b)) m.
Proof.
  induction m as [|[k v] m IH]; [constructor|]. intros [Hf Hs]. constructor; [by apply IH|done].
Qed.
Lemma members_sorted (members : members_t) :
  map_sorted members ->
  sort_by mt_memberID (map (fun it => mkMemberAndTopic (fst it) (m_topics (snd it))) members) =
  map (fun it => mkMemberAndTopic (fst it) (m_topics (snd it))) members.
Proof.
  intros Hs. apply sort_by_id. apply map_sorted_strongly in Hs.
  induction Hs as [|x l _ IH Hx]; cbn; constructor; [done|]. by apply Forall_fmap.
Qed.
Lemma all_partitions_topic topics tp : tp ∈ all_partitions topics -> tp_topic tp ∈ map_keys topics.
Proof.
  unfold all_partitions, map_keys. intros (e & Hin & He)%list_elem_of_bind.
  apply list_elem_of_fmap in Hin as (p & -> & _). apply list_elem_of_fmap. by exists e.
Qed.
Lemma snd_turns ids k tps : snd <$> turns ids k tps = tps.
Proof. revert k. induction tps; intros k; cbn; [done|]. by f_equal. Qed.

Lemma bind_assigned (f g : list Z -> list Z) l ks :
  (ks ≫= fun k => assigned (deal l []) (f k) (g k)) = (ks ≫= fun k => dealt l (f k) (g k)).
Proof. apply list_bind_ext; [|done]. intros k. by rewrite assigned_deal. Qed.
Lemma turns_dealt ids k tps e : 0 < Zlen ids -> e ∈ turns ids k tps -> exists id, fst e = Some id /\ id ∈ ids.
Proof.
  intros Hn. revert k. induction tps as [|tp tps IH]; intros k; cbn [turns]; [by intros ?%elem_of_nil|].
  intros [->|He]%elem_of_cons; [|by eapply IH]. cbn. unfold Zlen in Hn.
  destruct (lookup_lt_is_Some_2 ids (k mod length ids)) as [id Hid]; [apply Nat.mod_upper_bound; lia|].
  exists id. split; [done|]. by eapply list_elem_of_lookup_2.
Qed.
Lemma turns_bounds N n j :
  0 <= N -> 0 <= j < n -> N / n <= (0 + N + n - 1 - j) / n - (0 + n - 1 - j) / n <= N / n + 1.
Proof.
  intros HN Hj. rewrite (Z.div_small (0 + n - 1 - j) n) by lia. pose proof (Z.div_mod N n ltac:(lia)).
  pose proof (Z.mod_pos_bound N n ltac:(lia)). rewrite Z.sub_0_r. split.
  - apply Z.div_le_mono; lia.
  - rewrite <- (Z.div_add N 1 n) by lia. apply Z.div_le_mono; lia.
Qed.

(** ** Properties *)

Lemma all_subscribed members topics m tp :
  (forall id meta topic, (id, meta) ∈ members -> topic ∈ map_keys topics -> topic ∈ m_topics meta) ->
  m ∈ map (fun it => mkMemberAndTopic (fst it) (m_topics (snd it))) members ->
  tp ∈ sort_by comparedValue (all_partitions topics) -> hasTopic m (tp_topic tp) = true.
Proof.
  intros Hall ([id meta] & -> & Hin)%list_elem_of_fmap Htp. unfold hasTopic. cbn.
  apply bool_decide_true. eapply Hall; [done|]. apply all_partitions_topic. by rewrite sort_by_perm in Htp.
Qed.
Lemma RoundRobin_run members topics plan :
  map_sorted members -> members <> [] -> topics <> [] ->
  RoundRobin_Plan members topics plan =
  match rr_loop (sort_by comparedValue (all_partitions topics))
          (map (fun it => mkMemberAndTopic (fst it) (m_topics (snd it))) members) 0 [] with
  | Some plan => Some (0, plan)
  | None => None
  end.
Proof.
  intros Hs Hm Ht. unfold RoundRobin_Plan. destruct members as [|x members]; [done|]. destruct topics; [done|].
  by rewrite members_sorted.
Qed.

(** C34: When every member subscribes to every topic, round robin succeeds, every partition
    of every topic is assigned to exactly one member, and the total numbers of partitions
    any two members hold differ by at most one. *)
Theorem round_robin_plan_exact members topics plan :
  map_sorted members -> map_sorted topics -> members <> [] -> topics <> [] ->
  (forall id meta topic, (id, meta) ∈ members -> topic ∈ map_keys topics -> topic ∈ m_topics meta) ->
  exists plan', RoundRobin_Plan members topics plan = Some (0, plan') /\
    (forall topic partitions, map_find topic topics = Some partitions ->
       (map_keys members ≫= fun id => assigned plan' id topic) ≡ₚ partitions) /\
    (forall id, id ∈ map_keys members ->
       let load := Zlen (map_keys topics ≫= fun topic => assigned plan' id topic) in
       Zlen (all_partitions topics) / Zlen members <= load <= Zlen (all_partitions topics) / Zlen members + 1).
Proof.
  intros Hs Ht Hm Hne Hall. rewrite RoundRobin_run by done.
  set (ms := map _ members). set (tps := sort_by comparedValue (all_partitions topics)).
  assert (mt_memberID <$> ms = map_keys members) as Eids.
  { unfold ms, map_keys. rewrite <- !list_fmap_compose. by apply list_fmap_ext. }
  rewrite rr_loop_turns; [|intros m tp; by apply all_subscribed|by destruct members].
  eexists. split; [done|]. rewrite Eids. pose proof (map_sorted_nodup members Hs) as Hnd.
  assert (tps ≡ₚ all_partitions topics) as Hperm by apply sort_by_perm.
  assert (0 < Zlen (map_keys members)) as Hn.
  { destruct members; [done|]. unfold Zlen, map_keys. cbn. lia. }
  split.
  - intros topic ps Hf. rewrite (bind_assigned (fun id => id) (fun _ => topic)).
    rewrite (proj2 (dealt_once _ _ topic Hnd)).
    + rewrite snd_turns, (of_topic_perm _ _ _ Hperm), of_topic_all by done. by rewrite Hf.
    + intros e He. by eapply turns_dealt.
  - intros id Hid. cbn zeta. rewrite (bind_assigned (fun _ => id) (fun t => t)).
    rewrite dealt_load; [|by apply map_sorted_nodup|].
    + apply list_elem_of_lookup_1 in Hid as [j Hj]. rewrite (turns_count _ j) by done.
      pose proof (lookup_lt_Some _ _ _ Hj). unfold Zlen in *.
      rewrite (Permutation_length Hperm). unfold map_keys in *. rewrite length_map in *.
      apply turns_bounds; lia.
    + intros e He. apply all_partitions_topic. rewrite <- Hperm. rewrite <- (snd_turns (map_keys members) 0 tps).
      by apply list_elem_of_fmap_2.
Qed.
Definition example_members : members_t :=
  [([97], mkMetadata [[116]; [117]]); ([98], mkMetadata [[117]; [116]])].
Definition example_topics : topics_t := [([116], [0; 1; 2]); ([117], [0; 1])].
Lemma example_equal id meta topic :
  (id, meta) ∈ example_members -> topic ∈ map_keys example_topics -> topic ∈ m_topics meta.
Proof.
  intros Hin Ht. unfold example_members, example_topics, map_keys in *. cbn [map fst] in Ht.
  apply elem_of_cons in Hin as [[= -> ->]|Hin]; [|apply list_elem_of_singleton in Hin as [= -> ->]];
    apply elem_of_cons in Ht as [->|Ht]; try apply list_elem_of_singleton in Ht as ->; cbn;
    by apply (bool_decide_unpack _).
Qed.
Example round_robin_plan_exact_witness :
  exists plan', RoundRobin_Plan example_members example_topics [] = Some (0, plan') /\
    (map_keys example_members ≫= fun id => assigned plan' id [116]) ≡ₚ [0; 1; 2].
Proof.
  destruct (round_robin_plan_exact example_members example_topics []) as (plan' & E & Honce & _); try done.
  - by apply (bool_decide_unpack _).
  - by apply (bool_decide_unpack _).
  - exact example_equal.
  - exists plan'. split; [exact E|]. by apply (Honce [116] [0; 1; 2]).
Defined.

(** Whatever the subscriptions, round robin terminates without reading outside its
    vectors, assigns a partition only to a subscriber of its topic, and assigns no
    partition more than once. *)
Theorem round_robin_plan_sound members topics plan :
  map_sorted members -> map_sorted topics -> members <> [] -> topics <> [] ->
  exists plan', RoundRobin_Plan members topics plan = Some (0, plan') /\
    (forall id topic p, p ∈ assigned plan' id topic -> subscribes members id topic) /\
    (forall topic partitions, map_find topic topics = Some partitions ->
       (map_keys members ≫= fun id => assigned plan' id topic) ⊆+ partitions).
Proof.
  intros Hs Ht Hm Hne. rewrite RoundRobin_run by done.
  set (ms := map _ members). set (tps := sort_by comparedValue (all_partitions topics)).
  destruct (rr_loop_trace ms tps ms 0 []) as (who & Hlen & -> & Hwho); [by intros m|by destruct members|].
  eexists. split; [done|]. split.
  - intros id topic p. rewrite assigned_deal. cbn [app]. unfold dealt.
    intros ([w tp] & Hp & Hin)%list_elem_of_bind. case_bool_decide as Hc; [|by apply elem_of_nil in Hp].
    cbn in Hc. destruct Hc as [-> <-]. destruct (Hwho _ _ Hin id eq_refl) as (m & Hm' & <- & Hh).
    apply list_elem_of_fmap in Hm' as ([i meta] & -> & Hi). unfold hasTopic in Hh. cbn in Hh.
    apply bool_decide_eq_true in Hh. by exists meta.
  - intros topic ps Hf. rewrite (bind_assigned (fun id => id) (fun _ => topic)).
    destruct (dealt_once (zip who tps) (map_keys members) topic) as [Hsub _]; [by apply map_sorted_nodup|].
    rewrite snd_zip in Hsub by lia. rewrite Hsub.
    unfold tps. rewrite (of_topic_perm _ _ _ (sort_by_perm comparedValue (all_partitions topics))), of_topic_all by done.
    by rewrite Hf.
Qed.
Definition split_members : members_t := [([97], mkMetadata [[117]]); ([98], mkMetadata [[116]])].
Example round_robin_plan_sound_witness :
  exists plan', RoundRobin_Plan split_members example_topics [] = Some (0, plan') /\
    (map_keys split_members ≫= fun id => assigned plan' id [116]) ⊆+ [0; 1; 2].
Proof.
  destruct (round_robin_plan_sound split_members example_topics []) as (plan' & E & _ & Honce); try done.
  - by apply (bool_decide_unpack _).
  - by apply (bool_decide_unpack _).
  - exists plan'. split; [exact E|]. by apply (Honce [116] [0; 1; 2]).
Defined.

(** The loop's [m = members[i % n]] assigns through a reference into the vector.  Two
    members that subscribe to one topic each, the first by name to the second topic by name:
    the second member's entry overwrites the first's, and the partition of the topic the
    first subscribes to is assigned to nobody. *)
Theorem round_robin_overwrites_member a b t u p q plan :
  key_lt a b -> key_lt t u ->
  key_lt (comparedValue (mkTopicAndPartition t p)) (comparedValue (mkTopicAndPartition u q)) ->
  RoundRobin_Plan [(a, mkMetadata [u]); (b, mkMetadata [t])] [(t, [p]); (u, [q])] plan = Some (0, [(b, [(t, [p])])]).
Proof.
  intros Hab Htu Hpq. assert (t <> u) as Hne by by apply key_lt_ne.
  rewrite RoundRobin_run; [|cbn; repeat constructor; done|done|done].
  assert (sort_by comparedValue (all_partitions [(t, [p]); (u, [q])]) =
    [mkTopicAndPartition t p; mkTopicAndPartition u q]) as ->.
  { apply sort_by_id. repeat constructor. exact Hpq. }
  assert (forall i x, hasTopic (mkMemberAndTopic i [x]) x = true) as Hyes.
  { intros i x. apply bool_decide_true. cbn. by left. }
  assert (forall i x y, x <> y -> hasTopic (mkMemberAndTopic i [x]) y = false) as Hno.
  { intros i x y Hxy. apply bool_decide_false. cbn. by intros ->%list_elem_of_singleton. }
  repeat (cbn; rewrite ?Hyes, ?(Hno _ u t), ?(Hno _ t u) by done). done.
Qed.
Example round_robin_overwrites_member_witness :
  RoundRobin_Plan [([97], mkMetadata [[117]]); ([98], mkMetadata [[116]])] [([116], [0]); ([117], [0])] [] =
  Some (0, [([98], [([116], [0])])]).
Proof. by apply round_robin_overwrites_member. Defined.
