(* ===== verification/Sticky.v ===== *)
(** * Sticky assignment

    The sticky strategy of [coev_kafka/balance_strategy.cpp].  A plan starts from what
    [prepopulateCurrentAssignments] finds, assigns what is unassigned to the least loaded
    subscribers, and then moves partitions until the assignment is balanced or no move
    helps, recording the moves so that a later move can undo an earlier one.

    [operator[]] on a map inserts a missing key; [at] throws. *)
From Stdlib Require Import ZArith Lia Bool.
From stdpp Require Import base tactics list numbers sorting.
From S2P Require Import Prelude StdMap Balance.

(** [topic_t]: compared by topic, then by partition *)
(* coev_kafka/topic_type.h:13-24 topic_t *)
Definition topic_t : Type := list Z * Z.
Definition tp_of (topic : list Z) (p : Z) : topic_t := (topic, p).
Definition topic_eqb (a b : topic_t) : bool := bool_decide (a = b).

Abbreviation assignment_t := (list (list Z * list topic_t)).
Abbreviation consumers_t := (list (topic_t * list (list Z))).
Abbreviation owners_t := (list (topic_t * list Z)).

(* coev_kafka/balance_strategy.h:19-23 consumerGenerationPair *)
Record consumerGenerationPair := mkGenerationPair { m_member_id : list Z; m_generation : Z }.
(** [(SrcMemberID, DstMemberID)], compared as a pair *)
(* coev_kafka/balance_strategy.cpp:114-126 consumer_movement *)
Definition consumer_movement : Type := list Z * list Z.
(* coev_kafka/balance_strategy.cpp:128-142 PartitionMovements *)
Record PartitionMovements := mkMovements {
  PartitionMovementsByTopic : list (list Z * list (consumer_movement * list (topic_t * bool)));
  Movements : list (topic_t * consumer_movement)
}.
Definition no_movements : PartitionMovements := mkMovements [] [].

(** [m[k]] where the value is read *)
Definition at_or {K} `{KeyOrder K} {V} (d : V) (k : K) (m : list (K * V)) : V :=
  match map_find k m with Some v => v | None => d end.
(** [m[k]] for its effect on the map *)
Definition touch {K} `{KeyOrder K} {V} (d : V) (k : K) (m : list (K * V)) : list (K * V) :=
  map_update d (fun v => v) k m.

(** ** Scores *)

Definition size_of (a : assignment_t) (id : list Z) : Z := Zlen (at_or [] id a).
(** The comparison of the lambda: by number of partitions, then by name *)
Definition load_key (a : assignment_t) (id : list Z) : Z * list Z := (size_of a id, id).

(** The sum is kept in a [double], exact below 2^53. *)
(* coev_kafka/balance_strategy.cpp getBalanceScore *)
Definition getBalanceScore (assignment : assignment_t) : Z :=
  let consumer2AssignmentSize := map (fun e => (fst e, Zlen (snd e))) assignment in
  fold_left (fun score it1 =>
    fold_left (fun score e => score + Z.abs (snd it1 - snd e)) (map_erase (fst it1) consumer2AssignmentSize) score)
    consumer2AssignmentSize 0.

(* coev_kafka/balance_strategy.cpp sortMemberIDsByPartitionAssignments *)
Definition sortMemberIDsByPartitionAssignments (assignments : assignment_t) : list (list Z) :=
  sort_by (load_key assignments) (map_keys assignments).

(** The loop over the members: [None] where [at] throws *)
Fixpoint balanced_partitions (currentAssignment : assignment_t) (allPartitions_ : owners_t)
    (consumerPartitions : list topic_t) (potential : list topic_t) : option bool :=
  match potential with
  | [] => Some true
  | partition :: potential =>
      if existsb (topic_eqb partition) consumerPartitions
      then balanced_partitions currentAssignment allPartitions_ consumerPartitions potential
      else
        match map_find partition allPartitions_ with
        | None => None
        | Some otherConsumer =>
            match map_find otherConsumer currentAssignment with
            | None => None
            | Some other =>
                if Zlen consumerPartitions <? Zlen other then Some false
                else balanced_partitions currentAssignment allPartitions_ consumerPartitions potential
            end
        end
  end.
Fixpoint balanced_members (currentAssignment allSubscriptions : assignment_t) (allPartitions_ : owners_t)
    (ids : list (list Z)) : option bool :=
  match ids with
  | [] => Some true
  | memberID :: ids =>
      match map_find memberID currentAssignment, map_find memberID allSubscriptions with
      | Some consumerPartitions, Some potential =>
          if Zlen consumerPartitions =? Zlen potential
          then balanced_members currentAssignment allSubscriptions allPartitions_ ids
          else
            match balanced_partitions currentAssignment allPartitions_ consumerPartitions potential with
            | Some true => balanced_members currentAssignment allSubscriptions allPartitions_ ids
            | r => r
            end
      | _, _ => None
      end
  end.
Definition owners_of (currentAssignment : assignment_t) : owners_t :=
  fold_left (fun all e => fold_left (fun all partition => map_assign partition (fst e) all) (snd e) all)
    currentAssignment [].
(* coev_kafka/balance_strategy.cpp isBalanced *)
Definition isBalanced (currentAssignment allSubscriptions : assignment_t) : option bool :=
  match currentAssignment with
  | [] => Some true
  | _ =>
      let sorted := sortMemberIDsByPartitionAssignments currentAssignment in
      let min := size_of currentAssignment (default [] (head sorted)) in
      let max := size_of currentAssignment (default [] (last sorted)) in
      if max - 1 <=? min then Some true
      else balanced_members currentAssignment allSubscriptions (owners_of currentAssignment) sorted
  end.

(* coev_kafka/balance_strategy.cpp canConsumerParticipateInReassignment *)
Definition canConsumerParticipateInReassignment (memberID : list Z) (currentAssignment : assignment_t)
    (consumer2AllPotentialPartitions : assignment_t) (partition2AllPotentialConsumers : consumers_t) : bool :=
  match map_find memberID currentAssignment with
  | None =>
      match map_find memberID consumer2AllPotentialPartitions with
      | None => false
      | Some l => negb (Zlen l =? 0)
      end
  | Some currentPartitions =>
      match map_find memberID consumer2AllPotentialPartitions with
      | None => false
      | Some l =>
          if Zlen currentPartitions <? Zlen l then true
          else existsb (fun partition =>
            match map_find partition partition2AllPotentialConsumers with
            | Some c => 2 <=? Zlen c
            | None => false
            end) currentPartitions
      end
  end.
(* coev_kafka/balance_strategy.cpp canTopicPartitionParticipateInReassignment *)
Definition canTopicPartitionParticipateInReassignment (partition : topic_t)
    (partition2AllPotentialConsumers : consumers_t) : bool :=
  match map_find partition partition2AllPotentialConsumers with
  | Some c => 2 <=? Zlen c
  | None => false
  end.

(* coev_kafka/balance_strategy.cpp removeTopicPartitionFromMemberAssignments *)
Fixpoint removeTopicPartitionFromMemberAssignments (assignments : list topic_t) (topic : topic_t) : list topic_t :=
  match assignments with
  | [] => []
  | a :: rest => if topic_eqb a topic then rest else a :: removeTopicPartitionFromMemberAssignments rest topic
  end.
(* coev_kafka/balance_strategy.cpp memberAssignmentsIncludeTopicPartition *)
Definition memberAssignmentsIncludeTopicPartition (assignments : list topic_t) (topic : topic_t) : bool :=
  existsb (fun a => topic_eqb a topic) assignments.
(** By the number of consumers, then by topic and partition *)
(* coev_kafka/balance_strategy.cpp sortPartitionsByPotentialConsumerAssignments *)
Definition sortPartitionsByPotentialConsumerAssignments (partition2AllPotentialConsumers : consumers_t) : list topic_t :=
  sort_by (fun p => (Zlen (at_or [] p partition2AllPotentialConsumers), p)) (map_keys partition2AllPotentialConsumers).
(* coev_kafka/balance_strategy.cpp deepCopyAssignment *)
Definition deepCopyAssignment (assignment : assignment_t) : assignment_t := map_of assignment.

(** ** Movements *)

(* coev_kafka/balance_strategy.cpp PartitionMovements::remove_movement_record_of_partition *)
Definition remove_movement_record_of_partition (partition : topic_t) (pm : PartitionMovements)
    : consumer_movement * PartitionMovements :=
  let outPair := at_or ([], []) partition (Movements pm) in
  let topicMap := at_or [] (fst partition) (PartitionMovementsByTopic pm) in
  let records := map_erase partition (at_or [] outPair topicMap) in
  let topicMap := match records with
                  | [] => map_erase outPair (touch [] outPair topicMap)
                  | _ => map_assign outPair records topicMap
                  end in
  let by_topic := map_assign (fst partition) topicMap (PartitionMovementsByTopic pm) in
  (outPair, mkMovements
     (match topicMap with [] => map_erase (fst partition) by_topic | _ => by_topic end)
     (map_erase partition (Movements pm))).
(* coev_kafka/balance_strategy.cpp PartitionMovements::add_partition_movement_record *)
Definition add_partition_movement_record (partition : topic_t) (pair : consumer_movement) (pm : PartitionMovements)
    : PartitionMovements :=
  mkMovements
    (map_update [] (map_update [] (map_assign partition true) pair) (fst partition) (PartitionMovementsByTopic pm))
    (map_assign partition pair (Movements pm)).
(* coev_kafka/balance_strategy.cpp PartitionMovements::move_partition *)
Definition move_partition (partition : topic_t) (oldConsumer newConsumer : list Z) (pm : PartitionMovements)
    : PartitionMovements :=
  if map_count partition (Movements pm) then
    let '(existingPair, pm) := remove_movement_record_of_partition partition pm in
    if bool_decide (fst existingPair <> newConsumer)
    then add_partition_movement_record partition (fst existingPair, newConsumer) pm
    else pm
  else add_partition_movement_record partition (oldConsumer, newConsumer) pm.
(** [None]: [begin()] of an empty map is dereferenced. *)
(* coev_kafka/balance_strategy.cpp PartitionMovements::get_the_actual_partition_to_be_moved *)
Definition get_the_actual_partition_to_be_moved (partition : topic_t) (oldConsumer newConsumer : list Z)
    (pm : PartitionMovements) : option topic_t :=
  match map_find (fst partition) (PartitionMovementsByTopic pm) with
  | None => Some partition
  | Some topicMap =>
      let actualOld := match map_find partition (Movements pm) with
                       | Some moved => fst moved
                       | None => oldConsumer
                       end in
      match map_find (newConsumer, actualOld) topicMap with
      | None => Some partition
      | Some revMap => match revMap with [] => None | (p, _) :: _ => Some p end
      end
  end.

(** The cycle test, which the plan does not use.  The recursion of [is_linked] drops a pair
    at each call: the number of pairs is enough fuel. *)
Fixpoint drop_at {A} (n : nat) (l : list A) : list A :=
  match l, n with
  | [], _ => []
  | _ :: l, O => l
  | x :: l, S n => x :: drop_at n l
  end.
(* coev_kafka/balance_strategy.cpp PartitionMovements::is_linked *)
Fixpoint is_linked (fuel : nat) (src dst : list Z) (pairs : list consumer_movement) (currentPath : list (list Z))
    : list (list Z) * bool :=
  if bool_decide (src = dst) then (currentPath, false)
  else if existsb (fun p => bool_decide (p = (src, dst))) pairs then (currentPath ++ [src; dst], true)
  else match fuel with
       | O => (currentPath, false)
       | S fuel =>
           match list_find (fun p => fst p = src) pairs with
           | None => (currentPath, false)
           | Some (i, p) => is_linked fuel (snd p) dst (drop_at i pairs) (currentPath ++ [src])
           end
       end.
(* coev_kafka/balance_strategy.cpp PartitionMovements::in *)
Definition cycle_in (cycle : list (list Z)) (cycles : list (list (list Z))) : bool :=
  if Zlen cycle <? 2 then false
  else
    let superCycle := take (length cycle - 1) cycle ++ cycle in
    existsb (fun foundCycle =>
      if negb (Zlen foundCycle =? Zlen cycle) then false
      else existsb (fun i => bool_decide (take (length foundCycle) (drop i superCycle) = foundCycle))
             (seq 0 (S (length superCycle - length foundCycle)))) cycles.
Fixpoint has_cycles_from (i : nat) (rest pairs : list consumer_movement) (cycles : list (list (list Z))) : bool :=
  match rest with
  | [] => false
  | p :: rest =>
      let reducedPairs := drop_at i pairs in
      let '(path, linked) := is_linked (length reducedPairs) (snd p) (fst p) reducedPairs [fst p] in
      if linked && negb (cycle_in path cycles) then
        if Zlen path =? 3 then true else has_cycles_from (S i) rest pairs (cycles ++ [path])
      else has_cycles_from (S i) rest pairs cycles
  end.
(* coev_kafka/balance_strategy.cpp PartitionMovements::has_cycles *)
Definition has_cycles (pairs : list consumer_movement) : bool := has_cycles_from 0 pairs pairs [].
(* coev_kafka/balance_strategy.cpp PartitionMovements::is_sticky *)
Definition is_sticky (pm : PartitionMovements) : bool :=
  forallb (fun e => negb (has_cycles (map_keys (snd e)))) (PartitionMovementsByTopic pm).

(** ** Moving partitions

    The variables [balance] passes around by reference *)
Record sticky := mkSticky {
  currentAssignment : assignment_t;
  currentPartitionConsumer : owners_t;
  sortedCurrentSubscriptions : list (list Z);
  movements : PartitionMovements
}.
Definition set_subscriptions (l : list (list Z)) (s : sticky) : sticky :=
  mkSticky (currentAssignment s) (currentPartitionConsumer s) l (movements s).
Definition set_assignment (a : assignment_t) (s : sticky) : sticky :=
  mkSticky a (currentPartitionConsumer s) (sortedCurrentSubscriptions s) (movements s).
Definition set_owners (o : owners_t) (s : sticky) : sticky :=
  mkSticky (currentAssignment s) o (sortedCurrentSubscriptions s) (movements s).

(** [currentPartitionConsumer[partition]] *)
Definition read_owner (partition : topic_t) : M sticky (list Z) := fun s =>
  Done (at_or [] partition (currentPartitionConsumer s))
       (set_owners (touch [] partition (currentPartitionConsumer s)) s).
(** [currentAssignment[id].size()] *)
Definition read_size (id : list Z) : M sticky Z := fun s =>
  Done (size_of (currentAssignment s) id) (set_assignment (touch [] id (currentAssignment s)) s).

Section Balance.
Context (consumer2AllPotentialPartitions : assignment_t) (partition2AllPotentialConsumers : consumers_t).
Context (prevAssignment : list (topic_t * consumerGenerationPair)).

(* coev_kafka/balance_strategy.cpp assignPartition *)
Definition assignPartition (partition : topic_t) : M sticky unit := fun s =>
  let includes memberID :=
    memberAssignmentsIncludeTopicPartition (at_or [] memberID consumer2AllPotentialPartitions) partition in
  let s := match list_find (fun id => includes id = true) (sortedCurrentSubscriptions s) with
           | Some (_, memberID) =>
               mkSticky (map_update [] (fun l => l ++ [partition]) memberID (currentAssignment s))
                        (map_assign partition memberID (currentPartitionConsumer s))
                        (sortedCurrentSubscriptions s) (movements s)
           | None => s
           end in
  Done tt (set_subscriptions (sortMemberIDsByPartitionAssignments (currentAssignment s)) s).

(** The subscriptions sorted again are returned, and assigned by every caller. *)
(* coev_kafka/balance_strategy.cpp StickyBalanceStrategy::processPartitionMovement *)
Definition processPartitionMovement (partition : topic_t) (newConsumer : list Z) : M sticky unit :=
  let* oldConsumer := read_owner partition in
  fun s =>
    let moved := move_partition partition oldConsumer newConsumer (movements s) in
    let a := map_update [] (fun l => removeTopicPartitionFromMemberAssignments l partition) oldConsumer (currentAssignment s) in
    let a := map_update [] (fun l => l ++ [partition]) newConsumer a in
    Done tt (mkSticky a (map_assign partition newConsumer (currentPartitionConsumer s))
               (sortMemberIDsByPartitionAssignments a) moved).

(* coev_kafka/balance_strategy.cpp StickyBalanceStrategy::reassignPartition *)
Definition reassignPartition (partition : topic_t) (newConsumer : list Z) : M sticky unit :=
  let* consumer := read_owner partition in
  let* pm := gets movements in
  match get_the_actual_partition_to_be_moved partition consumer newConsumer pm with
  | Some partitionToBeMoved => processPartitionMovement partitionToBeMoved newConsumer
  | None => fail FUB
  end.

Fixpoint reassign_to_first (partition : topic_t) (ids : list (list Z)) : M sticky unit :=
  match ids with
  | [] => ret tt
  | anotherConsumer :: ids =>
      match map_find anotherConsumer consumer2AllPotentialPartitions with
      | None => fail FThrow
      | Some potential =>
          if memberAssignmentsIncludeTopicPartition potential partition
          then reassignPartition partition anotherConsumer
          else reassign_to_first partition ids
      end
  end.
(* coev_kafka/balance_strategy.cpp StickyBalanceStrategy::reassignPartitionToNewConsumer *)
Definition reassignPartitionToNewConsumer (partition : topic_t) : M sticky unit :=
  let* ids := gets sortedCurrentSubscriptions in reassign_to_first partition ids.

(** Back to the previous owner, if that helps; [true]: moved *)
(* coev_kafka/balance_strategy.cpp:1078-1092 StickyBalanceStrategy::performReassignments *)
Definition move_back (partition : topic_t) (consumer : list Z) : M sticky bool :=
  match map_find partition prevAssignment with
  | None => ret false
  | Some prev =>
      let* mine := read_size consumer in
      let* theirs := read_size (m_member_id prev) in
      if theirs + 1 <? mine then reassignPartition partition (m_member_id prev) ;;; ret true
      else ret false
  end.
(** The loop over the other consumers, which ends at the first one that makes it move *)
(* coev_kafka/balance_strategy.cpp:1093-1105 StickyBalanceStrategy::performReassignments *)
Fixpoint move_on (partition : topic_t) (consumer : list Z) (others : list (list Z)) : M sticky bool :=
  match others with
  | [] => ret false
  | otherConsumer :: others =>
      let* mine := read_size consumer in
      let* theirs := read_size otherConsumer in
      if theirs + 1 <? mine then reassignPartitionToNewConsumer partition ;;; ret true
      else move_on partition consumer others
  end.
(** One partition of the [for] loop: [None] leaves the loop, [Some b] goes on, [b] telling
    whether a partition was moved. *)
(* coev_kafka/balance_strategy.cpp:1063-1106 StickyBalanceStrategy::performReassignments *)
Definition reassign_one (partition : topic_t) : M sticky (option bool) :=
  let* a := gets currentAssignment in
  match isBalanced a consumer2AllPotentialPartitions with
  | None => fail FThrow
  | Some true => ret None
  | Some false =>
      match map_find partition partition2AllPotentialConsumers with
      | None => fail FThrow
      | Some consumers =>
          if Zlen consumers <=? 1 then ret (Some false)
          else
            let* consumer := read_owner partition in
            if bool_decide (consumer = []) then ret (Some false)
            else
              let* back := move_back partition consumer in
              if (back : bool) then ret (Some true)
              else let* b := move_on partition consumer consumers in ret (Some b)
      end
  end.
Fixpoint reassign_pass (reassignable : list topic_t) (modified : bool) : M sticky bool :=
  match reassignable with
  | [] => ret modified
  | partition :: reassignable =>
      let* r := reassign_one partition in
      match r with
      | None => ret modified
      | Some b => reassign_pass reassignable (modified || b)
      end
  end.
(** [do ... while (modified)]: [fuel] bounds the number of passes. *)
(* coev_kafka/balance_strategy.cpp StickyBalanceStrategy::performReassignments *)
Fixpoint performReassignments (fuel : nat) (reassignable : list topic_t) (reassignmentPerformed : bool) : M sticky bool :=
  match fuel with
  | O => fail FDiverge
  | S fuel =>
      let* modified := reassign_pass reassignable false in
      if (modified : bool) then performReassignments fuel reassignable true
      else ret reassignmentPerformed
  end.

(** The members that cannot take part keep what they have. *)
Fixpoint fix_members (ids : list (list Z)) (fixedAssignments : assignment_t) : M sticky assignment_t :=
  match ids with
  | [] => ret fixedAssignments
  | memberID :: ids => fun s =>
      if canConsumerParticipateInReassignment memberID (currentAssignment s)
           consumer2AllPotentialPartitions partition2AllPotentialConsumers
      then fix_members ids fixedAssignments s
      else
        let fixedAssignments := map_assign memberID (at_or [] memberID (currentAssignment s)) fixedAssignments in
        let a := map_erase memberID (touch [] memberID (currentAssignment s)) in
        fix_members ids fixedAssignments
          (set_subscriptions (sortMemberIDsByPartitionAssignments a) (set_assignment a s))
  end.

(* coev_kafka/balance_strategy.cpp StickyBalanceStrategy::balance *)
Definition balance (fuel : nat) (sortedPartitions unassignedPartitions : list topic_t) : M sticky unit := fun s =>
  let initializing :=
    match sortedCurrentSubscriptions s with
    | [] => true
    | id :: _ => match map_find id (currentAssignment s) with
                 | Some l => Zlen l =? 0
                 | None => false
                 end
    end in
  (for_do unassignedPartitions (fun partition =>
     if Zlen (at_or [] partition partition2AllPotentialConsumers) =? 0 then ret tt else assignPartition partition) ;;;
   let reassignable := filter (fun p =>
     map_count p partition2AllPotentialConsumers &&
     negb (canTopicPartitionParticipateInReassignment p partition2AllPotentialConsumers) = false) sortedPartitions in
   let* fixedAssignments := fix_members (map_keys consumer2AllPotentialPartitions) [] in
   let* preBalanceAssignment := gets (fun s => deepCopyAssignment (currentAssignment s)) in
   let* preBalancePartitionConsumers := gets currentPartitionConsumer in
   let* reassignmentPerformed := performReassignments fuel reassignable false in
   let* a := gets currentAssignment in
   whenU (negb initializing && reassignmentPerformed &&
          (getBalanceScore preBalanceAssignment <=? getBalanceScore a))
     (modify (fun s => set_owners preBalancePartitionConsumers
                         (set_assignment (deepCopyAssignment preBalanceAssignment) s))) ;;;
   modify (fun s => set_assignment
     (fold_left (fun a e => map_assign (fst e) (snd e) a) fixedAssignments (currentAssignment s)) s)) s.
End Balance.

(** ** The plan *)

Definition defaultGeneration : Z := -1.
(** What the members' user data says they own: the code does not decode it, so that
    [userPartitions] is always empty and every plan starts afresh. *)
(* coev_kafka/balance_strategy.cpp:589-622 prepopulateCurrentAssignments *)
Definition partition_generations (members : members_t) : list (topic_t * list (Z * list Z)) :=
  fold_left (fun sorted it =>
    let userPartitions : list topic_t := [] in
    let generation := defaultGeneration in
    let hasGen := false in
    fold_left (fun sorted partition =>
      map_update [] (fun consumers =>
        match consumers with
        | [] => map_assign generation (fst it) consumers
        | _ => if (hasGen : bool) then
                 if map_count generation consumers then consumers else map_assign generation (fst it) consumers
               else map_assign defaultGeneration (fst it) consumers
        end) partition sorted) userPartitions sorted) members [].
(** [None]: [generations[0]] of an empty vector *)
(* coev_kafka/balance_strategy.cpp prepopulateCurrentAssignments *)
Definition prepopulateCurrentAssignments (members : members_t)
    : option (assignment_t * list (topic_t * consumerGenerationPair)) :=
  fold_left (fun acc it =>
    match acc, rev (snd it) with
    | None, _ => None
    | _, [] => None
    | Some (current, prev), (_, consumer) :: older =>
        let current := map_update [] (fun l => l ++ [fst it]) consumer current in
        Some (current, match older with
                       | [] => prev
                       | (g, c) :: _ => map_assign (fst it) (mkGenerationPair c g) prev
                       end)
    end) (partition_generations members) (Some ([], [])).

(* coev_kafka/balance_strategy.cpp:844-852 StickyBalanceStrategy::Plan *)
Definition no_consumers (topics : topics_t) : consumers_t :=
  fold_left (fun m e => fold_left (fun m p => map_assign (tp_of (fst e) p) [] m) (snd e) m) topics [].
(** What the topics a member subscribes to offer it *)
Definition potential_of (topics : topics_t) (meta : ConsumerGroupMemberMetadata) : list topic_t :=
  m_topics meta ≫= fun topic =>
    match map_find topic topics with
    | Some partitions => map (tp_of topic) partitions
    | None => []
    end.
(** The three maps after the loop over the members *)
(* coev_kafka/balance_strategy.cpp:854-878 StickyBalanceStrategy::Plan *)
Fixpoint potentials (topics : topics_t) (members : members_t) (c2p : assignment_t) (p2c : consumers_t)
    (current : assignment_t) : assignment_t * consumers_t * assignment_t :=
  match members with
  | [] => (c2p, p2c, current)
  | (memberID, meta) :: members =>
      let l := potential_of topics meta in
      let p2c := fold_left (fun p2c tpa => map_update [] (fun ids => ids ++ [memberID]) tpa p2c) l p2c in
      potentials topics members (map_assign memberID l c2p) p2c
        (if map_count memberID current then current else map_assign memberID [] current)
  end.
(** Which of the partitions found are kept: one member's partitions, then all members;
    [None] where [members.at] throws *)
(* coev_kafka/balance_strategy.cpp:888-916 StickyBalanceStrategy::Plan *)
Definition keep_partition (members : members_t) (p2c : consumers_t) (memberID : list Z)
    (acc : option (list topic_t * list topic_t * list (topic_t * bool) * owners_t)) (partition : topic_t) :=
  match acc with
  | None => None
  | Some (keep, unassigned, unvisited, owners) =>
      if map_count partition p2c then
        let unvisited := map_erase partition unvisited in
        let owners := map_assign partition memberID owners in
        match map_find memberID members with
        | None => None
        | Some meta =>
            if bool_decide (fst partition ∈ m_topics meta)
            then Some (keep ++ [partition], unassigned, unvisited, owners)
            else Some (keep, unassigned ++ [partition], unvisited, owners)
        end
      else acc
  end.
Fixpoint keep_assignments (members : members_t) (p2c : consumers_t) (entries : assignment_t)
    (current : assignment_t) (unassigned : list topic_t) (unvisited : list (topic_t * bool)) (owners : owners_t)
    : option (assignment_t * list topic_t * list (topic_t * bool) * owners_t) :=
  match entries with
  | [] => Some (current, unassigned, unvisited, owners)
  | (memberID, partitions) :: entries =>
      match fold_left (keep_partition members p2c memberID) partitions (Some ([], unassigned, unvisited, owners)) with
      | None => None
      | Some (keep, unassigned, unvisited, owners) =>
          keep_assignments members p2c entries (map_assign memberID keep current) unassigned unvisited owners
      end
  end.
(** The result: an entry per member, without topics if it gets nothing *)
(* coev_kafka/balance_strategy.cpp:940-954 StickyBalanceStrategy::Plan *)
Definition plan_of (current : assignment_t) : BalanceStrategyPlan :=
  fold_left (fun plan e =>
    match snd e with
    | [] => map_assign (fst e) [] plan
    | l => fold_left (fun plan a => AddToPlan plan (fst e) (fst a) [snd a]) l plan
    end) current [].
(* coev_kafka/balance_strategy.cpp StickyBalanceStrategy::Plan *)
Definition Sticky_Plan (fuel : nat) (members : members_t) (topics : topics_t) : outcome unit BalanceStrategyPlan :=
  match topics with
  | [] => Done [] tt
  | _ =>
      match prepopulateCurrentAssignments members with
      | None => Fault FUB
      | Some (current, prev) =>
          let '(c2p, p2c, current) := potentials topics members [] (no_consumers topics) current in
          let unvisited := map (fun e => (fst e, true)) p2c in
          match keep_assignments members p2c current current [] unvisited [] with
          | None => Fault FThrow
          | Some (current, unassigned, unvisited, owners) =>
              let unassigned := unassigned ++ map_keys unvisited in
              let s := mkSticky current owners (sortMemberIDsByPartitionAssignments current) no_movements in
              match balance c2p p2c prev fuel (sortPartitionsByPotentialConsumerAssignments p2c) unassigned s with
              | Done _ s => Done (plan_of (currentAssignment s)) tt
              | Fault f => Fault f
              end
          end
      end
  end.
