(* ===== verification/StickyMoves.v ===== *)
(** * Moving partitions keeps an assignment exact

    The invariant of the state [balance] threads through its helpers, and that every helper
    of [Sticky] preserves it without a fault. *)
From Stdlib Require Import ZArith Lia Bool.
From stdpp Require Import base tactics list numbers sorting.
From S2P Require Import Prelude StdMap Balance Sticky.

(** ** Map reads *)

Section AtOr.
Context {K : Type} `{KeyOrder K} {V : Type}.
Implicit Types (k : K) (m : list (K * V)).
Lemma at_or_some d k m v : map_find k m = Some v -> at_or d k m = v.
Proof. unfold at_or. by intros ->. Qed.
Lemma at_or_none d k m : map_find k m = None -> at_or d k m = d.
Proof. unfold at_or. by intros ->. Qed.
Lemma at_or_update_eq d f k m : at_or d k (map_update d f k m) = f (at_or d k m).
Proof. unfold at_or. by rewrite map_find_update_eq. Qed.
Lemma at_or_update_ne d f k k' m : k' <> k -> at_or d k' (map_update d f k m) = at_or d k' m.
Proof. intros Hne. unfold at_or. by rewrite map_find_update_ne. Qed.
Lemma map_assign_same k v m : map_sorted m -> map_find k m = Some v -> map_assign k v m = m.
Proof.
  induction m as [|[k0 v0] m IH]; [done|]. intros [Hlow Hs] Hf. cbn in Hf |- *.
  destruct (key_compare k k0) eqn:E.
  - by simplify_eq.
  - rewrite map_find_lower in Hf; [done|]. eapply Forall_impl; [exact Hlow|]. intros p. by apply key_lt_trans.
  - by rewrite IH.
Qed.
Lemma touch_id d k m : map_sorted m -> is_Some (map_find k m) -> touch d k m = m.
Proof. intros Hs [v Hv]. unfold touch, map_update. rewrite Hv. by apply map_assign_same. Qed.
Lemma map_keys_assign k v m :
  map_sorted m -> is_Some (map_find k m) -> map_keys (map_assign k v m) = map_keys m.
Proof.
  unfold map_keys. induction m as [|[k0 v0] m IH]; intros Hs [x Hx]; [done|]. destruct Hs as [Hlow Hs].
  cbn in Hx |- *. destruct (key_compare k k0) eqn:E.
  - done.
  - rewrite map_find_lower in Hx; [done|]. eapply Forall_impl; [exact Hlow|]. intros p. by apply key_lt_trans.
  - cbn. f_equal. apply IH; [done|by eexists].
Qed.
Lemma map_keys_update d f k m :
  map_sorted m -> is_Some (map_find k m) -> map_keys (map_update d f k m) = map_keys m.
Proof. apply map_keys_assign. Qed.
End AtOr.

(** ** A run that may only fail by running out of fuel *)

Definition safe {S A} (P : S -> Prop) (m : M S A) (Q : A -> S -> Prop) : Prop :=
  forall s, P s -> match m s with Done a s' => Q a s' | Fault f => f = FDiverge end.

Lemma safe_ret {S A} (P : S -> Prop) (a : A) Q : (forall s, P s -> Q a s) -> safe P (ret a) Q.
Proof. intros HQ s Hs. by apply HQ. Qed.
Lemma safe_bind {S A B} (P : S -> Prop) (m : M S A) (k : A -> M S B) Q R :
  safe P m Q -> (forall a, safe (Q a) (k a) R) -> safe P (bind m k) R.
Proof.
  intros Hm Hk s Hs. specialize (Hm s Hs). unfold bind. destruct (m s) as [a s'|f]; [|done].
  by apply Hk.
Qed.
Lemma safe_weaken {S A} (P P' : S -> Prop) (m : M S A) Q Q' :
  safe P m Q -> (forall s, P' s -> P s) -> (forall a s, Q a s -> Q' a s) -> safe P' m Q'.
Proof. intros Hm HP HQ s Hs. specialize (Hm s (HP s Hs)). destruct (m s); auto. Qed.
Lemma safe_get {S A B} (P : S -> Prop) (f : S -> A) (k : A -> M S B) Q :
  (forall a, safe (fun s => P s /\ f s = a) (k a) Q) -> safe P (bind (gets f) k) Q.
Proof. intros Hk s Hs. by apply (Hk (f s) s). Qed.

(** ** What the subscriptions offer *)

Class Subscriptions (offers : list Z -> topic_t -> Prop) (ids : list (list Z))
    (c2p : assignment_t) (p2c : consumers_t) : Prop := {
  sub_potential m p : p ∈ at_or [] m c2p <-> offers m p;
  sub_consumers m p : m ∈ at_or [] p p2c <-> offers m p;
  sub_topic m p q m' : offers m p -> fst q = fst p -> offers m' q -> offers m q;
  sub_ids m : m ∈ ids <-> is_Some (map_find m c2p)
}.

(** ** Map writes *)

Lemma map_keys_erase {K} `{KeyOrder K} {V} (k q : K) (m : list (K * V)) :
  map_sorted m -> q ∈ map_keys (map_erase k m) <-> q ∈ map_keys m /\ q <> k.
Proof.
  intros Hs. rewrite !map_keys_find. destruct (key_compare q k) eqn:E.
  - apply key_compare_eq in E as ->. rewrite map_find_erase_eq by done.
    split; [by intros []|by intros [_ []]].
  - assert (q <> k) by (intros ->; by rewrite key_compare_refl in E). rewrite map_find_erase_ne by done. tauto.
  - assert (q <> k) by (intros ->; by rewrite key_compare_refl in E). rewrite map_find_erase_ne by done. tauto.
Qed.
Lemma map_find_touch {K} `{KeyOrder K} {V} (d : V) (k q : K) (m : list (K * V)) :
  q <> k -> map_find q (touch d k m) = map_find q m.
Proof. intros Hne. unfold touch. by rewrite map_find_update_ne. Qed.
Lemma map_find_assign_cases {K} `{KeyOrder K} {V} (k q : K) (v x : V) (m : list (K * V)) :
  map_find q (map_assign k v m) = Some x -> (q = k /\ x = v) \/ (q <> k /\ map_find q m = Some x).
Proof.
  rewrite map_find_assign. destruct (key_compare q k) eqn:E.
  - apply key_compare_eq in E as ->. intros [= ->]. by left.
  - right. split; [|done]. intros ->. by rewrite key_compare_refl in E.
  - right. split; [|done]. intros ->. by rewrite key_compare_refl in E.
Qed.
Lemma map_find_erase_cases {K} `{KeyOrder K} {V} (k q : K) (x : V) (m : list (K * V)) :
  map_sorted m -> map_find q (map_erase k m) = Some x -> q <> k /\ map_find q m = Some x.
Proof.
  intros Hs. destruct (key_compare q k) eqn:E.
  - apply key_compare_eq in E as ->. by rewrite map_find_erase_eq.
  - intros Hq. assert (q <> k) by (intros ->; by rewrite key_compare_refl in E).
    by rewrite map_find_erase_ne in Hq.
  - intros Hq. assert (q <> k) by (intros ->; by rewrite key_compare_refl in E).
    by rewrite map_find_erase_ne in Hq.
Qed.

Section Invariant.
Context {offers : list Z -> topic_t -> Prop} {ids : list (list Z)} {c2p : assignment_t} {p2c : consumers_t}.
Context `{!Subscriptions offers ids c2p p2c}.

(** What a member holds while some members' assignments are set aside *)
Definition view (fx cur : assignment_t) (m : list Z) : list topic_t :=
  match map_find m fx with Some l => l | None => at_or [] m cur end.

(** The records of one topic: no empty set of partitions, and every partition has an owner. *)
Definition topic_moves_ok (owners : owners_t) (t : list Z) (tm : list (consumer_movement * list (topic_t * bool))) : Prop :=
  map_sorted tm /\
  forall moved qs, map_find moved tm = Some qs ->
    map_sorted qs /\ qs <> [] /\ forall q, q ∈ map_keys qs -> fst q = t /\ is_Some (map_find q owners).
Definition moves_ok (owners : owners_t) (pm : PartitionMovements) : Prop :=
  map_sorted (PartitionMovementsByTopic pm) /\
  forall t tm, map_find t (PartitionMovementsByTopic pm) = Some tm -> topic_moves_ok owners t tm.
(** A member set aside holds all it can hold, and nobody else can hold any of it. *)
Definition fixed_ok (fx : assignment_t) : Prop :=
  forall m l, map_find m fx = Some l -> forall p, offers m p -> p ∈ l /\ Zlen (at_or [] p p2c) < 2.

Record inv (fx : assignment_t) (s : sticky) : Prop := {
  inv_cur : map_sorted (currentAssignment s);
  inv_own : map_sorted (currentPartitionConsumer s);
  inv_subs : sortedCurrentSubscriptions s ≡ₚ map_keys (currentAssignment s);
  inv_ids m : m ∈ ids <-> is_Some (map_find m (currentAssignment s)) \/ is_Some (map_find m fx);
  inv_disj m : is_Some (map_find m (currentAssignment s)) -> map_find m fx = None;
  inv_nodup m : NoDup (view fx (currentAssignment s) m);
  inv_offers m p : p ∈ view fx (currentAssignment s) m -> offers m p;
  inv_owner m p : map_find p (currentPartitionConsumer s) = Some m <-> p ∈ view fx (currentAssignment s) m;
  inv_moves : moves_ok (currentPartitionConsumer s) (movements s);
  inv_fixed : fixed_ok fx
}.
(** Every partition that can be held is. *)
Definition complete (s : sticky) : Prop :=
  forall m p, offers m p -> is_Some (map_find p (currentPartitionConsumer s)).

Lemma two_consumers m m' p : offers m p -> offers m' p -> Zlen (at_or [] p p2c) < 2 -> m = m'.
Proof.
  intros Hm%sub_consumers Hm'%sub_consumers Hl. destruct (at_or [] p p2c) as [|a [|b l]].
  - by apply elem_of_nil in Hm.
  - apply list_elem_of_singleton in Hm as ->, Hm' as ->. done.
  - unfold Zlen in Hl. cbn in Hl. lia.
Qed.
Lemma inv_view_cur fx s m : inv fx s -> is_Some (map_find m (currentAssignment s)) ->
  view fx (currentAssignment s) m = at_or [] m (currentAssignment s).
Proof. intros Hi Hm. unfold view. by rewrite (inv_disj _ _ Hi). Qed.
Lemma offers_id m p : offers m p -> m ∈ ids.
Proof.
  intros Hm. apply sub_ids. apply sub_potential in Hm. unfold at_or in Hm.
  destruct (map_find m c2p); [by eexists|by apply elem_of_nil in Hm].
Qed.
(** A partition with two consumers, or one that a free member can hold, is with a free member. *)
Lemma inv_free fx s m p : inv fx s -> offers m p -> 2 <= Zlen (at_or [] p p2c) -> is_Some (map_find m (currentAssignment s)).
Proof.
  intros Hi Hm Hl. apply offers_id in Hm as Hid. apply (inv_ids _ _ Hi) in Hid as [|[l Hf]]; [done|].
  destruct (inv_fixed _ _ Hi m l Hf p Hm). lia.
Qed.
Lemma inv_owner_offers fx s m p : inv fx s -> map_find p (currentPartitionConsumer s) = Some m -> offers m p.
Proof. intros Hi Hp. by apply (inv_offers _ _ Hi), (inv_owner _ _ Hi). Qed.
Lemma inv_owner_free fx s m n p :
  inv fx s -> is_Some (map_find n (currentAssignment s)) -> offers n p ->
  map_find p (currentPartitionConsumer s) = Some m -> is_Some (map_find m (currentAssignment s)).
Proof.
  intros Hi Hn Ho Hp. pose proof (inv_owner_offers _ _ _ _ Hi Hp) as Hm.
  apply offers_id in Hm as Hid. apply (inv_ids _ _ Hi) in Hid as [|[l Hf]]; [done|].
  destruct (inv_fixed _ _ Hi m l Hf p Hm) as [_ Hl]. by rewrite (two_consumers m n p).
Qed.

(** ** Movement records *)

Lemma topic_moves_at owners pm t : moves_ok owners pm -> topic_moves_ok owners t (at_or [] t (PartitionMovementsByTopic pm)).
Proof.
  intros [_ Hm]. unfold at_or. destruct (map_find t _) as [tm|] eqn:E; [by apply Hm|]. by split.
Qed.
Lemma topic_moves_assign owners t tm moved qs :
  topic_moves_ok owners t tm -> map_sorted qs -> qs <> [] ->
  (forall q, q ∈ map_keys qs -> fst q = t /\ is_Some (map_find q owners)) ->
  topic_moves_ok owners t (map_assign moved qs tm).
Proof.
  intros [Hs Hm] Hq Hne Hk. split; [by apply map_assign_sorted|].
  intros moved' qs' [[-> ->]|[_ Hf]]%map_find_assign_cases; [done|by apply (Hm moved')].
Qed.
Lemma moves_ok_assign owners pm t tm l :
  moves_ok owners pm -> topic_moves_ok owners t tm ->
  moves_ok owners (mkMovements (map_assign t tm (PartitionMovementsByTopic pm)) l).
Proof.
  intros [Hs Hm] Ht. split; [by apply map_assign_sorted|]. cbn.
  intros t' tm' [[-> ->]|[_ Hf]]%map_find_assign_cases; [done|by apply Hm].
Qed.
Lemma moves_ok_mono owners owners' pm :
  (forall q, is_Some (map_find q owners) -> is_Some (map_find q owners')) -> moves_ok owners pm -> moves_ok owners' pm.
Proof.
  intros Hmono [Hs Hm]. split; [done|]. intros t tm Ht. destruct (Hm t tm Ht) as [Hts Hq]. split; [done|].
  intros moved qs Hf. destruct (Hq moved qs Hf) as (Hqs & Hne & Hk). split; [done|]. split; [done|].
  intros q Hin. destruct (Hk q Hin). auto.
Qed.
Lemma add_moves_ok owners pm p moved :
  is_Some (map_find p owners) -> moves_ok owners pm -> moves_ok owners (add_partition_movement_record p moved pm).
Proof.
  intros Hp Hm. unfold add_partition_movement_record, map_update at 1. apply moves_ok_assign; [done|].
  change (match map_find ?k ?m with Some v => v | None => [] end) with (at_or [] k m).
  pose proof (topic_moves_at owners pm (fst p) Hm) as Ht. set (tm := at_or [] (fst p) _) in *.
  assert (map_sorted (at_or [] moved tm) /\
    forall q, q ∈ map_keys (at_or [] moved tm) -> fst q = fst p /\ is_Some (map_find q owners)) as [Hqs Hk].
  { unfold at_or. destruct (map_find moved tm) as [qs|] eqn:E.
    - destruct (proj2 Ht moved qs E) as (? & _ & ?). done.
    - split; [done|]. by intros q ?%elem_of_nil. }
  unfold map_update. change (match map_find ?k ?m with Some v => v | None => [] end) with (at_or [] k m).
  apply topic_moves_assign; [done|by apply map_assign_sorted|apply map_assign_ne|].
  intros q Hq. apply map_keys_find in Hq as [x Hx].
  apply map_find_assign_cases in Hx as [[-> _]|[_ Hx]]; [done|]. apply Hk, map_keys_find. by eexists.
Qed.
Lemma remove_moves_ok owners pm p :
  moves_ok owners pm -> moves_ok owners (snd (remove_movement_record_of_partition p pm)).
Proof.
  intros Hm. unfold remove_movement_record_of_partition. cbn [snd].
  set (moved := at_or ([], []) p (Movements pm)).
  pose proof (topic_moves_at owners pm (fst p) Hm) as Ht. set (tm := at_or [] (fst p) _) in *.
  set (records := map_erase p (at_or [] moved tm)).
  assert (topic_moves_ok owners (fst p) (match records with
      | [] => map_erase moved (touch [] moved tm) | _ => map_assign moved records tm end)) as Ht'.
  { destruct records as [|r rs] eqn:Er.
    - split; [apply map_erase_sorted, map_update_sorted, Ht|]. intros moved' qs Hf.
      apply map_find_erase_cases in Hf as [Hne Hf]; [|apply map_update_sorted, Ht].
      rewrite map_find_touch in Hf by done. by apply (proj2 Ht moved').
    - assert (map_sorted (at_or [] moved tm) /\
        forall q, q ∈ map_keys (at_or [] moved tm) -> fst q = fst p /\ is_Some (map_find q owners)) as [Hqs Hk].
      { unfold at_or. destruct (map_find moved tm) as [qs|] eqn:E.
        - destruct (proj2 Ht moved qs E) as (? & _ & ?). done.
        - split; [done|]. by intros q ?%elem_of_nil. }
      rewrite <- Er. apply topic_moves_assign; [done|by apply map_erase_sorted|by rewrite Er|].
      intros q Hq. apply map_keys_erase in Hq as [Hq _]; [by apply Hk|done]. }
  set (tm' := match records with [] => _ | _ => _ end) in *. clearbody tm'.
  destruct tm' as [|x tm']; [|by apply moves_ok_assign].
  destruct Hm as [Hs Hm]. split; cbn [PartitionMovementsByTopic]; [by apply map_erase_sorted, map_assign_sorted|].
  intros t' tm'' Hf. apply map_find_erase_cases in Hf as [Hne Hf]; [|by apply map_assign_sorted].
  rewrite map_find_assign_ne in Hf by done. by apply Hm.
Qed.
Lemma move_partition_ok owners pm p old new :
  is_Some (map_find p owners) -> moves_ok owners pm -> moves_ok owners (move_partition p old new pm).
Proof.
  intros Hp Hm. unfold move_partition. destruct (map_count p (Movements pm)); [|by apply add_moves_ok].
  pose proof (remove_moves_ok owners pm p Hm) as Hr.
  destruct (remove_movement_record_of_partition p pm) as [moved pm']. cbn in Hr.
  case_bool_decide; [by apply add_moves_ok|done].
Qed.
(** The partition that is moved has an owner, and its topic is the one asked for. *)
Lemma actual_partition_ok owners pm p old new :
  moves_ok owners pm -> is_Some (map_find p owners) ->
  exists q, get_the_actual_partition_to_be_moved p old new pm = Some q /\ fst q = fst p /\ is_Some (map_find q owners).
Proof.
  intros [_ Hm] Hp. unfold get_the_actual_partition_to_be_moved.
  destruct (map_find (fst p) _) as [tm|] eqn:Et; [|by eauto].
  destruct (map_find (new, _) tm) as [qs|] eqn:Eq; [|by eauto].
  destruct (proj2 (Hm _ _ Et) _ _ Eq) as (_ & Hne & Hk). destruct qs as [|[q b] qs]; [done|].
  exists q. split; [done|]. apply Hk. by left.
Qed.

(** ** One movement *)

Lemma remove_elements l p q :
  NoDup l -> q ∈ removeTopicPartitionFromMemberAssignments l p <-> q ∈ l /\ q <> p.
Proof.
  induction 1 as [|x l Hx _ IH]; cbn; [rewrite !elem_of_nil; tauto|]. unfold topic_eqb.
  case_bool_decide as Hp; subst; rewrite !elem_of_cons, ?IH; [|naive_solver].
  split; [|naive_solver]. intros Hq. split; [by right|]. by intros ->.
Qed.
Lemma remove_nodup l p : NoDup l -> NoDup (removeTopicPartitionFromMemberAssignments l p).
Proof.
  induction 1 as [|x l Hx Hl IH]; cbn; [constructor|]. case_match; [done|]. constructor; [|done].
  rewrite remove_elements by done. tauto.
Qed.

Section Move.
Context (fx : assignment_t) (s : sticky) (p : topic_t) (old new : list Z).
Context (Hi : inv fx s) (Hp : map_find p (currentPartitionConsumer s) = Some old)
  (Hn : is_Some (map_find new (currentAssignment s))) (Ho : offers new p).

Definition moved_cur : assignment_t :=
  map_update [] (fun l => l ++ [p]) new
    (map_update [] (fun l => removeTopicPartitionFromMemberAssignments l p) old (currentAssignment s)).

Lemma moved_old_free : is_Some (map_find old (currentAssignment s)).
Proof. by eapply inv_owner_free. Qed.
Lemma moved_sorted : map_sorted moved_cur.
Proof. apply map_update_sorted, map_update_sorted, (inv_cur _ _ Hi). Qed.
Lemma moved_find_inner m :
  is_Some (map_find m (map_update [] (fun l => removeTopicPartitionFromMemberAssignments l p) old (currentAssignment s)))
  <-> is_Some (map_find m (currentAssignment s)).
Proof.
  rewrite <- !map_keys_find, map_keys_update; [done|apply (inv_cur _ _ Hi)|apply moved_old_free].
Qed.
Lemma moved_keys : map_keys moved_cur = map_keys (currentAssignment s).
Proof.
  unfold moved_cur. rewrite map_keys_update; [|apply map_update_sorted, (inv_cur _ _ Hi)|by apply moved_find_inner].
  apply map_keys_update; [apply (inv_cur _ _ Hi)|apply moved_old_free].
Qed.
Lemma moved_find m : is_Some (map_find m moved_cur) <-> is_Some (map_find m (currentAssignment s)).
Proof. by rewrite <- !map_keys_find, moved_keys. Qed.

Lemma cur_nodup m : map_find m fx = None -> NoDup (at_or [] m (currentAssignment s)).
Proof. intros Hf. pose proof (inv_nodup _ _ Hi m) as Hd. unfold view in Hd. by rewrite Hf in Hd. Qed.
Lemma cur_owner m q : map_find m fx = None ->
  q ∈ at_or [] m (currentAssignment s) <-> map_find q (currentPartitionConsumer s) = Some m.
Proof. intros Hf. rewrite (inv_owner _ _ Hi). unfold view. by rewrite Hf. Qed.

Lemma moved_list m : map_find m fx = None ->
  NoDup (at_or [] m moved_cur) /\
  forall q, q ∈ at_or [] m moved_cur <-> (q = p /\ m = new) \/ (q <> p /\ q ∈ at_or [] m (currentAssignment s)).
Proof.
  intros Hf.
  set (inner := map_update [] (fun l => removeTopicPartitionFromMemberAssignments l p) old (currentAssignment s)).
  assert (NoDup (at_or [] m inner) /\
    forall q, q ∈ at_or [] m inner <-> q <> p /\ q ∈ at_or [] m (currentAssignment s)) as [Hnd Hel].
  { unfold inner. destruct (decide (m = old)) as [->|Hmo].
    - rewrite at_or_update_eq. split; [by apply remove_nodup, cur_nodup|].
      intros q. rewrite remove_elements by by apply cur_nodup. tauto.
    - rewrite at_or_update_ne by done. split; [by apply cur_nodup|]. intros q. split; [|tauto].
      intros Hq. split; [|done]. intros ->. apply cur_owner in Hq; [|done]. congruence. }
  unfold moved_cur. fold inner. destruct (decide (m = new)) as [->|Hmn].
  - rewrite at_or_update_eq. split.
    + apply NoDup_app. split; [done|]. split; [|apply NoDup_singleton].
      intros q Hq ->%list_elem_of_singleton. apply Hel in Hq. tauto.
    + intros q. rewrite elem_of_app, list_elem_of_singleton, Hel. destruct (decide (q = p)); tauto.
  - rewrite at_or_update_ne by done. split; [done|]. intros q. rewrite Hel. naive_solver.
Qed.
Lemma moved_view m q :
  q ∈ view fx moved_cur m <-> (q = p /\ m = new) \/ (q <> p /\ q ∈ view fx (currentAssignment s) m).
Proof.
  unfold view. destruct (map_find m fx) as [l|] eqn:Ef; [|by apply moved_list]. split.
  - intros Hq. right. split; [|done]. intros ->.
    assert (p ∈ view fx (currentAssignment s) m) as Hv by (unfold view; by rewrite Ef).
    apply (inv_owner _ _ Hi) in Hv. rewrite Hp in Hv. injection Hv as Hv.
    pose proof (inv_disj _ _ Hi old moved_old_free). congruence.
  - intros [[-> ->]|[_ Hq]]; [|done]. by rewrite (inv_disj _ _ Hi new Hn) in Ef.
Qed.
Lemma moved_inv :
  inv fx (mkSticky moved_cur (map_assign p new (currentPartitionConsumer s))
            (sortMemberIDsByPartitionAssignments moved_cur) (move_partition p old new (movements s))).
Proof.
  assert (forall q, is_Some (map_find q (currentPartitionConsumer s)) ->
    is_Some (map_find q (map_assign p new (currentPartitionConsumer s)))) as Hmono.
  { intros q Hq. destruct (decide (q = p)) as [->|Hne]; [by rewrite map_find_assign_eq|by rewrite map_find_assign_ne]. }
  split; cbn [currentAssignment currentPartitionConsumer sortedCurrentSubscriptions movements].
  - apply moved_sorted.
  - apply map_assign_sorted, (inv_own _ _ Hi).
  - apply sort_by_perm.
  - intros m. rewrite moved_find. apply (inv_ids _ _ Hi).
  - intros m. rewrite moved_find. apply (inv_disj _ _ Hi).
  - intros m. unfold view. destruct (map_find m fx) eqn:Ef; [|by apply moved_list].
    pose proof (inv_nodup _ _ Hi m) as Hd. unfold view in Hd. by rewrite Ef in Hd.
  - intros m q [[-> ->]|[_ Hq]]%moved_view; [done|]. by apply (inv_offers _ _ Hi).
  - intros m q. rewrite moved_view, <- (inv_owner _ _ Hi). destruct (decide (q = p)) as [->|Hne].
    + rewrite map_find_assign_eq. naive_solver.
    + rewrite map_find_assign_ne by done. naive_solver.
  - eapply moves_ok_mono; [exact Hmono|]. apply move_partition_ok; [by eexists|apply (inv_moves _ _ Hi)].
  - apply (inv_fixed _ _ Hi).
Qed.
Lemma moved_complete :
  complete s -> complete (mkSticky moved_cur (map_assign p new (currentPartitionConsumer s))
            (sortMemberIDsByPartitionAssignments moved_cur) (move_partition p old new (movements s))).
Proof.
  intros Hc m q Hq. cbn. destruct (decide (q = p)) as [->|Hne]; [rewrite map_find_assign_eq; by eexists|].
  rewrite map_find_assign_ne by done. by eapply Hc.
Qed.
End Move.

(** ** Safety of the helpers *)

Definition good (fx : assignment_t) (s : sticky) : Prop := inv fx s /\ complete s.

Lemma read_owner_safe fx p :
  safe (fun s => good fx s /\ exists m, offers m p) (read_owner p)
    (fun m s => good fx s /\ map_find p (currentPartitionConsumer s) = Some m).
Proof.
  intros s [[Hi Hc] [m Hm]]. unfold read_owner. destruct (Hc m p Hm) as [o Ho].
  rewrite (at_or_some _ _ _ _ Ho), touch_id by (apply (inv_own _ _ Hi) || by eexists). by destruct s.
Qed.
Lemma read_size_safe fx (P : sticky -> Prop) id :
  (forall s, P s -> good fx s /\ is_Some (map_find id (currentAssignment s))) ->
  safe P (read_size id) (fun _ s => P s).
Proof.
  intros HP s Hs. destruct (HP s Hs) as [[Hi _] Hid]. unfold read_size.
  rewrite touch_id by (apply (inv_cur _ _ Hi) || done). by destruct s.
Qed.
Lemma processPartitionMovement_safe fx p new :
  safe (fun s => good fx s /\ is_Some (map_find new (currentAssignment s)) /\ offers new p)
    (processPartitionMovement p new) (fun _ s => good fx s).
Proof.
  intros s ([Hi Hc] & Hn & Ho). unfold processPartitionMovement, bind.
  pose proof (read_owner_safe fx p s) as Hr. destruct (Hc new p Ho) as [old Hold].
  unfold read_owner in *. rewrite (at_or_some _ _ _ _ Hold), touch_id by (apply (inv_own _ _ Hi) || by eexists).
  assert (set_owners (currentPartitionConsumer s) s = s) as -> by by destruct s.
  split; [by apply moved_inv|by apply moved_complete].
Qed.
Lemma reassignPartition_safe fx p new :
  safe (fun s => good fx s /\ is_Some (map_find new (currentAssignment s)) /\ offers new p)
    (reassignPartition p new) (fun _ s => good fx s).
Proof.
  intros s ([Hi Hc] & Hn & Ho). unfold reassignPartition, bind, gets.
  destruct (Hc new p Ho) as [old Hold]. unfold read_owner at 1.
  rewrite (at_or_some _ _ _ _ Hold), touch_id by (apply (inv_own _ _ Hi) || by eexists).
  assert (set_owners (currentPartitionConsumer s) s = s) as -> by by destruct s.
  destruct (actual_partition_ok _ _ p old new (inv_moves _ _ Hi)) as (q & -> & Ht & [o Hq]); [by eexists|].
  apply (processPartitionMovement_safe fx q new s). split; [done|]. split; [done|].
  eapply sub_topic; [exact Ho|exact Ht|]. by eapply inv_owner_offers.
Qed.
End Invariant.
