(* ===== verification/StickySafety.v ===== *)
(** * Sticky assignment is exact

    Every stage of [balance] of [coev_kafka/balance_strategy.cpp] keeps the invariant of
    [StickyMoves], so that whatever number of passes it makes, the plan assigns each
    partition to exactly one subscriber of its topic. *)
From Stdlib Require Import ZArith Lia Bool.
From stdpp Require Import base tactics list numbers sorting.
From S2P Require Import Prelude StdMap Balance Sticky StickyMoves.

Lemma includes_spec l p : memberAssignmentsIncludeTopicPartition l p = true <-> p ∈ l.
Proof.
  unfold memberAssignmentsIncludeTopicPartition, topic_eqb. rewrite existsb_exists. split.
  - intros (x & Hx & E). apply bool_decide_eq_true in E as ->. by apply list_elem_of_In.
  - intros Hp. exists p. split; [by apply list_elem_of_In|by apply bool_decide_true].
Qed.
Lemma existsb_eqb_spec l p : existsb (topic_eqb p) l = true <-> p ∈ l.
Proof.
  unfold topic_eqb. rewrite existsb_exists. split.
  - intros (x & Hx & E). apply bool_decide_eq_true in E as <-. by apply list_elem_of_In.
  - intros Hp. exists p. split; [by apply list_elem_of_In|by apply bool_decide_true].
Qed.

(** ** Owners, recomputed from the assignment *)

Definition owners_in (K : list (list Z)) (o : owners_t) : Prop := forall p h, map_find p o = Some h -> h ∈ K.
Lemma owners_assign K m l o :
  m ∈ K -> owners_in K o ->
  let o' := fold_left (fun all partition => map_assign partition m all) l o in
  owners_in K o' /\ (forall p, is_Some (map_find p o) -> is_Some (map_find p o')) /\
  forall p, p ∈ l -> is_Some (map_find p o').
Proof.
  intros Hm. revert o. induction l as [|q l IH]; intros o Ho; cbn.
  { split; [done|]. split; [done|]. by intros p ?%elem_of_nil. }
  destruct (IH (map_assign q m o)) as (H1 & H2 & H3).
  { intros p h [[-> ->]|[_ Hp]]%map_find_assign_cases; [done|by eapply Ho]. }
  assert (forall p, is_Some (map_find p o) -> is_Some (map_find p (map_assign q m o))) as Hmono.
  { intros p Hp. destruct (decide (p = q)) as [->|]; [by rewrite map_find_assign_eq|by rewrite map_find_assign_ne]. }
  split; [exact H1|]. split; [auto|]. intros p [->|Hp]%elem_of_cons; [|by apply H3].
  apply H2. rewrite map_find_assign_eq. by eexists.
Qed.
Lemma owners_of_spec (a : assignment_t) m p :
  map_sorted a -> p ∈ at_or [] m a -> exists h, map_find p (owners_of a) = Some h /\ h ∈ map_keys a.
Proof.
  intros Hs Hp. unfold owners_of.
  cut (forall entries o K, owners_in K o -> (forall e, e ∈ entries -> fst e ∈ K) ->
    let o' := fold_left (fun all e => fold_left (fun all q => map_assign q (fst e) all) (snd e) all) entries o in
    owners_in K o' /\ (forall q, is_Some (map_find q o) -> is_Some (map_find q o')) /\
    forall e q, e ∈ entries -> q ∈ snd e -> is_Some (map_find q o')).
  { intros Hcut. destruct (Hcut a [] (map_keys a)) as (Hin & _ & Hall).
    - done.
    - intros e He. by apply list_elem_of_fmap_2.
    - unfold at_or in Hp. destruct (map_find m a) as [l|] eqn:E; [|by apply elem_of_nil in Hp].
      destruct (Hall (m, l) p) as [h Hh]; [by apply map_find_in|done|]. exists h. split; [exact Hh|]. by eapply Hin. }
  intros entries. induction entries as [|e entries IH]; intros o K Ho HK; cbn.
  { split; [done|]. split; [done|]. by intros e q ?%elem_of_nil. }
  destruct (owners_assign K (fst e) (snd e) o) as (H1 & H2 & H3); [apply HK; by left|done|].
  destruct (IH _ K H1) as (H4 & H5 & H6); [intros e' He'; apply HK; by right|].
  split; [exact H4|]. split; [auto|]. intros e' q [->|He]%elem_of_cons Hq; [by apply H5, H3|by eapply H6].
Qed.

Section Safety.
Context {offers : list Z -> topic_t -> Prop} {ids : list (list Z)} {c2p : assignment_t} {p2c : consumers_t}.
Context `{HS : !Subscriptions offers ids c2p p2c}.
Abbreviation inv := (@inv offers ids p2c).
Abbreviation good := (@good offers ids p2c).

(** ** [isBalanced] does not throw *)

Lemma balanced_partitions_total a o mine potential :
  (forall p, p ∈ potential -> exists h, map_find p o = Some h /\ is_Some (map_find h a)) ->
  exists b, balanced_partitions a o mine potential = Some b.
Proof.
  induction potential as [|p potential IH]; intros Hall; cbn; [by eexists|].
  assert (exists b, balanced_partitions a o mine potential = Some b) as Hrest.
  { apply IH. intros q Hq. apply Hall. by right. }
  case_match; [done|]. destruct (Hall p ltac:(by left)) as (h & -> & [l ->]). case_match; [by eexists|done].
Qed.
Lemma balanced_members_total a o l :
  (forall m, m ∈ l -> is_Some (map_find m a) /\ is_Some (map_find m c2p)) ->
  (forall m p, is_Some (map_find m a) -> offers m p -> exists h, map_find p o = Some h /\ is_Some (map_find h a)) ->
  exists b, balanced_members a c2p o l = Some b.
Proof.
  intros Hl Ho. induction l as [|m l IH]; cbn; [by eexists|].
  assert (exists b, balanced_members a c2p o l = Some b) as Hrest.
  { apply IH. intros q Hq. apply Hl. by right. }
  destruct (Hl m ltac:(by left)) as [[mine Em] [pot Ep]]. rewrite Em, Ep. case_match; [done|].
  destruct (balanced_partitions_total a o mine pot) as [b ->].
  - intros p Hp. apply (Ho m); [by eexists|]. apply sub_potential. by rewrite (at_or_some _ _ _ _ Ep).
  - destruct b; [done|by eexists].
Qed.
Lemma good_in_c2p fx s m : inv fx s -> is_Some (map_find m (currentAssignment s)) -> is_Some (map_find m c2p).
Proof. intros Hi Hm. apply sub_ids, (inv_ids _ _ Hi). by left. Qed.
(** What a free member can hold is held by a free member. *)
Lemma good_holder fx s m p :
  good fx s -> is_Some (map_find m (currentAssignment s)) -> offers m p ->
  exists h, map_find p (currentPartitionConsumer s) = Some h /\ is_Some (map_find h (currentAssignment s)) /\
    p ∈ at_or [] h (currentAssignment s).
Proof.
  intros [Hi Hc] Hm Ho. destruct (Hc m p Ho) as [h Hh]. exists h. split; [done|].
  assert (is_Some (map_find h (currentAssignment s))) as Hf by by eapply inv_owner_free.
  split; [done|]. by rewrite <- (inv_view_cur fx s h Hi Hf), <- (inv_owner _ _ Hi).
Qed.
Lemma isBalanced_total fx s : good fx s -> exists b, isBalanced (currentAssignment s) c2p = Some b.
Proof.
  intros Hg. pose proof (proj1 Hg) as Hi. unfold isBalanced.
  destruct (currentAssignment s) as [|e0 a0] eqn:Ea; [by eexists|]. rewrite <- Ea.
  case_match; [by eexists|]. apply balanced_members_total.
  - intros m Hm. unfold sortMemberIDsByPartitionAssignments in Hm. rewrite sort_by_perm in Hm.
    apply map_keys_find in Hm. split; [done|]. by eapply good_in_c2p.
  - intros m p Hm Ho. destruct (good_holder fx s m p Hg Hm Ho) as (h & _ & Hh & Hp).
    destruct (owners_of_spec (currentAssignment s) h p) as (h' & E & Hk); [apply (inv_cur _ _ Hi)|done|].
    exists h'. split; [done|]. by apply map_keys_find.
Qed.

(** ** Reassignment *)

Lemma reassign_to_first_safe fx p l :
  safe (fun s => good fx s /\ forall m, m ∈ l -> is_Some (map_find m (currentAssignment s)))
    (reassign_to_first c2p p l) (fun _ s => good fx s).
Proof.
  induction l as [|m l IH]; cbn; [by apply safe_ret; intros s []|].
  intros s [Hg Hl]. pose proof (good_in_c2p fx s m (proj1 Hg) (Hl m ltac:(by left))) as [pot Ep]. rewrite Ep.
  destruct (memberAssignmentsIncludeTopicPartition pot p) eqn:Ei.
  - apply (reassignPartition_safe fx p m s). split; [done|]. split; [apply Hl; by left|].
    apply sub_potential. rewrite (at_or_some _ _ _ _ Ep). by apply includes_spec.
  - apply IH. split; [done|]. intros x Hx. apply Hl. by right.
Qed.
Lemma reassignToNew_safe fx p :
  safe (good fx) (reassignPartitionToNewConsumer c2p p) (fun _ s => good fx s).
Proof.
  apply safe_get. intros l s [Hg <-]. apply (reassign_to_first_safe fx p). split; [done|].
  intros m Hm. apply map_keys_find. by rewrite <- (inv_subs _ _ (proj1 Hg)).
Qed.
Lemma move_on_safe fx p consumer others :
  safe (fun s => good fx s /\ is_Some (map_find consumer (currentAssignment s)) /\
          forall o, o ∈ others -> is_Some (map_find o (currentAssignment s)))
    (move_on c2p p consumer others) (fun _ s => good fx s).
Proof.
  induction others as [|o others IH]; cbn; [by apply safe_ret; intros s []|].
  eapply safe_bind; [apply (read_size_safe (offers := offers) (ids := ids) (p2c := p2c) fx); tauto|]. intros mine. cbn.
  eapply safe_bind; [apply (read_size_safe (offers := offers) (ids := ids) (p2c := p2c) fx)|].
  { intros s (Hg & _ & Hall). split; [done|]. apply Hall. by left. }
  intros theirs. cbn. case_match.
  - eapply safe_bind; [eapply safe_weaken; [apply (reassignToNew_safe fx)|by intros s []|]|].
    { intros a s Hs. exact Hs. }
    intros []. by apply safe_ret.
  - eapply safe_weaken; [exact IH| |done]. intros s (Hg & Hc & Hall). split; [done|]. split; [done|].
    intros x Hx. apply Hall. by right.
Qed.
Lemma reassign_one_safe fx p :
  is_Some (map_find p p2c) -> safe (good fx) (reassign_one c2p p2c [] p) (fun _ s => good fx s).
Proof.
  intros [consumers Ep]. apply safe_get. intros a s [Hg <-].
  destruct (isBalanced_total fx s Hg) as [[] ->]; [done|]. rewrite Ep. destruct (Zlen consumers <=? 1) eqn:Elen; [done|].
  apply Z.leb_gt in Elen. pose proof (at_or_some [] _ _ _ Ep) as Eat.
  assert (forall o, o ∈ consumers -> is_Some (map_find o (currentAssignment s))) as Hall.
  { intros o Ho. apply (inv_free fx s o p (proj1 Hg)); [apply sub_consumers; by rewrite Eat|]. rewrite Eat. lia. }
  assert (exists o, o ∈ consumers) as [o Ho].
  { destruct consumers as [|o l]; [by unfold Zlen in Elen; cbn in Elen; lia|]. exists o. by left. }
  assert (offers o p) as Hop by (apply sub_consumers; by rewrite Eat).
  unfold bind.
  destruct (good_holder fx s o p Hg (Hall o Ho) Hop) as (h & Eh & Hh & _).
  unfold read_owner. rewrite (at_or_some _ _ _ _ Eh), touch_id by (apply (inv_own _ _ (proj1 Hg)) || by eexists).
  assert (set_owners (currentPartitionConsumer s) s = s) as -> by by destruct s.
  case_bool_decide; [done|]. cbn [move_back map_find ret].
  pose proof (move_on_safe fx p h consumers s) as Hm. destruct (move_on c2p p h consumers s); cbn; [|by apply Hm].
  by apply Hm.
Qed.
Lemma reassign_pass_safe fx l modified :
  (forall p, p ∈ l -> is_Some (map_find p p2c)) ->
  safe (good fx) (reassign_pass c2p p2c [] l modified) (fun _ s => good fx s).
Proof.
  revert modified. induction l as [|p l IH]; intros modified Hl; cbn; [by apply safe_ret|].
  eapply safe_bind; [apply (reassign_one_safe fx); apply Hl; by left|]. intros [b|]; [|by apply safe_ret].
  apply IH. intros q Hq. apply Hl. by right.
Qed.
Lemma performReassignments_safe fx fuel l performed :
  (forall p, p ∈ l -> is_Some (map_find p p2c)) ->
  safe (good fx) (performReassignments c2p p2c [] fuel l performed) (fun _ s => good fx s).
Proof.
  intros Hl. revert performed. induction fuel as [|fuel IH]; intros performed; cbn; [done|].
  eapply safe_bind; [by apply (reassign_pass_safe fx)|]. intros []; [apply IH|by apply safe_ret].
Qed.

(** ** Assigning what is unassigned *)

Section Assign.
Context (s : sticky) (p : topic_t) (new : list Z).
Context (Hi : inv [] s) (Hp : map_find p (currentPartitionConsumer s) = None)
  (Hn : is_Some (map_find new (currentAssignment s))) (Ho : offers new p).
Definition given_cur : assignment_t := map_update [] (fun l => l ++ [p]) new (currentAssignment s).

Lemma given_find m : is_Some (map_find m given_cur) <-> is_Some (map_find m (currentAssignment s)).
Proof. rewrite <- !map_keys_find. unfold given_cur. by rewrite map_keys_update by (done || apply (inv_cur _ _ Hi)). Qed.
Lemma given_list m q :
  q ∈ at_or [] m given_cur <-> (q = p /\ m = new) \/ (q <> p /\ q ∈ at_or [] m (currentAssignment s)).
Proof.
  assert (forall x, p ∉ at_or [] x (currentAssignment s)) as Hno.
  { intros x Hx. apply (inv_owner _ _ Hi x p) in Hx. congruence. }
  unfold given_cur. destruct (decide (m = new)) as [->|Hne].
  - rewrite at_or_update_eq, elem_of_app, list_elem_of_singleton.
    destruct (decide (q = p)) as [->|]; [|tauto]. split; [by left|]. intros _. by right.
  - rewrite at_or_update_ne by done. split; [|naive_solver]. intros Hq. right. split; [|done].
    intros ->. by destruct (Hno m).
Qed.
Lemma given_inv :
  inv [] (mkSticky given_cur (map_assign p new (currentPartitionConsumer s))
            (sortMemberIDsByPartitionAssignments given_cur) (movements s)).
Proof.
  split; cbn [currentAssignment currentPartitionConsumer sortedCurrentSubscriptions movements].
  - apply map_update_sorted, (inv_cur _ _ Hi).
  - apply map_assign_sorted, (inv_own _ _ Hi).
  - apply sort_by_perm.
  - intros m. rewrite given_find. apply (inv_ids _ _ Hi).
  - done.
  - intros m. change (NoDup (at_or [] m given_cur)). pose proof (inv_nodup _ _ Hi m) as Hd.
    change (NoDup (at_or [] m (currentAssignment s))) in Hd. unfold given_cur.
    destruct (decide (m = new)) as [->|Hne]; [|by rewrite at_or_update_ne]. rewrite at_or_update_eq.
    apply NoDup_app. split; [done|]. split; [|apply NoDup_singleton].
    intros q Hq ->%list_elem_of_singleton. apply (inv_owner _ _ Hi new p) in Hq. congruence.
  - intros m q [[-> ->]|[_ Hq]]%given_list; [done|]. by apply (inv_offers _ _ Hi m q).
  - intros m q. change (view [] given_cur m) with (at_or [] m given_cur). rewrite given_list.
    pose proof (inv_owner _ _ Hi m q) as Hown. change (view [] (currentAssignment s) m) with (at_or [] m (currentAssignment s)) in Hown.
    rewrite <- Hown. destruct (decide (q = p)) as [->|Hne].
    + rewrite map_find_assign_eq. naive_solver.
    + rewrite map_find_assign_ne by done. naive_solver.
  - eapply moves_ok_mono; [|apply (inv_moves _ _ Hi)]. intros q Hq.
    destruct (decide (q = p)) as [->|]; [by rewrite map_find_assign_eq|by rewrite map_find_assign_ne].
  - apply (inv_fixed _ _ Hi).
Qed.
End Assign.

Lemma assignPartition_inv s p :
  inv [] s -> map_find p (currentPartitionConsumer s) = None -> (exists m, offers m p) ->
  exists s' new, assignPartition c2p p s = Done tt s' /\ inv [] s' /\
    currentPartitionConsumer s' = map_assign p new (currentPartitionConsumer s).
Proof.
  intros Hi Hp [m Hm]. unfold assignPartition.
  assert (m ∈ sortedCurrentSubscriptions s) as Hin.
  { rewrite (inv_subs _ _ Hi), map_keys_find. apply offers_id in Hm. apply (inv_ids _ _ Hi) in Hm as [|[? Hf]]; done. }
  destruct (list_find_elem_of (fun id => memberAssignmentsIncludeTopicPartition (at_or [] id c2p) p = true)
    (sortedCurrentSubscriptions s) m Hin) as [[i new] E].
  { apply includes_spec. by apply sub_potential. }
  rewrite E. apply list_find_Some in E as (Hl & Hinc & _). apply includes_spec, sub_potential in Hinc.
  assert (is_Some (map_find new (currentAssignment s))) as Hn.
  { apply map_keys_find. rewrite <- (inv_subs _ _ Hi). by eapply list_elem_of_lookup_2. }
  eexists _, new. split; [done|]. split; [exact (given_inv s p new Hi Hp Hn Hinc)|done].
Qed.
Lemma assign_all l s :
  inv [] s -> NoDup l -> (forall p, p ∈ l -> map_find p (currentPartitionConsumer s) = None) ->
  exists s', for_do l (fun p => if Zlen (at_or [] p p2c) =? 0 then ret tt else assignPartition c2p p) s = Done tt s' /\
    inv [] s' /\ (forall q, is_Some (map_find q (currentPartitionConsumer s)) -> is_Some (map_find q (currentPartitionConsumer s'))) /\
    forall p, p ∈ l -> (exists m, offers m p) -> is_Some (map_find p (currentPartitionConsumer s')).
Proof.
  revert s. induction l as [|p l IH]; intros s Hi Hnd Hno; cbn [for_do].
  { exists s. split; [done|]. split; [done|]. split; [done|]. by intros p ?%elem_of_nil. }
  apply NoDup_cons in Hnd as [Hpl Hnd]. unfold bind. destruct (Zlen (at_or [] p p2c) =? 0) eqn:El.
  - destruct (IH s Hi Hnd) as (s' & E & Hi' & Hm' & Hl'); [intros q Hq; apply Hno; by right|].
    exists s'. cbn [ret]. split; [exact E|]. split; [done|]. split; [done|].
    intros q [->|Hq]%elem_of_cons Hm; [|by apply Hl']. destruct Hm as [m Hm%sub_consumers].
    apply Z.eqb_eq in El. destruct (at_or [] p p2c); [by apply elem_of_nil in Hm|by unfold Zlen in El].
  - assert (exists m, offers m p) as Hm.
    { apply Z.eqb_neq in El. destruct (at_or [] p p2c) as [|m c] eqn:Ec; [done|]. exists m.
      apply sub_consumers. rewrite Ec. by left. }
    destruct (assignPartition_inv s p Hi (Hno p ltac:(by left)) Hm) as (s1 & new & -> & Hi1 & Eo).
    destruct (IH s1 Hi1 Hnd) as (s' & E & Hi' & Hm' & Hl').
    { intros q Hq. rewrite Eo, map_find_assign_ne; [apply Hno; by right|]. by intros ->. }
    exists s'. split; [exact E|]. split; [done|]. split.
    + intros q Hq. apply Hm'. rewrite Eo. destruct (decide (q = p)) as [->|];
        [by rewrite map_find_assign_eq|by rewrite map_find_assign_ne].
    + intros q [->|Hq]%elem_of_cons Hmq; [|by apply Hl']. apply Hm'. rewrite Eo, map_find_assign_eq. by eexists.
Qed.

(** ** Setting members aside *)

Lemma subset_full {A} `{EqDecision A} (l k : list A) :
  NoDup l -> (forall x, x ∈ l -> x ∈ k) -> (length k <= length l)%nat -> forall x, x ∈ k -> x ∈ l.
Proof.
  intros Hnd Hsub Hlen. apply (NoDup_submseteq _ _ Hnd) in Hsub.
  assert (l ≡ₚ k) as E by by apply submseteq_length_Permutation. intros x. by rewrite E.
Qed.
(** A member that cannot take part has everything, and shares it with nobody. *)
Lemma cannot_participate fx s m l :
  inv fx s -> map_find m (currentAssignment s) = Some l ->
  canConsumerParticipateInReassignment m (currentAssignment s) c2p p2c = false ->
  forall p, offers m p -> p ∈ l /\ Zlen (at_or [] p p2c) < 2.
Proof.
  intros Hi Em Hc p Ho. unfold canConsumerParticipateInReassignment in Hc. rewrite Em in Hc.
  destruct (good_in_c2p fx s m Hi ltac:(by eexists)) as [pot Ep]. rewrite Ep in Hc.
  destruct (Z.ltb_spec (Zlen l) (Zlen pot)) as [|Hge]; [done|].
  assert (view fx (currentAssignment s) m = l) as Ev.
  { rewrite (inv_view_cur fx s m Hi) by by eexists. by apply at_or_some. }
  assert (p ∈ l) as Hp.
  { apply (subset_full l pot).
    - rewrite <- Ev. apply (inv_nodup _ _ Hi).
    - intros x Hx. rewrite <- Ev in Hx. apply (inv_offers _ _ Hi), sub_potential in Hx.
      by rewrite (at_or_some _ _ _ _ Ep) in Hx.
    - unfold Zlen in Hge. lia.
    - apply sub_potential in Ho. by rewrite (at_or_some _ _ _ _ Ep) in Ho. }
  split; [done|]. unfold at_or. destruct (map_find p p2c) as [c|] eqn:Ec; [|by unfold Zlen].
  destruct (Z.ltb_spec (Zlen c) 2) as [|Hge2]; [done|].
  assert (existsb (fun partition => match map_find partition p2c with Some c => 2 <=? Zlen c | None => false end) l = true) as Hex.
  { apply existsb_exists. exists p. split; [by apply list_elem_of_In|]. rewrite Ec. by apply Z.leb_le. }
  congruence.
Qed.

Section Fix.
Context (fx : assignment_t) (s : sticky) (m : list Z) (l : list topic_t).
Context (Hi : inv fx s) (Em : map_find m (currentAssignment s) = Some l)
  (Hc : canConsumerParticipateInReassignment m (currentAssignment s) c2p p2c = false).
Definition fixed_cur : assignment_t := map_erase m (currentAssignment s).
Definition fixed_fx : assignment_t := map_assign m l fx.

Lemma fixed_view x : view fixed_fx fixed_cur x = view fx (currentAssignment s) x.
Proof.
  unfold view, fixed_fx, fixed_cur. destruct (decide (x = m)) as [->|Hne].
  - rewrite map_find_assign_eq, (inv_disj _ _ Hi) by by eexists. symmetry. by apply at_or_some.
  - rewrite map_find_assign_ne by done. unfold at_or. by rewrite map_find_erase_ne.
Qed.
Lemma fixed_find x : is_Some (map_find x fixed_cur) <-> is_Some (map_find x (currentAssignment s)) /\ x <> m.
Proof.
  unfold fixed_cur. rewrite <- !map_keys_find. apply map_keys_erase, (inv_cur _ _ Hi).
Qed.
Lemma fixed_inv :
  inv fixed_fx (mkSticky fixed_cur (currentPartitionConsumer s) (sortMemberIDsByPartitionAssignments fixed_cur) (movements s)).
Proof.
  split; cbn [currentAssignment currentPartitionConsumer sortedCurrentSubscriptions movements].
  - apply map_erase_sorted, (inv_cur _ _ Hi).
  - apply (inv_own _ _ Hi).
  - apply sort_by_perm.
  - intros x. rewrite fixed_find, (inv_ids _ _ Hi). unfold fixed_fx. destruct (decide (x = m)) as [->|Hne].
    + rewrite map_find_assign_eq. split; [by right; eexists|]. intros _. left. by eexists.
    + rewrite map_find_assign_ne by done. tauto.
  - intros x [Hx Hne]%fixed_find. unfold fixed_fx. rewrite map_find_assign_ne by done. by apply (inv_disj _ _ Hi).
  - intros x. rewrite fixed_view. apply (inv_nodup _ _ Hi).
  - intros x q. rewrite fixed_view. apply (inv_offers _ _ Hi).
  - intros x q. rewrite fixed_view. apply (inv_owner _ _ Hi).
  - apply (inv_moves _ _ Hi).
  - intros x k [[-> ->]|[_ Hf]]%map_find_assign_cases; [by eapply cannot_participate|by apply (inv_fixed _ _ Hi)].
Qed.
End Fix.

Lemma fix_members_good l fx s :
  good fx s -> map_sorted fx -> NoDup l -> (forall m, m ∈ l -> m ∈ ids /\ map_find m fx = None) ->
  exists fx' s', fix_members c2p p2c l fx s = Done fx' s' /\ good fx' s' /\ map_sorted fx' /\
    forall x, view fx' (currentAssignment s') x = view fx (currentAssignment s) x.
Proof.
  revert fx s. induction l as [|m l IH]; intros fx s [Hi Hcm] Hs Hnd Hl; cbn [fix_members]; [by eexists _, _|].
  apply NoDup_cons in Hnd as [Hml Hnd].
  destruct (canConsumerParticipateInReassignment m (currentAssignment s) c2p p2c) eqn:Ec.
  { apply IH; [done..|]. intros x Hx. apply Hl. by right. }
  destruct (Hl m ltac:(by left)) as [Hid Hfx].
  apply (inv_ids _ _ Hi) in Hid as [[k Ek]|Hf]; [|rewrite Hfx in Hf; by destruct Hf].
  rewrite touch_id by (apply (inv_cur _ _ Hi) || by eexists). rewrite (at_or_some _ _ _ _ Ek).
  edestruct IH as (fx' & s' & E & Hg' & Hs' & Hv'); [..|exists fx', s'; split; [exact E|]].
  - split; [exact (fixed_inv fx s m k Hi Ek Ec)|exact Hcm].
  - by apply map_assign_sorted.
  - done.
  - intros x Hx. rewrite map_find_assign_ne by by intros ->. apply Hl. by right.
  - split; [done|]. split; [done|]. intros x. rewrite Hv'. exact (fixed_view fx s m k Hi Ek x).
Qed.

(** ** Putting everything together *)

Definition merged (fx a : assignment_t) : assignment_t := fold_left (fun a e => map_assign (fst e) (snd e) a) fx a.
Lemma merged_sorted fx a : map_sorted a -> map_sorted (merged fx a).
Proof. revert a. induction fx as [|[k v] fx IH]; intros a Ha; [done|]. by apply IH, map_assign_sorted. Qed.
Lemma merged_find fx a m : map_sorted fx ->
  map_find m (merged fx a) = match map_find m fx with Some l => Some l | None => map_find m a end.
Proof.
  unfold merged. revert a. induction fx as [|[k v] fx IH]; intros a; [done|]. intros [Hlow Hs]. cbn [fold_left fst snd].
  rewrite IH by done. destruct (decide (m = k)) as [->|Hne].
  - by rewrite map_find_lower, map_find_here, map_find_assign_eq.
  - rewrite map_find_there, map_find_assign_ne by done. done.
Qed.
(** The property of an assignment that plans are about *)
Record exact (a : assignment_t) : Prop := {
  exact_sorted : map_sorted a;
  exact_ids m : m ∈ map_keys a <-> m ∈ ids;
  exact_nodup m : NoDup (at_or [] m a);
  exact_offers m p : p ∈ at_or [] m a -> offers m p;
  exact_one m m' p : p ∈ at_or [] m a -> p ∈ at_or [] m' a -> m = m';
  exact_all m p : offers m p -> exists h, p ∈ at_or [] h a
}.
Lemma good_exact fx s : good fx s -> map_sorted fx -> exact (merged fx (currentAssignment s)).
Proof.
  intros [Hi Hc] Hs.
  assert (forall m, at_or [] m (merged fx (currentAssignment s)) = view fx (currentAssignment s) m) as Ev.
  { intros m. unfold at_or, view. rewrite merged_find by done. by destruct (map_find m fx). }
  split.
  - apply merged_sorted, (inv_cur _ _ Hi).
  - intros m. rewrite map_keys_find, merged_find, (inv_ids _ _ Hi) by done.
    destruct (map_find m fx) eqn:E; [|naive_solver]. split; [right; by eexists|by eexists].
  - intros m. rewrite Ev. apply (inv_nodup _ _ Hi).
  - intros m p. rewrite Ev. apply (inv_offers _ _ Hi).
  - intros m m' p. rewrite !Ev, <- !(inv_owner _ _ Hi). congruence.
  - intros m p Hp. destruct (Hc m p Hp) as [h Hh]. exists h. by rewrite Ev, <- (inv_owner _ _ Hi).
Qed.

Lemma balance_safe fuel reassignable unassigned s :
  inv [] s -> NoDup unassigned ->
  (forall p, p ∈ unassigned -> map_find p (currentPartitionConsumer s) = None) ->
  (forall m p, offers m p -> p ∈ unassigned) ->
  (forall p, p ∈ reassignable -> is_Some (map_find p p2c)) -> map_sorted c2p ->
  match balance c2p p2c [] fuel reassignable unassigned s with
  | Done _ s' => exact (currentAssignment s')
  | Fault f => f = FDiverge
  end.
Proof.
  intros Hi Hnd Hno Hall Hre Hs. unfold balance. set (initializing := match _ with [] => _ | _ => _ end). clearbody initializing.
  destruct (assign_all unassigned s Hi Hnd Hno) as (s1 & E1 & Hi1 & _ & Hdone).
  unfold bind at 1. rewrite E1.
  assert (good [] s1) as Hg1 by (split; [done|]; intros m p Hp; apply Hdone; eauto).
  destruct (fix_members_good (map_keys c2p) [] s1 Hg1) as (fx & s2 & E2 & Hg2 & Hfx & _); [done|by apply map_sorted_nodup| |].
  { intros m Hm. split; [|done]. apply sub_ids. by apply map_keys_find. }
  unfold bind at 1. rewrite E2. unfold bind at 1, gets at 1. unfold bind at 1, gets at 1. unfold bind at 1.
  set (l := filter _ reassignable).
  assert (forall p, p ∈ l -> is_Some (map_find p p2c)) as Hl.
  { intros p [_ Hp]%list_elem_of_filter. by apply Hre. }
  pose proof (performReassignments_safe fx fuel l false Hl s2 Hg2) as Hperf.
  destruct (performReassignments c2p p2c [] fuel l false s2) as [performed s3|]; [|done].
  unfold bind, gets, whenU, modify. destruct (negb initializing && _ && _); cbn [ret].
  - unfold deepCopyAssignment. rewrite !(map_of_sorted _ (inv_cur _ _ (proj1 Hg2))).
    apply (good_exact fx s2 Hg2 Hfx).
  - apply (good_exact fx s3 Hperf Hfx).
Qed.
End Safety.
