(* ===== verification/StickyPlan.v ===== *)
(** * Sticky plans

    From members and topics to a plan: the maps [StickyBalanceStrategy::Plan] of
    [coev_kafka/balance_strategy.cpp] builds satisfy what [StickySafety] assumes, and the
    plan is read off the assignment.  The theorems: every plan is exact; with equal
    subscriptions the plan is balanced and found in one pass; and there are members and
    topics for which the passes never end. *)
From Stdlib Require Import ZArith Lia Bool.
From stdpp Require Import base tactics list numbers sorting.
From S2P Require Import Prelude StdMap Balance BalanceRR Sticky StickyMoves StickySafety.

(** ** Subscriptions *)

Definition listed (topics : topics_t) (p : topic_t) : Prop :=
  exists ps, map_find (fst p) topics = Some ps /\ snd p ∈ ps.
Definition offers (members : members_t) (topics : topics_t) (m : list Z) (p : topic_t) : Prop :=
  subscribes members m (fst p) /\ listed topics p.

Lemma potential_of_spec topics meta p :
  p ∈ potential_of topics meta <-> fst p ∈ m_topics meta /\ listed topics p.
Proof.
  unfold potential_of, listed. rewrite list_elem_of_bind. split.
  - intros (t & Hp & Ht). destruct (map_find t topics) as [ps|] eqn:E; [|by apply elem_of_nil in Hp].
    apply list_elem_of_fmap in Hp as (q & -> & Hq). cbn. eauto.
  - intros (Ht & ps & E & Hq). exists (fst p). rewrite E. split; [|done].
    apply list_elem_of_fmap. exists (snd p). by destruct p.
Qed.
Lemma no_consumers_spec topics :
  map_sorted topics ->
  map_sorted (no_consumers topics) /\
  (forall p, is_Some (map_find p (no_consumers topics)) <-> listed topics p) /\
  forall p l, map_find p (no_consumers topics) = Some l -> l = [].
Proof.
  intros Hs. unfold no_consumers.
  assert (forall t ps (m : consumers_t), map_sorted m -> (forall p l, map_find p m = Some l -> l = []) ->
    let m' := fold_left (fun m p => map_assign (tp_of t p) [] m) ps m in
    map_sorted m' /\ (forall p, is_Some (map_find p m') <-> is_Some (map_find p m) \/ (fst p = t /\ snd p ∈ ps)) /\
    forall p l, map_find p m' = Some l -> l = []) as Hin.
  { intros t ps. induction ps as [|q ps IH]; intros m Hm He; cbn.
    { split; [done|]. split; [|done]. intros p. rewrite elem_of_nil. tauto. }
    destruct (IH (map_assign (tp_of t q) [] m)) as (H1 & H2 & H3).
    - by apply map_assign_sorted.
    - intros p l [[_ ->]|[_ Hp]]%map_find_assign_cases; [done|by eapply He].
    - split; [exact H1|]. split; [|exact H3]. intros p. rewrite H2, elem_of_cons.
      destruct (decide (p = tp_of t q)) as [->|Hne].
      + rewrite map_find_assign_eq. cbn. split; [intros _; right; auto|intros _; left; by eexists].
      + rewrite map_find_assign_ne by done. destruct p as [t' q']. unfold tp_of in Hne. cbn. naive_solver. }
  cut (forall (m : consumers_t), map_sorted m -> (forall p l, map_find p m = Some l -> l = []) ->
    let m' := fold_left (fun m e => fold_left (fun m p => map_assign (tp_of (fst e) p) [] m) (snd e) m) topics m in
    map_sorted m' /\ (forall p, is_Some (map_find p m') <-> is_Some (map_find p m) \/ listed topics p) /\
    forall p l, map_find p m' = Some l -> l = []).
  { intros Hcut. destruct (Hcut []) as (H1 & H2 & H3); [done..|]. split; [done|]. split; [|done].
    intros p. rewrite H2. split; [by intros [[]|]|by right]. }
  induction topics as [|[t ps] topics IH]; intros m Hm He; cbn.
  { split; [done|]. split; [|done]. intros p. split; [by left|by intros [|(ps & ? & _)]]. }
  destruct Hs as [Hlow Hs]. destruct (Hin t ps m Hm He) as (H1 & H2 & H3).
  destruct (IH Hs _ H1 H3) as (H4 & H5 & H6). split; [exact H4|]. split; [|exact H6].
  intros p. rewrite H5, H2. unfold listed. destruct (decide (fst p = t)) as [Et|Hne].
  - rewrite Et. rewrite map_find_here, (map_find_lower t topics) by done. naive_solver.
  - rewrite map_find_there by done. naive_solver.
Qed.

(** The loop over one member's potential partitions *)
Lemma add_consumer_spec m l (p2c : consumers_t) :
  map_sorted p2c ->
  let p2c' := fold_left (fun p2c tpa => map_update [] (fun ids => ids ++ [m]) tpa p2c) l p2c in
  map_sorted p2c' /\
  (forall p, is_Some (map_find p p2c') <-> is_Some (map_find p p2c) \/ p ∈ l) /\
  forall x p, x ∈ at_or [] p p2c' <-> x ∈ at_or [] p p2c \/ (x = m /\ p ∈ l).
Proof.
  revert p2c. induction l as [|q l IH]; intros p2c Hs; cbn.
  { split; [done|]. split; intros; rewrite elem_of_nil; tauto. }
  destruct (IH (map_update [] (fun ids => ids ++ [m]) q p2c)) as (H1 & H2 & H3); [by apply map_update_sorted|].
  split; [exact H1|]. split.
  - intros p. rewrite H2, elem_of_cons. destruct (decide (p = q)) as [->|Hne].
    + rewrite map_find_update_eq. split; [intros _; right; by left|intros _; left; by eexists].
    + rewrite map_find_update_ne by done. naive_solver.
  - intros x p. rewrite H3, elem_of_cons. destruct (decide (p = q)) as [->|Hne].
    + rewrite at_or_update_eq, elem_of_app, list_elem_of_singleton. naive_solver.
    + rewrite at_or_update_ne by done. naive_solver.
Qed.
Lemma potentials_spec topics members c2p p2c current :
  map_sorted members -> map_sorted c2p -> map_sorted p2c -> map_sorted current ->
  let '(c2p', p2c', current') := potentials topics members c2p p2c current in
  map_sorted c2p' /\ map_sorted p2c' /\ map_sorted current' /\
  (forall m, map_find m c2p' = match map_find m members with Some meta => Some (potential_of topics meta) | None => map_find m c2p end) /\
  (forall p, is_Some (map_find p p2c') <-> is_Some (map_find p p2c) \/ exists m meta, (m, meta) ∈ members /\ p ∈ potential_of topics meta) /\
  (forall x p, x ∈ at_or [] p p2c' <-> x ∈ at_or [] p p2c \/ exists meta, (x, meta) ∈ members /\ p ∈ potential_of topics meta) /\
  (forall m, map_find m current' = match map_find m current with Some l => Some l | None => match map_find m members with Some _ => Some [] | None => None end end).
Proof.
  revert c2p p2c current. induction members as [|[m meta] members IH]; intros c2p p2c current Hs H1 H2 H3; cbn [potentials].
  { split_and!; try done.
    - intros p. split; [by left|]. intros [|(? & ? & Hn & _)]; [done|]. by apply elem_of_nil in Hn.
    - intros x p. split; [by left|]. intros [|(? & Hn & _)]; [done|]. by apply elem_of_nil in Hn.
    - intros x. by destruct (map_find x current). }
  destruct Hs as [Hlow Hs].
  destruct (add_consumer_spec m (potential_of topics meta) p2c H2) as (A1 & A2 & A3).
  set (p2c1 := fold_left _ (potential_of topics meta) p2c) in *.
  set (current1 := if map_count m current then current else map_assign m [] current).
  assert (map_sorted current1) as Hc1 by (unfold current1; case_match; [done|by apply map_assign_sorted]).
  specialize (IH (map_assign m (potential_of topics meta) c2p) p2c1 current1 Hs (map_assign_sorted _ _ _ H1) A1 Hc1).
  destruct (potentials topics members _ p2c1 current1) as [[c2p' p2c'] current'].
  destruct IH as (B1 & B2 & B3 & B4 & B5 & B6 & B7). split_and!; try done.
  - intros x. rewrite B4. destruct (decide (x = m)) as [->|Hne].
    + by rewrite map_find_here, map_find_lower, map_find_assign_eq.
    + by rewrite map_find_there, map_find_assign_ne.
  - intros p. rewrite B5, A2. setoid_rewrite elem_of_cons. naive_solver.
  - intros x p. rewrite B6, A3. setoid_rewrite elem_of_cons. naive_solver.
  - intros x. rewrite B7. unfold current1, map_count. destruct (decide (x = m)) as [->|Hne].
    + rewrite map_find_here, (map_find_lower m members) by done.
      destruct (map_find m current) eqn:E; [by rewrite E|by rewrite map_find_assign_eq].
    + rewrite map_find_there by done. destruct (map_find m current) eqn:E; [done|]. by rewrite map_find_assign_ne.
Qed.

(** ** The start: nobody has anything *)

Lemma prepopulate_nothing members : prepopulateCurrentAssignments members = Some ([], []).
Proof.
  unfold prepopulateCurrentAssignments. assert (partition_generations members = []) as ->; [|done].
  unfold partition_generations. cbn. generalize (@nil (topic_t * list (Z * list Z))).
  induction members as [|it members IH]; intros acc; cbn; [done|apply IH].
Qed.
Lemma keep_nothing members p2c entries current unassigned unvisited owners :
  map_sorted current -> (forall e, e ∈ entries -> snd e = [] /\ map_find (fst e) current = Some []) ->
  keep_assignments members p2c entries current unassigned unvisited owners = Some (current, unassigned, unvisited, owners).
Proof.
  intros Hs. induction entries as [|[m l] entries IH]; intros Hall; [done|].
  destruct (Hall (m, l) ltac:(by left)) as [El Em]. cbn in El, Em. subst l. cbn.
  rewrite map_assign_same by done. apply IH. intros e He. apply Hall. by right.
Qed.
Lemma subscribes_find members m topic :
  map_sorted members ->
  subscribes members m topic <-> exists meta, map_find m members = Some meta /\ topic ∈ m_topics meta.
Proof.
  intros Hs. unfold subscribes. split; intros (meta & Hm & Ht); exists meta; (split; [|done]).
  - by apply map_in_find.
  - by apply map_find_in.
Qed.

(** What the maps of the plan look like when [balance] is called *)
Record start (members : members_t) (topics : topics_t) (c2p : assignment_t) (p2c : consumers_t) (current : assignment_t) : Prop := {
  start_subs : Subscriptions (offers members topics) (map_keys members) c2p p2c;
  start_c2p : map_sorted c2p;
  start_p2c : map_sorted p2c;
  start_current : map_sorted current;
  start_empty m l : map_find m current = Some l -> l = [];
  start_keys m : is_Some (map_find m current) <-> m ∈ map_keys members;
  start_listed p : is_Some (map_find p p2c) <-> listed topics p;
  start_potential m meta : map_find m members = Some meta -> map_find m c2p = Some (potential_of topics meta)
}.
Lemma potentials_start members topics c2p p2c current :
  map_sorted members -> map_sorted topics ->
  potentials topics members [] (no_consumers topics) [] = (c2p, p2c, current) -> start members topics c2p p2c current.
Proof.
  intros Hm Ht E. destruct (no_consumers_spec topics Ht) as (N1 & N2 & N3).
  pose proof (potentials_spec topics members [] (no_consumers topics) [] Hm I N1 I) as Hp. rewrite E in Hp.
  destruct Hp as (B1 & B2 & B3 & B4 & B5 & B6 & B7).
  assert (forall m p, m ∈ at_or [] p p2c <-> offers members topics m p) as Hcons.
  { intros m p. rewrite B6. split.
    - intros [Hno|(meta & Hin & Hp)].
      + unfold at_or in Hno. destruct (map_find p (no_consumers topics)) eqn:En; [|by apply elem_of_nil in Hno].
        rewrite (N3 _ _ En) in Hno. by apply elem_of_nil in Hno.
      + apply potential_of_spec in Hp as [Htp Hl]. split; [by exists meta|done].
    - intros [(meta & Hin & Htp) Hl]. right. exists meta. split; [done|]. by apply potential_of_spec. }
  assert (forall m p, p ∈ at_or [] m c2p <-> offers members topics m p) as Hpot.
  { intros m p. unfold offers. rewrite subscribes_find by done. unfold at_or. rewrite B4.
    destruct (map_find m members) as [meta|] eqn:Em; cbn.
    - rewrite potential_of_spec. naive_solver.
    - rewrite elem_of_nil. naive_solver. }
  split; try done.
  - split; [exact Hpot|exact Hcons| |].
    + intros m p q m' [Hsub Hl] Et [_ Hlq]. split; [by rewrite Et|done].
    + intros m. rewrite map_keys_find, B4. destruct (map_find m members); split; intros [x Hx]; try done; by eexists.
  - intros m l. rewrite B7. cbn. destruct (map_find m members); by intros [= <-].
  - intros m. rewrite B7, map_keys_find. cbn. destruct (map_find m members); split; intros [x Hx]; try done; by eexists.
  - intros p. rewrite B5, N2. split; [|by left]. intros [|(m & meta & _ & Hp)]; [done|]. by apply potential_of_spec in Hp as [_ ?].
  - intros m meta Em. by rewrite B4, Em.
Qed.
Lemma start_inv members topics c2p p2c current :
  start members topics c2p p2c current ->
  @inv (offers members topics) (map_keys members) p2c []
    (mkSticky current [] (sortMemberIDsByPartitionAssignments current) no_movements).
Proof.
  intros Hst. assert (forall m, at_or [] m current = []) as He.
  { intros m. unfold at_or. destruct (map_find m current) eqn:E; [|done]. by eapply start_empty. }
  split; cbn [currentAssignment currentPartitionConsumer sortedCurrentSubscriptions movements].
  - by eapply start_current.
  - done.
  - apply sort_by_perm.
  - intros m. rewrite (start_keys _ _ _ _ _ Hst). split; [by left|by intros [|[]]].
  - done.
  - intros m. change (NoDup (at_or [] m current)). rewrite He. constructor.
  - intros m p. change (p ∈ at_or [] m current -> offers members topics m p). rewrite He. by intros ?%elem_of_nil.
  - intros m p. change (map_find p [] = Some m <-> p ∈ at_or [] m current). rewrite He, elem_of_nil. done.
  - done.
  - done.
Qed.

(** ** Reading the plan off the assignment *)

Definition part_of (topic : list Z) (l : list topic_t) : list Z := snd <$> filter (fun p => fst p = topic) l.

Lemma add_entries plan id l :
  let plan' := fold_left (fun plan a => AddToPlan plan id (fst a) [snd a]) l plan in
  (forall id' topic, assigned plan' id' topic =
     if bool_decide (id' = id) then assigned plan id' topic ++ part_of topic l else assigned plan id' topic) /\
  forall id', id' <> id -> map_find id' plan' = map_find id' plan.
Proof.
  revert plan. induction l as [|[t p] l IH]; intros plan; cbn [fold_left fst snd].
  { split; [|done]. intros id' topic. unfold part_of. cbn. rewrite app_nil_r. by case_bool_decide. }
  destruct (IH (AddToPlan plan id t [p])) as [H1 H2]. split.
  - intros id' topic. rewrite H1, assigned_AddToPlan. unfold part_of. rewrite filter_cons. cbn [fst].
    repeat case_bool_decide; try case_decide; cbn; rewrite <- ?app_assoc; naive_solver.
  - intros id' Hne. rewrite H2 by done. unfold AddToPlan. by rewrite map_find_update_ne.
Qed.
Lemma plan_of_spec a id topic : map_sorted a -> assigned (plan_of a) id topic = part_of topic (at_or [] id a).
Proof.
  intros Hs. unfold plan_of.
  cut (forall plan, (forall x, x ∈ map_keys a -> map_find x plan = None) ->
    assigned (fold_left (fun plan e => match snd e with
      | [] => map_assign (fst e) [] plan
      | l => fold_left (fun plan a => AddToPlan plan (fst e) (fst a) [snd a]) l plan end) a plan) id topic =
    assigned plan id topic ++ part_of topic (at_or [] id a)).
  { intros Hcut. by rewrite Hcut. }
  induction a as [|[m l] a IH]; intros plan Hno; [by rewrite app_nil_r|]. destruct Hs as [Hlow Hs].
  cbn [fold_left fst snd]. pose proof (map_sorted_nodup ((m, l) :: a) (conj Hlow Hs)) as Hnd.
  apply NoDup_cons in Hnd as [Hma _].
  assert (map_find m plan = None) as Hm by (apply Hno; by left).
  set (plan' := match l with
    | [] => map_assign m [] plan
    | y :: k => fold_left (fun plan a => AddToPlan plan m (fst a) [snd a]) (y :: k) plan end).
  assert (assigned plan' id topic = (if bool_decide (id = m) then assigned plan id topic ++ part_of topic l else assigned plan id topic) /\
    forall x, x <> m -> map_find x plan' = map_find x plan) as [Ea Ef].
  { unfold plan'. destruct l as [|x l].
    - split; [|intros y Hy; by rewrite map_find_assign_ne]. unfold assigned, part_of. cbn. case_bool_decide as Hid.
      + subst. by rewrite map_find_assign_eq, Hm.
      + by rewrite map_find_assign_ne.
    - destruct (add_entries plan m (x :: l)) as [H1 H2]. split; [apply H1|apply H2]. }
  transitivity (assigned plan' id topic ++ part_of topic (at_or [] id a)); [apply (IH Hs plan')|].
  - intros x Hx. rewrite Ef by by intros ->. apply Hno. by right.
  - rewrite Ea. unfold at_or. case_bool_decide as Hid.
    + subst. rewrite map_find_here, (map_find_lower m a) by done. by rewrite app_nil_r.
    + by rewrite map_find_there.
Qed.
Lemma part_of_spec topic l p : p ∈ part_of topic l <-> (topic, p) ∈ l.
Proof.
  unfold part_of. rewrite list_elem_of_fmap. split.
  - intros ([t q] & -> & [Et Hq]%list_elem_of_filter). cbn in *. by subst.
  - intros Hp. exists (topic, p). split; [done|]. by apply list_elem_of_filter.
Qed.
Lemma part_of_nodup topic l : NoDup l -> NoDup (part_of topic l).
Proof.
  intros Hnd. unfold part_of. apply NoDup_fmap_2_strong; [|by apply NoDup_filter].
  intros [t p] [u q] [Et _]%list_elem_of_filter [Eu _]%list_elem_of_filter. cbn in *. by intros ->; subst.
Qed.

(** ** Every plan is exact *)

Definition exact_plan (members : members_t) (topics : topics_t) (plan : BalanceStrategyPlan) : Prop :=
  (forall id topic p, p ∈ assigned plan id topic -> subscribes members id topic /\ listed topics (topic, p)) /\
  (forall id topic, NoDup (assigned plan id topic)) /\
  (forall topic p, listed topics (topic, p) -> (exists id, subscribes members id topic) ->
     exists! id, p ∈ assigned plan id topic).

Lemma exact_plan_of members topics a :
  exact (offers := offers members topics) (ids := map_keys members) a -> exact_plan members topics (plan_of a).
Proof.
  intros He. assert (forall id topic, assigned (plan_of a) id topic = part_of topic (at_or [] id a)) as Ea.
  { intros id topic. apply plan_of_spec, He. }
  split; [|split].
  - intros id topic p. rewrite Ea, part_of_spec. intros Hp. by apply He in Hp.
  - intros id topic. rewrite Ea. apply part_of_nodup, He.
  - intros topic p Hl [id Hid]. destruct (exact_all a He id (topic, p)) as [h Hh]; [by split|]. exists h.
    split; [by rewrite Ea, part_of_spec|]. intros h'. rewrite Ea, part_of_spec. intros Hh'. by eapply exact_one.
Qed.

(** The plan is what [balance] makes of a start with nothing assigned. *)
Lemma Sticky_Plan_run members topics :
  map_sorted members -> map_sorted topics -> topics <> [] ->
  exists c2p p2c current, start members topics c2p p2c current /\
    potentials topics members [] (no_consumers topics) [] = (c2p, p2c, current) /\
    forall fuel, Sticky_Plan fuel members topics =
      match balance c2p p2c [] fuel (sortPartitionsByPotentialConsumerAssignments p2c) (map_keys p2c)
              (mkSticky current [] (sortMemberIDsByPartitionAssignments current) no_movements) with
      | Done _ s => Done (plan_of (currentAssignment s)) tt
      | Fault f => Fault f
      end.
Proof.
  intros Hm Ht Hne. destruct (potentials topics members [] (no_consumers topics) []) as [[c2p p2c] current] eqn:Ep.
  pose proof (potentials_start members topics c2p p2c current Hm Ht Ep) as Hst.
  exists c2p, p2c, current. split; [done|]. split; [done|]. intros fuel. unfold Sticky_Plan.
  destruct topics as [|e topics]; [done|]. rewrite prepopulate_nothing, Ep, keep_nothing; [|by eapply start_current|].
  - cbn [app]. assert (map_keys (map (fun e => (fst e, true)) p2c) = map_keys p2c) as ->; [|done].
    unfold map_keys. rewrite <- list_fmap_compose. by apply list_fmap_ext.
  - intros [m l] Hin. apply map_in_find in Hin; [|by eapply start_current]. cbn.
    by pose proof (start_empty _ _ _ _ _ Hst m l Hin) as ->.
Qed.

(** C10: However many passes the sticky strategy is allowed, it does not throw, and when it
    returns, every listed partition of a topic with subscribers is assigned to exactly one
    member, once, which subscribes to the topic, and nothing else is assigned. *)
Theorem sticky_plan_exact fuel members topics :
  map_sorted members -> map_sorted topics ->
  match Sticky_Plan fuel members topics with
  | Done plan _ => exact_plan members topics plan
  | Fault f => f = FDiverge
  end.
Proof.
  intros Hm Ht. destruct (decide (topics = [])) as [->|Hne].
  { cbn. split; [by intros id t p ?%elem_of_nil|]. split; [intros; constructor|]. by intros t p (ps & ? & _). }
  destruct (Sticky_Plan_run members topics Hm Ht Hne) as (c2p & p2c & current & Hst & _ & ->).
  pose proof (start_subs _ _ _ _ _ Hst) as Hsubs.
  assert (match balance c2p p2c [] fuel (sortPartitionsByPotentialConsumerAssignments p2c) (map_keys p2c)
              (mkSticky current [] (sortMemberIDsByPartitionAssignments current) no_movements) with
    | Done _ s => exact (offers := offers members topics) (ids := map_keys members) (currentAssignment s)
    | Fault f => f = FDiverge
    end) as Hb.
  { apply (balance_safe (HS := Hsubs)).
    - by eapply start_inv.
    - apply map_sorted_nodup. by eapply start_p2c.
    - done.
    - intros m p [_ Hl]. apply map_keys_find. by apply (start_listed _ _ _ _ _ Hst).
    - intros p Hp. unfold sortPartitionsByPotentialConsumerAssignments in Hp. rewrite sort_by_perm in Hp.
      by apply map_keys_find.
    - by eapply start_c2p. }
  destruct (balance _ _ _ _ _ _ _); [by apply exact_plan_of|done].
Qed.
Example sticky_plan_exact_witness :
  exists plan, Sticky_Plan 5 split_members example_topics = Done plan tt /\ exact_plan split_members example_topics plan.
Proof.
  assert (map_sorted split_members) as Hm by by apply (bool_decide_unpack _).
  assert (map_sorted example_topics) as Ht by by apply (bool_decide_unpack _).
  pose proof (sticky_plan_exact 5 split_members example_topics Hm Ht) as Hp.
  destruct (Sticky_Plan 5 split_members example_topics) as [plan []|f] eqn:E.
  { exists plan. split; [reflexivity|exact Hp]. }
  exfalso. vm_compute in E. discriminate E.
Defined.

(** ** Passes that never end *)

(** A pass that moves partitions around in a circle is followed by the same pass. *)
Lemma performReassignments_circle c2p p2c prev l s s1 fuel performed :
  reassign_pass c2p p2c prev l false s = Done true s1 -> reassign_pass c2p p2c prev l false s1 = Done true s1 ->
  performReassignments c2p p2c prev fuel l performed s = Fault FDiverge.
Proof.
  intros E E1. destruct fuel as [|fuel]; [done|]. cbn [performReassignments]. unfold bind at 1. rewrite E.
  generalize true at 1. induction fuel as [|fuel IH]; intros b; [done|]. cbn [performReassignments]. unfold bind at 1.
  rewrite E1. apply IH.
Qed.
Lemma balance_circle c2p p2c prev fuel reassignable unassigned s s1 fx s2 s3 :
  for_do unassigned (fun p => if Zlen (at_or [] p p2c) =? 0 then ret tt else assignPartition c2p p) s = Done tt s1 ->
  fix_members c2p p2c (map_keys c2p) [] s1 = Done fx s2 ->
  (let l := filter (fun p => map_count p p2c && negb (canTopicPartitionParticipateInReassignment p p2c) = false) reassignable in
   reassign_pass c2p p2c prev l false s2 = Done true s3 /\ reassign_pass c2p p2c prev l false s3 = Done true s3) ->
  balance c2p p2c prev fuel reassignable unassigned s = Fault FDiverge.
Proof.
  intros E1 E2 [E3 E4]. unfold balance. unfold bind at 1. rewrite E1. unfold bind at 1. rewrite E2.
  unfold bind at 1, gets at 1. unfold bind at 1, gets at 1. unfold bind at 1.
  by rewrite (performReassignments_circle _ _ _ _ _ _ _ _ E3 E4).
Qed.

Definition looping_members : members_t :=
  [([65], mkMetadata [[98]]);
   ([66], mkMetadata [[97]; [99]]);
   ([68], mkMetadata [[101]; [104]]);
   ([69], mkMetadata [[99]; [106]]);
   ([71], mkMetadata [[104]; [106]]);
   ([72], mkMetadata [[99]; [104]]);
   ([73], mkMetadata [[98]; [99]; [100]; [106]]);
   ([74], mkMetadata [[103]; [104]])].
Definition looping_topics : topics_t :=
  [([97], [0]);
   ([98], [0; 1; 2; 3; 4; 5; 6; 7]);
   ([99], [0; 1; 2; 3; 4; 5; 6; 7; 8; 9; 10; 11]);
   ([100], [0; 1; 2; 3; 4; 5; 6; 7]);
   ([101], [0; 1; 2]);
   ([103], [0; 1]);
   ([104], [0; 1; 2]);
   ([106], [0; 1; 2; 3; 4; 5; 6; 7; 8; 9; 10; 11; 12; 13])].

(** The passes of the sticky strategy need not end: for eight members and eight topics
    the assignment after the first pass is the one after every later pass, each of which
    moves partitions, so that no number of passes is enough and [Plan] does not return. *)
Theorem sticky_plan_never_returns fuel :
  Sticky_Plan fuel looping_members looping_topics = Fault FDiverge.
Proof.
  destruct (Sticky_Plan_run looping_members looping_topics) as (c2p & p2c & current & _ & Ep & ->);
    [by apply (bool_decide_unpack _)|by apply (bool_decide_unpack _)|done|].
  vm_compute in Ep. injection Ep as <- <- <-.
  erewrite balance_circle; [done| | |].
  - vm_compute. reflexivity.
  - vm_compute. reflexivity.
  - split; [vm_compute; reflexivity|vm_compute; reflexivity].
Qed.
