(* ===== verification/StickyEqual.v ===== *)
(** * Sticky plans for equal subscriptions

    When every member subscribes to the same topics, assigning each partition to the least
    loaded member ([assignPartition] of [coev_kafka/balance_strategy.cpp]) leaves loads
    that differ by at most one; the assignment is balanced before the first pass, and the
    plan is returned after one. *)
From Stdlib Require Import ZArith Lia Bool.
From stdpp Require Import base tactics list numbers sorting.
From S2P Require Import Prelude StdMap Balance BalanceRR Sticky StickyMoves StickySafety StickyPlan.

(** ** Loads *)

Lemma pair_le_fst (x y : Z) (a b : list Z) : key_le (x, a) (y, b) -> x <= y.
Proof.
  rewrite key_le_lt. intros [Hl|[= -> _]]; [|lia]. unfold key_lt, key_compare in Hl. cbn in Hl.
  unfold pair_compare in Hl. cbn in Hl. destruct (Z.compare_spec x y); [lia..|done].
Qed.
(** The sorted subscriptions start with a least loaded member and end with a most loaded one. *)
Lemma sorted_least a m ms x :
  sortMemberIDsByPartitionAssignments a = m :: ms -> x ∈ map_keys a -> size_of a m <= size_of a x.
Proof.
  intros E Hx. pose proof (sort_by_sorted (load_key a) (map_keys a)) as Hs.
  unfold sortMemberIDsByPartitionAssignments in E. rewrite E in Hs. inversion_clear Hs as [|? ? _ Hall].
  rewrite <- (sort_by_perm (load_key a)), E in Hx. apply elem_of_cons in Hx as [->|Hx]; [lia|].
  rewrite Forall_forall in Hall. by eapply pair_le_fst, Hall.
Qed.
Definition level (k : Z) (a : assignment_t) : Prop := forall m, m ∈ map_keys a -> k <= size_of a m <= k + 1.

Lemma level_balanced k a c2p : level k a -> isBalanced a c2p = Some true.
Proof.
  intros Hl. unfold isBalanced. destruct a as [|e a']; [done|]. set (a := e :: a') in *.
  assert (forall m, m ∈ sortMemberIDsByPartitionAssignments a -> k <= size_of a m <= k + 1) as Hk.
  { intros m Hm. apply Hl. unfold sortMemberIDsByPartitionAssignments in Hm. by rewrite sort_by_perm in Hm. }
  pose proof (sort_by_perm (load_key a) (map_keys a)) as Hp. fold (sortMemberIDsByPartitionAssignments a) in Hp.
  destruct (sortMemberIDsByPartitionAssignments a) as [|m ms] eqn:Es.
  { apply Permutation_nil_l in Hp. done. }
  cbn [head default]. assert (exists z, last (m :: ms) = Some z /\ z ∈ m :: ms) as (z & -> & Hz).
  { destruct (last (m :: ms)) as [z|] eqn:El; [|by apply last_None in El]. exists z. split; [done|].
    by apply last_Some_elem_of. }
  cbn [default]. pose proof (Hk m ltac:(by left)). pose proof (Hk z Hz).
  unfold id. destruct (Z.leb_spec (size_of a z - 1) (size_of a m)); [done|lia].
Qed.

Section Equal.
Context {offers : list Z -> topic_t -> Prop} {ids : list (list Z)} {c2p : assignment_t} {p2c : consumers_t}.
Context `{HS : !Subscriptions offers ids c2p p2c}.
Context (Hall : forall m m' p, m ∈ ids -> offers m' p -> offers m p).
Abbreviation inv := (@inv offers ids p2c).
Abbreviation good := (@good offers ids p2c).

(** While partitions are assigned, the subscriptions are sorted by load. *)
Definition leveled (s : sticky) : Prop :=
  sortedCurrentSubscriptions s = sortMemberIDsByPartitionAssignments (currentAssignment s) /\
  map_sorted (currentAssignment s) /\ (forall m, m ∈ map_keys (currentAssignment s) -> m ∈ ids) /\
  exists k, level k (currentAssignment s).

Lemma size_given a new p m :
  size_of (map_update [] (fun l => l ++ [p]) new a) m = size_of a m + (if bool_decide (m = new) then 1 else 0).
Proof.
  unfold size_of. case_bool_decide as Hm; subst.
  - rewrite at_or_update_eq, Zlen_app. done.
  - rewrite at_or_update_ne by done. lia.
Qed.
Lemma level_given a k new p :
  map_sorted a -> new ∈ map_keys a -> level k a -> (forall x, x ∈ map_keys a -> size_of a new <= size_of a x) ->
  exists k', level k' (map_update [] (fun l => l ++ [p]) new a).
Proof.
  intros Hs Hnew Hk Hleast. pose proof (Hk new Hnew) as Hkn.
  assert (map_keys (map_update [] (fun l => l ++ [p]) new a) = map_keys a) as Ek.
  { apply map_keys_update; [done|]. by apply map_keys_find. }
  destruct (decide (size_of a new = k)) as [Eq|Hne]; [exists k|exists (k + 1)]; intros x Hx;
    rewrite Ek in Hx; rewrite size_given; specialize (Hk x Hx); specialize (Hleast x Hx); case_bool_decide; subst; lia.
Qed.
Lemma assignPartition_leveled p s s' u :
  leveled s -> (exists m, offers m p) -> assignPartition c2p p s = Done u s' -> leveled s'.
Proof.
  intros (Hsub & Hs & Hid & k & Hk) [m0 Hm0] E. unfold assignPartition in E.
  destruct (list_find _ (sortedCurrentSubscriptions s)) as [[i new]|] eqn:Ef.
  2: { injection E as <- <-. split_and!; [done..|by exists k]. }
  injection E as <- <-. cbn [set_subscriptions currentAssignment sortedCurrentSubscriptions].
  apply list_find_Some in Ef as (Hl & _ & Hfirst).
  assert (forall x, x ∈ sortedCurrentSubscriptions s -> x ∈ map_keys (currentAssignment s)) as Hin.
  { intros x Hx. rewrite Hsub in Hx. unfold sortMemberIDsByPartitionAssignments in Hx. by rewrite sort_by_perm in Hx. }
  assert (i = O) as ->.
  { destruct i as [|i]; [done|]. destruct (lookup_lt_is_Some_2 (sortedCurrentSubscriptions s) 0) as [x Hx].
    { apply lookup_lt_Some in Hl. lia. }
    destruct (Hfirst 0%nat x Hx ltac:(lia)). apply includes_spec, sub_potential.
    eapply Hall; [|exact Hm0]. by eapply Hid, Hin, list_elem_of_lookup_2. }
  destruct (sortedCurrentSubscriptions s) as [|m ms] eqn:Es; [done|]. injection Hl as ->.
  assert (new ∈ map_keys (currentAssignment s)) as Hnew by (apply Hin; by left).
  apply map_keys_find in Hnew as Hf. split_and!; [done|by apply map_update_sorted| |].
  - intros x Hx. apply Hid. by rewrite <- (map_keys_update [] (fun l => l ++ [p]) new).
  - apply (level_given _ k); [done..|]. intros x. by eapply sorted_least.
Qed.
Lemma assign_all_leveled l s s' u :
  leveled s ->
  for_do l (fun p => if Zlen (at_or [] p p2c) =? 0 then ret tt else assignPartition c2p p) s = Done u s' -> leveled s'.
Proof.
  revert s. induction l as [|p l IH]; intros s Hl; cbn [for_do].
  { intros [= _ <-]. done. }
  unfold bind. destruct (Zlen (at_or [] p p2c) =? 0) eqn:El; [by apply IH|].
  destruct (assignPartition c2p p s) as [[] s1|] eqn:E1; [|done]. apply IH.
  eapply assignPartition_leveled; [exact Hl| |exact E1].
  apply Z.eqb_neq in El. destruct (at_or [] p p2c) as [|m c] eqn:Ec; [done|]. exists m.
  apply sub_consumers. rewrite Ec. by left.
Qed.
Lemma balanced_pass fuel l performed s :
  isBalanced (currentAssignment s) c2p = Some true ->
  performReassignments c2p p2c [] (S fuel) l performed s = Done performed s.
Proof.
  intros Hb. cbn [performReassignments]. unfold bind at 1. destruct l as [|p l]; cbn [reassign_pass]; [done|].
  unfold bind at 1, reassign_one. unfold bind at 1, gets. by rewrite Hb.
Qed.
Lemma balance_equal fuel reassignable unassigned s :
  inv [] s -> leveled s -> NoDup unassigned ->
  (forall p, p ∈ unassigned -> map_find p (currentPartitionConsumer s) = None) ->
  (forall m p, offers m p -> p ∈ unassigned) -> map_sorted c2p ->
  exists s', balance c2p p2c [] (S fuel) reassignable unassigned s = Done tt s' /\
    exact (offers := offers) (ids := ids) (currentAssignment s') /\
    forall m m', m ∈ ids -> m' ∈ ids -> size_of (currentAssignment s') m <= size_of (currentAssignment s') m' + 1.
Proof.
  intros Hi Hlev Hnd Hno Hunas Hs. unfold balance. set (initializing := match _ with [] => _ | _ => _ end). clearbody initializing.
  destruct (assign_all unassigned s Hi Hnd Hno) as (s1 & E1 & Hi1 & _ & Hdone).
  unfold bind at 1. rewrite E1. apply assign_all_leveled in E1 as (_ & Hs1 & _ & k & Hk); [|done].
  assert (good [] s1) as Hg1 by (split; [done|]; intros m p Hp; apply Hdone; eauto).
  destruct (fix_members_good (map_keys c2p) [] s1 Hg1) as (fx & s2 & E2 & Hg2 & Hfx & Hview); [done|by apply map_sorted_nodup| |].
  { intros m Hm. split; [|done]. apply sub_ids. by apply map_keys_find. }
  unfold bind at 1. rewrite E2. unfold bind at 1, gets at 1. unfold bind at 1, gets at 1. unfold bind at 1.
  assert (forall m, m ∈ ids -> k <= Zlen (view fx (currentAssignment s2) m) <= k + 1) as Hsize.
  { intros m Hm. rewrite Hview. apply Hk, map_keys_find. apply (inv_ids _ _ Hi1) in Hm as [|[]]; done. }
  rewrite balanced_pass.
  2: { apply (level_balanced k). intros m Hm. apply map_keys_find in Hm as Hf. unfold size_of.
    rewrite <- (inv_view_cur fx s2 m (proj1 Hg2) Hf). apply Hsize. apply (inv_ids _ _ (proj1 Hg2)). by left. }
  unfold bind, gets, whenU, modify. rewrite andb_false_r. cbn [andb ret].
  eexists. split; [done|]. split; [apply (good_exact fx s2 Hg2 Hfx)|].
  cbn [currentAssignment set_assignment]. fold (merged fx (currentAssignment s2)).
  assert (forall m, size_of (merged fx (currentAssignment s2)) m = Zlen (view fx (currentAssignment s2) m)) as Em.
  { intros m. unfold size_of, at_or, view. rewrite merged_find by done. by destruct (map_find m fx). }
  intros m m' Hm Hm'. rewrite !Em. pose proof (Hsize m Hm). pose proof (Hsize m' Hm'). lia.
Qed.
End Equal.

(** ** The plan *)

Lemma part_of_load (l : list topic_t) ts :
  NoDup ts -> (forall p, p ∈ l -> fst p ∈ ts) -> Zlen (ts ≫= fun t => part_of t l) = Zlen l.
Proof.
  intros Hnd. induction l as [|[t p] l IH]; intros Hin.
  { unfold part_of. cbn. by rewrite bind_nil. }
  assert (length (ts ≫= fun u => part_of u ((t, p) :: l)) =
    length (ts ≫= fun u => if bool_decide (t = u) then [p] else []) + length (ts ≫= fun u => part_of u l))%nat as E.
  { rewrite <- length_app, <- bind_app_perm. f_equal. apply list_bind_ext; [|done]. intros u. unfold part_of.
    rewrite filter_cons. cbn [fst]. case_bool_decide; case_decide; done. }
  rewrite bind_at, bool_decide_true in E; [|by apply (Hin (t, p)); left|done].
  assert (Zlen (ts ≫= fun u => part_of u l) = Zlen l) as El by (apply IH; intros q Hq; apply Hin; by right).
  unfold Zlen in *. cbn in *. lia.
Qed.

(** C19: When all members subscribe to all topics, the sticky strategy returns after a single
    pass, with every partition assigned to exactly one member and the loads of any two
    members differing by at most one. *)
Theorem sticky_plan_equal fuel members topics :
  map_sorted members -> map_sorted topics -> topics <> [] ->
  (forall id meta topic, (id, meta) ∈ members -> topic ∈ map_keys topics -> topic ∈ m_topics meta) ->
  exists plan, Sticky_Plan (S fuel) members topics = Done plan tt /\ exact_plan members topics plan /\
    forall id id', id ∈ map_keys members -> id' ∈ map_keys members ->
      Zlen (map_keys topics ≫= fun topic => assigned plan id topic) <=
      Zlen (map_keys topics ≫= fun topic => assigned plan id' topic) + 1.
Proof.
  intros Hm Ht Hne Hequal.
  destruct (Sticky_Plan_run members topics Hm Ht Hne) as (c2p & p2c & current & Hst & _ & ->).
  pose proof (start_subs _ _ _ _ _ Hst) as Hsubs.
  destruct (balance_equal (HS := Hsubs)) with (fuel := fuel) (s := mkSticky current [] (sortMemberIDsByPartitionAssignments current) no_movements)
    (unassigned := map_keys p2c) (reassignable := sortPartitionsByPotentialConsumerAssignments p2c) as (s' & -> & He & Hload).
  - intros m m' p Hid [Hs' Hl]. split; [|done]. apply map_keys_find in Hid as [meta Hf]. exists meta.
    apply map_find_in in Hf. split; [done|]. eapply Hequal; [done|]. apply map_keys_find.
    destruct Hl as (ps & E & _). by eexists.
  - by eapply start_inv.
  - split; [done|]. split; [by eapply start_current|]. split.
    + intros m Hk. apply (start_keys _ _ _ _ _ Hst). by apply map_keys_find.
    + exists 0. intros m Hk. apply map_keys_find in Hk as [l Hl]. cbn in Hl. unfold size_of. cbn.
      rewrite (at_or_some _ _ _ _ Hl), (start_empty _ _ _ _ _ Hst m l Hl). unfold Zlen. cbn. lia.
  - apply map_sorted_nodup. by eapply start_p2c.
  - done.
  - intros m p [_ Hl]. apply map_keys_find. by apply (start_listed _ _ _ _ _ Hst).
  - by eapply start_c2p.
  - eexists. split; [done|]. split; [by apply exact_plan_of|].
    assert (forall id, Zlen (map_keys topics ≫= fun topic => assigned (plan_of (currentAssignment s')) id topic) =
      size_of (currentAssignment s') id) as El.
    { intros id. unfold size_of. rewrite <- (part_of_load (at_or [] id (currentAssignment s')) (map_keys topics)).
      - f_equal. apply list_bind_ext; [|done]. intros t. apply plan_of_spec, He.
      - by apply map_sorted_nodup.
      - intros p Hp. apply He in Hp as [_ (ps & E & _)]. apply map_keys_find. by eexists. }
    intros id id' Hid Hid'. rewrite !El. by apply Hload.
Qed.
Example sticky_plan_equal_witness :
  exists plan, Sticky_Plan 1 example_members example_topics = Done plan tt /\ exact_plan example_members example_topics plan.
Proof.
  destruct (sticky_plan_equal 0 example_members example_topics) as (plan & E & He & _).
  - by apply (bool_decide_unpack _).
  - by apply (bool_decide_unpack _).
  - done.
  - exact example_equal.
  - exists plan. split; [exact E|exact He].
Defined.
