(* ===== verification/CoQueue.v ===== *)
(** * The intrusive queue of coev

    [coev/queue.h] and [coev/queue.cpp]: a circular doubly linked list threaded
    through its elements.  Every waiter list of the library is one.  The store is
    a map from addresses to nodes; [is_queue h q l] says that the ring at head [q]
    holds [l], and each member is shown to refine the list operation it stands
    for, without touching any node outside its ring. *)
From Stdlib Require Import ZArith Lia Bool.
From stdpp Require Import base tactics list numbers gmap fin_maps.
From S2P Require Import Prelude.
Open Scope nat_scope.

(* coev/queue.h:41-42 queue *)
Record qnode := mkNode { m_prev : nat; m_next : nat }.
Abbreviation heap := (gmap nat qnode).

(** [p->m_next], [p->m_prev], and the stores; a pointer to no object is a fault. *)
Definition get_next (p : nat) : M heap nat := fun h =>
  match h !! p with Some n => Done (m_next n) h | None => Fault FUB end.
Definition get_prev (p : nat) : M heap nat := fun h =>
  match h !! p with Some n => Done (m_prev n) h | None => Fault FUB end.
Definition set_next (p v : nat) : M heap unit := fun h =>
  match h !! p with Some n => Done tt (<[p := mkNode (m_prev n) v]> h) | None => Fault FUB end.
Definition set_prev (p v : nat) : M heap unit := fun h =>
  match h !! p with Some n => Done tt (<[p := mkNode v (m_next n)]> h) | None => Fault FUB end.
Definition assert_that {S} (b : bool) : M S unit := if b then ret tt else fail FAssert.

(** A new object: [m_prev = this; m_next = this]. *)
(* coev/queue.h:41-42 queue::queue *)
Definition queue_new (q : nat) : M heap unit := modify (<[q := mkNode q q]>).

(* coev/queue.cpp queue::__list_add *)
Definition list_add (new_ prev next : nat) : M heap unit :=
  let* pn := get_next prev in assert_that (negb (pn =? new_)) ;;;
  let* np := get_prev next in assert_that (negb (np =? new_)) ;;;
  set_prev next new_ ;;; set_next prev new_ ;;;
  set_next new_ next ;;;
  set_prev new_ prev.
(* coev/queue.cpp queue::__list_del *)
Definition list_del (prev next : nat) : M heap unit :=
  set_prev next prev ;;; set_next prev next.
(* coev/queue.cpp queue::__list_clear *)
Definition list_clear (this : nat) : M heap unit := set_prev this this ;;; set_next this this.
(* coev/queue.h queue::empty *)
Definition queue_empty (this : nat) : M heap bool :=
  let* p := get_prev this in
  if negb (p =? this) then ret false else let* n := get_next this in ret (n =? this).
(* coev/queue.cpp queue::__list_move *)
Definition list_move (this prev next : nat) : M heap unit :=
  let* e := queue_empty this in assert_that e ;;;
  set_prev next this ;;; set_next prev this ;;;
  set_next this next ;;;
  set_prev this prev.

(* coev/queue.h queue::push_front *)
Definition push_front (this new_ : nat) : M heap unit :=
  let* n := get_next this in list_add new_ this n.
(* coev/queue.h queue::push_back *)
Definition push_back (this new_ : nat) : M heap unit :=
  let* p := get_prev this in list_add new_ p this.
(* coev/queue.cpp queue::erase *)
Definition queue_erase (old : nat) : M heap nat :=
  let* p := get_prev old in let* n := get_next old in
  list_del p n ;;; list_clear old ;;; ret old.
(* coev/queue.h queue::pop_front *)
Definition pop_front (this : nat) : M heap (option nat) :=
  let* e := queue_empty this in
  if negb e then let* f := get_next this in let* r := queue_erase f in ret (Some r)
  else ret None.
(* coev/queue.h queue::pop_back *)
Definition pop_back (this : nat) : M heap (option nat) :=
  let* e := queue_empty this in
  if negb e then let* b := get_prev this in let* r := queue_erase b in ret (Some r)
  else ret None.
(* coev/queue.cpp queue::move_to *)
Definition move_to (this new_ : nat) : M heap bool :=
  let* e := queue_empty this in
  if e then ret false else
  let* e' := queue_empty new_ in
  if negb e' then ret false else
  let* p := get_prev this in let* n := get_next this in
  list_move new_ p n ;;; list_clear this ;;; ret true.

(** ** The ring predicate *)

Definition nxt (h : heap) (p : nat) : option nat := m_next <$> h !! p.
Definition prv (h : heap) (p : nat) : option nat := m_prev <$> h !! p.

(** From [a] the list [l] is linked in both directions up to [z]. *)
Fixpoint linked (h : heap) (a : nat) (l : list nat) (z : nat) : Prop :=
  match l with
  | [] => nxt h a = Some z /\ prv h z = Some a
  | x :: l' => nxt h a = Some x /\ prv h x = Some a /\ linked h x l' z
  end.
Definition is_queue (h : heap) (q : nat) (l : list nat) : Prop :=
  NoDup (q :: l) /\ linked h q l q.
(** An object in no queue *)
Definition detached (h : heap) (x : nat) : Prop := is_queue h x [].

(** Two heaps agree outside [l]. *)
Definition frame (h h' : heap) (l : list nat) : Prop := forall p, p ∉ l -> h' !! p = h !! p.

Lemma frame_refl h l : frame h h l.
Proof. done. Qed.

Lemma linked_app h a l1 x l2 z :
  linked h a (l1 ++ x :: l2) z <-> linked h a l1 x /\ linked h x l2 z.
Proof. revert a. induction l1 as [|y l1 IH]; intros a; cbn; [tauto|]. rewrite IH. tauto. Qed.

Lemma linked_ext h h' a l z :
  (forall p, p ∈ a :: l -> nxt h' p = nxt h p) -> (forall p, p ∈ l ++ [z] -> prv h' p = prv h p) ->
  linked h a l z -> linked h' a l z.
Proof.
  revert a. induction l as [|x l IH]; intros a Hn Hp; cbn.
  - rewrite Hn, Hp by by left. done.
  - rewrite Hn, Hp by by left. intros (? & ? & ?). split_and!; [done..|].
    apply IH; [..|done]; intros p Hin; [apply Hn|apply Hp]; by right.
Qed.

Lemma nxt_insert h p n q : nxt (<[p := n]> h) q = if decide (q = p) then Some (m_next n) else nxt h q.
Proof.
  unfold nxt. destruct (decide (q = p)) as [->|]; [by rewrite lookup_insert_eq|].
  by rewrite lookup_insert_ne.
Qed.
Lemma prv_insert h p n q : prv (<[p := n]> h) q = if decide (q = p) then Some (m_prev n) else prv h q.
Proof.
  unfold prv. destruct (decide (q = p)) as [->|]; [by rewrite lookup_insert_eq|].
  by rewrite lookup_insert_ne.
Qed.

(** What a store does to the two link maps *)
Definition sets_next (h h' : heap) (p v : nat) : Prop :=
  (forall q, nxt h' q = if decide (q = p) then Some v else nxt h q) /\
  (forall q, prv h' q = prv h q) /\ (forall q, q <> p -> h' !! q = h !! q).
Definition sets_prev (h h' : heap) (p v : nat) : Prop :=
  (forall q, prv h' q = if decide (q = p) then Some v else prv h q) /\
  (forall q, nxt h' q = nxt h q) /\ (forall q, q <> p -> h' !! q = h !! q).

Lemma set_next_spec h p v : is_Some (nxt h p) -> exists h', set_next p v h = Done tt h' /\ sets_next h h' p v.
Proof.
  unfold nxt. intros [x [n [Hn Hx]]%fmap_Some]. unfold set_next. rewrite Hn. eexists. split; [done|].
  split_and!.
  - intros q. by rewrite nxt_insert.
  - intros q. rewrite prv_insert. destruct (decide (q = p)) as [->|]; [|done]. unfold prv. by rewrite Hn.
  - intros q Hq. by rewrite lookup_insert_ne.
Qed.
Lemma set_prev_spec h p v : is_Some (prv h p) -> exists h', set_prev p v h = Done tt h' /\ sets_prev h h' p v.
Proof.
  unfold prv. intros [x [n [Hn Hx]]%fmap_Some]. unfold set_prev. rewrite Hn. eexists. split; [done|].
  split_and!.
  - intros q. by rewrite prv_insert.
  - intros q. rewrite nxt_insert. destruct (decide (q = p)) as [->|]; [|done]. unfold nxt. by rewrite Hn.
  - intros q Hq. by rewrite lookup_insert_ne.
Qed.
Lemma get_next_spec h p v : nxt h p = Some v -> get_next p h = Done v h.
Proof. unfold nxt, get_next. intros [n [-> ->]]%fmap_Some. done. Qed.
Lemma get_prev_spec h p v : prv h p = Some v -> get_prev p h = Done v h.
Proof. unfold prv, get_prev. intros [n [-> ->]]%fmap_Some. done. Qed.
Lemma nxt_prv_some h p : is_Some (nxt h p) <-> is_Some (prv h p).
Proof. unfold nxt, prv. rewrite !fmap_is_Some. done. Qed.

(** ** The ends of a linked segment *)

Fixpoint last_from (a : nat) (l : list nat) : nat :=
  match l with [] => a | x :: l' => last_from x l' end.
Definition first_or (z : nat) (l : list nat) : nat := match l with [] => z | x :: _ => x end.

Lemma last_from_in a l : last_from a l ∈ a :: l.
Proof.
  revert a. induction l as [|x l IH]; intros a; cbn; [by left|]. right. apply IH.
Qed.
Lemma last_from_snoc a l x : last_from a (l ++ [x]) = x.
Proof. revert a. induction l as [|y l IH]; intros a; [done|apply IH]. Qed.
Lemma first_or_in z l : first_or z l ∈ l ++ [z].
Proof. destruct l; left. Qed.

Lemma linked_end h a l z :
  linked h a l z -> nxt h (last_from a l) = Some z /\ prv h z = Some (last_from a l).
Proof.
  revert a. induction l as [|x l IH]; intros a; [done|]. intros (_ & _ & Hl). by apply IH.
Qed.
Lemma linked_begin h a l z :
  linked h a l z -> nxt h a = Some (first_or z l) /\ prv h (first_or z l) = Some a.
Proof. destruct l; cbn; tauto. Qed.
Lemma linked_prev h a l z x : linked h a l z -> x ∈ l -> is_Some (prv h x).
Proof.
  revert a. induction l as [|y l IH]; intros a Hl Hx; [by apply not_elem_of_nil in Hx|].
  destruct Hl as (_ & Hp & Hl). apply elem_of_cons in Hx as [->|Hx]; [by eexists|by eapply IH].
Qed.
Lemma linked_next h a l z x : linked h a l z -> x ∈ a :: l -> is_Some (nxt h x).
Proof.
  revert a. induction l as [|y l IH]; intros a Hl Hx.
  - apply list_elem_of_singleton in Hx as ->. destruct Hl as [-> _]. by eexists.
  - destruct Hl as (Hn & _ & Hl). apply elem_of_cons in Hx as [->|Hx]; [by eexists|by eapply IH].
Qed.

(** Redirecting the end of a segment *)
Lemma linked_set_end h h' a l z z' :
  linked h a l z ->
  (forall p, p ∈ a :: l -> p <> last_from a l -> nxt h' p = nxt h p) ->
  (forall p, p ∈ l -> prv h' p = prv h p) ->
  nxt h' (last_from a l) = Some z' -> prv h' z' = Some (last_from a l) -> NoDup (a :: l) ->
  linked h' a l z'.
Proof.
  revert a. induction l as [|x l IH]; intros a Hl Hn Hp He Hz Hd; [done|].
  destruct Hl as (Hax & Hxa & Hl). apply NoDup_cons in Hd as [Ha Hd]. cbn in *. split_and!.
  - rewrite Hn; [done|by left|]. intros ->. apply Ha, last_from_in.
  - rewrite Hp; [done|by left].
  - apply IH; try done.
    + intros p Hin. apply Hn. by right.
    + intros p Hin. apply Hp. by right.
Qed.

(** ** The pointer operations *)

Ltac run_step H := unfold bind at 1; rewrite H; cbv beta iota.

Lemma assert_true {S B} (k : unit -> M S B) s : bind (assert_that true) k s = k tt s.
Proof. done. Qed.

Lemma list_add_spec h x p n :
  nxt h p = Some n -> prv h n = Some p -> is_Some (nxt h x) -> x <> p -> x <> n ->
  exists h', list_add x p n h = Done tt h' /\
    (forall q, nxt h' q = if decide (q = x) then Some n else if decide (q = p) then Some x else nxt h q) /\
    (forall q, prv h' q = if decide (q = x) then Some p else if decide (q = n) then Some x else prv h q) /\
    frame h h' [p; n; x].
Proof.
  intros Hn Hp Hx Hxp Hxn. unfold list_add.
  run_step (get_next_spec _ _ _ Hn). replace (n =? x) with false by (symmetry; by apply Nat.eqb_neq).
  cbn [negb]. rewrite assert_true.
  run_step (get_prev_spec _ _ _ Hp). replace (p =? x) with false by (symmetry; by apply Nat.eqb_neq).
  cbn [negb]. rewrite assert_true.
  destruct (set_prev_spec h n x) as (h1 & E1 & P1 & N1 & F1); [by eexists|]. run_step E1.
  destruct (set_next_spec h1 p x) as (h2 & E2 & N2 & P2 & F2); [rewrite N1; by eexists|]. run_step E2.
  destruct (set_next_spec h2 x n) as (h3 & E3 & N3 & P3 & F3).
  { rewrite N2, N1. rewrite decide_False by done. done. }
  run_step E3.
  destruct (set_prev_spec h3 x p) as (h4 & E4 & P4 & N4 & F4).
  { apply nxt_prv_some. rewrite N3, decide_True by done. by eexists. }
  exists h4. split_and!; [done| | |].
  - intros q. rewrite N4, N3, N2, N1. done.
  - intros q. rewrite P4, P3, P2, P1. done.
  - intros q Hq. rewrite !not_elem_of_cons in Hq. destruct Hq as (? & ? & ? & _).
    by rewrite F4, F3, F2, F1.
Qed.

Lemma queue_erase_spec h x p n :
  nxt h x = Some n -> prv h x = Some p -> is_Some (nxt h p) -> is_Some (prv h n) -> x <> p -> x <> n ->
  exists h', queue_erase x h = Done x h' /\
    (forall q, nxt h' q = if decide (q = x) then Some x else if decide (q = p) then Some n else nxt h q) /\
    (forall q, prv h' q = if decide (q = x) then Some x else if decide (q = n) then Some p else prv h q) /\
    frame h h' [p; n; x].
Proof.
  intros Hn Hp Hsp Hsn Hxp Hxn. unfold queue_erase.
  run_step (get_prev_spec _ _ _ Hp). run_step (get_next_spec _ _ _ Hn).
  unfold list_del, list_clear.
  destruct (set_prev_spec h n p) as (h1 & E1 & P1 & N1 & F1); [done|].
  destruct (set_next_spec h1 p n) as (h2 & E2 & N2 & P2 & F2); [by rewrite N1|].
  destruct (set_prev_spec h2 x x) as (h3 & E3 & P3 & N3 & F3).
  { rewrite P2, P1, decide_False by done. by eexists. }
  destruct (set_next_spec h3 x x) as (h4 & E4 & N4 & P4 & F4).
  { rewrite N3, N2, decide_False, N1 by done. by eexists. }
  unfold bind. rewrite E1, E2, E3, E4. exists h4. split_and!; [done| | |].
  - intros q. rewrite N4, N3, N2, N1. done.
  - intros q. rewrite P4, P3, P2, P1. done.
  - intros q Hq. rewrite !not_elem_of_cons in Hq. destruct Hq as (? & ? & ? & _).
    by rewrite F4, F3, F2, F1.
Qed.

(** ** The queue operations on rings *)

Lemma is_queue_links h q l :
  is_queue h q l ->
  nxt h q = Some (first_or q l) /\ prv h (first_or q l) = Some q /\
  nxt h (last_from q l) = Some q /\ prv h q = Some (last_from q l).
Proof.
  intros [_ Hl]. destruct (linked_begin _ _ _ _ Hl). destruct (linked_end _ _ _ _ Hl). done.
Qed.
Lemma first_or_ring q l : first_or q l ∈ q :: l.
Proof. destruct l; cbn; set_solver. Qed.
Lemma not_in_ne {A} (x y : A) (l : list A) : x ∉ l -> y ∈ l -> x <> y.
Proof. by intros Hx Hy ->. Qed.

(** A queue is untouched by what happens outside it. *)
Lemma is_queue_frame h h' q l k :
  is_queue h q l -> frame h h' k -> (forall p, p ∈ q :: l -> p ∉ k) -> is_queue h' q l.
Proof.
  intros [Hd Hl] Hf Hk. split; [done|]. eapply linked_ext; [..|exact Hl]; intros p Hp.
  - unfold nxt. by rewrite Hf by by apply Hk.
  - unfold prv. rewrite Hf; [done|]. apply Hk. apply elem_of_app in Hp as [Hp|Hp]; [by right|].
    apply list_elem_of_singleton in Hp as ->. by left.
Qed.

Lemma queue_new_spec h q : exists h', queue_new q h = Done tt h' /\ detached h' q /\ frame h h' [q].
Proof.
  eexists. split; [done|]. split.
  - split; [apply NoDup_singleton|]. cbn [linked]. rewrite nxt_insert, prv_insert.
    by rewrite !decide_True by done.
  - intros p Hp. rewrite not_elem_of_cons in Hp. destruct Hp. by rewrite lookup_insert_ne.
Qed.

Lemma queue_empty_spec h q l :
  is_queue h q l -> queue_empty q h = Done (match l with [] => true | _ => false end) h.
Proof.
  intros Hq. destruct (is_queue_links _ _ _ Hq) as (Hn & _ & _ & Hp). destruct Hq as [Hd _].
  unfold queue_empty. run_step (get_prev_spec _ _ _ Hp). apply NoDup_cons in Hd as [Hq _].
  destruct l as [|x l].
  - cbn. rewrite Nat.eqb_refl. cbn. run_step (get_next_spec _ _ _ Hn). cbn. by rewrite Nat.eqb_refl.
  - replace (last_from q (x :: l) =? q) with false; [done|]. symmetry. apply Nat.eqb_neq.
    intros E. apply Hq. rewrite <- E at 1. apply (last_from_in x l).
Qed.

Lemma push_back_spec h q l x :
  is_queue h q l -> is_Some (nxt h x) -> x ∉ q :: l ->
  exists h', push_back q x h = Done tt h' /\ is_queue h' q (l ++ [x]) /\ frame h h' (x :: q :: l).
Proof.
  intros Hq Hx Hin. destruct (is_queue_links _ _ _ Hq) as (_ & _ & Hn & Hp). destruct Hq as [Hd Hl].
  unfold push_back. run_step (get_prev_spec _ _ _ Hp).
  pose proof (last_from_in q l) as Hlast. pose proof (not_in_ne _ _ _ Hin Hlast) as Hxp.
  assert (x <> q) as Hxq by set_solver.
  destruct (list_add_spec h x (last_from q l) q Hn Hp Hx Hxp Hxq) as (h' & -> & N & P & F).
  exists h'. split; [done|]. split; [split|].
  - rewrite app_comm_cons. apply NoDup_app. split_and!; [done| |apply NoDup_singleton].
    intros y Hy ->%list_elem_of_singleton. done.
  - apply linked_app. split.
    + eapply linked_set_end; [exact Hl|..]; try done.
      * intros p Hin' Hne. rewrite N. rewrite decide_False by (intros ->; done).
        by rewrite decide_False.
      * intros p Hin'. rewrite P. rewrite !decide_False; [done| |].
        -- intros ->. apply NoDup_cons in Hd as [? _]. done.
        -- intros ->. apply Hin. by right.
      * rewrite N. rewrite decide_False by done. by rewrite decide_True.
      * rewrite P. by rewrite decide_True.
    + cbn. rewrite N, P. rewrite decide_True by done. rewrite decide_False by done.
      by rewrite decide_True.
  - intros p Hp'. apply F. rewrite !not_elem_of_cons in *. set_solver.
Qed.

Lemma push_front_spec h q l x :
  is_queue h q l -> is_Some (nxt h x) -> x ∉ q :: l ->
  exists h', push_front q x h = Done tt h' /\ is_queue h' q (x :: l) /\ frame h h' (x :: q :: l).
Proof.
  intros Hq Hx Hin. destruct (is_queue_links _ _ _ Hq) as (Hn & Hp & _ & _). destruct Hq as [Hd Hl].
  unfold push_front. run_step (get_next_spec _ _ _ Hn).
  pose proof (not_in_ne _ _ _ Hin (first_or_ring q l)) as Hxf.
  assert (x <> q) as Hxq by set_solver.
  destruct (list_add_spec h x q (first_or q l) Hn Hp Hx Hxq Hxf) as (h' & -> & N & P & F).
  exists h'. split; [done|]. split; [split|].
  - apply NoDup_cons in Hd as [Hql Hd]. apply NoDup_cons. split; [set_solver|].
    apply NoDup_cons. split; [set_solver|done].
  - cbn [linked]. rewrite N, P. rewrite decide_False by done. rewrite !decide_True by done.
    split_and!; [done..|]. apply NoDup_cons in Hd as [Hql Hd]. destruct l as [|y l].
    + cbn in *. rewrite N, P. rewrite decide_True by done. rewrite decide_False by done.
      by rewrite decide_True.
    + cbn [linked first_or] in *. destruct Hl as (_ & _ & Hl).
      rewrite N, P. rewrite decide_True by done. rewrite decide_False by done.
      rewrite decide_True by done. split_and!; [done..|].
      eapply linked_ext; [..|exact Hl]; intros p Hp'.
      * rewrite N. rewrite !decide_False; [done| |]; intros ->; set_solver.
      * rewrite P. apply NoDup_cons in Hd as [Hy _].
        rewrite !decide_False; [done| |]; intros ->; set_solver.
  - intros p Hp'. apply F. destruct l; set_solver.
Qed.

(** Taking a member out joins its neighbours and leaves it detached. *)
Lemma queue_erase_ring h q l1 x l2 :
  is_queue h q (l1 ++ x :: l2) ->
  exists h', queue_erase x h = Done x h' /\ is_queue h' q (l1 ++ l2) /\ detached h' x /\
             frame h h' (q :: l1 ++ x :: l2).
Proof.
  intros [Hd Hl]. apply linked_app in Hl as [Hl1 Hl2].
  destruct (linked_end _ _ _ _ Hl1) as [Hn1 Hp1]. destruct (linked_begin _ _ _ _ Hl2) as [Hn2 Hp2].
  assert ((x ∉ q :: l1 ++ l2) /\ NoDup (q :: l1 ++ l2)) as [Hx Hd'].
  { rewrite <- (Permutation_middle l1 l2 x), Permutation_swap in Hd. by apply NoDup_cons in Hd. }
  assert (last_from q l1 ∈ q :: l1 ++ l2) as Hin1.
  { rewrite app_comm_cons. apply elem_of_app. left. apply last_from_in. }
  assert (first_or q l2 ∈ q :: l1 ++ l2) as Hin2.
  { destruct l2; [by left|]. cbn. rewrite !elem_of_cons, elem_of_app, elem_of_cons. tauto. }
  destruct (queue_erase_spec h x (last_from q l1) (first_or q l2) Hn2 Hp1) as (h' & -> & N & P & F);
    [by eexists|by eexists|by eapply not_in_ne|by eapply not_in_ne|].
  assert (forall p, p ∈ q :: l1 ++ l2 -> p <> last_from q l1 -> nxt h' p = nxt h p) as HN.
  { intros p Hp Hne. rewrite N, !decide_False; [done..|]. intros ->. done. }
  assert (forall p, p ∈ q :: l1 ++ l2 -> p <> first_or q l2 -> prv h' p = prv h p) as HP.
  { intros p Hp Hne. rewrite P, !decide_False; [done..|]. intros ->. done. }
  assert (linked h' q l1 (first_or q l2)) as Hl1'.
  { eapply linked_set_end; [exact Hl1|..].
    - intros p Hp. apply HN. rewrite app_comm_cons. apply elem_of_app. by left.
    - intros p Hp. apply HP.
      + rewrite app_comm_cons. apply elem_of_app. left. by right.
      + apply NoDup_cons in Hd' as [Hq Hd']. apply NoDup_app in Hd' as (_ & Hdisj & _). intros ->.
        destruct l2 as [|z l2]; cbn in Hp.
        * apply Hq, elem_of_app. by left.
        * apply (Hdisj _ Hp). by left.
    - rewrite N, decide_False, decide_True; [done..|]. intros E. rewrite <- E in Hx. done.
    - rewrite P, decide_False, decide_True; [done..|]. intros E. rewrite <- E in Hx. done.
    - rewrite app_comm_cons in Hd'. by apply NoDup_app in Hd' as [? _]. }
  exists h'. split; [done|]. split; [split; [done|]|split; [split; [apply NoDup_singleton|]|]].
  - destruct l2 as [|z l2]; [by rewrite app_nil_r|]. apply linked_app. split; [exact Hl1'|].
    destruct Hl2 as (_ & _ & Hl2). cbn [first_or] in *.
    apply NoDup_cons in Hd' as [Hq Hd']. apply NoDup_app in Hd' as (_ & Hdisj & Hd2).
    eapply linked_ext; [..|exact Hl2]; intros p Hp.
    + apply HN; [set_solver|]. intros ->. pose proof (last_from_in q l1) as Hlast.
      apply elem_of_cons in Hlast as [Hlast|Hlast].
      * rewrite Hlast in Hp. apply Hq, elem_of_app. by right.
      * by apply (Hdisj _ Hlast).
    + apply HP; [set_solver|]. intros ->. apply NoDup_cons in Hd2 as [Hz _].
      apply elem_of_app in Hp as [Hp|Hp%list_elem_of_singleton]; [done|]. subst.
      apply Hq, elem_of_app. right. by left.
  - cbn [linked]. rewrite N, P, !decide_True by done. done.
  - intros p Hp. apply F. revert Hin1 Hin2 Hp. rewrite !elem_of_cons, !elem_of_app, !elem_of_cons, elem_of_nil.
    clear. naive_solver.
Qed.

Lemma pop_front_spec h q x l :
  is_queue h q (x :: l) ->
  exists h', pop_front q h = Done (Some x) h' /\ is_queue h' q l /\ detached h' x /\ frame h h' (q :: x :: l).
Proof.
  intros Hq. destruct (queue_erase_ring h q [] x l Hq) as (h' & E & Hq' & Hx & F).
  exists h'. split; [|done]. unfold pop_front. run_step (queue_empty_spec _ _ _ Hq). cbn [negb].
  run_step (get_next_spec _ _ _ (proj1 (is_queue_links _ _ _ Hq))). cbn [first_or].
  by run_step E.
Qed.
Lemma pop_back_spec h q x l :
  is_queue h q (l ++ [x]) ->
  exists h', pop_back q h = Done (Some x) h' /\ is_queue h' q l /\ detached h' x /\ frame h h' (q :: l ++ [x]).
Proof.
  intros Hq. destruct (queue_erase_ring h q l x [] Hq) as (h' & E & Hq' & Hx & F).
  rewrite app_nil_r in Hq'. exists h'. split; [|done]. unfold pop_back.
  run_step (queue_empty_spec _ _ _ Hq).
  replace (match l ++ [x] with [] => true | _ => false end) with false by by destruct l.
  cbn [negb]. destruct (is_queue_links _ _ _ Hq) as (_ & _ & _ & Hp).
  rewrite last_from_snoc in Hp. run_step (get_prev_spec _ _ _ Hp). by run_step E.
Qed.
Lemma pop_front_empty h q : is_queue h q [] -> pop_front q h = Done None h.
Proof. intros Hq. unfold pop_front. by run_step (queue_empty_spec _ _ _ Hq). Qed.

Lemma move_to_spec h q r x l :
  is_queue h q (x :: l) -> is_queue h r [] -> r ∉ q :: x :: l ->
  exists h', move_to q r h = Done true h' /\ is_queue h' r (x :: l) /\ is_queue h' q [] /\
             frame h h' (r :: q :: x :: l).
Proof.
  intros Hq Hr Hin. destruct (is_queue_links _ _ _ Hq) as (Hn & Hp & Hln & Hlp).
  pose proof (queue_empty_spec _ _ _ Hr) as Her.
  destruct (is_queue_links _ _ _ Hr) as (Hrn & _ & _ & Hrp).
  unfold move_to. run_step (queue_empty_spec _ _ _ Hq). run_step Her. cbn [negb].
  run_step (get_prev_spec _ _ _ Hlp). run_step (get_next_spec _ _ _ Hn). cbn [first_or last_from] in *.
  destruct Hq as [Hd Hl]. set (p := last_from x l) in *.
  assert (p ∈ x :: l) as Hpin by apply last_from_in.
  assert ((q ∉ x :: l) /\ NoDup (x :: l)) as [Hqin Hd'] by by apply NoDup_cons in Hd.
  assert (r <> x /\ r <> p /\ r <> q) as (Hrx & Hrpn & Hrq).
  { split_and!; intros ->; apply Hin; [by right; left|by right|by left]. }
  assert (q <> x /\ q <> p) as [Hqx Hqp] by (split; intros ->; apply Hqin; [by left|done]).
  unfold list_move, list_clear.
  destruct (set_prev_spec h x r) as (h1 & E1 & P1 & N1 & F1); [by eexists|].
  destruct (set_next_spec h1 p r) as (h2 & E2 & N2 & P2 & F2); [rewrite N1; by eexists|].
  destruct (set_next_spec h2 r x) as (h3 & E3 & N3 & P3 & F3).
  { rewrite N2, decide_False, N1 by done. by eexists. }
  destruct (set_prev_spec h3 r p) as (h4 & E4 & P4 & N4 & F4).
  { rewrite P3, P2, P1, decide_False by done. by eexists. }
  destruct (set_prev_spec h4 q q) as (h5 & E5 & P5 & N5 & F5).
  { rewrite P4, decide_False, P3, P2, P1, decide_False by done. by eexists. }
  destruct (set_next_spec h5 q q) as (h6 & E6 & N6 & P6 & F6).
  { rewrite N5, N4, N3, decide_False, N2, decide_False, N1 by done. by eexists. }
  assert (forall y, nxt h6 y = if decide (y = q) then Some q else if decide (y = r) then Some x
            else if decide (y = p) then Some r else nxt h y) as N.
  { intros y. by rewrite N6, N5, N4, N3, N2, N1. }
  assert (forall y, prv h6 y = if decide (y = q) then Some q else if decide (y = r) then Some p
            else if decide (y = x) then Some r else prv h y) as P.
  { intros y. by rewrite P6, P5, P4, P3, P2, P1. }
  exists h6. split; [|split; [split|split; [split; [apply NoDup_singleton|]|]]].
  - unfold bind. rewrite Her. cbn [assert_that ret]. unfold ret. by rewrite E1, E2, E3, E4, E5, E6.
  - apply NoDup_cons. split; [|done]. intros ?. apply Hin. by right.
  - cbn [linked]. rewrite N, P. rewrite decide_False, decide_True by done.
    rewrite !decide_False, decide_True by done. split_and!; [done..|].
    destruct Hl as (_ & _ & Hl). eapply linked_set_end; [exact Hl|..]; fold p.
    + intros y Hy Hne. rewrite N, !decide_False; [done|done| |]; intros ->; [|done].
      apply Hin. by right.
    + intros y Hy. rewrite P, !decide_False; [done|..]; intros ->.
      * apply NoDup_cons in Hd' as [? _]. done.
      * apply Hin. right. by right.
      * apply Hqin. by right.
    + rewrite N, !decide_False, decide_True by done. done.
    + rewrite P, decide_False, decide_True by done. done.
    + done.
  - cbn [linked]. by rewrite N, P, !decide_True.
  - intros y Hy. rewrite !not_elem_of_cons in Hy. destruct Hy as (Hyr & Hyq & Hyx & Hyl).
    assert (y <> p) by (intros ->; apply elem_of_cons in Hpin as [|]; done).
    by rewrite F6, F5, F4, F3, F2, F1.
Qed.

Lemma detached_linked h x : detached h x -> is_Some (nxt h x).
Proof. intros [_ [-> _]]. by eexists. Qed.

(** ** The contract of the queue *)

(** C23: The pointer queue is a list: on a ring that holds [l], every member of the
    class behaves as the list operation it is named for, none of its assertions
    fails and no dangling pointer is followed; what is taken out is left detached,
    and no node outside the ring (and the object put in) is touched. *)
Theorem queue_refines_list h q l :
  is_queue h q l ->
  queue_empty q h = Done (bool_decide (l = [])) h /\
  (forall x, detached h x -> x ∉ q :: l ->
     exists h', push_back q x h = Done tt h' /\ is_queue h' q (l ++ [x]) /\ frame h h' (x :: q :: l)) /\
  (forall x, detached h x -> x ∉ q :: l ->
     exists h', push_front q x h = Done tt h' /\ is_queue h' q (x :: l) /\ frame h h' (x :: q :: l)) /\
  match l with
  | [] => pop_front q h = Done None h
  | x :: l' => exists h', pop_front q h = Done (Some x) h' /\ is_queue h' q l' /\ detached h' x /\
                          frame h h' (q :: l)
  end /\
  (forall l' x, l = l' ++ [x] ->
     exists h', pop_back q h = Done (Some x) h' /\ is_queue h' q l' /\ detached h' x /\ frame h h' (q :: l)) /\
  (forall l1 x l2, l = l1 ++ x :: l2 ->
     exists h', queue_erase x h = Done x h' /\ is_queue h' q (l1 ++ l2) /\ detached h' x /\
                frame h h' (q :: l)) /\
  (forall r, is_queue h r [] -> r ∉ q :: l -> l <> [] ->
     exists h', move_to q r h = Done true h' /\ is_queue h' r l /\ is_queue h' q [] /\
                frame h h' (r :: q :: l)).
Proof.
  intros Hq. split_and!.
  - rewrite (queue_empty_spec _ _ _ Hq). by destruct l.
  - intros x Hx. by apply push_back_spec, detached_linked.
  - intros x Hx. by apply push_front_spec, detached_linked.
  - destruct l; [by apply pop_front_empty|by apply pop_front_spec].
  - intros l' x ->. by apply pop_back_spec.
  - intros l1 x l2 ->. by apply queue_erase_ring.
  - intros r Hr Hin Hne. destruct l; [done|]. by apply move_to_spec.
Qed.

Definition example_heap : heap :=
  <[0 := mkNode 3 2]> (<[2 := mkNode 0 3]> (<[3 := mkNode 2 0]> (<[7 := mkNode 7 7]> ∅))).
Example queue_refines_list_witness :
  is_queue example_heap 0 [2; 3] /\
  exists h', push_back 0 7 example_heap = Done tt h' /\ is_queue h' 0 ([2; 3] ++ [7]) /\
             frame example_heap h' [7; 0; 2; 3].
Proof.
  assert (is_queue example_heap 0 [2; 3]) as Hq.
  { split; [by apply (bool_decide_unpack _); vm_compute|by vm_compute]. }
  split; [exact Hq|]. apply (queue_refines_list example_heap 0 [2; 3] Hq).
  - split; [apply NoDup_singleton|by vm_compute].
  - by apply (bool_decide_unpack _); vm_compute.
Defined.
