(* ===== verification/CoEvent.v ===== *)
(** * Suspending and resuming: co_event

    [coev/co_event.cpp].  The coroutine that awaits an event and the thread that
    resumes it race: the waiter may find itself resumed before it suspends, or
    between its two steps.  The two are modelled as the sequences of their atomic
    actions, interleaved in every order; shared memory is sequentially consistent. *)
From Stdlib Require Import ZArith Lia Bool.
From stdpp Require Import base tactics list numbers relations.
From S2P Require Import Prelude.

(* coev/promise.h:22-30 status *)
Inductive status := CORO_INIT | CORO_SUSPEND | CORO_RUNNING | CORO_RESUMED | CORO_FINISHED.
#[export] Instance status_eq_dec : EqDecision status.
Proof. solve_decision. Defined.

(* coev/co_event.h:17-39 co_event *)
Record co_event := mkEvent {
  ev_caller : option nat; (* [m_caller], a coroutine *)
  ev_status : status;
  ev_tid : Z;
  ev_reserved : Z }.

(* coev/co_event.cpp co_event::co_event *)
Definition co_event_new (tid : Z) : co_event := mkEvent None CORO_INIT tid 0.
(* coev/co_event.cpp co_event::__set_reserved *)
Definition set_reserved (x : Z) (e : co_event) : co_event :=
  mkEvent (ev_caller e) (ev_status e) (ev_tid e) x.
(* coev/co_event.cpp co_event::__get_reserved *)
Definition get_reserved (e : co_event) : Z := ev_reserved e.
(* coev/co_event.cpp co_event::await_resume *)
Definition await_resume (e : co_event) : Z := get_reserved e.
(** [CORO_INIT] is 0. *)
(* coev/co_event.cpp co_event::await_ready *)
Definition await_ready (e : co_event) : bool := bool_decide (ev_status e <> CORO_INIT).

Definition set_caller (c : option nat) (e : co_event) : co_event :=
  mkEvent c (ev_status e) (ev_tid e) (ev_reserved e).
(** [m_status.compare_exchange_strong(expected, desired)] *)
Definition compare_exchange (expected desired : status) (e : co_event) : bool * co_event :=
  if decide (ev_status e = expected)
  then (true, mkEvent (ev_caller e) desired (ev_tid e) (ev_reserved e))
  else (false, e).

(** Where the awaiting coroutine is: about to test [await_ready], about to store
    [m_caller], before each exchange of [await_suspend], about to resume itself,
    suspended, or running again with the value of [await_resume]. *)
Inductive waiter_pc :=
| W_ready | W_store | W_cas1 | W_cas2 | W_resume | W_suspended | W_running (value : Z).
(** Where the resumer is: before [__set_reserved] of a caller's own value, before
    the one inside [resume], before each exchange, about to resume, returned. *)
Inductive waker_pc := K_reserve (value x : Z) | K_set (x : Z) | K_cas1 | K_cas2 | K_resume | K_done.

Record sys := mkSys { s_event : co_event; s_waiter : waiter_pc; s_waker : waker_pc; s_runs : nat }.

(** The coroutine's handle *)
Definition self : nat := 1.

(** The coroutine resumed through the handle in [m_caller] *)
(* coev/co_event.cpp co_event::__resume *)
Definition resume_caller (s : sys) : outcome sys unit :=
  match ev_caller (s_event s), s_waiter s with
  | None, _ => Fault FAssert
  | Some _, (W_suspended | W_resume) =>
      let e := set_caller None (s_event s) in
      Done tt (mkSys e (W_running (await_resume e)) (s_waker s) (S (s_runs s)))
  | Some _, _ => Fault FUB (* resuming a coroutine that is not suspended *)
  end.

(** One atomic action of [co_await event]; [None]: nothing to do. *)
(* coev/co_event.cpp co_event::await_suspend *)
Definition step_waiter (s : sys) : option (outcome sys unit) :=
  let goto e pc := Some (Done tt (mkSys e pc (s_waker s) (s_runs s))) in
  match s_waiter s with
  | W_ready =>
      if await_ready (s_event s)
      then Some (Done tt (mkSys (s_event s) (W_running (await_resume (s_event s))) (s_waker s) (S (s_runs s))))
      else goto (s_event s) W_store
  | W_store => goto (set_caller (Some self) (s_event s)) W_cas1
  | W_cas1 =>
      let (b, e) := compare_exchange CORO_INIT CORO_SUSPEND (s_event s) in
      goto e (if b then W_suspended else W_cas2)
  | W_cas2 =>
      let (b, e) := compare_exchange CORO_RESUMED CORO_FINISHED (s_event s) in
      if b then goto e W_resume else Some (Fault FAssert)
  | W_resume => Some (resume_caller s)
  | W_suspended | W_running _ => None
  end.

(** One atomic action of [resume(x)], or of [co_async::resume(value)] around it *)
(* coev/co_event.cpp co_event::resume *)
Definition step_waker (s : sys) : option (outcome sys unit) :=
  let goto e pc := Some (Done tt (mkSys e (s_waiter s) pc (s_runs s))) in
  match s_waker s with
  | K_reserve value x => goto (set_reserved value (s_event s)) (K_set x)
  | K_set x => goto (set_reserved x (s_event s)) K_cas1
  | K_cas1 =>
      let (b, e) := compare_exchange CORO_INIT CORO_RESUMED (s_event s) in
      goto e (if b then K_done else K_cas2)
  | K_cas2 =>
      let (b, e) := compare_exchange CORO_SUSPEND CORO_FINISHED (s_event s) in
      if b then goto e K_resume else Some (Fault FAssert)
  | K_resume =>
      Some (match resume_caller s with
            | Done _ s' => Done tt (mkSys (s_event s') (s_waiter s') K_done (s_runs s'))
            | Fault f => Fault f
            end)
  | K_done => None
  end.

(** A state of the run: going on, or stopped by a fault. *)
Inductive step : outcome sys unit -> outcome sys unit -> Prop :=
| step_by_waiter s r : step_waiter s = Some r -> step (Done tt s) r
| step_by_waker s r : step_waker s = Some r -> step (Done tt s) r.

(** A new event, the waiter before [co_await], the resumer before its call *)
Definition start (k : waker_pc) : outcome sys unit :=
  Done tt (mkSys (co_event_new 0) W_ready k 0).
Definition call_event_resume (x : Z) : waker_pc := K_set x.
(** [c->__set_reserved(value); c->resume();] with the default argument 0 *)
(* coev/co_async.cpp co_async::resume *)
Definition call_async_resume (value : Z) : waker_pc := K_reserve value 0.

(** ** The invariant *)

(** The value the waiter is to receive *)
Definition promised (k : waker_pc) : option Z :=
  match k with K_reserve _ x | K_set x => Some x | _ => None end.

Definition inv (x : Z) (r : outcome sys unit) : Prop :=
  match r with
  | Fault _ => False
  | Done _ (mkSys (mkEvent caller st tid reserved) w k runs) =>
      (match k with
       | K_reserve _ x' | K_set x' => x' = x
       | _ => reserved = x end) /\
      (match w with W_running v => runs = 1%nat /\ v = x | _ => runs = 0%nat end) /\
      (match k with
       | K_reserve _ _ | K_set _ | K_cas1 =>
           match w with
           | W_ready | W_store => st = CORO_INIT
           | W_cas1 => st = CORO_INIT /\ caller = Some self
           | W_suspended => st = CORO_SUSPEND /\ caller = Some self
           | _ => False end
       | K_cas2 => w = W_suspended /\ st = CORO_SUSPEND /\ caller = Some self
       | K_resume => w = W_suspended /\ st = CORO_FINISHED /\ caller = Some self
       | K_done =>
           match w with
           | W_ready | W_store => st = CORO_RESUMED
           | W_cas1 | W_cas2 => st = CORO_RESUMED /\ caller = Some self
           | W_resume => st = CORO_FINISHED /\ caller = Some self
           | W_running _ => True
           | W_suspended => False end
       end)
  end.

Lemma inv_start k x : promised k = Some x -> inv x (start k).
Proof. destruct k; cbn; intros [=]; by subst. Qed.

Lemma inv_step x r r' : inv x r -> step r r' -> inv x r'.
Proof.
  intros Hi Hs. inversion Hs as [s ? E|s ? E]; subst; clear Hs;
    destruct s as [[caller st tid reserved] w k runs]; destruct w, k; cbn in *;
    unfold compare_exchange, await_ready in *; cbn in *; destruct_and?; simplify_eq; cbn in *;
    repeat (case_decide || case_bool_decide; simplify_eq; cbn in *; try done);
    destruct_and?; simplify_eq; cbn; try done; auto.
Qed.

Lemma inv_reachable k x r : promised k = Some x -> rtc step (start k) r -> inv x r.
Proof.
  intros Hk Hr. assert (inv x (start k)) as Hi by by apply inv_start.
  induction Hr as [|r1 r2 r3 Hs Hr IH]; [done|]. eapply IH. by eapply inv_step.
Qed.

(** ** Every run ends *)

Definition waiter_steps (w : waiter_pc) : nat :=
  match w with
  | W_ready => 6 | W_store => 5 | W_cas1 => 4 | W_cas2 => 3 | W_resume => 2
  | W_suspended => 1 | W_running _ => 0 end.
Definition waker_steps (k : waker_pc) : nat :=
  match k with K_reserve _ _ => 5 | K_set _ => 4 | K_cas1 => 3 | K_cas2 => 2 | K_resume => 1 | K_done => 0 end.
Definition steps_left (r : outcome sys unit) : nat :=
  match r with Done _ s => (1 + waiter_steps (s_waiter s) + waker_steps (s_waker s))%nat | Fault _ => 0 end.

Lemma step_decreases r r' : step r r' -> (steps_left r' < steps_left r)%nat.
Proof.
  intros Hs. inversion Hs as [s ? E|s ? E]; subst; clear Hs;
    destruct s as [[caller st tid reserved] w k runs]; destruct w, k; cbn in *;
    unfold compare_exchange, resume_caller in *; cbn in *; simplify_eq; cbn; try lia;
    repeat (case_decide || case_match; simplify_eq; cbn in *; try lia).
Qed.
Lemma steps_bound n r r' : nsteps step n r r' -> (n + steps_left r' <= steps_left r)%nat.
Proof.
  intros H. induction H as [|n r1 r2 r3 Hs Hn IH]; [lia|]. apply step_decreases in Hs. lia.
Qed.

(** A state with nothing left to do: the coroutine runs and the resumer is back. *)
Lemma inv_stuck x r :
  inv x r -> (forall r', ~ step r r') ->
  exists s, r = Done tt s /\ s_waiter s = W_running x /\ s_waker s = K_done /\ s_runs s = 1%nat.
Proof.
  destruct r as [[] s|f]; [|done]. intros Hi Hstuck.
  assert (step_waiter s = None) as Hw.
  { destruct (step_waiter s) eqn:E; [|done]. by edestruct Hstuck; eapply step_by_waiter. }
  assert (step_waker s = None) as Hk.
  { destruct (step_waker s) eqn:E; [|done]. by edestruct Hstuck; eapply step_by_waker. }
  exists s. split; [done|]. destruct s as [[caller st tid reserved] w k runs].
  destruct k; try (cbn in Hk; unfold compare_exchange in Hk; repeat case_decide; done);
    cbn in *; [case_decide; done..|].
  destruct w; cbn in *; unfold compare_exchange in *; destruct_and?; subst; try done;
    repeat (case_match || case_decide; try done).
Qed.

(** ** What the two sides can rely on *)

(** C24: However [co_await event] and [event.resume(x)] interleave, no assertion
    fails, the coroutine is never resumed twice or while it runs, and every run
    ends, within eleven actions, with the resumer returned and the coroutine running
    again exactly once with the value [x]. *)
Theorem co_event_wakes_once x r :
  rtc step (start (call_event_resume x)) r ->
  (exists s, r = Done tt s /\ (s_runs s <= 1)%nat /\ forall v, s_waiter s = W_running v -> v = x) /\
  (forall n r', nsteps step n (start (call_event_resume x)) r' -> (n <= 11)%nat) /\
  ((forall r', ~ step r r') ->
     exists s, r = Done tt s /\ s_waiter s = W_running x /\ s_waker s = K_done /\ s_runs s = 1%nat).
Proof.
  intros Hr. pose proof (inv_reachable (call_event_resume x) x r eq_refl Hr) as Hi. split_and!.
  - destruct r as [[] s|]; [|done]. exists s. split; [done|].
    destruct s as [[] w k runs]. cbn in *. destruct Hi as (_ & Hw & _).
    destruct w; destruct_and?; subst; (split; [lia|]); intros ?; by intros [=].
  - intros n r' Hn. apply steps_bound in Hn. cbn in Hn. lia.
  - by apply inv_stuck.
Qed.

(** The run in which the resumer acts between the two actions of the waiter *)
Definition example_run : outcome sys unit :=
  Done tt (mkSys (mkEvent None CORO_FINISHED 0 9) (W_running 9) K_done 1).
Example co_event_wakes_once_witness :
  exists s, example_run = Done tt s /\ s_waiter s = W_running 9 /\ s_waker s = K_done /\ s_runs s = 1%nat.
Proof.
  apply (co_event_wakes_once 9 example_run).
  - eapply rtc_l; [by eapply step_by_waiter|]. eapply rtc_l; [by eapply step_by_waiter|].
    eapply rtc_l; [by eapply step_by_waker|]. eapply rtc_l; [by eapply step_by_waker|].
    eapply rtc_l; [by eapply step_by_waiter|]. eapply rtc_l; [by eapply step_by_waiter|].
    eapply rtc_l; [by eapply step_by_waiter|]. apply rtc_refl.
  - intros r' Hs. inversion Hs; discriminate.
Defined.

(** [co_async::resume(value)] loses its value: it stores it in the event and then
    calls [resume()], whose default argument 0 overwrites it.  Whatever the value
    and the interleaving, the awaiting coroutine receives 0; in particular it never
    sees [INVALID]. *)
Theorem co_async_resume_loses_value value r :
  rtc step (start (call_async_resume value)) r -> (forall r', ~ step r r') ->
  exists s, r = Done tt s /\ s_waiter s = W_running 0 /\ s_runs s = 1%nat.
Proof.
  intros Hr Hstuck. pose proof (inv_reachable (call_async_resume value) 0 r eq_refl Hr) as Hi.
  destruct (inv_stuck _ _ Hi Hstuck) as (s & ? & ? & ? & ?). eauto.
Qed.
Example co_async_resume_loses_value_witness :
  exists s, Done tt (mkSys (mkEvent None CORO_FINISHED 0 0) (W_running 0) K_done 1) = Done tt s /\
            s_waiter s = W_running 0 /\ s_runs s = 1%nat.
Proof.
  apply (co_async_resume_loses_value (-1)).
  - eapply rtc_l; [by eapply step_by_waiter|]. eapply rtc_l; [by eapply step_by_waiter|].
    eapply rtc_l; [by eapply step_by_waiter|].
    eapply rtc_l; [by eapply step_by_waker|]. eapply rtc_l; [by eapply step_by_waker|].
    eapply rtc_l; [by eapply step_by_waker|]. eapply rtc_l; [by eapply step_by_waker|].
    eapply rtc_l; [by eapply step_by_waker|]. apply rtc_refl.
  - intros r' Hs. inversion Hs; discriminate.
Defined.
