(* ===== verification/CoAsync.v ===== *)
(** * Waiter lists: co_async

    [coev/co_async.cpp].  A waiter list is the FIFO of the coroutines suspended on
    it; that the intrusive ring behaves as this list is [CoQueue].  A coroutine is
    a number.  The guarded list couples the waiters with state under its mutex: a
    section under the lock is one atomic function of both. *)
From Stdlib Require Import ZArith Lia Bool.
From stdpp Require Import base tactics list numbers relations.
From S2P Require Import Prelude.

(** ** The list of one thread *)

Record co_async := mkAsync { as_waiters : list nat }.

(** [co_event(this)]: the constructor puts the event at the back. *)
(* coev/co_async.cpp co_async::suspend *)
Definition async_suspend (c : nat) (a : co_async) : co_async := mkAsync (as_waiters a ++ [c]).
(* coev/queue.h queue::pop_front *)
Definition async_pop (a : co_async) : option nat * co_async :=
  match as_waiters a with [] => (None, a) | c :: w => (Some c, mkAsync w) end.
(** [resume] pops the first waiter and runs it; [run] is the coroutine's code up to
    its next suspension. *)
(* coev/co_async.cpp:22-31 co_async::resume *)
Definition async_resume {S} (get : S -> co_async) (put : co_async -> S -> S) (run : nat -> M S unit) : M S bool :=
  fun s =>
    match async_pop (get s) with
    | (Some c, a) => (run c ;;; ret true) (put a s)
    | (None, _) => Done false s
    end.
(** [while (resume(e)) count += 1;] *)
(* coev/co_async.cpp co_async::resume_all *)
Fixpoint async_resume_all {S} (fuel : nat) (get : S -> co_async) (put : co_async -> S -> S)
  (run : nat -> M S unit) : M S Z :=
  match fuel with
  | O => fail FDiverge
  | S fuel' =>
      let* ok := async_resume get put run in
      if ok then let* n := async_resume_all fuel' get put run in ret (1 + n) else ret 0
  end.

(** The list and the queue of the event loop's thread: [local_async] *)
Record looped := mkLooped { lo_async : co_async; lo_local : co_async }.
(* coev/co_async.cpp co_async::resume_next_loop *)
Definition resume_next_loop (s : looped) : bool * looped :=
  match async_pop (lo_async s) with
  | (Some c, a) => (true, mkLooped a (async_suspend c (lo_local s)))
  | (None, _) => (false, s)
  end.

(** ** The guarded list *)

Section Guarded.
Context {S : Type}.

(* coev/co_async.cpp:53-59 co_event_f *)
Record waiter := mkWaiter { w_co : nat; w_getter : M S unit }.
(* coev/co_async.h:30-45 guard::co_async *)
Record guard_async := mkGuard { ga_state : S; ga_waiters : list waiter }.

(** An action on the state under the mutex *)
Definition locked {A} (m : M S A) : M guard_async A := fun a =>
  match m (ga_state a) with
  | Done v s => Done v (mkGuard s (ga_waiters a))
  | Fault f => Fault f
  end.

(** The section of [suspend] before the coroutine stops or goes on: [true] when it
    is suspended. *)
(* coev/co_async.cpp:90-103 guard::co_async::suspend *)
Definition guard_suspend (c : nat) (_suspend : S -> bool) (_get : M S unit) : M guard_async bool := fun a =>
  if _suspend (ga_state a)
  then Done true (mkGuard (ga_state a) (ga_waiters a ++ [mkWaiter c _get]))
  else (locked _get ;;; ret false) a.

(** [_set], then the first waiter is taken and its getter runs, under one lock. *)
(* coev/co_async.cpp guard::co_async::__ev #1 *)
Definition guard_ev (_set : M S unit) : M guard_async (option nat) :=
  locked _set ;;;
  (fun a =>
    match ga_waiters a with
    | [] => Done None a
    | c :: w => (locked (w_getter c) ;;; ret (Some (w_co c))) (mkGuard (ga_state a) w)
    end).
End Guarded.
Arguments waiter S : clear implicits.
Arguments guard_async S : clear implicits.

(** ** Draining a list *)

Section ResumeAll.
Context {S : Type} (get : S -> co_async) (put : co_async -> S -> S) (run : nat -> M S unit).
Hypothesis get_put : forall a s, get (put a s) = a.
Context (after : nat -> S -> S).
(** The coroutines that run do not wait on the same list again. *)
Hypothesis run_leaves : forall c s, run c s = Done tt (after c s) /\ get (after c s) = get s.

Lemma resume_all_run fuel w s :
  as_waiters (get s) = w -> (length w < fuel)%nat ->
  exists s', async_resume_all fuel get put run s = Done (Zlen w) s' /\ as_waiters (get s') = [].
Proof.
  revert w s. induction fuel as [|fuel IH]; intros w s Hw Hf; [lia|].
  cbn [async_resume_all]. unfold bind at 1. unfold async_resume, async_pop. rewrite Hw.
  destruct w as [|c w]; [by eexists|]. cbn in Hf.
  destruct (run_leaves c (put (mkAsync w) s)) as [Hr Hg]. unfold bind at 1. rewrite Hr.
  cbv [ret]. destruct (IH w (after c (put (mkAsync w) s))) as (s' & E & Hs').
  - by rewrite Hg, get_put.
  - lia.
  - exists s'. unfold bind. rewrite E. split; [|done]. by rewrite Zlen_cons.
Qed.
End ResumeAll.
