(* ===== verification/CoMutex.v ===== *)
(** * Mutexes for coroutines

    [coev/co_mutex.cpp]: the mutex of one thread, whose waiters are resumed inside
    [unlock], and the guarded one, which hands the lock to a waiter before that
    waiter runs.  Each is a step relation over the operations of its clients; a
    client unlocks only what it holds and asks for the lock only when it neither
    holds it nor waits. *)
From Stdlib Require Import ZArith Lia Bool.
From stdpp Require Import base tactics list numbers relations.
From S2P Require Import Prelude CoAsync.

(* coev/co_mutex.cpp:13-14 on *)
Definition on : Z := 1.
Definition off : Z := 0.

(** ** The mutex of one thread *)

(* coev/co_mutex.h:15-25 co_mutex *)
Record co_mutex := mkMutex { mx_flag : Z; mx_waiter : co_async }.

(** The code of [lock] after it was suspended *)
(* coev/co_mutex.cpp:21-23 co_mutex::lock *)
Definition lock_resumed : M co_mutex unit := fun m =>
  if mx_flag m =? off then Done tt (mkMutex on (mx_waiter m)) else Fault FAssert.
(** [true]: the coroutine holds the lock; [false]: it is suspended. *)
(* coev/co_mutex.cpp co_mutex::lock *)
Definition mutex_lock (c : nat) : M co_mutex bool := fun m =>
  if mx_flag m =? on then Done false (mkMutex (mx_flag m) (async_suspend c (mx_waiter m)))
  else Done true (mkMutex on (mx_waiter m)).
(** The waiter that was resumed and now holds the lock *)
(* coev/co_mutex.cpp co_mutex::unlock *)
Definition mutex_unlock : M co_mutex (option nat) := fun m =>
  if mx_flag m =? on then
    match async_pop (mx_waiter m) with
    | (Some c, w) => (lock_resumed ;;; ret (Some c)) (mkMutex off w)
    | (None, w) => Done None (mkMutex off w)
    end
  else Fault FAssert.
(* coev/co_mutex.cpp co_mutex::try_lock *)
Definition mutex_try_lock : M co_mutex bool := fun m =>
  if mx_flag m =? on then Done false m else Done true (mkMutex on (mx_waiter m)).

(** The mutex with its clients: who holds it, who asked for it and was not
    refused, and who was given it, in order. *)
Record clients := mkClients {
  cl_mutex : co_mutex; cl_holders : list nat; cl_requests : list nat; cl_acquired : list nat }.

Inductive mutex_step : outcome clients unit -> outcome clients unit -> Prop :=
| step_lock s c r :
    c ∉ cl_holders s -> c ∉ as_waiters (mx_waiter (cl_mutex s)) ->
    r = match mutex_lock c (cl_mutex s) with
        | Done true m => Done tt (mkClients m (c :: cl_holders s) (cl_requests s ++ [c]) (cl_acquired s ++ [c]))
        | Done false m => Done tt (mkClients m (cl_holders s) (cl_requests s ++ [c]) (cl_acquired s))
        | Fault f => Fault f
        end ->
    mutex_step (Done tt s) r
| step_try_lock s c r :
    c ∉ cl_holders s -> c ∉ as_waiters (mx_waiter (cl_mutex s)) ->
    r = match mutex_try_lock (cl_mutex s) with
        | Done true m => Done tt (mkClients m (c :: cl_holders s) (cl_requests s ++ [c]) (cl_acquired s ++ [c]))
        | Done false m => Done tt (mkClients m (cl_holders s) (cl_requests s) (cl_acquired s))
        | Fault f => Fault f
        end ->
    mutex_step (Done tt s) r
| step_unlock s c l1 l2 r :
    cl_holders s = l1 ++ c :: l2 ->
    r = match mutex_unlock (cl_mutex s) with
        | Done (Some c') m =>
            Done tt (mkClients m (c' :: l1 ++ l2) (cl_requests s) (cl_acquired s ++ [c']))
        | Done None m => Done tt (mkClients m (l1 ++ l2) (cl_requests s) (cl_acquired s))
        | Fault f => Fault f
        end ->
    mutex_step (Done tt s) r.

Definition mutex_start : outcome clients unit := Done tt (mkClients (mkMutex off (mkAsync [])) [] [] []).

Definition mutex_inv (r : outcome clients unit) : Prop :=
  match r with
  | Fault _ => False
  | Done _ s =>
      let w := as_waiters (mx_waiter (cl_mutex s)) in
      cl_requests s = cl_acquired s ++ w /\
      ((mx_flag (cl_mutex s) = on /\ exists c, cl_holders s = [c]) \/
       (mx_flag (cl_mutex s) = off /\ cl_holders s = [] /\ w = []))
  end.

Lemma mutex_inv_step r r' : mutex_inv r -> mutex_step r r' -> mutex_inv r'.
Proof.
  intros Hi Hs. destruct Hs as [s c r Hh Hw ->|s c r Hh Hw ->|s c l1 l2 r Hh ->];
    destruct s as [[flag [w]] holders reqs acq]; cbn in *; destruct Hi as [Hq [[-> [c0 ->]]|(-> & -> & ->)]].
  - cbn. rewrite Hq, <- app_assoc. eauto.
  - cbn. rewrite Hq, !app_nil_r. eauto.
  - cbn. eauto.
  - cbn. rewrite Hq, !app_nil_r. eauto.
  - destruct l1 as [|? [|]]; simplify_eq/=. destruct w as [|c' w]; cbn; [eauto|].
    rewrite <- app_assoc. eauto.
  - by destruct l1.
Qed.
Lemma mutex_inv_reachable r : rtc mutex_step mutex_start r -> mutex_inv r.
Proof.
  intros Hr. assert (mutex_inv mutex_start) as Hi by (cbn; auto).
  induction Hr; [done|]. eauto using mutex_inv_step.
Qed.

(** The mutex of one thread, whatever its clients do: no assertion of the code
    fails; at most one coroutine holds it, exactly when the flag is on; nobody waits
    for a free mutex; and the lock is granted in the order it was asked for, the
    requests not yet granted being exactly the waiters. *)
Theorem co_mutex_safe r :
  rtc mutex_step mutex_start r ->
  exists s, r = Done tt s /\ (length (cl_holders s) <= 1)%nat /\
    (mx_flag (cl_mutex s) = on <-> cl_holders s <> []) /\
    (mx_flag (cl_mutex s) = off -> as_waiters (mx_waiter (cl_mutex s)) = []) /\
    cl_requests s = cl_acquired s ++ as_waiters (mx_waiter (cl_mutex s)).
Proof.
  intros Hr%mutex_inv_reachable. destruct r as [[] s|]; [|done]. exists s. split; [done|].
  destruct Hr as [Hq [[Hf [c Hh]]|(Hf & Hh & Hw)]]; rewrite Hf, Hh; cbn.
  - split_and!; try done.
  - split_and!; try done; lia.
Qed.
Example co_mutex_safe_witness :
  exists s, Done tt (mkClients (mkMutex on (mkAsync [])) [2%nat] [1%nat; 2%nat] [1%nat; 2%nat]) = Done tt s /\
    (length (cl_holders s) <= 1)%nat /\ (mx_flag (cl_mutex s) = on <-> cl_holders s <> []) /\
    (mx_flag (cl_mutex s) = off -> as_waiters (mx_waiter (cl_mutex s)) = []) /\
    cl_requests s = cl_acquired s ++ as_waiters (mx_waiter (cl_mutex s)).
Proof.
  apply co_mutex_safe.
  eapply rtc_l; [by eapply (step_lock _ 1%nat); try apply not_elem_of_nil|].
  eapply rtc_l; [eapply (step_lock _ 2%nat); [by apply (bool_decide_unpack _); vm_compute
    |by apply not_elem_of_nil|reflexivity]|].
  eapply rtc_l; [by eapply (step_unlock _ 1%nat [] [])|]. apply rtc_refl.
Defined.

(** ** The guarded mutex: the state under the waiter list's lock is the flag *)

Definition set_flag (f : Z) : M Z unit := modify (fun _ => f).

(** [true]: suspended *)
(* coev/co_mutex.cpp:43-49 guard::co_mutex::lock *)
Definition guard_lock (c : nat) : M (guard_async Z) bool :=
  guard_suspend c (fun flag => flag =? on) (set_flag on).
(** [deliver] and [resume] differ in the thread the popped waiter then runs on. *)
(* coev/co_mutex.cpp:50-62 guard::co_mutex::unlock *)
Definition guard_unlock : M (guard_async Z) (option nat) := guard_ev (set_flag off).
(* coev/co_mutex.cpp:63-72 guard::co_mutex::try_lock *)
Definition guard_try_lock : M (guard_async Z) bool :=
  locked (fun flag => if flag =? on then Done false flag else Done true on).

(** A popped waiter owns the lock before it runs: it is [gc_granted] until its
    thread resumes it. *)
Record gclients := mkGClients {
  gc_mutex : guard_async Z; gc_holders : list nat; gc_granted : list nat;
  gc_requests : list nat; gc_acquired : list nat }.

Inductive gmutex_step : outcome gclients unit -> outcome gclients unit -> Prop :=
| gstep_lock s c r :
    r = match guard_lock c (gc_mutex s) with
        | Done true m => Done tt (mkGClients m (gc_holders s) (gc_granted s) (gc_requests s ++ [c]) (gc_acquired s))
        | Done false m => Done tt (mkGClients m (c :: gc_holders s) (gc_granted s) (gc_requests s ++ [c]) (gc_acquired s ++ [c]))
        | Fault f => Fault f
        end ->
    gmutex_step (Done tt s) r
| gstep_try_lock s c r :
    r = match guard_try_lock (gc_mutex s) with
        | Done true m => Done tt (mkGClients m (c :: gc_holders s) (gc_granted s) (gc_requests s ++ [c]) (gc_acquired s ++ [c]))
        | Done false m => Done tt (mkGClients m (gc_holders s) (gc_granted s) (gc_requests s) (gc_acquired s))
        | Fault f => Fault f
        end ->
    gmutex_step (Done tt s) r
| gstep_unlock s c l1 l2 r :
    gc_holders s = l1 ++ c :: l2 ->
    r = match guard_unlock (gc_mutex s) with
        | Done (Some c') m => Done tt (mkGClients m (l1 ++ l2) (gc_granted s ++ [c']) (gc_requests s) (gc_acquired s ++ [c']))
        | Done None m => Done tt (mkGClients m (l1 ++ l2) (gc_granted s) (gc_requests s) (gc_acquired s))
        | Fault f => Fault f
        end ->
    gmutex_step (Done tt s) r
| gstep_wake s c l1 l2 :
    gc_granted s = l1 ++ c :: l2 ->
    gmutex_step (Done tt s)
      (Done tt (mkGClients (gc_mutex s) (c :: gc_holders s) (l1 ++ l2) (gc_requests s) (gc_acquired s))).

Definition gmutex_start : outcome gclients unit := Done tt (mkGClients (mkGuard off []) [] [] [] []).

(** Every waiter was queued by [lock]: its getter takes the flag. *)
Definition lock_waiters (w : list (waiter Z)) : Prop := Forall (fun x => w_getter x = set_flag on) w.
Definition gmutex_inv (r : outcome gclients unit) : Prop :=
  match r with
  | Fault _ => False
  | Done _ s =>
      let w := ga_waiters (gc_mutex s) in
      lock_waiters w /\ gc_requests s = gc_acquired s ++ map w_co w /\
      ((ga_state (gc_mutex s) = on /\ exists c, gc_holders s ++ gc_granted s = [c]) \/
       (ga_state (gc_mutex s) = off /\ gc_holders s = [] /\ gc_granted s = [] /\ w = []))
  end.

Lemma gmutex_inv_step r r' : gmutex_inv r -> gmutex_step r r' -> gmutex_inv r'.
Proof.
  intros Hi Hs. destruct Hs as [s c r ->|s c r ->|s c l1 l2 r Hh ->|s c l1 l2 Hg];
    destruct s as [[flag w] holders granted reqs acq]; cbn in *;
    destruct Hi as (Hw & Hq & [[-> [c0 Hc]]|(-> & -> & -> & ->)]); cbn in *.
  - split_and!; [apply Forall_app; split; [done|by repeat constructor]| |eauto].
    by rewrite Hq, map_app, <- app_assoc.
  - split_and!; [done|by rewrite Hq, !app_nil_r|eauto].
  - split_and!; [done|done|eauto].
  - split_and!; [done|by rewrite Hq, !app_nil_r|eauto].
  - subst holders. assert (l1 = [] /\ l2 = [] /\ granted = []) as (-> & -> & ->).
    { destruct l1; [|by destruct l1; inversion Hc].
      destruct l2; [|by inversion Hc]. destruct granted; [done|by inversion Hc]. }
    unfold guard_unlock, guard_ev, bind, locked, set_flag, modify; cbn.
    destruct w as [|[c' g] w]; cbn; [split_and!; [done..|auto]|].
    inversion_clear Hw as [|? ? Hg Hw']. cbn in Hg. rewrite Hg. cbn.
    split_and!; [done|by rewrite Hq, <- app_assoc|eauto].
  - by destruct l1.
  - subst granted. assert (holders = [] /\ l1 = [] /\ l2 = []) as (-> & -> & ->).
    { destruct holders; [|by destruct holders, l1; inversion Hc].
      destruct l1; [|by destruct l1; inversion Hc]. destruct l2; [done|by inversion Hc]. }
    split_and!; [done|done|eauto].
  - by destruct l1.
Qed.
Lemma gmutex_inv_reachable r : rtc gmutex_step gmutex_start r -> gmutex_inv r.
Proof.
  intros Hr. assert (gmutex_inv gmutex_start) as Hi.
  { cbn. split_and!; [constructor|done|auto]. }
  induction Hr; [done|]. eauto using gmutex_inv_step.
Qed.

(** C25: The guarded mutex, whatever the interleaving of its clients' threads: at most
    one coroutine holds the lock or has been handed it, exactly when the flag is
    on; nobody waits for a free mutex, so no wake-up is lost; and the lock goes round
    in the order of the requests. *)
Theorem guard_mutex_safe r :
  rtc gmutex_step gmutex_start r ->
  exists s, r = Done tt s /\ (length (gc_holders s ++ gc_granted s) <= 1)%nat /\
    (ga_state (gc_mutex s) = on <-> gc_holders s ++ gc_granted s <> []) /\
    (ga_waiters (gc_mutex s) <> [] -> gc_holders s ++ gc_granted s <> []) /\
    gc_requests s = gc_acquired s ++ map w_co (ga_waiters (gc_mutex s)).
Proof.
  intros Hr%gmutex_inv_reachable. destruct r as [[] s|]; [|done]. exists s. split; [done|].
  destruct Hr as (_ & Hq & [[Hf [c Hh]]|(Hf & Hh & Hg & Hw)]); rewrite Hf.
  - rewrite Hh. cbn. split_and!; done.
  - rewrite Hh, Hg, Hw in *. cbn. split_and!; try done; lia.
Qed.
Example guard_mutex_safe_witness :
  exists s, Done tt (mkGClients (mkGuard on []) [] [2%nat] [1%nat; 2%nat] [1%nat; 2%nat]) = Done tt s /\
    (length (gc_holders s ++ gc_granted s) <= 1)%nat /\
    (ga_state (gc_mutex s) = on <-> gc_holders s ++ gc_granted s <> []) /\
    (ga_waiters (gc_mutex s) <> [] -> gc_holders s ++ gc_granted s <> []) /\
    gc_requests s = gc_acquired s ++ map w_co (ga_waiters (gc_mutex s)).
Proof.
  apply guard_mutex_safe.
  eapply rtc_l; [by eapply (gstep_lock _ 1%nat)|].
  eapply rtc_l; [by eapply (gstep_lock _ 2%nat)|].
  eapply rtc_l; [by eapply (gstep_unlock _ 1%nat [] [])|]. apply rtc_refl.
Defined.
