(* ===== verification/CoChannel.v ===== *)
(** * Channels

    [coev/co_channel.h]: a queue of values and the coroutines waiting for one.  The
    channel of one thread wakes a waiter through the event loop and lets it take
    its value when it runs; the guarded one takes the value for the waiter under
    the lock.  A consumer's output variable is the log of what it received. *)
From Stdlib Require Import ZArith Lia Bool.
From stdpp Require Import base tactics list numbers relations.
From S2P Require Import Prelude CoAsync.

Section Channel.
Context {V : Type}.

(** [std::queue::front] and [pop]: undefined on an empty queue. *)
(* coev/co_channel.h:57-62 co_channel::__pop_front *)
Definition queue_pop (l : list V) : outcome (list V) V :=
  match l with [] => Fault FUB | v :: l' => Done v l' end.

(** ** The channel of one thread *)

(* coev/co_channel.h:16-65 co_channel *)
Record co_channel := mkChannel { ch_data : list V; ch_async : looped }.

(* coev/co_channel.h:21-30 co_channel::set *)
Definition channel_set (d : V) (ch : co_channel) : co_channel :=
  mkChannel (ch_data ch ++ [d]) (snd (resume_next_loop (ch_async ch))).
(** The code of [get] after the test, which is also what runs once a waiter is resumed. *)
(* coev/co_channel.h:33-43 co_channel::get *)
Definition channel_get_resumed : M co_channel V := fun ch =>
  match queue_pop (ch_data ch) with
  | Done v l => Done v (mkChannel l (ch_async ch))
  | Fault f => Fault f
  end.
(** [None]: suspended *)
(* coev/co_channel.h:31-43 co_channel::get *)
Definition channel_get (c : nat) : M co_channel (option V) := fun ch =>
  match ch_data ch with
  | [] => Done None (mkChannel [] (mkLooped (async_suspend c (lo_async (ch_async ch))) (lo_local (ch_async ch))))
  | _ => (let* v := channel_get_resumed in ret (Some v)) ch
  end.
(* coev/co_channel.h:44-52 co_channel::try_get *)
Definition channel_try_get : M co_channel (option V) := fun ch =>
  match ch_data ch with
  | [] => Done None ch
  | _ => (let* v := channel_get_resumed in ret (Some v)) ch
  end.
(** One turn of [local_resume]: the first coroutine of the loop's queue runs. *)
(* coev/local_resume.cpp local_resume *)
Definition channel_loop : M co_channel (option (nat * V)) := fun ch =>
  match async_pop (lo_local (ch_async ch)) with
  | (None, _) => Done None ch
  | (Some c, l) =>
      (let* v := channel_get_resumed in ret (Some (c, v)))
        (mkChannel (ch_data ch) (mkLooped (lo_async (ch_async ch)) l))
  end.

Record chan_run := mkChanRun { cr_chan : co_channel; cr_sent : list V; cr_got : list (nat * V) }.
Definition waiting (ch : co_channel) : list nat :=
  as_waiters (lo_async (ch_async ch)) ++ as_waiters (lo_local (ch_async ch)).

(** What a getter's outcome adds to the run *)
Definition got_by (c : nat) (s : chan_run) (o : outcome co_channel (option V)) : outcome chan_run unit :=
  match o with
  | Done (Some v) ch => Done tt (mkChanRun ch (cr_sent s) (cr_got s ++ [(c, v)]))
  | Done None ch => Done tt (mkChanRun ch (cr_sent s) (cr_got s))
  | Fault f => Fault f
  end.
(** [who]: the coroutines that receive.  One that waits does nothing else. *)
Inductive chan_step (who : nat -> Prop) : outcome chan_run unit -> outcome chan_run unit -> Prop :=
| chan_set s d :
    chan_step who (Done tt s)
      (Done tt (mkChanRun (channel_set d (cr_chan s)) (cr_sent s ++ [d]) (cr_got s)))
| chan_get s c r :
    who c -> c ∉ waiting (cr_chan s) -> r = got_by c s (channel_get c (cr_chan s)) ->
    chan_step who (Done tt s) r
| chan_try_get s c r :
    who c -> c ∉ waiting (cr_chan s) -> r = got_by c s (channel_try_get (cr_chan s)) ->
    chan_step who (Done tt s) r
| chan_loop s r :
    r = match channel_loop (cr_chan s) with
        | Done (Some (c, v)) ch => Done tt (mkChanRun ch (cr_sent s) (cr_got s ++ [(c, v)]))
        | Done None ch => Done tt (mkChanRun ch (cr_sent s) (cr_got s))
        | Fault f => Fault f
        end ->
    chan_step who (Done tt s) r.

Definition chan_start : outcome chan_run unit :=
  Done tt (mkChanRun (mkChannel [] (mkLooped (mkAsync []) (mkAsync []))) [] []).

(** With any consumers: nothing is lost, duplicated or reordered, and a value never
    lies beside a sleeper that nobody is about to wake. *)
Definition chan_inv (s : chan_run) : Prop :=
  cr_sent s = map snd (cr_got s) ++ ch_data (cr_chan s) /\
  (as_waiters (lo_async (ch_async (cr_chan s))) <> [] ->
   (length (ch_data (cr_chan s)) <= length (as_waiters (lo_local (ch_async (cr_chan s)))))%nat).

Lemma chan_inv_step who s s' : chan_inv s -> chan_step who (Done tt s) (Done tt s') -> chan_inv s'.
Proof.
  unfold chan_inv. intros Hi Hs. inversion Hs as [? d|? c r Hc Hw E|? c r Hc Hw E|? r E]; subst;
    destruct s as [[data [[w] [l]]] sent got]; cbn in *; destruct Hi as [Hq Hl].
  - subst sent. split; [by rewrite <- app_assoc|]. destruct w as [|c w]; cbn; [done|].
    intros _. rewrite !length_app. cbn. specialize (Hl ltac:(done)). lia.
  - destruct data as [|v data]; cbn in *; simplify_eq; cbn; [split; [done|lia]|].
    rewrite map_app, <- app_assoc. split; [done|]. intros Hne. specialize (Hl Hne). lia.
  - destruct data as [|v data]; cbn in *; simplify_eq; cbn; [done|].
    rewrite map_app, <- app_assoc. split; [done|]. intros Hne. specialize (Hl Hne). lia.
  - unfold channel_loop in E. destruct l as [|c l]; cbn in *; simplify_eq; [done|].
    destruct data as [|v data]; cbn in *; simplify_eq; cbn.
    rewrite map_app, <- app_assoc. split; [done|]. intros Hne. specialize (Hl Hne). lia.
Qed.

(** With one consumer: a turn of the loop always finds the value it was queued for. *)
Definition single_inv (c : nat) (r : outcome chan_run unit) : Prop :=
  match r with
  | Fault _ => False
  | Done _ s =>
      chan_inv s /\
      ((waiting (cr_chan s) = []) \/
       (as_waiters (lo_async (ch_async (cr_chan s))) = [c] /\
        as_waiters (lo_local (ch_async (cr_chan s))) = [] /\ ch_data (cr_chan s) = []) \/
       (as_waiters (lo_async (ch_async (cr_chan s))) = [] /\
        as_waiters (lo_local (ch_async (cr_chan s))) = [c] /\ ch_data (cr_chan s) <> []))
  end.

Lemma single_inv_step c r r' : single_inv c r -> chan_step (eq c) r r' -> single_inv c r'.
Proof.
  intros Hi Hs. destruct r as [[] s|]; [|done]. destruct Hi as [Hci Hi].
  assert (forall s', r' = Done tt s' -> chan_inv s') as Hci'.
  { intros s' ->. by eapply chan_inv_step. }
  inversion Hs as [? d|? c' r Hc Hw E|? c' r Hc Hw E|? r E]; subst; clear Hs;
    destruct s as [[data [[w] [l]]] sent got]; unfold waiting in *; cbn in *.
  - split; [by apply Hci'|]. clear Hci Hci'. cbn.
    destruct Hi as [[-> ->]%app_eq_nil|[(-> & -> & ->)|(-> & -> & Hd)]]; cbn; auto.
    right; right. split_and!; [done..|]. by destruct data.
  - assert (w = [] /\ l = []) as [-> ->].
    { destruct Hi as [[-> ->]%app_eq_nil|[(-> & -> & ->)|(-> & -> & Hd)]]; [done|..];
        exfalso; apply Hw; by left. }
    destruct data as [|v data]; cbn in *; (split; [by apply Hci'|]); cbn; auto.
  - assert (w = [] /\ l = []) as [-> ->].
    { destruct Hi as [[-> ->]%app_eq_nil|[(-> & -> & ->)|(-> & -> & Hd)]]; [done|..];
        exfalso; apply Hw; by left. }
    destruct data as [|v data]; cbn in *; (split; [by apply Hci'|]); cbn; auto.
  - unfold channel_loop in *; cbn in *.
    destruct Hi as [[-> ->]%app_eq_nil|[(-> & -> & ->)|(-> & -> & Hd)]]; cbn in *.
    + split; [by apply Hci'|]. cbn. auto.
    + split; [by apply Hci'|]. cbn. auto.
    + destruct data as [|v data]; [done|]. cbn in *. split; [by apply Hci'|]. cbn. auto.
Qed.
Lemma single_inv_reachable c r : rtc (chan_step (eq c)) chan_start r -> single_inv c r.
Proof.
  intros Hr. assert (single_inv c chan_start) as Hi.
  { cbn. split; [done|]. auto. }
  induction Hr; [done|]. eauto using single_inv_step.
Qed.
Lemma chan_inv_reachable who r : rtc (chan_step who) chan_start r ->
  forall s, r = Done tt s -> chan_inv s.
Proof.
  intros Hr. assert (forall s, chan_start = Done tt s -> chan_inv s) as Hi.
  { intros s [= <-]. done. }
  induction Hr as [|r1 r2 r3 Hs Hr IH]; [done|]. apply IH. intros s ->.
  inversion Hs; subst; (eapply chan_inv_step; [by apply Hi|exact Hs]).
Qed.
End Channel.
Arguments co_channel V : clear implicits.
Arguments chan_run V : clear implicits.

(** A channel of one thread with one receiving coroutine: no read of an empty
    queue happens, the values arrive in the order they were sent, each once, and the
    receiver sleeps only on an empty channel or when the loop is about to run it. *)
Theorem co_channel_single_consumer {V} c (r : outcome (chan_run V) unit) :
  rtc (chan_step (eq c)) chan_start r ->
  exists s, r = Done tt s /\ cr_sent s = map snd (cr_got s) ++ ch_data (cr_chan s) /\
    (as_waiters (lo_async (ch_async (cr_chan s))) <> [] -> ch_data (cr_chan s) = []).
Proof.
  intros Hr%single_inv_reachable. destruct r as [[] s|]; [|done]. exists s. split; [done|].
  destruct Hr as [[Hq _] Hi]. split; [done|].
  destruct Hi as [Hi|[(? & ? & ?)|(Hw & _)]]; [|done|by rewrite Hw].
  unfold waiting in Hi. by apply app_eq_nil in Hi as [-> _].
Qed.
Example co_channel_single_consumer_witness :
  exists s, Done tt (mkChanRun (mkChannel [8%nat] (mkLooped (mkAsync []) (mkAsync []))) [7%nat; 8%nat] [(1%nat, 7%nat)]) =
      Done tt s /\ cr_sent s = map snd (cr_got s) ++ ch_data (cr_chan s) /\
    (as_waiters (lo_async (ch_async (cr_chan s))) <> [] -> ch_data (cr_chan s) = []).
Proof.
  apply (co_channel_single_consumer 1%nat).
  eapply rtc_l; [by eapply (chan_get _ _ 1%nat); try apply not_elem_of_nil|].
  eapply rtc_l; [by eapply (chan_set _ _ 7%nat)|].
  eapply rtc_l; [by eapply (chan_set _ _ 8%nat)|].
  eapply rtc_l; [by eapply chan_loop|]. apply rtc_refl.
Defined.

(** With a second receiver the channel of one thread reads an empty queue: [set]
    queues the sleeper for the loop, the second coroutine takes the value first, and
    the sleeper, which does not test again, takes from nothing. *)
Theorem co_channel_second_consumer_fault {V} (v : V) :
  rtc (@chan_step V (fun _ => True)) chan_start (Fault FUB).
Proof.
  eapply rtc_l; [by eapply (chan_get _ _ 1%nat); try apply not_elem_of_nil|].
  eapply rtc_l; [by eapply (chan_set _ _ v)|].
  eapply rtc_l.
  { eapply (chan_try_get _ _ 2%nat); [done| |reflexivity].
    by apply (bool_decide_unpack _); vm_compute. }
  eapply rtc_l; [by eapply chan_loop|]. apply rtc_refl.
Qed.

(** ** The guarded channel *)

Section GuardChannel.
Context {V : Type}.

(** Under the lock: the values, and what each consumer was given *)
(* coev/co_channel.h:70-115 guard::co_channel *)
Record shared := mkShared { sh_data : list V; sh_got : list (nat * V) }.

(** [d = __pop_front()] into the consumer's variable *)
(* coev/co_channel.h:85-92 guard::co_channel::get *)
Definition take_for (c : nat) : M shared unit := fun s =>
  match queue_pop (sh_data s) with
  | Done v l => Done tt (mkShared l (sh_got s ++ [(c, v)]))
  | Fault f => Fault f
  end.
(* coev/co_channel.h:108-108 guard::co_channel::__empty *)
Definition shared_empty (s : shared) : bool := match sh_data s with [] => true | _ => false end.
(* coev/co_channel.h:73-84 guard::co_channel::set *)
Definition guard_channel_set (d : V) : M (guard_async shared) (option nat) :=
  guard_ev (modify (fun s => mkShared (sh_data s ++ [d]) (sh_got s))).
(* coev/co_channel.h:85-92 guard::co_channel::get *)
Definition guard_channel_get (c : nat) : M (guard_async shared) bool :=
  guard_suspend c shared_empty (take_for c).
(* coev/co_channel.h:93-102 guard::co_channel::try_get *)
Definition guard_channel_try_get (c : nat) : M (guard_async shared) bool :=
  locked (fun s => if negb (shared_empty s) then (take_for c ;;; ret true) s else Done false s).

Record gchan_run := mkGChanRun { gr_chan : guard_async shared; gr_sent : list V }.
Definition with_chan {A} (s : gchan_run) (sent : list V) (o : outcome (guard_async shared) A)
  : outcome gchan_run unit :=
  match o with Done _ ch => Done tt (mkGChanRun ch sent) | Fault f => Fault f end.

Inductive gchan_step : outcome gchan_run unit -> outcome gchan_run unit -> Prop :=
| gchan_set s d r :
    r = with_chan s (gr_sent s ++ [d]) (guard_channel_set d (gr_chan s)) -> gchan_step (Done tt s) r
| gchan_get s c r :
    r = with_chan s (gr_sent s) (guard_channel_get c (gr_chan s)) -> gchan_step (Done tt s) r
| gchan_try_get s c r :
    r = with_chan s (gr_sent s) (guard_channel_try_get c (gr_chan s)) -> gchan_step (Done tt s) r.

Definition gchan_start : outcome gchan_run unit := Done tt (mkGChanRun (mkGuard (mkShared [] []) []) []).

Definition gchan_inv (r : outcome gchan_run unit) : Prop :=
  match r with
  | Fault _ => False
  | Done _ s =>
      let sh := ga_state (gr_chan s) in
      gr_sent s = map snd (sh_got sh) ++ sh_data sh /\
      Forall (fun w => w_getter w = take_for (w_co w)) (ga_waiters (gr_chan s)) /\
      (ga_waiters (gr_chan s) = [] \/ sh_data sh = [])
  end.

Lemma gchan_inv_step r r' : gchan_inv r -> gchan_step r r' -> gchan_inv r'.
Proof.
  intros Hi Hs. destruct Hs as [s d r ->|s c r ->|s c r ->];
    destruct s as [[[data got] w] sent]; cbn in *; destruct Hi as (Hq & Hw & Hd).
  - unfold guard_channel_set, guard_ev, bind, locked, modify; cbn.
    destruct w as [|[c g] w]; cbn.
    + split_and!; [by rewrite Hq, <- app_assoc|done|by left].
    + destruct Hd as [|Hd]; [done|]. inversion_clear Hw as [|? ? Hg Hw']. cbn in Hg.
      subst data g. cbn. rewrite Hq, app_nil_r, map_app, app_nil_r. auto.
  - destruct data as [|v data]; cbn.
    + split_and!; [done| |by right]. apply Forall_app. split; [done|by repeat constructor].
    + destruct Hd as [->|]; [|done]. rewrite map_app, <- app_assoc. auto.
  - destruct data as [|v data]; cbn.
    + auto.
    + destruct Hd as [->|]; [|done]. rewrite map_app, <- app_assoc. auto.
Qed.
Lemma gchan_inv_reachable r : rtc gchan_step gchan_start r -> gchan_inv r.
Proof.
  intros Hr. assert (gchan_inv gchan_start) as Hi by (cbn; auto).
  induction Hr; [done|]. eauto using gchan_inv_step.
Qed.
End GuardChannel.
Arguments shared V : clear implicits.
Arguments gchan_run V : clear implicits.

(** C26: The guarded channel, with any number of senders and receivers in any
    interleaving: no read of an empty queue; what was sent is what was received
    followed by what is stored, in order, each value once; and a receiver sleeps
    only when nothing is stored. *)
Theorem guard_channel_fifo {V} (r : outcome (gchan_run V) unit) :
  rtc gchan_step gchan_start r ->
  exists s, r = Done tt s /\
    gr_sent s = map snd (sh_got (ga_state (gr_chan s))) ++ sh_data (ga_state (gr_chan s)) /\
    (ga_waiters (gr_chan s) <> [] -> sh_data (ga_state (gr_chan s)) = []).
Proof.
  intros Hr%gchan_inv_reachable. destruct r as [[] s|]; [|done]. exists s. split; [done|].
  destruct Hr as (Hq & _ & Hd). split; [done|]. by destruct Hd as [->|].
Qed.
Example guard_channel_fifo_witness :
  exists s, Done tt (mkGChanRun (mkGuard (mkShared [] [(1%nat, 7%nat)]) [mkWaiter 2%nat (take_for 2)]) [7%nat]) =
      Done tt s /\
    gr_sent s = map snd (sh_got (ga_state (gr_chan s))) ++ sh_data (ga_state (gr_chan s)) /\
    (ga_waiters (gr_chan s) <> [] -> sh_data (ga_state (gr_chan s)) = []).
Proof.
  apply guard_channel_fifo.
  eapply rtc_l; [by eapply (gchan_get _ 1%nat)|].
  eapply rtc_l; [by eapply (gchan_get _ 2%nat)|].
  eapply rtc_l; [by eapply (gchan_set _ 7%nat)|]. apply rtc_refl.
Defined.

(** With any number of receivers, as long as no fault has happened, the channel of
    one thread loses, repeats and reorders nothing, and no wake-up is lost: when
    someone sleeps on it, every stored value has a coroutine queued to take it. *)
Theorem co_channel_no_loss {V} who (s : chan_run V) :
  rtc (chan_step who) chan_start (Done tt s) ->
  cr_sent s = map snd (cr_got s) ++ ch_data (cr_chan s) /\
  (as_waiters (lo_async (ch_async (cr_chan s))) <> [] ->
   (length (ch_data (cr_chan s)) <= length (as_waiters (lo_local (ch_async (cr_chan s)))))%nat).
Proof. intros Hr. by apply (chan_inv_reachable who _ Hr). Qed.
Example co_channel_no_loss_witness :
  [7%nat] = map snd (@nil (nat * nat)) ++ [7%nat] /\ ([2%nat] <> [] -> (1 <= 1)%nat).
Proof.
  apply (co_channel_no_loss (fun _ => True)
    (mkChanRun (mkChannel [7%nat] (mkLooped (mkAsync [2%nat]) (mkAsync [1%nat]))) [7%nat] [])).
  eapply rtc_l; [by eapply (chan_get _ _ 1%nat); try apply not_elem_of_nil|].
  eapply rtc_l; [eapply (chan_get _ _ 2%nat); [done|by apply (bool_decide_unpack _); vm_compute|reflexivity]|].
  eapply rtc_l; [by eapply (chan_set _ _ 7%nat)|]. apply rtc_refl.
Defined.
