(* ===== verification/CoWaitgroup.v ===== *)
(** * Wait groups

    [coev/co_waitgroup.cpp]: an atomic count and a guarded waiter list.  The
    decrement and the releases of [done] are separate atomic actions: between them
    other threads may act, so a call of [done] that saw zero stays active until a
    release finds nobody. *)
From Stdlib Require Import ZArith Lia Bool.
From stdpp Require Import base tactics list numbers relations.
From S2P Require Import Prelude CoAsync.

(* coev/co_waitgroup.h:14-24 co_waitgroup *)
Record co_waitgroup := mkGroup { wg_waiter : guard_async unit; wg_count : Z }.

(** [++m_count], [m_count += n], [--m_count]: an atomic [int], which wraps *)
Definition count_add (n : Z) (g : co_waitgroup) : co_waitgroup :=
  mkGroup (wg_waiter g) (to_i32 (wg_count g + n)).
(* coev/co_waitgroup.cpp co_waitgroup::add *)
Definition waitgroup_add (g : co_waitgroup) : co_waitgroup := count_add 1 g.
(* coev/co_waitgroup.cpp co_waitgroup::add #2 *)
Definition waitgroup_add_n (n : Z) (g : co_waitgroup) : co_waitgroup := count_add n g.
(** The count is read under the list's lock.  [true]: suspended *)
(* coev/co_waitgroup.cpp co_waitgroup::wait *)
Definition waitgroup_wait (c : nat) (g : co_waitgroup) : outcome co_waitgroup bool :=
  match guard_suspend c (fun _ => 0 <? wg_count g) (ret tt) (wg_waiter g) with
  | Done b w => Done b (mkGroup w (wg_count g))
  | Fault f => Fault f
  end.
(** [--m_count > 0] and, when it is not, one turn of the loop of deliveries *)
(* coev/co_waitgroup.cpp:28-31 co_waitgroup::done *)
Definition waitgroup_done (g : co_waitgroup) : bool * co_waitgroup :=
  let g' := count_add (-1) g in (0 <? wg_count g', g').
(* coev/co_waitgroup.cpp:32-34 co_waitgroup::done *)
Definition waitgroup_release (g : co_waitgroup) : outcome co_waitgroup (option nat) :=
  match guard_ev (ret tt) (wg_waiter g) with
  | Done c w => Done c (mkGroup w (wg_count g))
  | Fault f => Fault f
  end.

(** The group, the calls of [done] that are releasing, and who passed [wait] *)
Record wg_run := mkWgRun { wr_group : co_waitgroup; wr_releasing : nat; wr_passed : list nat }.

(** [more]: whether [add] may be called while a [done] is releasing.  Counts stay
    within an [int]; [add(n)] is called with [n >= 0]. *)
Inductive wg_step (more : bool) : outcome wg_run unit -> outcome wg_run unit -> Prop :=
| wg_add s n :
    0 <= n -> in_s 32 (wg_count (wr_group s) + n) -> more = true \/ wr_releasing s = O ->
    wg_step more (Done tt s) (Done tt (mkWgRun (waitgroup_add_n n (wr_group s)) (wr_releasing s) (wr_passed s)))
| wg_wait s c r :
    r = match waitgroup_wait c (wr_group s) with
        | Done true g => Done tt (mkWgRun g (wr_releasing s) (wr_passed s))
        | Done false g => Done tt (mkWgRun g (wr_releasing s) (wr_passed s ++ [c]))
        | Fault f => Fault f
        end ->
    wg_step more (Done tt s) r
| wg_done s b g :
    in_s 32 (wg_count (wr_group s) - 1) -> waitgroup_done (wr_group s) = (b, g) ->
    wg_step more (Done tt s)
      (Done tt (mkWgRun g (if b then wr_releasing s else S (wr_releasing s)) (wr_passed s)))
| wg_release s n r :
    wr_releasing s = S n ->
    r = match waitgroup_release (wr_group s) with
        | Done (Some c) g => Done tt (mkWgRun g (S n) (wr_passed s ++ [c]))
        | Done None g => Done tt (mkWgRun g n (wr_passed s))
        | Fault f => Fault f
        end ->
    wg_step more (Done tt s) r.

Definition wg_start : outcome wg_run unit := Done tt (mkWgRun (mkGroup (mkGuard tt []) 0) 0 []).

Definition wg_inv (r : outcome wg_run unit) : Prop :=
  match r with
  | Fault _ => False
  | Done _ s =>
      Forall (fun w => w_getter w = ret tt) (ga_waiters (wg_waiter (wr_group s))) /\
      (ga_waiters (wg_waiter (wr_group s)) <> [] -> 0 < wg_count (wr_group s) \/ wr_releasing s <> O)
  end.

Lemma wg_inv_step more r r' : wg_inv r -> wg_step more r r' -> wg_inv r'.
Proof.
  intros Hi Hs. destruct Hs as [s n Hn Hin Hm|s c r ->|s b g Hin Hd|s n r Hrel ->];
    destruct s as [[[[] w] count] rel passed]; cbn in *; destruct Hi as [Hw Hl].
  - split; [done|]. intros Hne. rewrite to_s_id by (done || lia). destruct (Hl Hne); [left; lia|by right].
  - unfold waitgroup_wait, guard_suspend. cbn. destruct (Z.ltb_spec 0 count); cbn; [|done].
    split; [|by left]. apply Forall_app. split; [done|by repeat constructor].
  - unfold waitgroup_done in Hd. cbn in Hd. simplify_eq. cbn. split; [done|].
    intros Hne. destruct (Z.ltb_spec 0 (to_i32 (count + -1))); [by left|by right].
  - subst rel. unfold waitgroup_release, guard_ev, bind, locked; cbn.
    destruct w as [|[c g] w]; cbn; [done|]. inversion_clear Hw as [|? ? Hg Hw']. cbn in Hg. subst g. cbn.
    split; [done|]. by right.
Qed.
Lemma wg_inv_reachable more r : rtc (wg_step more) wg_start r -> wg_inv r.
Proof.
  intros Hr. assert (wg_inv wg_start) as Hi by done.
  induction Hr; [done|]. eauto using wg_inv_step.
Qed.

(** No wake-up of a wait group is lost, however [add], [wait] and [done] of the
    threads interleave: when the count is zero and no call of [done] is still
    releasing, nobody waits. *)
Theorem waitgroup_no_lost_wakeup r :
  rtc (wg_step true) wg_start r ->
  exists s, r = Done tt s /\
    (wg_count (wr_group s) <= 0 -> wr_releasing s = O -> ga_waiters (wg_waiter (wr_group s)) = []).
Proof.
  intros Hr%wg_inv_reachable. destruct r as [[] s|]; [|done]. exists s. split; [done|].
  intros Hc Hrel. destruct Hr as [_ Hl]. destruct (ga_waiters _); [done|].
  destruct (Hl ltac:(done)); [lia|done].
Qed.
Example waitgroup_no_lost_wakeup_witness :
  exists s, Done tt (mkWgRun (mkGroup (mkGuard tt []) 0) 0 [5%nat]) = Done tt s /\
    (wg_count (wr_group s) <= 0 -> wr_releasing s = O -> ga_waiters (wg_waiter (wr_group s)) = []).
Proof.
  apply waitgroup_no_lost_wakeup.
  eapply rtc_l; [eapply (wg_add _ _ 1); [lia|by apply (bool_decide_unpack _); vm_compute|by left]|].
  eapply rtc_l; [by eapply (wg_wait _ _ 5%nat)|].
  eapply rtc_l; [eapply wg_done; [by apply (bool_decide_unpack _); vm_compute|reflexivity]|].
  eapply rtc_l; [by eapply wg_release|]. eapply rtc_l; [by eapply wg_release|]. apply rtc_refl.
Defined.

(** While nothing is added during a release, the count does not rise above zero
    until the release is over. *)
Definition wg_zero (r : outcome wg_run unit) : Prop :=
  match r with Fault _ => True | Done _ s => wr_releasing s <> O -> wg_count (wr_group s) <= 0 end.
Lemma wg_zero_step r r' : wg_inv r -> wg_zero r -> wg_step false r r' -> wg_zero r'.
Proof.
  intros Hi Hz Hs. destruct Hs as [s n Hn Hin Hm|s c r ->|s b g Hin Hd|s n r Hrel ->];
    destruct s as [[[[] w] count] rel passed]; cbn in *.
  - destruct Hm; [done|]. by subst.
  - unfold waitgroup_wait, guard_suspend. cbn. by destruct (Z.ltb_spec 0 count).
  - unfold waitgroup_done in Hd. cbn in Hd. simplify_eq. cbn.
    rewrite to_s_id by (done || lia). destruct (Z.ltb_spec 0 (count + -1)); lia.
  - subst rel. unfold waitgroup_release, guard_ev, bind, locked; cbn. specialize (Hz ltac:(done)).
    destruct w as [|[c g] w]; cbn; [done|]. destruct Hi as [Hw _].
    inversion_clear Hw as [|? ? Hg Hw']. cbn in Hg. subst g. cbn. done.
Qed.

(** When nothing is added while a [done] is releasing, [wait] is a barrier: a
    coroutine passes it, at once or by being released, only when the count is zero. *)
Theorem waitgroup_passes_at_zero s s' :
  rtc (wg_step false) wg_start (Done tt s) -> wg_step false (Done tt s) (Done tt s') ->
  wr_passed s' <> wr_passed s -> wg_count (wr_group s) <= 0 /\ wg_count (wr_group s') <= 0.
Proof.
  intros Hr Hs Hp. pose proof (wg_inv_reachable _ _ Hr) as Hi.
  assert (wg_zero (Done tt s)) as Hz.
  { clear Hp Hs Hi. assert (wg_inv wg_start /\ wg_zero wg_start) as Hi by done. revert Hi.
    generalize wg_start, (Done tt s : outcome wg_run unit), Hr. clear.
    induction 1 as [r|r1 r2 r3 Hs Hr IH]; intros [Hi Hz]; [done|]. apply IH.
    split; [by eapply wg_inv_step|by eapply wg_zero_step]. }
  destruct s as [[[[] w] count] rel passed].
  inversion Hs as [? n|? c r E|? b g|? n r Hrel E]; subst; clear Hs; cbn in *.
  - done.
  - unfold waitgroup_wait, guard_suspend in E. cbn in E.
    destruct (Z.ltb_spec 0 count); cbn in E; simplify_eq; done.
  - done.
  - specialize (Hz ltac:(lia)). unfold waitgroup_release, guard_ev, bind, locked in E; cbn in E.
    destruct Hi as [Hw _]. destruct w as [|[c g] w]; cbn in *; simplify_eq.
    inversion_clear Hw as [|? ? Hg Hw']. cbn in Hg. subst g. cbn in E. by simplify_eq.
Qed.
Example waitgroup_passes_at_zero_witness :
  0 <= 0 /\ 0 <= 0.
Proof.
  apply (waitgroup_passes_at_zero
    (mkWgRun (mkGroup (mkGuard tt [mkWaiter 5%nat (ret tt)]) 0) 1 [])
    (mkWgRun (mkGroup (mkGuard tt []) 0) 1 [5%nat])); [|by eapply wg_release|done].
  eapply rtc_l; [eapply (wg_add _ _ 1); [lia|by apply (bool_decide_unpack _); vm_compute|by right]|].
  eapply rtc_l; [by eapply (wg_wait _ _ 5%nat)|].
  eapply rtc_l; [eapply wg_done; [by apply (bool_decide_unpack _); vm_compute|reflexivity]|]. apply rtc_refl.
Defined.
