(* ===== verification/CoTask.v ===== *)
(** * Task groups: co_task

    [coev/co_task.cpp]: the coroutines a task group owns, each with an id that is
    unique among the live ones.  A promise is a number; the [std::map] from
    promises to ids is a finite map.  Resuming a promise's coroutine and destroying
    its frame are the coroutine's code, outside the group's state. *)
From Stdlib Require Import ZArith Lia Bool.
From stdpp Require Import base tactics list numbers gmap fin_maps fin_sets.
From S2P Require Import Prelude CoAsync.

(* coev/co_task.cpp:14-14 TASK_ID_MAX *)
Definition TASK_ID_MAX : Z := 1000000000000000000.

(* coev/co_task.h:20-44 co_task *)
Record co_task := mkTask {
  ct_waiter : co_async; ct_promises : gmap nat Z; ct_ids : gset Z; ct_id : Z }.

(** [++id; if (id > TASK_ID_MAX) id = 0;] *)
Definition next_id (id : Z) : Z := if TASK_ID_MAX <? id + 1 then 0 else id + 1.
Fixpoint increase_loop (fuel : nat) (id : Z) (ids : gset Z) : option (Z * gset Z) :=
  match fuel with
  | O => None
  | S fuel' =>
      let id := next_id id in
      if decide (id ∈ ids) then increase_loop fuel' id ids else Some (id, {[id]} ∪ ids)
  end.
(** The loop ends at the first id that is not taken: as many turns as there are
    ids, and one, are enough ([increase_fresh]). *)
(* coev/co_task.cpp __increase *)
Definition increase (id : Z) (ids : gset Z) : outcome unit (Z * gset Z) :=
  if Z.of_nat (size ids) <? TASK_ID_MAX / 2 then
    match increase_loop (S (size ids)) id ids with
    | Some r => Done r tt
    | None => Fault FDiverge
    end
  else Fault FAssert.

(** [m_promises.emplace] does not replace an entry.  The id is returned as an [int]. *)
(* coev/co_task.cpp co_task::load *)
Definition task_load (p : nat) : M co_task Z := fun t =>
  match increase (ct_id t) (ct_ids t) with
  | Fault f => Fault f
  | Done (id, ids) _ =>
      let promises := match ct_promises t !! p with
                      | Some _ => ct_promises t | None => <[p := id]> (ct_promises t) end in
      Done (to_i32 id) (mkTask (ct_waiter t) promises ids id)
  end.
(** The waiter that [m_waiter.resume(id)] takes off the list, and the result *)
(* coev/co_task.cpp co_task::unload *)
Definition task_unload (p : nat) : M co_task (Z * option nat) := fun t =>
  match ct_promises t !! p with
  | Some id =>
      let (w, a) := async_pop (ct_waiter t) in
      Done (to_i32 id, w) (mkTask a (delete p (ct_promises t)) (ct_ids t ∖ {[id]}) (ct_id t))
  | None => Done (0, None) t
  end.
(** The first entry with the id is removed from the map; the frame it destroyed is
    the result. *)
(* coev/co_task.cpp co_task::destroy #2 *)
Definition task_destroy_id (id : Z) : M co_task (option nat) := fun t =>
  match find (fun e => snd e =? id) (map_to_list (ct_promises t)) with
  | Some (p, _) => Done (Some p) (mkTask (ct_waiter t) (delete p (ct_promises t)) (ct_ids t) (ct_id t))
  | None => Done None t
  end.
(** The promises whose frames are destroyed *)
(* coev/co_task.cpp co_task::destroy *)
Definition task_destroy : M co_task (list nat) := fun t =>
  Done (map_to_list (ct_promises t)).*1 (mkTask (ct_waiter t) ∅ (ct_ids t) (ct_id t)).
(* coev/co_task.cpp co_task::empty *)
Definition task_empty (t : co_task) : bool := bool_decide (ct_promises t = ∅).
(** [true]: suspended *)
(* coev/co_task.cpp co_task::wait *)
Definition task_wait (c : nat) : M co_task bool := fun t =>
  if (0 <? size (ct_promises t))%nat
  then Done true (mkTask (async_suspend c (ct_waiter t)) (ct_promises t) (ct_ids t) (ct_id t))
  else Done false t.
(** One turn of the loop of [wait_all]: [true] when it suspends, [false] when it returns. *)
(* coev/co_task.cpp co_task::wait_all *)
Definition task_wait_all_turn (c : nat) : M co_task bool := fun t =>
  if (0 <? size (ct_promises t))%nat
  then Done true (mkTask (async_suspend c (ct_waiter t)) (ct_promises t) (ct_ids t) (ct_id t))
  else Done false t.

Definition task_new : co_task := mkTask (mkAsync []) ∅ ∅ 0.

(** ** Ids *)

Definition id_in_range (id : Z) : Prop := 0 <= id <= TASK_ID_MAX.
Fixpoint nth_id (n : nat) (id : Z) : Z := match n with O => id | S n' => nth_id n' (next_id id) end.

Lemma next_id_mod id : id_in_range id -> next_id id = (id + 1) mod (TASK_ID_MAX + 1).
Proof.
  unfold id_in_range, next_id. intros H. destruct (Z.ltb_spec TASK_ID_MAX (id + 1)).
  - replace (id + 1) with (TASK_ID_MAX + 1) by lia. by rewrite Z_mod_same_full.
  - rewrite Z.mod_small; lia.
Qed.
Lemma next_id_range id : id_in_range id -> id_in_range (next_id id).
Proof. unfold id_in_range, next_id. intros H. case_match; unfold TASK_ID_MAX in *; lia. Qed.
Lemma nth_id_mod n id : id_in_range id -> nth_id n id = (id + Z.of_nat n) mod (TASK_ID_MAX + 1).
Proof.
  revert id. induction n as [|n IH]; intros id H; cbn [nth_id].
  - rewrite Z.add_0_r, Z.mod_small; unfold id_in_range in H; lia.
  - rewrite IH by by apply next_id_range. rewrite next_id_mod by done.
    rewrite Zplus_mod_idemp_l. f_equal. lia.
Qed.
(** The candidates of one call are all different. *)
Lemma nth_id_inj i j id :
  id_in_range id -> Z.of_nat i <= TASK_ID_MAX -> Z.of_nat j <= TASK_ID_MAX ->
  nth_id i id = nth_id j id -> i = j.
Proof.
  intros Hid Hi Hj. rewrite !nth_id_mod by done. intros E. unfold id_in_range, TASK_ID_MAX in *.
  pose proof (Z.div_mod (id + Z.of_nat i) (1000000000000000000 + 1) ltac:(lia)).
  pose proof (Z.div_mod (id + Z.of_nat j) (1000000000000000000 + 1) ltac:(lia)).
  assert ((id + Z.of_nat i) / (1000000000000000000 + 1) = (id + Z.of_nat j) / (1000000000000000000 + 1) \/
          Z.of_nat i = Z.of_nat j) as [] by nia; lia.
Qed.

Lemma increase_loop_none fuel id ids :
  increase_loop fuel id ids = None -> forall k, (1 <= k <= fuel)%nat -> nth_id k id ∈ ids.
Proof.
  revert id. induction fuel as [|fuel IH]; intros id H k Hk; [lia|]. cbn in H. case_decide; [|done].
  destruct k as [|[|k]]; [lia|done|]. apply (IH (next_id id) H (S k)). lia.
Qed.
Lemma increase_loop_some fuel id ids r ids' :
  increase_loop fuel id ids = Some (r, ids') -> id_in_range id ->
  (r ∉ ids) /\ ids' = {[r]} ∪ ids /\ id_in_range r.
Proof.
  revert id. induction fuel as [|fuel IH]; intros id H Hid; [done|]. cbn in H.
  pose proof (next_id_range _ Hid). case_decide; [by eapply IH|]. by simplify_eq.
Qed.
Lemma increase_loop_total id ids :
  id_in_range id -> Z.of_nat (size ids) <= TASK_ID_MAX / 2 -> increase_loop (S (size ids)) id ids <> None.
Proof.
  intros Hid Hsize Hnone. pose proof (increase_loop_none _ _ _ Hnone) as Hall.
  assert (NoDup (map (fun k => nth_id k id) (seq 1 (S (size ids))))) as Hnd.
  { apply NoDup_fmap_2_strong; [|apply NoDup_seq]. intros i j Hi Hj.
    apply elem_of_seq in Hi. apply elem_of_seq in Hj. unfold TASK_ID_MAX in *.
    change (1000000000000000000 `div` 2) with 500000000000000000 in Hsize.
    apply nth_id_inj; [done|unfold TASK_ID_MAX; lia..]. }
  assert (list_to_set (C := gset Z) (map (fun k => nth_id k id) (seq 1 (S (size ids)))) ⊆ ids) as Hsub.
  { intros x. rewrite elem_of_list_to_set. intros (k & -> & Hk)%list_elem_of_fmap.
    apply elem_of_seq in Hk. apply Hall. lia. }
  apply subseteq_size in Hsub. rewrite size_list_to_set in Hsub by done.
  rewrite length_map, length_seq in Hsub. lia.
Qed.

Lemma increase_spec id ids :
  id_in_range id -> Z.of_nat (size ids) < TASK_ID_MAX / 2 ->
  exists r, increase id ids = Done (r, {[r]} ∪ ids) tt /\ (r ∉ ids) /\ id_in_range r.
Proof.
  intros Hid Hs. unfold increase. replace (_ <? _) with true by lia.
  pose proof (increase_loop_total id ids Hid ltac:(lia)) as Ht.
  destruct (increase_loop _ _ _) as [[r ids']|] eqn:E; [|done].
  apply increase_loop_some in E as (Hr & -> & Hin); [|done]. eauto.
Qed.

(** The search for a task id ends and finds one that is free: with fewer ids
    taken than the assertion allows, [__increase] returns an id between 0 and
    [TASK_ID_MAX] that was not in the set, and adds exactly it. *)
Theorem increase_fresh id ids :
  id_in_range id -> Z.of_nat (size ids) < TASK_ID_MAX / 2 ->
  exists r, increase id ids = Done (r, {[r]} ∪ ids) tt /\ (r ∉ ids) /\ id_in_range r.
Proof. apply increase_spec. Qed.
(** The counter wraps, and skips what is taken. *)
Example increase_fresh_witness :
  increase TASK_ID_MAX {[0; 1]} = Done (2, {[2]} ∪ {[0; 1]}) tt /\
  exists r, increase TASK_ID_MAX {[0; 1]} = Done (r, {[r]} ∪ {[0; 1]}) tt /\ (r ∉ ({[0; 1]} : gset Z)) /\ id_in_range r.
Proof.
  split; [by vm_compute|]. apply increase_fresh; [by vm_compute|by vm_compute].
Defined.

(** ** The group's operations *)

(** A coroutine is loaded once: its promise is not in the group. *)
Inductive task_step : co_task -> co_task -> Prop :=
| task_do_load t p v t' : ct_promises t !! p = None -> task_load p t = Done v t' -> task_step t t'
| task_do_unload t p v t' : task_unload p t = Done v t' -> task_step t t'
| task_do_destroy_id t id v t' : task_destroy_id id t = Done v t' -> task_step t t'
| task_do_destroy t v t' : task_destroy t = Done v t' -> task_step t t'
| task_do_wait t c v t' : task_wait c t = Done v t' -> task_step t t'
| task_do_wait_all t c v t' : task_wait_all_turn c t = Done v t' -> task_step t t'.

Definition task_inv (t : co_task) : Prop :=
  id_in_range (ct_id t) /\
  (forall p id, ct_promises t !! p = Some id -> id ∈ ct_ids t) /\
  (forall p q id, ct_promises t !! p = Some id -> ct_promises t !! q = Some id -> p = q).

(** The members, as cases *)
Lemma task_load_cases p t v t' :
  id_in_range (ct_id t) -> task_load p t = Done v t' -> ct_promises t !! p = None ->
  exists id, (id ∉ ct_ids t) /\ id_in_range id /\ v = to_i32 id /\
    t' = mkTask (ct_waiter t) (<[p := id]> (ct_promises t)) ({[id]} ∪ ct_ids t) id.
Proof.
  unfold task_load, increase. intros Hid H Hp. destruct (_ <? _); [|done].
  destruct (increase_loop _ _ _) as [[id ids]|] eqn:E; [|done].
  apply increase_loop_some in E as (? & -> & ?); [|done]. rewrite Hp in H. simplify_eq. eauto.
Qed.
Lemma task_destroy_id_cases id t v t' :
  task_destroy_id id t = Done v t' ->
  (t' = t /\ v = None /\ forall p, ct_promises t !! p <> Some id) \/
  (exists p, v = Some p /\ ct_promises t !! p = Some id /\
     t' = mkTask (ct_waiter t) (delete p (ct_promises t)) (ct_ids t) (ct_id t)).
Proof.
  unfold task_destroy_id. destruct (find _ _) as [[p id']|] eqn:E; intros H; simplify_eq.
  - right. apply find_some in E as [Hin Hid]. cbn in Hid. apply Z.eqb_eq in Hid as ->.
    apply list_elem_of_In, elem_of_map_to_list in Hin. eauto.
  - left. split_and!; [done..|]. intros p Hp.
    pose proof (find_none _ _ E (p, id)) as Hn. cbn in Hn.
    rewrite Z.eqb_refl in Hn. discriminate Hn.
    by apply list_elem_of_In, elem_of_map_to_list.
Qed.

Lemma task_inv_delete w m ids ids' i p :
  task_inv (mkTask w m ids i) -> (forall q id, delete p m !! q = Some id -> id ∈ ids') ->
  forall w', task_inv (mkTask w' (delete p m) ids' i).
Proof.
  intros (Hi & Hin & Hinj) Hids w'. split_and!; cbn in *; [done|done|].
  intros p1 p2 id H1 H2. rewrite lookup_delete_Some in H1, H2.
  destruct H1 as [_ H1], H2 as [_ H2]. by eapply Hinj.
Qed.

Lemma task_inv_step t t' : task_inv t -> task_step t t' -> task_inv t'.
Proof.
  intros Hi Hs. pose proof Hi as (Hr & Hin & Hinj). destruct Hs as
    [t p v t' Hp H|t p v t' H|t id v t' H|t v t' H|t c v t' H|t c v t' H].
  - apply task_load_cases in H as (id & Hnew & Hid & _ & ->); [|done..]. split_and!; cbn; [done| |].
    + intros q i. rewrite lookup_insert_Some. intros [[_ <-]|[_ Hq]]; [set_solver|].
      apply Hin in Hq. set_solver.
    + intros q1 q2 i. rewrite !lookup_insert_Some. intros [[<- <-]|[? H1]] [[<- E]|[? H2]]; try done.
      * apply Hin in H2. done.
      * subst. apply Hin in H1. done.
      * by eapply Hinj.
  - unfold task_unload in H. destruct (ct_promises t !! p) as [id|] eqn:E; [|by simplify_eq].
    destruct (async_pop (ct_waiter t)) as [w a]. simplify_eq. destruct t as [w0 m ids i]; cbn in *.
    eapply task_inv_delete; [exact Hi|]. intros q i' Hq. rewrite lookup_delete_Some in Hq.
    destruct Hq as [Hne Hq]. apply elem_of_difference. split; [by eapply Hin|].
    intros ->%elem_of_singleton. apply Hne. by eapply Hinj.
  - apply task_destroy_id_cases in H as [(-> & _)|(p & _ & _ & ->)]; [done|].
    destruct t as [w0 m ids i]; cbn in *. eapply task_inv_delete; [exact Hi|].
    intros q i' Hq. rewrite lookup_delete_Some in Hq. destruct Hq as [_ Hq]. by eapply Hin.
  - unfold task_destroy in H. simplify_eq. split_and!; cbn; [done|..]; intros *; by rewrite lookup_empty.
  - unfold task_wait in H. destruct (0 <? _)%nat; simplify_eq; done.
  - unfold task_wait_all_turn in H. destruct (0 <? _)%nat; simplify_eq; done.
Qed.
Lemma task_inv_reachable t t' : task_inv t -> rtc task_step t t' -> task_inv t'.
Proof. intros Hi Hr. induction Hr; [done|]. eauto using task_inv_step. Qed.
Lemma task_inv_new : task_inv task_new.
Proof. split_and!; cbn; [by vm_compute|..]; intros *; by rewrite lookup_empty. Qed.

(** The ids of a task group: whatever is loaded, unloaded and destroyed, the
    coroutines of the group have different ids, all marked as taken, and the id a
    load hands out belongs to no coroutine of the group. *)
Theorem task_ids_unique t :
  rtc task_step task_new t ->
  (forall p q id, ct_promises t !! p = Some id -> ct_promises t !! q = Some id -> p = q) /\
  (forall p id, ct_promises t !! p = Some id -> id ∈ ct_ids t) /\
  (forall p v t', ct_promises t !! p = None -> task_load p t = Done v t' ->
     exists id, ct_promises t' !! p = Some id /\ v = to_i32 id /\ forall q, ct_promises t !! q <> Some id).
Proof.
  intros Hr. destruct (task_inv_reachable _ _ task_inv_new Hr) as (Hid & Hin & Hinj).
  split_and!; [done..|]. intros p v t' Hp H.
  apply task_load_cases in H as (id & Hnew & _ & -> & ->); [|done..].
  exists id. cbn. rewrite lookup_insert_eq. split_and!; [done..|]. intros q Hq. by apply Hin in Hq.
Qed.
Definition example_task : co_task := mkTask (mkAsync []) {[4%nat := 1]} {[1]} 1.
Example task_ids_unique_witness :
  task_load 5%nat example_task = Done 2 (mkTask (mkAsync []) {[4%nat := 1; 5%nat := 2]} {[1; 2]} 2) /\
  exists id, ct_promises (mkTask (mkAsync []) {[4%nat := 1; 5%nat := 2]} {[1; 2]} 2) !! 5%nat = Some id /\
    2 = to_i32 id /\ forall q, ct_promises example_task !! q <> Some id.
Proof.
  assert (rtc task_step task_new example_task) as Hr.
  { eapply rtc_l; [by eapply (task_do_load _ 4%nat); [done|vm_compute]|]. apply rtc_refl. }
  assert (task_load 5%nat example_task =
    Done 2 (mkTask (mkAsync []) {[4%nat := 1; 5%nat := 2]} {[1; 2]} 2)) as Hl by by vm_compute.
  split; [exact Hl|]. apply (proj2 (proj2 (task_ids_unique example_task Hr))); [done|exact Hl].
Defined.

(** An id that is taken but belongs to nobody stays so. *)
Definition leaked (id : Z) (t : co_task) : Prop :=
  id ∈ ct_ids t /\ forall p, ct_promises t !! p <> Some id.
Lemma leaked_step id t t' : task_inv t -> leaked id t -> task_step t t' -> leaked id t'.
Proof.
  intros (Hr & Hin & Hinj) [Hid Hno] Hs. destruct Hs as
    [t p v t' Hp H|t p v t' H|t id' v t' H|t v t' H|t c v t' H|t c v t' H].
  - apply task_load_cases in H as (i & Hnew & _ & _ & ->); [|done..]. split; cbn; [set_solver|].
    intros q. rewrite lookup_insert_Some. intros [[_ ->]|[_ Hq]]; [done|]. by eapply Hno.
  - unfold task_unload in H. destruct (ct_promises t !! p) as [i|] eqn:E; [|by simplify_eq].
    destruct (async_pop (ct_waiter t)) as [w a]. simplify_eq. split; cbn.
    + apply elem_of_difference. split; [done|]. intros ->%elem_of_singleton. by eapply Hno.
    + intros q. rewrite lookup_delete_Some. intros [_ Hq]. by eapply Hno.
  - apply task_destroy_id_cases in H as [(-> & _)|(p & _ & _ & ->)]; [done|].
    split; cbn; [done|]. intros q. rewrite lookup_delete_Some. intros [_ Hq]. by eapply Hno.
  - unfold task_destroy in H. simplify_eq. split; cbn; [done|]. intros q. by rewrite lookup_empty.
  - unfold task_wait in H. destruct (0 <? _)%nat; simplify_eq; done.
  - unfold task_wait_all_turn in H. destruct (0 <? _)%nat; simplify_eq; done.
Qed.

(** [destroy(id)] of a coroutine of the group takes it out, and leaves its id in
    the set of taken ids for ever: no later operation frees it. *)
Theorem task_destroy_leaks_id t p id t'' :
  rtc task_step task_new t -> ct_promises t !! p = Some id ->
  exists t', task_destroy_id id t = Done (Some p) t' /\ ct_promises t' = delete p (ct_promises t) /\
    (rtc task_step t' t'' -> id ∈ ct_ids t'' /\ forall q, ct_promises t'' !! q <> Some id).
Proof.
  intros Hr Hp. pose proof (task_inv_reachable _ _ task_inv_new Hr) as Hi.
  destruct (task_destroy_id id t) as [v t'|] eqn:E.
  2:{ exfalso. revert E. unfold task_destroy_id. by destruct (find _ _) as [[]|]. }
  pose proof (task_inv_step _ _ Hi (task_do_destroy_id _ _ _ _ E)) as Hi'.
  apply task_destroy_id_cases in E as [(_ & _ & Hn)|(p' & -> & Hp' & ->)]; [by edestruct Hn|].
  destruct Hi as (_ & Hin & Hinj). assert (p' = p) as -> by by eapply Hinj.
  eexists. split_and!; [done..|]. intros Hr'.
  assert (leaked id (mkTask (ct_waiter t) (delete p (ct_promises t)) (ct_ids t) (ct_id t))) as Hl.
  { split; cbn; [by eapply Hin|]. intros q. rewrite lookup_delete_Some. intros [Hne Hq].
    apply Hne. by eapply Hinj. }
  revert Hi' Hl. induction Hr'; [done|]. eauto using task_inv_step, leaked_step.
Qed.
Example task_destroy_leaks_id_witness :
  exists t', task_destroy_id 1 example_task = Done (Some 4%nat) t' /\
    ct_promises t' = delete 4%nat (ct_promises example_task) /\
    (rtc task_step t' (mkTask (mkAsync []) ∅ {[1]} 1) ->
     1 ∈ ct_ids (mkTask (mkAsync []) ∅ {[1]} 1) /\
     forall q, ct_promises (mkTask (mkAsync []) ∅ {[1]} 1) !! q <> Some 1).
Proof.
  apply task_destroy_leaks_id; [|by vm_compute].
  eapply rtc_l; [by eapply (task_do_load _ 4%nat); [done|vm_compute]|]. apply rtc_refl.
Defined.

(** The end of the last coroutine of a group wakes one waiter only.  When two
    coroutines are in [wait_all], the second stays suspended on the empty group, and
    no operation but a new load followed by its end can wake it. *)
Theorem task_second_waiter_sleeps t p id a b w :
  ct_promises t = {[p := id]} -> as_waiters (ct_waiter t) = a :: b :: w ->
  exists t', task_unload p t = Done (to_i32 id, Some a) t' /\ task_empty t' = true /\
    as_waiters (ct_waiter t') = b :: w /\
    (forall q, task_unload q t' = Done (0, None) t') /\
    (forall c, task_wait_all_turn c t' = Done false t').
Proof.
  intros Hp Hw. unfold task_unload, async_pop. rewrite Hp, Hw, lookup_singleton_eq, delete_singleton_eq.
  eexists. split_and!; [done|unfold task_empty; by rewrite bool_decide_true|done| |].
  - intros q. cbn. by rewrite lookup_empty.
  - intros c. unfold task_wait_all_turn; cbn. by rewrite map_size_empty.
Qed.
Example task_second_waiter_sleeps_witness :
  exists t', task_unload 4%nat (mkTask (mkAsync [8%nat; 9%nat]) {[4%nat := 1]} {[1]} 1) =
      Done (1, Some 8%nat) t' /\ task_empty t' = true /\ as_waiters (ct_waiter t') = [9%nat] /\
    (forall q, task_unload q t' = Done (0, None) t') /\
    (forall c, task_wait_all_turn c t' = Done false t').
Proof. by apply (task_second_waiter_sleeps _ 4%nat 1 8%nat 9%nat []). Defined.
