(* ===== verification/ZooArchive.v ===== *)
(** * ZooKeeper archives

    The primitives of [coev_zookeeper/proto.cpp]: [oarchive] appends to a buffer,
    [iarchive] reads from the front of a view, where a read behind its end is a fault; and the two judgements, closed under
    sequencing, that the structures' contracts are proved with. *)
From Stdlib Require Import ZArith Lia Bool.
From stdpp Require Import base tactics list numbers.
From S2P Require Import Prelude Wire.

(** ** Words in memory

    The host is little-endian. *)

Fixpoint host_bytes (n : nat) (x : Z) : list Z :=
  match n with O => [] | S n' => to_u8 x :: host_bytes n' (Z.shiftr x 8) end.
Fixpoint host_load (bs : list Z) : Z :=
  match bs with [] => 0 | b :: bs' => b + 256 * host_load bs' end.
(** [htonl] and [ntohl] take and return 32 bits. *)
Definition htonl (x : Z) : Z := be_val (host_bytes 4 (to_u32 x)).
(* utils/htonll.h:13-24 htonll *)
Definition htonll (x : Z) : Z :=
  Z.lor (to_u64 (Z.shiftl (htonl x) 32)) (htonl (Z.shiftr (to_u64 x) 32)).

(** ** Writing: every member returns 0 and appends *)

(* coev_zookeeper/proto.h:525-538 oarchive *)
Definition OA : Type := M (list Z) Z.
Definition append (bs : list Z) : M (list Z) unit := modify (fun b => b ++ bs).

(* coev_zookeeper/proto.cpp oarchive::serialize_int *)
Definition serialize_int (d : Z) : OA := append (host_bytes 4 (htonl d)) ;;; ret 0.
(* coev_zookeeper/proto.cpp oarchive::serialize_log *)
Definition serialize_log (d : Z) : OA := append (host_bytes 8 (htonll d)) ;;; ret 0.
(* coev_zookeeper/proto.cpp oarchive::serialize_bool *)
Definition serialize_bool (d : Z) : OA := append [if d =? 0 then 0 else 1] ;;; ret 0.
Definition negone : Z := -1.
(* coev_zookeeper/proto.cpp oarchive::serialize_string *)
Definition serialize_string (s : list Z) : OA :=
  if bool_decide (s = []) then serialize_int negone
  else
    let* rc := serialize_int (to_i32 (Zlen s)) in
    if rc <? 0 then ret rc else append s ;;; ret 0.
(* coev_zookeeper/proto.cpp oarchive::serialize_buffer *)
Definition serialize_buffer (s : list Z) : OA := serialize_string s.

(** ** Reading: an error code, or the value and a shorter view *)

Definition E2BIG : Z := 7.
Definition EINVAL : Z := 22.
(* coev_zookeeper/proto.h:430-442 iarchive *)
Definition IA (A : Type) : Type := M (list Z) (dres A).

(** [m_view.size()] *)
Definition view_size : M (list Z) Z := gets Zlen.
(** [n] bytes from [m_view.data()] on, as a word or a string: they must be in the view. *)
Definition view_data (n : nat) : M (list Z) (list Z) := fun view =>
  if Zlen view <? Z.of_nat n then Fault FBounds else Done (take n view) view.
(** [m_view = m_view.substr(n)] throws behind the end. *)
Definition view_substr (n : nat) : M (list Z) unit := fun view =>
  if Zlen view <? Z.of_nat n then Fault FThrow else Done tt (drop n view).

(* coev_zookeeper/proto.cpp iarchive::deserialize_int *)
Definition deserialize_int : IA Z :=
  let* size := view_size in
  if size <? 4 then ret (Err (- E2BIG))
  else
    let* x := view_data 4 in
    view_substr 4 ;;;
    ret (Ok (to_i32 (htonl (host_load x)))).
(** [ntohl] of a [long] takes its low 32 bits. *)
(* coev_zookeeper/proto.cpp iarchive::deserialize_long *)
Definition deserialize_long : IA Z :=
  let* size := view_size in
  if size <? 8 then ret (Err (- E2BIG))
  else
    let* x := view_data 8 in
    view_substr 8 ;;;
    ret (Ok (htonl (host_load x))).
(** A byte other than 0 and 1 is no [bool]. *)
Definition bool_value (x : list Z) : M (list Z) Z :=
  match x with [b] => if (b =? 0) || (b =? 1) then ret b else fail FUB | _ => fail FUB end.
(* coev_zookeeper/proto.cpp iarchive::deserialize_bool *)
Definition deserialize_bool : IA Z :=
  let* size := view_size in
  if size <? 1 then ret (Err (- E2BIG))
  else
    let* x := view_data 1 in
    let* v := bool_value x in
    view_substr 1 ;;;
    ret (Ok v).
(* coev_zookeeper/proto.cpp iarchive::deserialize_string *)
Definition deserialize_string : IA (list Z) :=
  let! len := deserialize_int in
  if len <? 0 then ret (Err (- EINVAL))
  else
    let* size := view_size in
    if to_i32 size <? len then ret (Err (- E2BIG))
    else
      let* str := view_data (Z.to_nat len) in
      view_substr (Z.to_nat len) ;;;
      ret (Ok str).
(* coev_zookeeper/proto.cpp iarchive::deserialize_buffer *)
Definition deserialize_buffer : IA (list Z) := deserialize_string.

(** ** Vectors

    [rc = deserialize_int(&count); v->resize(count); for (...) rc = rc ? rc : get(&v[i])]:
    after an error [count] is still 0 and the loop does nothing. *)
Definition get_vector {A} (get : IA A) : IA (list A) :=
  let! count := deserialize_int in
  if count <? 0 then fail FThrow else read_n (Z.to_nat count) get.
(** [rc = serialize_int(v->size()); for (...) rc = rc ? rc : put(&v[i])] *)
Definition put_vector {A} (put : A -> OA) (v : list A) : OA :=
  try serialize_int (to_i32 (Zlen v)) ;;; for_try v put.

(** ** What is on the wire, and what a reader makes of it *)

Definition z_int (d : Z) : list Z := be 4 d.
Definition z_long (d : Z) : list Z := be 8 d.
Definition z_bool (d : Z) : list Z := [if d =? 0 then 0 else 1].
Definition z_string (s : list Z) : list Z :=
  if bool_decide (s = []) then be 4 (-1) else be 4 (Zlen s) ++ s.
Definition z_vector {A} (w : A -> list Z) (v : list A) : list Z := be 4 (Zlen v) ++ concat (map w v).

(** An [int] comes back; of a [long] its upper half, as an unsigned number; a truth
    value as 0 or 1; an empty string is refused. *)
Definition r_int (d : Z) : dres Z := Ok d.
Definition r_long (d : Z) : dres Z := Ok (to_u32 (Z.shiftr d 32)).
Definition r_bool (d : Z) : dres Z := Ok (if d =? 0 then 0 else 1).
Definition r_string (s : list Z) : dres (list Z) :=
  if bool_decide (s = []) then Err (- EINVAL) else Ok s.
Definition dbind {A B} (r : dres A) (k : A -> dres B) : dres B :=
  match r with Err e => Err e | Ok x => k x end.
Notation "'let?' x := r 'in' k" := (dbind r (fun x => k))
  (at level 10, x name, r at level 100, k at level 200) : coev_scope.
Fixpoint r_vector {A} (r : A -> dres A) (v : list A) : dres (list A) :=
  match v with
  | [] => Ok []
  | x :: v' => let? y := r x in let? l := r_vector r v' in Ok (y :: l)
  end.

Definition zstring_ok (s : list Z) : Prop := Zlen s <= INT32_MAX.
Definition zvector_ok {A} (P : A -> Prop) (v : list A) : Prop := Zlen v <= INT32_MAX /\ Forall P v.

(** ** Words *)

Lemma host_load_range bs : Forall is_byte bs -> 0 <= host_load bs < 2 ^ (8 * Zlen bs).
Proof.
  induction 1 as [|b bs Hb _ IH]; [by cbn|]. cbn [host_load]. rewrite Zlen_cons.
  replace (8 * (1 + Zlen bs)) with (8 + 8 * Zlen bs) by lia. pose proof (Zlen_nonneg bs).
  rewrite Z.pow_add_r by lia. unfold in_u in Hb. change (2 ^ 8) with 256 in *. nia.
Qed.

(** The bytes of an integer in reverse order are its big-endian bytes. *)
Lemma host_bytes_be n x : rev (host_bytes n x) = be n x.
Proof.
  revert x. assert (forall n x, be (S n) x = be n (Z.shiftr x 8) ++ [to_u8 x]) as Hbe.
  { clear. intros n x. induction n as [|n IH].
    - cbn -[Z.land]. by rewrite Z.shiftr_0_r, land_255.
    - cbn [be app] in *. rewrite IH. f_equal. rewrite Z.shiftr_shiftr by lia. do 2 f_equal. lia. }
  induction n as [|n IH]; intros x; [done|]. by rewrite Hbe, <- IH.
Qed.
Lemma length_host_bytes n x : length (host_bytes n x) = n.
Proof. revert x. induction n; intros; cbn; auto. Qed.
Lemma host_bytes_load bs : Forall is_byte bs -> host_bytes (length bs) (host_load bs) = bs.
Proof.
  induction 1 as [|b bs Hb _ IH]; [done|]. cbn [length host_bytes host_load].
  rewrite Z.shiftr_div_pow2 by lia. change (2 ^ 8) with 256. unfold in_u in Hb. change (2 ^ 8) with 256 in Hb.
  replace ((b + 256 * host_load bs) / 256) with (host_load bs) by (rewrite (Z.mul_comm 256), Z.div_add by lia; rewrite Z.div_small; lia).
  rewrite IH. f_equal. unfold to_u8, to_u. change (2 ^ 8) with 256.
  rewrite (Z.mul_comm 256), Z_mod_plus_full. by apply Z.mod_small.
Qed.
Lemma be_val_rev bs : be_val (rev bs) = host_load bs.
Proof.
  unfold be_val. induction bs as [|b bs IH]; [done|]. cbn [rev host_load]. rewrite fold_left_app, IH. cbn. lia.
Qed.

Lemma host_load_app b1 b2 : host_load (b1 ++ b2) = host_load b1 + 2 ^ (8 * Zlen b1) * host_load b2.
Proof.
  induction b1 as [|b b1 IH]; [change (Zlen []) with 0; cbn [app host_load]; lia|]. cbn [app host_load]. rewrite IH, Zlen_cons. pose proof (Zlen_nonneg b1).
  replace (8 * (1 + Zlen b1)) with (8 + 8 * Zlen b1) by lia. rewrite Z.pow_add_r by lia. change (2 ^ 8) with 256. lia.
Qed.
Lemma be_app n m x : be (n + m) x = be n (Z.shiftr x (8 * Z.of_nat m)) ++ be m x.
Proof.
  induction n as [|n IH]; [done|]. cbn [Nat.add be app]. rewrite IH. f_equal.
  rewrite Z.shiftr_shiftr by lia. do 2 f_equal. lia.
Qed.
Lemma be_mod n m x : (n <= m)%nat -> be n (x mod 2 ^ (8 * Z.of_nat m)) = be n x.
Proof.
  induction n as [|n IH]; intros Hn; [done|]. cbn [be]. rewrite IH by lia. f_equal.
  apply Z.bits_inj'. intros i Hi. change 255 with (Z.ones 8). rewrite !Z.land_ones by lia.
  destruct (decide (i < 8)).
  - rewrite !Z.mod_pow2_bits_low, !Z.shiftr_spec, Z.mod_pow2_bits_low by lia. done.
  - by rewrite !Z.mod_pow2_bits_high by lia.
Qed.
Lemma host_bytes_rev n x : host_bytes n x = rev (be n x).
Proof. by rewrite <- host_bytes_be, rev_involutive. Qed.
Lemma host_bytes_app n m x : host_bytes (n + m) x = host_bytes n x ++ host_bytes m (Z.shiftr x (8 * Z.of_nat n)).
Proof. by rewrite !host_bytes_rev, Nat.add_comm, be_app, rev_app_distr. Qed.

(** In memory, [htonl] of a word is its big-endian bytes; read back, the word's value. *)
Lemma htonl_load x : htonl x = host_load (be 4 x).
Proof.
  unfold htonl. rewrite host_bytes_rev, <- be_val_rev. unfold to_u32, to_u.
  change (2 ^ 32) with (2 ^ (8 * Z.of_nat 4)). by rewrite be_mod by lia.
Qed.
Lemma htonl_range x : 0 <= htonl x < 2 ^ 32.
Proof. rewrite htonl_load. pose proof (host_load_range _ (be_bytes 4 x)) as H. by rewrite Zlen_be in H. Qed.
Lemma htonl_bytes x : host_bytes 4 (htonl x) = be 4 x.
Proof. rewrite htonl_load. rewrite <- (length_be 4 x) at 1. apply host_bytes_load, be_bytes. Qed.
Lemma host_bytes_mod n x : host_bytes n (x mod 2 ^ (8 * Z.of_nat n)) = host_bytes n x.
Proof. by rewrite !host_bytes_rev, be_mod. Qed.
Lemma htonl_mod x : htonl (x mod 2 ^ 32) = htonl x.
Proof. rewrite !htonl_load. change (2 ^ 32) with (2 ^ (8 * Z.of_nat 4)). by rewrite be_mod. Qed.
Lemma htonll_bytes x : host_bytes 8 (htonll x) = be 8 x.
Proof.
  assert (htonl (Z.shiftr (to_u64 x) 32) = htonl (Z.shiftr x 32)) as Eh.
  { rewrite <- (htonl_mod (Z.shiftr (to_u64 x) 32)), <- (htonl_mod (Z.shiftr x 32)). f_equal.
    unfold to_u64, to_u. rewrite !Z.shiftr_div_pow2 by lia.
    change (2 ^ 64) with (2 ^ 32 * 2 ^ 32). rewrite Z.rem_mul_r by lia.
    rewrite (Z.mul_comm (2 ^ 32) (_ mod _)), Z.div_add by lia.
    rewrite (Z.div_small (x mod _)) by (apply Z.mod_pos_bound; lia). by rewrite Z.add_0_l, Z.mod_mod by lia. }
  pose proof (htonl_range x) as Hx. pose proof (htonl_range (Z.shiftr x 32)) as Hy.
  unfold htonll. rewrite Eh, to_u_id by (rewrite Z.shiftl_mul_pow2 by lia; unfold in_u; lia).
  rewrite Z.lor_comm, lor_low_shiftl by lia.
  change 8%nat with (4 + 4)%nat. rewrite host_bytes_app, be_app. f_equal.
  - rewrite <- host_bytes_mod. change (2 ^ (8 * Z.of_nat 4)) with (2 ^ 32).
    rewrite Z_mod_plus_full, Z.mod_small by lia. apply htonl_bytes.
  - rewrite Z.shiftr_div_pow2 by lia. change (2 ^ (8 * Z.of_nat 4)) with (2 ^ 32).
    rewrite Z.div_add, Z.div_small by lia. apply htonl_bytes.
Qed.
Lemma htonl_front b1 b2 :
  Forall is_byte b1 -> length b1 = 4%nat -> htonl (host_load (b1 ++ b2)) = be_val b1.
Proof.
  intros Hb Hl. pose proof (host_load_range b1 Hb) as Hr. rewrite host_load_app.
  assert (Zlen b1 = 4) as E by (unfold Zlen; lia). rewrite E in *. change (8 * 4) with 32 in *.
  rewrite <- htonl_mod, (Z.mul_comm (2 ^ 32)), Z_mod_plus_full, Z.mod_small by done.
  unfold htonl. rewrite to_u_id by done. rewrite <- Hl. by rewrite host_bytes_load.
Qed.

(** ** Judgements *)

(** [f] returns 0 and appends [w]. *)
Definition puts (f : OA) (w : list Z) : Prop := forall b, f b = Done 0 (b ++ w).
(** At [w] the reader [g] has the result [r], and on success has read exactly [w]. *)
Definition reads {A} (g : IA A) (w : list Z) (r : dres A) : Prop :=
  forall rest, Zlen (w ++ rest) <= INT32_MAX -> exists rest', g (w ++ rest) = Done r rest' /\ forall x, r = Ok x -> rest' = rest.

Lemma puts_try f g w1 w2 : puts f w1 -> puts g w2 -> puts (try f ;;; g) (w1 ++ w2).
Proof. intros H1 H2 b. unfold bind. rewrite H1. cbn. by rewrite H2, <- app_assoc. Qed.
Lemma puts_ret : puts (ret 0) [].
Proof. intros b. by rewrite app_nil_r. Qed.
Lemma puts_last f w : puts f w -> puts (try f ;;; ret 0) w.
Proof. intros H. rewrite <- (app_nil_r w). apply puts_try; [done|apply puts_ret]. Qed.
Lemma puts_append bs : puts (append bs ;;; ret 0) bs.
Proof. done. Qed.
Lemma puts_int d : puts (serialize_int d) (z_int d).
Proof. unfold serialize_int. rewrite htonl_bytes. apply puts_append. Qed.
Lemma puts_long d : puts (serialize_log d) (z_long d).
Proof. unfold serialize_log. rewrite htonll_bytes. apply puts_append. Qed.
Lemma puts_bool d : puts (serialize_bool d) (z_bool d).
Proof. done. Qed.
Lemma puts_string s : zstring_ok s -> puts (serialize_string s) (z_string s).
Proof.
  unfold zstring_ok, INT32_MAX. intros Hs. unfold serialize_string, z_string. case_bool_decide; [apply puts_int|].
  pose proof (Zlen_nonneg s). rewrite to_s_id by (unfold in_s; lia).
  intros b. unfold bind at 1. rewrite puts_int. unfold z_int. cbn. by rewrite <- app_assoc.
Qed.
Lemma puts_buffer s : zstring_ok s -> puts (serialize_buffer s) (z_string s).
Proof. apply puts_string. Qed.
Lemma puts_each {A} (put : A -> OA) w v :
  Forall (fun x => puts (put x) (w x)) v -> puts (for_try v put) (concat (map w v)).
Proof. induction 1 as [|x v Hx _ IH]; [apply puts_ret|]. cbn. by apply puts_try. Qed.
Lemma puts_vector {A} (put : A -> OA) w (P : A -> Prop) v :
  (forall x, P x -> puts (put x) (w x)) -> zvector_ok P v -> puts (put_vector put v) (z_vector w v).
Proof.
  intros Hp [Hl Hv]. pose proof (Zlen_nonneg v). unfold INT32_MAX in Hl. unfold put_vector, z_vector.
  rewrite to_s_id by (unfold in_s; lia). apply puts_try; [apply puts_int|]. apply puts_each.
  by eapply Forall_impl.
Qed.

Lemma reads_ok {A} (x : A) : reads (ret (Ok x)) [] (Ok x).
Proof. intros rest _. by exists rest. Qed.
Lemma reads_let {A B} (g : IA A) (k : A -> IA B) w1 w2 r k' :
  reads g w1 r -> (forall x, r = Ok x -> reads (k x) w2 (k' x)) ->
  reads (let! x := g in k x) (w1 ++ w2) (let? x := r in k' x).
Proof.
  intros Hg Hk rest Hl. rewrite <- app_assoc in *. destruct (Hg (w2 ++ rest)) as (r1 & E & H1); [done|].
  unfold bind. rewrite E. destruct r as [e|x]; cbn; [by exists r1|]. rewrite (H1 x eq_refl).
  apply Hk; [done|]. rewrite Zlen_app in Hl. pose proof (Zlen_nonneg w1). lia.
Qed.
Lemma reads_last {A B} (g : IA A) (f : A -> B) w r :
  reads g w r -> reads (let! x := g in ret (Ok (f x))) w (let? x := r in Ok (f x)).
Proof. intros H. rewrite <- (app_nil_r w). apply reads_let; [done|]. intros. apply reads_ok. Qed.
(** Taking [n] bytes that are there *)
Lemma view_taken {B} n view (k : list Z -> M (list Z) B) :
  Z.of_nat n <= Zlen view ->
  (let* x := view_data n in view_substr n ;;; k x) view = k (take n view) (drop n view).
Proof.
  intros Hn. assert ((Zlen view <? Z.of_nat n) = false) as E by lia. unfold bind, view_data. rewrite E. cbv beta iota.
  unfold view_substr. by rewrite E.
Qed.
(** The shape the readers of words share: the size is looked at before the bytes are taken. *)
Lemma view_guarded {A} n view (k : list Z -> IA A) :
  (let* size := view_size in
   if size <? Z.of_nat n then ret (Err (- E2BIG)) else let* x := view_data n in view_substr n ;;; k x) view =
  if Zlen view <? Z.of_nat n then Done (Err (- E2BIG)) view else k (take n view) (drop n view).
Proof.
  unfold bind at 1, view_size, gets. destruct (Z.ltb_spec (Zlen view) (Z.of_nat n)); [done|]. by apply view_taken.
Qed.
Lemma bool_guarded view :
  deserialize_bool view =
  if Zlen view <? 1 then Done (Err (- E2BIG)) view
  else match take 1 view with
       | [b] => if (b =? 0) || (b =? 1) then Done (Ok b) (drop 1 view) else Fault FUB
       | _ => Fault FUB end.
Proof.
  unfold deserialize_bool, bind, view_size, gets. destruct (Z.ltb_spec (Zlen view) 1) as [|Hn]; [done|].
  assert ((Zlen view <? Z.of_nat 1) = false) as E by (change (Z.of_nat 1) with 1; lia). unfold view_data. rewrite E. cbv beta iota. unfold bool_value.
  destruct (take 1 view) as [|b []]; try done. destruct (_ || _); [|done]. unfold ret at 1, view_substr. by rewrite E.
Qed.
Lemma reads_front {A} n w r (g : IA A) (k : list Z -> IA A) :
  (forall view, g view = if Zlen view <? Z.of_nat n then Done (Err (- E2BIG)) view else k (take n view) (drop n view)) ->
  length w = n -> (forall rest, k w rest = Done r rest) -> reads g w r.
Proof.
  intros Hg Hn Hk rest _. exists rest. split; [|done]. rewrite Hg, Zlen_app. pose proof (Zlen_nonneg rest).
  assert (Zlen w = Z.of_nat n) as -> by (unfold Zlen; lia). replace (_ <? _) with false by lia.
  by rewrite take_app_length', drop_app_length'.
Qed.
Lemma reads_int d : in_s 32 d -> reads deserialize_int (z_int d) (r_int d).
Proof.
  intros Hd. eapply (reads_front 4); [intros view; apply (view_guarded 4)|done|]. intros rest. unfold z_int.
  rewrite <- (app_nil_r (be 4 d)), htonl_front, be_val_be by (apply be_bytes || done).
  change (2 ^ _) with (2 ^ 32). unfold r_int, ret. do 2 f_equal. by rewrite to_s_mod, to_s_id.
Qed.
Lemma reads_long d : reads deserialize_long (z_long d) (r_long d).
Proof.
  eapply (reads_front 8); [intros view; apply (view_guarded 8)|done|]. intros rest. unfold z_long.
  change 8%nat with (4 + 4)%nat. by rewrite be_app, htonl_front, be_val_be by (apply be_bytes || done).
Qed.
Lemma reads_bool d : reads deserialize_bool (z_bool d) (r_bool d).
Proof.
  intros rest _. exists rest. split; [|done]. rewrite bool_guarded. unfold z_bool, r_bool. rewrite Zlen_app.
  pose proof (Zlen_nonneg rest). change (Zlen [if d =? 0 then 0 else 1]) with 1. replace (_ <? _) with false by lia.
  cbn. by destruct (d =? 0).
Qed.
Lemma reads_string s : zstring_ok s -> reads deserialize_string (z_string s) (r_string s).
Proof.
  unfold zstring_ok, INT32_MAX. intros Hs. unfold deserialize_string, z_string, r_string. case_bool_decide as E.
  - intros rest Hl. destruct (reads_int (-1) ltac:(unfold in_s; lia) rest Hl) as (r & Er & _). unfold bind.
    unfold z_int in Er. rewrite Er. cbn. by eexists.
  - pose proof (Zlen_nonneg s). change (Ok s) with (let? n := r_int (Zlen s) in Ok s).
    apply reads_let; [apply reads_int; unfold in_s; lia|]. intros n [= <-] rest Hl. exists rest. split; [|done].
    pose proof (Zlen_nonneg rest). rewrite Zlen_app in Hl. unfold INT32_MAX in Hl.
    replace (Zlen s <? 0) with false by lia. unfold bind at 1, view_size, gets. rewrite Zlen_app, to_s_id by (unfold in_s; lia).
    replace (_ <? Zlen s) with false by lia. rewrite view_taken by (rewrite Zlen_app; lia).
    unfold Zlen. rewrite Nat2Z.id. by rewrite take_app_length, drop_app_length.
Qed.
Lemma reads_buffer s : zstring_ok s -> reads deserialize_buffer (z_string s) (r_string s).
Proof. apply reads_string. Qed.
Lemma reads_each {A} (get : IA A) w r v :
  Forall (fun x => reads get (w x) (r x)) v -> reads (read_n (length v) get) (concat (map w v)) (r_vector r v).
Proof.
  induction 1 as [|x v Hx _ IH]; [apply reads_ok|]. cbn. apply reads_let; [done|]. intros y _. by apply reads_last.
Qed.
Lemma reads_vector {A} (get : IA A) w r (P : A -> Prop) v :
  (forall x, P x -> reads get (w x) (r x)) -> zvector_ok P v -> reads (get_vector get) (z_vector w v) (r_vector r v).
Proof.
  intros Hg [Hl Hv]. pose proof (Zlen_nonneg v). unfold INT32_MAX in Hl. unfold get_vector, z_vector.
  change (r_vector r v) with (let? n := r_int (Zlen v) in r_vector r v).
  apply reads_let; [apply reads_int; unfold in_s; lia|]. intros n [= <-].
  replace (Zlen v <? 0) with false by lia. unfold Zlen. rewrite Nat2Z.id. apply reads_each. by eapply Forall_impl.
Qed.

(** ** On any input *)

(** How a reader can fail: the two codes, and the faults it is allowed. *)
Definition contained {A} (throws undefined : bool) (g : IA A) : Prop :=
  forall view, Forall is_byte view ->
    match g view with
    | Done r view' => (exists p, view = p ++ view') /\ match r with Ok _ => True | Err e => e = - E2BIG \/ e = - EINVAL end
    | Fault FThrow => throws = true
    | Fault FUB => undefined = true
    | Fault _ => False
    end.

Lemma contained_weaken {A} t u t' u' (g : IA A) :
  contained t u g -> implb t t' = true -> implb u u' = true -> contained t' u' g.
Proof.
  intros Hg Ht Hu view Hv. specialize (Hg view Hv). destruct (g view) as [|[]]; subst; try done.
Qed.
Lemma contained_ok {A} t u (x : A) : contained t u (ret (Ok x)).
Proof. intros view _. split; [by exists []|done]. Qed.
Lemma contained_let {A B} t u (g : IA A) (k : A -> IA B) :
  contained t u g -> (forall x, contained t u (k x)) -> contained t u (let! x := g in k x).
Proof.
  intros Hg Hk view Hv. unfold bind. specialize (Hg view Hv).
  destruct (g view) as [[e|x] view1|]; [done| |done]. destruct Hg as [[p ->] _].
  apply Forall_app in Hv as [_ Hv]. specialize (Hk x view1 Hv). destruct (k x view1); [|done].
  destruct Hk as [[p' ->] ?]. split; [|done]. exists (p ++ p'). by rewrite app_assoc.
Qed.
(** A word is taken only when it is there. *)
Lemma contained_front {A} t u n (g : IA A) (k : list Z -> A) :
  (forall view, g view = if Zlen view <? Z.of_nat n then Done (Err (- E2BIG)) view else ret (Ok (k (take n view))) (drop n view)) ->
  contained t u g.
Proof.
  intros Hg view _. rewrite Hg. destruct (_ <? _); [split; [by exists []|by left]|].
  split; [|done]. exists (take n view). by rewrite take_drop.
Qed.
Lemma contained_int t u : contained t u deserialize_int.
Proof.
  apply (contained_front t u 4 _ (fun x => to_i32 (htonl (host_load x)))). intros view.
  apply (view_guarded 4 view (fun x => ret (Ok (to_i32 (htonl (host_load x)))))).
Qed.
Lemma contained_long t u : contained t u deserialize_long.
Proof.
  apply (contained_front t u 8 _ (fun x => htonl (host_load x))). intros view.
  apply (view_guarded 8 view (fun x => ret (Ok (htonl (host_load x))))).
Qed.
Lemma contained_bool t : contained t true deserialize_bool.
Proof.
  intros view _. rewrite bool_guarded. destruct (_ <? _); [split; [by exists []|by left]|].
  destruct (take 1 view) as [|b []]; try done. destruct (_ || _); [|done]. split; [|done].
  exists (take 1 view). by rewrite take_drop.
Qed.
Lemma to_i32_le z : 0 <= z -> to_i32 z <= z.
Proof.
  intros Hz. unfold to_s. change (2 ^ 32) with 4294967296. change (2 ^ (32 - 1)) with 2147483648.
  pose proof (Z.mod_le (z + 2147483648) 4294967296). lia.
Qed.
(** The size is converted to an [int] first, which does not make it greater. *)
Lemma contained_string t u : contained t u deserialize_string.
Proof.
  apply contained_let; [apply contained_int|]. intros len. destruct (Z.ltb_spec len 0).
  - intros view _. split; [by exists []|by right].
  - intros view _. unfold bind at 1, view_size, gets. pose proof (to_i32_le (Zlen view) (Zlen_nonneg view)).
    destruct (Z.ltb_spec (to_i32 (Zlen view)) len); [split; [by exists []|by left]|]. rewrite view_taken by lia. split; [|done].
    exists (take (Z.to_nat len) view). by rewrite take_drop.
Qed.
Lemma contained_buffer t u : contained t u deserialize_buffer.
Proof. apply contained_string. Qed.
Lemma contained_each {A} t u n (g : IA A) : contained t u g -> contained t u (read_n n g).
Proof.
  intros Hg. induction n as [|n IH]; [apply contained_ok|]. cbn. apply contained_let; [done|]. intros x.
  apply contained_let; [done|]. intros l. apply contained_ok.
Qed.
Lemma contained_vector {A} u (g : IA A) : contained true u g -> contained true u (get_vector g).
Proof.
  intros Hg. apply contained_let; [apply contained_int|]. intros n. destruct (n <? 0); [done|]. by apply contained_each.
Qed.

(** ** Automation *)

Create HintDb archive discriminated.
#[export] Hint Constants Opaque : archive.
#[export] Hint Resolve puts_int puts_long puts_bool puts_string puts_buffer puts_ret : archive.
#[export] Hint Resolve reads_int reads_long reads_bool reads_string reads_buffer reads_ok : archive.
#[export] Hint Resolve contained_int contained_long contained_bool contained_string contained_buffer contained_ok : archive.

Ltac puts_steps :=
  lazymatch goal with
  | |- puts (try _ ;;; ret 0) _ => apply puts_last; puts_steps
  | |- puts (try _ ;;; _) _ => apply puts_try; [puts_steps|puts_steps]
  | |- puts (put_vector _ _) _ => eapply puts_vector; [|eassumption]; eauto with archive
  | |- _ => solve [eauto with archive]
  end.
Ltac reads_steps :=
  lazymatch goal with
  | |- reads (get_vector _) _ _ => eapply reads_vector; [|eassumption]; eauto with archive
  | |- reads (bind _ _) _ _ =>
      first [ eapply reads_last; reads_steps
            | eapply reads_let; [reads_steps|intros ? _; reads_steps] ]
  | |- _ => solve [eauto with archive]
  end.
Ltac contained_steps :=
  lazymatch goal with
  | |- contained _ _ (bind _ _) => apply contained_let; [contained_steps|intros ?; contained_steps]
  | |- contained _ _ (get_vector _) => apply contained_vector; contained_steps
  | |- _ => solve [eauto with archive]
  end.
