(* ===== verification/ZooProto.v ===== *)
(** * ZooKeeper structures

    Every structure of [coev_zookeeper/proto.h] with its writer [oarchive_X] and its reader
    [iarchive_X] of [proto.cpp]; what is on the wire ([X_wire]) and what comes back
    ([X_received]); and the list of all of them, over which the theorems range.  The chain
    [rc = rc ? rc : f] goes on only while [rc] is 0, like an early return. *)
From Stdlib Require Import ZArith Lia Bool.
From stdpp Require Import base tactics list numbers.
From S2P Require Import Prelude Wire ZooArchive.

Ltac split_facts := repeat match goal with H : _ /\ _ |- _ => destruct H end.

(** ** [Id] *)

(* coev_zookeeper/proto.h:17-22 Id_ *)
Record Id_ := mkId {
  Id_scheme : list Z; Id_id : list Z }.
(* coev_zookeeper/proto.cpp oarchive::Id *)
Definition oarchive_Id (v : Id_) : OA :=
  try serialize_string (Id_scheme v) ;;;
  try serialize_string (Id_id v) ;;;
  ret 0.
(* coev_zookeeper/proto.cpp iarchive::Id *)
Definition iarchive_Id : IA Id_ :=
  let! scheme := deserialize_string in
  let! id := deserialize_string in
  ret (Ok (mkId scheme id)).
Definition Id_wire (v : Id_) : list Z :=
  z_string (Id_scheme v) ++ z_string (Id_id v).
Definition Id_received (v : Id_) : dres Id_ :=
  let? scheme := r_string (Id_scheme v) in
  let? id := r_string (Id_id v) in
  Ok (mkId scheme id).
Definition Id_ok (v : Id_) : Prop :=
  zstring_ok (Id_scheme v) /\ zstring_ok (Id_id v).
Lemma Id_puts v : Id_ok v -> puts (oarchive_Id v) (Id_wire v).
Proof. unfold Id_ok. intros. split_facts. unfold oarchive_Id, Id_wire. puts_steps. Qed.
Lemma Id_reads v : Id_ok v -> reads iarchive_Id (Id_wire v) (Id_received v).
Proof. unfold Id_ok. intros. split_facts. unfold iarchive_Id, Id_wire, Id_received. reads_steps. Qed.
Lemma Id_contained t u : contained t u iarchive_Id.
Proof. unfold iarchive_Id. contained_steps. Qed.
#[export] Hint Resolve Id_puts Id_reads Id_contained : archive.

(** ** [ACL] *)

(* coev_zookeeper/proto.h:24-29 ACL_ *)
Record ACL_ := mkACL {
  ACL_perms : Z; ACL_id : Id_ }.
(* coev_zookeeper/proto.cpp oarchive::ACL *)
Definition oarchive_ACL (v : ACL_) : OA :=
  try serialize_int (ACL_perms v) ;;;
  try oarchive_Id (ACL_id v) ;;;
  ret 0.
(* coev_zookeeper/proto.cpp iarchive::ACL *)
Definition iarchive_ACL : IA ACL_ :=
  let! perms := deserialize_int in
  let! id := iarchive_Id in
  ret (Ok (mkACL perms id)).
Definition ACL_wire (v : ACL_) : list Z :=
  z_int (ACL_perms v) ++ Id_wire (ACL_id v).
Definition ACL_received (v : ACL_) : dres ACL_ :=
  let? perms := r_int (ACL_perms v) in
  let? id := Id_received (ACL_id v) in
  Ok (mkACL perms id).
Definition ACL_ok (v : ACL_) : Prop :=
  in_s 32 (ACL_perms v) /\ Id_ok (ACL_id v).
Lemma ACL_puts v : ACL_ok v -> puts (oarchive_ACL v) (ACL_wire v).
Proof. unfold ACL_ok. intros. split_facts. unfold oarchive_ACL, ACL_wire. puts_steps. Qed.
Lemma ACL_reads v : ACL_ok v -> reads iarchive_ACL (ACL_wire v) (ACL_received v).
Proof. unfold ACL_ok. intros. split_facts. unfold iarchive_ACL, ACL_wire, ACL_received. reads_steps. Qed.
Lemma ACL_contained t u : contained t u iarchive_ACL.
Proof. unfold iarchive_ACL. contained_steps. Qed.
#[export] Hint Resolve ACL_puts ACL_reads ACL_contained : archive.

(** ** [Stat] *)

(* coev_zookeeper/proto.h:31-44 Stat_ *)
Record Stat_ := mkStat {
  Stat_czxid : Z; Stat_mzxid : Z; Stat_ctime : Z; Stat_mtime : Z; Stat_version : Z;
  Stat_cversion : Z; Stat_aversion : Z; Stat_ephemeralOwner : Z; Stat_dataLength : Z;
  Stat_numChildren : Z; Stat_pzxid : Z }.
(* coev_zookeeper/proto.cpp oarchive::Stat *)
Definition oarchive_Stat (v : Stat_) : OA :=
  try serialize_log (Stat_czxid v) ;;;
  try serialize_log (Stat_mzxid v) ;;;
  try serialize_log (Stat_ctime v) ;;;
  try serialize_log (Stat_mtime v) ;;;
  try serialize_int (Stat_version v) ;;;
  try serialize_int (Stat_cversion v) ;;;
  try serialize_int (Stat_aversion v) ;;;
  try serialize_log (Stat_ephemeralOwner v) ;;;
  try serialize_int (Stat_dataLength v) ;;;
  try serialize_int (Stat_numChildren v) ;;;
  try serialize_log (Stat_pzxid v) ;;;
  ret 0.
(* coev_zookeeper/proto.cpp iarchive::Stat *)
Definition iarchive_Stat : IA Stat_ :=
  let! czxid := deserialize_long in
  let! mzxid := deserialize_long in
  let! ctime := deserialize_long in
  let! mtime := deserialize_long in
  let! version := deserialize_int in
  let! cversion := deserialize_int in
  let! aversion := deserialize_int in
  let! ephemeralOwner := deserialize_long in
  let! dataLength := deserialize_int in
  let! numChildren := deserialize_int in
  let! pzxid := deserialize_long in
  ret (Ok (mkStat czxid mzxid ctime mtime version cversion aversion ephemeralOwner dataLength numChildren pzxid)).
Definition Stat_wire (v : Stat_) : list Z :=
  z_long (Stat_czxid v) ++ z_long (Stat_mzxid v) ++ z_long (Stat_ctime v) ++
  z_long (Stat_mtime v) ++ z_int (Stat_version v) ++ z_int (Stat_cversion v) ++
  z_int (Stat_aversion v) ++ z_long (Stat_ephemeralOwner v) ++ z_int (Stat_dataLength v) ++
  z_int (Stat_numChildren v) ++ z_long (Stat_pzxid v).
Definition Stat_received (v : Stat_) : dres Stat_ :=
  let? czxid := r_long (Stat_czxid v) in
  let? mzxid := r_long (Stat_mzxid v) in
  let? ctime := r_long (Stat_ctime v) in
  let? mtime := r_long (Stat_mtime v) in
  let? version := r_int (Stat_version v) in
  let? cversion := r_int (Stat_cversion v) in
  let? aversion := r_int (Stat_aversion v) in
  let? ephemeralOwner := r_long (Stat_ephemeralOwner v) in
  let? dataLength := r_int (Stat_dataLength v) in
  let? numChildren := r_int (Stat_numChildren v) in
  let? pzxid := r_long (Stat_pzxid v) in
  Ok (mkStat czxid mzxid ctime mtime version cversion aversion ephemeralOwner dataLength numChildren pzxid).
Definition Stat_ok (v : Stat_) : Prop :=
  in_s 64 (Stat_czxid v) /\ in_s 64 (Stat_mzxid v) /\ in_s 64 (Stat_ctime v) /\
  in_s 64 (Stat_mtime v) /\ in_s 32 (Stat_version v) /\ in_s 32 (Stat_cversion v) /\
  in_s 32 (Stat_aversion v) /\ in_s 64 (Stat_ephemeralOwner v) /\ in_s 32 (Stat_dataLength v) /\
  in_s 32 (Stat_numChildren v) /\ in_s 64 (Stat_pzxid v).
Lemma Stat_puts v : Stat_ok v -> puts (oarchive_Stat v) (Stat_wire v).
Proof. unfold Stat_ok. intros. split_facts. unfold oarchive_Stat, Stat_wire. puts_steps. Qed.
Lemma Stat_reads v : Stat_ok v -> reads iarchive_Stat (Stat_wire v) (Stat_received v).
Proof. unfold Stat_ok. intros. split_facts. unfold iarchive_Stat, Stat_wire, Stat_received. reads_steps. Qed.
Lemma Stat_contained t u : contained t u iarchive_Stat.
Proof. unfold iarchive_Stat. contained_steps. Qed.
#[export] Hint Resolve Stat_puts Stat_reads Stat_contained : archive.

(** ** [StatPersisted] *)

(* coev_zookeeper/proto.h:46-57 StatPersisted_ *)
Record StatPersisted_ := mkStatPersisted {
  StatPersisted_czxid : Z; StatPersisted_mzxid : Z; StatPersisted_ctime : Z;
  StatPersisted_mtime : Z; StatPersisted_version : Z; StatPersisted_cversion : Z;
  StatPersisted_aversion : Z; StatPersisted_ephemeralOwner : Z; StatPersisted_pzxid : Z }.
(* coev_zookeeper/proto.cpp oarchive::StatPersisted *)
Definition oarchive_StatPersisted (v : StatPersisted_) : OA :=
  try serialize_log (StatPersisted_czxid v) ;;;
  try serialize_log (StatPersisted_mzxid v) ;;;
  try serialize_log (StatPersisted_ctime v) ;;;
  try serialize_log (StatPersisted_mtime v) ;;;
  try serialize_int (StatPersisted_version v) ;;;
  try serialize_int (StatPersisted_cversion v) ;;;
  try serialize_int (StatPersisted_aversion v) ;;;
  try serialize_log (StatPersisted_ephemeralOwner v) ;;;
  try serialize_log (StatPersisted_pzxid v) ;;;
  ret 0.
(* coev_zookeeper/proto.cpp iarchive::StatPersisted *)
Definition iarchive_StatPersisted : IA StatPersisted_ :=
  let! czxid := deserialize_long in
  let! mzxid := deserialize_long in
  let! ctime := deserialize_long in
  let! mtime := deserialize_long in
  let! version := deserialize_int in
  let! cversion := deserialize_int in
  let! aversion := deserialize_int in
  let! ephemeralOwner := deserialize_long in
  let! pzxid := deserialize_long in
  ret (Ok (mkStatPersisted czxid mzxid ctime mtime version cversion aversion ephemeralOwner pzxid)).
Definition StatPersisted_wire (v : StatPersisted_) : list Z :=
  z_long (StatPersisted_czxid v) ++ z_long (StatPersisted_mzxid v) ++
  z_long (StatPersisted_ctime v) ++ z_long (StatPersisted_mtime v) ++
  z_int (StatPersisted_version v) ++ z_int (StatPersisted_cversion v) ++
  z_int (StatPersisted_aversion v) ++ z_long (StatPersisted_ephemeralOwner v) ++
  z_long (StatPersisted_pzxid v).
Definition StatPersisted_received (v : StatPersisted_) : dres StatPersisted_ :=
  let? czxid := r_long (StatPersisted_czxid v) in
  let? mzxid := r_long (StatPersisted_mzxid v) in
  let? ctime := r_long (StatPersisted_ctime v) in
  let? mtime := r_long (StatPersisted_mtime v) in
  let? version := r_int (StatPersisted_version v) in
  let? cversion := r_int (StatPersisted_cversion v) in
  let? aversion := r_int (StatPersisted_aversion v) in
  let? ephemeralOwner := r_long (StatPersisted_ephemeralOwner v) in
  let? pzxid := r_long (StatPersisted_pzxid v) in
  Ok (mkStatPersisted czxid mzxid ctime mtime version cversion aversion ephemeralOwner pzxid).
Definition StatPersisted_ok (v : StatPersisted_) : Prop :=
  in_s 64 (StatPersisted_czxid v) /\ in_s 64 (StatPersisted_mzxid v) /\
  in_s 64 (StatPersisted_ctime v) /\ in_s 64 (StatPersisted_mtime v) /\
  in_s 32 (StatPersisted_version v) /\ in_s 32 (StatPersisted_cversion v) /\
  in_s 32 (StatPersisted_aversion v) /\ in_s 64 (StatPersisted_ephemeralOwner v) /\
  in_s 64 (StatPersisted_pzxid v).
Lemma StatPersisted_puts v : StatPersisted_ok v -> puts (oarchive_StatPersisted v) (StatPersisted_wire v).
Proof. unfold StatPersisted_ok. intros. split_facts. unfold oarchive_StatPersisted, StatPersisted_wire. puts_steps. Qed.
Lemma StatPersisted_reads v : StatPersisted_ok v -> reads iarchive_StatPersisted (StatPersisted_wire v) (StatPersisted_received v).
Proof. unfold StatPersisted_ok. intros. split_facts. unfold iarchive_StatPersisted, StatPersisted_wire, StatPersisted_received. reads_steps. Qed.
Lemma StatPersisted_contained t u : contained t u iarchive_StatPersisted.
Proof. unfold iarchive_StatPersisted. contained_steps. Qed.
#[export] Hint Resolve StatPersisted_puts StatPersisted_reads StatPersisted_contained : archive.

(** ** [ClientInfo] *)

(* coev_zookeeper/proto.h:58-62 ClientInfo_ *)
Record ClientInfo_ := mkClientInfo {
  ClientInfo_authScheme : list Z; ClientInfo_user : list Z }.
(* coev_zookeeper/proto.cpp oarchive::ClientInfo *)
Definition oarchive_ClientInfo (v : ClientInfo_) : OA :=
  try serialize_string (ClientInfo_authScheme v) ;;;
  try serialize_string (ClientInfo_user v) ;;;
  ret 0.
(* coev_zookeeper/proto.cpp iarchive::ClientInfo *)
Definition iarchive_ClientInfo : IA ClientInfo_ :=
  let! authScheme := deserialize_string in
  let! user := deserialize_string in
  ret (Ok (mkClientInfo authScheme user)).
Definition ClientInfo_wire (v : ClientInfo_) : list Z :=
  z_string (ClientInfo_authScheme v) ++ z_string (ClientInfo_user v).
Definition ClientInfo_received (v : ClientInfo_) : dres ClientInfo_ :=
  let? authScheme := r_string (ClientInfo_authScheme v) in
  let? user := r_string (ClientInfo_user v) in
  Ok (mkClientInfo authScheme user).
Definition ClientInfo_ok (v : ClientInfo_) : Prop :=
  zstring_ok (ClientInfo_authScheme v) /\ zstring_ok (ClientInfo_user v).
Lemma ClientInfo_puts v : ClientInfo_ok v -> puts (oarchive_ClientInfo v) (ClientInfo_wire v).
Proof. unfold ClientInfo_ok. intros. split_facts. unfold oarchive_ClientInfo, ClientInfo_wire. puts_steps. Qed.
Lemma ClientInfo_reads v : ClientInfo_ok v -> reads iarchive_ClientInfo (ClientInfo_wire v) (ClientInfo_received v).
Proof. unfold ClientInfo_ok. intros. split_facts. unfold iarchive_ClientInfo, ClientInfo_wire, ClientInfo_received. reads_steps. Qed.
Lemma ClientInfo_contained t u : contained t u iarchive_ClientInfo.
Proof. unfold iarchive_ClientInfo. contained_steps. Qed.
#[export] Hint Resolve ClientInfo_puts ClientInfo_reads ClientInfo_contained : archive.

(** ** [ConnectRequest] *)

(* coev_zookeeper/proto.h:63-71 ConnectRequest_ *)
Record ConnectRequest_ := mkConnectRequest {
  ConnectRequest_protocolVersion : Z; ConnectRequest_lastZxidSeen : Z; ConnectRequest_timeout : Z;
  ConnectRequest_sessionId : Z; ConnectRequest_passwd : list Z; ConnectRequest_readOnly : Z }.
(* coev_zookeeper/proto.cpp oarchive::ConnectRequest *)
Definition oarchive_ConnectRequest (v : ConnectRequest_) : OA :=
  try serialize_int (ConnectRequest_protocolVersion v) ;;;
  try serialize_log (ConnectRequest_lastZxidSeen v) ;;;
  try serialize_int (ConnectRequest_timeout v) ;;;
  try serialize_log (ConnectRequest_sessionId v) ;;;
  try serialize_buffer (ConnectRequest_passwd v) ;;;
  try serialize_bool (ConnectRequest_readOnly v) ;;;
  ret 0.
(* coev_zookeeper/proto.cpp iarchive::ConnectRequest *)
Definition iarchive_ConnectRequest : IA ConnectRequest_ :=
  let! protocolVersion := deserialize_int in
  let! lastZxidSeen := deserialize_long in
  let! timeout := deserialize_int in
  let! sessionId := deserialize_long in
  let! passwd := deserialize_buffer in
  let! readOnly := deserialize_bool in
  ret (Ok (mkConnectRequest protocolVersion lastZxidSeen timeout sessionId passwd readOnly)).
Definition ConnectRequest_wire (v : ConnectRequest_) : list Z :=
  z_int (ConnectRequest_protocolVersion v) ++ z_long (ConnectRequest_lastZxidSeen v) ++
  z_int (ConnectRequest_timeout v) ++ z_long (ConnectRequest_sessionId v) ++
  z_string (ConnectRequest_passwd v) ++ z_bool (ConnectRequest_readOnly v).
Definition ConnectRequest_received (v : ConnectRequest_) : dres ConnectRequest_ :=
  let? protocolVersion := r_int (ConnectRequest_protocolVersion v) in
  let? lastZxidSeen := r_long (ConnectRequest_lastZxidSeen v) in
  let? timeout := r_int (ConnectRequest_timeout v) in
  let? sessionId := r_long (ConnectRequest_sessionId v) in
  let? passwd := r_string (ConnectRequest_passwd v) in
  let? readOnly := r_bool (ConnectRequest_readOnly v) in
  Ok (mkConnectRequest protocolVersion lastZxidSeen timeout sessionId passwd readOnly).
Definition ConnectRequest_ok (v : ConnectRequest_) : Prop :=
  in_s 32 (ConnectRequest_protocolVersion v) /\ in_s 64 (ConnectRequest_lastZxidSeen v) /\
  in_s 32 (ConnectRequest_timeout v) /\ in_s 64 (ConnectRequest_sessionId v) /\
  zstring_ok (ConnectRequest_passwd v) /\ in_s 32 (ConnectRequest_readOnly v).
Lemma ConnectRequest_puts v : ConnectRequest_ok v -> puts (oarchive_ConnectRequest v) (ConnectRequest_wire v).
Proof. unfold ConnectRequest_ok. intros. split_facts. unfold oarchive_ConnectRequest, ConnectRequest_wire. puts_steps. Qed.
Lemma ConnectRequest_reads v : ConnectRequest_ok v -> reads iarchive_ConnectRequest (ConnectRequest_wire v) (ConnectRequest_received v).
Proof. unfold ConnectRequest_ok. intros. split_facts. unfold iarchive_ConnectRequest, ConnectRequest_wire, ConnectRequest_received. reads_steps. Qed.
Lemma ConnectRequest_contained t : contained t true iarchive_ConnectRequest.
Proof. unfold iarchive_ConnectRequest. contained_steps. Qed.
#[export] Hint Resolve ConnectRequest_puts ConnectRequest_reads ConnectRequest_contained : archive.

(** ** [ConnectResponse] *)

(* coev_zookeeper/proto.h:72-79 ConnectResponse_ *)
Record ConnectResponse_ := mkConnectResponse {
  ConnectResponse_protocolVersion : Z; ConnectResponse_timeout : Z; ConnectResponse_sessionId : Z;
  ConnectResponse_passwd : list Z; ConnectResponse_readOnly : Z }.
(* coev_zookeeper/proto.cpp oarchive::ConnectResponse *)
Definition oarchive_ConnectResponse (v : ConnectResponse_) : OA :=
  try serialize_int (ConnectResponse_protocolVersion v) ;;;
  try serialize_int (ConnectResponse_timeout v) ;;;
  try serialize_log (ConnectResponse_sessionId v) ;;;
  try serialize_buffer (ConnectResponse_passwd v) ;;;
  try serialize_bool (ConnectResponse_readOnly v) ;;;
  ret 0.
(* coev_zookeeper/proto.cpp iarchive::ConnectResponse *)
Definition iarchive_ConnectResponse : IA ConnectResponse_ :=
  let! protocolVersion := deserialize_int in
  let! timeout := deserialize_int in
  let! sessionId := deserialize_long in
  let! passwd := deserialize_buffer in
  let! readOnly := deserialize_bool in
  ret (Ok (mkConnectResponse protocolVersion timeout sessionId passwd readOnly)).
Definition ConnectResponse_wire (v : ConnectResponse_) : list Z :=
  z_int (ConnectResponse_protocolVersion v) ++ z_int (ConnectResponse_timeout v) ++
  z_long (ConnectResponse_sessionId v) ++ z_string (ConnectResponse_passwd v) ++
  z_bool (ConnectResponse_readOnly v).
Definition ConnectResponse_received (v : ConnectResponse_) : dres ConnectResponse_ :=
  let? protocolVersion := r_int (ConnectResponse_protocolVersion v) in
  let? timeout := r_int (ConnectResponse_timeout v) in
  let? sessionId := r_long (ConnectResponse_sessionId v) in
  let? passwd := r_string (ConnectResponse_passwd v) in
  let? readOnly := r_bool (ConnectResponse_readOnly v) in
  Ok (mkConnectResponse protocolVersion timeout sessionId passwd readOnly).
Definition ConnectResponse_ok (v : ConnectResponse_) : Prop :=
  in_s 32 (ConnectResponse_protocolVersion v) /\ in_s 32 (ConnectResponse_timeout v) /\
  in_s 64 (ConnectResponse_sessionId v) /\ zstring_ok (ConnectResponse_passwd v) /\
  in_s 32 (ConnectResponse_readOnly v).
Lemma ConnectResponse_puts v : ConnectResponse_ok v -> puts (oarchive_ConnectResponse v) (ConnectResponse_wire v).
Proof. unfold ConnectResponse_ok. intros. split_facts. unfold oarchive_ConnectResponse, ConnectResponse_wire. puts_steps. Qed.
Lemma ConnectResponse_reads v : ConnectResponse_ok v -> reads iarchive_ConnectResponse (ConnectResponse_wire v) (ConnectResponse_received v).
Proof. unfold ConnectResponse_ok. intros. split_facts. unfold iarchive_ConnectResponse, ConnectResponse_wire, ConnectResponse_received. reads_steps. Qed.
Lemma ConnectResponse_contained t : contained t true iarchive_ConnectResponse.
Proof. unfold iarchive_ConnectResponse. contained_steps. Qed.
#[export] Hint Resolve ConnectResponse_puts ConnectResponse_reads ConnectResponse_contained : archive.

(** ** [StringVec] *)

(* coev_zookeeper/proto.h:80-88 StringVec_ *)
Definition StringVec_ : Type := list (list Z).
(* coev_zookeeper/proto.cpp oarchive::StringVec *)
Definition oarchive_StringVec (v : StringVec_) : OA := put_vector serialize_string v.
(* coev_zookeeper/proto.cpp iarchive::StringVec *)
Definition iarchive_StringVec : IA StringVec_ := get_vector deserialize_string.
Definition StringVec_wire (v : StringVec_) : list Z := z_vector z_string v.
Definition StringVec_received (v : StringVec_) : dres StringVec_ := r_vector r_string v.
Definition StringVec_ok (v : StringVec_) : Prop := zvector_ok zstring_ok v.
Lemma StringVec_puts v : StringVec_ok v -> puts (oarchive_StringVec v) (StringVec_wire v).
Proof. apply puts_vector, puts_string. Qed.
Lemma StringVec_reads v : StringVec_ok v -> reads iarchive_StringVec (StringVec_wire v) (StringVec_received v).
Proof. apply reads_vector, reads_string. Qed.
Lemma StringVec_contained u : contained true u iarchive_StringVec.
Proof. apply contained_vector, contained_string. Qed.
#[export] Hint Resolve StringVec_puts StringVec_reads StringVec_contained : archive.

(** ** [SetWatches] *)

(* coev_zookeeper/proto.h:89-95 SetWatches_ *)
Record SetWatches_ := mkSetWatches {
  SetWatches_relativeZxid : Z; SetWatches_dataWatches : StringVec_;
  SetWatches_existWatches : StringVec_; SetWatches_childWatches : StringVec_ }.
(* coev_zookeeper/proto.cpp oarchive::SetWatches *)
Definition oarchive_SetWatches (v : SetWatches_) : OA :=
  try serialize_log (SetWatches_relativeZxid v) ;;;
  try oarchive_StringVec (SetWatches_dataWatches v) ;;;
  try oarchive_StringVec (SetWatches_existWatches v) ;;;
  try oarchive_StringVec (SetWatches_childWatches v) ;;;
  ret 0.
(* coev_zookeeper/proto.cpp iarchive::SetWatches *)
Definition iarchive_SetWatches : IA SetWatches_ :=
  let! relativeZxid := deserialize_long in
  let! dataWatches := iarchive_StringVec in
  let! existWatches := iarchive_StringVec in
  let! childWatches := iarchive_StringVec in
  ret (Ok (mkSetWatches relativeZxid dataWatches existWatches childWatches)).
Definition SetWatches_wire (v : SetWatches_) : list Z :=
  z_long (SetWatches_relativeZxid v) ++ StringVec_wire (SetWatches_dataWatches v) ++
  StringVec_wire (SetWatches_existWatches v) ++ StringVec_wire (SetWatches_childWatches v).
Definition SetWatches_received (v : SetWatches_) : dres SetWatches_ :=
  let? relativeZxid := r_long (SetWatches_relativeZxid v) in
  let? dataWatches := StringVec_received (SetWatches_dataWatches v) in
  let? existWatches := StringVec_received (SetWatches_existWatches v) in
  let? childWatches := StringVec_received (SetWatches_childWatches v) in
  Ok (mkSetWatches relativeZxid dataWatches existWatches childWatches).
Definition SetWatches_ok (v : SetWatches_) : Prop :=
  in_s 64 (SetWatches_relativeZxid v) /\ StringVec_ok (SetWatches_dataWatches v) /\
  StringVec_ok (SetWatches_existWatches v) /\ StringVec_ok (SetWatches_childWatches v).
Lemma SetWatches_puts v : SetWatches_ok v -> puts (oarchive_SetWatches v) (SetWatches_wire v).
Proof. unfold SetWatches_ok. intros. split_facts. unfold oarchive_SetWatches, SetWatches_wire. puts_steps. Qed.
Lemma SetWatches_reads v : SetWatches_ok v -> reads iarchive_SetWatches (SetWatches_wire v) (SetWatches_received v).
Proof. unfold SetWatches_ok. intros. split_facts. unfold iarchive_SetWatches, SetWatches_wire, SetWatches_received. reads_steps. Qed.
Lemma SetWatches_contained u : contained true u iarchive_SetWatches.
Proof. unfold iarchive_SetWatches. contained_steps. Qed.
#[export] Hint Resolve SetWatches_puts SetWatches_reads SetWatches_contained : archive.

(** ** [SetWatches2] *)

(* coev_zookeeper/proto.h:96-104 SetWatches2_ *)
Record SetWatches2_ := mkSetWatches2 {
  SetWatches2_relativeZxid : Z; SetWatches2_dataWatches : StringVec_;
  SetWatches2_existWatches : StringVec_; SetWatches2_childWatches : StringVec_;
  SetWatches2_persistentWatches : StringVec_; SetWatches2_persistentRecursiveWatches : StringVec_ }.
(* coev_zookeeper/proto.cpp oarchive::SetWatches2 *)
Definition oarchive_SetWatches2 (v : SetWatches2_) : OA :=
  try serialize_log (SetWatches2_relativeZxid v) ;;;
  try oarchive_StringVec (SetWatches2_dataWatches v) ;;;
  try oarchive_StringVec (SetWatches2_existWatches v) ;;;
  try oarchive_StringVec (SetWatches2_childWatches v) ;;;
  try oarchive_StringVec (SetWatches2_persistentWatches v) ;;;
  try oarchive_StringVec (SetWatches2_persistentRecursiveWatches v) ;;;
  ret 0.
(* coev_zookeeper/proto.cpp iarchive::SetWatches2 *)
Definition iarchive_SetWatches2 : IA SetWatches2_ :=
  let! relativeZxid := deserialize_long in
  let! dataWatches := iarchive_StringVec in
  let! existWatches := iarchive_StringVec in
  let! childWatches := iarchive_StringVec in
  let! persistentWatches := iarchive_StringVec in
  let! persistentRecursiveWatches := iarchive_StringVec in
  ret (Ok (mkSetWatches2 relativeZxid dataWatches existWatches childWatches persistentWatches persistentRecursiveWatches)).
Definition SetWatches2_wire (v : SetWatches2_) : list Z :=
  z_long (SetWatches2_relativeZxid v) ++ StringVec_wire (SetWatches2_dataWatches v) ++
  StringVec_wire (SetWatches2_existWatches v) ++ StringVec_wire (SetWatches2_childWatches v) ++
  StringVec_wire (SetWatches2_persistentWatches v) ++
  StringVec_wire (SetWatches2_persistentRecursiveWatches v).
Definition SetWatches2_received (v : SetWatches2_) : dres SetWatches2_ :=
  let? relativeZxid := r_long (SetWatches2_relativeZxid v) in
  let? dataWatches := StringVec_received (SetWatches2_dataWatches v) in
  let? existWatches := StringVec_received (SetWatches2_existWatches v) in
  let? childWatches := StringVec_received (SetWatches2_childWatches v) in
  let? persistentWatches := StringVec_received (SetWatches2_persistentWatches v) in
  let? persistentRecursiveWatches := StringVec_received (SetWatches2_persistentRecursiveWatches v) in
  Ok (mkSetWatches2 relativeZxid dataWatches existWatches childWatches persistentWatches persistentRecursiveWatches).
Definition SetWatches2_ok (v : SetWatches2_) : Prop :=
  in_s 64 (SetWatches2_relativeZxid v) /\ StringVec_ok (SetWatches2_dataWatches v) /\
  StringVec_ok (SetWatches2_existWatches v) /\ StringVec_ok (SetWatches2_childWatches v) /\
  StringVec_ok (SetWatches2_persistentWatches v) /\
  StringVec_ok (SetWatches2_persistentRecursiveWatches v).
Lemma SetWatches2_puts v : SetWatches2_ok v -> puts (oarchive_SetWatches2 v) (SetWatches2_wire v).
Proof. unfold SetWatches2_ok. intros. split_facts. unfold oarchive_SetWatches2, SetWatches2_wire. puts_steps. Qed.
Lemma SetWatches2_reads v : SetWatches2_ok v -> reads iarchive_SetWatches2 (SetWatches2_wire v) (SetWatches2_received v).
Proof. unfold SetWatches2_ok. intros. split_facts. unfold iarchive_SetWatches2, SetWatches2_wire, SetWatches2_received. reads_steps. Qed.
Lemma SetWatches2_contained u : contained true u iarchive_SetWatches2.
Proof. unfold iarchive_SetWatches2. contained_steps. Qed.
#[export] Hint Resolve SetWatches2_puts SetWatches2_reads SetWatches2_contained : archive.

(** ** [RequestHeader] *)

(* coev_zookeeper/proto.h:105-109 RequestHeader_ *)
Record RequestHeader_ := mkRequestHeader {
  RequestHeader_xid : Z; RequestHeader_type : Z }.
(* coev_zookeeper/proto.cpp oarchive::RequestHeader *)
Definition oarchive_RequestHeader (v : RequestHeader_) : OA :=
  try serialize_int (RequestHeader_xid v) ;;;
  try serialize_int (RequestHeader_type v) ;;;
  ret 0.
(* coev_zookeeper/proto.cpp iarchive::RequestHeader *)
Definition iarchive_RequestHeader : IA RequestHeader_ :=
  let! xid := deserialize_int in
  let! type := deserialize_int in
  ret (Ok (mkRequestHeader xid type)).
Definition RequestHeader_wire (v : RequestHeader_) : list Z :=
  z_int (RequestHeader_xid v) ++ z_int (RequestHeader_type v).
Definition RequestHeader_received (v : RequestHeader_) : dres RequestHeader_ :=
  let? xid := r_int (RequestHeader_xid v) in
  let? type := r_int (RequestHeader_type v) in
  Ok (mkRequestHeader xid type).
Definition RequestHeader_ok (v : RequestHeader_) : Prop :=
  in_s 32 (RequestHeader_xid v) /\ in_s 32 (RequestHeader_type v).
Lemma RequestHeader_puts v : RequestHeader_ok v -> puts (oarchive_RequestHeader v) (RequestHeader_wire v).
Proof. unfold RequestHeader_ok. intros. split_facts. unfold oarchive_RequestHeader, RequestHeader_wire. puts_steps. Qed.
Lemma RequestHeader_reads v : RequestHeader_ok v -> reads iarchive_RequestHeader (RequestHeader_wire v) (RequestHeader_received v).
Proof. unfold RequestHeader_ok. intros. split_facts. unfold iarchive_RequestHeader, RequestHeader_wire, RequestHeader_received. reads_steps. Qed.
Lemma RequestHeader_contained t u : contained t u iarchive_RequestHeader.
Proof. unfold iarchive_RequestHeader. contained_steps. Qed.
#[export] Hint Resolve RequestHeader_puts RequestHeader_reads RequestHeader_contained : archive.

(** ** [MultiHeader] *)

(* coev_zookeeper/proto.h:110-115 MultiHeader_ *)
Record MultiHeader_ := mkMultiHeader {
  MultiHeader_type : Z; MultiHeader_done : Z; MultiHeader_err : Z }.
(* coev_zookeeper/proto.cpp oarchive::MultiHeader *)
Definition oarchive_MultiHeader (v : MultiHeader_) : OA :=
  try serialize_int (MultiHeader_type v) ;;;
  try serialize_bool (MultiHeader_done v) ;;;
  try serialize_int (MultiHeader_err v) ;;;
  ret 0.
(* coev_zookeeper/proto.cpp iarchive::MultiHeader *)
Definition iarchive_MultiHeader : IA MultiHeader_ :=
  let! type := deserialize_int in
  let! done := deserialize_bool in
  let! err := deserialize_int in
  ret (Ok (mkMultiHeader type done err)).
Definition MultiHeader_wire (v : MultiHeader_) : list Z :=
  z_int (MultiHeader_type v) ++ z_bool (MultiHeader_done v) ++ z_int (MultiHeader_err v).
Definition MultiHeader_received (v : MultiHeader_) : dres MultiHeader_ :=
  let? type := r_int (MultiHeader_type v) in
  let? done := r_bool (MultiHeader_done v) in
  let? err := r_int (MultiHeader_err v) in
  Ok (mkMultiHeader type done err).
Definition MultiHeader_ok (v : MultiHeader_) : Prop :=
  in_s 32 (MultiHeader_type v) /\ in_s 32 (MultiHeader_done v) /\ in_s 32 (MultiHeader_err v).
Lemma MultiHeader_puts v : MultiHeader_ok v -> puts (oarchive_MultiHeader v) (MultiHeader_wire v).
Proof. unfold MultiHeader_ok. intros. split_facts. unfold oarchive_MultiHeader, MultiHeader_wire. puts_steps. Qed.
Lemma MultiHeader_reads v : MultiHeader_ok v -> reads iarchive_MultiHeader (MultiHeader_wire v) (MultiHeader_received v).
Proof. unfold MultiHeader_ok. intros. split_facts. unfold iarchive_MultiHeader, MultiHeader_wire, MultiHeader_received. reads_steps. Qed.
Lemma MultiHeader_contained t : contained t true iarchive_MultiHeader.
Proof. unfold iarchive_MultiHeader. contained_steps. Qed.
#[export] Hint Resolve MultiHeader_puts MultiHeader_reads MultiHeader_contained : archive.

(** ** [AuthPacket] *)

(* coev_zookeeper/proto.h:116-121 AuthPacket_ *)
Record AuthPacket_ := mkAuthPacket {
  AuthPacket_type : Z; AuthPacket_scheme : list Z; AuthPacket_auth : list Z }.
(* coev_zookeeper/proto.cpp oarchive::AuthPacket *)
Definition oarchive_AuthPacket (v : AuthPacket_) : OA :=
  try serialize_int (AuthPacket_type v) ;;;
  try serialize_string (AuthPacket_scheme v) ;;;
  try serialize_buffer (AuthPacket_auth v) ;;;
  ret 0.
(* coev_zookeeper/proto.cpp iarchive::AuthPacket *)
Definition iarchive_AuthPacket : IA AuthPacket_ :=
  let! type := deserialize_int in
  let! scheme := deserialize_string in
  let! auth := deserialize_buffer in
  ret (Ok (mkAuthPacket type scheme auth)).
Definition AuthPacket_wire (v : AuthPacket_) : list Z :=
  z_int (AuthPacket_type v) ++ z_string (AuthPacket_scheme v) ++ z_string (AuthPacket_auth v).
Definition AuthPacket_received (v : AuthPacket_) : dres AuthPacket_ :=
  let? type := r_int (AuthPacket_type v) in
  let? scheme := r_string (AuthPacket_scheme v) in
  let? auth := r_string (AuthPacket_auth v) in
  Ok (mkAuthPacket type scheme auth).
Definition AuthPacket_ok (v : AuthPacket_) : Prop :=
  in_s 32 (AuthPacket_type v) /\ zstring_ok (AuthPacket_scheme v) /\ zstring_ok (AuthPacket_auth v).
Lemma AuthPacket_puts v : AuthPacket_ok v -> puts (oarchive_AuthPacket v) (AuthPacket_wire v).
Proof. unfold AuthPacket_ok. intros. split_facts. unfold oarchive_AuthPacket, AuthPacket_wire. puts_steps. Qed.
Lemma AuthPacket_reads v : AuthPacket_ok v -> reads iarchive_AuthPacket (AuthPacket_wire v) (AuthPacket_received v).
Proof. unfold AuthPacket_ok. intros. split_facts. unfold iarchive_AuthPacket, AuthPacket_wire, AuthPacket_received. reads_steps. Qed.
Lemma AuthPacket_contained t u : contained t u iarchive_AuthPacket.
Proof. unfold iarchive_AuthPacket. contained_steps. Qed.
#[export] Hint Resolve AuthPacket_puts AuthPacket_reads AuthPacket_contained : archive.

(** ** [ReplyHeader] *)

(* coev_zookeeper/proto.h:122-127 ReplyHeader_ *)
Record ReplyHeader_ := mkReplyHeader {
  ReplyHeader_xid : Z; ReplyHeader_zxid : Z; ReplyHeader_err : Z }.
(* coev_zookeeper/proto.cpp oarchive::ReplyHeader *)
Definition oarchive_ReplyHeader (v : ReplyHeader_) : OA :=
  try serialize_int (ReplyHeader_xid v) ;;;
  try serialize_log (ReplyHeader_zxid v) ;;;
  try serialize_int (ReplyHeader_err v) ;;;
  ret 0.
(* coev_zookeeper/proto.cpp iarchive::ReplyHeader *)
Definition iarchive_ReplyHeader : IA ReplyHeader_ :=
  let! xid := deserialize_int in
  let! zxid := deserialize_long in
  let! err := deserialize_int in
  ret (Ok (mkReplyHeader xid zxid err)).
Definition ReplyHeader_wire (v : ReplyHeader_) : list Z :=
  z_int (ReplyHeader_xid v) ++ z_long (ReplyHeader_zxid v) ++ z_int (ReplyHeader_err v).
Definition ReplyHeader_received (v : ReplyHeader_) : dres ReplyHeader_ :=
  let? xid := r_int (ReplyHeader_xid v) in
  let? zxid := r_long (ReplyHeader_zxid v) in
  let? err := r_int (ReplyHeader_err v) in
  Ok (mkReplyHeader xid zxid err).
Definition ReplyHeader_ok (v : ReplyHeader_) : Prop :=
  in_s 32 (ReplyHeader_xid v) /\ in_s 64 (ReplyHeader_zxid v) /\ in_s 32 (ReplyHeader_err v).
Lemma ReplyHeader_puts v : ReplyHeader_ok v -> puts (oarchive_ReplyHeader v) (ReplyHeader_wire v).
Proof. unfold ReplyHeader_ok. intros. split_facts. unfold oarchive_ReplyHeader, ReplyHeader_wire. puts_steps. Qed.
Lemma ReplyHeader_reads v : ReplyHeader_ok v -> reads iarchive_ReplyHeader (ReplyHeader_wire v) (ReplyHeader_received v).
Proof. unfold ReplyHeader_ok. intros. split_facts. unfold iarchive_ReplyHeader, ReplyHeader_wire, ReplyHeader_received. reads_steps. Qed.
Lemma ReplyHeader_contained t u : contained t u iarchive_ReplyHeader.
Proof. unfold iarchive_ReplyHeader. contained_steps. Qed.
#[export] Hint Resolve ReplyHeader_puts ReplyHeader_reads ReplyHeader_contained : archive.

(** ** [GetDataRequest] *)

(* coev_zookeeper/proto.h:128-132 GetDataRequest_ *)
Record GetDataRequest_ := mkGetDataRequest {
  GetDataRequest_path : list Z; GetDataRequest_watch : Z }.
(* coev_zookeeper/proto.cpp oarchive::GetDataRequest *)
Definition oarchive_GetDataRequest (v : GetDataRequest_) : OA :=
  try serialize_string (GetDataRequest_path v) ;;;
  try serialize_bool (GetDataRequest_watch v) ;;;
  ret 0.
(* coev_zookeeper/proto.cpp iarchive::GetDataRequest *)
Definition iarchive_GetDataRequest : IA GetDataRequest_ :=
  let! path := deserialize_string in
  let! watch := deserialize_bool in
  ret (Ok (mkGetDataRequest path watch)).
Definition GetDataRequest_wire (v : GetDataRequest_) : list Z :=
  z_string (GetDataRequest_path v) ++ z_bool (GetDataRequest_watch v).
Definition GetDataRequest_received (v : GetDataRequest_) : dres GetDataRequest_ :=
  let? path := r_string (GetDataRequest_path v) in
  let? watch := r_bool (GetDataRequest_watch v) in
  Ok (mkGetDataRequest path watch).
Definition GetDataRequest_ok (v : GetDataRequest_) : Prop :=
  zstring_ok (GetDataRequest_path v) /\ in_s 32 (GetDataRequest_watch v).
Lemma GetDataRequest_puts v : GetDataRequest_ok v -> puts (oarchive_GetDataRequest v) (GetDataRequest_wire v).
Proof. unfold GetDataRequest_ok. intros. split_facts. unfold oarchive_GetDataRequest, GetDataRequest_wire. puts_steps. Qed.
Lemma GetDataRequest_reads v : GetDataRequest_ok v -> reads iarchive_GetDataRequest (GetDataRequest_wire v) (GetDataRequest_received v).
Proof. unfold GetDataRequest_ok. intros. split_facts. unfold iarchive_GetDataRequest, GetDataRequest_wire, GetDataRequest_received. reads_steps. Qed.
Lemma GetDataRequest_contained t : contained t true iarchive_GetDataRequest.
Proof. unfold iarchive_GetDataRequest. contained_steps. Qed.
#[export] Hint Resolve GetDataRequest_puts GetDataRequest_reads GetDataRequest_contained : archive.

(** ** [SetDataRequest] *)

(* coev_zookeeper/proto.h:133-138 SetDataRequest_ *)
Record SetDataRequest_ := mkSetDataRequest {
  SetDataRequest_path : list Z; SetDataRequest_data : list Z; SetDataRequest_version : Z }.
(* coev_zookeeper/proto.cpp oarchive::SetDataRequest *)
Definition oarchive_SetDataRequest (v : SetDataRequest_) : OA :=
  try serialize_string (SetDataRequest_path v) ;;;
  try serialize_buffer (SetDataRequest_data v) ;;;
  try serialize_int (SetDataRequest_version v) ;;;
  ret 0.
(* coev_zookeeper/proto.cpp iarchive::SetDataRequest *)
Definition iarchive_SetDataRequest : IA SetDataRequest_ :=
  let! path := deserialize_string in
  let! data := deserialize_buffer in
  let! version := deserialize_int in
  ret (Ok (mkSetDataRequest path data version)).
Definition SetDataRequest_wire (v : SetDataRequest_) : list Z :=
  z_string (SetDataRequest_path v) ++ z_string (SetDataRequest_data v) ++
  z_int (SetDataRequest_version v).
Definition SetDataRequest_received (v : SetDataRequest_) : dres SetDataRequest_ :=
  let? path := r_string (SetDataRequest_path v) in
  let? data := r_string (SetDataRequest_data v) in
  let? version := r_int (SetDataRequest_version v) in
  Ok (mkSetDataRequest path data version).
Definition SetDataRequest_ok (v : SetDataRequest_) : Prop :=
  zstring_ok (SetDataRequest_path v) /\ zstring_ok (SetDataRequest_data v) /\
  in_s 32 (SetDataRequest_version v).
Lemma SetDataRequest_puts v : SetDataRequest_ok v -> puts (oarchive_SetDataRequest v) (SetDataRequest_wire v).
Proof. unfold SetDataRequest_ok. intros. split_facts. unfold oarchive_SetDataRequest, SetDataRequest_wire. puts_steps. Qed.
Lemma SetDataRequest_reads v : SetDataRequest_ok v -> reads iarchive_SetDataRequest (SetDataRequest_wire v) (SetDataRequest_received v).
Proof. unfold SetDataRequest_ok. intros. split_facts. unfold iarchive_SetDataRequest, SetDataRequest_wire, SetDataRequest_received. reads_steps. Qed.
Lemma SetDataRequest_contained t u : contained t u iarchive_SetDataRequest.
Proof. unfold iarchive_SetDataRequest. contained_steps. Qed.
#[export] Hint Resolve SetDataRequest_puts SetDataRequest_reads SetDataRequest_contained : archive.

(** ** [ReconfigRequest] *)

(* coev_zookeeper/proto.h:139-145 ReconfigRequest_ *)
Record ReconfigRequest_ := mkReconfigRequest {
  ReconfigRequest_joiningServers : list Z; ReconfigRequest_leavingServers : list Z;
  ReconfigRequest_newMembers : list Z; ReconfigRequest_curConfigId : Z }.
(* coev_zookeeper/proto.cpp oarchive::ReconfigRequest *)
Definition oarchive_ReconfigRequest (v : ReconfigRequest_) : OA :=
  try serialize_string (ReconfigRequest_joiningServers v) ;;;
  try serialize_string (ReconfigRequest_leavingServers v) ;;;
  try serialize_string (ReconfigRequest_newMembers v) ;;;
  try serialize_log (ReconfigRequest_curConfigId v) ;;;
  ret 0.
(* coev_zookeeper/proto.cpp iarchive::ReconfigRequest *)
Definition iarchive_ReconfigRequest : IA ReconfigRequest_ :=
  let! joiningServers := deserialize_string in
  let! leavingServers := deserialize_string in
  let! newMembers := deserialize_string in
  let! curConfigId := deserialize_long in
  ret (Ok (mkReconfigRequest joiningServers leavingServers newMembers curConfigId)).
Definition ReconfigRequest_wire (v : ReconfigRequest_) : list Z :=
  z_string (ReconfigRequest_joiningServers v) ++ z_string (ReconfigRequest_leavingServers v) ++
  z_string (ReconfigRequest_newMembers v) ++ z_long (ReconfigRequest_curConfigId v).
Definition ReconfigRequest_received (v : ReconfigRequest_) : dres ReconfigRequest_ :=
  let? joiningServers := r_string (ReconfigRequest_joiningServers v) in
  let? leavingServers := r_string (ReconfigRequest_leavingServers v) in
  let? newMembers := r_string (ReconfigRequest_newMembers v) in
  let? curConfigId := r_long (ReconfigRequest_curConfigId v) in
  Ok (mkReconfigRequest joiningServers leavingServers newMembers curConfigId).
Definition ReconfigRequest_ok (v : ReconfigRequest_) : Prop :=
  zstring_ok (ReconfigRequest_joiningServers v) /\ zstring_ok (ReconfigRequest_leavingServers v) /\
  zstring_ok (ReconfigRequest_newMembers v) /\ in_s 64 (ReconfigRequest_curConfigId v).
Lemma ReconfigRequest_puts v : ReconfigRequest_ok v -> puts (oarchive_ReconfigRequest v) (ReconfigRequest_wire v).
Proof. unfold ReconfigRequest_ok. intros. split_facts. unfold oarchive_ReconfigRequest, ReconfigRequest_wire. puts_steps. Qed.
Lemma ReconfigRequest_reads v : ReconfigRequest_ok v -> reads iarchive_ReconfigRequest (ReconfigRequest_wire v) (ReconfigRequest_received v).
Proof. unfold ReconfigRequest_ok. intros. split_facts. unfold iarchive_ReconfigRequest, ReconfigRequest_wire, ReconfigRequest_received. reads_steps. Qed.
Lemma ReconfigRequest_contained t u : contained t u iarchive_ReconfigRequest.
Proof. unfold iarchive_ReconfigRequest. contained_steps. Qed.
#[export] Hint Resolve ReconfigRequest_puts ReconfigRequest_reads ReconfigRequest_contained : archive.

(** ** [SetDataResponse] *)

(* coev_zookeeper/proto.h:146-149 SetDataResponse_ *)
Record SetDataResponse_ := mkSetDataResponse {
  SetDataResponse_stat : Stat_ }.
(* coev_zookeeper/proto.cpp oarchive::SetDataResponse *)
Definition oarchive_SetDataResponse (v : SetDataResponse_) : OA :=
  try oarchive_Stat (SetDataResponse_stat v) ;;;
  ret 0.
(* coev_zookeeper/proto.cpp iarchive::SetDataResponse *)
Definition iarchive_SetDataResponse : IA SetDataResponse_ :=
  let! stat := iarchive_Stat in
  ret (Ok (mkSetDataResponse stat)).
Definition SetDataResponse_wire (v : SetDataResponse_) : list Z :=
  Stat_wire (SetDataResponse_stat v).
Definition SetDataResponse_received (v : SetDataResponse_) : dres SetDataResponse_ :=
  let? stat := Stat_received (SetDataResponse_stat v) in
  Ok (mkSetDataResponse stat).
Definition SetDataResponse_ok (v : SetDataResponse_) : Prop :=
  Stat_ok (SetDataResponse_stat v).
Lemma SetDataResponse_puts v : SetDataResponse_ok v -> puts (oarchive_SetDataResponse v) (SetDataResponse_wire v).
Proof. unfold SetDataResponse_ok. intros. split_facts. unfold oarchive_SetDataResponse, SetDataResponse_wire. puts_steps. Qed.
Lemma SetDataResponse_reads v : SetDataResponse_ok v -> reads iarchive_SetDataResponse (SetDataResponse_wire v) (SetDataResponse_received v).
Proof. unfold SetDataResponse_ok. intros. split_facts. unfold iarchive_SetDataResponse, SetDataResponse_wire, SetDataResponse_received. reads_steps. Qed.
Lemma SetDataResponse_contained t u : contained t u iarchive_SetDataResponse.
Proof. unfold iarchive_SetDataResponse. contained_steps. Qed.
#[export] Hint Resolve SetDataResponse_puts SetDataResponse_reads SetDataResponse_contained : archive.

(** ** [GetSASLRequest] *)

(* coev_zookeeper/proto.h:150-153 GetSASLRequest_ *)
Record GetSASLRequest_ := mkGetSASLRequest {
  GetSASLRequest_token : list Z }.
(* coev_zookeeper/proto.cpp oarchive::GetSASLRequest *)
Definition oarchive_GetSASLRequest (v : GetSASLRequest_) : OA :=
  try serialize_buffer (GetSASLRequest_token v) ;;;
  ret 0.
(* coev_zookeeper/proto.cpp iarchive::GetSASLRequest *)
Definition iarchive_GetSASLRequest : IA GetSASLRequest_ :=
  let! token := deserialize_buffer in
  ret (Ok (mkGetSASLRequest token)).
Definition GetSASLRequest_wire (v : GetSASLRequest_) : list Z :=
  z_string (GetSASLRequest_token v).
Definition GetSASLRequest_received (v : GetSASLRequest_) : dres GetSASLRequest_ :=
  let? token := r_string (GetSASLRequest_token v) in
  Ok (mkGetSASLRequest token).
Definition GetSASLRequest_ok (v : GetSASLRequest_) : Prop :=
  zstring_ok (GetSASLRequest_token v).
Lemma GetSASLRequest_puts v : GetSASLRequest_ok v -> puts (oarchive_GetSASLRequest v) (GetSASLRequest_wire v).
Proof. unfold GetSASLRequest_ok. intros. split_facts. unfold oarchive_GetSASLRequest, GetSASLRequest_wire. puts_steps. Qed.
Lemma GetSASLRequest_reads v : GetSASLRequest_ok v -> reads iarchive_GetSASLRequest (GetSASLRequest_wire v) (GetSASLRequest_received v).
Proof. unfold GetSASLRequest_ok. intros. split_facts. unfold iarchive_GetSASLRequest, GetSASLRequest_wire, GetSASLRequest_received. reads_steps. Qed.
Lemma GetSASLRequest_contained t u : contained t u iarchive_GetSASLRequest.
Proof. unfold iarchive_GetSASLRequest. contained_steps. Qed.
#[export] Hint Resolve GetSASLRequest_puts GetSASLRequest_reads GetSASLRequest_contained : archive.

(** ** [SetSASLRequest] *)

(* coev_zookeeper/proto.h:154-157 SetSASLRequest_ *)
Record SetSASLRequest_ := mkSetSASLRequest {
  SetSASLRequest_token : list Z }.
(* coev_zookeeper/proto.cpp oarchive::SetSASLRequest *)
Definition oarchive_SetSASLRequest (v : SetSASLRequest_) : OA :=
  try serialize_buffer (SetSASLRequest_token v) ;;;
  ret 0.
(* coev_zookeeper/proto.cpp iarchive::SetSASLRequest *)
Definition iarchive_SetSASLRequest : IA SetSASLRequest_ :=
  let! token := deserialize_buffer in
  ret (Ok (mkSetSASLRequest token)).
Definition SetSASLRequest_wire (v : SetSASLRequest_) : list Z :=
  z_string (SetSASLRequest_token v).
Definition SetSASLRequest_received (v : SetSASLRequest_) : dres SetSASLRequest_ :=
  let? token := r_string (SetSASLRequest_token v) in
  Ok (mkSetSASLRequest token).
Definition SetSASLRequest_ok (v : SetSASLRequest_) : Prop :=
  zstring_ok (SetSASLRequest_token v).
Lemma SetSASLRequest_puts v : SetSASLRequest_ok v -> puts (oarchive_SetSASLRequest v) (SetSASLRequest_wire v).
Proof. unfold SetSASLRequest_ok. intros. split_facts. unfold oarchive_SetSASLRequest, SetSASLRequest_wire. puts_steps. Qed.
Lemma SetSASLRequest_reads v : SetSASLRequest_ok v -> reads iarchive_SetSASLRequest (SetSASLRequest_wire v) (SetSASLRequest_received v).
Proof. unfold SetSASLRequest_ok. intros. split_facts. unfold iarchive_SetSASLRequest, SetSASLRequest_wire, SetSASLRequest_received. reads_steps. Qed.
Lemma SetSASLRequest_contained t u : contained t u iarchive_SetSASLRequest.
Proof. unfold iarchive_SetSASLRequest. contained_steps. Qed.
#[export] Hint Resolve SetSASLRequest_puts SetSASLRequest_reads SetSASLRequest_contained : archive.

(** ** [SetSASLResponse] *)

(* coev_zookeeper/proto.h:158-161 SetSASLResponse_ *)
Record SetSASLResponse_ := mkSetSASLResponse {
  SetSASLResponse_token : list Z }.
(* coev_zookeeper/proto.cpp oarchive::SetSASLResponse *)
Definition oarchive_SetSASLResponse (v : SetSASLResponse_) : OA :=
  try serialize_buffer (SetSASLResponse_token v) ;;;
  ret 0.
(* coev_zookeeper/proto.cpp iarchive::SetSASLResponse *)
Definition iarchive_SetSASLResponse : IA SetSASLResponse_ :=
  let! token := deserialize_buffer in
  ret (Ok (mkSetSASLResponse token)).
Definition SetSASLResponse_wire (v : SetSASLResponse_) : list Z :=
  z_string (SetSASLResponse_token v).
Definition SetSASLResponse_received (v : SetSASLResponse_) : dres SetSASLResponse_ :=
  let? token := r_string (SetSASLResponse_token v) in
  Ok (mkSetSASLResponse token).
Definition SetSASLResponse_ok (v : SetSASLResponse_) : Prop :=
  zstring_ok (SetSASLResponse_token v).
Lemma SetSASLResponse_puts v : SetSASLResponse_ok v -> puts (oarchive_SetSASLResponse v) (SetSASLResponse_wire v).
Proof. unfold SetSASLResponse_ok. intros. split_facts. unfold oarchive_SetSASLResponse, SetSASLResponse_wire. puts_steps. Qed.
Lemma SetSASLResponse_reads v : SetSASLResponse_ok v -> reads iarchive_SetSASLResponse (SetSASLResponse_wire v) (SetSASLResponse_received v).
Proof. unfold SetSASLResponse_ok. intros. split_facts. unfold iarchive_SetSASLResponse, SetSASLResponse_wire, SetSASLResponse_received. reads_steps. Qed.
Lemma SetSASLResponse_contained t u : contained t u iarchive_SetSASLResponse.
Proof. unfold iarchive_SetSASLResponse. contained_steps. Qed.
#[export] Hint Resolve SetSASLResponse_puts SetSASLResponse_reads SetSASLResponse_contained : archive.

(** ** [ACLVec] *)

(* coev_zookeeper/proto.h:162-164 ACLVec_ *)
Definition ACLVec_ : Type := list ACL_.
(** [count] is not set to the size: no entry is written. *)
(* coev_zookeeper/proto.cpp oarchive::ACLVec *)
Definition oarchive_ACLVec (v : ACLVec_) : OA :=
  let count := 0 in
  try serialize_int count ;;; for_try (take (Z.to_nat count) v) oarchive_ACL.
(* coev_zookeeper/proto.cpp iarchive::ACLVec *)
Definition iarchive_ACLVec : IA ACLVec_ := get_vector iarchive_ACL.
Definition ACLVec_wire (_ : ACLVec_) : list Z := be 4 0.
Definition ACLVec_received (_ : ACLVec_) : dres ACLVec_ := Ok [].
Definition ACLVec_ok (_ : ACLVec_) : Prop := True.
Lemma ACLVec_puts v : ACLVec_ok v -> puts (oarchive_ACLVec v) (ACLVec_wire v).
Proof. intros _. unfold oarchive_ACLVec, ACLVec_wire. rewrite take_0. apply puts_last, puts_int. Qed.
Lemma ACLVec_reads v : ACLVec_ok v -> reads iarchive_ACLVec (ACLVec_wire v) (ACLVec_received v).
Proof. intros _. apply (reads_vector _ ACL_wire ACL_received ACL_ok []); [apply ACL_reads|]. by split. Qed.
Lemma ACLVec_contained u : contained true u iarchive_ACLVec.
Proof. apply contained_vector, ACL_contained. Qed.
#[export] Hint Resolve ACLVec_puts ACLVec_reads ACLVec_contained : archive.

(** ** [CreateRequest] *)

(* coev_zookeeper/proto.h:166-173 CreateRequest_ *)
Record CreateRequest_ := mkCreateRequest {
  CreateRequest_path : list Z; CreateRequest_data : list Z; CreateRequest_acl : ACLVec_;
  CreateRequest_flags : Z }.
(* coev_zookeeper/proto.cpp oarchive::CreateRequest *)
Definition oarchive_CreateRequest (v : CreateRequest_) : OA :=
  try serialize_string (CreateRequest_path v) ;;;
  try serialize_buffer (CreateRequest_data v) ;;;
  try oarchive_ACLVec (CreateRequest_acl v) ;;;
  try serialize_int (CreateRequest_flags v) ;;;
  ret 0.
(* coev_zookeeper/proto.cpp iarchive::CreateRequest *)
Definition iarchive_CreateRequest : IA CreateRequest_ :=
  let! path := deserialize_string in
  let! data := deserialize_buffer in
  let! acl := iarchive_ACLVec in
  let! flags := deserialize_int in
  ret (Ok (mkCreateRequest path data acl flags)).
Definition CreateRequest_wire (v : CreateRequest_) : list Z :=
  z_string (CreateRequest_path v) ++ z_string (CreateRequest_data v) ++
  ACLVec_wire (CreateRequest_acl v) ++ z_int (CreateRequest_flags v).
Definition CreateRequest_received (v : CreateRequest_) : dres CreateRequest_ :=
  let? path := r_string (CreateRequest_path v) in
  let? data := r_string (CreateRequest_data v) in
  let? acl := ACLVec_received (CreateRequest_acl v) in
  let? flags := r_int (CreateRequest_flags v) in
  Ok (mkCreateRequest path data acl flags).
Definition CreateRequest_ok (v : CreateRequest_) : Prop :=
  zstring_ok (CreateRequest_path v) /\ zstring_ok (CreateRequest_data v) /\
  ACLVec_ok (CreateRequest_acl v) /\ in_s 32 (CreateRequest_flags v).
Lemma CreateRequest_puts v : CreateRequest_ok v -> puts (oarchive_CreateRequest v) (CreateRequest_wire v).
Proof. unfold CreateRequest_ok. intros. split_facts. unfold oarchive_CreateRequest, CreateRequest_wire. puts_steps. Qed.
Lemma CreateRequest_reads v : CreateRequest_ok v -> reads iarchive_CreateRequest (CreateRequest_wire v) (CreateRequest_received v).
Proof. unfold CreateRequest_ok. intros. split_facts. unfold iarchive_CreateRequest, CreateRequest_wire, CreateRequest_received. reads_steps. Qed.
Lemma CreateRequest_contained u : contained true u iarchive_CreateRequest.
Proof. unfold iarchive_CreateRequest. contained_steps. Qed.
#[export] Hint Resolve CreateRequest_puts CreateRequest_reads CreateRequest_contained : archive.

(** ** [CreateTTLRequest] *)

(* coev_zookeeper/proto.h:174-182 CreateTTLRequest_ *)
Record CreateTTLRequest_ := mkCreateTTLRequest {
  CreateTTLRequest_path : list Z; CreateTTLRequest_data : list Z; CreateTTLRequest_acl : ACLVec_;
  CreateTTLRequest_flags : Z; CreateTTLRequest_ttl : Z }.
(* coev_zookeeper/proto.cpp oarchive::CreateTTLRequest *)
Definition oarchive_CreateTTLRequest (v : CreateTTLRequest_) : OA :=
  try serialize_string (CreateTTLRequest_path v) ;;;
  try serialize_buffer (CreateTTLRequest_data v) ;;;
  try oarchive_ACLVec (CreateTTLRequest_acl v) ;;;
  try serialize_int (CreateTTLRequest_flags v) ;;;
  try serialize_log (CreateTTLRequest_ttl v) ;;;
  ret 0.
(* coev_zookeeper/proto.cpp iarchive::CreateTTLRequest *)
Definition iarchive_CreateTTLRequest : IA CreateTTLRequest_ :=
  let! path := deserialize_string in
  let! data := deserialize_buffer in
  let! acl := iarchive_ACLVec in
  let! flags := deserialize_int in
  let! ttl := deserialize_long in
  ret (Ok (mkCreateTTLRequest path data acl flags ttl)).
Definition CreateTTLRequest_wire (v : CreateTTLRequest_) : list Z :=
  z_string (CreateTTLRequest_path v) ++ z_string (CreateTTLRequest_data v) ++
  ACLVec_wire (CreateTTLRequest_acl v) ++ z_int (CreateTTLRequest_flags v) ++
  z_long (CreateTTLRequest_ttl v).
Definition CreateTTLRequest_received (v : CreateTTLRequest_) : dres CreateTTLRequest_ :=
  let? path := r_string (CreateTTLRequest_path v) in
  let? data := r_string (CreateTTLRequest_data v) in
  let? acl := ACLVec_received (CreateTTLRequest_acl v) in
  let? flags := r_int (CreateTTLRequest_flags v) in
  let? ttl := r_long (CreateTTLRequest_ttl v) in
  Ok (mkCreateTTLRequest path data acl flags ttl).
Definition CreateTTLRequest_ok (v : CreateTTLRequest_) : Prop :=
  zstring_ok (CreateTTLRequest_path v) /\ zstring_ok (CreateTTLRequest_data v) /\
  ACLVec_ok (CreateTTLRequest_acl v) /\ in_s 32 (CreateTTLRequest_flags v) /\
  in_s 64 (CreateTTLRequest_ttl v).
Lemma CreateTTLRequest_puts v : CreateTTLRequest_ok v -> puts (oarchive_CreateTTLRequest v) (CreateTTLRequest_wire v).
Proof. unfold CreateTTLRequest_ok. intros. split_facts. unfold oarchive_CreateTTLRequest, CreateTTLRequest_wire. puts_steps. Qed.
Lemma CreateTTLRequest_reads v : CreateTTLRequest_ok v -> reads iarchive_CreateTTLRequest (CreateTTLRequest_wire v) (CreateTTLRequest_received v).
Proof. unfold CreateTTLRequest_ok. intros. split_facts. unfold iarchive_CreateTTLRequest, CreateTTLRequest_wire, CreateTTLRequest_received. reads_steps. Qed.
Lemma CreateTTLRequest_contained u : contained true u iarchive_CreateTTLRequest.
Proof. unfold iarchive_CreateTTLRequest. contained_steps. Qed.
#[export] Hint Resolve CreateTTLRequest_puts CreateTTLRequest_reads CreateTTLRequest_contained : archive.

(** ** [DeleteRequest] *)

(* coev_zookeeper/proto.h:183-187 DeleteRequest_ *)
Record DeleteRequest_ := mkDeleteRequest {
  DeleteRequest_path : list Z; DeleteRequest_version : Z }.
(* coev_zookeeper/proto.cpp oarchive::DeleteRequest *)
Definition oarchive_DeleteRequest (v : DeleteRequest_) : OA :=
  try serialize_string (DeleteRequest_path v) ;;;
  try serialize_int (DeleteRequest_version v) ;;;
  ret 0.
(* coev_zookeeper/proto.cpp iarchive::DeleteRequest *)
Definition iarchive_DeleteRequest : IA DeleteRequest_ :=
  let! path := deserialize_string in
  let! version := deserialize_int in
  ret (Ok (mkDeleteRequest path version)).
Definition DeleteRequest_wire (v : DeleteRequest_) : list Z :=
  z_string (DeleteRequest_path v) ++ z_int (DeleteRequest_version v).
Definition DeleteRequest_received (v : DeleteRequest_) : dres DeleteRequest_ :=
  let? path := r_string (DeleteRequest_path v) in
  let? version := r_int (DeleteRequest_version v) in
  Ok (mkDeleteRequest path version).
Definition DeleteRequest_ok (v : DeleteRequest_) : Prop :=
  zstring_ok (DeleteRequest_path v) /\ in_s 32 (DeleteRequest_version v).
Lemma DeleteRequest_puts v : DeleteRequest_ok v -> puts (oarchive_DeleteRequest v) (DeleteRequest_wire v).
Proof. unfold DeleteRequest_ok. intros. split_facts. unfold oarchive_DeleteRequest, DeleteRequest_wire. puts_steps. Qed.
Lemma DeleteRequest_reads v : DeleteRequest_ok v -> reads iarchive_DeleteRequest (DeleteRequest_wire v) (DeleteRequest_received v).
Proof. unfold DeleteRequest_ok. intros. split_facts. unfold iarchive_DeleteRequest, DeleteRequest_wire, DeleteRequest_received. reads_steps. Qed.
Lemma DeleteRequest_contained t u : contained t u iarchive_DeleteRequest.
Proof. unfold iarchive_DeleteRequest. contained_steps. Qed.
#[export] Hint Resolve DeleteRequest_puts DeleteRequest_reads DeleteRequest_contained : archive.

(** ** [GetChildrenRequest] *)

(* coev_zookeeper/proto.h:188-192 GetChildrenRequest_ *)
Record GetChildrenRequest_ := mkGetChildrenRequest {
  GetChildrenRequest_path : list Z; GetChildrenRequest_watch : Z }.
(* coev_zookeeper/proto.cpp oarchive::GetChildrenRequest *)
Definition oarchive_GetChildrenRequest (v : GetChildrenRequest_) : OA :=
  try serialize_string (GetChildrenRequest_path v) ;;;
  try serialize_bool (GetChildrenRequest_watch v) ;;;
  ret 0.
(* coev_zookeeper/proto.cpp iarchive::GetChildrenRequest *)
Definition iarchive_GetChildrenRequest : IA GetChildrenRequest_ :=
  let! path := deserialize_string in
  let! watch := deserialize_bool in
  ret (Ok (mkGetChildrenRequest path watch)).
Definition GetChildrenRequest_wire (v : GetChildrenRequest_) : list Z :=
  z_string (GetChildrenRequest_path v) ++ z_bool (GetChildrenRequest_watch v).
Definition GetChildrenRequest_received (v : GetChildrenRequest_) : dres GetChildrenRequest_ :=
  let? path := r_string (GetChildrenRequest_path v) in
  let? watch := r_bool (GetChildrenRequest_watch v) in
  Ok (mkGetChildrenRequest path watch).
Definition GetChildrenRequest_ok (v : GetChildrenRequest_) : Prop :=
  zstring_ok (GetChildrenRequest_path v) /\ in_s 32 (GetChildrenRequest_watch v).
Lemma GetChildrenRequest_puts v : GetChildrenRequest_ok v -> puts (oarchive_GetChildrenRequest v) (GetChildrenRequest_wire v).
Proof. unfold GetChildrenRequest_ok. intros. split_facts. unfold oarchive_GetChildrenRequest, GetChildrenRequest_wire. puts_steps. Qed.
Lemma GetChildrenRequest_reads v : GetChildrenRequest_ok v -> reads iarchive_GetChildrenRequest (GetChildrenRequest_wire v) (GetChildrenRequest_received v).
Proof. unfold GetChildrenRequest_ok. intros. split_facts. unfold iarchive_GetChildrenRequest, GetChildrenRequest_wire, GetChildrenRequest_received. reads_steps. Qed.
Lemma GetChildrenRequest_contained t : contained t true iarchive_GetChildrenRequest.
Proof. unfold iarchive_GetChildrenRequest. contained_steps. Qed.
#[export] Hint Resolve GetChildrenRequest_puts GetChildrenRequest_reads GetChildrenRequest_contained : archive.

(** ** [GetAllChildrenNumberRequest] *)

(* coev_zookeeper/proto.h:193-196 GetAllChildrenNumberRequest_ *)
Record GetAllChildrenNumberRequest_ := mkGetAllChildrenNumberRequest {
  GetAllChildrenNumberRequest_path : list Z }.
(* coev_zookeeper/proto.cpp oarchive::GetAllChildrenNumberRequest *)
Definition oarchive_GetAllChildrenNumberRequest (v : GetAllChildrenNumberRequest_) : OA :=
  try serialize_string (GetAllChildrenNumberRequest_path v) ;;;
  ret 0.
(* coev_zookeeper/proto.cpp iarchive::GetAllChildrenNumberRequest *)
Definition iarchive_GetAllChildrenNumberRequest : IA GetAllChildrenNumberRequest_ :=
  let! path := deserialize_string in
  ret (Ok (mkGetAllChildrenNumberRequest path)).
Definition GetAllChildrenNumberRequest_wire (v : GetAllChildrenNumberRequest_) : list Z :=
  z_string (GetAllChildrenNumberRequest_path v).
Definition GetAllChildrenNumberRequest_received (v : GetAllChildrenNumberRequest_) : dres GetAllChildrenNumberRequest_ :=
  let? path := r_string (GetAllChildrenNumberRequest_path v) in
  Ok (mkGetAllChildrenNumberRequest path).
Definition GetAllChildrenNumberRequest_ok (v : GetAllChildrenNumberRequest_) : Prop :=
  zstring_ok (GetAllChildrenNumberRequest_path v).
Lemma GetAllChildrenNumberRequest_puts v : GetAllChildrenNumberRequest_ok v -> puts (oarchive_GetAllChildrenNumberRequest v) (GetAllChildrenNumberRequest_wire v).
Proof. unfold GetAllChildrenNumberRequest_ok. intros. split_facts. unfold oarchive_GetAllChildrenNumberRequest, GetAllChildrenNumberRequest_wire. puts_steps. Qed.
Lemma GetAllChildrenNumberRequest_reads v : GetAllChildrenNumberRequest_ok v -> reads iarchive_GetAllChildrenNumberRequest (GetAllChildrenNumberRequest_wire v) (GetAllChildrenNumberRequest_received v).
Proof. unfold GetAllChildrenNumberRequest_ok. intros. split_facts. unfold iarchive_GetAllChildrenNumberRequest, GetAllChildrenNumberRequest_wire, GetAllChildrenNumberRequest_received. reads_steps. Qed.
Lemma GetAllChildrenNumberRequest_contained t u : contained t u iarchive_GetAllChildrenNumberRequest.
Proof. unfold iarchive_GetAllChildrenNumberRequest. contained_steps. Qed.
#[export] Hint Resolve GetAllChildrenNumberRequest_puts GetAllChildrenNumberRequest_reads GetAllChildrenNumberRequest_contained : archive.

(** ** [GetChildren2Request] *)

(* coev_zookeeper/proto.h:197-201 GetChildren2Request_ *)
Record GetChildren2Request_ := mkGetChildren2Request {
  GetChildren2Request_path : list Z; GetChildren2Request_watch : Z }.
(* coev_zookeeper/proto.cpp oarchive::GetChildren2Request *)
Definition oarchive_GetChildren2Request (v : GetChildren2Request_) : OA :=
  try serialize_string (GetChildren2Request_path v) ;;;
  try serialize_bool (GetChildren2Request_watch v) ;;;
  ret 0.
(* coev_zookeeper/proto.cpp iarchive::GetChildren2Request *)
Definition iarchive_GetChildren2Request : IA GetChildren2Request_ :=
  let! path := deserialize_string in
  let! watch := deserialize_bool in
  ret (Ok (mkGetChildren2Request path watch)).
Definition GetChildren2Request_wire (v : GetChildren2Request_) : list Z :=
  z_string (GetChildren2Request_path v) ++ z_bool (GetChildren2Request_watch v).
Definition GetChildren2Request_received (v : GetChildren2Request_) : dres GetChildren2Request_ :=
  let? path := r_string (GetChildren2Request_path v) in
  let? watch := r_bool (GetChildren2Request_watch v) in
  Ok (mkGetChildren2Request path watch).
Definition GetChildren2Request_ok (v : GetChildren2Request_) : Prop :=
  zstring_ok (GetChildren2Request_path v) /\ in_s 32 (GetChildren2Request_watch v).
Lemma GetChildren2Request_puts v : GetChildren2Request_ok v -> puts (oarchive_GetChildren2Request v) (GetChildren2Request_wire v).
Proof. unfold GetChildren2Request_ok. intros. split_facts. unfold oarchive_GetChildren2Request, GetChildren2Request_wire. puts_steps. Qed.
Lemma GetChildren2Request_reads v : GetChildren2Request_ok v -> reads iarchive_GetChildren2Request (GetChildren2Request_wire v) (GetChildren2Request_received v).
Proof. unfold GetChildren2Request_ok. intros. split_facts. unfold iarchive_GetChildren2Request, GetChildren2Request_wire, GetChildren2Request_received. reads_steps. Qed.
Lemma GetChildren2Request_contained t : contained t true iarchive_GetChildren2Request.
Proof. unfold iarchive_GetChildren2Request. contained_steps. Qed.
#[export] Hint Resolve GetChildren2Request_puts GetChildren2Request_reads GetChildren2Request_contained : archive.

(** ** [CheckVersionRequest] *)

(* coev_zookeeper/proto.h:202-206 CheckVersionRequest_ *)
Record CheckVersionRequest_ := mkCheckVersionRequest {
  CheckVersionRequest_path : list Z; CheckVersionRequest_version : Z }.
(* coev_zookeeper/proto.cpp oarchive::CheckVersionRequest *)
Definition oarchive_CheckVersionRequest (v : CheckVersionRequest_) : OA :=
  try serialize_string (CheckVersionRequest_path v) ;;;
  try serialize_int (CheckVersionRequest_version v) ;;;
  ret 0.
(* coev_zookeeper/proto.cpp iarchive::CheckVersionRequest *)
Definition iarchive_CheckVersionRequest : IA CheckVersionRequest_ :=
  let! path := deserialize_string in
  let! version := deserialize_int in
  ret (Ok (mkCheckVersionRequest path version)).
Definition CheckVersionRequest_wire (v : CheckVersionRequest_) : list Z :=
  z_string (CheckVersionRequest_path v) ++ z_int (CheckVersionRequest_version v).
Definition CheckVersionRequest_received (v : CheckVersionRequest_) : dres CheckVersionRequest_ :=
  let? path := r_string (CheckVersionRequest_path v) in
  let? version := r_int (CheckVersionRequest_version v) in
  Ok (mkCheckVersionRequest path version).
Definition CheckVersionRequest_ok (v : CheckVersionRequest_) : Prop :=
  zstring_ok (CheckVersionRequest_path v) /\ in_s 32 (CheckVersionRequest_version v).
Lemma CheckVersionRequest_puts v : CheckVersionRequest_ok v -> puts (oarchive_CheckVersionRequest v) (CheckVersionRequest_wire v).
Proof. unfold CheckVersionRequest_ok. intros. split_facts. unfold oarchive_CheckVersionRequest, CheckVersionRequest_wire. puts_steps. Qed.
Lemma CheckVersionRequest_reads v : CheckVersionRequest_ok v -> reads iarchive_CheckVersionRequest (CheckVersionRequest_wire v) (CheckVersionRequest_received v).
Proof. unfold CheckVersionRequest_ok. intros. split_facts. unfold iarchive_CheckVersionRequest, CheckVersionRequest_wire, CheckVersionRequest_received. reads_steps. Qed.
Lemma CheckVersionRequest_contained t u : contained t u iarchive_CheckVersionRequest.
Proof. unfold iarchive_CheckVersionRequest. contained_steps. Qed.
#[export] Hint Resolve CheckVersionRequest_puts CheckVersionRequest_reads CheckVersionRequest_contained : archive.

(** ** [GetMaxChildrenRequest] *)

(* coev_zookeeper/proto.h:207-210 GetMaxChildrenRequest_ *)
Record GetMaxChildrenRequest_ := mkGetMaxChildrenRequest {
  GetMaxChildrenRequest_path : list Z }.
(* coev_zookeeper/proto.cpp oarchive::GetMaxChildrenRequest *)
Definition oarchive_GetMaxChildrenRequest (v : GetMaxChildrenRequest_) : OA :=
  try serialize_string (GetMaxChildrenRequest_path v) ;;;
  ret 0.
(* coev_zookeeper/proto.cpp iarchive::GetMaxChildrenRequest *)
Definition iarchive_GetMaxChildrenRequest : IA GetMaxChildrenRequest_ :=
  let! path := deserialize_string in
  ret (Ok (mkGetMaxChildrenRequest path)).
Definition GetMaxChildrenRequest_wire (v : GetMaxChildrenRequest_) : list Z :=
  z_string (GetMaxChildrenRequest_path v).
Definition GetMaxChildrenRequest_received (v : GetMaxChildrenRequest_) : dres GetMaxChildrenRequest_ :=
  let? path := r_string (GetMaxChildrenRequest_path v) in
  Ok (mkGetMaxChildrenRequest path).
Definition GetMaxChildrenRequest_ok (v : GetMaxChildrenRequest_) : Prop :=
  zstring_ok (GetMaxChildrenRequest_path v).
Lemma GetMaxChildrenRequest_puts v : GetMaxChildrenRequest_ok v -> puts (oarchive_GetMaxChildrenRequest v) (GetMaxChildrenRequest_wire v).
Proof. unfold GetMaxChildrenRequest_ok. intros. split_facts. unfold oarchive_GetMaxChildrenRequest, GetMaxChildrenRequest_wire. puts_steps. Qed.
Lemma GetMaxChildrenRequest_reads v : GetMaxChildrenRequest_ok v -> reads iarchive_GetMaxChildrenRequest (GetMaxChildrenRequest_wire v) (GetMaxChildrenRequest_received v).
Proof. unfold GetMaxChildrenRequest_ok. intros. split_facts. unfold iarchive_GetMaxChildrenRequest, GetMaxChildrenRequest_wire, GetMaxChildrenRequest_received. reads_steps. Qed.
Lemma GetMaxChildrenRequest_contained t u : contained t u iarchive_GetMaxChildrenRequest.
Proof. unfold iarchive_GetMaxChildrenRequest. contained_steps. Qed.
#[export] Hint Resolve GetMaxChildrenRequest_puts GetMaxChildrenRequest_reads GetMaxChildrenRequest_contained : archive.

(** ** [GetMaxChildrenResponse] *)

(* coev_zookeeper/proto.h:211-214 GetMaxChildrenResponse_ *)
Record GetMaxChildrenResponse_ := mkGetMaxChildrenResponse {
  GetMaxChildrenResponse_max : Z }.
(* coev_zookeeper/proto.cpp oarchive::GetMaxChildrenResponse *)
Definition oarchive_GetMaxChildrenResponse (v : GetMaxChildrenResponse_) : OA :=
  try serialize_int (GetMaxChildrenResponse_max v) ;;;
  ret 0.
(* coev_zookeeper/proto.cpp iarchive::GetMaxChildrenResponse *)
Definition iarchive_GetMaxChildrenResponse : IA GetMaxChildrenResponse_ :=
  let! max := deserialize_int in
  ret (Ok (mkGetMaxChildrenResponse max)).
Definition GetMaxChildrenResponse_wire (v : GetMaxChildrenResponse_) : list Z :=
  z_int (GetMaxChildrenResponse_max v).
Definition GetMaxChildrenResponse_received (v : GetMaxChildrenResponse_) : dres GetMaxChildrenResponse_ :=
  let? max := r_int (GetMaxChildrenResponse_max v) in
  Ok (mkGetMaxChildrenResponse max).
Definition GetMaxChildrenResponse_ok (v : GetMaxChildrenResponse_) : Prop :=
  in_s 32 (GetMaxChildrenResponse_max v).
Lemma GetMaxChildrenResponse_puts v : GetMaxChildrenResponse_ok v -> puts (oarchive_GetMaxChildrenResponse v) (GetMaxChildrenResponse_wire v).
Proof. unfold GetMaxChildrenResponse_ok. intros. split_facts. unfold oarchive_GetMaxChildrenResponse, GetMaxChildrenResponse_wire. puts_steps. Qed.
Lemma GetMaxChildrenResponse_reads v : GetMaxChildrenResponse_ok v -> reads iarchive_GetMaxChildrenResponse (GetMaxChildrenResponse_wire v) (GetMaxChildrenResponse_received v).
Proof. unfold GetMaxChildrenResponse_ok. intros. split_facts. unfold iarchive_GetMaxChildrenResponse, GetMaxChildrenResponse_wire, GetMaxChildrenResponse_received. reads_steps. Qed.
Lemma GetMaxChildrenResponse_contained t u : contained t u iarchive_GetMaxChildrenResponse.
Proof. unfold iarchive_GetMaxChildrenResponse. contained_steps. Qed.
#[export] Hint Resolve GetMaxChildrenResponse_puts GetMaxChildrenResponse_reads GetMaxChildrenResponse_contained : archive.

(** ** [SetMaxChildrenRequest] *)

(* coev_zookeeper/proto.h:215-219 SetMaxChildrenRequest_ *)
Record SetMaxChildrenRequest_ := mkSetMaxChildrenRequest {
  SetMaxChildrenRequest_path : list Z; SetMaxChildrenRequest_max : Z }.
(* coev_zookeeper/proto.cpp oarchive::SetMaxChildrenRequest *)
Definition oarchive_SetMaxChildrenRequest (v : SetMaxChildrenRequest_) : OA :=
  try serialize_string (SetMaxChildrenRequest_path v) ;;;
  try serialize_int (SetMaxChildrenRequest_max v) ;;;
  ret 0.
(* coev_zookeeper/proto.cpp iarchive::SetMaxChildrenRequest *)
Definition iarchive_SetMaxChildrenRequest : IA SetMaxChildrenRequest_ :=
  let! path := deserialize_string in
  let! max := deserialize_int in
  ret (Ok (mkSetMaxChildrenRequest path max)).
Definition SetMaxChildrenRequest_wire (v : SetMaxChildrenRequest_) : list Z :=
  z_string (SetMaxChildrenRequest_path v) ++ z_int (SetMaxChildrenRequest_max v).
Definition SetMaxChildrenRequest_received (v : SetMaxChildrenRequest_) : dres SetMaxChildrenRequest_ :=
  let? path := r_string (SetMaxChildrenRequest_path v) in
  let? max := r_int (SetMaxChildrenRequest_max v) in
  Ok (mkSetMaxChildrenRequest path max).
Definition SetMaxChildrenRequest_ok (v : SetMaxChildrenRequest_) : Prop :=
  zstring_ok (SetMaxChildrenRequest_path v) /\ in_s 32 (SetMaxChildrenRequest_max v).
Lemma SetMaxChildrenRequest_puts v : SetMaxChildrenRequest_ok v -> puts (oarchive_SetMaxChildrenRequest v) (SetMaxChildrenRequest_wire v).
Proof. unfold SetMaxChildrenRequest_ok. intros. split_facts. unfold oarchive_SetMaxChildrenRequest, SetMaxChildrenRequest_wire. puts_steps. Qed.
Lemma SetMaxChildrenRequest_reads v : SetMaxChildrenRequest_ok v -> reads iarchive_SetMaxChildrenRequest (SetMaxChildrenRequest_wire v) (SetMaxChildrenRequest_received v).
Proof. unfold SetMaxChildrenRequest_ok. intros. split_facts. unfold iarchive_SetMaxChildrenRequest, SetMaxChildrenRequest_wire, SetMaxChildrenRequest_received. reads_steps. Qed.
Lemma SetMaxChildrenRequest_contained t u : contained t u iarchive_SetMaxChildrenRequest.
Proof. unfold iarchive_SetMaxChildrenRequest. contained_steps. Qed.
#[export] Hint Resolve SetMaxChildrenRequest_puts SetMaxChildrenRequest_reads SetMaxChildrenRequest_contained : archive.

(** ** [SyncRequest] *)

(* coev_zookeeper/proto.h:220-223 SyncRequest_ *)
Record SyncRequest_ := mkSyncRequest {
  SyncRequest_path : list Z }.
(* coev_zookeeper/proto.cpp oarchive::SyncRequest *)
Definition oarchive_SyncRequest (v : SyncRequest_) : OA :=
  try serialize_string (SyncRequest_path v) ;;;
  ret 0.
(* coev_zookeeper/proto.cpp iarchive::SyncRequest *)
Definition iarchive_SyncRequest : IA SyncRequest_ :=
  let! path := deserialize_string in
  ret (Ok (mkSyncRequest path)).
Definition SyncRequest_wire (v : SyncRequest_) : list Z :=
  z_string (SyncRequest_path v).
Definition SyncRequest_received (v : SyncRequest_) : dres SyncRequest_ :=
  let? path := r_string (SyncRequest_path v) in
  Ok (mkSyncRequest path).
Definition SyncRequest_ok (v : SyncRequest_) : Prop :=
  zstring_ok (SyncRequest_path v).
Lemma SyncRequest_puts v : SyncRequest_ok v -> puts (oarchive_SyncRequest v) (SyncRequest_wire v).
Proof. unfold SyncRequest_ok. intros. split_facts. unfold oarchive_SyncRequest, SyncRequest_wire. puts_steps. Qed.
Lemma SyncRequest_reads v : SyncRequest_ok v -> reads iarchive_SyncRequest (SyncRequest_wire v) (SyncRequest_received v).
Proof. unfold SyncRequest_ok. intros. split_facts. unfold iarchive_SyncRequest, SyncRequest_wire, SyncRequest_received. reads_steps. Qed.
Lemma SyncRequest_contained t u : contained t u iarchive_SyncRequest.
Proof. unfold iarchive_SyncRequest. contained_steps. Qed.
#[export] Hint Resolve SyncRequest_puts SyncRequest_reads SyncRequest_contained : archive.

(** ** [SyncResponse] *)

(* coev_zookeeper/proto.h:224-227 SyncResponse_ *)
Record SyncResponse_ := mkSyncResponse {
  SyncResponse_path : list Z }.
(* coev_zookeeper/proto.cpp oarchive::SyncResponse *)
Definition oarchive_SyncResponse (v : SyncResponse_) : OA :=
  try serialize_string (SyncResponse_path v) ;;;
  ret 0.
(* coev_zookeeper/proto.cpp iarchive::SyncResponse *)
Definition iarchive_SyncResponse : IA SyncResponse_ :=
  let! path := deserialize_string in
  ret (Ok (mkSyncResponse path)).
Definition SyncResponse_wire (v : SyncResponse_) : list Z :=
  z_string (SyncResponse_path v).
Definition SyncResponse_received (v : SyncResponse_) : dres SyncResponse_ :=
  let? path := r_string (SyncResponse_path v) in
  Ok (mkSyncResponse path).
Definition SyncResponse_ok (v : SyncResponse_) : Prop :=
  zstring_ok (SyncResponse_path v).
Lemma SyncResponse_puts v : SyncResponse_ok v -> puts (oarchive_SyncResponse v) (SyncResponse_wire v).
Proof. unfold SyncResponse_ok. intros. split_facts. unfold oarchive_SyncResponse, SyncResponse_wire. puts_steps. Qed.
Lemma SyncResponse_reads v : SyncResponse_ok v -> reads iarchive_SyncResponse (SyncResponse_wire v) (SyncResponse_received v).
Proof. unfold SyncResponse_ok. intros. split_facts. unfold iarchive_SyncResponse, SyncResponse_wire, SyncResponse_received. reads_steps. Qed.
Lemma SyncResponse_contained t u : contained t u iarchive_SyncResponse.
Proof. unfold iarchive_SyncResponse. contained_steps. Qed.
#[export] Hint Resolve SyncResponse_puts SyncResponse_reads SyncResponse_contained : archive.

(** ** [GetACLRequest] *)

(* coev_zookeeper/proto.h:228-231 GetACLRequest_ *)
Record GetACLRequest_ := mkGetACLRequest {
  GetACLRequest_path : list Z }.
(* coev_zookeeper/proto.cpp oarchive::GetACLRequest *)
Definition oarchive_GetACLRequest (v : GetACLRequest_) : OA :=
  try serialize_string (GetACLRequest_path v) ;;;
  ret 0.
(* coev_zookeeper/proto.cpp iarchive::GetACLRequest *)
Definition iarchive_GetACLRequest : IA GetACLRequest_ :=
  let! path := deserialize_string in
  ret (Ok (mkGetACLRequest path)).
Definition GetACLRequest_wire (v : GetACLRequest_) : list Z :=
  z_string (GetACLRequest_path v).
Definition GetACLRequest_received (v : GetACLRequest_) : dres GetACLRequest_ :=
  let? path := r_string (GetACLRequest_path v) in
  Ok (mkGetACLRequest path).
Definition GetACLRequest_ok (v : GetACLRequest_) : Prop :=
  zstring_ok (GetACLRequest_path v).
Lemma GetACLRequest_puts v : GetACLRequest_ok v -> puts (oarchive_GetACLRequest v) (GetACLRequest_wire v).
Proof. unfold GetACLRequest_ok. intros. split_facts. unfold oarchive_GetACLRequest, GetACLRequest_wire. puts_steps. Qed.
Lemma GetACLRequest_reads v : GetACLRequest_ok v -> reads iarchive_GetACLRequest (GetACLRequest_wire v) (GetACLRequest_received v).
Proof. unfold GetACLRequest_ok. intros. split_facts. unfold iarchive_GetACLRequest, GetACLRequest_wire, GetACLRequest_received. reads_steps. Qed.
Lemma GetACLRequest_contained t u : contained t u iarchive_GetACLRequest.
Proof. unfold iarchive_GetACLRequest. contained_steps. Qed.
#[export] Hint Resolve GetACLRequest_puts GetACLRequest_reads GetACLRequest_contained : archive.

(** ** [SetACLRequest] *)

(* coev_zookeeper/proto.h:232-237 SetACLRequest_ *)
Record SetACLRequest_ := mkSetACLRequest {
  SetACLRequest_path : list Z; SetACLRequest_acl : ACLVec_; SetACLRequest_version : Z }.
(* coev_zookeeper/proto.cpp oarchive::SetACLRequest *)
Definition oarchive_SetACLRequest (v : SetACLRequest_) : OA :=
  try serialize_string (SetACLRequest_path v) ;;;
  try oarchive_ACLVec (SetACLRequest_acl v) ;;;
  try serialize_int (SetACLRequest_version v) ;;;
  ret 0.
(* coev_zookeeper/proto.cpp iarchive::SetACLRequest *)
Definition iarchive_SetACLRequest : IA SetACLRequest_ :=
  let! path := deserialize_string in
  let! acl := iarchive_ACLVec in
  let! version := deserialize_int in
  ret (Ok (mkSetACLRequest path acl version)).
Definition SetACLRequest_wire (v : SetACLRequest_) : list Z :=
  z_string (SetACLRequest_path v) ++ ACLVec_wire (SetACLRequest_acl v) ++
  z_int (SetACLRequest_version v).
Definition SetACLRequest_received (v : SetACLRequest_) : dres SetACLRequest_ :=
  let? path := r_string (SetACLRequest_path v) in
  let? acl := ACLVec_received (SetACLRequest_acl v) in
  let? version := r_int (SetACLRequest_version v) in
  Ok (mkSetACLRequest path acl version).
Definition SetACLRequest_ok (v : SetACLRequest_) : Prop :=
  zstring_ok (SetACLRequest_path v) /\ ACLVec_ok (SetACLRequest_acl v) /\
  in_s 32 (SetACLRequest_version v).
Lemma SetACLRequest_puts v : SetACLRequest_ok v -> puts (oarchive_SetACLRequest v) (SetACLRequest_wire v).
Proof. unfold SetACLRequest_ok. intros. split_facts. unfold oarchive_SetACLRequest, SetACLRequest_wire. puts_steps. Qed.
Lemma SetACLRequest_reads v : SetACLRequest_ok v -> reads iarchive_SetACLRequest (SetACLRequest_wire v) (SetACLRequest_received v).
Proof. unfold SetACLRequest_ok. intros. split_facts. unfold iarchive_SetACLRequest, SetACLRequest_wire, SetACLRequest_received. reads_steps. Qed.
Lemma SetACLRequest_contained u : contained true u iarchive_SetACLRequest.
Proof. unfold iarchive_SetACLRequest. contained_steps. Qed.
#[export] Hint Resolve SetACLRequest_puts SetACLRequest_reads SetACLRequest_contained : archive.

(** ** [SetACLResponse] *)

(* coev_zookeeper/proto.h:238-241 SetACLResponse_ *)
Record SetACLResponse_ := mkSetACLResponse {
  SetACLResponse_stat : Stat_ }.
(* coev_zookeeper/proto.cpp oarchive::SetACLResponse *)
Definition oarchive_SetACLResponse (v : SetACLResponse_) : OA :=
  try oarchive_Stat (SetACLResponse_stat v) ;;;
  ret 0.
(* coev_zookeeper/proto.cpp iarchive::SetACLResponse *)
Definition iarchive_SetACLResponse : IA SetACLResponse_ :=
  let! stat := iarchive_Stat in
  ret (Ok (mkSetACLResponse stat)).
Definition SetACLResponse_wire (v : SetACLResponse_) : list Z :=
  Stat_wire (SetACLResponse_stat v).
Definition SetACLResponse_received (v : SetACLResponse_) : dres SetACLResponse_ :=
  let? stat := Stat_received (SetACLResponse_stat v) in
  Ok (mkSetACLResponse stat).
Definition SetACLResponse_ok (v : SetACLResponse_) : Prop :=
  Stat_ok (SetACLResponse_stat v).
Lemma SetACLResponse_puts v : SetACLResponse_ok v -> puts (oarchive_SetACLResponse v) (SetACLResponse_wire v).
Proof. unfold SetACLResponse_ok. intros. split_facts. unfold oarchive_SetACLResponse, SetACLResponse_wire. puts_steps. Qed.
Lemma SetACLResponse_reads v : SetACLResponse_ok v -> reads iarchive_SetACLResponse (SetACLResponse_wire v) (SetACLResponse_received v).
Proof. unfold SetACLResponse_ok. intros. split_facts. unfold iarchive_SetACLResponse, SetACLResponse_wire, SetACLResponse_received. reads_steps. Qed.
Lemma SetACLResponse_contained t u : contained t u iarchive_SetACLResponse.
Proof. unfold iarchive_SetACLResponse. contained_steps. Qed.
#[export] Hint Resolve SetACLResponse_puts SetACLResponse_reads SetACLResponse_contained : archive.

(** ** [AddWatchRequest] *)

(* coev_zookeeper/proto.h:242-246 AddWatchRequest_ *)
Record AddWatchRequest_ := mkAddWatchRequest {
  AddWatchRequest_path : list Z; AddWatchRequest_mode : Z }.
(* coev_zookeeper/proto.cpp oarchive::AddWatchRequest *)
Definition oarchive_AddWatchRequest (v : AddWatchRequest_) : OA :=
  try serialize_string (AddWatchRequest_path v) ;;;
  try serialize_int (AddWatchRequest_mode v) ;;;
  ret 0.
(* coev_zookeeper/proto.cpp iarchive::AddWatchRequest *)
Definition iarchive_AddWatchRequest : IA AddWatchRequest_ :=
  let! path := deserialize_string in
  let! mode := deserialize_int in
  ret (Ok (mkAddWatchRequest path mode)).
Definition AddWatchRequest_wire (v : AddWatchRequest_) : list Z :=
  z_string (AddWatchRequest_path v) ++ z_int (AddWatchRequest_mode v).
Definition AddWatchRequest_received (v : AddWatchRequest_) : dres AddWatchRequest_ :=
  let? path := r_string (AddWatchRequest_path v) in
  let? mode := r_int (AddWatchRequest_mode v) in
  Ok (mkAddWatchRequest path mode).
Definition AddWatchRequest_ok (v : AddWatchRequest_) : Prop :=
  zstring_ok (AddWatchRequest_path v) /\ in_s 32 (AddWatchRequest_mode v).
Lemma AddWatchRequest_puts v : AddWatchRequest_ok v -> puts (oarchive_AddWatchRequest v) (AddWatchRequest_wire v).
Proof. unfold AddWatchRequest_ok. intros. split_facts. unfold oarchive_AddWatchRequest, AddWatchRequest_wire. puts_steps. Qed.
Lemma AddWatchRequest_reads v : AddWatchRequest_ok v -> reads iarchive_AddWatchRequest (AddWatchRequest_wire v) (AddWatchRequest_received v).
Proof. unfold AddWatchRequest_ok. intros. split_facts. unfold iarchive_AddWatchRequest, AddWatchRequest_wire, AddWatchRequest_received. reads_steps. Qed.
Lemma AddWatchRequest_contained t u : contained t u iarchive_AddWatchRequest.
Proof. unfold iarchive_AddWatchRequest. contained_steps. Qed.
#[export] Hint Resolve AddWatchRequest_puts AddWatchRequest_reads AddWatchRequest_contained : archive.

(** ** [WatcherEvent] *)

(* coev_zookeeper/proto.h:247-253 WatcherEvent_ *)
Record WatcherEvent_ := mkWatcherEvent {
  WatcherEvent_type : Z; WatcherEvent_state : Z; WatcherEvent_path : list Z }.
(* coev_zookeeper/proto.cpp oarchive::WatcherEvent *)
Definition oarchive_WatcherEvent (v : WatcherEvent_) : OA :=
  try serialize_int (WatcherEvent_type v) ;;;
  try serialize_int (WatcherEvent_state v) ;;;
  try serialize_string (WatcherEvent_path v) ;;;
  ret 0.
(* coev_zookeeper/proto.cpp iarchive::WatcherEvent *)
Definition iarchive_WatcherEvent : IA WatcherEvent_ :=
  let! type := deserialize_int in
  let! state := deserialize_int in
  let! path := deserialize_string in
  ret (Ok (mkWatcherEvent type state path)).
Definition WatcherEvent_wire (v : WatcherEvent_) : list Z :=
  z_int (WatcherEvent_type v) ++ z_int (WatcherEvent_state v) ++ z_string (WatcherEvent_path v).
Definition WatcherEvent_received (v : WatcherEvent_) : dres WatcherEvent_ :=
  let? type := r_int (WatcherEvent_type v) in
  let? state := r_int (WatcherEvent_state v) in
  let? path := r_string (WatcherEvent_path v) in
  Ok (mkWatcherEvent type state path).
Definition WatcherEvent_ok (v : WatcherEvent_) : Prop :=
  in_s 32 (WatcherEvent_type v) /\ in_s 32 (WatcherEvent_state v) /\
  zstring_ok (WatcherEvent_path v).
Lemma WatcherEvent_puts v : WatcherEvent_ok v -> puts (oarchive_WatcherEvent v) (WatcherEvent_wire v).
Proof. unfold WatcherEvent_ok. intros. split_facts. unfold oarchive_WatcherEvent, WatcherEvent_wire. puts_steps. Qed.
Lemma WatcherEvent_reads v : WatcherEvent_ok v -> reads iarchive_WatcherEvent (WatcherEvent_wire v) (WatcherEvent_received v).
Proof. unfold WatcherEvent_ok. intros. split_facts. unfold iarchive_WatcherEvent, WatcherEvent_wire, WatcherEvent_received. reads_steps. Qed.
Lemma WatcherEvent_contained t u : contained t u iarchive_WatcherEvent.
Proof. unfold iarchive_WatcherEvent. contained_steps. Qed.
#[export] Hint Resolve WatcherEvent_puts WatcherEvent_reads WatcherEvent_contained : archive.

(** ** [ErrorResponse] *)

(* coev_zookeeper/proto.h:254-257 ErrorResponse_ *)
Record ErrorResponse_ := mkErrorResponse {
  ErrorResponse_err : Z }.
(* coev_zookeeper/proto.cpp oarchive::ErrorResponse *)
Definition oarchive_ErrorResponse (v : ErrorResponse_) : OA :=
  try serialize_int (ErrorResponse_err v) ;;;
  ret 0.
(* coev_zookeeper/proto.cpp iarchive::ErrorResponse *)
Definition iarchive_ErrorResponse : IA ErrorResponse_ :=
  let! err := deserialize_int in
  ret (Ok (mkErrorResponse err)).
Definition ErrorResponse_wire (v : ErrorResponse_) : list Z :=
  z_int (ErrorResponse_err v).
Definition ErrorResponse_received (v : ErrorResponse_) : dres ErrorResponse_ :=
  let? err := r_int (ErrorResponse_err v) in
  Ok (mkErrorResponse err).
Definition ErrorResponse_ok (v : ErrorResponse_) : Prop :=
  in_s 32 (ErrorResponse_err v).
Lemma ErrorResponse_puts v : ErrorResponse_ok v -> puts (oarchive_ErrorResponse v) (ErrorResponse_wire v).
Proof. unfold ErrorResponse_ok. intros. split_facts. unfold oarchive_ErrorResponse, ErrorResponse_wire. puts_steps. Qed.
Lemma ErrorResponse_reads v : ErrorResponse_ok v -> reads iarchive_ErrorResponse (ErrorResponse_wire v) (ErrorResponse_received v).
Proof. unfold ErrorResponse_ok. intros. split_facts. unfold iarchive_ErrorResponse, ErrorResponse_wire, ErrorResponse_received. reads_steps. Qed.
Lemma ErrorResponse_contained t u : contained t u iarchive_ErrorResponse.
Proof. unfold iarchive_ErrorResponse. contained_steps. Qed.
#[export] Hint Resolve ErrorResponse_puts ErrorResponse_reads ErrorResponse_contained : archive.

(** ** [CreateResponse] *)

(* coev_zookeeper/proto.h:258-261 CreateResponse_ *)
Record CreateResponse_ := mkCreateResponse {
  CreateResponse_path : list Z }.
(* coev_zookeeper/proto.cpp oarchive::CreateResponse *)
Definition oarchive_CreateResponse (v : CreateResponse_) : OA :=
  try serialize_string (CreateResponse_path v) ;;;
  ret 0.
(* coev_zookeeper/proto.cpp iarchive::CreateResponse *)
Definition iarchive_CreateResponse : IA CreateResponse_ :=
  let! path := deserialize_string in
  ret (Ok (mkCreateResponse path)).
Definition CreateResponse_wire (v : CreateResponse_) : list Z :=
  z_string (CreateResponse_path v).
Definition CreateResponse_received (v : CreateResponse_) : dres CreateResponse_ :=
  let? path := r_string (CreateResponse_path v) in
  Ok (mkCreateResponse path).
Definition CreateResponse_ok (v : CreateResponse_) : Prop :=
  zstring_ok (CreateResponse_path v).
Lemma CreateResponse_puts v : CreateResponse_ok v -> puts (oarchive_CreateResponse v) (CreateResponse_wire v).
Proof. unfold CreateResponse_ok. intros. split_facts. unfold oarchive_CreateResponse, CreateResponse_wire. puts_steps. Qed.
Lemma CreateResponse_reads v : CreateResponse_ok v -> reads iarchive_CreateResponse (CreateResponse_wire v) (CreateResponse_received v).
Proof. unfold CreateResponse_ok. intros. split_facts. unfold iarchive_CreateResponse, CreateResponse_wire, CreateResponse_received. reads_steps. Qed.
Lemma CreateResponse_contained t u : contained t u iarchive_CreateResponse.
Proof. unfold iarchive_CreateResponse. contained_steps. Qed.
#[export] Hint Resolve CreateResponse_puts CreateResponse_reads CreateResponse_contained : archive.

(** ** [Create2Response] *)

(* coev_zookeeper/proto.h:262-266 Create2Response_ *)
Record Create2Response_ := mkCreate2Response {
  Create2Response_path : list Z; Create2Response_stat : Stat_ }.
(* coev_zookeeper/proto.cpp oarchive::Create2Response *)
Definition oarchive_Create2Response (v : Create2Response_) : OA :=
  try serialize_string (Create2Response_path v) ;;;
  try oarchive_Stat (Create2Response_stat v) ;;;
  ret 0.
(* coev_zookeeper/proto.cpp iarchive::Create2Response *)
Definition iarchive_Create2Response : IA Create2Response_ :=
  let! path := deserialize_string in
  let! stat := iarchive_Stat in
  ret (Ok (mkCreate2Response path stat)).
Definition Create2Response_wire (v : Create2Response_) : list Z :=
  z_string (Create2Response_path v) ++ Stat_wire (Create2Response_stat v).
Definition Create2Response_received (v : Create2Response_) : dres Create2Response_ :=
  let? path := r_string (Create2Response_path v) in
  let? stat := Stat_received (Create2Response_stat v) in
  Ok (mkCreate2Response path stat).
Definition Create2Response_ok (v : Create2Response_) : Prop :=
  zstring_ok (Create2Response_path v) /\ Stat_ok (Create2Response_stat v).
Lemma Create2Response_puts v : Create2Response_ok v -> puts (oarchive_Create2Response v) (Create2Response_wire v).
Proof. unfold Create2Response_ok. intros. split_facts. unfold oarchive_Create2Response, Create2Response_wire. puts_steps. Qed.
Lemma Create2Response_reads v : Create2Response_ok v -> reads iarchive_Create2Response (Create2Response_wire v) (Create2Response_received v).
Proof. unfold Create2Response_ok. intros. split_facts. unfold iarchive_Create2Response, Create2Response_wire, Create2Response_received. reads_steps. Qed.
Lemma Create2Response_contained t u : contained t u iarchive_Create2Response.
Proof. unfold iarchive_Create2Response. contained_steps. Qed.
#[export] Hint Resolve Create2Response_puts Create2Response_reads Create2Response_contained : archive.

(** ** [ExistsRequest] *)

(* coev_zookeeper/proto.h:267-271 ExistsRequest_ *)
Record ExistsRequest_ := mkExistsRequest {
  ExistsRequest_path : list Z; ExistsRequest_watch : Z }.
(* coev_zookeeper/proto.cpp oarchive::ExistsRequest *)
Definition oarchive_ExistsRequest (v : ExistsRequest_) : OA :=
  try serialize_string (ExistsRequest_path v) ;;;
  try serialize_bool (ExistsRequest_watch v) ;;;
  ret 0.
(* coev_zookeeper/proto.cpp iarchive::ExistsRequest *)
Definition iarchive_ExistsRequest : IA ExistsRequest_ :=
  let! path := deserialize_string in
  let! watch := deserialize_bool in
  ret (Ok (mkExistsRequest path watch)).
Definition ExistsRequest_wire (v : ExistsRequest_) : list Z :=
  z_string (ExistsRequest_path v) ++ z_bool (ExistsRequest_watch v).
Definition ExistsRequest_received (v : ExistsRequest_) : dres ExistsRequest_ :=
  let? path := r_string (ExistsRequest_path v) in
  let? watch := r_bool (ExistsRequest_watch v) in
  Ok (mkExistsRequest path watch).
Definition ExistsRequest_ok (v : ExistsRequest_) : Prop :=
  zstring_ok (ExistsRequest_path v) /\ in_s 32 (ExistsRequest_watch v).
Lemma ExistsRequest_puts v : ExistsRequest_ok v -> puts (oarchive_ExistsRequest v) (ExistsRequest_wire v).
Proof. unfold ExistsRequest_ok. intros. split_facts. unfold oarchive_ExistsRequest, ExistsRequest_wire. puts_steps. Qed.
Lemma ExistsRequest_reads v : ExistsRequest_ok v -> reads iarchive_ExistsRequest (ExistsRequest_wire v) (ExistsRequest_received v).
Proof. unfold ExistsRequest_ok. intros. split_facts. unfold iarchive_ExistsRequest, ExistsRequest_wire, ExistsRequest_received. reads_steps. Qed.
Lemma ExistsRequest_contained t : contained t true iarchive_ExistsRequest.
Proof. unfold iarchive_ExistsRequest. contained_steps. Qed.
#[export] Hint Resolve ExistsRequest_puts ExistsRequest_reads ExistsRequest_contained : archive.

(** ** [ExistsResponse] *)

(* coev_zookeeper/proto.h:272-275 ExistsResponse_ *)
Record ExistsResponse_ := mkExistsResponse {
  ExistsResponse_stat : Stat_ }.
(* coev_zookeeper/proto.cpp oarchive::ExistsResponse *)
Definition oarchive_ExistsResponse (v : ExistsResponse_) : OA :=
  try oarchive_Stat (ExistsResponse_stat v) ;;;
  ret 0.
(* coev_zookeeper/proto.cpp iarchive::ExistsResponse *)
Definition iarchive_ExistsResponse : IA ExistsResponse_ :=
  let! stat := iarchive_Stat in
  ret (Ok (mkExistsResponse stat)).
Definition ExistsResponse_wire (v : ExistsResponse_) : list Z :=
  Stat_wire (ExistsResponse_stat v).
Definition ExistsResponse_received (v : ExistsResponse_) : dres ExistsResponse_ :=
  let? stat := Stat_received (ExistsResponse_stat v) in
  Ok (mkExistsResponse stat).
Definition ExistsResponse_ok (v : ExistsResponse_) : Prop :=
  Stat_ok (ExistsResponse_stat v).
Lemma ExistsResponse_puts v : ExistsResponse_ok v -> puts (oarchive_ExistsResponse v) (ExistsResponse_wire v).
Proof. unfold ExistsResponse_ok. intros. split_facts. unfold oarchive_ExistsResponse, ExistsResponse_wire. puts_steps. Qed.
Lemma ExistsResponse_reads v : ExistsResponse_ok v -> reads iarchive_ExistsResponse (ExistsResponse_wire v) (ExistsResponse_received v).
Proof. unfold ExistsResponse_ok. intros. split_facts. unfold iarchive_ExistsResponse, ExistsResponse_wire, ExistsResponse_received. reads_steps. Qed.
Lemma ExistsResponse_contained t u : contained t u iarchive_ExistsResponse.
Proof. unfold iarchive_ExistsResponse. contained_steps. Qed.
#[export] Hint Resolve ExistsResponse_puts ExistsResponse_reads ExistsResponse_contained : archive.

(** ** [GetDataResponse] *)

(* coev_zookeeper/proto.h:276-280 GetDataResponse_ *)
Record GetDataResponse_ := mkGetDataResponse {
  GetDataResponse_data : list Z; GetDataResponse_stat : Stat_ }.
(* coev_zookeeper/proto.cpp oarchive::GetDataResponse *)
Definition oarchive_GetDataResponse (v : GetDataResponse_) : OA :=
  try serialize_buffer (GetDataResponse_data v) ;;;
  try oarchive_Stat (GetDataResponse_stat v) ;;;
  ret 0.
(* coev_zookeeper/proto.cpp iarchive::GetDataResponse *)
Definition iarchive_GetDataResponse : IA GetDataResponse_ :=
  let! data := deserialize_buffer in
  let! stat := iarchive_Stat in
  ret (Ok (mkGetDataResponse data stat)).
Definition GetDataResponse_wire (v : GetDataResponse_) : list Z :=
  z_string (GetDataResponse_data v) ++ Stat_wire (GetDataResponse_stat v).
Definition GetDataResponse_received (v : GetDataResponse_) : dres GetDataResponse_ :=
  let? data := r_string (GetDataResponse_data v) in
  let? stat := Stat_received (GetDataResponse_stat v) in
  Ok (mkGetDataResponse data stat).
Definition GetDataResponse_ok (v : GetDataResponse_) : Prop :=
  zstring_ok (GetDataResponse_data v) /\ Stat_ok (GetDataResponse_stat v).
Lemma GetDataResponse_puts v : GetDataResponse_ok v -> puts (oarchive_GetDataResponse v) (GetDataResponse_wire v).
Proof. unfold GetDataResponse_ok. intros. split_facts. unfold oarchive_GetDataResponse, GetDataResponse_wire. puts_steps. Qed.
Lemma GetDataResponse_reads v : GetDataResponse_ok v -> reads iarchive_GetDataResponse (GetDataResponse_wire v) (GetDataResponse_received v).
Proof. unfold GetDataResponse_ok. intros. split_facts. unfold iarchive_GetDataResponse, GetDataResponse_wire, GetDataResponse_received. reads_steps. Qed.
Lemma GetDataResponse_contained t u : contained t u iarchive_GetDataResponse.
Proof. unfold iarchive_GetDataResponse. contained_steps. Qed.
#[export] Hint Resolve GetDataResponse_puts GetDataResponse_reads GetDataResponse_contained : archive.

(** ** [GetChildrenResponse] *)

(* coev_zookeeper/proto.h:281-284 GetChildrenResponse_ *)
Record GetChildrenResponse_ := mkGetChildrenResponse {
  GetChildrenResponse_children : StringVec_ }.
(* coev_zookeeper/proto.cpp oarchive::GetChildrenResponse *)
Definition oarchive_GetChildrenResponse (v : GetChildrenResponse_) : OA :=
  try oarchive_StringVec (GetChildrenResponse_children v) ;;;
  ret 0.
(* coev_zookeeper/proto.cpp iarchive::GetChildrenResponse *)
Definition iarchive_GetChildrenResponse : IA GetChildrenResponse_ :=
  let! children := iarchive_StringVec in
  ret (Ok (mkGetChildrenResponse children)).
Definition GetChildrenResponse_wire (v : GetChildrenResponse_) : list Z :=
  StringVec_wire (GetChildrenResponse_children v).
Definition GetChildrenResponse_received (v : GetChildrenResponse_) : dres GetChildrenResponse_ :=
  let? children := StringVec_received (GetChildrenResponse_children v) in
  Ok (mkGetChildrenResponse children).
Definition GetChildrenResponse_ok (v : GetChildrenResponse_) : Prop :=
  StringVec_ok (GetChildrenResponse_children v).
Lemma GetChildrenResponse_puts v : GetChildrenResponse_ok v -> puts (oarchive_GetChildrenResponse v) (GetChildrenResponse_wire v).
Proof. unfold GetChildrenResponse_ok. intros. split_facts. unfold oarchive_GetChildrenResponse, GetChildrenResponse_wire. puts_steps. Qed.
Lemma GetChildrenResponse_reads v : GetChildrenResponse_ok v -> reads iarchive_GetChildrenResponse (GetChildrenResponse_wire v) (GetChildrenResponse_received v).
Proof. unfold GetChildrenResponse_ok. intros. split_facts. unfold iarchive_GetChildrenResponse, GetChildrenResponse_wire, GetChildrenResponse_received. reads_steps. Qed.
Lemma GetChildrenResponse_contained u : contained true u iarchive_GetChildrenResponse.
Proof. unfold iarchive_GetChildrenResponse. contained_steps. Qed.
#[export] Hint Resolve GetChildrenResponse_puts GetChildrenResponse_reads GetChildrenResponse_contained : archive.

(** ** [GetAllChildrenNumberResponse] *)

(* coev_zookeeper/proto.h:285-288 GetAllChildrenNumberResponse_ *)
Record GetAllChildrenNumberResponse_ := mkGetAllChildrenNumberResponse {
  GetAllChildrenNumberResponse_totalNumber : Z }.
(* coev_zookeeper/proto.cpp oarchive::GetAllChildrenNumberResponse *)
Definition oarchive_GetAllChildrenNumberResponse (v : GetAllChildrenNumberResponse_) : OA :=
  try serialize_int (GetAllChildrenNumberResponse_totalNumber v) ;;;
  ret 0.
(* coev_zookeeper/proto.cpp iarchive::GetAllChildrenNumberResponse *)
Definition iarchive_GetAllChildrenNumberResponse : IA GetAllChildrenNumberResponse_ :=
  let! totalNumber := deserialize_int in
  ret (Ok (mkGetAllChildrenNumberResponse totalNumber)).
Definition GetAllChildrenNumberResponse_wire (v : GetAllChildrenNumberResponse_) : list Z :=
  z_int (GetAllChildrenNumberResponse_totalNumber v).
Definition GetAllChildrenNumberResponse_received (v : GetAllChildrenNumberResponse_) : dres GetAllChildrenNumberResponse_ :=
  let? totalNumber := r_int (GetAllChildrenNumberResponse_totalNumber v) in
  Ok (mkGetAllChildrenNumberResponse totalNumber).
Definition GetAllChildrenNumberResponse_ok (v : GetAllChildrenNumberResponse_) : Prop :=
  in_s 32 (GetAllChildrenNumberResponse_totalNumber v).
Lemma GetAllChildrenNumberResponse_puts v : GetAllChildrenNumberResponse_ok v -> puts (oarchive_GetAllChildrenNumberResponse v) (GetAllChildrenNumberResponse_wire v).
Proof. unfold GetAllChildrenNumberResponse_ok. intros. split_facts. unfold oarchive_GetAllChildrenNumberResponse, GetAllChildrenNumberResponse_wire. puts_steps. Qed.
Lemma GetAllChildrenNumberResponse_reads v : GetAllChildrenNumberResponse_ok v -> reads iarchive_GetAllChildrenNumberResponse (GetAllChildrenNumberResponse_wire v) (GetAllChildrenNumberResponse_received v).
Proof. unfold GetAllChildrenNumberResponse_ok. intros. split_facts. unfold iarchive_GetAllChildrenNumberResponse, GetAllChildrenNumberResponse_wire, GetAllChildrenNumberResponse_received. reads_steps. Qed.
Lemma GetAllChildrenNumberResponse_contained t u : contained t u iarchive_GetAllChildrenNumberResponse.
Proof. unfold iarchive_GetAllChildrenNumberResponse. contained_steps. Qed.
#[export] Hint Resolve GetAllChildrenNumberResponse_puts GetAllChildrenNumberResponse_reads GetAllChildrenNumberResponse_contained : archive.

(** ** [GetChildren2Response] *)

(* coev_zookeeper/proto.h:289-293 GetChildren2Response_ *)
Record GetChildren2Response_ := mkGetChildren2Response {
  GetChildren2Response_children : StringVec_; GetChildren2Response_stat : Stat_ }.
(* coev_zookeeper/proto.cpp oarchive::GetChildren2Response *)
Definition oarchive_GetChildren2Response (v : GetChildren2Response_) : OA :=
  try oarchive_StringVec (GetChildren2Response_children v) ;;;
  try oarchive_Stat (GetChildren2Response_stat v) ;;;
  ret 0.
(* coev_zookeeper/proto.cpp iarchive::GetChildren2Response *)
Definition iarchive_GetChildren2Response : IA GetChildren2Response_ :=
  let! children := iarchive_StringVec in
  let! stat := iarchive_Stat in
  ret (Ok (mkGetChildren2Response children stat)).
Definition GetChildren2Response_wire (v : GetChildren2Response_) : list Z :=
  StringVec_wire (GetChildren2Response_children v) ++ Stat_wire (GetChildren2Response_stat v).
Definition GetChildren2Response_received (v : GetChildren2Response_) : dres GetChildren2Response_ :=
  let? children := StringVec_received (GetChildren2Response_children v) in
  let? stat := Stat_received (GetChildren2Response_stat v) in
  Ok (mkGetChildren2Response children stat).
Definition GetChildren2Response_ok (v : GetChildren2Response_) : Prop :=
  StringVec_ok (GetChildren2Response_children v) /\ Stat_ok (GetChildren2Response_stat v).
Lemma GetChildren2Response_puts v : GetChildren2Response_ok v -> puts (oarchive_GetChildren2Response v) (GetChildren2Response_wire v).
Proof. unfold GetChildren2Response_ok. intros. split_facts. unfold oarchive_GetChildren2Response, GetChildren2Response_wire. puts_steps. Qed.
Lemma GetChildren2Response_reads v : GetChildren2Response_ok v -> reads iarchive_GetChildren2Response (GetChildren2Response_wire v) (GetChildren2Response_received v).
Proof. unfold GetChildren2Response_ok. intros. split_facts. unfold iarchive_GetChildren2Response, GetChildren2Response_wire, GetChildren2Response_received. reads_steps. Qed.
Lemma GetChildren2Response_contained u : contained true u iarchive_GetChildren2Response.
Proof. unfold iarchive_GetChildren2Response. contained_steps. Qed.
#[export] Hint Resolve GetChildren2Response_puts GetChildren2Response_reads GetChildren2Response_contained : archive.

(** ** [GetACLResponse] *)

(* coev_zookeeper/proto.h:294-299 GetACLResponse_ *)
Record GetACLResponse_ := mkGetACLResponse {
  GetACLResponse_acl : ACLVec_; GetACLResponse_stat : Stat_ }.
(* coev_zookeeper/proto.cpp oarchive::GetACLResponse *)
Definition oarchive_GetACLResponse (v : GetACLResponse_) : OA :=
  try oarchive_ACLVec (GetACLResponse_acl v) ;;;
  try oarchive_Stat (GetACLResponse_stat v) ;;;
  ret 0.
(* coev_zookeeper/proto.cpp iarchive::GetACLResponse *)
Definition iarchive_GetACLResponse : IA GetACLResponse_ :=
  let! acl := iarchive_ACLVec in
  let! stat := iarchive_Stat in
  ret (Ok (mkGetACLResponse acl stat)).
Definition GetACLResponse_wire (v : GetACLResponse_) : list Z :=
  ACLVec_wire (GetACLResponse_acl v) ++ Stat_wire (GetACLResponse_stat v).
Definition GetACLResponse_received (v : GetACLResponse_) : dres GetACLResponse_ :=
  let? acl := ACLVec_received (GetACLResponse_acl v) in
  let? stat := Stat_received (GetACLResponse_stat v) in
  Ok (mkGetACLResponse acl stat).
Definition GetACLResponse_ok (v : GetACLResponse_) : Prop :=
  ACLVec_ok (GetACLResponse_acl v) /\ Stat_ok (GetACLResponse_stat v).
Lemma GetACLResponse_puts v : GetACLResponse_ok v -> puts (oarchive_GetACLResponse v) (GetACLResponse_wire v).
Proof. unfold GetACLResponse_ok. intros. split_facts. unfold oarchive_GetACLResponse, GetACLResponse_wire. puts_steps. Qed.
Lemma GetACLResponse_reads v : GetACLResponse_ok v -> reads iarchive_GetACLResponse (GetACLResponse_wire v) (GetACLResponse_received v).
Proof. unfold GetACLResponse_ok. intros. split_facts. unfold iarchive_GetACLResponse, GetACLResponse_wire, GetACLResponse_received. reads_steps. Qed.
Lemma GetACLResponse_contained u : contained true u iarchive_GetACLResponse.
Proof. unfold iarchive_GetACLResponse. contained_steps. Qed.
#[export] Hint Resolve GetACLResponse_puts GetACLResponse_reads GetACLResponse_contained : archive.

(** ** [CheckWatchesRequest] *)

(* coev_zookeeper/proto.h:300-304 CheckWatchesRequest_ *)
Record CheckWatchesRequest_ := mkCheckWatchesRequest {
  CheckWatchesRequest_path : list Z; CheckWatchesRequest_type : Z }.
(* coev_zookeeper/proto.cpp oarchive::CheckWatchesRequest *)
Definition oarchive_CheckWatchesRequest (v : CheckWatchesRequest_) : OA :=
  try serialize_string (CheckWatchesRequest_path v) ;;;
  try serialize_int (CheckWatchesRequest_type v) ;;;
  ret 0.
(* coev_zookeeper/proto.cpp iarchive::CheckWatchesRequest *)
Definition iarchive_CheckWatchesRequest : IA CheckWatchesRequest_ :=
  let! path := deserialize_string in
  let! type := deserialize_int in
  ret (Ok (mkCheckWatchesRequest path type)).
Definition CheckWatchesRequest_wire (v : CheckWatchesRequest_) : list Z :=
  z_string (CheckWatchesRequest_path v) ++ z_int (CheckWatchesRequest_type v).
Definition CheckWatchesRequest_received (v : CheckWatchesRequest_) : dres CheckWatchesRequest_ :=
  let? path := r_string (CheckWatchesRequest_path v) in
  let? type := r_int (CheckWatchesRequest_type v) in
  Ok (mkCheckWatchesRequest path type).
Definition CheckWatchesRequest_ok (v : CheckWatchesRequest_) : Prop :=
  zstring_ok (CheckWatchesRequest_path v) /\ in_s 32 (CheckWatchesRequest_type v).
Lemma CheckWatchesRequest_puts v : CheckWatchesRequest_ok v -> puts (oarchive_CheckWatchesRequest v) (CheckWatchesRequest_wire v).
Proof. unfold CheckWatchesRequest_ok. intros. split_facts. unfold oarchive_CheckWatchesRequest, CheckWatchesRequest_wire. puts_steps. Qed.
Lemma CheckWatchesRequest_reads v : CheckWatchesRequest_ok v -> reads iarchive_CheckWatchesRequest (CheckWatchesRequest_wire v) (CheckWatchesRequest_received v).
Proof. unfold CheckWatchesRequest_ok. intros. split_facts. unfold iarchive_CheckWatchesRequest, CheckWatchesRequest_wire, CheckWatchesRequest_received. reads_steps. Qed.
Lemma CheckWatchesRequest_contained t u : contained t u iarchive_CheckWatchesRequest.
Proof. unfold iarchive_CheckWatchesRequest. contained_steps. Qed.
#[export] Hint Resolve CheckWatchesRequest_puts CheckWatchesRequest_reads CheckWatchesRequest_contained : archive.

(** ** [RemoveWatchesRequest] *)

(* coev_zookeeper/proto.h:306-311 RemoveWatchesRequest_ *)
Record RemoveWatchesRequest_ := mkRemoveWatchesRequest {
  RemoveWatchesRequest_path : list Z; RemoveWatchesRequest_type : Z }.
(* coev_zookeeper/proto.cpp oarchive::RemoveWatchesRequest *)
Definition oarchive_RemoveWatchesRequest (v : RemoveWatchesRequest_) : OA :=
  try serialize_string (RemoveWatchesRequest_path v) ;;;
  try serialize_int (RemoveWatchesRequest_type v) ;;;
  ret 0.
(* coev_zookeeper/proto.cpp iarchive::RemoveWatchesRequest *)
Definition iarchive_RemoveWatchesRequest : IA RemoveWatchesRequest_ :=
  let! path := deserialize_string in
  let! type := deserialize_int in
  ret (Ok (mkRemoveWatchesRequest path type)).
Definition RemoveWatchesRequest_wire (v : RemoveWatchesRequest_) : list Z :=
  z_string (RemoveWatchesRequest_path v) ++ z_int (RemoveWatchesRequest_type v).
Definition RemoveWatchesRequest_received (v : RemoveWatchesRequest_) : dres RemoveWatchesRequest_ :=
  let? path := r_string (RemoveWatchesRequest_path v) in
  let? type := r_int (RemoveWatchesRequest_type v) in
  Ok (mkRemoveWatchesRequest path type).
Definition RemoveWatchesRequest_ok (v : RemoveWatchesRequest_) : Prop :=
  zstring_ok (RemoveWatchesRequest_path v) /\ in_s 32 (RemoveWatchesRequest_type v).
Lemma RemoveWatchesRequest_puts v : RemoveWatchesRequest_ok v -> puts (oarchive_RemoveWatchesRequest v) (RemoveWatchesRequest_wire v).
Proof. unfold RemoveWatchesRequest_ok. intros. split_facts. unfold oarchive_RemoveWatchesRequest, RemoveWatchesRequest_wire. puts_steps. Qed.
Lemma RemoveWatchesRequest_reads v : RemoveWatchesRequest_ok v -> reads iarchive_RemoveWatchesRequest (RemoveWatchesRequest_wire v) (RemoveWatchesRequest_received v).
Proof. unfold RemoveWatchesRequest_ok. intros. split_facts. unfold iarchive_RemoveWatchesRequest, RemoveWatchesRequest_wire, RemoveWatchesRequest_received. reads_steps. Qed.
Lemma RemoveWatchesRequest_contained t u : contained t u iarchive_RemoveWatchesRequest.
Proof. unfold iarchive_RemoveWatchesRequest. contained_steps. Qed.
#[export] Hint Resolve RemoveWatchesRequest_puts RemoveWatchesRequest_reads RemoveWatchesRequest_contained : archive.

(** ** [GetEphemeralsRequest] *)

(* coev_zookeeper/proto.h:312-315 GetEphemeralsRequest_ *)
Record GetEphemeralsRequest_ := mkGetEphemeralsRequest {
  GetEphemeralsRequest_prefixPath : list Z }.
(* coev_zookeeper/proto.cpp oarchive::GetEphemeralsRequest *)
Definition oarchive_GetEphemeralsRequest (v : GetEphemeralsRequest_) : OA :=
  try serialize_string (GetEphemeralsRequest_prefixPath v) ;;;
  ret 0.
(* coev_zookeeper/proto.cpp iarchive::GetEphemeralsRequest *)
Definition iarchive_GetEphemeralsRequest : IA GetEphemeralsRequest_ :=
  let! prefixPath := deserialize_string in
  ret (Ok (mkGetEphemeralsRequest prefixPath)).
Definition GetEphemeralsRequest_wire (v : GetEphemeralsRequest_) : list Z :=
  z_string (GetEphemeralsRequest_prefixPath v).
Definition GetEphemeralsRequest_received (v : GetEphemeralsRequest_) : dres GetEphemeralsRequest_ :=
  let? prefixPath := r_string (GetEphemeralsRequest_prefixPath v) in
  Ok (mkGetEphemeralsRequest prefixPath).
Definition GetEphemeralsRequest_ok (v : GetEphemeralsRequest_) : Prop :=
  zstring_ok (GetEphemeralsRequest_prefixPath v).
Lemma GetEphemeralsRequest_puts v : GetEphemeralsRequest_ok v -> puts (oarchive_GetEphemeralsRequest v) (GetEphemeralsRequest_wire v).
Proof. unfold GetEphemeralsRequest_ok. intros. split_facts. unfold oarchive_GetEphemeralsRequest, GetEphemeralsRequest_wire. puts_steps. Qed.
Lemma GetEphemeralsRequest_reads v : GetEphemeralsRequest_ok v -> reads iarchive_GetEphemeralsRequest (GetEphemeralsRequest_wire v) (GetEphemeralsRequest_received v).
Proof. unfold GetEphemeralsRequest_ok. intros. split_facts. unfold iarchive_GetEphemeralsRequest, GetEphemeralsRequest_wire, GetEphemeralsRequest_received. reads_steps. Qed.
Lemma GetEphemeralsRequest_contained t u : contained t u iarchive_GetEphemeralsRequest.
Proof. unfold iarchive_GetEphemeralsRequest. contained_steps. Qed.
#[export] Hint Resolve GetEphemeralsRequest_puts GetEphemeralsRequest_reads GetEphemeralsRequest_contained : archive.

(** ** [GetEphemeralsResponse] *)

(* coev_zookeeper/proto.h:316-319 GetEphemeralsResponse_ *)
Record GetEphemeralsResponse_ := mkGetEphemeralsResponse {
  GetEphemeralsResponse_ephemerals : StringVec_ }.
(* coev_zookeeper/proto.cpp oarchive::GetEphemeralsResponse *)
Definition oarchive_GetEphemeralsResponse (v : GetEphemeralsResponse_) : OA :=
  try oarchive_StringVec (GetEphemeralsResponse_ephemerals v) ;;;
  ret 0.
(* coev_zookeeper/proto.cpp iarchive::GetEphemeralsResponse *)
Definition iarchive_GetEphemeralsResponse : IA GetEphemeralsResponse_ :=
  let! ephemerals := iarchive_StringVec in
  ret (Ok (mkGetEphemeralsResponse ephemerals)).
Definition GetEphemeralsResponse_wire (v : GetEphemeralsResponse_) : list Z :=
  StringVec_wire (GetEphemeralsResponse_ephemerals v).
Definition GetEphemeralsResponse_received (v : GetEphemeralsResponse_) : dres GetEphemeralsResponse_ :=
  let? ephemerals := StringVec_received (GetEphemeralsResponse_ephemerals v) in
  Ok (mkGetEphemeralsResponse ephemerals).
Definition GetEphemeralsResponse_ok (v : GetEphemeralsResponse_) : Prop :=
  StringVec_ok (GetEphemeralsResponse_ephemerals v).
Lemma GetEphemeralsResponse_puts v : GetEphemeralsResponse_ok v -> puts (oarchive_GetEphemeralsResponse v) (GetEphemeralsResponse_wire v).
Proof. unfold GetEphemeralsResponse_ok. intros. split_facts. unfold oarchive_GetEphemeralsResponse, GetEphemeralsResponse_wire. puts_steps. Qed.
Lemma GetEphemeralsResponse_reads v : GetEphemeralsResponse_ok v -> reads iarchive_GetEphemeralsResponse (GetEphemeralsResponse_wire v) (GetEphemeralsResponse_received v).
Proof. unfold GetEphemeralsResponse_ok. intros. split_facts. unfold iarchive_GetEphemeralsResponse, GetEphemeralsResponse_wire, GetEphemeralsResponse_received. reads_steps. Qed.
Lemma GetEphemeralsResponse_contained u : contained true u iarchive_GetEphemeralsResponse.
Proof. unfold iarchive_GetEphemeralsResponse. contained_steps. Qed.
#[export] Hint Resolve GetEphemeralsResponse_puts GetEphemeralsResponse_reads GetEphemeralsResponse_contained : archive.

(** ** [ClientInfoVec] *)

(* coev_zookeeper/proto.h:320-322 ClientInfoVec_ *)
Definition ClientInfoVec_ : Type := list ClientInfo_.
(* coev_zookeeper/proto.cpp oarchive::ClientInfoVec *)
Definition oarchive_ClientInfoVec (v : ClientInfoVec_) : OA := put_vector oarchive_ClientInfo v.
(* coev_zookeeper/proto.cpp iarchive::ClientInfoVec *)
Definition iarchive_ClientInfoVec : IA ClientInfoVec_ := get_vector iarchive_ClientInfo.
Definition ClientInfoVec_wire (v : ClientInfoVec_) : list Z := z_vector ClientInfo_wire v.
Definition ClientInfoVec_received (v : ClientInfoVec_) : dres ClientInfoVec_ := r_vector ClientInfo_received v.
Definition ClientInfoVec_ok (v : ClientInfoVec_) : Prop := zvector_ok ClientInfo_ok v.
Lemma ClientInfoVec_puts v : ClientInfoVec_ok v -> puts (oarchive_ClientInfoVec v) (ClientInfoVec_wire v).
Proof. apply puts_vector, ClientInfo_puts. Qed.
Lemma ClientInfoVec_reads v : ClientInfoVec_ok v -> reads iarchive_ClientInfoVec (ClientInfoVec_wire v) (ClientInfoVec_received v).
Proof. apply reads_vector, ClientInfo_reads. Qed.
Lemma ClientInfoVec_contained u : contained true u iarchive_ClientInfoVec.
Proof. apply contained_vector, ClientInfo_contained. Qed.
#[export] Hint Resolve ClientInfoVec_puts ClientInfoVec_reads ClientInfoVec_contained : archive.

(** ** [WhoAmIResponse] *)

(* coev_zookeeper/proto.h:324-328 WhoAmIResponse_ *)
Record WhoAmIResponse_ := mkWhoAmIResponse {
  WhoAmIResponse_clientInfo : ClientInfoVec_ }.
(* coev_zookeeper/proto.cpp oarchive::WhoAmIResponse *)
Definition oarchive_WhoAmIResponse (v : WhoAmIResponse_) : OA :=
  try oarchive_ClientInfoVec (WhoAmIResponse_clientInfo v) ;;;
  ret 0.
(* coev_zookeeper/proto.cpp iarchive::WhoAmIResponse *)
Definition iarchive_WhoAmIResponse : IA WhoAmIResponse_ :=
  let! clientInfo := iarchive_ClientInfoVec in
  ret (Ok (mkWhoAmIResponse clientInfo)).
Definition WhoAmIResponse_wire (v : WhoAmIResponse_) : list Z :=
  ClientInfoVec_wire (WhoAmIResponse_clientInfo v).
Definition WhoAmIResponse_received (v : WhoAmIResponse_) : dres WhoAmIResponse_ :=
  let? clientInfo := ClientInfoVec_received (WhoAmIResponse_clientInfo v) in
  Ok (mkWhoAmIResponse clientInfo).
Definition WhoAmIResponse_ok (v : WhoAmIResponse_) : Prop :=
  ClientInfoVec_ok (WhoAmIResponse_clientInfo v).
Lemma WhoAmIResponse_puts v : WhoAmIResponse_ok v -> puts (oarchive_WhoAmIResponse v) (WhoAmIResponse_wire v).
Proof. unfold WhoAmIResponse_ok. intros. split_facts. unfold oarchive_WhoAmIResponse, WhoAmIResponse_wire. puts_steps. Qed.
Lemma WhoAmIResponse_reads v : WhoAmIResponse_ok v -> reads iarchive_WhoAmIResponse (WhoAmIResponse_wire v) (WhoAmIResponse_received v).
Proof. unfold WhoAmIResponse_ok. intros. split_facts. unfold iarchive_WhoAmIResponse, WhoAmIResponse_wire, WhoAmIResponse_received. reads_steps. Qed.
Lemma WhoAmIResponse_contained u : contained true u iarchive_WhoAmIResponse.
Proof. unfold iarchive_WhoAmIResponse. contained_steps. Qed.
#[export] Hint Resolve WhoAmIResponse_puts WhoAmIResponse_reads WhoAmIResponse_contained : archive.

(** ** [LearnerInfo] *)

(* coev_zookeeper/proto.h:329-334 LearnerInfo_ *)
Record LearnerInfo_ := mkLearnerInfo {
  LearnerInfo_serverid : Z; LearnerInfo_protocolVersion : Z; LearnerInfo_configVersion : Z }.
(* coev_zookeeper/proto.cpp oarchive::LearnerInfo *)
Definition oarchive_LearnerInfo (v : LearnerInfo_) : OA :=
  try serialize_log (LearnerInfo_serverid v) ;;;
  try serialize_int (LearnerInfo_protocolVersion v) ;;;
  try serialize_log (LearnerInfo_configVersion v) ;;;
  ret 0.
(* coev_zookeeper/proto.cpp iarchive::LearnerInfo *)
Definition iarchive_LearnerInfo : IA LearnerInfo_ :=
  let! serverid := deserialize_long in
  let! protocolVersion := deserialize_int in
  let! configVersion := deserialize_long in
  ret (Ok (mkLearnerInfo serverid protocolVersion configVersion)).
Definition LearnerInfo_wire (v : LearnerInfo_) : list Z :=
  z_long (LearnerInfo_serverid v) ++ z_int (LearnerInfo_protocolVersion v) ++
  z_long (LearnerInfo_configVersion v).
Definition LearnerInfo_received (v : LearnerInfo_) : dres LearnerInfo_ :=
  let? serverid := r_long (LearnerInfo_serverid v) in
  let? protocolVersion := r_int (LearnerInfo_protocolVersion v) in
  let? configVersion := r_long (LearnerInfo_configVersion v) in
  Ok (mkLearnerInfo serverid protocolVersion configVersion).
Definition LearnerInfo_ok (v : LearnerInfo_) : Prop :=
  in_s 64 (LearnerInfo_serverid v) /\ in_s 32 (LearnerInfo_protocolVersion v) /\
  in_s 64 (LearnerInfo_configVersion v).
Lemma LearnerInfo_puts v : LearnerInfo_ok v -> puts (oarchive_LearnerInfo v) (LearnerInfo_wire v).
Proof. unfold LearnerInfo_ok. intros. split_facts. unfold oarchive_LearnerInfo, LearnerInfo_wire. puts_steps. Qed.
Lemma LearnerInfo_reads v : LearnerInfo_ok v -> reads iarchive_LearnerInfo (LearnerInfo_wire v) (LearnerInfo_received v).
Proof. unfold LearnerInfo_ok. intros. split_facts. unfold iarchive_LearnerInfo, LearnerInfo_wire, LearnerInfo_received. reads_steps. Qed.
Lemma LearnerInfo_contained t u : contained t u iarchive_LearnerInfo.
Proof. unfold iarchive_LearnerInfo. contained_steps. Qed.
#[export] Hint Resolve LearnerInfo_puts LearnerInfo_reads LearnerInfo_contained : archive.

(** ** [IdVec] *)

(* coev_zookeeper/proto.h:335-337 IdVec_ *)
Definition IdVec_ : Type := list Id_.
(* coev_zookeeper/proto.cpp oarchive::IdVec *)
Definition oarchive_IdVec (v : IdVec_) : OA := put_vector oarchive_Id v.
(** [count] has no value after an error, and [resize] is called all the same. *)
(* coev_zookeeper/proto.cpp iarchive::IdVec *)
Definition iarchive_IdVec : IA IdVec_ :=
  let* rc := deserialize_int in
  match rc with
  | Err _ => fail FUB
  | Ok count => if count <? 0 then fail FThrow else read_n (Z.to_nat count) iarchive_Id
  end.
Definition IdVec_wire (v : IdVec_) : list Z := z_vector Id_wire v.
Definition IdVec_received (v : IdVec_) : dres IdVec_ := r_vector Id_received v.
Definition IdVec_ok (v : IdVec_) : Prop := zvector_ok Id_ok v.
Lemma IdVec_puts v : IdVec_ok v -> puts (oarchive_IdVec v) (IdVec_wire v).
Proof. apply puts_vector, Id_puts. Qed.
Lemma IdVec_reads v : IdVec_ok v -> reads iarchive_IdVec (IdVec_wire v) (IdVec_received v).
Proof.
  intros Hv rest Hl. destruct (reads_vector iarchive_Id Id_wire Id_received Id_ok v Id_reads Hv rest Hl) as (r & E & H).
  exists r. split; [|done]. unfold IdVec_wire, iarchive_IdVec, get_vector, bind, z_vector in *. rewrite <- app_assoc in *.
  destruct (reads_int (Zlen v) ltac:(destruct Hv as [Hm _]; unfold INT32_MAX in Hm; pose proof (Zlen_nonneg v); unfold in_s; lia)
    (concat (map Id_wire v) ++ rest) Hl) as (r' & E' & _).
  unfold z_int in E'. by rewrite E' in *.
Qed.
Lemma IdVec_contained : contained true true iarchive_IdVec.
Proof.
  intros view Hv. pose proof (contained_vector true iarchive_Id (Id_contained true true) view Hv) as H.
  unfold iarchive_IdVec, get_vector, bind in *. by destruct (deserialize_int view) as [[]|].
Qed.
#[export] Hint Resolve IdVec_puts IdVec_reads IdVec_contained : archive.

(** ** [QuorumPacket] *)

(* coev_zookeeper/proto.h:339-346 QuorumPacket_ *)
Record QuorumPacket_ := mkQuorumPacket {
  QuorumPacket_type : Z; QuorumPacket_zxid : Z; QuorumPacket_data : list Z;
  QuorumPacket_authinfo : IdVec_ }.
(* coev_zookeeper/proto.cpp oarchive::QuorumPacket *)
Definition oarchive_QuorumPacket (v : QuorumPacket_) : OA :=
  try serialize_int (QuorumPacket_type v) ;;;
  try serialize_log (QuorumPacket_zxid v) ;;;
  try serialize_buffer (QuorumPacket_data v) ;;;
  try oarchive_IdVec (QuorumPacket_authinfo v) ;;;
  ret 0.
(* coev_zookeeper/proto.cpp iarchive::QuorumPacket *)
Definition iarchive_QuorumPacket : IA QuorumPacket_ :=
  let! type := deserialize_int in
  let! zxid := deserialize_long in
  let! data := deserialize_buffer in
  let! authinfo := iarchive_IdVec in
  ret (Ok (mkQuorumPacket type zxid data authinfo)).
Definition QuorumPacket_wire (v : QuorumPacket_) : list Z :=
  z_int (QuorumPacket_type v) ++ z_long (QuorumPacket_zxid v) ++ z_string (QuorumPacket_data v) ++
  IdVec_wire (QuorumPacket_authinfo v).
Definition QuorumPacket_received (v : QuorumPacket_) : dres QuorumPacket_ :=
  let? type := r_int (QuorumPacket_type v) in
  let? zxid := r_long (QuorumPacket_zxid v) in
  let? data := r_string (QuorumPacket_data v) in
  let? authinfo := IdVec_received (QuorumPacket_authinfo v) in
  Ok (mkQuorumPacket type zxid data authinfo).
Definition QuorumPacket_ok (v : QuorumPacket_) : Prop :=
  in_s 32 (QuorumPacket_type v) /\ in_s 64 (QuorumPacket_zxid v) /\
  zstring_ok (QuorumPacket_data v) /\ IdVec_ok (QuorumPacket_authinfo v).
Lemma QuorumPacket_puts v : QuorumPacket_ok v -> puts (oarchive_QuorumPacket v) (QuorumPacket_wire v).
Proof. unfold QuorumPacket_ok. intros. split_facts. unfold oarchive_QuorumPacket, QuorumPacket_wire. puts_steps. Qed.
Lemma QuorumPacket_reads v : QuorumPacket_ok v -> reads iarchive_QuorumPacket (QuorumPacket_wire v) (QuorumPacket_received v).
Proof. unfold QuorumPacket_ok. intros. split_facts. unfold iarchive_QuorumPacket, QuorumPacket_wire, QuorumPacket_received. reads_steps. Qed.
Lemma QuorumPacket_contained : contained true true iarchive_QuorumPacket.
Proof. unfold iarchive_QuorumPacket. contained_steps. Qed.
#[export] Hint Resolve QuorumPacket_puts QuorumPacket_reads QuorumPacket_contained : archive.

(** ** [QuorumAuthPacket] *)

(* coev_zookeeper/proto.h:347-352 QuorumAuthPacket_ *)
Record QuorumAuthPacket_ := mkQuorumAuthPacket {
  QuorumAuthPacket_magic : Z; QuorumAuthPacket_status : Z; QuorumAuthPacket_token : list Z }.
(* coev_zookeeper/proto.cpp oarchive::QuorumAuthPacket *)
Definition oarchive_QuorumAuthPacket (v : QuorumAuthPacket_) : OA :=
  try serialize_log (QuorumAuthPacket_magic v) ;;;
  try serialize_int (QuorumAuthPacket_status v) ;;;
  try serialize_buffer (QuorumAuthPacket_token v) ;;;
  ret 0.
(* coev_zookeeper/proto.cpp iarchive::QuorumAuthPacket *)
Definition iarchive_QuorumAuthPacket : IA QuorumAuthPacket_ :=
  let! magic := deserialize_long in
  let! status := deserialize_int in
  let! token := deserialize_buffer in
  ret (Ok (mkQuorumAuthPacket magic status token)).
Definition QuorumAuthPacket_wire (v : QuorumAuthPacket_) : list Z :=
  z_long (QuorumAuthPacket_magic v) ++ z_int (QuorumAuthPacket_status v) ++
  z_string (QuorumAuthPacket_token v).
Definition QuorumAuthPacket_received (v : QuorumAuthPacket_) : dres QuorumAuthPacket_ :=
  let? magic := r_long (QuorumAuthPacket_magic v) in
  let? status := r_int (QuorumAuthPacket_status v) in
  let? token := r_string (QuorumAuthPacket_token v) in
  Ok (mkQuorumAuthPacket magic status token).
Definition QuorumAuthPacket_ok (v : QuorumAuthPacket_) : Prop :=
  in_s 64 (QuorumAuthPacket_magic v) /\ in_s 32 (QuorumAuthPacket_status v) /\
  zstring_ok (QuorumAuthPacket_token v).
Lemma QuorumAuthPacket_puts v : QuorumAuthPacket_ok v -> puts (oarchive_QuorumAuthPacket v) (QuorumAuthPacket_wire v).
Proof. unfold QuorumAuthPacket_ok. intros. split_facts. unfold oarchive_QuorumAuthPacket, QuorumAuthPacket_wire. puts_steps. Qed.
Lemma QuorumAuthPacket_reads v : QuorumAuthPacket_ok v -> reads iarchive_QuorumAuthPacket (QuorumAuthPacket_wire v) (QuorumAuthPacket_received v).
Proof. unfold QuorumAuthPacket_ok. intros. split_facts. unfold iarchive_QuorumAuthPacket, QuorumAuthPacket_wire, QuorumAuthPacket_received. reads_steps. Qed.
Lemma QuorumAuthPacket_contained t u : contained t u iarchive_QuorumAuthPacket.
Proof. unfold iarchive_QuorumAuthPacket. contained_steps. Qed.
#[export] Hint Resolve QuorumAuthPacket_puts QuorumAuthPacket_reads QuorumAuthPacket_contained : archive.

(** ** [FileHeader] *)

(* coev_zookeeper/proto.h:353-358 FileHeader_ *)
Record FileHeader_ := mkFileHeader {
  FileHeader_magic : Z; FileHeader_version : Z; FileHeader_dbid : Z }.
(* coev_zookeeper/proto.cpp oarchive::FileHeader *)
Definition oarchive_FileHeader (v : FileHeader_) : OA :=
  try serialize_int (FileHeader_magic v) ;;;
  try serialize_int (FileHeader_version v) ;;;
  try serialize_log (FileHeader_dbid v) ;;;
  ret 0.
(* coev_zookeeper/proto.cpp iarchive::FileHeader *)
Definition iarchive_FileHeader : IA FileHeader_ :=
  let! magic := deserialize_int in
  let! version := deserialize_int in
  let! dbid := deserialize_long in
  ret (Ok (mkFileHeader magic version dbid)).
Definition FileHeader_wire (v : FileHeader_) : list Z :=
  z_int (FileHeader_magic v) ++ z_int (FileHeader_version v) ++ z_long (FileHeader_dbid v).
Definition FileHeader_received (v : FileHeader_) : dres FileHeader_ :=
  let? magic := r_int (FileHeader_magic v) in
  let? version := r_int (FileHeader_version v) in
  let? dbid := r_long (FileHeader_dbid v) in
  Ok (mkFileHeader magic version dbid).
Definition FileHeader_ok (v : FileHeader_) : Prop :=
  in_s 32 (FileHeader_magic v) /\ in_s 32 (FileHeader_version v) /\ in_s 64 (FileHeader_dbid v).
Lemma FileHeader_puts v : FileHeader_ok v -> puts (oarchive_FileHeader v) (FileHeader_wire v).
Proof. unfold FileHeader_ok. intros. split_facts. unfold oarchive_FileHeader, FileHeader_wire. puts_steps. Qed.
Lemma FileHeader_reads v : FileHeader_ok v -> reads iarchive_FileHeader (FileHeader_wire v) (FileHeader_received v).
Proof. unfold FileHeader_ok. intros. split_facts. unfold iarchive_FileHeader, FileHeader_wire, FileHeader_received. reads_steps. Qed.
Lemma FileHeader_contained t u : contained t u iarchive_FileHeader.
Proof. unfold iarchive_FileHeader. contained_steps. Qed.
#[export] Hint Resolve FileHeader_puts FileHeader_reads FileHeader_contained : archive.

(** ** [TxnDigest] *)

(* coev_zookeeper/proto.h:359-363 TxnDigest_ *)
Record TxnDigest_ := mkTxnDigest {
  TxnDigest_version : Z; TxnDigest_treeDigest : Z }.
(* coev_zookeeper/proto.cpp oarchive::TxnDigest *)
Definition oarchive_TxnDigest (v : TxnDigest_) : OA :=
  try serialize_int (TxnDigest_version v) ;;;
  try serialize_log (TxnDigest_treeDigest v) ;;;
  ret 0.
(* coev_zookeeper/proto.cpp iarchive::TxnDigest *)
Definition iarchive_TxnDigest : IA TxnDigest_ :=
  let! version := deserialize_int in
  let! treeDigest := deserialize_long in
  ret (Ok (mkTxnDigest version treeDigest)).
Definition TxnDigest_wire (v : TxnDigest_) : list Z :=
  z_int (TxnDigest_version v) ++ z_long (TxnDigest_treeDigest v).
Definition TxnDigest_received (v : TxnDigest_) : dres TxnDigest_ :=
  let? version := r_int (TxnDigest_version v) in
  let? treeDigest := r_long (TxnDigest_treeDigest v) in
  Ok (mkTxnDigest version treeDigest).
Definition TxnDigest_ok (v : TxnDigest_) : Prop :=
  in_s 32 (TxnDigest_version v) /\ in_s 64 (TxnDigest_treeDigest v).
Lemma TxnDigest_puts v : TxnDigest_ok v -> puts (oarchive_TxnDigest v) (TxnDigest_wire v).
Proof. unfold TxnDigest_ok. intros. split_facts. unfold oarchive_TxnDigest, TxnDigest_wire. puts_steps. Qed.
Lemma TxnDigest_reads v : TxnDigest_ok v -> reads iarchive_TxnDigest (TxnDigest_wire v) (TxnDigest_received v).
Proof. unfold TxnDigest_ok. intros. split_facts. unfold iarchive_TxnDigest, TxnDigest_wire, TxnDigest_received. reads_steps. Qed.
Lemma TxnDigest_contained t u : contained t u iarchive_TxnDigest.
Proof. unfold iarchive_TxnDigest. contained_steps. Qed.
#[export] Hint Resolve TxnDigest_puts TxnDigest_reads TxnDigest_contained : archive.

(** ** [TxnHeader] *)

(* coev_zookeeper/proto.h:364-371 TxnHeader_ *)
Record TxnHeader_ := mkTxnHeader {
  TxnHeader_clientId : Z; TxnHeader_cxid : Z; TxnHeader_zxid : Z; TxnHeader_time : Z;
  TxnHeader_type : Z }.
(* coev_zookeeper/proto.cpp oarchive::TxnHeader *)
Definition oarchive_TxnHeader (v : TxnHeader_) : OA :=
  try serialize_log (TxnHeader_clientId v) ;;;
  try serialize_int (TxnHeader_cxid v) ;;;
  try serialize_log (TxnHeader_zxid v) ;;;
  try serialize_log (TxnHeader_time v) ;;;
  try serialize_int (TxnHeader_type v) ;;;
  ret 0.
(* coev_zookeeper/proto.cpp iarchive::TxnHeader *)
Definition iarchive_TxnHeader : IA TxnHeader_ :=
  let! clientId := deserialize_long in
  let! cxid := deserialize_int in
  let! zxid := deserialize_long in
  let! time := deserialize_long in
  let! type := deserialize_int in
  ret (Ok (mkTxnHeader clientId cxid zxid time type)).
Definition TxnHeader_wire (v : TxnHeader_) : list Z :=
  z_long (TxnHeader_clientId v) ++ z_int (TxnHeader_cxid v) ++ z_long (TxnHeader_zxid v) ++
  z_long (TxnHeader_time v) ++ z_int (TxnHeader_type v).
Definition TxnHeader_received (v : TxnHeader_) : dres TxnHeader_ :=
  let? clientId := r_long (TxnHeader_clientId v) in
  let? cxid := r_int (TxnHeader_cxid v) in
  let? zxid := r_long (TxnHeader_zxid v) in
  let? time := r_long (TxnHeader_time v) in
  let? type := r_int (TxnHeader_type v) in
  Ok (mkTxnHeader clientId cxid zxid time type).
Definition TxnHeader_ok (v : TxnHeader_) : Prop :=
  in_s 64 (TxnHeader_clientId v) /\ in_s 32 (TxnHeader_cxid v) /\ in_s 64 (TxnHeader_zxid v) /\
  in_s 64 (TxnHeader_time v) /\ in_s 32 (TxnHeader_type v).
Lemma TxnHeader_puts v : TxnHeader_ok v -> puts (oarchive_TxnHeader v) (TxnHeader_wire v).
Proof. unfold TxnHeader_ok. intros. split_facts. unfold oarchive_TxnHeader, TxnHeader_wire. puts_steps. Qed.
Lemma TxnHeader_reads v : TxnHeader_ok v -> reads iarchive_TxnHeader (TxnHeader_wire v) (TxnHeader_received v).
Proof. unfold TxnHeader_ok. intros. split_facts. unfold iarchive_TxnHeader, TxnHeader_wire, TxnHeader_received. reads_steps. Qed.
Lemma TxnHeader_contained t u : contained t u iarchive_TxnHeader.
Proof. unfold iarchive_TxnHeader. contained_steps. Qed.
#[export] Hint Resolve TxnHeader_puts TxnHeader_reads TxnHeader_contained : archive.

(** ** [CreateTxnV0] *)

(* coev_zookeeper/proto.h:372-378 CreateTxnV0_ *)
Record CreateTxnV0_ := mkCreateTxnV0 {
  CreateTxnV0_path : list Z; CreateTxnV0_data : list Z; CreateTxnV0_acl : ACLVec_;
  CreateTxnV0_ephemeral : Z }.
(* coev_zookeeper/proto.cpp oarchive::CreateTxnV0 *)
Definition oarchive_CreateTxnV0 (v : CreateTxnV0_) : OA :=
  try serialize_string (CreateTxnV0_path v) ;;;
  try serialize_buffer (CreateTxnV0_data v) ;;;
  try oarchive_ACLVec (CreateTxnV0_acl v) ;;;
  try serialize_bool (CreateTxnV0_ephemeral v) ;;;
  ret 0.
(* coev_zookeeper/proto.cpp iarchive::CreateTxnV0 *)
Definition iarchive_CreateTxnV0 : IA CreateTxnV0_ :=
  let! path := deserialize_string in
  let! data := deserialize_buffer in
  let! acl := iarchive_ACLVec in
  let! ephemeral := deserialize_bool in
  ret (Ok (mkCreateTxnV0 path data acl ephemeral)).
Definition CreateTxnV0_wire (v : CreateTxnV0_) : list Z :=
  z_string (CreateTxnV0_path v) ++ z_string (CreateTxnV0_data v) ++
  ACLVec_wire (CreateTxnV0_acl v) ++ z_bool (CreateTxnV0_ephemeral v).
Definition CreateTxnV0_received (v : CreateTxnV0_) : dres CreateTxnV0_ :=
  let? path := r_string (CreateTxnV0_path v) in
  let? data := r_string (CreateTxnV0_data v) in
  let? acl := ACLVec_received (CreateTxnV0_acl v) in
  let? ephemeral := r_bool (CreateTxnV0_ephemeral v) in
  Ok (mkCreateTxnV0 path data acl ephemeral).
Definition CreateTxnV0_ok (v : CreateTxnV0_) : Prop :=
  zstring_ok (CreateTxnV0_path v) /\ zstring_ok (CreateTxnV0_data v) /\
  ACLVec_ok (CreateTxnV0_acl v) /\ in_s 32 (CreateTxnV0_ephemeral v).
Lemma CreateTxnV0_puts v : CreateTxnV0_ok v -> puts (oarchive_CreateTxnV0 v) (CreateTxnV0_wire v).
Proof. unfold CreateTxnV0_ok. intros. split_facts. unfold oarchive_CreateTxnV0, CreateTxnV0_wire. puts_steps. Qed.
Lemma CreateTxnV0_reads v : CreateTxnV0_ok v -> reads iarchive_CreateTxnV0 (CreateTxnV0_wire v) (CreateTxnV0_received v).
Proof. unfold CreateTxnV0_ok. intros. split_facts. unfold iarchive_CreateTxnV0, CreateTxnV0_wire, CreateTxnV0_received. reads_steps. Qed.
Lemma CreateTxnV0_contained : contained true true iarchive_CreateTxnV0.
Proof. unfold iarchive_CreateTxnV0. contained_steps. Qed.
#[export] Hint Resolve CreateTxnV0_puts CreateTxnV0_reads CreateTxnV0_contained : archive.

(** ** [CreateTxn] *)

(* coev_zookeeper/proto.h:379-386 CreateTxn_ *)
Record CreateTxn_ := mkCreateTxn {
  CreateTxn_path : list Z; CreateTxn_data : list Z; CreateTxn_acl : ACLVec_;
  CreateTxn_ephemeral : Z; CreateTxn_parentCVersion : Z }.
(* coev_zookeeper/proto.cpp oarchive::CreateTxn *)
Definition oarchive_CreateTxn (v : CreateTxn_) : OA :=
  try serialize_string (CreateTxn_path v) ;;;
  try serialize_buffer (CreateTxn_data v) ;;;
  try oarchive_ACLVec (CreateTxn_acl v) ;;;
  try serialize_bool (CreateTxn_ephemeral v) ;;;
  try serialize_int (CreateTxn_parentCVersion v) ;;;
  ret 0.
(* coev_zookeeper/proto.cpp iarchive::CreateTxn *)
Definition iarchive_CreateTxn : IA CreateTxn_ :=
  let! path := deserialize_string in
  let! data := deserialize_buffer in
  let! acl := iarchive_ACLVec in
  let! ephemeral := deserialize_bool in
  let! parentCVersion := deserialize_int in
  ret (Ok (mkCreateTxn path data acl ephemeral parentCVersion)).
Definition CreateTxn_wire (v : CreateTxn_) : list Z :=
  z_string (CreateTxn_path v) ++ z_string (CreateTxn_data v) ++ ACLVec_wire (CreateTxn_acl v) ++
  z_bool (CreateTxn_ephemeral v) ++ z_int (CreateTxn_parentCVersion v).
Definition CreateTxn_received (v : CreateTxn_) : dres CreateTxn_ :=
  let? path := r_string (CreateTxn_path v) in
  let? data := r_string (CreateTxn_data v) in
  let? acl := ACLVec_received (CreateTxn_acl v) in
  let? ephemeral := r_bool (CreateTxn_ephemeral v) in
  let? parentCVersion := r_int (CreateTxn_parentCVersion v) in
  Ok (mkCreateTxn path data acl ephemeral parentCVersion).
Definition CreateTxn_ok (v : CreateTxn_) : Prop :=
  zstring_ok (CreateTxn_path v) /\ zstring_ok (CreateTxn_data v) /\ ACLVec_ok (CreateTxn_acl v) /\
  in_s 32 (CreateTxn_ephemeral v) /\ in_s 32 (CreateTxn_parentCVersion v).
Lemma CreateTxn_puts v : CreateTxn_ok v -> puts (oarchive_CreateTxn v) (CreateTxn_wire v).
Proof. unfold CreateTxn_ok. intros. split_facts. unfold oarchive_CreateTxn, CreateTxn_wire. puts_steps. Qed.
Lemma CreateTxn_reads v : CreateTxn_ok v -> reads iarchive_CreateTxn (CreateTxn_wire v) (CreateTxn_received v).
Proof. unfold CreateTxn_ok. intros. split_facts. unfold iarchive_CreateTxn, CreateTxn_wire, CreateTxn_received. reads_steps. Qed.
Lemma CreateTxn_contained : contained true true iarchive_CreateTxn.
Proof. unfold iarchive_CreateTxn. contained_steps. Qed.
#[export] Hint Resolve CreateTxn_puts CreateTxn_reads CreateTxn_contained : archive.

(** ** [CreateTTLTxn] *)

(* coev_zookeeper/proto.h:387-394 CreateTTLTxn_ *)
Record CreateTTLTxn_ := mkCreateTTLTxn {
  CreateTTLTxn_path : list Z; CreateTTLTxn_data : list Z; CreateTTLTxn_acl : ACLVec_;
  CreateTTLTxn_parentCVersion : Z; CreateTTLTxn_ttl : Z }.
(* coev_zookeeper/proto.cpp oarchive::CreateTTLTxn *)
Definition oarchive_CreateTTLTxn (v : CreateTTLTxn_) : OA :=
  try serialize_string (CreateTTLTxn_path v) ;;;
  try serialize_buffer (CreateTTLTxn_data v) ;;;
  try oarchive_ACLVec (CreateTTLTxn_acl v) ;;;
  try serialize_int (CreateTTLTxn_parentCVersion v) ;;;
  try serialize_log (CreateTTLTxn_ttl v) ;;;
  ret 0.
(* coev_zookeeper/proto.cpp iarchive::CreateTTLTxn *)
Definition iarchive_CreateTTLTxn : IA CreateTTLTxn_ :=
  let! path := deserialize_string in
  let! data := deserialize_buffer in
  let! acl := iarchive_ACLVec in
  let! parentCVersion := deserialize_int in
  let! ttl := deserialize_long in
  ret (Ok (mkCreateTTLTxn path data acl parentCVersion ttl)).
Definition CreateTTLTxn_wire (v : CreateTTLTxn_) : list Z :=
  z_string (CreateTTLTxn_path v) ++ z_string (CreateTTLTxn_data v) ++
  ACLVec_wire (CreateTTLTxn_acl v) ++ z_int (CreateTTLTxn_parentCVersion v) ++
  z_long (CreateTTLTxn_ttl v).
Definition CreateTTLTxn_received (v : CreateTTLTxn_) : dres CreateTTLTxn_ :=
  let? path := r_string (CreateTTLTxn_path v) in
  let? data := r_string (CreateTTLTxn_data v) in
  let? acl := ACLVec_received (CreateTTLTxn_acl v) in
  let? parentCVersion := r_int (CreateTTLTxn_parentCVersion v) in
  let? ttl := r_long (CreateTTLTxn_ttl v) in
  Ok (mkCreateTTLTxn path data acl parentCVersion ttl).
Definition CreateTTLTxn_ok (v : CreateTTLTxn_) : Prop :=
  zstring_ok (CreateTTLTxn_path v) /\ zstring_ok (CreateTTLTxn_data v) /\
  ACLVec_ok (CreateTTLTxn_acl v) /\ in_s 32 (CreateTTLTxn_parentCVersion v) /\
  in_s 64 (CreateTTLTxn_ttl v).
Lemma CreateTTLTxn_puts v : CreateTTLTxn_ok v -> puts (oarchive_CreateTTLTxn v) (CreateTTLTxn_wire v).
Proof. unfold CreateTTLTxn_ok. intros. split_facts. unfold oarchive_CreateTTLTxn, CreateTTLTxn_wire. puts_steps. Qed.
Lemma CreateTTLTxn_reads v : CreateTTLTxn_ok v -> reads iarchive_CreateTTLTxn (CreateTTLTxn_wire v) (CreateTTLTxn_received v).
Proof. unfold CreateTTLTxn_ok. intros. split_facts. unfold iarchive_CreateTTLTxn, CreateTTLTxn_wire, CreateTTLTxn_received. reads_steps. Qed.
Lemma CreateTTLTxn_contained u : contained true u iarchive_CreateTTLTxn.
Proof. unfold iarchive_CreateTTLTxn. contained_steps. Qed.
#[export] Hint Resolve CreateTTLTxn_puts CreateTTLTxn_reads CreateTTLTxn_contained : archive.

(** ** [CreateContainerTxn] *)

(* coev_zookeeper/proto.h:395-401 CreateContainerTxn_ *)
Record CreateContainerTxn_ := mkCreateContainerTxn {
  CreateContainerTxn_path : list Z; CreateContainerTxn_data : list Z;
  CreateContainerTxn_acl : ACLVec_; CreateContainerTxn_parentCVersion : Z }.
(* coev_zookeeper/proto.cpp oarchive::CreateContainerTxn *)
Definition oarchive_CreateContainerTxn (v : CreateContainerTxn_) : OA :=
  try serialize_string (CreateContainerTxn_path v) ;;;
  try serialize_buffer (CreateContainerTxn_data v) ;;;
  try oarchive_ACLVec (CreateContainerTxn_acl v) ;;;
  try serialize_int (CreateContainerTxn_parentCVersion v) ;;;
  ret 0.
(* coev_zookeeper/proto.cpp iarchive::CreateContainerTxn *)
Definition iarchive_CreateContainerTxn : IA CreateContainerTxn_ :=
  let! path := deserialize_string in
  let! data := deserialize_buffer in
  let! acl := iarchive_ACLVec in
  let! parentCVersion := deserialize_int in
  ret (Ok (mkCreateContainerTxn path data acl parentCVersion)).
Definition CreateContainerTxn_wire (v : CreateContainerTxn_) : list Z :=
  z_string (CreateContainerTxn_path v) ++ z_string (CreateContainerTxn_data v) ++
  ACLVec_wire (CreateContainerTxn_acl v) ++ z_int (CreateContainerTxn_parentCVersion v).
Definition CreateContainerTxn_received (v : CreateContainerTxn_) : dres CreateContainerTxn_ :=
  let? path := r_string (CreateContainerTxn_path v) in
  let? data := r_string (CreateContainerTxn_data v) in
  let? acl := ACLVec_received (CreateContainerTxn_acl v) in
  let? parentCVersion := r_int (CreateContainerTxn_parentCVersion v) in
  Ok (mkCreateContainerTxn path data acl parentCVersion).
Definition CreateContainerTxn_ok (v : CreateContainerTxn_) : Prop :=
  zstring_ok (CreateContainerTxn_path v) /\ zstring_ok (CreateContainerTxn_data v) /\
  ACLVec_ok (CreateContainerTxn_acl v) /\ in_s 32 (CreateContainerTxn_parentCVersion v).
Lemma CreateContainerTxn_puts v : CreateContainerTxn_ok v -> puts (oarchive_CreateContainerTxn v) (CreateContainerTxn_wire v).
Proof. unfold CreateContainerTxn_ok. intros. split_facts. unfold oarchive_CreateContainerTxn, CreateContainerTxn_wire. puts_steps. Qed.
Lemma CreateContainerTxn_reads v : CreateContainerTxn_ok v -> reads iarchive_CreateContainerTxn (CreateContainerTxn_wire v) (CreateContainerTxn_received v).
Proof. unfold CreateContainerTxn_ok. intros. split_facts. unfold iarchive_CreateContainerTxn, CreateContainerTxn_wire, CreateContainerTxn_received. reads_steps. Qed.
Lemma CreateContainerTxn_contained u : contained true u iarchive_CreateContainerTxn.
Proof. unfold iarchive_CreateContainerTxn. contained_steps. Qed.
#[export] Hint Resolve CreateContainerTxn_puts CreateContainerTxn_reads CreateContainerTxn_contained : archive.

(** ** [DeleteTxn] *)

(* coev_zookeeper/proto.h:402-405 DeleteTxn_ *)
Record DeleteTxn_ := mkDeleteTxn {
  DeleteTxn_path : list Z }.
(* coev_zookeeper/proto.cpp oarchive::DeleteTxn *)
Definition oarchive_DeleteTxn (v : DeleteTxn_) : OA :=
  try serialize_string (DeleteTxn_path v) ;;;
  ret 0.
(* coev_zookeeper/proto.cpp iarchive::DeleteTxn *)
Definition iarchive_DeleteTxn : IA DeleteTxn_ :=
  let! path := deserialize_string in
  ret (Ok (mkDeleteTxn path)).
Definition DeleteTxn_wire (v : DeleteTxn_) : list Z :=
  z_string (DeleteTxn_path v).
Definition DeleteTxn_received (v : DeleteTxn_) : dres DeleteTxn_ :=
  let? path := r_string (DeleteTxn_path v) in
  Ok (mkDeleteTxn path).
Definition DeleteTxn_ok (v : DeleteTxn_) : Prop :=
  zstring_ok (DeleteTxn_path v).
Lemma DeleteTxn_puts v : DeleteTxn_ok v -> puts (oarchive_DeleteTxn v) (DeleteTxn_wire v).
Proof. unfold DeleteTxn_ok. intros. split_facts. unfold oarchive_DeleteTxn, DeleteTxn_wire. puts_steps. Qed.
Lemma DeleteTxn_reads v : DeleteTxn_ok v -> reads iarchive_DeleteTxn (DeleteTxn_wire v) (DeleteTxn_received v).
Proof. unfold DeleteTxn_ok. intros. split_facts. unfold iarchive_DeleteTxn, DeleteTxn_wire, DeleteTxn_received. reads_steps. Qed.
Lemma DeleteTxn_contained t u : contained t u iarchive_DeleteTxn.
Proof. unfold iarchive_DeleteTxn. contained_steps. Qed.
#[export] Hint Resolve DeleteTxn_puts DeleteTxn_reads DeleteTxn_contained : archive.

(** ** [SetDataTxn] *)

(* coev_zookeeper/proto.h:406-411 SetDataTxn_ *)
Record SetDataTxn_ := mkSetDataTxn {
  SetDataTxn_path : list Z; SetDataTxn_data : list Z; SetDataTxn_version : Z }.
(* coev_zookeeper/proto.cpp oarchive::SetDataTxn *)
Definition oarchive_SetDataTxn (v : SetDataTxn_) : OA :=
  try serialize_string (SetDataTxn_path v) ;;;
  try serialize_buffer (SetDataTxn_data v) ;;;
  try serialize_int (SetDataTxn_version v) ;;;
  ret 0.
(* coev_zookeeper/proto.cpp iarchive::SetDataTxn *)
Definition iarchive_SetDataTxn : IA SetDataTxn_ :=
  let! path := deserialize_string in
  let! data := deserialize_buffer in
  let! version := deserialize_int in
  ret (Ok (mkSetDataTxn path data version)).
Definition SetDataTxn_wire (v : SetDataTxn_) : list Z :=
  z_string (SetDataTxn_path v) ++ z_string (SetDataTxn_data v) ++ z_int (SetDataTxn_version v).
Definition SetDataTxn_received (v : SetDataTxn_) : dres SetDataTxn_ :=
  let? path := r_string (SetDataTxn_path v) in
  let? data := r_string (SetDataTxn_data v) in
  let? version := r_int (SetDataTxn_version v) in
  Ok (mkSetDataTxn path data version).
Definition SetDataTxn_ok (v : SetDataTxn_) : Prop :=
  zstring_ok (SetDataTxn_path v) /\ zstring_ok (SetDataTxn_data v) /\ in_s 32 (SetDataTxn_version v).
Lemma SetDataTxn_puts v : SetDataTxn_ok v -> puts (oarchive_SetDataTxn v) (SetDataTxn_wire v).
Proof. unfold SetDataTxn_ok. intros. split_facts. unfold oarchive_SetDataTxn, SetDataTxn_wire. puts_steps. Qed.
Lemma SetDataTxn_reads v : SetDataTxn_ok v -> reads iarchive_SetDataTxn (SetDataTxn_wire v) (SetDataTxn_received v).
Proof. unfold SetDataTxn_ok. intros. split_facts. unfold iarchive_SetDataTxn, SetDataTxn_wire, SetDataTxn_received. reads_steps. Qed.
Lemma SetDataTxn_contained t u : contained t u iarchive_SetDataTxn.
Proof. unfold iarchive_SetDataTxn. contained_steps. Qed.
#[export] Hint Resolve SetDataTxn_puts SetDataTxn_reads SetDataTxn_contained : archive.

(** ** [CheckVersionTxn] *)

(* coev_zookeeper/proto.h:412-416 CheckVersionTxn_ *)
Record CheckVersionTxn_ := mkCheckVersionTxn {
  CheckVersionTxn_path : list Z; CheckVersionTxn_version : Z }.
(* coev_zookeeper/proto.cpp oarchive::CheckVersionTxn *)
Definition oarchive_CheckVersionTxn (v : CheckVersionTxn_) : OA :=
  try serialize_string (CheckVersionTxn_path v) ;;;
  try serialize_int (CheckVersionTxn_version v) ;;;
  ret 0.
(* coev_zookeeper/proto.cpp iarchive::CheckVersionTxn *)
Definition iarchive_CheckVersionTxn : IA CheckVersionTxn_ :=
  let! path := deserialize_string in
  let! version := deserialize_int in
  ret (Ok (mkCheckVersionTxn path version)).
Definition CheckVersionTxn_wire (v : CheckVersionTxn_) : list Z :=
  z_string (CheckVersionTxn_path v) ++ z_int (CheckVersionTxn_version v).
Definition CheckVersionTxn_received (v : CheckVersionTxn_) : dres CheckVersionTxn_ :=
  let? path := r_string (CheckVersionTxn_path v) in
  let? version := r_int (CheckVersionTxn_version v) in
  Ok (mkCheckVersionTxn path version).
Definition CheckVersionTxn_ok (v : CheckVersionTxn_) : Prop :=
  zstring_ok (CheckVersionTxn_path v) /\ in_s 32 (CheckVersionTxn_version v).
Lemma CheckVersionTxn_puts v : CheckVersionTxn_ok v -> puts (oarchive_CheckVersionTxn v) (CheckVersionTxn_wire v).
Proof. unfold CheckVersionTxn_ok. intros. split_facts. unfold oarchive_CheckVersionTxn, CheckVersionTxn_wire. puts_steps. Qed.
Lemma CheckVersionTxn_reads v : CheckVersionTxn_ok v -> reads iarchive_CheckVersionTxn (CheckVersionTxn_wire v) (CheckVersionTxn_received v).
Proof. unfold CheckVersionTxn_ok. intros. split_facts. unfold iarchive_CheckVersionTxn, CheckVersionTxn_wire, CheckVersionTxn_received. reads_steps. Qed.
Lemma CheckVersionTxn_contained t u : contained t u iarchive_CheckVersionTxn.
Proof. unfold iarchive_CheckVersionTxn. contained_steps. Qed.
#[export] Hint Resolve CheckVersionTxn_puts CheckVersionTxn_reads CheckVersionTxn_contained : archive.

(** ** [SetACLTxn] *)

(* coev_zookeeper/proto.h:417-422 SetACLTxn_ *)
Record SetACLTxn_ := mkSetACLTxn {
  SetACLTxn_path : list Z; SetACLTxn_acl : ACLVec_; SetACLTxn_version : Z }.
(* coev_zookeeper/proto.cpp oarchive::SetACLTxn *)
Definition oarchive_SetACLTxn (v : SetACLTxn_) : OA :=
  try serialize_string (SetACLTxn_path v) ;;;
  try oarchive_ACLVec (SetACLTxn_acl v) ;;;
  try serialize_int (SetACLTxn_version v) ;;;
  ret 0.
(* coev_zookeeper/proto.cpp iarchive::SetACLTxn *)
Definition iarchive_SetACLTxn : IA SetACLTxn_ :=
  let! path := deserialize_string in
  let! acl := iarchive_ACLVec in
  let! version := deserialize_int in
  ret (Ok (mkSetACLTxn path acl version)).
Definition SetACLTxn_wire (v : SetACLTxn_) : list Z :=
  z_string (SetACLTxn_path v) ++ ACLVec_wire (SetACLTxn_acl v) ++ z_int (SetACLTxn_version v).
Definition SetACLTxn_received (v : SetACLTxn_) : dres SetACLTxn_ :=
  let? path := r_string (SetACLTxn_path v) in
  let? acl := ACLVec_received (SetACLTxn_acl v) in
  let? version := r_int (SetACLTxn_version v) in
  Ok (mkSetACLTxn path acl version).
Definition SetACLTxn_ok (v : SetACLTxn_) : Prop :=
  zstring_ok (SetACLTxn_path v) /\ ACLVec_ok (SetACLTxn_acl v) /\ in_s 32 (SetACLTxn_version v).
Lemma SetACLTxn_puts v : SetACLTxn_ok v -> puts (oarchive_SetACLTxn v) (SetACLTxn_wire v).
Proof. unfold SetACLTxn_ok. intros. split_facts. unfold oarchive_SetACLTxn, SetACLTxn_wire. puts_steps. Qed.
Lemma SetACLTxn_reads v : SetACLTxn_ok v -> reads iarchive_SetACLTxn (SetACLTxn_wire v) (SetACLTxn_received v).
Proof. unfold SetACLTxn_ok. intros. split_facts. unfold iarchive_SetACLTxn, SetACLTxn_wire, SetACLTxn_received. reads_steps. Qed.
Lemma SetACLTxn_contained u : contained true u iarchive_SetACLTxn.
Proof. unfold iarchive_SetACLTxn. contained_steps. Qed.
#[export] Hint Resolve SetACLTxn_puts SetACLTxn_reads SetACLTxn_contained : archive.

(** ** [SetMaxChildrenTxn] *)

(* coev_zookeeper/proto.h:423-427 SetMaxChildrenTxn_ *)
Record SetMaxChildrenTxn_ := mkSetMaxChildrenTxn {
  SetMaxChildrenTxn_path : list Z; SetMaxChildrenTxn_max : Z }.
(* coev_zookeeper/proto.cpp oarchive::SetMaxChildrenTxn *)
Definition oarchive_SetMaxChildrenTxn (v : SetMaxChildrenTxn_) : OA :=
  try serialize_string (SetMaxChildrenTxn_path v) ;;;
  try serialize_int (SetMaxChildrenTxn_max v) ;;;
  ret 0.
(* coev_zookeeper/proto.cpp iarchive::SetMaxChildrenTxn *)
Definition iarchive_SetMaxChildrenTxn : IA SetMaxChildrenTxn_ :=
  let! path := deserialize_string in
  let! max := deserialize_int in
  ret (Ok (mkSetMaxChildrenTxn path max)).
Definition SetMaxChildrenTxn_wire (v : SetMaxChildrenTxn_) : list Z :=
  z_string (SetMaxChildrenTxn_path v) ++ z_int (SetMaxChildrenTxn_max v).
Definition SetMaxChildrenTxn_received (v : SetMaxChildrenTxn_) : dres SetMaxChildrenTxn_ :=
  let? path := r_string (SetMaxChildrenTxn_path v) in
  let? max := r_int (SetMaxChildrenTxn_max v) in
  Ok (mkSetMaxChildrenTxn path max).
Definition SetMaxChildrenTxn_ok (v : SetMaxChildrenTxn_) : Prop :=
  zstring_ok (SetMaxChildrenTxn_path v) /\ in_s 32 (SetMaxChildrenTxn_max v).
Lemma SetMaxChildrenTxn_puts v : SetMaxChildrenTxn_ok v -> puts (oarchive_SetMaxChildrenTxn v) (SetMaxChildrenTxn_wire v).
Proof. unfold SetMaxChildrenTxn_ok. intros. split_facts. unfold oarchive_SetMaxChildrenTxn, SetMaxChildrenTxn_wire. puts_steps. Qed.
Lemma SetMaxChildrenTxn_reads v : SetMaxChildrenTxn_ok v -> reads iarchive_SetMaxChildrenTxn (SetMaxChildrenTxn_wire v) (SetMaxChildrenTxn_received v).
Proof. unfold SetMaxChildrenTxn_ok. intros. split_facts. unfold iarchive_SetMaxChildrenTxn, SetMaxChildrenTxn_wire, SetMaxChildrenTxn_received. reads_steps. Qed.
Lemma SetMaxChildrenTxn_contained t u : contained t u iarchive_SetMaxChildrenTxn.
Proof. unfold iarchive_SetMaxChildrenTxn. contained_steps. Qed.
#[export] Hint Resolve SetMaxChildrenTxn_puts SetMaxChildrenTxn_reads SetMaxChildrenTxn_contained : archive.

(** ** [CreateSessionTxn] *)

(* coev_zookeeper/proto.h:428-431 CreateSessionTxn_ *)
Record CreateSessionTxn_ := mkCreateSessionTxn {
  CreateSessionTxn_timeOut : Z }.
(* coev_zookeeper/proto.cpp oarchive::CreateSessionTxn *)
Definition oarchive_CreateSessionTxn (v : CreateSessionTxn_) : OA :=
  try serialize_int (CreateSessionTxn_timeOut v) ;;;
  ret 0.
(* coev_zookeeper/proto.cpp iarchive::CreateSessionTxn *)
Definition iarchive_CreateSessionTxn : IA CreateSessionTxn_ :=
  let! timeOut := deserialize_int in
  ret (Ok (mkCreateSessionTxn timeOut)).
Definition CreateSessionTxn_wire (v : CreateSessionTxn_) : list Z :=
  z_int (CreateSessionTxn_timeOut v).
Definition CreateSessionTxn_received (v : CreateSessionTxn_) : dres CreateSessionTxn_ :=
  let? timeOut := r_int (CreateSessionTxn_timeOut v) in
  Ok (mkCreateSessionTxn timeOut).
Definition CreateSessionTxn_ok (v : CreateSessionTxn_) : Prop :=
  in_s 32 (CreateSessionTxn_timeOut v).
Lemma CreateSessionTxn_puts v : CreateSessionTxn_ok v -> puts (oarchive_CreateSessionTxn v) (CreateSessionTxn_wire v).
Proof. unfold CreateSessionTxn_ok. intros. split_facts. unfold oarchive_CreateSessionTxn, CreateSessionTxn_wire. puts_steps. Qed.
Lemma CreateSessionTxn_reads v : CreateSessionTxn_ok v -> reads iarchive_CreateSessionTxn (CreateSessionTxn_wire v) (CreateSessionTxn_received v).
Proof. unfold CreateSessionTxn_ok. intros. split_facts. unfold iarchive_CreateSessionTxn, CreateSessionTxn_wire, CreateSessionTxn_received. reads_steps. Qed.
Lemma CreateSessionTxn_contained t u : contained t u iarchive_CreateSessionTxn.
Proof. unfold iarchive_CreateSessionTxn. contained_steps. Qed.
#[export] Hint Resolve CreateSessionTxn_puts CreateSessionTxn_reads CreateSessionTxn_contained : archive.

(** ** [CloseSessionTxn] *)

(* coev_zookeeper/proto.h:432-435 CloseSessionTxn_ *)
Record CloseSessionTxn_ := mkCloseSessionTxn {
  CloseSessionTxn_paths2Delete : StringVec_ }.
(* coev_zookeeper/proto.cpp oarchive::CloseSessionTxn *)
Definition oarchive_CloseSessionTxn (v : CloseSessionTxn_) : OA :=
  try oarchive_StringVec (CloseSessionTxn_paths2Delete v) ;;;
  ret 0.
(* coev_zookeeper/proto.cpp iarchive::CloseSessionTxn *)
Definition iarchive_CloseSessionTxn : IA CloseSessionTxn_ :=
  let! paths2Delete := iarchive_StringVec in
  ret (Ok (mkCloseSessionTxn paths2Delete)).
Definition CloseSessionTxn_wire (v : CloseSessionTxn_) : list Z :=
  StringVec_wire (CloseSessionTxn_paths2Delete v).
Definition CloseSessionTxn_received (v : CloseSessionTxn_) : dres CloseSessionTxn_ :=
  let? paths2Delete := StringVec_received (CloseSessionTxn_paths2Delete v) in
  Ok (mkCloseSessionTxn paths2Delete).
Definition CloseSessionTxn_ok (v : CloseSessionTxn_) : Prop :=
  StringVec_ok (CloseSessionTxn_paths2Delete v).
Lemma CloseSessionTxn_puts v : CloseSessionTxn_ok v -> puts (oarchive_CloseSessionTxn v) (CloseSessionTxn_wire v).
Proof. unfold CloseSessionTxn_ok. intros. split_facts. unfold oarchive_CloseSessionTxn, CloseSessionTxn_wire. puts_steps. Qed.
Lemma CloseSessionTxn_reads v : CloseSessionTxn_ok v -> reads iarchive_CloseSessionTxn (CloseSessionTxn_wire v) (CloseSessionTxn_received v).
Proof. unfold CloseSessionTxn_ok. intros. split_facts. unfold iarchive_CloseSessionTxn, CloseSessionTxn_wire, CloseSessionTxn_received. reads_steps. Qed.
Lemma CloseSessionTxn_contained u : contained true u iarchive_CloseSessionTxn.
Proof. unfold iarchive_CloseSessionTxn. contained_steps. Qed.
#[export] Hint Resolve CloseSessionTxn_puts CloseSessionTxn_reads CloseSessionTxn_contained : archive.

(** ** [ErrorTxn] *)

(* coev_zookeeper/proto.h:436-439 ErrorTxn_ *)
Record ErrorTxn_ := mkErrorTxn {
  ErrorTxn_err : Z }.
(* coev_zookeeper/proto.cpp oarchive::ErrorTxn *)
Definition oarchive_ErrorTxn (v : ErrorTxn_) : OA :=
  try serialize_int (ErrorTxn_err v) ;;;
  ret 0.
(* coev_zookeeper/proto.cpp iarchive::ErrorTxn *)
Definition iarchive_ErrorTxn : IA ErrorTxn_ :=
  let! err := deserialize_int in
  ret (Ok (mkErrorTxn err)).
Definition ErrorTxn_wire (v : ErrorTxn_) : list Z :=
  z_int (ErrorTxn_err v).
Definition ErrorTxn_received (v : ErrorTxn_) : dres ErrorTxn_ :=
  let? err := r_int (ErrorTxn_err v) in
  Ok (mkErrorTxn err).
Definition ErrorTxn_ok (v : ErrorTxn_) : Prop :=
  in_s 32 (ErrorTxn_err v).
Lemma ErrorTxn_puts v : ErrorTxn_ok v -> puts (oarchive_ErrorTxn v) (ErrorTxn_wire v).
Proof. unfold ErrorTxn_ok. intros. split_facts. unfold oarchive_ErrorTxn, ErrorTxn_wire. puts_steps. Qed.
Lemma ErrorTxn_reads v : ErrorTxn_ok v -> reads iarchive_ErrorTxn (ErrorTxn_wire v) (ErrorTxn_received v).
Proof. unfold ErrorTxn_ok. intros. split_facts. unfold iarchive_ErrorTxn, ErrorTxn_wire, ErrorTxn_received. reads_steps. Qed.
Lemma ErrorTxn_contained t u : contained t u iarchive_ErrorTxn.
Proof. unfold iarchive_ErrorTxn. contained_steps. Qed.
#[export] Hint Resolve ErrorTxn_puts ErrorTxn_reads ErrorTxn_contained : archive.

(** ** [Txn] *)

(* coev_zookeeper/proto.h:440-444 Txn_ *)
Record Txn_ := mkTxn {
  Txn_type : Z; Txn_data : list Z }.
(* coev_zookeeper/proto.cpp oarchive::Txn *)
Definition oarchive_Txn (v : Txn_) : OA :=
  try serialize_int (Txn_type v) ;;;
  try serialize_buffer (Txn_data v) ;;;
  ret 0.
(* coev_zookeeper/proto.cpp iarchive::Txn *)
Definition iarchive_Txn : IA Txn_ :=
  let! type := deserialize_int in
  let! data := deserialize_buffer in
  ret (Ok (mkTxn type data)).
Definition Txn_wire (v : Txn_) : list Z :=
  z_int (Txn_type v) ++ z_string (Txn_data v).
Definition Txn_received (v : Txn_) : dres Txn_ :=
  let? type := r_int (Txn_type v) in
  let? data := r_string (Txn_data v) in
  Ok (mkTxn type data).
Definition Txn_ok (v : Txn_) : Prop :=
  in_s 32 (Txn_type v) /\ zstring_ok (Txn_data v).
Lemma Txn_puts v : Txn_ok v -> puts (oarchive_Txn v) (Txn_wire v).
Proof. unfold Txn_ok. intros. split_facts. unfold oarchive_Txn, Txn_wire. puts_steps. Qed.
Lemma Txn_reads v : Txn_ok v -> reads iarchive_Txn (Txn_wire v) (Txn_received v).
Proof. unfold Txn_ok. intros. split_facts. unfold iarchive_Txn, Txn_wire, Txn_received. reads_steps. Qed.
Lemma Txn_contained t u : contained t u iarchive_Txn.
Proof. unfold iarchive_Txn. contained_steps. Qed.
#[export] Hint Resolve Txn_puts Txn_reads Txn_contained : archive.

(** ** [TxnVec] *)

(* coev_zookeeper/proto.h:445-447 TxnVec_ *)
Definition TxnVec_ : Type := list Txn_.
(* coev_zookeeper/proto.cpp oarchive::TxnVec *)
Definition oarchive_TxnVec (v : TxnVec_) : OA := put_vector oarchive_Txn v.
(* coev_zookeeper/proto.cpp iarchive::TxnVec *)
Definition iarchive_TxnVec : IA TxnVec_ := get_vector iarchive_Txn.
Definition TxnVec_wire (v : TxnVec_) : list Z := z_vector Txn_wire v.
Definition TxnVec_received (v : TxnVec_) : dres TxnVec_ := r_vector Txn_received v.
Definition TxnVec_ok (v : TxnVec_) : Prop := zvector_ok Txn_ok v.
Lemma TxnVec_puts v : TxnVec_ok v -> puts (oarchive_TxnVec v) (TxnVec_wire v).
Proof. apply puts_vector, Txn_puts. Qed.
Lemma TxnVec_reads v : TxnVec_ok v -> reads iarchive_TxnVec (TxnVec_wire v) (TxnVec_received v).
Proof. apply reads_vector, Txn_reads. Qed.
Lemma TxnVec_contained u : contained true u iarchive_TxnVec.
Proof. apply contained_vector, Txn_contained. Qed.
#[export] Hint Resolve TxnVec_puts TxnVec_reads TxnVec_contained : archive.

(** ** [MultiTxn] *)

(* coev_zookeeper/proto.h:448-451 MultiTxn_ *)
Record MultiTxn_ := mkMultiTxn {
  MultiTxn_txns : TxnVec_ }.
(* coev_zookeeper/proto.cpp oarchive::MultiTxn *)
Definition oarchive_MultiTxn (v : MultiTxn_) : OA :=
  try oarchive_TxnVec (MultiTxn_txns v) ;;;
  ret 0.
(* coev_zookeeper/proto.cpp iarchive::MultiTxn *)
Definition iarchive_MultiTxn : IA MultiTxn_ :=
  let! txns := iarchive_TxnVec in
  ret (Ok (mkMultiTxn txns)).
Definition MultiTxn_wire (v : MultiTxn_) : list Z :=
  TxnVec_wire (MultiTxn_txns v).
Definition MultiTxn_received (v : MultiTxn_) : dres MultiTxn_ :=
  let? txns := TxnVec_received (MultiTxn_txns v) in
  Ok (mkMultiTxn txns).
Definition MultiTxn_ok (v : MultiTxn_) : Prop :=
  TxnVec_ok (MultiTxn_txns v).
Lemma MultiTxn_puts v : MultiTxn_ok v -> puts (oarchive_MultiTxn v) (MultiTxn_wire v).
Proof. unfold MultiTxn_ok. intros. split_facts. unfold oarchive_MultiTxn, MultiTxn_wire. puts_steps. Qed.
Lemma MultiTxn_reads v : MultiTxn_ok v -> reads iarchive_MultiTxn (MultiTxn_wire v) (MultiTxn_received v).
Proof. unfold MultiTxn_ok. intros. split_facts. unfold iarchive_MultiTxn, MultiTxn_wire, MultiTxn_received. reads_steps. Qed.
Lemma MultiTxn_contained u : contained true u iarchive_MultiTxn.
Proof. unfold iarchive_MultiTxn. contained_steps. Qed.
#[export] Hint Resolve MultiTxn_puts MultiTxn_reads MultiTxn_contained : archive.

(** ** All structures *)

(** A structure with its members, its contract, and the faults its reader can have. *)
Record structure := Structure {
  s_type : Type;
  s_put : s_type -> OA; s_get : IA s_type;
  s_ok : s_type -> Prop; s_wire : s_type -> list Z; s_received : s_type -> dres s_type;
  s_vector : bool; s_undefined : bool }.

Definition structures : list structure :=
  [Structure Id_ oarchive_Id iarchive_Id Id_ok Id_wire Id_received false false;
   Structure ACL_ oarchive_ACL iarchive_ACL ACL_ok ACL_wire ACL_received false false;
   Structure Stat_ oarchive_Stat iarchive_Stat Stat_ok Stat_wire Stat_received false false;
   Structure StatPersisted_ oarchive_StatPersisted iarchive_StatPersisted StatPersisted_ok StatPersisted_wire StatPersisted_received false false;
   Structure ClientInfo_ oarchive_ClientInfo iarchive_ClientInfo ClientInfo_ok ClientInfo_wire ClientInfo_received false false;
   Structure ConnectRequest_ oarchive_ConnectRequest iarchive_ConnectRequest ConnectRequest_ok ConnectRequest_wire ConnectRequest_received false true;
   Structure ConnectResponse_ oarchive_ConnectResponse iarchive_ConnectResponse ConnectResponse_ok ConnectResponse_wire ConnectResponse_received false true;
   Structure StringVec_ oarchive_StringVec iarchive_StringVec StringVec_ok StringVec_wire StringVec_received true false;
   Structure SetWatches_ oarchive_SetWatches iarchive_SetWatches SetWatches_ok SetWatches_wire SetWatches_received true false;
   Structure SetWatches2_ oarchive_SetWatches2 iarchive_SetWatches2 SetWatches2_ok SetWatches2_wire SetWatches2_received true false;
   Structure RequestHeader_ oarchive_RequestHeader iarchive_RequestHeader RequestHeader_ok RequestHeader_wire RequestHeader_received false false;
   Structure MultiHeader_ oarchive_MultiHeader iarchive_MultiHeader MultiHeader_ok MultiHeader_wire MultiHeader_received false true;
   Structure AuthPacket_ oarchive_AuthPacket iarchive_AuthPacket AuthPacket_ok AuthPacket_wire AuthPacket_received false false;
   Structure ReplyHeader_ oarchive_ReplyHeader iarchive_ReplyHeader ReplyHeader_ok ReplyHeader_wire ReplyHeader_received false false;
   Structure GetDataRequest_ oarchive_GetDataRequest iarchive_GetDataRequest GetDataRequest_ok GetDataRequest_wire GetDataRequest_received false true;
   Structure SetDataRequest_ oarchive_SetDataRequest iarchive_SetDataRequest SetDataRequest_ok SetDataRequest_wire SetDataRequest_received false false;
   Structure ReconfigRequest_ oarchive_ReconfigRequest iarchive_ReconfigRequest ReconfigRequest_ok ReconfigRequest_wire ReconfigRequest_received false false;
   Structure SetDataResponse_ oarchive_SetDataResponse iarchive_SetDataResponse SetDataResponse_ok SetDataResponse_wire SetDataResponse_received false false;
   Structure GetSASLRequest_ oarchive_GetSASLRequest iarchive_GetSASLRequest GetSASLRequest_ok GetSASLRequest_wire GetSASLRequest_received false false;
   Structure SetSASLRequest_ oarchive_SetSASLRequest iarchive_SetSASLRequest SetSASLRequest_ok SetSASLRequest_wire SetSASLRequest_received false false;
   Structure SetSASLResponse_ oarchive_SetSASLResponse iarchive_SetSASLResponse SetSASLResponse_ok SetSASLResponse_wire SetSASLResponse_received false false;
   Structure ACLVec_ oarchive_ACLVec iarchive_ACLVec ACLVec_ok ACLVec_wire ACLVec_received true false;
   Structure CreateRequest_ oarchive_CreateRequest iarchive_CreateRequest CreateRequest_ok CreateRequest_wire CreateRequest_received true false;
   Structure CreateTTLRequest_ oarchive_CreateTTLRequest iarchive_CreateTTLRequest CreateTTLRequest_ok CreateTTLRequest_wire CreateTTLRequest_received true false;
   Structure DeleteRequest_ oarchive_DeleteRequest iarchive_DeleteRequest DeleteRequest_ok DeleteRequest_wire DeleteRequest_received false false;
   Structure GetChildrenRequest_ oarchive_GetChildrenRequest iarchive_GetChildrenRequest GetChildrenRequest_ok GetChildrenRequest_wire GetChildrenRequest_received false true;
   Structure GetAllChildrenNumberRequest_ oarchive_GetAllChildrenNumberRequest iarchive_GetAllChildrenNumberRequest GetAllChildrenNumberRequest_ok GetAllChildrenNumberRequest_wire GetAllChildrenNumberRequest_received false false;
   Structure GetChildren2Request_ oarchive_GetChildren2Request iarchive_GetChildren2Request GetChildren2Request_ok GetChildren2Request_wire GetChildren2Request_received false true;
   Structure CheckVersionRequest_ oarchive_CheckVersionRequest iarchive_CheckVersionRequest CheckVersionRequest_ok CheckVersionRequest_wire CheckVersionRequest_received false false;
   Structure GetMaxChildrenRequest_ oarchive_GetMaxChildrenRequest iarchive_GetMaxChildrenRequest GetMaxChildrenRequest_ok GetMaxChildrenRequest_wire GetMaxChildrenRequest_received false false;
   Structure GetMaxChildrenResponse_ oarchive_GetMaxChildrenResponse iarchive_GetMaxChildrenResponse GetMaxChildrenResponse_ok GetMaxChildrenResponse_wire GetMaxChildrenResponse_received false false;
   Structure SetMaxChildrenRequest_ oarchive_SetMaxChildrenRequest iarchive_SetMaxChildrenRequest SetMaxChildrenRequest_ok SetMaxChildrenRequest_wire SetMaxChildrenRequest_received false false;
   Structure SyncRequest_ oarchive_SyncRequest iarchive_SyncRequest SyncRequest_ok SyncRequest_wire SyncRequest_received false false;
   Structure SyncResponse_ oarchive_SyncResponse iarchive_SyncResponse SyncResponse_ok SyncResponse_wire SyncResponse_received false false;
   Structure GetACLRequest_ oarchive_GetACLRequest iarchive_GetACLRequest GetACLRequest_ok GetACLRequest_wire GetACLRequest_received false false;
   Structure SetACLRequest_ oarchive_SetACLRequest iarchive_SetACLRequest SetACLRequest_ok SetACLRequest_wire SetACLRequest_received true false;
   Structure SetACLResponse_ oarchive_SetACLResponse iarchive_SetACLResponse SetACLResponse_ok SetACLResponse_wire SetACLResponse_received false false;
   Structure AddWatchRequest_ oarchive_AddWatchRequest iarchive_AddWatchRequest AddWatchRequest_ok AddWatchRequest_wire AddWatchRequest_received false false;
   Structure WatcherEvent_ oarchive_WatcherEvent iarchive_WatcherEvent WatcherEvent_ok WatcherEvent_wire WatcherEvent_received false false;
   Structure ErrorResponse_ oarchive_ErrorResponse iarchive_ErrorResponse ErrorResponse_ok ErrorResponse_wire ErrorResponse_received false false;
   Structure CreateResponse_ oarchive_CreateResponse iarchive_CreateResponse CreateResponse_ok CreateResponse_wire CreateResponse_received false false;
   Structure Create2Response_ oarchive_Create2Response iarchive_Create2Response Create2Response_ok Create2Response_wire Create2Response_received false false;
   Structure ExistsRequest_ oarchive_ExistsRequest iarchive_ExistsRequest ExistsRequest_ok ExistsRequest_wire ExistsRequest_received false true;
   Structure ExistsResponse_ oarchive_ExistsResponse iarchive_ExistsResponse ExistsResponse_ok ExistsResponse_wire ExistsResponse_received false false;
   Structure GetDataResponse_ oarchive_GetDataResponse iarchive_GetDataResponse GetDataResponse_ok GetDataResponse_wire GetDataResponse_received false false;
   Structure GetChildrenResponse_ oarchive_GetChildrenResponse iarchive_GetChildrenResponse GetChildrenResponse_ok GetChildrenResponse_wire GetChildrenResponse_received true false;
   Structure GetAllChildrenNumberResponse_ oarchive_GetAllChildrenNumberResponse iarchive_GetAllChildrenNumberResponse GetAllChildrenNumberResponse_ok GetAllChildrenNumberResponse_wire GetAllChildrenNumberResponse_received false false;
   Structure GetChildren2Response_ oarchive_GetChildren2Response iarchive_GetChildren2Response GetChildren2Response_ok GetChildren2Response_wire GetChildren2Response_received true false;
   Structure GetACLResponse_ oarchive_GetACLResponse iarchive_GetACLResponse GetACLResponse_ok GetACLResponse_wire GetACLResponse_received true false;
   Structure CheckWatchesRequest_ oarchive_CheckWatchesRequest iarchive_CheckWatchesRequest CheckWatchesRequest_ok CheckWatchesRequest_wire CheckWatchesRequest_received false false;
   Structure RemoveWatchesRequest_ oarchive_RemoveWatchesRequest iarchive_RemoveWatchesRequest RemoveWatchesRequest_ok RemoveWatchesRequest_wire RemoveWatchesRequest_received false false;
   Structure GetEphemeralsRequest_ oarchive_GetEphemeralsRequest iarchive_GetEphemeralsRequest GetEphemeralsRequest_ok GetEphemeralsRequest_wire GetEphemeralsRequest_received false false;
   Structure GetEphemeralsResponse_ oarchive_GetEphemeralsResponse iarchive_GetEphemeralsResponse GetEphemeralsResponse_ok GetEphemeralsResponse_wire GetEphemeralsResponse_received true false;
   Structure ClientInfoVec_ oarchive_ClientInfoVec iarchive_ClientInfoVec ClientInfoVec_ok ClientInfoVec_wire ClientInfoVec_received true false;
   Structure WhoAmIResponse_ oarchive_WhoAmIResponse iarchive_WhoAmIResponse WhoAmIResponse_ok WhoAmIResponse_wire WhoAmIResponse_received true false;
   Structure LearnerInfo_ oarchive_LearnerInfo iarchive_LearnerInfo LearnerInfo_ok LearnerInfo_wire LearnerInfo_received false false;
   Structure IdVec_ oarchive_IdVec iarchive_IdVec IdVec_ok IdVec_wire IdVec_received true true;
   Structure QuorumPacket_ oarchive_QuorumPacket iarchive_QuorumPacket QuorumPacket_ok QuorumPacket_wire QuorumPacket_received true true;
   Structure QuorumAuthPacket_ oarchive_QuorumAuthPacket iarchive_QuorumAuthPacket QuorumAuthPacket_ok QuorumAuthPacket_wire QuorumAuthPacket_received false false;
   Structure FileHeader_ oarchive_FileHeader iarchive_FileHeader FileHeader_ok FileHeader_wire FileHeader_received false false;
   Structure TxnDigest_ oarchive_TxnDigest iarchive_TxnDigest TxnDigest_ok TxnDigest_wire TxnDigest_received false false;
   Structure TxnHeader_ oarchive_TxnHeader iarchive_TxnHeader TxnHeader_ok TxnHeader_wire TxnHeader_received false false;
   Structure CreateTxnV0_ oarchive_CreateTxnV0 iarchive_CreateTxnV0 CreateTxnV0_ok CreateTxnV0_wire CreateTxnV0_received true true;
   Structure CreateTxn_ oarchive_CreateTxn iarchive_CreateTxn CreateTxn_ok CreateTxn_wire CreateTxn_received true true;
   Structure CreateTTLTxn_ oarchive_CreateTTLTxn iarchive_CreateTTLTxn CreateTTLTxn_ok CreateTTLTxn_wire CreateTTLTxn_received true false;
   Structure CreateContainerTxn_ oarchive_CreateContainerTxn iarchive_CreateContainerTxn CreateContainerTxn_ok CreateContainerTxn_wire CreateContainerTxn_received true false;
   Structure DeleteTxn_ oarchive_DeleteTxn iarchive_DeleteTxn DeleteTxn_ok DeleteTxn_wire DeleteTxn_received false false;
   Structure SetDataTxn_ oarchive_SetDataTxn iarchive_SetDataTxn SetDataTxn_ok SetDataTxn_wire SetDataTxn_received false false;
   Structure CheckVersionTxn_ oarchive_CheckVersionTxn iarchive_CheckVersionTxn CheckVersionTxn_ok CheckVersionTxn_wire CheckVersionTxn_received false false;
   Structure SetACLTxn_ oarchive_SetACLTxn iarchive_SetACLTxn SetACLTxn_ok SetACLTxn_wire SetACLTxn_received true false;
   Structure SetMaxChildrenTxn_ oarchive_SetMaxChildrenTxn iarchive_SetMaxChildrenTxn SetMaxChildrenTxn_ok SetMaxChildrenTxn_wire SetMaxChildrenTxn_received false false;
   Structure CreateSessionTxn_ oarchive_CreateSessionTxn iarchive_CreateSessionTxn CreateSessionTxn_ok CreateSessionTxn_wire CreateSessionTxn_received false false;
   Structure CloseSessionTxn_ oarchive_CloseSessionTxn iarchive_CloseSessionTxn CloseSessionTxn_ok CloseSessionTxn_wire CloseSessionTxn_received true false;
   Structure ErrorTxn_ oarchive_ErrorTxn iarchive_ErrorTxn ErrorTxn_ok ErrorTxn_wire ErrorTxn_received false false;
   Structure Txn_ oarchive_Txn iarchive_Txn Txn_ok Txn_wire Txn_received false false;
   Structure TxnVec_ oarchive_TxnVec iarchive_TxnVec TxnVec_ok TxnVec_wire TxnVec_received true false;
   Structure MultiTxn_ oarchive_MultiTxn iarchive_MultiTxn MultiTxn_ok MultiTxn_wire MultiTxn_received true false].
