(* ===== verification/ZooExchange.v ===== *)
(** * What ZooKeeper structures carry

    The theorems about the structures of [ZooProto]: what every one of them looks like to
    its reader, what a reader does with any input, and which values are lost. *)
From Stdlib Require Import ZArith Lia Bool.
From stdpp Require Import base tactics list numbers.
From S2P Require Import Prelude Wire ZooArchive ZooProto.

(** The contract of a structure. *)
Definition exchanged (s : structure) : Prop := forall v, s_ok s v ->
  puts (s_put s v) (s_wire s v) /\ reads (s_get s) (s_wire s v) (s_received s v).
Definition guarded (s : structure) : Prop := contained (s_vector s) (s_undefined s) (s_get s).

Lemma structure_intro A put get ok wire received t u :
  (forall v : A, ok v -> puts (put v) (wire v)) -> (forall v, ok v -> reads get (wire v) (received v)) ->
  contained t u get ->
  exchanged (Structure A put get ok wire received t u) /\ guarded (Structure A put get ok wire received t u).
Proof. intros Hp Hr Hc. split; [intros v Hv; split; [by apply Hp|by apply Hr]|exact Hc]. Qed.
Lemma structures_contracts : Forall (fun s => exchanged s /\ guarded s) structures.
Proof. repeat (apply Forall_cons_2; [apply structure_intro; eauto with archive|]). apply Forall_nil_2. Qed.
Lemma structure_contract s : In s structures -> exchanged s /\ guarded s.
Proof. intros H. exact (proj1 (Forall_forall _ _) structures_contracts s H). Qed.

(** C16: Every structure, with integers in their range and strings and vectors whose length
    fits an [int], is appended to the archive as its wire form, and a reader at that wire
    form, whatever follows, obtains exactly what [received] says, having read the wire form
    and nothing else. *)
Theorem structures_exchanged s v :
  In s structures -> s_ok s v ->
  (forall archive, s_put s v archive = Done 0 (archive ++ s_wire s v)) /\
  forall rest, Zlen (s_wire s v ++ rest) <= INT32_MAX ->
    exists rest', s_get s (s_wire s v ++ rest) = Done (s_received s v) rest' /\
      forall x, s_received s v = Ok x -> rest' = rest.
Proof. intros Hs Hv. by apply structure_contract in Hs as [He _]; apply He in Hv. Qed.
Definition example_packet : SetDataRequest_ := mkSetDataRequest [47; 97] [1; 2; 3] (-1).
Definition SetDataRequest_structure : structure :=
  Structure SetDataRequest_ oarchive_SetDataRequest iarchive_SetDataRequest SetDataRequest_ok SetDataRequest_wire
    SetDataRequest_received false false.
Example structures_exchanged_witness :
  exists rest', iarchive_SetDataRequest (SetDataRequest_wire example_packet ++ [9]) = Done (Ok example_packet) rest'.
Proof.
  destruct (structures_exchanged SetDataRequest_structure example_packet) as [_ H].
  - by apply (nth_error_In structures 15).
  - vm_compute. repeat split; discriminate.
  - destruct (H [9]) as (rest' & E & _); [vm_compute; discriminate|]. exists rest'. exact E.
Defined.

(** C22: On any bytes a reader returns a value or one of its two error codes, leaving a suffix
    of the view, and never reads outside it; only a structure with a vector can throw, and
    only one with a truth value or the vector of ids can be undefined. *)
Theorem structure_readers_contained s view :
  In s structures -> Forall is_byte view ->
  match s_get s view with
  | Done r view' =>
      (exists p, view = p ++ view') /\ match r with Ok _ => True | Err e => e = - E2BIG \/ e = - EINVAL end
  | Fault FThrow => s_vector s = true
  | Fault FUB => s_undefined s = true
  | Fault _ => False
  end.
Proof. intros Hs Hv. apply structure_contract in Hs as [_ Hg]. by apply Hg. Qed.
Example structure_readers_contained_witness :
  match iarchive_SetDataRequest [0; 0; 0; 9; 47] with
  | Done (Err e) _ => e = - E2BIG \/ e = - EINVAL
  | _ => False
  end.
Proof.
  pose proof (structure_readers_contained SetDataRequest_structure [0; 0; 0; 9; 47]
    ltac:(by apply (nth_error_In structures 15)) ltac:(refine (bool_decide_unpack _ _); vm_compute; exact I)) as H.
  change (s_get SetDataRequest_structure) with iarchive_SetDataRequest in H.
  destruct (iarchive_SetDataRequest [0; 0; 0; 9; 47]) as [[e|v] view'|f] eqn:E; vm_compute in E; [apply H|discriminate..].
Defined.

(** ** What is lost *)

Lemma r_long_intact v : in_s 64 v -> r_long v = Ok v <-> v = 0.
Proof.
  unfold in_s, r_long, to_u. change (2 ^ (64 - 1)) with 9223372036854775808. change (2 ^ 32) with 4294967296.
  rewrite Z.shiftr_div_pow2 by lia. change (2 ^ 32) with 4294967296. intros Hv. split; [|by intros ->].
  intros [= E]. pose proof (Z.mod_pos_bound (v / 4294967296) 4294967296). pose proof (Z.div_mod v 4294967296).
  assert (v / 4294967296 = 0) as E0 by (apply Z.div_small; lia). rewrite E0 in E. by rewrite Z.mod_0_l in E by lia.
Qed.
Lemma r_string_intact s : r_string s = Ok s <-> s <> [].
Proof. unfold r_string. case_bool_decide; [split; congruence|done]. Qed.
Lemma r_string_cases s : (s = [] /\ r_string s = Err (- EINVAL)) \/ (s <> [] /\ r_string s = Ok s).
Proof. unfold r_string. case_bool_decide; auto. Qed.

(** The reader takes the upper half of a long for its value, so that a statistic comes back
    unchanged only when all its transaction ids and times are 0; the writer never sends an
    access list, so that a create request comes back without one; and a handshake comes
    back only when its ids are 0 and it has a password. *)
Theorem structures_lose :
  (forall v, Stat_ok v -> Stat_received v = Ok v <->
     Stat_czxid v = 0 /\ Stat_mzxid v = 0 /\ Stat_ctime v = 0 /\ Stat_mtime v = 0 /\ Stat_ephemeralOwner v = 0 /\
     Stat_pzxid v = 0) /\
  (forall v, CreateRequest_received v =
     if bool_decide (CreateRequest_path v = [] \/ CreateRequest_data v = []) then Err (- EINVAL)
     else Ok (mkCreateRequest (CreateRequest_path v) (CreateRequest_data v) [] (CreateRequest_flags v))) /\
  (forall v, ConnectRequest_ok v -> ConnectRequest_received v = Ok v <->
     ConnectRequest_lastZxidSeen v = 0 /\ ConnectRequest_sessionId v = 0 /\ ConnectRequest_passwd v <> [] /\
     0 <= ConnectRequest_readOnly v <= 1).
Proof.
  split_and!.
  - intros [] H. unfold Stat_ok in H. cbn in *. split_facts. unfold Stat_received. cbn.
    repeat match goal with H : in_s 64 ?x |- _ => apply r_long_intact in H end.
    unfold r_long in *. rewrite <- H, <- H0, <- H1, <- H2, <- H6, <- H9. split.
    + intros [= E1 E2 E3 E4 E5 E6]. split_and!; by f_equal.
    + intros ([= E1] & [= E2] & [= E3] & [= E4] & [= E5] & [= E6]). by rewrite E1, E2, E3, E4, E5, E6.
  - intros []. unfold CreateRequest_received. cbn. unfold r_string. repeat case_bool_decide; tauto || done.
  - intros [pv zxid t id pw ro] H. unfold ConnectRequest_ok in H. cbn in *. split_facts.
    unfold ConnectRequest_received. cbn. apply r_long_intact in H0, H2. unfold r_long in *.
    destruct (r_string_cases pw) as [[E ->]|[E ->]]; cbn; [split; [done|tauto]|].
    rewrite <- H0, <- H2. split.
    + intros [= E1 E2 E3]. split_and!; [by rewrite E1|by rewrite E2|done|..]; destruct (_ =? _) eqn:Er; lia.
    + intros ([= E1] & [= E2] & _ & Hr). rewrite E1, E2. do 2 f_equal. destruct (_ =? _) eqn:Er; lia.
Qed.
