(* ===== verification/ZooClient.v ===== *)
(** * The ZooKeeper client

    [coev_zookeeper/ZooCli.cpp], [ZooOp.cpp] and [ZooDef.cpp] over an interface to the
    connection: paths, the framing of messages, the reader coroutine and the operations.
    Members without an initializer that an operation reads before it sets them are reads of
    an indeterminate value. *)
From Stdlib Require Import ZArith Lia Bool.
From stdpp Require Import base tactics list numbers.
From S2P Require Import Prelude Wire ZooArchive ZooProto.

Definition INVALID : Z := -1.

(** ** Paths *)

Fixpoint starts_with (needle l : list Z) : bool :=
  match needle, l with
  | [], _ => true
  | n :: needle', c :: l' => (n =? c) && starts_with needle' l'
  | _ :: _, [] => false
  end.
(** [(?!.*needle)]: the needle occurs nowhere. *)
Fixpoint contains (needle l : list Z) : bool :=
  starts_with needle l || match l with [] => false | _ :: l' => contains needle l' end.
Definition slash : Z := 47.
(** [word($|/)] *)
Definition word_here (word l : list Z) : bool :=
  starts_with word l &&
  match drop (length word) l with [] => true | c :: _ => c =? slash end.
(** [(^|/)word($|/)] anywhere behind the beginning *)
Fixpoint slash_word (word l : list Z) : bool :=
  match l with
  | [] => false
  | c :: l' => ((c =? slash) && word_here word l') || slash_word word l'
  end.
Definition has_component (word l : list Z) : bool := word_here word l || slash_word word l.

Definition ZOO_PERSISTENT_SEQUENTIAL : Z := 2.
Definition ZOO_EPHEMERAL_SEQUENTIAL : Z := 3.
Definition ZOO_CONTAINER : Z := 4.
Definition ZOO_PERSISTENT_WITH_TTL : Z := 5.
Definition ZOO_PERSISTENT_SEQUENTIAL_WITH_TTL : Z := 6.
(* coev_zookeeper/constant.h:91-94 ZOOKEEPER_IS_SEQUENCE *)
Definition ZOOKEEPER_IS_SEQUENCE (mode : Z) : bool :=
  (mode =? ZOO_PERSISTENT_SEQUENTIAL) || (mode =? ZOO_EPHEMERAL_SEQUENTIAL) || (mode =? ZOO_PERSISTENT_SEQUENTIAL_WITH_TTL).
(* coev_zookeeper/ZooOp.cpp:9-11 ZOOKEEPER_IS_TTL *)
Definition ZOOKEEPER_IS_TTL (mode : Z) : bool :=
  (mode =? ZOO_PERSISTENT_WITH_TTL) || (mode =? ZOO_PERSISTENT_SEQUENTIAL_WITH_TTL).

(** The three lookaheads look from behind the first slash. *)
(* coev_zookeeper/ZooCli.cpp isValidPath *)
Definition isValidPath (path : list Z) (mode : Z) : bool :=
  match path with
  | [] => false
  | c :: rest =>
      if negb (c =? slash) then false
      else if Zlen path =? 1 then true
      else if (List.last path 0 =? slash) && negb (ZOOKEEPER_IS_SEQUENCE mode) then false
      else
        negb (contains [slash; slash] rest) && negb (contains [slash; 46; slash] rest) &&
        negb (contains [slash; 46; 46; slash] rest) && forallb (fun c => negb ((0 <=? c) && (c <=? 31))) rest &&
        negb (has_component [46] path || has_component [46; 46] path)
  end.

Definition path_string (chroot client_path : list Z) : list Z :=
  if bool_decide (chroot = []) then client_path
  else if Zlen client_path =? 1 then chroot
  else chroot ++ client_path.

(** ** The client *)

(** The connection: [connect], [send] (the number of bytes taken, or [INVALID]), [recv]
    of at most so many bytes ([None] for [INVALID]); the clock; and what the list of
    replies has become when a coroutine that waits for one is resumed. *)
Class Connection (E : Type) := {
  base_connect : list Z -> Z -> E -> Z * E;
  base_send : list Z -> E -> Z * E;
  base_recv : Z -> E -> option (list Z) * E;
  time_now : E -> Z;
  until_resumed : list (list Z) -> E -> list (list Z) * E;
}.

(** [m_primer_storage], the xid counter of [get_xid], which all clients share, and the
    numbers of times the two waiter lists have been resumed are part of the state. *)
(* coev_zookeeper/ZooCli.h:20-81 ZooCli *)
Record ZooCli := mkZooCli {
  zc_chroot : list Z; zc_client_id : Z; zc_passwd : list Z; zc_last_zxid : Z; zc_recv_timeout : Z;
  zc_allow_read_only : Z; zc_seen_rw_server_before : bool; zc_session_id : Z; zc_xid : Z;
  zc_completion_list : list (list Z); zc_completion_resumed : nat; zc_watcher_resumed : nat }.

Definition with_xid (x : Z) (c : ZooCli) := mkZooCli (zc_chroot c) (zc_client_id c) (zc_passwd c) (zc_last_zxid c)
  (zc_recv_timeout c) (zc_allow_read_only c) (zc_seen_rw_server_before c) (zc_session_id c) x
  (zc_completion_list c) (zc_completion_resumed c) (zc_watcher_resumed c).
Definition with_completions (l : list (list Z)) (n w : nat) (c : ZooCli) := mkZooCli (zc_chroot c) (zc_client_id c)
  (zc_passwd c) (zc_last_zxid c) (zc_recv_timeout c) (zc_allow_read_only c) (zc_seen_rw_server_before c)
  (zc_session_id c) (zc_xid c) l n w.

Definition with_session (id : Z) (c : ZooCli) := mkZooCli (zc_chroot c) (zc_client_id c) (zc_passwd c) (zc_last_zxid c)
  (zc_recv_timeout c) (zc_allow_read_only c) (zc_seen_rw_server_before c) id (zc_xid c)
  (zc_completion_list c) (zc_completion_resumed c) (zc_watcher_resumed c).
Definition with_client_id (id : Z) (c : ZooCli) := mkZooCli (zc_chroot c) id (zc_passwd c) (zc_last_zxid c)
  (zc_recv_timeout c) (zc_allow_read_only c) (zc_seen_rw_server_before c) (zc_session_id c) (zc_xid c)
  (zc_completion_list c) (zc_completion_resumed c) (zc_watcher_resumed c).

Section Client.
Context {E : Type} {connection : Connection E}.
Abbreviation ZC := (M (ZooCli * E)).

Definition zc_gets {A} (f : ZooCli -> A) : ZC A := gets (fun s => f (fst s)).
Definition zc_modify (f : ZooCli -> ZooCli) : ZC unit := modify (fun s => (f (fst s), snd s)).
Definition zc_call {A} (f : E -> A * E) : ZC A := fun s => let '(a, e) := f (snd s) in Done a (fst s, e).
(** Reading a variable that has not been set *)
Definition indeterminate {A} : ZC A := fail FUB.

(* coev_zookeeper/ZooDef.cpp get_xid *)
Definition get_xid : ZC Z := fun s =>
  let x := if zc_xid (fst s) =? -1 then to_i32 (time_now (snd s)) else zc_xid (fst s) in
  let x := to_i32 (x + 1) in
  Done x (with_xid x (fst s), snd s).

(* coev_zookeeper/ZooCli.cpp ZooCli::path_init *)
Definition path_init (path : list Z) : ZC (Z * list Z) :=
  let* chroot := zc_gets zc_chroot in
  let path_out := path_string chroot path in
  ret (if negb (isValidPath path_out 0) then INVALID else 0, path_out).

(** ** Messages *)

(* coev_zookeeper/ZooCli.cpp ZooCli::send *)
Definition send (request : list Z) : ZC Z :=
  if bool_decide (request = []) then ret 0
  else
    let* r := zc_call (base_send (host_bytes 4 (htonl (to_i32 (Zlen request))))) in
    if r =? INVALID then ret INVALID
    else
      let* r := zc_call (base_send request) in
      if r =? INVALID then ret INVALID else ret r.

(** [while (offset < hlen)]: the result of the last [recv], and the bytes.  Every turn that
    receives something brings the end closer; a [recv] of nothing repeats. *)
Fixpoint recv_rest (fuel : nat) (hlen : Z) (response : list Z) (r : Z) : ZC (Z * list Z) :=
  if hlen <=? Zlen response then ret (r, response)
  else
    match fuel with
    | O => fail FDiverge
    | S fuel' =>
        let* got := zc_call (base_recv (hlen - Zlen response)) in
        match got with
        | None => ret (INVALID, response)
        | Some bs => recv_rest fuel' hlen (response ++ bs) (Zlen bs)
        end
    end.
(* coev_zookeeper/ZooCli.cpp ZooCli::recv *)
Definition recv (fuel : nat) : ZC (Z * list Z) :=
  let* got := zc_call (base_recv 4) in
  match got with
  | None => ret (INVALID, [])
  | Some len =>
      if Zlen len <? 4 then ret (INVALID, [])
      else
        let hlen := to_i32 (htonl (host_load len)) in
        if hlen <? 0 then fail FThrow else recv_rest fuel hlen [] (Zlen len)
  end.

(** [iarchive] members run on a view, not on the client. *)
Definition on_view {A} (g : IA A) (view : list Z) : ZC (dres A * list Z) :=
  match g view with Done r view' => ret (r, view') | Fault f => fail f end.

Definition PING_XID : Z := -2.
Definition AUTH_XID : Z := -4.
Definition SET_WATCHES_XID : Z := -8.
Definition WATCHER_EVENT_XID : Z := -1.

(** One turn of the loop: [Some] is its [co_return].  The results of the archive are
    dropped: what has not been read has no value. *)
(* coev_zookeeper/ZooCli.cpp ZooCli::process *)
Definition process_turn (fuel : nat) : ZC (option Z) :=
  let* got := recv fuel in
  let '(r, response) := got in
  if r =? INVALID then ret (Some INVALID)
  else if negb (r =? Zlen response) then fail FAssert
  else
    let* hdr := on_view iarchive_ReplyHeader response in
    match deserialize_int response with
    | Done (Ok xid) _ =>
        if xid =? PING_XID then ret None
        else if xid =? SET_WATCHES_XID then ret None
        else if xid =? WATCHER_EVENT_XID then
          let* evt := on_view iarchive_WatcherEvent (snd hdr) in
          match deserialize_int (snd hdr) with
          | Done (Ok type) _ =>
              zc_modify (fun c => with_completions (zc_completion_list c) (zc_completion_resumed c) (S (zc_watcher_resumed c)) c) ;;;
              ret None
          | _ => indeterminate
          end
        else
          zc_modify (fun c => with_completions (zc_completion_list c ++ [response]) (S (zc_completion_resumed c)) (zc_watcher_resumed c) c) ;;;
          ret None
    | _ => indeterminate
    end.
Fixpoint process_turns (fuel n : nat) : ZC (option Z) :=
  match n with
  | O => ret None
  | S n' => let* r := process_turn fuel in match r with Some r => ret (Some r) | None => process_turns fuel n' end
  end.

(** The result, and [ia.m_view], which is empty when no reply was taken.  The view points
    into [response], a local variable of this coroutine. *)
(* coev_zookeeper/ZooCli.cpp ZooCli::completion *)
Definition completion : ZC (Z * list Z) :=
  let* l := zc_gets zc_completion_list in
  let* l := zc_call (until_resumed l) in
  match l with
  | [] => zc_modify (fun c => with_completions [] (zc_completion_resumed c) (zc_watcher_resumed c) c) ;;; ret (INVALID, [])
  | response :: l' =>
      zc_modify (fun c => with_completions l' (zc_completion_resumed c) (zc_watcher_resumed c) c) ;;;
      let* hdr := on_view iarchive_ReplyHeader response in
      match hdr with
      | (Ok h, view) => ret (if ReplyHeader_err h =? 0 then 0 else INVALID, view)
      | (Err _, _) => indeterminate
      end
  end.
(** A reader on the view [completion] has left: its first read is of [first] bytes of
    memory that has been freed. *)
Definition read_freed {A} (first : Z) (view : list Z) : ZC (dres A) :=
  if Zlen view <? first then ret (Err (- E2BIG)) else fail FUB.

(** [oarchive oa; r = oa.f(&req);]: the result and the buffer *)
Definition on_archive (f : OA) (buff : list Z) : ZC (Z * list Z) :=
  match f buff with Done rc b => ret (rc, b) | Fault x => fail x end.

(* coev_zookeeper/constant.h:9-33 ZOO_CREATE_OP *)
Definition ZOO_CREATE_OP : Z := 1.
Definition ZOO_DELETE_OP : Z := 2.
Definition ZOO_GETDATA_OP : Z := 4.
Definition ZOO_SETDATA_OP : Z := 5.
Definition ZOO_GETACL_OP : Z := 6.
Definition ZOO_SETACL_OP : Z := 7.
Definition ZOO_SYNC_OP : Z := 9.
Definition ZOO_PING_OP : Z := 11.
Definition ZOO_GETCHILDREN2_OP : Z := 12.
Definition ZOO_CHECK_OP : Z := 13.
Definition ZOO_MULTI_OP : Z := 14.
Definition ZOO_CREATE2_OP : Z := 15.
Definition ZOO_RECONFIG_OP : Z := 16.
Definition ZOO_CREATE_CONTAINER_OP : Z := 19.
Definition ZOO_CREATE_TTL_OP : Z := 21.
Definition ZOO_CLOSE_OP : Z := -11.
Definition ZOO_SETAUTH_OP : Z := 100.
Definition ZOO_SETWATCHES_OP : Z := 101.
Definition ZOO_MAX_TTL : Z := 0xFFFFFFFFFF.

(** [r = oa.RequestHeader(&h); r = r < 0 ? r : oa.X(&req); if (r == INVALID) co_return INVALID;
    r = send(oa.m_buff); if (r == INVALID) co_return INVALID; k] *)
Definition sending (f : OA) (k : ZC Z) : ZC Z :=
  let* oa := on_archive f [] in
  if fst oa =? INVALID then ret INVALID
  else let* r := send (snd oa) in if r =? INVALID then ret INVALID else k.
(** [r = path_init(req.path, path); if (r == INVALID) co_return INVALID; k] *)
Definition with_path (path : list Z) (k : list Z -> ZC Z) : ZC Z :=
  let* p := path_init path in if fst p =? INVALID then ret INVALID else k (snd p).
(** [iarchive ia; r = completion(ia); if (r == INVALID) co_return INVALID; k] *)
Definition completed (k : list Z -> ZC Z) : ZC Z :=
  let* c := completion in if fst c =? INVALID then ret INVALID else k (snd c).

(** ** Operations *)

(** The reply is read into a local variable; what the reader returns is not used. *)
Definition read_and_drop {A} (first : Z) (view : list Z) (result : Z) : ZC Z :=
  let* _r := @read_freed A first view in ret result.

(* coev_zookeeper/ZooCli.cpp ZooCli::send_ping *)
Definition send_ping : ZC Z :=
  sending (oarchive_RequestHeader (mkRequestHeader PING_XID ZOO_PING_OP)) (ret 0).
(* coev_zookeeper/ZooCli.cpp ZooCli::send_auth_info *)
Definition send_auth_info (scheme auth : list Z) : ZC Z :=
  sending (try oarchive_RequestHeader (mkRequestHeader AUTH_XID ZOO_SETAUTH_OP) ;;;
           oarchive_AuthPacket (mkAuthPacket 0 scheme auth))
    (let* c := completion in read_and_drop (A := AuthPacket_) 4 (snd c) 0).
(** [req.watch] is not set. *)
(* coev_zookeeper/ZooCli.cpp ZooCli::exists *)
Definition zoo_exists (path : list Z) : ZC Z :=
  let* _xid := get_xid in
  with_path path (fun _ => indeterminate).
(* coev_zookeeper/ZooCli.cpp ZooCli::get *)
Definition get (path : list Z) : ZC Z :=
  let* xid := get_xid in
  with_path path (fun p =>
    sending (try oarchive_RequestHeader (mkRequestHeader xid ZOO_GETDATA_OP) ;;;
             oarchive_GetDataRequest (mkGetDataRequest p 0))
      (let* c := completion in read_and_drop (A := GetDataResponse_) 4 (snd c) 0)).
(** "/zookeeper/config" *)
Definition ZOO_CONFIG_NODE : list Z := [47; 122; 111; 111; 107; 101; 101; 112; 101; 114; 47; 99; 111; 110; 102; 105; 103].
(* coev_zookeeper/ZooCli.cpp ZooCli::get_config *)
Definition get_config : ZC Z :=
  let* xid := get_xid in
  with_path ZOO_CONFIG_NODE (fun p =>
    sending (try oarchive_RequestHeader (mkRequestHeader xid ZOO_GETDATA_OP) ;;;
             oarchive_GetDataRequest (mkGetDataRequest p 0))
      (let* c := completion in read_and_drop (A := GetDataResponse_) 4 (snd c) 0)).
(* coev_zookeeper/ZooCli.cpp ZooCli::reconfig *)
Definition reconfig (joining leaving members : list Z) (version : Z) : ZC Z :=
  let* xid := get_xid in
  sending (try oarchive_RequestHeader (mkRequestHeader xid ZOO_RECONFIG_OP) ;;;
           oarchive_ReconfigRequest (mkReconfigRequest joining leaving members version))
    (let* c := completion in read_and_drop (A := ReconfigRequest_) 4 (snd c) 0).
(* coev_zookeeper/ZooCli.cpp ZooCli::set *)
Definition set (path buffer : list Z) (version : Z) : ZC Z :=
  let* xid := get_xid in
  with_path path (fun p =>
    sending (try oarchive_RequestHeader (mkRequestHeader xid ZOO_SETDATA_OP) ;;;
             oarchive_SetDataRequest (mkSetDataRequest p buffer version))
      (let* c := completion in read_and_drop (A := GetDataResponse_) 4 (snd c) 0)).
(** [req.watch] is not set. *)
(* coev_zookeeper/ZooCli.cpp ZooCli::get_children *)
Definition get_children (path : list Z) : ZC Z :=
  let* _xid := get_xid in
  with_path path (fun _ => indeterminate).
(** The children are moved to [data] whatever the reader returns. *)
(* coev_zookeeper/ZooCli.cpp ZooCli::get_children2 *)
Definition get_children2 (path : list Z) : ZC Z :=
  let* xid := get_xid in
  with_path path (fun p =>
    sending (try oarchive_RequestHeader (mkRequestHeader xid ZOO_GETCHILDREN2_OP) ;;;
             oarchive_GetChildren2Request (mkGetChildren2Request p 0))
      (completed (fun view => read_and_drop (A := GetChildren2Response_) 4 view 0))).
(* coev_zookeeper/ZooCli.cpp ZooCli::async_ *)
Definition async_ (path : list Z) : ZC Z :=
  with_path path (fun p =>
    let* xid := get_xid in
    sending (try oarchive_RequestHeader (mkRequestHeader xid ZOO_SYNC_OP) ;;; oarchive_SyncRequest (mkSyncRequest p))
      (completed (fun view => read_and_drop (A := SyncResponse_) 4 view 0))).
(** The statistic is copied whatever the reader returns, set or not. *)
Definition read_stat (view : list Z) : ZC Z :=
  let* r := @read_freed Stat_ 8 view in
  match r with Err _ => indeterminate | Ok _ => ret 0 end.
(* coev_zookeeper/ZooCli.cpp ZooCli::get_acl *)
Definition get_acl (path : list Z) : ZC Z :=
  with_path path (fun p =>
    let* xid := get_xid in
    sending (try oarchive_RequestHeader (mkRequestHeader xid ZOO_GETACL_OP) ;;; oarchive_GetACLRequest (mkGetACLRequest p))
      (completed read_stat)).
(* coev_zookeeper/ZooCli.cpp ZooCli::set_acl *)
Definition set_acl (path : list Z) (version : Z) (acl : ACLVec_) : ZC Z :=
  with_path path (fun p =>
    let* xid := get_xid in
    sending (try oarchive_RequestHeader (mkRequestHeader xid ZOO_SETACL_OP) ;;;
             oarchive_SetACLRequest (mkSetACLRequest p acl version))
      (completed read_stat)).
(** [version] is not used, and [req.version] is not set. *)
(* coev_zookeeper/ZooCli.cpp ZooCli::delete_ *)
Definition delete_ (path : list Z) (version : Z) : ZC Z :=
  let* _xid := get_xid in
  with_path path (fun _ => indeterminate).
(* coev_zookeeper/ZooOp.cpp get_create_op_type *)
Definition get_create_op_type (mode default_op : Z) : Z :=
  if mode =? ZOO_CONTAINER then ZOO_CREATE_CONTAINER_OP
  else if ZOOKEEPER_IS_TTL mode then ZOO_CREATE_TTL_OP
  else default_op.
(** Both branches run off the end of the coroutine, which returns an [int]. *)
(* coev_zookeeper/ZooCli.cpp ZooCli::create2_ttl *)
Definition create2_ttl (path value : list Z) (acl_entries : ACLVec_) (mode ttl : Z) : ZC Z :=
  let* xid := get_xid in
  let h := mkRequestHeader xid (get_create_op_type mode ZOO_CREATE2_OP) in
  let finish := completed (fun view => let* _r := @read_freed Create2Response_ 4 view in fail FUB) in
  if ZOOKEEPER_IS_TTL mode then
    if (ttl <=? 0) || (ZOO_MAX_TTL <? ttl) then ret INVALID
    else
      with_path path (fun p =>
        sending (try oarchive_RequestHeader h ;;;
                 oarchive_CreateTTLRequest (mkCreateTTLRequest p value acl_entries mode ttl)) finish)
  else if 0 <=? ttl then ret INVALID
  else
    with_path path (fun p =>
      sending (try oarchive_RequestHeader h ;;; oarchive_CreateRequest (mkCreateRequest p value acl_entries mode)) finish).
(* coev_zookeeper/ZooCli.cpp ZooCli::create2 *)
Definition create2 (path value : list Z) (acl : ACLVec_) (mode : Z) : ZC Z := create2_ttl path value acl mode (-1).
(* coev_zookeeper/ZooCli.cpp ZooCli::set_watches *)
Definition set_watches : ZC Z :=
  let* zxid := zc_gets zc_last_zxid in
  sending (try oarchive_RequestHeader (mkRequestHeader SET_WATCHES_XID ZOO_SETWATCHES_OP) ;;;
           oarchive_SetWatches (mkSetWatches zxid [] [] []))
    (completed (fun _ => ret 0)).
(* coev_zookeeper/ZooCli.cpp ZooCli::close *)
Definition close : ZC Z :=
  let* xid := get_xid in
  sending (oarchive_RequestHeader (mkRequestHeader xid ZOO_CLOSE_OP)) (completed (fun _ => ret 0)).

(** ** Several operations in one request *)

(** The union of [ZooOp]; data and paths are C strings. *)
Inductive op_union :=
| m_create_op (path data : list Z) (acl : ACLVec_) (flags : Z)
| m_delete_op (path : list Z) (version : Z)
| m_set_op (path data : list Z) (version : Z)
| m_check_op (path : list Z) (version : Z).
(* coev_zookeeper/ZooOp.h:17-63 ZooOp *)
Record ZooOp := mkZooOp { m_type : Z; m_union : op_union }.
(** A [std::string] made from a C string: up to the first NUL *)
Fixpoint c_string (s : list Z) : list Z :=
  match s with [] => [] | c :: s' => if c =? 0 then [] else c :: c_string s' end.
(* coev_zookeeper/ZooOp.cpp ZooOp::zoo_create_op_init *)
Definition zoo_create_op_init (path value : list Z) (acl : ACLVec_) (mode : Z) : ZooOp :=
  mkZooOp (get_create_op_type mode ZOO_CREATE_OP) (m_create_op path value acl mode).
(* coev_zookeeper/ZooOp.cpp ZooOp::zoo_create2_op_init *)
Definition zoo_create2_op_init (path value : list Z) (acl : ACLVec_) (mode : Z) : ZooOp :=
  mkZooOp (get_create_op_type mode ZOO_CREATE2_OP) (m_create_op path value acl mode).
(* coev_zookeeper/ZooOp.cpp ZooOp::zoo_delete_op_init *)
Definition zoo_delete_op_init (path : list Z) (version : Z) : ZooOp := mkZooOp ZOO_DELETE_OP (m_delete_op path version).
(* coev_zookeeper/ZooOp.cpp ZooOp::zoo_set_op_init *)
Definition zoo_set_op_init (path buffer : list Z) (version : Z) : ZooOp := mkZooOp ZOO_SETDATA_OP (m_set_op path buffer version).
(* coev_zookeeper/ZooOp.cpp ZooOp::zoo_check_op_init *)
Definition zoo_check_op_init (path : list Z) (version : Z) : ZooOp := mkZooOp ZOO_CHECK_OP (m_check_op path version).

(** [r = path_init(req.path, path); r = r < 0 ? r : oa.X(&req);] *)
Definition with_op_path (path : list Z) (f : list Z -> OA) (buff : list Z) : ZC (Z * list Z) :=
  let* p := path_init path in
  if fst p <? 0 then ret (fst p, buff) else on_archive (f (snd p)) buff.
(** The switch: a type that no case names writes nothing; the version of a check stays 0. *)
(* coev_zookeeper/ZooCli.cpp:662-706 ZooCli::multi *)
Definition multi_case (op : ZooOp) (rb : Z * list Z) : ZC (Z * list Z) :=
  if (m_type op =? ZOO_CREATE_CONTAINER_OP) || (m_type op =? ZOO_CREATE_OP) then
    match m_union op with
    | m_create_op path data acl flags =>
        with_op_path path (fun p => oarchive_CreateRequest (mkCreateRequest p (c_string data) acl flags)) (snd rb)
    | _ => fail FUB
    end
  else if m_type op =? ZOO_DELETE_OP then
    match m_union op with
    | m_delete_op path version => with_op_path path (fun p => oarchive_DeleteRequest (mkDeleteRequest p version)) (snd rb)
    | _ => fail FUB
    end
  else if m_type op =? ZOO_SETDATA_OP then
    match m_union op with
    | m_set_op path data version =>
        with_op_path path (fun p => oarchive_SetDataRequest (mkSetDataRequest p (c_string data) version)) (snd rb)
    | _ => fail FUB
    end
  else if m_type op =? ZOO_CHECK_OP then
    match m_union op with
    | m_check_op path _ => with_op_path path (fun p => oarchive_CheckVersionRequest (mkCheckVersionRequest p 0)) (snd rb)
    | _ => fail FUB
    end
  else ret rb.
(* coev_zookeeper/ZooCli.cpp:655-707 ZooCli::multi *)
Definition multi_op (op : ZooOp) (rb : Z * list Z) : ZC (Z * list Z) :=
  let* rb :=
    if fst rb <? 0 then ret rb else on_archive (oarchive_MultiHeader (mkMultiHeader (m_type op) 0 (-1))) (snd rb) in
  multi_case op rb.
Fixpoint multi_loop (ops : list ZooOp) (rb : Z * list Z) : ZC (Z * list Z) :=
  match ops with [] => ret rb | op :: ops' => let* rb := multi_op op rb in multi_loop ops' rb end.
(* coev_zookeeper/ZooCli.cpp ZooCli::multi *)
Definition multi (ops : list ZooOp) : ZC Z :=
  let* xid := get_xid in
  let* rb := on_archive (oarchive_RequestHeader (mkRequestHeader xid ZOO_MULTI_OP)) [] in
  let* rb := multi_loop ops rb in
  let* rb := if fst rb <? 0 then ret rb else on_archive (oarchive_MultiHeader (mkMultiHeader (-1) 1 (-1))) (snd rb) in
  let* r := send (snd rb) in
  if r =? INVALID then ret INVALID else ret 0.

(** ** Connecting *)

Definition HANDSHAKE_REQ_SIZE : Z := 45.
(** It runs off its end. *)
(* coev_zookeeper/ZooCli.cpp ZooCli::prime_connection *)
Definition prime_connection : ZC Z :=
  let* c := zc_gets id in
  let sessionId := if zc_seen_rw_server_before c then zc_client_id c else 0 in
  let* oa := on_archive (serialize_int 0 ;;; serialize_log (zc_last_zxid c) ;;; serialize_int (zc_recv_timeout c) ;;;
    serialize_log sessionId ;;; serialize_string (zc_passwd c) ;;; serialize_bool (zc_allow_read_only c)) [] in
  if negb (Zlen (snd oa) =? HANDSHAKE_REQ_SIZE) then fail FAssert
  else let* _r := send (snd oa) in fail FUB.
(* coev_zookeeper/ZooCli.cpp ZooCli::prime_response *)
Definition prime_response (fuel : nat) : ZC Z :=
  let* got := recv fuel in
  let '(r, msg) := got in
  if r =? INVALID then ret INVALID
  else if Zlen msg <? r then fail FUB
  else
    let* protocolVersion := on_view deserialize_int (take (Z.to_nat r) msg) in
    let* timeOut := on_view deserialize_int (snd protocolVersion) in
    let* sessionId := on_view deserialize_long (snd timeOut) in
    let* password := on_view deserialize_string (snd sessionId) in
    let* readOnly := on_view deserialize_bool (snd password) in
    match fst readOnly with
    | Err _ => indeterminate
    | Ok _ =>
        match fst sessionId with
        | Ok id => zc_modify (with_session id)
        | Err _ => ret tt
        end ;;;
        if Zlen (snd readOnly) =? 0 then ret 0 else fail FAssert
    end.
(** Without the two tasks it starts: the pings, and [process]. *)
(* coev_zookeeper/ZooCli.cpp ZooCli::connect *)
Definition connect (fuel : nat) (host : list Z) (port : Z) : ZC Z :=
  let* r := zc_call (base_connect host port) in
  if r =? INVALID then ret INVALID
  else
    let* r := prime_connection in
    if r =? INVALID then ret INVALID
    else
      let* r := prime_response fuel in
      if r =? INVALID then ret INVALID
      else zc_modify (fun c => with_client_id (zc_session_id c) c) ;;; ret r.
End Client.
