(* ===== verification/ZooClientSafety.v ===== *)
(** * The ZooKeeper client: theorems

    Which paths are accepted, what the operations of [ZooClient] send and how they end, and
    which messages the reader coroutine delivers. *)
From Stdlib Require Import ZArith Lia Bool.
From stdpp Require Import base tactics list numbers sets.
From S2P Require Import Prelude Wire ZooArchive ZooProto ZooClient.

(** ** Paths *)

(** The parts of a path between its slashes, at least one *)
Fixpoint components (l : list Z) : list (list Z) :=
  match l with
  | [] => [[]]
  | c :: l' =>
      if c =? slash then [] :: components l'
      else match components l' with w :: ws => (c :: w) :: ws | [] => [[c]] end
  end.
Definition first_component (l : list Z) : list Z := hd [] (components l).
Definition later_components (l : list Z) : list (list Z) := tl (components l).

Lemma components_ne l : components l = first_component l :: later_components l.
Proof.
  unfold first_component, later_components. destruct l as [|c l]; [done|]. cbn.
  destruct (c =? slash); [done|]. by destruct (components l).
Qed.
Lemma components_slash l :
  first_component (slash :: l) = [] /\ later_components (slash :: l) = components l.
Proof. done. Qed.
Lemma components_other c l : c <> slash ->
  first_component (c :: l) = c :: first_component l /\ later_components (c :: l) = later_components l.
Proof.
  intros Hc. unfold first_component, later_components. cbn. replace (c =? slash) with false by lia.
  by destruct (components l).
Qed.

Definition plain (w : list Z) : Prop := Forall (fun c => c <> slash) w.
Definition among (w : list Z) (ws : list (list Z)) : bool := bool_decide (w ∈ ws).

Lemma starts_with_slash w l : plain w ->
  starts_with (w ++ [slash]) l = bool_decide (first_component l = w) && negb (bool_decide (later_components l = [])).
Proof.
  intros Hw. revert l. induction Hw as [|d w Hd Hw IH]; intros l.
  - destruct l as [|c l]; [done|]. cbn [starts_with app]. destruct (slash =? c) eqn:E.
    + apply Z.eqb_eq in E as <-. destruct (components_slash l) as [-> ->]. rewrite components_ne. by destruct l.
    + destruct (components_other c l) as [-> ->]; [lia|]. by rewrite bool_decide_false.
  - destruct l as [|c l]; [by rewrite bool_decide_false|]. cbn [starts_with app]. rewrite IH.
    destruct (d =? c) eqn:E.
    + apply Z.eqb_eq in E as <-. destruct (components_other d l) as [-> ->]; [done|].
      cbn [andb]. f_equal. apply bool_decide_ext. split; congruence.
    + cbn. destruct (decide (c = slash)) as [->|Hc]; [by rewrite bool_decide_false|].
      destruct (components_other c l) as [-> _]; [done|]. rewrite bool_decide_false; [done|]. intros [=]; lia.
Qed.
Lemma contains_component w l : plain w ->
  contains (slash :: w ++ [slash]) l = among w (removelast (later_components l)).
Proof.
  intros Hw. induction l as [|c l IH]; [done|]. cbn [contains]. rewrite IH. cbn [starts_with].
  destruct (slash =? c) eqn:E; cbn [andb].
  - apply Z.eqb_eq in E as <-. destruct (components_slash l) as [_ ->]. rewrite starts_with_slash by done.
    rewrite components_ne. unfold among. destruct (later_components l) as [|w1 ws]; [by rewrite andb_false_r|].
    rewrite (bool_decide_false (_ :: _ = [])), andb_true_r by done.
    change (removelast (first_component l :: w1 :: ws)) with (first_component l :: removelast (w1 :: ws)).
    repeat case_bool_decide; try done; set_solver.
  - by destruct (components_other c l) as [_ ->]; [lia|].
Qed.
Lemma word_here_first w l : plain w -> word_here w l = bool_decide (first_component l = w).
Proof.
  unfold word_here. intros Hw. revert l. induction Hw as [|d w Hd Hw IH]; intros l.
  - cbn. destruct l as [|c l]; [done|]. destruct (c =? slash) eqn:E.
    + apply Z.eqb_eq in E as ->. by destruct (components_slash l) as [-> _].
    + destruct (components_other c l) as [-> _]; [lia|]. by rewrite bool_decide_false.
  - destruct l as [|c l]; [by rewrite bool_decide_false|]. cbn [starts_with length drop].
    rewrite <- andb_assoc, IH. destruct (d =? c) eqn:E.
    + apply Z.eqb_eq in E as <-. destruct (components_other d l) as [-> _]; [done|].
      cbn [andb]. apply bool_decide_ext. split; congruence.
    + cbn. destruct (decide (c = slash)) as [->|Hc]; [by rewrite bool_decide_false|].
      destruct (components_other c l) as [-> _]; [done|]. rewrite bool_decide_false; [done|]. intros [=]; lia.
Qed.
Lemma slash_word_later w l : plain w -> slash_word w l = among w (later_components l).
Proof.
  intros Hw. induction l as [|c l IH]; [done|]. cbn [slash_word]. rewrite IH.
  destruct (c =? slash) eqn:E; cbn [andb].
  - apply Z.eqb_eq in E as ->. destruct (components_slash l) as [_ ->]. rewrite word_here_first by done.
    rewrite components_ne. unfold among. repeat case_bool_decide; try done; set_solver.
  - by destruct (components_other c l) as [_ ->]; [lia|].
Qed.

Definition dots : list (list Z) := [[46]; [46; 46]].
Definition control (c : Z) : Prop := 0 <= c <= 31.

Lemma plain_dots w : w ∈ dots -> plain w.
Proof. unfold dots. rewrite !elem_of_cons, elem_of_nil. intros [->|[->|[]]]; repeat (constructor; [done|]); constructor. Qed.
Lemma components_nil l : components l = [[]] -> l = [].
Proof. destruct l as [|c l]; [done|]. cbn. rewrite components_ne. by destruct (c =? slash). Qed.
Lemma last_slash l : l <> [] -> List.last l 0 = slash <-> List.last (components l) [] = [].
Proof.
  induction l as [|c l IH]; [done|intros _]. destruct l as [|d l].
  - cbn. destruct (Z.eqb_spec c slash); cbn; naive_solver.
  - rewrite (IH ltac:(done)). remember (d :: l) as l' eqn:E. cbn. destruct (c =? slash) eqn:Ec.
    + by rewrite (components_ne l').
    + destruct (components l') as [|w ws] eqn:El; [by rewrite components_ne in El|].
      destruct ws; [|done]. cbn. split; [intros ->|done]. apply components_nil in El. by subst.
Qed.
(** A list with a last entry that is not empty has no empty entry but perhaps the first
    when those between have none. *)
Lemma last_later l : l <> [] ->
  (List.last (components l) [] <> [] /\ [] ∉ removelast (later_components l)) <-> [] ∉ later_components l.
Proof.
  intros Hl. rewrite components_ne. destruct (later_components l) as [|w ws] eqn:E.
  - cbn. split; [set_solver|]. intros _. split; [|set_solver]. intros Hf.
    apply Hl, components_nil. by rewrite components_ne, E, Hf.
  - change (List.last (first_component l :: w :: ws) []) with (List.last (w :: ws) []).
    rewrite (app_removelast_last [] (l := w :: ws)) at 3 by done. rewrite not_elem_of_app, list_elem_of_singleton.
    split; intros []; split; congruence || done.
Qed.

Lemma has_component_path w rest : plain w -> w <> [] -> has_component w (slash :: rest) = among w (components rest).
Proof.
  intros Hw Hne. unfold has_component. rewrite word_here_first, slash_word_later by done.
  destruct (components_slash rest) as [-> ->]. by rewrite bool_decide_false.
Qed.
Lemma removelast_subset {A} (l : list A) x : x ∈ removelast l -> x ∈ l.
Proof.
  intros H. destruct l as [|y l]; [done|]. rewrite (app_removelast_last y (l := y :: l)) by done.
  apply elem_of_app. by left.
Qed.
Lemma forallb_True_control l :
  forallb (fun c => negb ((0 <=? c) && (c <=? 31))) l = true <-> Forall (fun c => ~ control c) l.
Proof.
  rewrite forallb_forall, Forall_forall. unfold control. split; intros H x Hx; specialize (H x);
    [apply list_elem_of_In in Hx|apply list_elem_of_In in Hx]; specialize (H Hx); lia.
Qed.

(** A path is accepted exactly when it is the root, or begins with a slash, has no
    control character, no component "." or "..", and no empty component except, perhaps,
    the first: a path with two leading slashes is accepted. *)
Theorem isValidPath_spec path :
  isValidPath path 0 = true <->
  exists rest, path = slash :: rest /\
    (rest = [] \/
     ((Forall (fun c => ~ control c) rest) /\ ([] ∉ later_components rest) /\
      Forall (fun w => w ∉ dots) (components rest))).
Proof.
  destruct path as [|c rest]; [split; [done|by intros (? & ? & _)]|]. unfold isValidPath.
  destruct (Z.eqb_spec c slash) as [->|Hc]; cbn [negb]; [|split; [done|]; intros (? & [= -> _] & _); done].
  rewrite Zlen_cons. destruct (Z.eqb_spec (1 + Zlen rest) 1) as [Hr|Hr].
  { split; [|done]. intros _. exists rest. split; [done|left]. destruct rest; [done|]. rewrite Zlen_cons in Hr.
    pose proof (Zlen_nonneg rest). lia. }
  assert (rest <> []) as Hne by (intros ->; done).
  assert (List.last (slash :: rest) 0 = List.last rest 0) as -> by (by destruct rest).
  rewrite (has_component_path [46] rest), (has_component_path [46; 46] rest) by (done || (apply plain_dots; set_solver)).
  change [slash; slash] with (slash :: [] ++ [slash]). change [slash; 46; slash] with (slash :: [46] ++ [slash]).
  change [slash; 46; 46; slash] with (slash :: [46; 46] ++ [slash]).
  rewrite !contains_component by (apply Forall_nil_2 || (apply plain_dots; set_solver)).
  destruct (Z.eqb_spec (List.last rest 0) slash) as [El|El].
  { split; [done|]. intros (r & [= <-] & [|(_ & Hl & _)]); [done|]. apply last_slash in El; [|done].
    by apply last_later in Hl as []. }
  rewrite last_slash in El by done. cbn [andb negb ZOOKEEPER_IS_SEQUENCE]. unfold among.
  rewrite !andb_true_iff, !negb_true_iff, orb_false_iff, !bool_decide_eq_false, forallb_True_control.
  pose proof (last_later rest Hne) as Hll. split.
  - intros ((((H1 & H2) & H3) & H4) & H5 & H6). exists rest. split; [done|right]. split_and!; [done|by apply Hll|].
    rewrite Forall_forall. intros w Hw Hd. unfold dots in Hd. rewrite !elem_of_cons, elem_of_nil in Hd. naive_solver.
  - intros (r & [= <-] & [|(H1 & H2 & H3)]); [done|]. apply Hll in H2 as [_ H2]. rewrite Forall_forall in H3.
    assert (forall w, w ∈ dots -> (w ∉ components rest)) as Hd by (intros w Hw Hin; by apply (H3 w)).
    assert (forall w, w ∈ dots -> (w ∉ removelast (later_components rest))) as Hd'.
    { intros w Hw Hin. apply (Hd w Hw). rewrite components_ne. right. by apply removelast_subset. }
    split_and!; [done|by apply Hd'; set_solver|by apply Hd'; set_solver|done|by apply Hd; set_solver|by apply Hd; set_solver].
Qed.

(** ** Sending *)

(** A connection that takes everything it is given and remembers it. *)
Class Recording (E : Type) {connection : Connection E} := {
  sent : E -> list Z;
  sent_law bs e : fst (base_send bs e) <> INVALID /\ sent (snd (base_send bs e)) = sent e ++ bs;
  sent_resumed l e : sent (snd (until_resumed l e)) = sent e;
}.
(** A message on the connection *)
Definition frame (w : list Z) : list Z := be 4 (Zlen w) ++ w.

Section Sending.
Context {E : Type} {connection : Connection E} {recording : Recording E}.
Implicit Types (c : ZooCli) (e : E).

Lemma send_frame w c e : w <> [] -> Zlen w <= INT32_MAX ->
  exists r e', send w (c, e) = Done r (c, e') /\ r <> INVALID /\ sent e' = sent e ++ frame w.
Proof.
  intros Hw Hl. unfold INT32_MAX in Hl. pose proof (Zlen_nonneg w). unfold send. rewrite bool_decide_false by done.
  rewrite to_s_id, htonl_bytes by (unfold in_s; lia). unfold bind, zc_call. cbn [fst snd].
  destruct (sent_law (be 4 (Zlen w)) e) as [H1 E1]. destruct (base_send (be 4 (Zlen w)) e) as [r1 e1].
  cbn [fst snd] in *. replace (r1 =? INVALID) with false by lia. cbn [fst snd].
  destruct (sent_law w e1) as [H2 E2]. destruct (base_send w e1) as [r2 e2]. cbn [fst snd] in *.
  replace (r2 =? INVALID) with false by lia. exists r2, e2. split_and!; [done..|].
  rewrite E2, E1. unfold frame. by rewrite app_assoc.
Qed.
Lemma on_archive_puts f w buff s : puts f w -> on_archive f buff s = Done (0, buff ++ w) (s : ZooCli * E).
Proof. intros H. unfold on_archive. by rewrite H. Qed.
Lemma sending_frame f w k c e : puts f w -> w <> [] -> Zlen w <= INT32_MAX ->
  exists e', sending f k (c, e) = k (c, e') /\ sent e' = sent e ++ frame w.
Proof.
  intros Hf Hw Hl. destruct (send_frame w c e Hw Hl) as (r & e' & Es & Hr & Hs). exists e'. split; [|done].
  unfold sending, bind. rewrite (on_archive_puts f w [] _ Hf). cbn [fst snd app].
  change (0 =? INVALID) with false. cbv beta iota. rewrite Es. cbv beta iota. by replace (r =? INVALID) with false by lia.
Qed.

Definition valid_path c path : Prop := isValidPath (path_string (zc_chroot c) path) 0 = true.
Lemma with_path_valid path k c e :
  valid_path c path -> with_path path k (c, e) = k (path_string (zc_chroot c) path) (c, e).
Proof. unfold valid_path. intros Hv. unfold with_path, path_init, bind, zc_gets, gets. cbn. by rewrite Hv. Qed.
Lemma with_path_invalid path k c e :
  ~ valid_path c path -> with_path path k (c, e) = Done INVALID (c, e).
Proof.
  unfold valid_path. intros Hv%not_true_is_false. unfold with_path, path_init, bind, zc_gets, gets. cbn. by rewrite Hv.
Qed.
Lemma get_xid_run c e : exists x e', get_xid (c, e) = Done x (with_xid x c, e') /\ e' = e /\ in_s 32 x.
Proof. eexists _, _. split; [done|]. split; [done|]. by apply to_s_range. Qed.

(** *** A request of several operations *)

Definition op_path (op : ZooOp) : list Z :=
  match m_union op with m_create_op p _ _ _ | m_delete_op p _ | m_set_op p _ _ | m_check_op p _ => p end.
(** Made by one of the initializers *)
Inductive made : ZooOp -> Prop :=
| made_create path value acl mode : made (zoo_create_op_init path value acl mode)
| made_create2 path value acl mode : made (zoo_create2_op_init path value acl mode)
| made_delete path version : made (zoo_delete_op_init path version)
| made_set path buffer version : made (zoo_set_op_init path buffer version)
| made_check path version : made (zoo_check_op_init path version).
(** The cases of the switch *)
Definition handled (op : ZooOp) : bool :=
  bool_decide (m_type op ∈ [ZOO_CREATE_CONTAINER_OP; ZOO_CREATE_OP; ZOO_DELETE_OP; ZOO_SETDATA_OP; ZOO_CHECK_OP]).
Definition op_body (p : list Z) (op : ZooOp) : list Z :=
  match m_union op with
  | m_create_op _ data acl flags => CreateRequest_wire (mkCreateRequest p (c_string data) acl flags)
  | m_delete_op _ version => DeleteRequest_wire (mkDeleteRequest p version)
  | m_set_op _ data version => SetDataRequest_wire (mkSetDataRequest p (c_string data) version)
  | m_check_op _ _ => CheckVersionRequest_wire (mkCheckVersionRequest p 0)
  end.
Definition op_ok (p : list Z) (op : ZooOp) : Prop :=
  zstring_ok p /\ in_s 32 (m_type op) /\
  match m_union op with
  | m_create_op _ data _ flags => zstring_ok (c_string data) /\ in_s 32 flags
  | m_delete_op _ version => in_s 32 version
  | m_set_op _ data version => zstring_ok (c_string data) /\ in_s 32 version
  | m_check_op _ _ => True
  end.
(** What the loop and the end write: a header unless the operation before it had a bad path;
    a body when it is handled and its path is good; the end mark unless the last path was
    bad. *)
Fixpoint multi_wire (chroot : list Z) (failed : bool) (ops : list ZooOp) : list Z :=
  match ops with
  | [] => if failed then [] else MultiHeader_wire (mkMultiHeader (-1) 1 (-1))
  | op :: ops' =>
      let p := path_string chroot (op_path op) in
      (if failed then [] else MultiHeader_wire (mkMultiHeader (m_type op) 0 (-1))) ++
      (if handled op && isValidPath p 0 then op_body p op else []) ++
      multi_wire chroot (if handled op then negb (isValidPath p 0) else failed) ops'
  end.

Lemma with_op_path_run path f w buff c e :
  (valid_path c path -> puts (f (path_string (zc_chroot c) path)) w) ->
  with_op_path path f buff (c, e) =
    Done (if isValidPath (path_string (zc_chroot c) path) 0 then (0, buff ++ w) else (INVALID, buff)) (c, e).
Proof.
  intros Hf. unfold with_op_path, path_init, bind, zc_gets, gets. cbn. unfold valid_path in Hf.
  destruct (isValidPath _ 0); [|done]. cbn. by apply on_archive_puts, Hf.
Qed.

Definition code (failed : bool) : Z := if failed then INVALID else 0.
Lemma op_header_run t d failed c e buff : in_s 32 t -> in_s 32 d ->
  (if code failed <? 0 then ret (code failed, buff)
   else on_archive (oarchive_MultiHeader (mkMultiHeader t d (-1))) buff) (c, e) =
  Done (code failed, buff ++ (if failed then [] else MultiHeader_wire (mkMultiHeader t d (-1)))) (c, e).
Proof.
  intros Ht Hd. destruct failed; [by rewrite app_nil_r|]. apply on_archive_puts, MultiHeader_puts.
  split; [done|]. by split.
Qed.
Lemma op_body_run op p failed c e buff :
  made op -> p = path_string (zc_chroot c) (op_path op) -> op_ok p op ->
  multi_case op (code failed, buff) (c, e) =
    Done (code (if handled op then negb (isValidPath p 0) else failed),
          buff ++ (if handled op && isValidPath p 0 then op_body p op else [])) (c, e).
Proof.
  intros Hm -> (Hp & Ht & Hok).
  assert (forall path f w, op_path op = path -> puts (f (path_string (zc_chroot c) path)) w ->
    with_op_path path f buff (c, e) = Done (code (negb (isValidPath (path_string (zc_chroot c) (op_path op)) 0)),
      buff ++ (if isValidPath (path_string (zc_chroot c) (op_path op)) 0 then w else [])) (c, e)) as Hw.
  { intros path f w -> Hf. rewrite (with_op_path_run path f w) by done. destruct (isValidPath _ 0); [done|].
    by rewrite app_nil_r. }
  unfold multi_case. cbn [snd].
  destruct Hm as [path v acl mode|path v acl mode|path v|path b v|path v]; cbn [m_union op_path m_type] in *.
  - unfold zoo_create_op_init, get_create_op_type in *. cbn [m_type m_union op_path] in *.
    destruct (mode =? ZOO_CONTAINER); [|destruct (ZOOKEEPER_IS_TTL mode)].
    all: try (by rewrite app_nil_r).
    all: apply Hw; [done|]; apply CreateRequest_puts; unfold CreateRequest_ok, ACLVec_ok; cbn; tauto.
  - unfold zoo_create2_op_init, get_create_op_type in *. cbn [m_type m_union op_path] in *.
    destruct (mode =? ZOO_CONTAINER); [|destruct (ZOOKEEPER_IS_TTL mode)].
    all: try (by rewrite app_nil_r).
    all: apply Hw; [done|]; apply CreateRequest_puts; unfold CreateRequest_ok, ACLVec_ok; cbn; tauto.
  - apply Hw; [done|]. apply DeleteRequest_puts. by split.
  - apply Hw; [done|]. apply SetDataRequest_puts. by destruct Hok.
  - apply Hw; [done|]. apply CheckVersionRequest_puts. split; [done|]. by unfold in_s.
Qed.
Lemma multi_loop_run c e ops failed buff :
  Forall (fun op => made op /\ op_ok (path_string (zc_chroot c) (op_path op)) op) ops ->
  (let* rb := multi_loop ops (code failed, buff) in
   if fst rb <? 0 then ret rb else on_archive (oarchive_MultiHeader (mkMultiHeader (-1) 1 (-1))) (snd rb)) (c, e) =
  Done (code (fold_left (fun f op => if handled op then negb (isValidPath (path_string (zc_chroot c) (op_path op)) 0) else f) ops failed),
        buff ++ multi_wire (zc_chroot c) failed ops) (c, e).
Proof.
  intros H. revert failed buff. induction H as [|op ops [Hm Hok] _ IH]; intros failed buff.
  - cbn [multi_loop fold_left multi_wire]. unfold bind, ret at 1. cbn [fst snd].
    by apply (op_header_run (-1) 1).
  - cbn [multi_loop fold_left multi_wire]. specialize (IH (if handled op then negb (isValidPath (path_string (zc_chroot c) (op_path op)) 0) else failed)).
    rewrite !app_assoc, <- IH. unfold bind at 1 2, multi_op. unfold bind at 1. cbn [fst snd].
    assert (in_s 32 (m_type op)) as Ht by apply Hok. rewrite (op_header_run (m_type op) 0 failed c e buff Ht) by done.
    by rewrite (op_body_run op _ failed c e _ Hm eq_refl Hok).
Qed.

(** C28: A request of several operations, made by the initializers, writes exactly
    [multi_wire] as one frame and returns 0 without waiting for the reply: an operation of
    a type the loop does not know is a header without a body, so is one with a bad path,
    which takes the next header or the end mark with it, and a version to be checked is
    replaced by 0. *)
Theorem multi_sends ops c e :
  Forall (fun op => made op /\ op_ok (path_string (zc_chroot c) (op_path op)) op) ops ->
  (forall x, Zlen (RequestHeader_wire (mkRequestHeader x ZOO_MULTI_OP) ++ multi_wire (zc_chroot c) false ops) <= INT32_MAX) ->
  exists x e', multi ops (c, e) = Done 0 (with_xid x c, e') /\
    sent e' = sent e ++ frame (RequestHeader_wire (mkRequestHeader x ZOO_MULTI_OP) ++ multi_wire (zc_chroot c) false ops).
Proof.
  intros Hops Hl. destruct (get_xid_run c e) as (x & e1 & Ex & -> & Hx). exists x. unfold multi, bind at 1. rewrite Ex.
  unfold bind at 1. rewrite (on_archive_puts _ _ [] _ (RequestHeader_puts (mkRequestHeader x ZOO_MULTI_OP) ltac:(by split))).
  pose proof (multi_loop_run (with_xid x c) e ops false (RequestHeader_wire (mkRequestHeader x ZOO_MULTI_OP)) Hops) as Hm.
  cbn [code zc_chroot with_xid app] in Hm |- *. unfold bind at 1 in Hm. unfold bind at 1.
  destruct (multi_loop ops _ _) as [rb s|]; [|done]. unfold bind at 1. rewrite Hm. cbn [fst snd].
  destruct (send_frame (RequestHeader_wire (mkRequestHeader x ZOO_MULTI_OP) ++ multi_wire (zc_chroot c) false ops) (with_xid x c) e)
    as (r & e' & Es & Hr & Hs); [done|apply Hl|].
  exists e'. split; [|done]. unfold bind. rewrite Es. by replace (r =? INVALID) with false by lia.
Qed.

(** ** Replies *)

(** The first reply in the list, when a waiting coroutine is resumed. *)
Definition replying (h : ReplyHeader_) (body : list Z) : Prop :=
  forall l e, exists l', fst (until_resumed l e) = (ReplyHeader_wire h ++ body) :: l'.
(** How an operation ends, without the state *)
Definition ends (m : M (ZooCli * E) Z) (s : ZooCli * E) : Z + fault :=
  match m s with Done r _ => inl r | Fault f => inr f end.

Section Replies.
Context (h : ReplyHeader_) (body : list Z).
Hypothesis Hreply : replying h body.
Hypothesis Hh : ReplyHeader_ok h.
Hypothesis Hbody : Zlen (ReplyHeader_wire h ++ body) <= INT32_MAX.

Definition reply_code : Z := if ReplyHeader_err h =? 0 then 0 else INVALID.

Lemma completion_run c e :
  exists c' e', completion (c, e) = Done (reply_code, body) (c', e') /\ sent e' = sent e.
Proof.
  unfold completion, bind, zc_gets, gets, zc_call, zc_modify, modify. cbn [fst snd].
  destruct (Hreply (zc_completion_list c) e) as (l' & El). pose proof (sent_resumed (zc_completion_list c) e) as Hs.
  destruct (until_resumed (zc_completion_list c) e) as [l e1]. cbn [fst snd] in *. subst l. cbn [fst snd].
  destruct (ReplyHeader_reads h Hh body Hbody) as (rest & Er & Hrest).
  eexists _, e1. split; [|done]. unfold on_view. rewrite Er. cbn. by rewrite (Hrest _ eq_refl).
Qed.
Lemma completed_ends k r c e : (forall s, ends (k body) s = r) ->
  ends (completed k) (c, e) = if ReplyHeader_err h =? 0 then r else inl INVALID.
Proof.
  intros Hk. destruct (completion_run c e) as (c' & e' & E1 & _). unfold ends, completed, bind. rewrite E1.
  unfold reply_code. cbn [fst snd]. destruct (_ =? 0); [apply Hk|done].
Qed.
Lemma ignored_ends k r c e : (forall s, ends (k body) s = r) ->
  ends (let* x := completion in k (snd x)) (c, e) = r.
Proof.
  intros Hk. destruct (completion_run c e) as (c' & e' & E1 & _). unfold ends, bind. rewrite E1. apply Hk.
Qed.
Lemma sending_ends f w k c e r : puts f w -> w <> [] -> Zlen w <= INT32_MAX ->
  (forall e', ends k (c, e') = r) -> ends (sending f k) (c, e) = r.
Proof.
  intros Hf Hw Hl Hk. destruct (sending_frame f w k c e Hf Hw Hl) as (e' & E1 & _). unfold ends. rewrite E1. apply Hk.
Qed.
Lemma xid_ends k c e r : (forall x, in_s 32 x -> ends (k x) (with_xid x c, e) = r) -> ends (let* x := get_xid in k x) (c, e) = r.
Proof.
  intros Hk. destruct (get_xid_run c e) as (x & e' & E1 & -> & Hx). unfold ends, bind. rewrite E1. by apply Hk.
Qed.
Lemma path_ends path k c e r : valid_path c path ->
  ends (k (path_string (zc_chroot c) path)) (c, e) = r -> ends (with_path path k) (c, e) = r.
Proof. intros Hv Hk. unfold ends. by rewrite with_path_valid. Qed.
Lemma dropped_ends {A} first r view s :
  ends (@read_and_drop E A first view r) s = if Zlen view <? first then inl r else inr FUB.
Proof. unfold ends, read_and_drop, bind, read_freed. by destruct (_ <? _). Qed.
Lemma stat_ends view s : ends (read_stat (E := E) view) s = inr FUB.
Proof. unfold ends, read_stat, bind, read_freed. by destruct (_ <? _). Qed.

Lemma Zlen_z_string s : Zlen (z_string s) = 4 + Zlen s.
Proof. unfold z_string. case_bool_decide as Hs; [by subst|]. rewrite Zlen_app, Zlen_be. lia. Qed.
(** Arguments that fit a message *)
Definition short (s : list Z) : Prop := Zlen s <= 1000000000.
Lemma short_ok s : short s -> zstring_ok s.
Proof. unfold short, zstring_ok, INT32_MAX. lia. Qed.

Ltac request_length :=
  unfold RequestHeader_wire, GetDataRequest_wire, SetDataRequest_wire, GetChildren2Request_wire, SyncRequest_wire,
    GetACLRequest_wire, SetACLRequest_wire, CreateRequest_wire, CreateTTLRequest_wire, ReconfigRequest_wire,
    AuthPacket_wire, ACLVec_wire, SetWatches_wire, StringVec_wire, z_vector,
    z_int, z_long, z_bool;
  cbn [map concat SetWatches_dataWatches SetWatches_existWatches SetWatches_childWatches];
  repeat first [rewrite Zlen_app | rewrite Zlen_z_string | rewrite Zlen_be | rewrite Zlen_cons];
  cbn [GetDataRequest_path SetDataRequest_path SetDataRequest_data GetChildren2Request_path SyncRequest_path
    GetACLRequest_path SetACLRequest_path CreateRequest_path CreateRequest_data CreateTTLRequest_path CreateTTLRequest_data
    ReconfigRequest_joiningServers ReconfigRequest_leavingServers ReconfigRequest_newMembers AuthPacket_scheme AuthPacket_auth];
  rewrite ?(Zlen_nil (A := Z)); unfold short, INT32_MAX in *; lia.
Ltac request_ends put :=
  eapply sending_ends;
    [apply puts_try; [apply RequestHeader_puts; by split|apply put; hnf; repeat match goal with |- _ /\ _ => split end;
     first [assumption | by apply short_ok | done]]
    |done|request_length|intros ?].

(** An operation on a path is refused when the path is bad. *)
Lemma path_cases c c' e path k r :
  zc_chroot c' = zc_chroot c -> ends (k (path_string (zc_chroot c) path)) (c', e) = r ->
  ends (with_path path k) (c', e) = if isValidPath (path_string (zc_chroot c) path) 0 then r else inl INVALID.
Proof.
  intros Hc Hk. destruct (isValidPath _ 0) eqn:E1; unfold ends; rewrite <- Hc in *.
  - by rewrite with_path_valid by exact E1.
  - rewrite with_path_invalid; [done|]. unfold valid_path. by rewrite E1.
Qed.
(** The reply of an operation that does not look at the code is read from freed memory. *)
Lemma freed_ends {A} first r c e :
  ends (let* x := completion in @read_and_drop E A first (snd x) r) (c, e) = if Zlen body <? first then inl r else inr FUB.
Proof. apply (ignored_ends (fun v => read_and_drop first v r)). intros s. apply dropped_ends. Qed.
Lemma get_ends c e path : short (path_string (zc_chroot c) path) ->
  ends (get path) (c, e) =
    if isValidPath (path_string (zc_chroot c) path) 0 then (if Zlen body <? 4 then inl 0 else inr FUB) else inl INVALID.
Proof.
  intros Hp. apply xid_ends. intros x Hx. apply (path_cases c); [done|]. request_ends GetDataRequest_puts. apply freed_ends.
Qed.
Lemma create2_ttl_ends c e path data acl mode ttl :
  short (path_string (zc_chroot c) path) -> short data -> in_s 32 mode -> in_s 64 ttl ->
  ends (create2_ttl path data acl mode ttl) (c, e) =
    if (if ZOOKEEPER_IS_TTL mode then (0 <? ttl) && (ttl <=? ZOO_MAX_TTL) else ttl <? 0) &&
       isValidPath (path_string (zc_chroot c) path) 0
    then (if ReplyHeader_err h =? 0 then inr FUB else inl INVALID) else inl INVALID.
Proof.
  intros Hp Hd Hm Ht. unfold create2_ttl. apply xid_ends. intros x Hx.
  assert (in_s 32 (get_create_op_type mode ZOO_CREATE2_OP)).
  { unfold get_create_op_type, in_s, ZOO_CREATE_CONTAINER_OP, ZOO_CREATE_TTL_OP, ZOO_CREATE2_OP.
    destruct (mode =? ZOO_CONTAINER); [lia|]. destruct (ZOOKEEPER_IS_TTL mode); lia. }
  assert (forall s, ends (let* _r := @read_freed E Create2Response_ 4 body in fail FUB) s = inr FUB) as Hend.
  { intros s. unfold ends, bind, read_freed. by destruct (_ <? _). }
  assert (forall b r, (if b && isValidPath (path_string (zc_chroot c) path) 0 then r else inl INVALID) =
    if b then (if isValidPath (path_string (zc_chroot c) path) 0 then r else inl INVALID) else inl INVALID :> Z + fault) as ->
    by by intros [] r.
  destruct (ZOOKEEPER_IS_TTL mode).
  - replace ((0 <? ttl) && (ttl <=? ZOO_MAX_TTL)) with (negb ((ttl <=? 0) || (ZOO_MAX_TTL <? ttl)))
      by (rewrite negb_orb, (Z.leb_antisym 0 ttl), (Z.leb_antisym ZOO_MAX_TTL ttl), negb_involutive; done).
    destruct ((ttl <=? 0) || (ZOO_MAX_TTL <? ttl)); [done|]. apply (path_cases c); [done|].
    request_ends CreateTTLRequest_puts. by apply completed_ends.
  - rewrite Z.ltb_antisym. destruct (0 <=? ttl); [done|]. apply (path_cases c); [done|].
    request_ends CreateRequest_puts. by apply completed_ends.
Qed.

(** C29: With a connection that takes what is sent and a reply that wakes every coroutine that
    waits for one, this is how each operation of the client but [multi] (C28), which does not
    wait, and [wait_watches], which only waits, ends on any arguments that fit a message.
    [exists], [get_children] and [delete] are undefined, as they send a field that is not
    set.  [get], [get_config], [set], [reconfig] and [send_auth_info] are undefined when the
    reply has four bytes behind its header, which have been freed, and otherwise return 0
    even if the reply is an error.  The others report an error, but a success is undefined
    for the operations on access lists and for [create2] and [create2_ttl], which refuse a
    time to live out of range or for a mode that has none, and for [get_children2] and
    [async] as soon as there is something to read.  [close] returns 0, and so does
    [set_watches] - if it is woken by a reply to another operation, since the reader passes
    over the reply to its own id.  [send_ping] waits for no reply.  On a bad path the
    operations on a path return -1. *)
Theorem operations_end c e path data version acl mode ttl joining leaving members config scheme auth :
  short (path_string (zc_chroot c) path) -> short (path_string (zc_chroot c) ZOO_CONFIG_NODE) ->
  short data -> in_s 32 version -> in_s 32 mode -> in_s 64 ttl -> in_s 64 config ->
  short (joining ++ leaving ++ members) -> short (scheme ++ auth) -> in_s 64 (zc_last_zxid c) ->
  let reading := if Zlen body <? 4 then inl 0 else inr FUB in
  let unless_error r := if ReplyHeader_err h =? 0 then r else inl INVALID in
  let path_ok p r := if isValidPath (path_string (zc_chroot c) p) 0 then r else inl INVALID in
  let ttl_ok r := if if ZOOKEEPER_IS_TTL mode then (0 <? ttl) && (ttl <=? ZOO_MAX_TTL) else ttl <? 0 then r else inl INVALID in
  ends (zoo_exists path) (c, e) = path_ok path (inr FUB) /\
  ends (get_children path) (c, e) = path_ok path (inr FUB) /\
  ends (delete_ path version) (c, e) = path_ok path (inr FUB) /\
  ends (get path) (c, e) = path_ok path reading /\
  ends get_config (c, e) = path_ok ZOO_CONFIG_NODE reading /\
  ends (set path data version) (c, e) = path_ok path reading /\
  ends (reconfig joining leaving members config) (c, e) = reading /\
  ends (send_auth_info scheme auth) (c, e) = reading /\
  ends (get_children2 path) (c, e) = path_ok path (unless_error reading) /\
  ends (async_ path) (c, e) = path_ok path (unless_error reading) /\
  ends (get_acl path) (c, e) = path_ok path (unless_error (inr FUB)) /\
  ends (set_acl path version acl) (c, e) = path_ok path (unless_error (inr FUB)) /\
  ends (create2_ttl path data acl mode ttl) (c, e) = ttl_ok (path_ok path (unless_error (inr FUB))) /\
  ends (create2 path data acl mode) (c, e) =
    (if ZOOKEEPER_IS_TTL mode then inl INVALID else path_ok path (unless_error (inr FUB))) /\
  ends close (c, e) = unless_error (inl 0) /\
  ends set_watches (c, e) = unless_error (inl 0) /\
  ends send_ping (c, e) = inl 0.
Proof.
  intros Hp Hc Hd Hv Hm Ht Hg Hr Ha Hz reading unless_error path_ok ttl_ok.
  assert (short joining /\ short leaving /\ short members /\ short scheme /\ short auth) as (Hj & Hl & Hs & Hsc & Hau).
  { unfold short in *. rewrite !Zlen_app in *. pose proof (Zlen_nonneg joining). pose proof (Zlen_nonneg leaving).
    pose proof (Zlen_nonneg members). pose proof (Zlen_nonneg scheme). pose proof (Zlen_nonneg auth). lia. }
  split_and!.
  - apply xid_ends. intros x Hx. by apply (path_cases c).
  - apply xid_ends. intros x Hx. by apply (path_cases c).
  - apply xid_ends. intros x Hx. by apply (path_cases c).
  - by apply get_ends.
  - by apply (get_ends c e ZOO_CONFIG_NODE).
  - apply xid_ends. intros x Hx. apply (path_cases c); [done|]. request_ends SetDataRequest_puts. apply freed_ends.
  - unfold short in Hr. rewrite !Zlen_app in Hr. apply xid_ends. intros x Hx. request_ends ReconfigRequest_puts. apply freed_ends.
  - unfold short in Ha. rewrite Zlen_app in Ha. unfold send_auth_info. request_ends AuthPacket_puts. apply freed_ends.
  - apply xid_ends. intros x Hx. apply (path_cases c); [done|]. request_ends GetChildren2Request_puts.
    apply completed_ends. intros s. apply dropped_ends.
  - apply (path_cases c); [done|]. apply xid_ends. intros x Hx. request_ends SyncRequest_puts.
    apply completed_ends. intros s. apply dropped_ends.
  - apply (path_cases c); [done|]. apply xid_ends. intros x Hx. request_ends GetACLRequest_puts. apply completed_ends, stat_ends.
  - apply (path_cases c); [done|]. apply xid_ends. intros x Hx. request_ends SetACLRequest_puts. apply completed_ends, stat_ends.
  - rewrite create2_ttl_ends by done. unfold ttl_ok, path_ok. by destruct (if ZOOKEEPER_IS_TTL mode then _ else _).
  - unfold create2. rewrite create2_ttl_ends by done. by destruct (ZOOKEEPER_IS_TTL mode).
  - apply xid_ends. intros x Hx. eapply sending_ends; [apply RequestHeader_puts; by split|done|request_length|].
    intros e'. by apply completed_ends.
  - unfold set_watches. change (ends (let* zxid := zc_gets zc_last_zxid in ?k zxid) (c, e)) with (ends (k (zc_last_zxid c)) (c, e)).
    cbv beta. request_ends SetWatches_puts. by apply completed_ends.
  - eapply sending_ends; [apply RequestHeader_puts; by split|done|request_length|done].
Qed.
End Replies.
End Sending.

(** ** The reader coroutine *)

(** A connection whose input is a sequence of pieces, as the network delivered them: [recv]
    returns bytes of the first one only. *)
Class Streaming (E : Type) {connection : Connection E} := {
  incoming : E -> list (list Z);
  recv_law n e :
    match incoming e with
    | [] => fst (base_recv n e) = None
    | piece :: l =>
        fst (base_recv n e) = Some (take (Z.to_nat n) piece) /\
        incoming (snd (base_recv n e)) = if Zlen piece <=? n then l else drop (Z.to_nat n) piece :: l
    end;
}.

(** The pieces of a message: everything at once, or its length first *)
Definition arrives (m : list Z) (l l' : list (list Z)) : Prop :=
  l = frame m :: l' \/ l = be 4 (Zlen m) :: m :: l'.
Inductive arrivals : list (list Z) -> list (list Z) -> list (list Z) -> Prop :=
| arrivals_none l : arrivals [] l l
| arrivals_more m ms l l1 l2 : arrives m l l1 -> arrivals ms l1 l2 -> arrivals (m :: ms) l l2.

Definition xid_of (m : list Z) : Z := to_i32 (htonl (host_load (take 4 m))).
(** What the reader makes of a message *)
Definition deliver (c : ZooCli) (m : list Z) : ZooCli :=
  if (xid_of m =? PING_XID) || (xid_of m =? SET_WATCHES_XID) then c
  else if xid_of m =? WATCHER_EVENT_XID
  then with_completions (zc_completion_list c) (zc_completion_resumed c) (S (zc_watcher_resumed c)) c
  else with_completions (zc_completion_list c ++ [m]) (S (zc_completion_resumed c)) (zc_watcher_resumed c) c.
Definition message_ok (m : list Z) : Prop :=
  Forall is_byte m /\ 4 <= Zlen m <= INT32_MAX /\ (xid_of m = WATCHER_EVENT_XID -> 20 <= Zlen m).

Section Reader.
Context {E : Type} {connection : Connection E} {streaming : Streaming E}.
Implicit Types (c : ZooCli) (e : E).

Lemma deserialize_int_run view : 4 <= Zlen view -> deserialize_int view = Done (Ok (xid_of view)) (drop 4 view).
Proof.
  intros Hn. transitivity (if Zlen view <? Z.of_nat 4 then Done (Err (- E2BIG)) view else Done (Ok (xid_of view)) (drop 4 view)).
  - apply (view_guarded 4 view (fun x => ret (Ok (to_i32 (htonl (host_load x)))))).
  - rewrite (proj2 (Z.ltb_ge _ _)); [done|exact Hn].
Qed.
Lemma deserialize_long_run view :
  8 <= Zlen view -> deserialize_long view = Done (Ok (htonl (host_load (take 8 view)))) (drop 8 view).
Proof.
  intros Hn. transitivity (if Zlen view <? Z.of_nat 8 then Done (Err (- E2BIG)) view
    else Done (Ok (htonl (host_load (take 8 view)))) (drop 8 view)).
  - apply (view_guarded 8 view (fun x => ret (Ok (htonl (host_load x))))).
  - rewrite (proj2 (Z.ltb_ge _ _)); [done|exact Hn].
Qed.
Lemma Zlen_drop n (l : list Z) : Zlen (drop n l) = Z.max 0 (Zlen l - Z.of_nat n).
Proof. unfold Zlen. rewrite length_drop. lia. Qed.
Lemma ReplyHeader_run m : 16 <= Zlen m -> exists h, iarchive_ReplyHeader m = Done (Ok h) (drop 16 m).
Proof.
  intros Hm. unfold iarchive_ReplyHeader, bind. rewrite deserialize_int_run by lia.
  rewrite deserialize_long_run by (rewrite Zlen_drop; lia). unfold ret. rewrite deserialize_int_run by (rewrite !Zlen_drop; lia). rewrite !drop_drop. by eexists.
Qed.
Lemma contained_run {A} (g : IA A) m : contained false false g -> Forall is_byte m ->
  exists r view, g m = Done r view.
Proof. intros Hg Hm. specialize (Hg m Hm). destruct (g m) as [r view|[]]; try done. by exists r, view. Qed.

Lemma recv_header m e l : 0 <= Zlen m <= INT32_MAX ->
  incoming e = frame m :: l \/ incoming e = be 4 (Zlen m) :: m :: l -> m <> [] ->
  exists e', base_recv 4 e = (Some (be 4 (Zlen m)), e') /\ incoming e' = m :: l.
Proof.
  intros Hl Hin Hne. pose proof (recv_law 4 e) as H. destruct (base_recv 4 e) as [got e']. cbn [fst snd] in H. exists e'.
  destruct Hin as [Hin|Hin]; rewrite Hin in H; destruct H as [-> ->].
  - unfold frame. rewrite Zlen_app, Zlen_be. destruct m as [|b m]; [done|]. rewrite Zlen_cons in *. pose proof (Zlen_nonneg m).
    destruct (Z.leb_spec (Z.of_nat 4 + (1 + Zlen m)) 4); [lia|done].
  - by rewrite Zlen_be.
Qed.
Lemma recv_message m e c l fuel : 0 < Zlen m <= INT32_MAX -> arrives m (incoming e) l ->
  exists e', recv (S fuel) (c, e) = Done (Zlen m, m) (c, e') /\ incoming e' = l.
Proof.
  intros Hl Ha. assert (m <> []) as Hne by (intros ->; rewrite (Zlen_nil (A := Z)) in Hl; lia).
  destruct (recv_header m e l ltac:(lia) Ha Hne) as (e1 & E1 & Hin1).
  pose proof (recv_law (Zlen m) e1) as H. rewrite Hin1 in H.
  unfold recv, bind at 1, zc_call at 1. cbn [fst snd]. rewrite E1. cbv beta iota. rewrite Zlen_be.
  change (Z.of_nat 4 <? 4) with false. cbv iota.
  assert (to_i32 (htonl (host_load (be 4 (Zlen m)))) = Zlen m) as ->.
  { rewrite <- (app_nil_r (be 4 _)), htonl_front, be_val_be by (apply be_bytes || done).
    change (2 ^ (8 * Z.of_nat 4)) with (2 ^ 32). unfold INT32_MAX in Hl. rewrite to_s_mod, to_s_id; unfold in_s; lia. }
  replace (Zlen m <? 0) with false by lia. cbn [recv_rest]. rewrite (Zlen_nil (A := Z)).
  replace (Zlen m <=? 0) with false by lia. rewrite Z.sub_0_r. unfold bind, zc_call. cbn [fst snd].
  destruct (base_recv (Zlen m) e1) as [got e2]. cbn [fst snd] in H. destruct H as [-> H2]. exists e2.
  replace (Z.to_nat (Zlen m)) with (length m) by (unfold Zlen; lia). rewrite firstn_all. cbn [app]. split.
  - destruct fuel; cbn [recv_rest]; by rewrite Z.leb_refl.
  - rewrite H2. by rewrite Z.leb_refl.
Qed.
Lemma process_turn_message m c e l fuel : message_ok m -> arrives m (incoming e) l ->
  exists e', process_turn (S fuel) (c, e) = Done None (deliver c m, e') /\ incoming e' = l.
Proof.
  intros (Hb & Hl & Hw) Ha. destruct (recv_message m e c l fuel ltac:(lia) Ha) as (e' & E1 & Hin). exists e'. split; [|done].
  unfold process_turn, bind at 1. rewrite E1. replace (Zlen m =? INVALID) with false by (unfold INVALID; lia).
  rewrite Z.eqb_refl. cbn [negb]. destruct (contained_run iarchive_ReplyHeader m (ReplyHeader_contained _ _) Hb) as (r & view & Eh).
  unfold bind at 1, on_view at 1. rewrite Eh. unfold ret at 1. rewrite deserialize_int_run by lia. cbv beta iota.
  unfold deliver. destruct (xid_of m =? PING_XID); [done|]. cbn [orb]. destruct (xid_of m =? SET_WATCHES_XID); [done|].
  destruct (xid_of m =? WATCHER_EVENT_XID) eqn:Ew; [|done].
  apply Z.eqb_eq, Hw in Ew. destruct (ReplyHeader_run m ltac:(lia)) as (h & Eh'). rewrite Eh in Eh'. injection Eh' as -> ->.
  cbn [snd]. destruct (contained_run iarchive_WatcherEvent (drop 16 m) (WatcherEvent_contained _ _)) as (r' & view' & Ev).
  { apply Forall_drop, Hb. }
  unfold bind at 1, on_view. rewrite Ev. unfold ret at 1. by rewrite deserialize_int_run by (rewrite Zlen_drop; lia).
Qed.
Lemma process_turns_messages ms c e l fuel : Forall message_ok ms -> arrivals ms (incoming e) l ->
  exists e', process_turns (S fuel) (length ms) (c, e) = Done None (fold_left deliver ms c, e') /\ incoming e' = l.
Proof.
  intros Hms. revert c e. induction Hms as [|m ms Hm _ IH]; intros c e Ha; inversion Ha; subst.
  - by exists e.
  - destruct (process_turn_message m c e l1 fuel Hm) as (e1 & E1 & Hin1); [done|].
    destruct (IH (deliver c m) e1) as (e2 & E2 & Hin2); [by rewrite Hin1|]. exists e2. split; [|done].
    cbn [process_turns length fold_left]. unfold bind. by rewrite E1.
Qed.

Lemma recv_two a b c e l fuel : a <> [] -> b <> [] -> Zlen (a ++ b) <= INT32_MAX ->
  incoming e = be 4 (Zlen (a ++ b)) :: a :: b :: l ->
  exists e', recv (S (S fuel)) (c, e) = Done (Zlen b, a ++ b) (c, e').
Proof.
  intros Ha Hb Hl Hin. assert (0 < Zlen a /\ 0 < Zlen b) as [La Lb].
  { split; [destruct a as [|x l1]|destruct b as [|x l1]]; try done; rewrite Zlen_cons; pose proof (Zlen_nonneg l1); lia. }
  rewrite Zlen_app in *. set (n := Zlen a + Zlen b) in *.
  pose proof (recv_law 4 e) as H. rewrite Hin in H. unfold recv, bind at 1, zc_call at 1. cbn [fst snd].
  destruct (base_recv 4 e) as [got e1]. cbn [fst snd] in H. destruct H as [-> H1]. rewrite Zlen_be in H1.
  change (take _ (be 4 n)) with (be 4 n). change (if Z.of_nat 4 <=? 4 then _ else _) with (a :: b :: l) in H1. cbv beta iota.
  rewrite Zlen_be. change (Z.of_nat 4 <? 4) with false. cbv iota.
  assert (to_i32 (htonl (host_load (be 4 n))) = n) as ->.
  { rewrite <- (app_nil_r (be 4 _)), htonl_front, be_val_be by (apply be_bytes || done).
    change (2 ^ (8 * Z.of_nat 4)) with (2 ^ 32). unfold INT32_MAX in Hl. rewrite to_s_mod, to_s_id; unfold in_s; lia. }
  replace (n <? 0) with false by lia. cbn [recv_rest]. rewrite (Zlen_nil (A := Z)).
  replace (n <=? 0) with false by lia. rewrite Z.sub_0_r. unfold bind at 1, zc_call at 1. cbn [fst snd].
  pose proof (recv_law n e1) as H. rewrite H1 in H.
  destruct (base_recv n e1) as [got2 e2]. cbn [fst snd] in H. destruct H as [-> H2].
  replace (Zlen a <=? n) with true in H2 by lia.
  rewrite take_ge by (unfold n, Zlen; lia). cbv beta iota. cbn [app].
  replace (n <=? Zlen a) with false by lia. replace (n - Zlen a) with (Zlen b) by lia.
  unfold bind, zc_call. cbn [fst snd]. pose proof (recv_law (Zlen b) e2) as H. rewrite H2 in H.
  destruct (base_recv (Zlen b) e2) as [got3 e3]. cbn [fst snd] in H. destruct H as [-> _]. exists e3.
  rewrite take_ge by (unfold Zlen; lia). cbv beta iota.
  destruct fuel; cbn [recv_rest]; rewrite Zlen_app; by replace (n <=? Zlen a + Zlen b) with true by lia.
Qed.

(** C27: The reader coroutine handles the messages that have come in, in order: it stores the
    replies and resumes a waiting operation for each, resumes a watcher for each event, and
    passes over pings - if every message has come in one piece behind its length; a message
    in two pieces fails an assertion. *)
Theorem process_needs_whole_messages c e l fuel :
  (forall ms, Forall message_ok ms -> arrivals ms (incoming e) l ->
   exists e', process_turns (S fuel) (length ms) (c, e) = Done None (fold_left deliver ms c, e') /\ incoming e' = l) /\
  (forall a b, a <> [] -> b <> [] -> Zlen (a ++ b) <= INT32_MAX -> incoming e = be 4 (Zlen (a ++ b)) :: a :: b :: l ->
   process_turn (S (S fuel)) (c, e) = Fault FAssert).
Proof.
  split; [intros; by apply process_turns_messages|]. intros a b Ha Hb Hl Hin.
  destruct (recv_two a b c e l fuel Ha Hb Hl Hin) as (e' & Er). unfold process_turn, bind at 1. rewrite Er.
  pose proof (Zlen_nonneg b). replace (Zlen b =? INVALID) with false by (unfold INVALID; lia).
  assert (Zlen a <> 0). { destruct a; [done|]. rewrite Zlen_cons. pose proof (Zlen_nonneg a). lia. }
  rewrite Zlen_app. by replace (Zlen b =? Zlen a + Zlen b) with false by lia.
Qed.
End Reader.

(** ** A connection that follows a script *)

Record script := mkScript { sc_in : list (list Z); sc_out : list Z }.
Definition scripted (reply : list Z) : Connection script := {|
  base_connect _ _ e := (3, e);
  base_send bs e := (Zlen bs, mkScript (sc_in e) (sc_out e ++ bs));
  base_recv n e :=
    match sc_in e with
    | [] => (None, e)
    | piece :: l =>
        (Some (take (Z.to_nat n) piece), mkScript (if Zlen piece <=? n then l else drop (Z.to_nat n) piece :: l) (sc_out e))
    end;
  time_now _ := 1700000000;
  until_resumed l e := (reply :: l, e);
|}.
#[export] Instance scripted_recording reply : Recording script (connection := scripted reply).
Proof.
  refine {| sent := sc_out : script -> list Z |}; cbn; intros; [|done]. split; [|done].
  pose proof (Zlen_nonneg bs). unfold INVALID. lia.
Defined.
#[export] Instance scripted_streaming reply : Streaming script (connection := scripted reply).
Proof. refine {| incoming := sc_in : script -> list (list Z) |}. intros n e. cbn. by destruct (sc_in e). Defined.

Definition example_client : ZooCli := mkZooCli [] 0 (replicate 16 0) 0 30000 0 false 0 (-1) [] 0 0.
Definition example_reply : ReplyHeader_ := mkReplyHeader 1 77 0.
Definition example_ops : list ZooOp := [zoo_delete_op_init [47; 97] 3; zoo_check_op_init [47; 98] 7].

Example multi_sends_witness :
  exists x e', multi (connection := scripted []) example_ops (example_client, mkScript [] []) = Done 0 (with_xid x example_client, e') /\
    e' = mkScript [] (frame (RequestHeader_wire (mkRequestHeader x ZOO_MULTI_OP) ++ multi_wire [] false example_ops)).
Proof.
  destruct (multi_sends (connection := scripted []) example_ops example_client (mkScript [] [])) as (x & e' & E & Hs).
  - repeat constructor; vm_compute; (discriminate || reflexivity).
  - intros x. vm_compute. discriminate.
  - exists x, e'. split; [exact E|]. destruct e' as [i o]. vm_compute in E. injection E as <- <- <-. reflexivity.
Defined.
Example operations_end_witness :
  ends (get (connection := scripted (ReplyHeader_wire example_reply ++ [0; 0; 0; 0])) [47; 97]) (example_client, mkScript [] []) = inr FUB.
Proof.
  destruct (operations_end (connection := scripted (ReplyHeader_wire example_reply ++ [0; 0; 0; 0])) example_reply [0; 0; 0; 0]
    ltac:(intros l e; by exists l) ltac:(repeat split; vm_compute; (discriminate || reflexivity)) ltac:(vm_compute; discriminate)
    example_client (mkScript [] []) [47; 97] [] 0 [] 0 (-1) [] [] [] 0 [] [] ltac:(by vm_compute) ltac:(by vm_compute)
    ltac:(by vm_compute) ltac:(by split) ltac:(by split) ltac:(by split) ltac:(by split) ltac:(by vm_compute)
    ltac:(by vm_compute) ltac:(by split)) as (_ & _ & _ & H & _).
  exact H.
Defined.
Definition example_message : list Z := ReplyHeader_wire example_reply ++ [1; 2].
Example process_needs_whole_messages_witness :
  exists e', process_turns (connection := scripted []) 1 2 (example_client, mkScript [frame example_message; be 4 18; example_message] []) =
    Done None (with_completions [example_message; example_message] 2 0 example_client, e').
Proof.
  destruct (proj1 (process_needs_whole_messages (connection := scripted []) example_client
    (mkScript [frame example_message; be 4 18; example_message] []) [] 0) [example_message; example_message]) as (e' & E & _).
  - repeat constructor; vm_compute; (discriminate || reflexivity || lia).
  - eapply arrivals_more; [by left|]. eapply arrivals_more; [by right|]. apply arrivals_none.
  - exists e'. exact E.
Defined.
