(* ===== verification/ClientCache.v ===== *)
(** * The client's view of the cluster

    [coev_kafka/client.cpp] with [metadata_refresher.cpp]: which brokers are known, which of
    them lead which partitions and coordinate which groups, how that is looked up and how it
    is refreshed.  The brokers themselves and the clocks are the interface [Brokers]. *)
From Stdlib Require Import ZArith Lia Bool.
From stdpp Require Import base tactics list numbers gmap.
From S2P Require Import Prelude Errors StdMap Version.

(** ** Data *)

(** A shared pointer to a broker: its identity and the two members the client reads *)
(* coev_kafka/broker.h:182-184 Broker *)
Record broker := mkBroker { b_ptr : nat; b_id : Z; b_addr : list Z }.
#[export] Instance broker_eq_dec : EqDecision broker.
Proof. solve_decision. Defined.
(** [==] of the pointers *)
Definition same_broker (a b : broker) : bool := (b_ptr a =? b_ptr b)%nat.

(* coev_kafka/metadata_response.h:27-36 PartitionMetadata *)
Record PartitionMetadata := mkPartitionMetadata {
  pm_version : Z; pm_err : Z; pm_id : Z; pm_leader : Z; pm_leader_epoch : Z;
  pm_replicas : list Z; pm_isr : list Z; pm_offline_replicas : list Z }.
(* coev_kafka/metadata_response.h:46-54 TopicMetadata *)
Record TopicMetadata := mkTopicMetadata {
  tm_version : Z; tm_err : Z; tm_name : list Z; tm_uuid : list Z; tm_is_internal : bool;
  tm_partitions : list PartitionMetadata; tm_topic_authorized_operations : Z }.
(* coev_kafka/metadata_response.h:62-70 MetadataResponse *)
Record MetadataResponse := mkMetadataResponse {
  mr_version : Z; mr_throttle_time : Z; mr_brokers : list broker; mr_topics : list TopicMetadata;
  mr_cluster_id : list Z; mr_controller_id : Z; mr_cluster_authorized_operations : Z }.

(** Times are in nanoseconds, durations as the code has them, in milliseconds. *)
Definition ns_per_ms : Z := 1000000.

(* coev_kafka/metadata_refresher.h:24-28 MetadataRefresher::RefreshTime *)
Record RefreshTime := mkRefreshTime { rt_last_request_time : Z; rt_last_response_time : Z }.
Abbreviation topic_name := (list Z).
(* coev_kafka/metadata_refresher.h:22-40 MetadataRefresher *)
Record MetadataRefresher := mkRefresher {
  m_topics_map : gmap topic_name RefreshTime;
  m_topics : list topic_name;
  m_refresh_interval_mininum : Z }.
(* coev_kafka/metadata_refresher.cpp:11-13 MetadataRefresher::MetadataRefresher *)
Definition MetadataRefresher_new : MetadataRefresher := mkRefresher ∅ [] 100.

Abbreviation topic_partitions := (list (Z * PartitionMetadata)).
(** [m_brokers], [m_metadata] and the other maps are in key order; the two lists of a topic
    are the array indexed by [AllPartitions] and [WritablePartitions_]. *)
(* coev_kafka/client.h:91-103 Client *)
Record Client := mkClient {
  c_metadata_refresher : MetadataRefresher;
  c_update_metadata_ms : Z;
  c_controller_id : Z;
  c_seed_brokers : list broker;
  c_dead_seeds : list broker;
  c_brokers : list (Z * broker);
  c_metadata : list (topic_name * topic_partitions);
  c_metadata_topics : list (topic_name * bool);
  c_coordinators : list (list Z * Z);
  c_transaction_coordinators : list (list Z * Z);
  c_cached_partitions_results : list (topic_name * (list Z * list Z)) }.
Definition with_refresher x (c : Client) :=
  mkClient x (c_update_metadata_ms c) (c_controller_id c) (c_seed_brokers c) (c_dead_seeds c) (c_brokers c) (c_metadata c)
    (c_metadata_topics c) (c_coordinators c) (c_transaction_coordinators c) (c_cached_partitions_results c).
Definition with_update_ms x (c : Client) :=
  mkClient (c_metadata_refresher c) x (c_controller_id c) (c_seed_brokers c) (c_dead_seeds c) (c_brokers c) (c_metadata c)
    (c_metadata_topics c) (c_coordinators c) (c_transaction_coordinators c) (c_cached_partitions_results c).
Definition with_controller x (c : Client) :=
  mkClient (c_metadata_refresher c) (c_update_metadata_ms c) x (c_seed_brokers c) (c_dead_seeds c) (c_brokers c) (c_metadata c)
    (c_metadata_topics c) (c_coordinators c) (c_transaction_coordinators c) (c_cached_partitions_results c).
Definition with_seeds seeds dead (c : Client) :=
  mkClient (c_metadata_refresher c) (c_update_metadata_ms c) (c_controller_id c) seeds dead (c_brokers c) (c_metadata c)
    (c_metadata_topics c) (c_coordinators c) (c_transaction_coordinators c) (c_cached_partitions_results c).
Definition with_brokers x (c : Client) :=
  mkClient (c_metadata_refresher c) (c_update_metadata_ms c) (c_controller_id c) (c_seed_brokers c) (c_dead_seeds c) x
    (c_metadata c) (c_metadata_topics c) (c_coordinators c) (c_transaction_coordinators c) (c_cached_partitions_results c).
Definition with_metadata metadata topics cached (c : Client) :=
  mkClient (c_metadata_refresher c) (c_update_metadata_ms c) (c_controller_id c) (c_seed_brokers c) (c_dead_seeds c)
    (c_brokers c) metadata topics (c_coordinators c) (c_transaction_coordinators c) cached.
Definition with_coordinators groups transactions (c : Client) :=
  mkClient (c_metadata_refresher c) (c_update_metadata_ms c) (c_controller_id c) (c_seed_brokers c) (c_dead_seeds c)
    (c_brokers c) (c_metadata c) (c_metadata_topics c) groups transactions (c_cached_partitions_results c).
Definition INVALID : Z := -1.
(* coev_kafka/client.cpp Client::Client *)
Definition Client_new : Client := mkClient MetadataRefresher_new 0 INVALID [] [] [] [] [] [] [] [].

(** The settings the client reads *)
Record ClientConfig := mkClientConfig {
  cc_Version : KafkaVersion;
  cc_Full : bool;
  cc_Timeout : Z;
  cc_AllowAutoTopicCreation : bool;
  cc_Retry_Max : Z;
  cc_Backoff : Z;
  cc_BackoffFunc : option (Z -> Z -> Z) }.

Definition CoordinatorType := Z.
Definition CoordinatorGroup : CoordinatorType := 0.
Definition CoordinatorTransaction : CoordinatorType := 1.
(** The fields of a [FindCoordinatorRequest] and of its response *)
Record FindCoordinatorRequest := mkFindCoordinatorRequest { fq_version : Z; fq_key : list Z; fq_type : CoordinatorType }.
Record FindCoordinatorResponse := mkFindCoordinatorResponse { fr_err : Z; fr_coordinator : option broker }.
(** The block of an [OffsetResponse] that answers a request for one partition *)
Record OffsetBlock := mkOffsetBlock { ob_err : Z; ob_offsets : list Z }.

(** What the client asks of brokers and of the host: opening and closing a connection (a code
    of 0 is an open connection), exchanges (the response counts when the code is 0), the two
    clocks, sleeping, the random engine and new broker objects.  [E] is the state of all that. *)
Class Brokers (E : Type) := {
  Open : broker -> E -> Z * E;
  Broker_close : broker -> E -> E;
  SafeAsyncClose : broker -> E -> E;
  GetMetadata : broker -> list topic_name -> bool -> E -> (Z * MetadataResponse) * E;
  exchange_FindCoordinator : broker -> FindCoordinatorRequest -> E -> (Z * FindCoordinatorResponse) * E;
  exchange_ProducerID : broker -> E -> (Z * (Z * Z)) * E;
  GetAvailableOffsets : broker -> topic_name -> Z -> Z -> E -> (Z * OffsetBlock) * E;
  steady_now : E -> Z * E;
  system_now : E -> Z * E;
  sleep_for : Z -> E -> E;
  shuffle : list (list Z) -> E -> list (list Z) * E;
  make_broker : E -> nat * E
}.

(** ** The refresher *)

(** The loop body of [add_topics]: the topics to be refreshed so far *)
Definition add_topic (now : Z) (acc : MetadataRefresher * list topic_name) (topic : topic_name)
  : MetadataRefresher * list topic_name :=
  let '(r, refresh_topics) := acc in
  let interval := m_refresh_interval_mininum r * ns_per_ms in
  match m_topics_map r !! topic with
  | Some t =>
      if now <? rt_last_response_time t + interval then acc
      else if now <? rt_last_request_time t + interval then acc
      else (mkRefresher (<[topic := mkRefreshTime now (rt_last_response_time t)]> (m_topics_map r)) (m_topics r)
              (m_refresh_interval_mininum r), refresh_topics ++ [topic])
  | None =>
      (mkRefresher (<[topic := mkRefreshTime now now]> (m_topics_map r)) (m_topics r ++ [topic])
         (m_refresh_interval_mininum r), refresh_topics ++ [topic])
  end.
(* coev_kafka/metadata_refresher.cpp MetadataRefresher::add_topics *)
Definition add_topics (now : Z) (topics : list topic_name) (r : MetadataRefresher) : MetadataRefresher * list topic_name :=
  fold_left (add_topic now) topics (r, []).
(* coev_kafka/metadata_refresher.cpp MetadataRefresher::update_topic *)
Definition update_topic (now : Z) (topic : topic_name) (r : MetadataRefresher) : MetadataRefresher :=
  let t := default (mkRefreshTime 0 0) (m_topics_map r !! topic) in
  mkRefresher (<[topic := mkRefreshTime (rt_last_request_time t) now]> (m_topics_map r)) (m_topics r)
    (m_refresh_interval_mininum r).
(* coev_kafka/metadata_refresher.cpp MetadataRefresher::has_topics *)
Definition has_topics (topics : list topic_name) (r : MetadataRefresher) : bool :=
  forallb (fun t => bool_decide (is_Some (m_topics_map r !! t))) topics.
(* coev_kafka/metadata_refresher.cpp MetadataRefresher::clear *)
Definition clear (r : MetadataRefresher) : MetadataRefresher := mkRefresher ∅ [] (m_refresh_interval_mininum r).

(** ** Lookups *)

Definition no_elements {A} (l : list A) : bool := match l with [] => true | _ => false end.
(* coev_kafka/client.cpp Client::Closed *)
Definition Closed (c : Client) : bool := no_elements (c_brokers c) && no_elements (c_seed_brokers c).
(* coev_kafka/client.cpp Client::Brokers *)
Definition Client_Brokers (c : Client) : list broker := map snd (c_brokers c).
(* coev_kafka/client.cpp Client::Topics *)
Definition Topics (c : Client) (topics : list topic_name) : Z * list topic_name :=
  if Closed c then (ErrClosedClient, topics) else (0, topics ++ map fst (c_metadata c)).
(* coev_kafka/client.cpp Client::MetadataTopics *)
Definition MetadataTopics (c : Client) (topics : list topic_name) : Z * list topic_name :=
  if Closed c then (ErrClosedClient, topics) else (0, topics ++ map fst (c_metadata_topics c)).

Definition partition_metadata (c : Client) (topic : topic_name) (partition_id : Z) : option PartitionMetadata :=
  match map_find topic (c_metadata c) with
  | Some partitions => map_find partition_id partitions
  | None => None
  end.
(** A copy of the entry *)
(* coev_kafka/client.cpp Client::_CachedMetadata *)
Definition _CachedMetadata (topic : topic_name) (partition_id : Z) (c : Client) : option PartitionMetadata :=
  partition_metadata c topic partition_id.

Definition AllPartitions : Z := 0.
Definition WritablePartitions_ : Z := 1.
Definition partition_set (partition_id : Z) (cached : list Z * list Z) : list Z :=
  if partition_id =? AllPartitions then fst cached else snd cached.
(* coev_kafka/client.cpp Client::_CachedPartitions *)
Definition _CachedPartitions (topic : topic_name) (partition_id : Z) (c : Client) : list Z :=
  match map_find topic (c_cached_partitions_results c) with
  | None => []
  | Some cached => partition_set partition_id cached
  end.
(** The keys of a map are in order already, so that sorting them changes nothing. *)
(* coev_kafka/client.cpp Client::_SetPartitionCache *)
Definition _SetPartitionCache (topic : topic_name) (partition_id : Z) (metadata : list (topic_name * topic_partitions)) : list Z :=
  match map_find topic metadata with
  | None => []
  | Some partitions =>
      map fst (List.filter (fun p =>
        negb ((partition_id =? WritablePartitions_) && (pm_err (snd p) =? ErrLeaderNotAvailable))) partitions)
  end.
(* coev_kafka/client.cpp Client::PartitionNotReadable *)
Definition PartitionNotReadable (topic : topic_name) (partition : Z) (c : Client) : bool :=
  match partition_metadata c topic partition with
  | None => true
  | Some m => pm_leader m =? -1
  end.
(* coev_kafka/client.cpp Client::_CachedCoordinator *)
Definition _CachedCoordinator (consumerGroup : list Z) (c : Client) : option broker :=
  match map_find consumerGroup (c_coordinators c) with
  | Some id => map_find id (c_brokers c)
  | None => None
  end.
(* coev_kafka/client.cpp Client::_CachedTransactionCoordinator *)
Definition _CachedTransactionCoordinator (transactionID : list Z) (c : Client) : option broker :=
  match map_find transactionID (c_transaction_coordinators c) with
  | Some id => map_find id (c_brokers c)
  | None => None
  end.
(* coev_kafka/client.cpp Client::_CachedController *)
Definition _CachedController (c : Client) : option broker := map_find (c_controller_id c) (c_brokers c).
(* coev_kafka/client.cpp Client::ComputeBackoff *)
Definition ComputeBackoff (config : ClientConfig) (attempts_remaining : Z) : Z :=
  match cc_BackoffFunc config with
  | Some f => f (cc_Retry_Max config - attempts_remaining) (cc_Retry_Max config)
  | None => cc_Backoff config
  end.

Section Operations.
Context {E : Type} {network : Brokers E}.
Context (config : ClientConfig).
Abbreviation CM := (M (Client * E)).

Definition cl_call {A} (f : E -> A * E) : CM A := fun s => let '(a, e) := f (snd s) in Done a (fst s, e).
Definition cl_call_ (f : E -> E) : CM unit := fun s => Done tt (fst s, f (snd s)).
Definition cl_gets {A} (f : Client -> A) : CM A := fun s => Done (f (fst s)) s.
Definition cl_modify (f : Client -> Client) : CM unit := fun s => Done tt (f (fst s), snd s).
(** [if (Closed()) return ErrClosedClient;] *)
Definition unless_closed (m : CM Z) : CM Z :=
  let* closed := cl_gets Closed in if closed then ret ErrClosedClient else m.

(** ** Brokers *)

(* coev_kafka/client.cpp Client::RandomizeSeedBrokers *)
Definition RandomizeSeedBrokers (addrs : list (list Z)) : CM unit :=
  cl_modify (fun c => with_seeds [] (c_dead_seeds c) c) ;;;
  let* shuffledAddrs := cl_call (shuffle addrs) in
  for_do shuffledAddrs (fun addr =>
    let* ptr := cl_call make_broker in
    cl_modify (fun c => with_seeds (c_seed_brokers c ++ [mkBroker ptr (-1) addr]) (c_dead_seeds c) c)).

(** Enters a broker under its id; one with another address is closed and replaced. *)
(* coev_kafka/client.cpp:566-581 Client::UpdateBroker *)
Definition put_broker (b : broker) : CM unit :=
  let* brokers := cl_gets c_brokers in
  match map_find (b_id b) brokers with
  | None => cl_modify (with_brokers (map_assign (b_id b) b brokers))
  | Some old =>
      if negb (bool_decide (b_addr b = b_addr old)) then
        cl_call_ (SafeAsyncClose old) ;;;
        cl_modify (with_brokers (map_assign (b_id b) b brokers))
      else ret tt
  end.
(* coev_kafka/client.cpp Client::UpdateBroker *)
Definition UpdateBroker (_brokers : list broker) : CM unit :=
  for_do _brokers put_broker ;;;
  let* brokers := cl_gets c_brokers in
  for_do brokers (fun p =>
    if existsb (fun b => b_id b =? fst p) _brokers then ret tt
    else
      cl_call_ (SafeAsyncClose (snd p)) ;;;
      cl_modify (fun c => with_brokers (map_erase (fst p) (c_brokers c)) c)).
(* coev_kafka/client.cpp Client::RegisterBroker *)
Definition RegisterBroker (b : broker) : CM unit :=
  let* closed := cl_gets Closed in
  if closed then ret tt else put_broker b.
(* coev_kafka/client.cpp Client::DeregisterBroker *)
Definition DeregisterBroker (b : broker) : CM unit :=
  cl_modify (fun c =>
    match map_find (b_id b) (c_brokers c), c_seed_brokers c with
    | Some _, _ => with_brokers (map_erase (b_id b) (c_brokers c)) c
    | None, seed :: seeds =>
        if same_broker b seed then with_seeds seeds (c_dead_seeds c ++ [b]) c else c
    | None, [] => c
    end).
(* coev_kafka/client.cpp Client::ResurrectDeadBrokers *)
Definition ResurrectDeadBrokers : CM unit :=
  cl_modify (fun c => with_seeds (c_seed_brokers c ++ c_dead_seeds c) [] c).
(* coev_kafka/client.cpp Client::DeregisterController *)
Definition DeregisterController : CM unit :=
  let* c := cl_gets (fun c => c) in
  match map_find (c_controller_id c) (c_brokers c) with
  | Some b => cl_call_ (Broker_close b) ;;; cl_modify (with_brokers (map_erase (c_controller_id c) (c_brokers c)))
  | None => ret tt
  end.
(* coev_kafka/client.cpp Client::RefreshBrokers *)
Definition RefreshBrokers (addrs : list (list Z)) : CM Z :=
  unless_closed (
    let* c := cl_gets (fun c => c) in
    for_do (c_brokers c) (fun p => cl_call_ (SafeAsyncClose (snd p))) ;;;
    cl_modify (with_brokers []) ;;;
    for_do (c_seed_brokers c) (fun b => cl_call_ (SafeAsyncClose b)) ;;;
    for_do (c_dead_seeds c) (fun b => cl_call_ (SafeAsyncClose b)) ;;;
    cl_modify (with_seeds [] []) ;;;
    RandomizeSeedBrokers addrs ;;;
    ret 0).
(* coev_kafka/client.cpp Client::Close *)
Definition Client_Close : CM Z :=
  unless_closed (
    let* c := cl_gets (fun c => c) in
    for_do (c_brokers c) (fun p => cl_call_ (SafeAsyncClose (snd p))) ;;;
    for_do (c_seed_brokers c) (fun b => cl_call_ (SafeAsyncClose b)) ;;;
    cl_modify (fun c => with_metadata [] [] (c_cached_partitions_results c)
                          (with_brokers [] (with_seeds (c_seed_brokers c) [] c))) ;;;
    ret 0).
(* coev_kafka/client.cpp Client::GetBroker *)
Definition GetBroker (brokerID : Z) : CM (Z * option broker) :=
  let* found := cl_gets (fun c => map_find brokerID (c_brokers c)) in
  match found with
  | None => ret (ErrBrokerNotFound, None)
  | Some b => let* err := cl_call (Open b) in ret (err, Some b)
  end.

(** The last registered broker, or else the one passed in, or else the first seed.  The
    broker passed in is what is returned when none can be opened. *)
(* coev_kafka/client.cpp Client::LeastLoadedBroker *)
Definition LeastLoadedBroker (least_loaded_broker : option broker) : CM (Z * option broker) :=
  let* brokers := cl_gets c_brokers in
  let least_loaded_broker := match last brokers with Some p => Some (snd p) | None => least_loaded_broker end in
  let* err := match least_loaded_broker with Some b => cl_call (Open b) | None => ret INVALID end in
  if bool_decide (is_Some least_loaded_broker) && (err =? 0) then ret (0, least_loaded_broker)
  else
    let* seeds := cl_gets c_seed_brokers in
    match seeds with
    | [] => ret (ErrBrokerNotAvailable, least_loaded_broker)
    | seed_broker :: seeds' =>
        let* err := cl_call (Open seed_broker) in
        if negb (err =? 0) then
          cl_modify (fun c => with_seeds seeds' (c_dead_seeds c ++ [seed_broker]) c) ;;;
          ret (err, least_loaded_broker)
        else ret (0, Some seed_broker)
    end.

(** ** Metadata *)

(** One topic of a response; the result is whether to try again. *)
(* coev_kafka/client.cpp:973-1019 Client::UpdateMetadata *)
Definition update_topic_metadata (retry : bool) (topic : TopicMetadata) : CM bool :=
  let name := tm_name topic in
  cl_modify (fun c => with_metadata (map_erase name (c_metadata c))
    (if map_count name (c_metadata_topics c) then c_metadata_topics c else map_assign name true (c_metadata_topics c))
    (map_erase name (c_cached_partitions_results c)) c) ;;;
  let store (retry : bool) : CM bool :=
    cl_modify (fun c =>
      let metadata := fold_left (fun m p => map_update [] (map_assign (pm_id p) p) name m) (tm_partitions topic) (c_metadata c) in
      with_metadata metadata (c_metadata_topics c)
        (map_assign name (_SetPartitionCache name AllPartitions metadata, _SetPartitionCache name WritablePartitions_ metadata)
           (c_cached_partitions_results c)) c) ;;;
    ret (retry || existsb (fun p => pm_err p =? ErrLeaderNotAvailable) (tm_partitions topic)) in
  if tm_err topic =? ErrNoError then
    let* now := cl_call system_now in
    cl_modify (fun c => with_refresher (update_topic now name (c_metadata_refresher c)) c) ;;;
    store retry
  else if (tm_err topic =? ErrInvalidTopic) || (tm_err topic =? ErrTopicAuthorizationFailed) then ret retry
  else if tm_err topic =? ErrUnknownTopicOrPartition then ret true
  else if tm_err topic =? ErrLeaderNotAvailable then store true
  else ret retry.
Fixpoint update_topics (retry : bool) (topics : list TopicMetadata) : CM bool :=
  match topics with
  | [] => ret retry
  | t :: topics' => let* retry := update_topic_metadata retry t in update_topics retry topics'
  end.
(* coev_kafka/client.cpp Client::UpdateMetadata *)
Definition UpdateMetadata (data : MetadataResponse) (all_known_metadata : bool) : CM bool :=
  let* closed := cl_gets Closed in
  if closed then ret false
  else
    UpdateBroker (mr_brokers data) ;;;
    cl_modify (with_controller (mr_controller_id data)) ;;;
    (if all_known_metadata then cl_modify (with_metadata [] [] []) else ret tt) ;;;
    update_topics false (mr_topics data).

(** *** Refreshing *)

(* coev_kafka/client.cpp PastDeadline *)
Definition PastDeadline (deadline backoff : Z) : CM bool :=
  if deadline =? 0 then ret false
  else let* now := cl_call steady_now in ret (deadline <? now + backoff * ns_per_ms).

(** [if (attempts_remaining > 0)] is whether there is a [try_again]. *)
(* coev_kafka/client.cpp Client::RetryRefreshMetadata *)
Definition RetryRefreshMetadata (try_again : option (CM Z)) (attempts_remaining deadline err : Z) : CM Z :=
  match try_again with
  | None => ret err
  | Some try_again =>
      let backoff := ComputeBackoff config attempts_remaining in
      let* past := PastDeadline deadline backoff in
      if past then ret err
      else
        (if 0 <? backoff then cl_call_ (sleep_for backoff) else ret tt) ;;;
        let* last_update := cl_gets c_update_metadata_ms in
        let* now := cl_call steady_now in
        if now - last_update * ns_per_ms <? backoff * ns_per_ms then ret err else try_again
  end.
Definition drop_broker (b : broker) : CM unit := cl_call_ (Broker_close b) ;;; DeregisterBroker b.
(** The loop of [TryRefreshMetadata]; it is left by [co_return] only. *)
(* coev_kafka/client.cpp:878-950 Client::TryRefreshMetadata *)
Fixpoint refresh_loop (fuel : nat) (topics : list topic_name) (deadline : Z) (retry : Z -> CM Z) (b : option broker) : CM Z :=
  match fuel with
  | O => fail FDiverge
  | S fuel' =>
      let* got := LeastLoadedBroker b in
      let '(err, found) := got in
      if err =? INVALID then ret err
      else
        match found with
        | None => ret ErrBrokerNotAvailable
        | Some b =>
            let* past := PastDeadline deadline 0 in
            if past then ret ErrBrokerNotAvailable
            else
              let allow_auto_topic_creation := negb (no_elements topics) && cc_AllowAutoTopicCreation config in
              let* now := cl_call steady_now in
              cl_modify (with_update_ms (Z.quot now ns_per_ms)) ;;;
              let* answer := cl_call (GetMetadata b topics allow_auto_topic_creation) in
              let '(err, response) := answer in
              if err =? 0 then
                if no_elements (mr_brokers response)
                then drop_broker b ;;; refresh_loop fuel' topics deadline retry (Some b)
                else
                  let* should_retry := UpdateMetadata response (no_elements topics) in
                  if should_retry then retry ErrLeaderNotAvailable else ret 0
              else if (err =? ErrEncodeError) || (err =? ErrDecodeError) then ret err
              else if (err <? ErrLittleEnd) && ((err =? ErrSASLAuthenticationFailed) || (err =? ErrTopicAuthorizationFailed))
              then ret err
              else drop_broker b ;;; refresh_loop fuel' topics deadline retry (Some b)
        end
  end.
(* coev_kafka/client.cpp Client::TryRefreshMetadata *)
Fixpoint TryRefreshMetadata (fuel attempts_remaining : nat) (topics : list topic_name) (deadline : Z) : CM Z :=
  refresh_loop fuel topics deadline
    (RetryRefreshMetadata
       (match attempts_remaining with O => None | S n => Some (TryRefreshMetadata fuel n topics deadline) end)
       (Z.of_nat attempts_remaining) deadline) None.
Definition retries : nat := Z.to_nat (cc_Retry_Max config).
(** Without a timeout the deadline is the present. *)
(* coev_kafka/client.cpp Client::_RefreshMetadata *)
Definition _RefreshMetadata (fuel : nat) (topics : list topic_name) : CM Z :=
  let* now := cl_call steady_now in
  let deadline := if 0 <? cc_Timeout config then now + cc_Timeout config * ns_per_ms else now in
  TryRefreshMetadata fuel retries topics deadline.
(* coev_kafka/client.cpp Client::MetadataRefresh *)
Definition MetadataRefresh (fuel : nat) (topics : list topic_name) : CM Z :=
  if 0 <? cc_Timeout config then
    let* now := cl_call steady_now in TryRefreshMetadata fuel retries topics (now + cc_Timeout config * ns_per_ms)
  else TryRefreshMetadata fuel retries topics 0.
(* coev_kafka/client.cpp Client::RefreshMetadata *)
Definition RefreshMetadata (fuel : nat) (topics : list topic_name) : CM Z :=
  unless_closed (
    if existsb no_elements topics then ret ErrInvalidTopic
    else
      let* now := cl_call system_now in
      let* _topics := fun s =>
        let '(r, l) := add_topics now topics (c_metadata_refresher (fst s)) in Done l (with_refresher r (fst s), snd s) in
      _RefreshMetadata fuel _topics).
(* coev_kafka/client.cpp Client::RefreshMetadata #2 *)
Definition RefreshMetadata_all (fuel : nat) : CM Z :=
  if cc_Full config then RefreshMetadata fuel []
  else
    let* found := cl_gets (fun c => MetadataTopics c []) in
    let '(err, topics) := found in
    if negb (err =? 0) then ret err
    else if no_elements topics then ret ErrNoTopicsToUpdateMetadata
    else RefreshMetadata fuel topics.

(** *** Queries *)

(* coev_kafka/client.cpp Client::_GetPartitions *)
Definition _GetPartitions (fuel : nat) (topic : topic_name) (partition_id : Z) : CM (Z * list Z) :=
  let* closed := cl_gets Closed in
  if closed then ret (ErrClosedClient, [])
  else
    let answer := let* partitions := cl_gets (_CachedPartitions topic partition_id) in
      ret (if no_elements partitions then ErrUnknownTopicOrPartition else 0, partitions) in
    let* partitions := cl_gets (_CachedPartitions topic partition_id) in
    if no_elements partitions then
      let* err := RefreshMetadata fuel [topic] in
      if negb (err =? 0) then ret (err, partitions) else answer
    else answer.
(* coev_kafka/client.cpp Client::Partitions *)
Definition Partitions (fuel : nat) (topic : topic_name) : CM (Z * list Z) := _GetPartitions fuel topic AllPartitions.
(* coev_kafka/client.cpp Client::WritablePartitions *)
Definition WritablePartitions (fuel : nat) (topic : topic_name) : CM (Z * list Z) :=
  _GetPartitions fuel topic WritablePartitions_.
(* coev_kafka/client.cpp Client::_GetReplicas *)
Definition _GetReplicas (fuel : nat) (topic : topic_name) (partition_id : Z) : CM (Z * option PartitionMetadata) :=
  let* closed := cl_gets Closed in
  if closed then ret (ErrClosedClient, None)
  else
    let* out := cl_gets (_CachedMetadata topic partition_id) in
    match out with
    | Some _ => ret (0, out)
    | None =>
        let* err := RefreshMetadata fuel [topic] in
        if negb (err =? 0) then ret (err, None)
        else
          let* out := cl_gets (_CachedMetadata topic partition_id) in
          ret (match out with None => ErrUnknownTopicOrPartition | Some _ => 0 end, out)
    end.
(** [part] is the member that is handed out; [out] is the list that is there on an error. *)
Definition replicas_part (part : PartitionMetadata -> list Z) (fuel : nat) (topic : topic_name) (partition_id : Z)
    (out : list Z) : CM (Z * list Z) :=
  let* got := _GetReplicas fuel topic partition_id in
  let '(err, m) := got in
  if negb (err =? 0) then ret (err, out)
  else match m with Some m => ret (ErrNoError, part m) | None => fail FUB end.
(* coev_kafka/client.cpp Client::Replicas *)
Definition Replicas := replicas_part pm_replicas.
(* coev_kafka/client.cpp Client::InSyncReplicas *)
Definition InSyncReplicas := replicas_part pm_isr.
(* coev_kafka/client.cpp Client::OfflineReplicas *)
Definition OfflineReplicas := replicas_part pm_offline_replicas.

(** The code, the leader if there is one, and its epoch *)
(* coev_kafka/client.cpp Client::_CachedLeader *)
Definition _CachedLeader (topic : topic_name) (partition_id : Z) (b : option broker) : CM (Z * option broker * Z) :=
  let* c := cl_gets (fun c => c) in
  match partition_metadata c topic partition_id with
  | None => ret (ErrUnknownTopicOrPartition, b, -1)
  | Some m =>
      if pm_err m =? ErrLeaderNotAvailable then ret (ErrLeaderNotAvailable, b, -1)
      else
        match map_find (pm_leader m) (c_brokers c) with
        | None => ret (ErrLeaderNotAvailable, b, -1)
        | Some leader =>
            let* err := cl_call (Open leader) in
            if negb (err =? 0) then ret (ErrLeaderNotAvailable, b, -1)
            else ret (err, Some leader, pm_leader_epoch m)
        end
  end.
(* coev_kafka/client.cpp Client::LeaderAndEpoch *)
Definition LeaderAndEpoch (fuel : nat) (topic : topic_name) (partition_id : Z) (leader : option broker) (epoch : Z)
    : CM (Z * option broker * Z) :=
  let* closed := cl_gets Closed in
  if closed then ret (ErrClosedClient, leader, epoch)
  else
    let* found := _CachedLeader topic partition_id leader in
    let '(err, leader, epoch) := found in
    if negb (err =? 0) then
      let* err := RefreshMetadata fuel [topic] in
      if negb (err =? 0) then ret (err, leader, epoch) else _CachedLeader topic partition_id leader
    else ret found.
(* coev_kafka/client.cpp Client::Leader *)
Definition Leader (fuel : nat) (topic : topic_name) (partition_id : Z) (leader : option broker) : CM (Z * option broker) :=
  let* found := LeaderAndEpoch fuel topic partition_id leader 0 in ret (fst found).
(** The offset, or -1 *)
(* coev_kafka/client.cpp Client::_GetOffset *)
Definition _GetOffset (fuel : nat) (topic : topic_name) (partition_id timestamp : Z) : CM (Z * Z) :=
  let* found := Leader fuel topic partition_id None in
  let '(err, leader) := found in
  if negb (err =? 0) then ret (err, -1)
  else
    match leader with
    | None => fail FUB
    | Some b =>
        let* answer := cl_call (GetAvailableOffsets b topic partition_id timestamp) in
        let '(err, block) := answer in
        if negb (err =? 0) then cl_call_ (Broker_close b) ;;; ret (err, -1)
        else if negb (ob_err block =? ErrNoError) then ret (ob_err block, -1)
        else match ob_offsets block with
             | [offset] => ret (0, offset)
             | _ => ret (ErrOffsetOutOfRange, -1)
             end
    end.
(* coev_kafka/client.cpp Client::GetOffset *)
Definition GetOffset (fuel : nat) (topic : topic_name) (partition_id timestamp : Z) : CM (Z * Z) :=
  let* closed := cl_gets Closed in
  if closed then ret (ErrClosedClient, -1)
  else
    let* got := _GetOffset fuel topic partition_id timestamp in
    if negb (fst got =? 0) then
      let* err := RefreshMetadata fuel [topic] in
      if negb (err =? 0) then ret (err, -1) else _GetOffset fuel topic partition_id timestamp
    else ret got.

(** *** Controller and coordinators *)

(** [return broker->Open(m_conf)], or the code when there is none *)
Definition open_or (code : Z) (b : option broker) : CM (Z * option broker) :=
  match b with
  | None => ret (code, None)
  | Some x => let* err := cl_call (Open x) in ret (err, b)
  end.
(* coev_kafka/client.cpp Client::Controller *)
Definition Controller (fuel : nat) : CM (Z * option broker) :=
  let* closed := cl_gets Closed in
  if closed then ret (ErrClosedClient, None)
  else if negb (IsAtLeast (cc_Version config) V0_10_0_0) then ret (ErrUnsupportedVersion, None)
  else
    let* b := cl_gets _CachedController in
    match b with
    | Some _ => open_or ErrControllerNotAvailable b
    | None =>
        let* err := RefreshMetadata_all fuel in
        if negb (err =? 0) then ret (err, None)
        else let* b := cl_gets _CachedController in open_or ErrControllerNotAvailable b
    end.
(* coev_kafka/client.cpp Client::RefreshController *)
Definition RefreshController (fuel : nat) : CM (Z * option broker) :=
  let* closed := cl_gets Closed in
  if closed then ret (ErrClosedClient, None)
  else
    DeregisterController ;;;
    let* err := RefreshMetadata_all fuel in
    if negb (err =? 0) then ret (err, None)
    else let* b := cl_gets _CachedController in open_or ErrControllerNotAvailable b.

Definition coordinator_version : Z :=
  if IsAtLeast (cc_Version config) V2_0_0_0 then 2 else if IsAtLeast (cc_Version config) V0_11_0_0 then 1 else 0.
Definition CONSUMER_OFFSETS : list Z := [95; 95; 99; 111; 110; 115; 117; 109; 101; 114; 95; 111; 102; 102; 115; 101; 116; 115].
Definition TRANSACTION_STATE : list Z :=
  [95; 95; 116; 114; 97; 110; 115; 97; 99; 116; 105; 111; 110; 95; 115; 116; 97; 116; 101].
Definition wait_for_topic (fuel : nat) (topic : topic_name) (leader : option broker) : CM (option broker) :=
  let* found := Leader fuel topic 0 leader in
  (if negb (fst found =? 0) then cl_call_ (sleep_for 2000) else ret tt) ;;;
  ret (snd found).
(** The loop of [FindCoordinator]; [broker] keeps its last value, so that it ends only with a
    [co_return] once it has been set.  [response] is the last response that came in. *)
(* coev_kafka/client.cpp:1101-1169 Client::FindCoordinator *)
Fixpoint coordinator_loop (fuel : nat) (key : list Z) (type : CoordinatorType)
    (retry : Z -> FindCoordinatorResponse -> CM (Z * FindCoordinatorResponse)) (response : FindCoordinatorResponse)
    (b : option broker) : CM (Z * FindCoordinatorResponse) :=
  match fuel with
  | O => fail FDiverge
  | S fuel' =>
      let* got := LeastLoadedBroker b in
      match snd got with
      | None => ResurrectDeadBrokers ;;; retry ErrOutOfBrokers response
      | Some b =>
          let* answer := cl_call (exchange_FindCoordinator b (mkFindCoordinatorRequest coordinator_version key type)) in
          let '(err, answered) := answer in
          if negb (err =? 0) then drop_broker b ;;; coordinator_loop fuel' key type retry response (Some b)
          else if fr_err answered =? ErrNoError then ret (0, answered)
          else if fr_err answered =? ErrConsumerCoordinatorNotAvailable then
            let* leader := wait_for_topic fuel CONSUMER_OFFSETS None in
            (if type =? CoordinatorTransaction then wait_for_topic fuel TRANSACTION_STATE leader else ret leader) ;;;
            retry ErrConsumerCoordinatorNotAvailable answered
          else if fr_err answered =? ErrGroupAuthorizationFailed then retry ErrGroupAuthorizationFailed answered
          else ret (fr_err answered, answered)
      end
  end.
(* coev_kafka/client.cpp Client::FindCoordinator *)
Fixpoint FindCoordinator (fuel attempts_remaining : nat) (key : list Z) (type : CoordinatorType)
    (response : FindCoordinatorResponse) : CM (Z * FindCoordinatorResponse) :=
  coordinator_loop fuel key type
    (fun err response =>
       match attempts_remaining with
       | O => ret (err, response)
       | S n =>
           cl_call_ (sleep_for (ComputeBackoff config (Z.of_nat attempts_remaining))) ;;;
           FindCoordinator fuel n key type response
       end) response None.

(** [FindCoordinatorResponse response;] *)
Definition no_response : FindCoordinatorResponse := mkFindCoordinatorResponse ErrNoError None.
Definition refresh_coordinator (fuel : nat) (key : list Z) (type : CoordinatorType) (note : Z -> Client -> Client) : CM Z :=
  unless_closed (
    let* got := FindCoordinator fuel retries key type no_response in
    let '(err, response) := got in
    if negb (err =? 0) then ret err
    else
      match fr_coordinator response with
      | None => fail FUB
      | Some b => RegisterBroker b ;;; cl_modify (note (b_id b)) ;;; ret 0
      end).
(* coev_kafka/client.cpp Client::RefreshCoordinator *)
Definition RefreshCoordinator (fuel : nat) (consumerGroup : list Z) : CM Z :=
  refresh_coordinator fuel consumerGroup CoordinatorGroup
    (fun id c => with_coordinators (map_assign consumerGroup id (c_coordinators c)) (c_transaction_coordinators c) c).
(* coev_kafka/client.cpp Client::RefreshTransactionCoordinator *)
Definition RefreshTransactionCoordinator (fuel : nat) (transactionID : list Z) : CM Z :=
  refresh_coordinator fuel transactionID CoordinatorTransaction
    (fun id c => with_coordinators (c_coordinators c) (map_assign transactionID id (c_transaction_coordinators c)) c).
Definition cached_or_refreshed (cached : Client -> option broker) (refresh : CM Z) : CM (Z * option broker) :=
  let* closed := cl_gets Closed in
  if closed then ret (ErrClosedClient, None)
  else
    let* coordinator := cl_gets cached in
    match coordinator with
    | Some _ => open_or ErrConsumerCoordinatorNotAvailable coordinator
    | None =>
        let* err := refresh in
        if negb (err =? 0) then ret (err, None)
        else let* coordinator := cl_gets cached in open_or ErrConsumerCoordinatorNotAvailable coordinator
    end.
(* coev_kafka/client.cpp Client::GetCoordinator *)
Definition GetCoordinator (fuel : nat) (consumerGroup : list Z) : CM (Z * option broker) :=
  cached_or_refreshed (_CachedCoordinator consumerGroup) (RefreshCoordinator fuel consumerGroup).
(* coev_kafka/client.cpp Client::TransactionCoordinator *)
Definition TransactionCoordinator (fuel : nat) (transactionID : list Z) : CM (Z * option broker) :=
  cached_or_refreshed (_CachedTransactionCoordinator transactionID) (RefreshTransactionCoordinator fuel transactionID).

(** The loop of [InitProducerID]: the id and epoch of the response *)
(* coev_kafka/client.cpp:129-147 Client::InitProducerID *)
Fixpoint producer_loop (fuel : nat) (b : option broker) : CM (Z * option (Z * Z)) :=
  match fuel with
  | O => fail FDiverge
  | S fuel' =>
      let* got := LeastLoadedBroker b in
      match got with
      | (0, Some b) =>
          let* answer := cl_call (exchange_ProducerID b) in
          let '(err, response) := answer in
          if err =? 0 then ret (0, Some response)
          else drop_broker b ;;; producer_loop fuel' (Some b)
      | _ => ret (ErrOutOfBrokers, None)
      end
  end.
(* coev_kafka/client.cpp Client::InitProducerID *)
Definition Client_InitProducerID (fuel : nat) : CM (Z * option (Z * Z)) := producer_loop fuel None.
End Operations.
