(* ===== verification/ClientSafety.v ===== *)
(** * What the client's tables hold

    The invariant of [ClientCache]'s client over every sequence of calls, and what an update,
    a lookup, a refresh and closing do. *)
From Stdlib Require Import ZArith Lia Bool.
From stdpp Require Import base tactics list numbers gmap sets.
From S2P Require Import Prelude Errors StdMap Version ClientCache.

(** ** A judgement for the client's methods *)

(** From a client with [P] the method does nothing undefined, and its result and the client
    it leaves satisfy [Q]; it may go on for ever. *)
Definition method {E A} (P : Client -> Prop) (m : M (Client * E) A) (Q : A -> Client -> Prop) : Prop :=
  forall s, P (fst s) -> match m s with Done a s' => Q a (fst s') | Fault f => f = FDiverge end.
Abbreviation preserves P m := (method P%function m (fun _ => P%function)).

Create HintDb client discriminated.
#[export] Hint Constants Opaque : client.
Section Rules.
Context {E : Type} {network : Brokers E}.
Implicit Types (P : Client -> Prop).

Lemma method_weaken {A} P (Q Q' : A -> Client -> Prop) (m : M (Client * E) A) :
  method P m Q -> (forall a c, Q a c -> Q' a c) -> method P m Q'.
Proof. intros Hm Hq s Hs. specialize (Hm s Hs). destruct (m s); auto. Qed.
Lemma method_pre {A} P P' (Q : A -> Client -> Prop) (m : M (Client * E) A) :
  method P m Q -> (forall c, P' c -> P c) -> method P' m Q.
Proof. intros Hm Hp s Hs. apply Hm, Hp, Hs. Qed.
Lemma method_ret {A} P (Q : A -> Client -> Prop) a : (forall c, P c -> Q a c) -> method (E := E) P (ret a) Q.
Proof. intros H s Hs. by apply H. Qed.
Lemma method_bind {A B} P Q (R : B -> Client -> Prop) (m : M (Client * E) A) k :
  method P m Q -> (forall a, method (Q a) (k a) R) -> method P (bind m k) R.
Proof.
  intros Hm Hk s Hs. unfold bind. specialize (Hm s Hs). destruct (m s) as [a s'|]; [|done]. by apply Hk.
Qed.
Lemma method_seq {A B} P (R : B -> Client -> Prop) (m : M (Client * E) A) k :
  preserves P m -> (forall a, method P (k a) R) -> method P (bind m k) R.
Proof. apply method_bind. Qed.
Lemma method_diverge {A} P (Q : A -> Client -> Prop) : method (E := E) P (fail FDiverge) Q.
Proof. by intros s Hs. Qed.
Lemma preserves_ret {A} P (a : A) : preserves P (ret (S := Client * E) a).
Proof. by apply method_ret. Qed.
Lemma preserves_call {A} P (f : E -> A * E) : preserves P (cl_call f).
Proof. intros s Hs. unfold cl_call. by destruct (f (snd s)). Qed.
Lemma method_call {A} P (f : E -> A * E) : method P (cl_call f) (fun a c => P c /\ exists e, a = fst (f e)).
Proof. intros s Hs. unfold cl_call. destruct (f (snd s)) as [a e] eqn:Ef. split; [done|]. exists (snd s). by rewrite Ef. Qed.
Lemma method_fact {A} P (F : Prop) (Q : A -> Client -> Prop) (m : M (Client * E) A) :
  (F -> method P m Q) -> method (fun c => P c /\ F) m Q.
Proof. intros H s [Hs Hf]. by apply H. Qed.
Lemma preserves_call_ P (f : E -> E) : preserves P (cl_call_ f).
Proof. by intros s Hs. Qed.
Lemma preserves_gets {A} P (f : Client -> A) : preserves P (cl_gets (E := E) f).
Proof. by intros s Hs. Qed.
Lemma method_gets {A} P (f : Client -> A) : method (E := E) P (cl_gets f) (fun a c => P c /\ a = f c).
Proof. by intros s Hs. Qed.
Lemma preserves_modify P (f : Client -> Client) : (forall c, P c -> P (f c)) -> preserves P (cl_modify (E := E) f).
Proof. intros H s Hs. by apply H. Qed.
Lemma preserves_for_do {X} P (l : list X) (f : X -> M (Client * E) unit) :
  (forall x, x ∈ l -> preserves P (f x)) -> preserves P (for_do l f).
Proof.
  induction l as [|x l IH]; intros H; cbn [for_do]; [apply preserves_ret|].
  apply method_seq; [apply H; by left|]. intros _. apply IH. intros y Hy. apply H. by right.
Qed.
Lemma preserves_unless_closed P (m : M (Client * E) Z) : preserves P m -> preserves P (unless_closed m).
Proof.
  intros Hm. apply method_seq; [apply preserves_gets|]. intros []; [apply preserves_ret|done].
Qed.
End Rules.
#[export] Hint Resolve preserves_ret preserves_call preserves_call_ preserves_gets preserves_unless_closed method_diverge : client.
(** Walks through a method that keeps [P]. *)
Ltac walk :=
  repeat match goal with
  | |- method _ (bind _ _) _ => apply method_seq; [|intros ?]
  | |- method _ (unless_closed _) _ => apply preserves_unless_closed
  | |- method _ (for_do _ _) _ => apply preserves_for_do; intros ? ?
  | |- method _ (if ?b then _ else _) _ => destruct b
  | |- method _ (match ?x with _ => _ end) _ => destruct x
  | |- method _ (let '_ := ?x in _) _ => destruct x
  | |- method _ (cl_modify _) _ => apply preserves_modify; intros ? ?
  end; eauto with client.

(** ** The tables *)

Definition writable (partitions : topic_partitions) : list Z :=
  map fst (List.filter (fun p => negb (pm_err (snd p) =? ErrLeaderNotAvailable)) partitions).

(** Maps are in key order; a broker is registered under its id and a partition under its own;
    the cached partitions of a topic that has metadata are those of the metadata. *)
Record client_ok (c : Client) : Prop := {
  brokers_sorted : map_sorted (c_brokers c);
  brokers_keys : forall id b, map_find id (c_brokers c) = Some b -> b_id b = id;
  metadata_sorted : map_sorted (c_metadata c);
  topics_sorted : map_sorted (c_metadata_topics c);
  cached_sorted : map_sorted (c_cached_partitions_results c);
  partitions_ok : forall t ps, map_find t (c_metadata c) = Some ps ->
    map_sorted ps /\ ps <> [] /\ (forall id p, map_find id ps = Some p -> pm_id p = id) /\
    map_find t (c_cached_partitions_results c) = Some (map fst ps, writable ps)
}.

(** *** Brokers *)

Definition put (brokers : list (Z * broker)) (b : broker) : list (Z * broker) :=
  match map_find (b_id b) brokers with
  | None => map_assign (b_id b) b brokers
  | Some old => if negb (bool_decide (b_addr b = b_addr old)) then map_assign (b_id b) b brokers else brokers
  end.
Definition brokers_ok (brokers : list (Z * broker)) : Prop :=
  map_sorted brokers /\ forall id b, map_find id brokers = Some b -> b_id b = id.

Lemma brokers_ok_assign brokers b : brokers_ok brokers -> brokers_ok (map_assign (b_id b) b brokers).
Proof.
  intros [Hs Hk]. split; [by apply map_assign_sorted|]. intros id x. rewrite map_find_assign.
  destruct (key_compare id (b_id b)) eqn:Ec; [|apply Hk..]. apply key_compare_eq in Ec as ->. by intros [= ->].
Qed.
Lemma brokers_ok_put brokers b : brokers_ok brokers -> brokers_ok (put brokers b).
Proof.
  intros H. unfold put. destruct (map_find _ _); [|by apply brokers_ok_assign].
  destruct (negb _); [by apply brokers_ok_assign|done].
Qed.
Lemma brokers_ok_erase brokers id : brokers_ok brokers -> brokers_ok (map_erase id brokers).
Proof.
  intros [Hs Hk]. split; [by apply map_erase_sorted|]. intros id' x Hx. apply Hk.
  destruct (decide (id' = id)) as [->|Hne]; [by rewrite map_find_erase_eq in Hx|by rewrite map_find_erase_ne in Hx].
Qed.
Lemma client_ok_brokers brokers c : client_ok c -> brokers_ok brokers -> client_ok (with_brokers brokers c).
Proof. intros [] [Hs Hk]. by constructor. Qed.
Lemma client_brokers_ok c : client_ok c -> brokers_ok (c_brokers c).
Proof. by intros []. Qed.
Lemma client_ok_seeds seeds dead c : client_ok c -> client_ok (with_seeds seeds dead c).
Proof. by intros []; constructor. Qed.
Lemma client_ok_refresher r c : client_ok c -> client_ok (with_refresher r c).
Proof. by intros []; constructor. Qed.
Lemma client_ok_ms t c : client_ok c -> client_ok (with_update_ms t c).
Proof. by intros []; constructor. Qed.
Lemma client_ok_controller t c : client_ok c -> client_ok (with_controller t c).
Proof. by intros []; constructor. Qed.
Lemma client_ok_coordinators g t c : client_ok c -> client_ok (with_coordinators g t c).
Proof. by intros []; constructor. Qed.
Lemma client_ok_cleared cached c :
  client_ok c -> map_sorted cached -> client_ok (with_metadata [] [] cached c).
Proof. intros [] Hs. by constructor. Qed.
#[export] Hint Resolve client_ok_seeds client_ok_refresher client_ok_ms client_ok_controller client_ok_coordinators
  brokers_ok_erase client_brokers_ok client_ok_brokers cached_sorted : client.

Section Tables.
Context {E : Type} {network : Brokers E}.
Context (config : ClientConfig).
Abbreviation CM := (M (Client * E)).

Lemma put_broker_run b (c : Client) (e : E) :
  exists e', put_broker b (c, e) = Done tt (with_brokers (put (c_brokers c) b) c, e').
Proof.
  unfold put_broker, put, bind, cl_gets. cbn [fst]. destruct (map_find (b_id b) (c_brokers c)) as [old|]; [|by eexists].
  destruct (negb _); [by eexists|]. exists e. by destruct c.
Qed.
Lemma put_brokers_run l (c : Client) (e : E) :
  exists e', for_do l put_broker (c, e) = Done tt (with_brokers (fold_left put l (c_brokers c)) c, e').
Proof.
  revert c e. induction l as [|b l IH]; intros c e; cbn [for_do]; [exists e; by destruct c|].
  destruct (put_broker_run b c e) as [e1 E1]. unfold bind. rewrite E1.
  destruct (IH (with_brokers (put (c_brokers c) b) c) e1) as [e2 E2]. by exists e2.
Qed.
Definition listed (l : list broker) (id : Z) : bool := existsb (fun b => b_id b =? id) l.
Definition drop_unlisted (l : list broker) (keys : list (Z * broker)) (brokers : list (Z * broker)) : list (Z * broker) :=
  fold_left (fun m p => if listed l (fst p) then m else map_erase (fst p) m) keys brokers.
Lemma drop_unlisted_run l keys (c : Client) (e : E) :
  exists e',
    for_do keys (fun p => if existsb (fun b => b_id b =? fst p) l then ret tt
      else cl_call_ (SafeAsyncClose (snd p)) ;;;
           cl_modify (fun c => with_brokers (map_erase (fst p) (c_brokers c)) c)) (c, e) =
    Done tt (with_brokers (drop_unlisted l keys (c_brokers c)) c, e').
Proof.
  revert c e. induction keys as [|p keys IH]; intros c e; cbn [for_do]; [exists e; by destruct c|].
  unfold bind at 1. unfold drop_unlisted. cbn [fold_left]. fold (listed l (fst p)).
  destruct (listed l (fst p)); [apply IH|].
  destruct (IH (with_brokers (map_erase (fst p) (c_brokers c)) c) (SafeAsyncClose (snd p) e)) as [e' E']. by exists e'.
Qed.
Definition updated_brokers (l : list broker) (brokers : list (Z * broker)) : list (Z * broker) :=
  drop_unlisted l (fold_left put l brokers) (fold_left put l brokers).
Lemma UpdateBroker_run l (c : Client) (e : E) :
  exists e', UpdateBroker l (c, e) = Done tt (with_brokers (updated_brokers l (c_brokers c)) c, e').
Proof.
  unfold UpdateBroker, bind at 1. destruct (put_brokers_run l c e) as [e1 ->].
  unfold bind, cl_gets. cbn [fst c_brokers with_brokers].
  destruct (drop_unlisted_run l (fold_left put l (c_brokers c)) (with_brokers (fold_left put l (c_brokers c)) c) e1)
    as [e2 E2]. by exists e2.
Qed.
End Tables.

Lemma drop_unlisted_ok l keys brokers : brokers_ok brokers -> brokers_ok (drop_unlisted l keys brokers).
Proof.
  revert brokers. induction keys as [|p keys IH]; intros brokers H; [done|]. apply IH.
  destruct (listed l (fst p)); [done|by apply brokers_ok_erase].
Qed.
Lemma puts_ok l brokers : brokers_ok brokers -> brokers_ok (fold_left put l brokers).
Proof. revert brokers. induction l as [|b l IH]; intros brokers H; [done|]. by apply IH, brokers_ok_put. Qed.
Lemma updated_brokers_ok l brokers : brokers_ok brokers -> brokers_ok (updated_brokers l brokers).
Proof. intros H. by apply drop_unlisted_ok, puts_ok. Qed.
#[export] Hint Resolve updated_brokers_ok brokers_ok_put : client.

Lemma find_drop_unlisted l id keys brokers :
  map_sorted brokers ->
  map_find id (drop_unlisted l keys brokers) =
    if existsb (fun p => fst p =? id) keys && negb (listed l id) then None else map_find id brokers.
Proof.
  revert brokers. unfold drop_unlisted. induction keys as [|p keys IH]; intros brokers Hs; cbn [fold_left existsb]; [done|].
  destruct (listed l (fst p)) eqn:El.
  - rewrite IH by done. destruct (Z.eqb_spec (fst p) id) as [<-|]; [|done].
    rewrite El. by rewrite !andb_false_r.
  - rewrite IH by by apply map_erase_sorted. destruct (Z.eqb_spec (fst p) id) as [<-|Hne].
    + rewrite El. cbn. rewrite map_find_erase_eq by done. by destruct (existsb _ _).
    + by rewrite map_find_erase_ne by done.
Qed.

(** The last broker of a list with an id *)
Definition latest (l : list broker) (id : Z) : option broker := List.find (fun b => b_id b =? id) (rev l).
Lemma latest_snoc l b id : latest (l ++ [b]) id = if b_id b =? id then Some b else latest l id.
Proof. unfold latest. by rewrite rev_app_distr. Qed.
Lemma listed_snoc l b id : listed (l ++ [b]) id = listed l id || (b_id b =? id).
Proof. unfold listed. rewrite existsb_app. cbn. by rewrite orb_false_r. Qed.
Lemma latest_listed l id : listed l id = bool_decide (is_Some (latest l id)).
Proof.
  induction l as [|b l IH] using rev_ind; [done|]. rewrite listed_snoc, latest_snoc, IH.
  destruct (b_id b =? id); [by rewrite orb_true_r|by rewrite orb_false_r].
Qed.

Lemma find_put brokers b id :
  map_find id (put brokers b) =
    if b_id b =? id then
      Some (match map_find id brokers with
            | Some old => if bool_decide (b_addr b = b_addr old) then old else b
            | None => b
            end)
    else map_find id brokers.
Proof.
  unfold put. destruct (Z.eqb_spec (b_id b) id) as [<-|Hne].
  - destruct (map_find (b_id b) brokers) as [old|] eqn:Eo; [|by rewrite map_find_assign_eq].
    destruct (bool_decide_reflect (b_addr b = b_addr old)); cbn [negb]; [done|by rewrite map_find_assign_eq].
  - destruct (map_find (b_id b) brokers); [destruct (negb _)|]; try done; by rewrite map_find_assign_ne by done.
Qed.

(** What the table holds under an id after all of [l] has been entered *)
Lemma find_puts l brokers id :
  match latest l id with
  | None => map_find id (fold_left put l brokers) = map_find id brokers
  | Some b => exists x, map_find id (fold_left put l brokers) = Some x /\ b_addr x = b_addr b /\
      (x ∈ l \/ map_find id brokers = Some x) /\
      forall old, map_find id brokers = Some old ->
        (forall b', b' ∈ l -> b_id b' = id -> b_addr b' = b_addr old) -> x = old
  end.
Proof.
  induction l as [|b l IH] using rev_ind; [done|]. rewrite latest_snoc, fold_left_app. cbn [fold_left].
  rewrite find_put. destruct (Z.eqb_spec (b_id b) id) as [Hid|Hne].
  - eexists. split; [done|]. destruct (latest l id) as [b0|].
    + destruct IH as (x & -> & Ha & Hx & Hk). destruct (bool_decide_reflect (b_addr b = b_addr x)) as [Eq|Ne].
      * split_and!; [done|destruct Hx; [left; set_solver|by right]|]. intros old Ho Hall. apply Hk; [done|].
        intros b' Hb'. apply Hall. set_solver.
      * split_and!; [done|left; set_solver|]. intros old Ho Hall. destruct Ne.
        rewrite (Hk old) by (done || intros; apply Hall; set_solver). apply Hall; set_solver.
    + rewrite IH. destruct (map_find id brokers) as [old|]; [|split_and!; [done|left; set_solver|done]].
      destruct (bool_decide_reflect (b_addr b = b_addr old)) as [Eq|Ne].
      * split_and!; [done|by right|]. by intros o [= ->].
      * split_and!; [done|left; set_solver|]. intros o [= ->] Hall. destruct Ne. apply Hall; set_solver.
  - destruct (latest l id) as [b0|]; [|done]. destruct IH as (x & -> & Ha & Hx & Hk).
    exists x. split_and!; [done|done|destruct Hx; [left; set_solver|by right]|].
    intros old Ho Hall. apply Hk; [done|]. intros b' Hb'. apply Hall. set_solver.
Qed.

Lemma find_keys id (brokers : list (Z * broker)) :
  map_find id brokers <> None -> existsb (fun p => fst p =? id) brokers = true.
Proof.
  induction brokers as [|[k b] m IH]; [done|]. cbn [map_find existsb fst]. destruct (key_compare id k) eqn:Ec.
  - apply key_compare_eq in Ec as ->. by rewrite Z.eqb_refl.
  - intros H. by rewrite IH, orb_true_r.
  - intros H. by rewrite IH, orb_true_r.
Qed.
Lemma find_updated l brokers id :
  map_sorted brokers ->
  map_find id (updated_brokers l brokers) = if listed l id then map_find id (fold_left put l brokers) else None.
Proof.
  intros Hs. unfold updated_brokers. rewrite find_drop_unlisted.
  - destruct (listed l id); cbn [negb]; rewrite ?andb_false_r, ?andb_true_r; [done|].
    destruct (map_find id (fold_left put l brokers)) eqn:Ef; [by rewrite find_keys by (by rewrite Ef)|by destruct (existsb _ _)].
  - clear id. revert brokers Hs. induction l as [|b l IH]; intros brokers Hs; [done|]. apply IH. unfold put.
    destruct (map_find _ _); [destruct (negb _)|]; try done; by apply map_assign_sorted.
Qed.

(** After an update the registered brokers are exactly those of the response, under their
    ids and with the address of the last entry for the id; a broker whose address has not
    changed keeps its object, and with it its connection, and nothing else of the client
    changes. *)
Theorem UpdateBroker_spec {E} `{Brokers E} l c (e : E) :
  client_ok c ->
  exists c' e', UpdateBroker l (c, e) = Done tt (c', e') /\ c' = with_brokers (c_brokers c') c /\ client_ok c' /\
    forall id, match latest l id with
    | None => map_find id (c_brokers c') = None
    | Some b => exists x, map_find id (c_brokers c') = Some x /\ b_id x = id /\ b_addr x = b_addr b /\
        (x ∈ l \/ map_find id (c_brokers c) = Some x) /\
        forall old, map_find id (c_brokers c) = Some old ->
          (forall b', b' ∈ l -> b_id b' = id -> b_addr b' = b_addr old) -> x = old
    end.
Proof.
  intros Hc. destruct (UpdateBroker_run l c e) as [e' Er]. exists (with_brokers (updated_brokers l (c_brokers c)) c), e'.
  pose proof (updated_brokers_ok l _ (client_brokers_ok c Hc)) as Hb. split; [done|]. split; [done|].
  split; [by apply client_ok_brokers|]. intros id. cbn [c_brokers with_brokers].
  rewrite find_updated, latest_listed by by apply Hc. pose proof (find_puts l (c_brokers c) id) as Hf.
  destruct (latest l id) as [b|] eqn:El; [|done]. destruct Hf as (x & Hx & Ha & Hrest).
  rewrite bool_decide_true by done. exists x. split; [done|]. split; [|done].
  apply (proj2 Hb). rewrite find_updated, latest_listed, El, bool_decide_true by (done || by apply Hc). done.
Qed.

(** *** Topics *)

Definition stores (t : TopicMetadata) : bool := (tm_err t =? ErrNoError) || (tm_err t =? ErrLeaderNotAvailable).
Definition wants_retry (t : TopicMetadata) : bool :=
  (tm_err t =? ErrUnknownTopicOrPartition) || (tm_err t =? ErrLeaderNotAvailable) ||
  ((tm_err t =? ErrNoError) && existsb (fun p => pm_err p =? ErrLeaderNotAvailable) (tm_partitions t)).
(** The partitions of a topic, under their ids *)
Definition partitions_of (t : TopicMetadata) : topic_partitions := map_of (map (fun p => (pm_id p, p)) (tm_partitions t)).

Definition stored_topic (t : TopicMetadata) (c : Client) : Client :=
  let name := tm_name t in
  let c := with_metadata (map_erase name (c_metadata c))
    (if map_count name (c_metadata_topics c) then c_metadata_topics c else map_assign name true (c_metadata_topics c))
    (map_erase name (c_cached_partitions_results c)) c in
  if stores t then
    let metadata := fold_left (fun m p => map_update [] (map_assign (pm_id p) p) name m) (tm_partitions t) (c_metadata c) in
    with_metadata metadata (c_metadata_topics c)
      (map_assign name (_SetPartitionCache name AllPartitions metadata, _SetPartitionCache name WritablePartitions_ metadata)
         (c_cached_partitions_results c)) c
  else c.

Section Topics.
Context {E : Type} {network : Brokers E}.

Lemma update_topic_run retry t (c : Client) (e : E) :
  exists r e', update_topic_metadata retry t (c, e) =
    Done (retry || wants_retry t) (with_refresher r (stored_topic t c), e').
Proof.
  unfold update_topic_metadata, stored_topic, stores, wants_retry. unfold bind at 1, cl_modify at 1. cbn [fst snd].
  destruct (Z.eqb_spec (tm_err t) ErrNoError) as [->|H0].
  - unfold bind at 1, cl_call. cbn [snd fst]. destruct (system_now e) as [now e'] eqn:En.
    change (ErrNoError =? ErrUnknownTopicOrPartition) with false. change (ErrNoError =? ErrLeaderNotAvailable) with false.
    cbn [orb andb]. eexists _, e'. unfold bind, cl_modify, ret. cbn [fst snd]. by destruct c.
  - destruct (Z.eqb_spec (tm_err t) ErrInvalidTopic) as [Ht|H1]; cbn [orb].
    { eexists (c_metadata_refresher c), e. rewrite ?Ht. cbn. rewrite orb_false_r. by destruct c. }
    destruct (Z.eqb_spec (tm_err t) ErrTopicAuthorizationFailed) as [Ht|H2]; cbn [orb].
    { eexists (c_metadata_refresher c), e. rewrite ?Ht. cbn. rewrite orb_false_r. by destruct c. }
    destruct (Z.eqb_spec (tm_err t) ErrUnknownTopicOrPartition) as [Ht|H3]; cbn [orb].
    { eexists (c_metadata_refresher c), e. rewrite ?Ht. cbn. rewrite orb_true_r. by destruct c. }
    destruct (Z.eqb_spec (tm_err t) ErrLeaderNotAvailable) as [Ht|H4]; cbn [orb andb].
    + eexists (c_metadata_refresher c), e. rewrite orb_true_r. unfold bind, cl_modify, ret. cbn [fst snd orb]. by destruct c.
    + eexists (c_metadata_refresher c), e. rewrite orb_false_r. cbn. by destruct c.
Qed.
Lemma stored_refresher t r c : stored_topic t (with_refresher r c) = with_refresher r (stored_topic t c).
Proof. unfold stored_topic. by destruct (stores t). Qed.
Definition stored_topics (l : list TopicMetadata) (c : Client) : Client := fold_left (fun c t => stored_topic t c) l c.
Lemma stored_topics_refresher l r c : stored_topics l (with_refresher r c) = with_refresher r (stored_topics l c).
Proof. revert c. induction l as [|t l IH]; intros c; [done|]. cbn. by rewrite stored_refresher, IH. Qed.
Lemma update_topics_run l retry (c : Client) (e : E) :
  exists r e', update_topics retry l (c, e) = Done (retry || existsb wants_retry l) (with_refresher r (stored_topics l c), e').
Proof.
  revert retry c e. induction l as [|t l IH]; intros retry c e; cbn [update_topics existsb].
  - exists (c_metadata_refresher c), e. rewrite orb_false_r. by destruct c.
  - destruct (update_topic_run retry t c e) as (r & e1 & E1). unfold bind. rewrite E1.
    destruct (IH (retry || wants_retry t) (with_refresher r (stored_topic t c)) e1) as (r2 & e2 & E2).
    exists r2, e2. rewrite E2, stored_topics_refresher, orb_assoc. by destruct (stored_topics _ _).
Qed.
Lemma UpdateMetadata_run data all (c : Client) (e : E) :
  Closed c = false ->
  exists r e', UpdateMetadata data all (c, e) =
    Done (existsb wants_retry (mr_topics data))
      (with_refresher r (stored_topics (mr_topics data)
         (let c := with_controller (mr_controller_id data)
                     (with_brokers (updated_brokers (mr_brokers data) (c_brokers c)) c) in
          if all then with_metadata [] [] [] c else c)), e').
Proof.
  intros Hcl. unfold UpdateMetadata, bind at 1, cl_gets. cbn [fst]. rewrite Hcl.
  destruct (UpdateBroker_run (mr_brokers data) c e) as [e1 E1]. unfold bind at 1. rewrite E1.
  unfold bind at 1, cl_modify at 1. cbn [fst snd]. unfold bind.
  destruct all; unfold cl_modify, ret; cbn [fst snd]; apply (update_topics_run _ false).
Qed.
End Topics.

Definition topic_partitions_ok (ps : topic_partitions) : Prop :=
  map_sorted ps /\ forall id p, map_find id ps = Some p -> pm_id p = id.
Lemma assign_partition_ok p ps : topic_partitions_ok ps -> topic_partitions_ok (map_assign (pm_id p) p ps).
Proof.
  intros [Hs Hk]. split; [by apply map_assign_sorted|]. intros id x. rewrite map_find_assign.
  destruct (key_compare id (pm_id p)) eqn:Ec; [|apply Hk..]. apply key_compare_eq in Ec as ->. by intros [= ->].
Qed.
Definition assign_partitions (l : list PartitionMetadata) (ps : topic_partitions) : topic_partitions :=
  fold_left (fun m p => map_assign (pm_id p) p m) l ps.
Lemma assign_partitions_ok l ps : topic_partitions_ok ps -> topic_partitions_ok (assign_partitions l ps).
Proof. revert ps. induction l as [|p l IH]; intros ps H; [done|]. by apply IH, assign_partition_ok. Qed.
Lemma partitions_of_assign t : partitions_of t = assign_partitions (tm_partitions t) [].
Proof.
  unfold partitions_of, map_of, assign_partitions. generalize (@nil (Z * PartitionMetadata)).
  induction (tm_partitions t) as [|p l IH]; intros m; [done|]. apply IH.
Qed.
Lemma partitions_of_ok t : topic_partitions_ok (partitions_of t).
Proof. rewrite partitions_of_assign. by apply assign_partitions_ok. Qed.
Lemma partitions_of_nil t : partitions_of t = [] <-> tm_partitions t = [].
Proof.
  rewrite partitions_of_assign. destruct (tm_partitions t) as [|p l] using rev_ind; [done|].
  unfold assign_partitions. rewrite fold_left_app. cbn [fold_left].
  split; [intros H; by apply map_assign_ne in H|intros H; by destruct l].
Qed.

Definition stored_metadata (name : topic_name) (l : list PartitionMetadata) (m : list (topic_name * topic_partitions)) :=
  fold_left (fun m p => map_update [] (map_assign (pm_id p) p) name m) l m.
Lemma stored_metadata_sorted name l m : map_sorted m -> map_sorted (stored_metadata name l m).
Proof. revert m. induction l as [|p l IH]; intros m H; [done|]. by apply IH, map_update_sorted. Qed.
Lemma find_stored name l m t :
  map_find t (stored_metadata name l m) =
    if bool_decide (t = name) && negb (no_elements l)
    then Some (assign_partitions l (default [] (map_find name m))) else map_find t m.
Proof.
  revert m. induction l as [|p l IH]; intros m; cbn [no_elements negb]; rewrite ?andb_false_r; [done|].
  unfold stored_metadata. cbn [fold_left]. fold (stored_metadata name l (map_update [] (map_assign (pm_id p) p) name m)).
  rewrite IH, map_find_update_eq. destruct (bool_decide_reflect (t = name)) as [Ht|Hne]; cbn [andb].
  - subst t. destruct l as [|p2 l]; cbn [no_elements negb]; [|done]. by rewrite map_find_update_eq.
  - by rewrite map_find_update_ne by done.
Qed.

Lemma filter_all {A} (f : A -> bool) l : (forall x, f x = true) -> List.filter f l = l.
Proof. intros H. induction l as [|x l IH]; cbn; [done|]. by rewrite H, IH. Qed.
Lemma partition_cache name m :
  (_SetPartitionCache name AllPartitions m, _SetPartitionCache name WritablePartitions_ m) =
    (map fst (default [] (map_find name m)), writable (default [] (map_find name m))).
Proof.
  unfold _SetPartitionCache, writable, AllPartitions, WritablePartitions_. destruct (map_find name m); [|done].
  cbn [default]. change (0 =? 1) with false. change (1 =? 1) with true. cbn [andb negb]. by rewrite (filter_all (fun _ => true)).
Qed.

(** What a topic's entry in the two tables becomes *)
Definition topic_entry (t : TopicMetadata) : option topic_partitions :=
  if stores t && negb (no_elements (tm_partitions t)) then Some (partitions_of t) else None.
Definition cache_entry (t : TopicMetadata) : option (list Z * list Z) :=
  if stores t then Some (map fst (partitions_of t), writable (partitions_of t)) else None.

Lemma find_stored_topic tp c t : client_ok c ->
  map_find t (c_metadata (stored_topic tp c)) =
    (if bool_decide (t = tm_name tp) then topic_entry tp else map_find t (c_metadata c)) /\
  map_find t (c_cached_partitions_results (stored_topic tp c)) =
    (if bool_decide (t = tm_name tp) then cache_entry tp else map_find t (c_cached_partitions_results c)) /\
  map_count t (c_metadata_topics (stored_topic tp c)) =
    (bool_decide (t = tm_name tp) || map_count t (c_metadata_topics c)).
Proof.
  intros Hc. unfold stored_topic, topic_entry, cache_entry. set (name := tm_name tp).
  assert (map_find name (map_erase name (c_metadata c)) = None) as En by (apply map_find_erase_eq; by apply Hc).
  assert (map_find name (map_erase name (c_cached_partitions_results c)) = None) as Ec
    by (apply map_find_erase_eq; by apply Hc).
  assert (map_count t (if map_count name (c_metadata_topics c) then c_metadata_topics c
                       else map_assign name true (c_metadata_topics c)) =
          bool_decide (t = name) || map_count t (c_metadata_topics c)) as Et.
  { destruct (map_count name (c_metadata_topics c)) eqn:Ek.
    - destruct (bool_decide_reflect (t = name)) as [->|]; [by rewrite Ek|done].
    - unfold map_count at 1. rewrite map_find_assign. destruct (bool_decide_reflect (t = name)) as [->|Hne].
      + by rewrite key_compare_refl.
      + destruct (key_compare t name) eqn:E2; try done. by apply key_compare_eq in E2. }
  destruct (stores tp); cbn [andb c_metadata c_cached_partitions_results c_metadata_topics with_metadata].
  - fold (stored_metadata name (tm_partitions tp) (map_erase name (c_metadata c))).
    rewrite partition_cache, !find_stored, En. cbn [default]. rewrite (bool_decide_true (name = name)) by done. cbn [andb].
    rewrite map_find_assign.
    assert ((if negb (no_elements (tm_partitions tp)) then Some (assign_partitions (tm_partitions tp) []) else None) =
            if negb (no_elements (tm_partitions tp)) then Some (partitions_of tp) else None) as Ep
      by (by rewrite partitions_of_assign).
    assert (default [] (if negb (no_elements (tm_partitions tp)) then Some (partitions_of tp) else None) = partitions_of tp) as Ed.
    { pose proof (proj2 (partitions_of_nil tp)) as Hn. destruct (tm_partitions tp); cbn; [|done]. by rewrite Hn. }
    rewrite Ep, Ed, Et. destruct (bool_decide_reflect (t = name)) as [->|Hne]; cbn [andb].
    + rewrite key_compare_refl, En. by destruct (negb _).
    + rewrite !map_find_erase_ne by done. destruct (key_compare t name) eqn:E2; [by apply key_compare_eq in E2|done..].
  - rewrite Et. destruct (bool_decide_reflect (t = name)) as [->|Hne]; [by rewrite En, Ec|].
    by rewrite !map_find_erase_ne by done.
Qed.

Lemma stored_topic_ok tp c : client_ok c -> client_ok (stored_topic tp c).
Proof.
  intros Hc. assert (c_brokers (stored_topic tp c) = c_brokers c) as Eb by (unfold stored_topic; by destruct (stores tp)).
  constructor; rewrite ?Eb.
  - apply Hc.
  - apply Hc.
  - unfold stored_topic. destruct (stores tp); cbn; [apply (stored_metadata_sorted (tm_name tp))|]; by apply map_erase_sorted, Hc.
  - unfold stored_topic. destruct (stores tp); cbn; (destruct (map_count _ _); [|apply map_assign_sorted]; apply Hc).
  - unfold stored_topic. destruct (stores tp); cbn; [apply map_assign_sorted|]; by apply map_erase_sorted, Hc.
  - intros t ps. destruct (find_stored_topic tp c t Hc) as (-> & -> & _).
    destruct (bool_decide_reflect (t = tm_name tp)) as [->|Hne]; [|apply Hc].
    unfold topic_entry, cache_entry. destruct (stores tp); cbn [andb]; [|done].
    destruct (no_elements (tm_partitions tp)) eqn:En; cbn [negb]; [done|]. intros [= <-].
    destruct (partitions_of_ok tp). split_and!; try done. intros Hp%partitions_of_nil. by rewrite Hp in En.
Qed.
Lemma stored_topics_ok l c : client_ok c -> client_ok (stored_topics l c).
Proof. revert c. induction l as [|t l IH]; intros c H; [done|]. by apply IH, stored_topic_ok. Qed.

(** The last entry of a response for a topic *)
Definition latest_topic (l : list TopicMetadata) (name : topic_name) : option TopicMetadata :=
  List.find (fun t => bool_decide (tm_name t = name)) (rev l).
Lemma find_stored_topics l c t : client_ok c ->
  match latest_topic l t with
  | Some tp =>
      map_find t (c_metadata (stored_topics l c)) = topic_entry tp /\
      map_find t (c_cached_partitions_results (stored_topics l c)) = cache_entry tp /\
      map_count t (c_metadata_topics (stored_topics l c)) = true
  | None =>
      map_find t (c_metadata (stored_topics l c)) = map_find t (c_metadata c) /\
      map_find t (c_cached_partitions_results (stored_topics l c)) = map_find t (c_cached_partitions_results c) /\
      map_count t (c_metadata_topics (stored_topics l c)) = map_count t (c_metadata_topics c)
  end.
Proof.
  intros Hc. induction l as [|tp l IH] using rev_ind; [done|].
  unfold stored_topics. rewrite fold_left_app. cbn [fold_left]. fold (stored_topics l c).
  destruct (find_stored_topic tp (stored_topics l c) t (stored_topics_ok l c Hc)) as (-> & -> & ->).
  unfold latest_topic in *. rewrite rev_app_distr. cbn [rev app List.find].
  destruct (bool_decide_reflect (tm_name tp = t)) as [<-|Hne].
  - by rewrite bool_decide_true by done.
  - by rewrite bool_decide_false by done.
Qed.

(** C8: What a client that is not closed makes of a metadata response: the brokers are those of
    the response; a topic of the response has the partitions of its last entry, each under its
    id, if that entry reports no error or a missing leader, and none otherwise, and the cached
    lists of partitions are computed from it; every other topic keeps what it had, or is
    forgotten when the response is about all topics.  The caller is to try again exactly when a
    topic is unknown or a leader is missing. *)
Theorem UpdateMetadata_spec {E} `{Brokers E} data all c (e : E) :
  client_ok c -> Closed c = false ->
  exists c' e', UpdateMetadata data all (c, e) = Done (existsb wants_retry (mr_topics data)) (c', e') /\ client_ok c' /\
    c_controller_id c' = mr_controller_id data /\
    c_brokers c' = updated_brokers (mr_brokers data) (c_brokers c) /\
    c_seed_brokers c' = c_seed_brokers c /\ c_dead_seeds c' = c_dead_seeds c /\
    forall t, match latest_topic (mr_topics data) t with
    | Some tp =>
        map_find t (c_metadata c') = topic_entry tp /\
        map_find t (c_cached_partitions_results c') = cache_entry tp /\
        map_count t (c_metadata_topics c') = true
    | None =>
        map_find t (c_metadata c') = (if all then None else map_find t (c_metadata c)) /\
        map_find t (c_cached_partitions_results c') = (if all then None else map_find t (c_cached_partitions_results c)) /\
        map_count t (c_metadata_topics c') = (if all then false else map_count t (c_metadata_topics c))
    end.
Proof.
  intros Hc Hcl. destruct (UpdateMetadata_run data all c e Hcl) as (r & e' & Er). eexists _, e'. split; [exact Er|].
  set (c1 := with_controller _ _). set (c2 := if all then with_metadata [] [] [] c1 else c1).
  assert (client_ok c1) as H1.
  { apply client_ok_controller, client_ok_brokers; [done|]. by apply updated_brokers_ok, client_brokers_ok. }
  assert (client_ok c2) as H2 by (unfold c2; destruct all; [by apply client_ok_cleared|done]).
  assert (forall l c, c_controller_id (stored_topics l c) = c_controller_id c /\ c_brokers (stored_topics l c) = c_brokers c /\
    c_seed_brokers (stored_topics l c) = c_seed_brokers c /\ c_dead_seeds (stored_topics l c) = c_dead_seeds c) as Hkeep.
  { induction l as [|t l IH]; intros c0; [done|]. destruct (IH (stored_topic t c0)) as (E1 & E2 & E3 & E4).
    change (stored_topics (t :: l) c0) with (stored_topics l (stored_topic t c0)). rewrite E1, E2, E3, E4.
    unfold stored_topic. by destruct (stores t). }
  destruct (Hkeep (mr_topics data) c2) as (K1 & K2 & K3 & K4).
  cbn [c_controller_id c_brokers c_seed_brokers c_dead_seeds with_refresher c_metadata c_cached_partitions_results c_metadata_topics].
  rewrite K1, K2, K3, K4. split; [by apply client_ok_refresher, stored_topics_ok|].
  unfold c2 at 1 2 3 4. split_and!; try by destruct all.
  intros t. pose proof (find_stored_topics (mr_topics data) c2 t H2) as Hf.
  destruct (latest_topic (mr_topics data) t); [done|]. destruct Hf as (-> & -> & ->). unfold c2. by destruct all.
Qed.

(** ** Methods that keep the tables *)

(** What a refresh needs of a property of clients that it is to keep *)
Class Refreshable {E} `{Brokers E} (P : Client -> Prop) : Prop := {
  keeps_update data all : preserves P (UpdateMetadata (E := E) data all);
  keeps_deregister b : preserves P (DeregisterBroker (E := E) b);
  keeps_dead_seed seed seeds c : P c -> c_seed_brokers c = seed :: seeds -> P (with_seeds seeds (c_dead_seeds c ++ [seed]) c);
  keeps_ms t c : P c -> P (with_update_ms t c);
  keeps_refresher r c : P c -> P (with_refresher r c)
}.

Section Refresh.
Context {E : Type} {network : Brokers E}.
Context (config : ClientConfig).
Section Kept.
Context (P : Client -> Prop) {kept : Refreshable (E := E) P}.

Lemma preserves_least_loaded b : preserves P (LeastLoadedBroker (E := E) b).
Proof.
  unfold LeastLoadedBroker. apply method_seq; [auto with client|]. intros brokers.
  apply method_seq; [walk|]. intros err. destruct (_ && _); [auto with client|].
  eapply method_bind; [apply method_gets|]. intros seeds. destruct seeds as [|seed seeds].
  - apply method_ret. by intros c [].
  - eapply method_bind; [apply preserves_call|]. intros err2. destruct (negb _).
    + eapply (method_bind _ (fun _ => P)).
      * intros s [Hs Heq]. cbn. by apply keeps_dead_seed.
      * intros _. apply preserves_ret.
    + apply method_ret. by intros c [].
Qed.
Lemma preserves_drop_broker b : preserves P (drop_broker (E := E) b).
Proof. unfold drop_broker. walk. apply keeps_deregister. Qed.
Lemma preserves_past deadline backoff : preserves P (PastDeadline (E := E) deadline backoff).
Proof. unfold PastDeadline. walk. Qed.
Hint Resolve preserves_least_loaded preserves_drop_broker preserves_past keeps_update : client.

Lemma preserves_retry try_again n deadline err :
  (forall m, try_again = Some m -> preserves P m) ->
  preserves P (RetryRefreshMetadata (E := E) config try_again n deadline err).
Proof. intros H. unfold RetryRefreshMetadata. destruct try_again; walk. Qed.
Lemma preserves_refresh_loop fuel topics deadline retry b :
  (forall err, preserves P (retry err)) -> preserves P (refresh_loop (E := E) config fuel topics deadline retry b).
Proof. intros H. revert b. induction fuel as [|fuel IH]; intros b; cbn [refresh_loop]; walk. by apply keeps_ms. Qed.
Lemma preserves_try fuel n topics deadline : preserves P (TryRefreshMetadata (E := E) config fuel n topics deadline).
Proof.
  induction n as [|n IH]; cbn [TryRefreshMetadata]; apply preserves_refresh_loop; intros err; apply preserves_retry; [done|].
  by intros m [= <-].
Qed.
Hint Resolve preserves_try : client.
Lemma preserves_refresh fuel topics : preserves P (RefreshMetadata (E := E) config fuel topics).
Proof.
  unfold RefreshMetadata, _RefreshMetadata. walk. intros s Hs. destruct (add_topics _ _ _). cbn. by apply keeps_refresher.
Qed.
Lemma preserves_metadata_refresh fuel topics : preserves P (MetadataRefresh (E := E) config fuel topics).
Proof. unfold MetadataRefresh. walk. Qed.
Hint Resolve preserves_refresh : client.
Lemma preserves_refresh_all fuel : preserves P (RefreshMetadata_all (E := E) config fuel).
Proof. unfold RefreshMetadata_all. walk. Qed.
End Kept.
End Refresh.
#[export] Hint Resolve preserves_least_loaded preserves_drop_broker preserves_past preserves_try preserves_refresh
  preserves_metadata_refresh preserves_refresh_all : client.

Section Invariant.
Context {E : Type} {network : Brokers E}.

Lemma update_metadata_ok data all : preserves client_ok (UpdateMetadata (E := E) data all).
Proof.
  intros [c e] Hc. cbn [fst] in Hc. destruct (Closed c) eqn:Hcl.
  - unfold UpdateMetadata, bind, cl_gets. cbn [fst]. by rewrite Hcl.
  - destruct (UpdateMetadata_run data all c e Hcl) as (r & e' & ->). cbn [fst].
    apply client_ok_refresher, stored_topics_ok.
    assert (client_ok (with_controller (mr_controller_id data)
      (with_brokers (updated_brokers (mr_brokers data) (c_brokers c)) c))) as H1.
    { apply client_ok_controller, client_ok_brokers; [done|]. by apply updated_brokers_ok, client_brokers_ok. }
    destruct all; [by apply client_ok_cleared|done].
Qed.
Lemma deregister_ok b : preserves client_ok (DeregisterBroker (E := E) b).
Proof.
  apply preserves_modify. intros c Hc. destruct (map_find _ _); [eauto with client|].
  destruct (c_seed_brokers c); [done|]. destruct (same_broker _ _); eauto with client.
Qed.
#[export] Instance client_ok_refreshable : Refreshable (E := E) client_ok.
Proof. constructor; [apply update_metadata_ok|apply deregister_ok|eauto with client..]. Qed.
End Invariant.
#[export] Hint Resolve client_ok_refreshable : client.

(** ** Queries *)

Section Queries.
Context {E : Type} {network : Brokers E}.
Context (config : ClientConfig).

(** A leader that is handed out is the registered broker that the metadata name. *)
Definition leader_answer (topic : topic_name) (partition_id : Z) (r : Z * option broker * Z) (c : Client) : Prop :=
  fst (fst r) = 0 -> exists m b, partition_metadata c topic partition_id = Some m /\
    pm_err m <> ErrLeaderNotAvailable /\ map_find (pm_leader m) (c_brokers c) = Some b /\
    snd (fst r) = Some b /\ snd r = pm_leader_epoch m.
Lemma cached_leader_answer P topic partition_id b :
  method P (_CachedLeader (E := E) topic partition_id b) (fun r c => P c /\ leader_answer topic partition_id r c).
Proof.
  intros [c e] Hs. unfold _CachedLeader, bind at 1, cl_gets. cbn [fst].
  destruct (partition_metadata c topic partition_id) as [m|] eqn:Em; [|by split].
  destruct (Z.eqb_spec (pm_err m) ErrLeaderNotAvailable) as [|Hl]; [by split|].
  destruct (map_find (pm_leader m) (c_brokers c)) as [x|] eqn:Ex; [|by split].
  unfold bind, cl_call. cbn [fst snd]. destruct (Open x e) as [err e']. destruct (negb (err =? 0)); [by split|].
  split; [done|]. intros _. by exists m, x.
Qed.
Lemma leader_and_epoch_answer P `{!Refreshable (E := E) P} fuel topic partition_id b epoch :
  method P (LeaderAndEpoch config fuel topic partition_id b epoch) (fun r c => P c /\ leader_answer topic partition_id r c).
Proof.
  unfold LeaderAndEpoch. apply method_seq; [auto with client|]. intros []; [apply method_ret; by split|].
  eapply method_bind; [apply cached_leader_answer|]. intros [[err l] ep].
  destruct (negb (err =? 0)); [|by apply method_ret].
  apply (method_pre P); [|by intros c []]. apply method_seq; [auto with client|]. intros err2.
  destruct (Z.eqb_spec err2 0) as [|Hne]; cbn [negb]; [apply cached_leader_answer|].
  apply method_ret. intros c Hp; by split; [|intros H0].
Qed.
Lemma leader_some P `{!Refreshable (E := E) P} fuel topic partition_id b :
  method P (Leader config fuel topic partition_id b) (fun r c => P c /\ (fst r = 0 -> is_Some (snd r))).
Proof.
  unfold Leader. eapply method_bind; [by apply leader_and_epoch_answer|]. intros [[err l] ep].
  apply method_ret. intros c [Hp Ha]. split; [done|]. intros H0. destruct (Ha H0) as (m & x & _ & _ & _ & Hx & _).
  cbn in *. by rewrite Hx.
Qed.

Definition replica_answer (topic : topic_name) (partition_id : Z) (r : Z * option PartitionMetadata) (c : Client) : Prop :=
  fst r = 0 -> exists m, snd r = Some m /\ partition_metadata c topic partition_id = Some m.
Lemma get_replicas_answer P `{!Refreshable (E := E) P} fuel topic partition_id :
  method P (_GetReplicas config fuel topic partition_id) (fun r c => P c /\ replica_answer topic partition_id r c).
Proof.
  unfold _GetReplicas. apply method_seq; [auto with client|]. intros []; [apply method_ret; by split|].
  eapply method_bind; [apply method_gets|]. intros [m|].
  - apply method_ret. intros c [Hp Hm]. split; [done|]. intros _. by exists m.
  - apply (method_pre P); [|by intros c []]. apply method_seq; [auto with client|]. intros err.
    destruct (Z.eqb_spec err 0) as [|Hne]; cbn [negb]; [|apply method_ret; intros c Hp; by split; [|intros H0]].
    eapply method_bind; [apply method_gets|]. intros out. apply method_ret. intros c [Hp ->]. split; [done|].
    unfold replica_answer, _CachedMetadata. cbn [fst snd]. destruct (partition_metadata c topic partition_id); [by eexists|done].
Qed.
Lemma replicas_answer P `{!Refreshable (E := E) P} part fuel topic partition_id out :
  method P (replicas_part config part fuel topic partition_id out)
    (fun r c => P c /\ (fst r = 0 -> exists m, partition_metadata c topic partition_id = Some m /\ snd r = part m)).
Proof.
  unfold replicas_part. eapply method_bind; [by apply get_replicas_answer|]. intros [err m].
  destruct (Z.eqb_spec err 0) as [->|Hne]; cbn [negb].
  - intros [c e] [Hp Ha]. destruct (Ha eq_refl) as (x & Hx & Hm). cbn [snd] in Hx. subst m. cbn. split; [done|]. intros _. by exists x.
  - apply method_ret. intros c []. by split.
Qed.

Lemma get_partitions_answer P `{!Refreshable (E := E) P} fuel topic partition_id :
  method P (_GetPartitions config fuel topic partition_id)
    (fun r c => P c /\ (fst r = 0 -> snd r <> [] /\ snd r = _CachedPartitions topic partition_id c)).
Proof.
  assert (method P (let* partitions := cl_gets (E := E) (_CachedPartitions topic partition_id) in
      ret (if no_elements partitions then ErrUnknownTopicOrPartition else 0, partitions))
    (fun r c => P c /\ (fst r = 0 -> snd r <> [] /\ snd r = _CachedPartitions topic partition_id c))) as Hans.
  { eapply method_bind; [apply method_gets|]. intros l. apply method_ret. intros c [Hp ->]. split; [done|].
    cbn [fst snd]. by destruct (_CachedPartitions topic partition_id c). }
  unfold _GetPartitions. apply method_seq; [auto with client|]. intros []; [apply method_ret; by split|].
  apply method_seq; [auto with client|]. intros l. destruct (no_elements l); [|exact Hans].
  apply method_seq; [auto with client|]. intros err.
  destruct (Z.eqb_spec err 0) as [|Hne]; cbn [negb]; [exact Hans|]. apply method_ret. by split.
Qed.
End Queries.

(** ** Every method *)

(** A coordinator response without an error names a broker. *)
Definition coordinators_named {E} `{Brokers E} : Prop :=
  forall b q e, let r := fst (exchange_FindCoordinator b q e) in
    fst r = 0 -> fr_err (snd r) = ErrNoError -> fr_coordinator (snd r) <> None.

Section Methods.
Context {E : Type} {network : Brokers E}.
Context (config : ClientConfig).

Lemma put_broker_ok b : preserves client_ok (put_broker (E := E) b).
Proof.
  intros [c e] Hc. destruct (put_broker_run b c e) as [e' ->]. cbn [fst] in *.
  by apply client_ok_brokers, brokers_ok_put, client_brokers_ok.
Qed.
Lemma register_ok b : preserves client_ok (RegisterBroker (E := E) b).
Proof. unfold RegisterBroker. walk. apply put_broker_ok. Qed.
Lemma resurrect_ok : preserves client_ok (ResurrectDeadBrokers (E := E)).
Proof. unfold ResurrectDeadBrokers. walk. Qed.
Lemma randomize_ok addrs : preserves client_ok (RandomizeSeedBrokers (E := E) addrs).
Proof. unfold RandomizeSeedBrokers. walk. Qed.
Hint Resolve register_ok resurrect_ok randomize_ok deregister_ok update_metadata_ok : client.

Lemma refresh_brokers_ok addrs : preserves client_ok (RefreshBrokers (E := E) addrs).
Proof. unfold RefreshBrokers. walk. by apply client_ok_brokers. Qed.
Lemma close_ok : preserves client_ok (Client_Close (E := E)).
Proof.
  unfold Client_Close. walk. apply client_ok_cleared; [|by apply cached_sorted].
  by apply client_ok_brokers; [apply client_ok_seeds|].
Qed.
Lemma deregister_controller_ok : preserves client_ok (DeregisterController (E := E)).
Proof.
  unfold DeregisterController. eapply method_bind; [apply method_gets|]. intros c0.
  destruct (map_find _ _) as [b|].
  - eapply method_bind; [apply preserves_call_|]. intros _ [c e] [Hc ->]. cbn. cbn [fst] in *. eauto with client.
  - apply method_ret. by intros c [].
Qed.
Lemma open_or_ok P code b : preserves P (open_or (E := E) code b).
Proof. unfold open_or. walk. Qed.
Hint Resolve deregister_controller_ok open_or_ok : client.
Lemma controller_ok fuel : preserves client_ok (Controller config fuel).
Proof. unfold Controller. walk. Qed.
Lemma refresh_controller_ok fuel : preserves client_ok (RefreshController config fuel).
Proof. unfold RefreshController. walk. Qed.
Lemma get_broker_ok id : preserves client_ok (GetBroker (E := E) id).
Proof. unfold GetBroker. walk. Qed.
Lemma get_offset__ok fuel topic partition_id timestamp : preserves client_ok (_GetOffset config fuel topic partition_id timestamp).
Proof.
  unfold _GetOffset. eapply method_bind; [apply (leader_some config client_ok)|]. intros [err l].
  destruct (Z.eqb_spec err 0) as [->|Hne]; cbn [negb]; [|apply method_ret; by intros c []].
  destruct l as [b|].
  - apply (method_pre client_ok); [|by intros c []]. walk.
  - intros s [_ Hs]. by destruct (Hs eq_refl).
Qed.
Hint Resolve get_offset__ok : client.
Lemma get_offset_ok fuel topic partition_id timestamp : preserves client_ok (GetOffset config fuel topic partition_id timestamp).
Proof. unfold GetOffset. walk. Qed.
Lemma producer_ok fuel : preserves client_ok (Client_InitProducerID (E := E) fuel).
Proof.
  unfold Client_InitProducerID. generalize (@None broker). induction fuel as [|fuel IH]; intros b; cbn [producer_loop]; walk.
Qed.
Lemma wait_ok fuel topic l : preserves client_ok (wait_for_topic config fuel topic l).
Proof.
  unfold wait_for_topic. eapply method_bind; [apply (leader_some config client_ok)|]. intros r.
  apply (method_pre client_ok); [|by intros c []]. walk.
Qed.
Hint Resolve wait_ok : client.

Definition coordinator_found (r : Z * FindCoordinatorResponse) (c : Client) : Prop :=
  client_ok c /\ (fst r = 0 -> fr_coordinator (snd r) <> None).
Lemma coordinator_loop_ok fuel key type retry response b : coordinators_named ->
  (forall err r, err <> 0 -> method client_ok (retry err r) coordinator_found) ->
  method client_ok (coordinator_loop config fuel key type retry response b) coordinator_found.
Proof.
  intros Hn Hretry. revert b. induction fuel as [|fuel IH]; intros b; cbn [coordinator_loop]; [apply method_diverge|].
  apply method_seq; [auto with client|]. intros got. destruct (snd got) as [b1|].
  2: { apply method_seq; [auto with client|]. intros _. by apply Hretry. }
  eapply method_bind; [apply method_call|]. intros [err answered]. apply method_fact. intros [e He].
  pose proof (Hn b1 (mkFindCoordinatorRequest (coordinator_version config) key type) e) as Hr.
  rewrite <- He in Hr. cbn [fst snd] in Hr.
  destruct (Z.eqb_spec err 0) as [->|Hne]; cbn [negb].
  2: { apply method_seq; [auto with client|]. intros _. apply IH. }
  destruct (Z.eqb_spec (fr_err answered) ErrNoError) as [H0|H0].
  { apply method_ret. intros c2 Hc2. split; [done|]. intros _. by apply Hr. }
  destruct (fr_err answered =? ErrConsumerCoordinatorNotAvailable).
  { apply method_seq; [auto with client|]. intros l. apply method_seq; [walk|]. intros _. by apply Hretry. }
  destruct (fr_err answered =? ErrGroupAuthorizationFailed); [by apply Hretry|].
  apply method_ret. intros c2 Hc2. split; [done|]. by intros H.
Qed.
Lemma find_coordinator_ok fuel n key type response : coordinators_named ->
  method client_ok (FindCoordinator config fuel n key type response) coordinator_found.
Proof.
  intros Hn. revert response. induction n as [|n IH]; intros response; cbn [FindCoordinator];
    apply coordinator_loop_ok; try done; intros err r Herr; cbv beta iota.
  apply method_seq; [auto with client|]. intros _. apply IH.
Qed.
Lemma refresh_coordinator_ok fuel key type note :
  coordinators_named -> (forall id c, client_ok c -> client_ok (note id c)) ->
  preserves client_ok (refresh_coordinator config fuel key type note).
Proof.
  intros Hn Hnote. unfold refresh_coordinator. apply preserves_unless_closed.
  eapply method_bind; [by apply find_coordinator_ok|]. intros [err response].
  destruct (Z.eqb_spec err 0) as [->|Hne]; cbn [negb]; [|apply method_ret; by intros c []].
  destruct (fr_coordinator response) as [b|] eqn:Eb.
  - apply (method_pre client_ok); [|by intros c []]. walk.
  - intros s [_ Hs]. by destruct (Hs eq_refl).
Qed.
(** A coordinator that is handed out is the one the tables name. *)
Lemma cached_or_refreshed_ok cached refresh : preserves client_ok refresh ->
  method client_ok (cached_or_refreshed (E := E) cached refresh)
    (fun r c => client_ok c /\ (fst r = 0 -> exists b, snd r = Some b /\ cached c = Some b)).
Proof.
  intros Hr.
  assert (forall b : option broker, method (fun c => client_ok c /\ b = cached c)
    (open_or (E := E) ErrConsumerCoordinatorNotAvailable b)
    (fun r c => client_ok c /\ (fst r = 0 -> exists x, snd r = Some x /\ cached c = Some x))) as Hopen.
  { intros b [c e] [Hc Hb]. cbn [fst] in *. unfold open_or. destruct b as [x|]; [|by split].
    unfold bind, cl_call. cbn [fst snd]. destruct (Open x e). cbn. split; [done|]. intros _. by exists x. }
  unfold cached_or_refreshed. apply method_seq; [auto with client|]. intros []; [apply method_ret; by split|].
  eapply method_bind; [apply method_gets|]. intros [x|]; [apply Hopen|].
  apply (method_pre client_ok); [|by intros c []]. apply method_seq; [done|]. intros err.
  destruct (Z.eqb_spec err 0) as [|Hne]; cbn [negb].
  - eapply method_bind; [apply method_gets|]. apply Hopen.
  - apply method_ret. intros c Hc. split; [done|]. by intros H.
Qed.
End Methods.
