(* ===== verification/ClientProtocol.v ===== *)
(** * What a client's callers can rely on

    The invariant over every sequence of calls, the answers to queries, closing, and which
    loops of the client end. *)
From Stdlib Require Import ZArith Lia Bool.
From stdpp Require Import base tactics list numbers gmap sets.
From S2P Require Import Prelude Errors StdMap Version ClientCache ClientSafety.

(** ** Every sequence of calls *)

Inductive client_call :=
| call_GetBroker (id : Z)
| call_Partitions (topic : topic_name)
| call_WritablePartitions (topic : topic_name)
| call_Replicas (topic : topic_name) (partition_id : Z)
| call_InSyncReplicas (topic : topic_name) (partition_id : Z)
| call_OfflineReplicas (topic : topic_name) (partition_id : Z)
| call_Leader (topic : topic_name) (partition_id : Z)
| call_LeaderAndEpoch (topic : topic_name) (partition_id : Z)
| call_GetOffset (topic : topic_name) (partition_id timestamp : Z)
| call_RefreshBrokers (addrs : list (list Z))
| call_RefreshMetadata (topics : list topic_name)
| call_RefreshMetadata_all
| call_MetadataRefresh (topics : list topic_name)
| call_Controller
| call_RefreshController
| call_GetCoordinator (group : list Z)
| call_RefreshCoordinator (group : list Z)
| call_TransactionCoordinator (id : list Z)
| call_RefreshTransactionCoordinator (id : list Z)
| call_InitProducerID
| call_LeastLoadedBroker
| call_RandomizeSeedBrokers (addrs : list (list Z))
| call_RegisterBroker (b : broker)
| call_DeregisterBroker (b : broker)
| call_ResurrectDeadBrokers
| call_UpdateMetadata (data : MetadataResponse) (all : bool)
| call_Close.

Section Calls.
Context {E : Type} {network : Brokers E}.
Context (config : ClientConfig).
Definition discard {A} (m : M (Client * E) A) : M (Client * E) unit := let* _r := m in ret tt.
Definition run_call (fuel : nat) (call : client_call) : M (Client * E) unit :=
  match call with
  | call_GetBroker id => discard (GetBroker id)
  | call_Partitions t => discard (Partitions config fuel t)
  | call_WritablePartitions t => discard (WritablePartitions config fuel t)
  | call_Replicas t p => discard (Replicas config fuel t p [])
  | call_InSyncReplicas t p => discard (InSyncReplicas config fuel t p [])
  | call_OfflineReplicas t p => discard (OfflineReplicas config fuel t p [])
  | call_Leader t p => discard (Leader config fuel t p None)
  | call_LeaderAndEpoch t p => discard (LeaderAndEpoch config fuel t p None 0)
  | call_GetOffset t p ts => discard (GetOffset config fuel t p ts)
  | call_RefreshBrokers addrs => discard (RefreshBrokers addrs)
  | call_RefreshMetadata ts => discard (RefreshMetadata config fuel ts)
  | call_RefreshMetadata_all => discard (RefreshMetadata_all config fuel)
  | call_MetadataRefresh ts => discard (MetadataRefresh config fuel ts)
  | call_Controller => discard (Controller config fuel)
  | call_RefreshController => discard (RefreshController config fuel)
  | call_GetCoordinator g => discard (GetCoordinator config fuel g)
  | call_RefreshCoordinator g => discard (RefreshCoordinator config fuel g)
  | call_TransactionCoordinator id => discard (TransactionCoordinator config fuel id)
  | call_RefreshTransactionCoordinator id => discard (RefreshTransactionCoordinator config fuel id)
  | call_InitProducerID => discard (Client_InitProducerID fuel)
  | call_LeastLoadedBroker => discard (LeastLoadedBroker None)
  | call_RandomizeSeedBrokers addrs => RandomizeSeedBrokers addrs
  | call_RegisterBroker b => RegisterBroker b
  | call_DeregisterBroker b => DeregisterBroker b
  | call_ResurrectDeadBrokers => ResurrectDeadBrokers
  | call_UpdateMetadata data all => discard (UpdateMetadata data all)
  | call_Close => discard Client_Close
  end.
(** A client after any calls that have returned, with whatever the network was before each *)
Inductive reachable : Client -> Prop :=
| reachable_new : reachable Client_new
| reachable_call fuel call c e c' e' :
    reachable c -> run_call fuel call (c, e) = Done tt (c', e') -> reachable c'.

Lemma method_drop {A} P Q (m : M (Client * E) A) : method P m Q -> (forall a c, Q a c -> P c) -> preserves P (discard m).
Proof. intros Hm Hq. eapply method_bind; [exact Hm|]. intros a. apply method_ret. apply Hq. Qed.

Lemma refresh_coordinator_calls_ok fuel : coordinators_named ->
  (forall g, preserves client_ok (RefreshCoordinator config fuel g)) /\
  (forall id, preserves client_ok (RefreshTransactionCoordinator config fuel id)).
Proof. intros Hn. split; intros k; apply refresh_coordinator_ok; eauto with client. Qed.
Lemma run_call_ok fuel call : coordinators_named -> preserves client_ok (run_call fuel call).
Proof.
  intros Hn. destruct (refresh_coordinator_calls_ok fuel Hn) as [Hg Ht].
  destruct call; cbn [run_call];
    first [ eapply method_drop; [first
              [ apply get_broker_ok | apply (get_partitions_answer config client_ok) | apply (replicas_answer config client_ok) | apply (leader_some config client_ok)
              | apply (leader_and_epoch_answer config client_ok) | apply get_offset_ok | apply refresh_brokers_ok
              | apply (preserves_refresh config client_ok) | apply (preserves_refresh_all config client_ok)
              | apply (preserves_metadata_refresh config client_ok) | apply controller_ok | apply refresh_controller_ok
              | apply cached_or_refreshed_ok, Hg | apply cached_or_refreshed_ok, Ht | apply Hg | apply Ht | apply producer_ok
              | apply (preserves_least_loaded client_ok) | apply update_metadata_ok | apply close_ok ] | by intros a c H; (exact H || apply H)]
          | apply randomize_ok | apply register_ok | apply deregister_ok | apply resurrect_ok ].
Qed.
End Calls.

Lemma client_new_ok : client_ok Client_new.
Proof. by constructor. Qed.

(** C6: Whatever calls are made on a client and whatever the network answers, as long as a
    coordinator response without an error names a broker, nothing undefined happens: a call
    returns or goes on for ever.  Brokers are registered under their own ids and partitions
    under theirs, and the cached partitions of a topic are those of its metadata, in order,
    without the ones that miss a leader in the list of writable ones. *)
Theorem client_invariant {E} `{Brokers E} config c : coordinators_named -> reachable (E := E) config c ->
  client_ok c /\
  forall fuel call e, match run_call config fuel call (c, e) with
                      | Done _ s => client_ok (fst s)
                      | Fault f => f = FDiverge
                      end.
Proof.
  intros Hn Hr.
  assert (client_ok c) as Hc.
  { induction Hr as [|fuel call c e c' e' Hr IH Hcall]; [apply client_new_ok|].
    pose proof (run_call_ok config fuel call Hn (c, e) IH) as Hok. by rewrite Hcall in Hok. }
  split; [done|]. intros fuel call e. by apply (run_call_ok config fuel call Hn (c, e)).
Qed.

(** C12: A query that returns 0 has answered from the tables as it leaves them: partitions are
    the cached ones, of which there is at least one, replicas are those of the metadata, a
    leader is the registered broker that the metadata of a partition with a leader name, a
    coordinator is the registered broker recorded for the group or the transaction. *)
Theorem client_queries {E} `{Brokers E} config fuel c (e : E) topic partition_id key b ep :
  coordinators_named -> client_ok c ->
  (forall set c' e' l, _GetPartitions config fuel topic set (c, e) = Done (0, l) (c', e') ->
     l <> [] /\ l = _CachedPartitions topic set c' /\
     forall ps, map_find topic (c_metadata c') = Some ps -> l = if set =? AllPartitions then map fst ps else writable ps) /\
  (forall part c' e' l, replicas_part config part fuel topic partition_id [] (c, e) = Done (0, l) (c', e') ->
     exists m, partition_metadata c' topic partition_id = Some m /\ l = part m) /\
  (forall c' e' l epoch, LeaderAndEpoch config fuel topic partition_id b ep (c, e) = Done (0, l, epoch) (c', e') ->
     exists m x, partition_metadata c' topic partition_id = Some m /\ pm_err m <> ErrLeaderNotAvailable /\
       map_find (pm_leader m) (c_brokers c') = Some x /\ b_id x = pm_leader m /\ l = Some x /\ epoch = pm_leader_epoch m) /\
  (forall c' e' x, GetCoordinator config fuel key (c, e) = Done (0, x) (c', e') ->
     exists id co, map_find key (c_coordinators c') = Some id /\ map_find id (c_brokers c') = Some co /\ x = Some co) /\
  (forall c' e' x, TransactionCoordinator config fuel key (c, e) = Done (0, x) (c', e') ->
     exists id co, map_find key (c_transaction_coordinators c') = Some id /\ map_find id (c_brokers c') = Some co /\ x = Some co).
Proof.
  intros Hn Hc. destruct (refresh_coordinator_calls_ok config fuel Hn) as [Hg Ht]. split_and!.
  - intros set c' e' l Er. pose proof (get_partitions_answer config client_ok fuel topic set (c, e) Hc) as Ha.
    rewrite Er in Ha. destruct Ha as [Hc' Ha]. destruct (Ha eq_refl) as [Hl Heq]. cbn [snd fst] in *. split_and!; [done|done|].
    intros ps Hps. destruct (partitions_ok c' Hc' topic ps Hps) as (_ & _ & _ & Hcache).
    rewrite Heq. unfold _CachedPartitions. by rewrite Hcache.
  - intros part c' e' l Er. pose proof (replicas_answer config client_ok part fuel topic partition_id [] (c, e) Hc) as Ha.
    rewrite Er in Ha. by apply Ha.
  - intros c' e' l epoch Er. pose proof (leader_and_epoch_answer config client_ok fuel topic partition_id b ep (c, e) Hc) as Ha.
    rewrite Er in Ha. destruct Ha as [Hc' Ha]. destruct (Ha eq_refl) as (m & x & Hm & Hl & Hx & Hs & He).
    exists m, x. split_and!; try done. by eapply brokers_keys.
  - intros c' e' x Er. pose proof (cached_or_refreshed_ok (_CachedCoordinator key) _ (Hg key) (c, e) Hc) as Ha.
    unfold GetCoordinator in Er. rewrite Er in Ha. destruct Ha as [_ Ha]. destruct (Ha eq_refl) as (co & Hx & Hco).
    unfold _CachedCoordinator in Hco. cbn [fst] in Hco. destruct (map_find key (c_coordinators c')) as [id|]; [|done]. by exists id, co.
  - intros c' e' x Er. pose proof (cached_or_refreshed_ok (_CachedTransactionCoordinator key) _ (Ht key) (c, e) Hc) as Ha.
    unfold TransactionCoordinator in Er. rewrite Er in Ha. destruct Ha as [_ Ha]. destruct (Ha eq_refl) as (co & Hx & Hco).
    unfold _CachedTransactionCoordinator in Hco. cbn [fst] in Hco.
    destruct (map_find key (c_transaction_coordinators c')) as [id|]; [|done]. by exists id, co.
Qed.

(** ** Closing *)

Definition closed_client (c : Client) : Client :=
  with_metadata [] [] (c_cached_partitions_results c) (with_brokers [] (with_seeds (c_seed_brokers c) [] c)).

Section Closing.
Context {E : Type} {network : Brokers E}.
Lemma for_do_calls {X} (l : list X) (f : X -> E -> E) (c : Client) (e : E) :
  exists e', for_do l (fun x => cl_call_ (f x)) (c, e) = Done tt (c, e').
Proof.
  revert e. induction l as [|x l IH]; intros e; cbn [for_do]; [by eexists|].
  destruct (IH (f x e)) as [e' E']. by exists e'.
Qed.
End Closing.

(** Closing a client drops its brokers and its metadata but neither its seeds nor the
    cached partitions: a client with a seed left is not closed by it, and goes on to answer
    from the cache without asking anybody; only a client without seeds is closed, and closing
    it again is an error. *)
Theorem Close_keeps_seeds {E} `{Brokers E} c (e : E) :
  (Closed c = true -> Client_Close (c, e) = Done ErrClosedClient (c, e)) /\
  (Closed c = false ->
   exists e', Client_Close (c, e) = Done 0 (closed_client c, e') /\
     Closed (closed_client c) = no_elements (c_seed_brokers c) /\
     forall config fuel topic set, c_seed_brokers c <> [] -> _CachedPartitions topic set c <> [] ->
       _GetPartitions config fuel topic set (closed_client c, e') =
         Done (0, _CachedPartitions topic set c) (closed_client c, e') /\
       partition_metadata (closed_client c) topic set = None).
Proof.
  split; intros Hcl; unfold Client_Close, unless_closed, bind at 1, cl_gets at 1; cbn [fst]; rewrite Hcl; [done|].
  destruct (for_do_calls (c_brokers c) (fun p => SafeAsyncClose (snd p)) c e) as [e1 E1].
  destruct (for_do_calls (c_seed_brokers c) SafeAsyncClose c e1) as [e2 E2].
  exists e2. split; [unfold bind at 1, cl_gets; cbn [fst]; unfold bind at 1; rewrite E1; unfold bind at 1; by rewrite E2|].
  split; [done|]. intros config fuel topic set Hs Hp. split; [|done]. unfold _GetPartitions, bind, cl_gets. cbn [fst].
  change (Closed (closed_client c)) with (no_elements (c_seed_brokers c)).
  assert (_CachedPartitions topic set (closed_client c) = _CachedPartitions topic set c) as Ec by done.
  destruct (c_seed_brokers c); [done|]. cbn [no_elements fst]. rewrite Ec.
  destruct (no_elements (_CachedPartitions topic set c)) eqn:En; [by destruct (_CachedPartitions topic set c)|].
  unfold ret. cbn [fst]. by rewrite Ec, En.
Qed.

(** ** Throttling *)

(** A refresh of the topic has been asked for, or answered, less than the interval ago. *)
Definition throttled (r : MetadataRefresher) (now : Z) (topic : topic_name) : Prop :=
  exists t, m_topics_map r !! topic = Some t /\
    now < Z.max (rt_last_request_time t) (rt_last_response_time t) + m_refresh_interval_mininum r * ns_per_ms.
Lemma add_topics_throttled now topics r :
  Forall (throttled r now) topics -> add_topics now topics r = (r, []).
Proof.
  unfold add_topics. induction topics as [|t l IH]; [done|]. intros [(rt & Hrt & Hlt) Hl]%Forall_cons. cbn [fold_left].
  assert (add_topic now (r, []) t = (r, [])) as ->; [|by apply IH].
  unfold add_topic. rewrite Hrt. destruct (Z.ltb_spec now (rt_last_response_time rt + m_refresh_interval_mininum r * ns_per_ms)); [done|].
  destruct (Z.ltb_spec now (rt_last_request_time rt + m_refresh_interval_mininum r * ns_per_ms)); [done|]. lia.
Qed.
(** Refreshing topics that have all been asked for or answered within the last 100 ms is a
    refresh of all topics: the list that is left is empty, and an empty list stands for all. *)
Theorem throttled_refresh_asks_all {E} `{Brokers E} config fuel topics c (e : E) :
  Closed c = false -> Forall (fun t => t <> []) topics ->
  Forall (throttled (c_metadata_refresher c) (fst (system_now e))) topics ->
  RefreshMetadata config fuel topics (c, e) = _RefreshMetadata config fuel [] (c, snd (system_now e)).
Proof.
  intros Hcl Hne Hth. unfold RefreshMetadata, unless_closed, bind at 1, cl_gets. cbn [fst]. rewrite Hcl.
  assert (existsb no_elements topics = false) as ->.
  { clear Hth. induction Hne as [|t l Ht Hl IH]; [done|]. cbn. rewrite IH. by destruct t. }
  unfold bind at 1, cl_call. cbn [fst snd]. destruct (system_now e) as [now e'] eqn:En. cbn [fst snd] in *.
  unfold bind. cbn [fst]. rewrite add_topics_throttled by done. by destruct c.
Qed.

(** ** Refreshing ends in time *)

(** The clock never goes back, and asking for metadata takes time. *)
Record timely {E} `{Brokers E} (clock : E -> Z) : Prop := {
  reads_clock e : clock e <= fst (steady_now e) <= clock (snd (steady_now e));
  system_clock e : clock e <= clock (snd (system_now e));
  open_clock b e : clock e <= clock (snd (Open b e));
  close_clock b e : clock e <= clock (Broker_close b e);
  async_close_clock b e : clock e <= clock (SafeAsyncClose b e);
  sleep_clock d e : clock e <= clock (sleep_for d e);
  metadata_clock b topics allow e : clock e + 1 <= clock (snd (GetMetadata b topics allow e))
}.

Section Ending.
Context {E : Type} {network : Brokers E} (clock : E -> Z) (Ht : timely clock).
Context (config : ClientConfig).
(** From the time [T] on the method returns. *)
Definition ends {A} (T : Z) (m : M (Client * E) A) : Prop :=
  forall c e, T <= clock e -> exists a c' e', m (c, e) = Done a (c', e') /\ clock e <= clock e'.
Lemma ends_ret {A} T (a : A) : ends T (ret a).
Proof. intros c e He. exists a, c, e. split; [done|lia]. Qed.
Lemma ends_bind {A B} T (m : M (Client * E) A) (k : A -> M (Client * E) B) :
  ends T m -> (forall a, ends T (k a)) -> ends T (bind m k).
Proof.
  intros Hm Hk c e He. destruct (Hm c e He) as (a & c1 & e1 & E1 & H1).
  destruct (Hk a c1 e1 ltac:(lia)) as (b & c2 & e2 & E2 & H2). exists b, c2, e2. unfold bind. rewrite E1. split; [done|lia].
Qed.
Lemma ends_call {A} T (f : E -> A * E) : (forall e, clock e <= clock (snd (f e))) -> ends T (cl_call f).
Proof.
  intros Hf c e He. specialize (Hf e). unfold cl_call. cbn [fst snd]. destruct (f e) as [a e'] eqn:Ef.
  exists a, c, e'. by split.
Qed.
Lemma ends_call_ T (f : E -> E) : (forall e, clock e <= clock (f e)) -> ends T (cl_call_ f).
Proof. intros Hf c e He. exists tt, c, (f e). split; [done|apply Hf]. Qed.
Lemma ends_gets {A} T (f : Client -> A) : ends T (cl_gets f).
Proof. intros c e He. exists (f c), c, e. split; [done|lia]. Qed.
Lemma ends_modify T (f : Client -> Client) : ends T (cl_modify f).
Proof. intros c e He. exists tt, (f c), e. split; [done|lia]. Qed.
Lemma ends_for_do {X} T (l : list X) (f : X -> M (Client * E) unit) : (forall x, ends T (f x)) -> ends T (for_do l f).
Proof. intros Hf. induction l; cbn [for_do]; [apply ends_ret|]. by apply ends_bind. Qed.

Create HintDb ending.
Hint Resolve ends_ret ends_call ends_call_ ends_gets ends_modify system_clock open_clock close_clock async_close_clock
  sleep_clock Ht : ending.
Ltac ending :=
  repeat match goal with
  | |- ends _ (bind _ _) => apply ends_bind; [|intros ?]
  | |- ends _ (for_do _ _) => apply ends_for_do; intros ?
  | |- ends _ (if ?b then _ else _) => destruct b
  | |- ends _ (match ?x with _ => _ end) => destruct x
  | |- ends _ (let '_ := ?x in _) => destruct x
  end; eauto with ending.

Lemma ends_least_loaded T b : ends T (LeastLoadedBroker b).
Proof. unfold LeastLoadedBroker. ending. Qed.
Lemma ends_drop_broker T b : ends T (drop_broker b).
Proof. unfold drop_broker, DeregisterBroker. ending. Qed.
Lemma ends_update_broker T l : ends T (UpdateBroker l).
Proof. unfold UpdateBroker, put_broker. ending. Qed.
Lemma ends_update_topics T retry l : ends T (update_topics retry l).
Proof.
  revert retry. induction l as [|t l IH]; intros retry; cbn [update_topics]; [apply ends_ret|].
  apply ends_bind; [|done]. unfold update_topic_metadata. ending.
Qed.
Hint Resolve ends_least_loaded ends_drop_broker ends_update_broker ends_update_topics : ending.
Lemma ends_update T data all : ends T (UpdateMetadata data all).
Proof. unfold UpdateMetadata. ending. Qed.

Lemma ends_past {A} T deadline backoff (k : bool -> M (Client * E) A) : deadline <> 0 -> 0 <= backoff ->
  ends T (k true) -> (T <= deadline -> ends T (k false)) -> ends T (bind (PastDeadline deadline backoff) k).
Proof.
  intros Hd Hb H1 H2 c e He. pose proof (reads_clock clock Ht e) as Hr.
  unfold PastDeadline. replace (deadline =? 0) with false by lia. unfold bind, cl_call. cbn [fst snd].
  destruct (steady_now e) as [now e'] eqn:En. cbn [fst snd] in Hr. cbv beta iota delta [ret].
  assert (0 <= backoff * ns_per_ms) by (unfold ns_per_ms; lia).
  destruct (Z.ltb_spec deadline (now + backoff * ns_per_ms)).
  - destruct (H1 c e' ltac:(lia)) as (a & c2 & e2 & E2 & Hc2). exists a, c2, e2. split; [done|lia].
  - destruct (H2 ltac:(lia) c e' ltac:(lia)) as (a & c2 & e2 & E2 & Hc2). exists a, c2, e2. split; [done|lia].
Qed.
Lemma ends_metadata {A} T b topics allow (k : Z * MetadataResponse -> M (Client * E) A) :
  (forall a, ends (T + 1) (k a)) -> ends T (bind (cl_call (GetMetadata b topics allow)) k).
Proof.
  intros Hk c e He. pose proof (metadata_clock clock Ht b topics allow e) as Hm. unfold bind, cl_call. cbn [fst snd].
  destruct (GetMetadata b topics allow e) as [a e'] eqn:En. cbn [fst snd] in *.
  destruct (Hk a c e' ltac:(lia)) as (x & c2 & e2 & E2 & Hc2). exists x, c2, e2. split; [done|lia].
Qed.
Lemma ends_weaken {A} T T' (m : M (Client * E) A) : T <= T' -> ends T m -> ends T' m.
Proof. intros HT Hm c e He. apply Hm. lia. Qed.

(** As many turns as there are ticks to the deadline *)
Lemma ends_refresh_loop fuel topics deadline retry : forall T b,
  deadline <> 0 -> deadline - T + 2 <= Z.of_nat fuel -> 1 <= Z.of_nat fuel ->
  (forall T' err, T <= T' -> ends T' (retry err)) ->
  ends T (refresh_loop config fuel topics deadline retry b).
Proof.
  induction fuel as [|fuel IH]; intros T b Hd Hf H1 Hr; [lia|]. cbn [refresh_loop].
  apply ends_bind; [eauto with ending|]. intros [err found]. destruct (err =? INVALID); [apply ends_ret|].
  destruct found as [x|]; [|apply ends_ret]. apply ends_past; [done|lia|apply ends_ret|]. intros HT.
  apply ends_bind; [apply ends_call; intros e; pose proof (reads_clock clock Ht e); lia|]. intros now.
  apply ends_bind; [apply ends_modify|]. intros _. apply ends_metadata. intros [err2 response].
  assert (ends (T + 1) (drop_broker x ;;; refresh_loop config fuel topics deadline retry (Some x))) as Hagain.
  { apply ends_bind; [eauto with ending|]. intros _. apply IH; try lia. intros T' err' HT'. apply Hr. lia. }
  destruct (err2 =? 0).
  - destruct (no_elements _); [exact Hagain|]. apply ends_bind; [apply ends_update|]. intros [].
    + apply Hr. lia.
    + apply ends_ret.
  - destruct (_ || _); [apply ends_ret|]. destruct (_ && _); [apply ends_ret|exact Hagain].
Qed.
Lemma ends_try fuel n topics deadline T :
  deadline <> 0 -> deadline - T + 2 <= Z.of_nat fuel -> 1 <= Z.of_nat fuel ->
  (forall k, 0 <= ComputeBackoff config k) ->
  ends T (TryRefreshMetadata config fuel n topics deadline).
Proof.
  intros Hd Hf H1 Hb. revert T Hf. induction n as [|n IH]; intros T Hf; cbn [TryRefreshMetadata];
    apply ends_refresh_loop; try done; intros T' err HT'; unfold RetryRefreshMetadata; [apply ends_ret|].
  apply ends_past; [done|done|apply ends_ret|]. intros _.
  apply ends_bind; [ending|]. intros _. apply ends_bind; [apply ends_gets|]. intros u.
  apply ends_bind; [apply ends_call; intros e; pose proof (reads_clock clock Ht e); lia|]. intros now.
  destruct (_ <? _); [apply ends_ret|]. apply IH. lia.
Qed.
End Ending.

(** C9: With a clock that advances during an exchange, a refresh returns, whatever the brokers
    answer and however often it is tried again: one turn of the loop for each tick until the
    deadline is enough. *)
Theorem refresh_returns {E} `{Brokers E} clock config fuel topics c (e : E) :
  timely clock -> 0 < clock e -> (forall k, 0 <= ComputeBackoff config k) ->
  Z.max 0 (cc_Timeout config) * ns_per_ms + 2 <= Z.of_nat fuel ->
  exists r c' e', RefreshMetadata config fuel topics (c, e) = Done r (c', e').
Proof.
  intros Ht H0 Hb Hf. unfold RefreshMetadata, unless_closed, bind at 1, cl_gets. cbn [fst].
  destruct (Closed c); [by do 3 eexists|]. destruct (existsb no_elements topics); [by do 3 eexists|].
  unfold bind at 1, cl_call. cbn [fst snd]. pose proof (system_clock clock Ht e) as Hs.
  destruct (system_now e) as [now e1]. cbn [snd] in Hs. unfold bind at 1. cbn [fst snd].
  destruct (add_topics now topics (c_metadata_refresher c)) as [r l]. unfold _RefreshMetadata, bind, cl_call. cbn [fst snd].
  pose proof (reads_clock clock Ht e1) as Hr. destruct (steady_now e1) as [t e2]. cbn [fst snd] in Hr.
  set (deadline := if 0 <? cc_Timeout config then _ else t).
  assert (t <= deadline <= t + Z.max 0 (cc_Timeout config) * ns_per_ms) as Hd.
  { unfold deadline, ns_per_ms in *. destruct (Z.ltb_spec 0 (cc_Timeout config)); lia. }
  assert (0 <= Z.max 0 (cc_Timeout config) * ns_per_ms) by (unfold ns_per_ms; lia).
  destruct (ends_try clock Ht config fuel (retries config) l deadline t ltac:(lia) ltac:(lia) ltac:(lia) Hb
              (with_refresher r c) e2 ltac:(lia)) as (a & c' & e' & E' & _).
  by exists a, c', e'.
Qed.

(** ** Loops that do not end *)

Section Endless.
Context {E : Type} {network : Brokers E}.
Context (config : ClientConfig).

(** There is a broker to be tried. *)
Definition has_broker (b : option broker) (c : Client) : Prop := c_brokers c <> [] \/ b <> None.
Lemma least_loaded_some b c (e : E) : has_broker b c ->
  exists err x c' e', LeastLoadedBroker b (c, e) = Done (err, Some x) (c', e').
Proof.
  unfold has_broker. intros Hb. unfold LeastLoadedBroker, bind, cl_gets, cl_call, cl_modify. cbn [fst snd].
  assert (exists x, match last (c_brokers c) with Some p => Some (snd p) | None => b end = Some x) as [x Hx].
  { destruct (c_brokers c) as [|p l] using rev_ind; [destruct Hb as [Hb|Hb]; [done|]; destruct b; [by eexists|done]|].
    rewrite last_snoc. by eexists. }
  rewrite Hx. cbn [fst snd]. destruct (Open x e) as [err e1]. rewrite bool_decide_true by done. cbn [andb fst snd].
  destruct (err =? 0); [do 4 eexists; reflexivity|].
  cbn [fst snd]. destruct (c_seed_brokers c) as [|seed seeds]; [do 4 eexists; reflexivity|]. cbn [fst snd]. destruct (Open seed e1) as [err2 e2].
  destruct (negb (err2 =? 0)); do 4 eexists; reflexivity.
Qed.
(** When brokers can be opened, one that is there is. *)
Lemma least_loaded_open b c (e : E) : (forall x e, fst (Open x e) = 0) ->
  has_broker b c \/ c_seed_brokers c <> [] ->
  exists x c' e', LeastLoadedBroker b (c, e) = Done (0, Some x) (c', e').
Proof.
  unfold has_broker. intros Ho Hb. unfold LeastLoadedBroker, bind, cl_gets, cl_call, cl_modify. cbn [fst snd].
  destruct (match last (c_brokers c) with Some p => Some (snd p) | None => b end) as [x|] eqn:Hx.
  - pose proof (Ho x e) as Hx0. cbn [fst snd]. destruct (Open x e) as [err e1]. cbn [fst] in Hx0. subst err. do 3 eexists; reflexivity.
  - destruct (c_seed_brokers c) as [|seed seeds] eqn:Es.
    + destruct Hb as [[Hb|Hb]|Hb]; try done.
      * destruct (c_brokers c) as [|p l] using rev_ind; [done|]. by rewrite last_snoc in Hx.
      * by destruct (last (c_brokers c)), b.
    + cbn. rewrite Es. cbn [fst snd]. pose proof (Ho seed e) as Hx0. destruct (Open seed e) as [err e1]. cbn [fst] in Hx0. subst err.
      do 3 eexists; reflexivity.
Qed.
Lemma drop_broker_run b (c : Client) (e : E) : exists c' e', drop_broker b (c, e) = Done tt (c', e').
Proof. unfold drop_broker, bind, cl_call_, DeregisterBroker, cl_modify. by do 2 eexists. Qed.

Lemma coordinator_loop_endless fuel key type retry response : (forall b q e, fst (fst (exchange_FindCoordinator b q e)) <> 0) ->
  forall b c (e : E), has_broker b c -> coordinator_loop config fuel key type retry response b (c, e) = Fault FDiverge.
Proof.
  intros Hfail. induction fuel as [|fuel IH]; intros b c e Hb; cbn [coordinator_loop]; [done|].
  destruct (least_loaded_some b c e Hb) as (err & x & c1 & e1 & E1). unfold bind at 1. rewrite E1. cbn [snd].
  unfold bind at 1, cl_call. cbn [fst snd]. specialize (Hfail x (mkFindCoordinatorRequest (coordinator_version config) key type) e1).
  destruct (exchange_FindCoordinator x _ e1) as [[err2 answered] e2]. cbn [fst] in Hfail.
  replace (err2 =? 0) with false by lia. cbn [negb]. destruct (drop_broker_run x c1 e2) as (c2 & e3 & E3).
  unfold bind. rewrite E3. apply IH. by right.
Qed.
Lemma producer_loop_endless fuel : (forall x e, fst (Open x e) = 0) -> (forall b e, fst (fst (exchange_ProducerID b e)) <> 0) ->
  forall b c (e : E), has_broker b c \/ c_seed_brokers c <> [] -> producer_loop fuel b (c, e) = Fault FDiverge.
Proof.
  intros Ho Hfail. induction fuel as [|fuel IH]; intros b c e Hb; cbn [producer_loop]; [done|].
  destruct (least_loaded_open b c e Ho Hb) as (x & c1 & e1 & E1). unfold bind at 1. rewrite E1.
  unfold bind at 1, cl_call. cbn [fst snd]. specialize (Hfail x e1).
  destruct (exchange_ProducerID x e1) as [[err2 answered] e2]. cbn [fst] in Hfail.
  replace (err2 =? 0) with false by lia. destruct (drop_broker_run x c1 e2) as (c2 & e3 & E3).
  unfold bind. rewrite E3. apply IH. left. by right.
Qed.
(** A code that makes the loop go on *)
Definition passing_error (err : Z) : Prop :=
  err <> 0 /\ err <> ErrEncodeError /\ err <> ErrDecodeError /\ err <> ErrSASLAuthenticationFailed /\
  err <> ErrTopicAuthorizationFailed.
Lemma refresh_loop_endless fuel topics retry :
  (forall x e, fst (Open x e) = 0) -> (forall b ts a e, passing_error (fst (fst (GetMetadata b ts a e)))) ->
  forall b c (e : E), has_broker b c \/ c_seed_brokers c <> [] ->
  refresh_loop config fuel topics 0 retry b (c, e) = Fault FDiverge.
Proof.
  intros Ho Hfail. induction fuel as [|fuel IH]; intros b c e Hb; cbn [refresh_loop]; [done|].
  destruct (least_loaded_open b c e Ho Hb) as (x & c1 & e1 & E1). unfold bind at 1. rewrite E1.
  change (0 =? INVALID) with false. cbn iota. unfold PastDeadline at 1. change (0 =? 0) with true.
  unfold bind at 1, ret at 1. cbn iota. unfold bind at 1, cl_call at 1. cbn [fst snd].
  destruct (steady_now e1) as [now e2]. unfold bind at 1, cl_modify. cbn [fst snd].
  unfold bind at 1, cl_call. cbn [fst snd].
  specialize (Hfail x topics (negb (no_elements topics) && cc_AllowAutoTopicCreation config) e2).
  destruct (GetMetadata x topics _ e2) as [[err response] e3]. destruct Hfail as (H0 & H1 & H2 & H3 & H4). cbn [fst] in *.
  replace (err =? 0) with false by lia. replace (err =? ErrEncodeError) with false by lia.
  replace (err =? ErrDecodeError) with false by lia. replace (err =? ErrSASLAuthenticationFailed) with false by lia.
  replace (err =? ErrTopicAuthorizationFailed) with false by lia. cbn [orb]. rewrite andb_false_r.
  destruct (drop_broker_run x (with_update_ms (Z.quot now ns_per_ms) c1) e3) as (c2 & e4 & E4).
  unfold bind. rewrite E4. apply IH. left. by right.
Qed.
End Endless.

(** C33: Three loops of the client go round for ever, since the broker that has failed stays in
    their hands: looking for a coordinator while a broker is registered and every request
    fails, whatever the number of retries; asking for a producer id of brokers that can be
    connected to but fail the request; and refreshing metadata without a timeout in the same
    situation. *)
Theorem client_loops_endless {E} `{Brokers E} config c (e : E) :
  ((forall b q e, fst (fst (exchange_FindCoordinator b q e)) <> 0) -> c_brokers c <> [] ->
   forall fuel n key type response, FindCoordinator config fuel n key type response (c, e) = Fault FDiverge) /\
  ((forall b e, fst (Open b e) = 0) -> (forall b e, fst (fst (exchange_ProducerID b e)) <> 0) -> Closed c = false ->
   forall fuel, Client_InitProducerID fuel (c, e) = Fault FDiverge) /\
  ((forall b e, fst (Open b e) = 0) -> (forall b ts a e, passing_error (fst (fst (GetMetadata b ts a e)))) ->
   cc_Timeout config <= 0 -> Closed c = false ->
   forall fuel topics, MetadataRefresh config fuel topics (c, e) = Fault FDiverge).
Proof.
  assert (Closed c = false -> has_broker None c \/ c_seed_brokers c <> []) as Hopen.
  { unfold Closed, has_broker. destruct (c_brokers c), (c_seed_brokers c); try done; intros _; [by right|by left; left..]. }
  split_and!.
  - intros Hf Hb fuel n key type response. destruct n; apply coordinator_loop_endless; try done; by left.
  - intros Ho Hf Hcl fuel. apply producer_loop_endless; auto.
  - intros Ho Hf Hto Hcl fuel topics. unfold MetadataRefresh. replace (0 <? cc_Timeout config) with false by lia.
    destruct (retries config); cbn [TryRefreshMetadata]; apply refresh_loop_endless; auto.
Qed.

(** ** An outage *)

(** [n] refreshes one after another, and their results *)
Fixpoint refreshes {E} `{Brokers E} (config : ClientConfig) (fuel n : nat) (topics : list topic_name) : M (Client * E) (list Z) :=
  match n with
  | O => ret []
  | S n' =>
      let* err := MetadataRefresh config fuel topics in
      let* l := refreshes config fuel n' topics in
      ret (err :: l)
  end.
Section Outage.
Context {E : Type} {network : Brokers E}.
Context (config : ClientConfig).
Lemma refresh_kills_seed fuel topics c (e : E) seed seeds :
  (forall b e, fst (Open b e) = INVALID) -> c_brokers c = [] -> c_seed_brokers c = seed :: seeds ->
  exists e', MetadataRefresh config (S fuel) topics (c, e) = Done INVALID (with_seeds seeds (c_dead_seeds c ++ [seed]) c, e').
Proof.
  intros Ho Hb Hs.
  assert (forall deadline (e : E), exists e', TryRefreshMetadata config (S fuel) (retries config) topics deadline (c, e) =
            Done INVALID (with_seeds seeds (c_dead_seeds c ++ [seed]) c, e')) as Htry.
  { intros deadline e0. assert (exists e', LeastLoadedBroker None (c, e0) =
      Done (INVALID, None) (with_seeds seeds (c_dead_seeds c ++ [seed]) c, e')) as [e' El].
    { unfold LeastLoadedBroker, bind, cl_gets, cl_call, cl_modify, ret. cbn [fst snd]. rewrite Hb. cbn. rewrite Hs. cbn [fst snd].
      pose proof (Ho seed e0) as H0. destruct (Open seed e0) as [err e1]. cbn [fst] in H0. subst err.
      eexists; reflexivity. }
    exists e'. destruct (retries config); cbn [TryRefreshMetadata refresh_loop]; unfold bind at 1; by rewrite El. }
  unfold MetadataRefresh. destruct (0 <? cc_Timeout config); [|apply Htry].
  unfold bind, cl_call. cbn [fst snd]. destruct (steady_now e) as [now e1]. apply Htry.
Qed.
Lemma refreshes_kill_seeds fuel topics : (forall b e, fst (Open b e) = INVALID) -> forall seeds c (e : E),
  c_brokers c = [] -> c_seed_brokers c = seeds ->
  exists e', refreshes config (S fuel) (length seeds) topics (c, e) =
    Done (replicate (length seeds) INVALID) (with_seeds [] (c_dead_seeds c ++ seeds) c, e').
Proof.
  intros Ho seeds. induction seeds as [|seed seeds IH]; intros c e Hb Hs; cbn [length refreshes].
  - exists e. rewrite app_nil_r. unfold with_seeds. rewrite <- Hs. by destruct c.
  - destruct (refresh_kills_seed fuel topics c e seed seeds Ho Hb Hs) as [e1 E1]. unfold bind at 1. rewrite E1.
    destruct (IH (with_seeds seeds (c_dead_seeds c ++ [seed]) c) e1 Hb eq_refl) as [e2 E2].
    exists e2. unfold bind. rewrite E2. cbn [c_dead_seeds with_seeds]. by rewrite <- app_assoc.
Qed.
End Outage.

(** C13: An outage closes a client with no registered broker for good.  While no broker can be
    reached, each refresh of a client that knows only its seeds ([c_brokers c = []]) fails
    after trying one of them, which is put aside; no refresh takes one back.  After as many refreshes as there are seeds the client counts as
    closed, and whatever network there is afterwards, refreshing and looking things up fail
    with ErrClosedClient. *)
Theorem outage_closes_client {E} `{Brokers E} config fuel topics c (e : E) :
  (forall b e, fst (Open b e) = INVALID) -> c_brokers c = [] ->
  exists c' e', refreshes config (S fuel) (length (c_seed_brokers c)) topics (c, e) =
      Done (replicate (length (c_seed_brokers c)) INVALID) (c', e') /\
    Closed c' = true /\ c_dead_seeds c' = c_dead_seeds c ++ c_seed_brokers c /\
    forall E2 (network : Brokers E2) (e2 : E2) config fuel topics topic partition_id key,
      RefreshMetadata config fuel topics (c', e2) = Done ErrClosedClient (c', e2) /\
      Partitions config fuel topic (c', e2) = Done (ErrClosedClient, []) (c', e2) /\
      Leader config fuel topic partition_id None (c', e2) = Done (ErrClosedClient, None) (c', e2) /\
      GetCoordinator config fuel key (c', e2) = Done (ErrClosedClient, None) (c', e2).
Proof.
  intros Ho Hb. destruct (refreshes_kill_seeds config fuel topics Ho (c_seed_brokers c) c e Hb eq_refl) as [e' E'].
  set (c' := with_seeds [] (c_dead_seeds c ++ c_seed_brokers c) c) in *. exists c', e'.
  assert (Closed c' = true) as Hcl by (unfold Closed, c'; cbn; by rewrite Hb).
  split_and!; [done..|]. intros E2 network e2 config2 fuel2 topics2 topic partition_id key.
  unfold RefreshMetadata, unless_closed, Partitions, _GetPartitions, Leader, LeaderAndEpoch, GetCoordinator, cached_or_refreshed.
  unfold bind, cl_gets. cbn [fst]. by rewrite Hcl.
Qed.

(** ** Examples *)

(** Brokers that always do the same; the state is the clock, which every operation advances. *)
Definition scripted (open : broker -> Z) (metadata : broker -> list topic_name -> Z * MetadataResponse)
    (coordinator : broker -> Z * FindCoordinatorResponse) : Brokers Z := {|
  Open b e := (open b, e + 1);
  Broker_close b e := e + 1;
  SafeAsyncClose b e := e + 1;
  GetMetadata b topics allow e := (metadata b topics, e + 1);
  exchange_FindCoordinator b q e := (coordinator b, e + 1);
  exchange_ProducerID b e := ((7, (0, 0)), e + 1);
  GetAvailableOffsets b topic partition timestamp e := ((0, mkOffsetBlock 0 [5]), e + 1);
  steady_now e := (e, e + 1);
  system_now e := (e, e + 1);
  sleep_for d e := e + Z.max 0 d * ns_per_ms;
  shuffle addrs e := (rev addrs, e + 1);
  make_broker e := (Z.to_nat e, e + 1) |}.
Definition example_config (full : bool) (timeout : Z) : ClientConfig :=
  mkClientConfig V2_0_0_0 full timeout true 1 0 None.
Definition broker_1 : broker := mkBroker 101 1 [49].
Definition broker_2 : broker := mkBroker 102 2 [50].
Definition example_partition (id leader err : Z) : PartitionMetadata := mkPartitionMetadata 5 err id leader 3 [1; 2] [1] [].
Definition example_topic (err : Z) : TopicMetadata :=
  mkTopicMetadata 5 err [116] [] false [example_partition 1 2 0; example_partition 0 1 ErrLeaderNotAvailable] 0.
Definition example_response (err : Z) : MetadataResponse :=
  mkMetadataResponse 5 0 [broker_2; broker_1] [example_topic err] [] 2 0.
Definition net_up : Brokers Z :=
  scripted (fun _ => 0) (fun _ _ => (0, example_response 0)) (fun _ => (0, mkFindCoordinatorResponse 0 (Some broker_2))).
Definition net_down : Brokers Z :=
  scripted (fun _ => INVALID) (fun _ _ => (13, example_response 0)) (fun _ => (13, no_response)).
Definition net_failing : Brokers Z :=
  scripted (fun _ => 0) (fun _ _ => (13, example_response 0)) (fun _ => (13, no_response)).
(** A client with one seed, and with what [net_up] tells it *)
Definition seeded : Client := with_seeds [mkBroker 2 (-1) [115]] [] Client_new.
Definition informed : Client :=
  match @UpdateMetadata Z net_up (example_response 0) true (seeded, 10) with Done _ s => fst s | Fault _ => seeded end.

Lemma named_up : @coordinators_named Z net_up.
Proof. by intros b q e. Qed.
Lemma seeded_reachable network config : network = net_up -> @reachable Z network config seeded.
Proof.
  intros ->. apply (@reachable_call Z net_up config 0 (call_RandomizeSeedBrokers [[115]]) Client_new 1 seeded 3); [constructor|].
  by vm_compute.
Qed.
Lemma seeded_ok : client_ok seeded.
Proof. by constructor. Qed.
Lemma informed_ok : client_ok informed.
Proof.
  pose proof (@update_metadata_ok Z net_up (example_response 0) true (seeded, 10) seeded_ok) as H. unfold informed.
  by destruct (UpdateMetadata _ _ _).
Qed.
Lemma timely_scripted open metadata coordinator : @timely Z (scripted open metadata coordinator) (fun e => e).
Proof. constructor; intros; cbn -[Z.mul Z.max ns_per_ms]; unfold ns_per_ms; lia. Qed.

Example UpdateBroker_spec_witness :
  exists c' e', @UpdateBroker Z net_up [broker_2] (informed, 4) = Done tt (c', e') /\ client_ok c' /\
    map_find 1 (c_brokers c') = None /\ is_Some (map_find 2 (c_brokers c')).
Proof.
  destruct (@UpdateBroker_spec Z net_up [broker_2] informed 4 informed_ok) as (c' & e' & E1 & _ & H2 & H3).
  exists c', e'. split; [exact E1|]. split; [exact H2|]. split; [exact (H3 1)|].
  destruct (H3 2) as (x & Hx & _). by exists x.
Defined.
Example UpdateMetadata_spec_witness :
  exists c' e', @UpdateMetadata Z net_up (example_response 0) false (seeded, 10) = Done true (c', e') /\
    map_find [116] (c_cached_partitions_results c') = Some ([0; 1], [1]).
Proof.
  destruct (@UpdateMetadata_spec Z net_up (example_response 0) false seeded 10 seeded_ok eq_refl)
    as (c' & e' & E1 & _ & _ & _ & _ & _ & H).
  exists c', e'. split; [exact E1|]. exact (proj1 (proj2 (H [116]))).
Defined.
Example client_invariant_witness : client_ok seeded.
Proof. exact (proj1 (@client_invariant Z net_up (example_config true 0) seeded named_up (seeded_reachable _ _ eq_refl))). Defined.
Example client_queries_witness :
  exists m x, partition_metadata informed [116] 1 = Some m /\ map_find (pm_leader m) (c_brokers informed) = Some x /\ x = broker_2.
Proof.
  destruct (@client_queries Z net_up (example_config true 0) 0 informed 4 [116] 1 [] None 0 named_up informed_ok)
    as (_ & _ & H & _).
  destruct (H informed 5 (Some broker_2) 3 eq_refl) as (m & x & Hm & _ & Hx & _ & He & _).
  exists m, x. split; [exact Hm|]. split; [exact Hx|]. by injection He.
Defined.
Example Close_keeps_seeds_witness :
  exists e', @Client_Close Z net_up (informed, 5) = Done 0 (closed_client informed, e') /\ Closed (closed_client informed) = false /\
    @Partitions Z net_up (example_config true 0) 0 [116] (closed_client informed, e') = Done (0, [0; 1]) (closed_client informed, e').
Proof.
  destruct (proj2 (@Close_keeps_seeds Z net_up informed 5) eq_refl) as (e' & E1 & E2 & H). exists e'.
  split; [exact E1|]. split; [exact E2|]. by apply (H (example_config true 0) 0%nat [116] 0).
Defined.
Definition asked : Client :=
  match @RefreshMetadata Z net_up (example_config true 0) 3 [[116]] (seeded, 20) with Done _ s => fst s | Fault _ => seeded end.
Example throttled_refresh_asks_all_witness :
  @RefreshMetadata Z net_up (example_config true 0) 3 [[116]] (asked, 1000) =
  @_RefreshMetadata Z net_up (example_config true 0) 3 [] (asked, 1001).
Proof.
  apply (@throttled_refresh_asks_all Z net_up (example_config true 0) 3 [[116]] asked 1000); [done|by constructor|].
  constructor; [|by constructor]. eexists. split; [by vm_compute|done].
Defined.
Example refresh_returns_witness :
  exists r c' e', @RefreshMetadata Z net_failing (example_config true 0) 2 [[116]] (seeded, 20) = Done r (c', e').
Proof.
  apply (@refresh_returns Z net_failing (fun e => e) (example_config true 0) 2 [[116]] seeded 20);
    [apply timely_scripted|lia|by intros k|by vm_compute].
Defined.
Example client_loops_endless_witness :
  @Client_InitProducerID Z net_failing 9 (seeded, 5) = Fault FDiverge /\
  @FindCoordinator Z net_failing (example_config true 0) 9 1 [103] CoordinatorGroup no_response (informed, 5) = Fault FDiverge.
Proof.
  split.
  - by apply (proj1 (proj2 (@client_loops_endless Z net_failing (example_config true 0) seeded 5))).
  - by apply (proj1 (@client_loops_endless Z net_failing (example_config true 0) informed 5)).
Defined.
Example outage_closes_client_witness :
  exists c' e', @refreshes Z net_down (example_config true 0) 1 1 [] (seeded, 5) = Done [INVALID] (c', e') /\ Closed c' = true /\
    @RefreshMetadata Z net_up (example_config true 0) 9 [] (c', 77) = Done ErrClosedClient (c', 77).
Proof.
  destruct (@outage_closes_client Z net_down (example_config true 0) 0 [] seeded 5 ltac:(done) eq_refl)
    as (c' & e' & E1 & H1 & _ & H). exists c', e'. split; [exact E1|]. split; [exact H1|].
  by apply (H Z net_up 77 (example_config true 0) 9%nat [] [] 0 []).
Defined.
