(* ===== verification/BrokerExchange.v ===== *)
(** * One exchange with a broker

    [SendAndReceive] of [coev_kafka/broker.h] over [connect.cpp]: choosing a version the
    broker understands, framing and writing the request, reading the response and decoding
    it.  The socket is the interface [Transport]; this file puts the codec, the request
    frames and the connection together. *)
From Stdlib Require Import ZArith Lia Bool.
From stdpp Require Import base tactics list numbers.
From S2P Require Import Prelude Errors Wire Decoder Encoder Codec CodecEnc CodecDec EncoderDecoder StdMap GroupMessages SetVersion Requests.

(** ** Data *)

(* coev_kafka/connect.h:14-20 OpenState *)
Definition OpenState := Z.
Definition CLOSED : OpenState := 0.
Definition OPENING : OpenState := 1.
Definition OPENED : OpenState := 2.

(* coev_kafka/api_versions.h:17-23 ApiVersionRange *)
Record ApiVersionRange := mkApiVersionRange { m_min_version : Z; m_max_version : Z }.
(** [m_conn] is null or has a state; what the socket holds is the [Transport]'s. *)
(* coev_kafka/broker.h:186-192 Broker *)
Record Broker := mkBrokerState {
  bk_conn : option OpenState;
  bk_correlation_id : Z;
  bk_session_reauthentication_time : Z;
  bk_broker_api_versions : list (Z * ApiVersionRange) }.
Definition with_conn x (b : Broker) :=
  mkBrokerState x (bk_correlation_id b) (bk_session_reauthentication_time b) (bk_broker_api_versions b).
Definition with_correlation x (b : Broker) :=
  mkBrokerState (bk_conn b) x (bk_session_reauthentication_time b) (bk_broker_api_versions b).

(** [m_body] is the whole response behind its length and id, [m_packets] its body. *)
(* coev_kafka/response_promise.h:21-28 ResponsePromise *)
Record ResponsePromise (Res : Type) := mkResponsePromise {
  pr_correlation_id : Z; pr_body : list Z; pr_packets : list Z; pr_response : Res }.
Arguments mkResponsePromise {Res}.
Arguments pr_correlation_id {Res}.
Arguments pr_body {Res}.
Arguments pr_packets {Res}.
Arguments pr_response {Res}.
Definition with_response {Res} (x : Res) (p : ResponsePromise Res) : ResponsePromise Res :=
  mkResponsePromise (pr_correlation_id p) (pr_body p) (pr_packets p) x.

(** The socket and the host: whether there is a descriptor, one [recv] and one [send] (with
    what the code makes of their results: the number of bytes, 0 or -1), closing, the clock,
    and what another coroutine that is opening the connection leaves behind. *)
Class Transport (E : Type) := {
  tr_valid : E -> bool;
  tr_recv : Z -> E -> (Z * list Z) * E;
  tr_send : list Z -> E -> Z * E;
  tr_close : E -> E;
  tr_unix_milli : E -> Z * E;
  tr_wait_opened : Broker -> E -> Broker * E }.
Definition INVALID : Z := -1.

(** ** The connection *)

Section Exchange.
Context {E : Type} {transport : Transport E}.
Abbreviation BM := (M (Broker * E)).

Definition bk_gets {A} (f : Broker -> A) : BM A := fun s => Done (f (fst s)) s.
Definition bk_modify (f : Broker -> Broker) : BM unit := fun s => Done tt (f (fst s), snd s).
Definition bk_call {A} (f : E -> A * E) : BM A := fun s => let '(a, e) := f (snd s) in Done a (fst s, e).
Definition bk_valid : BM bool := fun s => Done (tr_valid (snd s)) s.

(* coev_kafka/connect.cpp Connect::Close *)
Definition Connect_Close : BM Z :=
  bk_modify (with_conn (Some CLOSED)) ;;; bk_call (fun e => (0, tr_close e)).
Definition zeros (n : Z) : list Z := replicate (Z.to_nat n) 0.
(** The bytes read so far and how many are missing; the buffer is full of zeros at first. *)
(* coev_kafka/connect.cpp:22-43 Connect::ReadFull *)
Fixpoint read_loop (fuel : nat) (buf : list Z) (res : Z) : BM (Z * list Z) :=
  match fuel with
  | O => fail FDiverge
  | S fuel' =>
      let* valid := bk_valid in
      if valid && (0 <? res) then
        let* got := bk_call (tr_recv res) in
        let '(r, bytes) := got in
        if (r =? INVALID) || (r =? 0) then Connect_Close ;;; ret (ErrIOEOF, buf ++ zeros res)
        else read_loop fuel' (buf ++ bytes) (res - r)
      else ret (ErrNoError, buf ++ zeros res)
  end.
Definition Connect_ReadFull (n : Z) : BM (Z * list Z) := read_loop (S (Z.to_nat n)) [] n.
(* coev_kafka/connect.cpp:48-66 Connect::Write *)
Fixpoint write_loop (fuel : nat) (buf : list Z) : BM Z :=
  match fuel with
  | O => fail FDiverge
  | S fuel' =>
      let* valid := bk_valid in
      if valid && negb (empty buf) then
        let* r := bk_call (tr_send buf) in
        if (r =? INVALID) || (r =? 0) then Connect_Close ;;; ret ErrIOEOF
        else write_loop fuel' (drop (Z.to_nat r) buf)
      else ret ErrNoError
  end.
Definition Connect_Write (buf : list Z) : BM Z := write_loop (S (length buf)) buf.

(** ** The broker *)

(* coev_kafka/broker.cpp Broker::Connected *)
Definition Connected (b : Broker) : bool := match bk_conn b with Some st => st =? OPENED | None => false end.
(** [assert(m_conn->IsOpened());] *)
Definition assert_opened : BM unit :=
  let* conn := bk_gets bk_conn in
  match conn with
  | None => fail FUB
  | Some st => if st =? OPENED then ret tt else fail FAssert
  end.
(* coev_kafka/broker.cpp Broker::Ready *)
Definition Ready : BM Z :=
  let* conn := bk_gets bk_conn in
  match conn with
  | None => ret INVALID
  | Some st =>
      if st =? CLOSED then ret INVALID
      else if st =? OPENING then
        (fun s => Done tt (tr_wait_opened (fst s) (snd s))) ;;;
        let* conn := bk_gets bk_conn in
        match conn with None => fail FUB | Some st => ret (if st =? CLOSED then INVALID else 0) end
      else ret 0
  end.
(* coev_kafka/broker.cpp Broker::ReadFull *)
Definition Broker_ReadFull (n : Z) : BM (Z * list Z) :=
  assert_opened ;;;
  let* got := Connect_ReadFull n in
  ret (if negb (fst got =? ErrNoError) then INVALID else 0, snd got).
(* coev_kafka/broker.cpp Broker::Write *)
Definition Broker_Write (buf : list Z) : BM Z := assert_opened ;;; Connect_Write buf.
(* coev_kafka/broker.cpp Broker::Close *)
Definition Broker_Close : BM Z :=
  let* conn := bk_gets bk_conn in
  match conn with
  | Some st => if (st =? OPENED) || (st =? OPENING) then Connect_Close else ret ErrNotConnected
  | None => ret ErrNotConnected
  end.
(* coev_kafka/broker.cpp Broker::SafeAsyncClose *)
Definition Broker_SafeAsyncClose : BM unit :=
  let* connected := bk_gets Connected in
  if connected then Broker_Close ;;; ret tt else ret tt.

(* coev_kafka/api_versions.h RestrictApiVersion *)
Definition RestrictApiVersion {T} `{protocol_body T, Versioned T} (pb : T) (brokerVersions : list (Z * ApiVersionRange)) : T :=
  let clientMax := pb_version pb in
  match map_find (pb_key pb) brokerVersions with
  | Some range =>
      set_version pb (Z.min clientMax (Z.max (m_min_version range) (Z.min clientMax (m_max_version range))))
  | None => pb
  end.

(* coev_kafka/response_promise.h:32-40 ResponsePromise::decode *)
Definition promise_decode {Res} `{protocol_body Res} (p : ResponsePromise Res) (version : Z) : BM (Z * ResponsePromise Res) :=
  fun s => match decode_version (pr_packets p) (pr_response p) version with
           | Fault f => Fault f
           | Done (Err _) _ => Done (ErrDecodeError, p) s
           | Done (Ok m) _ => Done (ErrNoError, with_response m p) s
           end.

Section Bodies.
Context {Req Res : Type} `{protocol_body Req, Versioned Req, protocol_body Res, Versioned Res}.
(** The client id of the configuration, and re-authentication *)
Context (ClientID : list Z) (AuthenticateViaSASLv1 : BM Z).

(** [m_correlation_id++] *)
Definition next_correlation_id : BM unit :=
  let* id := bk_gets bk_correlation_id in
  if id =? INT32_MAX then fail FUB else bk_modify (with_correlation (id + 1)).
(** [coev::kafka::encode(_request, buf)], whose code is not looked at *)
Definition encode_request (_request : Request Req) : BM (list Z) := fun s =>
  match encode_object (fun r => let* x := Request_encode r in ret (x, r)) _request [] with
  | Fault f => Fault f
  | Done (_, buf) _ => Done buf s
  end.
(** The code, the request at the version it was sent in, and the promise *)
(* coev_kafka/broker.h Broker::SendInternal *)
Definition SendInternal (request : Req) (promise : ResponsePromise Res) : BM (Z * Req * ResponsePromise Res) :=
  let* versions := bk_gets bk_broker_api_versions in
  let request := RestrictApiVersion request versions in
  let* id := bk_gets bk_correlation_id in
  let* buf := encode_request (mkRequest id ClientID request) in
  let* err := Broker_Write buf in
  if negb (err =? 0) then ret (err, request, promise)
  else
    next_correlation_id ;;;
    ret (ErrNoError, request, mkResponsePromise id (pr_body promise) (pr_packets promise) (pr_response promise)).

(** Where the body starts behind the tag section; a bad section is not reported. *)
(* coev_kafka/broker.h:332-342 Broker::ResponseReceiver *)
Definition body_offset (header_version : Z) (body : list Z) : outcome packet_decoder Z :=
  if 1 <=? header_version then
    match flexible_decode getEmptyTaggedFieldArray (new_decoder body) with
    | Fault f => Fault f
    | Done _ d => Done (pd_offset d) d
    end
  else Done 0 (new_decoder body).
(** What is done with the body once it has been read *)
(* coev_kafka/broker.h:331-361 Broker::ResponseReceiver *)
Definition receive_body (version : Z) (body : list Z) (promise : ResponsePromise Res) : BM (Z * ResponsePromise Res) :=
  let response := set_version (pr_response promise) version in
  match body_offset (pb_header_version response) body with
  | Fault f => fail f
  | Done offset _ =>
      if Zlen body <? offset then ret (ErrDecodeError, mkResponsePromise (pr_correlation_id promise) body (pr_packets promise) response)
      else promise_decode (mkResponsePromise (pr_correlation_id promise) body (drop (Z.to_nat offset) body) response) version
  end.
(** The two integers of the fixed header *)
Definition fixed_header (header : list Z) : outcome packet_decoder (dres (Z * Z)) :=
  (let! length := getInt32 in let! id := getInt32 in ok (length, id)) (new_decoder header).
(** [m_length - 4] as the size to be read; one that is negative is refused by [resize]. *)
Definition remaining_bytes (length : Z) : BM Z :=
  if length - 4 <? - (INT32_MAX + 1) then fail FUB else if length - 4 <? 0 then fail FThrow else ret (length - 4).
(* coev_kafka/broker.h Broker::ResponseReceiver *)
Definition ResponseReceiver (request : Req) (promise : ResponsePromise Res) : BM (Z * ResponsePromise Res) :=
  let* got := Broker_ReadFull 8 in
  if negb (fst got =? 0) then ret (fst got, promise)
  else
    match fixed_header (snd got) with
    | Fault f => fail f
    | Done (Err c) _ => ret (c, promise)
    | Done (Ok (length, id)) _ =>
        if negb (id =? pr_correlation_id promise) then ret (ErrCorrelationID, promise)
        else
          let* n := remaining_bytes length in
          let* got := Broker_ReadFull n in
          if negb (fst got =? 0) then ret (fst got, promise)
          else receive_body (pb_version request) (snd got) promise
    end.

(** [m_session_reauthentication_time > 0 && CurrentUnixMilli() > m_session_reauthentication_time] *)
Definition session_expired : BM bool :=
  let* time := bk_gets bk_session_reauthentication_time in
  if 0 <? time then let* now := bk_call tr_unix_milli in ret (time <? now) else ret false.
(* coev_kafka/broker.h Broker::SendAndReceive *)
Definition Broker_SendAndReceive (request : Req) (promise : ResponsePromise Res) : BM (Z * Req * ResponsePromise Res) :=
  let* expired := session_expired in
  let* err := if expired then AuthenticateViaSASLv1 else ret ErrNoError in
  if negb (err =? ErrNoError) then ret (err, request, promise)
  else
    let* err := Ready in
    if negb (err =? 0) then ret (err, request, promise)
    else
      let* sent := SendInternal request promise in
      let '(err, request, promise) := sent in
      if negb (err =? ErrNoError) then ret (err, request, promise)
      else
        let* received := ResponseReceiver request promise in
        let '(err, promise) := received in
        ret (err, request, promise).
End Bodies.
End Exchange.

(** ** A byte stream

    What a connected stream socket promises: a receive hands out some of the bytes that have
    come in, at least one, in order, and fails when there is none left and the peer has
    closed; a send takes some of the bytes, at least one. *)
Class Stream (E : Type) `{Transport E} := {
  unread : E -> list Z;
  sent : E -> list Z;
  alive : E -> Prop;
  alive_valid e : alive e -> tr_valid e = true;
  recv_some n e : alive e -> 0 < n -> unread e <> [] ->
    exists bytes tl e', tr_recv n e = ((Zlen bytes, bytes), e') /\ bytes <> [] /\ Zlen bytes <= n /\
      unread e = bytes ++ tl /\ unread e' = tl /\ sent e' = sent e /\ alive e';
  recv_end n e : alive e -> 0 < n -> unread e = [] ->
    exists bytes e', tr_recv n e = ((INVALID, bytes), e') /\ sent e' = sent e /\ unread e' = [];
  send_some buf e : alive e -> buf <> [] ->
    exists n e', tr_send buf e = (n, e') /\ 0 < n <= Zlen buf /\
      sent e' = sent e ++ take (Z.to_nat n) buf /\ unread e' = unread e /\ alive e';
  close_keeps e : unread (tr_close e) = unread e /\ sent (tr_close e) = sent e;
  clock_keeps e : alive e -> alive (snd (tr_unix_milli e)) /\
    unread (snd (tr_unix_milli e)) = unread e /\ sent (snd (tr_unix_milli e)) = sent e }.

Section Reading.
Context {E : Type} `{Stream E}.

Lemma Zlen_zeros n : 0 <= n -> Zlen (zeros n) = n.
Proof. apply Zlen_replicate. Qed.

Lemma Zlen_pos (l : list Z) : l <> [] -> 0 < Zlen l.
Proof. intros. destruct l; [done|]. rewrite Zlen_cons. pose proof (Zlen_nonneg l). lia. Qed.

Lemma piece_of (bs tl bytes tl' : list Z) :
  bs ++ tl = bytes ++ tl' -> Zlen bytes <= Zlen bs -> exists l, bs = bytes ++ l /\ tl' = l ++ tl.
Proof.
  intros E0 Hl. exists (drop (length bytes) bs). unfold Zlen in Hl.
  assert (bytes = take (length bytes) bs) as Hb.
  { apply (f_equal (take (length bytes))) in E0. rewrite take_app_le, take_app_length in E0 by lia. done. }
  split; [by rewrite Hb at 1; rewrite take_drop|].
  apply (f_equal (drop (length bytes))) in E0. rewrite drop_app_le, drop_app_length in E0 by lia. done.
Qed.

(** All that is asked for is read if it is there, in however many pieces it comes. *)
Lemma read_loop_all fuel buf bs tl b e :
  alive e -> unread e = bs ++ tl -> Zlen bs < Z.of_nat fuel ->
  exists e', read_loop fuel buf (Zlen bs) (b, e) = Done (ErrNoError, buf ++ bs) (b, e') /\
    alive e' /\ unread e' = tl /\ sent e' = sent e.
Proof.
  revert buf bs e. induction fuel as [|fuel IH]; intros buf bs e Ha Hu Hf; [pose proof (Zlen_nonneg bs); lia|].
  cbn [read_loop]. unfold bind at 1, bk_valid. cbn [snd]. rewrite (alive_valid e Ha). cbn [andb].
  destruct (decide (bs = [])) as [->|Hne].
  { change (0 <? Zlen []) with false. exists e. unfold ret, zeros, Zlen. cbn [length Z.of_nat Z.to_nat replicate]. by rewrite !app_nil_r. }
  pose proof (Zlen_pos bs Hne) as Hp. replace (0 <? Zlen bs) with true by lia.
  destruct (recv_some (Zlen bs) e Ha Hp) as (bytes & tl' & e1 & Hr & Hb & Hl & Hs & Hu1 & Hs1 & Ha1).
  { rewrite Hu. by destruct bs. }
  unfold bind at 1, bk_call. cbn [fst snd]. rewrite Hr. cbn [fst snd]. pose proof (Zlen_pos bytes Hb).
  unfold INVALID. replace ((Zlen bytes =? -1) || (Zlen bytes =? 0)) with false by lia.
  rewrite Hu in Hs. destruct (piece_of _ _ _ _ Hs Hl) as (l & -> & ->).
  destruct (IH (buf ++ bytes) l e1 Ha1 Hu1) as (e' & Hl' & Ha' & Hu' & Hs').
  { rewrite Zlen_app in Hf. lia. }
  exists e'. rewrite Zlen_app. replace (Zlen bytes + Zlen l - Zlen bytes) with (Zlen l) by lia.
  rewrite Hl', <- app_assoc, <- Hs1. done.
Qed.

(** Too little before the peer closes: an error, and the connection is closed. *)
Lemma read_loop_end fuel buf n b e :
  alive e -> Zlen (unread e) < n -> n < Z.of_nat fuel ->
  exists bytes e', read_loop fuel buf n (b, e) = Done (ErrIOEOF, bytes) (with_conn (Some CLOSED) b, e') /\ unread e' = [] /\
    sent e' = sent e.
Proof.
  revert buf n e. induction fuel as [|fuel IH]; intros buf n e Ha Hu Hf; pose proof (Zlen_nonneg (unread e)); [lia|].
  cbn [read_loop]. unfold bind at 1, bk_valid. cbn [snd]. rewrite (alive_valid e Ha). cbn [andb].
  replace (0 <? n) with true by lia. unfold bind at 1, bk_call. cbn [fst snd].
  destruct (decide (unread e = [])) as [Hn|Hn].
  - destruct (recv_end n e Ha) as (bytes & e1 & -> & Hs1 & Hu1); [lia|done|]. cbn [fst snd].
    unfold INVALID. change ((-1 =? -1) || (-1 =? 0)) with true. cbn iota.
    unfold Connect_Close, bk_modify, bk_call, bind, ret. cbn [fst snd].
    destruct (close_keeps e1) as [Hc1 Hc2]. do 2 eexists. split; [done|]. by rewrite Hc1, Hc2.
  - destruct (recv_some n e Ha) as (bytes & tl & e1 & -> & Hb & Hl & Hs & Hu1 & Hs1 & Ha1); [lia|done|].
    cbn [fst snd]. pose proof (Zlen_pos bytes Hb).
    unfold INVALID. replace ((Zlen bytes =? -1) || (Zlen bytes =? 0)) with false by lia.
    destruct (IH (buf ++ bytes) (n - Zlen bytes) e1 Ha1) as (bytes' & e' & Hd & Hr).
    + rewrite Hs, Zlen_app in Hu. rewrite Hu1. lia.
    + lia.
    + exists bytes', e'. by rewrite Hd, <- Hs1.
Qed.

(** All that is to be written is sent, in however many pieces. *)
Lemma write_loop_all fuel buf b e :
  alive e -> (length buf < fuel)%nat ->
  exists e', write_loop fuel buf (b, e) = Done ErrNoError (b, e') /\
    alive e' /\ unread e' = unread e /\ sent e' = sent e ++ buf.
Proof.
  revert buf e. induction fuel as [|fuel IH]; intros buf e Ha Hf; [lia|].
  cbn [write_loop]. unfold bind at 1, bk_valid. cbn [snd]. rewrite (alive_valid e Ha). cbn [andb].
  destruct (decide (buf = [])) as [->|Hne].
  { exists e. cbn. by rewrite app_nil_r. }
  rewrite empty_false by done. cbn [negb]. unfold bind at 1, bk_call. cbn [fst snd].
  destruct (send_some buf e Ha Hne) as (n & e1 & -> & Hn & Hs1 & Hu1 & Ha1). cbn [fst snd].
  unfold INVALID. replace ((n =? -1) || (n =? 0)) with false by lia.
  destruct (IH (drop (Z.to_nat n) buf) e1 Ha1) as (e' & -> & Ha' & Hu' & Hs').
  { rewrite length_drop. unfold Zlen in Hn. lia. }
  exists e'. rewrite Hu', Hu1, Hs', Hs1, <- app_assoc, take_drop. done.
Qed.

Lemma Broker_ReadFull_all bs tl b e :
  bk_conn b = Some OPENED -> alive e -> unread e = bs ++ tl ->
  exists e', Broker_ReadFull (Zlen bs) (b, e) = Done (0, bs) (b, e') /\ alive e' /\ unread e' = tl /\ sent e' = sent e.
Proof.
  intros Hc Ha Hu. unfold Broker_ReadFull, assert_opened, bk_gets, bind. cbn [fst]. rewrite Hc. unfold ret at 1.
  change (OPENED =? OPENED) with true. cbn iota. unfold Connect_ReadFull.
  destruct (read_loop_all (S (Z.to_nat (Zlen bs))) [] bs tl b e Ha Hu) as (e' & -> & Hr); [lia|].
  by exists e'.
Qed.
Lemma Broker_ReadFull_end n b e :
  bk_conn b = Some OPENED -> alive e -> Zlen (unread e) < n ->
  exists bytes e', Broker_ReadFull n (b, e) = Done (INVALID, bytes) (with_conn (Some CLOSED) b, e') /\ unread e' = [] /\ sent e' = sent e.
Proof.
  intros Hc Ha Hu. unfold Broker_ReadFull, assert_opened, bk_gets, bind. cbn [fst]. rewrite Hc. unfold ret at 1.
  change (OPENED =? OPENED) with true. cbn iota. unfold Connect_ReadFull. pose proof (Zlen_nonneg (unread e)).
  destruct (read_loop_end (S (Z.to_nat n)) [] n b e Ha Hu) as (bytes & e' & -> & Hr); [lia|].
  by exists bytes, e'.
Qed.
Lemma Broker_Write_all buf b e :
  bk_conn b = Some OPENED -> alive e ->
  exists e', Broker_Write buf (b, e) = Done ErrNoError (b, e') /\ alive e' /\ unread e' = unread e /\ sent e' = sent e ++ buf.
Proof.
  intros Hc Ha. unfold Broker_Write, assert_opened, bk_gets, bind. cbn [fst]. rewrite Hc. unfold ret at 1.
  change (OPENED =? OPENED) with true. cbn iota. unfold Connect_Write. apply write_loop_all; [done|lia].
Qed.
End Reading.

(** ** Sending *)

Section Sending.
Context {E : Type} `{Stream E} {Req Res : Type} `{protocol_body Req, !Versioned Req, protocol_body Res, !Versioned Res}.
Context (ClientID : list Z).

Definition promise_of (id : Z) (p : ResponsePromise Res) : ResponsePromise Res :=
  mkResponsePromise id (pr_body p) (pr_packets p) (pr_response p).

(** Whatever [encode] has left in the buffer is sent, and the exchange has the next id. *)
Lemma SendInternal_run (rq : Req) (p : ResponsePromise Res) b (e : E) code buf obj :
  bk_conn b = Some OPENED -> alive e -> bk_correlation_id b <> INT32_MAX ->
  let rq' := RestrictApiVersion rq (bk_broker_api_versions b) in
  encode_object (fun r => let* x := Request_encode r in ret (x, r)) (mkRequest (bk_correlation_id b) ClientID rq') []
    = Done (code, buf) obj ->
  exists e', SendInternal ClientID rq p (b, e) =
      Done (ErrNoError, rq', promise_of (bk_correlation_id b) p) (with_correlation (bk_correlation_id b + 1) b, e') /\
    alive e' /\ unread e' = unread e /\ sent e' = sent e ++ buf.
Proof.
  intros Hc Ha Hid rq' Henc. unfold SendInternal, bk_gets. unfold bind at 1 2. cbn [fst]. fold rq'.
  unfold bind at 1, encode_request. rewrite Henc. unfold bind at 1.
  destruct (Broker_Write_all buf b e Hc Ha) as (e' & -> & Hr). change (negb (ErrNoError =? 0)) with false. cbn iota.
  unfold next_correlation_id, bk_gets, bk_modify, bind, ret. cbn [fst snd].
  replace (bk_correlation_id b =? INT32_MAX) with false by lia. by exists e'.
Qed.
End Sending.

(** ** Receiving *)

(** A response as it comes in: its length, the id and the rest *)
Definition response_frame (id : Z) (content : list Z) : list Z := be 4 (4 + Zlen content) ++ be 4 id ++ content.
(** What follows the id: the tag section, if there is one, and the body *)
Definition response_content {Res} `{WireFormat Res} (m : Res) : list Z := w_tags (1 <=? pb_header_version m) ++ wire m.

Lemma fixed_header_be length id :
  in_s 32 length -> in_s 32 id -> exists d, fixed_header (be 4 length ++ be 4 id) = Done (Ok (length, id)) d.
Proof.
  intros Hl Hi. eexists. unfold fixed_header.
  rewrite <- (app_nil_r (be 4 id)).
  assert (consumes false (let! length := getInt32 in let! id := getInt32 in ok (length, id)) (Ok (length, id))
            (be 4 length ++ be 4 id ++ [])) as Hc.
  { do 2 (eapply consumes_let; [by apply consumes_getInt32|]). apply consumes_ret. }
  apply (Hc _ []); [|done|by rewrite app_nil_r].
  apply new_decoder_ok. rewrite !Zlen_app, !Zlen_be. by vm_compute.
Qed.

Lemma body_offset_tags hv bs :
  Zlen (w_tags (1 <=? hv) ++ bs) < LIMIT ->
  exists d, body_offset hv (w_tags (1 <=? hv) ++ bs) = Done (Zlen (w_tags (1 <=? hv))) d.
Proof.
  intros Hl. unfold body_offset. destruct (1 <=? hv); [|by eexists].
  pose proof (consumes_flexible _ _ _ (consumes_getEmptyTaggedFieldArray true)) as Hc.
  unfold flexible_decode. rewrite (Hc _ bs); [|by apply new_decoder_ok|done|done]. by eexists.
Qed.

Section Receiving.
Context {E : Type} `{Stream E} {Req Res : Type} `{protocol_body Req, !Versioned Req, protocol_body Res, !Versioned Res}.
Context (ClientID : list Z).

(** A response with another id: its content is left unread. *)
Lemma ResponseReceiver_other (rq : Req) (p : ResponsePromise Res) b (e : E) length id content :
  bk_conn b = Some OPENED -> alive e -> in_s 32 length -> in_s 32 id ->
  unread e = be 4 length ++ be 4 id ++ content -> id <> pr_correlation_id p ->
  exists e', ResponseReceiver rq p (b, e) = Done (ErrCorrelationID, p) (b, e') /\
    alive e' /\ unread e' = content /\ sent e' = sent e.
Proof.
  intros Hc Ha Hl Hi Hu Hne. unfold ResponseReceiver. rewrite app_assoc in Hu.
  destruct (Broker_ReadFull_all _ _ b e Hc Ha Hu) as (e' & Hr & Hrest).
  rewrite Zlen_app, !Zlen_be in Hr. unfold bind at 1. change (Z.of_nat 4 + Z.of_nat 4) with 8 in Hr. rewrite Hr. cbn [fst snd].
  change (negb (0 =? 0)) with false. cbn iota. destruct (fixed_header_be length id Hl Hi) as [d ->].
  rewrite (proj2 (Z.eqb_neq _ _) Hne). by exists e'.
Qed.
(** A length below that of the id *)
Lemma ResponseReceiver_short (rq : Req) (p : ResponsePromise Res) b (e : E) length content :
  bk_conn b = Some OPENED -> alive e -> in_s 32 length -> in_s 32 (pr_correlation_id p) -> - 2 ^ 31 + 4 <= length < 4 ->
  unread e = be 4 length ++ be 4 (pr_correlation_id p) ++ content ->
  ResponseReceiver rq p (b, e) = Fault FThrow.
Proof.
  intros Hc Ha Hl Hi Hs Hu. unfold ResponseReceiver. rewrite app_assoc in Hu.
  destruct (Broker_ReadFull_all _ _ b e Hc Ha Hu) as (e' & Hr & _).
  rewrite Zlen_app, !Zlen_be in Hr. unfold bind at 1. change (Z.of_nat 4 + Z.of_nat 4) with 8 in Hr. rewrite Hr. cbn [fst snd].
  change (negb (0 =? 0)) with false. cbn iota. destruct (fixed_header_be length _ Hl Hi) as [d ->].
  rewrite Z.eqb_refl. cbn [negb]. unfold bind, remaining_bytes, INT32_MAX, fail.
  replace (length - 4 <? _) with false by lia. by replace (length - 4 <? 0) with true by lia.
Qed.
(** A response that ends within its header *)
Lemma ResponseReceiver_end (rq : Req) (p : ResponsePromise Res) b (e : E) :
  bk_conn b = Some OPENED -> alive e -> Zlen (unread e) < 8 ->
  exists e', ResponseReceiver rq p (b, e) = Done (INVALID, p) (with_conn (Some CLOSED) b, e') /\ sent e' = sent e.
Proof.
  intros Hc Ha Hu. unfold ResponseReceiver.
  destruct (Broker_ReadFull_end 8 b e Hc Ha Hu) as (bytes & e' & Hr & _ & Hs). unfold bind at 1. rewrite Hr. cbn [fst snd].
  change (negb (INVALID =? 0)) with true. by exists e'.
Qed.
(** A response with the id it was waited for: its content is read to its end. *)
Lemma ResponseReceiver_content (rq : Req) (p : ResponsePromise Res) b (e : E) content tl :
  bk_conn b = Some OPENED -> alive e -> in_s 32 (4 + Zlen content) -> in_s 32 (pr_correlation_id p) ->
  unread e = response_frame (pr_correlation_id p) content ++ tl ->
  exists e', ResponseReceiver rq p (b, e) = receive_body (pb_version rq) content p (b, e') /\
    alive e' /\ unread e' = tl /\ sent e' = sent e.
Proof.
  intros Hc Ha Hl Hi Hu. unfold ResponseReceiver, response_frame in *. rewrite <- app_assoc, <- app_assoc, app_assoc in Hu.
  destruct (Broker_ReadFull_all _ _ b e Hc Ha Hu) as (e1 & Hr & Ha1 & Hu1 & Hs1).
  rewrite Zlen_app, !Zlen_be in Hr. unfold bind at 1. change (Z.of_nat 4 + Z.of_nat 4) with 8 in Hr. rewrite Hr. cbn [fst snd].
  change (negb (0 =? 0)) with false. cbn iota. destruct (fixed_header_be _ _ Hl Hi) as [d ->].
  rewrite Z.eqb_refl. cbn [negb]. pose proof (Zlen_nonneg content). unfold remaining_bytes, INT32_MAX.
  replace (4 + Zlen content - 4) with (Zlen content) by lia.
  replace (Zlen content <? _) with false by lia. replace (Zlen content <? 0) with false by lia. unfold bind at 1, ret at 1.
  destruct (Broker_ReadFull_all _ _ b e1 Hc Ha1 Hu1) as (e2 & Hr2 & Ha2 & Hu2 & Hs2).
  unfold bind at 1. rewrite Hr2. cbn [fst snd]. change (negb (0 =? 0)) with false. cbn iota.
  exists e2. rewrite Hs2, Hs1. done.
Qed.
End Receiving.

Section Decoding.
Context {E : Type} `{Stream E} {Res : Type} `{VersionLaws Res}.

(** The content of a well-formed response decodes to the message. *)
Lemma receive_body_decodes (m : Res) (p : ResponsePromise Res) v0 b (e : E) :
  pr_response p = wire_initial v0 -> wire_ok m -> Zlen (response_content m) <= MaxRequestSize ->
  wire m <> [] \/ wire_initial (pb_version m) = m ->
  receive_body (pb_version m) (response_content m) p (b, e) =
    Done (ErrNoError, mkResponsePromise (pr_correlation_id p) (response_content m) (wire m) m) (b, e).
Proof.
  intros Hp Hok Hl Hne. unfold receive_body. rewrite Hp, set_version_initial.
  rewrite (header_by_version (wire_initial (pb_version m)) m (version_initial _)).
  unfold response_content in *. unfold MaxRequestSize in Hl.
  destruct (body_offset_tags (pb_header_version m) (wire m)) as [d ->]; [unfold LIMIT; lia|].
  rewrite Zlen_app in *. pose proof (Zlen_nonneg (wire m)). pose proof (Zlen_nonneg (w_tags (1 <=? pb_header_version m))).
  replace (_ + _ <? _) with false by lia. rewrite drop_app_length' by (unfold Zlen; lia).
  destruct (wire_roundtrips m Hok) as [_ (h & Hd & _)]; [unfold MaxRequestSize; lia|done|].
  unfold promise_decode. cbn [pr_packets pr_response]. by rewrite Hd.
Qed.
End Decoding.

(** ** Exchanges *)

Section Exchanging.
Context {E : Type} `{Stream E} {Req Res : Type} `{VersionLaws Req, VersionLaws Res}.
Context (ClientID : list Z) (AuthenticateViaSASLv1 : M (Broker * E) Z).

(** An open connection whose session need not be renewed *)
Definition in_session (b : Broker) : Prop :=
  bk_conn b = Some OPENED /\
  (0 < bk_session_reauthentication_time b ->
   forall e : E, alive e -> fst (tr_unix_milli e) <= bk_session_reauthentication_time b).

(** Up to the point where the request has been sent *)
Lemma exchange_sends (rq : Req) (p : ResponsePromise Res) b (e : E) code buf obj :
  in_session b -> alive e -> bk_correlation_id b <> INT32_MAX ->
  let rq' := RestrictApiVersion rq (bk_broker_api_versions b) in
  let id := bk_correlation_id b in
  encode_object (fun r => let* x := Request_encode r in ret (x, r)) (mkRequest id ClientID rq') [] = Done (code, buf) obj ->
  exists e', Broker_SendAndReceive ClientID AuthenticateViaSASLv1 rq p (b, e) =
      (let* received := ResponseReceiver rq' (promise_of id p) in
       let '(err, promise) := received in ret (err, rq', promise)) (with_correlation (id + 1) b, e') /\
    alive e' /\ unread e' = unread e /\ sent e' = sent e ++ buf.
Proof.
  intros [Hc Hs] Ha Hid rq' id Henc. unfold Broker_SendAndReceive.
  assert (exists e0, session_expired (b, e) = Done false (b, e0) /\ alive e0 /\ unread e0 = unread e /\ sent e0 = sent e)
    as (e0 & Hexp & Ha0 & Hu0 & Hs0).
  { unfold session_expired, bk_gets, bk_call, bind. cbn [fst snd].
    destruct (0 <? bk_session_reauthentication_time b) eqn:Ht; [|by exists e].
    destruct (clock_keeps e Ha) as (? & ? & ?). assert (fst (tr_unix_milli e) <= _) as Hle by (apply Hs; [lia|done]).
    cbn [fst snd]. destruct (tr_unix_milli e) as [now e0]. cbn [fst snd] in *. exists e0. unfold ret.
    by replace (bk_session_reauthentication_time b <? now) with false by lia. }
  unfold bind at 1. rewrite Hexp. unfold bind at 1, ret at 1. change (negb (ErrNoError =? ErrNoError)) with false. cbn iota.
  assert (Ready (b, e0) = Done 0 (b, e0)) as Hready.
  { unfold Ready, bk_gets, bind. cbn [fst]. rewrite Hc. done. }
  unfold bind at 1. rewrite Hready. change (negb (0 =? 0)) with false. cbn iota.
  destruct (SendInternal_run ClientID rq p b e0 code buf obj Hc Ha0 Hid Henc) as (e' & Hsend & Ha' & Hu' & Hs').
  unfold bind at 1. rewrite Hsend. cbn iota. change (negb (ErrNoError =? ErrNoError)) with false. cbn iota.
  exists e'. rewrite Hu', Hs', Hu0, Hs0. done.
Qed.

(** A request and a response that answers it *)
Definition answers (versions : list (Z * ApiVersionRange)) (rq : Req) (m : Res) : Prop :=
  let rq' := RestrictApiVersion rq versions in
  wire_ok rq' /\ (forall id, Zlen (Request_frame wire (mkRequest id ClientID rq')) <= MaxRequestSize) /\
  wire_ok m /\ pb_version m = pb_version rq' /\ Zlen (response_content m) <= MaxRequestSize /\
  (wire m <> [] \/ wire_initial (pb_version m) = m).
(** A [ResponsePromise] as it is declared *)
Definition fresh_promise : ResponsePromise Res := mkResponsePromise 0 [] [] (wire_initial 0).

Lemma exchange_delivers (rq : Req) (m : Res) b (e : E) tl :
  in_session b -> alive e -> in_s 32 (bk_correlation_id b) -> bk_correlation_id b <> INT32_MAX ->
  Zlen ClientID <= INT16_MAX -> answers (bk_broker_api_versions b) rq m ->
  unread e = response_frame (bk_correlation_id b) (response_content m) ++ tl ->
  let rq' := RestrictApiVersion rq (bk_broker_api_versions b) in
  let id := bk_correlation_id b in
  exists e', Broker_SendAndReceive ClientID AuthenticateViaSASLv1 rq fresh_promise (b, e) =
      Done (ErrNoError, rq', mkResponsePromise id (response_content m) (wire m) m) (with_correlation (id + 1) b, e') /\
    alive e' /\ unread e' = tl /\ sent e' = sent e ++ Request_frame wire (mkRequest id ClientID rq').
Proof.
  intros Hse Ha Hi Hid Hcl (Hrq & Hfr & Hm & Hv & Hlen & Hne) Hu rq' id.
  assert (encode_object (fun r => let* x := Request_encode r in ret (x, r)) (mkRequest id ClientID rq') [] =
    Done (ErrNoError, [] ++ Request_frame wire (mkRequest id ClientID rq')) (mkRequest id ClientID rq')) as Henc.
  { apply encode_object_emits; [|apply Hfr].
    eapply emits_as; [eapply emits_bind; [|apply emits_ret]|apply app_nil_r].
    apply (Request_emits _ wire); [apply wire_flexible|by apply wire_encode|done]. }
  destruct (exchange_sends rq fresh_promise b e _ _ _ Hse Ha Hid Henc) as (e1 & -> & Ha1 & Hu1 & Hs1).
  fold rq' id. pose proof (Zlen_nonneg (response_content m)).
  destruct (ResponseReceiver_content rq' (promise_of id fresh_promise) (with_correlation (id + 1) b) e1 (response_content m) tl)
    as (e2 & Hr & Ha2 & Hu2 & Hs2); [apply Hse|done| |done|by rewrite Hu1|].
  { unfold MaxRequestSize in Hlen. unfold in_s. change (2 ^ (32 - 1)) with 2147483648. lia. }
  unfold bind. rewrite Hr. assert (pb_version rq' = pb_version m) as -> by done.
  rewrite (receive_body_decodes m _ 0) by done.
  exists e2. rewrite Hu2, Hs2, Hs1. done.
Qed.

(** *** One after another *)

(** The requests as they are sent and the responses as they come in, with consecutive ids *)
Fixpoint request_frames (versions : list (Z * ApiVersionRange)) (id : Z) (rqs : list Req) : list Z :=
  match rqs with
  | [] => []
  | rq :: rqs => Request_frame wire (mkRequest id ClientID (RestrictApiVersion rq versions)) ++ request_frames versions (id + 1) rqs
  end.
Fixpoint response_frames (id : Z) (ms : list Res) : list Z :=
  match ms with
  | [] => []
  | m :: ms => response_frame id (response_content m) ++ response_frames (id + 1) ms
  end.
(** One exchange for each request, with a promise of its own; the codes and responses *)
Fixpoint exchange_all (rqs : list Req) : M (Broker * E) (list (Z * Res)) :=
  match rqs with
  | [] => ret []
  | rq :: rqs =>
      let* got := Broker_SendAndReceive ClientID AuthenticateViaSASLv1 rq fresh_promise in
      let '(err, _, promise) := got in
      let* rest := exchange_all rqs in
      ret ((err, pr_response promise) :: rest)
  end.
End Exchanging.

(** C1: Requests that are exchanged one after another on an open connection each receive the
    response that answers them, however the stream is cut into pieces: if the peer sends
    well-formed responses of the same versions in order, each call returns 0 with its
    response decoded, what has been sent are the frames of the requests at versions the
    broker knows, with consecutive ids, and the stream is left at the next response. *)
Theorem exchanges_deliver {E} `{Stream E} {Req Res} `{VersionLaws Req, VersionLaws Res} ClientID auth
    (rqs : list Req) (ms : list Res) b (e : E) tl :
  in_session (E := E) b -> alive e -> Zlen ClientID <= INT16_MAX ->
  0 <= bk_correlation_id b -> bk_correlation_id b + Zlen rqs <= INT32_MAX ->
  Forall2 (answers ClientID (bk_broker_api_versions b)) rqs ms ->
  unread e = response_frames (bk_correlation_id b) ms ++ tl ->
  exists e', exchange_all ClientID auth rqs (b, e) =
      Done (map (fun m => (ErrNoError, m)) ms) (with_correlation (bk_correlation_id b + Zlen rqs) b, e') /\
    alive e' /\ unread e' = tl /\
    sent e' = sent e ++ request_frames ClientID (bk_broker_api_versions b) (bk_correlation_id b) rqs.
Proof.
  intros Hse Ha Hcl Hpos Hid Hans. revert b e Hse Ha Hpos Hid Hans. revert ms.
  induction rqs as [|rq rqs IH]; intros ms b e Hse Ha Hpos Hid Hans Hu.
  { inversion Hans; subst. exists e. change (@Zlen Req []) with 0. rewrite Z.add_0_r. cbn [request_frames response_frames exchange_all map] in *.
    rewrite app_nil_r. by destruct b. }
  inversion Hans as [|? m ? ms' Hm Hms]; subst. rewrite Zlen_cons in *. pose proof (Zlen_nonneg rqs).
  cbn [response_frames] in Hu. rewrite <- app_assoc in Hu. unfold INT32_MAX in *.
  destruct (exchange_delivers ClientID auth rq m b e (response_frames (bk_correlation_id b + 1) ms' ++ tl) Hse Ha) as (e1 & Hr & Ha1 & Hu1 & Hs1); try done.
  { unfold in_s. change (2 ^ (32 - 1)) with 2147483648. lia. }
  { unfold INT32_MAX. lia. }
  destruct (IH ms' (with_correlation (bk_correlation_id b + 1) b) e1) as (e2 & Hr2 & Ha2 & Hu2 & Hs2);
    [done|done|cbn; lia|cbn; lia|done|done|].
  exists e2. cbn [exchange_all]. unfold bind at 1. rewrite Hr. unfold bind at 1. rewrite Hr2. unfold ret.
  cbn [pr_response map]. cbn [request_frames with_correlation bk_correlation_id bk_broker_api_versions bk_conn
    bk_session_reauthentication_time] in *.
  rewrite Hs2, Hs1, <- app_assoc, Z.add_assoc. split_and!; try done.
Qed.

(** ** Where an exchange goes wrong *)

(** C15: An exchange on an open connection that does not get its answer.  A response with
    another id is refused, but what follows its id stays in the stream, where the next
    exchange takes it for a header; a length below four throws out of the client; a peer that
    closes gives [INVALID] and a closed connection.  A request that cannot be encoded is not
    reported: nothing is sent for it, an id is used up and a response is waited for, so that
    it ends like a lost connection when there is none. *)
Theorem exchange_out_of_step {E} `{Stream E} {Req Res} `{VersionLaws Req, VersionLaws Res} ClientID auth
    (rq : Req) b (e : E) code buf obj :
  in_session (E := E) b -> alive e -> in_s 32 (bk_correlation_id b) -> bk_correlation_id b <> INT32_MAX ->
  let rq' := RestrictApiVersion rq (bk_broker_api_versions b) in
  let id := bk_correlation_id b in
  let exchange := Broker_SendAndReceive ClientID auth rq (fresh_promise (Res := Res)) (b, e) in
  encode_object (fun r => let* x := Request_encode r in ret (x, r)) (mkRequest id ClientID rq') [] = Done (code, buf) obj ->
  (forall length other content, in_s 32 length -> in_s 32 other -> other <> id ->
     unread e = be 4 length ++ be 4 other ++ content ->
     exists e', exchange = Done (ErrCorrelationID, rq', promise_of id fresh_promise) (with_correlation (id + 1) b, e') /\
       alive e' /\ unread e' = content /\ sent e' = sent e ++ buf) /\
  (forall length content, in_s 32 length -> - 2 ^ 31 + 4 <= length < 4 -> unread e = be 4 length ++ be 4 id ++ content ->
     exchange = Fault FThrow) /\
  (Zlen (unread e) < 8 ->
     exists e', exchange = Done (INVALID, rq', promise_of id fresh_promise)
         (with_conn (Some CLOSED) (with_correlation (id + 1) b), e') /\ sent e' = sent e ++ buf) /\
  (code <> ErrNoError -> buf = []).
Proof.
  intros Hse Ha Hi Hid rq' id exchange Henc.
  destruct (exchange_sends ClientID auth rq fresh_promise b e code buf obj Hse Ha Hid Henc) as (e1 & Hx & Ha1 & Hu1 & Hs1).
  fold rq' id exchange in Hx. rewrite <- Hu1, <- Hs1. destruct Hse as [Hc _]. split_and!.
  - intros length other content Hl Ho Hne Hu.
    destruct (ResponseReceiver_other rq' (promise_of id fresh_promise) (with_correlation (id + 1) b) e1 length other content)
      as (e2 & Hr & Ha2 & Hu2 & Hs2); try done.
    exists e2. unfold bind in Hx. by rewrite Hx, Hr.
  - intros length content Hl Hsh Hu. rewrite Hx. unfold bind.
    by rewrite (ResponseReceiver_short rq' (promise_of id fresh_promise) (with_correlation (id + 1) b) e1 length content).
  - intros Hu. destruct (ResponseReceiver_end rq' (promise_of id fresh_promise) (with_correlation (id + 1) b) e1)
      as (e2 & Hr & Hs2); try done.
    exists e2. unfold bind in Hx. by rewrite Hx, Hr.
  - intros Hcode. revert Henc. unfold encode_object.
    repeat match goal with |- context [match ?x with _ => _ end] => destruct x end; intros [= <- <- <-]; done.
Qed.

(** The version a request is sent in: never above the one it was made for, one the broker
    knows whenever there is one, and the request's own when the broker did not name its key. *)
Theorem RestrictApiVersion_spec {T} `{VersionLaws T} (pb : T) versions :
  let version := pb_version (RestrictApiVersion pb versions) in
  version <= pb_version pb /\
  (map_find (pb_key pb) versions = None -> RestrictApiVersion pb versions = pb) /\
  forall range, map_find (pb_key pb) versions = Some range ->
    (m_min_version range <= m_max_version range -> m_min_version range <= pb_version pb ->
     m_min_version range <= version <= m_max_version range) /\
    (m_min_version range <= pb_version pb <= m_max_version range -> version = pb_version pb) /\
    (pb_version pb < m_min_version range -> version = pb_version pb).
Proof.
  unfold RestrictApiVersion. destruct (map_find (pb_key pb) versions) as [r|] eqn:Hf; cbn.
  - rewrite version_set. split_and!; [lia|done|]. intros range [= <-]. split_and!; lia.
  - split_and!; [lia|done|done].
Qed.

(** ** Concrete runs *)

(** A socket that hands out what comes in piece by piece and takes five bytes at a time *)
Record pipe := mkPipe { pi_open : bool; pi_in : list (list Z); pi_out : list Z }.
Definition pipe_recv (n : Z) (e : pipe) : (Z * list Z) * pipe :=
  match pi_in e with
  | [] => ((INVALID, []), e)
  | piece :: pieces =>
      if Zlen piece <=? n then ((Zlen piece, piece), mkPipe (pi_open e) pieces (pi_out e))
      else ((n, take (Z.to_nat n) piece), mkPipe (pi_open e) (drop (Z.to_nat n) piece :: pieces) (pi_out e))
  end.
Definition pipe_send (buf : list Z) (e : pipe) : Z * pipe :=
  (Zlen (take 5 buf), mkPipe (pi_open e) (pi_in e) (pi_out e ++ take 5 buf)).
#[export] Instance pipe_transport : Transport pipe := {
  tr_valid := pi_open; tr_recv := pipe_recv; tr_send := pipe_send;
  tr_close e := mkPipe false (pi_in e) (pi_out e);
  tr_unix_milli e := (0, e); tr_wait_opened b e := (b, e) }.
#[export] Instance pipe_stream : Stream pipe.
Proof.
  refine {| unread e := concat (pi_in e); sent := pi_out;
            alive e := pi_open e = true /\ Forall (fun p => p <> []) (pi_in e) |}.
  - by intros e [].
  - intros n [op pin out] [Ho Hf] Hn Hne. cbn in *. unfold pipe_recv. cbn. destruct pin as [|p pin]; [done|].
    inversion Hf as [|? ? Hp Hf']; subst. pose proof (Zlen_pos p Hp). destruct (Z.leb_spec (Zlen p) n) as [Hl|Hl].
    + eexists p, (concat pin), _. by split_and!.
    + exists (take (Z.to_nat n) p), (drop (Z.to_nat n) p ++ concat pin).
      assert (Zlen (take (Z.to_nat n) p) = n) as Ht by (unfold Zlen in *; rewrite length_take; lia).
      eexists. split_and!; cbn.
      * by rewrite Ht.
      * intros Hz. rewrite Hz in Ht. unfold Zlen in Ht. simpl in Ht. lia.
      * lia.
      * by rewrite app_assoc, take_drop.
      * done.
      * done.
      * done.
      * constructor; [|done]. intros Hz%(f_equal length). rewrite length_drop in Hz. unfold Zlen in *. simpl in Hz. lia.
  - intros n [op pin out] [Ho Hf] Hn Hne. cbn in *. unfold pipe_recv. cbn. destruct pin as [|p pin]; [by do 2 eexists|].
    inversion Hf; subst. apply app_eq_nil in Hne as [? ?]. done.
  - intros buf [op pin out] [Ho Hf] Hne. cbn. do 2 eexists. split; [done|]. cbn.
    pose proof (Zlen_pos buf Hne). assert (0 < Zlen (take 5 buf) <= Zlen buf) as Hl by (unfold Zlen in *; rewrite length_take; lia).
    split_and!; try done; try lia. f_equal. unfold Zlen. rewrite Nat2Z.id, length_take.
    destruct (Nat.le_gt_cases 5 (length buf)); [by rewrite Nat.min_l|rewrite Nat.min_r by lia; by rewrite !take_ge by lia].
  - done.
  - done.
Defined.

Definition example_broker : Broker := mkBrokerState (Some OPENED) 7 0 [(12, mkApiVersionRange 0 3)].
Definition example_auth : M (Broker * pipe) Z := fail FAssert.
(** Two heartbeats of version 4 to a broker that knows up to version 3, answered in pieces *)
Definition example_heartbeats : list HeartbeatRequest :=
  [mkHeartbeatRequest 4 [103] 5 [109] []; mkHeartbeatRequest 4 [104] 6 [110] [105]].
Definition example_answers : list HeartbeatResponse := [mkHeartbeatResponse 3 0 0; mkHeartbeatResponse 3 10 27].
Definition example_stream : pipe :=
  mkPipe true [[0; 0; 0]; [10; 0; 0; 0; 7; 0; 0; 0; 0; 0; 0; 0]; [0; 0; 10; 0; 0; 0; 8; 0; 0; 0; 10; 0; 27; 1; 2]] [].
Example exchanges_deliver_witness :
  exists e', exchange_all [99] example_auth example_heartbeats (example_broker, example_stream) =
      Done (map (fun m => (ErrNoError, m)) example_answers) (with_correlation 9 example_broker, e') /\
    unread e' = [1; 2] /\
    sent e' = [0; 0; 0; 23; 0; 12; 0; 3; 0; 0; 0; 7; 0; 1; 99; 0; 1; 103; 0; 0; 0; 5; 0; 1; 109; 255; 255] ++
              [0; 0; 0; 24; 0; 12; 0; 3; 0; 0; 0; 8; 0; 1; 99; 0; 1; 104; 0; 0; 0; 6; 0; 1; 110; 0; 1; 105].
Proof.
  destruct (exchanges_deliver (Req := HeartbeatRequest) (Res := HeartbeatResponse) [99] example_auth example_heartbeats
    example_answers example_broker example_stream [1; 2]) as (e' & Hr & _ & Hu & Hs).
  - split; [done|]. intros Ht. vm_compute in Ht. done.
  - split; [done|]. repeat constructor; done.
  - by vm_compute.
  - by vm_compute.
  - by vm_compute.
  - repeat constructor; try (by apply (bool_decide_unpack _); vm_compute); try (intros id; vm_compute; done);
      by (left; vm_compute; intros [=]).
  - by vm_compute.
  - exists e'. split; [exact Hr|]. split; [exact Hu|]. exact Hs.
Defined.

(** An answer to another request, an impossible length, and silence *)
Definition example_exchange (rq : HeartbeatRequest) (pieces : list (list Z)) :=
  Broker_SendAndReceive (Res := HeartbeatResponse) [99] example_auth rq fresh_promise (example_broker, mkPipe true pieces []).
Definition example_heartbeat : HeartbeatRequest := mkHeartbeatRequest 3 [103] 5 [109] [].
Example exchange_out_of_step_witness :
  (exists e', example_exchange example_heartbeat [[0; 0; 0; 10; 0; 0; 0; 6]; [1; 2; 3; 4; 5; 6]] =
     Done (ErrCorrelationID, example_heartbeat, promise_of 7 fresh_promise) (with_correlation 8 example_broker, e') /\
     unread e' = [1; 2; 3; 4; 5; 6]) /\
  example_exchange example_heartbeat [[0; 0; 0; 3; 0; 0; 0; 7]] = Fault FThrow /\
  (exists e', example_exchange example_heartbeat [] =
     Done (INVALID, example_heartbeat, promise_of 7 fresh_promise)
       (with_conn (Some CLOSED) (with_correlation 8 example_broker), e') /\
     sent e' = Request_frame wire (mkRequest 7 [99] example_heartbeat)).
Proof.
  assert (forall pieces, in_session (E := pipe) example_broker /\
    (Forall (fun p => p <> []) pieces -> alive (mkPipe true pieces []))) as Hp.
  { intros pieces. split; [split; [done|]; intros Ht; vm_compute in Ht; done|done]. }
  split_and!.
  - destruct (exchange_out_of_step (Res := HeartbeatResponse) [99] example_auth example_heartbeat example_broker
      (mkPipe true [[0; 0; 0; 10; 0; 0; 0; 6]; [1; 2; 3; 4; 5; 6]] []) 0
      (Request_frame wire (mkRequest 7 [99] example_heartbeat)) (mkRequest 7 [99] example_heartbeat)) as (H1 & _).
    + apply Hp, [].
    + apply Hp. by repeat constructor.
    + by vm_compute.
    + by vm_compute.
    + by vm_compute.
    + destruct (H1 10 6 [1; 2; 3; 4; 5; 6]) as (e' & Hr & _ & Hu & _); [by vm_compute..|].
      exists e'. split; [exact Hr|exact Hu].
  - destruct (exchange_out_of_step (Res := HeartbeatResponse) [99] example_auth example_heartbeat example_broker
      (mkPipe true [[0; 0; 0; 3; 0; 0; 0; 7]] []) 0
      (Request_frame wire (mkRequest 7 [99] example_heartbeat)) (mkRequest 7 [99] example_heartbeat)) as (_ & H2 & _).
    + apply Hp, [].
    + apply Hp. by repeat constructor.
    + by vm_compute.
    + by vm_compute.
    + by vm_compute.
    + by apply (H2 3 []); vm_compute.
  - destruct (exchange_out_of_step (Res := HeartbeatResponse) [99] example_auth example_heartbeat example_broker
      (mkPipe true [] []) 0
      (Request_frame wire (mkRequest 7 [99] example_heartbeat)) (mkRequest 7 [99] example_heartbeat)) as (_ & _ & H3 & _).
    + apply Hp, [].
    + apply Hp. constructor.
    + by vm_compute.
    + by vm_compute.
    + by vm_compute.
    + destruct H3 as (e' & Hr & Hs); [by vm_compute|]. exists e'. split; [exact Hr|exact Hs].
Defined.
