(* ===== verification/BrokerPipeline.v ===== *)
(** * Several coroutines on one connection

    [SendInternal] and [ResponseReceiver] of [coev_kafka/broker.h] between their suspension
    points.  The coroutines of a thread share the connection, its two locks and the counter
    of correlation ids, an [int32_t].  One runs until it suspends; [unlock] runs the coroutine it wakes
    before it returns, so that what is to be continued is a stack.  The connection stays
    open and the broker answers in the order of the requests. *)
From Stdlib Require Import ZArith Lia Bool.
From stdpp Require Import base tactics list numbers relations gmap.
From S2P Require Import Prelude Errors CoAsync CoMutex.

(** ** The state *)

Abbreviation task := nat.
(** What an exchange ends with: the answer to the request of a coroutine, or
    [ErrCorrelationID] *)
Inductive received := Got (whose : task) | Mismatch.
(** Where a coroutine goes on; [id] is the copy of the counter it has made. *)
(* coev_kafka/broker.h:259-362 Broker::SendInternal and ResponseReceiver *)
Inductive point :=
| P_start              (* [SendInternal] up to [co_await WLock()] *)
| P_locked (id : Z)    (* [Write], under the write lock *)
| P_written (id : Z)   (* [m_correlation_id++] and [WUnlock()] *)
| P_receive (id : Z)   (* [ResponseReceiver] up to [co_await RLock()] *)
| P_reading (id : Z)   (* [ReadFull], under the read lock *)
| P_header (id : Z)    (* the bytes are there *)
| P_received (r : received) (* [RUnlock()] *)
| P_return (r : received).

(** [pl_sent] holds the requests that have not been answered, [pl_incoming] the responses
    that have not been read, each an id with the coroutine whose request it is (about).
    [pl_blocked] waits for the socket to take more bytes, [pl_reader] for bytes.  A suspended
    coroutine has its point in [pl_waiting].  A frame or a response is written or read as a
    whole; after a mismatch the next response is taken to follow, though the stream is out of
    step then ([BrokerExchange]). *)
Record pipeline := mkPipeline {
  pl_correlation_id : Z; pl_wlock : co_mutex; pl_rlock : co_mutex;
  pl_sent : list (Z * task); pl_incoming : list (Z * task);
  pl_blocked : option task; pl_reader : option task;
  pl_waiting : gmap task point; pl_stack : list (task * point);
  pl_results : list (task * received) }.
Definition set_id x s := mkPipeline x (pl_wlock s) (pl_rlock s) (pl_sent s) (pl_incoming s) (pl_blocked s) (pl_reader s) (pl_waiting s) (pl_stack s) (pl_results s).
Definition set_wlock x s := mkPipeline (pl_correlation_id s) x (pl_rlock s) (pl_sent s) (pl_incoming s) (pl_blocked s) (pl_reader s) (pl_waiting s) (pl_stack s) (pl_results s).
Definition set_rlock x s := mkPipeline (pl_correlation_id s) (pl_wlock s) x (pl_sent s) (pl_incoming s) (pl_blocked s) (pl_reader s) (pl_waiting s) (pl_stack s) (pl_results s).
Definition set_sent x s := mkPipeline (pl_correlation_id s) (pl_wlock s) (pl_rlock s) x (pl_incoming s) (pl_blocked s) (pl_reader s) (pl_waiting s) (pl_stack s) (pl_results s).
Definition set_incoming x s := mkPipeline (pl_correlation_id s) (pl_wlock s) (pl_rlock s) (pl_sent s) x (pl_blocked s) (pl_reader s) (pl_waiting s) (pl_stack s) (pl_results s).
Definition set_blocked x s := mkPipeline (pl_correlation_id s) (pl_wlock s) (pl_rlock s) (pl_sent s) (pl_incoming s) x (pl_reader s) (pl_waiting s) (pl_stack s) (pl_results s).
Definition set_reader x s := mkPipeline (pl_correlation_id s) (pl_wlock s) (pl_rlock s) (pl_sent s) (pl_incoming s) (pl_blocked s) x (pl_waiting s) (pl_stack s) (pl_results s).
Definition set_waiting x s := mkPipeline (pl_correlation_id s) (pl_wlock s) (pl_rlock s) (pl_sent s) (pl_incoming s) (pl_blocked s) (pl_reader s) x (pl_stack s) (pl_results s).
Definition set_stack x s := mkPipeline (pl_correlation_id s) (pl_wlock s) (pl_rlock s) (pl_sent s) (pl_incoming s) (pl_blocked s) (pl_reader s) (pl_waiting s) x (pl_results s).
Definition set_results x s := mkPipeline (pl_correlation_id s) (pl_wlock s) (pl_rlock s) (pl_sent s) (pl_incoming s) (pl_blocked s) (pl_reader s) (pl_waiting s) (pl_stack s) x.

(** An open connection that nobody uses *)
Definition pipeline_start (id : Z) : pipeline :=
  mkPipeline id (mkMutex off (mkAsync [])) (mkMutex off (mkAsync [])) [] [] None None ∅ [] [].

(** ** What the running coroutine does next *)

(** The coroutine suspends at a point; the one it has interrupted goes on. *)
Definition suspend_at (k : task) (p : point) (s : pipeline) : pipeline := set_waiting (<[k := p]> (pl_waiting s)) s.
Definition continue_at (k : task) (p : point) (s : pipeline) : pipeline := set_stack ((k, p) :: pl_stack s) s.
(** A coroutine that has been resumed goes on where it was suspended. *)
Definition resume_task (k : task) (s : pipeline) : outcome pipeline unit :=
  match pl_waiting s !! k with
  | Some p => Done tt (continue_at k p (set_waiting (delete k (pl_waiting s)) s))
  | None => Fault FAssert
  end.
Definition resume_waiter (w : option task) (s : pipeline) : outcome pipeline unit :=
  match w with Some k => resume_task k s | None => Done tt s end.

(** [co_await WLock()] and [co_await RLock()] *)
Definition lock_at (get : pipeline -> co_mutex) (put : co_mutex -> pipeline -> pipeline) (k : task) (p : point)
    (s : pipeline) : outcome pipeline unit :=
  match mutex_lock k (get s) with
  | Done true m => Done tt (continue_at k p (put m s))
  | Done false m => Done tt (suspend_at k p (put m s))
  | Fault f => Fault f
  end.
(** [WUnlock()] and [RUnlock()]: the coroutine that is woken runs first. *)
Definition unlock_at (get : pipeline -> co_mutex) (put : co_mutex -> pipeline -> pipeline) (k : task) (p : point)
    (s : pipeline) : outcome pipeline unit :=
  match mutex_unlock (get s) with
  | Done w m => resume_waiter w (continue_at k p (put m s))
  | Fault f => Fault f
  end.

(** One point of the coroutine on top of the stack, already taken off it; [full]: the socket
    does not take the bytes now. *)
(* coev_kafka/broker.h:259-362 Broker::SendInternal and ResponseReceiver *)
Definition run_point (full : bool) (k : task) (p : point) (s : pipeline) : outcome pipeline unit :=
  match p with
  | P_start => lock_at pl_wlock set_wlock k (P_locked (pl_correlation_id s)) s
  | P_locked id =>
      if full then Done tt (suspend_at k (P_locked id) (set_blocked (Some k) s))
      else Done tt (continue_at k (P_written id) (set_sent (pl_sent s ++ [(id, k)]) s))
  | P_written id =>
      if pl_correlation_id s =? INT32_MAX then Fault FUB
      else unlock_at pl_wlock set_wlock k (P_receive id) (set_id (pl_correlation_id s + 1) s)
  | P_receive id => lock_at pl_rlock set_rlock k (P_reading id) s
  | P_reading id => Done tt (suspend_at k (P_header id) (set_reader (Some k) s))
  | P_header id =>
      match pl_incoming s with
      | [] => Done tt (suspend_at k (P_header id) (set_reader (Some k) s))
      | (i, whose) :: incoming =>
          Done tt (continue_at k (P_received (if i =? id then Got whose else Mismatch)) (set_incoming incoming s))
      end
  | P_received r => unlock_at pl_rlock set_rlock k (P_return r) s
  | P_return r => Done tt (set_results (pl_results s ++ [(k, r)]) s)
  end.

(** A turn of the thread: the coroutine on top goes on, or, when none runs, the event loop
    starts one, or resumes the one that waits for the socket; the broker answers at any
    time.  [blocking]: the socket may be full. *)
Inductive pipeline_step (blocking : bool) : outcome pipeline unit -> outcome pipeline unit -> Prop :=
| pipeline_run s full k p stack :
    pl_stack s = (k, p) :: stack -> (full = true -> blocking = true) ->
    pipeline_step blocking (Done tt s) (run_point full k p (set_stack stack s))
| pipeline_spawn s k :
    pl_stack s = [] -> pl_waiting s !! k = None ->
    pipeline_step blocking (Done tt s) (Done tt (continue_at k P_start s))
| pipeline_writable s k :
    pl_stack s = [] -> pl_blocked s = Some k ->
    pipeline_step blocking (Done tt s) (resume_task k (set_blocked None s))
| pipeline_readable s k :
    pl_stack s = [] -> pl_reader s = Some k -> pl_incoming s <> [] ->
    pipeline_step blocking (Done tt s) (resume_task k (set_reader None s))
| pipeline_answer s request rest :
    pl_sent s = request :: rest ->
    pipeline_step blocking (Done tt s) (Done tt (set_incoming (pl_incoming s ++ [request]) (set_sent rest s))).

(** ** Without full sockets *)

(** The requests whose answers have not been read, oldest first *)
Definition outstanding (s : pipeline) : list (Z * task) := pl_incoming s ++ pl_sent s.
(** The coroutines of [W] wait for the read lock, in this order. *)
Definition waiting_readers (W : list (Z * task)) (m : gmap task point) : Prop :=
  forall k p, m !! k = Some p <-> exists id, p = P_reading id /\ (id, k) ∈ W.
(** The read lock is held by a coroutine that is running; [W] waits for it. *)
Definition taken (W : list (Z * task)) (s : pipeline) : Prop :=
  pl_rlock s = mkMutex on (mkAsync (map snd W)) /\ pl_reader s = None /\ waiting_readers W (pl_waiting s).
(** The read lock is held by the coroutine of the oldest request, which waits for bytes. *)
Definition quiet (L : list (Z * task)) (s : pipeline) : Prop :=
  match L with
  | [] => pl_rlock s = mkMutex off (mkAsync []) /\ pl_reader s = None /\ pl_waiting s = ∅
  | (id, k) :: W =>
      pl_rlock s = mkMutex on (mkAsync (map snd W)) /\ pl_reader s = Some k /\
      exists m, pl_waiting s = <[k := P_header id]> m /\ waiting_readers W m /\ m !! k = None
  end.
Definition consecutive (next : Z) (L : list (Z * task)) : Prop := map fst L = seqZ (next - Zlen L) (Zlen L).
Definition write_free (s : pipeline) : Prop := pl_wlock s = mkMutex off (mkAsync []).
Definition write_held (s : pipeline) : Prop := pl_wlock s = mkMutex on (mkAsync []).

Definition phase (L : list (Z * task)) (s : pipeline) : Prop :=
  match pl_stack s with
  | [] => quiet L s /\ write_free s /\ consecutive (pl_correlation_id s) L
  | [(k, P_start)] => quiet L s /\ (k ∉ map snd L) /\ write_free s /\ consecutive (pl_correlation_id s) L
  | [(k, P_locked id)] =>
      quiet L s /\ (k ∉ map snd L) /\ write_held s /\ consecutive (pl_correlation_id s) L /\ id = pl_correlation_id s
  | [(k, P_written id)] =>
      exists L', L = L' ++ [(id, k)] /\ quiet L' s /\ write_held s /\ consecutive (pl_correlation_id s + 1) L
  | [(k, P_receive id)] => exists L', L = L' ++ [(id, k)] /\ quiet L' s /\ write_free s /\ consecutive (pl_correlation_id s) L
  | [(k, P_header id)] =>
      pl_incoming s <> [] /\ exists W, L = (id, k) :: W /\ taken W s /\ write_free s /\ consecutive (pl_correlation_id s) L
  | [(k, P_received r)] => r = Got k /\ taken L s /\ (k ∉ map snd L) /\ write_free s /\ consecutive (pl_correlation_id s) L
  | [(k, P_return r)] => r = Got k /\ quiet L s /\ write_free s /\ consecutive (pl_correlation_id s) L
  | (k, P_reading id) :: stack =>
      (stack = [] \/ exists k', stack = [(k', P_return (Got k'))]) /\
      exists W, L = (id, k) :: W /\ taken W s /\ write_free s /\ consecutive (pl_correlation_id s) L
  | _ => False
  end.
(** What a coroutine on the stack adds to the requests sent: one that has its answer was
    sent and is not outstanding; one just written has not been counted. *)
Definition point_balance (p : point) : Z :=
  match p with P_written _ => -1 | P_received _ | P_return _ => 1 | _ => 0 end.
Definition stack_balance (stack : list (task * point)) : Z := foldr (fun x n => point_balance (snd x) + n) 0 stack.
(** The counter started at [id0] and was counted up once for each request. *)
Definition counted (id0 : Z) (s : pipeline) : Prop :=
  pl_correlation_id s = id0 + Zlen (pl_results s) + Zlen (outstanding s) + stack_balance (pl_stack s) /\
  pl_correlation_id s <= INT32_MAX.
(** [ready s] is the part the phase does not speak of. *)
Definition ready (id0 : Z) (s : pipeline) : Prop :=
  NoDup (map snd (outstanding s)) /\ pl_blocked s = None /\ Forall (fun x => snd x = Got (fst x)) (pl_results s) /\
  counted id0 s.
Definition pipeline_inv (id0 : Z) (s : pipeline) : Prop := phase (outstanding s) s /\ ready id0 s.
(** All the ids from [id0] on have been given away. *)
Definition exhausted (id0 : Z) (s : pipeline) : Prop :=
  pl_correlation_id s = INT32_MAX /\ Zlen (pl_results s) + Zlen (outstanding s) = INT32_MAX - id0 + 1.
(** What a step from [s] may lead to *)
Definition pipeline_after (id0 : Z) (s : pipeline) (r : outcome pipeline unit) : Prop :=
  match r with
  | Fault f => f = FUB /\ exhausted id0 s
  | Done _ s' => pipeline_inv id0 s'
  end.

Lemma consecutive_snoc next L k : consecutive next L -> consecutive (next + 1) (L ++ [(next, k)]).
Proof.
  unfold consecutive. intros Hc. rewrite map_app, Hc, Zlen_app. change (Zlen [(next, k)]) with 1.
  pose proof (Zlen_nonneg L). replace (next + 1 - (Zlen L + 1)) with (next - Zlen L) by lia.
  rewrite seqZ_app by lia. cbn [map fst]. replace (next - Zlen L + Zlen L) with next by lia. done.
Qed.
Lemma consecutive_tail next x L : consecutive next (x :: L) -> consecutive next L.
Proof.
  unfold consecutive. rewrite Zlen_cons. pose proof (Zlen_nonneg L). rewrite seqZ_cons by lia. cbn [map].
  intros [= _ ->]. f_equal; lia.
Qed.

Lemma waiting_insert W m id k :
  waiting_readers W m -> k ∉ map snd W -> waiting_readers (W ++ [(id, k)]) (<[k := P_reading id]> m).
Proof.
  intros Hw Hk k' p. destruct (decide (k' = k)) as [->|Hne].
  - rewrite lookup_insert_eq. split.
    + intros [= <-]. exists id. split; [done|]. apply elem_of_app. right. by apply list_elem_of_singleton.
    + intros (id' & -> & [Hin|Hin%list_elem_of_singleton]%elem_of_app); [|by simplify_eq].
      exfalso. apply Hk, list_elem_of_fmap. by exists (id', k).
  - rewrite lookup_insert_ne by done. rewrite (Hw k' p). split; intros (id' & -> & Hin); exists id'; split; try done.
    + apply elem_of_app. by left.
    + apply elem_of_app in Hin as [|Hin%list_elem_of_singleton]; [done|by simplify_eq].
Qed.
Lemma waiting_delete W m id k :
  waiting_readers ((id, k) :: W) m -> k ∉ map snd W -> m !! k = Some (P_reading id) /\ waiting_readers W (delete k m).
Proof.
  intros Hw Hk. split; [apply Hw; exists id; split; [done|by left]|].
  intros k' p. destruct (decide (k' = k)) as [->|Hne].
  - rewrite lookup_delete_eq. split; [done|]. intros (id' & -> & Hin). exfalso. apply Hk, list_elem_of_fmap. by exists (id', k).
  - rewrite lookup_delete_ne by done. rewrite (Hw k' p). split; intros (id' & -> & Hin); exists id'; split; try done.
    + apply elem_of_cons in Hin as [|]; [by simplify_eq|done].
    + by apply elem_of_cons; right.
Qed.
Lemma waiting_nil : waiting_readers [] ∅.
Proof. intros k p. rewrite lookup_empty. split; [done|]. intros (? & _ & []%elem_of_nil). Qed.
Lemma waiting_fresh W m k : waiting_readers W m -> m !! k = None <-> k ∉ map snd W.
Proof.
  intros Hw. split.
  - intros Hm Hin. apply list_elem_of_fmap in Hin as ([id k'] & -> & Hin). cbn in Hm.
    assert (m !! k' = Some (P_reading id)) by (apply Hw; by exists id). congruence.
  - intros Hn. destruct (m !! k) as [p|] eqn:E; [|done]. apply Hw in E as (id & -> & Hin).
    exfalso. apply Hn, list_elem_of_fmap. by exists (id, k).
Qed.
Lemma waiting_empty m : waiting_readers [] m -> m = ∅.
Proof.
  intros Hw. apply map_eq. intros k. rewrite lookup_empty. destruct (m !! k) as [p|] eqn:E; [|done].
  apply Hw in E as (? & _ & []%elem_of_nil).
Qed.

Lemma quiet_fresh L s k : quiet L s -> pl_waiting s !! k = None -> k ∉ map snd L.
Proof.
  destruct L as [|[id k0] W]; cbn [quiet map snd]; [intros _ _; apply not_elem_of_nil|].
  intros (_ & _ & m & Hm & Hw & _) Hk. rewrite Hm in Hk. apply lookup_insert_None in Hk as [Hk Hne].
  rewrite elem_of_cons. intros [->|Hin]; [done|]. by apply (waiting_fresh W m k Hw) in Hk.
Qed.

(** A coroutine that asks for the read lock gets it at once or is the last in the queue. *)
Lemma lock_read L s id k :
  quiet L s -> NoDup (map snd (L ++ [(id, k)])) ->
  exists s', lock_at pl_rlock set_rlock k (P_reading id) s = Done tt s' /\
    pl_correlation_id s' = pl_correlation_id s /\ pl_wlock s' = pl_wlock s /\ pl_sent s' = pl_sent s /\
    pl_incoming s' = pl_incoming s /\ pl_blocked s' = pl_blocked s /\ pl_results s' = pl_results s /\
    match L with
    | [] => pl_stack s' = (k, P_reading id) :: pl_stack s /\ taken [] s'
    | _ => pl_stack s' = pl_stack s /\ quiet (L ++ [(id, k)]) s'
    end.
Proof.
  destruct s as [c wl rl se inc bl rd wt st res]. intros Hq Hnd. unfold lock_at. cbn [pl_rlock].
  destruct L as [|[id0 k0] W]; cbn [quiet pl_rlock pl_reader pl_waiting] in Hq.
  - destruct Hq as (-> & -> & ->). unfold mutex_lock. cbn. eexists. split; [done|]. cbn. split_and!; try done. unfold taken. cbn. split_and!; [done..|apply waiting_nil].
  - destruct Hq as (-> & -> & m & -> & Hw & Hk0). unfold mutex_lock. cbn. eexists. split; [done|]. cbn.
    cbn [app map snd] in Hnd. apply NoDup_cons in Hnd as [H0 Hnd].
    assert (k ∉ map snd W) as HkW.
    { rewrite map_app in Hnd. apply NoDup_app in Hnd as (_ & Hd & _). intros Hin. apply (Hd k Hin). by left. }
    assert (k0 <> k) as Hne.
    { intros <-. apply H0. rewrite map_app. apply elem_of_app. right. by left. }
    split_and!; try done.
    + by rewrite map_app.
    + exists (<[k := P_reading id]> m). split_and!.
      * by rewrite insert_insert_ne.
      * by apply waiting_insert.
      * by rewrite lookup_insert_ne.
Qed.

(** Giving the read lock back: the next reader is resumed, if there is one. *)
Lemma unlock_read W s k p :
  taken W s -> NoDup (map snd W) ->
  exists s', unlock_at pl_rlock set_rlock k p s = Done tt s' /\
    pl_correlation_id s' = pl_correlation_id s /\ pl_wlock s' = pl_wlock s /\ pl_sent s' = pl_sent s /\
    pl_incoming s' = pl_incoming s /\ pl_blocked s' = pl_blocked s /\ pl_results s' = pl_results s /\
    match W with
    | [] => pl_stack s' = (k, p) :: pl_stack s /\ quiet [] s'
    | (id, k') :: W' => pl_stack s' = (k', P_reading id) :: (k, p) :: pl_stack s /\ taken W' s'
    end.
Proof.
  destruct s as [c wl rl se inc bl rd wt st res]. intros (Hr & Hrd & Hw) Hnd. cbn in Hr, Hrd, Hw. subst.
  unfold unlock_at. cbn [pl_rlock]. destruct W as [|[id k'] W].
  - unfold mutex_unlock. cbn. eexists. split; [done|]. cbn. apply waiting_empty in Hw. by subst.
  - cbn [map snd] in *. apply NoDup_cons in Hnd as [Hk' Hnd].
    destruct (waiting_delete W wt id k' Hw Hk') as [Hl Hd].
    unfold mutex_unlock. cbn. unfold bind, lock_resumed, ret. cbn. unfold resume_task. cbn. rewrite Hl.
    eexists. split; [done|]. cbn. done.
Qed.

Lemma suspend_read W s id k :
  taken W s -> k ∉ map snd W -> quiet ((id, k) :: W) (suspend_at k (P_header id) (set_reader (Some k) s)).
Proof.
  intros (Hr & Hrd & Hw) Hk. split_and!; [done|done|]. exists (pl_waiting s). split_and!; [done|done|].
  by apply (waiting_fresh W _ k Hw).
Qed.
Lemma resume_read L s k :
  quiet L s -> pl_reader s = Some k ->
  exists id W s', L = (id, k) :: W /\ resume_task k (set_reader None s) = Done tt s' /\ taken W s' /\
    pl_stack s' = (k, P_header id) :: pl_stack s /\
    pl_correlation_id s' = pl_correlation_id s /\ pl_wlock s' = pl_wlock s /\ pl_sent s' = pl_sent s /\
    pl_incoming s' = pl_incoming s /\ pl_blocked s' = pl_blocked s /\ pl_results s' = pl_results s.
Proof.
  destruct s as [c wl rl se inc bl rd wt st res]. destruct L as [|[id k0] W]; cbn [quiet pl_rlock pl_reader pl_waiting].
  { intros (_ & -> & _). done. }
  intros (-> & -> & m & -> & Hw & Hm) [= <-]. unfold resume_task. cbn. rewrite lookup_insert_eq.
  exists id, W. eexists. split; [done|]. split; [done|]. unfold taken. cbn. rewrite delete_insert_eq, delete_id by done. done.
Qed.

(** Each point keeps the invariant. *)
Definition keeps_phase (k : task) (p : point) : Prop :=
  forall id0 s stack, pl_stack s = (k, p) :: stack -> phase (outstanding s) s -> ready id0 s ->
    pipeline_after id0 s (run_point false k p (set_stack stack s)).

(** A step that only moves a coroutine *)
Lemma ready_moved id0 s s' :
  ready id0 s -> outstanding s' = outstanding s -> pl_correlation_id s' = pl_correlation_id s ->
  pl_blocked s' = pl_blocked s -> pl_results s' = pl_results s -> stack_balance (pl_stack s') = stack_balance (pl_stack s) ->
  ready id0 s'.
Proof.
  intros (Hnd & Hb & Hres & Hn & Hm) Eo Ec Eb Er Es. unfold ready, counted. rewrite Eo, Ec, Eb, Er, Es. done.
Qed.

Ltac open_phase := intros id0 [c wl rl se inc bl rd wt st res] stack Hst Hp (Hnd & Hb & Hres & Hn & Hm);
  unfold phase in Hp; cbn [pl_stack] in Hst; subst st; cbn [pl_stack] in Hp.
Ltac count := unfold counted, outstanding in *; cbn in *; repeat (rewrite Zlen_app in * || rewrite Zlen_cons in *); change (@Zlen (Z * task) []) with 0 in *;
  change (@Zlen (task * received) []) with 0 in *; lia.

Lemma start_kept k : keeps_phase k P_start.
Proof.
  open_phase. destruct stack; [|done]. destruct Hp as (Hq & Hk & Hw & Hc). cbn in Hw. unfold write_free in Hw. cbn in Hw. subst wl.
  unfold run_point, lock_at, mutex_lock. cbn. split; [done|]. split_and!; done.
Qed.
Lemma locked_kept k id : keeps_phase k (P_locked id).
Proof.
  open_phase. destruct stack; [|done]. destruct Hp as (Hq & Hk & Hw & Hc & ->). cbn [run_point pipeline_after]. split.
  - unfold phase, outstanding in *. cbn in *. exists (inc ++ se). rewrite app_assoc. split_and!; [done|done|done|]. by apply consecutive_snoc.
  - split_and!; try done; [|count..]. unfold outstanding in *. cbn in *. rewrite app_assoc, map_app.
    apply NoDup_app. split_and!; [done| |apply NoDup_singleton]. intros x Hx Hin%list_elem_of_singleton. by subst.
Qed.
Lemma written_kept k id : keeps_phase k (P_written id).
Proof.
  open_phase. destruct stack; [|done]. destruct Hp as (L' & HL & Hq & Hw & Hc). unfold write_held in Hw. cbn in Hw. subst wl.
  unfold run_point. cbn [pl_correlation_id set_stack]. destruct (Z.eqb_spec c INT32_MAX) as [->|Hne].
  - split; [done|]. split; [done|]. count.
  - unfold unlock_at, mutex_unlock. cbn. split; [by exists L'|]. split_and!; try done; count.
Qed.
Lemma receive_kept k id : keeps_phase k (P_receive id).
Proof.
  intros id0 s stack Hst Hp Hready. pose proof Hready as (Hnd & _). unfold phase in Hp. rewrite Hst in Hp. destruct stack; [|done].
  destruct Hp as (L' & HL & Hq & Hw & Hc). cbn [run_point].
  assert (quiet L' (set_stack [] s)) as Hq' by (by destruct s). rewrite HL in Hnd.
  destruct (lock_read L' (set_stack [] s) id k Hq' Hnd) as (s' & -> & E1 & E2 & E3 & E4 & E5 & E6 & E7).
  assert (outstanding s' = outstanding s) as Eo by (unfold outstanding; rewrite E3, E4; by destruct s).
  cbn [pipeline_after]. split.
  - rewrite Eo, HL. unfold phase, write_free in *. destruct L' as [|x L']; destruct E7 as [-> Hx].
    + split; [by left|]. exists []. split_and!; [done|done|rewrite E2; by destruct s|rewrite E1, <- HL; by destruct s].
    + split_and!; [done|rewrite E2; by destruct s|rewrite E1, <- HL; by destruct s].
  - apply (ready_moved id0 s); try done. rewrite Hst. destruct L'; destruct E7 as [-> _]; by destruct s.
Qed.
Lemma reading_kept k id : keeps_phase k (P_reading id).
Proof.
  open_phase. destruct Hp as (Hs & W & HL & Ht & Hw & Hc). pose proof Hnd as Hnd'. rewrite HL in Hc, Hnd'.
  cbn [map snd] in Hnd'. apply NoDup_cons in Hnd' as [Hk _]. cbn [run_point pipeline_after]. split.
  - pose proof (suspend_read W (set_stack stack (mkPipeline c wl rl se inc bl rd wt ((k, P_reading id) :: stack) res)) id k Ht Hk) as Hq.
    unfold outstanding in *. cbn in HL |- *. rewrite HL. unfold phase. cbn.
    destruct Hs as [->|[k' ->]]; [|split; [done|]]; (split; [exact Hq|done]).
  - apply (ready_moved id0 (mkPipeline c wl rl se inc bl rd wt ((k, P_reading id) :: stack) res)); try done.
Qed.
Lemma header_kept k id : keeps_phase k (P_header id).
Proof.
  open_phase. destruct stack; [|done]. destruct Hp as (Hi & W & HL & Ht & Hw & Hc). unfold outstanding in HL, Hnd. cbn in Hi, HL.
  destruct inc as [|[i whose] inc]; [done|]. injection HL as -> -> <-. cbn in Hnd. pose proof Hnd as Hnd'.
  apply NoDup_cons in Hnd' as [Hk Hnd']. unfold run_point. cbn. rewrite Z.eqb_refl. split.
  - unfold phase, outstanding in *. cbn in *. split_and!; try done. by eapply consecutive_tail.
  - split_and!; try done; count.
Qed.
Lemma received_kept k r : keeps_phase k (P_received r).
Proof.
  intros id0 s stack Hst Hp Hready. pose proof Hready as (Hnd & _). unfold phase in Hp. rewrite Hst in Hp. destruct stack; [|done].
  destruct Hp as (-> & Ht & Hk & Hw & Hc). cbn [run_point].
  assert (taken (outstanding s) (set_stack [] s)) as Ht' by (by destruct s).
  destruct (unlock_read (outstanding s) (set_stack [] s) k (P_return (Got k)) Ht' Hnd) as (s' & -> & E1 & E2 & E3 & E4 & E5 & E6 & E7).
  assert (outstanding s' = outstanding s) as Eo by (unfold outstanding; rewrite E3, E4; by destruct s).
  cbn [pipeline_after]. split.
  - rewrite Eo. unfold phase, write_free in *. destruct (outstanding s) as [|[id k'] W]; destruct E7 as [-> Hx].
    + split_and!; [done|done|rewrite E2; by destruct s|rewrite E1; by destruct s].
    + split; [right; by exists k; destruct s|]. exists W. split_and!; [done|done|rewrite E2; by destruct s|rewrite E1; by destruct s].
  - apply (ready_moved id0 s); try done. rewrite Hst. destruct (outstanding s) as [|[id k'] W]; destruct E7 as [-> _]; by destruct s.
Qed.
Lemma return_kept k r : keeps_phase k (P_return r).
Proof.
  open_phase. destruct stack; [|done]. destruct Hp as (-> & Hq & Hw & Hc). cbn [run_point pipeline_after]. split; [done|].
  split_and!; try done; try count. apply Forall_app. split; [done|]. by repeat constructor.
Qed.

Lemma pipeline_inv_step id0 s r : pipeline_inv id0 s -> pipeline_step false (Done tt s) r -> pipeline_after id0 s r.
Proof.
  intros [Hp Hready] Hs. remember (Done tt s) as r0 eqn:E0.
  destruct Hs as [s1 full k p stack Hst Hf|s1 k Hst Hk|s1 k Hst Hb|s1 k Hst Hr Hi'|s1 request rest Hr]; injection E0 as ->.
  - destruct full; [by discriminate Hf|].
    destruct p; by (apply start_kept || apply locked_kept || apply written_kept || apply receive_kept || apply reading_kept
      || apply header_kept || apply received_kept || apply return_kept).
  - unfold phase in Hp. rewrite Hst in Hp. destruct Hp as (Hq & Hw & Hc). split.
    + unfold phase. cbn. rewrite Hst. split_and!; try done. by eapply quiet_fresh.
    + apply (ready_moved id0 s); try done.
  - destruct Hready as (_ & Hn & _). congruence.
  - unfold phase in Hp. rewrite Hst in Hp. destruct Hp as (Hq & Hw & Hc).
    destruct (resume_read _ s k Hq Hr) as (id & W & s' & HL & -> & Ht & E0 & E1 & E2 & E3 & E4 & E5 & E6).
    assert (outstanding s' = outstanding s) as Eo by (unfold outstanding; by rewrite E3, E4). split.
    + rewrite Eo. unfold phase, write_free in *. rewrite E0, Hst, E1, E2, E4. split; [done|]. by exists W.
    + apply (ready_moved id0 s); try done. by rewrite E0, Hst.
  - set (s' := set_incoming _ _). assert (outstanding s' = outstanding s) as Eo.
    { unfold outstanding. rewrite Hr. cbn. by rewrite <- app_assoc. }
    split; [|by apply (ready_moved id0 s)]. rewrite Eo. destruct s as [c wl rl se inc bl rd wt st res]. cbn in Hr. subst se.
    unfold phase in *. cbn in *. destruct st as [|[k []] []]; try done. destruct Hp as [Hp1 Hp2]. split; [|done]. by destruct inc.
Qed.

Abbreviation runs := (rtc (pipeline_step false)).
Lemma fault_final blocking f r : rtc (pipeline_step blocking) (Fault f) r -> r = Fault f.
Proof. intros H. inversion H as [|? y ? Hs]; subst; [done|]. inversion Hs. Qed.
Lemma runs_inv id0 s s' : pipeline_inv id0 s -> runs (Done tt s) (Done tt s') -> pipeline_inv id0 s'.
Proof.
  intros Hi Hr. remember (Done tt s) as r eqn:E. remember (Done tt s') as r' eqn:E'. revert s Hi E.
  induction Hr as [r|r r1 r2 Hs Hr IH]; intros s Hi ->; [by simplify_eq|]. apply (pipeline_inv_step id0) in Hs; [|done].
  destruct r1 as [[] s1|f]; [by apply (IH E' s1 Hs)|]. apply fault_final in Hr. congruence.
Qed.
Lemma pipeline_inv_start id : id <= INT32_MAX -> pipeline_inv id (pipeline_start id).
Proof.
  intros Hid. split; [split_and!; done|]. split_and!; try done; [apply NoDup_nil_2|count].
Qed.

(** *** Every request is answered *)

Lemma runs_point s k p stack s' :
  pl_stack s = (k, p) :: stack -> run_point false k p (set_stack stack s) = Done tt s' -> runs (Done tt s) (Done tt s').
Proof. intros Hst Hr. apply rtc_once. rewrite <- Hr. by apply pipeline_run. Qed.

(** The broker answers when nothing has come in. *)
Lemma runs_answer s x L :
  outstanding s = x :: L -> exists s', runs (Done tt s) (Done tt s') /\ outstanding s' = x :: L /\ pl_incoming s' <> [] /\
    pl_stack s' = pl_stack s /\ pl_results s' = pl_results s.
Proof.
  destruct s as [c wl rl se [|i inc] bl rd wt st res]; unfold outstanding; cbn; intros HL.
  - subst se. eexists. split; [eapply rtc_once, pipeline_answer; done|]. done.
  - eexists. split; [apply rtc_refl|]. done.
Qed.

(** The oldest request is delivered, and nobody runs afterwards. *)
Lemma deliver_oldest id0 s id k W :
  pipeline_inv id0 s -> pl_stack s = [] -> outstanding s = (id, k) :: W ->
  exists s', runs (Done tt s) (Done tt s') /\ pl_stack s' = [] /\ outstanding s' = W /\
    pl_results s' = pl_results s ++ [(k, Got k)].
Proof.
  intros Hi Hst HL. destruct (runs_answer s _ _ HL) as (s1 & R1 & HL1 & Hne & Hst1 & Hres1).
  pose proof (runs_inv _ _ _ Hi R1) as Hi1.
  rewrite Hst in Hst1. destruct Hi1 as (Hp & Hnd & _). unfold phase in Hp. rewrite Hst1 in Hp. destruct Hp as (Hq & _ & _).
  assert (pl_reader s1 = Some k) as Hr1 by (rewrite HL1 in Hq; apply Hq).
  destruct (resume_read _ s1 k Hq Hr1) as (id' & W' & s2 & HL' & E & Ht & E0 & E1 & E2 & E3 & E4 & E5 & E6).
  rewrite HL1 in HL'. injection HL' as <- <-.
  assert (runs (Done tt s1) (Done tt s2)) as R2 by (apply rtc_once; rewrite <- E; by apply pipeline_readable).
  destruct (pl_incoming s1) as [|[i whose] inc] eqn:Einc; [done|]. assert (i = id /\ whose = k /\ inc ++ pl_sent s1 = W) as (-> & -> & HW).
  { unfold outstanding in HL1. rewrite Einc in HL1. by injection HL1. }
  set (s3 := continue_at k (P_received (Got k)) (set_incoming inc (set_stack [] s2))).
  assert (runs (Done tt s2) (Done tt s3)) as R3.
  { apply (runs_point _ k (P_header id) []); [by rewrite E0, Hst1|]. cbn. by rewrite E4, Z.eqb_refl. }
  assert (taken W (set_stack [] s3)) as Ht3 by done.
  assert (NoDup (map snd W)) as HndW by (rewrite HL1 in Hnd; by apply NoDup_cons in Hnd as [_ ?]).
  destruct (unlock_read W (set_stack [] s3) k (P_return (Got k)) Ht3 HndW) as (s4 & F & F1 & F2 & F3 & F4 & F5 & F6 & F7).
  assert (runs (Done tt s3) (Done tt s4)) as R4 by (by apply (runs_point _ k (P_received (Got k)) [])).
  assert (exists s5, runs (Done tt s4) (Done tt s5) /\ pl_stack s5 = [(k, P_return (Got k))] /\ outstanding s5 = W /\
    pl_results s5 = pl_results s) as (s5 & R5 & G1 & G2 & G3).
  { assert (outstanding s4 = W) as Ho by (unfold outstanding; rewrite F3, F4; cbn; by rewrite E3).
    assert (pl_results s4 = pl_results s) as Hr by (rewrite F6, <- Hres1; exact E6).
    destruct W as [|[id' k'] W']; destruct F7 as [G _].
    - exists s4. split_and!; [apply rtc_refl|done..].
    - eexists. split; [by eapply runs_point|]. by cbn. }
  eexists. split; [etrans; [exact R1|]; etrans; [exact R2|];
    etrans; [exact R3|]; etrans; [exact R4|]; etrans; [exact R5|];
    eapply runs_point; [exact G1|reflexivity]|].
  cbn. rewrite G3. done.
Qed.

(** Whenever nobody runs, the suspended coroutines are those that wait for an answer. *)
Lemma quiet_waiting L s k : quiet L s -> is_Some (pl_waiting s !! k) <-> k ∈ map snd L.
Proof.
  intros Hq. destruct L as [|[i k0] W]; cbn [quiet map snd] in *.
  - destruct Hq as (_ & _ & ->). rewrite lookup_empty, elem_of_nil. split; [by intros []|done].
  - destruct Hq as (_ & _ & m & -> & Hw & Hk0). rewrite elem_of_cons, lookup_insert_is_Some. split.
    + intros [->|[Hne Hs]]; [by left|right]. destruct (decide (k ∈ map snd W)) as [|Hn]; [done|].
      apply (waiting_fresh W m k Hw) in Hn. rewrite Hn in Hs. by destruct Hs.
    + intros [->|Hin]; [by left|]. destruct (decide (k0 = k)) as [->|Hne]; [by left|right]. split; [done|].
      destruct (m !! k) eqn:E; [by eexists|]. by apply (waiting_fresh W m k Hw) in E.
Qed.
Lemma deliver_all id0 L s :
  pipeline_inv id0 s -> pl_stack s = [] -> L = outstanding s ->
  exists s', runs (Done tt s) (Done tt s') /\ outstanding s' = [] /\ pl_stack s' = [] /\
    pl_results s' = pl_results s ++ map (fun x => (snd x, Got (snd x))) L.
Proof.
  revert s. induction L as [|[i k] W IH]; intros s Hr Hst HL.
  - exists s. split_and!; [apply rtc_refl|done..|by rewrite app_nil_r].
  - destruct (deliver_oldest id0 s i k W Hr Hst) as (s1 & R1 & Hst1 & HL1 & Hres1); [done|].
    destruct (IH s1) as (s2 & R2 & Ho & Hst2 & Hres2); [by eapply runs_inv|done..|].
    exists s2. split_and!; [by etrans|done..|]. rewrite Hres2, Hres1, <- app_assoc. done.
Qed.
Lemma pipeline_at_rest id s :
  in_s 32 id -> pipeline_inv id s -> pl_stack s = [] ->
  NoDup (map fst (outstanding s)) /\
  id + Zlen (pl_results s) + Zlen (outstanding s) = pl_correlation_id s /\ in_s 32 (pl_correlation_id s) /\
  (forall k, is_Some (pl_waiting s !! k) <-> k ∈ map snd (outstanding s)) /\
  exists s', runs (Done tt s) (Done tt s') /\ outstanding s' = [] /\ pl_stack s' = [] /\
    pl_results s' = pl_results s ++ map (fun x => (snd x, Got (snd x))) (outstanding s).
Proof.
  intros Hid Hi Hst. pose proof Hi as [Hp (_ & _ & _ & Hn & Hm)]. rewrite Hst in Hn. cbn in Hn.
  unfold phase in Hp. rewrite Hst in Hp. destruct Hp as (Hq & _ & Hc).
  pose proof (Zlen_nonneg (pl_results s)). pose proof (Zlen_nonneg (outstanding s)). split_and!.
  - rewrite Hc. apply NoDup_seqZ.
  - lia.
  - unfold in_s, INT32_MAX in *. lia.
  - intros k. by apply quiet_waiting.
  - by eapply deliver_all.
Qed.

(** C4: As long as the socket takes what is written at once, coroutines can use a connection
    in any interleaving: no lock is misused, a coroutine that has got an answer got the one to
    its own request, ids of outstanding requests differ, the counter of ids tells how many
    requests were sent, and whenever nobody runs exactly the coroutines with outstanding
    requests are suspended, and those requests will be answered, each to its own coroutine, in
    the order in which they were sent.  The one thing that can go wrong is the overflow of
    the counter, an [int32_t], which happens when a request has been sent for each id from the
    first to the greatest. *)
Theorem pipeline_in_order id r :
  in_s 32 id -> runs (Done tt (pipeline_start id)) r ->
  (exists s, runs (Done tt (pipeline_start id)) (Done tt s) /\ pipeline_step false (Done tt s) r /\ r = Fault FUB /\
    pl_correlation_id s = INT32_MAX /\ Zlen (pl_results s) + Zlen (outstanding s) = INT32_MAX - id + 1) \/
  exists s, r = Done tt s /\ Forall (fun x => snd x = Got (fst x)) (pl_results s) /\
    (pl_stack s = [] ->
     NoDup (map fst (outstanding s)) /\
     id + Zlen (pl_results s) + Zlen (outstanding s) = pl_correlation_id s /\ in_s 32 (pl_correlation_id s) /\
     (forall k, is_Some (pl_waiting s !! k) <-> k ∈ map snd (outstanding s)) /\
     exists s', runs (Done tt s) (Done tt s') /\ outstanding s' = [] /\ pl_stack s' = [] /\
       pl_results s' = pl_results s ++ map (fun x => (snd x, Got (snd x))) (outstanding s)).
Proof.
  intros Hid Hr. assert (pipeline_inv id (pipeline_start id)) as H0 by (apply pipeline_inv_start; unfold in_s, INT32_MAX in *; lia).
  destruct r as [[] s|f].
  { right. exists s. split; [done|]. pose proof (runs_inv _ _ _ H0 Hr) as Hi. split; [apply Hi|]. intros Hst.
    by apply pipeline_at_rest. }
  left. apply rtc_inv_r in Hr as [|([[] s|f'] & Hr & Hs)]; [done| |by inversion Hs].
  destruct (pipeline_inv_step id s (Fault f)) as [-> He]; [by eapply runs_inv|done|]. by exists s.
Qed.

(** Three coroutines, of which the first has its answer *)
Definition three_requests : outcome pipeline unit := Eval vm_compute in
  Done tt (mkPipeline 8 (mkMutex off (mkAsync [])) (mkMutex on (mkAsync [3%nat])) [(7, 3%nat)] [(6, 2%nat)]
    None (Some 2%nat) (<[3%nat := P_reading 7]> {[2%nat := P_header 6]}) [] [(1%nat, Got 1%nat)]).
Ltac evaluated := match goal with |- rtc _ ?x _ => let y := eval vm_compute in x in replace x with y by (vm_compute; reflexivity) end.
Ltac turn := eapply rtc_l; [eapply (pipeline_run _ _ false); [reflexivity|done]|evaluated].
Ltac spawned k := eapply rtc_l; [apply (pipeline_spawn _ _ k); [reflexivity|vm_compute; reflexivity]|evaluated].
Example pipeline_in_order_witness :
  (exists s, runs (Done tt (pipeline_start 5)) (Done tt s) /\ pipeline_step false (Done tt s) three_requests /\
    three_requests = Fault FUB /\
    pl_correlation_id s = INT32_MAX /\ Zlen (pl_results s) + Zlen (outstanding s) = INT32_MAX - 5 + 1) \/
  exists s, three_requests = Done tt s /\ Forall (fun x => snd x = Got (fst x)) (pl_results s) /\
    (pl_stack s = [] ->
     NoDup (map fst (outstanding s)) /\
     5 + Zlen (pl_results s) + Zlen (outstanding s) = pl_correlation_id s /\ in_s 32 (pl_correlation_id s) /\
     (forall k, is_Some (pl_waiting s !! k) <-> k ∈ map snd (outstanding s)) /\
     exists s', runs (Done tt s) (Done tt s') /\ outstanding s' = [] /\ pl_stack s' = [] /\
       pl_results s' = pl_results s ++ map (fun x => (snd x, Got (snd x))) (outstanding s)).
Proof.
  apply (pipeline_in_order 5); [unfold in_s; lia|]. cbv [three_requests].
  spawned 1%nat. do 5 turn. spawned 2%nat. do 4 turn. spawned 3%nat. do 4 turn.
  eapply rtc_l; [by eapply pipeline_answer|]. evaluated.
  eapply rtc_l; [by eapply pipeline_answer|]. evaluated.
  eapply rtc_l; [by eapply pipeline_readable|]. evaluated. do 4 turn.
  apply rtc_refl.
Defined.

(** ** With a full socket *)

Ltac simplified := do 2 (
  cbv [pipeline_start suspend_at continue_at set_id set_wlock set_rlock set_sent set_incoming set_blocked set_reader set_waiting
    set_stack set_results async_suspend];
  cbn -[lookup insert delete]).
Ltac resumed := unfold resume_task at 1; simplified;
  rewrite ?lookup_delete_ne by done; rewrite ?lookup_insert_ne by done; rewrite ?lookup_insert_eq; simplified.
Ltac count_up := try match goal with |- context [?i =? INT32_MAX] => replace (i =? INT32_MAX) with false by lia; simplified end.
Ltac go full := eapply rtc_l; [eapply (pipeline_run _ _ full); [reflexivity|done]|simplified; count_up; try resumed].
Ltac go_spawn k := eapply rtc_l; [apply (pipeline_spawn _ _ k); [reflexivity|simplified; by simplify_map_eq]|simplified].
Ltac go_resume step := eapply rtc_l; [eapply step; [reflexivity|reflexivity|..]; try done|simplified; resumed].
Ltac go_answer := eapply rtc_l; [by eapply pipeline_answer|simplified].

(** C5: The id is copied before the write lock is taken and counted up after the write.  Two
    requests, with the counter not about to overflow, of which the second is started while the socket does not take the first have the
    same id; the second is read for first, since the first's [unlock] runs it; and so, without
    an error, each of the two coroutines is given the answer to the other's request. *)
Theorem blocked_write_swaps id a b :
  a <> b -> id + 1 < INT32_MAX ->
  exists s1 s2, rtc (pipeline_step true) (Done tt (pipeline_start id)) (Done tt s1) /\
    outstanding s1 = [(id, a); (id, b)] /\
    rtc (pipeline_step true) (Done tt s1) (Done tt s2) /\
    pl_results s2 = [(b, Got a); (a, Got b)] /\
    pl_correlation_id s2 = id + 1 + 1 /\ pl_stack s2 = [] /\ outstanding s2 = [] /\ pl_waiting s2 = ∅.
Proof.
  intros Hab Hid. do 2 eexists. split.
  { go_spawn a. go false. go true. go_spawn b. go false. go_resume pipeline_writable. do 7 go false. apply rtc_refl. }
  split; [done|]. split.
  { go_answer. go_answer.
    go_resume pipeline_readable. go false. rewrite Z.eqb_refl. do 3 go false.
    go_resume pipeline_readable. go false. rewrite Z.eqb_refl. do 2 go false. apply rtc_refl. }
  split_and!; try done. cbn. apply map_eq. intros k.
  destruct (decide (k = a)) as [->|]; [by simplify_map_eq|]. destruct (decide (k = b)) as [->|]; by simplify_map_eq.
Qed.
Example blocked_write_swaps_witness :
  exists s1 s2, rtc (pipeline_step true) (Done tt (pipeline_start 5)) (Done tt s1) /\
    outstanding s1 = [(5, 1%nat); (5, 2%nat)] /\
    rtc (pipeline_step true) (Done tt s1) (Done tt s2) /\
    pl_results s2 = [(2%nat, Got 1%nat); (1%nat, Got 2%nat)] /\
    pl_correlation_id s2 = 7 /\ pl_stack s2 = [] /\ outstanding s2 = [] /\ pl_waiting s2 = ∅.
Proof. by apply (blocked_write_swaps 5 1 2); [|unfold INT32_MAX; lia]. Defined.
